(* ===== verification/_CoqProject ===== *)
-Q . S2P
Prelude.v
Mem.v
CString.v
FileSys.v
Console.v
Ports.v
Printf.v
Machine.v
Pic.v
Paging.v
Rtc.v
Idt.v
Pcb.v
Exec.v
Line.v
Syscall.v
Terminal.v
Quiet.v
Keyboard.v
Sched.v
Trap.v
Isolation.v
Boot.v
Types.v
User.v
Program.v
Cases.v
Support.v
Emulate.v
Reader.v
Clock.v
Cat.v
Ls.v
Shell.v
Hello.v
Counter.v
Syserr.v
Sigtest.v
Pingpong.v
Grep.v
Blink.v
Fish.v
Demo.v
Sessions.v
Hosted.v
