(* ===== verification/Prelude.v ===== *)
(** * A verification of the Linux-simulation kernel

    The program is a small teaching kernel for the 386 (src/student-distrib)
    with programs that run on it (src/syscalls, src/fish).  The kernel is booted by a
    multiboot loader, sets up descriptors, paging, devices and a read-only
    file system, and starts a shell.  It runs at most six programs, each in a
    4 MB page of its own at 128 MB, on three terminals.

    ** Parts, files and sources

    - Prelude.v: results of C code ([res]), the state monad ([ST], [wp]),
      machine integers ([u8] to [s32]), loops ([while]), arrays, and the
      automation ([Ltac], hints) of all files.
    - Mem.v: memory as a map from addresses to bytes, words, strings.
    - CString.v: the string and memory routines of lib.c.
    - FileSys.v: filesys.c on the image in memory, against an abstract
      directory ([abs_lookup]) and file ([file_content]).
    - Console.v, Printf.v: the screen of lib.c against a grid of characters
      with a cursor ([view], [shows]), and [printf] against the expansion of
      its format.
    - Ports.v: the wide port accesses and the saved interrupt flag of lib.h.
    - Machine.v: the record [kernel] of the variables of all C files.
    - Pic.v, Paging.v, Rtc.v, Idt.v: i8259.c, paging.c, rtc.c, idt_init.c.
    - Pcb.v: the process control blocks of syscall.h, at their addresses.
    - Exec.v: [execute] and [halt] of syscall.c.
    - Line.v: keyboard_buffer_edit of keyboard.c and the driver of terminal.c.
    - Syscall.v: the other system calls of syscall.c, against an abstract
      table of eight descriptors ([fdtab]).
    - Terminal.v: [terminal_init], [terminal_boot], [terminal_switch].
    - Quiet.v: what output, [execute] and terminals leave alone (class
      [Quiet]): the modifier keys and the masks of the controllers.
    - Keyboard.v: the interrupt handler of keyboard.c, against a state
      machine over the modifier keys ([decode]) and the US layout ([us_char]).
    - Sched.v: pit.c and sche.c, with the part of the scheduler that is
      switched off ([schedule_switch]).  Trap.v: the exceptions of idt_init.c.
    - Isolation.v: all of these as one operation of the kernel ([kcall]), the
      steps of kernel and programs ([kstep], [run]), and the invariant of the
      page tables over every run.
    - Boot.v: [entry] of kernel.c, with the drivers behind an interface
      (class [Device]) and the commands they send ([devices_on]).
    - Types.v: the range of every variable ([tty_typed], [kernel_typed]), kept
      from the entry point on (by the judgement [ok] of this file).
    - Cases.v: the test cases of lib.c, which nothing calls any more.
    - User.v: the stub of syscallasm.S and the library of ece391syscall.S;
      Support.v: the string routines of ece391support.c.  Emulate.v: the
      library of ece391emulate.c, which runs the programs on a host; the
      host is a record of operations ([host_ops]).
    - Program.v: what a program and those who execute it promise each other
      (class [Program], [launch], [returned]).  Reader.v: programs that ask
      for a line (class [Dialog]) and the system calls of a running program
      ([running]).  Clock.v: programs that wait for the clock.
    - Cat.v, Ls.v, Hello.v (with testprint), Counter.v, Syserr.v, Sigtest.v,
      Pingpong.v, Grep.v: the programs of these names in src/syscalls,
      stated against these interfaces.  Shell.v: ece391shell.c, proved for any
      program that keeps its promise.
    - Blink.v: blink.S and the memory routines of fish.c, against a list of
      blinking characters ([answer], [tick_all]).  Fish.v: fish.c.
    - Demo.v, Sessions.v: a concrete machine (a file system image, page
      tables, a shell) to which the theorems are applied.  Hosted.v: the
      same for the emulation, with a concrete host.

    ** How the code is translated

    A C function is a Rocq function of its name: on memory, on the console
    ([ST tty]) or on the kernel ([ST kernel]); the smaller definitions beside
    it are its loops and blocks.  A [fault] is what C gives no meaning to:
    an index outside an array, a call through a null pointer, a variable
    that was not assigned; and a loop that does not end.  Integers are
    [Z], cut to their width where the code can exceed it.  Port accesses are
    recorded in a trace; what a device answers is an argument.  A pointer is
    the physical address it is translated to; only in Blink.v and Fish.v,
    where the screen is reached through a page of the program, addresses are
    virtual and go through the tables.  Local variables whose address
    is passed on lie at addresses of a [frame].  A function that waits for
    an interrupt is split into the code before its loop and one test of the
    condition.  Control that leaves for user mode or for the stack of a
    parent is a result ([exec_result], [halt_result], [outcome], [sysret]).
    The processor translates with the tables of the last load of cr3
    ([mmu]).

    A loop that is not structural runs by [while], for at most 2^32 steps,
    and is a fault ([Diverges]) after them: the counters of the code have 32
    bits, and every theorem that yields [Ok] shows that its loops end
    earlier ([while_rule], [while_index] ask for a decreasing measure).

    ** What is proved

    - Programs: [execute] starts a program in a free slot with its page, its
      image, its block and its arguments ([execute_starts_program]), refuses
      names, files and calls it cannot run, with no slot taken and no page
      mapped ([execute_rejects]), and is resumed
      when the program halts ([execute_halt_round_trip]); a task that dies
      by an exception ends the same way ([exception_ends_task]).
    - [cat_command], [ls_command]: a whole command, from the [execute] of the
      shell through the system calls of the program to its return.
      [shell_session]: a turn of the shell, from the scan codes of a typed
      line to the next prompt, for any program that keeps its promise;
      [shell_dialog]: the same for a program that asks a question.
    - [syserr_passes]: every system call that the test program makes with a
      bad argument is refused.  [sigtest_faults]: no handler of a signal can
      be installed, and a program that stores through a null pointer is ended
      by the page fault.
      [counter_rejects]: what counter answers.  [pingpong_plays],
      [fish_swims]: programs driven by the clock, for any number of ticks.
    - [grep_prints_matches]: the search of a file prints the lines that hold
      the argument, wherever the buffer cuts them.
    - [blink_refines_list]: the assembly routines of fish keep a linked list
      in memory that answers as a list does.
    - Isolation: in every state of a run a program reaches, and can change,
      its own page and video pages only ([programs_are_isolated]).
    - Types: in every state of a run every variable is in its range
      ([variables_stay_typed]).  In both theorems a run consists of calls that
      come to their end and write to none of the kernel's own variables
      through a pointer; the code checks no pointer, so this is an assumption
      on what programs pass.
    - Files: lookup, reads, directory listing and descriptors refine their
      abstract counterparts; reading to the end ends.  [open] does so on every
      return path ([open_refines_table]).
    - Console: [putc], [backspace], [printf], [terminal_write] and the line
      editor show what the grid says; what is typed is what is read
      ([typed_line_is_read]); every scan code does what the machine of a US
      keyboard says ([keyboard_refines_state_machine]); terminals can be left
      and come back to, with what is restored and what is not
      ([terminal_switch_round_trip]).
    - Drivers and boot: each handler at its vector ([idt_gates]), the exact
      translation after [init_paging] ([init_paging_maps_kernel]), and
      [entry_starts_shell] from the loader to the shell, with the masks of the
      controllers and the commands the devices have got.
    - Strings: each routine computes its mathematical counterpart.
    - Emulation: a command is split into its words for the child that runs
      it ([emulated_execute]), the words are joined again
      ([emulated_roundtrip]), and a directory is read name by name
      ([emulated_directory]).

    Where the code does less than it means to, the theorem states what it
    does: Enter on a full line, [close] of a closed descriptor, the divider
    of the timer, the search for the next task, a switch of tasks that
    would not note the new one ([schedule_would_switch]).

    ** What is not modelled, and why

    - mouse_init: its source is not in the repository; it is a parameter of
      Boot.v with the interface [Device], and of Types.v, where it is assumed
      to keep the types of the variables.
    - Where variables lie in memory: they are fields of records, so an access
      through a pointer to one of them, or past the end of one array into the
      next, is not seen; the latter is a fault, which ends the run.  Each has
      the width of its definition, though some declarations differ
      ([kb_buffer_position] in lib.c).
    - The direction flag, which [memmove] leaves set after a backward copy.
    - boot.S, x86_desc.S and interruptasm.S: they set up registers and
      static tables and save registers around the C handlers.
    - The operations of a host (fork, readdir, mmap and the like): they are
      not in the repository; Emulate.v takes them as arguments.
    - src/fish/ece391support.c: a copy of the first routines of
      src/syscalls/ece391support.c, which User.v and Support.v translate.
    - The other fields of the task state segment: the kernel sets its stack
      and its local descriptor table only.

    All code of the C files is translated.  Not stated is what grep and the
    first test case print over a whole directory: the search of one file is
    ([grep_prints_matches]) and the reads of a directory are
    ([directory_listing]), but between two of these reads grep opens other
    files, which moves the position in the directory, one variable for all
    descriptors, and waits for the clock when it comes to the file rtc. *)

From Stdlib Require Import ZArith Zbitwise Lia String Ascii.
From stdpp Require Import base numbers list option.

Local Open Scope Z_scope.

(** ** Results of C code

    The kernel is C: a step of it either yields a value, or does something
    the language gives no meaning to (an index outside an array, a read
    through a null pointer), or never ends.  [res] keeps the three apart. *)

Inductive fault :=
  | OutOfBounds   (** an array index outside the array *)
  | NullDeref     (** a load or a call through a null pointer *)
  | PageFault     (** an access to a page that is not mapped *)
  | Uninit        (** a use of a variable that was never assigned *)
  | Diverges.     (** a loop that never ends *)

Inductive res (A : Type) :=
  | Ok (a : A)
  | Err (f : fault).
Arguments Ok {A} a.
Arguments Err {A} f.

#[export] Instance fault_eq_dec : EqDecision fault.
Proof. solve_decision. Defined.

(** Sequencing of results; a fault ends the computation. *)
Declare Scope res_scope.
Delimit Scope res_scope with res.
Notation "'let*' x := r 'in' k" :=
  (match r with Ok x => k | Err e => Err e end)
  (at level 10, x pattern, r at level 100, k at level 200,
   format "'[v' 'let*'  x  :=  r  'in' '/' k ']'") : res_scope.
#[global] Open Scope res_scope.

(** Code that also changes the global variables of the kernel: a state and
    error monad, generic in the state. *)

Definition ST (S A : Type) : Type := S -> res (A * S).

#[export] Instance st_ret {S} : MRet (ST S) := fun _ a s => Ok (a, s).
#[export] Instance st_bind {S} : MBind (ST S) := fun _ _ f m s =>
  match m s with Ok (a, s') => f a s' | Err e => Err e end.

Definition gets {S A} (f : S -> A) : ST S A := fun s => Ok (f s, s).
Definition modify {S} (f : S -> S) : ST S unit := fun s => Ok (tt, f s).
Definition fail {S A} (e : fault) : ST S A := fun _ => Err e.
Definition liftR {S A} (r : res A) : ST S A := fun s =>
  match r with Ok a => Ok (a, s) | Err e => Err e end.

(** [when b c] is [if (b) c;]. *)
Definition when {S} (b : bool) (c : ST S unit) : ST S unit :=
  if b then c else mret tt.

(** Total correctness: [c] run from [s] has no fault, ends, and [Q] holds of
    its value and of the state it leaves. *)
Definition wp {S A} (c : ST S A) (Q : A -> S -> Prop) (s : S) : Prop :=
  match c s with Ok (a, s') => Q a s' | Err _ => False end.

Lemma wp_ok {S A} (c : ST S A) Q s a s' :
  c s = Ok (a, s') -> Q a s' -> wp c Q s.
Proof. unfold wp. intros ->. done. Qed.

Lemma wp_inv {S A} (c : ST S A) Q s :
  wp c Q s -> exists a s', c s = Ok (a, s') /\ Q a s'.
Proof. unfold wp. destruct (c s) as [[a s']|]; [eauto | done]. Qed.

Lemma wp_ret {S A} (a : A) (Q : A -> S -> Prop) s : Q a s -> wp (mret a) Q s.
Proof. done. Qed.

Lemma wp_bind {S A B} (c : ST S A) (k : A -> ST S B) Q s :
  wp c (fun a s' => wp (k a) Q s') s -> wp (c ≫= k) Q s.
Proof.
  unfold wp, mbind, st_bind. destruct (c s) as [[a s']|]; done.
Qed.

Lemma wp_gets {S A} (f : S -> A) (Q : A -> S -> Prop) s :
  Q (f s) s -> wp (gets f) Q s.
Proof. done. Qed.

Lemma wp_modify {S} (f : S -> S) (Q : unit -> S -> Prop) s :
  Q tt (f s) -> wp (modify f) Q s.
Proof. done. Qed.

Lemma wp_liftR {S A} (r : res A) a (Q : A -> S -> Prop) s :
  r = Ok a -> Q a s -> wp (liftR r) Q s.
Proof. intros ->. done. Qed.

Lemma wp_mono {S A} (c : ST S A) (P Q : A -> S -> Prop) s :
  wp c P s -> (forall a s', P a s' -> Q a s') -> wp c Q s.
Proof. unfold wp. destruct (c s) as [[a s']|]; auto. Qed.

Lemma bind_ok {S A B} (c : ST S A) (k : A -> ST S B) s a s' :
  c s = Ok (a, s') -> (c ≫= k) s = k a s'.
Proof. unfold mbind, st_bind. intros ->. done. Qed.

Lemma bind_err {S A B} (c : ST S A) (k : A -> ST S B) s e :
  c s = Err e -> (c ≫= k) s = Err e.
Proof. unfold mbind, st_bind. intros ->. done. Qed.

Lemma bind_assoc {S A B C} (c : ST S A) (f : A -> ST S B) (g : B -> ST S C) s :
  ((c ≫= f) ≫= g) s = (c ≫= (fun a => f a ≫= g)) s.
Proof. unfold mbind, st_bind. destruct (c s) as [[a s']|]; done. Qed.

Lemma bind_ext {S A B} (c : ST S A) (f g : A -> ST S B) s :
  (forall a s', f a s' = g a s') -> (c ≫= f) s = (c ≫= g) s.
Proof. intros H. unfold mbind, st_bind. destruct (c s) as [[a s']|]; done. Qed.

Lemma bind_inv {S A B} (c : ST S A) (k : A -> ST S B) s b s' :
  (c ≫= k) s = Ok (b, s') -> exists a s1, c s = Ok (a, s1) /\ k a s1 = Ok (b, s').
Proof. unfold mbind, st_bind. destruct (c s) as [[a s1]|]; [eauto | done]. Qed.

Lemma bind_unit {S} (c : ST S unit) s : (c ;; mret tt) s = c s.
Proof. unfold mbind, st_bind. by destruct (c s) as [[[] s']|]. Qed.

(** One step of straight-line code, or all of them. *)
Ltac wstep :=
  match goal with
  | |- wp (mbind _ _) _ _ => apply wp_bind
  | |- wp (modify _) _ _ => apply wp_modify
  | |- wp (gets _) _ _ => apply wp_gets
  | |- wp (mret _) _ _ => apply wp_ret
  end; cbv beta iota.
Ltac wsteps := cbv beta iota; repeat wstep.

(** One step of code applied to its state. *)
Ltac bstep := erewrite bind_ok by reflexivity; cbv beta iota.

(** Running straight-line code and splitting on its conditions. *)
Ltac run :=
  unfold wp, mbind, st_bind, mret, st_ret, gets, modify, when, liftR; cbn.
Ltac branch :=
  match goal with
  | |- context [if ?b then _ else _] => destruct b eqn:?; run
  end.

(** ** Machine integers

    Values are integers; a conversion to a machine type is written out. *)

Definition u8 (x : Z) : Z := x mod 2 ^ 8.
Definition u16 (x : Z) : Z := x mod 2 ^ 16.
Definition u32 (x : Z) : Z := x mod 2 ^ 32.
Definition s8 (x : Z) : Z := (x + 2 ^ 7) mod 2 ^ 8 - 2 ^ 7.
Definition s32 (x : Z) : Z := (x + 2 ^ 31) mod 2 ^ 32 - 2 ^ 31.

(** Linear arithmetic that also looks through [/] and [mod]. *)
Ltac lia_mod := Z.to_euclidean_division_equations; lia.

Lemma u8_range x : 0 <= u8 x < 256.
Proof. unfold u8. lia_mod. Qed.
Lemma u32_range x : 0 <= u32 x < 4294967296.
Proof. unfold u32. lia_mod. Qed.
Lemma s32_range x : -2147483648 <= s32 x < 2147483648.
Proof. unfold s32. lia_mod. Qed.
Lemma u8_small x : 0 <= x < 256 -> u8 x = x.
Proof. intros. unfold u8. apply Z.mod_small. lia. Qed.
Lemma u16_small x : 0 <= x < 65536 -> u16 x = x.
Proof. intros. unfold u16. apply Z.mod_small. lia. Qed.
Lemma u32_small x : 0 <= x < 4294967296 -> u32 x = x.
Proof. intros. unfold u32. apply Z.mod_small. lia. Qed.
Lemma s32_small x : -2147483648 <= x < 2147483648 -> s32 x = x.
Proof. intros. unfold s32. rewrite Z.mod_small; lia. Qed.
Lemma s8_small x : -128 <= x < 128 -> s8 x = x.
Proof. intros. unfold s8. rewrite Z.mod_small; lia. Qed.
Lemma u8_u8 x : u8 (u8 x) = u8 x.
Proof. apply u8_small, u8_range. Qed.
Lemma u32_u32 x : u32 (u32 x) = u32 x.
Proof. apply u32_small, u32_range. Qed.
Lemma s32_u32 x : s32 (u32 x) = s32 x.
Proof. unfold s32, u32. lia_mod. Qed.
Lemma u32_s32 x : u32 (s32 x) = u32 x.
Proof. unfold s32, u32. lia_mod. Qed.

Create Rewrite HintDb cint.
#[export] Hint Rewrite u8_u8 u32_u32 s32_u32 u32_s32 : cint.
#[export] Hint Rewrite u8_small u16_small u32_small s32_small s8_small
  using lia : cint.

(** [cint] removes the conversions that change nothing. *)
Ltac cint := autorewrite with cint in *.

(** Bits of a machine word. *)

Lemma testbit_high a n i : 0 <= a < 2 ^ n -> n <= i -> Z.testbit a i = false.
Proof.
  intros Ha Hi. destruct (Z.eq_dec a 0) as [->|]; [apply Z.bits_0|].
  apply Z.bits_above_log2; [lia|].
  apply Z.lt_le_trans with n; [|lia].
  apply Z.log2_lt_pow2; lia.
Qed.

(** Fields packed side by side: [lor] of disjoint fields is their sum. *)
Lemma lor_fields a k b :
  0 <= k -> 0 <= b < 2 ^ k -> Z.lor (a * 2 ^ k) b = a * 2 ^ k + b.
Proof.
  intros Hk Hb. rewrite <-(Z.add_lor_land (a * 2 ^ k) b).
  enough (Z.land (a * 2 ^ k) b = 0) by lia.
  apply Z.bits_inj. intros i. rewrite Z.land_spec, Z.bits_0.
  destruct (Z.lt_ge_cases i k).
  - by rewrite Z.mul_pow2_bits_low.
  - by rewrite (testbit_high b k), andb_false_r.
Qed.

(** Clearing the low [k] bits. *)
Lemma land_high x k :
  0 <= k <= 32 -> 0 <= x < 2 ^ 32 ->
  Z.land x (2 ^ 32 - 2 ^ k) = x / 2 ^ k * 2 ^ k.
Proof.
  intros Hk Hx. apply Z.bits_inj. intros i.
  destruct (Z.lt_ge_cases i 0); [by rewrite !Z.testbit_neg_r|].
  rewrite Z.land_spec.
  replace (2 ^ 32 - 2 ^ k) with (Z.ones (32 - k) * 2 ^ k).
  2:{ rewrite Z.ones_equiv. replace (2 ^ 32) with (2 ^ (32 - k) * 2 ^ k) by
        (rewrite <-Z.pow_add_r by lia; f_equal; lia). lia. }
  destruct (Z.lt_ge_cases i k).
  - rewrite !Z.mul_pow2_bits_low by lia. apply andb_false_r.
  - rewrite !Z.mul_pow2_bits by lia. rewrite Z.div_pow2_bits by lia.
    replace (i - k + k) with i by lia.
    destruct (Z.lt_ge_cases i 32).
    + by rewrite Z.ones_spec_low, andb_true_r by lia.
    + by rewrite (testbit_high x 32) by lia.
Qed.

(** ** Loops

    A C loop is a step function: [inl] carries the variables of the next
    iteration, [inr] the result of the loop.  A loop that has not ended
    after 2^32 steps has exhausted its 32-bit counter: it never ends.  The
    bound is run as [chunk] times [chunk] steps, so that evaluation needs no
    unary number of that size. *)

Definition chunk : nat := Z.to_nat (2 ^ 16).

Section Loop.
Context {St R : Type} (step : St -> St + res R).

Fixpoint iter_nat (n : nat) (s : St) : St + res R :=
  match n with
  | O => inl s
  | S n => match step s with inl s' => iter_nat n s' | inr r => inr r end
  end.

Fixpoint iter_chunks (n : nat) (s : St) : St + res R :=
  match n with
  | O => inl s
  | S n =>
      match iter_nat chunk s with
      | inl s' => iter_chunks n s'
      | inr r => inr r
      end
  end.

Definition while (s : St) : res R :=
  match iter_chunks chunk s with inl _ => Err Diverges | inr r => r end.

Lemma iter_nat_add n k s :
  iter_nat (n + k) s =
  match iter_nat n s with inl s' => iter_nat k s' | inr r => inr r end.
Proof.
  revert s. induction n as [|n IH]; intros s; simpl; [done|].
  destruct (step s); [apply IH | done].
Qed.

Lemma iter_chunks_nat n s : iter_chunks n s = iter_nat (n * chunk) s.
Proof.
  revert s. induction n as [|n IH]; intros s; [done|].
  cbn [iter_chunks]. rewrite Nat.mul_succ_l, Nat.add_comm, iter_nat_add.
  destruct (iter_nat chunk s); [apply IH | done].
Qed.

(** The loop rule: an invariant and a measure that decreases give a loop
    that ends, with the postcondition of its last step. *)
Lemma while_index (I : Z -> St -> Prop) (Q : res R -> Prop) n s :
  I n s ->
  n < 4294967296 ->
  (forall n s, I n s ->
     match step s with
     | inl s' => exists n', 0 <= n' < n /\ I n' s'
     | inr r => Q r
     end) ->
  Q (while s).
Proof.
  intros HI Hn Hstep.
  assert (Hrun : forall j s n, I n s -> n < Z.of_nat j ->
    exists r, iter_nat j s = inr r /\ Q r \/ (j = 0%nat /\ n < 0)).
  { clear s n HI Hn. induction j as [|j IH]; intros s n HI Hn.
    - exists (Err Diverges). right. lia.
    - simpl. specialize (Hstep n s HI). destruct (step s) as [s'|r].
      + destruct Hstep as (n' & Hlt & HI').
        destruct (IH s' n' HI' ltac:(lia)) as [r [[? ?]|[-> ?]]]; [|lia].
        exists r. left. done.
      + exists r. left. done. }
  assert (Hc : Z.of_nat (chunk * chunk) = 4294967296)
    by (unfold chunk; rewrite Nat2Z.inj_mul, Z2Nat.id; done).
  unfold while. rewrite iter_chunks_nat.
  destruct (Hrun (chunk * chunk)%nat s n HI) as [r [[-> HQ]|[H0 _]]].
  - rewrite Hc. lia.
  - done.
  - rewrite H0 in Hc. done.
Qed.

(** The rule with the bound computed from the state. *)
Lemma while_rule (I : St -> Prop) (mu : St -> Z) (Q : res R -> Prop) s :
  I s ->
  mu s < 4294967296 ->
  (forall s, I s ->
     match step s with
     | inl s' => I s' /\ 0 <= mu s' < mu s
     | inr r => Q r
     end) ->
  Q (while s).
Proof.
  intros HI Hmu Hstep. apply (while_index (fun n s => I s /\ mu s = n) Q (mu s)); [done | done|].
  intros n s1 [HI1 <-]. specialize (Hstep s1 HI1). destruct (step s1) as [s'|r]; [|done].
  exists (mu s'). tauto.
Qed.

(** What every round keeps holds of the value, when there is one. *)
Lemma while_keeps (I : St -> Prop) (Q : R -> Prop) s r :
  I s ->
  (forall s, I s ->
     match step s with
     | inl s' => I s'
     | inr (Ok r) => Q r
     | inr (Err _) => True
     end) ->
  while s = Ok r -> Q r.
Proof.
  intros HI Hstep. unfold while. rewrite iter_chunks_nat. generalize (chunk * chunk)%nat as n.
  intros n. revert s HI. induction n as [|n IH]; intros s HI Hr; [done|]. cbn in Hr.
  specialize (Hstep s HI). destruct (step s) as [s'|r']; [by apply (IH s')|]. by subst r'.
Qed.
End Loop.

(** Proofs go through [while_rule]; conversion never runs a loop. *)
#[global] Opaque while chunk.

(** [for (i = a; i < b; i++) body] over the state of the kernel. *)
Fixpoint for_up {S} (n : nat) (i : Z) (body : Z -> ST S unit) : ST S unit :=
  match n with
  | O => mret tt
  | S n => body i ;; for_up n (i + 1) body
  end.

Definition for_range {S} (a b : Z) (body : Z -> ST S unit) : ST S unit :=
  for_up (Z.to_nat (b - a)) a body.

Lemma wp_for {S} (Inv : Z -> S -> Prop) a b (body : Z -> ST S unit) Q s :
  a <= b ->
  Inv a s ->
  (forall i s, a <= i < b -> Inv i s -> wp (body i) (fun _ => Inv (i + 1)) s) ->
  (forall s, Inv b s -> Q tt s) ->
  wp (for_range a b body) Q s.
Proof.
  intros Hab HI Hbody HQ. unfold for_range.
  remember (Z.to_nat (b - a)) as n eqn:Hn.
  assert (Hcur : exists j, a <= j /\ j + Z.of_nat n = b /\ Inv j s /\ j = a)
    by (exists a; lia || (repeat split; lia || done)).
  destruct Hcur as (j & Hj & Hjn & HIj & Heq). rewrite <-Heq.
  clear HI Heq Hn. revert j s Hj Hjn HIj.
  induction n as [|n IH]; intros j s Hj Hjn HIj; simpl for_up.
  - apply wp_ret, HQ. by replace b with j by lia.
  - apply wp_bind. eapply wp_mono; [apply Hbody; [lia | done]|].
    intros [] s' HI'. apply IH; [lia | lia | done].
Qed.

(** A decidable property either holds up to [n] or has a first failure. *)
Lemma first_failure (P : Z -> Prop) `{forall k, Decision (P k)} n :
  0 <= n ->
  (forall k, 0 <= k < n -> P k) \/
  exists k, 0 <= k < n /\ ~ P k /\ forall j, 0 <= j < k -> P j.
Proof.
  intros Hn. pattern n. apply natlike_ind; [left; lia | | done].
  intros x Hx [Hall|(k & Hk & Hf & Hb)].
  - destruct (decide (P x)).
    + left. intros k Hk. destruct (decide (k = x)) as [->|]; [done|].
      apply Hall. lia.
    + right. exists x. repeat split; try lia; done.
  - right. exists k. repeat split; try lia; done.
Qed.

(** ** Arrays

    A C array of the kernel is a list; an index outside it is a fault. *)

Definition aget {A} (l : list A) (i : Z) : res A :=
  if decide (0 <= i) then
    match l !! Z.to_nat i with Some x => Ok x | None => Err OutOfBounds end
  else Err OutOfBounds.

Definition aset {A} (l : list A) (i : Z) (x : A) : res (list A) :=
  if decide (0 <= i < Z.of_nat (List.length l))
  then Ok (<[Z.to_nat i := x]> l) else Err OutOfBounds.

(** The element at [i], for use in statements ([d] outside the array). *)
Definition anth {A} (d : A) (l : list A) (i : Z) : A :=
  nth (Z.to_nat i) l d.

Abbreviation zlen l := (Z.of_nat (List.length l)).

Lemma aget_ok {A} (d : A) l i :
  0 <= i < zlen l -> aget l i = Ok (anth d l i).
Proof.
  intros Hi. unfold aget, anth. rewrite decide_True by lia.
  destruct (lookup_lt_is_Some_2 l (Z.to_nat i)) as [x Hx]; [lia|].
  rewrite Hx. by rewrite (nth_lookup_Some _ _ _ _ Hx).
Qed.

Lemma aset_ok {A} (l : list A) i x :
  0 <= i < zlen l -> aset l i x = Ok (<[Z.to_nat i := x]> l).
Proof. intros. unfold aset. by rewrite decide_True. Qed.

Lemma aset_oob {A} (l : list A) i x :
  ~ (0 <= i < zlen l) -> aset l i x = Err OutOfBounds.
Proof. intros. unfold aset. by rewrite decide_False. Qed.

Lemma anth_insert {A} (d : A) l i j x :
  0 <= i < zlen l -> 0 <= j ->
  anth d (<[Z.to_nat i := x]> l) j = if decide (i = j) then x else anth d l j.
Proof.
  intros Hi Hj. unfold anth. rewrite !nth_lookup.
  destruct (decide (i = j)) as [->|Hne].
  - rewrite list_lookup_insert_eq by lia. done.
  - rewrite list_lookup_insert_ne by lia. done.
Qed.

Lemma anth_eq {A} (d : A) l1 l2 :
  List.length l1 = List.length l2 ->
  (forall i, 0 <= i < zlen l1 -> anth d l1 i = anth d l2 i) -> l1 = l2.
Proof.
  intros Hlen Heq. apply (nth_ext _ _ d d Hlen). intros n Hn.
  specialize (Heq (Z.of_nat n) ltac:(lia)). unfold anth in Heq.
  by rewrite Nat2Z.id in Heq.
Qed.

Lemma anth_app {A} (d : A) l1 l2 i :
  0 <= i ->
  anth d (l1 ++ l2) i =
  if decide (i < zlen l1) then anth d l1 i else anth d l2 (i - zlen l1).
Proof.
  intros Hi. unfold anth. case_decide.
  - apply app_nth1. lia.
  - rewrite app_nth2 by lia. f_equal. lia.
Qed.

Lemma anth_replicate {A} (d x : A) n i :
  0 <= i < Z.of_nat n -> anth d (replicate n x) i = x.
Proof.
  intros. unfold anth. rewrite nth_lookup, lookup_replicate_2 by lia. done.
Qed.

(** ** Loops over values *)

(** [for (i = a; i < b; i++)] with a body that only updates values. *)
Fixpoint forz_n {A} (n : nat) (i : Z) (f : Z -> A -> A) (x : A) : A :=
  match n with O => x | S n => forz_n n (i + 1) f (f i x) end.
Definition forz {A} (a b : Z) (f : Z -> A -> A) (x : A) : A :=
  forz_n (Z.to_nat (b - a)) a f x.

Lemma forz_inv {A} (I : Z -> A -> Prop) a b f (x : A) :
  a <= b -> I a x ->
  (forall i y, a <= i < b -> I i y -> I (i + 1) (f i y)) ->
  I b (forz a b f x).
Proof.
  intros Hab HI Hstep. unfold forz.
  remember (Z.to_nat (b - a)) as n eqn:Hn.
  assert (Hj : exists j, a <= j /\ j + Z.of_nat n = b /\ I j x /\ j = a)
    by (exists a; repeat split; done || lia).
  destruct Hj as (j & Hj & Hjb & HIj & Heq). rewrite <-Heq. clear HI Heq Hn.
  revert j x Hj Hjb HIj. induction n as [|n IH]; intros j x Hj Hjb HIj; simpl.
  - by replace b with j by lia.
  - apply IH; [lia | lia |]. apply Hstep; [lia | done].
Qed.

(** A loop that writes every element of an array once. *)
Lemma forz_insert (g : Z -> Z) n l :
  zlen l = n -> 
  forz 0 n (fun i l => <[Z.to_nat i := g i]> l) l
  = map (fun k => g (Z.of_nat k)) (seq 0 (List.length l)).
Proof.
  intros Hn.
  destruct (forz_inv (fun i l' => zlen l' = n /\
      forall j, 0 <= j < i -> anth 0 l' j = g j) 0 n
      (fun i l => <[Z.to_nat i := g i]> l) l) as [Hl Hg]; [lia | | |].
  - split; [done | lia].
  - intros i l' Hi [Hl' Hg]. rewrite length_insert. split; [done|].
    intros j Hj. rewrite anth_insert by lia. case_decide; [by subst|].
    apply Hg. lia.
  - apply (anth_eq 0).
    + rewrite length_map, length_seq. lia.
    + intros j Hj. rewrite Hg by lia. unfold anth.
      set (h := fun k => g (Z.of_nat k)).
      rewrite (nth_indep _ 0 (h 0%nat)) by (rewrite length_map, length_seq; lia).
      rewrite map_nth, seq_nth by lia. unfold h. f_equal. lia.
Qed.

Lemma zero_array n l :
  zlen l = n ->
  forz 0 n (fun i l => <[Z.to_nat i := 0]> l) l = replicate (List.length l) 0.
Proof.
  intros Hn. rewrite (forz_insert (fun _ => 0)) by done.
  generalize (List.length l) as k. clear. intros k.
  generalize 0%nat as b. induction k as [|k IH]; intros b; simpl; [done|].
  by rewrite IH.
Qed.

(** A loop that moves an array [n] places to the left. *)
Lemma shift_left (c : Z -> bool) n N l :
  zlen l = N -> 0 <= n <= N ->
  (forall i, 0 <= i < N -> c i = (i + n <? N)) ->
  forz 0 N (fun i l =>
    <[Z.to_nat i := if c i then anth 0 l (i + n) else 0]> l) l =
  drop (Z.to_nat n) l ++ replicate (Z.to_nat n) 0.
Proof.
  intros Hl Hn Hc.
  set (f := fun i l => <[Z.to_nat i := if c i then anth 0 l (i + n) else 0]> l).
  assert (Hsp : zlen (forz 0 N f l) = N /\ forall j, 0 <= j < N ->
    anth 0 (forz 0 N f l) j =
    if j <? N then if c j then anth 0 l (j + n) else 0 else anth 0 l j).
  { apply (forz_inv (fun i l' => zlen l' = N /\ forall j, 0 <= j < N ->
      anth 0 l' j = if j <? i then if c j then anth 0 l (j + n) else 0
                    else anth 0 l j)); [lia | |].
    - split; [done|]. intros j Hj. case_match; [lia | done].
    - intros i l' Hi [Hl' Hg]. unfold f. rewrite length_insert. split; [done|].
      intros j Hj. rewrite anth_insert by lia. case_decide.
      + subst j. rewrite (proj2 (Z.ltb_lt i (i + 1))) by lia.
        case_match eqn:E; [|done]. rewrite Hc in E by lia.
        rewrite Hg by lia. rewrite (proj2 (Z.ltb_ge _ _)) by lia. done.
      + rewrite Hg by done. repeat case_match; lia || done. }
  destruct Hsp as [Hl' Hsp]. apply (anth_eq 0).
  - rewrite length_app, length_drop, length_replicate. lia.
  - intros j Hj. rewrite Hsp, Hc, anth_app, length_drop by lia.
    repeat case_match; try lia.
    + unfold anth. rewrite !nth_lookup, lookup_drop. do 2 f_equal. lia.
    + by rewrite anth_replicate by lia.
Qed.

(** ** Character constants and string literals *)

Definition chr (c : ascii) : Z := Z.of_N (N_of_ascii c).
Definition bytes (s : string) : list Z := map chr (list_ascii_of_string s).

Arguments chr c%_char.
Arguments bytes s%_string.

Definition NUL : Z := 0.
Definition LF : Z := 10.
Definition CR : Z := 13.
Definition SP : Z := 32.

(** ** Code that keeps an invariant *)

(** From a state in [T], the code ends in a state in [T] with a value in
    [Q], or not at all. *)
Definition ok {S A} (T : S -> Prop) (c : ST S A) (Q : A -> Prop) : Prop :=
  forall s a s', T s -> c s = Ok (a, s') -> T s' /\ Q a.

Abbreviation any := (fun _ => True).

Section Rules.
Context {S : Type} (T : S -> Prop).

Lemma ok_ret {A} (a : A) (Q : A -> Prop) : Q a -> ok T (mret a) Q.
Proof. intros Hq s b s' Hs H. by injection H as <- <-. Qed.

Lemma ok_bind {A B} (c : ST S A) (f : A -> ST S B) (P : A -> Prop) Q :
  ok T c P -> (forall a, P a -> ok T (f a) Q) -> ok T (c ≫= f) Q.
Proof.
  intros Hc Hf s b s' Hs H. apply bind_inv in H as (a & s1 & H1 & H2).
  destruct (Hc _ _ _ Hs H1) as [Hs1 Ha]. by apply (Hf a Ha s1).
Qed.

Lemma ok_weaken {A} (c : ST S A) (P Q : A -> Prop) : ok T c P -> (forall a, P a -> Q a) -> ok T c Q.
Proof. intros Hc HQ s a s' Hs H. destruct (Hc _ _ _ Hs H). auto. Qed.

Lemma ok_state {A} (c : ST S A) (Q : A -> Prop) s a s' : ok T c Q -> T s -> c s = Ok (a, s') -> T s'.
Proof. intros Hc Hs H. by destruct (Hc _ _ _ Hs H). Qed.

Lemma ok_any {A} (c : ST S A) (P : A -> Prop) : ok T c P -> ok T c any.
Proof. intros Hc. by eapply ok_weaken. Qed.

Lemma ok_gets {A} (f : S -> A) : ok T (gets f) (fun v => exists s, T s /\ v = f s).
Proof. intros s a s' Hs H. injection H as <- <-. split; [done|]. by exists s. Qed.

Lemma ok_modify f : (forall s, T s -> T (f s)) -> ok T (modify f) any.
Proof. intros Hf s a s' Hs H. injection H as <- <-. split; [by apply Hf | done]. Qed.

Lemma ok_fail {A} e (Q : A -> Prop) : ok T (fail e) Q.
Proof. done. Qed.

Lemma ok_liftR {A} (r : res A) : ok T (liftR r) (fun a => r = Ok a).
Proof. intros s a s' Hs H. unfold liftR in H. destruct r; [|done]. by injection H as <- <-. Qed.

Lemma ok_liftR_at {A} (f : S -> res A) : ok T (fun s => liftR (f s) s) (fun a => exists s, T s /\ f s = Ok a).
Proof. intros s a s' Hs H. destruct (ok_liftR (f s) s a s' Hs H). split; [done|]. by exists s. Qed.

Lemma ok_when b c : ok T c any -> ok T (when b c) any.
Proof. intros Hc. destruct b; [done | by apply ok_ret]. Qed.
End Rules.

(** Loops whose state contains that of the code. *)
Lemma ok_while {S St A} (T : S -> Prop) (step : St -> St + res (A * S)) (I : St -> Prop) s0 :
  (forall t, T t -> I (s0 t)) ->
  (forall st, I st -> match step st with
     | inl st' => I st'
     | inr (Ok (_, t)) => T t
     | inr (Err _) => True
     end) ->
  ok T (fun t => while step (s0 t)) any.
Proof.
  intros H0 Hstep t a t' Ht H. split; [|done]. change (T (snd (a, t'))). revert H.
  apply (while_keeps _ I (fun r => T (snd r))); [by apply H0|].
  intros st Hst. specialize (Hstep st Hst). by destruct (step st) as [|[[]|]].
Qed.

Lemma ok_for {S} (T : S -> Prop) n : forall i (body : Z -> ST S unit),
  (forall j, ok T (body j) any) -> ok T (for_up n i body) any.
Proof.
  induction n as [|n IH]; intros i body Hb; cbn [for_up]; [by apply ok_ret|].
  eapply ok_bind; [apply Hb | intros; by apply IH].
Qed.

Create HintDb typed.
#[export] Hint Resolve ok_any : typed.

(** One construct. *)
Ltac tstep :=
  match goal with
  | |- ok _ (mret _) _ => apply ok_ret
  | |- ok _ (fail _) _ => apply ok_fail
  | |- ok _ (modify _) _ => apply ok_modify; intros
  | |- ok _ (when _ _) _ => apply ok_when
  | |- ok _ (gets _ ≫= _) _ =>
      let s := fresh "s" in let Hs := fresh "Hs" in
      eapply ok_bind; [apply ok_gets | intros ? (s & Hs & ->)]
  | |- ok _ (liftR _ ≫= _) _ =>
      let E := fresh "E" in eapply ok_bind; [apply ok_liftR | cbv beta; intros ? E]
  | |- ok _ (modify _ ≫= _) _ => eapply ok_bind; [apply ok_modify; intros | intros _ _]
  | |- ok _ (when _ _ ≫= _) _ => eapply ok_bind; [apply ok_when | intros _ _]
  | |- ok _ (mret _ ≫= _) _ => apply (ok_bind _ _ _ any); [by apply ok_ret | intros ? _]
  | |- ok _ (match _ with _ => _ end ≫= _) _ => apply (ok_bind _ _ _ any); [|intros ? _]
  | |- ok _ (_ ≫= _) _ => eapply ok_bind; [solve [eauto with typed] | intros]
  | |- ok _ (match ?x with _ => _ end) _ => destruct x eqn:?
  | |- ok _ (let _ := _ in _) _ => cbv zeta
  end.
Ltac tsteps := repeat first [solve [eauto with typed] | tstep].
