(* ===== verification/Mem.v ===== *)
(** * The byte memory of the machine

    Physical memory as a finite map from addresses to bytes; an address
    that was never written reads as zero.  The components that use raw
    memory (the string routines, the file system image, video memory, the
    process control blocks at the foot of the kernel stacks and the user
    pages) share it.  Addresses are integers: pointer arithmetic that leaves
    the 32-bit range has no meaning in C and is not wrapped here. *)

From Stdlib Require Import ZArith Lia.
From stdpp Require Import base numbers list gmap.
From S2P Require Import Prelude.

Local Open Scope Z_scope.

Abbreviation mem := (gmap Z Z).

Definition mget (m : mem) (a : Z) : Z := u8 (default 0 (m !! a)).
Definition mset (m : mem) (a v : Z) : mem := <[a := u8 v]> m.

(** A 32-bit word is stored low byte first. *)
Definition load32 (m : mem) (a : Z) : Z :=
  mget m a + 2 ^ 8 * mget m (a + 1) + 2 ^ 16 * mget m (a + 2)
  + 2 ^ 24 * mget m (a + 3).

Definition store32 (m : mem) (a v : Z) : mem :=
  mset (mset (mset (mset m a v) (a + 1) (v / 2 ^ 8)) (a + 2) (v / 2 ^ 16))
    (a + 3) (v / 2 ^ 24).

(** The signed reading of a word, for an [int32_t] object. *)
Definition load_s32 (m : mem) (a : Z) : Z := s32 (load32 m a).

(** The [n] bytes at [a], and a list of bytes written at [a]. *)
Definition mbytes (m : mem) (a : Z) (n : nat) : list Z :=
  map (fun k => mget m (a + Z.of_nat k)) (seq 0 n).

Fixpoint mset_bytes (m : mem) (a : Z) (l : list Z) : mem :=
  match l with
  | [] => m
  | x :: l => mset_bytes (mset m a x) (a + 1) l
  end.

(** Two memories with the same contents. *)
Definition mem_eq (m1 m2 : mem) : Prop := forall a, mget m1 a = mget m2 a.
Infix "≡ₘ" := mem_eq (at level 70, no associativity).

(** The bytes at [a] hold the C string [s]: its characters, none of them
    zero, and the terminator. *)
Definition cstr (m : mem) (a : Z) (s : list Z) : Prop :=
  (forall i, 0 <= i < zlen s ->
     mget m (a + i) = anth 0 s i /\ anth 0 s i <> 0)
  /\ mget m (a + zlen s) = 0.

Lemma mget_range m a : 0 <= mget m a < 256.
Proof. apply u8_range. Qed.

Lemma mget_u8 m a : u8 (mget m a) = mget m a.
Proof. apply u8_small, mget_range. Qed.

Lemma mget_mset m a v b :
  mget (mset m a v) b = if decide (a = b) then u8 v else mget m b.
Proof.
  unfold mget, mset. rewrite lookup_insert.
  case_decide; [apply u8_u8 | done].
Qed.

Lemma mget_mset_eq m a v : mget (mset m a v) a = u8 v.
Proof. rewrite mget_mset. by rewrite decide_True. Qed.

Lemma mget_mset_ne m a v b : a <> b -> mget (mset m a v) b = mget m b.
Proof. intros. rewrite mget_mset. by rewrite decide_False. Qed.

Lemma load32_range m a : 0 <= load32 m a < 4294967296.
Proof.
  unfold load32.
  pose proof (mget_range m a). pose proof (mget_range m (a + 1)).
  pose proof (mget_range m (a + 2)). pose proof (mget_range m (a + 3)). lia.
Qed.

Lemma load_s32_range m a : -2147483648 <= load_s32 m a < 2147483648.
Proof. apply s32_range. Qed.

Lemma mget_store32 m a v b :
  mget (store32 m a v) b =
  if decide (b = a) then u8 v
  else if decide (b = a + 1) then u8 (v / 2 ^ 8)
  else if decide (b = a + 2) then u8 (v / 2 ^ 16)
  else if decide (b = a + 3) then u8 (v / 2 ^ 24)
  else mget m b.
Proof. unfold store32. rewrite !mget_mset. repeat case_decide; done || lia. Qed.

Lemma mget_store32_ne m a v b :
  b < a \/ a + 4 <= b -> mget (store32 m a v) b = mget m b.
Proof. intros. rewrite mget_store32. repeat case_decide; done || lia. Qed.

Lemma load32_store32_eq m a v : load32 (store32 m a v) a = u32 v.
Proof.
  unfold load32. rewrite !mget_store32.
  repeat (case_decide; try lia). unfold u8, u32. lia_mod.
Qed.

Lemma load32_ext m1 m2 a :
  (forall b, a <= b < a + 4 -> mget m1 b = mget m2 b) ->
  load32 m1 a = load32 m2 a.
Proof. intros H. unfold load32. rewrite !H by lia. done. Qed.

Lemma load32_store32_ne m a v b :
  b + 4 <= a \/ a + 4 <= b -> load32 (store32 m a v) b = load32 m b.
Proof. intros. apply load32_ext. intros. apply mget_store32_ne. lia. Qed.

Lemma load32_mset_ne m a v b :
  a < b \/ b + 4 <= a -> load32 (mset m a v) b = load32 m b.
Proof. intros. apply load32_ext. intros. apply mget_mset_ne. lia. Qed.

Lemma load_s32_store32_eq m a v : load_s32 (store32 m a v) a = s32 v.
Proof. unfold load_s32. rewrite load32_store32_eq. apply s32_u32. Qed.

Lemma load_s32_store32_ne m a v b :
  b + 4 <= a \/ a + 4 <= b -> load_s32 (store32 m a v) b = load_s32 m b.
Proof. intros. unfold load_s32. by rewrite load32_store32_ne. Qed.

Lemma load_s32_mset_ne m a v b :
  a < b \/ b + 4 <= a -> load_s32 (mset m a v) b = load_s32 m b.
Proof. intros. unfold load_s32. by rewrite load32_mset_ne. Qed.

Create Rewrite HintDb mem.
#[export] Hint Rewrite mget_mset_eq load32_store32_eq load_s32_store32_eq : mem.
#[export] Hint Rewrite mget_mset_ne mget_store32_ne load32_store32_ne
  load32_mset_ne load_s32_store32_ne load_s32_mset_ne using lia : mem.

(** [mem_simpl] resolves a load against the stores before it. *)
Ltac mem_simpl := autorewrite with mem.

Lemma mget_mset_bytes m a l b :
  mget (mset_bytes m a l) b =
  if decide (a <= b < a + zlen l) then u8 (anth 0 l (b - a)) else mget m b.
Proof.
  revert m a. induction l as [|x l IH]; intros m a; simpl.
  - rewrite decide_False by lia. done.
  - rewrite IH, mget_mset.
    destruct (decide (a = b)) as [<-|Hne].
    + rewrite decide_False, decide_True by lia.
      by replace (a - a) with 0 by lia.
    + repeat case_decide; try lia; try done.
      unfold anth. replace (Z.to_nat (b - a)) with (S (Z.to_nat (b - (a + 1)))) by lia.
      done.
Qed.

Lemma length_mbytes m a n : List.length (mbytes m a n) = n.
Proof. unfold mbytes. by rewrite length_map, length_seq. Qed.

Lemma anth_mbytes m a n i :
  0 <= i < Z.of_nat n -> anth 0 (mbytes m a n) i = mget m (a + i).
Proof.
  intros Hi. unfold anth, mbytes. set (f := fun k => mget m (a + Z.of_nat k)).
  rewrite (nth_indep _ 0 (f 0%nat)) by (rewrite length_map, length_seq; lia).
  rewrite map_nth, seq_nth by lia. unfold f. f_equal. lia.
Qed.

Lemma mbytes_ext m1 m2 a n :
  (forall b, a <= b < a + Z.of_nat n -> mget m1 b = mget m2 b) ->
  mbytes m1 a n = mbytes m2 a n.
Proof.
  intros H. apply map_ext_in. intros k Hk%in_seq. apply H. lia.
Qed.

Lemma mbytes_app m a n k :
  mbytes m a (n + k) = mbytes m a n ++ mbytes m (a + Z.of_nat n) k.
Proof.
  apply (anth_eq 0).
  - rewrite length_app, !length_mbytes. done.
  - rewrite length_mbytes. intros i Hi.
    rewrite anth_app, length_mbytes by lia.
    rewrite anth_mbytes by lia. case_decide.
    + by rewrite anth_mbytes by lia.
    + rewrite anth_mbytes by lia. f_equal. lia.
Qed.

#[export] Instance mem_eq_equiv : Equivalence mem_eq.
Proof.
  split; [intros m a; done | intros m1 m2 H a; by rewrite H |].
  intros m1 m2 m3 H1 H2 a. by rewrite H1, H2.
Qed.

#[export] Instance mget_proper : Proper (mem_eq ==> eq ==> eq) mget.
Proof. intros m1 m2 H a ? <-. apply H. Qed.

#[export] Instance load32_proper : Proper (mem_eq ==> eq ==> eq) load32.
Proof. intros m1 m2 H a ? <-. apply load32_ext. intros. apply H. Qed.

#[export] Instance mset_proper : Proper (mem_eq ==> eq ==> eq ==> mem_eq) mset.
Proof. intros m1 m2 H a ? <- v ? <- b. rewrite !mget_mset. by rewrite H. Qed.

(** ** C strings *)

Lemma cstr_ext m1 m2 a s :
  (forall b, a <= b <= a + zlen s -> mget m1 b = mget m2 b) ->
  cstr m1 a s -> cstr m2 a s.
Proof.
  intros H [Hc H0]. split.
  - intros i Hi. rewrite <-H by lia. by apply Hc.
  - rewrite <-H by lia. done.
Qed.

Lemma cstr_char m a s i :
  cstr m a s -> 0 <= i < zlen s -> mget m (a + i) = anth 0 s i.
Proof. intros [Hc _] Hi. by apply Hc. Qed.

Lemma cstr_nonzero m a s i :
  cstr m a s -> 0 <= i < zlen s -> mget m (a + i) <> 0.
Proof. intros [Hc _] Hi. destruct (Hc i Hi) as [-> ?]. done. Qed.

Lemma cstr_end m a s : cstr m a s -> mget m (a + zlen s) = 0.
Proof. by intros [_ ?]. Qed.

Lemma cstr_nil m a : cstr m a [] -> mget m a = 0.
Proof. intros H. apply cstr_end in H. cbn in H. by rewrite Z.add_0_r in H. Qed.

Lemma cstr_cons m a c s : cstr m a (c :: s) -> mget m a = c /\ c <> 0 /\ cstr m (a + 1) s.
Proof.
  intros [H1 H0]. cbn [List.length] in *. destruct (H1 0 ltac:(lia)) as [E N].
  rewrite Z.add_0_r in E. split; [exact E|]. split; [exact N|]. split.
  - intros i Hi. replace (a + 1 + i) with (a + (i + 1)) by lia.
    destruct (H1 (i + 1) ltac:(lia)) as [E' N'].
    unfold anth in *. replace (Z.to_nat (i + 1)) with (S (Z.to_nat i)) in * by lia. done.
  - by replace (a + 1 + zlen s) with (a + Z.of_nat (S (List.length s))) by lia.
Qed.

Lemma cstr_drop m a l j : cstr m a l -> (j <= List.length l)%nat -> cstr m (a + Z.of_nat j) (drop j l).
Proof.
  revert a l. induction j as [|j IH]; intros a l H Hj; [by rewrite Z.add_0_r|].
  destruct l as [|c l]; [cbn in Hj; lia|]. destruct (cstr_cons _ _ _ _ H) as (_ & _ & H').
  replace (a + Z.of_nat (S j)) with (a + 1 + Z.of_nat j) by lia. apply (IH _ _ H'). cbn in Hj. lia.
Qed.

Lemma cstr_app m a l1 l2 :
  (forall i, 0 <= i < zlen l1 -> mget m (a + i) = anth 0 l1 i /\ anth 0 l1 i <> 0) ->
  cstr m (a + zlen l1) l2 -> cstr m a (l1 ++ l2).
Proof.
  intros H1 [H2 H0]. split; rewrite length_app.
  - intros i Hi. rewrite anth_app by lia. case_decide; [apply H1; lia|].
    replace (a + i) with (a + zlen l1 + (i - zlen l1)) by lia. apply H2. lia.
  - by replace (a + _) with (a + zlen l1 + zlen l2) by lia.
Qed.

(** A memory location holds at most one string. *)
Lemma cstr_inj m a s1 s2 : cstr m a s1 -> cstr m a s2 -> s1 = s2.
Proof.
  intros H1 H2.
  assert (Hl : zlen s1 = zlen s2).
  { pose proof (cstr_end _ _ _ H1) as E1. pose proof (cstr_end _ _ _ H2) as E2.
    destruct (Z.lt_trichotomy (zlen s1) (zlen s2)) as [L|[L|L]]; [|done|].
    - destruct (cstr_nonzero _ _ _ (zlen s1) H2 ltac:(lia)). done.
    - destruct (cstr_nonzero _ _ _ (zlen s2) H1 ltac:(lia)). done. }
  apply (anth_eq 0); [lia|]. intros i Hi.
  rewrite <-(cstr_char _ _ _ i H1), <-(cstr_char _ _ _ i H2) by lia. done.
Qed.

(** A string written with its terminator. *)
Lemma cstr_mset_bytes m a s :
  Forall (fun c => 0 < c < 256) s -> cstr (mset_bytes m a (s ++ [0])) a s.
Proof.
  intros HF. rewrite Forall_forall in HF. split.
  - intros i Hi. rewrite mget_mset_bytes, length_app, decide_True by (simpl; lia).
    replace (a + i - a) with i by lia.
    rewrite anth_app by lia. rewrite decide_True by lia.
    assert (Hb : 0 < anth 0 s i < 256)
      by (apply HF, list_elem_of_In, nth_In; lia).
    rewrite u8_small by lia. lia.
  - rewrite mget_mset_bytes, length_app, decide_True by (simpl; lia).
    replace (a + zlen s - a) with (zlen s) by lia.
    rewrite anth_app by lia. rewrite decide_False by lia.
    by replace (zlen s - zlen s) with 0 by lia.
Qed.

(** ** Changes confined to a region *)

Definition same_out (m m' : mem) (a n : Z) : Prop :=
  forall b, b < a \/ a + n <= b -> mget m' b = mget m b.

Lemma so_refl m a n : same_out m m a n.
Proof. done. Qed.

Lemma so_trans m1 m2 m3 a n :
  same_out m1 m2 a n -> same_out m2 m3 a n -> same_out m1 m3 a n.
Proof. intros H1 H2 b Hb. by rewrite H2, H1. Qed.

Lemma so_widen m m' a n a' n' :
  same_out m m' a n -> a' <= a -> a + n <= a' + n' -> same_out m m' a' n'.
Proof. intros H H1 H2 b Hb. apply H. lia. Qed.

Lemma so_store32 m a v : same_out m (store32 m a v) a 4.
Proof. intros b Hb. apply mget_store32_ne. lia. Qed.

Lemma so_load32 m m' a n b :
  same_out m m' a n -> b + 4 <= a \/ a + n <= b -> load32 m' b = load32 m b.
Proof. intros H Hb. apply load32_ext. intros. apply H. lia. Qed.

Lemma so_cstr m m' a n b s :
  same_out m m' a n -> b + zlen s < a \/ a + n <= b -> cstr m b s -> cstr m' b s.
Proof. intros H Hb. apply cstr_ext. intros. symmetry. apply H. lia. Qed.

(** Loads and strings do not see a change elsewhere: each hypothesis
    [same_out] is used to go back to the earlier memory. *)
Ltac so_back side :=
  repeat match goal with
  | H : same_out ?m ?m' ?a ?n |- context [load32 ?m' ?b] =>
      rewrite (so_load32 m m' a n b H) by side
  end.
