(* ===== verification/CString.v ===== *)
(** * The memory and string routines of lib.c

    [strlen], [strcpy], [strncpy], [strncmp], [strrev] and [itoa] are
    translated loop by loop; [memset], [memset_word], [memset_dword],
    [memcpy] and [memmove] from their assembly, one loop per label. *)

From Stdlib Require Import ZArith Lia String Ascii.
From stdpp Require Import base numbers list gmap.
From S2P Require Import Prelude Mem.

Local Open Scope Z_scope.

(** ** Scanning and copying strings *)

(** [while (s[len] != '\0') len++;] *)
Definition strlen_step (m : mem) (s len : Z) : Z + res Z :=
  if mget m (s + len) =? 0 then inr (Ok len) else inl (u32 (len + 1)).

Definition strlen (m : mem) (s : Z) : res Z := while (strlen_step m s) 0.

Definition strcpy_step (dest src : Z) (st : mem * Z) : (mem * Z) + res mem :=
  let '(m, i) := st in
  if mget m (src + i) =? 0 then inr (Ok (mset m (dest + i) 0))
  else inl (mset m (dest + i) (mget m (src + i)), i + 1).

Definition strcpy (m : mem) (dest src : Z) : res mem :=
  while (strcpy_step dest src) (m, 0).

(** The two loops of [strncpy]; [i < n] compares [i] as unsigned. *)
Definition strncpy_copy (dest src n : Z) (st : mem * Z)
  : (mem * Z) + res (mem * Z) :=
  let '(m, i) := st in
  if negb (mget m (src + i) =? 0) && (i <? n)
  then inl (mset m (dest + i) (mget m (src + i)), i + 1)
  else inr (Ok (m, i)).

Definition strncpy_pad (dest n : Z) (st : mem * Z) : (mem * Z) + res mem :=
  let '(m, i) := st in
  if i <? n then inl (mset m (dest + i) 0, i + 1) else inr (Ok m).

Definition strncpy (m : mem) (dest src n : Z) : res mem :=
  let* st := while (strncpy_copy dest src n) (m, 0) in
  while (strncpy_pad dest n) st.

(** The characters are [int8_t], so the difference is of signed bytes. *)
Definition strncmp_step (m : mem) (s1 s2 n i : Z) : Z + res Z :=
  if i <? n then
    if negb (mget m (s1 + i) =? mget m (s2 + i)) || (mget m (s1 + i) =? 0)
    then inr (Ok (s8 (mget m (s1 + i)) - s8 (mget m (s2 + i))))
    else inl (i + 1)
  else inr (Ok 0).

Definition strncmp (m : mem) (s1 s2 n : Z) : res Z :=
  while (strncmp_step m s1 s2 n) 0.

(** ** Numbers in text *)

Definition strrev_step (s : Z) (st : mem * Z * Z)
  : (mem * Z * Z) + res mem :=
  let '(m, beg, end_) := st in
  if beg <? end_ then
    let tmp := mget m (s + end_) in
    let m := mset m (s + end_) (mget m (s + beg)) in
    let m := mset m (s + beg) tmp in
    inl (m, beg + 1, end_ - 1)
  else inr (Ok m).

Definition strrev (m : mem) (s : Z) : res mem :=
  let* len := strlen m s in
  while (strrev_step s) (m, 0, s32 (len - 1)).

Definition lookup_digits : list Z :=
  bytes "0123456789ABCDEFGHIJKLMNOPQRSTUVWXYZ" ++ [0].

Definition itoa_step (radix : Z) (st : mem * Z * Z)
  : (mem * Z * Z) + res (mem * Z) :=
  let '(m, newbuf, newval) := st in
  if 0 <? newval then
    match aget lookup_digits (newval mod radix) with
    | Ok d => inl (mset m newbuf d, newbuf + 1, newval / radix)
    | Err e => inr (Err e)
    end
  else inr (Ok (m, newbuf)).

Definition itoa (m : mem) (value buf radix : Z) : res mem :=
  if value =? 0 then Ok (mset (mset m buf (chr "0")) (buf + 1) 0)
  else
    let* (m, newbuf) := while (itoa_step radix) (m, buf, value) in
    strrev (mset m newbuf 0) buf.

(** ** The assembly routines

    A label reached twice is a loop; [Aligned] and [Done] are the two exits
    of the byte loop that runs until the destination is word aligned. *)

Inductive head_exit (A : Type) := Aligned (st : A) | Done (st : A).
Arguments Aligned {A} st.
Arguments Done {A} st.

(** [.memset_top]: ecx, edi *)
Definition memset_top (al : Z) (st : mem * Z * Z)
  : (mem * Z * Z) + res (head_exit (mem * Z * Z)) :=
  let '(m, ecx, edi) := st in
  if ecx =? 0 then inr (Ok (Done st))
  else if Z.land edi 3 =? 0 then inr (Ok (Aligned st))
  else inl (mset m edi al, ecx - 1, edi + 1).

(** [rep stosl] *)
Definition rep_stosl (eax : Z) (st : mem * Z * Z)
  : (mem * Z * Z) + res (mem * Z) :=
  let '(m, ecx, edi) := st in
  if ecx =? 0 then inr (Ok (m, edi))
  else inl (store32 m edi eax, ecx - 1, edi + 4).

(** [.memset_bottom]: edx, edi *)
Definition memset_bottom (al : Z) (st : mem * Z * Z)
  : (mem * Z * Z) + res mem :=
  let '(m, edx, edi) := st in
  if edx =? 0 then inr (Ok m) else inl (mset m edi al, edx - 1, edi + 1).

Definition memset (m : mem) (s c n : Z) : res mem :=
  let c := Z.land c 255 in
  let eax := Z.lor (Z.lor (Z.lor (Z.shiftl c 24) (Z.shiftl c 16))
                          (Z.shiftl c 8)) c in
  let* r := while (memset_top eax) (m, n, s) in
  match r with
  | Done (m, _, _) => Ok m
  | Aligned (m, ecx, edi) =>
      let* (m', edi') := while (rep_stosl eax) (m, Z.shiftr ecx 2, edi) in
      while (memset_bottom eax) (m', Z.land ecx 3, edi')
  end.

(** [rep stosw]: the low 16 bits of [c] at [n] consecutive words. *)
Definition rep_stosw (ax : Z) (st : mem * Z * Z) : (mem * Z * Z) + res mem :=
  let '(m, ecx, edi) := st in
  if ecx =? 0 then inr (Ok m)
  else inl (mset (mset m edi ax) (edi + 1) (ax / 2 ^ 8), ecx - 1, edi + 2).

Definition memset_word (m : mem) (s c n : Z) : res mem :=
  while (rep_stosw c) (m, n, s).

Definition memset_dword (m : mem) (s c n : Z) : res mem :=
  let* (m', _) := while (rep_stosl c) (m, n, s) in Ok m'.

(** [.memcpy_top]: ecx, esi, edi *)
Definition memcpy_top (st : mem * Z * Z * Z)
  : (mem * Z * Z * Z) + res (head_exit (mem * Z * Z * Z)) :=
  let '(m, ecx, esi, edi) := st in
  if ecx =? 0 then inr (Ok (Done st))
  else if Z.land edi 3 =? 0 then inr (Ok (Aligned st))
  else inl (mset m edi (mget m esi), ecx - 1, esi + 1, edi + 1).

(** [rep movsl] *)
Definition rep_movsl (st : mem * Z * Z * Z)
  : (mem * Z * Z * Z) + res (mem * Z * Z) :=
  let '(m, ecx, esi, edi) := st in
  if ecx =? 0 then inr (Ok (m, esi, edi))
  else inl (store32 m edi (load32 m esi), ecx - 1, esi + 4, edi + 4).

(** [.memcpy_bottom]: edx, esi, edi *)
Definition memcpy_bottom (st : mem * Z * Z * Z)
  : (mem * Z * Z * Z) + res mem :=
  let '(m, edx, esi, edi) := st in
  if edx =? 0 then inr (Ok m)
  else inl (mset m edi (mget m esi), edx - 1, esi + 1, edi + 1).

Definition memcpy (m : mem) (dest src n : Z) : res mem :=
  let* r := while memcpy_top (m, n, src, dest) in
  match r with
  | Done (m, _, _, _) => Ok m
  | Aligned (m, ecx, esi, edi) =>
      let* (m', esi', edi') := while rep_movsl (m, Z.shiftr ecx 2, esi, edi) in
      while memcpy_bottom (m', Z.land ecx 3, esi', edi')
  end.

(** [rep movsb] with the direction flag clear ([d] = 1) or set ([d] = -1). *)
Definition rep_movsb (d : Z) (st : mem * Z * Z * Z)
  : (mem * Z * Z * Z) + res mem :=
  let '(m, ecx, esi, edi) := st in
  if ecx =? 0 then inr (Ok m)
  else inl (mset m edi (mget m esi), ecx - 1, esi + d, edi + d).

(** The flag that the backward copy sets stays set in the code; no state of
    the model holds it, and the other routines take it to be clear. *)
Definition memmove (m : mem) (dest src n : Z) : res mem :=
  if src <? dest
  then while (rep_movsb (-1)) (m, n, src + n - 1, dest + n - 1)
  else while (rep_movsb 1) (m, n, src, dest).

(** ** Specifications used in the statements *)

(** [m2] is [m1] with the [n] bytes at [a] given by [f]. *)
Definition updated (m1 m2 : mem) (a n : Z) (f : Z -> Z) : Prop :=
  forall b, mget m2 b =
    if decide (a <= b < a + n) then f (b - a) else mget m1 b.

Lemma updated_0 m a f : updated m m a 0 f.
Proof. intros b. rewrite decide_False by lia. done. Qed.

Lemma updated_mset m m' a n f v :
  0 <= n -> updated m m' a n f -> u8 v = f n ->
  updated m (mset m' (a + n) v) a (n + 1) f.
Proof.
  intros Hn H Hv b. rewrite mget_mset, H.
  destruct (decide (a + n = b)) as [<-|].
  - rewrite decide_True by lia. rewrite Hv. f_equal. lia.
  - repeat case_decide; lia || done.
Qed.

Lemma updated_store32 m m' a n f v :
  0 <= n -> updated m m' a n f ->
  u8 v = f n -> u8 (v / 2 ^ 8) = f (n + 1) ->
  u8 (v / 2 ^ 16) = f (n + 2) -> u8 (v / 2 ^ 24) = f (n + 3) ->
  updated m (store32 m' (a + n) v) a (n + 4) f.
Proof.
  intros Hn H H0 H1 H2 H3. unfold store32.
  replace (n + 4) with (n + 1 + 1 + 1 + 1) by lia.
  replace (a + n + 1) with (a + (n + 1)) by lia.
  replace (a + n + 2) with (a + (n + 1 + 1)) by lia.
  replace (a + n + 3) with (a + (n + 1 + 1 + 1)) by lia.
  repeat apply updated_mset; try lia; try done.
  - rewrite H2. f_equal; lia.
  - rewrite H3. f_equal; lia.
Qed.

Lemma updated_ext m m' a n f g :
  (forall k, 0 <= k < n -> f k = g k) -> updated m m' a n f -> updated m m' a n g.
Proof. intros Hfg H b. rewrite H. case_decide; [apply Hfg; lia | done]. Qed.

(** ** String routines *)

Lemma strlen_spec m s str :
  cstr m s str -> zlen str < 4294967296 -> strlen m s = Ok (zlen str).
Proof.
  intros Hs Hlen. unfold strlen.
  apply (while_rule _ (fun i => 0 <= i <= zlen str) (fun i => zlen str - i)
           (fun r => r = Ok (zlen str))); [lia | lia |].
  intros i Hi. unfold strlen_step.
  destruct (Z.eqb_spec (mget m (s + i)) 0) as [E|E].
  - destruct (Z.eq_dec i (zlen str)) as [->|]; [done|].
    destruct (cstr_nonzero _ _ _ i Hs); [lia | done].
  - assert (i <> zlen str) by (intros ->; by rewrite (cstr_end _ _ _ Hs) in E).
    rewrite u32_small; lia.
Qed.

Lemma strcpy_spec m dest src str :
  cstr m src str -> zlen str < 4294967295 ->
  dest + zlen str < src \/ src + zlen str < dest ->
  exists m', strcpy m dest src = Ok m' /\ cstr m' dest str /\
    updated m m' dest (zlen str + 1) (fun k => mget m (src + k)).
Proof.
  intros Hs Hlen Hdis. unfold strcpy. set (f := fun k => mget m (src + k)).
  assert (H : exists m', while (strcpy_step dest src) (m, 0) = Ok m' /\
            updated m m' dest (zlen str + 1) f).
  { apply (while_rule _
      (fun '(m', i) => 0 <= i <= zlen str /\ updated m m' dest i f)
      (fun '(_, i) => zlen str + 1 - i)
      (fun r => exists m', r = Ok m' /\ updated m m' dest (zlen str + 1) f)).
    - split; [lia | apply updated_0].
    - lia.
    - intros [m' i] [Hi Hu]. unfold strcpy_step.
      assert (Hsrc : mget m' (src + i) = f i)
        by (rewrite Hu, decide_False by lia; done).
      rewrite Hsrc. destruct (Z.eqb_spec (f i) 0) as [E|E].
      + assert (i = zlen str) as ->.
        { destruct (Z.eq_dec i (zlen str)); [done|].
          destruct (cstr_nonzero _ _ _ i Hs); [lia | done]. }
        eexists. split; [done|]. apply updated_mset; [lia | done |].
        by rewrite E.
      + assert (i <> zlen str)
          by (intros ->; apply E, (cstr_end _ _ _ Hs)).
        repeat split; try lia. apply updated_mset; [lia | done |].
        apply mget_u8. }
  destruct H as (m' & Hr & Hu). exists m'. split; [done|]. split; [|done].
  split.
  - intros i Hi. rewrite Hu, decide_True by lia. unfold f.
    replace (dest + i - dest) with i by lia. by apply Hs.
  - rewrite Hu, decide_True by lia. unfold f.
    replace (dest + zlen str - dest) with (zlen str) by lia. apply Hs.
Qed.

(** [z] is where the source string ends, or [n] when it is longer. *)
Lemma strncpy_spec m dest src n z :
  0 <= z <= n -> n < 4294967296 ->
  (forall k, 0 <= k < z -> mget m (src + k) <> 0) ->
  z = n \/ mget m (src + z) = 0 ->
  dest + n <= src \/ src + n < dest ->
  exists m', strncpy m dest src n = Ok m' /\
    updated m m' dest n (fun k => if k <? z then mget m (src + k) else 0).
Proof.
  intros Hz Hn Hnz Hend Hdis. unfold strncpy.
  set (f := fun k => if k <? z then mget m (src + k) else 0).
  assert (H : exists m', while (strncpy_copy dest src n) (m, 0) = Ok (m', z)
            /\ updated m m' dest z f).
  { apply (while_rule _
      (fun '(m', i) => 0 <= i <= z /\ updated m m' dest i f)
      (fun '(_, i) => z - i)
      (fun r => exists m', r = Ok (m', z) /\ updated m m' dest z f)).
    - split; [lia | apply updated_0].
    - lia.
    - intros [m' i] [Hi Hu]. unfold strncpy_copy.
      assert (Hsrc : mget m' (src + i) = mget m (src + i))
        by (rewrite Hu, decide_False by lia; done).
      rewrite Hsrc.
      destruct (Z.eqb_spec (mget m (src + i)) 0), (Z.ltb_spec i n); simpl.
      1, 2: assert (i = z) as -> by
        (destruct (Z.eq_dec i z); [done | destruct (Hnz i); [lia | done]]).
      4: assert (i = z) as -> by lia.
      1, 2, 4: eauto.
      assert (i <> z) by (intros ->; destruct Hend; [lia | done]).
      repeat split; try lia. apply updated_mset; [lia | done |].
      unfold f. rewrite (proj2 (Z.ltb_lt i z)) by lia. apply mget_u8. }
  destruct H as (m1 & -> & Hu1). simpl.
  apply (while_rule _
    (fun '(m', i) => z <= i <= n /\ updated m m' dest i f)
    (fun '(_, i) => n - i)
    (fun r => exists m', r = Ok m' /\ updated m m' dest n f)).
  - split; [lia | done].
  - lia.
  - intros [m' i] [Hi Hu]. unfold strncpy_pad.
    destruct (Z.ltb_spec i n).
    + repeat split; try lia. apply updated_mset; [lia | done |].
      unfold f. by rewrite (proj2 (Z.ltb_ge i z)) by lia.
    + replace n with i by lia. eauto.
Qed.

(** [k] is the first place where the strings differ or end, or [n]. *)
Lemma strncmp_spec m s1 s2 n k :
  0 <= k <= n -> n < 4294967296 ->
  (forall j, 0 <= j < k ->
     mget m (s1 + j) = mget m (s2 + j) /\ mget m (s1 + j) <> 0) ->
  k = n \/ mget m (s1 + k) <> mget m (s2 + k) \/ mget m (s1 + k) = 0 ->
  strncmp m s1 s2 n =
    Ok (if k <? n then s8 (mget m (s1 + k)) - s8 (mget m (s2 + k)) else 0).
Proof.
  intros Hk Hn Hpre Hend. unfold strncmp.
  apply (while_rule _ (fun i => 0 <= i <= k) (fun i => k - i)
    (fun r => r = Ok (if k <? n then s8 (mget m (s1 + k)) - s8 (mget m (s2 + k))
                      else 0))); [lia | lia |].
  intros i Hi. unfold strncmp_step. destruct (Z.eq_dec i k) as [->|Hne].
  - destruct (Z.ltb_spec k n); [|done].
    destruct (Z.eqb_spec (mget m (s1 + k)) (mget m (s2 + k))),
      (Z.eqb_spec (mget m (s1 + k)) 0); simpl; try done.
    destruct Hend as [?|[?|?]]; lia || done.
  - destruct (Hpre i ltac:(lia)) as [E1 E2].
    rewrite (proj2 (Z.ltb_lt i n)) by lia.
    rewrite (proj2 (Z.eqb_eq _ _) E1), (proj2 (Z.eqb_neq _ _) E2). simpl. lia.
Qed.

(** ** Numbers *)

Lemma strrev_spec m s str :
  cstr m s str -> zlen str < 2147483648 ->
  exists m', strrev m s = Ok m' /\ cstr m' s (rev str) /\
    updated m m' s (zlen str) (fun k => anth 0 str (zlen str - 1 - k)).
Proof.
  intros Hs Hlen. unfold strrev.
  rewrite (strlen_spec m s str Hs) by lia. simpl.
  rewrite s32_small by lia. set (n := zlen str) in *.
  set (f := fun k => anth 0 str (n - 1 - k)).
  assert (H : exists m', while (strrev_step s) (m, 0, n - 1) = Ok m' /\
            updated m m' s n f).
  { apply (while_rule _
      (fun '(m', b, e) => 0 <= b <= n /\ e = n - 1 - b /\ forall a, mget m' a =
         if decide (s <= a < s + n)
         then if decide (a - s < b \/ e < a - s) then f (a - s) else mget m a
         else mget m a)
      (fun '(_, b, e) => n - b)
      (fun r => exists m', r = Ok m' /\ updated m m' s n f)).
    - split; [lia|]. split; [lia|]. intros a. repeat case_decide; lia || done.
    - lia.
    - intros [[m' b] e] (Hb & He & Hm). unfold strrev_step.
      destruct (Z.ltb_spec b e).
      + split; [|lia]. split; [lia|]. split; [lia|]. intros a.
        rewrite !mget_mset, !Hm.
        assert (Hu : forall x, u8 (mget m x) = mget m x) by apply mget_u8.
        repeat (case_decide; try lia); try done; rewrite Hu;
          rewrite (cstr_char _ _ _ _ Hs) by lia; unfold f; f_equal; lia.
      + exists m'. split; [done|]. intros a. rewrite Hm.
        destruct (decide (s <= a < s + n)); [|done].
        case_decide; [done|]. replace a with (s + b) by lia.
        rewrite (cstr_char _ _ _ _ Hs) by lia. unfold f. f_equal. lia. }
  destruct H as (m' & Hr & Hu). exists m'. split; [done|]. split; [|done].
  assert (Hrev : forall i, 0 <= i < n -> anth 0 (rev str) i = f i).
  { intros i Hi. unfold anth, f. rewrite rev_nth by (unfold n in *; lia).
    unfold anth. f_equal. unfold n in *. lia. }
  split; rewrite length_rev.
  - intros i Hi. fold n in Hi. rewrite Hrev by done.
    rewrite Hu, decide_True by lia. replace (s + i - s) with i by lia.
    split; [done|]. apply Hs. lia.
  - rewrite Hu, decide_False by (unfold n; lia). apply Hs.
Qed.

(** The number a list of digits stands for, most significant digit first. *)
Fixpoint num_of (radix : Z) (ds : list Z) : Z :=
  match ds with
  | [] => 0
  | d :: ds => d * radix ^ zlen ds + num_of radix ds
  end.

Definition digit_char (d : Z) : Z := anth 0 lookup_digits d.

Lemma digit_char_range d : 0 <= d < 36 -> 48 <= digit_char d < 91.
Proof.
  intros Hd. unfold digit_char, anth. pose proof (Z2Nat.id d ltac:(lia)) as E.
  remember (Z.to_nat d) as n eqn:Hn. clear Hn.
  do 36 (destruct n as [|n]; [vm_compute; intuition congruence|]). lia.
Qed.

(** [ds] is the usual numeral of [v]: digits below the radix, no leading
    zero, and it stands for [v]. *)
Definition numeral (radix v : Z) (ds : list Z) : Prop :=
  Forall (fun d => 0 <= d < radix) ds /\ num_of radix ds = v /\
  (v = 0 /\ ds = [0] \/ exists d ds', ds = d :: ds' /\ d <> 0).

Lemma num_of_nonneg radix ds :
  0 < radix -> Forall (fun d => 0 <= d < radix) ds -> 0 <= num_of radix ds.
Proof.
  intros Hr. induction 1 as [|d ds Hd _ IH]; simpl; [lia|].
  pose proof (Z.pow_nonneg radix (zlen ds)). nia.
Qed.

Lemma numeral_digits radix k v ds :
  2 <= radix -> 1 <= k -> 0 <= v < radix ^ k -> numeral radix v ds -> zlen ds <= k.
Proof.
  intros Hr Hk Hv (HF & Hn & [[_ ->]|(d & ds' & -> & Hd)]); [simpl; lia|].
  inversion HF as [|? ? Hd' HF']; subst. simpl in Hv.
  pose proof (num_of_nonneg radix ds' ltac:(lia) HF').
  simpl List.length. destruct (Z.lt_ge_cases (zlen ds') k); [lia|].
  assert (radix ^ k <= radix ^ zlen ds') by (apply Z.pow_le_mono_r; lia).
  nia.
Qed.

Lemma numeral_length radix v ds :
  2 <= radix -> 0 <= v < 4294967296 -> numeral radix v ds -> zlen ds <= 32.
Proof.
  intros Hr Hv Hn. apply (numeral_digits radix 32 v ds); [done | lia | | done].
  assert (2 ^ 32 <= radix ^ 32) by (apply Z.pow_le_mono_l; lia). lia.
Qed.

Lemma itoa_loop m value buf radix :
  0 < value < 4294967296 -> 2 <= radix <= 36 ->
  exists m' ds, while (itoa_step radix) (m, buf, value) = Ok (m', buf + zlen ds)
    /\ numeral radix value ds
    /\ updated m m' buf (zlen ds) (fun k => anth 0 (rev (map digit_char ds)) k).
Proof.
  intros Hv Hr.
  apply (while_rule _
    (fun '(m', nb, nv) => 0 <= nv < 4294967296 /\ exists ds,
       nb = buf + zlen ds /\ value = nv * radix ^ zlen ds + num_of radix ds /\
       Forall (fun d => 0 <= d < radix) ds /\
       (nv = 0 -> exists d ds', ds = d :: ds' /\ d <> 0) /\
       updated m m' buf (zlen ds) (fun k => anth 0 (rev (map digit_char ds)) k))
    (fun '(_, _, nv) => nv)
    (fun r => exists m' ds, r = Ok (m', buf + zlen ds) /\
       numeral radix value ds /\
       updated m m' buf (zlen ds) (fun k => anth 0 (rev (map digit_char ds)) k))).
  - split; [lia|]. exists []. split; [simpl; lia|]. split; [simpl; lia|].
    split; [constructor|]. split; [lia|]. apply updated_0.
  - lia.
  - intros [[m' nb] nv] (Hnv & ds & -> & Hval & HF & Hhd & Hu).
    unfold itoa_step. destruct (Z.ltb_spec 0 nv).
    + pose proof (Z.mod_pos_bound nv radix ltac:(lia)) as Hd.
      pose proof (Z.div_mod nv radix ltac:(lia)) as Hdm.
      rewrite (aget_ok 0) by (change (zlen lookup_digits) with 37; lia).
      change (anth 0 lookup_digits (nv mod radix))
        with (digit_char (nv mod radix)).
      pose proof (digit_char_range (nv mod radix) ltac:(lia)).
      assert (0 <= nv / radix < nv) by (split; [apply Z.div_pos | apply Z.div_lt]; lia).
      split; [|lia]. split; [lia|].
      exists (nv mod radix :: ds). simpl List.length.
      replace (Z.of_nat (S (List.length ds))) with (zlen ds + 1) by lia.
      split; [lia|]. split.
      { cbn [num_of]. rewrite Z.pow_add_r, Z.pow_1_r by lia. nia. }
      split; [by constructor|]. split.
      { intros E. exists (nv mod radix), ds. rewrite E in Hdm. split; [done | lia]. }
      apply updated_mset; [lia | |].
      * apply updated_ext with (2 := Hu). intros k Hk. simpl rev.
        rewrite anth_app, length_rev, length_map by lia.
        by rewrite decide_True by lia.
      * simpl rev. rewrite anth_app, length_rev, length_map by lia.
        rewrite decide_False by lia. rewrite Z.sub_diag.
        change (u8 (digit_char (nv mod radix)) = digit_char (nv mod radix)).
        apply u8_small. lia.
    + assert (nv = 0) as -> by lia. exists m', ds. split; [done|].
      split; [|done]. split; [done|]. split; [lia|]. right. by apply Hhd.
Qed.

(** The digits are in memory in reverse when the loop ends. *)
Lemma itoa_digits m m1 value buf radix ds :
  2 <= radix <= 36 -> numeral radix value ds ->
  updated m m1 buf (zlen ds) (fun k => anth 0 (rev (map digit_char ds)) k) ->
  cstr (mset m1 (buf + zlen ds) 0) buf (rev (map digit_char ds)).
Proof.
  intros Hr [HF _] Hu. rewrite Forall_forall in HF. split; rewrite length_rev, length_map.
  - intros i Hi. rewrite mget_mset_ne, Hu, decide_True by lia.
    replace (buf + i - buf) with i by lia. split; [done|].
    unfold anth. rewrite rev_nth by (rewrite length_map; lia).
    rewrite length_map, (nth_indep _ _ (digit_char 0)) by (rewrite length_map; lia).
    rewrite map_nth.
    assert (Hin : In (nth (List.length ds - S (Z.to_nat i)) ds 0) ds) by (apply nth_In; lia).
    apply list_elem_of_In, HF in Hin.
    match goal with |- digit_char ?x <> 0 => pose proof (digit_char_range x) end. lia.
  - by rewrite mget_mset_eq.
Qed.

Lemma itoa_spec m value buf radix :
  0 <= value < 4294967296 -> 2 <= radix <= 36 ->
  exists m' ds, itoa m value buf radix = Ok m' /\
    numeral radix value ds /\ cstr m' buf (map digit_char ds) /\
    (forall a, a < buf \/ buf + zlen ds < a -> mget m' a = mget m a).
Proof.
  intros Hv Hr. unfold itoa. destruct (Z.eqb_spec value 0) as [->|Hne].
  - exists (mset (mset m buf (chr "0")) (buf + 1) 0), [0].
    split; [done|]. split.
    { split; [repeat constructor; lia|]. split; [done|]. by left. }
    split.
    + split.
      * intros i Hi. simpl in Hi. assert (i = 0) as -> by lia.
        rewrite Z.add_0_r, mget_mset_ne, mget_mset_eq by lia. split; done.
      * simpl. by rewrite mget_mset_eq.
    + intros a Ha. simpl in Ha. rewrite !mget_mset_ne by lia. done.
  - destruct (itoa_loop m value buf radix ltac:(lia) Hr)
      as (m1 & ds & -> & Hnum & Hu). simpl.
    pose proof (numeral_length radix value ds ltac:(lia) Hv Hnum) as Hlen.
    pose proof (itoa_digits m m1 value buf radix ds Hr Hnum Hu) as Hc.
    destruct (strrev_spec _ _ _ Hc) as (m2 & -> & Hc2 & Hu2).
    { rewrite length_rev, length_map. lia. }
    rewrite rev_involutive in Hc2. exists m2, ds.
    split; [done|]. split; [done|]. split; [done|].
    intros a Ha. rewrite Hu2, length_rev, length_map, decide_False by lia.
    rewrite mget_mset_ne, Hu, decide_False by lia. done.
Qed.

(** ** The assembly routines *)

Lemma land3 x : Z.land x 3 = x mod 4.
Proof. change 3 with (Z.ones 2). rewrite Z.land_ones by lia. done. Qed.

Lemma shiftr2 x : Z.shiftr x 2 = x / 4.
Proof. rewrite Z.shiftr_div_pow2 by lia. done. Qed.

(** The word [memset] stores: the byte [c] four times. *)
Lemma memset_word4 c :
  0 <= c < 256 ->
  Z.lor (Z.lor (Z.lor (Z.shiftl c 24) (Z.shiftl c 16)) (Z.shiftl c 8)) c =
  c * 16843009.
Proof.
  intros Hc. rewrite !Z.shiftl_mul_pow2 by lia.
  rewrite <-!Z.lor_assoc, (lor_fields c 8 c) by lia.
  rewrite (lor_fields c 16) by lia. rewrite (lor_fields c 24) by lia. lia.
Qed.

Lemma memset_word4_bytes c :
  0 <= c < 256 ->
  u8 (c * 16843009) = c /\ u8 (c * 16843009 / 2 ^ 8) = c /\
  u8 (c * 16843009 / 2 ^ 16) = c /\ u8 (c * 16843009 / 2 ^ 24) = c.
Proof. intros Hc. unfold u8. repeat split; lia_mod. Qed.

Section Memset.
Context (m0 : mem) (s c : Z) (Hc : 0 <= c < 256).
Local Abbreviation eax := (c * 16843009).
Local Abbreviation filled m k := (updated m0 m s k (fun _ => c)).

Lemma memset_top_spec n :
  0 <= n < 4294967296 ->
  exists m k, filled m k /\
    (while (memset_top eax) (m0, n, s) = Ok (Done (m, 0, s + k)) /\ k = n \/
     while (memset_top eax) (m0, n, s) = Ok (Aligned (m, n - k, s + k)) /\
     0 <= k <= n).
Proof.
  intros Hn.
  apply (while_rule _
    (fun '(m, ecx, edi) => exists k, 0 <= k <= n /\ ecx = n - k /\
       edi = s + k /\ filled m k)
    (fun '(_, ecx, _) => ecx)
    (fun r => exists m k, filled m k /\
      (r = Ok (Done (m, 0, s + k)) /\ k = n \/
       r = Ok (Aligned (m, n - k, s + k)) /\ 0 <= k <= n))).
  - exists 0. repeat split; try lia. apply updated_0.
  - lia.
  - intros [[m ecx] edi] (k & Hk & -> & -> & Hf). unfold memset_top.
    destruct (Z.eqb_spec (n - k) 0) as [E|E].
    + exists m, k. split; [done|]. left. rewrite E. split; [done | lia].
    + destruct (Z.land _ _ =? 0); [exists m, k; auto|].
      split; [|lia]. exists (k + 1). repeat split; try lia.
      apply updated_mset; [lia | done | by apply memset_word4_bytes].
Qed.

Lemma rep_stosl_spec m k w :
  0 <= k -> 0 <= w < 4294967296 -> filled m k ->
  exists m', while (rep_stosl eax) (m, w, s + k) = Ok (m', s + (k + 4 * w)) /\
    filled m' (k + 4 * w).
Proof.
  intros Hk Hw Hf.
  apply (while_rule _
    (fun '(m', ecx, edi) => exists j, 0 <= j <= w /\ ecx = w - j /\
       edi = s + (k + 4 * j) /\ filled m' (k + 4 * j))
    (fun '(_, ecx, _) => ecx)
    (fun r => exists m', r = Ok (m', s + (k + 4 * w)) /\ filled m' (k + 4 * w))).
  - exists 0. replace (k + 4 * 0) with k by lia. repeat split; done || lia.
  - lia.
  - intros [[m' ecx] edi] (j & Hj & -> & -> & Hf'). unfold rep_stosl.
    destruct (Z.eqb_spec (w - j) 0) as [E|E].
    + replace w with j by lia. eauto.
    + split; [|lia]. exists (j + 1).
      replace (k + 4 * (j + 1)) with (k + 4 * j + 4) by lia.
      repeat split; try lia.
      apply updated_store32; [lia | done | by apply memset_word4_bytes..].
Qed.

Lemma memset_bottom_spec m k w :
  0 <= k -> 0 <= w < 4294967296 -> filled m k ->
  exists m', while (memset_bottom eax) (m, w, s + k) = Ok m' /\ filled m' (k + w).
Proof.
  intros Hk Hw Hf.
  apply (while_rule _
    (fun '(m', edx, edi) => exists j, 0 <= j <= w /\ edx = w - j /\
       edi = s + (k + j) /\ filled m' (k + j))
    (fun '(_, edx, _) => edx)
    (fun r => exists m', r = Ok m' /\ filled m' (k + w))).
  - exists 0. replace (k + 0) with k by lia. repeat split; done || lia.
  - lia.
  - intros [[m' edx] edi] (j & Hj & -> & -> & Hf'). unfold memset_bottom.
    destruct (Z.eqb_spec (w - j) 0) as [E|E].
    + replace w with j by lia. eauto.
    + split; [|lia]. exists (j + 1).
      replace (k + (j + 1)) with (k + j + 1) by lia. repeat split; try lia.
      apply updated_mset; [lia | done | by apply memset_word4_bytes].
Qed.
End Memset.

Lemma land255 c : Z.land c 255 = u8 c.
Proof. change 255 with (Z.ones 8). by rewrite Z.land_ones by lia. Qed.

Lemma memset_spec m s c n :
  0 <= n < 4294967296 ->
  exists m', memset m s c n = Ok m' /\ updated m m' s n (fun _ => u8 c).
Proof.
  intros Hn. unfold memset. rewrite land255.
  pose proof (u8_range c) as Hc. rewrite memset_word4 by lia.
  destruct (memset_top_spec m s (u8 c) Hc n Hn)
    as (m1 & k & Hf & [[-> ->]|[-> Hk]]); simpl; [eauto|].
  rewrite land3, shiftr2.
  assert (Hq : 0 <= (n - k) / 4 <= n - k) by lia_mod.
  assert (Hm : 0 <= (n - k) mod 4 <= n - k) by lia_mod.
  destruct (rep_stosl_spec m s (u8 c) Hc m1 k ((n - k) / 4))
    as (m2 & -> & Hf2); [lia | lia | done |]. simpl.
  destruct (memset_bottom_spec m s (u8 c) Hc m2 (k + 4 * ((n - k) / 4))
    ((n - k) mod 4)) as (m3 & -> & Hf3); [lia | lia | done |].
  exists m3. split; [done|].
  replace n with (k + 4 * ((n - k) / 4) + (n - k) mod 4) at 1 by lia_mod.
  done.
Qed.

(** Copies: sound when the destination does not start inside the source. *)
Section Memcpy.
Context (m0 : mem) (dest src n : Z).
Context (Hn : 0 <= n < 4294967296).
Context (Hov : dest <= src \/ src + n <= dest).
Local Abbreviation copied m k :=
  (updated m0 m dest k (fun j => mget m0 (src + j))).

Lemma copied_src m k j :
  copied m k -> 0 <= k <= j -> j < n -> mget m (src + j) = mget m0 (src + j).
Proof. intros H Hk Hj. rewrite H, decide_False by lia. done. Qed.

Lemma copied_byte m k :
  copied m k -> 0 <= k < n -> copied (mset m (dest + k) (mget m (src + k))) (k + 1).
Proof.
  intros H Hk. apply updated_mset; [lia | done |].
  rewrite (copied_src m k) by (done || lia). apply mget_u8.
Qed.

Lemma copied_word m k :
  copied m k -> 0 <= k -> k + 4 <= n ->
  copied (store32 m (dest + k) (load32 m (src + k))) (k + 4).
Proof.
  intros H Hk Hk4. unfold load32.
  replace (src + k + 1) with (src + (k + 1)) by lia.
  replace (src + k + 2) with (src + (k + 2)) by lia.
  replace (src + k + 3) with (src + (k + 3)) by lia.
  rewrite !(copied_src m k) by (done || lia).
  pose proof (mget_range m0 (src + k)). pose proof (mget_range m0 (src + (k + 1))).
  pose proof (mget_range m0 (src + (k + 2))).
  pose proof (mget_range m0 (src + (k + 3))).
  apply updated_store32; [lia | done |..]; unfold u8; lia_mod.
Qed.

Lemma memcpy_top_spec :
  exists m k, copied m k /\
    (while memcpy_top (m0, n, src, dest) = Ok (Done (m, 0, src + k, dest + k)) /\
     k = n \/
     while memcpy_top (m0, n, src, dest)
       = Ok (Aligned (m, n - k, src + k, dest + k)) /\ 0 <= k <= n).
Proof.
  apply (while_rule _
    (fun '(m, ecx, esi, edi) => exists k, 0 <= k <= n /\ ecx = n - k /\
       esi = src + k /\ edi = dest + k /\ copied m k)
    (fun '(_, ecx, _, _) => ecx)
    (fun r => exists m k, copied m k /\
      (r = Ok (Done (m, 0, src + k, dest + k)) /\ k = n \/
       r = Ok (Aligned (m, n - k, src + k, dest + k)) /\ 0 <= k <= n))).
  - exists 0. repeat split; try lia. apply updated_0.
  - lia.
  - intros [[[m ecx] esi] edi] (k & Hk & -> & -> & -> & Hf). unfold memcpy_top.
    destruct (Z.eqb_spec (n - k) 0) as [E|E].
    + exists m, k. split; [done|]. left. rewrite E. split; [done | lia].
    + destruct (Z.land _ _ =? 0); [exists m, k; auto|].
      split; [|lia]. exists (k + 1). repeat split; try lia.
      apply copied_byte; [done | lia].
Qed.

Lemma rep_movsl_spec m k w :
  0 <= k -> 0 <= w -> k + 4 * w <= n -> copied m k ->
  exists m', while rep_movsl (m, w, src + k, dest + k)
      = Ok (m', src + (k + 4 * w), dest + (k + 4 * w)) /\ copied m' (k + 4 * w).
Proof.
  intros Hk Hw Hkw Hf.
  apply (while_rule _
    (fun '(m', ecx, esi, edi) => exists j, 0 <= j <= w /\ ecx = w - j /\
       esi = src + (k + 4 * j) /\ edi = dest + (k + 4 * j) /\
       copied m' (k + 4 * j))
    (fun '(_, ecx, _, _) => ecx)
    (fun r => exists m', r = Ok (m', src + (k + 4 * w), dest + (k + 4 * w)) /\
      copied m' (k + 4 * w))).
  - exists 0. replace (k + 4 * 0) with k by lia. repeat split; done || lia.
  - lia.
  - intros [[[m' ecx] esi] edi] (j & Hj & -> & -> & -> & Hf'). unfold rep_movsl.
    destruct (Z.eqb_spec (w - j) 0) as [E|E].
    + replace w with j by lia. eauto.
    + split; [|lia]. exists (j + 1).
      replace (k + 4 * (j + 1)) with (k + 4 * j + 4) by lia.
      repeat split; try lia. apply copied_word; [done | lia | lia].
Qed.

Lemma memcpy_bottom_spec m k :
  0 <= k <= n -> copied m k ->
  exists m', while memcpy_bottom (m, n - k, src + k, dest + k) = Ok m' /\
    copied m' n.
Proof.
  intros Hk Hf.
  apply (while_rule _
    (fun '(m', edx, esi, edi) => exists j, k <= j <= n /\ edx = n - j /\
       esi = src + j /\ edi = dest + j /\ copied m' j)
    (fun '(_, edx, _, _) => edx)
    (fun r => exists m', r = Ok m' /\ copied m' n)).
  - exists k. repeat split; done || lia.
  - lia.
  - intros [[[m' edx] esi] edi] (j & Hj & -> & -> & -> & Hf').
    unfold memcpy_bottom. destruct (Z.eqb_spec (n - j) 0) as [E|E].
    + replace n with j by lia. eauto.
    + split; [|lia]. exists (j + 1). repeat split; try lia.
      apply copied_byte; [done | lia].
Qed.

Lemma memcpy_spec :
  exists m', memcpy m0 dest src n = Ok m' /\ copied m' n.
Proof.
  unfold memcpy.
  destruct memcpy_top_spec as (m1 & k & Hf & [[-> ->]|[-> Hk]]); simpl; [eauto|].
  rewrite land3, shiftr2.
  assert (Hq : 0 <= (n - k) / 4) by lia_mod.
  assert (Hm : k + 4 * ((n - k) / 4) = n - (n - k) mod 4) by lia_mod.
  assert (Hr : 0 <= (n - k) mod 4 < 4) by lia_mod.
  destruct (rep_movsl_spec m1 k ((n - k) / 4)) as (m2 & -> & Hf2);
    [lia | lia | lia | done |]. simpl.
  replace ((n - k) mod 4) with (n - (k + 4 * ((n - k) / 4))) by lia.
  apply memcpy_bottom_spec; [lia | done].
Qed.
End Memcpy.

Lemma memmove_fwd_spec m dest src n :
  0 <= n < 4294967296 -> dest <= src ->
  exists m', while (rep_movsb 1) (m, n, src, dest) = Ok m' /\
    updated m m' dest n (fun j => mget m (src + j)).
Proof.
  intros Hn Hle.
  apply (while_rule _
    (fun '(m', ecx, esi, edi) => exists k, 0 <= k <= n /\ ecx = n - k /\
       esi = src + k /\ edi = dest + k /\
       updated m m' dest k (fun j => mget m (src + j)))
    (fun '(_, ecx, _, _) => ecx)
    (fun r => exists m', r = Ok m' /\
       updated m m' dest n (fun j => mget m (src + j)))).
  - exists 0. repeat split; try lia. apply updated_0.
  - lia.
  - intros [[[m' ecx] esi] edi] (k & Hk & -> & -> & -> & Hf). unfold rep_movsb.
    destruct (Z.eqb_spec (n - k) 0) as [E|E].
    + replace n with k by lia. eauto.
    + split; [|lia]. exists (k + 1). repeat split; try lia.
      apply (copied_byte m dest src n); [by left | done | lia].
Qed.

Lemma memmove_bwd_spec m dest src n :
  0 <= n < 4294967296 -> src < dest ->
  exists m', while (rep_movsb (-1)) (m, n, src + n - 1, dest + n - 1) = Ok m' /\
    updated m m' dest n (fun j => mget m (src + j)).
Proof.
  intros Hn Hlt.
  apply (while_rule _
    (fun '(m', ecx, esi, edi) => 0 <= ecx <= n /\
       esi = src + ecx - 1 /\ edi = dest + ecx - 1 /\
       updated m m' (dest + ecx) (n - ecx) (fun j => mget m (src + ecx + j)))
    (fun '(_, ecx, _, _) => ecx)
    (fun r => exists m', r = Ok m' /\
       updated m m' dest n (fun j => mget m (src + j)))).
  - split; [lia|]. split; [done|]. split; [done|].
    replace (n - n) with 0 by lia. apply updated_0.
  - lia.
  - intros [[[m' ecx] esi] edi] (Hk & -> & -> & Hf). unfold rep_movsb.
    destruct (Z.eqb_spec ecx 0) as [->|E].
    + exists m'. split; [done|]. intros b. rewrite Hf.
      replace (dest + 0) with dest by lia. replace (n - 0) with n by lia.
      case_decide; [f_equal; lia | done].
    + split; [|lia]. split; [lia|]. split; [lia|]. split; [lia|].
      intros b. rewrite mget_mset, !Hf.
      destruct (decide (dest + ecx - 1 = b)) as [<-|].
      * rewrite decide_False, decide_True by lia.
        rewrite mget_u8. f_equal. lia.
      * repeat case_decide; try lia; try done. f_equal. lia.
Qed.

(** C38: Overlapping or not, [memmove] copies the old contents of the source and
    changes nothing else. *)
Theorem memmove_copies m dest src n :
  0 <= n < 4294967296 ->
  exists m', memmove m dest src n = Ok m' /\
    updated m m' dest n (fun j => mget m (src + j)).
Proof.
  intros Hn. unfold memmove. destruct (Z.ltb_spec src dest).
  - by apply memmove_bwd_spec.
  - apply memmove_fwd_spec; lia.
Qed.

(** [n] is a count of 16-bit words here, not of bytes. *)
Lemma memset_word_spec m s c n :
  0 <= n < 4294967296 ->
  exists m', memset_word m s c n = Ok m' /\
    updated m m' s (2 * n) (fun k => u8 (c / 2 ^ (8 * (k mod 2)))).
Proof.
  intros Hn. unfold memset_word.
  apply (while_rule _
    (fun '(m', ecx, edi) => exists k, 0 <= k <= n /\ ecx = n - k /\
       edi = s + 2 * k /\
       updated m m' s (2 * k) (fun k => u8 (c / 2 ^ (8 * (k mod 2)))))
    (fun '(_, ecx, _) => ecx)
    (fun r => exists m', r = Ok m' /\
       updated m m' s (2 * n) (fun k => u8 (c / 2 ^ (8 * (k mod 2)))))).
  - exists 0. repeat split; try lia. apply updated_0.
  - lia.
  - intros [[m' ecx] edi] (k & Hk & -> & -> & Hf). unfold rep_stosw.
    destruct (Z.eqb_spec (n - k) 0) as [E|E].
    + replace n with k by lia. eauto.
    + split; [|lia]. exists (k + 1). split; [lia|]. split; [lia|]. split; [lia|].
      replace (2 * (k + 1)) with (2 * k + 1 + 1) by lia.
      replace (s + 2 * k + 1) with (s + (2 * k + 1)) by lia.
      apply updated_mset; [lia | apply updated_mset; [lia | done |] |].
      * replace (2 * k mod 2) with 0 by lia_mod. by rewrite Z.div_1_r.
      * replace ((2 * k + 1) mod 2) with 1 by lia_mod. done.
Qed.

(** ** The properties of the routines *)

(** [memcpy] copies [n] bytes and changes nothing else, unless the
    destination starts inside the source. *)
Theorem memcpy_copies m dest src n :
  0 <= n < 4294967296 -> dest <= src \/ src + n <= dest ->
  exists m', memcpy m dest src n = Ok m' /\
    updated m m' dest n (fun j => mget m (src + j)).
Proof. intros Hn Hov. by apply memcpy_spec. Qed.

(** [memset] fills [n] bytes with the low byte of [c] and changes nothing
    else, whatever the alignment of the destination. *)
Theorem memset_fills m s c n :
  0 <= n < 4294967296 ->
  exists m', memset m s c n = Ok m' /\ updated m m' s n (fun _ => u8 c).
Proof. apply memset_spec. Qed.

(** C39: [itoa] writes the usual numeral of the value in the radix, terminated,
    and nothing outside it. *)
Theorem itoa_writes_numeral m value buf radix :
  0 <= value < 4294967296 -> 2 <= radix <= 36 ->
  exists m' ds, itoa m value buf radix = Ok m' /\
    numeral radix value ds /\ cstr m' buf (map digit_char ds) /\ zlen ds <= 32 /\
    (forall a, a < buf \/ buf + zlen ds < a -> mget m' a = mget m a).
Proof.
  intros Hv Hr. destruct (itoa_spec m value buf radix Hv Hr) as (m' & ds & H1 & H2 & H3 & H4).
  exists m', ds. split_and!; try done. apply (numeral_length radix value); lia || done.
Qed.

(** The place where two C strings first differ or end, within [n]. *)
Lemma first_difference m s1 s2 n :
  0 <= n -> exists k, 0 <= k <= n /\
    (forall j, 0 <= j < k -> mget m (s1 + j) = mget m (s2 + j) /\ mget m (s1 + j) <> 0) /\
    (k = n \/ mget m (s1 + k) <> mget m (s2 + k) \/ mget m (s1 + k) = 0).
Proof.
  intros Hn. destruct (first_failure (fun j => mget m (s1 + j) = mget m (s2 + j) /\
    mget m (s1 + j) <> 0) n Hn) as [H|(k & Hk & Hf & Hb)].
  - exists n. split_and!; [lia | lia | exact H | by left].
  - exists k. split_and!; [lia | lia | exact Hb|]. right.
    destruct (Z.eq_dec (mget m (s1 + k)) (mget m (s2 + k))); [|by left].
    right. destruct (Z.eq_dec (mget m (s1 + k)) 0); tauto.
Qed.

Lemma s8_inj a b : 0 <= a < 256 -> 0 <= b < 256 -> s8 a = s8 b -> a = b.
Proof. unfold s8. intros. lia_mod. Qed.

(** The characters before a place where the string has not ended. *)
Lemma cstr_prefix m a l k :
  cstr m a l -> 0 <= k -> (forall j, 0 <= j < k -> mget m (a + j) <> 0) ->
  k <= zlen l /\ mget m (a + k) = anth 0 l k.
Proof.
  intros Hl Hk Hnz.
  assert (k <= zlen l).
  { destruct (Z.le_gt_cases k (zlen l)); [done|].
    destruct (Hnz (zlen l) ltac:(lia)). apply (cstr_end _ _ _ Hl). }
  split; [done|]. destruct (Z.eq_dec k (zlen l)) as [->|].
  - rewrite (cstr_end _ _ _ Hl). unfold anth. by rewrite nth_overflow by lia.
  - apply (cstr_char _ _ _ k Hl). lia.
Qed.

Lemma anth_take l n j : 0 <= j < n -> anth 0 (take (Z.to_nat n) l) j = anth 0 l j.
Proof.
  intros Hj. unfold anth. rewrite !nth_lookup, lookup_take_lt by lia. done.
Qed.

(** [strncmp] of two strings is zero exactly when they agree on their first
    [n] characters, or up to a common end before that. *)
Lemma strncmp_prefix m s1 s2 l1 l2 n :
  cstr m s1 l1 -> cstr m s2 l2 -> 0 <= n < 4294967296 ->
  exists c, strncmp m s1 s2 n = Ok c /\
    (c = 0 <-> take (Z.to_nat n) l1 = take (Z.to_nat n) l2).
Proof.
  intros H1 H2 Hn. destruct (first_difference m s1 s2 n) as (k & Hk & Hpre & Hend); [lia|].
  rewrite (strncmp_spec m s1 s2 n k) by (done || lia). eexists. split; [reflexivity|].
  destruct (cstr_prefix m s1 l1 k H1) as [K1 E1]; [lia | intros; by apply Hpre|].
  destruct (cstr_prefix m s2 l2 k H2) as [K2 E2];
    [lia | intros j Hj; destruct (Hpre j Hj) as [<- ?]; done|].
  assert (Hsame : forall j, 0 <= j < k -> anth 0 l1 j = anth 0 l2 j).
  { intros j Hj. rewrite <-(cstr_char _ _ _ j H1), <-(cstr_char _ _ _ j H2) by lia.
    apply Hpre. lia. }
  destruct (Z.ltb_spec k n) as [Hlt|Hge].
  - split.
    + intros Hc. assert (E : mget m (s1 + k) = mget m (s2 + k))
        by (apply s8_inj; try apply mget_range; lia).
      assert (Z0 : mget m (s1 + k) = 0) by (destruct Hend as [|[|]]; [lia | done | done]).
      assert (zlen l1 = k /\ zlen l2 = k) as [L1 L2].
      { split; [destruct (Z.eq_dec (zlen l1) k) | destruct (Z.eq_dec (zlen l2) k)]; try done.
        - by destruct (cstr_nonzero _ _ _ k H1 ltac:(lia)).
        - destruct (cstr_nonzero _ _ _ k H2 ltac:(lia)). congruence. }
      rewrite !take_ge by lia. apply (anth_eq 0); [lia|]. intros j Hj. apply Hsame. lia.
    + intros Ht. rewrite E1, E2, <-(anth_take l1 n k), <-(anth_take l2 n k), Ht by lia. lia.
  - split; [intros _ | done]. assert (k = n) as -> by lia.
    apply (anth_eq 0); [rewrite !length_take; lia|]. rewrite length_take. intros j Hj.
    rewrite !anth_take by lia. apply Hsame. lia.
Qed.

(** [strncmp] decides equality of the first [n] characters. *)
Theorem strncmp_decides m s1 s2 l1 l2 n :
  cstr m s1 l1 -> cstr m s2 l2 -> 0 <= n < 4294967296 ->
  exists c, strncmp m s1 s2 n = Ok c /\
    (c = 0 <-> take (Z.to_nat n) l1 = take (Z.to_nat n) l2).
Proof. apply strncmp_prefix. Qed.
