(* ===== verification/FileSys.v ===== *)
(** * The read-only file system (filesys.c)

    The image is in memory where the boot loader put it: one boot block
    (three counts, then 63 directory entries of 64 bytes), one 4 kB block
    per inode, then the data blocks.  The operations read it byte by byte
    through the four pointers [init_filesys] sets up; [file_pos_keeper] and
    [fs_dir_read_flag] are the two static variables that make directory
    reads advance. *)

From Stdlib Require Import ZArith Lia String Ascii.
From stdpp Require Import base numbers list gmap.
From S2P Require Import Prelude Mem CString.

Local Open Scope Z_scope.

Definition BLK_SIZE : Z := 4.
Definition FILE_TYPE_OFFSET : Z := 32.
Definition INODE_NUM_OFFSET : Z := 36.
Definition FNAME_LEN : Z := 32.
Definition FILE_DENTRIES : Z := 63.
Definition STAT_SIZE : Z := 64.
Definition DENTRY_SIZE : Z := 64.
Definition INODES_SIZE : Z := 4096.
Definition DATA_BLOCK_SIZE : Z := 4096.
Definition INODES_SIZE_HEX : Z := 4096.

(** The global and static variables of filesys.c. *)
Record fsvars := FsVars {
  fs_bootblk : Z;
  fs_datablocks : Z;
  fs_dentries : Z;
  fs_inodes : Z;
  file_pos_keeper : Z;
  fs_dir_read_flag : Z;
}.

Definition set_file_pos_keeper (v : Z) (fs : fsvars) : fsvars :=
  FsVars (fs_bootblk fs) (fs_datablocks fs) (fs_dentries fs) (fs_inodes fs)
    v (fs_dir_read_flag fs).

Definition set_fs_dir_read_flag (v : Z) (fs : fsvars) : fsvars :=
  FsVars (fs_bootblk fs) (fs_datablocks fs) (fs_dentries fs) (fs_inodes fs)
    (file_pos_keeper fs) v.

Definition init_filesys (m : mem) (start_addr : Z) (fs : fsvars) : fsvars :=
  let num_inode := load32 m (start_addr + BLK_SIZE) in
  FsVars start_addr
    (u32 (start_addr + (num_inode + 1) * INODES_SIZE))
    (start_addr + STAT_SIZE)
    (start_addr + INODES_SIZE)
    (file_pos_keeper fs) (fs_dir_read_flag fs).

(** ** Directory entries *)

(** The address of directory entry [i]. *)
Definition dentry_addr (fs : fsvars) (i : Z) : Z :=
  fs_dentries fs + DENTRY_SIZE * i.

(** What both lookups do on success: fill in the caller's [dentry_t]. *)
Definition copy_dentry (m : mem) (dentry dentries : Z) : res mem :=
  let* m := strcpy m dentry dentries in
  let m := store32 m (dentry + 32) (load32 m (dentries + FILE_TYPE_OFFSET)) in
  let m := store32 m (dentry + 36) (load32 m (dentries + INODE_NUM_OFFSET)) in
  Ok m.

(** The loop over the directory: [Some i] is the entry that matches. *)
Definition find_dentry_step (m : mem) (fs : fsvars) (fname fname_len i : Z)
  : Z + res (option Z) :=
  if i <? FILE_DENTRIES then
    let dentries := dentry_addr fs i in
    match strlen m dentries with
    | Err e => inr (Err e)
    | Ok l =>
        if (l =? fname_len) || (FNAME_LEN <=? l) then
          match strncmp m fname dentries fname_len with
          | Err e => inr (Err e)
          | Ok c => if c =? 0 then inr (Ok (Some i)) else inl (i + 1)
          end
        else inl (i + 1)
    end
  else inr (Ok None).

(** The length is taken before [fname] is compared with [NULL]: a null name
    is dereferenced. *)
Definition read_dentry_by_name (fs : fsvars) (m : mem) (fname dentry : Z)
  : res (Z * fsvars * mem) :=
  let* n := (if fname =? 0 then Err NullDeref else strlen m fname) in
  let fname_len := if FNAME_LEN <? n then FNAME_LEN else n in
  if (dentry =? 0) || (fname_len =? 0) then Ok (-1, fs, m)
  else
    let* found := while (find_dentry_step m fs fname fname_len) 0 in
    match found with
    | None => Ok (-1, fs, m)
    | Some i =>
        let* m := copy_dentry m dentry (dentry_addr fs i) in
        Ok (0, set_file_pos_keeper i fs, m)
    end.

Definition read_dentry_by_index (fs : fsvars) (m : mem) (index dentry : Z)
  : res (Z * mem) :=
  let dir_num := load32 m (fs_bootblk fs) in
  if (FILE_DENTRIES <=? index) || (dentry =? 0) || (dir_num <=? index)
  then Ok (-1, m)
  else
    let* m := copy_dentry m dentry (dentry_addr fs index) in
    Ok (0, m).

Definition get_dentry_size (fs : fsvars) (m : mem) (dentry : Z) : Z :=
  load_s32 m (u32 (fs_bootblk fs + INODES_SIZE
                   + load32 m (dentry + 36) * INODES_SIZE)).

(** ** File contents *)

Definition inode_ptr (fs : fsvars) (inode : Z) : Z :=
  u32 (fs_inodes fs + inode * INODES_SIZE_HEX).

(** [inode_ptr->DATA_BLOCKS[k]] *)
Definition data_block (m : mem) (ip k : Z) : Z := load32 m (ip + 4 + 4 * k).

Record rd := Rd { rd_mem : mem; rd_i : Z; rd_byte : Z; rd_nth : Z; rd_cur : Z }.

Definition read_data_step (fs : fsvars) (ip offset buf length : Z) (st : rd)
  : rd + res (Z * mem) :=
  let '(Rd m i byte_tracker nth_blk cur_block) := st in
  if (i <? length) && (u32 (i + offset) <? load32 m ip) then
    let m := mset m (buf + i)
      (mget m (u32 (fs_datablocks fs + cur_block * DATA_BLOCK_SIZE
                    + byte_tracker))) in
    let byte_tracker := byte_tracker + 1 in
    if DATA_BLOCK_SIZE <=? byte_tracker then
      let nth_blk := nth_blk + 1 in
      let cur_block := data_block m ip nth_blk in
      if load32 m (fs_bootblk fs + 8) <=? cur_block then inr (Ok (-1, m))
      else inl (Rd m (i + 1) 0 nth_blk cur_block)
    else inl (Rd m (i + 1) byte_tracker nth_blk cur_block)
  else inr (Ok (s32 i, m)).

Definition read_data (fs : fsvars) (m : mem) (inode offset buf length : Z)
  : res (Z * mem) :=
  let ip := inode_ptr fs inode in
  let nth_blk := offset / DATA_BLOCK_SIZE in
  let cur_block := data_block m ip nth_blk in
  let byte_tracker := offset mod DATA_BLOCK_SIZE in
  if (load32 m (fs_bootblk fs + 4) <=? inode)
     || (load32 m (fs_bootblk fs + 8) <=? cur_block) || (buf =? 0)
  then Ok (-1, m)
  else if load32 m ip <=? offset then Ok (0, m)
  else while (read_data_step fs ip offset buf length)
         (Rd m 0 byte_tracker nth_blk cur_block).

Definition filesys_open : Z := 0.
Definition filesys_write : Z := -1.
Definition filesys_close : Z := 0.
Definition fs_dir_open : Z := 0.
Definition fs_dir_write : Z := -1.
Definition fs_dir_close : Z := 0.

(** [dentry] is the address of the local [dentry_t] of the callee. *)
Definition filesys_read_helper (fs : fsvars) (m : mem) (dentry : Z)
  (fname offset buf length : Z) : res (Z * fsvars * mem) :=
  if (fname =? 0) || (buf =? 0) then Ok (-1, fs, m)
  else
    let* (r, fs, m) := read_dentry_by_name fs m fname dentry in
    if r =? -1 then Ok (-1, fs, m)
    else
      let* (n, m) := read_data fs m (load32 m (dentry + 36)) offset buf length in
      Ok (n, fs, m).

(** ** Directory reads *)

Definition fs_print_step (fs : fsvars) (offset buf : Z) (st : mem * Z * Z)
  : (mem * Z * Z) + res (Z * mem) :=
  let '(m, length, bytes_read) := st in
  if (0 <? length) && (bytes_read <? FNAME_LEN) then
    let character := mget m (u32 (fs_bootblk fs + STAT_SIZE
                                  + offset * DENTRY_SIZE + bytes_read)) in
    if character =? 0 then inr (Ok (bytes_read, m))
    else inl (mset m (buf + bytes_read) character, length - 1, bytes_read + 1)
  else inr (Ok (bytes_read, m)).

Definition fs_print_name (fs : fsvars) (m : mem) (offset buf length : Z)
  : res (Z * mem) :=
  if load32 m (fs_bootblk fs) <=? offset then Ok (0, m)
  else while (fs_print_step fs offset buf) (m, length, 0).

(** The body of [fs_dir_read_helper] is the one of [fs_print_name]. *)
Definition fs_dir_read_helper (fs : fsvars) (m : mem) (offset buf length : Z)
  : res (Z * mem) :=
  if load32 m (fs_bootblk fs) <=? offset then Ok (0, m)
  else while (fs_print_step fs offset buf) (m, length, 0).

(** What both branches of [fs_dir_ls_read_helper] do with the entry found:
    clear 33 bytes of [buf], then copy the name. *)
Definition ls_copy_name (m : mem) (dentry buf : Z) : res (Z * mem) :=
  let m := mset_bytes m buf (replicate 33 0) in
  let* l := strlen m dentry in
  let name_length := if FNAME_LEN <? l then FNAME_LEN else l in
  let* m := strncpy m buf dentry name_length in
  Ok (name_length, m).

Definition fs_dir_ls_read_helper (fs : fsvars) (m : mem) (dentry : Z)
  (fname buf : Z) : res (Z * fsvars * mem) :=
  if fs_dir_read_flag fs =? 0 then
    let fs := set_fs_dir_read_flag 1 fs in
    let* (r, fs, m) := read_dentry_by_name fs m fname dentry in
    if negb (r =? -1) then
      let* (n, m) := ls_copy_name m dentry buf in Ok (n, fs, m)
    else Ok (-1, fs, m)
  else
    let fs := set_file_pos_keeper (file_pos_keeper fs + 1) fs in
    let* (r, m) := read_dentry_by_index fs m (u32 (file_pos_keeper fs)) dentry in
    if r =? 0 then
      let* (n, m) := ls_copy_name m dentry buf in Ok (n, fs, m)
    else
      Ok (0, set_file_pos_keeper 0 (set_fs_dir_read_flag 0 fs), m).

Definition get_start (fs : fsvars) : Z := s32 (fs_bootblk fs).

(** ** Abstract view of the image *)

(** A directory entry: its name (at most 32 characters, terminated only when
    shorter), its type and its inode number. *)
Record entry := Entry { e_name : list Z; e_type : Z; e_inode : Z }.

Definition name_at (m : mem) (a : Z) (nm : list Z) : Prop :=
  zlen nm <= 32
  /\ (forall k, 0 <= k < zlen nm -> mget m (a + k) = anth 0 nm k /\ anth 0 nm k <> 0)
  /\ (zlen nm < 32 -> mget m (a + zlen nm) = 0).

Definition entry_at (m : mem) (a : Z) (e : entry) : Prop :=
  name_at m a (e_name e) /\ load32 m (a + 32) = e_type e
  /\ load32 m (a + 36) = e_inode e /\ 0 <= e_type e < 256.

(** The whole directory: 63 slots, of which [dir_num] are in use. *)
Definition dir_at (m : mem) (fs : fsvars) (dir : list entry) : Prop :=
  zlen dir = 63 /\
  forall i e, 0 <= i -> dir !! Z.to_nat i = Some e ->
    entry_at m (dentry_addr fs i) e.

(** The comparison the lookup makes: names are compared on the first 32
    characters of the request; an entry that fills its 32 bytes is compared
    only on the length of the request. *)
Definition name_matches (s nm : list Z) : bool :=
  bool_decide ((zlen nm = Z.min 32 (zlen s) \/ zlen nm = 32) /\
               take (Z.to_nat (Z.min 32 (zlen s))) nm = take 32 s).

Fixpoint find_from (i : Z) (P : entry -> bool) (l : list entry) : option Z :=
  match l with
  | [] => None
  | e :: l => if P e then Some i else find_from (i + 1) P l
  end.

Definition abs_lookup (dir : list entry) (s : list Z) : option Z :=
  find_from 0 (fun e => name_matches s (e_name e)) dir.

(** Where [init_filesys] and the image agree. *)
Record fs_image (fs : fsvars) (m : mem) (start n_inodes n_blocks : Z) : Prop := {
  fi_start : 0 < start;
  fi_boot : fs_bootblk fs = start;
  fi_dentries : fs_dentries fs = start + 64;
  fi_inodes : fs_inodes fs = start + 4096;
  fi_data : fs_datablocks fs = start + (n_inodes + 1) * 4096;
  fi_n_inodes : load32 m (start + 4) = n_inodes;
  fi_n_blocks : load32 m (start + 8) = n_blocks;
  fi_fits : start + (1 + n_inodes + n_blocks) * 4096 < 4294967296;
}.

Definition image_end (start n_inodes n_blocks : Z) : Z :=
  start + (1 + n_inodes + n_blocks) * 4096.

(** A byte range that does not touch the image. *)
Definition off_image (start n_inodes n_blocks a n : Z) : Prop :=
  a + n <= start \/ image_end start n_inodes n_blocks <= a.

Definition file_len (m : mem) (fs : fsvars) (ino : Z) : Z :=
  load32 m (fs_inodes fs + ino * 4096).

Definition file_byte (m : mem) (fs : fsvars) (ino k : Z) : Z :=
  mget m (fs_datablocks fs
          + data_block m (fs_inodes fs + ino * 4096) (k / 4096) * 4096 + k mod 4096).

(** The contents of a file, as a list of bytes. *)
Definition file_content (m : mem) (fs : fsvars) (ino : Z) : list Z :=
  map (fun k => file_byte m fs ino (Z.of_nat k))
    (seq 0 (Z.to_nat (file_len m fs ino))).

(** The blocks a file names exist; [read_data] also looks at the number
    after the last one when the file ends on a block boundary. *)
Record file_ok (m : mem) (fs : fsvars) (n_inodes n_blocks ino : Z) : Prop := {
  fo_ino : 0 <= ino < n_inodes;
  fo_len : file_len m fs ino < 1023 * 4096;
  fo_blk : forall k, 0 <= k <= file_len m fs ino / 4096 ->
    data_block m (fs_inodes fs + ino * 4096) k < n_blocks;
}.

(** ** Names *)

Lemma name_at_cstr m a nm :
  name_at m a nm -> zlen nm < 32 -> cstr m a nm.
Proof. intros (_ & Hc & H0) Hl. split; [done | by apply H0]. Qed.

Lemma entry_strlen m a e :
  entry_at m a e ->
  exists s, cstr m a s /\ zlen (e_name e) <= zlen s <= 33 /\
    (zlen (e_name e) < 32 -> s = e_name e) /\
    take 32 s = e_name e.
Proof.
  intros (Hn & Ht & _ & Hr). destruct e as [nm ty ino]. simpl in *.
  pose proof Hn as (Hl & Hc & H0).
  destruct (Z.lt_ge_cases (zlen nm) 32) as [Hlt|Hge].
  { exists nm. split; [by apply name_at_cstr|]. split; [lia|].
    split; [done|]. apply take_ge. lia. }
  assert (Hlen : zlen nm = 32) by lia. clear H0.
  unfold load32 in Ht.
  pose proof (mget_range m (a + 32)). pose proof (mget_range m (a + 32 + 1)).
  pose proof (mget_range m (a + 32 + 2)). pose proof (mget_range m (a + 32 + 3)).
  assert (E1 : mget m (a + 33) = 0) by (replace (a + 33) with (a + 32 + 1) by lia; lia).
  assert (E0 : mget m (a + 32) = ty) by lia.
  destruct (Z.eq_dec ty 0) as [->|Hne].
  - exists nm. split; [split; [done | by rewrite Hlen]|].
    split; [lia|]. split; [done|]. apply take_ge. lia.
  - exists (nm ++ [ty]). assert (Hl2 : zlen (nm ++ [ty]) = 33)
      by (rewrite length_app; simpl; lia).
    split; [split|].
    + intros i Hi. rewrite anth_app by lia. case_decide; [apply Hc; lia|].
      replace i with 32 by lia. rewrite Hlen, E0. split; done.
    + by rewrite Hl2.
    + split; [lia|]. split; [lia|]. rewrite take_app_le by lia. apply take_ge. lia.
Qed.

Lemma name_at_ext m1 m2 a nm :
  (forall b, a <= b < a + 32 -> mget m1 b = mget m2 b) ->
  name_at m1 a nm -> name_at m2 a nm.
Proof.
  intros H (Hl & Hc & H0). split; [done|]. split.
  - intros k Hk. rewrite <-H by lia. by apply Hc.
  - intros Hlt. rewrite <-H by lia. by apply H0.
Qed.

Lemma entry_at_ext m1 m2 a e :
  (forall b, a <= b < a + 40 -> mget m1 b = mget m2 b) ->
  entry_at m1 a e -> entry_at m2 a e.
Proof.
  intros H (Hn & Ht & Hi & Hr). split.
  - apply name_at_ext with m1; [|done]. intros. apply H. lia.
  - split; [rewrite <-Ht|split; [rewrite <-Hi|done]];
      symmetry; apply load32_ext; intros; apply H; lia.
Qed.

(** Copying an entry into a [dentry_t] keeps name, type and inode. *)
Lemma copy_dentry_spec m dentry de e :
  entry_at m de e -> dentry + 64 <= de \/ de + 64 <= dentry ->
  exists m', copy_dentry m dentry de = Ok m' /\ entry_at m' dentry e /\
    (forall b, b < dentry \/ dentry + 64 <= b -> mget m' b = mget m b).
Proof.
  intros He Hdis. destruct (entry_strlen m de e He) as (s & Hs & Hl & Hsame & Htake).
  destruct (strcpy_spec m dentry de s Hs) as (m1 & Hcpy & _ & Hu); [lia | lia |].
  destruct He as ((Hn32 & Hc & H0) & Ht & Hi & Hr).
  assert (Hout : forall b, b < dentry \/ dentry + 34 <= b -> mget m1 b = mget m b).
  { intros b Hb. rewrite Hu, decide_False by lia. done. }
  unfold copy_dentry. rewrite Hcpy. eexists. split; [reflexivity|].
  unfold FILE_TYPE_OFFSET, INODE_NUM_OFFSET.
  rewrite (load32_ext m1 m (de + 32)) by (intros; apply Hout; lia).
  rewrite (load32_store32_ne m1) by lia.
  rewrite (load32_ext m1 m (de + 36)) by (intros; apply Hout; lia).
  rewrite Ht, Hi. pose proof (load32_range m (de + 36)) as Hir. rewrite Hi in Hir.
  split; [split; [split; [done|split]|split; [|split]]|].
  - intros k Hk. rewrite !mget_store32_ne by lia.
    rewrite Hu, decide_True by lia. replace (dentry + k - dentry) with k by lia.
    by apply Hc.
  - intros Hlt. rewrite !mget_store32_ne by lia.
    rewrite Hu, decide_True by lia.
    replace (dentry + zlen (e_name e) - dentry) with (zlen (e_name e)) by lia.
    by apply H0.
  - rewrite load32_store32_ne, load32_store32_eq by lia. apply u32_small. lia.
  - rewrite load32_store32_eq. apply u32_small. lia.
  - done.
  - intros b Hb. rewrite !mget_store32_ne by lia. apply Hout. lia.
Qed.

(** ** Looking up a name *)

Lemma name_matches_spec s nm :
  name_matches s nm = true <->
  (zlen nm = Z.min 32 (zlen s) \/ zlen nm = 32) /\
  forall k, 0 <= k < Z.min 32 (zlen s) -> anth 0 nm k = anth 0 s k.
Proof.
  unfold name_matches. rewrite bool_decide_eq_true.
  set (n := Z.min 32 (zlen s)).
  assert (Htk : take 32 s = take (Z.to_nat n) s).
  { destruct (Z.le_gt_cases (zlen s) 32).
    - rewrite !take_ge by lia. done.
    - f_equal. lia. }
  rewrite Htk. split; intros [Hl H]; (split; [done|]).
  - intros k Hk. unfold anth. rewrite <-(take_drop (Z.to_nat n) nm),
      <-(take_drop (Z.to_nat n) s).
    rewrite !app_nth1 by (rewrite length_take; lia). by rewrite H.
  - apply (anth_eq 0).
    + rewrite !length_take. lia.
    + rewrite length_take. intros k Hk.
      assert (Hx : forall l : list Z, n <= zlen l -> anth 0 (take (Z.to_nat n) l) k = anth 0 l k).
      { intros l Hln. unfold anth. rewrite <-(take_drop (Z.to_nat n) l) at 2.
        by rewrite app_nth1 by (rewrite length_take; lia). }
      rewrite !Hx by lia. apply H. lia.
Qed.

Section Lookup.
Context (m : mem) (fs : fsvars) (dir : list entry) (Hdir : dir_at m fs dir).
Context (fname : Z) (s : list Z) (Hs : cstr m fname s).
Context (Hlen : 0 < zlen s < 4294967296).
Local Abbreviation n := (Z.min 32 (zlen s)).

(** [strncmp] on the request and the entry decides equality of the first
    [n] characters. *)
Lemma compare_entry i e :
  0 <= i -> dir !! Z.to_nat i = Some e ->
  zlen (e_name e) = n \/ zlen (e_name e) = 32 ->
  exists c, strncmp m fname (dentry_addr fs i) n = Ok c /\
    (c = 0 <-> forall k, 0 <= k < n -> anth 0 (e_name e) k = anth 0 s k).
Proof.
  intros Hi He Hl. destruct Hdir as [_ Hd].
  destruct (Hd i e Hi He) as ((Hl32 & Hc & _) & _).
  set (a := dentry_addr fs i) in *. set (nm := e_name e) in *.
  assert (Heq : forall k, 0 <= k < n ->
    mget m (fname + k) = anth 0 s k /\ mget m (a + k) = anth 0 nm k /\
    anth 0 s k <> 0 /\ 0 <= anth 0 s k < 256 /\ 0 <= anth 0 nm k < 256).
  { intros k Hk. destruct Hs as [Hs1 _].
    destruct (Hs1 k ltac:(lia)) as [E1 E2], (Hc k ltac:(lia)) as [E3 E4].
    pose proof (mget_range m (fname + k)). pose proof (mget_range m (a + k)).
    rewrite <-E1, <-E3. lia. }
  assert (Hs8 : forall x y, 0 <= x < 256 -> 0 <= y < 256 ->
    s8 x - s8 y = 0 -> x = y) by (unfold s8; intros; lia_mod).
  destruct (first_failure (fun k => anth 0 nm k = anth 0 s k) n)
    as [Hall|(k & Hk & Hne & Hpre)]; [lia | |].
  - rewrite (strncmp_spec m fname a n n) by
      (lia || (intros j Hj; destruct (Heq j Hj) as (-> & -> & ? & _);
               rewrite Hall by done; done)).
    rewrite (proj2 (Z.ltb_ge n n)) by lia. exists 0. split; done.
  - rewrite (strncmp_spec m fname a n k); try lia.
    + rewrite (proj2 (Z.ltb_lt k n)) by lia.
      destruct (Heq k ltac:(lia)) as (-> & -> & _ & R1 & R2).
      eexists. split; [reflexivity|]. split.
      * intros E. destruct Hne. symmetry. by apply Hs8.
      * intros H. destruct Hne. apply H. lia.
    + intros j Hj. destruct (Heq j ltac:(lia)) as (-> & -> & ? & _).
      rewrite Hpre by lia. done.
    + right. left. destruct (Heq k ltac:(lia)) as (-> & -> & _). congruence.
Qed.

Lemma find_dentry_loop :
  while (find_dentry_step m fs fname n) 0 = Ok (abs_lookup dir s).
Proof.
  destruct Hdir as [Hd63 Hd].
  apply (while_rule _
    (fun i => 0 <= i <= 63 /\ abs_lookup dir s =
       find_from i (fun e => name_matches s (e_name e)) (drop (Z.to_nat i) dir))
    (fun i => 63 - i)
    (fun r => r = Ok (abs_lookup dir s))); [done | lia |].
  intros i [Hi Hfind]. unfold find_dentry_step, FILE_DENTRIES.
  destruct (Z.ltb_spec i 63).
  2:{ rewrite Hfind, drop_ge by lia. done. }
  destruct (lookup_lt_is_Some_2 dir (Z.to_nat i)) as [e He]; [lia|].
  rewrite (drop_S _ _ _ He) in Hfind. simpl in Hfind.
  replace (S (Z.to_nat i)) with (Z.to_nat (i + 1)) in Hfind by lia.
  pose proof (Hd i e ltac:(lia) He) as Hent.
  destruct (entry_strlen _ _ _ Hent) as (es & Hes & Hel & Hsame & Htk).
  destruct Hent as ((Hl32 & _) & _).
  rewrite (strlen_spec _ _ es Hes) by lia. unfold FNAME_LEN.
  pose proof (name_matches_spec s (e_name e)) as Hm.
  assert (Htest : (zlen es =? n) || (32 <=? zlen es) = true <->
    (zlen (e_name e) = n \/ zlen (e_name e) = 32)).
  { rewrite orb_true_iff, Z.eqb_eq, Z.leb_le.
    destruct (Z.lt_ge_cases (zlen (e_name e)) 32).
    - rewrite Hsame by done. lia.
    - lia. }
  destruct ((zlen es =? n) || (32 <=? zlen es)).
  - destruct (compare_entry i e) as (c & -> & Hc); [lia | done | by apply Htest |].
    destruct (Z.eqb_spec c 0) as [->|Hc0].
    + rewrite (proj2 Hm) in Hfind; [by rewrite Hfind|].
      split; [by apply Htest | by apply Hc].
    + destruct (name_matches s (e_name e)).
      * destruct Hc0. apply Hc, Hm. done.
      * split; [split; [lia | done] | lia].
  - destruct (name_matches s (e_name e)).
    + assert (false = true) by (apply Htest, Hm; done). done.
    + split; [split; [lia | done] | lia].
Qed.

Lemma find_from_bounds i P l k :
  find_from i P l = Some k ->
  i <= k < i + zlen l /\ exists e, l !! Z.to_nat (k - i) = Some e /\ P e = true.
Proof.
  revert i. induction l as [|e l IH]; intros i; simpl; [done|].
  destruct (P e) eqn:HP.
  - intros [= ->]. split; [lia|]. exists e. by rewrite Z.sub_diag.
  - intros H%IH. destruct H as [H1 (e' & He' & HP')]. split; [lia|].
    exists e'. split; [|done].
    by replace (Z.to_nat (k - i)) with (S (Z.to_nat (k - (i + 1)))) by lia.
Qed.

(** The lookup returns the first entry whose name matches, and nothing
    else in memory changes than the caller's [dentry_t]. *)
Lemma read_dentry_by_name_spec dentry :
  fname <> 0 -> 0 < dentry ->
  dentry + 64 <= fs_dentries fs \/ fs_dentries fs + 4096 <= dentry ->
  match abs_lookup dir s with
  | None => read_dentry_by_name fs m fname dentry = Ok (-1, fs, m)
  | Some i => exists m' e,
      dir !! Z.to_nat i = Some e /\ 0 <= i < 63 /\
      read_dentry_by_name fs m fname dentry
        = Ok (0, set_file_pos_keeper i fs, m') /\
      entry_at m' dentry e /\
      (forall b, b < dentry \/ dentry + 64 <= b -> mget m' b = mget m b)
  end.
Proof.
  intros Hf Hd Hdis. unfold read_dentry_by_name.
  rewrite (proj2 (Z.eqb_neq fname 0) Hf), (strlen_spec m fname s Hs) by lia.
  assert (Hn : (if FNAME_LEN <? zlen s then FNAME_LEN else zlen s) = n)
    by (unfold FNAME_LEN; destruct (Z.ltb_spec 32 (zlen s)); lia).
  rewrite Hn, (proj2 (Z.eqb_neq dentry 0)), (proj2 (Z.eqb_neq n 0)) by lia.
  simpl. rewrite find_dentry_loop.
  destruct (abs_lookup dir s) as [i|] eqn:Hl; [|done].
  apply find_from_bounds in Hl as [Hi (e & He & _)]. rewrite Z.sub_0_r in He.
  destruct Hdir as [H63 Hent].
  pose proof (Hent i e ltac:(lia) He) as Hat.
  unfold dentry_addr, DENTRY_SIZE in *.
  destruct (copy_dentry_spec m dentry _ e Hat) as (m' & -> & Hat' & Hsame); [lia|].
  exists m', e. split; [done|]. split; [lia|]. done.
Qed.
End Lookup.

(** ** Reading file contents *)

Lemma init_filesys_image m start n_inodes n_blocks fs :
  0 < start ->
  load32 m (start + 4) = n_inodes -> load32 m (start + 8) = n_blocks ->
  image_end start n_inodes n_blocks < 4294967296 ->
  fs_image (init_filesys m start fs) m start n_inodes n_blocks.
Proof.
  intros Hs Hi Hb He. unfold init_filesys, image_end, BLK_SIZE, INODES_SIZE in *.
  pose proof (load32_range m (start + 4)). pose proof (load32_range m (start + 8)).
  constructor; simpl; try done.
  rewrite Hi. apply u32_small. lia.
Qed.

Section ReadData.
Context (fs : fsvars) (m : mem) (start NI NB : Z).
Context (Himg : fs_image fs m start NI NB).
Context (ino : Z) (Hfile : file_ok m fs NI NB ino).
Local Abbreviation len := (file_len m fs ino).
Local Abbreviation ip := (fs_inodes fs + ino * 4096).

Lemma image_counts : 0 <= NI /\ 0 <= NB.
Proof.
  destruct Himg as [_ _ _ _ _ <- <- _].
  pose proof (load32_range m (start + 4)). pose proof (load32_range m (start + 8)).
  lia.
Qed.

Lemma inode_ptr_eq : inode_ptr fs ino = ip.
Proof.
  pose proof image_counts. destruct Himg, Hfile.
  unfold inode_ptr, INODES_SIZE_HEX. apply u32_small. nia.
Qed.

Lemma file_len_range : 0 <= len < 4294967296.
Proof. apply load32_range. Qed.

(** The words [read_data] consults all lie in the image. *)
Lemma image_load m' a n x :
  off_image start NI NB a n ->
  (forall b, b < a \/ a + n <= b -> mget m' b = mget m b) ->
  start <= x -> x + 4 <= image_end start NI NB -> 
  load32 m' x = load32 m x.
Proof.
  intros Hoff Hsame H1 H2. apply load32_ext. intros b Hb. apply Hsame.
  unfold off_image in Hoff. lia.
Qed.

Lemma data_addr k :
  0 <= k < len ->
  start <= fs_datablocks fs + data_block m ip (k / 4096) * 4096 + k mod 4096
  /\ fs_datablocks fs + data_block m ip (k / 4096) * 4096 + k mod 4096
     < image_end start NI NB.
Proof.
  intros Hk. pose proof image_counts.
  assert (Hb : data_block m ip (k / 4096) < NB).
  { apply (fo_blk _ _ _ _ _ Hfile). lia_mod. }
  pose proof (load32_range m (ip + 4 + 4 * (k / 4096))) as Hr.
  fold (data_block m ip (k / 4096)) in Hr.
  pose proof (Z.mod_pos_bound k 4096 ltac:(lia)).
  destruct Himg as [? _ _ _ -> _ _ ?]. unfold image_end in *. nia.
Qed.

Lemma read_data_invalid offset buf length :
  NB <= data_block m ip (offset / 4096) \/ buf = 0 ->
  read_data fs m ino offset buf length = Ok (-1, m).
Proof.
  intros H. unfold read_data. rewrite inode_ptr_eq. unfold DATA_BLOCK_SIZE.
  destruct Himg as [_ -> _ _ _ -> -> _].
  destruct H as [H| ->].
  - rewrite (proj2 (Z.leb_le NB _) H), orb_true_r. done.
  - rewrite orb_true_r. done.
Qed.

Context (offset buf length : Z).
Context (Hoff : 0 <= offset) (Hbuf : 0 < buf) (Hln : 0 <= length < 4294967296).
Context (Hdis : off_image start NI NB buf length).

Lemma read_data_eof :
  len <= offset -> data_block m ip (offset / 4096) < NB ->
  read_data fs m ino offset buf length = Ok (0, m).
Proof.
  intros Hge Hb. unfold read_data. rewrite inode_ptr_eq. unfold DATA_BLOCK_SIZE.
  destruct Himg as [_ -> _ _ _ -> -> _]. destruct Hfile as [Hi _ _].
  rewrite (proj2 (Z.leb_gt NI ino)), (proj2 (Z.leb_gt NB _)),
    (proj2 (Z.eqb_neq buf 0)) by lia. simpl.
  fold (file_len m fs ino). by rewrite (proj2 (Z.leb_le _ _) Hge).
Qed.

(** The loop: [rd_i] bytes are copied, and the other variables say where
    the next one is. *)
Local Abbreviation count := (Z.min length (len - offset)).
Local Abbreviation wanted := (fun j => file_byte m fs ino (offset + j)).

Record rd_inv (st : rd) : Prop := {
  ri_i : 0 <= rd_i st <= count;
  ri_mem : updated m (rd_mem st) buf (rd_i st) wanted;
  ri_byte : rd_byte st = (offset + rd_i st) mod 4096;
  ri_nth : rd_nth st = (offset + rd_i st) / 4096;
  ri_cur : rd_cur st = data_block m ip ((offset + rd_i st) / 4096);
}.

(** Copied bytes are off the image. *)
Lemma copied_load m2 k x :
  updated m m2 buf k wanted -> k <= length ->
  start <= x -> x + 4 <= image_end start NI NB -> load32 m2 x = load32 m x.
Proof.
  intros Hm2 Hk. apply image_load with buf length; [done|].
  intros b Hb. rewrite Hm2, decide_False by lia. done.
Qed.

Lemma inode_in_image : start <= ip /\ ip + 4096 <= image_end start NI NB.
Proof.
  pose proof image_counts. pose proof (fo_ino _ _ _ _ _ Hfile).
  rewrite (fi_inodes _ _ _ _ _ Himg). unfold image_end. nia.
Qed.

(** The byte a turn copies. *)
Lemma copied_data m1 i :
  updated m m1 buf i wanted -> 0 <= i < count ->
  updated m (mset m1 (buf + i) (mget m1 (u32 (fs_datablocks fs +
    data_block m ip ((offset + i) / 4096) * 4096 + (offset + i) mod 4096)))) buf (i + 1) wanted.
Proof.
  intros Hu Hi. pose proof (data_addr (offset + i) ltac:(lia)) as [Ha1 Ha2].
  pose proof (fi_fits _ _ _ _ _ Himg). pose proof (fi_start _ _ _ _ _ Himg).
  rewrite u32_small by (unfold image_end in *; lia).
  apply updated_mset; [lia | done |]. rewrite mget_u8, Hu.
  rewrite decide_False by (unfold off_image, image_end in *; lia). done.
Qed.

Lemma read_data_turn st :
  offset < len -> rd_inv st ->
  match read_data_step fs ip offset buf length st with
  | inl st' => rd_inv st' /\ 0 <= count - rd_i st' < count - rd_i st
  | inr r => exists m', r = Ok (count, m') /\ updated m m' buf count wanted
  end.
Proof.
  intros Hlt Hinv. pose proof file_len_range as Hlr. pose proof inode_in_image as [Hip1 Hip2].
  pose proof (fo_len _ _ _ _ _ Hfile) as Hmax.
  destruct st as [m1 i bt nb cb], Hinv as [Hi Hu Hbt Hnb Hcb]. cbn in *. subst bt nb cb.
  rewrite (copied_load m1 i) by (done || lia). fold (file_len m fs ino).
  destruct (Z.ltb_spec i length), (Z.ltb_spec (u32 (i + offset)) len); cbn [andb].
  2-4: rewrite ?u32_small in * by lia; rewrite s32_small by lia;
       replace count with i by lia; by exists m1.
  rewrite u32_small in * by lia. unfold DATA_BLOCK_SIZE.
  pose proof (copied_data m1 i Hu ltac:(lia)) as Hu2. set (m2 := mset m1 (buf + i) _) in *.
  destruct (Z.leb_spec 4096 ((offset + i) mod 4096 + 1)) as [Hend|Hin].
  - assert (Hq : (offset + i) / 4096 + 1 = (offset + (i + 1)) / 4096) by lia_mod.
    assert (Hr : (offset + (i + 1)) mod 4096 = 0) by lia_mod.
    rewrite Hq. set (q := (offset + (i + 1)) / 4096) in *.
    assert (Hqr : 0 <= q <= len / 4096) by (unfold q; lia_mod).
    assert (Hq4 : 4 + 4 * q + 4 <= 4096) by lia_mod.
    pose proof (fi_boot _ _ _ _ _ Himg) as Hboot. pose proof image_counts.
    assert (Hdb : data_block m2 ip q = data_block m ip q)
      by (apply (copied_load m2 (i + 1)); done || lia).
    assert (HN : load32 m2 (fs_bootblk fs + 8) = NB).
    { rewrite Hboot, (copied_load m2 (i + 1)) by (done || unfold image_end; lia).
      exact (fi_n_blocks _ _ _ _ _ Himg). }
    rewrite Hdb, HN. pose proof (fo_blk _ _ _ _ _ Hfile q Hqr) as Hbq.
    rewrite (proj2 (Z.leb_gt NB _)) by lia. split; [by constructor; cbn; try lia | cbn; lia].
  - assert (Hq : (offset + i) / 4096 = (offset + (i + 1)) / 4096) by lia_mod.
    assert (Hr : (offset + i) mod 4096 + 1 = (offset + (i + 1)) mod 4096) by lia_mod.
    rewrite Hq, Hr. split; [by constructor; cbn; try lia | cbn; lia].
Qed.

Lemma read_data_loop :
  offset < len ->
  exists m', read_data fs m ino offset buf length = Ok (count, m') /\
    updated m m' buf count wanted.
Proof.
  intros Hlt. pose proof image_counts as [HNI HNB]. pose proof file_len_range as Hlr.
  pose proof (fo_ino _ _ _ _ _ Hfile) as Hino.
  unfold read_data. rewrite inode_ptr_eq. unfold DATA_BLOCK_SIZE.
  rewrite (fi_boot _ _ _ _ _ Himg), (fi_n_inodes _ _ _ _ _ Himg),
    (fi_n_blocks _ _ _ _ _ Himg).
  assert (Hb0 : data_block m ip (offset / 4096) < NB)
    by (apply (fo_blk _ _ _ _ _ Hfile); lia_mod).
  rewrite (proj2 (Z.leb_gt NI ino)), (proj2 (Z.leb_gt NB _)),
    (proj2 (Z.eqb_neq buf 0)) by lia. simpl.
  fold (file_len m fs ino). rewrite (proj2 (Z.leb_gt _ _) Hlt).
  apply (while_rule _ rd_inv (fun st => count - rd_i st)
    (fun r => exists m', r = Ok (count, m') /\ updated m m' buf count wanted)).
  - constructor; cbn; rewrite ?Z.add_0_r; try done; [lia | apply updated_0].
  - cbn. lia.
  - intros st. by apply read_data_turn.
Qed.
End ReadData.

(** ** Listing the directory *)

Lemma ls_copy_name_spec m dentry buf e :
  entry_at m dentry e -> buf + 33 <= dentry \/ dentry + 64 <= buf ->
  exists m', ls_copy_name m dentry buf = Ok (zlen (e_name e), m') /\
    updated m m' buf 33
      (fun k => if k <? zlen (e_name e) then anth 0 (e_name e) k else 0).
Proof.
  intros He Hdis. unfold ls_copy_name. set (m1 := mset_bytes m buf _).
  assert (Hu1 : updated m m1 buf 33 (fun _ => 0)).
  { intros b. unfold m1. rewrite mget_mset_bytes, length_replicate.
    change (Z.of_nat 33) with 33. case_decide; [|done].
    by rewrite anth_replicate by lia. }
  assert (He1 : entry_at m1 dentry e).
  { apply entry_at_ext with m; [|done]. intros b Hb.
    rewrite Hu1, decide_False by lia. done. }
  destruct (entry_strlen _ _ _ He1) as (s & Hs & Hl & Hsame & Htk).
  destruct He1 as ((Hl32 & Hc & H0) & _).
  rewrite (strlen_spec _ _ s Hs) by lia.
  assert (Hn : (if FNAME_LEN <? zlen s then FNAME_LEN else zlen s) = zlen (e_name e)).
  { unfold FNAME_LEN. destruct (Z.lt_ge_cases (zlen (e_name e)) 32) as [Hlt|Hge].
    - rewrite (Hsame Hlt) in *. destruct (Z.ltb_spec 32 (zlen (e_name e))); lia.
    - destruct (Z.ltb_spec 32 (zlen s)); lia. }
  rewrite Hn. set (n := zlen (e_name e)) in *.
  destruct (strncpy_spec m1 buf dentry n n) as (m2 & -> & Hu2); try lia.
  { intros k Hk. destruct (Hc k Hk) as [-> ?]. done. }
  exists m2. split; [done|]. intros b. rewrite Hu2.
  destruct (decide (buf <= b < buf + n)).
  - rewrite decide_True, !(proj2 (Z.ltb_lt _ _)) by lia. apply Hc. lia.
  - rewrite Hu1. case_decide; [|done].
    rewrite (proj2 (Z.ltb_ge _ _)) by lia. done.
Qed.

Lemma copied_name m m' buf nm :
  zlen nm <= 32 ->
  updated m m' buf 33 (fun k => if k <? zlen nm then anth 0 nm k else 0) ->
  mbytes m' buf (List.length nm) = nm.
Proof.
  intros Hl Hu. apply (anth_eq 0); rewrite length_mbytes; [done|]. intros j Hj.
  rewrite anth_mbytes, Hu, decide_True by lia.
  replace (buf + j - buf) with j by lia.
  by rewrite (proj2 (Z.ltb_lt _ _)) by lia.
Qed.

(** Repeated directory reads, as [ls] makes them: the names returned until
    the first call that returns 0.  [n] bounds the number of calls. *)
Fixpoint dir_listing (n : nat) (fs : fsvars) (m : mem) (dentry fname buf : Z)
  : res (list (list Z) * fsvars * mem) :=
  match n with
  | O => Err Diverges
  | S n =>
      let* (cnt, fs, m) := fs_dir_ls_read_helper fs m dentry fname buf in
      if cnt =? 0 then Ok ([], fs, m)
      else
        let nm := mbytes m buf (Z.to_nat cnt) in
        let* (l, fs, m) := dir_listing n fs m dentry fname buf in
        Ok (nm :: l, fs, m)
  end.

Section Listing.
Context (m0 : mem) (fs0 : fsvars) (dir : list entry) (dir_num : Z).
Context (Hdir : dir_at m0 fs0 dir).
Context (Hnum : load32 m0 (fs_bootblk fs0) = dir_num) (Hnum63 : dir_num <= 63).
Context (Hboot : fs_dentries fs0 = fs_bootblk fs0 + 64).
(** The names in use are not empty. *)
Context (Hnames : forall i e, 0 <= i < dir_num -> dir !! Z.to_nat i = Some e ->
           0 < zlen (e_name e)).
Context (dentry buf : Z) (Hdpos : 0 < dentry).
Context (Hd1 : dentry + 64 <= fs_bootblk fs0 \/ fs_bootblk fs0 + 4160 <= dentry).
Context (Hb1 : buf + 33 <= fs_bootblk fs0 \/ fs_bootblk fs0 + 4160 <= buf).
Context (Hdb : buf + 33 <= dentry \/ dentry + 64 <= buf).

(** Memory is unchanged but for the local [dentry_t] and the buffer. *)
Local Abbreviation scratch m := (forall b, b < dentry \/ dentry + 64 <= b ->
  b < buf \/ buf + 33 <= b -> mget m b = mget m0 b).

Lemma scratch_dir m i e :
  scratch m -> 0 <= i -> dir !! Z.to_nat i = Some e ->
  entry_at m (dentry_addr fs0 i) e.
Proof.
  intros Hm Hi He. destruct Hdir as [H63 Hd].
  pose proof (lookup_lt_Some _ _ _ He).
  apply entry_at_ext with m0; [|by apply Hd].
  intros b Hb. symmetry. unfold dentry_addr, DENTRY_SIZE in Hb. apply Hm; lia.
Qed.

Lemma scratch_num m : scratch m -> load32 m (fs_bootblk fs0) = dir_num.
Proof.
  intros Hm. rewrite <-Hnum. apply load32_ext. intros. apply Hm; lia.
Qed.

(** One read after the first: the next entry, or the end. *)
Lemma ls_next m k fname :
  scratch m -> 0 <= k < dir_num ->
  let fs := FsVars (fs_bootblk fs0) (fs_datablocks fs0) (fs_dentries fs0)
              (fs_inodes fs0) k 1 in
  (k + 1 < dir_num -> exists e m',
     dir !! Z.to_nat (k + 1) = Some e /\
     fs_dir_ls_read_helper fs m dentry fname buf
       = Ok (zlen (e_name e), set_file_pos_keeper (k + 1) fs, m') /\
     mbytes m' buf (List.length (e_name e)) = e_name e /\ scratch m') /\
  (k + 1 = dir_num ->
     fs_dir_ls_read_helper fs m dentry fname buf
       = Ok (0, FsVars (fs_bootblk fs0) (fs_datablocks fs0) (fs_dentries fs0)
              (fs_inodes fs0) 0 0, m)).
Proof.
  intros Hm Hk fs. unfold fs_dir_ls_read_helper. simpl.
  unfold read_dentry_by_index. simpl. rewrite (scratch_num m Hm).
  rewrite u32_small by lia. unfold FILE_DENTRIES.
  rewrite (proj2 (Z.eqb_neq dentry 0)) by lia. split.
  - intros Hlt. rewrite (proj2 (Z.leb_gt 63 _)), (proj2 (Z.leb_gt dir_num _)) by lia.
    simpl. destruct Hdir as [H63 _].
    destruct (lookup_lt_is_Some_2 dir (Z.to_nat (k + 1))) as [e He]; [lia|].
    pose proof (scratch_dir m (k + 1) e Hm ltac:(lia) He) as Hat.
    change (dentry_addr _ (k + 1)) with (dentry_addr fs0 (k + 1)).
    destruct (copy_dentry_spec m dentry _ e Hat) as (m1 & -> & Hat1 & Hs1).
    { unfold dentry_addr, DENTRY_SIZE. lia. }
    simpl. destruct (ls_copy_name_spec m1 dentry buf e Hat1 Hdb) as (m2 & -> & Hu2).
    destruct Hat1 as ((Hl32 & _) & _).
    exists e, m2. split; [done|]. split; [done|]. split.
    + by apply (copied_name m1).
    + intros b Hb Hb2. rewrite Hu2, decide_False by lia.
      rewrite Hs1 by lia. by apply Hm.
  - intros Heq. rewrite (proj2 (Z.leb_le dir_num _)) by lia.
    rewrite orb_true_r. done.
Qed.

Local Abbreviation used := (take (Z.to_nat dir_num) dir).
Local Abbreviation fs_reading k :=
  (FsVars (fs_bootblk fs0) (fs_datablocks fs0) (fs_dentries fs0)
     (fs_inodes fs0) k 1).
Local Abbreviation fs_idle :=
  (FsVars (fs_bootblk fs0) (fs_datablocks fs0) (fs_dentries fs0)
     (fs_inodes fs0) 0 0).

Lemma used_drop k e :
  0 <= k < dir_num -> dir !! Z.to_nat k = Some e ->
  drop (Z.to_nat k) used = e :: drop (Z.to_nat (k + 1)) used.
Proof.
  intros Hk He. replace (Z.to_nat (k + 1)) with (S (Z.to_nat k)) by lia.
  apply drop_S. rewrite lookup_take_lt by lia. done.
Qed.

(** The first read: the entry that was looked up. *)
Lemma ls_first fname s i0 :
  fs_dir_read_flag fs0 = 0 ->
  fname <> 0 -> cstr m0 fname s -> 0 < zlen s < 4294967296 ->
  abs_lookup dir s = Some i0 ->
  exists e m', dir !! Z.to_nat i0 = Some e /\ 0 <= i0 < 63 /\
    fs_dir_ls_read_helper fs0 m0 dentry fname buf = Ok (zlen (e_name e), fs_reading i0, m') /\
    mbytes m' buf (List.length (e_name e)) = e_name e /\ scratch m'.
Proof.
  intros Hflag Hf Hs Hsl Hlk. unfold fs_dir_ls_read_helper. rewrite Hflag. simpl.
  pose proof (read_dentry_by_name_spec m0 (set_fs_dir_read_flag 1 fs0) dir Hdir
    fname s Hs Hsl dentry Hf Hdpos) as Hrd.
  rewrite Hlk in Hrd. simpl in Hrd.
  destruct Hrd as (m1 & e & He & Hi & -> & Hat & Hm1); [lia|]. simpl.
  destruct (ls_copy_name_spec m1 dentry buf e Hat Hdb) as (m2 & -> & Hu2).
  destruct Hat as ((Hl32 & _) & _).
  exists e, m2. split; [done|]. split; [done|]. split; [done|]. split.
  - by apply (copied_name m1).
  - intros b Hb Hb2. rewrite Hu2, decide_False by lia. by apply Hm1.
Qed.

Lemma listing_from n m k fname :
  scratch m -> 0 <= k < dir_num -> (Z.to_nat (dir_num - 1 - k) < n)%nat ->
  exists m', dir_listing n (fs_reading k) m dentry fname buf
      = Ok (map e_name (drop (Z.to_nat (k + 1)) used), fs_idle, m') /\ scratch m'.
Proof.
  revert m k. induction n as [|n IH]; intros m k Hm Hk Hn; [lia|].
  cbn [dir_listing]. destruct (ls_next m k fname Hm Hk) as [Hnext Hlast].
  destruct (Z.eq_dec (k + 1) dir_num) as [E|E].
  - rewrite (Hlast E). exists m. split; [|done].
    rewrite drop_ge by (rewrite length_take; lia). done.
  - destruct (Hnext ltac:(lia)) as (e & m1 & He & -> & Hb & Hm1).
    pose proof (Hnames (k + 1) e ltac:(lia) He).
    rewrite (proj2 (Z.eqb_neq _ 0)) by lia.
    destruct (IH m1 (k + 1) Hm1 ltac:(lia) ltac:(lia)) as (m2 & Hl & Hm2).
    unfold set_file_pos_keeper. simpl. rewrite Hl. exists m2. split; [|done].
    rewrite Nat2Z.id, Hb, (used_drop (k + 1) e) by (lia || done). done.
Qed.

(** C30: Repeated reads of a directory, starting with no read under way: the
    names of the entries in use, from the one that was opened to the last,
    each exactly once, then 0; the two static variables are then as before
    the first read. *)
Theorem directory_listing n fname s i0 :
  fs_dir_read_flag fs0 = 0 ->
  fname <> 0 -> cstr m0 fname s -> 0 < zlen s < 4294967296 ->
  abs_lookup dir s = Some i0 -> i0 < dir_num -> (63 < n)%nat ->
  exists m', dir_listing n fs0 m0 dentry fname buf
      = Ok (map e_name (drop (Z.to_nat i0) used), fs_idle, m') /\ scratch m'.
Proof.
  intros Hflag Hf Hs Hsl Hlk Hi0 Hn. destruct n as [|n]; [lia|]. cbn [dir_listing].
  destruct (ls_first fname s i0 Hflag Hf Hs Hsl Hlk) as (e & m1 & He & Hi & -> & Hb & Hm1).
  pose proof (Hnames i0 e ltac:(lia) He).
  rewrite (proj2 (Z.eqb_neq _ 0)) by lia.
  destruct (listing_from n m1 i0 fname Hm1 ltac:(lia) ltac:(lia)) as (m3 & Hl & Hm3).
  rewrite Hl. exists m3. split; [|done].
  rewrite (used_drop i0 e), Nat2Z.id, Hb by (lia || done). done.
Qed.
End Listing.

(** ** Checking a concrete image *)

Definition entry_at_b (m : mem) (a : Z) (e : entry) : bool :=
  (zlen (e_name e) <=? 32)
  && bool_decide (mbytes m a (List.length (e_name e)) = e_name e)
  && forallb (fun c => negb (c =? 0)) (e_name e)
  && ((32 <=? zlen (e_name e)) || (mget m (a + zlen (e_name e)) =? 0))
  && (load32 m (a + 32) =? e_type e) && (load32 m (a + 36) =? e_inode e)
  && (0 <=? e_type e) && (e_type e <? 256).

Fixpoint dir_at_b (m : mem) (fs : fsvars) (i : Z) (dir : list entry) : bool :=
  match dir with
  | [] => true
  | e :: dir => entry_at_b m (dentry_addr fs i) e && dir_at_b m fs (i + 1) dir
  end.

Lemma entry_at_b_sound m a e : entry_at_b m a e = true -> entry_at m a e.
Proof.
  unfold entry_at_b. rewrite !andb_true_iff, orb_true_iff, bool_decide_eq_true.
  rewrite !Z.leb_le, !Z.eqb_eq, Z.ltb_lt, forallb_forall.
  intros [[[[[[[Hl Hb] Hnz] H0] Ht] Hi] Hr1] Hr2].
  split; [|done]. split; [done|]. split.
  - intros k Hk. rewrite <-(anth_mbytes m a (List.length (e_name e))) by done.
    rewrite Hb. split; [done|].
    specialize (Hnz (anth 0 (e_name e) k) ltac:(apply nth_In; lia)).
    by rewrite negb_true_iff, Z.eqb_neq in Hnz.
  - intros Hlt. destruct H0; [lia | done].
Qed.

Lemma dir_at_b_sound m fs dir :
  zlen dir = 63 -> dir_at_b m fs 0 dir = true -> dir_at m fs dir.
Proof.
  intros Hl H. split; [done|].
  assert (Hgen : forall l i, dir_at_b m fs i l = true -> forall j e, 0 <= j ->
    l !! Z.to_nat j = Some e -> entry_at m (dentry_addr fs (i + j)) e).
  { clear. induction l as [|e0 l IH]; intros i; simpl; [done|].
    rewrite andb_true_iff. intros [H0 Hl] j e Hj Hlk.
    destruct (Z.eq_dec j 0) as [->|].
    - injection Hlk as <-. rewrite Z.add_0_r. by apply entry_at_b_sound.
    - replace (Z.to_nat j) with (S (Z.to_nat (j - 1))) in Hlk by lia.
      replace (i + j) with (i + 1 + (j - 1)) by lia.
      apply IH; [done | lia | done]. }
  intros i e Hi He. apply (Hgen dir 0 H i e Hi He).
Qed.

(** ** The properties of the file system *)

Lemma length_file_content m fs ino :
  zlen (file_content m fs ino) = file_len m fs ino.
Proof.
  unfold file_content. rewrite length_map, length_seq.
  pose proof (load32_range m (fs_inodes fs + ino * 4096)) as H.
  fold (file_len m fs ino) in H. lia.
Qed.

Lemma anth_file_content m fs ino k :
  0 <= k < file_len m fs ino ->
  anth 0 (file_content m fs ino) k = file_byte m fs ino k.
Proof.
  intros Hk. unfold anth, file_content.
  set (f := fun k => file_byte m fs ino (Z.of_nat k)).
  rewrite (nth_indep _ 0 (f 0%nat)) by (rewrite length_map, length_seq; lia).
  rewrite map_nth, seq_nth by lia. unfold f. f_equal. lia.
Qed.

Lemma take_drop_content m fs ino off n :
  0 <= off <= file_len m fs ino -> 0 <= n ->
  zlen (take (Z.to_nat n) (drop (Z.to_nat off) (file_content m fs ino)))
    = Z.min n (file_len m fs ino - off) /\
  forall j, 0 <= j < Z.min n (file_len m fs ino - off) ->
    anth 0 (take (Z.to_nat n) (drop (Z.to_nat off) (file_content m fs ino))) j
    = file_byte m fs ino (off + j).
Proof.
  intros Ho Hn. pose proof (length_file_content m fs ino) as Hlen.
  rewrite length_take, length_drop. split; [lia|]. intros j Hj.
  rewrite <-anth_file_content by lia. unfold anth. rewrite !nth_lookup.
  rewrite lookup_take_lt by lia. rewrite lookup_drop. do 2 f_equal. lia.
Qed.

(** [read_data] on a file whose blocks exist: from any position up to the
    end it returns the bytes of the file that are there, at most [length]
    of them, puts them in the buffer, and changes nothing else. *)
Lemma read_data_content fs m start NI NB ino offset buf length :
  fs_image fs m start NI NB -> file_ok m fs NI NB ino ->
  0 <= offset <= file_len m fs ino -> 0 < buf -> 0 <= length < 4294967296 ->
  off_image start NI NB buf length ->
  let data := take (Z.to_nat length)
                (drop (Z.to_nat offset) (file_content m fs ino)) in
  exists m', read_data fs m ino offset buf length = Ok (zlen data, m') /\
    mbytes m' buf (List.length data) = data /\
    (forall a, a < buf \/ buf + zlen data <= a -> mget m' a = mget m a).
Proof.
  intros Himg Hfile Hoff Hbuf Hln Hdis data.
  destruct (take_drop_content m fs ino offset length Hoff (proj1 Hln))
    as [Hlen Hnth]. fold data in Hlen, Hnth.
  destruct (Z.lt_ge_cases offset (file_len m fs ino)) as [Hlt|Hge].
  - destruct (read_data_loop fs m start NI NB Himg ino Hfile offset buf length
      ltac:(lia) Hbuf Hln Hdis Hlt) as (m' & -> & Hu).
    exists m'. rewrite Hlen. split; [done|]. split.
    + apply (anth_eq 0); rewrite length_mbytes; [done|]. intros j Hj.
      rewrite anth_mbytes, Hu, decide_True, Hnth by lia. do 2 f_equal. lia.
    + intros a Ha. rewrite Hu, decide_False by lia. done.
  - assert (Hz : Datatypes.length data = 0%nat) by lia. rewrite Hz.
    exists m. split; [|split; [|done]].
    + apply (read_data_eof fs m start NI NB); try done; try lia.
      apply (fo_blk _ _ _ _ _ Hfile). lia_mod.
    + symmetry. by apply nil_length_inv.
Qed.

(** ** The image is not changed by writes elsewhere *)

Section ImageSame.
Context (fs : fsvars) (m m' : mem) (start NI NB : Z).
Context (Himg : fs_image fs m start NI NB) (Hni : 0 <= NI) (Hnb : 0 <= NB).
Context (Hsame : forall b, start <= b < image_end start NI NB -> mget m' b = mget m b).

Lemma image_load32 a :
  start <= a -> a + 4 <= image_end start NI NB -> load32 m' a = load32 m a.
Proof. intros. apply load32_ext. intros. apply Hsame. lia. Qed.

Lemma image_same : fs_image fs m' start NI NB.
Proof.
  destruct Himg as [H1 H2 H3 H4 H5 H6 H7 H8]. unfold image_end in *.
  constructor; try done; rewrite image_load32; unfold image_end; done || lia.
Qed.

Lemma dir_same dir : dir_at m fs dir -> dir_at m' fs dir.
Proof.
  intros [Hl Hd]. split; [done|]. intros i e Hi He.
  assert (i < 63) by (apply lookup_lt_Some in He; lia).
  eapply entry_at_ext; [|by apply Hd]. intros b Hb. symmetry. apply Hsame.
  unfold dentry_addr, DENTRY_SIZE in Hb. rewrite (fi_dentries _ _ _ _ _ Himg) in Hb.
  unfold image_end. lia.
Qed.

Lemma inode_same ino k :
  0 <= ino < NI -> 0 <= k < 1023 ->
  file_len m' fs ino = file_len m fs ino /\
  data_block m' (fs_inodes fs + ino * 4096) k = data_block m (fs_inodes fs + ino * 4096) k.
Proof.
  intros Hi Hk. unfold file_len, data_block.
  rewrite (fi_inodes _ _ _ _ _ Himg).
  split; apply image_load32; unfold image_end; lia.
Qed.

Lemma file_same ino :
  file_ok m fs NI NB ino ->
  file_ok m' fs NI NB ino /\ file_len m' fs ino = file_len m fs ino /\
  file_content m' fs ino = file_content m fs ino.
Proof.
  intros [H1 H2 H3].
  pose proof (load32_range m (fs_inodes fs + ino * 4096)) as Hr.
  destruct (inode_same ino 0 H1 ltac:(lia)) as [El _]. split_and!; [|done|].
  - constructor; [done | by rewrite El|]. rewrite El. intros k Hk.
    unfold file_len in *.
    rewrite (proj2 (inode_same ino k H1 ltac:(lia_mod))). by apply H3.
  - apply (anth_eq 0).
    + apply Nat2Z.inj. by rewrite !length_file_content.
    + rewrite length_file_content, El. intros j Hj.
      rewrite !anth_file_content by (rewrite ?El; done). unfold file_byte.
      unfold file_len in *.
      rewrite (proj2 (inode_same ino (j / 4096) H1 ltac:(lia_mod))).
      apply Hsame. pose proof (H3 (j / 4096) ltac:(lia_mod)) as Hb.
      pose proof (load32_range m (fs_inodes fs + ino * 4096 + 4 + 4 * (j / 4096))).
      unfold data_block in *. rewrite (fi_data _ _ _ _ _ Himg).
      unfold image_end. lia_mod.
Qed.
End ImageSame.

(** The position kept between directory reads is not part of the view. *)
Lemma image_keeper fs m start NI NB i :
  fs_image fs m start NI NB -> fs_image (set_file_pos_keeper i fs) m start NI NB.
Proof. by intros []. Qed.

(** ** Reading and looking up, as the rest of the kernel sees it *)

(** C17: The lookup of a name refines the search of the abstract directory: it
    returns -1 and changes nothing when no entry matches; otherwise it
    fills in the caller's [dentry_t] with the first entry that matches,
    remembers its position, and changes nothing else in memory. *)
Theorem lookup_refines_directory m fs dir fname s dentry :
  dir_at m fs dir -> cstr m fname s -> 0 < zlen s < 4294967296 ->
  fname <> 0 -> 0 < dentry ->
  dentry + 64 <= fs_dentries fs \/ fs_dentries fs + 4096 <= dentry ->
  match abs_lookup dir s with
  | None => read_dentry_by_name fs m fname dentry = Ok (-1, fs, m)
  | Some i => exists m' e, dir !! Z.to_nat i = Some e /\ 0 <= i < 63 /\
      read_dentry_by_name fs m fname dentry = Ok (0, set_file_pos_keeper i fs, m') /\
      entry_at m' dentry e /\
      (forall b, b < dentry \/ dentry + 64 <= b -> mget m' b = mget m b)
  end.
Proof. intros Hd Hs Hl. by apply read_dentry_by_name_spec. Qed.

(** C16: [read_data]: an inode that does not exist or a null buffer gives -1;
    otherwise the bytes of the file from [offset] on, at most [length] of
    them, are put into the buffer and counted, and nothing else changes. *)
Theorem read_data_reads_file fs m start NI NB ino offset buf length :
  fs_image fs m start NI NB -> 0 <= length < 4294967296 ->
  off_image start NI NB buf length ->
  (NI <= ino \/ buf = 0 -> read_data fs m ino offset buf length = Ok (-1, m)) /\
  (file_ok m fs NI NB ino -> 0 <= offset <= file_len m fs ino -> 0 < buf ->
   let data := take (Z.to_nat length)
                 (drop (Z.to_nat offset) (file_content m fs ino)) in
   exists m', read_data fs m ino offset buf length = Ok (zlen data, m') /\
     mbytes m' buf (List.length data) = data /\
     (forall a, a < buf \/ buf + zlen data <= a -> mget m' a = mget m a)).
Proof.
  intros Hi Hl Ho. split.
  - intros Hbad. unfold read_data. rewrite (fi_boot _ _ _ _ _ Hi), (fi_n_inodes _ _ _ _ _ Hi).
    destruct Hbad as [Hbad| ->]; [by rewrite (proj2 (Z.leb_le NI ino)) by done|].
    by rewrite orb_true_r.
  - intros Hf Hof Hb. by apply (read_data_content fs m start NI NB).
Qed.
