(* ===== verification/Console.v ===== *)
(** * The screen and the line buffer (lib.c)

    [putc], [scrolling], [backspace], [clear], [reset] and the cursor, as
    they act on the video memory at 0xB8000, on the cursor position and, in
    text editing mode, on the keyboard buffer.  Port writes are recorded in
    a trace.

    Four variables are declared with different widths in different files
    ([kb_buffer_position], [first_scroll_indicator], [ter_read_buf_size],
    [ter_read_indicator]); the model keeps the value that the narrower
    declaration sees, and not the neighbouring bytes. *)

From Stdlib Require Import ZArith Lia String Ascii.
From stdpp Require Import base numbers list gmap.
From S2P Require Import Prelude Mem CString.

Local Open Scope Z_scope.

Definition NUM_COLS : Z := 80.
Definition NUM_ROWS : Z := 25.
Definition ATTRIB : Z := 7.
Definition VIDEO : Z := 753664. (* 0xB8000 *)
Definition OFFSET : Z := 175. (* 0xAF *)
Definition BUF_SIZE : Z := 128.
Definition MAX_X : Z := 79.
Definition MAX_Y : Z := 24.

(** A port access: [outb(v, port)], or [inb(port)] that answered [v]. *)
Inductive io := Out (v port : Z) | In (port v : Z).

(** The variables of the console, the keyboard and the line reader, each at
    the width of its definition: [kb_buffer_position] is a byte (keyboard.c),
    though lib.c declares it with 32 bits and its stores would reach the three
    bytes after it. *)
Record tty := Tty {
  t_mem : mem;   (** memory, the video memory included *)
  t_trace : list io;   (** port accesses so far, oldest first *)
  t_if : bool;   (** the interrupt flag of the processor *)
  screen_x : Z;   (** lib.c *)
  screen_y : Z;
  enter_tracker : list Z;   (** 25 entries: where Enter was pressed in each row *)
  first_scroll_indicator : Z;
  rtc_flag : Z;
  cap_flag : Z;   (** keyboard.c *)
  shift_flag : Z;
  control_flag : Z;
  alt_flag : Z;
  enter_flag : Z;   (** 0: normal mode, -1: text editing mode *)
  cross_enter_flag : Z;
  keyboard_buffer : list Z;   (** 128 bytes *)
  kb_buffer_position : Z;
  ter_read_buffer : list Z;   (** terminal.c: 128 bytes *)
  ter_read_buf_size : Z;
  ter_read_indicator : Z;
}.

Definition set_t_mem (v : mem) (s : tty) : tty :=
  Tty v (t_trace s) (t_if s) (screen_x s) (screen_y s) (enter_tracker s)
    (first_scroll_indicator s) (rtc_flag s) (cap_flag s) (shift_flag s)
    (control_flag s) (alt_flag s) (enter_flag s) (cross_enter_flag s)
    (keyboard_buffer s) (kb_buffer_position s) (ter_read_buffer s)
    (ter_read_buf_size s) (ter_read_indicator s).
Definition set_t_trace (v : list io) (s : tty) : tty :=
  Tty (t_mem s) v (t_if s) (screen_x s) (screen_y s) (enter_tracker s)
    (first_scroll_indicator s) (rtc_flag s) (cap_flag s) (shift_flag s)
    (control_flag s) (alt_flag s) (enter_flag s) (cross_enter_flag s)
    (keyboard_buffer s) (kb_buffer_position s) (ter_read_buffer s)
    (ter_read_buf_size s) (ter_read_indicator s).
Definition set_t_if (v : bool) (s : tty) : tty :=
  Tty (t_mem s) (t_trace s) v (screen_x s) (screen_y s) (enter_tracker s)
    (first_scroll_indicator s) (rtc_flag s) (cap_flag s) (shift_flag s)
    (control_flag s) (alt_flag s) (enter_flag s) (cross_enter_flag s)
    (keyboard_buffer s) (kb_buffer_position s) (ter_read_buffer s)
    (ter_read_buf_size s) (ter_read_indicator s).
Definition set_screen_x (v : Z) (s : tty) : tty :=
  Tty (t_mem s) (t_trace s) (t_if s) v (screen_y s) (enter_tracker s)
    (first_scroll_indicator s) (rtc_flag s) (cap_flag s) (shift_flag s)
    (control_flag s) (alt_flag s) (enter_flag s) (cross_enter_flag s)
    (keyboard_buffer s) (kb_buffer_position s) (ter_read_buffer s)
    (ter_read_buf_size s) (ter_read_indicator s).
Definition set_screen_y (v : Z) (s : tty) : tty :=
  Tty (t_mem s) (t_trace s) (t_if s) (screen_x s) v (enter_tracker s)
    (first_scroll_indicator s) (rtc_flag s) (cap_flag s) (shift_flag s)
    (control_flag s) (alt_flag s) (enter_flag s) (cross_enter_flag s)
    (keyboard_buffer s) (kb_buffer_position s) (ter_read_buffer s)
    (ter_read_buf_size s) (ter_read_indicator s).
Definition set_enter_tracker (v : list Z) (s : tty) : tty :=
  Tty (t_mem s) (t_trace s) (t_if s) (screen_x s) (screen_y s) v
    (first_scroll_indicator s) (rtc_flag s) (cap_flag s) (shift_flag s)
    (control_flag s) (alt_flag s) (enter_flag s) (cross_enter_flag s)
    (keyboard_buffer s) (kb_buffer_position s) (ter_read_buffer s)
    (ter_read_buf_size s) (ter_read_indicator s).
Definition set_first_scroll_indicator (v : Z) (s : tty) : tty :=
  Tty (t_mem s) (t_trace s) (t_if s) (screen_x s) (screen_y s)
    (enter_tracker s) v (rtc_flag s) (cap_flag s) (shift_flag s)
    (control_flag s) (alt_flag s) (enter_flag s) (cross_enter_flag s)
    (keyboard_buffer s) (kb_buffer_position s) (ter_read_buffer s)
    (ter_read_buf_size s) (ter_read_indicator s).
Definition set_rtc_flag (v : Z) (s : tty) : tty :=
  Tty (t_mem s) (t_trace s) (t_if s) (screen_x s) (screen_y s)
    (enter_tracker s) (first_scroll_indicator s) v (cap_flag s) (shift_flag s)
    (control_flag s) (alt_flag s) (enter_flag s) (cross_enter_flag s)
    (keyboard_buffer s) (kb_buffer_position s) (ter_read_buffer s)
    (ter_read_buf_size s) (ter_read_indicator s).
Definition set_cap_flag (v : Z) (s : tty) : tty :=
  Tty (t_mem s) (t_trace s) (t_if s) (screen_x s) (screen_y s)
    (enter_tracker s) (first_scroll_indicator s) (rtc_flag s) v (shift_flag s)
    (control_flag s) (alt_flag s) (enter_flag s) (cross_enter_flag s)
    (keyboard_buffer s) (kb_buffer_position s) (ter_read_buffer s)
    (ter_read_buf_size s) (ter_read_indicator s).
Definition set_shift_flag (v : Z) (s : tty) : tty :=
  Tty (t_mem s) (t_trace s) (t_if s) (screen_x s) (screen_y s)
    (enter_tracker s) (first_scroll_indicator s) (rtc_flag s) (cap_flag s) v
    (control_flag s) (alt_flag s) (enter_flag s) (cross_enter_flag s)
    (keyboard_buffer s) (kb_buffer_position s) (ter_read_buffer s)
    (ter_read_buf_size s) (ter_read_indicator s).
Definition set_control_flag (v : Z) (s : tty) : tty :=
  Tty (t_mem s) (t_trace s) (t_if s) (screen_x s) (screen_y s)
    (enter_tracker s) (first_scroll_indicator s) (rtc_flag s) (cap_flag s)
    (shift_flag s) v (alt_flag s) (enter_flag s) (cross_enter_flag s)
    (keyboard_buffer s) (kb_buffer_position s) (ter_read_buffer s)
    (ter_read_buf_size s) (ter_read_indicator s).
Definition set_alt_flag (v : Z) (s : tty) : tty :=
  Tty (t_mem s) (t_trace s) (t_if s) (screen_x s) (screen_y s)
    (enter_tracker s) (first_scroll_indicator s) (rtc_flag s) (cap_flag s)
    (shift_flag s) (control_flag s) v (enter_flag s) (cross_enter_flag s)
    (keyboard_buffer s) (kb_buffer_position s) (ter_read_buffer s)
    (ter_read_buf_size s) (ter_read_indicator s).
Definition set_enter_flag (v : Z) (s : tty) : tty :=
  Tty (t_mem s) (t_trace s) (t_if s) (screen_x s) (screen_y s)
    (enter_tracker s) (first_scroll_indicator s) (rtc_flag s) (cap_flag s)
    (shift_flag s) (control_flag s) (alt_flag s) v (cross_enter_flag s)
    (keyboard_buffer s) (kb_buffer_position s) (ter_read_buffer s)
    (ter_read_buf_size s) (ter_read_indicator s).
Definition set_cross_enter_flag (v : Z) (s : tty) : tty :=
  Tty (t_mem s) (t_trace s) (t_if s) (screen_x s) (screen_y s)
    (enter_tracker s) (first_scroll_indicator s) (rtc_flag s) (cap_flag s)
    (shift_flag s) (control_flag s) (alt_flag s) (enter_flag s) v
    (keyboard_buffer s) (kb_buffer_position s) (ter_read_buffer s)
    (ter_read_buf_size s) (ter_read_indicator s).
Definition set_keyboard_buffer (v : list Z) (s : tty) : tty :=
  Tty (t_mem s) (t_trace s) (t_if s) (screen_x s) (screen_y s)
    (enter_tracker s) (first_scroll_indicator s) (rtc_flag s) (cap_flag s)
    (shift_flag s) (control_flag s) (alt_flag s) (enter_flag s)
    (cross_enter_flag s) v (kb_buffer_position s) (ter_read_buffer s)
    (ter_read_buf_size s) (ter_read_indicator s).
Definition set_kb_buffer_position (v : Z) (s : tty) : tty :=
  Tty (t_mem s) (t_trace s) (t_if s) (screen_x s) (screen_y s)
    (enter_tracker s) (first_scroll_indicator s) (rtc_flag s) (cap_flag s)
    (shift_flag s) (control_flag s) (alt_flag s) (enter_flag s)
    (cross_enter_flag s) (keyboard_buffer s) v (ter_read_buffer s)
    (ter_read_buf_size s) (ter_read_indicator s).
Definition set_ter_read_buffer (v : list Z) (s : tty) : tty :=
  Tty (t_mem s) (t_trace s) (t_if s) (screen_x s) (screen_y s)
    (enter_tracker s) (first_scroll_indicator s) (rtc_flag s) (cap_flag s)
    (shift_flag s) (control_flag s) (alt_flag s) (enter_flag s)
    (cross_enter_flag s) (keyboard_buffer s) (kb_buffer_position s) v
    (ter_read_buf_size s) (ter_read_indicator s).
Definition set_ter_read_buf_size (v : Z) (s : tty) : tty :=
  Tty (t_mem s) (t_trace s) (t_if s) (screen_x s) (screen_y s)
    (enter_tracker s) (first_scroll_indicator s) (rtc_flag s) (cap_flag s)
    (shift_flag s) (control_flag s) (alt_flag s) (enter_flag s)
    (cross_enter_flag s) (keyboard_buffer s) (kb_buffer_position s)
    (ter_read_buffer s) v (ter_read_indicator s).
Definition set_ter_read_indicator (v : Z) (s : tty) : tty :=
  Tty (t_mem s) (t_trace s) (t_if s) (screen_x s) (screen_y s)
    (enter_tracker s) (first_scroll_indicator s) (rtc_flag s) (cap_flag s)
    (shift_flag s) (control_flag s) (alt_flag s) (enter_flag s)
    (cross_enter_flag s) (keyboard_buffer s) (kb_buffer_position s)
    (ter_read_buffer s) (ter_read_buf_size s) v.

(** [outb] writes the low byte. *)
Definition outb (v port : Z) : ST tty unit :=
  modify (fun s => set_t_trace (t_trace s ++ [Out (u8 v) port]) s).
Definition inb (port answer : Z) : ST tty Z := fun s =>
  Ok (u8 answer, set_t_trace (t_trace s ++ [In port (u8 answer)]) s).
Definition cli : ST tty unit := modify (set_t_if false).
Definition sti : ST tty unit := modify (set_t_if true).

(** The address of the character at row [y], column [x]; its attribute is
    the next byte. *)
Definition vaddr (y x : Z) : Z := VIDEO + Z.shiftl (NUM_COLS * y + x) 1.

(** Store a character with the default attribute. *)
Definition put_cell (y x c : Z) (m : mem) : mem :=
  mset (mset m (vaddr y x) c) (vaddr y x + 1) ATTRIB.

Definition update_cursor (row col : Z) : ST tty unit :=
  let position := u16 (u16 row * NUM_COLS + u16 col) in
  outb 15 980 ;;
  outb (Z.land position 255) 981 ;;
  outb 14 980 ;;
  outb (Z.land (Z.shiftr position 8) 255) 981.

Definition clear_mem (m : mem) : mem :=
  forz 0 (NUM_ROWS * NUM_COLS) (fun i m =>
    mset (mset m (VIDEO + Z.shiftl i 1) SP) (VIDEO + Z.shiftl i 1 + 1) ATTRIB) m.

Definition clear : ST tty unit := modify (fun s => set_t_mem (clear_mem (t_mem s)) s).

Definition keyboard_buffer_reset : ST tty unit :=
  modify (fun s => set_kb_buffer_position 0
    (set_keyboard_buffer
       (forz 0 BUF_SIZE (fun i b => <[Z.to_nat i := 0]> b) (keyboard_buffer s)) s)).

Definition reset : ST tty unit :=
  clear ;;
  modify (set_screen_x 0) ;;
  modify (set_screen_y 0) ;;
  modify (fun s => set_keyboard_buffer
    (forz 0 BUF_SIZE (fun i b => <[Z.to_nat i := 0]> b) (keyboard_buffer s)) s) ;;
  modify (fun s => set_enter_tracker
    (forz 0 NUM_ROWS (fun i b => <[Z.to_nat i := 0]> b) (enter_tracker s)) s) ;;
  modify (set_kb_buffer_position 0) ;;
  y ← gets screen_y; x ← gets screen_x; update_cursor y x.

(** ** Scrolling *)

Definition scroll_mem (m : mem) : mem :=
  let m := forz 0 (NUM_ROWS - 1) (fun row m =>
    forz 0 NUM_COLS (fun col m =>
      mset m (vaddr row col) (mget m (vaddr (row + 1) col))) m) m in
  forz 0 NUM_COLS (fun col m => mset m (vaddr (NUM_ROWS - 1) col) SP) m.

(** The search for an Enter among the first 80 characters of the line
    buffer: the index of the first one, or 80. *)
Definition first_newline (kb : list Z) : Z :=
  forz 0 NUM_COLS (fun i r =>
    if (r =? NUM_COLS) && (anth 0 kb i =? LF) then i else r) NUM_COLS.

(** Delete the first [n] characters of the line buffer. *)
Definition drop_kb (n : Z) (kb : list Z) : list Z :=
  forz 0 BUF_SIZE (fun i kb =>
    <[Z.to_nat i := if i + n <? BUF_SIZE then anth 0 kb (i + n) else 0]> kb) kb.

Definition shift_tracker (et : list Z) : list Z :=
  forz 0 NUM_ROWS (fun i et =>
    <[Z.to_nat i := if i <? NUM_ROWS - 1 then anth 0 et (i + 1) else 0]> et) et.

Definition scrolling : ST tty unit :=
  modify (fun s => set_t_mem (scroll_mem (t_mem s)) s) ;;
  ef ← gets enter_flag;
  when (ef =? -1) (
    fsi ← gets first_scroll_indicator;
    (if fsi =? 0 then modify (set_first_scroll_indicator 1)
     else
       kb ← gets keyboard_buffer;
       pos ← gets kb_buffer_position;
       let index := first_newline kb in
       if index <? NUM_COLS then
         modify (set_keyboard_buffer (drop_kb (index + 1) kb)) ;;
         modify (set_kb_buffer_position (u8 (pos - (index + 1))))
       else
         modify (set_keyboard_buffer (drop_kb NUM_COLS kb)) ;;
         modify (set_kb_buffer_position (u8 (pos - NUM_COLS)))) ;;
    modify (fun s => set_enter_tracker (shift_tracker (enter_tracker s)) s)).

(** ** Characters *)

Definition putc (c : Z) : ST tty unit :=
  x ← gets screen_x;
  y ← gets screen_y;
  (if (c =? LF) || (c =? CR) then
     et ← gets enter_tracker;
     et' ← liftR (aset et y (u32 (x + OFFSET)));
     modify (set_enter_tracker et') ;;
     if y =? NUM_ROWS - 1 then scrolling ;; modify (set_screen_x 0)
     else modify (set_screen_y (y + 1)) ;; modify (set_screen_x 0)
   else if x <? NUM_COLS - 1 then
     modify (fun s => set_t_mem (put_cell y x c (t_mem s)) s) ;;
     modify (set_screen_x (x + 1))
   else if y <? NUM_ROWS - 1 then
     modify (fun s => set_t_mem (put_cell y x c (t_mem s)) s) ;;
     modify (set_screen_x 0) ;;
     modify (set_screen_y (y + 1))
   else
     scrolling ;;
     modify (set_screen_y (y - 1)) ;;
     modify (fun s => set_t_mem (put_cell (y - 1) x c (t_mem s)) s) ;;
     modify (set_screen_y (y - 1 + 1)) ;;
     modify (set_screen_x 0)) ;;
  y ← gets screen_y; x ← gets screen_x; update_cursor y x.

(** Blank the row [y] from column [x] down to, but not including, [stop]. *)
Definition blank_step (y stop : Z) (st : mem * Z) : (mem * Z) + res (mem * Z) :=
  let '(m, x) := st in
  if x =? stop then inr (Ok (m, x)) else inl (put_cell y x SP m, x - 1).

Definition backspace_cell (y x : Z) : ST tty unit :=
  modify (set_screen_x x) ;;
  modify (set_screen_y y) ;;
  modify (fun s => set_t_mem (put_cell y x SP (t_mem s)) s).

Definition backspace : ST tty unit :=
  x ← gets screen_x;
  y ← gets screen_y;
  if (y =? 0) && (x =? 0) then mret tt
  else
    (if 0 <? x then backspace_cell y (x - 1)
     else
       ef ← gets enter_flag;
       if ef =? -1 then
         et ← gets enter_tracker;
         e ← liftR (aget et (y - 1));
         if negb (e =? 0) then
           let x_offset := u8 (e - OFFSET) in
           m ← gets t_mem;
           '(m', x') ← liftR (while (blank_step (y - 1) x_offset) (m, NUM_COLS - 1));
           modify (set_screen_y (y - 1)) ;;
           modify (set_t_mem m') ;;
           modify (set_screen_x x') ;;
           et' ← liftR (aset et (y - 1) 0);
           modify (set_enter_tracker et')
         else backspace_cell (y - 1) (NUM_COLS - 1)
       else backspace_cell (y - 1) (NUM_COLS - 1)) ;;
    y ← gets screen_y; x ← gets screen_x; update_cursor y x.

(** ** Strings *)

(** [puts] reads the string from memory while the screen is written. *)
Definition puts_step (p : Z) (st : tty * Z) : (tty * Z) + res (Z * tty) :=
  let '(s, i) := st in
  let c := mget (t_mem s) (p + i) in
  if c =? 0 then inr (Ok (i, s))
  else match putc c s with
       | Ok (_, s') => inl (s', i + 1)
       | Err e => inr (Err e)
       end.
Definition puts (p : Z) : ST tty Z := fun s => while (puts_step p) (s, 0).

(** [puts] of a string constant of the kernel, or of a local buffer. *)
Fixpoint puts_str (l : list Z) : ST tty unit :=
  match l with [] => mret tt | c :: l => putc c ;; puts_str l end.

(** ** Cursor position *)

Definition x_pos (s : tty) : Z := screen_x s.
Definition y_pos (s : tty) : Z := screen_y s.

Definition update_x (x : Z) : ST tty unit :=
  if (x <? NUM_COLS) && (0 <? x) then modify (set_screen_x x)
  else if x <? 0 then modify (set_screen_x 0)
  else modify (set_screen_x MAX_X).

Definition update_y (y : Z) : ST tty unit :=
  if (y <? NUM_ROWS) && (0 <? y) then modify (set_screen_y y)
  else if y <? 0 then modify (set_screen_y 0)
  else modify (set_screen_y MAX_Y).

(** [video_mem[i<<1]++] on every character. *)
Definition test_interrupts : ST tty unit :=
  modify (fun s => set_t_mem
    (forz 0 (NUM_ROWS * NUM_COLS) (fun i m =>
       mset m (VIDEO + Z.shiftl i 1) (mget m (VIDEO + Z.shiftl i 1) + 1)) (t_mem s)) s).

(** ** Video memory *)

Lemma vaddr_eq y x : vaddr y x = VIDEO + 2 * (80 * y + x).
Proof. unfold vaddr, NUM_COLS. rewrite Z.shiftl_mul_pow2 by lia. lia. Qed.

(** The character shown at row [y], column [x]. *)
Definition screen_char (m : mem) (y x : Z) : Z := mget m (vaddr y x).

Definition on_screen (y x : Z) : Prop := 0 <= y < 25 /\ 0 <= x < 80.

Lemma vaddr_inj y1 x1 y2 x2 :
  on_screen y1 x1 -> on_screen y2 x2 -> vaddr y1 x1 = vaddr y2 x2 ->
  y1 = y2 /\ x1 = x2.
Proof. unfold on_screen. rewrite !vaddr_eq. lia. Qed.

Lemma put_cell_char y x c m y' x' :
  on_screen y x -> on_screen y' x' ->
  screen_char (put_cell y x c m) y' x' =
  if decide (y = y' /\ x = x') then u8 c else screen_char m y' x'.
Proof.
  intros H1 H2. unfold screen_char, put_cell. rewrite !mget_mset.
  rewrite (decide_False (P := vaddr y x + 1 = _)) by (rewrite !vaddr_eq; lia).
  destruct (decide (y = y' /\ x = x')) as [[-> ->]|Hne].
  - by rewrite decide_True.
  - rewrite decide_False; [done|]. intros E. apply Hne. by apply vaddr_inj.
Qed.

(** A byte that is not in the 4000 bytes of the screen. *)
Definition off_screen (b : Z) : Prop := b < VIDEO \/ VIDEO + 4000 <= b.

Lemma put_cell_frame y x c m b :
  on_screen y x -> off_screen b -> mget (put_cell y x c m) b = mget m b.
Proof.
  unfold on_screen, off_screen. intros H1 H2. unfold put_cell.
  rewrite !mget_mset_ne; [done | rewrite vaddr_eq; lia..].
Qed.

(** Memory after the characters of the first [k] bytes of the screen have
    been replaced by those one row below. *)
Definition scrolled (m0 : mem) (k b : Z) : Z :=
  if (VIDEO <=? b) && (b <? VIDEO + k) && Z.even b
  then mget m0 (b + 160) else mget m0 b.

Lemma scroll_cell m0 m1 row col b :
  0 <= row < 24 -> 0 <= col < 80 ->
  (forall b, mget m1 b = scrolled m0 (160 * row + 2 * col) b) ->
  mget (mset m1 (vaddr row col) (mget m1 (vaddr (row + 1) col))) b =
  scrolled m0 (160 * row + 2 * (col + 1)) b.
Proof.
  intros Hr Hc Hm. rewrite mget_mset, !Hm, !vaddr_eq.
  unfold scrolled, VIDEO in *.
  assert (Hev : forall b, Z.even b = (b mod 2 =? 0))
    by (intros; rewrite Zmod_even; by destruct (Z.even _)).
  rewrite !Hev. clear Hev.
  destruct (decide _) as [<-|Hne].
  - rewrite (proj2 (andb_false_iff _ _)) by (left; lia).
    rewrite !(proj2 (andb_true_iff _ _)) by (rewrite ?andb_true_iff; lia_mod).
    rewrite u8_small by apply mget_range. f_equal. lia.
  - destruct (_ && _) eqn:E1, (_ && _) eqn:E2 in |- *; try done; exfalso; lia_mod.
Qed.

Lemma scroll_mem_spec m b :
  mget (scroll_mem m) b =
  if (VIDEO + 3840 <=? b) && (b <? VIDEO + 4000) && Z.even b then SP
  else scrolled m 3840 b.
Proof.
  unfold scroll_mem. cbv zeta.
  set (m1 := forz 0 (NUM_ROWS - 1) _ m).
  assert (H1 : forall b, mget m1 b = scrolled m (160 * (NUM_ROWS - 1)) b).
  { apply (forz_inv (fun row m1 => forall b, mget m1 b = scrolled m (160 * row) b));
      [done | |].
    - intros b'. unfold scrolled. case_match; [|done]. unfold VIDEO in *. lia.
    - intros row m2 Hr Hm2. unfold NUM_ROWS in Hr.
      replace (160 * (row + 1)) with (160 * row + 2 * NUM_COLS)
        by (unfold NUM_COLS; lia).
      apply (forz_inv (fun col m3 => forall b,
        mget m3 b = scrolled m (160 * row + 2 * col) b)); [done | |].
      + intros b'. by rewrite Hm2, Z.mul_0_r, Z.add_0_r.
      + intros col m3 Hc Hm3 b'. unfold NUM_COLS in Hc.
        apply scroll_cell; done || lia. }
  clearbody m1. revert b.
  apply (forz_inv (fun col m2 => forall b, mget m2 b =
    if (VIDEO + 3840 <=? b) && (b <? VIDEO + 3840 + 2 * col) && Z.even b then SP
    else scrolled m 3840 b)); [done | |].
  - intros b. rewrite H1. case_match; [lia | done].
  - intros col m2 Hc Hm2 b. unfold NUM_COLS, NUM_ROWS in *.
    rewrite mget_mset, Hm2, vaddr_eq. unfold VIDEO.
    assert (Hev : Z.even b = (b mod 2 =? 0))
      by (rewrite Zmod_even; by destruct (Z.even _)).
    rewrite Hev. clear Hev.
    destruct (decide _) as [<-|Hne].
    + rewrite (proj2 (andb_true_iff _ _)); [done | rewrite andb_true_iff; lia_mod].
    + destruct (_ && _) eqn:E1, (_ && _) eqn:E2 in |- *; try done; exfalso; lia_mod.
Qed.

Lemma scroll_mem_char m y x :
  on_screen y x ->
  screen_char (scroll_mem m) y x =
  if decide (y = 24) then SP else screen_char m (y + 1) x.
Proof.
  unfold on_screen, screen_char. intros Hyx. rewrite scroll_mem_spec, !vaddr_eq.
  assert (Hev : Z.even (VIDEO + 2 * (80 * y + x)) = true)
    by (rewrite Z.even_add, Z.even_mul; done).
  unfold scrolled. rewrite Hev, !andb_true_r. unfold VIDEO in *.
  repeat case_match; try lia; try done. f_equal. lia.
Qed.

Lemma scroll_mem_frame m b : off_screen b -> mget (scroll_mem m) b = mget m b.
Proof.
  unfold off_screen. intros Hb. rewrite scroll_mem_spec. unfold scrolled.
  unfold VIDEO in *. repeat case_match; try done; lia.
Qed.

(** In text editing mode a scroll deletes the first line of the buffer. *)
Lemma drop_kb_spec n kb :
  zlen kb = 128 -> 0 <= n <= 128 ->
  drop_kb n kb = drop (Z.to_nat n) kb ++ replicate (Z.to_nat n) 0.
Proof. intros. by apply (shift_left (fun i => i + n <? BUF_SIZE)). Qed.

Lemma shift_tracker_spec et :
  zlen et = 25 -> shift_tracker et = drop 1 et ++ [0].
Proof.
  intros. apply (shift_left (fun i => i <? NUM_ROWS - 1) 1); [done | done|].
  intros. unfold NUM_ROWS. lia.
Qed.

Lemma first_newline_spec kb :
  let r := first_newline kb in
  0 <= r <= 80 /\ (forall i, 0 <= i < r -> anth 0 kb i <> LF) /\
  (r < 80 -> anth 0 kb r = LF).
Proof.
  cbv zeta. unfold first_newline, NUM_COLS.
  assert (H : forall i, i = 80 ->
    let r := forz 0 80 (fun i r =>
      if (r =? 80) && (anth 0 kb i =? LF) then i else r) 80 in
    0 <= r <= 80 /\ (forall j, 0 <= j < Z.min i r -> anth 0 kb j <> LF) /\
    (r < 80 -> r < i /\ anth 0 kb r = LF)).
  { intros i ->. cbv zeta.
    apply (forz_inv (fun i r => 0 <= r <= 80 /\
      (forall j, 0 <= j < Z.min i r -> anth 0 kb j <> LF) /\
      (r < 80 -> r < i /\ anth 0 kb r = LF))); [lia | |].
    - repeat split; lia.
    - intros i r Hi (Hr & Hall & Hlf). destruct (_ && _) eqn:E.
      + apply andb_true_iff in E as [E1 E2].
        repeat split; [lia | lia | | lia | lia]. intros j Hj. apply Hall. lia.
      + repeat split; [lia | lia | | lia | tauto]. intros j Hj.
        destruct (decide (j = i)) as [->|]; [|apply Hall; lia].
        intros Heq. rewrite Heq in E. unfold LF in *. lia. }
  destruct (H 80 eq_refl) as (H1 & H2 & H3). repeat split; [lia | lia | | tauto].
  intros i Hi. apply H2. lia.
Qed.

(** ** The console keeps its state well formed *)

Record tty_wf (s : tty) : Prop := {
  wf_cursor : on_screen (screen_y s) (screen_x s);
  wf_tracker : zlen (enter_tracker s) = 25;
  wf_kb : zlen (keyboard_buffer s) = 128;
  wf_pos : 0 <= kb_buffer_position s < 256;
  wf_read : zlen (ter_read_buffer s) = 128;
}.

(** What printing leaves alone: memory outside the screen, the interrupt
    flag, the modifier keys and the line reader; in normal mode also the
    line buffer. *)
Record prints (s s' : tty) : Prop := {
  pr_mem : forall b, off_screen b -> mget (t_mem s') b = mget (t_mem s) b;
  pr_if : t_if s' = t_if s;
  pr_rtc : rtc_flag s' = rtc_flag s;
  pr_cap : cap_flag s' = cap_flag s;
  pr_shift : shift_flag s' = shift_flag s;
  pr_control : control_flag s' = control_flag s;
  pr_alt : alt_flag s' = alt_flag s;
  pr_enter : enter_flag s' = enter_flag s;
  pr_cross : cross_enter_flag s' = cross_enter_flag s;
  pr_buf : ter_read_buffer s' = ter_read_buffer s;
  pr_size : ter_read_buf_size s' = ter_read_buf_size s;
  pr_ind : ter_read_indicator s' = ter_read_indicator s;
  pr_normal : enter_flag s <> -1 ->
    keyboard_buffer s' = keyboard_buffer s /\
    kb_buffer_position s' = kb_buffer_position s /\
    first_scroll_indicator s' = first_scroll_indicator s;
}.

#[export] Instance prints_refl : Reflexive prints.
Proof. intros s. by constructor. Qed.

#[export] Instance prints_trans : Transitive prints.
Proof.
  intros s1 s2 s3 H1 H2. constructor.
  1: intros b Hb; by rewrite (pr_mem _ _ H2), (pr_mem _ _ H1).
  1-11: etrans; [apply H2 | apply H1].
  - intros Hn. destruct (pr_normal _ _ H1 Hn) as (<- & <- & <-).
    apply (pr_normal _ _ H2). by rewrite (pr_enter _ _ H1).
Qed.

(** ** The screen as a grid of characters

    The specification of the console: 25 rows of 80 characters and a
    cursor.  A new line moves to the start of the next row, or moves the
    whole grid up by one row. *)

Record view := View { v_char : Z -> Z -> Z; v_row : Z; v_col : Z }.

Definition abs_newline (v : view) : view :=
  if v_row v =? 24 then
    View (fun y x => if y =? 24 then SP else v_char v (y + 1) x) 24 0
  else View (v_char v) (v_row v + 1) 0.

Definition abs_write (c : Z) (v : view) : view :=
  View (fun y x => if (y =? v_row v) && (x =? v_col v) then u8 c
                   else v_char v y x) (v_row v) (v_col v).

Definition abs_putc (c : Z) (v : view) : view :=
  if (c =? LF) || (c =? CR) then abs_newline v
  else if v_col v <? 79 then
    View (v_char (abs_write c v)) (v_row v) (v_col v + 1)
  else abs_newline (abs_write c v).

Definition abs_puts (l : list Z) (v : view) : view := foldl (fun v c => abs_putc c v) v l.

Definition shows (s : tty) (v : view) : Prop :=
  (forall y x, on_screen y x -> screen_char (t_mem s) y x = v_char v y x) /\
  screen_y s = v_row v /\ screen_x s = v_col v.

(** The four port writes that move the cursor of the VGA controller. *)
Definition cursor_io (row col : Z) : list io :=
  [Out 15 980; Out (u8 (80 * row + col)) 981;
   Out 14 980; Out ((80 * row + col) / 256) 981].

Lemma update_cursor_spec row col s :
  on_screen row col ->
  update_cursor row col s =
  Ok (tt, set_t_trace (t_trace s ++ cursor_io row col) s).
Proof.
  unfold on_screen. intros H. unfold update_cursor, NUM_COLS.
  rewrite !(u16_small row), !(u16_small col), !u16_small by lia.
  replace (row * 80 + col) with (80 * row + col) by lia.
  rewrite Z.shiftr_div_pow2 by lia. change 255 with (Z.ones 8).
  rewrite !Z.land_ones by lia.
  unfold outb, mbind, st_bind, modify. cbv beta iota.
  unfold cursor_io, set_t_trace. cbn [t_trace t_mem t_if screen_x screen_y
    enter_tracker first_scroll_indicator rtc_flag cap_flag shift_flag
    control_flag alt_flag enter_flag cross_enter_flag keyboard_buffer
    kb_buffer_position ter_read_buffer ter_read_buf_size ter_read_indicator].
  assert (E1 : u8 ((80 * row + col) mod 2 ^ 8) = u8 (80 * row + col))
    by (unfold u8; lia_mod).
  assert (E2 : u8 (((80 * row + col) / 2 ^ 8) mod 2 ^ 8) = (80 * row + col) / 256)
    by (unfold u8; lia_mod).
  rewrite E1, E2, <-!app_assoc. done.
Qed.

Lemma scrolling_spec s :
  tty_wf s ->
  wp scrolling (fun _ s' => tty_wf s' /\ prints s s' /\
    t_mem s' = scroll_mem (t_mem s) /\ t_trace s' = t_trace s /\
    screen_x s' = screen_x s /\ screen_y s' = screen_y s) s.
Proof.
  intros [Hc Ht Hk Hp Hr].
  assert (Hm : forall b, off_screen b ->
    mget (scroll_mem (t_mem s)) b = mget (t_mem s) b)
    by (intros; by apply scroll_mem_frame).
  destruct (first_newline_spec (keyboard_buffer s)) as (Hi & _ & _).
  assert (Hd : forall n, 0 <= n <= 128 -> zlen (drop_kb n (keyboard_buffer s)) = 128).
  { intros n Hn. rewrite drop_kb_spec by done.
    rewrite length_app, length_drop, length_replicate. lia. }
  assert (Hs : zlen (shift_tracker (enter_tracker s)) = 25).
  { rewrite shift_tracker_spec by done. rewrite length_app, length_drop. cbn. lia. }
  unfold scrolling. run.
  repeat branch; split_and!; try done; constructor; cbn; try done;
    try (apply Hd; unfold NUM_COLS; lia); try apply u8_range; try lia.
Qed.

Lemma write_shows s v c :
  shows s v -> on_screen (screen_y s) (screen_x s) ->
  forall y x, on_screen y x ->
  screen_char (put_cell (screen_y s) (screen_x s) c (t_mem s)) y x =
  v_char (abs_write c v) y x.
Proof.
  intros (Hg & Hy & Hx) Hc y x Hyx. rewrite put_cell_char by done. cbn.
  rewrite <-Hy, <-Hx, <-Hg by done. case_decide; case_match; done || lia.
Qed.

(** The body of [putc] up to the cursor update. *)
Definition putc_post (c : Z) (s s' : tty) : Prop :=
  tty_wf s' /\ prints s s' /\
  t_trace s' = t_trace s ++ cursor_io (screen_y s') (screen_x s') /\
  forall v, shows s v -> shows s' (abs_putc c v).

(** The states [putc] can hand to [update_cursor]. *)
Lemma putc_finish c s s1 :
  tty_wf s1 -> prints s s1 -> t_trace s1 = t_trace s ->
  (forall v, shows s v -> shows s1 (abs_putc c v)) ->
  wp (y ← gets screen_y; x ← gets screen_x; update_cursor y x)
    (fun _ => putc_post c s) s1.
Proof.
  intros Hwf Hp Ht Hv. unfold wp. unfold mbind, st_bind, gets.
  rewrite update_cursor_spec by apply Hwf. unfold putc_post. cbn.
  rewrite Ht. split_and!; [| | done | done].
  - destruct Hwf. by constructor.
  - etrans; [done|]. by constructor.
Qed.

Lemma newline_shows s v :
  shows s v -> screen_y s < 24 ->
  shows (set_screen_x 0 (set_screen_y (screen_y s + 1) s)) (abs_newline v).
Proof.
  intros (Hg & Hy & Hx) H. unfold abs_newline.
  destruct (_ =? _) eqn:E; [lia|]. repeat split; cbn; [done | lia].
Qed.

Lemma scroll_shows s v s' :
  shows s v -> screen_y s = 24 -> t_mem s' = scroll_mem (t_mem s) ->
  screen_y s' = 24 -> screen_x s' = 0 ->
  shows s' (abs_newline v).
Proof.
  intros (Hg & Hy & Hx) H Hm Hy' Hx'. unfold abs_newline.
  rewrite (proj2 (Z.eqb_eq _ _)) by lia. repeat split; cbn; [|done..].
  intros y x Hyx. rewrite Hm, scroll_mem_char by done.
  case_decide; case_match; try lia. apply Hg. unfold on_screen in *. lia.
Qed.

(** Writing the last cell of row 23 after a scroll is scrolling after
    writing the last cell of row 24. *)
Lemma put_after_scroll m c y x x' :
  on_screen y x -> on_screen 24 x' ->
  screen_char (put_cell 23 x' c (scroll_mem m)) y x =
  screen_char (scroll_mem (put_cell 24 x' c m)) y x.
Proof.
  intros Hyx Hx'.
  rewrite put_cell_char by (done || (unfold on_screen in *; lia)).
  rewrite !scroll_mem_char by done.
  repeat case_decide; try done; try lia.
  - rewrite put_cell_char by (done || (unfold on_screen in *; lia)).
    rewrite decide_True by lia. done.
  - rewrite put_cell_char by (done || (unfold on_screen in *; lia)).
    rewrite decide_False by lia. done.
Qed.

Lemma prints_mem s m :
  (forall b, off_screen b -> mget m b = mget (t_mem s) b) ->
  prints s (set_t_mem m s).
Proof. intros. by constructor. Qed.

Lemma putc_newline_spec c s :
  tty_wf s -> (c =? LF) || (c =? CR) = true -> wp (putc c) (fun _ => putc_post c s) s.
Proof.
  intros Hwf Hc. unfold putc. rewrite Hc.
  assert (Hwf' : tty_wf (set_enter_tracker
    (<[Z.to_nat (screen_y s):=u32 (screen_x s + OFFSET)]> (enter_tracker s)) s)).
  { destruct Hwf. constructor; cbn; try done. by rewrite length_insert. }
  assert (Hab : forall v, abs_putc c v = abs_newline v)
    by (intros; unfold abs_putc; by rewrite Hc).
  pose proof (wf_cursor _ Hwf) as Hcur. unfold on_screen in Hcur.
  wsteps. eapply wp_liftR; [apply aset_ok; rewrite (wf_tracker _ Hwf); lia|].
  wsteps. unfold NUM_ROWS. destruct (screen_y s =? 25 - 1) eqn:Ey.
  - apply wp_bind. eapply wp_mono; [by apply scrolling_spec|]. cbn.
    intros [] s1 (Hwf1 & Hpr & Hm & Htr & Hx & Hy). wsteps. apply putc_finish; cbn.
    + destruct Hwf1. unfold on_screen in *. constructor; cbn; try done; unfold on_screen; lia.
    + transitivity s1; [|by constructor]. etrans; [|exact Hpr]. by constructor.
    + done.
    + intros v Hv. rewrite Hab. eapply scroll_shows; [exact Hv | lia | | | ]; cbn; [done | lia | done].
  - wsteps. apply putc_finish; cbn.
    + destruct Hwf'. constructor; cbn; try done. unfold on_screen. lia.
    + by constructor.
    + done.
    + intros v Hv. rewrite Hab.
      destruct (newline_shows s v Hv) as (H1 & H2 & H3); [lia|].
      repeat split; done.
Qed.

Lemma putc_char_spec c s :
  tty_wf s -> (c =? LF) || (c =? CR) = false -> wp (putc c) (fun _ => putc_post c s) s.
Proof.
  intros Hwf Hc. unfold putc. rewrite Hc.
  pose proof (wf_cursor _ Hwf) as Hcur. unfold on_screen in Hcur.
  assert (Hpc : forall b, off_screen b ->
    mget (put_cell (screen_y s) (screen_x s) c (t_mem s)) b = mget (t_mem s) b)
    by (intros; by apply put_cell_frame).
  wsteps.
  unfold NUM_ROWS, NUM_COLS.
  assert (Hab : forall v, abs_putc c v = if v_col v <? 79 then
      View (v_char (abs_write c v)) (v_row v) (v_col v + 1)
    else abs_newline (abs_write c v)) by (intros; unfold abs_putc; by rewrite Hc).
  destruct (screen_x s <? 80 - 1) eqn:Ex; [|destruct (screen_y s <? 25 - 1) eqn:Ey].
  - wsteps. apply putc_finish; cbn.
    + destruct Hwf. constructor; cbn; try done. unfold on_screen. lia.
    + by constructor.
    + done.
    + intros v Hv. rewrite Hab. pose proof Hv as (_ & Hy & Hx).
      rewrite (proj2 (Z.ltb_lt _ _)) by lia.
      repeat split; cbn; [|lia..]. by apply (write_shows s v c).
  - wsteps. apply putc_finish; cbn.
    + destruct Hwf. constructor; cbn; try done. unfold on_screen. lia.
    + by constructor.
    + done.
    + intros v Hv. rewrite Hab. pose proof Hv as (_ & Hy & Hx).
      rewrite (proj2 (Z.ltb_ge _ _)) by lia.
      set (s1 := set_t_mem (put_cell (screen_y s) (screen_x s) c (t_mem s)) s).
      destruct (newline_shows s1 (abs_write c v)) as (H1 & H2 & H3); cbn; [|lia|done].
      repeat split; cbn; [|lia..]. by apply (write_shows s v c).
  - apply wp_bind. eapply wp_mono; [by apply scrolling_spec|].
    intros [] s1 (Hwf1 & Hpr & Hm & Htr & Hx & Hy). cbn in Hx, Hy.
    wsteps. apply putc_finish; cbn.
    + destruct Hwf1. constructor; cbn; try done. unfold on_screen. lia.
    + etrans; [exact Hpr|]. constructor; cbn; try done.
      intros b Hb. apply put_cell_frame; [unfold on_screen; lia | done].
    + done.
    + intros v Hv. rewrite Hab. pose proof Hv as (_ & Hy' & Hx').
      rewrite (proj2 (Z.ltb_ge _ _)) by lia.
      set (s2 := set_t_mem (put_cell (screen_y s) (screen_x s) c (t_mem s)) s).
      assert (Hw : shows s2 (abs_write c v))
        by (repeat split; cbn; [by apply (write_shows s v c) | lia..]).
      destruct (scroll_shows s2 _ (set_screen_x 0 (set_screen_y 24
        (set_t_mem (scroll_mem (t_mem s2)) s2))) Hw) as (H1 & H2 & H3);
        cbn; [lia | done.. |].
      split_and!; [|cbn in *; lia..]. intros y x Hyx. rewrite <-H1 by done. cbn.
      rewrite Hm. replace (screen_y s - 1) with 23 by lia.
      replace (screen_y s) with 24 by lia.
      apply put_after_scroll; [done | unfold on_screen; lia].
Qed.

Lemma putc_spec c s : tty_wf s -> wp (putc c) (fun _ => putc_post c s) s.
Proof.
  intros Hwf. destruct ((c =? LF) || (c =? CR)) eqn:E;
    [by apply putc_newline_spec | by apply putc_char_spec].
Qed.

(** Printing a text: the screen shows what the grid shows after all of its
    characters. *)
Definition prints_text (l : list Z) (s s' : tty) : Prop :=
  tty_wf s' /\ prints s s' /\ forall v, shows s v -> shows s' (abs_puts l v).

Lemma prints_text_nil s : tty_wf s -> prints_text [] s s.
Proof. done. Qed.

Lemma prints_text_snoc l c s s1 s2 :
  prints_text l s s1 -> putc_post c s1 s2 -> prints_text (l ++ [c]) s s2.
Proof.
  intros (_ & Hp1 & Hv1) (Hwf & Hp2 & _ & Hv2). split_and!; [done | by etrans|].
  intros v Hv. unfold abs_puts. rewrite foldl_app. by apply Hv2, Hv1.
Qed.

Lemma prints_text_app l1 l2 s s1 s2 :
  prints_text l1 s s1 -> prints_text l2 s1 s2 -> prints_text (l1 ++ l2) s s2.
Proof.
  intros (_ & Hp1 & Hv1) (Hwf & Hp2 & Hv2). split_and!; [done | by etrans|].
  intros v Hv. unfold abs_puts. rewrite foldl_app. by apply Hv2, Hv1.
Qed.

Lemma puts_str_spec l s :
  tty_wf s -> wp (puts_str l) (fun _ => prints_text l s) s.
Proof.
  revert s. induction l as [|c l IH]; intros s Hwf; [done|].
  cbn [puts_str]. apply wp_bind. eapply wp_mono; [by apply putc_spec|].
  intros [] s1 H1. eapply wp_mono; [apply IH, H1|].
  intros [] s2 H2. change (c :: l) with ([c] ++ l).
  eapply prints_text_app; [|exact H2].
  by apply (prints_text_snoc [] c s s); [apply prints_text_nil|].
Qed.

Lemma puts_spec p l s :
  tty_wf s -> cstr (t_mem s) p l -> zlen l < 4294967295 ->
  (forall i, 0 <= i <= zlen l -> off_screen (p + i)) ->
  wp (puts p) (fun n s' => n = zlen l /\ prints_text l s s') s.
Proof.
  intros Hwf Hl Hlen Hoff. unfold puts, wp.
  apply (while_rule (puts_step p)
    (fun st => 0 <= snd st <= zlen l /\
       prints_text (take (Z.to_nat (snd st)) l) s (fst st))
    (fun st => zlen l - snd st)); cbn [fst snd].
  - split; [lia | by apply prints_text_nil].
  - lia.
  - intros [s1 i] [Hi H1]. cbn [fst snd] in *. unfold puts_step.
    rewrite (pr_mem _ _ (proj1 (proj2 H1))) by (apply Hoff; lia).
    destruct (decide (i = zlen l)) as [->|].
    + rewrite (cstr_end _ _ _ Hl), Nat2Z.id, firstn_all in *. done.
    + pose proof (cstr_nonzero _ _ _ i Hl ltac:(lia)) as Hnz.
      destruct (_ =? 0) eqn:E; [lia|].
      destruct (wp_inv _ _ _ (putc_spec (mget (t_mem s) (p + i)) s1 (proj1 H1)))
        as (? & s2 & -> & H2). cbn [fst snd].
      split; [|lia]. split; [lia|].
      replace (Z.to_nat (i + 1)) with (S (Z.to_nat i)) by lia.
      pose proof (cstr_char _ _ _ i Hl ltac:(lia)) as Hch.
      rewrite (take_S_r _ _ (mget (t_mem s) (p + i))).
      * by eapply prints_text_snoc.
      * rewrite Hch. unfold anth. rewrite nth_lookup.
        destruct (lookup_lt_is_Some_2 l (Z.to_nat i)) as [z Hz]; [lia|].
        by rewrite Hz.
Qed.

(** ** Clearing the screen *)

Lemma clear_mem_spec m b :
  mget (clear_mem m) b =
  if (VIDEO <=? b) && (b <? VIDEO + 4000)
  then if Z.even b then SP else ATTRIB else mget m b.
Proof.
  unfold clear_mem. change (NUM_ROWS * NUM_COLS) with 2000.
  change 4000 with (2 * 2000). revert b.
  apply (forz_inv (fun i m1 => forall b, mget m1 b =
    if (VIDEO <=? b) && (b <? VIDEO + 2 * i)
    then if Z.even b then SP else ATTRIB else mget m b)); [lia | |].
  - intros b. case_match; [lia | done].
  - intros i m1 Hi Hm1 b. rewrite !mget_mset, Hm1, Z.shiftl_mul_pow2 by lia.
    assert (Hev : Z.even b = (b mod 2 =? 0))
      by (rewrite Zmod_even; by destruct (Z.even _)).
    rewrite Hev. clear Hev. change (2 ^ 1) with 2. unfold VIDEO.
    repeat case_decide; repeat case_match; try done; exfalso; lia_mod.
Qed.

Lemma clear_mem_char m y x :
  on_screen y x -> screen_char (clear_mem m) y x = SP.
Proof.
  unfold on_screen, screen_char. intros H. rewrite clear_mem_spec, vaddr_eq.
  rewrite Z.even_add, Z.even_mul. cbn [Z.even xorb orb].
  change (Z.even VIDEO) with true. unfold VIDEO. case_match; [done | lia].
Qed.

Lemma clear_mem_frame m b : off_screen b -> mget (clear_mem m) b = mget m b.
Proof.
  unfold off_screen. intros. rewrite clear_mem_spec. case_match; [lia | done].
Qed.

(** [reset]: a blank screen, the cursor at the top left, an empty line. *)
Definition blank_view : view := View (fun _ _ => SP) 0 0.

Lemma reset_spec s :
  zlen (enter_tracker s) = 25 -> zlen (keyboard_buffer s) = 128 ->
  zlen (ter_read_buffer s) = 128 ->
  wp reset (fun _ s' => tty_wf s' /\ shows s' blank_view /\
    kb_buffer_position s' = 0 /\
    keyboard_buffer s' = replicate 128 0 /\ enter_tracker s' = replicate 25 0 /\
    t_trace s' = t_trace s ++ cursor_io 0 0 /\
    forall b, off_screen b -> mget (t_mem s') b = mget (t_mem s) b) s.
Proof.
  intros Ht Hk Hr. unfold reset, clear. wsteps. unfold wp.
  rewrite update_cursor_spec by (cbn; unfold on_screen; lia). cbn.
  rewrite !zero_array by (cbn; done).
  replace (List.length (keyboard_buffer s)) with 128%nat by lia.
  replace (List.length (enter_tracker s)) with 25%nat by lia.
  split_and!; try done.
  - split_and!; [|done..]. intros y x Hyx. cbn. by apply clear_mem_char.
  - intros b Hb. cbn. by apply clear_mem_frame.
Qed.

(** ** Erasing *)

Definition abs_backspace (v : view) : view :=
  if (v_row v =? 0) && (v_col v =? 0) then v
  else if 0 <? v_col v then abs_write SP (View (v_char v) (v_row v) (v_col v - 1))
  else abs_write SP (View (v_char v) (v_row v - 1) 79).

Lemma backspace_cell_shows s v y x :
  shows s v -> on_screen y x ->
  shows (set_t_mem (put_cell y x SP (t_mem s)) (set_screen_y y (set_screen_x x s)))
    (abs_write SP (View (v_char v) y x)).
Proof.
  intros (Hg & _ & _) Hyx. split_and!; [|done..]. intros y' x' H'. cbn.
  rewrite put_cell_char, Hg by done. case_decide; case_match; done || lia.
Qed.

(** Outside text editing mode [backspace] erases the cell before the
    cursor, whichever row it is in. *)
Lemma backspace_normal_spec s :
  tty_wf s -> enter_flag s <> -1 ->
  wp backspace (fun _ s' => tty_wf s' /\ prints s s' /\
    enter_tracker s' = enter_tracker s /\
    forall v, shows s v -> shows s' (abs_backspace v)) s.
Proof.
  intros Hwf He. pose proof (wf_cursor _ Hwf) as Hc. unfold on_screen in Hc.
  assert (Hcell : forall c y x, on_screen y x -> c s = backspace_cell y x s ->
    wp (c ;; y ← gets screen_y; x ← gets screen_x; update_cursor y x)
      (fun _ s' => tty_wf s' /\ prints s s' /\
        enter_tracker s' = enter_tracker s /\
        forall v, shows s v -> shows s' (abs_write SP (View (v_char v) y x))) s).
  { intros c y x Hyx Hb. apply wp_bind. eapply wp_ok; [rewrite Hb; reflexivity|].
    wsteps. unfold wp.
    rewrite update_cursor_spec by done. split_and!.
    - destruct Hwf. by constructor.
    - constructor; cbn; try done. intros b Hoff. by apply put_cell_frame.
    - done.
    - intros v Hv. by apply (backspace_cell_shows s v y x). }
  unfold backspace. wsteps.
  assert (Habs : forall v, shows s v -> abs_backspace v =
    if (screen_y s =? 0) && (screen_x s =? 0) then v
    else if 0 <? screen_x s then abs_write SP (View (v_char v) (screen_y s) (screen_x s - 1))
    else abs_write SP (View (v_char v) (screen_y s - 1) 79))
    by (intros v (_ & -> & ->); done).
  destruct (_ && _) eqn:E0.
  - wsteps. split_and!; try done. intros v Hv. by rewrite Habs.
  - destruct (0 <? screen_x s) eqn:Ex.
    + eapply wp_mono; [apply (Hcell _ (screen_y s) (screen_x s - 1));
        [unfold on_screen; lia | done]|].
      intros [] s' (H1 & H2 & H3 & H4). split_and!; try done.
      intros v Hv. rewrite Habs by done. auto.
    + eapply wp_mono; [apply (Hcell _ (screen_y s - 1) 79);
        [unfold on_screen; lia | run; by rewrite (proj2 (Z.eqb_neq _ _) He)]|].
      intros [] s' (H1 & H2 & H3 & H4). split_and!; try done.
      intros v Hv. rewrite Habs by done. auto.
Qed.

(** The loop of text editing mode that erases a row back to where Enter was
    pressed. *)
Lemma blank_row_spec m y stop :
  0 <= y < 25 -> 0 <= stop < 80 ->
  exists m', while (blank_step y stop) (m, NUM_COLS - 1) = Ok (m', stop) /\
    (forall b, off_screen b -> mget m' b = mget m b) /\
    (forall y' x', on_screen y' x' -> screen_char m' y' x' =
       if (y' =? y) && (stop <? x') then SP else screen_char m y' x').
Proof.
  intros Hy Hs.
  apply (while_rule (blank_step y stop)
    (fun st => stop <= snd st < 80 /\
      (forall b, off_screen b -> mget (fst st) b = mget m b) /\
      (forall y' x', on_screen y' x' -> screen_char (fst st) y' x' =
        if (y' =? y) && (snd st <? x') then SP else screen_char m y' x'))
    (fun st => snd st - stop)
    (fun r => exists m', r = Ok (m', stop) /\
      (forall b, off_screen b -> mget m' b = mget m b) /\
      (forall y' x', on_screen y' x' -> screen_char m' y' x' =
        if (y' =? y) && (stop <? x') then SP else screen_char m y' x')));
    unfold NUM_COLS; cbn [fst snd].
  - split_and!; [lia | lia | done |]. intros y' x' H. unfold on_screen in H.
    case_match; [lia | done].
  - lia.
  - intros [m1 x] (Hx & Hf & Hg). cbn [fst snd] in *. unfold blank_step.
    destruct (x =? stop) eqn:E.
    + assert (x = stop) as -> by lia. by exists m1.
    + cbn [fst snd]. split; [|lia]. split_and!; try lia.
      * intros b Hb. rewrite put_cell_frame by (done || (unfold on_screen; lia)).
        by apply Hf.
      * intros y' x' H. rewrite put_cell_char, Hg by (done || (unfold on_screen; lia)).
        repeat case_decide; repeat case_match; done || lia.
Qed.

Lemma putc_lf_mid s :
  tty_wf s -> screen_y s < 24 ->
  putc LF s = Ok (tt, set_t_trace (t_trace s ++ cursor_io (screen_y s + 1) 0)
    (set_screen_x 0 (set_screen_y (screen_y s + 1) (set_enter_tracker
      (<[Z.to_nat (screen_y s) := screen_x s + 175]> (enter_tracker s)) s)))).
Proof.
  intros Hwf Hy. pose proof (wf_cursor _ Hwf) as Hc. unfold on_screen in Hc.
  unfold putc. cbn [Z.eqb LF CR orb Pos.eqb].
  unfold mbind, st_bind, gets, liftR, modify.
  rewrite aset_ok by (rewrite (wf_tracker _ Hwf); lia).
  unfold NUM_ROWS. rewrite (proj2 (Z.eqb_neq _ _)) by lia. cbn.
  rewrite update_cursor_spec by (unfold on_screen; lia). cbn.
  unfold OFFSET. rewrite u32_small by lia. done.
Qed.

(** In text editing mode [backspace] at the start of a line takes the cursor
    back to the place where Enter was pressed, whatever the row. *)
Lemma backspace_enter_spec s e :
  tty_wf s -> enter_flag s = -1 -> screen_x s = 0 -> 0 < screen_y s ->
  anth 0 (enter_tracker s) (screen_y s - 1) = e + 175 -> 0 <= e < 80 ->
  wp backspace (fun _ s' => tty_wf s' /\ prints s s' /\
    screen_y s' = screen_y s - 1 /\ screen_x s' = e /\
    keyboard_buffer s' = keyboard_buffer s /\
    enter_tracker s' = <[Z.to_nat (screen_y s - 1) := 0]> (enter_tracker s) /\
    forall y x, on_screen y x -> screen_char (t_mem s') y x =
      if (y =? screen_y s - 1) && (e <? x) then SP
      else screen_char (t_mem s) y x) s.
Proof.
  intros Hwf He Hx Hy Het Hr. pose proof (wf_cursor _ Hwf) as Hc.
  pose proof (wf_tracker _ Hwf) as Ht. unfold on_screen in Hc.
  destruct (blank_row_spec (t_mem s) (screen_y s - 1) e) as (m' & Hw & Hf & Hg);
    [lia | lia|].
  unfold backspace. wsteps. rewrite Hx, (proj2 (Z.eqb_neq (screen_y s) 0)) by lia.
  cbn [andb]. wsteps. cbn [Z.ltb Z.compare]. wsteps. rewrite He.
  cbn [Z.eqb Pos.eqb]. wsteps.
  eapply wp_liftR; [apply (aget_ok 0); rewrite Ht; lia|]. rewrite Het.
  rewrite (proj2 (Z.eqb_neq _ _)) by lia. cbn [negb]. cbv zeta. wsteps.
  unfold OFFSET. replace (e + 175 - 175) with e by lia. rewrite u8_small by lia.
  eapply wp_liftR; [exact Hw|]. wsteps.
  eapply wp_liftR; [apply aset_ok; rewrite Ht; lia|]. wsteps. unfold wp.
  rewrite update_cursor_spec by (cbn; unfold on_screen; lia).
  split_and!; try done.
  - destruct Hwf. constructor; cbn; try done; [unfold on_screen; lia|].
    by rewrite length_insert.
Qed.

(** ** The properties of the console *)

(** C21: [putc] refines the grid: the screen shows what the grid shows after the
    character, the hardware cursor is moved there, the console stays well
    formed (the cursor on the screen, the arrays of their size), and nothing
    else changes: not memory outside the screen, not the interrupt flag, nor
    the keys or the reader. *)
Theorem putc_refines_grid c s v :
  tty_wf s -> shows s v ->
  exists s', putc c s = Ok (tt, s') /\ shows s' (abs_putc c v) /\ tty_wf s' /\ prints s s' /\
    t_trace s' = t_trace s ++ cursor_io (screen_y s') (screen_x s').
Proof.
  intros Hwf Hv. destruct (wp_inv _ _ _ (putc_spec c s Hwf)) as ([] & s' & Hr & H1 & H2 & H3 & H4).
  exists s'. split_and!; try done. by apply H4.
Qed.

(** [backspace] outside text editing mode refines the grid: it erases the
    cell before the cursor, in the row above when the cursor is in column 0,
    and does nothing in the top left corner. *)
Theorem backspace_refines_grid s v :
  tty_wf s -> enter_flag s <> -1 -> shows s v ->
  exists s', backspace s = Ok (tt, s') /\ shows s' (abs_backspace v) /\ tty_wf s' /\
    prints s s' /\ enter_tracker s' = enter_tracker s.
Proof.
  intros Hwf He Hv.
  destruct (wp_inv _ _ _ (backspace_normal_spec s Hwf He)) as ([] & s' & Hr & H1 & H2 & H3 & H4).
  exists s'. split_and!; try done. by apply H4.
Qed.

(** In text editing mode [backspace] after Enter goes back to the place
    where Enter was pressed: cursor, screen and the trackers of the other
    rows are as before, when the row was blank after the cursor. *)
Theorem enter_backspace_round_trip s :
  tty_wf s -> enter_flag s = -1 -> screen_y s < 24 ->
  (forall x, screen_x s < x < 80 -> screen_char (t_mem s) (screen_y s) x = SP) ->
  exists s1 s2, putc LF s = Ok (tt, s1) /\ backspace s1 = Ok (tt, s2) /\
    screen_y s1 = screen_y s + 1 /\ screen_x s1 = 0 /\
    screen_y s2 = screen_y s /\ screen_x s2 = screen_x s /\
    (forall y x, on_screen y x -> screen_char (t_mem s2) y x = screen_char (t_mem s) y x) /\
    enter_tracker s2 = <[Z.to_nat (screen_y s) := 0]> (enter_tracker s).
Proof.
  intros Hwf He Hy Hblank. pose proof (wf_cursor _ Hwf) as [Hy' Hx].
  pose proof (wf_tracker _ Hwf) as Htr.
  pose proof (putc_lf_mid s Hwf Hy) as Hrun. set (s1 := set_t_trace _ _) in Hrun.
  assert (E : screen_y s1 = screen_y s + 1 /\ screen_x s1 = 0 /\ t_mem s1 = t_mem s /\
    enter_flag s1 = -1 /\ enter_tracker s1 =
      <[Z.to_nat (screen_y s) := screen_x s + 175]> (enter_tracker s)) by done.
  destruct E as (E1 & E2 & E3 & E4 & E5).
  destruct (wp_inv _ _ _ (putc_spec LF s Hwf)) as ([] & s1' & Hr & Hwf1 & _).
  rewrite Hrun in Hr. injection Hr as <-. clearbody s1.
  destruct (wp_inv _ _ _ (backspace_enter_spec s1 (screen_x s) Hwf1 E4 E2 ltac:(lia)
    ltac:(rewrite E1, E5, anth_insert by lia; by rewrite decide_True by lia) Hx))
    as ([] & s2 & Hr2 & _ & _ & F1 & F2 & _ & F3 & F4).
  replace (screen_y s1 - 1) with (screen_y s) in * by lia.
  exists s1, s2. split_and!; try done.
  - intros y x Hyx. rewrite F4, E3 by done.
    destruct (Z.eqb_spec y (screen_y s)) as [->|]; [|done].
    destruct (Z.ltb_spec (screen_x s) x); [|done]. cbn [andb]. symmetry. apply Hblank.
    unfold on_screen in Hyx. lia.
  - rewrite F3, E5. apply list_insert_insert_eq.
Qed.

(** [reset] leaves a blank screen, the cursor at the top left, an empty line
    and empty trackers, and no other change of memory. *)
Theorem reset_blanks s :
  zlen (enter_tracker s) = 25 -> zlen (keyboard_buffer s) = 128 ->
  zlen (ter_read_buffer s) = 128 ->
  exists s', reset s = Ok (tt, s') /\ tty_wf s' /\ shows s' blank_view /\
    kb_buffer_position s' = 0 /\ keyboard_buffer s' = replicate 128 0 /\
    enter_tracker s' = replicate 25 0 /\ t_trace s' = t_trace s ++ cursor_io 0 0 /\
    (forall b, off_screen b -> mget (t_mem s') b = mget (t_mem s) b).
Proof.
  intros H1 H2 H3. destruct (wp_inv _ _ _ (reset_spec s H1 H2 H3)) as ([] & s' & Hr & H).
  by exists s'.
Qed.
