(* ===== verification/Ports.v ===== *)
(** * Ports and the interrupt flag (lib.h)

    The macros of lib.h that access more than one byte, and the pair that
    saves and restores the interrupt flag.  An access to a port of two or
    four bytes is one to as many consecutive ports, low byte first, as the
    comments of lib.h say. *)

From Stdlib Require Import ZArith Lia.
From stdpp Require Import base numbers list gmap.
From S2P Require Import Prelude Console.

Local Open Scope Z_scope.

(** ** The code *)

Definition outw (v port : Z) : ST tty unit :=
  outb v port ;; outb (Z.shiftr v 8) (port + 1).
Definition outl (v port : Z) : ST tty unit :=
  outw v port ;; outw (Z.shiftr v 16) (port + 2).

(** What the ports answer is an argument. *)
Definition inw (port answer : Z) : ST tty Z :=
  lo ← inb port answer;
  hi ← inb (port + 1) (Z.shiftr answer 8);
  mret (Z.lor lo (Z.shiftl hi 8)).
Definition inl (port answer : Z) : ST tty Z :=
  lo ← inw port answer;
  hi ← inw (port + 2) (Z.shiftr answer 16);
  mret (Z.lor lo (Z.shiftl hi 16)).

(** Bit 9 of EFLAGS is the interrupt flag; [other] are the other bits. *)
Definition IF_BIT : Z := 9.
Definition cli_and_save (other : Z) : ST tty Z :=
  f ← gets t_if;
  cli ;;
  mret (if f : bool then Z.setbit other IF_BIT else Z.clearbit other IF_BIT).
Definition restore_flags (flags : Z) : ST tty unit :=
  modify (set_t_if (Z.testbit flags IF_BIT)).

(** ** The properties *)

Lemma lor_shift a b n : 0 <= a < 2 ^ n -> 0 <= n -> Z.lor a (Z.shiftl b n) = a + b * 2 ^ n.
Proof. intros Ha Hn. rewrite Z.shiftl_mul_pow2, Z.lor_comm, lor_fields by done. lia. Qed.

Lemma word_halves v : u16 v = u8 v + u8 (Z.shiftr v 8) * 2 ^ 8.
Proof. rewrite Z.shiftr_div_pow2 by lia. unfold u8, u16. lia_mod. Qed.

(** Two bytes are read as a word. *)
Lemma inw_word port v s : exists s', inw port v s = Ok (u16 v, s') /\
  t_trace s' = t_trace s ++ [In port (u8 v); In (port + 1) (u8 (Z.shiftr v 8))].
Proof.
  eexists. split.
  - unfold inw. bstep. bstep. unfold mret, st_ret. do 2 f_equal.
    by rewrite lor_shift, word_halves by (apply u8_range || lia).
  - cbn. by rewrite <- app_assoc.
Qed.

(** Four bytes are read as the word that [outl] sends through the same
    ports. *)
Definition answers (l : list io) : list (Z * Z) :=
  map (fun e => match e with In p v => (p, v) | Out v p => (p, v) end) l.

Theorem outl_inl port v s :
  exists s1 s2 l1 l2, outl v port s = Ok (tt, s1) /\ inl port v s = Ok (u32 v, s2) /\
    t_trace s1 = t_trace s ++ l1 /\ t_trace s2 = t_trace s ++ l2 /\ answers l1 = answers l2.
Proof.
  destruct (inw_word port v s) as (s1 & H1 & T1).
  destruct (inw_word (port + 2) (Z.shiftr v 16) s1) as (s2 & H2 & T2).
  eexists _, s2, _, _. split; [reflexivity|]. split.
  { unfold inl. rewrite (bind_ok _ _ _ _ _ H1), (bind_ok _ _ _ _ _ H2). unfold mret, st_ret.
    do 2 f_equal. rewrite lor_shift by (unfold u16; lia_mod).
    rewrite Z.shiftr_div_pow2 by lia. unfold u16, u32. lia_mod. }
  split; [cbn; by rewrite <- !app_assoc|]. split; [rewrite T2, T1; by rewrite <- app_assoc|]. done.
Qed.

(** A critical section: the interrupt flag is off inside and afterwards what
    it was before, whatever the code inside does to it. *)
Theorem flags_restored {A} other (c : ST tty A) s a s1 :
  c (set_t_if false s) = Ok (a, s1) ->
  exists s', (f ← cli_and_save other; _ ← c; restore_flags f) s = Ok (tt, s') /\
    t_if s' = t_if s.
Proof.
  intros Hc. unfold cli_and_save. eexists. split.
  - rewrite bind_assoc. bstep. rewrite bind_assoc. bstep. bstep. rewrite (bind_ok _ _ _ _ _ Hc).
    reflexivity.
  - cbn [t_if set_t_if]. destruct (t_if s); [apply Z.setbit_eq | apply Z.clearbit_eq]; done.
Qed.
