(* ===== verification/Printf.v ===== *)
(** * printf (lib.c)

    The format is scanned character by character; [printf_scan] is the two
    nested switches of the code, its first argument telling whether the
    scan is inside a conversion ([Some alternate], after a percent sign) or
    not.  The variadic arguments are the words above the format on the
    stack.  The buffer [conv_buf] of a conversion is a scratch memory of its
    own at address 0. *)

From Stdlib Require Import ZArith Lia String Ascii.
From stdpp Require Import base numbers list gmap.
From S2P Require Import Prelude Mem CString Console.

Local Open Scope Z_scope.

(** ** The code *)

(** [puts] of a string in a local buffer. *)
Definition puts_local (m : mem) (a : Z) : ST tty unit :=
  n ← liftR (strlen m a);
  puts_str (mbytes m a (Z.to_nat n)).

(** [while (i < 8) { conv_buf[i] = '0'; i++; }] *)
Definition pad_zeros (start : Z) (m : mem) : mem :=
  forz start 8 (fun i m => mset m i (chr "0")) m.

Definition conv_x (alternate : bool) (v : Z) : ST tty unit :=
  if negb alternate then
    m ← liftR (itoa ∅ v 0 16);
    puts_local m 0
  else
    m ← liftR (itoa ∅ v 8 16);
    starting_index ← liftR (strlen m 8);
    puts_local (pad_zeros starting_index m) starting_index.

Definition conv_u (v : Z) : ST tty unit :=
  m ← liftR (itoa ∅ v 0 10);
  puts_local m 0.

Definition conv_d (v : Z) : ST tty unit :=
  let value := s32 v in
  if value <? 0 then
    m ← liftR (itoa (mset ∅ 0 (chr "-")) (u32 (- value)) 1 10);
    puts_local m 0
  else
    m ← liftR (itoa ∅ value 0 10);
    puts_local m 0.

(** [esp]: the next argument and the rest of the stack. *)
Definition next_arg (args : list Z) : res (Z * list Z) :=
  match args with v :: args => Ok (u32 v, args) | [] => Err OutOfBounds end.

Fixpoint printf_scan (mode : option bool) (fmt args : list Z) : ST tty unit :=
  match fmt with
  | [] => match mode with None => mret tt | Some _ => fail OutOfBounds end
  | c :: fmt =>
      match mode with
      | None =>
          if c =? chr "%" then printf_scan (Some false) fmt args
          else putc c ;; printf_scan None fmt args
      | Some alternate =>
          if c =? chr "%" then putc (chr "%") ;; printf_scan None fmt args
          else if c =? chr "#" then printf_scan (Some true) fmt args
          else if c =? chr "x" then
            '(v, args') ← liftR (next_arg args);
            conv_x alternate v ;; printf_scan None fmt args'
          else if c =? chr "u" then
            '(v, args') ← liftR (next_arg args);
            conv_u v ;; printf_scan None fmt args'
          else if c =? chr "d" then
            '(v, args') ← liftR (next_arg args);
            conv_d v ;; printf_scan None fmt args'
          else if c =? chr "c" then
            '(v, args') ← liftR (next_arg args);
            putc (u8 v) ;; printf_scan None fmt args'
          else if c =? chr "s" then
            '(v, args') ← liftR (next_arg args);
            puts v ;; printf_scan None fmt args'
          else printf_scan None fmt args
      end
  end.

Definition printf (fmt args : list Z) : ST tty Z :=
  printf_scan None fmt args ;; mret (zlen fmt).

(** ** What a format prints *)

Definition dec_text (v : Z) (text : list Z) : Prop :=
  exists ds, numeral 10 v ds /\ text = map digit_char ds.
Definition hex_text (v : Z) (text : list Z) : Prop :=
  exists ds, numeral 16 v ds /\ text = map digit_char ds.

(** The text of one conversion; [m] is the memory that holds strings. *)
Inductive conv_text (m : mem) : bool -> Z -> Z -> list Z -> Prop :=
  | ct_x v t : hex_text (u32 v) t -> conv_text m false (chr "x") v t
  | ct_alt_x v t : hex_text (u32 v) t ->
      conv_text m true (chr "x") v (replicate (8 - List.length t) (chr "0") ++ t)
  | ct_u alt v t : dec_text (u32 v) t -> conv_text m alt (chr "u") v t
  | ct_d_pos alt v t : 0 <= s32 v -> dec_text (s32 v) t -> conv_text m alt (chr "d") v t
  | ct_d_neg alt v t : s32 v < 0 -> dec_text (- s32 v) t ->
      conv_text m alt (chr "d") v (chr "-" :: t)
  | ct_c alt v : conv_text m alt (chr "c") v [u8 v]
  | ct_s alt v t : cstr m (u32 v) t -> conv_text m alt (chr "s") v t.

(** A conversion that takes no argument. *)
Definition plain_conv (c : Z) : bool :=
  negb (existsb (Z.eqb c) (map chr ["#"; "x"; "u"; "d"; "c"; "s"]%char)).

Inductive expands (m : mem) : option bool -> list Z -> list Z -> list Z -> Prop :=
  | ex_end args : expands m None [] args []
  | ex_char c fmt args t : c <> chr "%" ->
      expands m None fmt args t -> expands m None (c :: fmt) args (c :: t)
  | ex_percent fmt args t :
      expands m (Some false) fmt args t -> expands m None (chr "%" :: fmt) args t
  | ex_alt b fmt args t :
      expands m (Some true) fmt args t -> expands m (Some b) (chr "#" :: fmt) args t
  | ex_conv b c v fmt args t1 t2 :
      conv_text m b c v t1 -> expands m None fmt args t2 ->
      expands m (Some b) (c :: fmt) (v :: args) (t1 ++ t2)
  | ex_none b c fmt args t : plain_conv c = true ->
      expands m None fmt args t ->
      expands m (Some b) (c :: fmt) args
        ((if c =? chr "%" then [chr "%"] else []) ++ t).

(** The arguments a format needs: one word for each conversion that takes
    one, a string outside the screen for [%s], and no format that ends
    inside a conversion. *)
Definition good_string (m : mem) (p : Z) : Prop :=
  exists l, cstr m p l /\ zlen l < 4294967295 /\
    forall i, 0 <= i <= zlen l -> off_screen (p + i).

Fixpoint fits (m : mem) (mode : option bool) (fmt args : list Z) : Prop :=
  match fmt with
  | [] => mode = None
  | c :: fmt =>
      match mode with
      | None => fits m (if c =? chr "%" then Some false else None) fmt args
      | Some b =>
          if c =? chr "#" then fits m (Some true) fmt args
          else if plain_conv c then fits m None fmt args
          else match args with
               | [] => False
               | v :: args => (c = chr "s" -> good_string m (u32 v)) /\ fits m None fmt args
               end
      end
  end.

(** ** Conversions *)

Lemma puts_local_spec m a l s :
  tty_wf s -> cstr m a l -> zlen l < 4294967296 ->
  wp (puts_local m a) (fun _ => prints_text l s) s.
Proof.
  intros Hwf Hl Hlen. unfold puts_local. wsteps.
  eapply wp_liftR; [by apply strlen_spec|].
  replace (mbytes m a _) with l; [by apply puts_str_spec|].
  apply (anth_eq 0).
  - rewrite length_mbytes. lia.
  - intros i Hi. rewrite anth_mbytes by lia. symmetry. by apply cstr_char.
Qed.

Lemma numeral_short radix v ds :
  2 <= radix -> 0 <= v < 4294967296 -> numeral radix v ds ->
  zlen (map digit_char ds) <= 32.
Proof. intros. rewrite length_map. by eapply numeral_length. Qed.

Lemma conv_u_spec v s :
  tty_wf s -> 0 <= v < 4294967296 ->
  wp (conv_u v) (fun _ s' => exists t, dec_text v t /\ prints_text t s s') s.
Proof.
  intros Hwf Hv. unfold conv_u. wsteps.
  destruct (itoa_spec ∅ v 0 10) as (m & ds & Hi & Hn & Hc & _); [done | lia|].
  eapply wp_liftR; [exact Hi|].
  pose proof (numeral_short 10 v ds ltac:(lia) Hv Hn).
  eapply wp_mono; [apply (puts_local_spec m 0 _ s Hwf Hc); lia|].
  intros [] s' Hp. exists (map digit_char ds). split; [by exists ds | done].
Qed.

Lemma conv_d_spec v s :
  tty_wf s -> wp (conv_d v) (fun _ s' => exists t,
    conv_text ∅ false (chr "d") v t /\ prints_text t s s') s.
Proof.
  intros Hwf. pose proof (s32_range v) as Hv. unfold conv_d. cbv zeta.
  destruct (s32 v <? 0) eqn:E.
  - rewrite u32_small by lia. wsteps.
    destruct (itoa_spec (mset ∅ 0 (chr "-")) (- s32 v) 1 10)
      as (m & ds & Hi & Hn & Hc & Hf); [lia | lia|].
    eapply wp_liftR; [exact Hi|].
    pose proof (numeral_short 10 (- s32 v) ds ltac:(lia) ltac:(lia) Hn).
    eapply wp_mono.
    + apply (puts_local_spec m 0 ([chr "-"] ++ map digit_char ds) s Hwf);
        [|cbn [app List.length]; lia].
      apply cstr_app; [|done]. intros i Hi'. cbn in Hi'.
      assert (i = 0) as -> by lia. rewrite Hf by lia. done.
    + intros [] s' Hp. eexists. split; [|exact Hp]. apply ct_d_neg; [lia|].
      by exists ds.
  - eapply wp_mono; [apply (conv_u_spec (s32 v) s Hwf); lia|].
    intros [] s' (t & Ht & Hp). exists t. split; [|done].
    apply ct_d_pos; [lia | done].
Qed.

Lemma pad_zeros_spec k m a :
  0 <= k <= 8 ->
  mget (pad_zeros k m) a = if (k <=? a) && (a <? 8) then chr "0" else mget m a.
Proof.
  intros Hk. unfold pad_zeros. revert a.
  apply (forz_inv (fun i m1 => forall a, mget m1 a =
    if (k <=? a) && (a <? i) then chr "0" else mget m a)); [lia | |].
  - intros a. case_match; [lia | done].
  - intros i m1 Hi Hm1 a. rewrite mget_mset, Hm1.
    case_decide; repeat case_match; done || lia.
Qed.

Lemma conv_x_spec alt v s :
  tty_wf s -> 0 <= v < 4294967296 ->
  wp (conv_x alt v) (fun _ s' => exists t,
    conv_text ∅ alt (chr "x") v t /\ prints_text t s s') s.
Proof.
  intros Hwf Hv. unfold conv_x. destruct alt; cbn [negb]; wsteps.
  - destruct (itoa_spec ∅ v 8 16) as (m & ds & Hi & Hn & Hc & _); [done | lia|].
    eapply wp_liftR; [exact Hi|]. wsteps.
    pose proof (numeral_digits 16 8 v ds ltac:(lia) ltac:(lia) Hv Hn) as Hd.
    set (t := map digit_char ds) in *.
    assert (Ht : zlen t <= 8) by (unfold t; by rewrite length_map).
    eapply wp_liftR; [apply (strlen_spec _ _ _ Hc); lia|].
    eapply wp_mono.
    + apply (puts_local_spec _ _ (replicate (8 - List.length t) (chr "0") ++ t) s Hwf);
        [|rewrite length_app, length_replicate; lia].
      apply cstr_app; rewrite length_replicate.
      * intros i Hi'. rewrite anth_replicate, pad_zeros_spec by lia.
        case_match; [done | lia].
      * replace (zlen t + Z.of_nat (8 - List.length t)) with 8 by lia.
        eapply cstr_ext; [|exact Hc]. intros b Hb. rewrite pad_zeros_spec by lia.
        case_match; [lia | done].
    + intros [] s' Hp. eexists. split; [|exact Hp]. apply ct_alt_x.
      exists ds. by rewrite u32_small.
  - destruct (itoa_spec ∅ v 0 16) as (m & ds & Hi & Hn & Hc & _); [done | lia|].
    eapply wp_liftR; [exact Hi|].
    pose proof (numeral_short 16 v ds ltac:(lia) Hv Hn).
    eapply wp_mono; [apply (puts_local_spec m 0 _ s Hwf Hc); lia|].
    intros [] s' Hp. eexists. split; [|exact Hp]. apply ct_x.
    exists ds. by rewrite u32_small.
Qed.

(** ** The scan *)

(** Numbers and characters need no memory. *)
Lemma conv_text_mem m b c v t :
  conv_text ∅ b c v t -> c <> chr "s" -> conv_text m b c v t.
Proof. intros H Hc. destruct H; by constructor. Qed.

Lemma conv_d_alt m b v t :
  conv_text ∅ false (chr "d") v t -> conv_text m b (chr "d") v t.
Proof. inversion 1; subst; by constructor. Qed.

(** The memory off the screen is the one the arguments refer to. *)
Definition keeps (m : mem) (s : tty) : Prop :=
  forall b, off_screen b -> mget (t_mem s) b = mget m b.

Lemma keeps_prints m s s' l : keeps m s -> prints_text l s s' -> keeps m s'.
Proof.
  intros Hk (_ & Hp & _) b Hb. by rewrite (pr_mem _ _ Hp), Hk.
Qed.

Lemma prints_one c s s' : tty_wf s -> putc_post c s s' -> prints_text [c] s s'.
Proof. intros Hwf H. by apply (prints_text_snoc [] c s s). Qed.

(** One conversion prints its text. *)
Definition conv_run (alt : bool) (c v : Z) : ST tty unit :=
  if c =? chr "x" then conv_x alt v
  else if c =? chr "u" then conv_u v
  else if c =? chr "d" then conv_d v
  else if c =? chr "c" then putc (u8 v)
  else puts v ;; mret tt.

Lemma conv_run_spec m alt c v s :
  tty_wf s -> keeps m s -> plain_conv c = false -> c <> chr "#" ->
  (c = chr "s" -> good_string m (u32 v)) ->
  wp (conv_run alt c (u32 v)) (fun _ s' => exists t,
    conv_text m alt c v t /\ prints_text t s s') s.
Proof.
  intros Hwf Hk Hp Hc Hs. pose proof (u32_range v) as Hv. unfold conv_run.
  destruct (c =? chr "x") eqn:E1; [apply Z.eqb_eq in E1 as -> |
   destruct (c =? chr "u") eqn:E2; [apply Z.eqb_eq in E2 as -> |
   destruct (c =? chr "d") eqn:E3; [apply Z.eqb_eq in E3 as -> |
   destruct (c =? chr "c") eqn:E4; [apply Z.eqb_eq in E4 as -> |]]]].
  - eapply wp_mono; [by apply conv_x_spec|]. intros [] s' (t & Ht & Hpr).
    exists t. split; [|done]. apply (conv_text_mem m) in Ht; [|done].
    inversion Ht; subst; constructor; by rewrite u32_u32 in *.
  - eapply wp_mono; [by apply conv_u_spec|]. intros [] s' (t & Ht & Hpr).
    exists t. split; [by constructor | done].
  - eapply wp_mono; [by apply conv_d_spec|]. intros [] s' (t & Ht & Hpr).
    exists t. split; [|done]. apply (conv_d_alt m alt) in Ht.
    inversion Ht; subst; constructor; by rewrite s32_u32 in *.
  - eapply wp_mono; [by apply putc_spec|]. intros [] s' Hpr. exists [u8 v]. split.
    + constructor.
    + replace (u8 v) with (u8 (u32 v)) by (unfold u8, u32; lia_mod).
      by apply prints_one.
  - assert (c = chr "s") as ->.
    { unfold plain_conv in Hp. cbn [existsb map] in Hp. lia. }
    destruct (Hs eq_refl) as (l & Hl & Hlen & Hoff). apply wp_bind.
    eapply wp_mono; [apply (puts_spec _ l); try done|].
    + eapply cstr_ext; [|exact Hl]. intros b Hb. symmetry. apply Hk.
      replace b with (u32 v + (b - u32 v)) by lia. apply Hoff. lia.
    + intros n s' [_ Hpr]. wsteps. exists l. split; [by constructor | done].
Qed.

Lemma printf_scan_conv alt c v fmt args s :
  plain_conv c = false -> c <> chr "#" ->
  printf_scan (Some alt) (c :: fmt) (v :: args) s =
  (conv_run alt c (u32 v) ;; printf_scan None fmt args) s.
Proof.
  intros Hp Hc. unfold plain_conv in Hp. cbn [existsb map] in Hp.
  cbn [printf_scan]. unfold conv_run.
  destruct (c =? chr "%") eqn:E0.
  { apply Z.eqb_eq in E0 as ->. by vm_compute in Hp. }
  rewrite (proj2 (Z.eqb_neq _ _) Hc).
  destruct (c =? chr "x") eqn:E1; [reflexivity|].
  destruct (c =? chr "u") eqn:E2; [reflexivity|].
  destruct (c =? chr "d") eqn:E3; [reflexivity|].
  destruct (c =? chr "c") eqn:E4; [reflexivity|].
  destruct (c =? chr "s") eqn:E5; [|lia].
  unfold mbind, st_bind, liftR, next_arg. cbn [mret st_ret].
  destruct (puts (u32 v) s) as [[? ?]|]; done.
Qed.

Lemma printf_scan_spec m mode fmt args s :
  tty_wf s -> keeps m s -> fits m mode fmt args ->
  wp (printf_scan mode fmt args) (fun _ s' => exists t,
    expands m mode fmt args t /\ prints_text t s s') s.
Proof.
  revert mode args s. induction fmt as [|c fmt IH]; intros mode args s Hwf Hk Hf.
  { cbn in Hf. subst mode. apply wp_ret. exists []. split; [constructor | done]. }
  assert (Hseq : forall (k : ST tty unit) args' t1 (P : list Z -> Prop),
    (forall t, expands m None fmt args' t -> P (t1 ++ t)) ->
    wp k (fun _ s' => prints_text t1 s s') s -> fits m None fmt args' ->
    wp (k ;; printf_scan None fmt args')
      (fun _ s' => exists t, P t /\ prints_text t s s') s).
  { intros k args' t1 P HP Hw Hf'. apply wp_bind. eapply wp_mono; [exact Hw|].
    intros [] s1 H1. eapply wp_mono.
    - apply IH; [apply H1 | by eapply keeps_prints | exact Hf'].
    - intros [] s2 (t & Ht & H2). exists (t1 ++ t).
      split; [by apply HP | by eapply prints_text_app]. }
  destruct mode as [alt|]; cbn [fits] in Hf.
  - destruct (c =? chr "#") eqn:Eh.
    + apply Z.eqb_eq in Eh as ->. cbn [printf_scan]. 
      eapply wp_mono; [by apply IH|]. intros [] s' (t & Ht & Hpr).
      exists t. split; [by constructor | done].
    + apply Z.eqb_neq in Eh. destruct (plain_conv c) eqn:Ep.
      * cbn [printf_scan]. unfold plain_conv in Ep. cbn [existsb map] in Ep.
        rewrite (proj2 (Z.eqb_neq _ _) Eh).
        destruct (c =? chr "%") eqn:E; [apply Z.eqb_eq in E as ->|].
        -- apply (Hseq _ _ [chr "%"]); [|by eapply wp_mono; [by apply putc_spec|];
             intros [] s' Hpr; apply prints_one | done].
           intros t Ht. by apply (ex_none m alt (chr "%")).
        -- assert ((c =? chr "x") = false /\ (c =? chr "u") = false /\
             (c =? chr "d") = false /\ (c =? chr "c") = false /\
             (c =? chr "s") = false) as (-> & -> & -> & -> & ->) by (split_and!; lia).
           eapply wp_mono; [by apply IH|]. intros [] s' (t & Ht & Hpr).
           exists t. split; [|done].
           pose proof (ex_none m alt c fmt args t) as Hn. rewrite E in Hn.
           apply Hn; [|done]. unfold plain_conv. cbn [existsb map]. lia.
      * destruct args as [|v args]; [done|]. destruct Hf as [Hs Hf].
        unfold wp. rewrite printf_scan_conv by done.
        change (wp (conv_run alt c (u32 v) ;; printf_scan None fmt args)
          (fun _ s' => exists t, expands m (Some alt) (c :: fmt) (v :: args) t
             /\ prints_text t s s') s).
        apply wp_bind. eapply wp_mono; [by apply (conv_run_spec m)|].
        intros [] s1 (t1 & Ht1 & H1). eapply wp_mono.
        -- apply IH; [apply H1 | by eapply keeps_prints | done].
        -- intros [] s2 (t & Ht & H2). exists (t1 ++ t).
           split; [by constructor | by eapply prints_text_app].
  - cbn [printf_scan]. destruct (c =? chr "%") eqn:E.
    + apply Z.eqb_eq in E as ->. eapply wp_mono; [by apply IH|].
      intros [] s' (t & Ht & Hpr). exists t. split; [by constructor | done].
    + apply Z.eqb_neq in E.
      apply (Hseq _ _ [c]); [by constructor | | done].
      eapply wp_mono; [by apply putc_spec|]. intros [] s' Hpr. by apply prints_one.
Qed.

(** [printf] prints the expansion of its format and returns the length of
    the format. *)
Lemma printf_spec fmt args s :
  tty_wf s -> fits (t_mem s) None fmt args ->
  wp (printf fmt args) (fun n s' => n = zlen fmt /\ exists t,
    expands (t_mem s) None fmt args t /\ prints_text t s s') s.
Proof.
  intros Hwf Hf. unfold printf. apply wp_bind.
  eapply wp_mono; [by apply (printf_scan_spec (t_mem s))|].
  intros [] s' H. by wsteps.
Qed.

(** Formats without strings need only enough arguments. *)
Fixpoint numeric (mode : option bool) (fmt : list Z) (n : nat) : bool :=
  match fmt with
  | [] => match mode with None => true | Some _ => false end
  | c :: fmt =>
      match mode with
      | None => numeric (if c =? chr "%" then Some false else None) fmt n
      | Some _ =>
          if c =? chr "#" then numeric (Some true) fmt n
          else if plain_conv c then numeric None fmt n
          else if c =? chr "s" then false
          else match n with O => false | S n => numeric None fmt n end
      end
  end.

Lemma numeric_fits m mode fmt args :
  numeric mode fmt (List.length args) = true -> fits m mode fmt args.
Proof.
  revert mode args. induction fmt as [|c fmt IH]; intros mode args H; cbn in *;
    [by destruct mode|].
  destruct mode as [b|]; [|by apply IH].
  destruct (c =? chr "#"); [by apply IH|].
  destruct (plain_conv c); [by apply IH|].
  destruct (Z.eqb_spec c (chr "s")) as [|Hs]; [done|].
  destruct args as [|v args]; [done|]. split; [done | by apply IH].
Qed.

(** C29: [printf] prints the expansion of its format: every conversion replaced by
    the numeral, character or string of its argument, on the grid of the
    console; it returns the length of the format and leaves memory off the
    screen alone. *)
Theorem printf_prints_expansion fmt args s :
  tty_wf s -> fits (t_mem s) None fmt args ->
  exists s' text, printf fmt args s = Ok (zlen fmt, s') /\
    expands (t_mem s) None fmt args text /\ tty_wf s' /\ prints s s' /\
    forall v, shows s v -> shows s' (abs_puts text v).
Proof.
  intros Hwf Hf. destruct (wp_inv _ _ _ (printf_spec fmt args s Hwf Hf))
    as (n & s' & Hr & -> & text & He & H1 & H2 & H3).
  by exists s', text.
Qed.
