(* ===== verification/Machine.v ===== *)
(** * The state of the kernel

    One record for the variables of all the C files.  The console part
    ([tty]) also holds memory and the trace of port accesses, so the
    operations of lib.c and keyboard.c run on it alone and are lifted by
    [on_tty].

    [mmu] stands for the translation hardware: the page tables it uses are
    those of the last load of cr3 ([enable_paging], [flush_tlb]); a change
    of the tables in memory is not seen before the next load.

    The variables, the page tables included, are kept apart from memory.  An
    access through a pointer to one of them would miss it here; theorems that
    speak of arbitrary pointers exclude such accesses ([kernel_same]). *)

From Stdlib Require Import ZArith Lia.
From stdpp Require Import base numbers list gmap.
From S2P Require Import Prelude Mem FileSys Console.

Local Open Scope Z_scope.

(** A saved terminal (terminal.h). *)
Record ter_info := TerInfo {
  terminal_index : Z;
  screen_buffer : list Z;   (** 4096 bytes, written by terminal_init only *)
  ti_keyboard_buffer : list Z;   (** [keyboard_buffer], 128 bytes *)
  ti_read_buffer : list Z;   (** [read_buffer], 128 bytes *)
  cursor_pos_x : Z;
  cursor_pos_y : Z;
  terminal_state : Z;
}.

Definition set_terminal_index (v : Z) (s : ter_info) : ter_info :=
  TerInfo v (screen_buffer s) (ti_keyboard_buffer s) (ti_read_buffer s)
    (cursor_pos_x s) (cursor_pos_y s) (terminal_state s).
Definition set_screen_buffer (v : list Z) (s : ter_info) : ter_info :=
  TerInfo (terminal_index s) v (ti_keyboard_buffer s) (ti_read_buffer s)
    (cursor_pos_x s) (cursor_pos_y s) (terminal_state s).
Definition set_ti_keyboard_buffer (v : list Z) (s : ter_info) : ter_info :=
  TerInfo (terminal_index s) (screen_buffer s) v (ti_read_buffer s)
    (cursor_pos_x s) (cursor_pos_y s) (terminal_state s).
Definition set_ti_read_buffer (v : list Z) (s : ter_info) : ter_info :=
  TerInfo (terminal_index s) (screen_buffer s) (ti_keyboard_buffer s) v
    (cursor_pos_x s) (cursor_pos_y s) (terminal_state s).
Definition set_cursor_pos_x (v : Z) (s : ter_info) : ter_info :=
  TerInfo (terminal_index s) (screen_buffer s) (ti_keyboard_buffer s)
    (ti_read_buffer s) v (cursor_pos_y s) (terminal_state s).
Definition set_cursor_pos_y (v : Z) (s : ter_info) : ter_info :=
  TerInfo (terminal_index s) (screen_buffer s) (ti_keyboard_buffer s)
    (ti_read_buffer s) (cursor_pos_x s) v (terminal_state s).
Definition set_terminal_state (v : Z) (s : ter_info) : ter_info :=
  TerInfo (terminal_index s) (screen_buffer s) (ti_keyboard_buffer s)
    (ti_read_buffer s) (cursor_pos_x s) (cursor_pos_y s) v.


(** The variables of the kernel. *)
Record kernel := Kernel {
  k_tty : tty;   (** console, keyboard, line reader and memory *)
  master_mask : Z;   (** i8259.c *)
  slave_mask : Z;
  rtc_interrupt_occured : Z;   (** rtc.c *)
  page_dir : list Z;   (** paging.h: 1024 entries *)
  page_tab : list Z;   (** 1024 entries *)
  page_dir_addr : Z;   (** paging.c *)
  page_tab_addr : Z;
  cr0 : Z;   (** control registers *)
  cr3 : Z;
  cr4 : Z;
  mmu : option (list Z * list Z);   (** the tables when cr3 was last loaded *)
  tss_ss0 : Z;   (** x86_desc.h *)
  tss_esp0 : Z;
  runn_task_num : Z;   (** syscall.c *)
  curr_task_pos : Z;
  task_bitmap : list Z;   (** 6 entries *)
  k_fs : fsvars;   (** filesys.c *)
  terminal_array : list ter_info;   (** terminal.c: 3 entries *)
  current_terminal_idx : Z;
}.

Definition set_k_tty (v : tty) (s : kernel) : kernel :=
  Kernel v (master_mask s) (slave_mask s) (rtc_interrupt_occured s)
    (page_dir s) (page_tab s) (page_dir_addr s) (page_tab_addr s) (cr0 s)
    (cr3 s) (cr4 s) (mmu s) (tss_ss0 s) (tss_esp0 s) (runn_task_num s)
    (curr_task_pos s) (task_bitmap s) (k_fs s) (terminal_array s)
    (current_terminal_idx s).
Definition set_master_mask (v : Z) (s : kernel) : kernel :=
  Kernel (k_tty s) v (slave_mask s) (rtc_interrupt_occured s) (page_dir s)
    (page_tab s) (page_dir_addr s) (page_tab_addr s) (cr0 s) (cr3 s) (cr4 s)
    (mmu s) (tss_ss0 s) (tss_esp0 s) (runn_task_num s) (curr_task_pos s)
    (task_bitmap s) (k_fs s) (terminal_array s) (current_terminal_idx s).
Definition set_slave_mask (v : Z) (s : kernel) : kernel :=
  Kernel (k_tty s) (master_mask s) v (rtc_interrupt_occured s) (page_dir s)
    (page_tab s) (page_dir_addr s) (page_tab_addr s) (cr0 s) (cr3 s) (cr4 s)
    (mmu s) (tss_ss0 s) (tss_esp0 s) (runn_task_num s) (curr_task_pos s)
    (task_bitmap s) (k_fs s) (terminal_array s) (current_terminal_idx s).
Definition set_rtc_interrupt_occured (v : Z) (s : kernel) : kernel :=
  Kernel (k_tty s) (master_mask s) (slave_mask s) v (page_dir s) (page_tab s)
    (page_dir_addr s) (page_tab_addr s) (cr0 s) (cr3 s) (cr4 s) (mmu s)
    (tss_ss0 s) (tss_esp0 s) (runn_task_num s) (curr_task_pos s)
    (task_bitmap s) (k_fs s) (terminal_array s) (current_terminal_idx s).
Definition set_page_dir (v : list Z) (s : kernel) : kernel :=
  Kernel (k_tty s) (master_mask s) (slave_mask s) (rtc_interrupt_occured s) v
    (page_tab s) (page_dir_addr s) (page_tab_addr s) (cr0 s) (cr3 s) (cr4 s)
    (mmu s) (tss_ss0 s) (tss_esp0 s) (runn_task_num s) (curr_task_pos s)
    (task_bitmap s) (k_fs s) (terminal_array s) (current_terminal_idx s).
Definition set_page_tab (v : list Z) (s : kernel) : kernel :=
  Kernel (k_tty s) (master_mask s) (slave_mask s) (rtc_interrupt_occured s)
    (page_dir s) v (page_dir_addr s) (page_tab_addr s) (cr0 s) (cr3 s) (cr4 s)
    (mmu s) (tss_ss0 s) (tss_esp0 s) (runn_task_num s) (curr_task_pos s)
    (task_bitmap s) (k_fs s) (terminal_array s) (current_terminal_idx s).
Definition set_page_dir_addr (v : Z) (s : kernel) : kernel :=
  Kernel (k_tty s) (master_mask s) (slave_mask s) (rtc_interrupt_occured s)
    (page_dir s) (page_tab s) v (page_tab_addr s) (cr0 s) (cr3 s) (cr4 s)
    (mmu s) (tss_ss0 s) (tss_esp0 s) (runn_task_num s) (curr_task_pos s)
    (task_bitmap s) (k_fs s) (terminal_array s) (current_terminal_idx s).
Definition set_page_tab_addr (v : Z) (s : kernel) : kernel :=
  Kernel (k_tty s) (master_mask s) (slave_mask s) (rtc_interrupt_occured s)
    (page_dir s) (page_tab s) (page_dir_addr s) v (cr0 s) (cr3 s) (cr4 s)
    (mmu s) (tss_ss0 s) (tss_esp0 s) (runn_task_num s) (curr_task_pos s)
    (task_bitmap s) (k_fs s) (terminal_array s) (current_terminal_idx s).
Definition set_cr0 (v : Z) (s : kernel) : kernel :=
  Kernel (k_tty s) (master_mask s) (slave_mask s) (rtc_interrupt_occured s)
    (page_dir s) (page_tab s) (page_dir_addr s) (page_tab_addr s) v (cr3 s)
    (cr4 s) (mmu s) (tss_ss0 s) (tss_esp0 s) (runn_task_num s)
    (curr_task_pos s) (task_bitmap s) (k_fs s) (terminal_array s)
    (current_terminal_idx s).
Definition set_cr3 (v : Z) (s : kernel) : kernel :=
  Kernel (k_tty s) (master_mask s) (slave_mask s) (rtc_interrupt_occured s)
    (page_dir s) (page_tab s) (page_dir_addr s) (page_tab_addr s) (cr0 s) v
    (cr4 s) (mmu s) (tss_ss0 s) (tss_esp0 s) (runn_task_num s)
    (curr_task_pos s) (task_bitmap s) (k_fs s) (terminal_array s)
    (current_terminal_idx s).
Definition set_cr4 (v : Z) (s : kernel) : kernel :=
  Kernel (k_tty s) (master_mask s) (slave_mask s) (rtc_interrupt_occured s)
    (page_dir s) (page_tab s) (page_dir_addr s) (page_tab_addr s) (cr0 s)
    (cr3 s) v (mmu s) (tss_ss0 s) (tss_esp0 s) (runn_task_num s)
    (curr_task_pos s) (task_bitmap s) (k_fs s) (terminal_array s)
    (current_terminal_idx s).
Definition set_mmu (v : option (list Z * list Z)) (s : kernel) : kernel :=
  Kernel (k_tty s) (master_mask s) (slave_mask s) (rtc_interrupt_occured s)
    (page_dir s) (page_tab s) (page_dir_addr s) (page_tab_addr s) (cr0 s)
    (cr3 s) (cr4 s) v (tss_ss0 s) (tss_esp0 s) (runn_task_num s)
    (curr_task_pos s) (task_bitmap s) (k_fs s) (terminal_array s)
    (current_terminal_idx s).
Definition set_tss_ss0 (v : Z) (s : kernel) : kernel :=
  Kernel (k_tty s) (master_mask s) (slave_mask s) (rtc_interrupt_occured s)
    (page_dir s) (page_tab s) (page_dir_addr s) (page_tab_addr s) (cr0 s)
    (cr3 s) (cr4 s) (mmu s) v (tss_esp0 s) (runn_task_num s) (curr_task_pos s)
    (task_bitmap s) (k_fs s) (terminal_array s) (current_terminal_idx s).
Definition set_tss_esp0 (v : Z) (s : kernel) : kernel :=
  Kernel (k_tty s) (master_mask s) (slave_mask s) (rtc_interrupt_occured s)
    (page_dir s) (page_tab s) (page_dir_addr s) (page_tab_addr s) (cr0 s)
    (cr3 s) (cr4 s) (mmu s) (tss_ss0 s) v (runn_task_num s) (curr_task_pos s)
    (task_bitmap s) (k_fs s) (terminal_array s) (current_terminal_idx s).
Definition set_runn_task_num (v : Z) (s : kernel) : kernel :=
  Kernel (k_tty s) (master_mask s) (slave_mask s) (rtc_interrupt_occured s)
    (page_dir s) (page_tab s) (page_dir_addr s) (page_tab_addr s) (cr0 s)
    (cr3 s) (cr4 s) (mmu s) (tss_ss0 s) (tss_esp0 s) v (curr_task_pos s)
    (task_bitmap s) (k_fs s) (terminal_array s) (current_terminal_idx s).
Definition set_curr_task_pos (v : Z) (s : kernel) : kernel :=
  Kernel (k_tty s) (master_mask s) (slave_mask s) (rtc_interrupt_occured s)
    (page_dir s) (page_tab s) (page_dir_addr s) (page_tab_addr s) (cr0 s)
    (cr3 s) (cr4 s) (mmu s) (tss_ss0 s) (tss_esp0 s) (runn_task_num s) v
    (task_bitmap s) (k_fs s) (terminal_array s) (current_terminal_idx s).
Definition set_task_bitmap (v : list Z) (s : kernel) : kernel :=
  Kernel (k_tty s) (master_mask s) (slave_mask s) (rtc_interrupt_occured s)
    (page_dir s) (page_tab s) (page_dir_addr s) (page_tab_addr s) (cr0 s)
    (cr3 s) (cr4 s) (mmu s) (tss_ss0 s) (tss_esp0 s) (runn_task_num s)
    (curr_task_pos s) v (k_fs s) (terminal_array s) (current_terminal_idx s).
Definition set_k_fs (v : fsvars) (s : kernel) : kernel :=
  Kernel (k_tty s) (master_mask s) (slave_mask s) (rtc_interrupt_occured s)
    (page_dir s) (page_tab s) (page_dir_addr s) (page_tab_addr s) (cr0 s)
    (cr3 s) (cr4 s) (mmu s) (tss_ss0 s) (tss_esp0 s) (runn_task_num s)
    (curr_task_pos s) (task_bitmap s) v (terminal_array s)
    (current_terminal_idx s).
Definition set_terminal_array (v : list ter_info) (s : kernel) : kernel :=
  Kernel (k_tty s) (master_mask s) (slave_mask s) (rtc_interrupt_occured s)
    (page_dir s) (page_tab s) (page_dir_addr s) (page_tab_addr s) (cr0 s)
    (cr3 s) (cr4 s) (mmu s) (tss_ss0 s) (tss_esp0 s) (runn_task_num s)
    (curr_task_pos s) (task_bitmap s) (k_fs s) v (current_terminal_idx s).
Definition set_current_terminal_idx (v : Z) (s : kernel) : kernel :=
  Kernel (k_tty s) (master_mask s) (slave_mask s) (rtc_interrupt_occured s)
    (page_dir s) (page_tab s) (page_dir_addr s) (page_tab_addr s) (cr0 s)
    (cr3 s) (cr4 s) (mmu s) (tss_ss0 s) (tss_esp0 s) (runn_task_num s)
    (curr_task_pos s) (task_bitmap s) (k_fs s) (terminal_array s) v.

(** What the linker decides: the addresses of the page tables, of the jump
    tables of syscall.c and of its string literals. *)
Record layout := Layout {
  page_dir_at : Z;
  page_tab_at : Z;
  stdin_op_table : Z;
  stdout_op_table : Z;
  rtc_fop_table : Z;
  fs_dir_fop_table : Z;
  file_fop_table : Z;
  lit_stdin : Z;
  lit_stdout : Z;
  lit_shell : Z;
}.

Definition kmem (k : kernel) : mem := t_mem (k_tty k).
Definition set_kmem (m : mem) (k : kernel) : kernel :=
  set_k_tty (set_t_mem m (k_tty k)) k.

(** Code of lib.c and keyboard.c, run by the rest of the kernel. *)
Definition on_tty {A} (c : ST tty A) : ST kernel A := fun k =>
  match c (k_tty k) with
  | Ok (a, t) => Ok (a, set_k_tty t k)
  | Err e => Err e
  end.

Lemma wp_on_tty {A} (c : ST tty A) Q k :
  wp c (fun a t => Q a (set_k_tty t k)) (k_tty k) -> wp (on_tty c) Q k.
Proof. unfold wp, on_tty. destruct (c (k_tty k)) as [[a t]|]; done. Qed.

Lemma set_k_tty_twice t1 t2 k : set_k_tty t2 (set_k_tty t1 k) = set_k_tty t2 k.
Proof. done. Qed.

Lemma on_tty_bind {A B} (c : ST tty A) (f : A -> ST tty B) k :
  on_tty (c ≫= f) k = (on_tty c ≫= (fun a => on_tty (f a))) k.
Proof.
  unfold mbind, st_bind, on_tty. destruct (c (k_tty k)) as [[a t]|]; [|done].
  change (k_tty (set_k_tty t k)) with t. destruct (f a t) as [[b t']|]; [|done].
  by rewrite set_k_tty_twice.
Qed.

Lemma on_tty_ret {A} (a : A) k : on_tty (mret a) k = Ok (a, k).
Proof. by destruct k. Qed.

(** A change of memory alone. *)
Definition on_mem {A} (c : mem -> res (A * mem)) : ST kernel A := fun k =>
  match c (kmem k) with
  | Ok (a, m) => Ok (a, set_kmem m k)
  | Err e => Err e
  end.

Lemma wp_on_mem {A} (c : mem -> res (A * mem)) a m Q k :
  c (kmem k) = Ok (a, m) -> Q a (set_kmem m k) -> wp (on_mem c) Q k.
Proof. unfold wp, on_mem. intros ->. done. Qed.

(** The port accesses so far. *)
Definition k_trace (k : kernel) : list io := t_trace (k_tty k).

(** The kernel after more port accesses. *)
Definition emit (l : list io) (k : kernel) : kernel :=
  set_k_tty (set_t_trace (k_trace k ++ l) (k_tty k)) k.

Lemma emit_emit l1 l2 k : emit l2 (emit l1 k) = emit (l1 ++ l2) k.
Proof.
  destruct k as [t]. destruct t. unfold emit, k_trace, set_k_tty, set_t_trace. cbn.
  by rewrite <-app_assoc.
Qed.

Lemma trace_emit l k : k_trace (emit l k) = k_trace k ++ l.
Proof. done. Qed.

(** The kernel with interrupts on or off. *)
Definition set_if (b : bool) (k : kernel) : kernel :=
  set_k_tty (set_t_if b (k_tty k)) k.

Lemma set_if_emit b l k : set_if b (emit l k) = emit l (set_if b k).
Proof. done. Qed.
Lemma set_if_set_if b1 b2 k : set_if b1 (set_if b2 k) = set_if b1 k.
Proof. done. Qed.

Definition koutb (v port : Z) : ST kernel unit := on_tty (outb v port).
Definition kinb (port answer : Z) : ST kernel Z := on_tty (inb port answer).
Definition kcli : ST kernel unit := on_tty cli.
Definition ksti : ST kernel unit := on_tty sti.

Lemma koutb_bind {A} v port (c : ST kernel A) k :
  (koutb v port ;; c) k = c (emit [Out (u8 v) port] k).
Proof. done. Qed.
Lemma kinb_bind {A} port a (c : Z -> ST kernel A) k :
  (p ← kinb port a; c p) k = c (u8 a) (emit [In port (u8 a)] k).
Proof. done. Qed.
Lemma kcli_bind {A} (c : ST kernel A) k : (kcli ;; c) k = c (set_if false k).
Proof. done. Qed.
Lemma ksti_bind {A} (c : ST kernel A) k : (ksti ;; c) k = c (set_if true k).
Proof. done. Qed.

(** The last byte written to a port. *)
Fixpoint last_out (port : Z) (tr : list io) : option Z :=
  match tr with
  | [] => None
  | e :: tr =>
      match last_out port tr, e with
      | Some v, _ => Some v
      | None, Out v p => if p =? port then Some v else None
      | None, In _ _ => None
      end
  end.

Lemma last_out_snoc port tr v p :
  last_out port (tr ++ [Out v p]) =
  if p =? port then Some v else last_out port tr.
Proof.
  induction tr as [|e tr IH]; cbn; [by destruct (p =? port)|].
  rewrite IH. by destruct (p =? port).
Qed.
