(* ===== verification/Pic.v ===== *)
(** * The interrupt controller (i8259.c)

    The two mask bytes the kernel caches, and the commands it sends. *)

From Stdlib Require Import ZArith Lia.
From stdpp Require Import base numbers list gmap.
From S2P Require Import Prelude Mem FileSys Console Machine.

Local Open Scope Z_scope.

(** ** The code *)

Definition MASTER_8259_PORT : Z := 32.
Definition SLAVE_8259_PORT : Z := 160.
Definition MASKALL : Z := 255.
Definition SLAVEIRQ : Z := 2.
Definition IRQMAX : Z := 15.
Definition IRQMID : Z := 8.
Definition ICW1 : Z := 17.
Definition ICW2_MASTER : Z := 32.
Definition ICW2_SLAVE : Z := 40.
Definition ICW3_MASTER : Z := 4.
Definition ICW3_SLAVE : Z := 2.
Definition ICW4 : Z := 1.
Definition EOI : Z := 96.

Definition i8259_init : ST kernel unit :=
  koutb MASKALL (MASTER_8259_PORT + 1) ;;
  koutb MASKALL (SLAVE_8259_PORT + 1) ;;
  koutb ICW1 MASTER_8259_PORT ;;
  koutb ICW1 SLAVE_8259_PORT ;;
  koutb ICW2_MASTER (MASTER_8259_PORT + 1) ;;
  koutb ICW2_SLAVE (SLAVE_8259_PORT + 1) ;;
  koutb ICW3_MASTER (MASTER_8259_PORT + 1) ;;
  koutb ICW3_SLAVE (SLAVE_8259_PORT + 1) ;;
  koutb ICW4 (MASTER_8259_PORT + 1) ;;
  koutb ICW4 (SLAVE_8259_PORT + 1) ;;
  mm ← gets master_mask;
  koutb mm (MASTER_8259_PORT + 1) ;;
  sm ← gets slave_mask;
  koutb sm (SLAVE_8259_PORT + 1).

(** [for (counter = 0; counter < n; counter++) maskbit <<= 1;] *)
Definition maskbit (n : Z) : Z := forz 0 n (fun _ b => u8 (Z.shiftl b 1)) 1.

Definition enable_irq (irq_num : Z) : ST kernel unit :=
  if (IRQMAX <? irq_num) || (irq_num <? 0) then mret tt
  else if irq_num <? IRQMID then
    modify (fun k => set_master_mask
      (u8 (Z.land (master_mask k) (Z.lnot (maskbit irq_num)))) k) ;;
    mm ← gets master_mask;
    koutb mm (MASTER_8259_PORT + 1)
  else
    modify (fun k => set_slave_mask
      (u8 (Z.land (slave_mask k) (Z.lnot (maskbit (irq_num - IRQMID))))) k) ;;
    sm ← gets slave_mask;
    koutb sm (SLAVE_8259_PORT + 1).

Definition disable_irq (irq_num : Z) : ST kernel unit :=
  if (IRQMAX <? irq_num) || (irq_num <? 0) then mret tt
  else if irq_num <? IRQMID then
    modify (fun k => set_master_mask
      (u8 (Z.lor (master_mask k) (maskbit irq_num))) k) ;;
    mm ← gets master_mask;
    koutb mm (MASTER_8259_PORT + 1)
  else
    modify (fun k => set_slave_mask
      (u8 (Z.lor (slave_mask k) (maskbit (irq_num - IRQMID)))) k) ;;
    sm ← gets slave_mask;
    koutb sm (SLAVE_8259_PORT + 1).

Definition send_eoi (irq_num : Z) : ST kernel unit :=
  if (IRQMAX <? irq_num) || (irq_num <? 0) then mret tt
  else if irq_num <? IRQMID then
    koutb (Z.lor EOI irq_num) MASTER_8259_PORT
  else
    koutb (Z.lor EOI (irq_num - IRQMID)) SLAVE_8259_PORT ;;
    koutb (Z.lor EOI SLAVEIRQ) MASTER_8259_PORT.

(** ** What the masks mean *)

(** Interrupt line [i] of the 16 is masked. *)
Definition irq_masked (k : kernel) (i : Z) : bool :=
  if i <? 8 then Z.testbit (master_mask k) i else Z.testbit (slave_mask k) (i - 8).

(** The controller holds the masks the kernel believes it holds. *)
Record pic_sync (k : kernel) : Prop := {
  ps_master : 0 <= master_mask k < 256;
  ps_slave : 0 <= slave_mask k < 256;
  ps_out_master : last_out 33 (k_trace k) = Some (master_mask k);
  ps_out_slave : last_out 161 (k_trace k) = Some (slave_mask k);
}.

Lemma maskbit_spec n : 0 <= n < 8 -> maskbit n = 2 ^ n.
Proof.
  intros Hn.
  assert (n = 0 \/ n = 1 \/ n = 2 \/ n = 3 \/ n = 4 \/ n = 5 \/ n = 6 \/ n = 7)
    as [->|[->|[->|[->|[->|[->|[->| ->]]]]]]] by lia; done.
Qed.

Lemma testbit_u8 x i : 0 <= i < 8 -> Z.testbit (u8 x) i = Z.testbit x i.
Proof. intros. apply Z.mod_pow2_bits_low. lia. Qed.

Lemma clear_bit x n i :
  0 <= n < 8 -> 0 <= i < 8 ->
  Z.testbit (u8 (Z.land x (Z.lnot (2 ^ n)))) i =
  if i =? n then false else Z.testbit x i.
Proof.
  intros Hn Hi. rewrite testbit_u8, Z.land_spec, Z.lnot_spec, Z.pow2_bits_eqb by lia.
  destruct (Z.eqb_spec i n) as [->|].
  - by rewrite Z.eqb_refl, andb_false_r.
  - by rewrite (proj2 (Z.eqb_neq n i)), andb_true_r by lia.
Qed.

Lemma set_bit x n i :
  0 <= n < 8 -> 0 <= i < 8 ->
  Z.testbit (u8 (Z.lor x (2 ^ n))) i = if i =? n then true else Z.testbit x i.
Proof.
  intros Hn Hi. rewrite testbit_u8, Z.lor_spec, Z.pow2_bits_eqb by lia.
  destruct (Z.eqb_spec i n) as [->|].
  - by rewrite Z.eqb_refl, orb_true_r.
  - by rewrite (proj2 (Z.eqb_neq n i)), orb_false_r by lia.
Qed.

(** What the mask operations leave alone: all but the masks, and port accesses
    are added. *)
Definition pic_frame (k k' : kernel) : Prop := exists l,
  k' = set_k_tty (set_t_trace (k_trace k ++ l) (k_tty k))
    (set_slave_mask (slave_mask k') (set_master_mask (master_mask k') k)).

(** The shape both mask operations share: a new byte for one of the two
    controllers, cached and sent. *)
Definition set_mask (irq_num : Z) (f : Z -> Z -> Z) : ST kernel unit :=
  if (IRQMAX <? irq_num) || (irq_num <? 0) then mret tt
  else if irq_num <? IRQMID then
    modify (fun k => set_master_mask (u8 (f (master_mask k) (maskbit irq_num))) k) ;;
    mm ← gets master_mask;
    koutb mm (MASTER_8259_PORT + 1)
  else
    modify (fun k => set_slave_mask
      (u8 (f (slave_mask k) (maskbit (irq_num - IRQMID)))) k) ;;
    sm ← gets slave_mask;
    koutb sm (SLAVE_8259_PORT + 1).

Lemma set_mask_spec n f (b : bool) k :
  0 <= n < 16 -> pic_sync k ->
  (forall x j i, 0 <= j < 8 -> 0 <= i < 8 ->
     Z.testbit (u8 (f x (2 ^ j))) i = if i =? j then b else Z.testbit x i) ->
  wp (set_mask n f) (fun _ k' => pic_sync k' /\ pic_frame k k' /\
    forall i, 0 <= i < 16 -> irq_masked k' i = if i =? n then b else irq_masked k i) k.
Proof.
  intros Hn [H1 H2 H3 H4] Hf. unfold set_mask, IRQMAX, IRQMID.
  destruct (_ || _) eqn:E; [lia|]. destruct (n <? 8) eqn:En; wsteps;
    unfold koutb; apply wp_on_tty; unfold outb; wsteps; cbn; rewrite u8_u8;
    rewrite maskbit_spec by lia; split_and!.
  - constructor; unfold k_trace; cbn; rewrite ?last_out_snoc; try done.
    apply u8_range.
  - eexists. by destruct k.
  - intros i Hi. unfold irq_masked. cbn.
    destruct (i <? 8) eqn:Ei; [by rewrite Hf by lia|].
    rewrite (proj2 (Z.eqb_neq i n)) by lia. done.
  - constructor; unfold k_trace; cbn; rewrite ?last_out_snoc; try done.
    apply u8_range.
  - eexists. by destruct k.
  - intros i Hi. unfold irq_masked. cbn. destruct (i <? 8) eqn:Ei.
    + by rewrite (proj2 (Z.eqb_neq i n)) by lia.
    + rewrite Hf by lia. repeat case_match; lia || done.
Qed.

Lemma enable_irq_spec n k :
  0 <= n < 16 -> pic_sync k ->
  wp (enable_irq n) (fun _ k' => pic_sync k' /\ pic_frame k k' /\
    forall i, 0 <= i < 16 ->
      irq_masked k' i = if i =? n then false else irq_masked k i) k.
Proof.
  intros Hn Hk. apply (set_mask_spec n (fun x b => Z.land x (Z.lnot b))); try done.
  intros. by apply clear_bit.
Qed.

Lemma disable_irq_spec n k :
  0 <= n < 16 -> pic_sync k ->
  wp (disable_irq n) (fun _ k' => pic_sync k' /\ pic_frame k k' /\
    forall i, 0 <= i < 16 ->
      irq_masked k' i = if i =? n then true else irq_masked k i) k.
Proof.
  intros Hn Hk. apply (set_mask_spec n Z.lor); try done.
  intros. by apply set_bit.
Qed.

(** [send_eoi] acknowledges exactly the lines it should: the master's line,
    or the slave's line and then the line the slave is wired to. *)
Definition eoi_io (n : Z) : list io :=
  if n <? 8 then [Out (96 + n) 32] else [Out (96 + (n - 8)) 160; Out 98 32].

Lemma eoi_byte i : 0 <= i < 8 -> u8 (Z.lor EOI i) = 96 + i.
Proof.
  intros. unfold EOI. change 96 with (3 * 2 ^ 5).
  rewrite lor_fields by lia. apply u8_small. lia.
Qed.

Lemma send_eoi_spec n k :
  0 <= n < 16 ->
  send_eoi n k = Ok (tt, emit (eoi_io n) k).
Proof.
  intros Hn. unfold send_eoi, IRQMAX, IRQMID, eoi_io.
  destruct (_ || _) eqn:E; [lia|]. destruct (n <? 8) eqn:En.
  - change (koutb ?v ?p k) with (Ok (tt, emit [Out (u8 v) p] k)).
    by rewrite eoi_byte by lia.
  - rewrite koutb_bind.
    change (koutb ?v ?p ?x) with (Ok (tt, emit [Out (u8 v) p] x)).
    rewrite emit_emit, !eoi_byte by (unfold SLAVEIRQ; lia). done.
Qed.

Lemma eoi_keeps_sync n k :
  0 <= n < 16 -> pic_sync k ->
  wp (send_eoi n) (fun _ => pic_sync) k.
Proof.
  intros Hn [H1 H2 H3 H4]. unfold wp. rewrite send_eoi_spec by done.
  unfold eoi_io, k_trace in *.
  constructor; cbn; try done; destruct (n <? 8); unfold k_trace; cbn.
  all: try (change [Out ?a ?b; Out ?c ?d] with ([Out a b] ++ [Out c d]));
    rewrite ?app_assoc, ?last_out_snoc; try done.
Qed.

(** Out of range lines are ignored by all three operations. *)
Lemma irq_out_of_range n k :
  15 < n \/ n < 0 ->
  enable_irq n k = Ok (tt, k) /\ disable_irq n k = Ok (tt, k) /\
  send_eoi n k = Ok (tt, k).
Proof.
  intros Hn. unfold enable_irq, disable_irq, send_eoi, IRQMAX.
  destruct (_ || _) eqn:E; [done | lia].
Qed.

Lemma i8259_init_spec k :
  0 <= master_mask k < 256 -> 0 <= slave_mask k < 256 ->
  wp i8259_init (fun _ k' => pic_sync k' /\ pic_frame k k' /\
    master_mask k' = master_mask k /\ slave_mask k' = slave_mask k) k.
Proof.
  intros H1 H2. unfold wp, i8259_init. rewrite !koutb_bind, !emit_emit.
  set (k1 := emit _ k). assert (E : exists l, k1 = emit l k) by (unfold k1; eauto).
  destruct E as [l E]. clearbody k1. subst k1.
  erewrite bind_ok by reflexivity. rewrite koutb_bind, emit_emit.
  erewrite bind_ok by reflexivity.
  change (koutb ?v ?p ?x) with (Ok (tt, emit [Out (u8 v) p] x)).
  rewrite emit_emit. cbn [master_mask slave_mask emit set_k_tty].
  rewrite (u8_small (master_mask k)), (u8_small (slave_mask k)) by lia.
  split_and!; try done.
  - constructor; try done; rewrite trace_emit, !app_assoc, !last_out_snoc; done.
  - eexists. by destruct k.
Qed.

(** ** The properties of the controller *)

(** Enabling and disabling a line changes the mask of that line only; the
    controller and the cached masks stay equal; nothing else of the kernel
    changes.  Acknowledging a line sends it to its controller, and for the
    slave also the cascade line, and keeps the masks.  Lines outside 0..15
    are ignored. *)
Theorem irq_lines n k :
  pic_sync k ->
  if (0 <=? n) && (n <? 16) then
    (exists k', enable_irq n k = Ok (tt, k') /\ pic_sync k' /\ pic_frame k k' /\
       forall i, 0 <= i < 16 -> irq_masked k' i = if i =? n then false else irq_masked k i) /\
    (exists k', disable_irq n k = Ok (tt, k') /\ pic_sync k' /\ pic_frame k k' /\
       forall i, 0 <= i < 16 -> irq_masked k' i = if i =? n then true else irq_masked k i) /\
    send_eoi n k = Ok (tt, emit (eoi_io n) k) /\ pic_sync (emit (eoi_io n) k)
  else enable_irq n k = Ok (tt, k) /\ disable_irq n k = Ok (tt, k) /\ send_eoi n k = Ok (tt, k).
Proof.
  intros Hs. destruct (Z.leb_spec 0 n); [destruct (Z.ltb_spec n 16)|]; cbn [andb];
    [|apply irq_out_of_range; lia..].
  assert (Hn : 0 <= n < 16) by lia.
  destruct (wp_inv _ _ _ (enable_irq_spec n k Hn Hs)) as ([] & k1 & H1 & R1).
  destruct (wp_inv _ _ _ (disable_irq_spec n k Hn Hs)) as ([] & k2 & H2 & R2).
  pose proof (eoi_keeps_sync n k Hn Hs) as H3. unfold wp in H3. rewrite send_eoi_spec in H3 by done.
  split_and!; [by exists k1 | by exists k2 | by apply send_eoi_spec | done].
Qed.
