(* ===== verification/Paging.v ===== *)
(** * Paging (paging.c, and the mappings syscall.c and terminal.c make)

    The page directory and the one page table as the code fills them in,
    and, as their specification, the walk the processor makes. *)

From Stdlib Require Import ZArith Lia.
From stdpp Require Import base numbers list gmap.
From S2P Require Import Prelude Mem FileSys Console Machine.

Local Open Scope Z_scope.

(** ** The code *)

Definition PDE_SIZE : Z := 1024.
Definition PTE_SIZE : Z := 1024.
Definition PAGE_4MB : Z := 128.
Definition KERNEL_ADDR : Z := 4194304.        (* 0x400000 *)
Definition BITS20_MASK : Z := 4294963200.     (* 0xFFFFF000 *)
Definition SET_RW_NOT_PRESENT : Z := 2.
Definition SET_RW_PRESENT : Z := 3.
Definition USER : Z := 4.
Definition SET_VIDEO_MEM : Z := 7.
Definition PAGEINDEX : Z := 32.
Definition VIDMAPNEW : Z := 34.
Definition KERNEL_TASK_ADDR : Z := 8388608.   (* 0x00800000 *)
Definition FOURMB : Z := 4194304.

Definition pd_set (i v : Z) (k : kernel) : kernel :=
  set_page_dir (<[Z.to_nat i := v]> (page_dir k)) k.
Definition pd_or (i v : Z) (k : kernel) : kernel :=
  pd_set i (Z.lor (anth 0 (page_dir k) i) v) k.
Definition pt_set (i v : Z) (k : kernel) : kernel :=
  set_page_tab (<[Z.to_nat i := v]> (page_tab k)) k.
Definition pt_or (i v : Z) (k : kernel) : kernel :=
  pt_set i (Z.lor (anth 0 (page_tab k) i) v) k.

Definition load_cr3 (v : Z) (k : kernel) : kernel :=
  set_mmu (Some (page_dir k, page_tab k)) (set_cr3 v k).

Definition enable_paging (k : kernel) : kernel :=
  let k := load_cr3 (page_dir_addr k) k in
  let k := set_cr4 (Z.lor (cr4 k) 16) k in
  set_cr0 (Z.lor (cr0 k) 2147483648) k.

Definition flush_tlb (k : kernel) : kernel := load_cr3 (cr3 k) k.

Definition init_paging (lay : layout) (k : kernel) : kernel :=
  let k := forz 0 PDE_SIZE (fun i k => pd_set i SET_RW_NOT_PRESENT k) k in
  let k := forz 0 PTE_SIZE (fun i k => pt_set i SET_RW_NOT_PRESENT k) k in
  let k := set_page_dir_addr (page_dir_at lay) k in
  let k := set_page_tab_addr (page_tab_at lay) k in
  let video_addr := Z.shiftr VIDEO 12 in
  let k := pt_or video_addr SET_VIDEO_MEM k in
  let k := pt_or video_addr SET_RW_PRESENT k in
  let k := pt_or video_addr VIDEO k in
  let temp := Z.land (page_tab_addr k) BITS20_MASK in
  let k := pd_or 0 (Z.lor temp SET_RW_PRESENT) k in
  let k := pd_or 1 PAGE_4MB k in
  let k := pd_or 1 SET_RW_PRESENT k in
  let k := pd_or 1 (Z.land KERNEL_ADDR BITS20_MASK) k in
  enable_paging k.

(** The page at 128 MB of the task in slot [pos]: the same assignments in
    [execute], [halt] and [scheduling_handler]. *)
Definition map_task (pos : Z) (k : kernel) : kernel :=
  let k := pd_set PAGEINDEX 0 k in
  let k := pd_set PAGEINDEX SET_RW_NOT_PRESENT k in
  let k := pd_or PAGEINDEX PAGE_4MB k in
  let k := pd_or PAGEINDEX SET_RW_PRESENT k in
  let k := pd_or PAGEINDEX USER k in
  pd_or PAGEINDEX (Z.land (u32 (KERNEL_TASK_ADDR + FOURMB * pos)) BITS20_MASK) k.

(** The page at 136 MB through which a program sees the video memory at
    [phys]: the assignments of [vidmap] and of [terminal_switch]. *)
Definition map_video (lay : layout) (phys : Z) (k : kernel) : kernel :=
  let k := pd_set VIDMAPNEW 0 k in
  let k := pd_set VIDMAPNEW SET_RW_NOT_PRESENT k in
  let k := pd_or VIDMAPNEW SET_RW_PRESENT k in
  let k := pd_or VIDMAPNEW USER k in
  let k := pd_or VIDMAPNEW (Z.land (page_tab_at lay) BITS20_MASK) k in
  pt_set 0 (Z.lor (Z.lor phys SET_RW_PRESENT) USER) k.

(** ** The walk of the processor *)

Definition present (e : Z) : bool := Z.testbit e 0.
Definition for_user (e : Z) : bool := Z.testbit e 2.
Definition large (e : Z) : bool := Z.testbit e 7.

(** An access to the virtual address [va] from user or kernel mode reaches
    this physical address, or faults. *)
Definition translate (lay : layout) (user : bool) (pd pt : list Z) (va : Z) : option Z :=
  let pde := anth 0 pd (va / FOURMB) in
  if negb (present pde) || (user && negb (for_user pde)) then None
  else if large pde then Some (pde / FOURMB * FOURMB + va mod FOURMB)
  else if pde / 4096 * 4096 =? page_tab_at lay then
    let pte := anth 0 pt (va / 4096 mod 1024) in
    if negb (present pte) || (user && negb (for_user pte)) then None
    else Some (pte / 4096 * 4096 + va mod 4096)
  else None.

(** What the linker promises: the page table is page aligned. *)
Record layout_ok (lay : layout) : Prop := {
  lo_aligned : page_tab_at lay mod 4096 = 0;
  lo_range : 0 < page_tab_at lay < 4294967296;
}.

(** ** The shape of the tables

    The tables at every moment after [init_paging]: the low 4 MB through the
    page table for the kernel, the kernel's own 4 MB, the page of the
    current task if there is one, the window on the video memory if a
    program asked for one, and nothing else. *)

Definition task_pde (pos : Z) : Z := KERNEL_TASK_ADDR + FOURMB * pos + 135.
Definition video_pages : list Z := [753664; 757760; 761856; 765952].

Record dir_ok (lay : layout) (pd : list Z) (task : option Z) : Prop := {
  do_len : zlen pd = 1024;
  do_low : anth 0 pd 0 = page_tab_at lay + 3;
  do_kernel : anth 0 pd 1 = KERNEL_ADDR + 131;
  do_task : anth 0 pd 32 = match task with Some pos => task_pde pos | None => 2 end;
  do_video : anth 0 pd 34 = 2 \/ anth 0 pd 34 = page_tab_at lay + 7;
  do_rest : forall i, 0 <= i < 1024 -> i <> 0 -> i <> 1 -> i <> 32 -> i <> 34 ->
    anth 0 pd i = 2;
}.

Record tab_ok (pt : list Z) : Prop := {
  to_len : zlen pt = 1024;
  to_video : anth 0 pt 184 = VIDEO + 7;
  to_entry : forall i, 0 <= i < 1024 ->
    anth 0 pt i = 2 \/ exists p, p ∈ video_pages /\ anth 0 pt i = p + 7;
}.

(** ** Entries *)

Lemma land_mask x :
  0 <= x < 4294967296 -> x mod 4096 = 0 -> Z.land x BITS20_MASK = x.
Proof.
  intros Hx Hm. change BITS20_MASK with (2 ^ 32 - 2 ^ 12).
  rewrite land_high by lia. change (2 ^ 12) with 4096. lia_mod.
Qed.

Lemma lor_page x b : x mod 4096 = 0 -> 0 <= b < 4096 -> Z.lor x b = x + b.
Proof.
  intros Hx Hb. replace x with (x / 4096 * 2 ^ 12) at 1 by (change (2 ^ 12) with 4096; lia_mod).
  rewrite lor_fields by lia. change (2 ^ 12) with 4096. lia_mod.
Qed.

Lemma low_bits x n i :
  0 <= i < n -> Z.testbit (x * 2 ^ n) i = false.
Proof. intros. apply Z.mul_pow2_bits_low. lia. Qed.

(** The flag bits of an entry are those of its low 12 bits. *)
Lemma entry_bit x b i :
  x mod 4096 = 0 -> 0 <= b < 4096 -> 0 <= i < 12 -> Z.testbit (x + b) i = Z.testbit b i.
Proof.
  intros Hx Hb Hi. rewrite <-lor_page, Z.lor_spec by done.
  replace x with (x / 4096 * 2 ^ 12) by (change (2 ^ 12) with 4096; lia_mod).
  by rewrite low_bits by lia.
Qed.

Lemma pd_get i j v k :
  0 <= i < zlen (page_dir k) -> 0 <= j ->
  anth 0 (page_dir (pd_set i v k)) j = if decide (i = j) then v else anth 0 (page_dir k) j.
Proof. intros. by apply anth_insert. Qed.

Lemma pt_get i j v k :
  0 <= i < zlen (page_tab k) -> 0 <= j ->
  anth 0 (page_tab (pt_set i v k)) j = if decide (i = j) then v else anth 0 (page_tab k) j.
Proof. intros. by apply anth_insert. Qed.

Lemma pd_len i v k : zlen (page_dir (pd_set i v k)) = zlen (page_dir k).
Proof. cbn. by rewrite length_insert. Qed.
Lemma pt_len i v k : zlen (page_tab (pt_set i v k)) = zlen (page_tab k).
Proof. cbn. by rewrite length_insert. Qed.

(** Repeated writes to one entry. *)
Lemma pd_or_set i v w k :
  0 <= i < zlen (page_dir k) -> pd_or i w (pd_set i v k) = pd_set i (Z.lor v w) k.
Proof.
  intros Hi. unfold pd_or. rewrite pd_get, decide_True by lia || done.
  unfold pd_set. cbn. by rewrite list_insert_insert_eq.
Qed.
Lemma pt_or_set i v w k :
  0 <= i < zlen (page_tab k) -> pt_or i w (pt_set i v k) = pt_set i (Z.lor v w) k.
Proof.
  intros Hi. unfold pt_or. rewrite pt_get, decide_True by lia || done.
  unfold pt_set. cbn. by rewrite list_insert_insert_eq.
Qed.
Lemma pd_set_set i v w k :
  pd_set i w (pd_set i v k) = pd_set i w k.
Proof. unfold pd_set. cbn. by rewrite list_insert_insert_eq. Qed.

Lemma map_task_set pos k :
  0 <= pos < 256 -> zlen (page_dir k) = 1024 ->
  map_task pos k = pd_set 32 (task_pde pos) k.
Proof.
  intros Hp Hl. unfold map_task, PAGEINDEX, KERNEL_TASK_ADDR, FOURMB.
  rewrite pd_set_set, !pd_or_set by lia. f_equal.
  rewrite u32_small, land_mask by (lia || lia_mod).
  unfold task_pde, KERNEL_TASK_ADDR, FOURMB. rewrite Z.lor_comm.
  rewrite lor_page by (lia_mod || vm_compute; intuition congruence). done.
Qed.

Lemma map_video_set lay p k :
  layout_ok lay -> p ∈ video_pages -> zlen (page_dir k) = 1024 ->
  map_video lay p k = pt_set 0 (p + 7) (pd_set 34 (page_tab_at lay + 7) k).
Proof.
  intros [Ha Hr] Hp Hl. unfold map_video, VIDMAPNEW.
  rewrite pd_set_set, !pd_or_set by lia. f_equal.
  - rewrite <-Z.lor_assoc. change (Z.lor SET_RW_PRESENT USER) with 7.
    apply lor_page; [|lia]. unfold video_pages in Hp.
    rewrite !elem_of_cons, elem_of_nil in Hp.
    by destruct Hp as [->|[->|[->|[->|[]]]]].
  - f_equal. rewrite land_mask, Z.lor_comm, lor_page by (lia || done). done.
Qed.

(** ** The operations keep the shape *)

Lemma dir_ok_task lay k t pos :
  dir_ok lay (page_dir k) t -> 0 <= pos < 256 ->
  dir_ok lay (page_dir (map_task pos k)) (Some pos).
Proof.
  intros [Hl H0 H1 Ht Hv Hr] Hp. rewrite map_task_set by done.
  constructor; [by rewrite pd_len|..]; try (rewrite pd_get by lia; by rewrite ?decide_False, ?decide_True by lia).
  - intros i Hi Hi0 Hi1 Hi2 Hi3. rewrite pd_get by lia. rewrite decide_False by lia. by apply Hr.
Qed.

Lemma dir_ok_video lay k t p :
  layout_ok lay -> p ∈ video_pages ->
  dir_ok lay (page_dir k) t -> tab_ok (page_tab k) ->
  dir_ok lay (page_dir (map_video lay p k)) t /\ tab_ok (page_tab (map_video lay p k)).
Proof.
  intros Hlay Hp [Hl H0 H1 Ht Hv Hr] [Hl' Hv' He]. rewrite map_video_set by done. split.
  - change (page_dir (pt_set _ _ ?x)) with (page_dir x).
    constructor; [by rewrite pd_len|..].
    1-3: rewrite pd_get by lia; by rewrite decide_False by lia.
    + right. rewrite pd_get by lia. by rewrite decide_True.
    + intros i Hi Hi0 Hi1 Hi2 Hi3. rewrite pd_get by lia. rewrite decide_False by lia. by apply Hr.
  - constructor; [by rewrite pt_len|..].
    + rewrite pt_get by (cbn; lia). by rewrite decide_False.
    + intros i Hi. rewrite pt_get by (cbn; lia). case_decide; [right; by exists p|].
      by apply He.
Qed.

Lemma dir_fill n k :
  zlen (page_dir k) = 1024 -> 0 <= n <= 1024 ->
  exists pd, forz 0 n (fun i k => pd_set i SET_RW_NOT_PRESENT k) k = set_page_dir pd k /\
    zlen pd = 1024 /\ forall i, 0 <= i < n -> anth 0 pd i = 2.
Proof.
  intros Hl Hn.
  apply (forz_inv (fun n k' => exists pd, k' = set_page_dir pd k /\
    zlen pd = 1024 /\ forall i, 0 <= i < n -> anth 0 pd i = 2)); [lia | |].
  - exists (page_dir k). split; [by destruct k|]. split; [done | lia].
  - intros i k' Hi (pd & -> & Hlp & Hpd).
    exists (<[Z.to_nat i := 2]> pd). split; [done|]. rewrite length_insert.
    split; [done|]. intros j Hj. rewrite anth_insert by lia.
    case_decide; [done | apply Hpd; lia].
Qed.

Lemma tab_fill n k :
  zlen (page_tab k) = 1024 -> 0 <= n <= 1024 ->
  exists pt, forz 0 n (fun i k => pt_set i SET_RW_NOT_PRESENT k) k = set_page_tab pt k /\
    zlen pt = 1024 /\ forall i, 0 <= i < n -> anth 0 pt i = 2.
Proof.
  intros Hl Hn.
  apply (forz_inv (fun n k' => exists pt, k' = set_page_tab pt k /\
    zlen pt = 1024 /\ forall i, 0 <= i < n -> anth 0 pt i = 2)); [lia | |].
  - exists (page_tab k). split; [by destruct k|]. split; [done | lia].
  - intros i k' Hi (pt & -> & Hlp & Hpt).
    exists (<[Z.to_nat i := 2]> pt). split; [done|]. rewrite length_insert.
    split; [done|]. intros j Hj. rewrite anth_insert by lia.
    case_decide; [done | apply Hpt; lia].
Qed.

(** The hardware uses the tables that are in memory. *)
Definition mmu_sync (k : kernel) : Prop := mmu k = Some (page_dir k, page_tab k).

(** What setting up the tables leaves alone. *)
Record pages_only (k k' : kernel) : Prop := {
  po_tty : k_tty k' = k_tty k;
  po_fs : k_fs k' = k_fs k;
  po_pos : curr_task_pos k' = curr_task_pos k;
  po_running : runn_task_num k' = runn_task_num k;
  po_bitmap : task_bitmap k' = task_bitmap k;
  po_terms : terminal_array k' = terminal_array k;
  po_master : master_mask k' = master_mask k;
  po_slave : slave_mask k' = slave_mask k;
}.

(** The three entries [init_paging] makes, each in several steps. *)
Lemma video_pte w :
  zlen (page_tab w) = 1024 -> anth 0 (page_tab w) 184 = 2 ->
  pt_or 184 VIDEO (pt_or 184 SET_RW_PRESENT (pt_or 184 SET_VIDEO_MEM w)) = pt_set 184 (VIDEO + 7) w.
Proof. intros Hw Hw1. unfold pt_or at 3. rewrite !pt_or_set by lia. by rewrite Hw1. Qed.

Lemma kernel_pde w :
  zlen (page_dir w) = 1024 -> anth 0 (page_dir w) 1 = 2 ->
  pd_or 1 (Z.land KERNEL_ADDR BITS20_MASK) (pd_or 1 SET_RW_PRESENT (pd_or 1 PAGE_4MB w))
  = pd_set 1 (KERNEL_ADDR + 131) w.
Proof. intros Hw Hw1. unfold pd_or at 3. rewrite !pd_or_set by lia. by rewrite Hw1. Qed.

Lemma table_pde lay w :
  layout_ok lay -> page_tab_addr w = page_tab_at lay -> anth 0 (page_dir w) 0 = 2 ->
  pd_or 0 (Z.lor (Z.land (page_tab_addr w) BITS20_MASK) SET_RW_PRESENT) w
  = pd_set 0 (page_tab_at lay + 3) w.
Proof.
  intros [Ha Hr] E E0. unfold pd_or. f_equal. rewrite E, E0, land_mask by lia || done.
  rewrite Z.lor_comm, <-Z.lor_assoc. change (Z.lor SET_RW_PRESENT 2) with 3.
  by apply lor_page.
Qed.

(** The entries [init_paging] leaves: the low 4 MB through the page table, with
    the video page, and the kernel's own 4 MB. *)
Record first_tables (lay : layout) (pd pt : list Z) : Prop := {
  ft_dir : zlen pd = 1024;
  ft_tab : zlen pt = 1024;
  ft_pde : forall j, 0 <= j < 1024 -> anth 0 pd j =
    if decide (j = 0) then page_tab_at lay + 3
    else if decide (j = 1) then KERNEL_ADDR + 131 else 2;
  ft_pte : forall j, 0 <= j < 1024 -> anth 0 pt j = if decide (j = 184) then VIDEO + 7 else 2;
}.

(** They have the shape of the tables without a task. *)
Lemma first_tables_ok lay pd pt : first_tables lay pd pt -> dir_ok lay pd None /\ tab_ok pt.
Proof.
  intros [Hd Ht Hpd Hpt]. split.
  - constructor; [exact Hd | by rewrite Hpd.. | left; by rewrite Hpd|].
    intros i Hi N0 N1 _ _. by rewrite Hpd, !decide_False by lia.
  - constructor; [exact Ht | by rewrite Hpt|]. intros i Hi. rewrite Hpt by lia. case_decide.
    + right. exists VIDEO. split; [apply elem_of_cons; by left | done].
    + by left.
Qed.

(** [init_paging] fills in the tables, notes where they are, and turns paging
    on. *)
Lemma init_paging_sets lay k :
  layout_ok lay -> zlen (page_dir k) = 1024 -> zlen (page_tab k) = 1024 ->
  exists pd pt, first_tables lay pd pt /\
    init_paging lay k =
      set_cr0 (Z.lor (cr0 k) 2147483648) (set_cr4 (Z.lor (cr4 k) 16)
        (set_mmu (Some (pd, pt)) (set_cr3 (page_dir_at lay)
          (set_page_dir pd (set_page_tab pt
            (set_page_tab_addr (page_tab_at lay) (set_page_dir_addr (page_dir_at lay) k))))))).
Proof.
  intros Hlay Hd Ht. unfold init_paging, PDE_SIZE, PTE_SIZE.
  destruct (dir_fill 1024 k) as (pd & -> & Hpd & Hd2); [done | lia|].
  destruct (tab_fill 1024 (set_page_dir pd k)) as (pt & -> & Hpt & Ht2);
    [done | lia|].
  set (k1 := set_page_tab_addr _ _).
  assert (E2 : page_tab k1 = pt) by done.
  change (Z.shiftr VIDEO 12) with 184.
  rewrite video_pte; [|rewrite E2; lia | rewrite E2; apply Ht2; lia].
  set (k2 := pt_set 184 (VIDEO + 7) k1).
  rewrite (table_pde lay k2) by (done || apply Hd2; lia). rewrite kernel_pde.
  2:{ rewrite pd_len. done. }
  2:{ rewrite pd_get by (cbn; lia). rewrite decide_False by lia. apply Hd2. lia. }
  set (k3 := pd_set 1 _ _). exists (page_dir k3), (page_tab k2). split; [|reflexivity].
  constructor.
  - unfold k3. by rewrite !pd_len.
  - unfold k2. by rewrite pt_len.
  - intros j Hj. unfold k3. rewrite pd_get by (rewrite ?pd_len; cbn; lia).
    rewrite pd_get by (cbn; lia). repeat case_decide; try done || lia. apply Hd2. lia.
  - intros j Hj. unfold k2. rewrite pt_get by (rewrite ?E2; lia). rewrite E2.
    repeat case_decide; try done || lia. apply Ht2. lia.
Qed.

Lemma lor_bit a b i : Z.testbit b i = true -> Z.testbit (Z.lor a b) i = true.
Proof. intros H. rewrite Z.lor_spec, H. apply orb_true_r. Qed.

Lemma init_paging_run lay k :
  layout_ok lay -> zlen (page_dir k) = 1024 -> zlen (page_tab k) = 1024 ->
  let k' := init_paging lay k in
  dir_ok lay (page_dir k') None /\ tab_ok (page_tab k') /\ mmu_sync k' /\
  cr3 k' = page_dir_at lay /\ Z.testbit (cr0 k') 31 = true /\
  Z.testbit (cr4 k') 4 = true /\ pages_only k k'.
Proof.
  intros Hlay Hd Ht. cbv zeta.
  destruct (init_paging_sets lay k Hlay Hd Ht) as (pd & pt & Hf & ->).
  destruct (first_tables_ok lay pd pt Hf) as [Hdir Htab]. split_and!; try done.
  - exact (lor_bit (cr0 k) 2147483648 31 eq_refl).
  - exact (lor_bit (cr4 k) 16 4 eq_refl).
Qed.

(** ** What the shape means for a program and for the kernel *)

Lemma task_pde_bits pos :
  present (task_pde pos) = true /\ for_user (task_pde pos) = true /\
  large (task_pde pos) = true.
Proof.
  unfold task_pde, KERNEL_TASK_ADDR, FOURMB, present, for_user, large.
  by rewrite !entry_bit by lia_mod || lia.
Qed.

Lemma translate_task lay pd pt pos va user :
  dir_ok lay pd (Some pos) -> 134217728 <= va < 138412032 ->
  translate lay user pd pt va = Some (8388608 + 4194304 * pos + (va - 134217728)).
Proof.
  intros [_ _ _ Ht _ _] Hva. unfold translate.
  replace (va / FOURMB) with 32 by (unfold FOURMB; lia_mod). rewrite Ht.
  destruct (task_pde_bits pos) as (-> & -> & ->). cbn [negb andb orb].
  rewrite andb_false_r. cbn [orb]. f_equal.
  unfold task_pde, KERNEL_TASK_ADDR, FOURMB. lia_mod.
Qed.

Lemma kernel_pde_bits :
  present (KERNEL_ADDR + 131) = true /\ for_user (KERNEL_ADDR + 131) = false /\
  large (KERNEL_ADDR + 131) = true.
Proof. done. Qed.

Lemma translate_kernel lay pd pt t va :
  dir_ok lay pd t -> 4194304 <= va < 8388608 ->
  translate lay false pd pt va = Some va.
Proof.
  intros [_ _ H1 _ _ _] Hva. unfold translate.
  replace (va / FOURMB) with 1 by (unfold FOURMB; lia_mod). rewrite H1.
  destruct kernel_pde_bits as (-> & _ & ->). cbn [negb andb orb]. f_equal.
  unfold KERNEL_ADDR, FOURMB. lia_mod.
Qed.

Lemma not_present_2 : present 2 = false.
Proof. done. Qed.

(** An entry of the page table that is present names a video page. *)
Lemma tab_ok_entry pt i :
  tab_ok pt -> 0 <= i < 1024 -> present (anth 0 pt i) = true ->
  exists p, p ∈ video_pages /\ anth 0 pt i = p + 7.
Proof. intros [_ _ He] Hi Hp. destruct (He i Hi) as [E|?]; [by rewrite E in Hp | done]. Qed.

Lemma video_page_frame p x :
  p ∈ video_pages -> (p + 7) / 4096 * 4096 + x mod 4096 = p + x mod 4096.
Proof.
  unfold video_pages. rewrite !elem_of_cons, elem_of_nil.
  intros [->|[->|[->|[->|[]]]]]; lia_mod.
Qed.

(** A program can reach the frame of its own task and the video memory,
    and nothing else. *)
Lemma translate_user lay pd pt t va pa :
  layout_ok lay -> dir_ok lay pd t -> tab_ok pt -> 0 <= va < 4294967296 ->
  translate lay true pd pt va = Some pa ->
  (exists pos, t = Some pos /\ 134217728 <= va < 138412032 /\
     pa = 8388608 + 4194304 * pos + (va - 134217728)) \/
  (142606336 <= va < 146800640 /\
   exists p, p ∈ video_pages /\ pa = p + va mod 4096).
Proof.
  intros [Ha Hr] Hd Htab Hva Htr. pose proof Hd as [Hl H0 H1 Ht Hv Hrest].
  set (i := va / FOURMB). assert (Hi : 0 <= i < 1024) by (unfold i, FOURMB; lia_mod).
  unfold translate in Htr. fold i in Htr.
  destruct (decide (i = 32)) as [E|N32].
  { destruct t as [pos|].
    - left. exists pos. split; [done|].
      assert (134217728 <= va < 138412032) by (unfold i, FOURMB in E; lia_mod).
      split; [done|]. pose proof (translate_task lay pd pt pos va true Hd) as Hx.
      unfold translate in Hx. fold i in Hx. rewrite Hx in Htr by done. congruence.
    - by rewrite E, Ht, not_present_2 in Htr. }
  destruct (decide (i = 0)) as [E|N0].
  { rewrite E, H0 in Htr. unfold for_user in Htr.
    rewrite (entry_bit _ 3 2) in Htr by (done || lia).
    cbn [Z.testbit Pos.testbit negb andb] in Htr. by rewrite orb_true_r in Htr. }
  destruct (decide (i = 1)) as [E|N1].
  { rewrite E, H1 in Htr. destruct kernel_pde_bits as (B1 & B2 & _).
    by rewrite B1, B2 in Htr. }
  destruct (decide (i = 34)) as [E|N34];
    [|by rewrite Hrest, not_present_2 in Htr by done].
  right. split; [unfold i, FOURMB in E; lia_mod|].
  rewrite E in Htr. destruct Hv as [Hv|Hv]; rewrite Hv in Htr; [by rewrite not_present_2 in Htr|].
  unfold large in Htr. rewrite (entry_bit _ 7 7) in Htr by (done || lia).
  replace (Z.testbit 7 7) with false in Htr by done.
  destruct (_ || _); [done|].
  destruct (_ =? _); [|done].
  set (j := va / 4096 mod 1024) in *.
  destruct (present (anth 0 pt j)) eqn:Hpr; [|done].
  destruct (tab_ok_entry pt j Htab) as (p & Hp & Epte); [unfold j; lia_mod | done|].
  exists p. split; [done|]. rewrite Epte in Htr.
  destruct (_ || _) in Htr; [done|]. injection Htr as <-.
  by apply video_page_frame.
Qed.

(** ** The property of the set-up *)

(** The walk through the tables of [init_paging]. *)
Lemma translate_first lay pd pt user va :
  layout_ok lay -> first_tables lay pd pt -> 0 <= va < 4294967296 ->
  translate lay user pd pt va =
  if negb user && ((VIDEO <=? va) && (va <? VIDEO + 4096) || (4194304 <=? va) && (va <? 8388608))
  then Some va else None.
Proof.
  intros [Ha Hr] [Hd Ht Hpd Hpt] Hva. unfold translate.
  assert (Hi : 0 <= va / FOURMB < 1024) by (unfold FOURMB; lia_mod). rewrite Hpd by done.
  destruct (decide (va / FOURMB = 0)) as [E|N0]; [|destruct (decide (va / FOURMB = 1)) as [E|N1]].
  - assert (va < 4194304) by (unfold FOURMB in E; lia_mod).
    unfold present, for_user, large. rewrite !entry_bit by (done || lia).
    cbn [Z.testbit Pos.testbit negb orb andb]. destruct user; [done|]. cbn [andb negb].
    rewrite (proj2 (Z.eqb_eq _ _)) by lia_mod.
    rewrite Hpt by (split; [apply Z.mod_pos_bound | apply Z.mod_pos_bound]; lia).
    unfold VIDEO. case_decide as Ej.
    + replace ((753664 <=? va) && (va <? 753664 + 4096)) with true by lia_mod.
      change (negb (Z.testbit (753664 + 7) 0)) with false. cbn [orb]. f_equal. lia_mod.
    + replace ((753664 <=? va) && (va <? 753664 + 4096)) with false by lia_mod. cbn [orb].
      by replace ((4194304 <=? va) && (va <? 8388608)) with false by lia.
  - assert (4194304 <= va < 8388608) by (unfold FOURMB in E; lia_mod).
    destruct kernel_pde_bits as (-> & -> & ->). destruct user; [done|]. cbn [negb andb orb].
    replace ((VIDEO <=? va) && (va <? VIDEO + 4096)) with false by (unfold VIDEO; lia).
    replace ((4194304 <=? va) && (va <? 8388608)) with true by lia.
    f_equal. unfold KERNEL_ADDR, FOURMB. lia_mod.
  - rewrite not_present_2. cbn [negb orb].
    replace ((VIDEO <=? va) && (va <? VIDEO + 4096)) with false by (unfold VIDEO, FOURMB in *; lia_mod).
    replace ((4194304 <=? va) && (va <? 8388608)) with false by (unfold FOURMB in *; lia_mod).
    by destruct user.
Qed.

(** C33: After [init_paging] the processor translates exactly two ranges, each to
    itself and for the kernel only: the page of the video memory and the
    kernel's own 4 MB.  Every other access of the kernel and every access from
    user mode faults.  The directory is loaded, paging and 4 MB pages are on,
    and besides the two tables, their addresses and the control registers
    nothing has changed. *)
Theorem init_paging_maps_kernel lay k :
  layout_ok lay -> zlen (page_dir k) = 1024 -> zlen (page_tab k) = 1024 ->
  exists pd pt, init_paging lay k =
      set_cr0 (Z.lor (cr0 k) 2147483648) (set_cr4 (Z.lor (cr4 k) 16)
        (set_mmu (Some (pd, pt)) (set_cr3 (page_dir_at lay)
          (set_page_dir pd (set_page_tab pt
            (set_page_tab_addr (page_tab_at lay) (set_page_dir_addr (page_dir_at lay) k))))))) /\
    (forall va, 0 <= va < 4294967296 ->
       translate lay false pd pt va =
         (if (753664 <=? va) && (va <? 757760) || (4194304 <=? va) && (va <? 8388608)
          then Some va else None) /\
       translate lay true pd pt va = None).
Proof.
  intros Hl Hd Ht. destruct (init_paging_sets lay k Hl Hd Ht) as (pd & pt & Hf & E).
  exists pd, pt. split; [exact E|]. intros va Hva.
  split; rewrite (translate_first lay pd pt _ va Hl Hf Hva); [|reflexivity]. unfold VIDEO.
  by change (753664 + 4096) with 757760.
Qed.
