(* ===== verification/Rtc.v ===== *)
(** * The real-time clock (rtc.c)

    Register accesses go through the index port 0x70 and the data port 0x71;
    the byte a register read answers is an argument ([prev]).  [rtc_read]
    waits for an interrupt: [rtc_read_begin] is the code before its loop,
    [rtc_read_poll] one test of the flag ([None]: still waiting). *)

From Stdlib Require Import ZArith Lia.
From stdpp Require Import base numbers list gmap.
From S2P Require Import Prelude Mem FileSys Console Machine Pic.

Local Open Scope Z_scope.

(** ** The code *)

Definition RTCREGA : Z := 138.
Definition RTCREGB : Z := 139.
Definition RTCREGC : Z := 140.
Definition RTCPORT1 : Z := 112.
Definition RTCPORT2 : Z := 113.
Definition RTCORED : Z := 64.
Definition RTCIRQ8 : Z := 8.
Definition RTCIRQ2 : Z := 2.
Definition BASENUM : Z := 15.
Definition DEFAULTB : Z := 4.
Definition ERRORMAG : Z := 20270.
Definition RTCUNUN : Z := 240.

Definition rtc_init (prev : Z) : ST kernel unit :=
  koutb RTCREGB RTCPORT1 ;;
  p ← kinb RTCPORT2 prev;
  koutb RTCREGB RTCPORT1 ;;
  koutb (Z.lor p RTCORED) RTCPORT2 ;;
  enable_irq RTCIRQ8 ;;
  enable_irq RTCIRQ2.

(** The handler; [regc] is what register C answers. *)
Definition _idt_rtc_irq_handler (regc : Z) : ST kernel unit :=
  kcli ;;
  koutb RTCREGC RTCPORT1 ;;
  _ ← kinb RTCPORT2 regc;
  modify (set_rtc_interrupt_occured 1) ;;
  send_eoi RTCIRQ8 ;;
  ksti.

Definition rtc_open (prev : Z) : ST kernel Z :=
  kcli ;;
  koutb RTCREGA RTCPORT1 ;;
  p ← kinb RTCPORT2 prev;
  koutb RTCREGA RTCPORT1 ;;
  koutb (Z.lor (Z.land p RTCUNUN) BASENUM) RTCPORT2 ;;
  ksti ;;
  mret 0.

Definition rtc_read_begin : ST kernel unit :=
  modify (set_rtc_interrupt_occured 0).

Definition rtc_read_poll : ST kernel (option Z) :=
  f ← gets rtc_interrupt_occured;
  mret (if f =? 0 then None else Some 0).

Definition rate_of (freq : Z) : Z :=
  if freq =? 2 then 15
  else if freq =? 4 then 14
  else if freq =? 8 then 13
  else if freq =? 16 then 12
  else if freq =? 32 then 11
  else if freq =? 64 then 10
  else if freq =? 128 then 9
  else if freq =? 256 then 8
  else if freq =? 512 then 7
  else if freq =? 1024 then 6
  else ERRORMAG.

Definition rtc_write (prev fd buf nbytes : Z) : ST kernel Z :=
  freq ← gets (fun k => load32 (kmem k) buf);
  let rate := rate_of freq in
  if rate =? ERRORMAG then mret (-1)
  else
    kcli ;;
    koutb RTCREGA RTCPORT1 ;;
    p ← kinb RTCPORT2 prev;
    koutb RTCREGA RTCPORT1 ;;
    koutb (Z.lor (Z.land p RTCUNUN) rate) RTCPORT2 ;;
    ksti ;;
    mret DEFAULTB.

Definition rtc_close (fd : Z) : Z := 0.

(** [random] is the uninitialised pointer the code passes on. *)
Definition change_freq (prev count random : Z) : ST kernel unit :=
  let temp := forz 0 count (fun _ t => t * 2) 2 in
  _ ← rtc_write prev 1 random temp;
  mret tt.

(** ** Rates *)

(** The chip ticks at 32768 >> (rate - 1) per second. *)
Definition rate_hz (rate : Z) : Z := Z.shiftr 32768 (rate - 1).

Lemma rate_of_valid i : 1 <= i <= 10 -> rate_of (2 ^ i) = 16 - i.
Proof.
  intros Hi.
  assert (i = 1 \/ i = 2 \/ i = 3 \/ i = 4 \/ i = 5 \/ i = 6 \/ i = 7 \/ i = 8
    \/ i = 9 \/ i = 10) as Hc by lia.
  repeat (destruct Hc as [->|Hc]; [done|]). by subst.
Qed.

Lemma rate_of_cases freq :
  rate_of freq = ERRORMAG \/ exists i, 1 <= i <= 10 /\ freq = 2 ^ i.
Proof.
  unfold rate_of.
  repeat match goal with
  | |- context [if ?a =? ?c then _ else _] =>
      destruct (Z.eqb_spec a c) as [->|];
      [right; exists (Z.log2 c); split; [vm_compute; intuition congruence | done]|]
  end.
  by left.
Qed.

Lemma rate_of_hz freq :
  rate_of freq <> ERRORMAG ->
  6 <= rate_of freq <= 15 /\ rate_hz (rate_of freq) = freq.
Proof.
  intros H. destruct (rate_of_cases freq) as [?|(i & Hi & ->)]; [done|].
  rewrite rate_of_valid by done. split; [lia|]. unfold rate_hz.
  rewrite Z.shiftr_div_pow2 by lia.
  change 32768 with (2 ^ 15). replace 15 with (i + (16 - i - 1)) at 1 by lia.
  rewrite Z.pow_add_r by lia.
  apply Z.div_mul. apply Z.pow_nonzero; lia.
Qed.

(** The port accesses of a rate change: the low four bits of register A are
    replaced, the others kept. *)
Definition rate_io (prev rate : Z) : list io :=
  [Out 138 112; In 113 prev; Out 138 112; Out (prev / 16 * 16 + rate) 113].

Lemma rate_byte prev rate :
  0 <= prev < 256 -> 0 <= rate < 16 ->
  u8 (Z.lor (Z.land prev RTCUNUN) rate) = prev / 16 * 16 + rate.
Proof.
  intros Hp Hr. unfold RTCUNUN.
  assert (Hl : Z.land prev 240 = prev / 16 * 16).
  { change 240 with (Z.ones 4 * 2 ^ 4).
    replace prev with (prev / 16 * 2 ^ 4 + prev mod 16) at 1
      by (change (2 ^ 4) with 16; lia_mod).
    rewrite <-lor_fields by (lia || (change (2 ^ 4) with 16; lia_mod)).
    rewrite Z.land_lor_distr_l, <-!Z.shiftl_mul_pow2 by lia.
    rewrite <-Z.shiftl_land, Z.land_ones, Z.mod_small by (lia || (change (2 ^ 4) with 16; lia_mod)).
    replace (Z.land (prev mod 16) _) with 0.
    - rewrite Z.lor_0_r, Z.shiftl_mul_pow2 by lia. done.
    - symmetry. apply Z.bits_inj. intros i. rewrite Z.land_spec, Z.bits_0.
      destruct (Z.lt_ge_cases i 4).
      + by rewrite Z.shiftl_spec_low, andb_false_r.
      + by rewrite (testbit_high (prev mod 16) 4) by (change (2 ^ 4) with 16; lia_mod). }
  rewrite Hl. change 16 with (2 ^ 4) at 2. rewrite lor_fields by (lia || done).
  change (2 ^ 4) with 16. apply u8_small. lia_mod.
Qed.

(** Setting a rate: shared by [rtc_open] and [rtc_write]. *)
Lemma set_rate_spec prev rate v k :
  0 <= prev < 256 -> 0 <= rate < 16 ->
  (kcli ;; koutb RTCREGA RTCPORT1 ;; p ← kinb RTCPORT2 prev; koutb RTCREGA RTCPORT1 ;;
   koutb (Z.lor (Z.land p RTCUNUN) rate) RTCPORT2 ;; ksti ;; mret v : ST kernel Z) k =
  Ok (v, set_if true (emit (rate_io prev rate) k)).
Proof.
  intros Hp Hr. rewrite kcli_bind, koutb_bind, kinb_bind, !koutb_bind, ksti_bind.
  rewrite !emit_emit, (u8_small prev), rate_byte by done.
  rewrite <-set_if_emit, set_if_set_if. done.
Qed.

Lemma rtc_open_spec prev k :
  0 <= prev < 256 ->
  rtc_open prev k = Ok (0, set_if true (emit (rate_io prev 15) k)).
Proof.
  intros. unfold rtc_open. rewrite set_rate_spec by (done || unfold BASENUM; lia).
  reflexivity.
Qed.

Lemma rtc_write_run prev fd buf nbytes k :
  0 <= prev < 256 ->
  let freq := load32 (kmem k) buf in
  rtc_write prev fd buf nbytes k =
  if rate_of freq =? ERRORMAG then Ok (-1, k)
  else Ok (4, set_if true (emit (rate_io prev (rate_of freq)) k)).
Proof.
  intros Hp freq. unfold rtc_write.
  erewrite bind_ok by reflexivity. fold freq. cbv zeta.
  destruct (rate_of freq =? ERRORMAG) eqn:E; [done|].
  apply Z.eqb_neq in E. pose proof (rate_of_hz freq E) as [? _].
  rewrite set_rate_spec by (done || lia). reflexivity.
Qed.

(** The interrupt handler sets the flag, acknowledges both controllers and
    leaves interrupts on. *)
Lemma rtc_handler_spec regc k :
  0 <= regc < 256 ->
  _idt_rtc_irq_handler regc k = Ok (tt, set_if true
    (emit ([Out 140 112; In 113 regc] ++ eoi_io 8) (set_rtc_interrupt_occured 1 k))).
Proof.
  intros Hr. unfold _idt_rtc_irq_handler.
  rewrite kcli_bind, koutb_bind, kinb_bind, (u8_small regc) by done.
  erewrite bind_ok by reflexivity.
  erewrite bind_ok by (apply send_eoi_spec; unfold RTCIRQ8; lia).
  change (ksti ?x) with (Ok (tt, set_if true x)).
  rewrite emit_emit. change (set_rtc_interrupt_occured 1 (emit ?l ?x))
    with (emit l (set_rtc_interrupt_occured 1 x)).
  rewrite emit_emit. done.
Qed.

(** ** The properties of the clock *)

(** [rtc_write] accepts exactly the powers of two from 2 to 1024: it then
    sets the rate whose frequency was asked for, keeps the upper half of
    register A, returns 4 and leaves interrupts on; anything else returns -1
    without touching the clock. *)
Theorem rtc_write_sets_rate prev fd buf nbytes k :
  0 <= prev < 256 ->
  let freq := load32 (kmem k) buf in
  (exists i, 1 <= i <= 10 /\ freq = 2 ^ i /\ rate_hz (16 - i) = freq /\
     rtc_write prev fd buf nbytes k = Ok (4, set_if true (emit (rate_io prev (16 - i)) k))) \/
  ((forall i, 1 <= i <= 10 -> freq <> 2 ^ i) /\ rtc_write prev fd buf nbytes k = Ok (-1, k)).
Proof.
  intros Hp freq. pose proof (rtc_write_run prev fd buf nbytes k Hp) as Hr. cbv zeta in Hr.
  fold freq in Hr. destruct (Z.eqb_spec (rate_of freq) ERRORMAG) as [E|E].
  - right. split; [|done]. intros i Hi Hf. rewrite Hf, rate_of_valid in E by done.
    unfold ERRORMAG in E. lia.
  - left. destruct (rate_of_cases freq) as [|(i & Hi & Hf)]; [done|]. exists i.
    assert (Er : rate_of freq = 16 - i) by (rewrite Hf; by apply rate_of_valid).
    rewrite Er in Hr. split_and!; try done; try lia. rewrite <-Er. by apply rate_of_hz.
Qed.

(** A read of the clock waits for the next interrupt: after [rtc_read] has
    begun the test fails until the handler has run, and then succeeds; the
    handler acknowledges the interrupt at both controllers. *)
Theorem rtc_read_waits_for_tick regc k :
  0 <= regc < 256 ->
  exists k1 k2, rtc_read_begin k = Ok (tt, k1) /\ rtc_read_poll k1 = Ok (None, k1) /\
    _idt_rtc_irq_handler regc k1 = Ok (tt, k2) /\ rtc_read_poll k2 = Ok (Some 0, k2) /\
    k_trace k2 = k_trace k ++ [Out 140 112; In 113 regc; Out 96 160; Out 98 32].
Proof.
  intros Hr. eexists _, _. split; [reflexivity|]. split; [reflexivity|].
  split; [by apply rtc_handler_spec|]. by split.
Qed.
