(* ===== verification/Idt.v ===== *)
(** * The interrupt descriptor table (idt_init.c)

    [_idt_set_all] on the 256 gates of the table.  The addresses of the
    handlers are the linker's: the model takes them as a function. *)

From Stdlib Require Import ZArith Lia.
From stdpp Require Import base numbers list.
From S2P Require Import Prelude.

Local Open Scope Z_scope.

(** ** The code *)

Definition NUM_VEC : Z := 256.
Definition KERNEL_CS : Z := 16.
Definition RES4CONST : Z := 31.
Definition SYSCALL : Z := 128.

(** The handlers: the exceptions in the order of their vectors, the
    interrupts and the system call. *)
Inductive handler :=
  | TRAP_DE | TRAP_DB | TRAP_NMI | TRAP_BP | TRAP_OF | TRAP_BR | TRAP_UD
  | TRAP_NM | TRAP_DF | TRAP_OLD_MF | TRAP_TS | TRAP_NP | TRAP_SS | TRAP_GP
  | TRAP_PF | TRAP_SPURIOUS | TRAP_MF | TRAP_AC | TRAP_MC | TRAP_XF
  | interrupt_pit | interrupt_kb | interrupt_rtc | interrupt_mouse | syscall.

#[export] Instance handler_eq_dec : EqDecision handler.
Proof. solve_decision. Defined.

(** An entry of the table (x86_desc.h); [gate_size] and [gate_present] are
    its fields [size] and [present]. *)
Record idt_desc := IdtDesc {
  offset_15_00 : Z;
  seg_selector : Z;
  reserved4 : Z;
  reserved3 : Z;
  reserved2 : Z;
  reserved1 : Z;
  gate_size : Z;
  reserved0 : Z;
  dpl : Z;
  gate_present : Z;
  offset_31_16 : Z;
}.

Definition set_offset_15_00 (v : Z) (s : idt_desc) : idt_desc :=
  IdtDesc v (seg_selector s) (reserved4 s) (reserved3 s) (reserved2 s)
    (reserved1 s) (gate_size s) (reserved0 s) (dpl s) (gate_present s)
    (offset_31_16 s).
Definition set_seg_selector (v : Z) (s : idt_desc) : idt_desc :=
  IdtDesc (offset_15_00 s) v (reserved4 s) (reserved3 s) (reserved2 s)
    (reserved1 s) (gate_size s) (reserved0 s) (dpl s) (gate_present s)
    (offset_31_16 s).
Definition set_reserved4 (v : Z) (s : idt_desc) : idt_desc :=
  IdtDesc (offset_15_00 s) (seg_selector s) v (reserved3 s) (reserved2 s)
    (reserved1 s) (gate_size s) (reserved0 s) (dpl s) (gate_present s)
    (offset_31_16 s).
Definition set_reserved3 (v : Z) (s : idt_desc) : idt_desc :=
  IdtDesc (offset_15_00 s) (seg_selector s) (reserved4 s) v (reserved2 s)
    (reserved1 s) (gate_size s) (reserved0 s) (dpl s) (gate_present s)
    (offset_31_16 s).
Definition set_reserved2 (v : Z) (s : idt_desc) : idt_desc :=
  IdtDesc (offset_15_00 s) (seg_selector s) (reserved4 s) (reserved3 s) v
    (reserved1 s) (gate_size s) (reserved0 s) (dpl s) (gate_present s)
    (offset_31_16 s).
Definition set_reserved1 (v : Z) (s : idt_desc) : idt_desc :=
  IdtDesc (offset_15_00 s) (seg_selector s) (reserved4 s) (reserved3 s)
    (reserved2 s) v (gate_size s) (reserved0 s) (dpl s) (gate_present s)
    (offset_31_16 s).
Definition set_gate_size (v : Z) (s : idt_desc) : idt_desc :=
  IdtDesc (offset_15_00 s) (seg_selector s) (reserved4 s) (reserved3 s)
    (reserved2 s) (reserved1 s) v (reserved0 s) (dpl s) (gate_present s)
    (offset_31_16 s).
Definition set_reserved0 (v : Z) (s : idt_desc) : idt_desc :=
  IdtDesc (offset_15_00 s) (seg_selector s) (reserved4 s) (reserved3 s)
    (reserved2 s) (reserved1 s) (gate_size s) v (dpl s) (gate_present s)
    (offset_31_16 s).
Definition set_dpl (v : Z) (s : idt_desc) : idt_desc :=
  IdtDesc (offset_15_00 s) (seg_selector s) (reserved4 s) (reserved3 s)
    (reserved2 s) (reserved1 s) (gate_size s) (reserved0 s) v (gate_present s)
    (offset_31_16 s).
Definition set_gate_present (v : Z) (s : idt_desc) : idt_desc :=
  IdtDesc (offset_15_00 s) (seg_selector s) (reserved4 s) (reserved3 s)
    (reserved2 s) (reserved1 s) (gate_size s) (reserved0 s) (dpl s) v
    (offset_31_16 s).
Definition set_offset_31_16 (v : Z) (s : idt_desc) : idt_desc :=
  IdtDesc (offset_15_00 s) (seg_selector s) (reserved4 s) (reserved3 s)
    (reserved2 s) (reserved1 s) (gate_size s) (reserved0 s) (dpl s)
    (gate_present s) v.

(** The loop body: the fields that do not depend on the handler. *)
Definition init_gate (index : Z) (d : idt_desc) : idt_desc :=
  let d := set_reserved4 (Z.land (reserved4 d) RES4CONST) d in
  let d := set_reserved3 0 d in
  let d := set_reserved2 1 d in
  let d := set_reserved1 1 d in
  let d := set_reserved0 0 d in
  let d := set_seg_selector KERNEL_CS d in
  let d := set_gate_size 1 d in
  let d := if negb (index =? SYSCALL) then set_dpl 0 d
           else set_dpl 3 (set_reserved3 1 d) in
  set_gate_present 1 d.

(** The macro [SET_IDT_ENTRY]. *)
Definition SET_IDT_ENTRY (addr : Z) (d : idt_desc) : idt_desc :=
  set_offset_15_00 (Z.land addr 65535)
    (set_offset_31_16 (Z.shiftr (Z.land addr 4294901760) 16) d).

Definition idt_entries : list (Z * handler) :=
  [(0, TRAP_DE); (1, TRAP_DB); (2, TRAP_NMI); (3, TRAP_BP); (4, TRAP_OF);
   (5, TRAP_BR); (6, TRAP_UD); (7, TRAP_NM); (8, TRAP_DF); (9, TRAP_OLD_MF);
   (10, TRAP_TS); (11, TRAP_NP); (12, TRAP_SS); (13, TRAP_GP); (14, TRAP_PF);
   (15, TRAP_SPURIOUS); (16, TRAP_MF); (17, TRAP_AC); (18, TRAP_MC);
   (19, TRAP_XF); (32, interrupt_pit); (33, interrupt_kb);
   (40, interrupt_rtc); (44, interrupt_mouse); (128, syscall)].

Definition null_gate : idt_desc := IdtDesc 0 0 0 0 0 0 0 0 0 0 0.

Definition on_gate (i : Z) (f : idt_desc -> idt_desc) (idt : list idt_desc) : list idt_desc :=
  <[Z.to_nat i := f (anth null_gate idt i)]> idt.

Definition _idt_set_all (addr : handler -> Z) (idt : list idt_desc) : list idt_desc :=
  let idt := forz 0 NUM_VEC (fun i idt => on_gate i (init_gate i) idt) idt in
  foldl (fun idt e => on_gate (fst e) (SET_IDT_ENTRY (addr (snd e))) idt) idt idt_entries.

(** ** What the processor reads in a gate *)

Definition gate_offset (d : idt_desc) : Z := offset_31_16 d * 65536 + offset_15_00 d.

(** The four type bits: 14 is a 32-bit interrupt gate, 15 a trap gate. *)
Definition gate_type (d : idt_desc) : Z :=
  gate_size d * 8 + reserved1 d * 4 + reserved2 d * 2 + reserved3 d.

Lemma set_entry_offset a d :
  0 <= a < 4294967296 -> gate_offset (SET_IDT_ENTRY a d) = a.
Proof.
  intros Ha. unfold gate_offset, SET_IDT_ENTRY. cbn.
  change 65535 with (Z.ones 16). rewrite Z.land_ones by lia.
  change 4294901760 with (2 ^ 32 - 2 ^ 16). rewrite land_high by lia.
  rewrite Z.shiftr_div_pow2, Z.div_mul by lia. change (2 ^ 16) with 65536. lia_mod.
Qed.

Lemma anth_on_gate i j f idt :
  0 <= i < zlen idt -> 0 <= j ->
  anth null_gate (on_gate i f idt) j =
  if decide (i = j) then f (anth null_gate idt j) else anth null_gate idt j.
Proof. intros. unfold on_gate. rewrite anth_insert by lia. case_decide; by subst. Qed.

Lemma length_on_gate i f idt : zlen (on_gate i f idt) = zlen idt.
Proof. unfold on_gate. by rewrite length_insert. Qed.

Lemma init_gates idt :
  zlen idt = 256 ->
  let idt' := forz 0 NUM_VEC (fun i idt => on_gate i (init_gate i) idt) idt in
  zlen idt' = 256 /\
  forall i, 0 <= i < 256 -> anth null_gate idt' i = init_gate i (anth null_gate idt i).
Proof.
  intros Hl. cbv zeta. unfold NUM_VEC.
  pose proof (forz_inv (fun n idt' => zlen idt' = 256 /\
    forall i, 0 <= i < 256 -> anth null_gate idt' i =
      if i <? n then init_gate i (anth null_gate idt i) else anth null_gate idt i)
    0 256 (fun i idt => on_gate i (init_gate i) idt) idt) as H.
  destruct H as [H1 H2]; [lia | | |].
  - split; [done|]. intros i Hi. case_match; [lia | done].
  - intros i idt' Hi [Hl' Hg]. rewrite length_on_gate. split; [done|].
    intros j Hj. rewrite anth_on_gate, Hg by lia.
    case_decide; repeat case_match; subst; done || lia.
  - split; [done|]. intros i Hi. rewrite H2 by done. case_match; [done | lia].
Qed.

(** The vector the processor uses for an exception, and the one the
    controllers raise for a line: line [n] is vector 32 + [n]. *)
Definition vector (h : handler) : Z :=
  match h with
  | TRAP_DE => 0              (* divide error *)
  | TRAP_DB => 1              (* debug *)
  | TRAP_NMI => 2             (* non-maskable interrupt *)
  | TRAP_BP => 3              (* breakpoint *)
  | TRAP_OF => 4              (* overflow *)
  | TRAP_BR => 5              (* bound range exceeded *)
  | TRAP_UD => 6              (* invalid opcode *)
  | TRAP_NM => 7              (* no coprocessor *)
  | TRAP_DF => 8              (* double fault *)
  | TRAP_OLD_MF => 9          (* coprocessor segment overrun *)
  | TRAP_TS => 10             (* invalid TSS *)
  | TRAP_NP => 11             (* segment not present *)
  | TRAP_SS => 12             (* stack segment fault *)
  | TRAP_GP => 13             (* general protection *)
  | TRAP_PF => 14             (* page fault *)
  | TRAP_SPURIOUS => 15       (* reserved *)
  | TRAP_MF => 16             (* floating point error *)
  | TRAP_AC => 17             (* alignment check *)
  | TRAP_MC => 18             (* machine check *)
  | TRAP_XF => 19             (* SIMD floating point *)
  | interrupt_pit => 32 + 0
  | interrupt_kb => 32 + 1
  | interrupt_rtc => 32 + 8
  | interrupt_mouse => 32 + 12
  | syscall => 128            (* int 0x80 *)
  end.

(** The table of the code has each handler at its vector, and no other. *)
Lemma entries_at_vectors i :
  List.find (fun e => fst e =? i) idt_entries = None /\ (forall h, vector h <> i) \/
  exists h, vector h = i /\ List.find (fun e => fst e =? i) idt_entries = Some (i, h).
Proof.
  destruct (List.find (fun e => fst e =? i) idt_entries) as [[v h]|] eqn:E; [right | left].
  - apply List.find_some in E as [Hin Hv]. cbn [fst] in Hv. apply Z.eqb_eq in Hv as ->.
    exists h. split; [|done]. cbn [idt_entries In] in Hin.
    repeat (destruct Hin as [[= <- <-]|Hin]; [done|]). done.
  - split; [done|]. intros h <-. by destruct h.
Qed.

(** Installing a list of handlers, each vector once. *)
Lemma install_fold addr (es : list (Z * handler)) idt :
  zlen idt = 256 -> Forall (fun e => 0 <= fst e < 256) es -> NoDup (map fst es) ->
  let idt' := foldl (fun idt e =>
    on_gate (fst e) (SET_IDT_ENTRY (addr (snd e))) idt) idt es in
  zlen idt' = 256 /\
  forall i, 0 <= i < 256 -> anth null_gate idt' i =
    match List.find (fun e => fst e =? i) es with
    | Some e => SET_IDT_ENTRY (addr (snd e)) (anth null_gate idt i)
    | None => anth null_gate idt i
    end.
Proof.
  revert idt. induction es as [|[v h] es IH]; intros idt Hl HF Hnd; [done|].
  inversion HF as [|? ? Hv HF']; subst. cbn in Hv.
  cbn in Hnd. apply NoDup_cons in Hnd as [Hni Hnd].
  cbn [foldl fst snd]. destruct (IH (on_gate v (SET_IDT_ENTRY (addr h)) idt)) as [H1 H2];
    [by rewrite length_on_gate | done | done|].
  split; [done|]. intros i Hi. rewrite H2 by done. cbn [List.find fst snd].
  rewrite anth_on_gate by lia. destruct (Z.eqb_spec v i) as [->|Hne].
  - rewrite decide_True by done.
    destruct (List.find _ es) as [e|] eqn:E; [|done]. exfalso.
    apply List.find_some in E as [Hin Heq]. apply Hni.
    replace i with (fst e) by lia. apply list_elem_of_In, in_map. done.
  - by rewrite decide_False.
Qed.

(** C34: The table after [_idt_set_all]: each handler is at the vector of its
    exception, of its interrupt line or of the system call, and a gate without
    a handler keeps the offset it had, though it is marked present.  All gates
    are 32-bit gates of the kernel's code segment; that of the system call is a
    trap gate programs may use, the others are interrupt gates for the kernel
    only. *)
Theorem idt_gates addr idt :
  zlen idt = 256 -> (forall h, 0 <= addr h < 4294967296) ->
  let gate i := anth null_gate (_idt_set_all addr idt) i in
  (forall h, gate_offset (gate (vector h)) = addr h) /\
  (forall i, 0 <= i < 256 -> (forall h, vector h <> i) ->
     gate_offset (gate i) = gate_offset (anth null_gate idt i)) /\
  forall i, 0 <= i < 256 ->
    gate_present (gate i) = 1 /\ seg_selector (gate i) = 16 /\ reserved0 (gate i) = 0 /\
    dpl (gate i) = (if i =? 128 then 3 else 0) /\
    gate_type (gate i) = (if i =? 128 then 15 else 14).
Proof.
  intros Hl Ha gate.
  assert (Hg : forall i, 0 <= i < 256 -> gate i =
    match List.find (fun e => fst e =? i) idt_entries with
    | Some e => SET_IDT_ENTRY (addr (snd e)) (init_gate i (anth null_gate idt i))
    | None => init_gate i (anth null_gate idt i)
    end).
  { intros i Hi. destruct (init_gates idt Hl) as [H1 H2].
    destruct (install_fold addr idt_entries
      (forz 0 NUM_VEC (fun i idt => on_gate i (init_gate i) idt) idt) H1) as [H3 H4].
    { repeat (constructor; [cbn; lia|]). constructor. }
    { apply (bool_decide_unpack _). by vm_compute. }
    unfold gate, _idt_set_all. by rewrite H4, H2. }
  clearbody gate. split_and!.
  - intros h. rewrite Hg by (by destruct h).
    destruct (entries_at_vectors (vector h)) as [[_ Hn]|(h' & Hv & ->)]; [by destruct (Hn h)|].
    assert (h' = h) as -> by (by destruct h, h'). by apply set_entry_offset.
  - intros i Hi Hn. rewrite Hg by done.
    destruct (entries_at_vectors i) as [[-> _]|(h & Hv & _)]; [|by destruct (Hn h)].
    unfold init_gate. by destruct (negb _).
  - intros i Hi. rewrite Hg by done. unfold init_gate, SYSCALL.
    destruct (List.find _ _); by destruct (i =? 128).
Qed.
