(* ===== verification/Pcb.v ===== *)
(** * Process control blocks (syscall.h)

    The block of the task in slot [pos] is the first 520 bytes of the 8 KB
    just below the kernel stack of that task.  A field is an address; the
    offsets are those of [pcb_t]. *)

From Stdlib Require Import ZArith Lia.
From stdpp Require Import base numbers list gmap.
From S2P Require Import Prelude Mem CString.

Local Open Scope Z_scope.

Definition MAXNUMTASK : Z := 6.
Definition MAXOPENFILE : Z := 8.
Definition EIGHTKB : Z := 8192.
Definition EIGHTMB : Z := 8388608.
Definition PCB_SIZE : Z := 520.

Definition pcb_at (pos : Z) : Z := EIGHTMB - EIGHTKB * (pos + 1).

(** [file_array[fd]], a [file_node_t] of 16 bytes. *)
Definition fa_fop_table (pcb fd : Z) : Z := pcb + 16 * fd.
Definition fa_inode (pcb fd : Z) : Z := pcb + 16 * fd + 4.
Definition fa_file_pos (pcb fd : Z) : Z := pcb + 16 * fd + 8.
Definition fa_flags (pcb fd : Z) : Z := pcb + 16 * fd + 12.
Definition file_name_at (pcb fd : Z) : Z := pcb + 128 + 32 * fd.
Definition open_file_num (pcb : Z) : Z := pcb + 384.
Definition arg_buffer (pcb : Z) : Z := pcb + 388.
Definition process_id (pcb : Z) : Z := pcb + 488.
Definition parent_process_id (pcb : Z) : Z := pcb + 492.
Definition parent_esp (pcb : Z) : Z := pcb + 496.
Definition parent_ebp (pcb : Z) : Z := pcb + 500.
Definition running_state (pcb : Z) : Z := pcb + 504.
Definition pcb_esp (pcb : Z) : Z := pcb + 508.
Definition pcb_ebp (pcb : Z) : Z := pcb + 512.
Definition parent_pcb (pcb : Z) : Z := pcb + 516.

(** The assignments that empty, or fill in, a descriptor. *)
Definition set_fd (pcb fd fop inode pos flags : Z) (m : mem) : mem :=
  store32 (store32 (store32 (store32 m
    (fa_fop_table pcb fd) fop) (fa_inode pcb fd) inode)
    (fa_file_pos pcb fd) pos) (fa_flags pcb fd) flags.

(** Set all blocks to zero ([pcb_init]). *)
Fixpoint pcb_init_from (n : nat) (i : Z) (m : mem) : res mem :=
  match n with
  | O => Ok m
  | S n =>
      let* m := memset m (pcb_at i) 0 PCB_SIZE in
      pcb_init_from n (i + 1) m
  end.
Definition pcb_init (m : mem) : res mem :=
  pcb_init_from (Z.to_nat MAXNUMTASK) 0 m.

(** ** Reading blocks *)

(** The contents of a descriptor. *)
Record fdesc := Fdesc { d_fop : Z; d_inode : Z; d_pos : Z; d_flags : Z }.

Definition fd_at (m : mem) (pcb fd : Z) : fdesc :=
  Fdesc (load32 m (fa_fop_table pcb fd)) (load32 m (fa_inode pcb fd))
    (load_s32 m (fa_file_pos pcb fd)) (load_s32 m (fa_flags pcb fd)).

#[export] Instance fdesc_eq_dec : EqDecision fdesc.
Proof. solve_decision. Defined.

(** All the field addresses, for arithmetic. *)
Ltac pcb_unfold :=
  unfold fa_fop_table, fa_inode, fa_file_pos, fa_flags, file_name_at,
    open_file_num, arg_buffer, process_id, parent_process_id, parent_esp,
    parent_ebp, running_state, pcb_esp, pcb_ebp, parent_pcb in *.

Lemma set_fd_frame pcb fd fop ino pos fl m b :
  b < pcb + 16 * fd \/ pcb + 16 * fd + 16 <= b ->
  mget (set_fd pcb fd fop ino pos fl m) b = mget m b.
Proof.
  intros Hb. unfold set_fd. pcb_unfold. rewrite !mget_store32_ne by lia. done.
Qed.

Lemma set_fd_load32 pcb fd fop ino pos fl m b :
  b + 4 <= pcb + 16 * fd \/ pcb + 16 * fd + 16 <= b ->
  load32 (set_fd pcb fd fop ino pos fl m) b = load32 m b.
Proof.
  intros Hb. unfold set_fd. pcb_unfold. rewrite !load32_store32_ne by lia. done.
Qed.

Lemma fd_at_ext m1 m2 pcb fd :
  (forall b, pcb + 16 * fd <= b < pcb + 16 * fd + 16 -> mget m1 b = mget m2 b) ->
  fd_at m1 pcb fd = fd_at m2 pcb fd.
Proof.
  intros H. unfold fd_at, load_s32. pcb_unfold.
  f_equal; try (f_equal; apply load32_ext; intros; apply H; lia);
    apply load32_ext; intros; apply H; lia.
Qed.

Lemma fd_at_set pcb fd fd' fop ino pos fl m :
  fd_at (set_fd pcb fd fop ino pos fl m) pcb fd' =
  if decide (fd = fd') then Fdesc (u32 fop) (u32 ino) (s32 pos) (s32 fl)
  else fd_at m pcb fd'.
Proof.
  case_decide as Hd; [subst fd'|].
  - unfold fd_at, set_fd, load_s32. pcb_unfold.
    repeat first [rewrite load32_store32_eq | rewrite load32_store32_ne by lia].
    by rewrite !s32_u32.
  - apply fd_at_ext. intros b Hb. apply set_fd_frame.
    lia.
Qed.

(** Slots do not overlap. *)
Lemma pcb_disjoint p q :
  p <> q -> pcb_at p + 8192 <= pcb_at q \/ pcb_at q + 8192 <= pcb_at p.
Proof. intros. unfold pcb_at, EIGHTMB, EIGHTKB. lia. Qed.

Lemma pcb_init_from_spec n i m :
  0 <= i ->
  exists m', pcb_init_from n i m = Ok m' /\
    (forall j b, i <= j < i + Z.of_nat n -> pcb_at j <= b < pcb_at j + 520 ->
       mget m' b = 0) /\
    (forall b, (forall j, i <= j < i + Z.of_nat n -> b < pcb_at j \/ pcb_at j + 520 <= b) ->
       mget m' b = mget m b).
Proof.
  revert i m. induction n as [|n IH]; intros i m Hi.
  - exists m. cbn. split_and!; [done | lia | done].
  - cbn [pcb_init_from]. unfold PCB_SIZE.
    destruct (memset_spec m (pcb_at i) 0 520) as (m1 & -> & H1); [lia|].
    destruct (IH (i + 1) m1) as (m' & -> & Hz & Hf); [lia|].
    exists m'. split_and!; [done | |].
    + intros j b Hj Hb. destruct (decide (j = i)) as [->|].
      * rewrite Hf, H1, decide_True by (lia || (intros; unfold pcb_at, EIGHTMB, EIGHTKB in *; lia)).
        done.
      * apply (Hz j); lia.
    + intros b Hb. rewrite Hf by (intros; apply Hb; lia).
      rewrite H1, decide_False; [done|]. specialize (Hb i ltac:(lia)). lia.
Qed.

(** [pcb_init] zeroes the six blocks and nothing else. *)
Lemma pcb_init_spec m :
  exists m', pcb_init m = Ok m' /\
    (forall pos b, 0 <= pos < 6 -> pcb_at pos <= b < pcb_at pos + 520 -> mget m' b = 0) /\
    (forall b, (forall pos, 0 <= pos < 6 -> b < pcb_at pos \/ pcb_at pos + 520 <= b) ->
       mget m' b = mget m b).
Proof.
  destruct (pcb_init_from_spec 6 0 m) as (m' & H1 & H2 & H3); [lia|].
  exists m'. split_and!; [done | |].
  - intros pos b Hp Hb. apply (H2 pos); lia.
  - intros b Hb. apply H3. intros. apply Hb. lia.
Qed.

(** ** Changes of memory and blocks *)

Lemma so_set_fd pcb fd fop ino pos fl m :
  same_out m (set_fd pcb fd fop ino pos fl m) (pcb + 16 * fd) 16.
Proof. intros b Hb. by apply set_fd_frame. Qed.

Lemma so_fd_at m m' a n pcb fd :
  same_out m m' a n -> pcb + 16 * fd + 16 <= a \/ a + n <= pcb + 16 * fd ->
  fd_at m' pcb fd = fd_at m pcb fd.
Proof. intros H Hb. apply fd_at_ext. intros. apply H. lia. Qed.

(** The loop that empties all descriptors. *)
Lemma clear_fds pcb m :
  let m' := forz 0 MAXOPENFILE (fun i m => set_fd pcb i 0 0 0 0 m) m in
  (forall fd, 0 <= fd < 8 -> fd_at m' pcb fd = Fdesc 0 0 0 0) /\
  same_out m m' pcb 128.
Proof.
  cbv zeta. unfold MAXOPENFILE.
  apply (forz_inv (fun n m' => (forall fd, 0 <= fd < n -> fd_at m' pcb fd = Fdesc 0 0 0 0)
    /\ same_out m m' pcb (16 * 8))); [lia | split; [lia | apply so_refl]|].
  intros i m' Hi [Hfd Hso]. split.
  - intros fd Hf. rewrite fd_at_set. case_decide; [done | apply Hfd; lia].
  - eapply so_trans; [exact Hso|]. eapply so_widen; [apply so_set_fd | lia | lia].
Qed.

(** A stack pointer inside the 8 KB of a task leads to its block. *)
Lemma stack_pcb pos esp :
  0 <= pos < 6 -> pcb_at pos <= esp < pcb_at pos + 8192 ->
  Z.land esp 4294959104 = pcb_at pos.
Proof.
  intros Hp He. unfold pcb_at, EIGHTMB, EIGHTKB in *.
  change 4294959104 with (2 ^ 32 - 2 ^ 13). rewrite land_high by lia.
  change (2 ^ 13) with 8192. lia_mod.
Qed.
