(* ===== verification/Exec.v ===== *)
(** * Starting and ending programs (syscall.c: execute, halt)

    The local variables of the two functions that live in memory (their
    address is passed on) are at addresses given by the caller's stack: a
    [frame].  The arrays that the command line is cut into are lists, and a
    write outside them a fault.

    Both functions can leave without returning.  [execute] enters user mode
    with [iret]; [halt] jumps back into the [execute] that started the
    program, or enters user mode at the start of the shell. *)

From Stdlib Require Import ZArith Lia String Ascii.
From stdpp Require Import base numbers list gmap.
From S2P Require Import Prelude Mem CString FileSys Console Machine Paging Pcb.

Local Open Scope Z_scope.

(** ** The code *)

Definition FOPTABLESIZE : Z := 4.
Definition CMDLENGTH : Z := 20.
Definition EXEBUFSIZE : Z := 30.
Definition ARGMAXLEN : Z := 128.
Definition LOADADDR : Z := 134512640.      (* 0x08048000 *)
Definition PROCESSMASK : Z := 4294959104.  (* 0xFFFFE000 *)
Definition KERNEL_DS : Z := 24.
Definition HIGHMASK : Z := 255.

Record frame := Frame {
  f_first_cmd : Z;   (** first_cmd[20] *)
  f_getargbuf : Z;   (** getargbuf[30] *)
  f_dentry : Z;      (** dentry, 64 bytes *)
  f_buffer : Z;      (** buffer[30] *)
  f_esp : Z;         (** the stack pointer when it is saved *)
  f_ebp : Z;
}.

(** The first loop of the parser, on [arg_line] from index [i] to the length
    of the command: the index it stops at and [first_cmd]. *)
Fixpoint scan_cmd (line : list Z) (i ind idx : Z) (first_cmd : list Z)
  : res (Z * list Z) :=
  match line with
  | [] => Ok (i, first_cmd)
  | c :: line =>
      if (c =? SP) && (ind =? 0) then scan_cmd line (i + 1) ind idx first_cmd
      else if negb (c =? SP) && (ind =? 0) then
        let* f := aset first_cmd idx c in scan_cmd line (i + 1) 1 (idx + 1) f
      else if negb (c =? SP) && (ind =? 1) then
        let* f := aset first_cmd idx c in scan_cmd line (i + 1) ind (idx + 1) f
      else if (c =? SP) && (ind =? 1) then
        let* f := aset first_cmd idx 0 in Ok (i, f)
      else scan_cmd line (i + 1) ind idx first_cmd
  end.

(** The second loop: the arguments. *)
Fixpoint scan_args (line : list Z) (ind idx : Z) (getargbuf : list Z)
  : res (list Z) :=
  match line with
  | [] => Ok getargbuf
  | c :: line =>
      if (c =? SP) && (ind =? 0) then scan_args line ind idx getargbuf
      else if negb (c =? SP) && (ind =? 0) then
        let* g := aset getargbuf idx c in scan_args line 1 (idx + 1) g
      else if ind =? 1 then
        let* g := aset getargbuf idx c in scan_args line ind (idx + 1) g
      else scan_args line ind idx getargbuf
  end.

(** [strcpy] into [arg_line], then the two loops. *)
Definition parse_command (cmd : list Z) : res (list Z * list Z) :=
  if ARGMAXLEN <=? zlen cmd then Err OutOfBounds
  else
    let* (i, first_cmd) := scan_cmd cmd 0 0 0 (replicate (Z.to_nat CMDLENGTH) 0) in
    let* getargbuf := scan_args (drop (Z.to_nat i) cmd) 0 0
                        (replicate (Z.to_nat EXEBUFSIZE) 0) in
    Ok (first_cmd, getargbuf).

(** Bytes 24 to 27 of the file header. *)
Definition entry_point (m : mem) (buffer : Z) : Z :=
  Z.lor (Z.lor (Z.lor (Z.shiftl (mget m (buffer + 27)) 24)
                      (Z.shiftl (mget m (buffer + 26)) 16))
               (Z.shiftl (mget m (buffer + 25)) 8))
        (mget m (buffer + 24)).

(** The loop over [check_buf]. *)
Definition magic_ok (m : mem) (buffer : Z) : bool :=
  (mget m buffer =? 127) && (mget m (buffer + 1) =? 69)
  && (mget m (buffer + 2) =? 76) && (mget m (buffer + 3) =? 70).

(** The search of the task bitmap: [Some] of the bitmap and the position it
    leaves, or [None] where the code returns -1. *)
Fixpoint find_slot (n : nat) (i running : Z) (bitmap : list Z) (pos : Z)
  : option (list Z * Z) :=
  match n with
  | O => Some (bitmap, pos)
  | S n =>
      if anth 0 bitmap i =? 0 then Some (<[Z.to_nat i := 1]> bitmap, i)
      else if (i =? MAXNUMTASK - 1) && (running =? MAXNUMTASK) then None
      else find_slot n (i + 1) running bitmap pos
  end.

Inductive exec_result :=
  | Returned (v : Z)               (** [execute] returns to its caller *)
  | Entered (eip : Z).             (** user mode, at this instruction *)

(** The identity of the task: the first assignments to its block. *)
Definition pcb_identity (fr : frame) (pos running : Z) (m : mem) : mem :=
  let pcb := pcb_at pos in
  let m := store32 m (process_id pcb) pos in
  let m := store32 m (parent_esp pcb) (f_esp fr) in
  let m := store32 m (parent_ebp pcb) (f_ebp fr) in
  let m :=
    if (load_s32 m (process_id pcb) =? 0) && (running =? 0) then
      store32 (store32 m (parent_process_id pcb) (-1)) (parent_pcb pcb) 0
    else
      let transition := Z.land (load32 m (parent_esp pcb)) PROCESSMASK in
      let m := store32 m (parent_process_id pcb) (load32 m (process_id transition)) in
      store32 m (parent_pcb pcb) transition in
  let m := store32 m (running_state pcb) 1 in
  let m := store32 m (pcb_ebp pcb) (pcb + EIGHTKB - 4) in
  let m := store32 m (pcb_esp pcb) (pcb + EIGHTKB - 4) in
  store32 m (open_file_num pcb) 0.

(** Its open files: none, then standard input and output. *)
Definition pcb_stdio (lay : layout) (pcb : Z) (m : mem) : res mem :=
  let m := set_fd pcb 0 (stdin_op_table lay) 0 0 1 m in
  let* m := strcpy m (file_name_at pcb 0) (lit_stdin lay) in
  let m := store32 m (open_file_num pcb) (load32 m (open_file_num pcb) + 1) in
  let m := set_fd pcb 1 (stdout_op_table lay) 0 0 1 m in
  let* m := strcpy m (file_name_at pcb 1) (lit_stdout lay) in
  Ok (store32 m (open_file_num pcb) (load32 m (open_file_num pcb) + 1)).

Definition pcb_files (lay : layout) (fr : frame) (pcb : Z) (m : mem) : res mem :=
  let m := forz 0 MAXOPENFILE (fun i m => set_fd pcb i 0 0 0 0 m) m in
  let* m := memset m (arg_buffer pcb) 0 100 in
  let* m := strcpy m (arg_buffer pcb) (f_getargbuf fr) in
  pcb_stdio lay pcb m.

(** Steps 5 and 6: the process control block of the new task. *)
Definition fill_pcb (lay : layout) (fr : frame) (pos running : Z) (m : mem) : res mem :=
  pcb_files lay fr (pcb_at pos) (pcb_identity fr pos running m).

(** An access of the kernel to a virtual address, through the tables the
    hardware uses. *)
Definition kernel_addr (lay : layout) (k : kernel) (va : Z) : res Z :=
  match mmu k with
  | Some (pd, pt) =>
      match translate lay false pd pt va with
      | Some pa => Ok pa
      | None => Err PageFault
      end
  | None => Ok va
  end.

(** Step 1: the command line, cut into the two arrays. *)
Definition exec_parse (fr : frame) (command : Z) : ST kernel unit :=
  m ← gets kmem;
  n ← liftR (strlen m command);
  '(first_cmd, getargbuf) ← liftR (parse_command (mbytes m command (Z.to_nat n)));
  modify (fun k => set_kmem (mset_bytes (kmem k) (f_first_cmd fr) first_cmd) k) ;;
  modify (fun k => set_kmem (mset_bytes (kmem k) (f_getargbuf fr) getargbuf) k).

(** Step 2: the file, and whether it is executable.  [None] is a return of
    -1. *)
Definition exec_find (fr : frame) : ST kernel (option unit) :=
  fs ← gets k_fs;
  m ← gets kmem;
  '(r, fs', m') ← liftR (read_dentry_by_name fs m (f_first_cmd fr) (f_dentry fr));
  modify (set_k_fs fs') ;;
  modify (set_kmem m') ;;
  if r =? -1 then mret None
  else
    '(retval, m'') ← liftR
      (read_data fs' m' (load32 m' (f_dentry fr + 36)) 0 (f_buffer fr) EXEBUFSIZE);
    modify (set_kmem m'') ;;
    if (retval =? -1) || (retval =? 0) then mret None
    else if negb (magic_ok m'' (f_buffer fr)) then mret None
    else mret (Some tt).

(** The image is copied to [dest], the physical address of [LOADADDR].  The
    page of the task ends [IMAGEMAX] bytes further on; no page follows it, so
    the copy of a longer file faults there, unless it has failed before. *)
Definition IMAGEMAX : Z := 3899392.

Definition load_image (fs : fsvars) (m : mem) (inode dest size : Z) : res (Z * mem) :=
  let n := Z.min (u32 size) IMAGEMAX in
  let* (retval, m') := read_data fs m inode 0 dest n in
  if (n <? u32 size) && (retval =? n) then Err PageFault else Ok (retval, m').

Lemma load_image_fits fs m inode dest size :
  0 <= size <= IMAGEMAX ->
  load_image fs m inode dest size = read_data fs m inode 0 dest size.
Proof.
  unfold IMAGEMAX. intros H. unfold load_image, IMAGEMAX. cbv zeta.
  rewrite u32_small, Z.min_l, Z.ltb_irrefl by lia. cbn [andb].
  by destruct (read_data _ _ _ _ _ _) as [[]|].
Qed.

(** Steps 3 to 8: a slot, its page, the image, the block, user mode. *)
Definition exec_load (lay : layout) (fr : frame) : ST kernel exec_result :=
  fs ← gets k_fs;
  m ← gets kmem;
  let size := get_dentry_size fs m (f_dentry fr) in
  running ← gets runn_task_num;
  bitmap ← gets task_bitmap;
  pos0 ← gets curr_task_pos;
  match find_slot (Z.to_nat MAXNUMTASK) 0 running bitmap pos0 with
  | None => mret (Returned (-1))
  | Some (bitmap', pos) =>
      modify (set_task_bitmap bitmap') ;;
      modify (set_curr_task_pos pos) ;;
      modify (map_task pos) ;;
      modify enable_paging ;;
      let addr := entry_point m (f_buffer fr) in
      dest ← (fun k => liftR (kernel_addr lay k LOADADDR) k);
      '(retval, m') ← liftR
        (load_image fs m (load32 m (f_dentry fr + 36)) dest size);
      modify (set_kmem m') ;;
      if negb (retval =? size) then mret (Returned (-1))
      else
        m'' ← liftR (fill_pcb lay fr pos running m');
        modify (set_kmem m'') ;;
        modify (set_tss_ss0 KERNEL_DS) ;;
        modify (set_tss_esp0 (EIGHTMB - EIGHTKB * pos - 4)) ;;
        modify (set_runn_task_num (u8 (running + 1))) ;;
        mret (Entered addr)
  end.

Definition execute (lay : layout) (fr : frame) (command : Z) : ST kernel exec_result :=
  on_tty cli ;;
  running ← gets runn_task_num;
  if (command =? 0) || (MAXNUMTASK <=? running) then mret (Returned (-1))
  else
    exec_parse fr command ;;
    r ← exec_find fr;
    match r with
    | None => mret (Returned (-1))
    | Some _ => exec_load lay fr
    end.

Inductive halt_result :=
  | HaltFails                           (** returns -1 to the program *)
  | Restart (eip : Z)                   (** the shell starts again *)
  | Resume (esp ebp retval : Z).        (** [execute] returns [retval] *)

Definition halt (lay : layout) (fr : frame) (status : Z) : ST kernel halt_result :=
  on_tty cli ;;
  let expand_status := Z.land (u8 status) HIGHMASK in
  pos ← gets curr_task_pos;
  running ← gets runn_task_num;
  let pcb := pcb_at pos in
  m ← gets kmem;
  if (pos =? 0) || (running =? 1) || (load_s32 m (parent_process_id pcb) =? -1)
     || (load_s32 m (process_id pcb) =? 0)
  then
    fs ← gets k_fs;
    '(r, fs', m1) ← liftR (read_dentry_by_name fs m (lit_shell lay) (f_dentry fr));
    modify (set_k_fs fs') ;;
    modify (set_kmem m1) ;;
    if r =? -1 then mret HaltFails
    else
      '(_, m2) ← liftR
        (read_data fs' m1 (load32 m1 (f_dentry fr + 36)) 0 (f_buffer fr) EXEBUFSIZE);
      modify (set_kmem m2) ;;
      mret (Restart (entry_point m2 (f_buffer fr)))
  else
    bitmap ← gets task_bitmap;
    bitmap' ← liftR (aset bitmap pos 0);
    modify (set_task_bitmap bitmap') ;;
    let parent := u8 (load_s32 m (parent_process_id pcb)) in
    modify (set_curr_task_pos parent) ;;
    modify (set_runn_task_num (u8 (running - 1))) ;;
    modify (map_task parent) ;;
    modify enable_paging ;;
    modify (set_tss_esp0 (EIGHTMB - EIGHTKB * parent - 4)) ;;
    let m1 := forz 0 MAXOPENFILE (fun i m => set_fd pcb i 0 0 0 0 m) m in
    let m2 := store32 m1 (running_state pcb) 0 in
    let esp := load32 m2 (parent_esp pcb) in
    let ebp := load32 m2 (parent_ebp pcb) in
    m3 ← liftR (memset m2 pcb 0 PCB_SIZE);
    modify (set_kmem m3) ;;
    let retval := if expand_status =? 255 then expand_status + 1 else expand_status in
    mret (Resume esp ebp retval).

(** ** The command line *)

(** Specification: leading spaces, a word, spaces, the arguments. *)
Fixpoint skip_spaces (l : list Z) : list Z :=
  match l with [] => [] | c :: l' => if c =? SP then skip_spaces l' else l end.
Fixpoint word (l : list Z) : list Z :=
  match l with [] => [] | c :: l' => if c =? SP then [] else c :: word l' end.
Fixpoint after_word (l : list Z) : list Z :=
  match l with [] => [] | c :: l' => if c =? SP then l else after_word l' end.

Definition cmd_word (cmd : list Z) : list Z := word (skip_spaces cmd).
Definition cmd_args (cmd : list Z) : list Z := skip_spaces (after_word (skip_spaces cmd)).

(** A zero-initialised array that holds [l]. *)
Definition pad (n : Z) (l : list Z) : list Z :=
  l ++ replicate (Z.to_nat n - List.length l) 0.

Lemma aset_pad n w c :
  zlen w < n -> aset (pad n w) (zlen w) c = Ok (pad n (w ++ [c])).
Proof.
  intros Hw. unfold pad. rewrite aset_ok by (rewrite length_app, length_replicate; lia).
  rewrite Nat2Z.id. f_equal. rewrite length_app. cbn.
  replace (Z.to_nat n - List.length w)%nat
    with (S (Z.to_nat n - (List.length w + 1)))%nat by lia.
  cbn [replicate]. rewrite insert_app_r_alt, Nat.sub_diag by lia. cbn.
  by rewrite <-app_assoc.
Qed.

Lemma aset_pad_nul n w : zlen w < n -> aset (pad n w) (zlen w) 0 = Ok (pad n w).
Proof.
  intros Hw. rewrite aset_pad by done. f_equal. unfold pad.
  rewrite length_app, <-app_assoc. cbn. f_equal.
  replace (Z.to_nat n - List.length w)%nat
    with (S (Z.to_nat n - (List.length w + 1)))%nat by lia. done.
Qed.

Lemma scan_cmd_spaces l i f :
  exists j, i <= j /\ scan_cmd l i 0 0 f = scan_cmd (skip_spaces l) j 0 0 f /\
    drop (Z.to_nat (j - i)) l = skip_spaces l /\ j - i <= zlen l.
Proof.
  revert i. induction l as [|c l IH]; intros i.
  - exists i. cbn. rewrite drop_nil. split_and!; lia || done.
  - cbn [skip_spaces]. destruct (c =? SP) eqn:E.
    + destruct (IH (i + 1)) as (j & Hj & Hs & Hd & Hl). exists j.
      split_and!; [lia | | | cbn [List.length]; lia].
      * cbn [scan_cmd]. rewrite E. exact Hs.
      * replace (Z.to_nat (j - i)) with (S (Z.to_nat (j - (i + 1)))) by lia. exact Hd.
    + exists i. rewrite Z.sub_diag. split_and!; done || lia.
Qed.

Lemma scan_cmd_word l i w :
  zlen w + zlen (word l) < 20 ->
  scan_cmd l i 1 (zlen w) (pad 20 w) = Ok (i + zlen (word l), pad 20 (w ++ word l)) /\
  drop (List.length (word l)) l = after_word l.
Proof.
  revert i w. induction l as [|c l IH]; intros i w Hw.
  - cbn. rewrite app_nil_r, Z.add_0_r. done.
  - cbn [word after_word scan_cmd] in *. destruct (c =? SP) eqn:E.
    + cbn in Hw |- *. rewrite aset_pad_nul by lia.
      by rewrite app_nil_r, Z.add_0_r.
    + cbn [List.length negb andb] in *. change (1 =? 0) with false.
      change (1 =? 1) with true. cbn [andb].
      rewrite aset_pad by lia.
      replace (zlen w + 1) with (zlen (w ++ [c])) by (rewrite length_app; cbn; lia).
      destruct (IH (i + 1) (w ++ [c])) as [-> Hd]; [rewrite length_app; cbn; lia|].
      rewrite <-app_assoc. split; [|exact Hd]. do 2 f_equal. lia.
Qed.

Lemma scan_args_skip l g : scan_args l 0 0 g = scan_args (skip_spaces l) 0 0 g.
Proof.
  induction l as [|c l IH]; [done|]. cbn [skip_spaces].
  destruct (c =? SP) eqn:E; [|done]. cbn [scan_args]. rewrite E. exact IH.
Qed.

Lemma scan_args_copy l w :
  zlen w + zlen l <= 30 ->
  scan_args l 1 (zlen w) (pad 30 w) = Ok (pad 30 (w ++ l)).
Proof.
  revert w. induction l as [|c l IH]; intros w Hw; [by rewrite app_nil_r|].
  cbn [scan_args List.length] in *. change (1 =? 0) with false. rewrite !andb_false_r.
  change (1 =? 1) with true. rewrite aset_pad by lia.
  replace (zlen w + 1) with (zlen (w ++ [c])) by (rewrite length_app; cbn; lia).
  rewrite IH by (rewrite length_app; cbn; lia). by rewrite <-app_assoc.
Qed.

Lemma skip_spaces_head l : skip_spaces l = [] \/
  exists c l', skip_spaces l = c :: l' /\ c <> SP.
Proof.
  induction l as [|c l IH]; [by left|]. cbn.
  destruct (c =? SP) eqn:E; [done|]. right. exists c, l. split; [done | lia].
Qed.

Lemma scan_args_spec l :
  zlen (skip_spaces l) <= 30 ->
  scan_args l 0 0 (pad 30 []) = Ok (pad 30 (skip_spaces l)).
Proof.
  intros Hl. rewrite scan_args_skip.
  destruct (skip_spaces_head l) as [E|(c & l' & E & Hc)]; rewrite E in *; [done|].
  cbn [scan_args List.length] in *. rewrite (proj2 (Z.eqb_neq _ _) Hc).
  cbn [negb andb]. change (0 =? 0) with true. cbn [andb].
  rewrite (aset_pad 30 []) by (cbn; lia). cbn [app].
  apply (scan_args_copy l' [c]). cbn [List.length]. lia.
Qed.

Lemma scan_cmd_spec l :
  zlen (cmd_word l) < 20 ->
  exists i, scan_cmd l 0 0 0 (pad 20 []) = Ok (i, pad 20 (cmd_word l)) /\
    drop (Z.to_nat i) l = after_word (skip_spaces l) /\ 0 <= i.
Proof.
  unfold cmd_word. intros Hw.
  destruct (scan_cmd_spaces l 0 (pad 20 [])) as (j & Hj & Hs & Hd & _).
  rewrite Z.sub_0_r in Hd. rewrite Hs.
  destruct (skip_spaces_head l) as [E|(c & l' & E & Hc)]; rewrite E in *.
  - exists j. split_and!; [done | by rewrite Hd | lia].
  - cbn [word scan_cmd after_word] in *. rewrite (proj2 (Z.eqb_neq _ _) Hc) in *.
    cbn [negb andb]. change (0 =? 0) with true. cbn [andb].
    rewrite (aset_pad 20 []) by (cbn; lia). cbn [app].
    cbn [List.length] in Hw.
    destruct (scan_cmd_word l' (j + 1) [c]) as [Hr Hd']; [cbn; lia|].
    change (zlen [c]) with (0 + 1) in Hr. rewrite Hr.
    exists (j + 1 + zlen (word l')). split_and!; [done | | lia].
    replace (Z.to_nat (j + 1 + zlen (word l')))
      with (Z.to_nat j + S (List.length (word l')))%nat by lia.
    rewrite <-drop_drop, Hd. exact Hd'.
Qed.

(** The parser finds the command word and the arguments. *)
Lemma parse_command_spec cmd :
  zlen cmd < 128 -> zlen (cmd_word cmd) < 20 -> zlen (cmd_args cmd) <= 30 ->
  parse_command cmd = Ok (pad 20 (cmd_word cmd), pad 30 (cmd_args cmd)).
Proof.
  intros Hl Hw Ha. unfold parse_command, ARGMAXLEN.
  rewrite (proj2 (Z.leb_gt _ _)) by lia.
  destruct (scan_cmd_spec cmd Hw) as (i & Hs & Hd & _).
  change (replicate (Z.to_nat CMDLENGTH) 0) with (pad 20 []). rewrite Hs.
  change (replicate (Z.to_nat EXEBUFSIZE) 0) with (pad 30 []).
  rewrite Hd, scan_args_spec by done. done.
Qed.

(** ** The block of a new task *)

(** The string literals of syscall.c, where the linker put them. *)
Record literals (lay : layout) (m : mem) : Prop := {
  lt_stdin : cstr m (lit_stdin lay) (bytes "stdin");
  lt_stdout : cstr m (lit_stdout lay) (bytes "stdout");
  lt_shell : cstr m (lit_shell lay) (bytes "shell");
}.

(** A range of addresses of the kernel's 4 MB, below the blocks of all
    tasks. *)
Definition below_blocks (a n : Z) : Prop := 4194304 <= a /\ a + n <= pcb_at 5.

Record literals_low (lay : layout) : Prop := {
  ll_stdin : below_blocks (lit_stdin lay) 8;
  ll_stdout : below_blocks (lit_stdout lay) 8;
  ll_shell : below_blocks (lit_shell lay) 8;
}.

(** What [execute] leaves in the block: the identity of the task and of its
    parent, the stack to return to, the arguments, and two open files. *)
Record fresh_pcb (lay : layout) (m : mem) (pos ppid esp ebp : Z) (args : list Z) : Prop := {
  fp_id : load_s32 m (process_id (pcb_at pos)) = pos;
  fp_parent : load_s32 m (parent_process_id (pcb_at pos)) = ppid;
  fp_esp : load32 m (parent_esp (pcb_at pos)) = esp;
  fp_ebp : load32 m (parent_ebp (pcb_at pos)) = ebp;
  fp_running : load_s32 m (running_state (pcb_at pos)) = 1;
  fp_open : load_s32 m (open_file_num (pcb_at pos)) = 2;
  fp_args : cstr m (arg_buffer (pcb_at pos)) args;
  fp_stdin : fd_at m (pcb_at pos) 0 = Fdesc (u32 (stdin_op_table lay)) 0 0 1;
  fp_stdout : fd_at m (pcb_at pos) 1 = Fdesc (u32 (stdout_op_table lay)) 0 0 1;
  fp_closed : forall fd, 2 <= fd < 8 -> fd_at m (pcb_at pos) fd = Fdesc 0 0 0 0;
  fp_name0 : cstr m (file_name_at (pcb_at pos) 0) (bytes "stdin");
  fp_name1 : cstr m (file_name_at (pcb_at pos) 1) (bytes "stdout");
}.

Lemma strcpy_region m dest src str n :
  cstr m src str -> zlen str < n -> n < 4294967295 ->
  dest + zlen str < src \/ src + zlen str < dest ->
  exists m', strcpy m dest src = Ok m' /\ cstr m' dest str /\ same_out m m' dest n.
Proof.
  intros Hs Hn Hn' Hd.
  destruct (strcpy_spec m dest src str Hs ltac:(lia) Hd) as (m' & H1 & H2 & H3).
  exists m'. split_and!; [done..|]. intros b Hb. rewrite H3, decide_False by lia. done.
Qed.

Lemma memset_region m a c n :
  0 <= n < 4294967296 -> exists m', memset m a c n = Ok m' /\ same_out m m' a n.
Proof.
  intros Hn. destruct (memset_spec m a c n Hn) as (m' & H1 & H2).
  exists m'. split; [done|]. intros b Hb. rewrite H2, decide_False by lia. done.
Qed.

(** Who the parent is: nobody for the first shell, otherwise the task whose
    stack [execute] runs on. *)
Definition parent_of (m : mem) (fr : frame) (pos running : Z) : Z :=
  if (pos =? 0) && (running =? 0) then -1
  else load_s32 m (process_id (Z.land (u32 (f_esp fr)) PROCESSMASK)).

Ltac loads :=
  repeat first [rewrite load32_store32_eq | rewrite load32_store32_ne by lia].

Lemma pcb_identity_spec fr pos running m :
  0 <= pos < 6 ->
  let pcb := pcb_at pos in
  let t := Z.land (u32 (f_esp fr)) PROCESSMASK in
  t + 8192 <= pcb \/ pcb + 8192 <= t \/ (pos = 0 /\ running = 0) ->
  let m' := pcb_identity fr pos running m in
  load_s32 m' (process_id pcb) = pos /\
  load_s32 m' (parent_process_id pcb) = parent_of m fr pos running /\
  load32 m' (parent_esp pcb) = u32 (f_esp fr) /\
  load32 m' (parent_ebp pcb) = u32 (f_ebp fr) /\
  load_s32 m' (running_state pcb) = 1 /\
  load_s32 m' (open_file_num pcb) = 0 /\
  same_out m m' (pcb + 384) 136.
Proof.
  intros Hp pcb t Ht. cbv zeta. unfold pcb_identity, parent_of. fold pcb.
  unfold load_s32. pcb_unfold.
  assert (E1 : (s32 (load32 (store32 (store32 (store32 m (pcb + 488) pos)
    (pcb + 496) (f_esp fr)) (pcb + 500) (f_ebp fr)) (pcb + 488)) =? 0) = (pos =? 0)).
  { loads. by rewrite s32_u32, s32_small by lia. }
  rewrite E1. clear E1. destruct ((pos =? 0) && (running =? 0)) eqn:E.
  - split_and!; loads; rewrite ?s32_u32, ?s32_small by lia; try done.
    repeat (eapply so_trans; [|eapply so_widen; [apply so_store32 | lia | lia]]).
    apply so_refl.
  - replace (load32 (store32 (store32 (store32 m (pcb + 488) pos)
      (pcb + 496) (f_esp fr)) (pcb + 500) (f_ebp fr)) (pcb + 496))
      with (u32 (f_esp fr)) by (by loads).
    fold t. assert (Ht' : t + 8192 <= pcb \/ pcb + 8192 <= t) by lia.
    split_and!; loads; rewrite ?s32_u32, ?s32_small by lia; try done.
    repeat (eapply so_trans; [|eapply so_widen; [apply so_store32 | lia | lia]]).
    apply so_refl.
Qed.

(** Standard input and output: descriptors 0 and 1, their names, and two
    more open files; the rest of the block is untouched. *)
Lemma pcb_stdio_spec lay pcb m :
  pcb_at 5 <= pcb -> literals lay m -> literals_low lay ->
  exists m', pcb_stdio lay pcb m = Ok m' /\
    fd_at m' pcb 0 = Fdesc (u32 (stdin_op_table lay)) 0 0 1 /\
    fd_at m' pcb 1 = Fdesc (u32 (stdout_op_table lay)) 0 0 1 /\
    cstr m' (file_name_at pcb 0) (bytes "stdin") /\
    cstr m' (file_name_at pcb 1) (bytes "stdout") /\
    load32 m' (open_file_num pcb) = u32 (load32 m (open_file_num pcb) + 2) /\
    forall b, b < pcb \/ pcb + 32 <= b < pcb + 128 \/ pcb + 192 <= b < pcb + 384
      \/ pcb + 388 <= b -> mget m' b = mget m b.
Proof.
  intros Hb [L1 L2 _] [[? B1] [? B2] _]. unfold pcb_stdio. cbv zeta. pcb_unfold.
  set (m5 := set_fd pcb 0 (stdin_op_table lay) 0 0 1 m).
  assert (S5 : same_out m m5 (pcb + 16 * 0) 16) by apply so_set_fd.
  destruct (strcpy_region m5 (pcb + 128 + 32 * 0) (lit_stdin lay) (bytes "stdin") 32)
    as (m6 & -> & C6 & S6); [|cbn; lia..|].
  { by eapply so_cstr; [exact S5 | cbn; lia|]. }
  set (m7 := store32 m6 (pcb + 384) _).
  assert (S7 : same_out m6 m7 (pcb + 384) 4) by apply so_store32.
  set (m8 := set_fd pcb 1 (stdout_op_table lay) 0 0 1 m7).
  assert (S8 : same_out m7 m8 (pcb + 16 * 1) 16) by apply so_set_fd.
  destruct (strcpy_region m8 (pcb + 128 + 32 * 1) (lit_stdout lay) (bytes "stdout") 32)
    as (m9 & -> & C9 & S9); [|cbn; lia..|].
  { eapply so_cstr; [exact S8 | cbn; lia|]. eapply so_cstr; [exact S7 | cbn; lia|].
    eapply so_cstr; [exact S6 | cbn; lia|]. by eapply so_cstr; [exact S5 | cbn; lia|]. }
  set (m' := store32 m9 (pcb + 384) _).
  assert (S' : same_out m9 m' (pcb + 384) 4) by apply so_store32.
  exists m'. split_and!; [done | | | | | |].
  - rewrite (so_fd_at _ _ _ _ pcb 0 S'), (so_fd_at _ _ _ _ pcb 0 S9),
      (so_fd_at _ _ _ _ pcb 0 S8), (so_fd_at _ _ _ _ pcb 0 S7),
      (so_fd_at _ _ _ _ pcb 0 S6) by lia.
    unfold m5. by rewrite fd_at_set, decide_True by done.
  - rewrite (so_fd_at _ _ _ _ pcb 1 S'), (so_fd_at _ _ _ _ pcb 1 S9) by lia.
    unfold m8. by rewrite fd_at_set, decide_True by done.
  - eapply so_cstr; [exact S' | cbn; lia|]. eapply so_cstr; [exact S9 | cbn; lia|].
    eapply so_cstr; [exact S8 | cbn; lia|]. by eapply so_cstr; [exact S7 | cbn; lia|].
  - by eapply so_cstr; [exact S' | cbn; lia|].
  - unfold m'. rewrite load32_store32_eq, (so_load32 _ _ _ _ _ S9),
      (so_load32 _ _ _ _ _ S8) by lia.
    unfold m7. rewrite load32_store32_eq, (so_load32 _ _ _ _ _ S6),
      (so_load32 _ _ _ _ _ S5) by lia. unfold u32. lia_mod.
  - intros b Hx. by rewrite S', S9, S8, S7, S6, S5 by lia.
Qed.

Lemma pcb_files_spec lay fr pcb m args :
  pcb_at 5 <= pcb -> literals lay m -> literals_low lay ->
  cstr m (f_getargbuf fr) args -> zlen args < 30 ->
  f_getargbuf fr + 30 <= pcb \/ pcb + 520 <= f_getargbuf fr ->
  load_s32 m (open_file_num pcb) = 0 ->
  exists m', pcb_files lay fr pcb m = Ok m' /\
    fd_at m' pcb 0 = Fdesc (u32 (stdin_op_table lay)) 0 0 1 /\
    fd_at m' pcb 1 = Fdesc (u32 (stdout_op_table lay)) 0 0 1 /\
    (forall fd, 2 <= fd < 8 -> fd_at m' pcb fd = Fdesc 0 0 0 0) /\
    cstr m' (file_name_at pcb 0) (bytes "stdin") /\
    cstr m' (file_name_at pcb 1) (bytes "stdout") /\
    cstr m' (arg_buffer pcb) args /\
    load_s32 m' (open_file_num pcb) = 2 /\ same_out m m' pcb 488.
Proof.
  intros Hb HL HB Hargs Hal Hdis Hopen. unfold pcb_files. cbv zeta.
  destruct (clear_fds pcb m) as [F2 S2]. set (m2 := forz _ _ _ m) in *. clearbody m2.
  unfold arg_buffer.
  destruct (memset_region m2 (pcb + 388) 0 100) as (m3 & -> & S3); [lia|].
  destruct (strcpy_region m3 (pcb + 388) (f_getargbuf fr) args 100)
    as (m4 & -> & C4 & S4); [|lia..|].
  { eapply so_cstr; [exact S3 | lia|]. by eapply so_cstr; [exact S2 | lia|]. }
  assert (HL4 : literals lay m4).
  { destruct HL as [L1 L2 L3], HB as [[? B1] [? B2] [? B3]].
    constructor; (eapply so_cstr; [exact S4 | cbn; lia|]);
      (eapply so_cstr; [exact S3 | cbn; lia|]);
      (by eapply so_cstr; [exact S2 | cbn; lia|]). }
  destruct (pcb_stdio_spec lay pcb m4 Hb HL4 HB) as (m' & -> & H0 & H1 & H2 & H3 & H4 & H5).
  exists m'. split_and!; try done.
  - intros fd Hfd. rewrite <-(F2 fd) by lia.
    rewrite (fd_at_ext m' m4) by (intros; apply H5; lia).
    by rewrite (so_fd_at _ _ _ _ pcb fd S4), (so_fd_at _ _ _ _ pcb fd S3) by lia.
  - eapply cstr_ext; [|exact C4]. intros b Hx. symmetry. apply H5. lia.
  - unfold load_s32 in *. rewrite H4. unfold open_file_num in *.
    rewrite (so_load32 _ _ _ _ _ S4), (so_load32 _ _ _ _ _ S3), (so_load32 _ _ _ _ _ S2) by lia.
    unfold s32, u32 in *. lia_mod.
  - intros b Hx. by rewrite H5, S4, S3, S2 by lia.
Qed.

Lemma fill_pcb_spec lay fr pos running m args :
  0 <= pos < 6 ->
  let pcb := pcb_at pos in
  let t := Z.land (u32 (f_esp fr)) PROCESSMASK in
  t + 8192 <= pcb \/ pcb + 8192 <= t \/ (pos = 0 /\ running = 0) ->
  literals lay m -> literals_low lay ->
  cstr m (f_getargbuf fr) args -> zlen args < 30 ->
  f_getargbuf fr + 30 <= pcb \/ pcb + 520 <= f_getargbuf fr ->
  exists m', fill_pcb lay fr pos running m = Ok m' /\
    fresh_pcb lay m' pos (parent_of m fr pos running) (u32 (f_esp fr)) (u32 (f_ebp fr)) args /\
    same_out m m' pcb 520.
Proof.
  intros Hp pcb t Ht HL HB Hargs Hal Hdis.
  destruct (pcb_identity_spec fr pos running m Hp Ht) as (I1 & I2 & I3 & I4 & I5 & I6 & S1).
  assert (Hb : pcb_at 5 <= pcb) by (unfold pcb, pcb_at, EIGHTMB, EIGHTKB; lia).
  unfold fill_pcb. fold pcb in I1, I2, I3, I4, I5, I6, S1. fold pcb.
  generalize dependent (pcb_identity fr pos running m). intros m1 I1 I2 I3 I4 I5 I6 S1.
  destruct (pcb_files_spec lay fr pcb m1 args) as (m' & -> & F0 & F1 & F2 & N0 & N1 & A & O & S2);
    try done.
  { destruct HL as [L1 L2 L3], HB as [[? B1] [? B2] [? B3]].
    constructor; (eapply so_cstr; [exact S1 | cbn; lia|]; assumption). }
  { by eapply so_cstr; [exact S1 | lia|]. }
  exists m'. split; [done|]. split.
  - constructor; fold pcb; try assumption; unfold load_s32; pcb_unfold;
      rewrite (so_load32 _ _ _ _ _ S2) by lia; assumption.
  - intros b Hx. by rewrite S2, S1 by lia.
Qed.

(** ** Where things are *)

Definition apart (a n b l : Z) : Prop := a + n <= b \/ b + l <= a.

(** The locals of [execute] and [halt] lie on the kernel stack of slot [sp],
    above its block, and do not overlap. *)
Record frame_ok (fr : frame) (sp : Z) : Prop := {
  fo_slot : 0 <= sp < 6;
  fo_cmd : pcb_at sp + 520 <= f_first_cmd fr /\ f_first_cmd fr + 20 <= pcb_at sp + 8192;
  fo_arg : pcb_at sp + 520 <= f_getargbuf fr /\ f_getargbuf fr + 30 <= pcb_at sp + 8192;
  fo_dentry : pcb_at sp + 520 <= f_dentry fr /\ f_dentry fr + 64 <= pcb_at sp + 8192;
  fo_buf : pcb_at sp + 520 <= f_buffer fr /\ f_buffer fr + 30 <= pcb_at sp + 8192;
  fo_esp : pcb_at sp <= f_esp fr < pcb_at sp + 8192;
  fo_ebp : 0 <= f_ebp fr < 4294967296;
  fo_cmd_arg : apart (f_first_cmd fr) 20 (f_getargbuf fr) 30;
  fo_cmd_dentry : apart (f_first_cmd fr) 20 (f_dentry fr) 64;
  fo_arg_dentry : apart (f_getargbuf fr) 30 (f_dentry fr) 64;
  fo_arg_buf : apart (f_getargbuf fr) 30 (f_buffer fr) 30;
  fo_dentry_buf : apart (f_dentry fr) 64 (f_buffer fr) 30;
}.

(** The file system image lies in the kernel's 4 MB, below the blocks, with
    the directory [dir]; the literals are below the blocks too. *)
Record world (lay : layout) (fs : fsvars) (m : mem) (start NI NB : Z) (dir : list entry) : Prop := {
  w_img : fs_image fs m start NI NB;
  w_counts : 0 <= NI /\ 0 <= NB;
  w_place : 4194304 <= start /\ image_end start NI NB <= pcb_at 5;
  w_dir : dir_at m fs dir;
  w_lit : literals lay m;
  w_low : literals_low lay;
}.

(** The memory of the kernel's page below the blocks, where its code, its
    variables and the file system image are. *)
Definition kernel_same (m m' : mem) : Prop :=
  forall b, 4194304 <= b < pcb_at 5 -> mget m' b = mget m b.

(** Memory has changed at most on the stack of slot [sp]. *)
Definition stack_only (m m' : mem) (sp : Z) : Prop :=
  same_out m m' (pcb_at sp + 520) 7672.

Lemma pcb_at_low sp :
  0 <= sp < 6 -> pcb_at 5 = 8339456 /\ 8339456 <= pcb_at sp /\ pcb_at sp + 8192 <= 8388608.
Proof. intros. unfold pcb_at, EIGHTMB, EIGHTKB. lia. Qed.

(** A change above the image and the literals keeps the world. *)
Lemma world_same lay fs m m' start NI NB dir :
  world lay fs m start NI NB dir ->
  (forall b, 4194304 <= b < pcb_at 5 -> mget m' b = mget m b) ->
  world lay fs m' start NI NB dir.
Proof.
  intros [H1 [Hi Hb] [H2 H3] H4 [L1 L2 L3] [[? B1] [? B2] [? B3]]] Hs.
  assert (Hsame : forall b, start <= b < image_end start NI NB -> mget m' b = mget m b)
    by (intros; apply Hs; lia).
  constructor; try done.
  - by eapply image_same.
  - by eapply dir_same.
  - constructor; (eapply cstr_ext; [|eassumption]); intros b Hx; symmetry;
      apply Hs; cbn in Hx; lia.
Qed.

Lemma world_high lay fs m m' start NI NB dir :
  world lay fs m start NI NB dir ->
  (forall b, b < pcb_at 5 -> mget m' b = mget m b) ->
  world lay fs m' start NI NB dir.
Proof. intros Hw Hs. eapply world_same; [exact Hw|]. intros; apply Hs; lia. Qed.

Lemma file_kernel lay fs m m' start NI NB dir ino :
  world lay fs m start NI NB dir -> file_ok m fs NI NB ino ->
  (forall b, 4194304 <= b < pcb_at 5 -> mget m' b = mget m b) ->
  file_ok m' fs NI NB ino /\ file_len m' fs ino = file_len m fs ino /\
  file_content m' fs ino = file_content m fs ino.
Proof.
  intros [H1 [Hi Hb] [H2 H3] _ _ _] Hf Hs. eapply file_same; try done.
  intros; apply Hs; lia.
Qed.

Lemma world_file lay fs m m' start NI NB dir ino :
  world lay fs m start NI NB dir -> file_ok m fs NI NB ino ->
  (forall b, b < pcb_at 5 -> mget m' b = mget m b) ->
  file_ok m' fs NI NB ino /\ file_len m' fs ino = file_len m fs ino /\
  file_content m' fs ino = file_content m fs ino.
Proof.
  intros Hw Hf Hs. eapply file_kernel; try done. intros; apply Hs; lia.
Qed.

Lemma stack_low m m' sp b :
  0 <= sp < 6 -> stack_only m m' sp -> b < pcb_at 5 -> mget m' b = mget m b.
Proof. intros Hsp H Hb. pose proof (pcb_at_low sp Hsp). apply H. lia. Qed.

Lemma stack_trans m1 m2 m3 sp :
  stack_only m1 m2 sp -> stack_only m2 m3 sp -> stack_only m1 m3 sp.
Proof. apply so_trans. Qed.

(** ** Looking up the command *)

Lemma so_mset_bytes m a l n : zlen l <= n -> same_out m (mset_bytes m a l) a n.
Proof. intros Hl b Hb. rewrite mget_mset_bytes, decide_False by lia. done. Qed.

(** An array that holds a shorter string holds it as a C string. *)
Lemma cstr_pad m a n w :
  zlen w < n -> Forall (fun c => 0 < c < 256) w ->
  cstr (mset_bytes m a (pad n w)) a w.
Proof.
  intros Hw HF. rewrite Forall_forall in HF.
  assert (Hl : zlen (pad n w) = n)
    by (unfold pad; rewrite length_app, length_replicate; lia).
  split.
  - intros i Hi. rewrite mget_mset_bytes, decide_True by lia.
    replace (a + i - a) with i by lia. unfold pad.
    rewrite anth_app, decide_True by lia.
    assert (Hc : 0 < anth 0 w i < 256).
    { apply HF. unfold anth. apply list_elem_of_In, nth_In. lia. }
    rewrite u8_small by lia. split; [done | lia].
  - rewrite mget_mset_bytes, decide_True by lia.
    replace (a + zlen w - a) with (zlen w) by lia. unfold pad.
    rewrite anth_app, decide_False, Z.sub_diag, anth_replicate by lia. done.
Qed.

(** The characters of a C string are bytes, and so are those of its parts. *)
Lemma cstr_bytes m a s : cstr m a s -> Forall (fun c => 0 < c < 256) s.
Proof.
  intros [H _]. apply Forall_forall. intros c Hc.
  apply list_elem_of_In, (In_nth _ _ 0) in Hc as (n & Hn & <-).
  destruct (H (Z.of_nat n) ltac:(lia)) as [E Hnz]. unfold anth in *.
  rewrite Nat2Z.id in *. pose proof (mget_range m (a + Z.of_nat n)). lia.
Qed.

Lemma skip_spaces_sub P l : Forall P l -> Forall P (skip_spaces l).
Proof. induction 1; cbn; [done|]. case_match; [done|]. by constructor. Qed.
Lemma word_sub P l : Forall P l -> Forall P (word l).
Proof. induction 1; cbn; [done|]. case_match; [done|]. by constructor. Qed.
Lemma after_word_sub P l : Forall P l -> Forall P (after_word l).
Proof. induction 1; cbn; [done|]. case_match; [|done]. by constructor. Qed.

(** A command line the arrays of [execute] can hold. *)
Record command_ok (m : mem) (command : Z) (cmd : list Z) : Prop := {
  co_str : cstr m command cmd;
  co_len : zlen cmd < 128;
  co_word : 0 < zlen (cmd_word cmd) < 20;
  co_args : zlen (cmd_args cmd) < 30;
}.

(** The two arrays in memory after the parser. *)
Definition parsed_mem (fr : frame) (cmd : list Z) (m : mem) : mem :=
  mset_bytes (mset_bytes m (f_first_cmd fr) (pad 20 (cmd_word cmd)))
    (f_getargbuf fr) (pad 30 (cmd_args cmd)).

Lemma length_pad n w : zlen w <= n -> zlen (pad n w) = n.
Proof. intros. unfold pad. rewrite length_app, length_replicate. lia. Qed.

Lemma parsed_mem_spec fr sp cmd m command :
  frame_ok fr sp -> command_ok m command cmd ->
  let m1 := parsed_mem fr cmd m in
  cstr m1 (f_first_cmd fr) (cmd_word cmd) /\
  cstr m1 (f_getargbuf fr) (cmd_args cmd) /\ stack_only m m1 sp.
Proof.
  intros Hfr [Hs Hl [Hw0 Hw] Ha]. cbv zeta. unfold parsed_mem.
  pose proof (cstr_bytes _ _ _ Hs) as HB.
  destruct Hfr as [? [C1 C2] [A1 A2] _ _ _ _ Hca _ _ _ _]. unfold apart in Hca.
  assert (H1 : zlen (pad 20 (cmd_word cmd)) = 20) by (apply length_pad; lia).
  assert (H2 : zlen (pad 30 (cmd_args cmd)) = 30) by (apply length_pad; lia).
  split_and!.
  - eapply so_cstr; [apply (so_mset_bytes _ _ _ 30); lia | lia|].
    apply cstr_pad; [done|]. by apply word_sub, skip_spaces_sub.
  - apply cstr_pad; [done|]. by apply skip_spaces_sub, after_word_sub, skip_spaces_sub.
  - intros b Hb. rewrite (so_mset_bytes _ _ _ 30) by lia.
    by rewrite (so_mset_bytes _ _ _ 20) by lia.
Qed.

(** What [execute] needs of the file it found. *)
Definition elf_magic : list Z := [127; 69; 76; 70].
Definition elf_entry (content : list Z) : Z :=
  anth 0 content 24 + 256 * anth 0 content 25 + 65536 * anth 0 content 26
  + 16777216 * anth 0 content 27.

Lemma magic_ok_spec m a l :
  mbytes m a (List.length l) = l -> 4 <= zlen l ->
  magic_ok m a = bool_decide (take 4 l = elf_magic).
Proof.
  intros Hm Hl.
  assert (Hg : forall i, 0 <= i < 4 -> mget m (a + i) = anth 0 l i)
    by (intros i Hi; rewrite <-Hm, anth_mbytes; [done | lia]).
  unfold magic_ok. rewrite <-(Z.add_0_r a) at 1. rewrite !Hg by lia.
  destruct l as [|c0 [|c1 [|c2 [|c3 l]]]]; cbn in Hl; try lia.
  set (L := c0 :: c1 :: c2 :: c3 :: l).
  change (anth 0 L 0) with c0. change (anth 0 L 1) with c1.
  change (anth 0 L 2) with c2. change (anth 0 L 3) with c3.
  change (take 4 L) with [c0; c1; c2; c3]. unfold elf_magic. clear.
  destruct (Z.eqb_spec c0 127), (Z.eqb_spec c1 69), (Z.eqb_spec c2 76),
    (Z.eqb_spec c3 70); subst; cbn [andb]; symmetry;
    (apply bool_decide_eq_true_2; done) || (apply bool_decide_eq_false_2; congruence).
Qed.

Lemma entry_point_spec m a l :
  mbytes m a (List.length l) = l -> 28 <= zlen l ->
  entry_point m a = elf_entry l.
Proof.
  intros Hm Hl.
  assert (Hg : forall i, 0 <= i < 28 -> mget m (a + i) = anth 0 l i)
    by (intros i Hi; rewrite <-Hm, anth_mbytes; [done | lia]).
  unfold entry_point, elf_entry. rewrite !Hg by lia.
  assert (Hr : forall i, 0 <= i < 28 -> 0 <= anth 0 l i < 256)
    by (intros i Hi; rewrite <-Hg by lia; apply mget_range).
  pose proof (Hr 24 ltac:(lia)). pose proof (Hr 25 ltac:(lia)).
  pose proof (Hr 26 ltac:(lia)). pose proof (Hr 27 ltac:(lia)).
  generalize dependent (anth 0 l 24). generalize dependent (anth 0 l 25).
  generalize dependent (anth 0 l 26). generalize dependent (anth 0 l 27).
  intros b3 H3 b2 H2 b1 H1 b0 H0. clear - H0 H1 H2 H3.
  rewrite !Z.shiftl_mul_pow2 by lia.
  replace (b2 * 2 ^ 16) with (b2 * 2 ^ 16) by done.
  rewrite (lor_fields b3 24 (b2 * 2 ^ 16)) by lia.
  replace (b3 * 2 ^ 24 + b2 * 2 ^ 16) with ((b3 * 2 ^ 8 + b2) * 2 ^ 16) by lia.
  rewrite (lor_fields _ 16 (b1 * 2 ^ 8)) by lia.
  replace ((b3 * 2 ^ 8 + b2) * 2 ^ 16 + b1 * 2 ^ 8)
    with (((b3 * 2 ^ 8 + b2) * 2 ^ 8 + b1) * 2 ^ 8) by lia.
  rewrite lor_fields by lia. lia.
Qed.

Lemma set_kmem_twice m1 m2 k : set_kmem m2 (set_kmem m1 k) = set_kmem m2 k.
Proof. done. Qed.
Lemma kmem_set m k : kmem (set_kmem m k) = m.
Proof. done. Qed.

Lemma exec_parse_spec fr command cmd k :
  command_ok (kmem k) command cmd ->
  exec_parse fr command k = Ok (tt, set_kmem (parsed_mem fr cmd (kmem k)) k).
Proof.
  intros [Hs Hl [Hw0 Hw] Ha]. unfold exec_parse.
  erewrite bind_ok by reflexivity. rewrite (strlen_spec _ _ _ Hs) by lia.
  erewrite bind_ok by reflexivity.
  replace (mbytes (kmem k) command (Z.to_nat (zlen cmd))) with cmd.
  2:{ apply (anth_eq 0); [rewrite length_mbytes; lia|]. intros i Hi.
      rewrite anth_mbytes by lia. symmetry. by apply cstr_char. }
  rewrite parse_command_spec by lia. reflexivity.
Qed.

(** The directory search of [exec_find]: the conditions of
    [read_dentry_by_name_spec]. *)
Lemma exec_dentry lay fr sp k start NI NB dir w :
  world lay (k_fs k) (kmem k) start NI NB dir -> frame_ok fr sp ->
  cstr (kmem k) (f_first_cmd fr) w -> 0 < zlen w < 20 ->
  match abs_lookup dir w with
  | None => read_dentry_by_name (k_fs k) (kmem k) (f_first_cmd fr) (f_dentry fr)
            = Ok (-1, k_fs k, kmem k)
  | Some i => exists m' e,
      dir !! Z.to_nat i = Some e /\ 0 <= i < 63 /\
      read_dentry_by_name (k_fs k) (kmem k) (f_first_cmd fr) (f_dentry fr)
        = Ok (0, set_file_pos_keeper i (k_fs k), m') /\
      entry_at m' (f_dentry fr) e /\ same_out (kmem k) m' (f_dentry fr) 64
  end.
Proof.
  intros Hw Hfr C1 Hwl. destruct (fo_slot _ _ Hfr).
  pose proof (pcb_at_low sp ltac:(lia)). destruct (fo_cmd _ _ Hfr), (fo_dentry _ _ Hfr).
  destruct (w_place _ _ _ _ _ _ _ Hw).
  pose proof (fi_dentries _ _ _ _ _ (w_img _ _ _ _ _ _ _ Hw)).
  pose proof (w_counts _ _ _ _ _ _ _ Hw). unfold image_end in *.
  apply (read_dentry_by_name_spec (kmem k) (k_fs k) dir (w_dir _ _ _ _ _ _ _ Hw)
    (f_first_cmd fr) w C1); lia.
Qed.

Lemma exec_find_missing lay fr sp k start NI NB dir w :
  world lay (k_fs k) (kmem k) start NI NB dir -> frame_ok fr sp ->
  cstr (kmem k) (f_first_cmd fr) w -> 0 < zlen w < 20 ->
  abs_lookup dir w = None ->
  exec_find fr k = Ok (None, k).
Proof.
  intros Hw Hfr C1 Hwl Hlk. pose proof (exec_dentry lay fr sp k _ _ _ _ w Hw Hfr C1 Hwl) as Hr.
  rewrite Hlk in Hr. unfold exec_find.
  do 2 bstep. rewrite Hr.
  do 3 bstep. destruct k as [t]. by destruct t.
Qed.

(** What [execute] and [halt] both do with a file they found: look it up and
    read its first 30 bytes, or all it has. *)
Lemma header_reads lay fr sp fs m start NI NB dir fname w i e :
  world lay fs m start NI NB dir -> frame_ok fr sp ->
  cstr m fname w -> 0 < zlen w < 20 -> fname <> 0 ->
  abs_lookup dir w = Some i -> dir !! Z.to_nat i = Some e ->
  file_ok m fs NI NB (e_inode e) ->
  let head := take 30 (file_content m fs (e_inode e)) in
  let fs' := set_file_pos_keeper i fs in
  exists m1 m2, read_dentry_by_name fs m fname (f_dentry fr) = Ok (0, fs', m1) /\
    load32 m1 (f_dentry fr + 36) = e_inode e /\
    read_data fs' m1 (e_inode e) 0 (f_buffer fr) EXEBUFSIZE = Ok (zlen head, m2) /\
    load32 m2 (f_dentry fr + 36) = e_inode e /\
    mbytes m2 (f_buffer fr) (List.length head) = head /\
    (forall b, (b < f_dentry fr \/ f_dentry fr + 64 <= b) ->
       (b < f_buffer fr \/ f_buffer fr + zlen head <= b) -> mget m2 b = mget m b).
Proof.
  intros Hw Hfr C1 Hwl Hf0 Hlk He Hok head fs'.
  pose proof (pcb_at_low sp (fo_slot _ _ Hfr)).
  destruct (fo_dentry _ _ Hfr), (fo_buf _ _ Hfr), (w_place _ _ _ _ _ _ _ Hw),
    (w_counts _ _ _ _ _ _ _ Hw).
  pose proof (fo_dentry_buf _ _ Hfr) as Hdb. unfold apart in Hdb.
  pose proof (fi_dentries _ _ _ _ _ (w_img _ _ _ _ _ _ _ Hw)). unfold image_end in *.
  pose proof (read_dentry_by_name_spec m fs dir (w_dir _ _ _ _ _ _ _ Hw) fname w C1
    ltac:(lia) (f_dentry fr) Hf0 ltac:(lia) ltac:(lia)) as Hr.
  rewrite Hlk in Hr. destruct Hr as (m1 & e' & He' & Hi & Hr & Hat & S1).
  assert (e' = e) as -> by congruence. destruct Hat as (_ & _ & Hino & _).
  assert (Hlow : forall b, b < pcb_at 5 -> mget m1 b = mget m b) by (intros; apply S1; lia).
  destruct (world_file _ _ _ _ _ _ _ _ _ Hw Hok Hlow) as (Hok1 & Hl1 & Hc1).
  pose proof (image_keeper _ _ _ _ _ i (w_img _ _ _ _ _ _ _ (world_high _ _ _ _ _ _ _ _ Hw Hlow))) as Himg.
  destruct (read_data_content fs' m1 start NI NB (e_inode e) 0 (f_buffer fr) 30 Himg)
    as (m2 & Hrd & Hb2 & S2).
  { destruct Hok1. by constructor. }
  { pose proof (load32_range m1 (fs_inodes fs + e_inode e * 4096)). unfold file_len. cbn. lia. }
  { lia. } { lia. } { unfold off_image, image_end. right. lia. }
  change (file_content m1 fs' (e_inode e)) with (file_content m1 fs (e_inode e)) in *.
  rewrite Hc1 in *. rewrite drop_0 in *. change (Z.to_nat 30) with 30%nat in *.
  fold head in Hrd, Hb2, S2.
  assert (Hl30 : zlen head <= 30) by (unfold head; rewrite length_take; lia).
  exists m1, m2. split_and!; try done.
  - rewrite (load32_ext m2 m1) by (intros; apply S2; lia). done.
  - intros b Hb Hb'. by rewrite S2, S1 by lia.
Qed.

(** A file that fills the buffer. *)
Lemma header_read lay fr sp fs m start NI NB dir fname w i e :
  world lay fs m start NI NB dir -> frame_ok fr sp ->
  cstr m fname w -> 0 < zlen w < 20 -> fname <> 0 ->
  abs_lookup dir w = Some i -> dir !! Z.to_nat i = Some e ->
  file_ok m fs NI NB (e_inode e) -> 30 <= file_len m fs (e_inode e) ->
  let content := file_content m fs (e_inode e) in
  let fs' := set_file_pos_keeper i fs in
  exists m1 m2, read_dentry_by_name fs m fname (f_dentry fr) = Ok (0, fs', m1) /\
    load32 m1 (f_dentry fr + 36) = e_inode e /\
    read_data fs' m1 (e_inode e) 0 (f_buffer fr) EXEBUFSIZE = Ok (30, m2) /\
    load32 m2 (f_dentry fr + 36) = e_inode e /\
    mbytes m2 (f_buffer fr) 30 = take 30 content /\
    (forall b, (b < f_dentry fr \/ f_dentry fr + 64 <= b) ->
       (b < f_buffer fr \/ f_buffer fr + 30 <= b) -> mget m2 b = mget m b).
Proof.
  intros Hw Hfr C1 Hwl Hf0 Hlk He Hok Hlen content fs'.
  destruct (header_reads lay fr sp fs m start NI NB dir fname w i e) as (m1 & m2 & H); try done.
  assert (Hl30 : List.length (take 30 content) = 30%nat).
  { pose proof (length_file_content m fs (e_inode e)). unfold content. rewrite length_take. lia. }
  exists m1, m2. fold content in H. by rewrite Hl30 in H.
Qed.

(** [exec_find] on a file of the directory: it reads the first 30 bytes and
    accepts the file if they start with the magic number. *)
Lemma exec_find_found lay fr sp k start NI NB dir w i e :
  world lay (k_fs k) (kmem k) start NI NB dir -> frame_ok fr sp ->
  cstr (kmem k) (f_first_cmd fr) w -> 0 < zlen w < 20 ->
  abs_lookup dir w = Some i -> dir !! Z.to_nat i = Some e ->
  file_ok (kmem k) (k_fs k) NI NB (e_inode e) ->
  30 <= file_len (kmem k) (k_fs k) (e_inode e) ->
  let content := file_content (kmem k) (k_fs k) (e_inode e) in
  exists m', exec_find fr k =
      Ok (if bool_decide (take 4 content = elf_magic) then Some tt else None,
          set_kmem m' (set_k_fs (set_file_pos_keeper i (k_fs k)) k)) /\
    load32 m' (f_dentry fr + 36) = e_inode e /\
    mbytes m' (f_buffer fr) 30 = take 30 content /\
    (forall b, (b < f_dentry fr \/ f_dentry fr + 64 <= b) ->
       (b < f_buffer fr \/ f_buffer fr + 30 <= b) -> mget m' b = mget (kmem k) b).
Proof.
  intros Hw Hfr C1 Hwl Hlk He Hok Hlen content.
  assert (Hf0 : f_first_cmd fr <> 0).
  { pose proof (pcb_at_low sp (fo_slot _ _ Hfr)). destruct (fo_cmd _ _ Hfr). lia. }
  destruct (header_read lay fr sp (k_fs k) (kmem k) start NI NB dir (f_first_cmd fr) w i e)
    as (m1 & m2 & Hr & Hino & Hrd & Hino2 & Hb2 & S2); try done.
  fold content in Hb2.
  assert (Hcl : zlen content = file_len (kmem k) (k_fs k) (e_inode e))
    by apply length_file_content.
  assert (Hl30 : List.length (take 30 content) = 30%nat) by (rewrite length_take; lia).
  exists m2. split; [|done]. unfold exec_find. do 2 bstep. rewrite Hr. do 3 bstep.
  change (0 =? -1) with false. cbv iota. rewrite Hino.
  erewrite bind_ok by (rewrite Hrd; reflexivity). cbv beta iota. bstep.
  cbn [Z.eqb Pos.eqb orb].
  rewrite (magic_ok_spec m2 (f_buffer fr) (take 30 content)) by (rewrite ?Hl30; done).
  rewrite take_take. by destruct (bool_decide _).
Qed.

(** The four bytes [execute] compares with the magic number: of a file that
    is shorter the buffer has only the first ones, and [stale] is what it
    held before. *)
Definition file_header (content stale : list Z) : list Z :=
  take 4 (content ++ drop (List.length content) stale).

Lemma file_header_long content stale : 4 <= zlen content -> file_header content stale = take 4 content.
Proof. intros. unfold file_header. by rewrite take_app_le by lia. Qed.

(** The first four bytes of the buffer after the read. *)
Lemma header_bytes m m' a content :
  mbytes m' a (List.length (take 30 content)) = take 30 content ->
  (forall j, zlen (take 30 content) <= j < 30 -> mget m' (a + j) = mget m (a + j)) ->
  take 4 (mbytes m' a 4) = file_header content (mbytes m a 4).
Proof.
  intros Hb Hs. unfold file_header.
  assert (Hl : List.length (mbytes m a 4) = 4%nat) by apply length_mbytes.
  apply (anth_eq 0); rewrite !length_take, length_mbytes.
  - rewrite length_app, length_drop, Hl. lia.
  - intros j Hj. change 4%nat with (Z.to_nat 4). rewrite !anth_take, anth_mbytes by lia.
    rewrite length_take in Hs. rewrite anth_app by lia. case_decide as Hc.
    + rewrite <- (anth_take content 30 j) by lia. change (Z.to_nat 30) with 30%nat.
      rewrite <- Hb, anth_mbytes; [done|]. rewrite length_take. lia.
    + rewrite Hs by lia. rewrite <- (anth_mbytes m a (Z.to_nat 4)) by lia.
      unfold anth. rewrite !nth_lookup, lookup_drop. do 3 f_equal. lia.
Qed.

(** [exec_find] on a file of any length. *)
Lemma exec_find_any lay fr sp k start NI NB dir w i e :
  world lay (k_fs k) (kmem k) start NI NB dir -> frame_ok fr sp ->
  cstr (kmem k) (f_first_cmd fr) w -> 0 < zlen w < 20 ->
  abs_lookup dir w = Some i -> dir !! Z.to_nat i = Some e ->
  file_ok (kmem k) (k_fs k) NI NB (e_inode e) ->
  let content := file_content (kmem k) (k_fs k) (e_inode e) in
  exists m', exec_find fr k =
      Ok (if bool_decide (content <> [] /\
            file_header content (mbytes (kmem k) (f_buffer fr) 4) = elf_magic)
          then Some tt else None,
          set_kmem m' (set_k_fs (set_file_pos_keeper i (k_fs k)) k)) /\
    (forall b, (b < f_dentry fr \/ f_dentry fr + 64 <= b) ->
       (b < f_buffer fr \/ f_buffer fr + 30 <= b) -> mget m' b = mget (kmem k) b).
Proof.
  intros Hw Hfr C1 Hwl Hlk He Hok content.
  assert (Hf0 : f_first_cmd fr <> 0).
  { pose proof (pcb_at_low sp (fo_slot _ _ Hfr)). destruct (fo_cmd _ _ Hfr). lia. }
  destruct (header_reads lay fr sp (k_fs k) (kmem k) start NI NB dir (f_first_cmd fr) w i e)
    as (m1 & m2 & Hr & Hino & Hrd & _ & Hb2 & S2); try done.
  fold content in Hrd, Hb2, S2. set (head := take 30 content) in *.
  assert (Hh : zlen head = Z.min 30 (zlen content)) by (unfold head; rewrite length_take; lia).
  pose proof (fo_dentry_buf _ _ Hfr) as Hdb. unfold apart in Hdb.
  exists m2. split; [|intros b Hb Hb'; apply S2; lia].
  unfold exec_find. do 2 bstep. rewrite Hr. do 3 bstep.
  change (0 =? -1) with false. cbv iota. rewrite Hino.
  erewrite bind_ok by (rewrite Hrd; reflexivity). cbv beta iota. bstep.
  rewrite (proj2 (Z.eqb_neq (zlen head) (-1))) by lia. cbn [orb].
  destruct (Z.eqb_spec (zlen head) 0) as [Hz|Hz].
  { assert (content = []) as -> by (destruct content; cbn in *; [done | lia]).
    by rewrite bool_decide_eq_false_2 by tauto. }
  rewrite (magic_ok_spec m2 (f_buffer fr) (mbytes m2 (f_buffer fr) 4))
    by (rewrite length_mbytes; done).
  assert (Hm : take 4 (mbytes m2 (f_buffer fr) 4) =
    file_header content (mbytes (kmem k) (f_buffer fr) 4)).
  { apply (header_bytes (kmem k) m2 (f_buffer fr) content); fold head; [exact Hb2|].
    intros j Hj. apply S2; lia. }
  rewrite Hm. assert (content <> []) by (intros E; rewrite E in Hh; cbn in Hh; lia).
  destruct (decide (file_header content (mbytes (kmem k) (f_buffer fr) 4) = elf_magic)).
  - by rewrite !bool_decide_eq_true_2.
  - by rewrite !bool_decide_eq_false_2 by tauto.
Qed.

(** ** Finding a slot *)

(** [pos] is the first free slot. *)
Definition first_free (bitmap : list Z) (pos : Z) : Prop :=
  0 <= pos < 6 /\ anth 0 bitmap pos = 0 /\
  forall i, 0 <= i < pos -> anth 0 bitmap i <> 0.

Lemma find_slot_from n i running bitmap pos0 pos :
  first_free bitmap pos -> 0 <= i <= pos -> i + Z.of_nat n = 6 ->
  find_slot n i running bitmap pos0 = Some (<[Z.to_nat pos := 1]> bitmap, pos).
Proof.
  intros (Hp & Hz & Hnz). revert i. induction n as [|n IH]; intros i Hi Hn; [lia|].
  cbn [find_slot]. destruct (decide (i = pos)) as [->|].
  - by rewrite Hz.
  - rewrite (proj2 (Z.eqb_neq _ _)) by (apply Hnz; lia).
    unfold MAXNUMTASK. rewrite (proj2 (Z.eqb_neq i (6 - 1))) by lia. cbn [andb].
    apply IH; lia.
Qed.

Lemma find_slot_free running bitmap pos0 pos :
  first_free bitmap pos ->
  find_slot (Z.to_nat MAXNUMTASK) 0 running bitmap pos0 = Some (<[Z.to_nat pos := 1]> bitmap, pos).
Proof.
  intros H. pose proof (proj1 H). apply find_slot_from; [done | lia | done].
Qed.

Lemma find_slot_full bitmap pos0 :
  (forall i, 0 <= i < 6 -> anth 0 bitmap i <> 0) ->
  find_slot (Z.to_nat MAXNUMTASK) 0 6 bitmap pos0 = None.
Proof.
  intros H. change (Z.to_nat MAXNUMTASK) with 6%nat. cbn [find_slot].
  repeat (rewrite (proj2 (Z.eqb_neq (anth 0 bitmap _) 0)) by (apply H; lia)). done.
Qed.

(** ** Loading *)

(** Where the image of the task in slot [pos] starts. *)
Definition load_at (pos : Z) : Z := 8388608 + 4194304 * pos + 294912.

(** The kernel after a successful [execute]: the slot, the page, the image,
    the block and the stack of the new task. *)
Record started (lay : layout) (fr : frame) (sp pos : Z) (content args : list Z)
  (k k' : kernel) : Prop := {
  st_bitmap : task_bitmap k' = <[Z.to_nat pos := 1]> (task_bitmap k);
  st_pos : curr_task_pos k' = pos;
  st_running : runn_task_num k' = u8 (runn_task_num k + 1);
  st_dir : dir_ok lay (page_dir k') (Some pos);
  st_tab : page_tab k' = page_tab k;
  st_mmu : mmu_sync k';
  st_ss0 : tss_ss0 k' = KERNEL_DS;
  st_esp0 : tss_esp0 k' = 8388608 - 8192 * pos - 4;
  st_image : mbytes (kmem k') (load_at pos) (List.length content) = content;
  st_pcb : fresh_pcb lay (kmem k') pos
    (if (pos =? 0) && (runn_task_num k =? 0) then -1
     else load_s32 (kmem k) (process_id (pcb_at sp)))
    (f_esp fr) (f_ebp fr) args;
  st_frame : forall b,
    (b < pcb_at pos \/ pcb_at pos + 520 <= b) ->
    (b < pcb_at sp + 520 \/ pcb_at sp + 8192 <= b) ->
    (b < load_at pos \/ load_at pos + zlen content <= b) ->
    mget (kmem k') b = mget (kmem k) b;
  st_terms : terminal_array k' = terminal_array k /\
    current_terminal_idx k' = current_terminal_idx k;
  st_fs : exists i, k_fs k' = set_file_pos_keeper i (k_fs k);
  st_tty : exists f, k_tty k' = set_t_mem (kmem k') (set_t_if f (k_tty k));
}.

Lemma file_size lay fs m start NI NB dir ino dentry :
  world lay fs m start NI NB dir -> file_ok m fs NI NB ino ->
  load32 m (dentry + 36) = ino ->
  get_dentry_size fs m dentry = file_len m fs ino.
Proof.
  intros Hw [Hi Hl _] Hd. destruct (w_place _ _ _ _ _ _ _ Hw), (w_counts _ _ _ _ _ _ _ Hw).
  destruct (w_img _ _ _ _ _ _ _ Hw) as [_ E1 _ E2 _ _ _ Hf].
  unfold get_dentry_size, file_len in *. rewrite Hd, E1, E2 in *. unfold INODES_SIZE.
  rewrite u32_small by lia. unfold load_s32.
  pose proof (load32_range m (start + 4096 + ino * 4096)). by rewrite s32_small by lia.
Qed.

(** The new page: the loader's address goes to the frame of the slot. *)
Lemma load_addr lay k pos t :
  dir_ok lay (page_dir k) t -> 0 <= pos < 6 ->
  kernel_addr lay (enable_paging (map_task pos k)) LOADADDR = Ok (load_at pos).
Proof.
  intros Hd Hp. unfold kernel_addr.
  change (mmu (enable_paging ?x)) with (Some (page_dir x, page_tab x)). cbv beta iota.
  rewrite (translate_task lay _ _ pos); [done | | unfold LOADADDR; lia].
  apply (dir_ok_task lay k t pos); lia || done.
Qed.

(** The later assignments of [execute] and [halt] leave paging alone. *)
Lemma sync_later a b c m k :
  mmu_sync (set_runn_task_num a (set_tss_esp0 b (set_tss_ss0 c (set_kmem m (enable_paging k))))).
Proof. destruct k. unfold mmu_sync. cbn. reflexivity. Qed.

Lemma sync_later_halt b m k : mmu_sync (set_kmem m (set_tss_esp0 b (enable_paging k))).
Proof. destruct k. unfold mmu_sync. cbn. reflexivity. Qed.

Lemma elf_entry_take content : elf_entry (take 30 content) = elf_entry content.
Proof.
  unfold elf_entry, anth.
  repeat (rewrite (nth_lookup (take 30 content)), lookup_take_lt, <-nth_lookup by lia).
  done.
Qed.

(** Steps 4 to 6: the image is read into the page of the slot and the block
    is filled in. *)
Lemma exec_load_mem lay fr sp pos k start NI NB dir ino args :
  world lay (k_fs k) (kmem k) start NI NB dir -> frame_ok fr sp -> 0 <= pos < 6 ->
  (pos <> sp \/ pos = 0 /\ runn_task_num k = 0) ->
  file_ok (kmem k) (k_fs k) NI NB ino ->
  let content := file_content (kmem k) (k_fs k) ino in
  zlen content <= 3899392 -> cstr (kmem k) (f_getargbuf fr) args -> zlen args < 30 ->
  exists m1 m2,
    read_data (k_fs k) (kmem k) ino 0 (load_at pos) (zlen content) = Ok (zlen content, m1) /\
    fill_pcb lay fr pos (runn_task_num k) m1 = Ok m2 /\
    mbytes m2 (load_at pos) (List.length content) = content /\
    fresh_pcb lay m2 pos
      (if (pos =? 0) && (runn_task_num k =? 0) then -1
       else load_s32 (kmem k) (process_id (pcb_at sp))) (f_esp fr) (f_ebp fr) args /\
    (forall b, b < pcb_at pos \/ pcb_at pos + 520 <= b ->
       b < load_at pos \/ load_at pos + zlen content <= b -> mget m2 b = mget (kmem k) b).
Proof.
  intros Hw Hfr Hp Hsp Hok content Hcl Hargs Hal. pose proof (fo_slot _ _ Hfr) as Hsl.
  pose proof (pcb_at_low sp Hsl) as (P5 & Plo & Phi).
  pose proof (pcb_at_low pos Hp) as (_ & Qlo & Qhi).
  assert (Hlen : zlen content = file_len (kmem k) (k_fs k) ino) by apply length_file_content.
  assert (Hla : load_at pos >= 8388608) by (unfold load_at; lia).
  destruct (w_place _ _ _ _ _ _ _ Hw) as [_ Hend]. destruct (fo_ebp _ _ Hfr), (fo_esp _ _ Hfr).
  destruct (read_data_content (k_fs k) (kmem k) start NI NB ino 0 (load_at pos)
    (zlen content) (w_img _ _ _ _ _ _ _ Hw) Hok)
    as (m1 & Hrd & Hb1 & S1); [lia | lia | lia | right; lia|].
  fold content in Hrd, Hb1, S1. rewrite drop_0 in *. rewrite firstn_all2 in * by lia.
  assert (Hlow : forall b, b < 8388608 -> mget m1 b = mget (kmem k) b)
    by (intros; apply S1; lia).
  assert (Hw1 : world lay (k_fs k) m1 start NI NB dir)
    by (eapply world_high; [exact Hw|]; intros; apply Hlow; lia).
  assert (Hesp : Z.land (u32 (f_esp fr)) PROCESSMASK = pcb_at sp)
    by (rewrite u32_small by lia; by apply stack_pcb).
  assert (Hdis : pcb_at sp + 8192 <= pcb_at pos \/ pcb_at pos + 8192 <= pcb_at sp
    \/ (pos = 0 /\ runn_task_num k = 0)).
  { destruct Hsp as [Hne|?]; [|tauto]. pose proof (pcb_disjoint sp pos ltac:(congruence)). lia. }
  assert (Hgd : f_getargbuf fr + 30 <= pcb_at pos \/ pcb_at pos + 520 <= f_getargbuf fr).
  { destruct (fo_arg _ _ Hfr). unfold pcb_at, EIGHTMB, EIGHTKB in *. lia. }
  destruct (fill_pcb_spec lay fr pos (runn_task_num k) m1 args Hp) as (m2 & Hfill & Hpcb & S2);
    [by rewrite Hesp | apply Hw1 | apply Hw1 | | done | done |].
  { eapply cstr_ext; [|exact Hargs]. intros b Hb. symmetry. apply Hlow.
    destruct (fo_arg _ _ Hfr). lia. }
  exists m1, m2. split; [exact Hrd|]. split; [exact Hfill|]. split; [|split].
  - rewrite <-Hb1 at 2. apply mbytes_ext. intros b Hb. apply S2. lia.
  - unfold parent_of in Hpcb. rewrite Hesp, !u32_small in Hpcb by lia.
    destruct (_ && _); [done|]. unfold load_s32 in *.
    rewrite (load32_ext m1 (kmem k)) in Hpcb; [done|].
    intros b Hb. apply Hlow. unfold process_id in Hb. lia.
  - intros b Hb Hb'. by rewrite S2, S1 by lia.
Qed.

Lemma exec_load_spec lay fr sp pos t k start NI NB dir ino args :
  world lay (k_fs k) (kmem k) start NI NB dir -> frame_ok fr sp ->
  layout_ok lay -> dir_ok lay (page_dir k) t -> tab_ok (page_tab k) ->
  first_free (task_bitmap k) pos ->
  (pos <> sp \/ pos = 0 /\ runn_task_num k = 0) ->
  load32 (kmem k) (f_dentry fr + 36) = ino ->
  file_ok (kmem k) (k_fs k) NI NB ino ->
  let content := file_content (kmem k) (k_fs k) ino in
  30 <= zlen content <= 3899392 ->
  mbytes (kmem k) (f_buffer fr) 30 = take 30 content ->
  cstr (kmem k) (f_getargbuf fr) args -> zlen args < 30 ->
  exists k', exec_load lay fr k = Ok (Entered (elf_entry content), k') /\
    started lay fr sp pos content args k k'.
Proof.
  intros Hw Hfr Hlay Hd Ht Hff Hsp Hino Hok content Hcl Hbuf Hargs Hal.
  pose proof (proj1 Hff) as Hp.
  assert (Hlen : zlen content = file_len (kmem k) (k_fs k) ino) by apply length_file_content.
  destruct (exec_load_mem lay fr sp pos k start NI NB dir ino args)
    as (m1 & m2 & Hrd & Hfill & Himg & Hpcb & Hsame); try assumption; [exact (proj2 Hcl)|].
  fold content in Hrd, Himg, Hsame.
  set (kf := set_runn_task_num (u8 (runn_task_num k + 1))
    (set_tss_esp0 (EIGHTMB - EIGHTKB * pos - 4) (set_tss_ss0 KERNEL_DS (set_kmem m2
    (enable_paging (map_task pos (set_curr_task_pos pos
    (set_task_bitmap (<[Z.to_nat pos := 1]> (task_bitmap k)) k)))))))).
  assert (Hkm : kmem kf = m2) by reflexivity.
  exists kf. split.
  - unfold exec_load. do 2 bstep. cbv zeta.
    rewrite (file_size _ _ _ _ _ _ _ ino _ Hw Hok Hino).
    do 3 bstep. rewrite (find_slot_free _ _ _ pos Hff). do 4 bstep.
    erewrite bind_ok by (rewrite (load_addr lay _ pos t); [reflexivity | exact Hd | exact Hp]).
    cbv beta iota. rewrite Hino, <-Hlen, load_image_fits by (unfold IMAGEMAX; lia).
    erewrite bind_ok by (rewrite Hrd; reflexivity). cbv beta iota. bstep.
    rewrite Z.eqb_refl. cbn [negb].
    erewrite bind_ok by (rewrite Hfill; reflexivity). do 4 bstep.
    rewrite (entry_point_spec (kmem k) (f_buffer fr) (take 30 content));
      [|rewrite length_take_le by lia; done | rewrite length_take_le by lia; lia].
    rewrite elf_entry_take, set_kmem_twice. reflexivity.
  - constructor; rewrite ?Hkm; [reflexivity | reflexivity | reflexivity | | reflexivity
      | | reflexivity | reflexivity | exact Himg | exact Hpcb | | split; reflexivity | |].
    + apply (dir_ok_task lay k t pos); lia || done.
    + apply sync_later.
    + intros b Hb Hb' Hb''. by apply Hsame.
    + exists (file_pos_keeper (k_fs k)). unfold set_file_pos_keeper.
      change (k_fs kf) with (k_fs k). by destruct (k_fs k).
    + exists (t_if (k_tty k)). change (k_tty kf) with (set_t_mem m2 (k_tty k)).
      by destruct (k_tty k).
Qed.

(** ** The whole of [execute] *)

(** What [execute] is given: an image and its directory, page tables, a
    command line, and a stack frame. *)
Record exec_ready (lay : layout) (fr : frame) (sp : Z) (t : option Z) (command : Z)
  (cmd : list Z) (k : kernel) (start NI NB : Z) (dir : list entry) : Prop := {
  er_world : world lay (k_fs k) (kmem k) start NI NB dir;
  er_frame : frame_ok fr sp;
  er_layout : layout_ok lay;
  er_dir : dir_ok lay (page_dir k) t;
  er_tab : tab_ok (page_tab k);
  er_cmd : command_ok (kmem k) command cmd;
  er_ptr : command <> 0;
  er_room : 0 <= runn_task_num k < 6;
}.

(** The state after step 1. *)
Definition parsed (fr : frame) (cmd : list Z) (k : kernel) : kernel :=
  set_kmem (parsed_mem fr cmd (kmem k)) (set_if false k).

Lemma execute_parsed lay fr sp t command cmd k start NI NB dir :
  exec_ready lay fr sp t command cmd k start NI NB dir ->
  execute lay fr command k =
  (r ← exec_find fr;
   match r with None => mret (Returned (-1)) | Some _ => exec_load lay fr end)
    (parsed fr cmd k).
Proof.
  intros [Hw Hfr Hlay Hd Ht Hc Hp Hr]. unfold execute. do 2 bstep.
  change (runn_task_num (set_k_tty _ k)) with (runn_task_num k).
  rewrite (proj2 (Z.eqb_neq _ _) Hp), (proj2 (Z.leb_gt _ _)) by (unfold MAXNUMTASK; lia).
  cbn [orb]. change (set_k_tty (set_t_if false (k_tty k)) k) with (set_if false k).
  rewrite (bind_ok _ _ _ _ _ (exec_parse_spec fr command cmd (set_if false k) Hc)).
  reflexivity.
Qed.

Lemma parsed_ready lay fr sp t command cmd k start NI NB dir :
  exec_ready lay fr sp t command cmd k start NI NB dir ->
  let k1 := parsed fr cmd k in
  world lay (k_fs k1) (kmem k1) start NI NB dir /\
  cstr (kmem k1) (f_first_cmd fr) (cmd_word cmd) /\
  cstr (kmem k1) (f_getargbuf fr) (cmd_args cmd) /\
  stack_only (kmem k) (kmem k1) sp.
Proof.
  intros [Hw Hfr Hlay Hd Ht Hc Hp Hr]. cbv zeta.
  change (kmem (parsed fr cmd k)) with (parsed_mem fr cmd (kmem k)).
  change (k_fs (parsed fr cmd k)) with (k_fs k).
  destruct (parsed_mem_spec fr sp cmd (kmem k) command Hfr Hc) as (C1 & C2 & S1).
  split_and!; try done. eapply world_high; [exact Hw|]. intros b Hb.
  by apply (stack_low _ _ sp); [apply Hfr | |].
Qed.

(** A command that names no file, or a file that is not executable, is
    rejected: no slot is taken and nothing is mapped. *)
Definition rejected (sp : Z) (k k' : kernel) : Prop :=
  exists m' i, k' = set_kmem m' (set_k_fs (set_file_pos_keeper i (k_fs k)) (set_if false k)) /\
    stack_only (kmem k) m' sp.

Lemma execute_missing lay fr sp t command cmd k start NI NB dir :
  exec_ready lay fr sp t command cmd k start NI NB dir ->
  abs_lookup dir (cmd_word cmd) = None ->
  exists k', execute lay fr command k = Ok (Returned (-1), k') /\ rejected sp k k'.
Proof.
  intros Hr Hlk. destruct (parsed_ready _ _ _ _ _ _ _ _ _ _ _ Hr) as (Hw & C1 & C2 & S1).
  exists (parsed fr cmd k). rewrite (execute_parsed _ _ _ _ _ _ _ _ _ _ _ Hr). split.
  - erewrite bind_ok.
    2:{ eapply (exec_find_missing lay fr sp); try done; [apply Hr | apply Hr]. }
    reflexivity.
  - exists (parsed_mem fr cmd (kmem k)), (file_pos_keeper (k_fs k)). split; [|done].
    unfold parsed. destruct k as [tt0 ? ? ? ? ? ? ? ? ? ? ? ? ? ? ? ? fs]. destruct fs. reflexivity.
Qed.

Lemma exec_found lay fr sp t command cmd k start NI NB dir i e :
  exec_ready lay fr sp t command cmd k start NI NB dir ->
  abs_lookup dir (cmd_word cmd) = Some i -> dir !! Z.to_nat i = Some e ->
  file_ok (kmem k) (k_fs k) NI NB (e_inode e) ->
  30 <= file_len (kmem k) (k_fs k) (e_inode e) ->
  let content := file_content (kmem k) (k_fs k) (e_inode e) in
  exists m', exec_find fr (parsed fr cmd k) =
      Ok (if bool_decide (take 4 content = elf_magic) then Some tt else None,
          set_kmem m' (set_k_fs (set_file_pos_keeper i (k_fs k)) (set_if false k))) /\
    world lay (set_file_pos_keeper i (k_fs k)) m' start NI NB dir /\
    file_ok m' (k_fs k) NI NB (e_inode e) /\
    file_content m' (k_fs k) (e_inode e) = content /\
    load32 m' (f_dentry fr + 36) = e_inode e /\
    mbytes m' (f_buffer fr) 30 = take 30 content /\
    cstr m' (f_getargbuf fr) (cmd_args cmd) /\ stack_only (kmem k) m' sp.
Proof.
  intros Hr Hlk He Hok Hlen content.
  destruct (parsed_ready _ _ _ _ _ _ _ _ _ _ _ Hr) as (Hw & C1 & C2 & S1).
  pose proof (er_frame _ _ _ _ _ _ _ _ _ _ _ Hr) as Hfr.
  pose proof (fo_slot _ _ Hfr) as Hsl. pose proof (pcb_at_low sp Hsl).
  assert (Hlow : forall m', stack_only (kmem k) m' sp ->
    forall b, b < pcb_at 5 -> mget m' b = mget (kmem k) b)
    by (intros; by apply (stack_low _ _ sp)).
  pose proof (er_world _ _ _ _ _ _ _ _ _ _ _ Hr) as Hw0.
  destruct (world_file _ _ _ _ _ _ _ _ _ Hw0 Hok (Hlow _ S1)) as (Hok1 & Hl1 & Hc1).
  destruct (exec_find_found lay fr sp (parsed fr cmd k) start NI NB dir (cmd_word cmd) i e)
    as (m' & Hf & Hino & Hbuf & S2); try done.
  { apply Hr. }
  { change (k_fs (parsed fr cmd k)) with (k_fs k). lia. }
  change (k_fs (parsed fr cmd k)) with (k_fs k) in *. rewrite Hc1 in *.
  fold content in Hf, Hbuf.
  destruct (fo_dentry _ _ Hfr), (fo_buf _ _ Hfr), (fo_arg _ _ Hfr).
  pose proof (fo_arg_dentry _ _ Hfr) as A1. pose proof (fo_arg_buf _ _ Hfr) as A2.
  unfold apart in *. pose proof (co_args _ _ _ (er_cmd _ _ _ _ _ _ _ _ _ _ _ Hr)).
  assert (S : stack_only (kmem k) m' sp).
  { eapply stack_trans; [exact S1|]. intros b Hb. apply S2; lia. }
  destruct (world_file _ _ _ _ _ _ _ _ _ Hw0 Hok (Hlow _ S)) as (Hok2 & Hl2 & Hc2).
  exists m'. split_and!; try done.
  - pose proof (world_high _ _ _ m' _ _ _ _ Hw0 (Hlow _ S)) as [W1 W2 W3 W4 W5 W6].
    by constructor; [apply image_keeper|..].
  - eapply cstr_ext; [|exact C2]. intros b Hb. symmetry. apply S2; lia.
Qed.

(** A file with nothing in it, or whose header is not the magic number. *)
Lemma execute_not_elf lay fr sp t command cmd k start NI NB dir i e :
  exec_ready lay fr sp t command cmd k start NI NB dir ->
  abs_lookup dir (cmd_word cmd) = Some i -> dir !! Z.to_nat i = Some e ->
  file_ok (kmem k) (k_fs k) NI NB (e_inode e) ->
  let content := file_content (kmem k) (k_fs k) (e_inode e) in
  content = [] \/
  file_header content (mbytes (kmem (parsed fr cmd k)) (f_buffer fr) 4) <> elf_magic ->
  exists k', execute lay fr command k = Ok (Returned (-1), k') /\ rejected sp k k'.
Proof.
  intros Hr Hlk He Hok content Hmg.
  destruct (parsed_ready _ _ _ _ _ _ _ _ _ _ _ Hr) as (Hw & C1 & C2 & S1).
  pose proof (er_frame _ _ _ _ _ _ _ _ _ _ _ Hr) as Hfr.
  pose proof (er_world _ _ _ _ _ _ _ _ _ _ _ Hr) as Hw0.
  assert (Hlow : forall b, b < pcb_at 5 -> mget (kmem (parsed fr cmd k)) b = mget (kmem k) b)
    by (intros; apply (stack_low _ _ sp); [apply Hfr | done | done]).
  destruct (world_file _ _ _ _ _ _ _ _ _ Hw0 Hok Hlow) as (Hok1 & Hl1 & Hc1).
  destruct (exec_find_any lay fr sp (parsed fr cmd k) start NI NB dir (cmd_word cmd) i e)
    as (m' & Hf & S2); try done.
  { apply Hr. }
  change (k_fs (parsed fr cmd k)) with (k_fs k) in *. rewrite Hc1 in Hf. fold content in Hf.
  rewrite bool_decide_eq_false_2 in Hf by tauto.
  rewrite (execute_parsed _ _ _ _ _ _ _ _ _ _ _ Hr), (bind_ok _ _ _ _ _ Hf).
  eexists. split; [reflexivity|]. exists m', i. split; [reflexivity|].
  destruct (fo_dentry _ _ Hfr), (fo_buf _ _ Hfr).
  eapply stack_trans; [exact S1|]. intros b Hb. apply S2; lia.
Qed.

Lemma execute_spec lay fr sp t command cmd k start NI NB dir i e pos :
  exec_ready lay fr sp t command cmd k start NI NB dir ->
  abs_lookup dir (cmd_word cmd) = Some i -> dir !! Z.to_nat i = Some e ->
  file_ok (kmem k) (k_fs k) NI NB (e_inode e) ->
  let content := file_content (kmem k) (k_fs k) (e_inode e) in
  30 <= zlen content <= 3899392 -> take 4 content = elf_magic ->
  first_free (task_bitmap k) pos -> (pos <> sp \/ pos = 0 /\ runn_task_num k = 0) ->
  exists k', execute lay fr command k = Ok (Entered (elf_entry content), k') /\
    started lay fr sp pos content (cmd_args cmd) k k'.
Proof.
  intros Hr Hlk He Hok content Hcl Hmg Hff Hsp.
  assert (Hlen : zlen content = file_len (kmem k) (k_fs k) (e_inode e))
    by apply length_file_content.
  destruct (exec_found _ _ _ _ _ _ _ _ _ _ _ _ _ Hr Hlk He Hok ltac:(lia))
    as (m' & Hf & Hw & Hok' & Hc' & Hino & Hbuf & Hargs & S).
  rewrite bool_decide_eq_true_2 in Hf by done. fold content in Hbuf.
  pose proof (er_frame _ _ _ _ _ _ _ _ _ _ _ Hr) as Hfr.
  rewrite (execute_parsed _ _ _ _ _ _ _ _ _ _ _ Hr), (bind_ok _ _ _ _ _ Hf).
  set (k2 := set_kmem m' _).
  assert (E1 : kmem k2 = m') by reflexivity.
  assert (E2 : k_fs k2 = set_file_pos_keeper i (k_fs k)) by reflexivity.
  assert (E3 : page_dir k2 = page_dir k) by reflexivity.
  assert (E4 : page_tab k2 = page_tab k) by reflexivity.
  assert (E5 : task_bitmap k2 = task_bitmap k) by reflexivity.
  assert (E6 : runn_task_num k2 = runn_task_num k) by reflexivity.
  assert (E7 : terminal_array k2 = terminal_array k /\
    current_terminal_idx k2 = current_terminal_idx k) by (split; reflexivity).
  assert (E8 : forall m f, set_t_mem m (set_t_if f (k_tty k2)) = set_t_mem m (set_t_if f (k_tty k)))
    by reflexivity.
  clearbody k2. clear Hf.
  assert (Ec : file_content (kmem k2) (k_fs k2) (e_inode e) = content).
  { rewrite E1, E2. exact Hc'. }
  pose proof (exec_load_spec lay fr sp pos t k2 start NI NB dir (e_inode e) (cmd_args cmd)) as HL.
  cbv zeta in HL. rewrite Ec in HL.
  rewrite E1, E2, E3, E4, E5, E6 in HL.
  destruct HL as (k' & Hrun & [H1 H2 H3 H4 H5 H6 H7 H8 H9 H10 H11 H12 [i' H13] [f' H14]]); try done.
  { apply Hr. } { apply Hr. } { apply Hr. }
  { destruct Hok'. by constructor. }
  { apply Hr. }
  exists k'. split; [exact Hrun|].
  rewrite E1, ?E4, ?E5, ?E6 in *.
  constructor; try done.
  - unfold load_s32 in H10. rewrite (load32_ext m' (kmem k)) in H10; [done|].
    intros b Hb. apply S. unfold process_id in Hb. lia.
  - intros b Hb Hb' Hb''. rewrite H11 by done. apply S. lia.
  - destruct E7, H12. split; congruence.
  - exists i'. by rewrite H13, E2.
  - exists f'. by rewrite H14, E8.
Qed.

(** ** Ending a program *)

(** The kernel after [halt] has gone back to the parent. *)
Record resumed (lay : layout) (pos parent : Z) (k k' : kernel) : Prop := {
  re_bitmap : task_bitmap k' = <[Z.to_nat pos := 0]> (task_bitmap k);
  re_pos : curr_task_pos k' = parent;
  re_running : runn_task_num k' = u8 (runn_task_num k - 1);
  re_dir : dir_ok lay (page_dir k') (Some parent);
  re_tab : page_tab k' = page_tab k;
  re_mmu : mmu_sync k';
  re_esp0 : tss_esp0 k' = 8388608 - 8192 * parent - 4;
  re_fs : k_fs k' = k_fs k;
  re_pcb : forall b, pcb_at pos <= b < pcb_at pos + 520 -> mget (kmem k') b = 0;
  re_frame : same_out (kmem k) (kmem k') (pcb_at pos) 520;
  re_tty : k_tty k' = set_t_mem (kmem k') (set_t_if false (k_tty k));
}.

(** The status a parent sees: 255 is turned into 256. *)
Definition exit_status (status : Z) : Z :=
  if u8 status =? 255 then 256 else u8 status.

(** [halt] of a task that has a parent. *)
Lemma halt_spec lay fr t status pos parent k :
  dir_ok lay (page_dir k) t ->
  curr_task_pos k = pos -> 0 < pos < 6 -> 0 <= parent < 6 ->
  zlen (task_bitmap k) = 6 -> runn_task_num k <> 1 ->
  load_s32 (kmem k) (parent_process_id (pcb_at pos)) = parent ->
  load_s32 (kmem k) (process_id (pcb_at pos)) = pos ->
  exists k', halt lay fr status k =
      Ok (Resume (load32 (kmem k) (parent_esp (pcb_at pos)))
                 (load32 (kmem k) (parent_ebp (pcb_at pos))) (exit_status status), k') /\
    resumed lay pos parent k k'.
Proof.
  intros Hd Hpos Hp Hpar Hbl Hr1 Hpp Hpid.
  assert (Hst : Z.land (u8 status) HIGHMASK = u8 status).
  { pose proof (u8_range status). change HIGHMASK with (Z.ones 8).
    rewrite Z.land_ones by lia. apply Z.mod_small. change (2 ^ 8) with 256. lia. }
  destruct (clear_fds (pcb_at pos) (kmem k)) as [_ S1].
  set (m1 := forz 0 MAXOPENFILE (fun i m => set_fd (pcb_at pos) i 0 0 0 0 m) (kmem k)) in *.
  set (m2 := store32 m1 (running_state (pcb_at pos)) 0).
  assert (S2 : same_out m1 m2 (pcb_at pos + 504) 4) by apply so_store32.
  destruct (memset_spec m2 (pcb_at pos) 0 520) as (m3 & Hms & H3); [lia|].
  set (kf := set_kmem m3 (set_tss_esp0 (EIGHTMB - EIGHTKB * parent - 4)
    (enable_paging (map_task parent (set_runn_task_num (u8 (runn_task_num k - 1))
    (set_curr_task_pos parent
      (set_task_bitmap (<[Z.to_nat pos := 0]> (task_bitmap k)) (set_if false k)))))))).
  assert (Hkm : kmem kf = m3) by reflexivity.
  exists kf. split.
  - unfold halt. do 4 bstep. change (set_k_tty (set_t_if false (k_tty k)) k) with (set_if false k).
    change (curr_task_pos (set_if false k)) with (curr_task_pos k).
    change (runn_task_num (set_if false k)) with (runn_task_num k).
    change (kmem (set_if false k)) with (kmem k). rewrite Hpos, Hpp, Hpid.
    rewrite (proj2 (Z.eqb_neq pos 0)), (proj2 (Z.eqb_neq _ _) Hr1),
      (proj2 (Z.eqb_neq parent (-1))) by lia. cbn [orb]. bstep.
    change (task_bitmap (set_if false k)) with (task_bitmap k).
    erewrite bind_ok by (rewrite aset_ok by lia; reflexivity). cbv beta zeta.
    rewrite (u8_small parent) by lia. do 6 bstep.
    fold m1. fold m2. unfold PCB_SIZE. erewrite bind_ok by (rewrite Hms; reflexivity). bstep.
    rewrite !(so_load32 _ _ _ _ _ S2), !(so_load32 _ _ _ _ _ S1) by (pcb_unfold; lia).
    rewrite Hst. unfold exit_status.
    replace (if u8 status =? 255 then u8 status + 1 else u8 status)
      with (if u8 status =? 255 then 256 else u8 status)
      by (destruct (Z.eqb_spec (u8 status) 255) as [->|]; done).
    reflexivity.
  - constructor; rewrite ?Hkm; [reflexivity | reflexivity | reflexivity | | reflexivity
      | | reflexivity | reflexivity | | | reflexivity].
    + apply (dir_ok_task lay k t parent); lia || done.
    + apply (sync_later_halt _ _ (map_task _ _)).
    + intros b Hb. rewrite H3, decide_True by lia. done.
    + intros b Hb. rewrite H3, decide_False by lia. rewrite S2, S1 by lia. done.
Qed.

(** ** Starting and ending together *)

(** A running program leaves the tasks, its page and the identity in its
    block as they are. *)
Record program_ran (lay : layout) (pos : Z) (k k' : kernel) : Prop := {
  pg_bitmap : task_bitmap k' = task_bitmap k;
  pg_pos : curr_task_pos k' = curr_task_pos k;
  pg_running : runn_task_num k' = runn_task_num k;
  pg_dir : dir_ok lay (page_dir k') (Some pos);
  pg_block : forall b, pcb_at pos + 488 <= b < pcb_at pos + 504 ->
    mget (kmem k') b = mget (kmem k) b;
}.

(** A started program that halts: the parent's [execute] is resumed. *)
Lemma halt_returns lay fr sp pos content args k k1 k2 fr' status :
  started lay fr sp pos content args k k1 -> program_ran lay pos k1 k2 ->
  first_free (task_bitmap k) pos -> zlen (task_bitmap k) = 6 -> 0 < pos -> 0 <= sp < 6 ->
  curr_task_pos k = sp -> 1 <= runn_task_num k < 6 ->
  load_s32 (kmem k) (process_id (pcb_at sp)) = sp ->
  exists k3, halt lay fr' status k2 = Ok (Resume (f_esp fr) (f_ebp fr) (exit_status status), k3) /\
    resumed lay pos sp k2 k3 /\ task_bitmap k3 = task_bitmap k /\
    curr_task_pos k3 = curr_task_pos k /\ runn_task_num k3 = runn_task_num k.
Proof.
  intros St [Kb Kp Kr Kd Km] Hff Hbl Hp0 Hsl Hcur Hrun Hid.
  destruct Hff as (Hpr & Hfree & _). pose proof (st_pcb _ _ _ _ _ _ _ _ St) as Hpcb.
  rewrite (proj2 (Z.eqb_neq pos 0)) in Hpcb by lia. cbn [andb] in Hpcb. rewrite Hid in Hpcb.
  assert (Hld : forall o, 488 <= o <= 500 ->
    load32 (kmem k2) (pcb_at pos + o) = load32 (kmem k1) (pcb_at pos + o)).
  { intros o Ho. apply load32_ext. intros b Hb. apply Km. lia. }
  destruct Hpcb as [P1 P2 P3 P4 _ _ _ _ _ _ _ _]. pcb_unfold. unfold load_s32 in *.
  destruct St as [S1 S2 S3 _ _ _ _ _ _ _ _ _].
  destruct (halt_spec lay fr' (Some pos) status pos sp k2) as (k3 & Hh & Res); try done;
    pcb_unfold; unfold load_s32; rewrite ?Hld by lia; try congruence; try lia.
  { rewrite Kb, S1. by rewrite length_insert. }
  { rewrite Kr, S3, u8_small by lia. lia. }
  rewrite !Hld, P3, P4 in Hh by lia. exists k3. split; [exact Hh|]. split; [exact Res|].
  destruct Res as [R1 R2 R3 _ _ _ _ _ _ _ _]. split_and!; [|congruence|].
  - rewrite R1, Kb, S1, list_insert_insert_eq. apply list_insert_id.
    unfold anth in Hfree. rewrite nth_lookup in Hfree.
    destruct (lookup_lt_is_Some_2 (task_bitmap k) (Z.to_nat pos)) as [x Hx]; [lia|].
    rewrite Hx in *. cbn in Hfree. congruence.
  - rewrite R3, Kr, S3, (u8_small (_ + 1)), u8_small by lia. lia.
Qed.

(** C2: A program started from the task in slot [sp], when it ends: the stack
    of the [execute] that started it is resumed with the exit status, and
    the tasks, their number, the current slot, the page at 128 MB and the
    kernel stack are those from before. *)
Theorem execute_halt_round_trip lay fr sp t command cmd k start NI NB dir i e pos fr' status :
  exec_ready lay fr sp t command cmd k start NI NB dir ->
  abs_lookup dir (cmd_word cmd) = Some i -> dir !! Z.to_nat i = Some e ->
  file_ok (kmem k) (k_fs k) NI NB (e_inode e) ->
  30 <= zlen (file_content (kmem k) (k_fs k) (e_inode e)) <= 3899392 ->
  take 4 (file_content (kmem k) (k_fs k) (e_inode e)) = elf_magic ->
  first_free (task_bitmap k) pos -> zlen (task_bitmap k) = 6 -> 0 < pos -> pos <> sp ->
  curr_task_pos k = sp -> 1 <= runn_task_num k ->
  load_s32 (kmem k) (process_id (pcb_at sp)) = sp ->
  exists k1, execute lay fr command k =
      Ok (Entered (elf_entry (file_content (kmem k) (k_fs k) (e_inode e))), k1) /\
    forall k2, program_ran lay pos k1 k2 ->
    exists k3, halt lay fr' status k2 = Ok (Resume (f_esp fr) (f_ebp fr) (exit_status status), k3) /\
      task_bitmap k3 = task_bitmap k /\ curr_task_pos k3 = curr_task_pos k /\
      runn_task_num k3 = runn_task_num k /\ dir_ok lay (page_dir k3) (Some sp) /\
      mmu_sync k3 /\ tss_esp0 k3 = 8388608 - 8192 * sp - 4.
Proof.
  intros Hr Hlk He Hok Hcl Hmg Hff Hbl Hp0 Hne Hcur Hrun Hid.
  destruct (execute_spec _ _ _ _ _ _ _ _ _ _ _ _ _ pos Hr Hlk He Hok Hcl Hmg Hff (or_introl Hne))
    as (k1 & Hex & St). exists k1. split; [exact Hex|]. intros k2 Hk2.
  pose proof (er_room _ _ _ _ _ _ _ _ _ _ _ Hr) as Hroom.
  pose proof (fo_slot _ _ (er_frame _ _ _ _ _ _ _ _ _ _ _ Hr)) as Hsl.
  destruct (halt_returns lay fr sp pos _ _ k k1 k2 fr' status St Hk2 Hff Hbl Hp0 Hsl Hcur
    ltac:(lia) Hid) as (k3 & Hh & [_ _ _ R4 _ R6 R7 _ _ _ _] & H1 & H2 & H3).
  exists k3. by split_and!.
Qed.

(** ** The properties of [execute] and [halt] *)

(** C1: [execute] of a command whose first word names an executable file, with a
    free slot: user mode is entered at the entry point of the file; the
    first free slot is taken, its page mapped and loaded with the file, its
    block filled in with the parent, the stack to return to, the arguments
    and the two standard files, and nothing else in memory changes but the
    stack. *)
Theorem execute_starts_program lay fr sp t command cmd k start NI NB dir i e pos :
  exec_ready lay fr sp t command cmd k start NI NB dir ->
  abs_lookup dir (cmd_word cmd) = Some i -> dir !! Z.to_nat i = Some e ->
  file_ok (kmem k) (k_fs k) NI NB (e_inode e) ->
  let content := file_content (kmem k) (k_fs k) (e_inode e) in
  30 <= zlen content <= 3899392 -> take 4 content = elf_magic ->
  first_free (task_bitmap k) pos -> (pos <> sp \/ pos = 0 /\ runn_task_num k = 0) ->
  exists k', execute lay fr command k = Ok (Entered (elf_entry content), k') /\
    started lay fr sp pos content (cmd_args cmd) k k'.
Proof. apply execute_spec. Qed.

(** C22: [execute] of a command whose first word names no file, an empty file or
    a file that does not start with the magic number, and [execute] of a null
    pointer or with six tasks running: -1 is returned; no slot is taken, no
    page mapped, and memory is changed on the stack only.  The magic number is
    compared with the first four bytes of the buffer: for a file of one to
    three bytes the others are what the stack held before. *)
Theorem execute_rejects lay fr sp t command cmd k start NI NB dir :
  exec_ready lay fr sp t command cmd k start NI NB dir ->
  abs_lookup dir (cmd_word cmd) = None \/
  (exists i e, abs_lookup dir (cmd_word cmd) = Some i /\ dir !! Z.to_nat i = Some e /\
     file_ok (kmem k) (k_fs k) NI NB (e_inode e) /\
     let content := file_content (kmem k) (k_fs k) (e_inode e) in
     (content = [] \/
      (if 4 <=? zlen content then take 4 content
       else file_header content (mbytes (kmem (parsed fr cmd k)) (f_buffer fr) 4)) <> elf_magic)) ->
  (exists k', execute lay fr command k = Ok (Returned (-1), k') /\ rejected sp k k') /\
  (forall k2, execute lay fr 0 k2 = Ok (Returned (-1), set_if false k2)) /\
  (forall k2 c, 6 <= runn_task_num k2 ->
     execute lay fr c k2 = Ok (Returned (-1), set_if false k2)).
Proof.
  intros Hr Hbad. split_and!.
  - destruct Hbad as [Hn|(i & e & H1 & H2 & H3 & H4)]; [by eapply execute_missing|].
    eapply execute_not_elf; [done..|]. destruct H4 as [|H4]; [by left | right].
    destruct (Z.leb_spec 4 (zlen (file_content (kmem k) (k_fs k) (e_inode e)))); [|exact H4].
    by rewrite file_header_long.
  - intros k2. reflexivity.
  - intros k2 c Hc. unfold execute, MAXNUMTASK. do 2 bstep.
    change (runn_task_num (set_k_tty (set_t_if false (k_tty k2)) k2)) with (runn_task_num k2).
    rewrite (proj2 (Z.leb_le 6 (runn_task_num k2))) by done. by rewrite orb_true_r.
Qed.

Lemma skip_spaces_cut l : exists a, l = replicate a SP ++ skip_spaces l.
Proof.
  induction l as [|c l [a IH]]; [by exists 0%nat|]. cbn [skip_spaces].
  destruct (Z.eqb_spec c SP) as [->|]; [|by exists 0%nat].
  exists (S a). cbn [replicate app]. by rewrite <-IH.
Qed.

Lemma word_cut l : l = word l ++ after_word l.
Proof.
  induction l as [|c l IH]; [done|]. cbn [word after_word].
  destruct (c =? SP); [done|]. cbn [app]. by rewrite <-IH.
Qed.

Lemma word_no_space l : Forall (fun c => c <> SP) (word l).
Proof.
  induction l as [|c l IH]; [constructor|]. cbn [word].
  destruct (Z.eqb_spec c SP); by constructor.
Qed.

(** C32: The parser of [execute] cuts a command line into spaces, a word without
    spaces, spaces, and arguments that do not start with a space, and leaves
    word and arguments in the two arrays; a command line of 128 characters
    or more runs over [arg_line]. *)
Theorem parse_command_cuts cmd :
  (128 <= zlen cmd -> parse_command cmd = Err OutOfBounds) /\
  (zlen cmd < 128 -> zlen (cmd_word cmd) < 20 -> zlen (cmd_args cmd) <= 30 ->
   exists a b w args, cmd = replicate a SP ++ w ++ replicate b SP ++ args /\
     Forall (fun c => c <> SP) w /\ hd_error args <> Some SP /\
     (w = [] -> args = []) /\
     parse_command cmd = Ok (pad 20 w, pad 30 args)).
Proof.
  split.
  - intros H. unfold parse_command, ARGMAXLEN. by rewrite (proj2 (Z.leb_le _ _)) by done.
  - intros H1 H2 H3. destruct (skip_spaces_cut cmd) as [a Ha].
    destruct (skip_spaces_cut (after_word (skip_spaces cmd))) as [b Hb].
    exists a, b, (cmd_word cmd), (cmd_args cmd). split_and!.
    + rewrite Ha at 1. f_equal. rewrite (word_cut (skip_spaces cmd)) at 1.
      unfold cmd_word, cmd_args. by rewrite <-Hb.
    + apply word_no_space.
    + unfold cmd_args. destruct (skip_spaces_head (after_word (skip_spaces cmd)))
        as [->|(c & l & -> & Hc)]; [done|]. cbn. congruence.
    + unfold cmd_word, cmd_args.
      destruct (skip_spaces_head cmd) as [->|(c & l & -> & Hc)]; [done|].
      cbn [word]. by rewrite (proj2 (Z.eqb_neq c SP) Hc).
    + by apply parse_command_spec.
Qed.

(** [halt] of the first shell, or of the only task, does not end it: the
    shell starts again at its entry point; the tasks and the page tables are
    as before, and memory is changed on the stack only. *)
Theorem halt_restarts_shell lay fr sp status k start NI NB dir i e :
  world lay (k_fs k) (kmem k) start NI NB dir -> frame_ok fr sp ->
  curr_task_pos k = 0 \/ runn_task_num k = 1 ->
  abs_lookup dir (bytes "shell") = Some i -> dir !! Z.to_nat i = Some e ->
  file_ok (kmem k) (k_fs k) NI NB (e_inode e) ->
  30 <= file_len (kmem k) (k_fs k) (e_inode e) ->
  exists k', halt lay fr status k =
      Ok (Restart (elf_entry (file_content (kmem k) (k_fs k) (e_inode e))), k') /\
    rejected sp k k'.
Proof.
  intros Hw Hfr Hc Hlk He Hok Hlen.
  assert (Hl0 : lit_shell lay <> 0).
  { destruct (ll_shell _ (w_low _ _ _ _ _ _ _ Hw)). lia. }
  destruct (header_read lay fr sp (k_fs k) (kmem k) start NI NB dir (lit_shell lay)
    (bytes "shell") i e) as (m1 & m2 & Hr & Hino & Hrd & _ & Hb2 & S2); try done.
  { apply Hw. }
  set (content := file_content (kmem k) (k_fs k) (e_inode e)) in *.
  assert (Hcl : zlen content = file_len (kmem k) (k_fs k) (e_inode e))
    by apply length_file_content.
  assert (Hl30 : List.length (take 30 content) = 30%nat) by (rewrite length_take; lia).
  pose proof (entry_point_spec m2 (f_buffer fr) (take 30 content)
    ltac:(rewrite Hl30; exact Hb2) ltac:(lia)) as He2. rewrite elf_entry_take in He2.
  exists (set_kmem m2 (set_k_fs (set_file_pos_keeper i (k_fs k)) (set_if false k))). split.
  - unfold halt. do 4 bstep. change (set_k_tty (set_t_if false (k_tty k)) k) with (set_if false k).
    change (curr_task_pos (set_if false k)) with (curr_task_pos k).
    change (runn_task_num (set_if false k)) with (runn_task_num k).
    change (kmem (set_if false k)) with (kmem k).
    replace ((curr_task_pos k =? 0) || (runn_task_num k =? 1)) with true
      by (destruct Hc as [-> | ->]; [done | by rewrite orb_true_r]).
    cbn [orb]. bstep. change (k_fs (set_if false k)) with (k_fs k). rewrite Hr. do 3 bstep.
    change (0 =? -1) with false. cbv iota. rewrite Hino.
    erewrite bind_ok by (rewrite Hrd; reflexivity). cbv beta iota. bstep.
    rewrite He2, set_kmem_twice. reflexivity.
  - exists m2, i. split; [done|]. intros b Hb. apply S2.
    + destruct (fo_dentry _ _ Hfr). lia.
    + destruct (fo_buf _ _ Hfr). lia.
Qed.
