(* ===== verification/Line.v ===== *)
(** * The line buffer and the terminal driver
      (keyboard.c: keyboard_buffer_edit; terminal.c: open, read, write, close)

    Keys fill the line buffer; Enter hands the line to a waiting
    [terminal_read].  [terminal_read] is split where it waits:
    [terminal_read_begin] is the code before the loop ([Some] when it
    returns at once), [terminal_read_poll] one test of the flag and, when it
    is set, the rest of the function. *)

From Stdlib Require Import ZArith Lia.
From stdpp Require Import base numbers list gmap.
From S2P Require Import Prelude Mem CString Console.

Local Open Scope Z_scope.

(** ** The code *)

Definition kb_add (data : Z) : ST tty unit :=
  pos ← gets kb_buffer_position;
  if pos =? BUF_SIZE then mret tt
  else
    putc data ;;
    pos ← gets kb_buffer_position;
    kb ← gets keyboard_buffer;
    kb' ← liftR (aset kb pos data);
    modify (set_keyboard_buffer kb') ;;
    modify (set_kb_buffer_position (u8 (pos + 1))).

Definition kb_delete : ST tty unit :=
  pos ← gets kb_buffer_position;
  if pos =? 0 then mret tt
  else
    backspace ;;
    pos ← gets kb_buffer_position;
    modify (set_kb_buffer_position (u8 (pos - 1))) ;;
    pos ← gets kb_buffer_position;
    kb ← gets keyboard_buffer;
    kb' ← liftR (aset kb pos 0);
    modify (set_keyboard_buffer kb').

(** Enter in normal mode. *)
Definition kb_enter : ST tty unit :=
  ind ← gets ter_read_indicator;
  when (ind =? 1) (
    kb ← gets keyboard_buffer;
    rb ← gets ter_read_buffer;
    let rb := forz 0 BUF_SIZE (fun i rb => <[Z.to_nat i := anth 0 kb i]> rb) rb in
    modify (set_ter_read_buffer rb) ;;
    pos ← gets kb_buffer_position;
    (if pos <? BUF_SIZE then
       rb1 ← liftR (aset rb pos LF);
       rb2 ← liftR (aset rb1 (pos + 1) 0);
       modify (set_ter_read_buffer rb2) ;;
       modify (set_ter_read_buf_size (pos + 1))
     else modify (set_ter_read_buf_size BUF_SIZE)) ;;
    modify (set_cross_enter_flag 1)) ;;
  keyboard_buffer_reset ;;
  putc LF.

Definition keyboard_buffer_edit (indicator data : Z) : ST tty unit :=
  if indicator =? 1 then kb_add data
  else if indicator =? 0 then kb_delete
  else if indicator =? 2 then reset
  else if indicator =? 3 then kb_enter
  else mret tt.

Definition terminal_open : ST tty Z := reset ;; mret 0.

Definition terminal_read_begin : ST tty (option Z) :=
  modify (set_ter_read_indicator 1) ;;
  ef ← gets enter_flag;
  mret (if ef =? 0 then None else Some (-1)).

(** The copy loop; [n] counts down [i < BUF_SIZE]. *)
Fixpoint read_copy (n : nat) (i buf nbytes : Z) (rb : list Z) (m : mem) : mem * Z :=
  match n with
  | O => (m, i)
  | S n =>
      if (i <? nbytes) && negb (anth 0 rb i =? 0)
      then read_copy n (i + 1) buf nbytes rb (mset m (buf + i) (anth 0 rb i))
      else (m, i)
  end.

Definition terminal_read_poll (buf nbytes : Z) : ST tty (option Z) :=
  cross ← gets cross_enter_flag;
  if cross =? 0 then mret None
  else
    modify (set_cross_enter_flag 0) ;;
    cli ;;
    rb ← gets ter_read_buffer;
    m ← gets t_mem;
    let '(m', i) := read_copy (Z.to_nat BUF_SIZE) 0 buf nbytes rb m in
    modify (set_t_mem (mset m' (buf + (i + 1)) 0)) ;;
    size ← gets ter_read_buf_size;
    let ret := if u32 nbytes <? size then nbytes else i in
    sti ;;
    modify (set_ter_read_indicator 0) ;;
    mret (Some ret).

(** [putc(buffer[i])] for [i < nbytes], reading the buffer as it goes. *)
Definition write_step (buf nbytes : Z) (st : tty * Z) : (tty * Z) + res (Z * tty) :=
  let '(s, i) := st in
  if i <? nbytes then
    match putc (mget (t_mem s) (buf + i)) s with
    | Ok (_, s') => inl (s', i + 1)
    | Err e => inr (Err e)
    end
  else inr (Ok (i + 1, s)).

Definition terminal_write (buf nbytes : Z) : ST tty Z :=
  cli ;;
  ret ← (fun s => while (write_step buf nbytes) (s, 0));
  sti ;;
  mret ret.

Definition terminal_close : Z := 0.

(** ** The line editor

    Specification: a line of at most 128 characters; a key appends to it or
    removes its last character. *)

Inductive key := KChar (c : Z) | KBack.

Definition edit_line (line : list Z) (k : key) : list Z :=
  match k with
  | KChar c => if zlen line =? 128 then line else line ++ [c]
  | KBack => removelast line
  end.

Definition edit_view (line : list Z) (v : view) (k : key) : view :=
  match k with
  | KChar c => if zlen line =? 128 then v else abs_putc c v
  | KBack => if zlen line =? 0 then v else abs_backspace v
  end.

Definition press (k : key) : ST tty unit :=
  match k with
  | KChar c => keyboard_buffer_edit 1 c
  | KBack => keyboard_buffer_edit 0 SP
  end.

Fixpoint press_all (ks : list key) : ST tty unit :=
  match ks with [] => mret tt | k :: ks => press k ;; press_all ks end.

(** The line and the screen after a sequence of keys. *)
Definition edit_lines (line : list Z) (ks : list key) : list Z := foldl edit_line line ks.
Fixpoint edit_views (line : list Z) (v : view) (ks : list key) : view :=
  match ks with
  | [] => v
  | k :: ks => edit_views (edit_line line k) (edit_view line v k) ks
  end.

(** The buffer holds the line [line], zeros after it. *)
Definition holds_line (s : tty) (line : list Z) : Prop :=
  keyboard_buffer s = line ++ replicate (128 - List.length line) 0 /\
  kb_buffer_position s = zlen line /\ zlen line <= 128.

(** What a key changes: nothing of the reader, and in normal mode. *)
Record keys_frame (s s' : tty) : Prop := {
  kf_mem : forall b, off_screen b -> mget (t_mem s') b = mget (t_mem s) b;
  kf_if : t_if s' = t_if s;
  kf_enter : enter_flag s' = enter_flag s;
  kf_cross : cross_enter_flag s' = cross_enter_flag s;
  kf_buf : ter_read_buffer s' = ter_read_buffer s;
  kf_size : ter_read_buf_size s' = ter_read_buf_size s;
  kf_ind : ter_read_indicator s' = ter_read_indicator s;
  kf_cap : cap_flag s' = cap_flag s;
  kf_shift : shift_flag s' = shift_flag s;
  kf_control : control_flag s' = control_flag s;
  kf_alt : alt_flag s' = alt_flag s;
}.

#[export] Instance keys_frame_refl : Reflexive keys_frame.
Proof. by constructor. Qed.
#[export] Instance keys_frame_trans : Transitive keys_frame.
Proof.
  intros s1 s2 s3 [A1] [B1]. constructor; [|congruence..]. intros b Hb. by rewrite B1, A1.
Qed.

Lemma prints_keys s s' : prints s s' -> keys_frame s s'.
Proof. intros []. by constructor. Qed.

Lemma insert_end line n c :
  (List.length line < n)%nat ->
  <[List.length line := c]> (line ++ replicate (n - List.length line) 0) =
  (line ++ [c]) ++ replicate (n - List.length (line ++ [c])) 0.
Proof.
  intros Hl. rewrite length_app. cbn [List.length].
  replace (n - List.length line)%nat with (S (n - (List.length line + 1))) by lia.
  cbn [replicate]. rewrite insert_app_r_alt, Nat.sub_diag by lia. cbn.
  by rewrite <-app_assoc.
Qed.

Lemma press_char_spec c line s :
  tty_wf s -> enter_flag s = 0 -> holds_line s line ->
  wp (press (KChar c)) (fun _ s' => tty_wf s' /\ keys_frame s s' /\
    holds_line s' (edit_line line (KChar c)) /\
    forall v, shows s v -> shows s' (edit_view line v (KChar c))) s.
Proof.
  intros Hwf He (Hk & Hp & Hl). cbn [press edit_line edit_view].
  unfold keyboard_buffer_edit. cbn [Z.eqb Pos.eqb]. unfold kb_add, BUF_SIZE. wsteps.
  rewrite Hp. destruct (zlen line =? 128) eqn:E.
  { wsteps. split_and!; done. }
  wsteps. eapply wp_mono; [by apply putc_spec|].
  intros [] s1 (Hwf1 & Hpr & _ & Hv). wsteps.
  destruct (pr_normal _ _ Hpr ltac:(lia)) as (E1 & E2 & _).
  rewrite E1, E2, Hk, Hp.
  eapply wp_liftR; [apply aset_ok; rewrite length_app, length_replicate; lia|]. wsteps.
  rewrite Nat2Z.id, insert_end by lia.
  assert (Hl' : zlen (line ++ [c]) = zlen line + 1) by (rewrite length_app; cbn; lia).
  split_and!.
  - destruct Hwf1. constructor; cbn [set_kb_buffer_position set_keyboard_buffer]; try done.
    + cbn. rewrite length_app, length_replicate. lia.
    + apply u8_range.
  - apply prints_keys in Hpr. destruct Hpr. by constructor.
  - split_and!; [done | cbn; rewrite u8_small, Hl' by lia; done | lia].
  - exact Hv.
Qed.

Lemma removelast_len (l : list Z) : 0 < zlen l -> zlen (removelast l) = zlen l - 1.
Proof.
  intros H. destruct l as [|c l] using rev_ind; [cbn in H; lia|].
  rewrite removelast_last, length_app. cbn. lia.
Qed.

Lemma delete_end line n :
  (0 < List.length line <= n)%nat ->
  <[(List.length line - 1)%nat := 0]> (line ++ replicate (n - List.length line) 0) =
  removelast line ++ replicate (n - List.length (removelast line)) 0.
Proof.
  intros Hl. destruct line as [|c line] using rev_ind; [cbn in Hl; lia|].
  rewrite removelast_last. rewrite length_app in *. cbn [List.length] in *.
  replace (List.length line + 1 - 1)%nat with (List.length line) by lia.
  rewrite <-app_assoc, insert_app_r_alt, Nat.sub_diag by lia. cbn.
  replace (n - List.length line)%nat with (S (n - (List.length line + 1))) by lia. done.
Qed.

Lemma press_back_spec line s :
  tty_wf s -> enter_flag s = 0 -> holds_line s line ->
  wp (press KBack) (fun _ s' => tty_wf s' /\ keys_frame s s' /\
    holds_line s' (edit_line line KBack) /\
    forall v, shows s v -> shows s' (edit_view line v KBack)) s.
Proof.
  intros Hwf He (Hk & Hp & Hl). cbn [press edit_line edit_view].
  unfold keyboard_buffer_edit. cbn [Z.eqb Pos.eqb]. unfold kb_delete. wsteps.
  rewrite Hp. destruct (zlen line =? 0) eqn:E.
  { assert (line = []) as -> by (apply nil_length_inv; lia). wsteps. split_and!; done. }
  wsteps. eapply wp_mono; [apply backspace_normal_spec; [done | lia]|].
  intros [] s1 (Hwf1 & Hpr & _ & Hv). wsteps.
  destruct (pr_normal _ _ Hpr ltac:(lia)) as (E1 & E2 & _).
  cbn [kb_buffer_position keyboard_buffer set_kb_buffer_position].
  rewrite E1, E2, Hk, Hp, u8_small by lia.
  eapply wp_liftR; [apply aset_ok; rewrite length_app, length_replicate; lia|]. wsteps.
  replace (Z.to_nat (zlen line - 1)) with (List.length line - 1)%nat by lia.
  rewrite delete_end by lia.
  assert (Hl' : zlen (removelast line) = zlen line - 1) by (apply removelast_len; lia).
  split_and!.
  - destruct Hwf1. constructor; try done.
    + cbn. rewrite length_app, length_replicate. lia.
    + cbn. lia.
  - apply prints_keys in Hpr. destruct Hpr. by constructor.
  - split_and!; [done | cbn; lia | lia].
  - exact Hv.
Qed.

Lemma press_all_spec ks line s :
  tty_wf s -> enter_flag s = 0 -> holds_line s line ->
  wp (press_all ks) (fun _ s' => tty_wf s' /\ keys_frame s s' /\
    holds_line s' (edit_lines line ks) /\
    forall v, shows s v -> shows s' (edit_views line v ks)) s.
Proof.
  revert line s. induction ks as [|k ks IH]; intros line s Hwf He Hl; [done|].
  cbn [press_all]. apply wp_bind. eapply wp_mono.
  { destruct k; [by apply press_char_spec | by apply press_back_spec]. }
  intros [] s1 (Hwf1 & Hf1 & Hl1 & Hv1). eapply wp_mono.
  { apply IH; [done | by rewrite (kf_enter _ _ Hf1) | exact Hl1]. }
  intros [] s2 (Hwf2 & Hf2 & Hl2 & Hv2). split_and!; [done | by etrans | done|].
  intros v Hv. cbn [edit_views]. by apply Hv2, Hv1.
Qed.

(** ** Enter and the reader *)

Lemma copy_kb (kb rb : list Z) :
  zlen kb = 128 -> zlen rb = 128 ->
  forz 0 128 (fun i rb => <[Z.to_nat i := anth 0 kb i]> rb) rb = kb.
Proof.
  intros Hk Hr. rewrite (forz_insert (anth 0 kb)) by done.
  apply (anth_eq 0); rewrite length_map, length_seq; [lia|].
  intros i Hi. unfold anth.
  set (h := fun k : nat => nth (Z.to_nat (Z.of_nat k)) kb 0).
  rewrite (nth_indep _ 0 (h 0%nat)) by (rewrite length_map, length_seq; lia).
  rewrite map_nth, seq_nth by lia. unfold h. f_equal. lia.
Qed.

(** The line that was handed over is in the reader's buffer. *)
Definition delivered (s : tty) (line : list Z) : Prop :=
  cross_enter_flag s = 1 /\ ter_read_buf_size s = zlen line /\ zlen line <= 128 /\
  ter_read_buffer s = line ++ replicate (128 - List.length line) 0.

Lemma reset_line s :
  zlen (keyboard_buffer s) = 128 ->
  keyboard_buffer_reset s = Ok (tt, set_kb_buffer_position 0
    (set_keyboard_buffer (replicate 128 0) s)).
Proof.
  intros Hk. unfold keyboard_buffer_reset, modify, BUF_SIZE. rewrite zero_array by done.
  by replace (List.length (keyboard_buffer s)) with 128%nat by lia.
Qed.

(** Enter in normal mode hands the line to the reader, newline included,
    and empties the buffer. *)
Lemma kb_enter_spec line s :
  tty_wf s -> enter_flag s = 0 -> holds_line s line -> ter_read_indicator s = 1 ->
  zlen line <= 126 ->
  wp (keyboard_buffer_edit 3 LF) (fun _ s' => tty_wf s' /\
    delivered s' (line ++ [LF]) /\ holds_line s' [] /\ enter_flag s' = 0 /\
    (forall b, off_screen b -> mget (t_mem s') b = mget (t_mem s) b) /\
    (cap_flag s' = cap_flag s /\ shift_flag s' = shift_flag s /\
     control_flag s' = control_flag s /\ alt_flag s' = alt_flag s) /\
    forall v, shows s v -> shows s' (abs_putc LF v)) s.
Proof.
  intros Hwf He (Hk & Hp & Hl) Hind Hlen.
  unfold keyboard_buffer_edit. cbn [Z.eqb Pos.eqb]. unfold kb_enter, BUF_SIZE. wsteps.
  rewrite Hind. cbn [Z.eqb Pos.eqb when]. wsteps.
  rewrite copy_kb by apply Hwf. cbn [kb_buffer_position set_ter_read_buffer].
  rewrite Hp, (proj2 (Z.ltb_lt _ _)) by lia. wsteps. rewrite Hk.
  eapply wp_liftR; [apply aset_ok; rewrite length_app, length_replicate; lia|].
  rewrite Nat2Z.id, insert_end by lia. wsteps.
  assert (Hl1 : zlen (line ++ [LF]) = zlen line + 1) by (rewrite length_app; cbn; lia).
  eapply wp_liftR; [apply aset_ok; rewrite length_app, length_replicate; lia|].
  replace (Z.to_nat (zlen line + 1)) with (List.length (line ++ [LF])) by lia.
  rewrite insert_end by lia. wsteps.
  set (s1 := set_cross_enter_flag 1 _).
  assert (Hz : (line ++ [LF]) ++ [0] ++ replicate (128 - List.length ((line ++ [LF]) ++ [0])) 0
    = (line ++ [LF]) ++ replicate (128 - List.length (line ++ [LF])) 0).
  { f_equal. rewrite (length_app (line ++ [LF])). cbn [List.length app].
    replace (128 - List.length (line ++ [LF]))%nat
      with (S (128 - (List.length (line ++ [LF]) + 1))) by lia. done. }
  assert (Hkb : keyboard_buffer s1 = keyboard_buffer s) by done.
  assert (Hrb : ter_read_buffer s1 = (line ++ [LF]) ++
    replicate (128 - List.length (line ++ [LF])) 0)
    by (rewrite <-Hz, app_assoc; done).
  eapply wp_ok; [apply reset_line; rewrite Hkb; apply Hwf|].
  set (s2 := set_kb_buffer_position 0 _).
  assert (Hwf2 : tty_wf s2).
  { destruct Hwf. constructor; try done.
    change (ter_read_buffer s2) with (ter_read_buffer s1).
    rewrite Hrb, length_app, length_replicate. lia. }
  eapply wp_mono; [by apply putc_spec|].
  intros [] s3 (Hwf3 & Hpr & _ & Hv).
  destruct (pr_normal _ _ Hpr) as (E1 & E2 & _); [change (enter_flag s2) with (enter_flag s); lia|].
  split_and!; [done| | | |exact (pr_mem _ _ Hpr) | exact (pr_cap _ _ Hpr) | exact (pr_shift _ _ Hpr)
    | exact (pr_control _ _ Hpr) | exact (pr_alt _ _ Hpr) | exact Hv].
  - split_and!; [by rewrite (pr_cross _ _ Hpr) | rewrite (pr_size _ _ Hpr), Hl1; done
      | lia | rewrite (pr_buf _ _ Hpr); exact Hrb].
  - split_and!; [by rewrite E1 | by rewrite E2 | cbn; lia].
  - rewrite (pr_enter _ _ Hpr). exact He.
Qed.

(** C40: A line of 127 characters has its terminator written past the end of the
    reader's buffer. *)
Theorem kb_enter_overflow line s :
  tty_wf s -> holds_line s line -> ter_read_indicator s = 1 -> zlen line = 127 ->
  keyboard_buffer_edit 3 LF s = Err OutOfBounds.
Proof.
  intros Hwf (Hk & Hp & Hl) Hind Hlen. unfold keyboard_buffer_edit. cbn [Z.eqb Pos.eqb].
  unfold kb_enter, BUF_SIZE. bstep. rewrite Hind. cbn [Z.eqb Pos.eqb when].
  apply bind_err. do 3 bstep. rewrite copy_kb by apply Hwf. bstep.
  change (kb_buffer_position (set_ter_read_buffer _ s)) with (kb_buffer_position s).
  rewrite Hp, (proj2 (Z.ltb_lt _ _)) by lia. apply bind_err.
  erewrite bind_ok by (rewrite aset_ok by (rewrite Hk, length_app, length_replicate; lia); reflexivity).
  apply bind_err. rewrite aset_oob; [done|].
  rewrite length_insert, (wf_kb _ Hwf). lia.
Qed.

Lemma read_copy_spec n i buf nbytes line rb m :
  (forall j, 0 <= j < zlen line -> anth 0 rb j = anth 0 line j /\ anth 0 line j <> 0) ->
  (zlen line < 128 -> anth 0 rb (zlen line) = 0) ->
  Forall (fun c => 0 <= c < 256) line ->
  0 <= i <= zlen line -> i <= Z.max 0 nbytes -> zlen line <= 128 -> i + Z.of_nat n = 128 ->
  let r := Z.max 0 (Z.min nbytes (zlen line)) in
  exists m', read_copy n i buf nbytes rb m = (m', r) /\
    updated m m' (buf + i) (r - i) (fun k => anth 0 line (i + k)).
Proof.
  intros Hrb H0 HF. revert i m.
  induction n as [|n IH]; intros i m Hi Hin Hl Hn; cbv zeta.
  - exists m. cbn. replace (Z.max 0 (Z.min nbytes (zlen line))) with i by lia.
    split; [done|]. rewrite Z.sub_diag. apply updated_0.
  - cbn [read_copy]. destruct (i <? nbytes) eqn:En; cbn [andb].
    + destruct (decide (i = zlen line)) as [->|Hne].
      * rewrite H0 by lia. cbn. exists m.
        replace (Z.max 0 (Z.min nbytes (zlen line))) with (zlen line) by lia.
        split; [done|]. rewrite Z.sub_diag. apply updated_0.
      * destruct (Hrb i ltac:(lia)) as [Er Hnz]. rewrite Er.
        rewrite (proj2 (Z.eqb_neq _ _) Hnz). cbn [negb].
        destruct (IH (i + 1) (mset m (buf + i) (anth 0 line i))) as (m' & -> & Hu); try lia.
        exists m'. split; [done|]. intros b. rewrite Hu, mget_mset.
        assert (Hc : 0 <= anth 0 line i < 256).
        { rewrite Forall_forall in HF. apply HF. unfold anth.
          apply list_elem_of_In, nth_In. lia. }
        rewrite u8_small by lia.
        repeat case_decide; try lia; try done; [f_equal; lia | subst; f_equal; lia].
    + exists m. replace (Z.max 0 (Z.min nbytes (zlen line))) with i by lia.
      split; [done|]. rewrite Z.sub_diag. apply updated_0.
Qed.

(** [terminal_read] gives the reader the line, cut to the size asked for,
    and puts a zero one byte after the byte that follows it. *)
Lemma terminal_read_spec s line buf nbytes :
  delivered s line -> Forall (fun c => 0 < c < 256) line ->
  0 <= nbytes < 2147483648 ->
  let r := Z.min nbytes (zlen line) in
  wp (terminal_read_poll buf nbytes) (fun v s' => v = Some r /\
    mbytes (t_mem s') buf (Z.to_nat r) = take (Z.to_nat r) line /\
    (forall b, (b < buf \/ buf + r <= b) -> b <> buf + r + 1 ->
       mget (t_mem s') b = mget (t_mem s) b) /\
    mget (t_mem s') (buf + r + 1) = 0 /\
    cross_enter_flag s' = 0 /\ ter_read_indicator s' = 0 /\ t_if s' = true /\
    s' = set_ter_read_indicator 0 (set_cross_enter_flag 0 (set_t_mem (t_mem s') (set_t_if true s)))) s.
Proof.
  intros (Hc & Hs & Hl & Hb) HF Hn r. rewrite Forall_forall in HF.
  assert (HF' : forall j, 0 <= j < zlen line -> 0 < anth 0 line j < 256).
  { intros j Hj. apply HF. unfold anth. apply list_elem_of_In, nth_In. lia. }
  destruct (read_copy_spec 128 0 buf nbytes line (ter_read_buffer s) (t_mem s))
    as (m' & Hcp & Hu); try lia.
  { intros j Hj. rewrite Hb, anth_app, decide_True by lia.
    split; [done|]. pose proof (HF' j Hj). lia. }
  { intros Hlt. rewrite Hb, anth_app, decide_False by lia.
    rewrite anth_replicate by lia. done. }
  { apply Forall_forall. intros c Hin. specialize (HF c Hin). lia. }
  replace (Z.max 0 (Z.min nbytes (zlen line))) with r in * by lia.
  unfold terminal_read_poll. wsteps. rewrite Hc. cbn [Z.eqb]. wsteps. unfold cli. wsteps.
  change (Z.to_nat BUF_SIZE) with 128%nat.
  cbn [ter_read_buffer t_mem set_t_if set_cross_enter_flag].
  rewrite Hcp. wsteps. unfold sti. wsteps.
  cbn [ter_read_buf_size set_t_if set_cross_enter_flag set_t_mem].
  rewrite Hs, u32_small by lia. split_and!; try done.
  - f_equal. destruct (nbytes <? zlen line) eqn:E; lia.
  - cbn. apply (anth_eq 0); rewrite length_mbytes; [rewrite length_take; lia|].
    intros j Hj. rewrite anth_mbytes, mget_mset_ne, Hu, decide_True by lia.
    unfold anth. rewrite !nth_lookup, lookup_take_lt by lia. do 2 f_equal. lia.
  - intros b Hb1 Hb2. cbn. rewrite mget_mset_ne, Hu, decide_False by lia. done.
  - cbn. replace (buf + r + 1) with (buf + (r + 1)) by lia. by rewrite mget_mset_eq.
Qed.

(** No line yet: the reader keeps waiting and nothing changes. *)
Lemma terminal_read_waits s buf nbytes :
  cross_enter_flag s = 0 -> terminal_read_poll buf nbytes s = Ok (None, s).
Proof. intros H. unfold terminal_read_poll. bstep. by rewrite H. Qed.

(** [terminal_write] prints the bytes of the buffer; it returns one more
    than their number. *)
Lemma terminal_write_spec buf nbytes s :
  tty_wf s -> 0 <= nbytes < 2147483648 ->
  (forall i, 0 <= i < nbytes -> off_screen (buf + i)) ->
  wp (terminal_write buf nbytes) (fun r s' => r = nbytes + 1 /\
    tty_wf s' /\ t_if s' = true /\
    (forall b, off_screen b -> mget (t_mem s') b = mget (t_mem s) b) /\
    prints (set_t_if true s) s' /\
    forall v, shows s v ->
      shows s' (abs_puts (mbytes (t_mem s) buf (Z.to_nat nbytes)) v)) s.
Proof.
  intros Hwf Hn Hoff. unfold terminal_write. apply wp_bind. unfold cli. apply wp_modify.
  set (s0 := set_t_if false s). apply wp_bind. unfold wp at 1.
  assert (Hwf0 : tty_wf s0) by (destruct Hwf; by constructor).
  assert (H : match while (write_step buf nbytes) (s0, 0) with
    | Ok (r, s') => r = nbytes + 1 /\ prints_text (mbytes (t_mem s) buf (Z.to_nat nbytes)) s0 s'
    | Err _ => False end).
  { apply (while_rule (write_step buf nbytes)
      (fun st => 0 <= snd st <= nbytes /\
        prints_text (mbytes (t_mem s) buf (Z.to_nat (snd st))) s0 (fst st))
      (fun st => nbytes - snd st)); cbn [fst snd].
    - split; [lia | by apply prints_text_nil].
    - lia.
    - intros [s1 i] [Hi H1]. cbn [fst snd] in *. unfold write_step.
      destruct (i <? nbytes) eqn:E.
      + destruct (wp_inv _ _ _ (putc_spec (mget (t_mem s1) (buf + i)) s1 (proj1 H1)))
          as (? & s2 & -> & H2). cbn [fst snd]. split; [|lia]. split; [lia|].
        replace (Z.to_nat (i + 1)) with (Z.to_nat i + 1)%nat by lia.
        rewrite mbytes_app. replace (buf + Z.of_nat (Z.to_nat i)) with (buf + i) by lia.
        rewrite (pr_mem _ _ (proj1 (proj2 H1))) in H2 by (apply Hoff; lia).
        change (mbytes (t_mem s) (buf + i) 1) with [mget (t_mem s) (buf + i + 0)].
        rewrite Z.add_0_r. by eapply prints_text_snoc.
      + replace (Z.to_nat nbytes) with (Z.to_nat i) by lia. split; [lia | done]. }
  destruct (while _ _) as [[r s1]|]; [|done]. destruct H as [-> (Hwf1 & Hpr & Hv)].
  unfold sti. wsteps.
  split_and!; [done | by destruct Hwf1 | done | exact (pr_mem _ _ Hpr) | by destruct Hpr | exact Hv].
Qed.

(** ** The property of writing *)

(** [terminal_write] prints the bytes of the program's buffer on the grid,
    in their order, leaves memory off the screen alone and interrupts on,
    and ends; what it returns is one more than the number of bytes. *)
Theorem terminal_write_prints buf nbytes s v :
  tty_wf s -> 0 <= nbytes < 2147483648 ->
  (forall i, 0 <= i < nbytes -> off_screen (buf + i)) -> shows s v ->
  exists s', terminal_write buf nbytes s = Ok (nbytes + 1, s') /\ tty_wf s' /\ t_if s' = true /\
    (forall b, off_screen b -> mget (t_mem s') b = mget (t_mem s) b) /\
    shows s' (abs_puts (mbytes (t_mem s) buf (Z.to_nat nbytes)) v).
Proof.
  intros Hwf Hn Hoff Hv. destruct (wp_inv _ _ _ (terminal_write_spec buf nbytes s Hwf Hn Hoff))
    as (r & s' & Hr & -> & H1 & H2 & H3 & _ & H4). exists s'. split_and!; auto.
Qed.
