(* ===== verification/Syscall.v ===== *)
(** * The system calls on files (syscall.c)

    [open], [close], [read], [write], [getargs], [vidmap] and the wrappers
    of the file system they lead to.  A pointer argument is the physical
    address the page tables give it (Paging.v); [vidmap] compares the
    virtual address, so it takes both.

    A descriptor names its operations by the address of a jump table; the
    five tables of syscall.c are told apart by [fop_kind].  [read] of the
    terminal or of the clock waits: [read] is the code up to the wait
    ([None] when it waits) and [read_poll] one test of the condition. *)

From Stdlib Require Import ZArith Lia String Ascii.
From stdpp Require Import base numbers list gmap.
From S2P Require Import Prelude Mem CString FileSys Console Printf Machine Pic Paging Rtc Pcb.
From S2P Require Import Exec Line.

Local Open Scope Z_scope.

(** ** The code *)

Inductive fkind := FStdin | FStdout | FRtc | FDir | FFile.

#[export] Instance fkind_eq_dec : EqDecision fkind.
Proof. solve_decision. Defined.

Definition fop_addr (lay : layout) (kd : fkind) : Z :=
  match kd with
  | FStdin => stdin_op_table lay
  | FStdout => stdout_op_table lay
  | FRtc => rtc_fop_table lay
  | FDir => fs_dir_fop_table lay
  | FFile => file_fop_table lay
  end.

Definition fop_kind (lay : layout) (a : Z) : option fkind :=
  if a =? stdin_op_table lay then Some FStdin
  else if a =? stdout_op_table lay then Some FStdout
  else if a =? rtc_fop_table lay then Some FRtc
  else if a =? fs_dir_fop_table lay then Some FDir
  else if a =? file_fop_table lay then Some FFile
  else None.

(** The descriptor [fd] of the current task. *)
Definition curr_pcb (k : kernel) : Z := pcb_at (curr_task_pos k).
Definition curr_fd (fd : Z) (k : kernel) : fdesc := fd_at (kmem k) (curr_pcb k) fd.

(** [dentry] is the address of the local of [filesys_read_helper]. *)
Definition filesys_read (dentry fd buf nbytes : Z) : ST kernel Z :=
  pcb ← gets curr_pcb;
  fs ← gets k_fs;
  m ← gets kmem;
  '(n, fs', m') ← liftR (filesys_read_helper fs m dentry (file_name_at pcb fd)
      (load32 m (fa_file_pos pcb fd)) buf (u32 nbytes));
  modify (set_k_fs fs') ;;
  modify (set_kmem (store32 m' (fa_file_pos pcb fd)
    (load_s32 m' (fa_file_pos pcb fd) + n))) ;;
  mret n.

Definition fs_dir_read (dentry fd buf nbytes : Z) : ST kernel Z :=
  pcb ← gets curr_pcb;
  fs ← gets k_fs;
  m ← gets kmem;
  '(n, fs', m') ← liftR
    (fs_dir_ls_read_helper fs m dentry (file_name_at pcb fd) buf);
  modify (set_k_fs fs') ;;
  modify (set_kmem m') ;;
  mret n.

(** The checks [read] and [write] share; [None] is a return of -1. *)
Definition fd_check (lay : layout) (fd : Z) (k : kernel) : res (option fkind) :=
  if (fd <? 0) || (MAXOPENFILE - 1 <? fd) then Ok None
  else
    let d := curr_fd fd k in
    if (d_flags d =? 0) || (d_fop d =? 0) then Ok None
    else match fop_kind lay (d_fop d) with
         | Some kd => Ok (Some kd)
         | None => Err OutOfBounds
         end.

Definition read (lay : layout) (dentry fd buf nbytes : Z) : ST kernel (option Z) :=
  kd ← (fun k => liftR (fd_check lay fd k) k);
  match kd with
  | Some FStdin => on_tty terminal_read_begin
  | Some FRtc => rtc_read_begin ;; mret None
  | Some FDir => r ← fs_dir_read dentry fd buf nbytes; mret (Some r)
  | Some FFile => r ← filesys_read dentry fd buf nbytes; mret (Some r)
  | Some FStdout | None => mret (Some (-1))
  end.

Definition read_poll (lay : layout) (fd buf nbytes : Z) : ST kernel (option Z) :=
  kd ← (fun k => liftR (fd_check lay fd k) k);
  match kd with
  | Some FStdin => on_tty (terminal_read_poll buf nbytes)
  | Some FRtc => rtc_read_poll
  | _ => mret (Some (-1))
  end.

(** [prev] is what the clock answers if it is written to. *)
Definition write (lay : layout) (prev fd buf nbytes : Z) : ST kernel Z :=
  kd ← (fun k => liftR (fd_check lay fd k) k);
  match kd with
  | Some FStdout => on_tty (terminal_write buf nbytes)
  | Some FRtc => rtc_write prev fd buf nbytes
  | Some FDir => mret fs_dir_write
  | Some FFile => mret filesys_write
  | Some FStdin | None => mret (-1)
  end.

(** The search of a free descriptor: [None] is a return of -1; [Some d] is
    the value of [available_fd], [d] being [None] when the loop ends without
    assigning it. *)
Fixpoint find_fd (n : nat) (i : Z) (m : mem) (pcb : Z) : option (option Z) :=
  match n with
  | O => Some None
  | S n =>
      if load_s32 m (fa_flags pcb i) =? 0 then Some (Some i)
      else if load_s32 m (fa_flags pcb (MAXOPENFILE - 1)) =? 1 then None
      else find_fd n (i + 1) m pcb
  end.

Definition assigned (v : option Z) : res Z :=
  match v with Some x => Ok x | None => Err Uninit end.

(** The three cases of the switch on the file type differ in the table. *)
Definition open_fill (pcb fd fop dentry filename : Z) (m : mem) : res mem :=
  let m := set_fd pcb fd fop (dentry + 36) 0 1 m in
  let* m := strcpy m (file_name_at pcb fd) filename in
  Ok (store32 m (open_file_num pcb) (load32 m (open_file_num pcb) + 1)).

(** [open] after the names of the terminal have been ruled out.  [dentry] is
    the address of the local [dentry]; the address of its field
    [inode_index] is stored in the block. *)
Definition open_file (lay : layout) (pcb dentry filename : Z) : ST kernel Z :=
  fs ← gets k_fs;
  m ← gets kmem;
  '(r, fs', m') ← liftR (read_dentry_by_name fs m filename dentry);
  modify (set_k_fs fs') ;;
  modify (set_kmem m') ;;
  if (r =? -1) || (load_s32 m' (open_file_num pcb) =? MAXOPENFILE) then mret (-1)
  else
    match find_fd 6 2 m' pcb with
    | None => mret (-1)
    | Some available_fd =>
        let file_type := load32 m' (dentry + 32) in
        if file_type =? 0 then
          fd ← liftR (assigned available_fd);
          m'' ← liftR (open_fill pcb fd (rtc_fop_table lay) dentry filename m');
          modify (set_kmem m'') ;; mret fd
        else if file_type =? 1 then
          fd ← liftR (assigned available_fd);
          m'' ← liftR (open_fill pcb fd (fs_dir_fop_table lay) dentry filename m');
          modify (set_kmem m'') ;; mret fd
        else if file_type =? 2 then
          fd ← liftR (assigned available_fd);
          m'' ← liftR (open_fill pcb fd (file_fop_table lay) dentry filename m');
          modify (set_kmem m'') ;; mret fd
        else mret (-1)
    end.

Definition open (lay : layout) (dentry filename : Z) : ST kernel Z :=
  kcli ;;
  pcb ← gets curr_pcb;
  m ← gets kmem;
  c1 ← liftR (strncmp m filename (lit_stdin lay) 5);
  if c1 =? 0 then mret 0
  else
    c2 ← liftR (strncmp m filename (lit_stdout lay) 6);
    if c2 =? 0 then mret 0
    else open_file lay pcb dentry filename.

(** The assignments of [close]. *)
Definition close_fill (pcb fd : Z) (m : mem) : mem :=
  let m := store32 m (fa_flags pcb fd) 0 in
  let m := store32 m (fa_file_pos pcb fd) 0 in
  let m := store32 m (fa_fop_table pcb fd) 0 in
  let m := store32 m (fa_inode pcb fd) 0 in
  store32 m (open_file_num pcb) (load32 m (open_file_num pcb) - 1).

(** The close operations of the three tables do nothing and return 0. *)
Definition close (lay : layout) (fd : Z) : ST kernel Z :=
  kcli ;;
  pcb ← gets curr_pcb;
  m ← gets kmem;
  if (fd <? 2) || (MAXOPENFILE - 1 <? fd) || (load_s32 m (open_file_num pcb) <=? 2)
  then mret (-1)
  else
    let fop := load32 m (fa_fop_table pcb fd) in
    if fop =? 0 then fail NullDeref
    else
      match fop_kind lay fop with
      | Some FRtc | Some FDir | Some FFile =>
          modify (set_kmem (close_fill pcb fd m)) ;; mret 0
      | Some FStdin | Some FStdout => fail NullDeref
      | None => fail OutOfBounds
      end.

(** [strlen(arg_buffer) > nbytes] compares as unsigned. *)
Definition getargs (buf nbytes : Z) : ST kernel Z :=
  kcli ;;
  pcb ← gets curr_pcb;
  m ← gets kmem;
  if (buf =? 0) || (nbytes =? 0) then mret (-1)
  else
    n ← liftR (strlen m (arg_buffer pcb));
    if (u32 nbytes <? n) || (n =? 0) then mret (-1)
    else
      m' ← liftR (strcpy m buf (arg_buffer pcb));
      modify (set_kmem m') ;;
      mret 0.

Definition OTEMBVIR : Z := 134217728.   (* 0x08000000 *)
Definition OTTMBVIR : Z := 138412032.   (* 0x08400000 *)
Definition OTSMBVIR : Z := 142606336.   (* 0x08800000 *)

Definition vidmap (lay : layout) (screen_start phys : Z) : ST kernel Z :=
  if (screen_start =? 0) || (OTTMBVIR <=? screen_start) || (screen_start <? OTEMBVIR)
  then mret (-1)
  else
    modify (map_video lay VIDEO) ;;
    modify enable_paging ;;
    modify (fun k => set_kmem (store32 (kmem k) phys OTSMBVIR) k) ;;
    mret OTSMBVIR.

Definition set_handler (signum handler_address : Z) : Z := -1.
Definition sigreturn : Z := -1.

Definition process_dump (pcb addr : Z) : ST tty unit :=
  m ← gets t_mem;
  _ ← printf (bytes "process esp is %#x" ++ [LF]) [load32 m (parent_esp pcb)];
  m ← gets t_mem;
  _ ← printf (bytes "process id is %d" ++ [LF]) [load32 m (process_id pcb)];
  m ← gets t_mem;
  _ ← printf (bytes "parent id is %d" ++ [LF]) [load32 m (parent_process_id pcb)];
  m ← gets t_mem;
  _ ← printf (bytes "process ebp is %#x" ++ [LF]) [load32 m (parent_ebp pcb)];
  _ ← printf (bytes "loading instruction is at %#x" ++ [LF]) [addr];
  mret tt.

(** ** The descriptor table of a task

    Specification: eight entries, each free or a kind of file and a
    position. *)

Record fops_ok (lay : layout) : Prop := {
  fk_range : forall kd, 0 < fop_addr lay kd < 4294967296;
  fk_inj : forall kd kd', fop_addr lay kd = fop_addr lay kd' -> kd = kd';
}.

Lemma fop_kind_addr lay kd : fops_ok lay -> fop_kind lay (fop_addr lay kd) = Some kd.
Proof.
  intros [_ Hi]. unfold fop_kind.
  change (stdin_op_table lay) with (fop_addr lay FStdin).
  change (stdout_op_table lay) with (fop_addr lay FStdout).
  change (rtc_fop_table lay) with (fop_addr lay FRtc).
  change (fs_dir_fop_table lay) with (fop_addr lay FDir).
  change (file_fop_table lay) with (fop_addr lay FFile).
  repeat match goal with
  | |- context [fop_addr lay kd =? fop_addr lay ?k] =>
      destruct (Z.eqb_spec (fop_addr lay kd) (fop_addr lay k)) as [E|];
      [by rewrite (Hi _ _ E)|]
  end.
  by destruct kd.
Qed.

Abbreviation fdtab := (list (option (fkind * Z))).

(** The entry [o] of the table is what the descriptor holds. *)
Definition fd_is (lay : layout) (d : fdesc) (o : option (fkind * Z)) : Prop :=
  match o with
  | None => d_flags d = 0 /\ d_fop d = 0
  | Some (kd, pos) => d_flags d = 1 /\ d_fop d = fop_addr lay kd /\ d_pos d = pos
  end.

Definition in_use (o : option (fkind * Z)) : Z :=
  match o with Some _ => 1 | None => 0 end.
Fixpoint count_open (t : fdtab) : Z :=
  match t with [] => 0 | o :: t => in_use o + count_open t end.

Record has_fds (lay : layout) (m : mem) (pcb : Z) (t : fdtab) : Prop := {
  hf_len : zlen t = 8;
  hf_fd : forall fd, 0 <= fd < 8 -> fd_is lay (fd_at m pcb fd) (anth None t fd);
  hf_num : load_s32 m (open_file_num pcb) = count_open t;
}.

(** The table after [execute]. *)
Definition fresh_fds : fdtab :=
  [Some (FStdin, 0); Some (FStdout, 0); None; None; None; None; None; None].

(** The descriptor [open] takes: 2 if it is free; otherwise none at all when
    7 is in use; otherwise the first free one. *)
Fixpoint free_from (n : nat) (fd : Z) (t : fdtab) : option Z :=
  match n with
  | O => None
  | S n => match anth None t fd with None => Some fd | Some _ => free_from n (fd + 1) t end
  end.
Definition free_fd (t : fdtab) : option Z :=
  match anth None t 2, anth None t 7 with
  | None, _ => Some 2
  | Some _, Some _ => None
  | Some _, None => free_from 6 2 t
  end.

Lemma fd_is_flag lay d o :
  fd_is lay d o -> d_flags d = match o with None => 0 | Some _ => 1 end.
Proof. destruct o as [[kd pos]|]; cbn; tauto. Qed.

Lemma find_fd_from lay m pcb t n fd :
  has_fds lay m pcb t -> anth None t 7 = None -> 0 <= fd -> fd + Z.of_nat n = 8 -> (0 < n)%nat ->
  exists r, free_from n fd t = Some r /\ find_fd n fd m pcb = Some (Some r) /\ fd <= r < 8.
Proof.
  intros [Hl Hf _] H7. revert fd. induction n as [|n IH]; intros fd Hfd Hn Hpos; [lia|].
  cbn [free_from find_fd]. change (load_s32 m (fa_flags pcb ?x)) with (d_flags (fd_at m pcb x)).
  rewrite (fd_is_flag _ _ _ (Hf fd ltac:(lia))). unfold MAXOPENFILE.
  destruct (anth None t fd) as [o|] eqn:E.
  - cbn [Z.eqb]. rewrite (fd_is_flag _ _ _ (Hf (8 - 1) ltac:(lia))).
    change (8 - 1) with 7. rewrite H7. cbn [Z.eqb].
    destruct n as [|n]; [replace fd with 7 in E by lia; congruence|].
    destruct (IH (fd + 1)) as (r & H1 & H2 & H3); try lia.
    exists r. split_and!; [done.. | lia | lia].
  - cbn [Z.eqb]. exists fd. split_and!; done || lia.
Qed.

Lemma find_fd_spec lay m pcb t :
  has_fds lay m pcb t ->
  find_fd 6 2 m pcb = match free_fd t with None => None | Some r => Some (Some r) end /\
  (forall r, free_fd t = Some r -> 2 <= r < 8).
Proof.
  intros Ht. unfold free_fd. destruct (anth None t 2) as [o|] eqn:E2.
  - destruct (anth None t 7) as [o'|] eqn:E7.
    + split; [|done]. cbn [find_fd].
      change (load_s32 m (fa_flags pcb ?x)) with (d_flags (fd_at m pcb x)).
      rewrite (fd_is_flag _ _ _ (hf_fd _ _ _ _ Ht 2 ltac:(lia))), E2.
      rewrite (fd_is_flag _ _ _ (hf_fd _ _ _ _ Ht (MAXOPENFILE - 1) ltac:(unfold MAXOPENFILE; lia))).
      change (MAXOPENFILE - 1) with 7. by rewrite E7.
    + destruct (find_fd_from lay m pcb t 6 2 Ht E7) as (r & -> & -> & Hr); try lia.
      split; [done|]. intros ? [= <-]. done.
  - split; [|intros ? [= <-]; lia]. cbn [find_fd].
    change (load_s32 m (fa_flags pcb ?x)) with (d_flags (fd_at m pcb x)).
    by rewrite (fd_is_flag _ _ _ (hf_fd _ _ _ _ Ht 2 ltac:(lia))), E2.
Qed.

(** The table does not see changes outside the block. *)
Lemma has_fds_ext lay m m' pcb t :
  (forall b, pcb <= b < pcb + 388 -> mget m' b = mget m b) ->
  has_fds lay m pcb t -> has_fds lay m' pcb t.
Proof.
  intros Hs [H1 H2 H3]. constructor; [done| |].
  - intros fd Hfd. rewrite (fd_at_ext m' m); [by apply H2|]. intros; apply Hs; lia.
  - unfold load_s32, open_file_num in *. rewrite (load32_ext m' m); [done|].
    intros; apply Hs; lia.
Qed.

(** Counting after one entry changes. *)
Lemma count_open_insert (t : fdtab) fd o :
  0 <= fd < zlen t ->
  count_open (<[Z.to_nat fd := o]> t) = count_open t + in_use o - in_use (anth None t fd).
Proof.
  intros Hfd. unfold anth. assert (Hn : (Z.to_nat fd < List.length t)%nat) by lia.
  revert Hn. generalize (Z.to_nat fd) as n. clear Hfd.
  induction t as [|x t IH]; intros n Hn; [cbn in Hn; lia|].
  destruct n as [|n]; cbn [nth]; [cbn; lia|].
  change (<[S n := o]> (x :: t)) with (x :: <[n := o]> t). cbn [count_open].
  rewrite IH by (cbn in Hn; lia). lia.
Qed.

Lemma count_open_range (t : fdtab) : 0 <= count_open t <= zlen t.
Proof. induction t as [|o t IH]; cbn [count_open List.length]; [lia|]. destruct o; cbn [in_use]; lia. Qed.

(** Free descriptors are free. *)
Lemma free_from_free n fd t r : free_from n fd t = Some r -> anth None t r = None.
Proof.
  revert fd. induction n as [|n IH]; intros fd; cbn; [done|].
  destruct (anth None t fd) eqn:E; [apply IH|]. by intros [= <-].
Qed.
Lemma free_fd_free t r : free_fd t = Some r -> anth None t r = None.
Proof.
  unfold free_fd. destruct (anth None t 2) eqn:E2, (anth None t 7) eqn:E7; intros H;
    try (injection H as <-; done); [done | by eapply free_from_free].
Qed.

(** ** Opening *)

(** [strncmp] with a literal of the same length asks for a prefix. *)
Lemma strncmp_literal m p s lit l n :
  cstr m p s -> cstr m lit l -> zlen l = n -> 0 < n < 4294967296 ->
  exists c, strncmp m p lit n = Ok c /\ (c = 0 <-> take (Z.to_nat n) s = l).
Proof.
  intros Hs Hlit Hl Hn. destruct (strncmp_prefix m p lit s l n) as (c & Hc & Hz);
    [done | done | lia|]. exists c. split; [done|].
  rewrite Hz, (take_ge l) by lia. done.
Qed.

(** The kind a file type stands for. *)
Definition kind_of_type (ty : Z) : option fkind :=
  if ty =? 0 then Some FRtc else if ty =? 1 then Some FDir
  else if ty =? 2 then Some FFile else None.

(** The names of the other descriptors. *)
Definition names_same (pcb fd : Z) (m m' : mem) : Prop := forall fd' b,
  0 <= fd' < 8 -> fd' <> fd -> file_name_at pcb fd' <= b < file_name_at pcb fd' + 32 ->
  mget m' b = mget m b.

Lemma open_fill_spec lay pcb fd kd dentry filename s m t :
  fops_ok lay -> has_fds lay m pcb t -> 2 <= fd < 8 -> anth None t fd = None ->
  cstr m filename s -> zlen s < 32 ->
  apart filename 32 pcb 520 -> 
  exists m', open_fill pcb fd (fop_addr lay kd) dentry filename m = Ok m' /\
    has_fds lay m' pcb (<[Z.to_nat fd := Some (kd, 0)]> t) /\
    cstr m' (file_name_at pcb fd) s /\ names_same pcb fd m m' /\ same_out m m' pcb 388.
Proof.
  intros Hfo Ht Hfd Hfree Hs Hsl Hap. unfold apart in Hap.
  pose proof (hf_len _ _ _ _ Ht) as Hl8. unfold open_fill.
  set (m1 := set_fd pcb fd (fop_addr lay kd) (dentry + 36) 0 1 m).
  assert (S1 : same_out m m1 (pcb + 16 * fd) 16) by apply so_set_fd.
  destruct (strcpy_region m1 (file_name_at pcb fd) filename s 32) as (m2 & -> & C2 & S2);
    [|lia | lia | unfold file_name_at; lia|].
  { eapply so_cstr; [exact S1 | lia | done]. }
  unfold file_name_at in S2.
  set (m3 := store32 m2 (open_file_num pcb) _).
  assert (S3 : same_out m2 m3 (pcb + 384) 4) by apply so_store32.
  assert (Hn : load32 m2 (open_file_num pcb) = load32 m (open_file_num pcb)).
  { rewrite (so_load32 _ _ _ _ _ S2), (so_load32 _ _ _ _ _ S1) by (unfold open_file_num; lia). done. }
  pose proof (count_open_range t). pose proof (fk_range _ Hfo kd).
  exists m3. split_and!; [done | | | |].
  - constructor.
    + by rewrite length_insert.
    + intros fd' Hfd'. rewrite (so_fd_at _ _ _ _ pcb fd' S3), (so_fd_at _ _ _ _ pcb fd' S2) by lia.
      unfold m1. rewrite fd_at_set, anth_insert by lia.
      destruct (decide (fd = fd')); [|by apply (hf_fd _ _ _ _ Ht)].
      cbn. rewrite u32_small by lia. done.
    + unfold m3, load_s32. rewrite load32_store32_eq, Hn, count_open_insert, Hfree by lia.
      pose proof (hf_num _ _ _ _ Ht) as Hnum. unfold load_s32 in Hnum.
      cbn [in_use]. unfold s32, u32 in *. lia_mod.
  - eapply so_cstr; [exact S3 | unfold file_name_at; lia | exact C2].
  - intros fd' b Hf' Hne Hb. unfold file_name_at in Hb. by rewrite S3, S2, S1 by lia.
  - intros b Hb. by rewrite S3, S2, S1 by lia.
Qed.

(** What [open] is given. *)
Record open_ready (lay : layout) (k : kernel) (start NI NB : Z) (dir : list entry)
  (dentry filename : Z) (s : list Z) (t : fdtab) : Prop := {
  or_world : world lay (k_fs k) (kmem k) start NI NB dir;
  or_fops : fops_ok lay;
  or_slot : 0 <= curr_task_pos k < 6;
  or_fds : has_fds lay (kmem k) (curr_pcb k) t;
  or_name : cstr (kmem k) filename s;
  or_ptr : filename <> 0;
  or_len : 0 < zlen s < 32;
  or_stdin : take 5 s <> bytes "stdin";
  or_stdout : take 6 s <> bytes "stdout";
  or_dentry : pcb_at (curr_task_pos k) + 520 <= dentry
    /\ dentry + 64 <= pcb_at (curr_task_pos k) + 8192;
  or_name_dentry : apart filename 32 dentry 64;
  or_name_pcb : apart filename 32 (curr_pcb k) 520;
}.

(** The names [open] takes for those of the terminal. *)
Definition terminal_name (s : list Z) : bool :=
  bool_decide (take 5 s = bytes "stdin") || bool_decide (take 6 s = bytes "stdout").

(** The two comparisons at the start of [open]. *)
Lemma open_compares lay k dentry filename s :
  literals lay (kmem k) -> cstr (kmem k) filename s ->
  open lay dentry filename k =
  if terminal_name s then Ok (0, set_if false k)
  else open_file lay (curr_pcb k) dentry filename (set_if false k).
Proof.
  intros [L1 L2 _] Hs.
  destruct (strncmp_literal _ filename s _ _ 5 Hs L1) as (c1 & R1 & I1); [done | lia|].
  destruct (strncmp_literal _ filename s _ _ 6 Hs L2) as (c2 & R2 & I2); [done | lia|].
  unfold open. rewrite kcli_bind. do 2 bstep.
  change (kmem (set_if false k)) with (kmem k).
  change (curr_pcb (set_if false k)) with (curr_pcb k).
  erewrite bind_ok by (rewrite R1; reflexivity). unfold terminal_name.
  rewrite (bool_decide_ext (take 5 s = bytes "stdin") (c1 = 0)) by (by rewrite I1).
  rewrite (bool_decide_ext (take 6 s = bytes "stdout") (c2 = 0)) by (by rewrite I2).
  destruct (Z.eqb_spec c1 0) as [->|]; [done|]. rewrite bool_decide_eq_false_2 by done.
  erewrite bind_ok by (rewrite R2; reflexivity).
  destruct (Z.eqb_spec c2 0) as [->|]; [done|]. by rewrite bool_decide_eq_false_2 by done.
Qed.

(** Names that do not start with those of the terminal are looked up. *)
Lemma open_named lay k start NI NB dir dentry filename s t :
  open_ready lay k start NI NB dir dentry filename s t ->
  open lay dentry filename k = open_file lay (curr_pcb k) dentry filename (set_if false k).
Proof.
  intros [Hw Hfo Hsl Ht Hs Hp Hl N1 N2 Hd Hnd Hnp].
  rewrite (open_compares lay k dentry filename s (w_lit _ _ _ _ _ _ _ Hw) Hs).
  unfold terminal_name. by rewrite !bool_decide_eq_false_2.
Qed.

(** A name the directory search refuses. *)
Lemma open_turns_down lay k dentry filename s :
  literals lay (kmem k) -> cstr (kmem k) filename s -> terminal_name s = false ->
  read_dentry_by_name (k_fs k) (kmem k) filename dentry = Ok (-1, k_fs k, kmem k) ->
  open lay dentry filename k = Ok (-1, set_if false k).
Proof.
  intros Hlit Hs Hn Hrd. rewrite (open_compares lay k dentry filename s Hlit Hs), Hn.
  unfold open_file. do 2 bstep. change (k_fs (set_if false k)) with (k_fs k).
  change (kmem (set_if false k)) with (kmem k). rewrite Hrd. by destruct k as [[]].
Qed.

(** The empty name is refused before the directory is searched. *)
Lemma open_empty lay k start NI NB dir dentry filename :
  world lay (k_fs k) (kmem k) start NI NB dir -> cstr (kmem k) filename [] -> filename <> 0 ->
  open lay dentry filename k = Ok (-1, set_if false k).
Proof.
  intros Hw Hs Hp. apply (open_turns_down lay k dentry filename []); [apply Hw | done | done|].
  unfold read_dentry_by_name. rewrite (proj2 (Z.eqb_neq filename 0) Hp), (strlen_spec _ _ [] Hs) by done.
  cbn. by rewrite orb_true_r.
Qed.

Lemma free_count t fd :
  zlen t = 8 -> 2 <= fd < 8 -> free_fd t = Some fd -> count_open t <> 8.
Proof.
  intros Hl Hfd Hff. pose proof (free_fd_free _ _ Hff) as Hn.
  pose proof (count_open_insert t fd (Some (FFile, 0)) ltac:(lia)) as Hc.
  rewrite Hn in Hc. cbn [in_use] in Hc.
  pose proof (count_open_range (<[Z.to_nat fd := Some (FFile, 0)]> t)) as Hr.
  rewrite length_insert, Hl in Hr. lia.
Qed.

(** The search of the directory, and what [open] does with the result. *)
Lemma open_search lay k start NI NB dir dentry filename s t :
  open_ready lay k start NI NB dir dentry filename s t ->
  match abs_lookup dir s with
  | None => open lay dentry filename k = Ok (-1, set_if false k)
  | Some i => exists m1 e,
      dir !! Z.to_nat i = Some e /\ same_out (kmem k) m1 dentry 64 /\
      let k1 := set_kmem m1 (set_k_fs (set_file_pos_keeper i (k_fs k)) (set_if false k)) in
      open lay dentry filename k =
      match free_fd t, kind_of_type (e_type e) with
      | Some fd, Some kd =>
          (m'' ← liftR (open_fill (curr_pcb k) fd (fop_addr lay kd) dentry filename m1);
           modify (set_kmem m'') ;; mret fd) k1
      | _, _ => Ok (-1, k1)
      end
  end.
Proof.
  intros Hor. rewrite (open_named _ _ _ _ _ _ _ _ _ _ Hor).
  destruct Hor as [Hw Hfo Hsl Ht Hs Hp Hl N1 N2 Hd Hnd Hnp].
  pose proof (pcb_at_low _ Hsl) as (P5 & Plo & Phi).
  destruct (w_place _ _ _ _ _ _ _ Hw), (w_counts _ _ _ _ _ _ _ Hw).
  pose proof (fi_dentries _ _ _ _ _ (w_img _ _ _ _ _ _ _ Hw)). unfold image_end in *.
  pose proof (read_dentry_by_name_spec (kmem k) (k_fs k) dir (w_dir _ _ _ _ _ _ _ Hw)
    filename s Hs ltac:(lia) dentry Hp ltac:(lia) ltac:(lia)) as Hr.
  unfold open_file. do 2 bstep. change (kmem (set_if false k)) with (kmem k).
  change (k_fs (set_if false k)) with (k_fs k).
  destruct (abs_lookup dir s) as [i|] eqn:Hlk.
  - destruct Hr as (m1 & e & He & Hi & -> & Hat & Hm1). exists m1, e.
    split; [done|]. split; [exact Hm1|]. do 3 bstep.
    assert (Ht1 : has_fds lay m1 (curr_pcb k) t).
    { eapply has_fds_ext; [|exact Ht]. intros b Hb. apply Hm1. unfold curr_pcb in Hb. lia. }
    rewrite (hf_num _ _ _ _ Ht1). change (0 =? -1) with false. cbn [orb].
    destruct (find_fd_spec lay m1 (curr_pcb k) t Ht1) as [-> Hfree].
    destruct Hat as (_ & -> & _ & _).
    destruct (free_fd t) as [fd|] eqn:Hff; [|by destruct (_ =? MAXOPENFILE)].
    pose proof (free_count t fd (hf_len _ _ _ _ Ht) (Hfree fd eq_refl) Hff).
    rewrite (proj2 (Z.eqb_neq _ _)) by (unfold MAXOPENFILE; lia). cbv zeta.
    unfold kind_of_type. destruct (e_type e =? 0); [by bstep|].
    destruct (e_type e =? 1); [by bstep|].
    destruct (e_type e =? 2); [by bstep | reflexivity].
  - rewrite Hr. do 3 bstep. change (-1 =? -1) with true. cbn [orb].
    destruct k as [tt0]. by destruct tt0.
Qed.

(** [open] refines the descriptor table: it takes the descriptor [free_fd]
    chooses, or changes nothing. *)
Lemma open_spec lay k start NI NB dir dentry filename s t :
  open_ready lay k start NI NB dir dentry filename s t ->
  exists r k', open lay dentry filename k = Ok (r, k') /\
    match abs_lookup dir s with
    | None => r = -1 /\ has_fds lay (kmem k') (curr_pcb k') t
    | Some i => exists e, dir !! Z.to_nat i = Some e /\
        match free_fd t, kind_of_type (e_type e) with
        | Some fd, Some kd => r = fd /\
            has_fds lay (kmem k') (curr_pcb k') (<[Z.to_nat fd := Some (kd, 0)]> t) /\
            cstr (kmem k') (file_name_at (curr_pcb k') fd) s /\
            names_same (curr_pcb k) fd (kmem k) (kmem k')
        | _, _ => r = -1 /\ has_fds lay (kmem k') (curr_pcb k') t
        end
    end /\
    curr_task_pos k' = curr_task_pos k /\ page_dir k' = page_dir k /\
    (forall b, (b < dentry \/ dentry + 64 <= b) ->
       (b < curr_pcb k \/ curr_pcb k + 388 <= b) -> mget (kmem k') b = mget (kmem k) b) /\
    exists i, k' = set_kmem (kmem k') (set_k_fs (set_file_pos_keeper i (k_fs k)) (set_if false k)).
Proof.
  intros Hor. pose proof (open_search _ _ _ _ _ _ _ _ _ _ Hor) as Hr.
  destruct Hor as [Hw Hfo Hsl Ht Hs Hp Hl N1 N2 Hd Hnd Hnp].
  destruct (abs_lookup dir s) as [i|].
  2:{ exists (-1), (set_if false k). split_and!; try done.
      exists (file_pos_keeper (k_fs k)). by destruct k as [[] ? ? ? ? ? ? ? ? ? ? ? ? ? ? ? ? []]. }
  destruct Hr as (m1 & e & He & S1 & Hrun). cbv zeta in Hrun.
  unfold apart in *. unfold curr_pcb in *.
  assert (Ht1 : has_fds lay m1 (pcb_at (curr_task_pos k)) t)
    by (eapply has_fds_ext; [|exact Ht]; intros b Hb; apply S1; lia).
  destruct (free_fd t) as [fd|] eqn:Hff, (kind_of_type (e_type e)) as [kd|] eqn:Hkd.
  2-4: eexists _, _; split; [exact Hrun|]; split;
    [exists e; split; [done|]; rewrite ?Hkd; by split
    | split_and!; [done | done | intros b Hb _; by apply S1 | by exists i]].
  pose proof (proj2 (find_fd_spec lay m1 _ t Ht1) fd Hff) as Hfd.
  destruct (open_fill_spec lay (pcb_at (curr_task_pos k)) fd kd dentry filename s m1 t)
    as (m2 & Hfill & Hfds & Hname & Hnames & S2); try done; [by apply free_fd_free | |lia|].
  { eapply so_cstr; [exact S1 | lia | done]. }
  rewrite Hfill in Hrun. eexists fd, _. split; [rewrite Hrun; reflexivity|].
  split; [|split_and!; [done | done| |by exists i]].
  - exists e. split; [done|]. rewrite Hkd. split_and!; try done. intros fd' b Hf' Hne Hb.
    change (mget m2 b = mget (kmem k) b). rewrite (Hnames fd' b Hf' Hne Hb). apply S1.
    unfold file_name_at, curr_pcb in Hb. lia.
  - intros b Hb Hb'. transitivity (mget m1 b); [by apply S2 | by apply S1].
Qed.

(** ** Closing *)

Definition closable (kd : fkind) : bool :=
  match kd with FRtc | FDir | FFile => true | _ => false end.

Lemma close_fill_spec lay m pcb t fd :
  has_fds lay m pcb t -> 2 <= fd < 8 -> is_Some (anth None t fd) ->
  has_fds lay (close_fill pcb fd m) pcb (<[Z.to_nat fd := None]> t) /\
  same_out m (close_fill pcb fd m) pcb 388.
Proof.
  intros Ht Hfd [o Eo]. pose proof (hf_len _ _ _ _ Ht) as Hl.
  unfold close_fill. pcb_unfold.
  set (m4 := store32 (store32 (store32 (store32 m (pcb + 16 * fd + 12) 0)
    (pcb + 16 * fd + 8) 0) (pcb + 16 * fd) 0) (pcb + 16 * fd + 4) 0).
  set (m5 := store32 m4 (pcb + 384) _).
  assert (S5 : same_out m4 m5 (pcb + 384) 4) by apply so_store32.
  assert (S4 : same_out m m4 (pcb + 16 * fd) 16).
  { repeat (eapply so_trans; [|eapply so_widen; [apply so_store32 | lia | lia]]). apply so_refl. }
  assert (Hf4 : d_flags (fd_at m4 pcb fd) = 0 /\ d_fop (fd_at m4 pcb fd) = 0).
  { unfold fd_at, load_s32, m4. cbn [d_flags d_fop]. pcb_unfold. loads. done. }
  split.
  - constructor.
    + by rewrite length_insert.
    + intros fd' Hfd'. rewrite (so_fd_at _ _ _ _ _ fd' S5), anth_insert by lia.
      destruct (decide (fd = fd')) as [<-|Hne]; [exact Hf4|].
      rewrite (so_fd_at _ _ _ _ _ fd' S4) by lia. by apply (hf_fd _ _ _ _ Ht).
    + unfold open_file_num, load_s32, m5. rewrite load32_store32_eq.
      rewrite (so_load32 _ _ _ _ _ S4) by lia. rewrite count_open_insert, Eo by lia.
      pose proof (hf_num _ _ _ _ Ht) as Hnum. unfold load_s32, open_file_num in Hnum.
      pose proof (count_open_range t). cbn [in_use]. unfold s32, u32 in *. lia_mod.
  - intros b Hb. transitivity (mget m4 b); [apply S5; lia | apply S4; lia].
Qed.

(** What [close] makes of descriptor [fd] of the table [t]: refused, a call
    through a null pointer, or freed. *)
Definition close_case (t : fdtab) (fd : Z) : option bool :=
  if (2 <=? fd) && (fd <? 8) && (2 <? count_open t) then
    match anth None t fd with
    | Some (kd, _) => Some (closable kd)
    | None => Some false
    end
  else None.

Lemma close_spec lay k t fd :
  fops_ok lay -> has_fds lay (kmem k) (curr_pcb k) t ->
  match close_case t fd with
  | None => close lay fd k = Ok (-1, set_if false k)
  | Some false => close lay fd k = Err NullDeref
  | Some true => close lay fd k
      = Ok (0, set_kmem (close_fill (curr_pcb k) fd (kmem k)) (set_if false k)) /\
      has_fds lay (close_fill (curr_pcb k) fd (kmem k)) (curr_pcb k) (<[Z.to_nat fd := None]> t) /\
      same_out (kmem k) (close_fill (curr_pcb k) fd (kmem k)) (curr_pcb k) 388
  end.
Proof.
  intros Hfo Ht. unfold close, close_case. rewrite kcli_bind. do 2 bstep.
  change (kmem (set_if false k)) with (kmem k).
  change (curr_pcb (set_if false k)) with (curr_pcb k).
  rewrite (hf_num _ _ _ _ Ht). unfold MAXOPENFILE.
  destruct ((2 <=? fd) && (fd <? 8) && (2 <? count_open t)) eqn:E'.
  2:{ replace ((fd <? 2) || (8 - 1 <? fd) || (count_open t <=? 2)) with true by lia. done. }
  replace ((fd <? 2) || (8 - 1 <? fd) || (count_open t <=? 2)) with false by lia.
  assert (Hfd : 2 <= fd < 8) by lia.
  pose proof (hf_fd _ _ _ _ Ht fd ltac:(lia)) as Hd.
  change (load32 (kmem k) (fa_fop_table (curr_pcb k) fd))
    with (d_fop (fd_at (kmem k) (curr_pcb k) fd)).
  destruct (anth None t fd) as [[kd pos]|] eqn:Eo; cbn [fd_is] in Hd.
  2:{ by destruct Hd as [_ ->]. }
  destruct Hd as (_ & -> & _). pose proof (fk_range _ Hfo kd).
  rewrite (proj2 (Z.eqb_neq _ _)), (fop_kind_addr _ _ Hfo) by lia.
  destruct (close_fill_spec lay (kmem k) (curr_pcb k) t fd Ht Hfd) as [H1 H2];
    [by rewrite Eo; eexists|].
  destruct kd; done.
Qed.

(** ** Reading a file *)

(** What a read through descriptor [fd] needs: the descriptor is a file at
    position [pos], its name is that of a file of the image, and the buffer
    is neither in the image nor in a block nor in the locals. *)
Record read_ready (lay : layout) (k : kernel) (start NI NB : Z) (dir : list entry)
  (dentry fd buf nbytes pos ino : Z) (s : list Z) (t : fdtab) : Prop := {
  rr_world : world lay (k_fs k) (kmem k) start NI NB dir;
  rr_fops : fops_ok lay;
  rr_slot : 0 <= curr_task_pos k < 6;
  rr_fds : has_fds lay (kmem k) (curr_pcb k) t;
  rr_fd : 0 <= fd < 8;
  rr_kind : anth None t fd = Some (FFile, pos);
  rr_name : cstr (kmem k) (file_name_at (curr_pcb k) fd) s;
  rr_len : 0 < zlen s < 32;
  rr_file : exists i e, abs_lookup dir s = Some i /\ dir !! Z.to_nat i = Some e /\ e_inode e = ino;
  rr_ok : file_ok (kmem k) (k_fs k) NI NB ino;
  rr_pos : 0 <= pos <= file_len (kmem k) (k_fs k) ino;
  rr_dentry : pcb_at (curr_task_pos k) + 520 <= dentry
    /\ dentry + 64 <= pcb_at (curr_task_pos k) + 8192;
  rr_buf : 8388608 <= buf;
  rr_nbytes : 0 <= nbytes < 2147483648;
}.

Lemma read_helper_spec lay fs m start NI NB dir dentry fname s pos buf nbytes i e :
  world lay fs m start NI NB dir -> cstr m fname s -> fname <> 0 -> 0 < zlen s < 32 ->
  abs_lookup dir s = Some i -> dir !! Z.to_nat i = Some e ->
  file_ok m fs NI NB (e_inode e) -> 0 <= pos <= file_len m fs (e_inode e) ->
  pcb_at 5 + 520 <= dentry -> dentry + 64 <= 8388608 -> 8388608 <= buf ->
  0 <= nbytes < 4294967296 ->
  let data := take (Z.to_nat nbytes) (drop (Z.to_nat pos) (file_content m fs (e_inode e))) in
  exists m', filesys_read_helper fs m dentry fname pos buf nbytes
      = Ok (zlen data, set_file_pos_keeper i fs, m') /\
    mbytes m' buf (List.length data) = data /\
    (forall b, (b < buf \/ buf + zlen data <= b) -> (b < dentry \/ dentry + 64 <= b) ->
       mget m' b = mget m b).
Proof.
  intros Hw Hs Hf Hl Hlk He Hok Hpos Hd1 Hd2 Hb Hnb data.
  assert (P5 : pcb_at 5 = 8339456) by done.
  destruct (w_place _ _ _ _ _ _ _ Hw), (w_counts _ _ _ _ _ _ _ Hw).
  pose proof (fi_dentries _ _ _ _ _ (w_img _ _ _ _ _ _ _ Hw)).
  assert (Hend : start + 4096 <= image_end start NI NB) by (unfold image_end; lia).
  pose proof (read_dentry_by_name_spec m fs dir (w_dir _ _ _ _ _ _ _ Hw)
    fname s Hs ltac:(lia) dentry Hf ltac:(lia) ltac:(lia)) as Hr.
  rewrite Hlk in Hr. destruct Hr as (m1 & e' & He' & Hi & Hrun & Hat & S1).
  assert (e' = e) as -> by congruence. destruct Hat as (_ & _ & Hino1 & _).
  assert (Hlow : forall b, b < pcb_at 5 -> mget m1 b = mget m b)
    by (intros; apply S1; lia).
  destruct (world_file _ _ _ _ _ _ _ _ _ Hw Hok Hlow) as (Hok1 & Hl1 & Hc1).
  pose proof (image_keeper _ _ _ _ _ i (w_img _ _ _ _ _ _ _ (world_high _ _ _ _ _ _ _ _ Hw Hlow))) as Himg.
  destruct (read_data_content (set_file_pos_keeper i fs) m1 start NI NB (e_inode e)
    pos buf nbytes Himg) as (m2 & Hrd & Hb2 & S2).
  { destruct Hok1. by constructor. }
  { change (file_len m1 (set_file_pos_keeper i fs) ?x) with (file_len m1 fs x). lia. }
  { lia. } { lia. } { right. lia. }
  change (file_content m1 (set_file_pos_keeper i fs) ?x)
    with (file_content m1 fs x) in Hrd, Hb2, S2.
  rewrite Hc1 in Hrd, Hb2, S2. fold data in Hrd, Hb2, S2.
  exists m2. split_and!; [|done|].
  - unfold filesys_read_helper. rewrite (proj2 (Z.eqb_neq _ _) Hf).
    rewrite (proj2 (Z.eqb_neq buf 0)) by lia. cbn [orb]. rewrite Hrun.
    change (0 =? -1) with false. cbv iota. by rewrite Hino1, Hrd.
  - intros b Hb' Hd'. by rewrite S2, S1.
Qed.

(** The descriptor after its position has moved. *)
Lemma move_fd lay m pcb t fd kd pos n :
  has_fds lay m pcb t -> 0 <= fd < 8 -> anth None t fd = Some (kd, pos) ->
  -2147483648 <= pos + n < 2147483648 ->
  has_fds lay (store32 m (fa_file_pos pcb fd) (load_s32 m (fa_file_pos pcb fd) + n)) pcb
    (<[Z.to_nat fd := Some (kd, pos + n)]> t).
Proof.
  intros Ht Hfd Hk Hn. pose proof (hf_len _ _ _ _ Ht) as Hl.
  pose proof (hf_fd _ _ _ _ Ht fd Hfd) as Hd. rewrite Hk in Hd. destruct Hd as (F1 & F2 & F3).
  cbn [d_pos d_flags d_fop fd_at] in F1, F2, F3. constructor.
  - by rewrite length_insert.
  - intros fd' Hfd'. rewrite anth_insert by lia. destruct (decide (fd = fd')) as [<-|Hne].
    + cbn [fd_is fd_at d_flags d_fop d_pos]. unfold load_s32 in *. pcb_unfold. loads.
      rewrite F3, s32_u32, (s32_small (pos + n)) by lia. done.
    + rewrite (so_fd_at m _ (fa_file_pos pcb fd) 4 pcb fd').
      * by apply (hf_fd _ _ _ _ Ht).
      * apply so_store32.
      * unfold fa_file_pos. lia.
  - unfold load_s32 in *. rewrite load32_store32_ne by (pcb_unfold; lia).
    rewrite count_open_insert, Hk by lia. cbn [in_use].
    pose proof (hf_num _ _ _ _ Ht) as Hnum. unfold load_s32 in Hnum. lia.
Qed.

Lemma filesys_read_spec lay k start NI NB dir dentry fd buf nbytes pos ino s t :
  read_ready lay k start NI NB dir dentry fd buf nbytes pos ino s t ->
  let data := take (Z.to_nat nbytes)
                (drop (Z.to_nat pos) (file_content (kmem k) (k_fs k) ino)) in
  exists k' i, filesys_read dentry fd buf nbytes k = Ok (zlen data, k') /\
    mbytes (kmem k') buf (List.length data) = data /\
    k' = set_kmem (kmem k') (set_k_fs (set_file_pos_keeper i (k_fs k)) k) /\
    has_fds lay (kmem k') (curr_pcb k)
      (<[Z.to_nat fd := Some (FFile, pos + zlen data)]> t) /\
    (forall b, (b < buf \/ buf + zlen data <= b) ->
       (b < dentry \/ dentry + 64 <= b) ->
       (b < fa_file_pos (curr_pcb k) fd \/ fa_file_pos (curr_pcb k) fd + 4 <= b) ->
       mget (kmem k') b = mget (kmem k) b).
Proof.
  intros [Hw Hfo Hsl Ht Hfd Hk Hn Hl (i & e & Hlk & He & Hino) Hok Hpos Hd Hb Hnb] data.
  pose proof (pcb_at_low _ Hsl) as (P5 & Plo & Phi). subst ino.
  pose proof (fo_len _ _ _ _ _ Hok) as Hfl.
  destruct (read_helper_spec lay (k_fs k) (kmem k) start NI NB dir dentry
    (file_name_at (curr_pcb k) fd) s pos buf nbytes i e) as (m2 & Hrun & Hb2 & S2);
    try done; try lia; [unfold file_name_at, curr_pcb; lia|].
  fold data in Hrun, Hb2, S2.
  assert (Hdl : 0 <= zlen data <= file_len (kmem k) (k_fs k) (e_inode e) - pos).
  { unfold data. rewrite length_take, length_drop.
    pose proof (length_file_content (kmem k) (k_fs k) (e_inode e)). lia. }
  unfold curr_pcb in *.
  assert (Ht2 : has_fds lay m2 (pcb_at (curr_task_pos k)) t)
    by (eapply has_fds_ext; [|exact Ht]; intros; apply S2; lia).
  pose proof (move_fd lay m2 _ t fd FFile pos (zlen data) Ht2 Hfd Hk ltac:(lia)) as Ht3.
  set (fp := fa_file_pos (pcb_at (curr_task_pos k)) fd) in *.
  assert (Hfp : pcb_at (curr_task_pos k) <= fp /\ fp + 4 <= pcb_at (curr_task_pos k) + 128)
    by (unfold fp, fa_file_pos; lia).
  pose proof (hf_fd _ _ _ _ Ht fd Hfd) as Hfdd. rewrite Hk in Hfdd. destruct Hfdd as (_ & _ & F3).
  assert (Hoff : load32 (kmem k) fp = pos).
  { cbn [d_pos fd_at] in F3. fold fp in F3. unfold load_s32 in F3.
    pose proof (load32_range (kmem k) fp). unfold s32 in F3. lia_mod. }
  set (m3 := store32 m2 fp (load_s32 m2 fp + zlen data)) in *.
  assert (S3 : same_out m2 m3 fp 4) by apply so_store32.
  exists (set_kmem m3 (set_k_fs (set_file_pos_keeper i (k_fs k)) k)), i.
  change (kmem (set_kmem m3 _)) with m3. split_and!; [| |done|done|].
  - unfold filesys_read. do 3 bstep. unfold curr_pcb. fold fp. rewrite Hoff, u32_small by lia.
    erewrite bind_ok by (rewrite Hrun; reflexivity). cbv beta iota.
    do 2 bstep. reflexivity.
  - rewrite <-Hb2 at 2. apply mbytes_ext. intros b Hx. apply S3. lia.
  - intros b H1 H2 H3. transitivity (mget m2 b); [by apply S3 | by apply S2].
Qed.

Lemma fd_check_open lay k t fd kd pos :
  fops_ok lay -> has_fds lay (kmem k) (curr_pcb k) t -> 0 <= fd < 8 ->
  anth None t fd = Some (kd, pos) -> fd_check lay fd k = Ok (Some kd).
Proof.
  intros Hfo Ht Hfd Hk. unfold fd_check, MAXOPENFILE.
  destruct ((fd <? 0) || (8 - 1 <? fd)) eqn:E; [lia|]. unfold curr_fd.
  pose proof (hf_fd _ _ _ _ Ht fd Hfd) as Hd. rewrite Hk in Hd. destruct Hd as (-> & -> & _).
  pose proof (fk_range _ Hfo kd). rewrite (proj2 (Z.eqb_neq (fop_addr lay kd) 0)) by lia.
  by rewrite (fop_kind_addr _ _ Hfo).
Qed.

(** Descriptors that are out of range or free are refused by [read] and
    [write]. *)
Lemma fd_check_refuses lay k t fd :
  has_fds lay (kmem k) (curr_pcb k) t ->
  (fd < 0 \/ 8 <= fd \/ anth None t fd = None) -> fd_check lay fd k = Ok None.
Proof.
  intros Ht Hfd. unfold fd_check, MAXOPENFILE.
  destruct ((fd <? 0) || (8 - 1 <? fd)) eqn:E; [done|].
  pose proof (hf_fd _ _ _ _ Ht fd ltac:(lia)) as Hd.
  destruct (anth None t fd); [destruct Hfd as [?|[?|?]]; try lia; done|].
  unfold curr_fd. by destruct Hd as [-> ->].
Qed.

Lemma read_file_spec lay k start NI NB dir dentry fd buf nbytes pos ino s t :
  read_ready lay k start NI NB dir dentry fd buf nbytes pos ino s t ->
  let data := take (Z.to_nat nbytes)
                (drop (Z.to_nat pos) (file_content (kmem k) (k_fs k) ino)) in
  exists k', read lay dentry fd buf nbytes k = Ok (Some (zlen data), k') /\
    mbytes (kmem k') buf (List.length data) = data /\
    file_content (kmem k') (k_fs k') ino = file_content (kmem k) (k_fs k) ino /\
    read_ready lay k' start NI NB dir dentry fd buf nbytes (pos + zlen data) ino s
      (<[Z.to_nat fd := Some (FFile, pos + zlen data)]> t) /\
    (exists i, k' = set_kmem (kmem k') (set_k_fs (set_file_pos_keeper i (k_fs k)) k)) /\
    (forall b, (b < buf \/ buf + zlen data <= b) -> (b < dentry \/ dentry + 64 <= b) ->
       (b < fa_file_pos (curr_pcb k) fd \/ fa_file_pos (curr_pcb k) fd + 4 <= b) ->
       mget (kmem k') b = mget (kmem k) b).
Proof.
  intros Hr data.
  destruct (filesys_read_spec _ _ _ _ _ _ _ _ _ _ _ _ _ _ Hr)
    as (k' & i & Hrun & Hb & Hk' & Ht' & Hs'). fold data in Hrun, Hb, Ht', Hs'.
  destruct Hr as [Hw Hfo Hsl Ht Hfd Hk Hn Hl Hfile Hok Hpos Hd Hbuf Hnb].
  pose proof (pcb_at_low _ Hsl) as (P5 & Plo & Phi). unfold curr_pcb in *.
  assert (Hpos' : curr_task_pos k' = curr_task_pos k) by (rewrite Hk'; done).
  assert (Hfs' : k_fs k' = set_file_pos_keeper i (k_fs k)) by (rewrite Hk'; done).
  assert (Hlow : forall b, b < pcb_at 5 -> mget (kmem k') b = mget (kmem k) b).
  { intros b Hb'. apply Hs'; [left | left | left]; unfold fa_file_pos; lia. }
  destruct (world_file _ _ _ _ _ _ _ _ _ Hw Hok Hlow) as (Hok' & Hl' & Hc').
  pose proof (world_high _ _ _ (kmem k') _ _ _ _ Hw Hlow) as [W1 W2 W3 W4 W5 W6].
  exists k'. split_and!; [|done| by rewrite Hfs'| | by exists i | done].
  - unfold read. erewrite bind_ok by (rewrite (fd_check_open lay k t fd FFile pos); done).
    cbv beta iota. by erewrite bind_ok by exact Hrun.
  - constructor; rewrite ?Hpos', ?Hfs'; unfold curr_pcb; rewrite ?Hpos'; try done.
    + by constructor; [apply image_keeper|..].
    + rewrite anth_insert, decide_True by (rewrite ?(hf_len _ _ _ _ Ht); lia || done). done.
    + eapply cstr_ext; [|exact Hn]. intros b Hx. symmetry.
      unfold file_name_at in Hx. apply Hs'; unfold fa_file_pos; lia.
    + destruct Hok'. by constructor.
    + change (file_len (kmem k') (set_file_pos_keeper i (k_fs k)) ino)
        with (file_len (kmem k') (k_fs k) ino). rewrite Hl'. unfold data.
      rewrite length_take, length_drop.
      pose proof (length_file_content (kmem k) (k_fs k) ino). lia.
Qed.

(** A program that reads until nothing is left, as [cat] does: the bytes of
    each read, put together.  [n] bounds the number of reads. *)
Fixpoint read_all (n : nat) (lay : layout) (dentry fd buf nbytes : Z) : ST kernel (list Z) :=
  match n with
  | O => fail Diverges
  | S n =>
      r ← read lay dentry fd buf nbytes;
      match r with
      | Some c =>
          if c =? 0 then mret []
          else
            d ← gets (fun k => mbytes (kmem k) buf (Z.to_nat c));
            rest ← read_all n lay dentry fd buf nbytes;
            mret (d ++ rest)
      | None => fail Diverges
      end
  end.

(** C18: Opening a file once and reading until nothing is left, in pieces of any
    size: the pieces put together are the contents of the file from the
    descriptor's position on, and the loop ends. *)
Theorem descriptor_reads_whole_file n lay k start NI NB dir dentry fd buf nbytes pos ino s t :
  read_ready lay k start NI NB dir dentry fd buf nbytes pos ino s t ->
  0 < nbytes -> file_len (kmem k) (k_fs k) ino - pos < Z.of_nat n ->
  exists k', read_all n lay dentry fd buf nbytes k =
    Ok (drop (Z.to_nat pos) (file_content (kmem k) (k_fs k) ino), k').
Proof.
  revert k pos t. induction n as [|n IH]; intros k pos t Hr Hnb Hn.
  { pose proof (rr_pos _ _ _ _ _ _ _ _ _ _ _ _ _ _ Hr). lia. }
  destruct (read_file_spec _ _ _ _ _ _ _ _ _ _ _ _ _ _ Hr)
    as (k' & Hrun & Hb & Hc & Hr' & _).
  set (content := file_content (kmem k) (k_fs k) ino) in *.
  set (data := take (Z.to_nat nbytes) (drop (Z.to_nat pos) content)) in *.
  assert (Hcl : zlen content = file_len (kmem k) (k_fs k) ino) by apply length_file_content.
  pose proof (rr_pos _ _ _ _ _ _ _ _ _ _ _ _ _ _ Hr) as Hpos.
  assert (Hdl : zlen data = Z.min nbytes (zlen content - pos)).
  { unfold data. rewrite length_take, length_drop. lia. }
  cbn [read_all]. erewrite bind_ok by exact Hrun. cbv beta iota.
  destruct (zlen data =? 0) eqn:E.
  - exists k'. rewrite (nil_length_inv (drop (Z.to_nat pos) content)); [done|].
    rewrite length_drop. lia.
  - bstep. rewrite Nat2Z.id, Hb.
    assert (Hcl' : zlen content = file_len (kmem k') (k_fs k') ino)
      by (rewrite <-Hc; apply length_file_content).
    destruct (IH k' (pos + zlen data) _ Hr') as (k'' & Hrest); [done | lia|].
    exists k''. erewrite bind_ok by exact Hrest. unfold mret, st_ret. rewrite Hc.
    replace (Z.to_nat (pos + zlen data)) with (Z.to_nat pos + List.length data)%nat by lia.
    rewrite <-drop_drop. unfold data at 1. do 2 f_equal.
    rewrite <-(take_drop (Z.to_nat nbytes) (drop (Z.to_nat pos) content)) at 3.
    f_equal. assert (E' : List.length data = Nat.min (Z.to_nat nbytes) (List.length (drop (Z.to_nat pos) content)))
      by (unfold data; apply length_take).
    rewrite E'. destruct (Nat.le_ge_cases (Z.to_nat nbytes) (List.length (drop (Z.to_nat pos) content))).
    + by rewrite Nat.min_l.
    + rewrite Nat.min_r, !drop_ge by lia. done.
Qed.

(** ** Arguments and video memory *)

(** [execute] leaves the standard descriptor table. *)
Lemma fresh_has_fds lay m pos ppid esp ebp args :
  fops_ok lay -> fresh_pcb lay m pos ppid esp ebp args ->
  has_fds lay m (pcb_at pos) fresh_fds.
Proof.
  intros [Hr Hi] [_ _ _ _ _ Ho _ Hin Hout Hcl _ _]. constructor; [done | | by rewrite Ho].
  intros fd Hfd.
  assert (fd = 0 \/ fd = 1 \/ 2 <= fd < 8) as [->|[->|H2]] by lia.
  - rewrite Hin. pose proof (Hr FStdin). cbn in *. by rewrite u32_small by lia.
  - rewrite Hout. pose proof (Hr FStdout). cbn in *. by rewrite u32_small by lia.
  - rewrite Hcl by done.
    assert (fd = 2 \/ fd = 3 \/ fd = 4 \/ fd = 5 \/ fd = 6 \/ fd = 7)
      as [->|[->|[->|[->|[->| ->]]]]] by lia; done.
Qed.

(** Whether [getargs] accepts the request. *)
Definition args_fit (buf nbytes : Z) (args : list Z) : bool :=
  negb (buf =? 0) && negb (nbytes =? 0) && (zlen args <=? u32 nbytes) && (0 <? zlen args).

Lemma getargs_spec buf nbytes args k :
  cstr (kmem k) (arg_buffer (curr_pcb k)) args -> zlen args < 100 ->
  apart buf (zlen args + 1) (arg_buffer (curr_pcb k)) (zlen args + 1) ->
  if args_fit buf nbytes args then
    exists m', getargs buf nbytes k = Ok (0, set_kmem m' (set_if false k)) /\
      cstr m' buf args /\ same_out (kmem k) m' buf (zlen args + 1)
  else getargs buf nbytes k = Ok (-1, set_if false k).
Proof.
  intros Hs Hl Hap. unfold args_fit, getargs, apart in *.
  rewrite kcli_bind. do 2 bstep. change (kmem (set_if false k)) with (kmem k).
  change (curr_pcb (set_if false k)) with (curr_pcb k).
  destruct (buf =? 0); [done|]. destruct (nbytes =? 0); [done|]. cbn [negb andb orb].
  erewrite bind_ok by (rewrite (strlen_spec _ _ args) by (done || lia); reflexivity).
  cbv beta iota. destruct (Z.leb_spec (zlen args) (u32 nbytes)) as [H1|H1].
  2:{ by rewrite (proj2 (Z.ltb_lt (u32 nbytes) (zlen args))) by done. }
  rewrite (proj2 (Z.ltb_ge (u32 nbytes) (zlen args))) by done. cbn [orb andb].
  destruct (Z.ltb_spec 0 (zlen args)) as [H2|H2].
  2:{ rewrite (proj2 (Z.eqb_eq _ _)) by lia. done. }
  rewrite (proj2 (Z.eqb_neq _ _)) by lia.
  destruct (strcpy_region (kmem k) buf (arg_buffer (curr_pcb k)) args (zlen args + 1))
    as (m' & Hc & Hs' & So); [done | lia | lia | lia|].
  exists m'. erewrite bind_ok by (rewrite Hc; reflexivity). bstep. done.
Qed.

(** The window on the video memory. *)
Lemma translate_window lay pd pt t off :
  layout_ok lay -> dir_ok lay pd t -> anth 0 pd 34 = page_tab_at lay + 7 ->
  anth 0 pt 0 = VIDEO + 7 -> 0 <= off < 4096 ->
  translate lay true pd pt (OTSMBVIR + off) = Some (VIDEO + off).
Proof.
  intros [Ha Hr] Hd H34 H0 Hoff. unfold translate, OTSMBVIR.
  replace ((142606336 + off) / FOURMB) with 34 by (unfold FOURMB; lia_mod).
  rewrite H34. unfold present, for_user, large.
  rewrite !(entry_bit (page_tab_at lay) 7) by (done || lia). cbn [Z.testbit Pos.testbit negb orb andb].
  change (Z.testbit 7 0) with true. change (Z.testbit 7 2) with true.
  change (Z.testbit 7 7) with false. cbn [negb orb andb].
  rewrite (proj2 (Z.eqb_eq _ _)) by lia_mod.
  replace ((142606336 + off) / 4096 mod 1024) with 0 by lia_mod. rewrite H0.
  change (Z.testbit (VIDEO + 7) 0) with true. change (Z.testbit (VIDEO + 7) 2) with true.
  cbn [negb orb andb]. f_equal. unfold VIDEO. lia_mod.
Qed.

(** [vidmap] with a pointer into the page of the program. *)
Lemma vidmap_run lay screen_start phys k t :
  layout_ok lay -> dir_ok lay (page_dir k) t -> tab_ok (page_tab k) ->
  OTEMBVIR <= screen_start < OTTMBVIR ->
  exists k1, vidmap lay screen_start phys k = Ok (OTSMBVIR, set_kmem (store32 (kmem k) phys OTSMBVIR) k1) /\
    pages_only k k1 /\ mmu_sync k1 /\ dir_ok lay (page_dir k1) t /\ tab_ok (page_tab k1) /\
    forall off, 0 <= off < 4096 ->
      translate lay true (page_dir k1) (page_tab k1) (OTSMBVIR + off) = Some (VIDEO + off).
Proof.
  intros Hl Hd Ht Hs. unfold vidmap, OTEMBVIR, OTTMBVIR in *.
  set (k1 := enable_paging (map_video lay VIDEO k)).
  rewrite (proj2 (Z.eqb_neq screen_start 0)), (proj2 (Z.leb_gt 138412032 screen_start)),
    (proj2 (Z.ltb_ge screen_start 134217728)) by lia. cbn [orb].
  assert (Hv : VIDEO ∈ video_pages) by (apply list_elem_of_In; by left).
  destruct (dir_ok_video lay k t VIDEO Hl Hv Hd Ht) as [Hd' Ht'].
  pose proof (do_len _ _ _ Hd) as Hlen. pose proof (to_len _ Ht) as Hlen'.
  exists k1. split; [done|]. split; [by constructor|]. split; [done|].
  split; [exact Hd'|]. split; [exact Ht'|]. intros off Hoff.
  assert (Hset : map_video lay VIDEO k = pt_set 0 (VIDEO + 7) (pd_set 34 (page_tab_at lay + 7) k))
    by (by apply map_video_set).
  eapply translate_window; try done.
  - change (page_dir k1) with (page_dir (map_video lay VIDEO k)). rewrite Hset.
    change (page_dir (pt_set 0 (VIDEO + 7) (pd_set 34 (page_tab_at lay + 7) k)))
      with (page_dir (pd_set 34 (page_tab_at lay + 7) k)).
    rewrite pd_get by lia. by rewrite decide_True.
  - change (page_tab k1) with (page_tab (map_video lay VIDEO k)). rewrite Hset.
    rewrite pt_get by (cbn; lia). by rewrite decide_True.
Qed.

(** C31: [vidmap] with a pointer outside the program's page is refused and
    changes nothing; otherwise the 4 kB at 0x08800000 show the video memory
    in user mode, that address is stored through the pointer and returned,
    and the shape of the page tables is kept. *)
Theorem vidmap_maps_screen lay screen_start phys k t :
  layout_ok lay -> dir_ok lay (page_dir k) t -> tab_ok (page_tab k) ->
  if (OTEMBVIR <=? screen_start) && (screen_start <? OTTMBVIR) then
    exists k' pd pt, vidmap lay screen_start phys k = Ok (OTSMBVIR, k') /\
      load32 (kmem k') phys = OTSMBVIR /\
      mmu k' = Some (pd, pt) /\ dir_ok lay pd t /\ tab_ok pt /\ mmu_sync k' /\
      forall off, 0 <= off < 4096 -> translate lay true pd pt (OTSMBVIR + off) = Some (VIDEO + off)
  else vidmap lay screen_start phys k = Ok (-1, k).
Proof.
  intros Hl Hd Ht. destruct (Z.leb_spec OTEMBVIR screen_start) as [H1|H1];
    [destruct (Z.ltb_spec screen_start OTTMBVIR) as [H2|H2]|]; cbn [andb].
  - destruct (vidmap_run lay screen_start phys k t Hl Hd Ht ltac:(lia)) as (k1 & E & _ & Hm & Hd' & Ht' & Htr).
    do 3 eexists. split; [exact E|]. split_and!; try done. rewrite kmem_set. by rewrite load32_store32_eq.
  - unfold vidmap. rewrite (proj2 (Z.leb_le OTTMBVIR screen_start)) by lia. by rewrite orb_true_r.
  - unfold vidmap. rewrite (proj2 (Z.ltb_lt screen_start OTEMBVIR)) by lia. by rewrite orb_true_r.
Qed.

(** ** The properties of the descriptors *)

(** What [open] may be given: any name that does not start at a null pointer,
    of 32 characters or more only if it is not in the directory. *)
Record open_given (lay : layout) (k : kernel) (start NI NB : Z) (dir : list entry)
  (dentry filename : Z) (s : list Z) (t : fdtab) : Prop := {
  og_world : world lay (k_fs k) (kmem k) start NI NB dir;
  og_fops : fops_ok lay;
  og_slot : 0 <= curr_task_pos k < 6;
  og_fds : has_fds lay (kmem k) (curr_pcb k) t;
  og_name : cstr (kmem k) filename s;
  og_ptr : filename <> 0;
  og_len : zlen s < 32 \/ abs_lookup dir s = None /\ zlen s < 4294967296;
  og_dentry : pcb_at (curr_task_pos k) + 520 <= dentry
    /\ dentry + 64 <= pcb_at (curr_task_pos k) + 8192;
  og_name_dentry : apart filename 32 dentry 64;
  og_name_pcb : apart filename 32 (curr_pcb k) 520;
}.

(** What [open] means: the value it returns and the table it leaves. *)
Definition abs_open (dir : list entry) (t : fdtab) (s : list Z) : Z * fdtab :=
  if terminal_name s then (0, t)
  else if bool_decide (s = []) then (-1, t)
  else match abs_lookup dir s ≫= (fun i => dir !! Z.to_nat i) with
  | None => (-1, t)
  | Some e =>
      match free_fd t, kind_of_type (e_type e) with
      | Some fd, Some kd => (fd, <[Z.to_nat fd := Some (kd, 0)]> t)
      | _, _ => (-1, t)
      end
  end.

Lemma open_absent lay k start NI NB dir dentry filename s t :
  open_given lay k start NI NB dir dentry filename s t -> terminal_name s = false ->
  0 < zlen s -> abs_lookup dir s = None ->
  open lay dentry filename k = Ok (-1, set_if false k).
Proof.
  intros [Hw Hfo Hsl Ht Hs Hp Hl Hd Hnd Hnp] Hn Hpos Hlk.
  apply (open_turns_down lay k dentry filename s); [apply Hw | done | done|].
  pose proof (pcb_at_low _ Hsl) as (P5 & Plo & Phi).
  destruct (w_place _ _ _ _ _ _ _ Hw), (w_counts _ _ _ _ _ _ _ Hw).
  pose proof (fi_dentries _ _ _ _ _ (w_img _ _ _ _ _ _ _ Hw)). unfold image_end in *.
  pose proof (read_dentry_by_name_spec (kmem k) (k_fs k) dir (w_dir _ _ _ _ _ _ _ Hw)
    filename s Hs ltac:(lia) dentry Hp ltac:(lia) ltac:(lia)) as Hr.
  by rewrite Hlk in Hr.
Qed.

(** C19: [open] refines the table of descriptors, on every return path: a name
    that starts with stdin or stdout gives 0 and leaves the table; an empty
    name, a name that is not in the directory (of any length), a file of
    unknown type and a table with descriptors 2 and 7 in use give -1 and leave
    the table; otherwise the first free descriptor becomes a file of that kind
    at position 0 with that name and is returned.  Memory outside the block of
    the task and the locals is never changed.  Left out are a null pointer and
    a name of 32 characters or more that is in the directory, whose copy
    overruns the place for the name. *)
Theorem open_refines_table lay k start NI NB dir dentry filename s t :
  open_given lay k start NI NB dir dentry filename s t ->
  let '(r, t') := abs_open dir t s in
  exists k', open lay dentry filename k = Ok (r, k') /\
    has_fds lay (kmem k') (curr_pcb k') t' /\
    (2 <= r -> cstr (kmem k') (file_name_at (curr_pcb k') r) s /\
       names_same (curr_pcb k) r (kmem k) (kmem k')) /\
    curr_task_pos k' = curr_task_pos k /\ page_dir k' = page_dir k /\
    (r < 2 -> same_out (kmem k) (kmem k') dentry 64) /\
    (forall b, (b < dentry \/ dentry + 64 <= b) ->
       (b < curr_pcb k \/ curr_pcb k + 388 <= b) -> mget (kmem k') b = mget (kmem k) b).
Proof.
  intros Hg. pose proof (og_fds _ _ _ _ _ _ _ _ _ _ Hg) as Ht. unfold abs_open.
  destruct (terminal_name s) eqn:Hn.
  { exists (set_if false k). split_and!; try done.
    by rewrite (open_compares lay k dentry filename s (w_lit _ _ _ _ _ _ _ (og_world _ _ _ _ _ _ _ _ _ _ Hg))
      (og_name _ _ _ _ _ _ _ _ _ _ Hg)), Hn. }
  case_bool_decide as Hs.
  { exists (set_if false k). subst s. destruct Hg. split_and!; try done. by eapply open_empty. }
  assert (0 < zlen s) by (destruct s; [done | cbn; lia]).
  destruct (abs_lookup dir s) as [i|] eqn:Hlk; cbn [mbind option_bind].
  2:{ exists (set_if false k). split_and!; try done. by eapply open_absent. }
  assert (Hor : open_ready lay k start NI NB dir dentry filename s t).
  { unfold terminal_name in Hn. apply orb_false_iff in Hn as [N1 N2].
    apply bool_decide_eq_false in N1, N2. destruct Hg as [? ? ? ? ? ? [|[? _]] ? ? ?]; [|congruence].
    by constructor. }
  pose proof (open_search _ _ _ _ _ _ _ _ _ _ Hor) as Hsr. rewrite Hlk in Hsr.
  destruct Hsr as (m1 & e & He & S1 & Hsr). rewrite He.
  destruct (open_spec _ _ _ _ _ _ _ _ _ _ Hor) as (r & k' & H1 & H2 & H3 & H4 & H5 & _).
  rewrite Hlk in H2. destruct H2 as (e' & He' & H2). assert (e' = e) as -> by congruence.
  destruct (free_fd t) as [fd|] eqn:Hff, (kind_of_type (e_type e)) as [kd|] eqn:Hkd.
  - pose proof (proj2 (find_fd_spec _ _ _ _ Ht) fd Hff). destruct H2 as (-> & F1 & F2 & F3).
    exists k'. split_and!; try done. lia.
  - destruct H2 as (-> & F1). exists k'. split_and!; try done. rewrite H1 in Hsr. by injection Hsr as ->.
  - destruct H2 as (-> & F1). exists k'. split_and!; try done. rewrite H1 in Hsr. by injection Hsr as ->.
  - destruct H2 as (-> & F1). exists k'. split_and!; try done. rewrite H1 in Hsr. by injection Hsr as ->.
Qed.

(** C20: [close] refines the table too: descriptors outside 2..7, or any when only
    the standard two are open, are refused; a descriptor in use is freed; one
    that is not in use makes the kernel call through a null table. *)
Theorem close_refines_table lay k t fd :
  fops_ok lay -> has_fds lay (kmem k) (curr_pcb k) t ->
  match close_case t fd with
  | None => exists k', close lay fd k = Ok (-1, k') /\ kmem k' = kmem k
  | Some false => close lay fd k = Err NullDeref
  | Some true => exists k', close lay fd k = Ok (0, k') /\
      has_fds lay (kmem k') (curr_pcb k') (<[Z.to_nat fd := None]> t) /\
      same_out (kmem k) (kmem k') (curr_pcb k) 388
  end.
Proof.
  intros Hfo Ht. pose proof (close_spec lay k t fd Hfo Ht) as H.
  destruct (close_case t fd) as [[]|]; [|done|by eexists].
  destruct H as (H1 & H2 & H3). eexists. by split.
Qed.

(** A file that is opened and closed again leaves the table of descriptors as
    it was. *)
Theorem open_close_round_trip lay k start NI NB dir dentry filename s t i e fd kd :
  open_ready lay k start NI NB dir dentry filename s t ->
  abs_lookup dir s = Some i -> dir !! Z.to_nat i = Some e ->
  free_fd t = Some fd -> kind_of_type (e_type e) = Some kd -> 2 <= count_open t ->
  exists k1 k2, open lay dentry filename k = Ok (fd, k1) /\ close lay fd k1 = Ok (0, k2) /\
    has_fds lay (kmem k1) (curr_pcb k) (<[Z.to_nat fd := Some (kd, 0)]> t) /\
    has_fds lay (kmem k2) (curr_pcb k) t.
Proof.
  intros Hor Hlk He Hff Hkd Hc.
  destruct (open_spec _ _ _ _ _ _ _ _ _ _ Hor) as (r & k1 & Hrun & H & Hpos & _).
  rewrite Hlk in H. destruct H as (e' & He' & H). assert (e' = e) as -> by congruence.
  rewrite Hff, Hkd in H. destruct H as (-> & Hfds & _).
  assert (Ep : curr_pcb k1 = curr_pcb k) by (unfold curr_pcb; by rewrite Hpos).
  pose proof (hf_len _ _ _ _ (or_fds _ _ _ _ _ _ _ _ _ _ Hor)) as Hl.
  destruct (find_fd_spec lay (kmem k) (curr_pcb k) t (or_fds _ _ _ _ _ _ _ _ _ _ Hor))
    as [_ Hfd]. specialize (Hfd fd Hff). pose proof (free_fd_free _ _ Hff) as Hnone.
  pose proof (close_spec lay k1 _ fd (or_fops _ _ _ _ _ _ _ _ _ _ Hor) Hfds) as Hcl.
  unfold close_case in Hcl. rewrite count_open_insert, Hnone, anth_insert, decide_True in Hcl by (done || lia).
  cbn [in_use] in Hcl.
  replace ((2 <=? fd) && (fd <? 8) && (2 <? count_open t + 1 - 0)) with true in Hcl by lia.
  assert (Hk : closable kd = true).
  { unfold kind_of_type in Hkd. repeat case_match; try done; by injection Hkd as <-. }
  rewrite Hk in Hcl. destruct Hcl as (Hrun2 & Hfds2 & _).
  eexists k1, _. split; [done|]. split; [exact Hrun2|]. rewrite <-Ep. split; [done|].
  rewrite list_insert_insert_eq, list_insert_id in Hfds2; [done|].
  unfold anth in Hnone. rewrite nth_lookup in Hnone.
  destruct (lookup_lt_is_Some_2 t (Z.to_nat fd)) as [x Hx]; [lia|].
  rewrite Hx in *. cbn in Hnone. congruence.
Qed.

(** [read] and [write] on a descriptor that is out of range or not in use
    return -1 and change nothing; so do [read] of the standard output and
    [write] to the standard input. *)
Theorem bad_descriptor_refused lay k t fd dentry prev buf nbytes :
  fops_ok lay -> has_fds lay (kmem k) (curr_pcb k) t ->
  (fd < 0 \/ 8 <= fd \/ anth None t fd = None ->
   read lay dentry fd buf nbytes k = Ok (Some (-1), k) /\
   write lay prev fd buf nbytes k = Ok (-1, k)) /\
  (forall pos, 0 <= fd < 8 -> anth None t fd = Some (FStdout, pos) ->
   read lay dentry fd buf nbytes k = Ok (Some (-1), k)) /\
  (forall pos, 0 <= fd < 8 -> anth None t fd = Some (FStdin, pos) ->
   write lay prev fd buf nbytes k = Ok (-1, k)).
Proof.
  intros Hfo Ht. unfold read, write. split_and!.
  - intros Hbad. rewrite !(bind_ok _ _ k None k); [done | |];
      by rewrite (fd_check_refuses lay k t fd Ht Hbad).
  - intros pos Hfd Hk. rewrite (bind_ok _ _ k (Some FStdout) k); [done|].
    by rewrite (fd_check_open lay k t fd _ pos Hfo Ht Hfd Hk).
  - intros pos Hfd Hk. rewrite (bind_ok _ _ k (Some FStdin) k); [done|].
    by rewrite (fd_check_open lay k t fd _ pos Hfo Ht Hfd Hk).
Qed.

(** The arguments of a command line reach the program: after [execute],
    [getargs] of the new program into a large enough buffer of its page
    stores them there. *)
Theorem arguments_reach_program lay fr sp t command cmd k start NI NB dir i e pos buf nbytes :
  exec_ready lay fr sp t command cmd k start NI NB dir ->
  abs_lookup dir (cmd_word cmd) = Some i -> dir !! Z.to_nat i = Some e ->
  file_ok (kmem k) (k_fs k) NI NB (e_inode e) ->
  30 <= zlen (file_content (kmem k) (k_fs k) (e_inode e)) <= 3899392 ->
  take 4 (file_content (kmem k) (k_fs k) (e_inode e)) = elf_magic ->
  first_free (task_bitmap k) pos -> (pos <> sp \/ pos = 0 /\ runn_task_num k = 0) ->
  cmd_args cmd <> [] -> 8388608 <= buf -> zlen (cmd_args cmd) <= nbytes < 2147483648 ->
  exists k1 k2, execute lay fr command k =
      Ok (Entered (elf_entry (file_content (kmem k) (k_fs k) (e_inode e))), k1) /\
    getargs buf nbytes k1 = Ok (0, k2) /\ cstr (kmem k2) buf (cmd_args cmd).
Proof.
  intros Hr Hlk He Hok Hcl Hmg Hff Hsp Hne Hbuf Hn.
  destruct (execute_spec _ _ _ _ _ _ _ _ _ _ _ _ _ pos Hr Hlk He Hok Hcl Hmg Hff Hsp)
    as (k1 & Hex & St).
  pose proof (co_args _ _ _ (er_cmd _ _ _ _ _ _ _ _ _ _ _ Hr)) as Ha.
  pose proof (fp_args _ _ _ _ _ _ _ (st_pcb _ _ _ _ _ _ _ _ St)) as Hs.
  pose proof (pcb_at_low pos (proj1 Hff)) as (_ & _ & Phi).
  assert (Hl : 0 < zlen (cmd_args cmd)) by (destruct (cmd_args cmd); [done | cbn; lia]).
  assert (Ep : curr_pcb k1 = pcb_at pos) by (unfold curr_pcb; by rewrite (st_pos _ _ _ _ _ _ _ _ St)).
  pose proof (getargs_spec buf nbytes (cmd_args cmd) k1) as Hg. rewrite Ep in Hg.
  unfold args_fit in Hg.
  rewrite (proj2 (Z.eqb_neq buf 0)), (proj2 (Z.eqb_neq nbytes 0)), (u32_small nbytes),
    (proj2 (Z.leb_le _ nbytes)), (proj2 (Z.ltb_lt 0 _)) in Hg by lia.
  destruct Hg as (m' & Hg & Hc & _); [done | lia | unfold apart, arg_buffer; lia|].
  eexists k1, _. split; [done|]. split; [exact Hg|]. by rewrite kmem_set.
Qed.
