(* ===== verification/Terminal.v ===== *)
(** * The three terminals (terminal.c: terminal_init, terminal_boot,
      terminal_switch)

    One terminal is on the screen; the contents of the others are in three
    4 kB buffers behind the video memory, and their line buffers and cursor
    positions in [terminal_array].  The buffers of a [ter_info] are
    [int8_t]; a byte copied there and back is unchanged, and the model keeps
    it as a byte.

    A terminal that is shown for the first time starts a shell: [execute]
    enters user mode and does not come back, so an operation that boots a
    terminal has an [outcome]. *)

From Stdlib Require Import ZArith Lia String Ascii.
From stdpp Require Import base numbers list gmap.
From S2P Require Import Prelude Mem CString FileSys Console Printf Machine Pic Paging Pcb Exec.

Local Open Scope Z_scope.

(** ** The code *)

Definition MAX_TER_INDEX : Z := 2.
Definition TERMINAL_NUM : Z := 3.
Definition VIDEO_BUF_SIZE : Z := 4096.
Definition USER_RW_PRE : Z := 7.
Definition IRQ1 : Z := 1.

Definition video_buf_addr : list Z := [757760; 761856; 765952].

Inductive outcome (A : Type) :=
  | Returns (a : A)
  | UserMode (eip : Z).   (** control has left for a program *)
Arguments Returns {A} a.
Arguments UserMode {A} eip.

(** [shell] is the address of the local array [shell[100]], [fr] the frame
    of [execute]. *)
Definition terminal_boot (lay : layout) (fr : frame) (shell index : Z)
  : ST kernel (outcome unit) :=
  on_tty reset ;;
  _ ← on_tty (printf (bytes "terminal %d booted." ++ [LF]) [index + 1]);
  tis ← gets terminal_array;
  ti ← liftR (aget tis index);
  tis' ← liftR (aset tis index (set_terminal_state 1 ti));
  modify (set_terminal_array tis') ;;
  buf ← liftR (aget video_buf_addr index);
  let video_addr := Z.shiftr buf 12 in
  modify (pt_or video_addr USER_RW_PRE) ;;
  modify (pt_or video_addr buf) ;;
  modify (fun k => set_kmem (mset_bytes (kmem k) shell (pad 100 (bytes "shell"))) k) ;;
  modify (set_current_terminal_idx (u32 index)) ;;
  send_eoi IRQ1 ;;
  ksti ;;
  retval ← execute lay fr shell;
  match retval with
  | Entered eip => mret (UserMode eip)
  | Returned v =>
      when (v =? -1) (
        ksti ;;
        send_eoi 0 ;;
        _ ← on_tty (printf (bytes "return from first shell : -1. " ++ [LF]) []);
        mret tt) ;;
      mret (Returns tt)
  end.

(** The body of the loop of [terminal_init]. *)
Definition clear_terminal (i : Z) (ti : ter_info) : ter_info :=
  let ti := set_terminal_index i ti in
  let ti := set_screen_buffer
    (forz 0 4096 (fun j l => <[Z.to_nat j := 0]> l) (screen_buffer ti)) ti in
  let ti := forz 0 BUF_SIZE (fun j ti =>
    set_ti_read_buffer (<[Z.to_nat j := 0]> (ti_read_buffer ti))
      (set_ti_keyboard_buffer (<[Z.to_nat j := 0]> (ti_keyboard_buffer ti)) ti)) ti in
  let ti := set_cursor_pos_x 0 ti in
  let ti := set_cursor_pos_y 0 ti in
  set_terminal_state 0 ti.

Definition terminal_init (lay : layout) (fr : frame) (shell : Z) : ST kernel (outcome unit) :=
  modify (set_current_terminal_idx 0) ;;
  for_range 0 MAX_TER_INDEX (fun i =>
    tis ← gets terminal_array;
    ti ← liftR (aget tis i);
    tis' ← liftR (aset tis i (clear_terminal i ti));
    modify (set_terminal_array tis')) ;;
  terminal_boot lay fr shell 0.

(** What [terminal_switch] saves of the terminal on the screen. *)
Definition save_terminal (t : tty) (ti : ter_info) : ter_info :=
  let ti := forz 0 BUF_SIZE (fun i ti =>
    set_ti_read_buffer (<[Z.to_nat i := anth 0 (ter_read_buffer t) i]> (ti_read_buffer ti))
      (set_ti_keyboard_buffer
         (<[Z.to_nat i := anth 0 (keyboard_buffer t) i]> (ti_keyboard_buffer ti)) ti)) ti in
  let ti := set_cursor_pos_x (s8 (x_pos t)) ti in
  set_cursor_pos_y (s8 (y_pos t)) ti.

(** The loop that brings back the buffers. *)
Definition restore_buffers (ti : ter_info) (t : tty) : tty :=
  forz 0 BUF_SIZE (fun i t =>
    set_ter_read_buffer (<[Z.to_nat i := anth 0 (ti_read_buffer ti) i]> (ter_read_buffer t))
      (set_keyboard_buffer
         (<[Z.to_nat i := anth 0 (ti_keyboard_buffer ti) i]> (keyboard_buffer t)) t)) t.

(** The first half: everything up to the blank screen. *)
Definition switch_away (lay : layout) (cur : Z) : ST kernel unit :=
  tis ← gets terminal_array;
  t ← gets k_tty;
  ti ← liftR (aget tis cur);
  tis' ← liftR (aset tis cur (save_terminal t ti));
  modify (set_terminal_array tis') ;;
  buf ← liftR (aget video_buf_addr cur);
  m ← gets kmem;
  m' ← liftR (memcpy m buf VIDEO VIDEO_BUF_SIZE);
  modify (set_kmem m') ;;
  modify (map_video lay buf) ;;
  modify flush_tlb ;;
  on_tty reset.

(** The second half: the saved terminal comes back. *)
Definition switch_to (idx : Z) : ST kernel Z :=
  tis ← gets terminal_array;
  ti ← liftR (aget tis idx);
  modify (fun k => set_k_tty (restore_buffers ti (k_tty k)) k) ;;
  buf ← liftR (aget video_buf_addr idx);
  m ← gets kmem;
  m' ← liftR (memcpy m VIDEO buf VIDEO_BUF_SIZE);
  modify (set_kmem m') ;;
  modify (set_current_terminal_idx (u32 idx)) ;;
  on_tty (update_x (cursor_pos_x ti)) ;;
  on_tty (update_y (cursor_pos_y ti)) ;;
  on_tty (update_cursor (cursor_pos_y ti) (cursor_pos_x ti)) ;;
  mret 0.

(** An index that is not that of a terminal is let through when it is equal
    to [TERMINAL_NUM] or negative: the arrays are then indexed outside. *)
Definition terminal_switch (lay : layout) (fr : frame) (shell terminal_idx : Z)
  : ST kernel (outcome Z) :=
  cur ← gets current_terminal_idx;
  if TERMINAL_NUM <? terminal_idx then mret (Returns (-1))
  else if u32 terminal_idx =? cur then mret (Returns 0)
  else
    switch_away lay cur ;;
    tis ← gets terminal_array;
    ti ← liftR (aget tis terminal_idx);
    b ← (if terminal_state ti =? 0 then terminal_boot lay fr shell terminal_idx
         else mret (Returns tt));
    match b with
    | UserMode eip => mret (UserMode eip)
    | Returns _ => r ← switch_to terminal_idx; mret (Returns r)
    end.

(** ** Saving and restoring *)

(** A terminal structure of the right shape. *)
Record ter_wf (ti : ter_info) : Prop := {
  tw_kb : zlen (ti_keyboard_buffer ti) = 128;
  tw_read : zlen (ti_read_buffer ti) = 128;
  tw_cursor : on_screen (cursor_pos_y ti) (cursor_pos_x ti);
}.

(** A loop that fills two arrays of 128 bytes of a structure [mk a b]. *)
Lemma copy_two {S} (mk : list Z -> list Z -> S) (f : Z -> S -> S) (p q a b : list Z) :
  zlen p = 128 -> zlen q = 128 -> zlen a = 128 -> zlen b = 128 ->
  (forall i a b, 0 <= i < 128 -> f i (mk a b) =
     mk (<[Z.to_nat i := anth 0 p i]> a) (<[Z.to_nat i := anth 0 q i]> b)) ->
  forz 0 128 f (mk a b) = mk p q.
Proof.
  intros Lp Lq La Lb Hf.
  destruct (forz_inv (fun n x => exists a' b', x = mk a' b' /\
      (zlen a' = 128 /\ forall j, 0 <= j < n -> anth 0 a' j = anth 0 p j) /\
      (zlen b' = 128 /\ forall j, 0 <= j < n -> anth 0 b' j = anth 0 q j)) 0 128 f (mk a b))
    as (a' & b' & -> & [Ha Ea] & [Hb Eb]); [done | | |].
  - exists a, b. split; [done|]. split; (split; [done | lia]).
  - intros n x Hn (a' & b' & -> & [Ha Ea] & [Hb Eb]). rewrite Hf by done.
    eexists _, _. split; [done|].
    split; (split; [by rewrite length_insert|]); intros j Hj;
      rewrite anth_insert by lia; case_decide; subst; try done; [apply Ea | apply Eb]; lia.
  - f_equal; apply (anth_eq 0); lia || (intros; auto with lia).
Qed.

Lemma save_terminal_spec t ti :
  tty_wf t -> ter_wf ti ->
  save_terminal t ti =
  TerInfo (terminal_index ti) (screen_buffer ti) (keyboard_buffer t) (ter_read_buffer t)
    (screen_x t) (screen_y t) (terminal_state ti).
Proof.
  intros [Hc _ Hk _ Hr] [Tk Tr Tc]. unfold save_terminal, BUF_SIZE, on_screen in *.
  destruct ti as [ix sb kb rb x y st].
  rewrite (copy_two (fun kb rb => TerInfo ix sb kb rb x y st) _
    (keyboard_buffer t) (ter_read_buffer t)) by done.
  by rewrite !s8_small by (unfold x_pos, y_pos; lia).
Qed.

Lemma restore_buffers_spec t ti :
  tty_wf t -> ter_wf ti ->
  restore_buffers ti t =
  set_ter_read_buffer (ti_read_buffer ti) (set_keyboard_buffer (ti_keyboard_buffer ti) t).
Proof.
  intros [_ _ Hk _ Hr] [Tk Tr Tc]. unfold restore_buffers, BUF_SIZE.
  transitivity (forz 0 128 (fun i t => set_ter_read_buffer
      (<[Z.to_nat i := anth 0 (ti_read_buffer ti) i]> (ter_read_buffer t))
      (set_keyboard_buffer
         (<[Z.to_nat i := anth 0 (ti_keyboard_buffer ti) i]> (keyboard_buffer t)) t))
    (set_ter_read_buffer (ter_read_buffer t) (set_keyboard_buffer (keyboard_buffer t) t)));
    [by destruct t|].
  by rewrite (copy_two (fun kb rb => set_ter_read_buffer rb (set_keyboard_buffer kb t)) _
    (ti_keyboard_buffer ti) (ti_read_buffer ti)).
Qed.

Lemma clear_terminal_spec i ti :
  ter_wf ti -> zlen (screen_buffer ti) = 4096 ->
  clear_terminal i ti =
  TerInfo i (replicate 4096 0) (replicate 128 0) (replicate 128 0) 0 0 0.
Proof.
  intros [Tk Tr Tc] Hs. unfold clear_terminal, BUF_SIZE. destruct ti as [ix sb kb rb x y st].
  cbn [screen_buffer set_terminal_index ti_keyboard_buffer ti_read_buffer] in *.
  rewrite zero_array by done. replace (List.length sb) with 4096%nat by lia.
  unfold set_screen_buffer, set_terminal_index. cbn [terminal_index ti_keyboard_buffer
    ti_read_buffer cursor_pos_x cursor_pos_y terminal_state].
  set (z4096 := replicate 4096 0).
  rewrite (copy_two (fun kb rb => TerInfo i z4096 kb rb x y st) _
    (replicate 128 0) (replicate 128 0)); try done.
  intros j a b Hj. rewrite !anth_replicate by lia. done.
Qed.

(** ** Switching *)

(** What switching terminals leaves alone. *)
Record tasks_same (k k' : kernel) : Prop := {
  ts_fs : k_fs k' = k_fs k;
  ts_bitmap : task_bitmap k' = task_bitmap k;
  ts_pos : curr_task_pos k' = curr_task_pos k;
  ts_running : runn_task_num k' = runn_task_num k;
  ts_esp0 : tss_esp0 k' = tss_esp0 k;
}.

#[export] Instance tasks_same_refl : Reflexive tasks_same.
Proof. by constructor. Qed.
#[export] Instance tasks_same_trans : Transitive tasks_same.
Proof. intros k1 k2 k3 [] []. constructor; congruence. Qed.

(** The buffer of terminal [i]. *)
Definition term_buf (i : Z) : Z := 757760 + 4096 * i.

Lemma video_buf i : 0 <= i < 3 -> aget video_buf_addr i = Ok (term_buf i).
Proof.
  intros Hi. rewrite (aget_ok 0) by (cbn; lia).
  assert (i = 0 \/ i = 1 \/ i = 2) as [->|[->| ->]] by lia; done.
Qed.

Lemma term_buf_page i : 0 <= i < 3 -> term_buf i ∈ video_pages.
Proof.
  intros Hi. assert (i = 0 \/ i = 1 \/ i = 2) as [->|[->| ->]] by lia;
    apply list_elem_of_In; unfold term_buf; cbn; lia.
Qed.

(** The kernel with terminals of the right shape, [c] being on the screen. *)
Record terms_ok (lay : layout) (k : kernel) (c : Z) (task : option Z) : Prop := {
  to_tty : tty_wf (k_tty k);
  to_cur : current_terminal_idx k = c;
  to_num : 0 <= c < 3;
  to_arr : zlen (terminal_array k) = 3;
  to_wf : Forall ter_wf (terminal_array k);
  to_dir : dir_ok lay (page_dir k) task;
  to_tab : tab_ok (page_tab k);
}.

Definition no_term : ter_info := TerInfo 0 [] [] [] 0 0 0.
Abbreviation term k i := (anth no_term (terminal_array k) i).

Lemma term_wf k i : Forall ter_wf (terminal_array k) -> 0 <= i < zlen (terminal_array k) ->
  ter_wf (term k i).
Proof.
  intros H Hi. rewrite Forall_forall in H. apply H, list_elem_of_In, nth_In. lia.
Qed.

(** What a terminal looks like when it is put away. *)
Definition put_away (t : tty) (ti : ter_info) : ter_info :=
  TerInfo (terminal_index ti) (screen_buffer ti) (keyboard_buffer t) (ter_read_buffer t)
    (screen_x t) (screen_y t) (terminal_state ti).

Lemma put_away_wf t ti : tty_wf t -> ter_wf (put_away t ti).
Proof. by intros [? _ ? _ ?]. Qed.

(** The window of programs on the video memory shows the page [p], and no other
    entry of the page tables has changed. *)
Definition window_on (lay : layout) (p : Z) (k k' : kernel) : Prop :=
  page_dir k' = <[34%nat := page_tab_at lay + 7]> (page_dir k) /\
  page_tab k' = <[0%nat := p + 7]> (page_tab k).

Lemma switch_away_spec lay k c task :
  terms_ok lay k c task -> layout_ok lay ->
  wp (switch_away lay c) (fun _ k' =>
    terms_ok lay k' c task /\ mmu_sync k' /\ tasks_same k k' /\
    terminal_array k' =
      <[Z.to_nat c := put_away (k_tty k) (term k c)]> (terminal_array k) /\
    window_on lay (term_buf c) k k' /\ kb_buffer_position (k_tty k') = 0 /\
    (forall b, off_screen b -> mget (kmem k') b =
       if decide (term_buf c <= b < term_buf c + 4096)
       then mget (kmem k) (VIDEO + (b - term_buf c)) else mget (kmem k) b)) k.
Proof.
  intros [Ht Hcur Hc Ha Hwf Hd Hp] Hlay. unfold switch_away.
  pose proof (term_wf k c Hwf ltac:(lia)) as Hcw.
  do 2 (apply wp_bind, wp_gets; cbv beta).
  apply wp_bind. eapply wp_liftR; [apply (aget_ok no_term); lia|].
  rewrite save_terminal_spec by done. fold (put_away (k_tty k) (term k c)).
  apply wp_bind. eapply wp_liftR; [apply aset_ok; lia|].
  set (tis := <[Z.to_nat c := put_away (k_tty k) (term k c)]> (terminal_array k)).
  assert (Htis : Forall ter_wf tis)
    by (apply Forall_insert; [done | by apply put_away_wf]).
  apply wp_bind, wp_modify. apply wp_bind. eapply wp_liftR; [by apply video_buf|].
  apply wp_bind, wp_gets.
  change (kmem (set_terminal_array tis k)) with (kmem k).
  destruct (memcpy_spec (kmem k) (term_buf c) VIDEO VIDEO_BUF_SIZE) as (m1 & Hcp & Hm1);
    [done | right; unfold VIDEO, VIDEO_BUF_SIZE, term_buf; lia|].
  apply wp_bind. eapply wp_liftR; [exact Hcp|]. unfold VIDEO_BUF_SIZE in Hm1.
  apply wp_bind, wp_modify. apply wp_bind, wp_modify. apply wp_bind, wp_modify.
  set (k0 := set_kmem m1 (set_terminal_array tis k)).
  destruct (dir_ok_video lay k0 task (term_buf c) Hlay (term_buf_page c Hc) Hd Hp)
    as [Hd' Hp'].
  rewrite map_video_set in Hd', Hp' |- *
    by (done || apply term_buf_page, Hc || apply (do_len _ _ _ Hd)).
  set (k1 := pt_set 0 _ _) in *.
  assert (E : k_tty (flush_tlb k1) = set_t_mem m1 (k_tty k)) by done.
  destruct Ht as [Tcur Tt Tk Tp Tr].
  apply wp_on_tty. rewrite E. eapply wp_mono; [apply reset_spec; done|].
  cbv beta. intros _ s' (Hwf' & _ & Hpos & _ & _ & _ & Hframe). split_and!.
  - constructor; try done.
    change (terminal_array (set_k_tty s' (flush_tlb k1))) with tis.
    unfold tis. by rewrite length_insert.
  - done.
  - done.
  - done.
  - done.
  - exact Hpos.
  - intros b Hb. change (kmem (set_k_tty s' (flush_tlb k1))) with (t_mem s').
    rewrite Hframe by done. apply Hm1.
Qed.

(** Where the cursor comes back: column 0 becomes the last column, and row 0
    the last row. *)
Definition back_x (x : Z) : Z := if x =? 0 then 79 else x.
Definition back_y (y : Z) : Z := if y =? 0 then 24 else y.

Lemma update_x_spec x s :
  0 <= x < 80 -> update_x x s = Ok (tt, set_screen_x (back_x x) s).
Proof.
  intros Hx. unfold update_x, back_x, NUM_COLS, MAX_X.
  destruct (Z.eqb_spec x 0) as [->|]; [done|].
  by rewrite (proj2 (Z.ltb_lt x 80)), (proj2 (Z.ltb_lt 0 x)) by lia.
Qed.

Lemma update_y_spec y s :
  0 <= y < 25 -> update_y y s = Ok (tt, set_screen_y (back_y y) s).
Proof.
  intros Hy. unfold update_y, back_y, NUM_ROWS, MAX_Y.
  destruct (Z.eqb_spec y 0) as [->|]; [done|].
  by rewrite (proj2 (Z.ltb_lt y 25)), (proj2 (Z.ltb_lt 0 y)) by lia.
Qed.

(** The last three statements of [terminal_switch]. *)
Lemma cursor_back y x k :
  on_screen y x ->
  (on_tty (update_x x) ;; on_tty (update_y y) ;; on_tty (update_cursor y x) ;;
   mret 0 : ST kernel Z) k =
  Ok (0, set_k_tty (set_t_trace (t_trace (k_tty k) ++ cursor_io y x)
    (set_screen_y (back_y y) (set_screen_x (back_x x) (k_tty k)))) k).
Proof.
  intros [Hy Hx].
  erewrite bind_ok by (unfold on_tty; rewrite update_x_spec by exact Hx; reflexivity).
  erewrite bind_ok by (unfold on_tty; rewrite update_y_spec by exact Hy; reflexivity).
  erewrite bind_ok
    by (unfold on_tty; rewrite update_cursor_spec by exact (conj Hy Hx); reflexivity).
  reflexivity.
Qed.

Lemma switch_to_spec lay k c task i :
  terms_ok lay k c task -> 0 <= i < 3 ->
  wp (switch_to i) (fun r k' => r = 0 /\
    terms_ok lay k' i task /\ (mmu_sync k -> mmu_sync k') /\ tasks_same k k' /\
    terminal_array k' = terminal_array k /\
    keyboard_buffer (k_tty k') = ti_keyboard_buffer (term k i) /\
    ter_read_buffer (k_tty k') = ti_read_buffer (term k i) /\
    kb_buffer_position (k_tty k') = kb_buffer_position (k_tty k) /\
    page_dir k' = page_dir k /\ page_tab k' = page_tab k /\
    screen_x (k_tty k') = back_x (cursor_pos_x (term k i)) /\
    screen_y (k_tty k') = back_y (cursor_pos_y (term k i)) /\
    forall b, mget (kmem k') b =
      if decide (VIDEO <= b < VIDEO + 4096)
      then mget (kmem k) (term_buf i + (b - VIDEO)) else mget (kmem k) b) k.
Proof.
  intros [Ht Hcur Hc Ha Hwf Hd Hp] Hi. unfold switch_to.
  pose proof (term_wf k i Hwf ltac:(lia)) as Hiw. destruct (tw_cursor _ Hiw) as [Hy Hx].
  apply wp_bind, wp_gets. apply wp_bind. eapply wp_liftR; [apply (aget_ok no_term); lia|].
  apply wp_bind, wp_modify. rewrite restore_buffers_spec by done.
  apply wp_bind. eapply wp_liftR; [by apply video_buf|]. apply wp_bind, wp_gets.
  set (t1 := set_ter_read_buffer _ _). change (kmem (set_k_tty t1 k)) with (kmem k).
  destruct (memcpy_spec (kmem k) VIDEO (term_buf i) VIDEO_BUF_SIZE) as (m1 & Hcp & Hm1);
    [done | left; unfold VIDEO, VIDEO_BUF_SIZE, term_buf; lia|].
  apply wp_bind. eapply wp_liftR; [exact Hcp|]. unfold VIDEO_BUF_SIZE in Hm1.
  apply wp_bind, wp_modify. apply wp_bind, wp_modify. rewrite (u32_small i) by lia.
  set (k1 := set_current_terminal_idx i (set_kmem m1 (set_k_tty t1 k))).
  eapply wp_ok; [apply cursor_back; by split|].
  assert (E : k_tty k1 = set_t_mem m1 t1) by reflexivity. rewrite E.
  destruct Ht as [Tcur Tt Tk Tp Tr].
  split; [reflexivity|]. split.
  { constructor; [|reflexivity | exact Hi | exact Ha | exact Hwf | exact Hd | exact Hp].
    constructor; [|exact Tt | apply Hiw | exact Tp | apply Hiw].
    cbn. unfold back_x, back_y, on_screen. repeat case_match; lia. }
  split; [intros H; exact H|].
  split; [by constructor|]. do 8 (split; [reflexivity|]). exact Hm1.
Qed.

(** The kernel after a switch from terminal [c] to terminal [i]. *)
Record switched (lay : layout) (k k' : kernel) (c i : Z) (task : option Z) : Prop := {
  sw_ok : terms_ok lay k' i task;
  sw_mmu : mmu_sync k';
  sw_tasks : tasks_same k k';
  sw_arr : terminal_array k' =
    <[Z.to_nat c := put_away (k_tty k) (term k c)]> (terminal_array k);
  sw_window : window_on lay (term_buf c) k k';
  sw_kb : keyboard_buffer (k_tty k') = ti_keyboard_buffer (term k i);
  sw_pos : kb_buffer_position (k_tty k') = 0;
  sw_read : ter_read_buffer (k_tty k') = ti_read_buffer (term k i);
  sw_x : screen_x (k_tty k') = back_x (cursor_pos_x (term k i));
  sw_y : screen_y (k_tty k') = back_y (cursor_pos_y (term k i));
  sw_mem : forall b, mget (kmem k') b =
    if decide (VIDEO <= b < VIDEO + 4096) then mget (kmem k) (term_buf i + (b - VIDEO))
    else if decide (term_buf c <= b < term_buf c + 4096)
    then mget (kmem k) (VIDEO + (b - term_buf c)) else mget (kmem k) b;
}.

Lemma term_insert k c i ti :
  zlen (terminal_array k) = 3 -> 0 <= c < 3 -> 0 <= i -> i <> c ->
  anth no_term (<[Z.to_nat c := ti]> (terminal_array k)) i = term k i.
Proof. intros. rewrite anth_insert by lia. by rewrite decide_False. Qed.

(** Switching to a terminal that has a shell. *)
Lemma switch_active lay fr shell k c i task :
  terms_ok lay k c task -> layout_ok lay -> 0 <= i < 3 -> i <> c ->
  terminal_state (term k i) <> 0 ->
  wp (terminal_switch lay fr shell i) (fun r k' =>
    r = Returns 0 /\ switched lay k k' c i task) k.
Proof.
  intros Hok Hlay Hi Hne Hact. pose proof Hok as [Ht Hcur Hc Ha Hwf Hd Hp].
  unfold terminal_switch, TERMINAL_NUM. apply wp_bind, wp_gets. rewrite Hcur.
  rewrite u32_small, (proj2 (Z.ltb_ge 3 i)), (proj2 (Z.eqb_neq i c)) by lia.
  apply wp_bind. eapply wp_mono; [by apply switch_away_spec|].
  intros _ k1 (Hok1 & Hm1 & Ts1 & Arr1 & [Wd Wt] & Hpos & Mem1). cbv beta.
  apply wp_bind, wp_gets. apply wp_bind.
  eapply wp_liftR; [apply (aget_ok no_term); rewrite (to_arr _ _ _ _ Hok1); lia|].
  assert (Hterm : term k1 i = term k i) by (rewrite Arr1; apply term_insert; lia).
  rewrite Hterm, (proj2 (Z.eqb_neq _ 0)) by done.
  apply wp_bind, wp_ret. apply wp_bind. eapply wp_mono; [by apply (switch_to_spec lay k1 c task)|].
  intros r k2 (-> & Hok2 & Hm2 & Ts2 & Arr2 & Hkb & Hrb & Ep & Ed & Et & Hx & Hy & Mem2).
  apply wp_ret. split; [done|]. rewrite Hterm in Hkb, Hrb, Hx, Hy.
  constructor; try done;
    [by apply Hm2 | by transitivity k1 | congruence | split; congruence | congruence|].
  intros b. rewrite Mem2. unfold off_screen, VIDEO, term_buf in *.
  case_decide; [|case_decide]; rewrite Mem1 by lia; case_decide; try lia; done.
Qed.

(** ** Starting the shell of a terminal *)

(** What [terminal_boot] does with the result of [execute]. *)
Definition boot_tail (retval : exec_result) : ST kernel (outcome unit) :=
  match retval with
  | Entered eip => mret (UserMode eip)
  | Returned v =>
      when (v =? -1) (
        ksti ;;
        send_eoi 0 ;;
        _ ← on_tty (printf (bytes "return from first shell : -1. " ++ [LF]) []);
        mret tt) ;;
      mret (Returns tt)
  end.

(** The page of a terminal's buffer is opened. *)
Lemma tab_ok_buf k i :
  tab_ok (page_tab k) -> 0 <= i < 3 ->
  tab_ok (page_tab (pt_or (Z.shiftr (term_buf i) 12) (term_buf i)
    (pt_or (Z.shiftr (term_buf i) 12) USER_RW_PRE k))).
Proof.
  intros [Hl Hv He] Hi. unfold pt_or at 2. rewrite pt_or_set.
  2:{ rewrite Hl. assert (i = 0 \/ i = 1 \/ i = 2) as [->|[->| ->]] by lia; done. }
  assert (Hj : Z.shiftr (term_buf i) 12 = 185 + i)
    by (assert (i = 0 \/ i = 1 \/ i = 2) as [->|[->| ->]] by lia; done).
  rewrite Hj. constructor.
  - by rewrite pt_len.
  - rewrite pt_get by lia. by rewrite decide_False by lia.
  - intros j Hj'. rewrite pt_get by lia. case_decide; [|by apply He].
    right. destruct (He (185 + i) ltac:(lia)) as [->|(p & Hp & ->)].
    + exists (term_buf i). split; [by apply term_buf_page|].
      assert (i = 0 \/ i = 1 \/ i = 2) as [->|[->| ->]] by lia; done.
    + exists (Z.lor p (term_buf i)). rewrite list_elem_of_In in Hp. cbn in Hp.
      assert (i = 0 \/ i = 1 \/ i = 2) as [->|[->| ->]] by lia;
        destruct Hp as [<-|[<-|[<-|[<-|[]]]]]; split; try done;
        apply list_elem_of_In; vm_compute; tauto.
Qed.

(** [terminal_boot] up to [execute]: a blank screen with a message, the
    terminal marked as active, and the name of the shell in memory. *)
Lemma terminal_boot_rule lay fr shell k c i task (Q : outcome unit -> kernel -> Prop) :
  terms_ok lay k c task -> 0 <= i < 3 -> 4194304 <= shell ->
  (forall k1, terms_ok lay k1 i task -> tasks_same k k1 -> page_dir k1 = page_dir k ->
     terminal_array k1 = <[Z.to_nat i := set_terminal_state 1 (term k i)]> (terminal_array k) ->
     cstr (kmem k1) shell (bytes "shell") ->
     (forall b, off_screen b -> (b < shell \/ shell + 100 <= b) ->
        mget (kmem k1) b = mget (kmem k) b) ->
     wp (retval ← execute lay fr shell; boot_tail retval) Q k1) ->
  wp (terminal_boot lay fr shell i) Q k.
Proof.
  intros [Ht Hcur Hc Ha Hwf Hd Hp] Hi Hsh HQ. unfold terminal_boot.
  destruct Ht as [Tcur Tt Tk Tp Tr].
  apply wp_bind, wp_on_tty. eapply wp_mono; [by apply reset_spec|].
  intros _ s1 (Wf1 & _ & _ & _ & _ & _ & Hm1). apply wp_bind, wp_on_tty.
  change (k_tty (set_k_tty s1 k)) with s1.
  eapply wp_mono; [apply printf_spec; [done | by apply numeric_fits]|].
  intros _ s2 (_ & txt & _ & (Wf2 & Hpr & _)).
  change (set_k_tty s2 (set_k_tty s1 k)) with (set_k_tty s2 k).
  apply wp_bind, wp_gets. change (terminal_array (set_k_tty s2 k)) with (terminal_array k).
  apply wp_bind. eapply wp_liftR; [apply (aget_ok no_term); lia|].
  apply wp_bind. eapply wp_liftR; [apply aset_ok; lia|].
  apply wp_bind, wp_modify. apply wp_bind. eapply wp_liftR; [by apply video_buf|]. cbv zeta.
  set (tis := <[Z.to_nat i := _]> _). apply wp_bind, wp_modify. apply wp_bind, wp_modify.
  set (k0 := set_terminal_array tis (set_k_tty s2 k)).
  pose proof (tab_ok_buf k0 i Hp Hi) as Htab. set (k1 := pt_or _ _ _) in *.
  assert (E : k_tty k1 = s2 /\ page_dir k1 = page_dir k /\ terminal_array k1 = tis /\
    tasks_same k k1) by (split_and!; [reflexivity.. | by constructor]).
  destruct E as (E1 & E2 & E3 & E4). clearbody k1. clear k0.
  apply wp_bind, wp_modify. apply wp_bind, wp_modify. rewrite (u32_small i) by lia.
  apply wp_bind. eapply wp_ok; [apply send_eoi_spec; done|]. apply wp_bind. apply wp_on_tty.
  apply wp_modify. 
  set (m2 := mset_bytes (kmem k1) shell (pad 100 (bytes "shell"))).
  set (k2 := set_k_tty _ _).
  assert (F : k_tty k2 = set_t_if true (set_t_trace (t_trace s2 ++ eoi_io IRQ1) (set_t_mem m2 s2)))
    by (rewrite <-E1; reflexivity).
  assert (G : page_dir k2 = page_dir k1 /\ page_tab k2 = page_tab k1 /\
    terminal_array k2 = terminal_array k1 /\ tasks_same k1 k2 /\ current_terminal_idx k2 = i)
    by (split_and!; [reflexivity.. | by constructor | reflexivity]).
  destruct G as (G1 & G2 & G3 & G4 & G5). clearbody k2.
  destruct Wf2 as [Wc Wt Wk Wp Wr]. apply HQ.
  - constructor; rewrite ?G1, ?G2, ?G3, ?E2, ?E3; try done.
    + rewrite F. by constructor.
    + unfold tis. by rewrite length_insert.
    + apply Forall_insert; [done|]. destruct (term_wf k i Hwf ltac:(lia)). by constructor.
  - by transitivity k1.
  - congruence.
  - rewrite G3; exact E3.
  - unfold kmem. rewrite F. apply (cstr_pad (kmem k1) shell 100 (bytes "shell")); [done|].
    unfold bytes. repeat constructor.
  - intros b Hb Ho. unfold kmem. rewrite F. cbn [t_mem set_t_if set_t_trace set_t_mem].
    unfold m2. rewrite (so_mset_bytes (kmem k1) shell (pad 100 (bytes "shell")) 100) by done.
    unfold kmem. rewrite E1, (pr_mem _ _ Hpr), Hm1 by done. done.
Qed.

(** What the shell of a terminal needs: the executable [content] in the
    image under the name [shell], a free slot [pos], and room on the stack
    of slot [sp] for the locals. *)
Record shell_ready (lay : layout) (fr : frame) (sp shell pos : Z) (content : list Z)
  (k : kernel) : Prop := {
  sr_image : exists start NI NB dir i e,
    world lay (k_fs k) (kmem k) start NI NB dir /\
    abs_lookup dir (bytes "shell") = Some i /\ dir !! Z.to_nat i = Some e /\
    file_ok (kmem k) (k_fs k) NI NB (e_inode e) /\
    content = file_content (kmem k) (k_fs k) (e_inode e);
  sr_size : 30 <= zlen content <= 3899392;
  sr_elf : take 4 content = elf_magic;
  sr_layout : layout_ok lay;
  sr_frame : frame_ok fr sp;
  sr_local : pcb_at sp + 520 <= shell /\ shell + 100 <= pcb_at sp + 8192;
  sr_slot : first_free (task_bitmap k) pos;
  sr_stack : pos <> sp \/ pos = 0 /\ runn_task_num k = 0;
  sr_room : 0 <= runn_task_num k < 6;
}.

(** The kernel after the shell of terminal [i] has been started in slot
    [pos]. *)
Record shell_started (lay : layout) (pos i : Z) (content : list Z) (k k' : kernel) : Prop := {
  ss_bitmap : task_bitmap k' = <[Z.to_nat pos := 1]> (task_bitmap k);
  ss_pos : curr_task_pos k' = pos;
  ss_running : runn_task_num k' = u8 (runn_task_num k + 1);
  ss_dir : dir_ok lay (page_dir k') (Some pos);
  ss_tab : tab_ok (page_tab k');
  ss_mmu : mmu_sync k';
  ss_esp0 : tss_esp0 k' = 8388608 - 8192 * pos - 4;
  ss_image : mbytes (kmem k') (load_at pos) (List.length content) = content;
  ss_files : load_s32 (kmem k') (open_file_num (pcb_at pos)) = 2 /\
    fd_at (kmem k') (pcb_at pos) 0 = Fdesc (u32 (stdin_op_table lay)) 0 0 1 /\
    fd_at (kmem k') (pcb_at pos) 1 = Fdesc (u32 (stdout_op_table lay)) 0 0 1;
  ss_term : current_terminal_idx k' = i /\ terminal_state (term k' i) = 1;
}.

(** Starting the shell of a terminal enters user mode at the entry point of
    the shell. *)
Lemma terminal_boot_enters lay fr sp shell k c i task pos content :
  terms_ok lay k c task -> 0 <= i < 3 -> shell_ready lay fr sp shell pos content k ->
  wp (terminal_boot lay fr shell i) (fun r k' =>
    r = UserMode (elf_entry content) /\ shell_started lay pos i content k k') k.
Proof.
  intros Hok Hi [Himg Hsz Helf Hlay Hfr Hloc Hff Hst Hroom].
  destruct Himg as (start & NI & NB & dir & j & e & Hw & Hlk & He & Hf & Hc).
  pose proof (fo_slot _ _ Hfr) as Hsl. pose proof (pcb_at_low sp Hsl) as (P5 & Plo & Phi).
  apply (terminal_boot_rule lay fr shell k c i task); [done | done | lia|].
  intros k1 Hok1 [Tf Tb Tp Tr Te] Hpd Harr Hstr Hmem.
  assert (Hlow : forall b, 4194304 <= b < pcb_at 5 -> mget (kmem k1) b = mget (kmem k) b).
  { intros b Hb. apply Hmem; unfold off_screen, VIDEO; lia. }
  destruct (file_kernel lay (k_fs k) (kmem k) (kmem k1) start NI NB dir (e_inode e))
    as (Hf1 & _ & Hc1); [done..|].
  pose proof (execute_spec lay fr sp task shell (bytes "shell") k1 start NI NB dir j e pos)
    as HE. cbv zeta in HE. rewrite Tf, Hc1, <-Hc, Tb, Tr in HE.
  destruct HE as (k' & Hrun & St); try done.
  { constructor; try done; rewrite ?Tf, ?Hpd, ?Tr; try done; [| apply Hok | apply Hok1 | lia].
    by eapply world_same. }
  destruct St as [S1 S2 S3 S4 S5 S6 S7 S8 S9 S10 S11 [S12 S13]].
  apply wp_bind. eapply wp_ok; [exact Hrun|]. apply wp_ret. split; [done|].
  constructor; rewrite ?S5; try congruence; try done; [apply Hok1 | split_and!; apply S10 |].
  rewrite S12, S13. pose proof (to_arr _ _ _ _ Hok).
  split; [apply Hok1|]. rewrite Harr, anth_insert by lia. by rewrite decide_True.
Qed.

(** ** The properties of the terminals *)

(** C23: Switching to a terminal that has a shell, and back: the screen, the two
    line buffers and the rest of memory are as before; only the saved copy of
    the screen has changed.  Not restored are the position in the line buffer,
    which is 0, and the window of programs on the video memory, which shows the
    buffer of the other terminal; the other entries of the page tables are as
    before.  A cursor in column 0 comes back in column 79, and one in row 0 in
    row 24. *)
Theorem terminal_switch_round_trip lay fr shell k c i task :
  terms_ok lay k c task -> layout_ok lay -> 0 <= i < 3 -> i <> c ->
  terminal_state (term k i) <> 0 -> terminal_state (term k c) <> 0 ->
  exists k1 k2, terminal_switch lay fr shell i k = Ok (Returns 0, k1) /\
    terminal_switch lay fr shell c k1 = Ok (Returns 0, k2) /\
    current_terminal_idx k1 = i /\ current_terminal_idx k2 = c /\
    keyboard_buffer (k_tty k2) = keyboard_buffer (k_tty k) /\
    ter_read_buffer (k_tty k2) = ter_read_buffer (k_tty k) /\
    screen_x (k_tty k2) = back_x (screen_x (k_tty k)) /\
    screen_y (k_tty k2) = back_y (screen_y (k_tty k)) /\
    kb_buffer_position (k_tty k2) = 0 /\
    window_on lay (term_buf i) k k2 /\ mmu_sync k2 /\ tasks_same k k2 /\
    (forall b, b < term_buf c \/ term_buf c + 4096 <= b -> mget (kmem k2) b = mget (kmem k) b).
Proof.
  intros Hok Hlay Hi Hne Hai Hac. pose proof (to_num _ _ _ _ Hok) as Hc.
  pose proof (to_arr _ _ _ _ Hok) as Ha.
  destruct (wp_inv _ _ _ (switch_active lay fr shell k c i task Hok Hlay Hi Hne Hai))
    as (r1 & k1 & Hrun1 & -> & [Ok1 _ T1 A1 [Wd1 Wt1] _ _ _ _ _ M1]).
  assert (Hterm : term k1 c = put_away (k_tty k) (term k c)).
  { rewrite A1, anth_insert by lia. by rewrite decide_True. }
  destruct (wp_inv _ _ _ (switch_active lay fr shell k1 i c task Ok1 Hlay Hc
    ltac:(congruence) ltac:(rewrite Hterm; exact Hac)))
    as (r2 & k2 & Hrun2 & -> & [Ok2 S2 T2 _ [Wd2 Wt2] Hkb P2 Hrb Hx Hy M2]).
  rewrite Hterm in Hkb, Hrb, Hx, Hy. exists k1, k2. split_and!; try done.
  1,2: by eapply to_cur.
  { split; [rewrite Wd2, Wd1 | rewrite Wt2, Wt1]; apply list_insert_insert_eq. }
  { by etrans. }
  intros b Hb. rewrite M2. unfold term_buf, VIDEO in *. repeat case_decide; try lia.
  - rewrite M1. repeat case_decide; try lia. f_equal. lia.
  - rewrite M1. repeat case_decide; try lia. f_equal. lia.
  - rewrite M1. by repeat case_decide; try lia.
Qed.

(** C24: Showing a terminal for the first time starts a shell for it: user mode is
    entered at the shell's entry point, in the first free slot, with the
    page, the block and the kernel stack of that slot set up, and the
    terminal is marked as active and current. *)
Theorem terminal_boot_starts_shell lay fr sp shell k c i task pos content :
  terms_ok lay k c task -> 0 <= i < 3 -> shell_ready lay fr sp shell pos content k ->
  exists k', terminal_boot lay fr shell i k = Ok (UserMode (elf_entry content), k') /\
    shell_started lay pos i content k k'.
Proof.
  intros H1 H2 H3.
  destruct (wp_inv _ _ _ (terminal_boot_enters lay fr sp shell k c i task pos content H1 H2 H3))
    as (r & k' & Hr & -> & Hs). exists k'. exact (conj Hr Hs).
Qed.
