(* ===== verification/Quiet.v ===== *)
(** * What output, programs and terminals leave alone

    Printing, [execute] and switching terminals change the console, memory and
    the data of tasks and terminals, but neither the modifier keys nor the
    masks of the interrupt controllers.  [Quiet T] says that [T] is about such
    things only: every assignment this code makes keeps it.  The lemmas show
    that the code keeps any quiet [T]; Keyboard.v and Boot.v use them with the
    two instances at the end. *)

From Stdlib Require Import ZArith Lia String Ascii.
From stdpp Require Import base numbers list gmap.
From S2P Require Import Prelude Mem CString FileSys Console Printf Machine Pic Paging Pcb Exec.
From S2P Require Import Terminal.

Local Open Scope Z_scope.

(** Port accesses that do not reach the mask registers. *)
Definition off_masks (e : io) : bool :=
  match e with Out _ p => negb (p =? 33) && negb (p =? 161) | In _ _ => true end.

Class Quiet (T : tty -> Prop) : Prop := {
  q_mem : forall t v, T t -> T (set_t_mem v t);
  q_if : forall t v, T t -> T (set_t_if v t);
  q_x : forall t v, T t -> T (set_screen_x v t);
  q_y : forall t v, T t -> T (set_screen_y v t);
  q_tracker : forall t v, T t -> T (set_enter_tracker v t);
  q_scroll : forall t v, T t -> T (set_first_scroll_indicator v t);
  q_kb : forall t v, T t -> T (set_keyboard_buffer v t);
  q_pos : forall t v, T t -> T (set_kb_buffer_position v t);
  q_read : forall t v, T t -> T (set_ter_read_buffer v t);
  q_io : forall t e, off_masks e = true -> T t -> T (set_t_trace (t_trace t ++ [e]) t);
}.

Section Code.
Context (T : tty -> Prop) {HT : Quiet T}.

(** The assignments, for [T]. *)
Let qa_mem := q_mem (T := T).
Let qa_if := q_if (T := T).
Let qa_x := q_x (T := T).
Let qa_y := q_y (T := T).
Let qa_tracker := q_tracker (T := T).
Let qa_scroll := q_scroll (T := T).
Let qa_kb := q_kb (T := T).
Let qa_pos := q_pos (T := T).
Let qa_read := q_read (T := T).
#[local] Hint Resolve qa_mem qa_if qa_x qa_y qa_tracker qa_scroll qa_kb qa_pos qa_read : typed.


(** ** The console *)

Lemma qt_outb v p : (p =? 33) || (p =? 161) = false -> ok T (outb v p) any.
Proof.
  intros Hp. apply ok_modify. intros t Ht. apply q_io; [|done]. cbn.
  by destruct (p =? 33), (p =? 161).
Qed.

Lemma qt_cursor y x : ok T (update_cursor y x) any.
Proof.
  unfold update_cursor. repeat (eapply ok_bind; [by apply qt_outb | intros _ _]). by apply qt_outb.
Qed.
#[local] Hint Resolve qt_cursor : typed.

Lemma qt_clear : ok T clear any.
Proof. unfold clear. tsteps. Qed.
#[local] Hint Resolve qt_clear : typed.
Lemma qt_reset : ok T reset any.
Proof. unfold reset. tsteps. Qed.
Lemma qt_scrolling : ok T scrolling any.
Proof. unfold scrolling. tsteps. Qed.
#[local] Hint Resolve qt_scrolling : typed.
Lemma qt_putc c : ok T (putc c) any.
Proof. unfold putc. tsteps. Qed.
#[local] Hint Resolve qt_reset qt_putc : typed.

Lemma qt_puts p : ok T (puts p) any.
Proof.
  apply (ok_while _ _ (fun st => T (fst st))); [done|]. intros [t i] Ht. unfold puts_step.
  destruct (_ =? 0); [done|]. destruct (putc _ t) as [[a t']|] eqn:E; [|done].
  by apply (qt_putc _ _ _ _ Ht E).
Qed.
Lemma qt_puts_str l : ok T (puts_str l) any.
Proof. induction l as [|c l IH]; cbn [puts_str]; tsteps. Qed.
#[local] Hint Resolve qt_puts qt_puts_str : typed.

Lemma qt_puts_local m a : ok T (puts_local m a) any.
Proof. unfold puts_local. tsteps. Qed.
#[local] Hint Resolve qt_puts_local : typed.
Lemma qt_conv_x b v : ok T (conv_x b v) any.
Proof. unfold conv_x. tsteps. Qed.
Lemma qt_conv_u v : ok T (conv_u v) any.
Proof. unfold conv_u. tsteps. Qed.
Lemma qt_conv_d v : ok T (conv_d v) any.
Proof. unfold conv_d. tsteps. Qed.
#[local] Hint Resolve qt_conv_x qt_conv_u qt_conv_d : typed.
Lemma qt_printf_scan fmt : forall mode args, ok T (printf_scan mode fmt args) any.
Proof. induction fmt as [|c fmt IH]; intros mode args; cbn [printf_scan]; tsteps. Qed.
#[local] Hint Resolve qt_printf_scan : typed.
Lemma qt_printf fmt args : ok T (printf fmt args) any.
Proof. unfold printf. tsteps. Qed.
#[local] Hint Resolve qt_printf : typed.

Lemma qt_update_x x : ok T (update_x x) any.
Proof. unfold update_x. tsteps. Qed.
Lemma qt_update_y y : ok T (update_y y) any.
Proof. unfold update_y. tsteps. Qed.
#[local] Hint Resolve qt_update_x qt_update_y : typed.

(** ** The kernel *)

Definition quiet_kernel (mm sm : Z) (k : kernel) : Prop :=
  T (k_tty k) /\ master_mask k = mm /\ slave_mask k = sm.

Context (mm sm : Z).
Local Abbreviation K := (quiet_kernel mm sm).

Lemma qk_tty t k : T t -> K k -> K (set_k_tty t k).
Proof. by intros Ht [_ H]. Qed.
Lemma qk_mem m k : K k -> K (set_kmem m k).
Proof. intros Hk. apply qk_tty; [|done]. apply q_mem, Hk. Qed.
#[local] Hint Resolve qk_mem : typed.

Lemma qk_on_tty {A} (c : ST tty A) Q : ok T c Q -> ok K (on_tty c) Q.
Proof.
  intros Hc k a k' Hk H. unfold on_tty in H. destruct (c (k_tty k)) as [[b t]|] eqn:E; [|done].
  injection H as <- <-. destruct (Hc _ _ _ (proj1 Hk) E). split; [by apply qk_tty | done].
Qed.
Lemma qk_at {A} (f : kernel -> res A) : ok K (fun k => liftR (f k) k) any.
Proof. eapply ok_any, ok_liftR_at. Qed.
#[local] Hint Resolve qk_on_tty qk_at : typed.

(** An assignment to anything but the console and the masks. *)
Ltac quietly := tsteps; try assumption.

Lemma qk_cli : ok K kcli any.
Proof. apply qk_on_tty. unfold cli. tsteps. Qed.
Lemma qk_sti : ok K ksti any.
Proof. apply qk_on_tty. unfold sti. tsteps. Qed.
Lemma qk_koutb v p : (p =? 33) || (p =? 161) = false -> ok K (koutb v p) any.
Proof. intros. by apply qk_on_tty, qt_outb. Qed.
#[local] Hint Resolve qk_cli qk_sti : typed.

Lemma qk_eoi n : ok K (send_eoi n) any.
Proof.
  unfold send_eoi. destruct (_ || _); [by apply ok_ret|]. destruct (_ <? _); [by apply qk_koutb|].
  eapply ok_bind; [by apply qk_koutb | intros _ _; by apply qk_koutb].
Qed.
#[local] Hint Resolve qk_eoi : typed.

Lemma qk_exec_parse fr c : ok K (exec_parse fr c) any.
Proof. unfold exec_parse. quietly. Qed.
Lemma qk_exec_find fr : ok K (exec_find fr) any.
Proof. unfold exec_find. quietly. Qed.
Lemma qk_exec_load lay fr : ok K (exec_load lay fr) any.
Proof. unfold exec_load. quietly. Qed.
#[local] Hint Resolve qk_exec_parse qk_exec_find qk_exec_load : typed.
Lemma qk_execute lay fr c : ok K (execute lay fr c) any.
Proof. unfold execute. quietly. Qed.
#[local] Hint Resolve qk_execute : typed.

Lemma qk_terminal_boot lay fr shell i : ok K (terminal_boot lay fr shell i) any.
Proof. unfold terminal_boot. quietly. Qed.
#[local] Hint Resolve qk_terminal_boot : typed.

Lemma qt_restore ti t : T t -> T (restore_buffers ti t).
Proof. intros Ht. apply (forz_inv (fun _ => T)); [done | done|]. eauto with typed. Qed.

Lemma qk_switch_away lay cur : ok K (switch_away lay cur) any.
Proof. unfold switch_away. quietly. Qed.
Lemma qk_switch_to i : ok K (switch_to i) any.
Proof. unfold switch_to. quietly. apply qk_tty; [|done]. by apply qt_restore, H. Qed.
#[local] Hint Resolve qk_switch_away qk_switch_to : typed.

Lemma qk_terminal_switch lay fr shell i : ok K (terminal_switch lay fr shell i) any.
Proof. unfold terminal_switch. quietly. Qed.

Lemma qk_terminal_init lay fr shell : ok K (terminal_init lay fr shell) any.
Proof.
  unfold terminal_init. tstep; [done|]. eapply ok_bind; [|intros; by quietly].
  apply ok_for. intros i. quietly.
Qed.
End Code.

(** ** Two instances *)

(** The state of the modifier keys. *)
#[export] Instance quiet_shift f : Quiet (fun t => shift_flag t = f).
Proof. by constructor. Qed.

(** Only accesses off the mask registers since [tr]. *)
Definition traced (tr : list io) (t : tty) : Prop :=
  exists l, t_trace t = tr ++ l /\ forallb off_masks l = true.

#[export] Instance quiet_traced tr : Quiet (traced tr).
Proof.
  constructor; try done. intros t e He (l & Hl & Hq). exists (l ++ [e]).
  cbn [t_trace set_t_trace]. rewrite Hl, app_assoc. split; [done|].
  rewrite forallb_app, Hq. cbn. by rewrite He.
Qed.
