(* ===== verification/Keyboard.v ===== *)
(** * The keyboard (keyboard.c)

    The interrupt handler reads one scan code, keeps track of the modifier
    keys and passes characters to the line editor ([Line]).  The byte the
    keyboard answers is an argument ([scan]).

    [rtc_test_mode] and [rtc_count], which [keyboard_init] also sets, are
    read by no code and are left out. *)

From Stdlib Require Import ZArith Lia String Ascii.
From stdpp Require Import base numbers list gmap.
From S2P Require Import Prelude Mem CString FileSys Console Printf Machine Pic Paging Pcb Exec.
From S2P Require Import Line Terminal Quiet.

Local Open Scope Z_scope.

(** ** The code *)

Definition KEYB_PORT : Z := 96.
Definition KEY_RELEASE_ADD : Z := 128.
Definition PRINTABLE_START : Z := 32.
Definition PRINTABLE_END : Z := 126.
Definition SC_CAP : Z := 58.
Definition SC_L : Z := 38.
Definition SC_P : Z := 25.
Definition L_SHIFT : Z := 42.
Definition R_SHIFT : Z := 54.
Definition CONTROL : Z := 29.
Definition BACKSPACE : Z := 14.
Definition SPACE : Z := 57.
Definition ENTER : Z := 28.
Definition L_ALT : Z := 56.
Definition FONEKEY : Z := 59.
Definition FTWOKEY : Z := 60.
Definition FTHREEKEY : Z := 61.
Definition PRINT_TABLE_SIZE : Z := 54.
Definition TRACKER_SIZE : Z := 25.

Definition keyboard_init : ST kernel unit :=
  enable_irq IRQ1 ;;
  on_tty (
    modify (set_cap_flag 0) ;;
    modify (set_shift_flag 0) ;;
    modify (set_control_flag 0) ;;
    modify (set_alt_flag 0) ;;
    modify (set_enter_flag 0) ;;
    modify (set_cross_enter_flag 0) ;;
    modify (fun t => set_keyboard_buffer
      (forz 0 BUF_SIZE (fun i b => <[Z.to_nat i := 0]> b) (keyboard_buffer t)) t) ;;
    modify (fun t => set_enter_tracker
      (forz 0 TRACKER_SIZE (fun i b => <[Z.to_nat i := 0]> b) (enter_tracker t)) t) ;;
    modify (set_kb_buffer_position 0) ;;
    modify (set_first_scroll_indicator 0)).

Definition ascii_array : list Z :=
  [0; 0] ++ bytes "1234567890" ++ bytes "-=" ++ [0; 0] ++ bytes "qwertyuiop"
  ++ bytes "[]" ++ [0; 0] ++ bytes "asdfghjkl" ++ bytes ";" ++ [39] ++ bytes "`"
  ++ [0; 92] ++ bytes "zxcvbnm" ++ bytes ",./".

Definition ascii (scan_code : Z) : ST tty Z :=
  if PRINT_TABLE_SIZE <=? scan_code then mret (u8 (-1))
  else
    ret ← liftR (aget ascii_array scan_code);
    cap ← gets cap_flag;
    mret (if (cap =? 1) && (97 <=? ret) && (ret <=? 122) then u8 (ret - 32) else ret).

Definition shift_array : list Z :=
  [0; 0] ++ bytes "!@#$%^&*()" ++ bytes "_+" ++ [0; 0] ++ bytes "QWERTYUIOP"
  ++ bytes "{}" ++ [0; 0] ++ bytes "ASDFGHJKL" ++ bytes ":" ++ [34] ++ bytes "~"
  ++ [0] ++ bytes "|" ++ bytes "ZXCVBNM" ++ bytes "<>?".

Definition shift (scan_code : Z) : res Z :=
  if PRINT_TABLE_SIZE <=? scan_code then Ok (u8 (-1)) else aget shift_array scan_code.

(** The six tests that keep track of shift, control and alt. *)
Definition modifiers (input : Z) : ST tty unit :=
  f ← gets shift_flag;
  when (((input =? L_SHIFT) || (input =? R_SHIFT)) && (f =? 0))
    (modify (set_shift_flag 1)) ;;
  f ← gets shift_flag;
  when (((input =? L_SHIFT + KEY_RELEASE_ADD) || (input =? R_SHIFT + KEY_RELEASE_ADD))
        && (f =? 1)) (modify (set_shift_flag 0)) ;;
  f ← gets control_flag;
  when ((input =? CONTROL) && (f =? 0)) (modify (set_control_flag 1)) ;;
  f ← gets control_flag;
  when ((input =? CONTROL + KEY_RELEASE_ADD) && (f =? 1)) (modify (set_control_flag 0)) ;;
  f ← gets alt_flag;
  when ((input =? L_ALT) && (f =? 0)) (modify (set_alt_flag 1)) ;;
  f ← gets alt_flag;
  when ((input =? L_ALT + KEY_RELEASE_ADD) && (f =? 1)) (modify (set_alt_flag 0)).

(** alt and a function key. *)
Definition switch_key (lay : layout) (fr : frame) (shell input key idx : Z)
  : ST kernel (outcome unit) :=
  f ← gets (fun k => alt_flag (k_tty k));
  if (f =? 1) && (input =? key) then
    r ← terminal_switch lay fr shell idx;
    match r with
    | Returns _ => mret (Returns tt)
    | UserMode eip => mret (UserMode eip)
    end
  else mret (Returns tt).

(** control and P: in and out of text editing mode. *)
Definition toggle_mode : ST tty unit :=
  keyboard_buffer_edit 2 SP ;;
  modify (fun t => set_enter_flag (Z.lnot (enter_flag t)) t) ;;
  ef ← gets enter_flag;
  if ef =? 0 then puts_str (bytes "391OS> ")
  else when (ef =? -1) (
    modify (set_first_scroll_indicator 0) ;;
    puts_str (bytes
"[[==================<text editing mode>==<history not saved>==================]]")).

(** The rest of the loop body of [get_char], after the function keys. *)
Definition get_char_tail (input : Z) : ST tty Z :=
  c ← gets control_flag;
  if (c =? 1) && (input =? SC_L) then keyboard_buffer_edit 2 SP ;; mret 0
  else if (c =? 1) && (input =? SC_P) then toggle_mode ;; mret 0
  else
    f ← gets shift_flag;
    if f =? 0 then ascii input
    else if f =? 1 then liftR (shift input)
    else fail Uninit.

(** The loop of [get_char] always ends in its first round. *)
Definition get_char (lay : layout) (fr : frame) (shell scan : Z) : ST kernel (outcome Z) :=
  input ← kinb KEYB_PORT scan;
  t ← gets k_tty;
  if input =? ENTER then
    on_tty (if enter_flag t =? -1 then keyboard_buffer_edit 1 LF
            else keyboard_buffer_edit 3 LF) ;;
    mret (Returns 0)
  else if (input =? SC_CAP) && (cap_flag t =? 0) then
    on_tty (modify (set_cap_flag 1)) ;; mret (Returns 0)
  else if (input =? SC_CAP) && (cap_flag t =? 1) then
    on_tty (modify (set_cap_flag 0)) ;; mret (Returns 0)
  else if input =? BACKSPACE then
    on_tty (keyboard_buffer_edit 0 SP) ;; mret (Returns 0)
  else if input =? SPACE then mret (Returns SP)
  else
    on_tty (modifiers input) ;;
    r1 ← switch_key lay fr shell input FONEKEY 0;
    match r1 with
    | UserMode eip => mret (UserMode eip)
    | Returns _ =>
        r2 ← switch_key lay fr shell input FTWOKEY 1;
        match r2 with
        | UserMode eip => mret (UserMode eip)
        | Returns _ =>
            r3 ← switch_key lay fr shell input FTHREEKEY 2;
            match r3 with
            | UserMode eip => mret (UserMode eip)
            | Returns _ => c ← on_tty (get_char_tail input); mret (Returns c)
            end
        end
    end.

Definition _idt_keyboard_irq_handler (lay : layout) (fr : frame) (shell scan : Z)
  : ST kernel (outcome unit) :=
  kcli ;;
  r ← get_char lay fr shell scan;
  match r with
  | UserMode eip => mret (UserMode eip)
  | Returns output =>
      on_tty (when ((PRINTABLE_START <=? output) && (output <=? PRINTABLE_END)
                    && negb (output =? 0)) (keyboard_buffer_edit 1 output)) ;;
      send_eoi IRQ1 ;;
      ksti ;;
      mret (Returns tt)
  end.

(** ** The keyboard as a state machine
    Specification: four modifier bits, and for each scan code the action it
    stands for. *)

Record kbd := Kbd { m_caps : bool; m_shift : bool; m_control : bool; m_alt : bool }.

Inductive action :=
  | Type_ (c : Z)        (** a character for the line *)
  | Erase                (** backspace *)
  | Newline              (** Enter *)
  | Clear                (** control and L *)
  | Toggle               (** control and P *)
  | Switch (i : Z)       (** alt and a function key *)
  | Nothing.

(** The characters of a US keyboard: for each row of keys the scan code of its
    first key, and the characters of its keys without and with shift. *)
Definition us_rows : list (Z * list Z * list Z) :=
  [(2, bytes "1234567890-=", bytes "!@#$%^&*()_+");
   (16, bytes "qwertyuiop[]", bytes "QWERTYUIOP{}");
   (30, bytes "asdfghjkl;" ++ [39; 96], bytes "ASDFGHJKL:" ++ [34; 126]);
   (43, [92], [124]);
   (44, bytes "zxcvbnm,./", bytes "ZXCVBNM<>?")].

Definition us_key (shifted : bool) (sc : Z) : option Z :=
  list_find (fun r => fst (fst r) <= sc < fst (fst r) + zlen (snd r)) us_rows
  ≫= (fun r => (if shifted then snd (snd r) else snd (fst (snd r)))
                 !! Z.to_nat (sc - fst (fst (snd r)))).

(** Caps lock makes a letter a capital. *)
Definition capital (c : Z) : Z := if (97 <=? c) && (c <=? 122) then c - 32 else c.

(** The character of a key; shift has priority over caps lock. *)
Definition us_char (b : kbd) (sc : Z) : option Z :=
  if m_shift b then us_key true sc
  else if m_caps b then capital <$> us_key false sc else us_key false sc.

Definition press_mod (b : kbd) (sc : Z) : kbd :=
  if (sc =? 42) || (sc =? 54) then Kbd (m_caps b) true (m_control b) (m_alt b)
  else if (sc =? 170) || (sc =? 182) then Kbd (m_caps b) false (m_control b) (m_alt b)
  else if sc =? 29 then Kbd (m_caps b) (m_shift b) true (m_alt b)
  else if sc =? 157 then Kbd (m_caps b) (m_shift b) false (m_alt b)
  else if sc =? 56 then Kbd (m_caps b) (m_shift b) (m_control b) true
  else if sc =? 184 then Kbd (m_caps b) (m_shift b) (m_control b) false
  else b.

Definition decode (b : kbd) (sc : Z) : kbd * action :=
  if sc =? 28 then (b, Newline)
  else if sc =? 58 then (Kbd (negb (m_caps b)) (m_shift b) (m_control b) (m_alt b), Nothing)
  else if sc =? 14 then (b, Erase)
  else if sc =? 57 then (b, Type_ SP)
  else
    let b := press_mod b sc in
    (b, if m_alt b && (59 <=? sc) && (sc <=? 61) then Switch (sc - 59)
        else if m_control b && (sc =? 38) then Clear
        else if m_control b && (sc =? 25) then Toggle
        else match us_char b sc with Some c => Type_ c | None => Nothing end).

(** The character the tables of the code give, 255 for keys without one. *)
Definition char_of (b : kbd) (sc : Z) : Z :=
  if 54 <=? sc then 255
  else if m_shift b then anth 0 shift_array sc
  else
    let c := anth 0 ascii_array sc in
    if m_caps b && (97 <=? c) && (c <=? 122) then c - 32 else c.

(** It is the character of the keyboard, if it is printable. *)
Definition printed_char (c : Z) : option Z := if (32 <=? c) && (c <=? 126) then Some c else None.

Lemma us_char_high b sc : 54 <= sc -> us_char b sc = None.
Proof.
  intros Hsc. assert (H : forall sh, us_key sh sc = None).
  { intros sh. unfold us_key. destruct (list_find _ us_rows) as [[i r]|] eqn:E; [|done].
    apply list_find_Some in E as (E & Hr & _). exfalso.
    assert (Hin : r ∈ us_rows) by (by eapply list_elem_of_lookup_2).
    unfold us_rows in Hin. rewrite !elem_of_cons, elem_of_nil in Hin.
    destruct Hin as [->|[->|[->|[->|[->|[]]]]]]; cbn in Hr; lia. }
  unfold us_char. rewrite !H. by destruct (m_shift b), (m_caps b).
Qed.

Lemma char_of_us b sc : 0 <= sc < 256 -> printed_char (char_of b sc) = us_char b sc.
Proof.
  intros Hsc. destruct (Z.leb_spec 54 sc) as [Hh|Hl].
  { rewrite us_char_high by done. unfold char_of. by rewrite (proj2 (Z.leb_le 54 sc)). }
  assert (H : forallb (fun i => let sc := Z.of_nat i in forallb (fun sh => forallb (fun ca =>
    bool_decide (printed_char (char_of (Kbd ca sh false false) sc) =
      us_char (Kbd ca sh false false) sc)) [true; false]) [true; false]) (seq 0 54) = true)
    by (vm_compute; reflexivity).
  rewrite forallb_forall in H. specialize (H (Z.to_nat sc) ltac:(apply in_seq; lia)).
  rewrite Z2Nat.id in H by lia. cbn [forallb] in H. rewrite !andb_true_iff in H.
  rewrite !bool_decide_eq_true in H. destruct b as [[] [] co al]; apply H.
Qed.

(** The modifier bits as the flags of keyboard.c. *)
Record flags_are (t : tty) (b : kbd) : Prop := {
  fl_caps : cap_flag t = Z.b2z (m_caps b);
  fl_shift : shift_flag t = Z.b2z (m_shift b);
  fl_control : control_flag t = Z.b2z (m_control b);
  fl_alt : alt_flag t = Z.b2z (m_alt b);
}.

Definition set_flags (b : kbd) (t : tty) : tty :=
  set_cap_flag (Z.b2z (m_caps b)) (set_shift_flag (Z.b2z (m_shift b))
    (set_control_flag (Z.b2z (m_control b)) (set_alt_flag (Z.b2z (m_alt b)) t))).

(** What an action does to the console. *)
Definition perform (a : action) : ST tty unit :=
  match a with
  | Type_ c => keyboard_buffer_edit 1 c
  | Erase => keyboard_buffer_edit 0 SP
  | Newline => ef ← gets enter_flag;
      if ef =? -1 then keyboard_buffer_edit 1 LF else keyboard_buffer_edit 3 LF
  | Clear => keyboard_buffer_edit 2 SP
  | Toggle => toggle_mode
  | Switch _ | Nothing => mret tt
  end.

Lemma set_flags_id b t : flags_are t b -> set_flags b t = t.
Proof. intros [H1 H2 H3 H4]. unfold set_flags. rewrite <-H1, <-H2, <-H3, <-H4. by destruct t. Qed.

Lemma set_caps_flag b c t :
  flags_are t b ->
  set_flags (Kbd c (m_shift b) (m_control b) (m_alt b)) t = set_cap_flag (Z.b2z c) t.
Proof.
  intros [_ H2 H3 H4]. unfold set_flags. cbn. rewrite <-H2, <-H3, <-H4. by destruct t.
Qed.

Lemma set_flags_are b t : flags_are (set_flags b t) b.
Proof. by constructor. Qed.

(** The six tests compute [press_mod]. *)
Lemma modifiers_spec b sc t :
  flags_are t b -> modifiers sc t = Ok (tt, set_flags (press_mod b sc) t).
Proof.
  intros H. rewrite <-(set_flags_id b t H) at 1. clear H.
  unfold modifiers, press_mod, L_SHIFT, R_SHIFT, CONTROL, L_ALT, KEY_RELEASE_ADD.
  destruct b as [ca sh co al].
  destruct (Z.eqb_spec sc 42) as [->|N1]; [by destruct ca, sh, co, al|].
  destruct (Z.eqb_spec sc 54) as [->|N2]; [by destruct ca, sh, co, al|].
  destruct (Z.eqb_spec sc 170) as [->|N3]; [by destruct ca, sh, co, al|].
  destruct (Z.eqb_spec sc 182) as [->|N4]; [by destruct ca, sh, co, al|].
  destruct (Z.eqb_spec sc 29) as [->|N5]; [by destruct ca, sh, co, al|].
  destruct (Z.eqb_spec sc 157) as [->|N6]; [by destruct ca, sh, co, al|].
  destruct (Z.eqb_spec sc 56) as [->|N7]; [by destruct ca, sh, co, al|].
  destruct (Z.eqb_spec sc 184) as [->|N8]; [by destruct ca, sh, co, al|].
  change (42 + 128) with 170. change (54 + 128) with 182. change (29 + 128) with 157.
  change (56 + 128) with 184. repeat rewrite (proj2 (Z.eqb_neq _ _)) by done. done.
Qed.

(** ** The handler *)

(** The handler after [get_char]. *)
Definition finish (output : Z) : ST kernel (outcome unit) :=
  on_tty (when ((PRINTABLE_START <=? output) && (output <=? PRINTABLE_END)
                && negb (output =? 0)) (keyboard_buffer_edit 1 output)) ;;
  send_eoi IRQ1 ;;
  ksti ;;
  mret (Returns tt).

Definition acknowledge : ST kernel (outcome unit) :=
  send_eoi IRQ1 ;; ksti ;; mret (Returns tt).

Lemma finish_none c k : ~ (32 <= c <= 126) -> finish c k = acknowledge k.
Proof.
  intros Hc. unfold finish, PRINTABLE_START, PRINTABLE_END.
  replace (_ && _) with false by (symmetry; repeat rewrite andb_false_iff; lia).
  unfold when. by rewrite (bind_ok _ _ _ _ _ (on_tty_ret tt k)).
Qed.

Lemma finish_char c k :
  32 <= c <= 126 -> finish c k = (on_tty (keyboard_buffer_edit 1 c) ;; acknowledge) k.
Proof.
  intros Hc. unfold finish, PRINTABLE_START, PRINTABLE_END.
  replace (_ && _) with true by (symmetry; repeat rewrite andb_true_iff; lia). done.
Qed.

(** The character [get_char] ends with. *)
Lemma lookup_char b sc t :
  flags_are t b -> 0 <= sc < 256 ->
  (f ← gets shift_flag;
   if f =? 0 then ascii sc else if f =? 1 then liftR (shift sc) else fail Uninit) t
  = Ok (char_of b sc, t).
Proof.
  intros [H1 H2 _ _] Hsc. unfold char_of, ascii, shift, PRINT_TABLE_SIZE.
  bstep. rewrite H2. destruct (Z.leb_spec 54 sc) as [Hge|Hlt].
  { by destruct (m_shift b). }
  destruct (m_shift b); cbn [Z.b2z Z.eqb].
  - rewrite (aget_ok 0) by (cbn; lia). done.
  - rewrite (aget_ok 0) by (cbn; lia). do 2 bstep. rewrite H1.
    destruct (m_caps b); cbn [Z.b2z Z.eqb andb]; [|done].
    destruct (_ && _) eqn:E; [|done]. unfold mret, st_ret. rewrite u8_small; [done|].
    rewrite andb_true_iff in E. lia.
Qed.

Lemma switch_key_skip lay fr shell input key idx k :
  (alt_flag (k_tty k) =? 1) && (input =? key) = false ->
  switch_key lay fr shell input key idx k = Ok (Returns tt, k).
Proof. intros H. unfold switch_key. bstep. by rewrite H. Qed.

(** [get_char] after the modifier keys, and what the handler makes of its
    result. *)
Lemma tail_spec b sc k :
  flags_are (k_tty k) b -> 0 <= sc < 256 ->
  (c ← on_tty (get_char_tail sc); finish c) k =
  (on_tty (perform (
     if m_control b && (sc =? 38) then Clear
     else if m_control b && (sc =? 25) then Toggle
     else match us_char b sc with Some c => Type_ c | None => Nothing end)) ;; acknowledge) k.
Proof.
  intros Hf Hsc.
  assert (Hc : get_char_tail sc (k_tty k) =
    (if m_control b && (sc =? 38) then keyboard_buffer_edit 2 SP ;; mret 0
     else if m_control b && (sc =? 25) then toggle_mode ;; mret 0
     else fun t => Ok (char_of b sc, t)) (k_tty k)).
  { unfold get_char_tail, SC_L, SC_P. bstep. rewrite (fl_control _ _ Hf).
    replace (Z.b2z (m_control b) =? 1) with (m_control b) by by destruct (m_control b).
    destruct (_ && _); [done|]. destruct (_ && _); [done|]. by apply lookup_char. }
  assert (Hz : forall (X : ST tty unit), get_char_tail sc (k_tty k) = (X ;; mret 0) (k_tty k) ->
    (c ← on_tty (get_char_tail sc); finish c) k = (on_tty X ;; acknowledge) k).
  { intros X HX. unfold mbind, st_bind, on_tty in *. rewrite HX.
    destruct (X (k_tty k)) as [[[] t]|e]; [|done].
    unfold mret, st_ret. apply finish_none. lia. }
  destruct (m_control b && (sc =? 38)); [by apply Hz|].
  destruct (m_control b && (sc =? 25)); [by apply Hz|].
  assert (E : on_tty (get_char_tail sc) k = Ok (char_of b sc, k)).
  { unfold on_tty. rewrite Hc. by destruct k. }
  rewrite (bind_ok _ _ _ _ _ E).
  rewrite <- (char_of_us b sc Hsc). unfold printed_char.
  destruct ((32 <=? char_of b sc) && (char_of b sc <=? 126)) eqn:P; cbn [perform].
  - rewrite andb_true_iff in P. apply finish_char. lia.
  - rewrite (bind_ok _ _ _ _ _ (on_tty_ret tt k)). apply finish_none.
    rewrite andb_false_iff in P. lia.
Qed.

(** The state in which the action of a scan code is performed: interrupts
    off, the code read, the modifier flags up to date. *)
Definition after_scan (b : kbd) (sc : Z) (k : kernel) : kernel :=
  let k := emit [In 96 sc] (set_if false k) in
  set_k_tty (set_flags (fst (decode b sc)) (k_tty k)) k.

Definition no_switch (a : action) : bool :=
  match a with Switch _ => false | _ => true end.

(** The handler performs the action the state machine gives, acknowledges
    the interrupt and turns interrupts on again. *)
Lemma handler_spec lay fr shell b sc k :
  flags_are (k_tty k) b -> 0 <= sc < 256 -> no_switch (snd (decode b sc)) = true ->
  _idt_keyboard_irq_handler lay fr shell sc k =
  (on_tty (perform (snd (decode b sc))) ;; acknowledge) (after_scan b sc k).
Proof.
  intros Hf Hsc Hns. unfold _idt_keyboard_irq_handler. rewrite kcli_bind.
  set (K := fun r => match r with UserMode eip => mret (UserMode eip) | Returns o => finish o end).
  change ((get_char lay fr shell sc ≫= K) (set_if false k) =
    (on_tty (perform (snd (decode b sc))) ;; acknowledge) (after_scan b sc k)).
  unfold after_scan, get_char, KEYB_PORT. cbv zeta.
  rewrite bind_assoc, kinb_bind, u8_small, bind_assoc by lia.
  set (k0 := emit [In 96 sc] (set_if false k)).
  assert (Hf0 : flags_are (k_tty k0) b) by (destruct Hf; by constructor).
  clearbody k0. bstep.
  assert (Hid : set_k_tty (set_flags b (k_tty k0)) k0 = k0)
    by (rewrite set_flags_id by done; by destruct k0).
  assert (Hz : forall (X : ST tty unit),
    ((on_tty X ;; mret (Returns 0)) ≫= K) k0 = (on_tty X ;; acknowledge) k0).
  { intros X. rewrite bind_assoc. apply bind_ext. intros [] s. apply finish_none. lia. }
  unfold decode, ENTER, SC_CAP, BACKSPACE, SPACE in *.
  destruct (sc =? 28) eqn:E28.
  { cbn [fst snd perform]. rewrite Hid, Hz. unfold mbind, st_bind, on_tty, gets.
    by destruct (enter_flag (k_tty k0) =? -1). }
  destruct (sc =? 58) eqn:E58.
  { cbn [andb fst snd perform]. rewrite (fl_caps _ _ Hf0).
    rewrite (set_caps_flag b), (bind_ok _ _ _ _ _ (on_tty_ret _ _)) by done.
    destruct (m_caps b); cbn [Z.b2z Z.eqb Pos.eqb negb]; rewrite Hz; reflexivity. }
  cbn [andb]. destruct (sc =? 14) eqn:E14; [cbn [fst snd perform]; by rewrite Hid, Hz|].
  destruct (sc =? 57) eqn:E57.
  { cbn [fst snd perform]. rewrite Hid. by apply finish_char. }
  cbv zeta in *. cbn [fst snd] in *. set (b1 := press_mod b sc) in *.
  rewrite bind_assoc.
  erewrite bind_ok by (unfold on_tty; rewrite (modifiers_spec b) by done; reflexivity).
  fold b1. set (k1 := set_k_tty (set_flags b1 (k_tty k0)) k0).
  assert (Hf1 : flags_are (k_tty k1) b1) by apply set_flags_are.
  assert (Ha : (alt_flag (k_tty k1) =? 1) = m_alt b1)
    by (rewrite (fl_alt _ _ Hf1); by destruct (m_alt b1)).
  clearbody k1. clear Hz Hid Hf0.
  destruct (m_alt b1 && (59 <=? sc) && (sc <=? 61)) eqn:Hsw; [done|].
  assert (Hskip : forall key, 59 <= key <= 61 ->
    (alt_flag (k_tty k1) =? 1) && (sc =? key) = false).
  { intros key Hkey. rewrite Ha. destruct (m_alt b1); [|done]. cbn [andb] in *.
    apply Z.eqb_neq. intros ->. rewrite andb_false_iff in Hsw. lia. }
  rewrite bind_assoc, (bind_ok _ _ _ _ _ (switch_key_skip _ _ _ _ FONEKEY _ _ (Hskip 59 ltac:(lia)))).
  rewrite bind_assoc, (bind_ok _ _ _ _ _ (switch_key_skip _ _ _ _ FTWOKEY _ _ (Hskip 60 ltac:(lia)))).
  rewrite bind_assoc, (bind_ok _ _ _ _ _ (switch_key_skip _ _ _ _ FTHREEKEY _ _ (Hskip 61 ltac:(lia)))).
  rewrite bind_assoc. transitivity ((c ← on_tty (get_char_tail sc); finish c) k1);
    [by apply bind_ext|]. by apply tail_spec.
Qed.

(** ** Typing a line *)

Fixpoint handle_all (lay : layout) (fr : frame) (shell : Z) (codes : list Z)
  : ST kernel (outcome unit) :=
  match codes with
  | [] => mret (Returns tt)
  | sc :: codes =>
      r ← _idt_keyboard_irq_handler lay fr shell sc;
      match r with
      | UserMode eip => mret (UserMode eip)
      | Returns _ => handle_all lay fr shell codes
      end
  end.

(** The keys of the line editor a sequence of scan codes stands for, when
    it only types and erases. *)
Definition key_of (a : action) : option (list key) :=
  match a with
  | Type_ c => Some [KChar c]
  | Erase => Some [KBack]
  | Nothing => Some []
  | _ => None
  end.

Fixpoint typed (b : kbd) (codes : list Z) : option (kbd * list key) :=
  match codes with
  | [] => Some (b, [])
  | sc :: codes =>
      match key_of (snd (decode b sc)), typed (fst (decode b sc)) codes with
      | Some ks, Some (b', ks') => Some (b', ks ++ ks')
      | _, _ => None
      end
  end.

Lemma key_perform a ks :
  key_of a = Some ks -> no_switch a = true /\ forall t, perform a t = press_all ks t.
Proof.
  destruct a; intros [= <-]; (split; [done|]); intros t;
    cbn [perform press_all press]; done || (symmetry; apply bind_unit).
Qed.

(** The state of the console between two interrupts while a line is typed. *)
Record typing (b : kbd) (line : list Z) (t : tty) : Prop := {
  ty_wf : tty_wf t;
  ty_normal : enter_flag t = 0;
  ty_flags : flags_are t b;
  ty_line : holds_line t line;
}.

(** Only the console has changed. *)
Definition console_only (k k' : kernel) : Prop := k' = set_k_tty (k_tty k') k.

#[export] Instance console_only_trans : Transitive console_only.
Proof. unfold console_only. intros k1 k2 k3 -> ->. done. Qed.

(** What typing leaves alone: memory off the screen and the reader. *)
Record reader_same (t t' : tty) : Prop := {
  rs_mem : forall a, off_screen a -> mget (t_mem t') a = mget (t_mem t) a;
  rs_cross : cross_enter_flag t' = cross_enter_flag t;
  rs_buf : ter_read_buffer t' = ter_read_buffer t;
  rs_size : ter_read_buf_size t' = ter_read_buf_size t;
  rs_ind : ter_read_indicator t' = ter_read_indicator t;
}.

#[export] Instance reader_same_refl : Reflexive reader_same.
Proof. by constructor. Qed.
#[export] Instance reader_same_trans : Transitive reader_same.
Proof. intros s1 s2 s3 [A1] [B1]. constructor; [|congruence..]. intros b Hb. by rewrite B1, A1. Qed.

Lemma keys_reader t t' : keys_frame t t' -> reader_same t t'.
Proof. intros []. by constructor. Qed.

Lemma edit_lines_app l ks1 ks2 : edit_lines l (ks1 ++ ks2) = edit_lines (edit_lines l ks1) ks2.
Proof. apply foldl_app. Qed.

Lemma edit_views_app l v ks1 ks2 :
  edit_views l v (ks1 ++ ks2) = edit_views (edit_lines l ks1) (edit_views l v ks1) ks2.
Proof. revert l v. induction ks1 as [|k ks1 IH]; intros l v; [done | apply IH]. Qed.

(** The console when the action of a scan code is performed. *)
Lemma after_scan_typing b sc line k :
  typing b line (k_tty k) ->
  let t := k_tty (after_scan b sc k) in
  typing (fst (decode b sc)) line t /\ reader_same (k_tty k) t /\
  forall v, shows (k_tty k) v -> shows t v.
Proof.
  intros [[] He Hf Hl]. cbv zeta. unfold after_scan. split_and!; [|by constructor|done].
  constructor; [by constructor | done | apply set_flags_are | done].
Qed.

(** The interrupts of one typing key. *)
Lemma handle_key lay fr shell b sc ks line k :
  typing b line (k_tty k) -> 0 <= sc < 256 -> key_of (snd (decode b sc)) = Some ks ->
  wp (_idt_keyboard_irq_handler lay fr shell sc) (fun r k' => r = Returns tt /\
    typing (fst (decode b sc)) (edit_lines line ks) (k_tty k') /\
    reader_same (k_tty k) (k_tty k') /\ t_if (k_tty k') = true /\ console_only k k' /\
    forall v, shows (k_tty k) v -> shows (k_tty k') (edit_views line v ks)) k.
Proof.
  intros Hty Hsc Hks. destruct (key_perform _ _ Hks) as [Hns Hp].
  unfold wp. rewrite (handler_spec lay fr shell b sc k) by (done || apply Hty).
  destruct (after_scan_typing b sc line k Hty) as ([Wf He Hf Hl] & Rs & Sh).
  assert (Co : console_only k (after_scan b sc k)) by reflexivity.
  set (k1 := after_scan b sc k) in *. clearbody k1.
  destruct (wp_inv _ _ _ (press_all_spec ks line (k_tty k1) Wf He Hl))
    as ([] & t & Hrun & Wf2 & Hk & Hl2 & Sh2).
  erewrite bind_ok by (unfold on_tty; rewrite Hp, Hrun; reflexivity).
  unfold acknowledge. erewrite bind_ok by (apply send_eoi_spec; done). rewrite ksti_bind.
  unfold mret, st_ret. pose proof Wf2 as [].
  split; [done|]. split; [|split; [|split; [done|split; [by rewrite Co|]]]].
  - constructor; [by constructor | | |done].
    + transitivity (enter_flag (k_tty k1)); [exact (kf_enter _ _ Hk) | done].
    + destruct Hf as [F1 F2 F3 F4]. constructor.
      * rewrite <-F1. exact (kf_cap _ _ Hk).
      * rewrite <-F2. exact (kf_shift _ _ Hk).
      * rewrite <-F3. exact (kf_control _ _ Hk).
      * rewrite <-F4. exact (kf_alt _ _ Hk).
  - apply keys_reader in Hk. transitivity (k_tty k1); [done|]. destruct Hk. by constructor.
  - intros v Hv. apply Sh2, Sh, Hv.
Qed.

Lemma handle_typed lay fr shell codes b b' ks line k :
  typing b line (k_tty k) -> Forall (fun sc => 0 <= sc < 256) codes ->
  typed b codes = Some (b', ks) ->
  wp (handle_all lay fr shell codes) (fun r k' => r = Returns tt /\
    typing b' (edit_lines line ks) (k_tty k') /\ reader_same (k_tty k) (k_tty k') /\
    console_only k k' /\
    forall v, shows (k_tty k) v -> shows (k_tty k') (edit_views line v ks)) k.
Proof.
  revert b ks line k. induction codes as [|sc codes IH]; intros b ks line k Hty Hall Ht.
  { injection Ht as <- <-. apply wp_ret. split_and!; try done. by destruct k. }
  cbn [typed] in Ht. inversion Hall as [|? ? Hsc Hall']; subst.
  destruct (key_of (snd (decode b sc))) as [ks1|] eqn:Hk1; [|done].
  destruct (typed (fst (decode b sc)) codes) as [[b1 ks2]|] eqn:Ht2; [|done].
  injection Ht as -> <-. cbn [handle_all]. apply wp_bind.
  eapply wp_mono; [by eapply handle_key|]. cbv beta.
  intros r k1 (-> & Hty1 & Rs1 & _ & Co1 & Sh1).
  eapply wp_mono; [by eapply IH|]. cbv beta. intros r k2 (-> & Hty2 & Rs2 & Co2 & Sh2).
  rewrite edit_lines_app.
  split_and!; [done | done | by transitivity (k_tty k1) | by transitivity k1|].
  intros v Hv. rewrite edit_views_app. by apply Sh2, Sh1.
Qed.

(** Enter while a reader waits. *)
Lemma handle_enter lay fr shell b line k :
  typing b line (k_tty k) -> ter_read_indicator (k_tty k) = 1 -> zlen line <= 126 ->
  wp (_idt_keyboard_irq_handler lay fr shell ENTER) (fun r k' => r = Returns tt /\
    typing b [] (k_tty k') /\ delivered (k_tty k') (line ++ [LF]) /\ console_only k k' /\
    (forall a, off_screen a -> mget (kmem k') a = mget (kmem k) a) /\
    forall v, shows (k_tty k) v -> shows (k_tty k') (abs_putc LF v)) k.
Proof.
  intros Hty Hind Hlen. unfold wp.
  rewrite (handler_spec lay fr shell b ENTER k) by (done || apply Hty).
  destruct (after_scan_typing b ENTER line k Hty) as ([Wf He Hf Hl] & [Rm _ _ _ Ri] & Sh).
  assert (Co : console_only k (after_scan b ENTER k)) by reflexivity.
  change (fst (decode b ENTER)) with b in Hf.
  set (k1 := after_scan b ENTER k) in *. clearbody k1.
  destruct (wp_inv _ _ _ (kb_enter_spec line (k_tty k1) Wf He Hl ltac:(congruence) Hlen))
    as ([] & t & Hrun & Wf2 & Hd & Hl2 & He2 & Hm & (F1 & F2 & F3 & F4) & Hv).
  assert (Hp : perform Newline (k_tty k1) = Ok (tt, t))
    by (cbn [perform]; bstep; rewrite He; exact Hrun).
  erewrite bind_ok by (unfold on_tty; change (snd (decode b ENTER)) with Newline; rewrite Hp; reflexivity).
  unfold acknowledge. erewrite bind_ok by (apply send_eoi_spec; done). rewrite ksti_bind.
  unfold mret, st_ret. split; [done|]. split; [|split; [done|split; [by rewrite Co|split]]].
  - destruct Wf2, Hf as [G1 G2 G3 G4]. constructor; [by constructor | done | | done].
    constructor; [rewrite <- G1; exact F1 | rewrite <- G2; exact F2 | rewrite <- G3; exact F3
      | rewrite <- G4; exact F4].
  - intros a Ha. transitivity (mget (kmem k1) a); [by apply Hm | by apply Rm].
  - intros v Hs. by apply Hv, Sh.
Qed.

(** ** The properties of the keyboard *)

(** The characters a line can hold. *)
Definition printable (c : Z) : Prop := 32 <= c <= 126.

Lemma decode_printable b sc c : 0 <= sc < 256 -> snd (decode b sc) = Type_ c -> printable c.
Proof.
  intros Hsc. unfold decode, printable. repeat case_match; try done; cbn [snd]; [intros [= <-]; unfold SP; lia|].
  intros H'. repeat case_match; try done. injection H' as <-.
  match goal with H : us_char _ _ = Some _ |- _ =>
    rewrite <- char_of_us in H by done; unfold printed_char in H; case_match; [|done];
    injection H as <-; lia end.
Qed.

Lemma typed_printable b codes b' ks line :
  Forall (fun sc => 0 <= sc < 256) codes ->
  typed b codes = Some (b', ks) -> Forall printable line -> Forall printable (edit_lines line ks).
Proof.
  revert b ks line. induction codes as [|sc codes IH]; intros b ks line Hc Ht Hl.
  { by injection Ht as <- <-. }
  inversion Hc as [|? ? Hsc Hc']; subst.
  cbn [typed] in Ht. destruct (key_of (snd (decode b sc))) as [ks1|] eqn:Hk; [|done].
  destruct (typed (fst (decode b sc)) codes) as [[b1 ks2]|] eqn:Ht2; [|done].
  injection Ht as -> <-. rewrite edit_lines_app. eapply IH; [done | done|].
  destruct (snd (decode b sc)) as [c| | | | | |] eqn:Ha; cbn [key_of] in Hk;
    try discriminate Hk; injection Hk as <-; cbn; try done.
  - case_match; [done|]. apply Forall_app. split; [done|].
    constructor; [by eapply decode_printable | done].
  - apply Forall_forall. intros x Hx. rewrite Forall_forall in Hl. apply Hl.
    destruct line as [|y line] using rev_ind; [done|].
    rewrite removelast_last in Hx. by apply elem_of_app; left.
Qed.

Lemma handle_all_app lay fr shell c1 c2 k k1 r k2 :
  handle_all lay fr shell c1 k = Ok (Returns tt, k1) ->
  handle_all lay fr shell c2 k1 = Ok (r, k2) ->
  handle_all lay fr shell (c1 ++ c2) k = Ok (r, k2).
Proof.
  revert k. induction c1 as [|sc c1 IH]; intros k H1 H2.
  { injection H1 as ->. exact H2. }
  cbn [app handle_all] in *. unfold mbind, st_bind in *.
  destruct (_idt_keyboard_irq_handler lay fr shell sc k) as [[[|] k0]|]; try done.
  by eapply IH.
Qed.

(** The scan codes of a line and Enter, while a reader waits. *)
Lemma line_arrives lay fr shell codes b b' ks k :
  typing b [] (k_tty k) -> ter_read_indicator (k_tty k) = 1 ->
  Forall (fun sc => 0 <= sc < 256) codes -> typed b codes = Some (b', ks) ->
  zlen (edit_lines [] ks) <= 126 ->
  let line := edit_lines [] ks ++ [LF] in
  exists k', handle_all lay fr shell (codes ++ [ENTER]) k = Ok (Returns tt, k') /\
    typing b' [] (k_tty k') /\ delivered (k_tty k') line /\ console_only k k' /\
    (forall a, off_screen a -> mget (kmem k') a = mget (kmem k) a) /\
    (forall v, shows (k_tty k) v -> shows (k_tty k') (abs_putc LF (edit_views [] v ks))) /\
    Forall (fun c => 0 < c < 256) line.
Proof.
  intros Hty Hind Hall Ht Hlen line.
  destruct (wp_inv _ _ _ (handle_typed lay fr shell codes b b' ks [] k Hty Hall Ht))
    as (r & k1 & Hrun1 & -> & Hty1 & Rs1 & Co1 & Sh1).
  destruct (wp_inv _ _ _ (handle_enter lay fr shell b' (edit_lines [] ks) k1 Hty1
    ltac:(by rewrite (rs_ind _ _ Rs1)) Hlen)) as (r & k2 & Hrun2 & -> & Hty2 & Hd & Co2 & Hm & Sh2).
  exists k2. split.
  { eapply handle_all_app; [exact Hrun1|]. cbn [handle_all]. by rewrite (bind_ok _ _ _ _ _ Hrun2). }
  split; [exact Hty2|]. split; [exact Hd|]. split; [by transitivity k1|]. split_and!.
  - intros a Ha. rewrite Hm by done. exact (rs_mem _ _ Rs1 a Ha).
  - intros v Hv. by apply Sh2, Sh1.
  - apply Forall_app. split; [|by repeat constructor].
    eapply Forall_impl; [eapply typed_printable; [exact Hall | exact Ht | constructor]|].
    unfold printable. cbv beta. lia.
Qed.

(** C13: From the keys to the program: a program waits in [terminal_read]; the
    user types a line of at most 126 characters, with any use of shift,
    caps lock and backspace, and presses Enter.  The interrupts all return,
    and the read then returns the line that the keys spell, newline
    included, cut to the size of the program's buffer. *)
Theorem typed_line_is_read lay fr shell codes b b' ks k buf nbytes :
  typing b [] (k_tty k) -> ter_read_indicator (k_tty k) = 1 ->
  Forall (fun sc => 0 <= sc < 256) codes -> typed b codes = Some (b', ks) ->
  zlen (edit_lines [] ks) <= 126 -> 0 <= nbytes < 2147483648 ->
  let text := take (Z.to_nat nbytes) (edit_lines [] ks ++ [LF]) in
  exists k1 k2, handle_all lay fr shell (codes ++ [ENTER]) k = Ok (Returns tt, k1) /\
    on_tty (terminal_read_poll buf nbytes) k1 = Ok (Some (zlen text), k2) /\
    mbytes (kmem k2) buf (List.length text) = text.
Proof.
  intros Hty Hind Hall Ht Hlen Hn text.
  destruct (line_arrives lay fr shell codes b b' ks k Hty Hind Hall Ht Hlen)
    as (k2 & Hrun & _ & Hd & _ & _ & _ & Hb).
  set (line := edit_lines [] ks ++ [LF]) in *.
  destruct (wp_inv _ _ _ (terminal_read_spec (k_tty k2) line buf nbytes Hd Hb Hn))
    as (v & t & Hrun3 & -> & Htext & _).
  assert (Hl : zlen text = Z.min nbytes (zlen line)) by (unfold text; rewrite length_take; lia).
  exists k2, (set_k_tty t k2). split; [exact Hrun|]. split.
  - unfold on_tty. rewrite Hrun3, Hl. done.
  - change (kmem (set_k_tty t k2)) with (t_mem t).
    replace (List.length text) with (Z.to_nat (Z.min nbytes (zlen line))) by lia.
    rewrite Htext. unfold text. destruct (Z.le_gt_cases nbytes (zlen line)).
    + f_equal. lia.
    + rewrite !take_ge by lia. done.
Qed.

(** What an action does to the kernel: alt and a function key switch to the
    terminal of that key, which may start a program. *)
Definition act (lay : layout) (fr : frame) (shell : Z) (a : action) : ST kernel (outcome unit) :=
  match a with
  | Switch i =>
      r ← terminal_switch lay fr shell i;
      match r with
      | Returns _ => mret (Returns tt)
      | UserMode eip => mret (UserMode eip)
      end
  | _ => on_tty (perform a) ;; mret (Returns tt)
  end.

(** A function key has no character: nothing follows the switch. *)
Lemma function_key_tail sc k :
  59 <= sc <= 61 -> shift_flag (k_tty k) = 0 \/ shift_flag (k_tty k) = 1 ->
  (c ← on_tty (get_char_tail sc); finish c) k = acknowledge k.
Proof.
  intros Hsc Hf. assert (E : on_tty (get_char_tail sc) k = Ok (255, k)).
  { unfold on_tty, get_char_tail, SC_L, SC_P. bstep.
    rewrite (proj2 (Z.eqb_neq sc 38)), (proj2 (Z.eqb_neq sc 25)), !andb_false_r by lia. bstep.
    unfold ascii, shift, PRINT_TABLE_SIZE. rewrite (proj2 (Z.leb_le 54 sc)) by lia.
    destruct Hf as [-> | ->]; by destruct k as [[]]. }
  rewrite (bind_ok _ _ _ _ _ E). apply finish_none. lia.
Qed.

Lemma switch_key_hit lay fr shell sc idx k :
  alt_flag (k_tty k) = 1 -> switch_key lay fr shell sc sc idx k = act lay fr shell (Switch idx) k.
Proof. intros H. unfold switch_key. bstep. by rewrite H, (Z.eqb_refl sc). Qed.

(** The part of [get_char] with the function keys, for one of them. *)
Lemma function_keys lay fr shell sc k b :
  59 <= sc <= 61 -> flags_are (k_tty k) b -> m_alt b = true ->
  (r1 ← switch_key lay fr shell sc FONEKEY 0;
   match r1 with
   | UserMode eip => mret (UserMode eip)
   | Returns _ =>
       r2 ← switch_key lay fr shell sc FTWOKEY 1;
       match r2 with
       | UserMode eip => mret (UserMode eip)
       | Returns _ =>
           r3 ← switch_key lay fr shell sc FTHREEKEY 2;
           match r3 with
           | UserMode eip => mret (UserMode eip)
           | Returns _ => c ← on_tty (get_char_tail sc); finish c
           end
       end
   end) k =
  (r ← act lay fr shell (Switch (sc - 59));
   match r with UserMode eip => mret (UserMode eip) | Returns _ => acknowledge end) k.
Proof.
  intros Hsc Hf Ha. assert (Halt : alt_flag (k_tty k) = 1) by (by rewrite (fl_alt _ _ Hf), Ha).
  assert (Hsh : shift_flag (k_tty k) = 0 \/ shift_flag (k_tty k) = 1)
    by (rewrite (fl_shift _ _ Hf); destruct (m_shift b); [by right | by left]).
  assert (Hkeep : forall i r k', act lay fr shell (Switch i) k = Ok (r, k') ->
    shift_flag (k_tty k') = shift_flag (k_tty k)).
  { intros i r k' H. unfold act in H. apply bind_inv in H as (o & k1 & H1 & H2).
    pose proof (ok_state _ _ _ _ _ _ (qk_terminal_switch (fun t => shift_flag t = shift_flag (k_tty k))
      (master_mask k) (slave_mask k) lay fr shell i) (conj eq_refl (conj eq_refl eq_refl)) H1) as [Hk _].
    destruct o; injection H2 as _ <-; exact Hk. }
  assert (Hskip : forall key idx k', key <> sc ->
    switch_key lay fr shell sc key idx k' = Ok (Returns tt, k')).
  { intros. apply switch_key_skip. by rewrite (proj2 (Z.eqb_neq sc key)), andb_false_r by done. }
  unfold FONEKEY, FTWOKEY, FTHREEKEY.
  assert (sc = 59 \/ sc = 60 \/ sc = 61) as [->|[->| ->]] by lia.
  - unfold mbind at 1 5, st_bind at 1 5. rewrite switch_key_hit by done. change (59 - 59) with 0.
    destruct (act lay fr shell (Switch 0) k) as [[[|] k1]|] eqn:E; try done.
    rewrite (bind_ok _ _ _ _ _ (Hskip 60 1 k1 ltac:(done))), (bind_ok _ _ _ _ _ (Hskip 61 2 k1 ltac:(done))).
    apply function_key_tail; [lia|]. by rewrite (Hkeep _ _ _ E).
  - rewrite (bind_ok _ _ _ _ _ (Hskip 59 0 k ltac:(done))).
    unfold mbind at 1 4, st_bind at 1 4. rewrite switch_key_hit by done. change (60 - 59) with 1.
    destruct (act lay fr shell (Switch 1) k) as [[[|] k1]|] eqn:E; try done.
    rewrite (bind_ok _ _ _ _ _ (Hskip 61 2 k1 ltac:(done))).
    apply function_key_tail; [lia|]. by rewrite (Hkeep _ _ _ E).
  - rewrite (bind_ok _ _ _ _ _ (Hskip 59 0 k ltac:(done))), (bind_ok _ _ _ _ _ (Hskip 60 1 k ltac:(done))).
    unfold mbind at 1 3, st_bind at 1 3. rewrite switch_key_hit by done. change (61 - 59) with 2.
    destruct (act lay fr shell (Switch 2) k) as [[[|] k1]|] eqn:E; try done.
    apply function_key_tail; [lia|]. by rewrite (Hkeep _ _ _ E).
Qed.

(** The handler on alt and a function key. *)
Lemma handler_switches lay fr shell b sc i k :
  flags_are (k_tty k) b -> 0 <= sc < 256 -> snd (decode b sc) = Switch i ->
  _idt_keyboard_irq_handler lay fr shell sc k =
  (r ← act lay fr shell (Switch i);
   match r with UserMode eip => mret (UserMode eip) | Returns _ => acknowledge end)
    (after_scan b sc k).
Proof.
  intros Hf Hsc Hd. assert (H : 59 <= sc <= 61 /\ i = sc - 59 /\ m_alt (press_mod b sc) = true /\
    fst (decode b sc) = press_mod b sc).
  { unfold decode in *. repeat (case_match; [done|]). cbn [fst snd] in *.
    destruct (m_alt _ && _ && _) eqn:E; [|by repeat case_match].
    injection Hd as <-. rewrite !andb_true_iff in E. split_and!; try tauto; lia. }
  destruct H as (Hk & -> & Ha & Hfst).
  unfold _idt_keyboard_irq_handler. rewrite kcli_bind.
  set (K := fun r => match r with UserMode eip => mret (UserMode eip) | Returns o => finish o end).
  change ((get_char lay fr shell sc ≫= K) (set_if false k) =
    (r ← act lay fr shell (Switch (sc - 59));
     match r with UserMode eip => mret (UserMode eip) | Returns _ => acknowledge end)
      (after_scan b sc k)).
  unfold after_scan, get_char, KEYB_PORT. cbv zeta. rewrite Hfst.
  rewrite bind_assoc, kinb_bind, u8_small, bind_assoc by lia.
  set (k0 := emit [In 96 sc] (set_if false k)).
  assert (Hf0 : flags_are (k_tty k0) b) by (destruct Hf; by constructor).
  clearbody k0. bstep. unfold ENTER, SC_CAP, BACKSPACE, SPACE.
  rewrite (proj2 (Z.eqb_neq sc 28)), (proj2 (Z.eqb_neq sc 58)), (proj2 (Z.eqb_neq sc 14)),
    (proj2 (Z.eqb_neq sc 57)) by lia. cbn [andb]. rewrite bind_assoc.
  erewrite bind_ok by (unfold on_tty; rewrite (modifiers_spec b) by done; reflexivity).
  set (k1 := set_k_tty (set_flags (press_mod b sc) (k_tty k0)) k0).
  rewrite <- (function_keys lay fr shell sc k1 (press_mod b sc)); [|done | apply set_flags_are | done].
  rewrite bind_assoc. apply bind_ext. intros [[]|eip] k2; [|done].
  rewrite bind_assoc. apply bind_ext. intros [[]|eip] k3; [|done].
  rewrite bind_assoc. apply bind_ext. intros [[]|eip] k4; [|done].
  rewrite bind_assoc. by apply bind_ext.
Qed.

(** C25: The interrupt handler refines the state machine of a US keyboard: for
    every scan code and every state of the modifier keys it performs the
    action the machine gives, in the new state of the modifiers, with
    interrupts off, then acknowledges the interrupt and turns interrupts on.
    Alt and F1 to F3 switch to terminals 0 to 2; when that enters a program,
    which happens in a terminal shown for the first time, the handler does not
    come back to acknowledge. *)
Theorem keyboard_refines_state_machine lay fr shell b sc k :
  flags_are (k_tty k) b -> 0 <= sc < 256 ->
  _idt_keyboard_irq_handler lay fr shell sc k =
  (r ← act lay fr shell (snd (decode b sc));
   match r with
   | UserMode eip => mret (UserMode eip)
   | Returns _ => send_eoi IRQ1 ;; ksti ;; mret (Returns tt)
   end) (after_scan b sc k).
Proof.
  intros Hf Hsc. destruct (no_switch (snd (decode b sc))) eqn:Hn.
  - rewrite (handler_spec lay fr shell b sc k Hf Hsc Hn).
    destruct (snd (decode b sc)); try discriminate Hn; unfold act; rewrite bind_assoc;
      apply bind_ext; intros [] k'; reflexivity.
  - destruct (snd (decode b sc)) eqn:Hd; try discriminate Hn. exact (handler_switches _ _ _ _ _ _ _ Hf Hsc Hd).
Qed.
