(* ===== verification/Sched.v ===== *)
(** * The timer and the scheduler (pit.c, sche.c)

    The scheduler is switched off: [scheduling_handler] returns before it
    does anything.  The code after its first statement never runs;
    [schedule_switch] is that code, and [get_next_availble_process] the
    search it makes. *)

From Stdlib Require Import ZArith Lia.
From stdpp Require Import base numbers list gmap.
From S2P Require Import Prelude Mem FileSys Console Machine Pic Paging Pcb Exec.

Local Open Scope Z_scope.

(** ** The code *)

Definition OSCII_FREQ : Z := 1193182.
Definition CONFIG : Z := 54.
Definition DATA_PORT1 : Z := 64.
Definition PITPORT : Z := 67.
Definition IRQ0 : Z := 0.
Definition MASK : Z := 255.
Definition BITSHIFT : Z := 8.
Definition FREQ : Z := 50.

(** [a && b] of C. *)
Definition logical_and (a b : Z) : Z := if (a =? 0) || (b =? 0) then 0 else 1.

Definition pit_init : ST kernel unit :=
  enable_irq IRQ0 ;;
  koutb CONFIG PITPORT ;;
  let divider := OSCII_FREQ / FREQ in
  let low_byte := logical_and divider MASK in
  koutb low_byte DATA_PORT1 ;;
  let high_byte := Z.shiftr divider BITSHIFT in
  koutb high_byte DATA_PORT1.

(** The loop over [i]; [n] counts down [i < MAXNUMTASK]. *)
Fixpoint next_process (n : nat) (i curr : Z) (m : mem) : Z :=
  match n with
  | O => -1
  | S n =>
      let next_task_pos := (curr + i) mod (MAXNUMTASK - 1) in
      if negb (load_s32 m (running_state (pcb_at next_task_pos)) =? 0) then s8 next_task_pos
      else next_process n (i + 1) curr m
  end.

Definition get_next_availble_process : ST kernel Z :=
  gets (fun k => next_process (Z.to_nat (MAXNUMTASK - 1)) 1 (curr_task_pos k) (kmem k)).

(** The code behind the [return]: [esp] and [ebp] are the registers when they
    are saved, the result those of the task that goes on. *)
Definition schedule_switch (esp ebp : Z) : ST kernel (option (Z * Z)) :=
  running ← gets runn_task_num;
  if running <=? 1 then mret None
  else
    next_task_pos ← get_next_availble_process;
    if next_task_pos =? -1 then mret None
    else
      pos ← gets curr_task_pos;
      let curr_pcb := pcb_at pos in
      let next_pcb := pcb_at next_task_pos in
      modify (map_task next_task_pos) ;;
      modify flush_tlb ;;
      modify (set_tss_ss0 KERNEL_DS) ;;
      modify (set_tss_esp0 (EIGHTMB - EIGHTKB * next_task_pos - 4)) ;;
      modify (fun k => set_kmem
        (store32 (store32 (kmem k) (pcb_esp curr_pcb) esp) (pcb_ebp curr_pcb) ebp) k) ;;
      m ← gets kmem;
      mret (Some (load32 m (pcb_esp next_pcb), load32 m (pcb_ebp next_pcb))).

Definition scheduling_handler : ST kernel unit := mret tt.

Definition _idt_pit_irq_handler : ST kernel unit :=
  kcli ;;
  scheduling_handler ;;
  send_eoi IRQ0 ;;
  ksti.

(** ** The search *)

Definition runs (m : mem) (pos : Z) : Prop := load_s32 m (running_state (pcb_at pos)) <> 0.

Lemma next_process_spec n i curr m :
  0 <= curr -> 0 <= i ->
  let r := next_process n i curr m in
  (r = -1 /\ forall j, i <= j < i + Z.of_nat n -> ~ runs m ((curr + j) mod 5)) \/
  exists j, i <= j < i + Z.of_nat n /\ r = (curr + j) mod 5 /\ runs m r /\
    forall j', i <= j' < j -> ~ runs m ((curr + j') mod 5).
Proof.
  revert i. induction n as [|n IH]; intros i Hc Hi; cbv zeta.
  { left. split; [done | lia]. }
  cbn [next_process]. change (MAXNUMTASK - 1) with 5.
  assert (Hr : 0 <= (curr + i) mod 5 < 5) by (apply Z.mod_pos_bound; lia).
  unfold runs in *. destruct (Z.eqb_spec (load_s32 m (running_state (pcb_at ((curr + i) mod 5)))) 0)
    as [E|E]; cbn [negb].
  - destruct (IH (i + 1) Hc ltac:(lia)) as [[-> Hn]|(j & Hj & -> & Hrun & Hb)].
    + left. split; [done|]. intros j Hj. destruct (Z.eq_dec j i) as [->|]; [tauto|].
      apply Hn. lia.
    + right. exists j. split_and!; try done; try lia. intros j' Hj'.
      destruct (Z.eq_dec j' i) as [->|]; [tauto|]. apply Hb. lia.
  - right. exists i. rewrite s8_small by lia. split_and!; try done; lia.
Qed.

(** ** The properties *)

(** A tick of the timer only acknowledges the interrupt: no task is
    switched, whatever the number of running tasks. *)
Theorem pit_tick_switches_nothing k :
  _idt_pit_irq_handler k = Ok (tt, set_if true (emit [Out 96 32] k)).
Proof.
  unfold _idt_pit_irq_handler, scheduling_handler. rewrite kcli_bind. bstep.
  erewrite bind_ok by (apply send_eoi_spec; done). reflexivity.
Qed.

(** The search returns the nearest running task after the current one among
    the slots 0 to 4, the current one last, and -1 when none runs there: a
    task in slot 5 is never chosen. *)
Theorem next_process_first k :
  0 <= curr_task_pos k < 6 ->
  let r := next_process 5 1 (curr_task_pos k) (kmem k) in
  get_next_availble_process k = Ok (r, k) /\
  ((r = -1 /\ forall pos, 0 <= pos < 5 -> ~ runs (kmem k) pos) \/
   exists j, 1 <= j <= 5 /\ r = (curr_task_pos k + j) mod 5 /\ runs (kmem k) r /\
     forall j', 1 <= j' < j -> ~ runs (kmem k) ((curr_task_pos k + j') mod 5)).
Proof.
  intros Hc r. split; [done|].
  destruct (next_process_spec 5 1 (curr_task_pos k) (kmem k)) as [[Hr Hn]|(j & Hj & Hr)];
    [lia | lia | left | right; exists j; split; [lia | exact Hr]].
  split; [exact Hr|]. intros pos Hp.
  set (j := (pos - curr_task_pos k - 1) mod 5 + 1).
  replace pos with ((curr_task_pos k + j) mod 5) by (unfold j; lia_mod).
  apply Hn. unfold j. pose proof (Z.mod_pos_bound (pos - curr_task_pos k - 1) 5). lia.
Qed.

(** What the code behind the [return] would do: the page of the next task at
    128 MB, its kernel stack in the TSS, the registers of the current task in
    its block and those of the next one out of its own.  [curr_task_pos] keeps
    naming the task that was left, so a second switch would save the
    registers over those of the first. *)
Theorem schedule_would_switch lay t esp ebp k :
  dir_ok lay (page_dir k) t -> 2 <= runn_task_num k -> 0 <= curr_task_pos k < 6 ->
  0 <= esp < 4294967296 -> 0 <= ebp < 4294967296 ->
  let pos := curr_task_pos k in
  let next := next_process 5 1 pos (kmem k) in
  next <> -1 -> next <> pos ->
  exists k', schedule_switch esp ebp k = Ok (Some (load32 (kmem k) (pcb_esp (pcb_at next)),
      load32 (kmem k) (pcb_ebp (pcb_at next))), k') /\
    dir_ok lay (page_dir k') (Some next) /\ mmu k' = Some (page_dir k', page_tab k) /\
    tss_esp0 k' = 8388608 - 8192 * next - 4 /\
    load32 (kmem k') (pcb_esp (pcb_at pos)) = esp /\ load32 (kmem k') (pcb_ebp (pcb_at pos)) = ebp /\
    curr_task_pos k' = pos.
Proof.
  intros Hd Hr Hc He Hb pos next Hn Hne.
  assert (Hrange : 0 <= next < 5).
  { destruct (next_process_spec 5 1 pos (kmem k)) as [[E _]|(j & _ & E & _)]; [unfold pos; lia | lia | done|].
    fold next in E. rewrite E. apply Z.mod_pos_bound. lia. }
  unfold schedule_switch. bstep. rewrite (proj2 (Z.leb_gt _ 1)) by lia.
  erewrite bind_ok by (unfold get_next_availble_process; reflexivity).
  change (next_process _ 1 _ _) with next. rewrite (proj2 (Z.eqb_neq next (-1))) by done.
  bstep. cbv zeta. fold pos.
  pose proof (dir_ok_task lay k t next Hd ltac:(lia)) as Hd'.
  clearbody next. do 6 bstep. eexists. split.
  { unfold mret, st_ret. do 4 f_equal; unfold kmem; cbn;
      unfold pcb_esp, pcb_ebp, pcb_at, EIGHTKB, EIGHTMB; by rewrite !load32_store32_ne by lia. }
  split_and!; try done.
  - unfold kmem. cbn. rewrite load32_store32_ne, load32_store32_eq by (unfold pcb_esp, pcb_ebp; lia).
    by apply u32_small.
  - unfold kmem. cbn. rewrite load32_store32_eq. by apply u32_small.
Qed.

(** [pit_init] enables line 0 and programs the counter: the low byte it
    sends is 1, so the counter is 23809 and not the 23863 of 50 ticks per
    second. *)
Theorem pit_init_programs k :
  pic_sync k ->
  exists k', pit_init k = Ok (tt, k') /\ irq_masked k' 0 = false /\
    (forall i, 0 < i < 16 -> irq_masked k' i = irq_masked k i) /\
    (exists tr, k_trace k' = tr ++ [Out 54 67; Out 1 64; Out 93 64]) /\
    1 + 256 * 93 <> OSCII_FREQ / FREQ.
Proof.
  intros Hs. destruct (wp_inv _ _ _ (enable_irq_spec 0 k ltac:(lia) Hs))
    as ([] & k1 & Hrun & _ & _ & Hm).
  unfold pit_init. rewrite (bind_ok _ _ _ _ _ Hrun). cbv zeta. rewrite !koutb_bind, !emit_emit.
  exists (emit [Out 54 67; Out 1 64; Out 93 64] k1).
  split; [rewrite <-(emit_emit [Out 54 67; Out 1 64] [Out 93 64]); reflexivity|].
  split; [exact (Hm 0 ltac:(lia))|]. split; [|split; [by exists (k_trace k1) | done]].
  intros i Hi. transitivity (if i =? 0 then false else irq_masked k i); [exact (Hm i ltac:(lia))|].
  by rewrite (proj2 (Z.eqb_neq i 0)) by lia.
Qed.
