(* ===== verification/Trap.v ===== *)
(** * Exceptions (idt_init.c)

    Every exception handler clears the screen, prints a message and ends
    the current task with status 255; the page fault handler also prints
    the address it finds in cr2, which is an argument here. *)

From Stdlib Require Import ZArith Lia String Ascii.
From stdpp Require Import base numbers list gmap.
From S2P Require Import Prelude Mem CString FileSys Console Printf Machine Paging Idt Pcb Exec.

Local Open Scope Z_scope.

(** ** The code *)

(** The text of each exception. *)
Definition exception_text (h : handler) : list Z :=
  match h with
  | TRAP_DE => bytes "Divide-by-zero."
  | TRAP_DB => bytes "Debug."
  | TRAP_NMI => bytes "Non-maskable Interrupt."
  | TRAP_BP => bytes "Breakpoint."
  | TRAP_OF => bytes "Overflow."
  | TRAP_BR => bytes "Bound Range Exceeded."
  | TRAP_UD => bytes "Invalid Opcode."
  | TRAP_NM => bytes "Device Not Available."
  | TRAP_DF => bytes "Double Fault."
  | TRAP_OLD_MF => bytes "Coprocessor Segment Overrun."
  | TRAP_TS => bytes "Invalid TSS."
  | TRAP_NP => bytes "Segment Not Present."
  | TRAP_SS => bytes "Stack Segment Fault."
  | TRAP_GP => bytes "General Protection Fault."
  | TRAP_PF => bytes "Page Fault." ++ [LF]
  | TRAP_SPURIOUS => bytes "Spurious Interrupt."
  | TRAP_MF => bytes "x87 Floating-Point Exception."
  | TRAP_AC => bytes "Alignment Check."
  | TRAP_MC => bytes "Machine Check."
  | TRAP_XF => bytes "SIMD Floating-Point Exception."
  | interrupt_pit | interrupt_kb | interrupt_rtc | interrupt_mouse | syscall => []
  end.

(** The handlers [_idt_handle_exception_FDWG_TRAP_*]. *)
Definition _idt_handle_exception (lay : layout) (fr : frame) (cr2 : Z) (h : handler)
  : ST kernel halt_result :=
  on_tty clear ;;
  _ ← on_tty (printf (exception_text h) []);
  (if decide (h = TRAP_PF) then
     _ ← on_tty (printf (bytes "faulting at addr 0x%#x" ++ [LF]) [cr2]); mret tt
   else mret tt) ;;
  halt lay fr 255.

(** Installed at no vector. *)
Definition _idt_handle_all (lay : layout) (fr : frame) : ST kernel halt_result :=
  on_tty clear ;;
  _ ← on_tty (printf (bytes "Testing: Undefined Interrupt.") []);
  halt lay fr 255.

(** ** What the user sees *)

Definition is_trap (h : handler) : bool :=
  match h with
  | interrupt_pit | interrupt_kb | interrupt_rtc | interrupt_mouse | syscall => false
  | _ => true
  end.

Lemma text_numeric h : numeric None (exception_text h) 0 = true.
Proof. by destruct h. Qed.

Lemma text_plain h : forallb (fun c => negb (c =? chr "%")) (exception_text h) = true.
Proof. by destruct h. Qed.

(** A format without percent signs prints itself. *)
Lemma expands_plain m fmt args t :
  forallb (fun c => negb (c =? chr "%")) fmt = true -> expands m None fmt args t -> t = fmt.
Proof.
  revert t. induction fmt as [|c fmt IH]; intros t Hp He.
  { by inversion He. }
  cbn [forallb] in Hp. rewrite andb_true_iff, negb_true_iff, Z.eqb_neq in Hp.
  destruct Hp as [Hc Hp]. inversion He; subst; [|done]. f_equal. by apply IH.
Qed.

Lemma clear_wf s : tty_wf s -> tty_wf (set_t_mem (clear_mem (t_mem s)) s).
Proof. intros []. by constructor. Qed.

(** A blank screen with the cursor where it was. *)
Definition blank_at (y x : Z) : view := View (fun _ _ => SP) y x.

(** The text of an exception: for a page fault, the address in hexadecimal
    on a second line. *)
Definition trap_text (h : handler) (cr2 : Z) (text : list Z) : Prop :=
  if decide (h = TRAP_PF)
  then exists hex, hex_text (u32 cr2) hex /\ text = exception_text h ++ bytes "faulting at addr 0x" ++
         replicate (8 - List.length hex) (chr "0") ++ hex ++ [LF]
  else text = exception_text h.

Lemma expands_prefix m p fmt args t :
  forallb (fun c => negb (c =? chr "%")) p = true -> expands m None (p ++ fmt) args t ->
  exists t', t = p ++ t' /\ expands m None fmt args t'.
Proof.
  revert t. induction p as [|c p IH]; intros t Hp He; [by exists t|].
  cbn [forallb] in Hp. rewrite andb_true_iff, negb_true_iff, Z.eqb_neq in Hp.
  destruct Hp as [Hc Hp]. cbn [app] in He. inversion He; subst; [|done].
  destruct (IH _ Hp ltac:(eassumption)) as (t' & -> & H'). by exists t'.
Qed.

Lemma expands_fault m cr2 t :
  expands m None (bytes "faulting at addr 0x%#x" ++ [LF]) [cr2] t ->
  exists hex, hex_text (u32 cr2) hex /\ t = bytes "faulting at addr 0x" ++
    replicate (8 - List.length hex) (chr "0") ++ hex ++ [LF].
Proof.
  change (bytes "faulting at addr 0x%#x" ++ [LF])
    with (bytes "faulting at addr 0x" ++ bytes "%#x" ++ [LF]).
  intros He. apply expands_prefix in He as (t1 & -> & He); [|done].
  inversion He as [|? ? ? ? Hc| ? ? ? He1 | | |]; subst; [done|].
  inversion He1 as [| | |? ? ? ? He2|? ? ? ? ? ? ? Hc|? ? ? ? ? Hp]; subst;
    [|inversion Hc | discriminate Hp].
  inversion He2 as [| | | |? ? ? ? ? ? ? Hc He3|? ? ? ? ? Hp]; subst; [|discriminate Hp].
  apply expands_plain in He3 as ->; [|done].
  inversion Hc as [|? hex Hh| | | | | ]; subst. exists hex. split; [done|].
  by rewrite <-app_assoc.
Qed.

(** The part of a handler before [halt]. *)
Definition trap_message (cr2 : Z) (h : handler) : ST tty unit :=
  clear ;;
  _ ← printf (exception_text h) [];
  if decide (h = TRAP_PF) then
    _ ← printf (bytes "faulting at addr 0x%#x" ++ [LF]) [cr2]; mret tt
  else mret tt.

Lemma trap_split lay fr cr2 h k :
  _idt_handle_exception lay fr cr2 h k = (on_tty (trap_message cr2 h) ;; halt lay fr 255) k.
Proof.
  unfold _idt_handle_exception, trap_message, mbind, st_bind, on_tty, mret, st_ret.
  destruct (clear (k_tty k)) as [[[] s]|]; [|done]. change (k_tty (set_k_tty s k)) with s.
  destruct (printf (exception_text h) [] s) as [[n s2]|]; [|done]. rewrite set_k_tty_twice.
  destruct (decide (h = TRAP_PF)); [|done]. change (k_tty (set_k_tty s2 k)) with s2.
  destruct (printf _ [cr2] s2) as [[n3 s3]|]; [|done]. by rewrite set_k_tty_twice.
Qed.

(** It blanks the screen and prints the text from where the cursor was. *)
Lemma trap_message_spec cr2 h s :
  tty_wf s ->
  wp (trap_message cr2 h) (fun _ s1 => exists text, trap_text h cr2 text /\ tty_wf s1 /\
    prints (set_t_mem (clear_mem (t_mem s)) s) s1 /\
    shows s1 (abs_puts text (blank_at (screen_y s) (screen_x s))) /\
    (forall b, off_screen b -> mget (t_mem s1) b = mget (t_mem s) b)) s.
Proof.
  intros Hwf. set (s0 := set_t_mem (clear_mem (t_mem s)) s).
  assert (Hs0 : shows s0 (blank_at (screen_y s) (screen_x s)))
    by (split; [intros; by apply clear_mem_char | done]).
  eapply wp_mono with (P := fun _ s1 => exists text, trap_text h cr2 text /\ prints_text text s0 s1).
  { apply wp_bind, wp_modify. apply wp_bind. eapply wp_mono;
      [apply printf_spec; [by apply clear_wf | apply numeric_fits, text_numeric]|].
    intros _ s1 (_ & t1 & He1 & Hp1). apply expands_plain in He1 as ->; [|apply text_plain].
    unfold trap_text. destruct (decide (h = TRAP_PF)); [|by exists (exception_text h)].
    apply wp_bind. eapply wp_mono;
      [apply printf_spec; [apply Hp1 | by apply numeric_fits]|].
    intros _ s2 (_ & t2 & He2 & Hp2). apply expands_fault in He2 as (hex & Hhex & ->).
    eexists. split; [by exists hex|]. by eapply prints_text_app. }
  intros _ s1 (text & Htext & Wf1 & Hpr & Hsh). exists text. split; [exact Htext|].
  split; [exact Wf1|]. split; [exact Hpr|]. split; [by apply Hsh|].
  intros b Hb. rewrite (pr_mem _ _ Hpr) by done. by apply clear_mem_frame.
Qed.

(** ** The property of the handlers *)

(** C26: An exception in a program ends it: the screen is blank but for the
    message, printed from where the cursor was; the parent is resumed with
    status 256, and slot, page, kernel stack and block are given back. *)
Theorem exception_ends_task lay fr t cr2 h pos parent k :
  is_trap h = true -> tty_wf (k_tty k) -> dir_ok lay (page_dir k) t ->
  curr_task_pos k = pos -> 0 < pos < 6 -> 0 <= parent < 6 ->
  zlen (task_bitmap k) = 6 -> runn_task_num k <> 1 ->
  load_s32 (kmem k) (parent_process_id (pcb_at pos)) = parent ->
  load_s32 (kmem k) (process_id (pcb_at pos)) = pos ->
  exists k' text, _idt_handle_exception lay fr cr2 h k =
      Ok (Resume (load32 (kmem k) (parent_esp (pcb_at pos)))
                 (load32 (kmem k) (parent_ebp (pcb_at pos))) 256, k') /\
    trap_text h cr2 text /\
    shows (k_tty k') (abs_puts text (blank_at (screen_y (k_tty k)) (screen_x (k_tty k)))) /\
    task_bitmap k' = <[Z.to_nat pos := 0]> (task_bitmap k) /\ curr_task_pos k' = parent /\
    runn_task_num k' = u8 (runn_task_num k - 1) /\ dir_ok lay (page_dir k') (Some parent) /\
    tss_esp0 k' = 8388608 - 8192 * parent - 4 /\
    forall b, pcb_at pos <= b < pcb_at pos + 520 -> mget (kmem k') b = 0.
Proof.
  intros Htrap Hwf Hd Hpos Hp Hpar Hbl Hr1 Hpp Hpid.
  destruct (wp_inv _ _ _ (trap_message_spec cr2 h (k_tty k) Hwf))
    as ([] & s1 & Hrun & text & Htext & Wf1 & Hpr & Hsh & Hmem).
  pose proof (pcb_at_low pos ltac:(lia)) as (P5 & Plo & Phi).
  assert (Hload : forall o, 488 <= o <= 516 ->
    load32 (t_mem s1) (pcb_at pos + o) = load32 (kmem k) (pcb_at pos + o)).
  { intros o Ho. apply load32_ext. intros b Hb. apply Hmem. unfold off_screen, VIDEO. lia. }
  pcb_unfold. unfold load_s32 in *.
  destruct (halt_spec lay fr t 255 pos parent (set_k_tty s1 k)) as (k' & Hh & Hres);
    try done; pcb_unfold; unfold load_s32.
  { change (kmem (set_k_tty s1 k)) with (t_mem s1). by rewrite Hload by lia. }
  { change (kmem (set_k_tty s1 k)) with (t_mem s1). by rewrite Hload by lia. }
  change (kmem (set_k_tty s1 k)) with (t_mem s1) in Hh. rewrite !Hload in Hh by lia.
  destruct Hres as [R1 R2 R3 R4 _ _ R7 _ R9 R10 R11].
  exists k', text. split; [|split_and!; try done].
  - rewrite trap_split. erewrite bind_ok by (unfold on_tty; rewrite Hrun; reflexivity).
    exact Hh.
  - destruct Hsh as (Hc & Hy & Hx). rewrite R11. split; [|done].
    intros y x Hyx. rewrite <-Hc by done. unfold screen_char. apply R10.
    rewrite vaddr_eq. unfold VIDEO, on_screen in *. lia.
Qed.
