(* ===== verification/Isolation.v ===== *)
(** * What programs can reach, over all runs of the kernel

    The page tables are changed by [execute], [halt], [vidmap] and by
    switching terminals.  [kcall] is one operation of the running kernel, any
    system call or interrupt with any arguments, that comes to its end;
    [paged] is the invariant of the page tables, and [run] the states reached
    from [init_paging].

    The model keeps the kernel's variables, the page tables among them, apart
    from memory, while the system calls check no pointer: a [read] into the
    page tables would rewrite them.  A step of a run ([kstep]) is therefore a
    call that leaves the part of memory where the kernel's variables are as it
    was, or a step of a program, which changes what the page tables let it
    reach.  A call that leaves an array or meets an uninitialised variable has
    no result in the model, and is not a step. *)

From Stdlib Require Import ZArith Lia String Ascii Relations.
From stdpp Require Import base numbers list gmap relations.
From S2P Require Import Prelude Mem CString FileSys Console Printf Machine Pic Paging Rtc Idt.
From S2P Require Import Pcb Exec Line Syscall Terminal Keyboard Sched Trap.

Local Open Scope Z_scope.

(** ** Code that leaves the page tables alone *)

Record tables_same (k k' : kernel) : Prop := {
  tb_dir : page_dir k' = page_dir k;
  tb_tab : page_tab k' = page_tab k;
  tb_mmu : mmu k' = mmu k;
  tb_pos : curr_task_pos k' = curr_task_pos k;
}.

#[export] Instance tables_same_refl : Reflexive tables_same.
Proof. by constructor. Qed.
#[export] Instance tables_same_trans : Transitive tables_same.
Proof. intros k1 k2 k3 [] []. constructor; congruence. Qed.

Definition keeps_tables {A} (c : ST kernel A) : Prop :=
  forall k a k', c k = Ok (a, k') -> tables_same k k'.

Create HintDb keeps.

Lemma kt_bind {A B} (c : ST kernel A) (f : A -> ST kernel B) :
  keeps_tables c -> (forall a, keeps_tables (f a)) -> keeps_tables (c ≫= f).
Proof.
  intros Hc Hf k b k' H. apply bind_inv in H as (a & k1 & H1 & H2).
  etransitivity; [by eapply Hc | by eapply Hf].
Qed.

Lemma kt_ret {A} (a : A) : keeps_tables (mret a).
Proof. intros k b k' H. by injection H as <- <-. Qed.

Lemma kt_gets {A} (f : kernel -> A) : keeps_tables (gets f).
Proof. intros k b k' H. by injection H as <- <-. Qed.

Lemma kt_fail {A} e : keeps_tables (@fail kernel A e).
Proof. done. Qed.

Lemma kt_liftR {A} (r : res A) : keeps_tables (liftR r).
Proof. intros k b k' H. unfold liftR in H. destruct r; [|done]. by injection H as <- <-. Qed.

Lemma kt_liftR_at {A} (f : kernel -> res A) : keeps_tables (fun k => liftR (f k) k).
Proof. intros k b k' H. by apply (kt_liftR (f k)) in H. Qed.

Lemma kt_modify f : (forall k, tables_same k (f k)) -> keeps_tables (modify f).
Proof. intros Hf k b k' H. injection H as <- <-. apply Hf. Qed.

Lemma kt_on_tty {A} (c : ST tty A) : keeps_tables (on_tty c).
Proof.
  intros k b k' H. unfold on_tty in H. destruct (c (k_tty k)) as [[? ?]|]; [|done].
  by injection H as <- <-.
Qed.

Lemma kt_when b c : keeps_tables c -> keeps_tables (when b c).
Proof. intros. destruct b; [done | apply kt_ret]. Qed.

#[export] Hint Resolve kt_ret kt_gets kt_fail kt_liftR kt_liftR_at kt_on_tty : keeps.

(** Straight-line code, with its conditions. *)
Ltac keeps :=
  repeat first
    [ progress auto with keeps
    | apply kt_bind; [|intros]
    | apply kt_when
    | apply kt_modify; intros; by constructor
    | match goal with |- keeps_tables (match ?x with _ => _ end) => destruct x end ].

Lemma kt_koutb v p : keeps_tables (koutb v p).
Proof. apply kt_on_tty. Qed.
Lemma kt_kinb p a : keeps_tables (kinb p a).
Proof. apply kt_on_tty. Qed.
Lemma kt_kcli : keeps_tables kcli.
Proof. apply kt_on_tty. Qed.
Lemma kt_ksti : keeps_tables ksti.
Proof. apply kt_on_tty. Qed.
#[export] Hint Resolve kt_koutb kt_kinb kt_kcli kt_ksti : keeps.

Lemma kt_send_eoi n : keeps_tables (send_eoi n).
Proof. unfold send_eoi. keeps. Qed.
#[export] Hint Resolve kt_send_eoi : keeps.

Lemma kt_rtc_write prev fd buf n : keeps_tables (rtc_write prev fd buf n).
Proof. unfold rtc_write. keeps. Qed.
Lemma kt_rtc_handler regc : keeps_tables (_idt_rtc_irq_handler regc).
Proof. unfold _idt_rtc_irq_handler. keeps. Qed.
Lemma kt_pit : keeps_tables _idt_pit_irq_handler.
Proof. unfold _idt_pit_irq_handler, scheduling_handler. keeps. Qed.
#[export] Hint Resolve kt_rtc_write kt_rtc_handler kt_pit : keeps.

Lemma kt_read lay d fd buf n : keeps_tables (read lay d fd buf n).
Proof. unfold read, fs_dir_read, filesys_read, rtc_read_begin. keeps. Qed.
Lemma kt_read_poll lay fd buf n : keeps_tables (read_poll lay fd buf n).
Proof. unfold read_poll, rtc_read_poll. keeps. Qed.
Lemma kt_write lay prev fd buf n : keeps_tables (write lay prev fd buf n).
Proof. unfold write. keeps. Qed.
Lemma kt_open lay d f : keeps_tables (open lay d f).
Proof. unfold open, open_file. keeps. Qed.
Lemma kt_close lay fd : keeps_tables (close lay fd).
Proof. unfold close. keeps. Qed.
Lemma kt_getargs buf n : keeps_tables (getargs buf n).
Proof. unfold getargs. keeps. Qed.
Lemma kt_exec_parse fr c : keeps_tables (exec_parse fr c).
Proof. unfold exec_parse. keeps. Qed.
Lemma kt_exec_find fr : keeps_tables (exec_find fr).
Proof. unfold exec_find. keeps. Qed.
Lemma kt_switch_to i : keeps_tables (switch_to i).
Proof. unfold switch_to. keeps. Qed.
Lemma kt_finish c : keeps_tables (finish c).
Proof. unfold finish. keeps. Qed.
#[export] Hint Resolve kt_read kt_read_poll kt_write kt_open kt_close kt_getargs
  kt_exec_parse kt_exec_find kt_switch_to kt_finish : keeps.

(** ** The invariant *)

(** The tables in memory and the tables the hardware uses have the shape of
    [dir_ok] and [tab_ok], and the page at 128 MB, if there is one, is the
    page of the current task. *)
Record paged (lay : layout) (k : kernel) : Prop := {
  pg_task : exists t, (t = None \/ t = Some (curr_task_pos k)) /\
    dir_ok lay (page_dir k) t /\
    exists pd pt, mmu k = Some (pd, pt) /\ dir_ok lay pd t /\ tab_ok pt;
  pg_tab : tab_ok (page_tab k);
  pg_slot : 0 <= curr_task_pos k < 256;
}.

Lemma paged_same lay k k' : tables_same k k' -> paged lay k -> paged lay k'.
Proof. intros [T1 T2 T3 T4] [P1 P2 P3]. constructor; by rewrite ?T1, ?T2, ?T3, ?T4. Qed.

(** Code that keeps the invariant. *)
Definition safe (lay : layout) {A} (c : ST kernel A) : Prop :=
  forall k a k', paged lay k -> c k = Ok (a, k') -> paged lay k'.

Lemma safe_keeps lay {A} (c : ST kernel A) : keeps_tables c -> safe lay c.
Proof. intros Hc k a k' Hp H. eapply paged_same; [by eapply Hc | done]. Qed.

Lemma safe_bind lay {A B} (c : ST kernel A) (f : A -> ST kernel B) :
  safe lay c -> (forall a, safe lay (f a)) -> safe lay (c ≫= f).
Proof.
  intros Hc Hf k b k' Hp H. apply bind_inv in H as (a & k1 & H1 & H2).
  eapply Hf; [|exact H2]. by eapply Hc.
Qed.

(** A new page for the task in slot [pos]. *)
Lemma paged_task lay k pos :
  (exists t, dir_ok lay (page_dir k) t) -> tab_ok (page_tab k) ->
  curr_task_pos k = pos -> 0 <= pos < 256 ->
  paged lay (enable_paging (map_task pos k)).
Proof.
  intros [t Hd] Ht Hc Hp. pose proof (dir_ok_task lay k t pos Hd Hp) as Hd'.
  rewrite map_task_set in * by (done || apply (do_len _ _ _ Hd)).
  set (k1 := pd_set 32 (task_pde pos) k) in *.
  assert (E : page_tab k1 = page_tab k /\ curr_task_pos k1 = curr_task_pos k) by done.
  destruct E as [E1 E2]. clearbody k1. constructor.
  - exists (Some pos). change (curr_task_pos (enable_paging k1)) with (curr_task_pos k1).
    rewrite E2, Hc. split; [by right|]. split; [exact Hd'|].
    exists (page_dir k1), (page_tab k1). split; [done|]. by rewrite E1.
  - change (page_tab (enable_paging k1)) with (page_tab k1). by rewrite E1.
  - change (curr_task_pos (enable_paging k1)) with (curr_task_pos k1). lia.
Qed.

(** A window on the video memory, with the tables then loaded. *)
Lemma paged_video lay k p v :
  layout_ok lay -> paged lay k -> p ∈ video_pages -> paged lay (load_cr3 v (map_video lay p k)).
Proof.
  intros Hl [(t & Hc & Hd & pd & pt & _) Ht Hp] Hv.
  destruct (dir_ok_video lay k t p Hl Hv Hd Ht) as [Hd' Ht'].
  rewrite map_video_set in * by (done || apply (do_len _ _ _ Hd)).
  set (k1 := pt_set 0 _ _) in *.
  assert (E2 : curr_task_pos k1 = curr_task_pos k) by done. clearbody k1.
  constructor; [exists t|exact Ht'|by rewrite <-E2 in Hp]. rewrite <-E2 in Hc.
  split; [done|]. split; [done|]. by exists (page_dir k1), (page_tab k1).
Qed.

Lemma find_slot_range n i running bitmap pos0 b pos :
  find_slot n i running bitmap pos0 = Some (b, pos) ->
  pos = pos0 \/ i <= pos < i + Z.of_nat n.
Proof.
  revert i. induction n as [|n IH]; intros i H; cbn [find_slot] in H.
  { injection H as _ <-. by left. }
  destruct (_ =? 0); [injection H as _ <-; right; lia|].
  destruct (_ && _); [done|]. destruct (IH _ H); [by left | right; lia].
Qed.

Lemma safe_exec_load lay fr : safe lay (exec_load lay fr).
Proof.
  intros k r k' Hp H. unfold exec_load in H.
  apply bind_inv in H as (fs & ? & H1 & H). injection H1 as <- <-.
  apply bind_inv in H as (m & ? & H1 & H). injection H1 as <- <-. cbv zeta in H.
  apply bind_inv in H as (rn & ? & H1 & H). injection H1 as <- <-.
  apply bind_inv in H as (bm & ? & H1 & H). injection H1 as <- <-.
  apply bind_inv in H as (p0 & ? & H1 & H). injection H1 as <- <-.
  destruct (find_slot _ _ _ _ _) as [[b pos]|] eqn:Hs; [|by injection H as <- <-].
  assert (Hpos : 0 <= pos < 256).
  { pose proof (pg_slot _ _ Hp). destruct (find_slot_range _ _ _ _ _ _ _ Hs) as [->|Hr]; [done|].
    change (Z.of_nat (Z.to_nat MAXNUMTASK)) with 6 in Hr. lia. }
  apply bind_inv in H as (? & ? & H1 & H). injection H1 as <- <-.
  apply bind_inv in H as (? & ? & H1 & H). injection H1 as <- <-.
  apply bind_inv in H as (? & ? & H1 & H). injection H1 as <- <-.
  apply bind_inv in H as (? & ? & H1 & H). injection H1 as <- <-.
  eapply safe_keeps; [| |exact H].
  - cbv zeta. keeps.
  - apply paged_task; [|apply Hp | done | done].
    destruct (pg_task _ _ Hp) as (t & _ & Hd & _). by exists t.
Qed.

Lemma safe_execute lay fr c : safe lay (execute lay fr c).
Proof.
  unfold execute. apply safe_bind; [apply safe_keeps; keeps | intros _].
  apply safe_bind; [apply safe_keeps; keeps | intros rn].
  destruct (_ || _); [apply safe_keeps; keeps|].
  apply safe_bind; [apply safe_keeps; keeps | intros _].
  apply safe_bind; [apply safe_keeps; keeps | intros [[]|]];
    [apply safe_exec_load | apply safe_keeps; keeps].
Qed.

Lemma safe_halt lay fr st : safe lay (halt lay fr st).
Proof.
  unfold halt. apply safe_bind; [apply safe_keeps; keeps | intros _].
  cbv zeta. apply safe_bind; [apply safe_keeps; keeps | intros pos].
  apply safe_bind; [apply safe_keeps; keeps | intros rn].
  apply safe_bind; [apply safe_keeps; keeps | intros m].
  destruct (_ || _); [apply safe_keeps; keeps|].
  intros k r k' Hp H.
  apply bind_inv in H as (bm & ? & H1 & H). injection H1 as <- <-.
  apply bind_inv in H as (bm' & k1 & H1 & H).
  apply kt_liftR in H1. apply (paged_same lay) in H1; [|exact Hp]. clear Hp k.
  do 5 (apply bind_inv in H as (? & ? & E & H); injection E as <- <-).
  eapply safe_keeps; [| |exact H]; [keeps|].
  apply paged_task; [|apply H1 | done | apply u8_range].
  destruct (pg_task _ _ H1) as (t & _ & Hd & _). by exists t.
Qed.

Lemma safe_vidmap lay s p : layout_ok lay -> safe lay (vidmap lay s p).
Proof.
  intros Hl. unfold vidmap. destruct (_ || _); [apply safe_keeps; keeps|].
  intros k r k' Hp H.
  do 2 (apply bind_inv in H as (? & ? & E & H); injection E as <- <-).
  eapply safe_keeps; [| |exact H]; [keeps|].
  assert (Hv : VIDEO ∈ video_pages) by (apply list_elem_of_In; by left).
  pose proof (paged_video lay k VIDEO (page_dir_addr (map_video lay VIDEO k)) Hl Hp Hv) as Hq.
  unfold enable_paging. set (k1 := load_cr3 _ _) in *. clearbody k1.
  eapply paged_same; [|exact Hq]. by constructor.
Qed.

Lemma video_buf_inv i b : aget video_buf_addr i = Ok b -> 0 <= i < 3 /\ b = term_buf i.
Proof.
  intros H. assert (Hi : 0 <= i < 3).
  { unfold aget in H. case_decide; [|done].
    destruct (video_buf_addr !! Z.to_nat i) eqn:E; [|done].
    apply lookup_lt_Some in E. cbn in E. lia. }
  split; [done|]. rewrite video_buf in H by done. by injection H.
Qed.

Lemma safe_switch_away lay c : layout_ok lay -> safe lay (switch_away lay c).
Proof.
  intros Hl. unfold switch_away.
  do 5 (apply safe_bind; [apply safe_keeps; keeps | intros]).
  intros k r k' Hp H. apply bind_inv in H as (buf & k1 & E & H).
  unfold liftR in E. destruct (aget video_buf_addr c) as [b|] eqn:Eb; [|done].
  injection E as <- <-. apply video_buf_inv in Eb as [Hc ->].
  revert k r k' Hp H. change (safe lay (m ← gets kmem;
    m' ← liftR (memcpy m (term_buf c) VIDEO VIDEO_BUF_SIZE); modify (set_kmem m') ;;
    modify (map_video lay (term_buf c)) ;; modify flush_tlb ;; on_tty reset)).
  do 3 (apply safe_bind; [apply safe_keeps; keeps | intros]).
  intros k r k' Hp H. do 2 (apply bind_inv in H as (? & ? & E & H); injection E as <- <-).
  eapply safe_keeps; [| |exact H]; [keeps|].
  apply paged_video; [done | done | by apply term_buf_page].
Qed.

(** The page of a terminal's buffer: the hardware sees it at the next load
    of the tables. *)
Lemma paged_buf lay k i :
  0 <= i < 3 -> paged lay k ->
  paged lay (pt_or (Z.shiftr (term_buf i) 12) (term_buf i)
    (pt_or (Z.shiftr (term_buf i) 12) USER_RW_PRE k)).
Proof.
  intros Hi [P1 P2 P3]. pose proof (tab_ok_buf k i P2 Hi) as Ht.
  set (k1 := pt_or _ _ _) in *.
  assert (E : page_dir k1 = page_dir k /\ mmu k1 = mmu k /\ curr_task_pos k1 = curr_task_pos k)
    by done.
  destruct E as (E1 & E2 & E3). clearbody k1. constructor; by rewrite ?E1, ?E2, ?E3.
Qed.

Lemma safe_terminal_boot lay fr shell i : safe lay (terminal_boot lay fr shell i).
Proof.
  unfold terminal_boot. do 6 (apply safe_bind; [apply safe_keeps; keeps | intros]).
  intros k r k' Hp H. apply bind_inv in H as (buf & k1 & E & H).
  unfold liftR in E. destruct (aget video_buf_addr i) as [b|] eqn:Eb; [|done].
  injection E as <- <-. apply video_buf_inv in Eb as [Hi ->]. cbv zeta in H.
  do 2 (apply bind_inv in H as (? & ? & E & H); injection E as <- <-).
  eapply (paged_buf lay k i Hi) in Hp. set (k1 := pt_or _ _ _) in *. clearbody k1.
  revert k1 r k' Hp H. match goal with
    |- forall k1 r k', paged lay k1 -> ?c k1 = _ -> _ => change (safe lay c) end.
  do 4 (apply safe_bind; [apply safe_keeps; keeps | intros]).
  apply safe_bind; [apply safe_execute | intros rv]. apply safe_keeps. keeps.
Qed.

Lemma safe_terminal_switch lay fr shell i : layout_ok lay -> safe lay (terminal_switch lay fr shell i).
Proof.
  intros Hl. unfold terminal_switch. apply safe_bind; [apply safe_keeps; keeps | intros cur].
  destruct (_ <? _); [apply safe_keeps; keeps|]. destruct (_ =? _); [apply safe_keeps; keeps|].
  apply safe_bind; [by apply safe_switch_away | intros _].
  do 2 (apply safe_bind; [apply safe_keeps; keeps | intros]).
  apply safe_bind; [destruct (_ =? _); [apply safe_terminal_boot | apply safe_keeps; keeps]|].
  intros []; apply safe_keeps; keeps.
Qed.

Lemma safe_switch_key lay fr shell input key i :
  layout_ok lay -> safe lay (switch_key lay fr shell input key i).
Proof.
  intros Hl. unfold switch_key. apply safe_bind; [apply safe_keeps; keeps | intros f].
  destruct (_ && _); [|apply safe_keeps; keeps].
  apply safe_bind; [by apply safe_terminal_switch | intros []; apply safe_keeps; keeps].
Qed.

Lemma safe_keyboard lay fr shell scan :
  layout_ok lay -> safe lay (_idt_keyboard_irq_handler lay fr shell scan).
Proof.
  intros Hl. unfold _idt_keyboard_irq_handler.
  apply safe_bind; [apply safe_keeps; keeps | intros _].
  apply safe_bind; [|intros []; apply safe_keeps; keeps].
  unfold get_char. do 2 (apply safe_bind; [apply safe_keeps; keeps | intros]).
  repeat match goal with |- safe _ (if ?b then _ else _) =>
    destruct b; [apply safe_keeps; by keeps|] end.
  apply safe_bind; [apply safe_keeps; keeps | intros _].
  do 3 (apply safe_bind; [by apply safe_switch_key | intros []; [|apply safe_keeps; by keeps]]).
  apply safe_keeps. keeps.
Qed.

Lemma safe_exception lay fr cr2 h : safe lay (_idt_handle_exception lay fr cr2 h).
Proof.
  unfold _idt_handle_exception. do 3 (apply safe_bind; [apply safe_keeps; keeps | intros]).
  apply safe_halt.
Qed.

(** ** Runs *)

(** One operation of the kernel: a system call, an interrupt or an
    exception, with any arguments and any answer of the hardware. *)
Inductive kcall (lay : layout) (k k' : kernel) : Prop :=
  | ks_execute fr c r : execute lay fr c k = Ok (r, k') -> kcall lay k k'
  | ks_halt fr st r : halt lay fr st k = Ok (r, k') -> kcall lay k k'
  | ks_read d fd buf n r : read lay d fd buf n k = Ok (r, k') -> kcall lay k k'
  | ks_read_poll fd buf n r : read_poll lay fd buf n k = Ok (r, k') -> kcall lay k k'
  | ks_write prev fd buf n r : write lay prev fd buf n k = Ok (r, k') -> kcall lay k k'
  | ks_open d f r : open lay d f k = Ok (r, k') -> kcall lay k k'
  | ks_close fd r : close lay fd k = Ok (r, k') -> kcall lay k k'
  | ks_getargs buf n r : getargs buf n k = Ok (r, k') -> kcall lay k k'
  | ks_vidmap s p r : vidmap lay s p k = Ok (r, k') -> kcall lay k k'
  | ks_keyboard fr shell scan r :
      _idt_keyboard_irq_handler lay fr shell scan k = Ok (r, k') -> kcall lay k k'
  | ks_rtc regc r : _idt_rtc_irq_handler regc k = Ok (r, k') -> kcall lay k k'
  | ks_pit r : _idt_pit_irq_handler k = Ok (r, k') -> kcall lay k k'
  | ks_exception fr cr2 h r : _idt_handle_exception lay fr cr2 h k = Ok (r, k') -> kcall lay k k'
  | ks_boot fr shell i r : terminal_boot lay fr shell i k = Ok (r, k') -> kcall lay k k'.

(** A program in user mode can store to a physical address the page tables
    lead to. *)
Definition reaches (lay : layout) (k : kernel) (pa : Z) : Prop :=
  exists pd pt va, mmu k = Some (pd, pt) /\ 0 <= va < 4294967296 /\
    translate lay true pd pt va = Some pa.

Definition program_step (lay : layout) (k k' : kernel) : Prop :=
  exists m, k' = set_kmem m k /\ forall b, mget m b <> mget (kmem k) b -> reaches lay k b.

(** A call that writes to no variable of the kernel through a pointer, or a
    program at work. *)
Definition kstep (lay : layout) (k k' : kernel) : Prop :=
  kcall lay k k' /\ kernel_same (kmem k) (kmem k') \/ program_step lay k k'.

Lemma kcall_paged lay k k' : layout_ok lay -> kcall lay k k' -> paged lay k -> paged lay k'.
Proof.
  intros Hl Hs Hp. destruct Hs as [? ? ? H|? ? ? H|? ? ? ? ? H|? ? ? ? H|? ? ? ? ? H|? ? ? H
    |? ? H|? ? ? H|? ? ? H|? ? ? ? H|? ? H|? H|? ? ? ? H|? ? ? ? H].
  - by eapply safe_execute.
  - by eapply safe_halt.
  - by eapply safe_keeps; [apply kt_read | |].
  - by eapply safe_keeps; [apply kt_read_poll | |].
  - by eapply safe_keeps; [apply kt_write | |].
  - by eapply safe_keeps; [apply kt_open | |].
  - by eapply safe_keeps; [apply kt_close | |].
  - by eapply safe_keeps; [apply kt_getargs | |].
  - by eapply safe_vidmap.
  - by eapply safe_keyboard.
  - by eapply safe_keeps; [apply kt_rtc_handler | |].
  - by eapply safe_keeps; [apply kt_pit | |].
  - by eapply safe_exception.
  - by eapply safe_terminal_boot.
Qed.

Lemma kstep_paged lay k k' : layout_ok lay -> kstep lay k k' -> paged lay k -> paged lay k'.
Proof.
  intros Hl [[Hs _]|(m & -> & _)] Hp; [by eapply kcall_paged|]. eapply paged_same; [|exact Hp].
  by constructor.
Qed.

(** The states reached after [init_paging]. *)
Definition run (lay : layout) (k0 k : kernel) : Prop :=
  rtc (kstep lay) (init_paging lay k0) k.

Lemma run_paged lay k0 k :
  layout_ok lay -> zlen (page_dir k0) = 1024 -> zlen (page_tab k0) = 1024 ->
  0 <= curr_task_pos k0 < 256 -> run lay k0 k -> paged lay k.
Proof.
  intros Hl Hd Ht Hc Hr. assert (H0 : paged lay (init_paging lay k0)).
  { destruct (init_paging_run lay k0 Hl Hd Ht) as (H1 & H2 & H3 & _ & _ & _ & [_ _ Hp _ _ _]).
    set (k1 := init_paging lay k0) in *. clearbody k1.
    constructor; [exists None|done|by rewrite Hp].
    split; [by left|]. split; [done|]. by exists (page_dir k1), (page_tab k1). }
  unfold run in Hr. induction Hr as [|k1 k2 k3 Hs _ IH]; [done|].
  apply IH. by eapply kstep_paged.
Qed.

