(* ===== verification/Boot.v ===== *)
(** * Starting the kernel (kernel.c: entry)

    [kernel_entry] is the function [entry]: the report of the Multiboot
    information, the descriptors of the LDT and the TSS, the initialisation
    of the devices and of the kernel's data, and the first terminal, whose
    shell it enters.

    The code calls [mouse_init], whose source is not in the repository: it
    is an argument, and what the boot relies on is the interface [Device],
    which the other drivers are shown to implement. *)

From Stdlib Require Import ZArith Lia String Ascii.
From stdpp Require Import base numbers list gmap.
From S2P Require Import Prelude Mem CString FileSys Console Printf Machine Pic Paging.
From S2P Require Import Rtc Idt Pcb Exec Line Terminal Quiet Keyboard Sched.

Local Open Scope Z_scope.

(** ** The code *)

Definition MULTIBOOT_BOOTLOADER_MAGIC : Z := 732803074.  (* 0x2BADB002 *)
Definition KERNEL_TSS : Z := 48.
Definition KERNEL_LDT : Z := 56.
Definition TSS_SIZE : Z := 104.

Definition CHECK_FLAG (flags bit : Z) : bool := negb (Z.land flags (Z.shiftl 1 bit) =? 0).

(** Addresses of the fields of [multiboot_info_t], [module_t] and
    [memory_map_t]. *)
Definition mbi_flags (mbi : Z) : Z := mbi.
Definition mbi_mem_lower (mbi : Z) : Z := mbi + 4.
Definition mbi_mem_upper (mbi : Z) : Z := mbi + 8.
Definition mbi_boot_device (mbi : Z) : Z := mbi + 12.
Definition mbi_cmdline (mbi : Z) : Z := mbi + 16.
Definition mbi_mods_count (mbi : Z) : Z := mbi + 20.
Definition mbi_mods_addr (mbi : Z) : Z := mbi + 24.
Definition mbi_elf_sec (mbi : Z) : Z := mbi + 28.
Definition mbi_mmap_length (mbi : Z) : Z := mbi + 44.
Definition mbi_mmap_addr (mbi : Z) : Z := mbi + 48.
Definition MBI_SIZE : Z := 52.
Definition mod_start (md : Z) : Z := md.
Definition mod_end (md : Z) : Z := md + 4.
Definition MODULE_SIZE : Z := 16.
Definition mm_size (mm : Z) : Z := mm.
Definition mm_base_addr_low (mm : Z) : Z := mm + 4.
Definition mm_base_addr_high (mm : Z) : Z := mm + 8.
Definition mm_length_low (mm : Z) : Z := mm + 12.
Definition mm_length_high (mm : Z) : Z := mm + 16.
Definition mm_type (mm : Z) : Z := mm + 20.

(** [printf], its result discarded. *)
Definition say (fmt args : list Z) : ST tty unit := _ ← printf fmt args; mret tt.

(** A 32-bit field. *)
Definition field (a : Z) : ST tty Z := gets (fun t => load32 (t_mem t) a).

(** The body of the loop over the modules. *)
Definition report_module (mod_count md : Z) : ST tty unit :=
  st ← field (mod_start md);
  say (bytes "Module %d loaded at address: 0x%#x" ++ [LF]) [mod_count; st] ;;
  en ← field (mod_end md);
  say (bytes "Module %d ends at address: 0x%#x" ++ [LF]) [mod_count; en] ;;
  say (bytes "First few bytes of module:" ++ [LF]) [] ;;
  for_range 0 16 (fun i =>
    st ← field (mod_start md);
    c ← gets (fun t => mget (t_mem t) (u32 (st + i)));
    say (bytes "0x%x ") [s8 c]) ;;
  say [LF] [].

Definition module_step (mbi : Z) (st : tty * Z * Z) : (tty * Z * Z) + res (unit * tty) :=
  let '(t, mod_count, md) := st in
  if mod_count <? load32 (t_mem t) (mbi_mods_count mbi) then
    match report_module mod_count md t with
    | Err e => inr (Err e)
    | Ok (_, t') => inl (t', u32 (mod_count + 1), u32 (md + MODULE_SIZE))
    end
  else inr (Ok (tt, t)).

(** The loop over the modules; the result is [fs_start]. *)
Definition report_modules (mbi : Z) : ST tty Z :=
  md ← field (mbi_mods_addr mbi);
  fs_start ← field (mod_start md);
  ((fun t => while (module_step mbi) (t, 0, md)) : ST tty unit) ;;
  mret fs_start.

(** The body of the loop over the memory map. *)
Definition report_range (mmap : Z) : ST tty unit :=
  size ← field (mm_size mmap);
  bh ← field (mm_base_addr_high mmap);
  bl ← field (mm_base_addr_low mmap);
  ty ← field (mm_type mmap);
  lh ← field (mm_length_high mmap);
  ll ← field (mm_length_low mmap);
  say (bytes " size = 0x%x,     base_addr = 0x%#x%#x" ++ [LF] ++
       bytes "     type = 0x%x,  length    = 0x%#x%#x" ++ [LF]) [size; bh; bl; ty; lh; ll].

Definition range_step (mbi : Z) (st : tty * Z) : (tty * Z) + res (unit * tty) :=
  let '(t, mmap) := st in
  if mmap <? u32 (load32 (t_mem t) (mbi_mmap_addr mbi)
                  + load32 (t_mem t) (mbi_mmap_length mbi)) then
    match report_range mmap t with
    | Err e => inr (Err e)
    | Ok (_, t') => inl (t', u32 (mmap + load32 (t_mem t') (mm_size mmap) + 4))
    end
  else inr (Ok (tt, t)).

Definition report_map (mbi : Z) : ST tty unit :=
  a ← field (mbi_mmap_addr mbi);
  n ← field (mbi_mmap_length mbi);
  say (bytes "mmap_addr = 0x%#x, mmap_length = 0x%x" ++ [LF]) [a; n] ;;
  ((fun t => while (range_step mbi) (t, a)) : ST tty unit).

(** [CHECK_FLAG (mbi->flags, bit)]. *)
Definition flag (mbi bit : Z) : ST tty bool :=
  flags ← field (mbi_flags mbi);
  mret (CHECK_FLAG flags bit).

Definition when_flag (mbi bit : Z) (body : ST tty unit) : ST tty unit :=
  f ← flag mbi bit;
  when f body.

Definition report_memory (mbi : Z) : ST tty unit :=
  lo ← field (mbi_mem_lower mbi);
  up ← field (mbi_mem_upper mbi);
  say (bytes "mem_lower = %uKB, mem_upper = %uKB" ++ [LF]) [lo; up].

Definition report_device (mbi : Z) : ST tty unit :=
  d ← field (mbi_boot_device mbi);
  say (bytes "boot_device = 0x%#x" ++ [LF]) [d].

Definition report_cmdline (mbi : Z) : ST tty unit :=
  c ← field (mbi_cmdline mbi);
  say (bytes "cmdline = %s" ++ [LF]) [c].

Definition report_elf (mbi : Z) : ST tty unit :=
  num ← field (mbi_elf_sec mbi);
  size ← field (mbi_elf_sec mbi + 4);
  addr ← field (mbi_elf_sec mbi + 8);
  shndx ← field (mbi_elf_sec mbi + 12);
  say (bytes "elf_sec: num = %u, size = 0x%#x, addr = 0x%#x, shndx = 0x%#x" ++ [LF])
    [num; size; addr; shndx].

(** The report, lines 46 to 119: [None] where [entry] returns, else
    [fs_start], which only the modules set. *)
Definition report (mbi : Z) : ST tty (option (option Z)) :=
  flags ← field (mbi_flags mbi);
  say (bytes "flags = 0x%#x" ++ [LF]) [flags] ;;
  when_flag mbi 0 (report_memory mbi) ;;
  when_flag mbi 1 (report_device mbi) ;;
  when_flag mbi 2 (report_cmdline mbi) ;;
  f3 ← flag mbi 3;
  fs_start ← (if (f3 : bool) then s ← report_modules mbi; mret (Some s) else mret None);
  f4 ← flag mbi 4;
  f5 ← flag mbi 5;
  if f4 && f5 then
    say (bytes "Both bits 4 and 5 are set." ++ [LF]) [] ;;
    mret None
  else
    when_flag mbi 5 (report_elf mbi) ;;
    when_flag mbi 6 (report_map mbi) ;;
    mret (Some fs_start).

(** *** Segment descriptors (x86_desc.h) *)

Record seg_desc := SegDesc {
  seg_lim_15_00 : Z;
  base_15_00 : Z;
  base_23_16 : Z;
  sd_type : Z;
  sd_sys : Z;
  sd_dpl : Z;
  sd_present : Z;
  seg_lim_19_16 : Z;
  sd_avail : Z;
  sd_reserved : Z;
  sd_opsize : Z;
  sd_granularity : Z;
  base_31_24 : Z;
}.

(** [SET_LDT_PARAMS] and [SET_TSS_PARAMS], which are the same. *)
Definition SET_PARAMS (d : seg_desc) (addr lim : Z) : seg_desc :=
  SegDesc (Z.land lim 65535) (Z.land addr 65535) (Z.shiftr (Z.land addr 16711680) 16)
    (sd_type d) (sd_sys d) (sd_dpl d) (sd_present d)
    (Z.shiftr (Z.land lim 983040) 16)
    (sd_avail d) (sd_reserved d) (sd_opsize d) (sd_granularity d)
    (Z.shiftr (Z.land addr 4278190080) 24).

(** The descriptors [entry] builds; a field it does not set before the macro
    sets it is 0 here. *)
Definition the_ldt_desc (ldt ldt_size : Z) : seg_desc :=
  SET_PARAMS (SegDesc 0 0 0 2 0 0 1 0 0 0 1 0 0) ldt ldt_size.
Definition the_tss_desc (tss tss_size : Z) : seg_desc :=
  SET_PARAMS (SegDesc (Z.land TSS_SIZE 65535) 0 0 9 0 0 1
    (Z.land (Z.land TSS_SIZE 983040) 15) 0 0 0 0 0) tss tss_size.

(** *** The machine at boot: the kernel, the IDT and the descriptors *)

Record computer := Computer {
  c_kernel : kernel;
  c_idt : list idt_desc;
  ldt_desc_ptr : seg_desc;   (** entries of the GDT *)
  tss_desc_ptr : seg_desc;
  tss_ldt_selector : Z;
  c_ldtr : Z;                (** loaded by lldt *)
  c_tr : Z;                  (** loaded by ltr *)
}.

(** Addresses and sizes the linker and x86_desc.S give. *)
Record linked := Linked {
  handler_at : handler -> Z;
  ldt_at : Z;
  ldt_size : Z;
  tss_at : Z;
  tss_size : Z;
}.

Definition on_kernel {A} (f : ST kernel A) : ST computer A := fun c =>
  match f (c_kernel c) with
  | Ok (a, k) => Ok (a, Computer k (c_idt c) (ldt_desc_ptr c) (tss_desc_ptr c)
                          (tss_ldt_selector c) (c_ldtr c) (c_tr c))
  | Err e => Err e
  end.

(** Lines 121 to 160. *)
Definition set_segments (lk : linked) (c : computer) : computer :=
  let k := set_tss_ss0 KERNEL_DS (c_kernel c) in
  let k := set_tss_esp0 8388608 k in
  Computer k (c_idt c) (the_ldt_desc (ldt_at lk) (ldt_size lk))
    (the_tss_desc (tss_at lk) (tss_size lk)) KERNEL_LDT KERNEL_LDT KERNEL_TSS.

(** Lines 171 to 184. *)
Definition init_devices (mouse_init : ST kernel unit) (prev : Z) : ST kernel unit :=
  i8259_init ;;
  keyboard_init ;;
  rtc_init prev ;;
  mouse_init ;;
  pit_init.

Inductive booted :=
  | Stopped             (** [entry] has returned *)
  | Spinning            (** the loop at its end *)
  | Shell (eip : Z).    (** user mode, in the first shell *)

(** Lines 189 to 196. *)
Definition first_terminal (lay : layout) (fr : frame) (shell : Z) : ST kernel (outcome unit) :=
  on_tty reset ;;
  ksti ;;
  terminal_init lay fr shell.

(** Lines 165 to 234. *)
Definition start_kernel (lay : layout) (fr : frame) (shell : Z) (mouse_init : ST kernel unit)
  (prev fs_start : Z) : ST kernel booted :=
  modify (init_paging lay) ;;
  modify (fun k => set_k_fs (init_filesys (kmem k) fs_start (k_fs k)) k) ;;
  init_devices mouse_init prev ;;
  m ← gets kmem;
  m' ← liftR (pcb_init m);
  modify (set_kmem m') ;;
  r ← first_terminal lay fr shell;
  match r with
  | UserMode eip => mret (Shell eip)
  | Returns _ => mret Spinning
  end.

(** Lines 46 to 234. *)
Definition boot (lk : linked) (lay : layout) (fr : frame) (shell : Z)
  (mouse_init : ST kernel unit) (prev addr : Z) : ST computer booted :=
  r ← on_kernel (on_tty (report addr));
  match r with
  | None => mret Stopped
  | Some fs_start =>
      modify (set_segments lk) ;;
      match fs_start with
      | None => fail Uninit
      | Some fs_start => on_kernel (start_kernel lay fr shell mouse_init prev fs_start)
      end
  end.

Definition kernel_entry (lk : linked) (lay : layout) (fr : frame) (shell : Z)
  (mouse_init : ST kernel unit) (prev magic addr : Z) : ST computer booted :=
  modify (fun c => Computer (c_kernel c) (_idt_set_all (handler_at lk) (c_idt c))
    (ldt_desc_ptr c) (tss_desc_ptr c) (tss_ldt_selector c) (c_ldtr c) (c_tr c)) ;;
  on_kernel (on_tty clear) ;;
  if negb (magic =? MULTIBOOT_BOOTLOADER_MAGIC) then
    on_kernel (on_tty (say (bytes "Invalid magic number: 0x%#x" ++ [LF]) [magic])) ;;
    mret Stopped
  else boot lk lay fr shell mouse_init prev addr.

(** ** The report *)

(** Printing from [s0] on. *)
Definition printed (s0 s : tty) : Prop := tty_wf s /\ prints s0 s.

Lemma printed_load32 s0 s a :
  printed s0 s -> (forall i, 0 <= i < 4 -> off_screen (a + i)) ->
  load32 (t_mem s) a = load32 (t_mem s0) a.
Proof.
  intros [_ Hp] Ha. apply load32_ext. intros b Hb.
  apply (pr_mem _ _ Hp). replace b with (a + (b - a)) by lia. apply Ha. lia.
Qed.

Lemma say_spec s0 s fmt args :
  printed s0 s -> fits (t_mem s) None fmt args ->
  wp (say fmt args) (fun _ => printed s0) s.
Proof.
  intros [Hwf Hp] Hf. unfold say. apply wp_bind. eapply wp_mono; [by apply printf_spec|].
  intros n s' [_ (t & _ & Hwf' & Hp' & _)]. apply wp_ret. split; [done | by etrans].
Qed.

(** Formats without strings. *)
Lemma say_numbers s0 s fmt args :
  printed s0 s -> numeric None fmt (List.length args) = true ->
  wp (say fmt args) (fun _ => printed s0) s.
Proof. intros Hp Hn. apply say_spec; [done | by apply numeric_fits]. Qed.

(** Straight-line reports: fields are read, lines are printed. *)
Ltac report_steps := repeat first
  [ apply wp_gets; cbv beta
  | match goal with
    | |- wp (field _) _ _ => unfold field at 1
    | |- wp (mbind _ (say _ _)) _ _ => apply wp_bind
    | |- wp (mbind _ _) _ _ => apply wp_bind
    | H : printed ?s0 ?s |- wp (say _ _) _ ?s =>
        eapply wp_mono; [apply (say_numbers s0 s _ _ H); reflexivity|];
        let s' := fresh "s" in let H' := fresh "Hs" in intros [] s' H'
    end ].

Lemma report_module_spec s0 s n md :
  printed s0 s -> wp (report_module n md) (fun _ => printed s0) s.
Proof.
  intros H. unfold report_module. report_steps.
  apply (wp_for (fun _ => printed s0)); [lia | done | |].
  - intros i s' _ Hs'. report_steps. done.
  - intros s' Hs'. report_steps. done.
Qed.

(** A memory map the loop over it gets through: it ends at [stop], without
    wrapping, and its sizes are not on the screen. *)
Inductive map_ok (m : mem) (stop : Z) : Z -> Prop :=
  | map_end a : stop <= a -> map_ok m stop a
  | map_range a : a < stop -> (forall i, 0 <= i < 4 -> off_screen (a + i)) ->
      a + load32 m a + 4 < 4294967296 -> map_ok m stop (a + load32 m a + 4) ->
      map_ok m stop a.

Section Report.
Context (s0 : tty) (mbi : Z).
Local Abbreviation m := (t_mem s0).
Context (Hplace : forall i, 0 <= i < 52 -> off_screen (mbi + i)).

Lemma field_same s d :
  printed s0 s -> 0 <= d <= 48 -> load32 (t_mem s) (mbi + d) = load32 m (mbi + d).
Proof.
  intros Hs Hd. apply printed_load32; [done|]. intros i Hi.
  replace (mbi + d + i) with (mbi + (d + i)) by lia. apply Hplace. lia.
Qed.

Lemma flags_same s : printed s0 s -> load32 (t_mem s) mbi = load32 m mbi.
Proof. intros Hs. rewrite <- (Z.add_0_r mbi). apply field_same; [done | lia]. Qed.

Lemma flag_spec s bit :
  printed s0 s -> flag mbi bit s = Ok (CHECK_FLAG (load32 m mbi) bit, s).
Proof. intros Hs. rewrite <- (flags_same s Hs). done. Qed.

Lemma when_flag_spec s bit body :
  printed s0 s ->
  (CHECK_FLAG (load32 m mbi) bit = true -> wp body (fun _ => printed s0) s) ->
  wp (when_flag mbi bit body) (fun _ => printed s0) s.
Proof.
  intros Hs Hb. unfold when_flag. apply wp_bind.
  eapply wp_ok; [by apply flag_spec|].
  unfold when. destruct (CHECK_FLAG _ _); [by apply Hb | by apply wp_ret].
Qed.

(** The loop over the modules ends after [mods_count] of them. *)
Lemma report_modules_loop s md :
  printed s0 s ->
  wp (fun t => while (module_step mbi) (t, 0, md)) (fun _ => printed s0) s.
Proof.
  intros Hs. set (n := load32 m (mbi + 20)).
  pose proof (load32_range m (mbi + 20)) as Hn. fold n in Hn.
  apply (while_rule (module_step mbi)
    (fun st => printed s0 (fst (fst st)) /\ 0 <= snd (fst st) <= n)
    (fun st => n - snd (fst st))
    (fun r => match r with Ok (_, t) => printed s0 t | Err _ => False end));
    [cbn; split; [done | lia] | cbn; lia |].
  intros [[t c] d] [Ht Hc]. cbn [fst snd] in *. unfold module_step, mbi_mods_count.
  rewrite (field_same t 20 Ht) by lia. fold n.
  destruct (Z.ltb_spec c n) as [Hlt|]; [|done].
  destruct (wp_inv _ _ _ (report_module_spec s0 t c d Ht)) as ([] & t' & -> & Ht').
  cbn [fst snd]. rewrite u32_small by lia. split; [split; [done | lia] | lia].
Qed.

Lemma report_range_spec s a : printed s0 s -> wp (report_range a) (fun _ => printed s0) s.
Proof. intros H. unfold report_range. report_steps. done. Qed.

Lemma report_map_loop s a :
  let stop := u32 (load32 m (mbi + 48) + load32 m (mbi + 44)) in
  printed s0 s -> 0 <= a -> map_ok m stop a ->
  wp (fun t => while (range_step mbi) (t, a)) (fun _ => printed s0) s.
Proof.
  intros stop Hs Ha Hok. pose proof (u32_range (load32 m (mbi + 48) + load32 m (mbi + 44))) as Hr.
  fold stop in Hr.
  apply (while_rule (range_step mbi)
    (fun st => printed s0 (fst st) /\ 0 <= snd st /\ map_ok m stop (snd st))
    (fun st => Z.max 0 (stop - snd st))
    (fun r => match r with Ok (_, t) => printed s0 t | Err _ => False end));
    [done | cbn; lia |].
  intros [t d] (Ht & Hd & Hm). cbn [fst snd] in *.
  unfold range_step, mbi_mmap_addr, mbi_mmap_length.
  rewrite (field_same t 48 Ht), (field_same t 44 Ht) by lia. fold stop.
  destruct (Z.ltb_spec d stop) as [Hlt|]; [|done].
  destruct Hm as [|d _ Hoff Hw Hm]; [lia|].
  destruct (wp_inv _ _ _ (report_range_spec t d Ht)) as ([] & t' & -> & Ht').
  unfold mm_size. rewrite (printed_load32 _ _ _ Ht' Hoff).
  pose proof (load32_range m d). cbn [fst snd].
  rewrite u32_small by lia. split_and!; done || lia.
Qed.

(** The information a boot loader passes: nothing of it that is read after
    a line has been printed is on the screen. *)
Record mbi_ok : Prop := {
  mb_cmdline : CHECK_FLAG (load32 m mbi) 2 = true ->
    good_string m (load32 m (mbi + 16));
  mb_module : CHECK_FLAG (load32 m mbi) 3 = true ->
    forall i, 0 <= i < 4 -> off_screen (load32 m (mbi + 24) + i);
  mb_map : CHECK_FLAG (load32 m mbi) 6 = true ->
    map_ok m (u32 (load32 m (mbi + 48) + load32 m (mbi + 44))) (load32 m (mbi + 48));
}.

(** What [report] finds: the start of the first module. *)
Definition found_module : option Z :=
  if CHECK_FLAG (load32 m mbi) 3 then Some (load32 m (load32 m (mbi + 24))) else None.

Lemma cmdline_spec s :
  printed s0 s -> good_string m (load32 m (mbi + 16)) ->
  wp (report_cmdline mbi) (fun _ => printed s0) s.
Proof.
  intros Hs (l & Hl & Hlen & Hoff). unfold report_cmdline, field, mbi_cmdline. wsteps.
  apply say_spec; [done|]. rewrite (field_same s 16 Hs) by lia.
  pose proof (load32_range m (mbi + 16)).
  cbn. split; [|done]. intros _. rewrite u32_small by lia. exists l.
  split; [|done]. eapply cstr_ext; [|exact Hl]. intros b Hb.
  symmetry. apply (pr_mem _ _ (proj2 Hs)).
  replace b with (load32 m (mbi + 16) + (b - load32 m (mbi + 16))) by lia. apply Hoff. lia.
Qed.

Lemma modules_spec s :
  printed s0 s -> mbi_ok -> CHECK_FLAG (load32 m mbi) 3 = true ->
  wp (report_modules mbi) (fun r s' => r = load32 m (load32 m (mbi + 24)) /\ printed s0 s') s.
Proof.
  intros Hs [_ Hm _] Hf. unfold report_modules, field, mod_start, mbi_mods_addr. wsteps.
  rewrite (field_same s 24 Hs) by lia. rewrite (printed_load32 s0 s _ Hs (Hm Hf)).
  eapply wp_mono; [by apply report_modules_loop|]. intros [] s' Hs'. by apply wp_ret.
Qed.

Lemma map_spec s :
  printed s0 s -> mbi_ok -> CHECK_FLAG (load32 m mbi) 6 = true ->
  wp (report_map mbi) (fun _ => printed s0) s.
Proof.
  intros Hs [_ _ Hm] Hf. unfold report_map, mbi_mmap_addr, mbi_mmap_length.
  apply wp_bind. unfold field at 1. apply wp_gets. rewrite (field_same s 48 Hs) by lia.
  report_steps. apply report_map_loop; [done | apply load32_range | by apply Hm].
Qed.

Lemma report_spec :
  tty_wf s0 -> mbi_ok ->
  wp (report mbi) (fun r s => printed s0 s /\
    r = if CHECK_FLAG (load32 m mbi) 4 && CHECK_FLAG (load32 m mbi) 5 then None
        else Some found_module) s0.
Proof.
  intros Hwf Hok. assert (H0 : printed s0 s0) by by split.
  unfold report. report_steps.
  eapply wp_mono; [apply when_flag_spec; [done|]; intros _; unfold report_memory; report_steps; done|].
  intros [] s1 H1. apply wp_bind.
  eapply wp_mono; [apply when_flag_spec; [done|]; intros _; unfold report_device; report_steps; done|].
  intros [] s2 H2. apply wp_bind.
  eapply wp_mono; [apply when_flag_spec; [done|]; intros Hf; by apply cmdline_spec, Hok|].
  intros [] s3 H3. apply wp_bind. eapply wp_ok; [by apply flag_spec|]. apply wp_bind.
  apply (wp_mono _ (fun r s => r = found_module /\ printed s0 s)).
  { unfold found_module. destruct (CHECK_FLAG (load32 m mbi) 3) eqn:E; [|by apply wp_ret].
    apply wp_bind. eapply wp_mono; [by apply modules_spec|].
    intros r t [-> Ht]. by apply wp_ret. }
  intros r s4 [-> H4]. apply wp_bind. eapply wp_ok; [by apply flag_spec|].
  apply wp_bind. eapply wp_ok; [by apply flag_spec|].
  destruct (CHECK_FLAG (load32 m mbi) 4 && CHECK_FLAG (load32 m mbi) 5).
  - report_steps. by apply wp_ret.
  - apply wp_bind.
    eapply wp_mono; [apply when_flag_spec; [done|]; intros _; unfold report_elf; report_steps; done|].
    intros [] s5 H5. apply wp_bind.
    eapply wp_mono; [apply when_flag_spec; [done|]; intros Hf; by apply map_spec|].
    intros [] s6 H6. by apply wp_ret.
Qed.

End Report.

(** ** The interface of a driver *)

(** No modifier key is down, and the console is in its normal mode. *)
Definition keys_off (t : tty) : Prop :=
  cap_flag t = 0 /\ shift_flag t = 0 /\ control_flag t = 0 /\ alt_flag t = 0 /\
  enter_flag t = 0 /\ cross_enter_flag t = 0.

#[export] Instance quiet_keys : Quiet keys_off.
Proof. by constructor. Qed.

(** What initialising a device leaves of the kernel; port accesses are only
    added. *)
Record device_frame (k k' : kernel) : Prop := {
  df_trace : k_trace k `prefix_of` k_trace k';
  df_keys : keys_off (k_tty k) -> keys_off (k_tty k');
  df_mem : kmem k' = kmem k;
  df_tty : tty_wf (k_tty k) -> tty_wf (k_tty k');
  df_dir : page_dir k' = page_dir k;
  df_tab : page_tab k' = page_tab k;
  df_fs : k_fs k' = k_fs k;
  df_bitmap : task_bitmap k' = task_bitmap k;
  df_pos : curr_task_pos k' = curr_task_pos k;
  df_running : runn_task_num k' = runn_task_num k;
  df_terms : terminal_array k' = terminal_array k;
}.

#[export] Instance device_frame_refl : Reflexive device_frame.
Proof. intros k. by constructor. Qed.

#[export] Instance device_frame_trans : Transitive device_frame.
Proof.
  intros k1 k2 k3 [] []. constructor; try (by etrans; eassumption); auto.
Qed.

Lemma pic_frame_device k k' : pic_frame k k' -> device_frame k k'.
Proof.
  intros [l ->]. constructor; try reflexivity; [by exists l | done | intros []; by constructor].
Qed.

Lemma emit_device l k : device_frame k (emit l k).
Proof. constructor; try reflexivity; [by exists l | done | intros []; by constructor]. Qed.

(** A driver whose initialisation unmasks [lines] and no other line. *)
Class Device (init : ST kernel unit) (lines : list Z) : Prop :=
  device_init : forall k, pic_sync k ->
    wp init (fun _ k' => pic_sync k' /\ device_frame k k' /\
      forall i, 0 <= i < 16 ->
        irq_masked k' i = if decide (i ∈ lines) then false else irq_masked k i) k.

Lemma device_seq d1 d2 l1 l2 :
  Device d1 l1 -> Device d2 l2 -> Device (d1 ;; d2) (l1 ++ l2).
Proof.
  intros H1 H2 k Hk. apply wp_bind. eapply wp_mono; [by apply H1|].
  intros [] k1 (S1 & F1 & M1). eapply wp_mono; [by apply H2|].
  intros [] k2 (S2 & F2 & M2). split_and!; [done | by etrans|].
  intros i Hi. rewrite M2, M1 by done.
  destruct (decide (i ∈ l1 ++ l2)) as [H|H]; rewrite elem_of_app in H; repeat case_decide; done || tauto.
Qed.

Lemma device_enable n : 0 <= n < 16 -> Device (enable_irq n) [n].
Proof.
  intros Hn k Hk. eapply wp_mono; [by apply enable_irq_spec|].
  intros [] k' (S & F & M). split_and!; [done | by apply pic_frame_device|].
  intros i Hi. rewrite M by done. 
  destruct (decide (i ∈ [n])) as [H|H]; rewrite list_elem_of_singleton in H;
    destruct (Z.eqb_spec i n); done.
Qed.

Lemma last_out_quiet port tr l :
  port = 33 \/ port = 161 -> forallb off_masks l = true ->
  last_out port (tr ++ l) = last_out port tr.
Proof.
  intros Hp. revert tr. induction l as [|e l IH]; intros tr; cbn; [by rewrite app_nil_r|].
  rewrite andb_true_iff. intros [He Hl].
  replace (tr ++ e :: l) with ((tr ++ [e]) ++ l) by by rewrite <- app_assoc.
  rewrite IH by done. destruct e as [v p|p v]; cbn in He.
  - rewrite last_out_snoc. destruct (Z.eqb_spec p port) as [->|]; [|done].
    by destruct Hp as [-> | ->].
  - clear. induction tr as [|[]]; cbn; [done | by rewrite IHtr | by rewrite IHtr].
Qed.

Lemma emit_sync l k : forallb off_masks l = true -> pic_sync k -> pic_sync (emit l k).
Proof.
  intros Hl [H1 H2 H3 H4]. constructor; [done | done | |];
    rewrite trace_emit, last_out_quiet by auto; done.
Qed.

Lemma device_emit l d lines :
  forallb off_masks l = true -> Device d lines ->
  forall k, pic_sync k ->
    wp d (fun _ k' => pic_sync k' /\ device_frame k k' /\
      forall i, 0 <= i < 16 ->
        irq_masked k' i = if decide (i ∈ lines) then false else irq_masked k i) (emit l k).
Proof.
  intros Hl Hd k Hk. eapply wp_mono; [apply Hd; by apply emit_sync|].
  intros [] k' (S & F & M). split_and!; [done | etrans; [apply emit_device | done] | done].
Qed.

#[export] Instance device_keyboard : Device keyboard_init [1].
Proof.
  intros k Hk. unfold keyboard_init. apply wp_bind.
  eapply wp_mono; [by apply (device_enable 1 ltac:(lia))|].
  intros [] k1 (S & F & M). apply wp_on_tty. wsteps. split_and!.
  - by destruct S.
  - etrans; [exact F|]. constructor; try reflexivity; [done|]. intros [Wc Wt Wk Wp Wr].
    constructor; cbn; try done.
    + by rewrite zero_array, length_replicate.
    + by rewrite zero_array, length_replicate.
  - exact M.
Qed.

#[export] Instance device_rtc prev : Device (rtc_init prev) [8; 2].
Proof.
  intros k Hk. unfold rtc_init, wp.
  rewrite koutb_bind, kinb_bind, koutb_bind, koutb_bind, !emit_emit.
  apply (device_emit _ (enable_irq RTCIRQ8 ;; enable_irq RTCIRQ2) [8; 2]); [done | | done].
  apply (device_seq _ _ [8] [2]); apply device_enable; unfold RTCIRQ8, RTCIRQ2; lia.
Qed.

#[export] Instance device_pit : Device pit_init [0].
Proof.
  intros k Hk. unfold pit_init. cbv zeta. apply wp_bind.
  eapply wp_mono; [by apply (device_enable 0 ltac:(lia))|].
  intros [] k1 (S & F & M). unfold wp. rewrite koutb_bind, koutb_bind.
  change (koutb ?v ?p ?x) with (Ok (tt, emit [Out (u8 v) p] x)). rewrite !emit_emit.
  split_and!; [by apply emit_sync | etrans; [exact F | apply emit_device] | exact M].
Qed.

(** The devices of [entry], in its order, with any mouse driver. *)
Lemma init_devices_spec mouse_init mouse_lines prev k :
  Device mouse_init mouse_lines -> 0 <= master_mask k < 256 -> 0 <= slave_mask k < 256 ->
  wp (init_devices mouse_init prev) (fun _ k' => pic_sync k' /\ device_frame k k' /\
    forall i, 0 <= i < 16 ->
      irq_masked k' i = if decide (i ∈ [1] ++ [8; 2] ++ mouse_lines ++ [0]) then false
                        else irq_masked k i) k.
Proof.
  intros Hd H1 H2. unfold init_devices. apply wp_bind.
  eapply wp_mono; [by apply i8259_init_spec|]. intros [] k1 (S & F & Hm & Hs).
  assert (D : Device (keyboard_init ;; rtc_init prev ;; mouse_init ;; pit_init)
    ([1] ++ [8; 2] ++ mouse_lines ++ [0])).
  { exact (device_seq keyboard_init (rtc_init prev ;; mouse_init ;; pit_init) [1]
      ([8; 2] ++ mouse_lines ++ [0]) device_keyboard
      (device_seq (rtc_init prev) (mouse_init ;; pit_init) [8; 2] (mouse_lines ++ [0])
        (device_rtc prev) (device_seq mouse_init pit_init mouse_lines [0] Hd device_pit))). }
  eapply wp_mono; [exact (D k1 S)|]. intros [] k2 (S2 & F2 & M2).
  split_and!; [done | etrans; [by apply pic_frame_device | done]|].
  intros i Hi. rewrite M2 by done. unfold irq_masked. by rewrite Hm, Hs.
Qed.

(** *** What the devices are told *)

Lemma enable_master n k :
  0 <= n < 8 -> let m := u8 (Z.land (master_mask k) (Z.lnot (2 ^ n))) in
  enable_irq n k = Ok (tt, emit [Out m 33] (set_master_mask m k)).
Proof.
  intros Hn m. unfold enable_irq, IRQMAX, IRQMID.
  replace ((15 <? n) || (n <? 0)) with false by lia. rewrite (proj2 (Z.ltb_lt n 8)) by lia.
  rewrite maskbit_spec by lia. do 2 bstep. fold m.
  change (koutb ?v ?p ?x) with (Ok (tt, emit [Out (u8 v) p] x)).
  change (master_mask (set_master_mask m k)) with m. unfold m. by rewrite u8_u8.
Qed.

Lemma enable_slave n k :
  8 <= n < 16 -> let m := u8 (Z.land (slave_mask k) (Z.lnot (2 ^ (n - 8)))) in
  enable_irq n k = Ok (tt, emit [Out m 161] (set_slave_mask m k)).
Proof.
  intros Hn m. unfold enable_irq, IRQMAX, IRQMID.
  replace ((15 <? n) || (n <? 0)) with false by lia. rewrite (proj2 (Z.ltb_ge n 8)) by lia.
  rewrite maskbit_spec by lia. do 2 bstep. fold m.
  change (koutb ?v ?p ?x) with (Ok (tt, emit [Out (u8 v) p] x)).
  change (slave_mask (set_slave_mask m k)) with m. unfold m. by rewrite u8_u8.
Qed.

(** The commands to the two interrupt controllers, with all lines masked. *)
Definition pic_ports : list io :=
  [Out 255 33; Out 255 161; Out 17 32; Out 17 160; Out 32 33; Out 40 161; Out 4 33; Out 2 161;
   Out 1 33; Out 1 161; Out 255 33; Out 255 161].

(** Register B of the clock, of which [prev] is read, gets its bit 6, the
    periodic interrupt; the masks open lines 8 and 2. *)
Definition rtc_ports (prev : Z) : list io :=
  [Out 139 112; In 113 (u8 prev); Out 139 112; Out (u8 (Z.lor (u8 prev) 64)) 113;
   Out 254 161; Out 249 33].

(** The mask [m], then the mode and the divider of the timer. *)
Definition pit_ports (m : Z) : list io := [Out m 33; Out 54 67; Out 1 64; Out 93 64].

Lemma keyboard_told k :
  master_mask k = 255 -> wp keyboard_init (fun _ k' =>
    k_trace k' = k_trace k ++ [Out 253 33] /\ master_mask k' = 253 /\
    slave_mask k' = slave_mask k /\ keys_off (k_tty k')) k.
Proof.
  intros Hm. unfold keyboard_init. apply wp_bind. eapply wp_ok; [by apply (enable_master 1)|].
  rewrite Hm. apply wp_on_tty. wsteps. by split_and!.
Qed.

Lemma rtc_told prev k :
  master_mask k = 253 -> slave_mask k = 255 ->
  wp (rtc_init prev) (fun _ k' => k_trace k' = k_trace k ++ rtc_ports prev) k.
Proof.
  intros Hm Hs. unfold rtc_init, wp.
  rewrite koutb_bind, kinb_bind, koutb_bind, koutb_bind, !emit_emit. set (l := _ ++ _).
  rewrite (bind_ok _ _ _ _ _ (enable_slave RTCIRQ8 (emit l k) ltac:(unfold RTCIRQ8; lia))).
  rewrite enable_master by (unfold RTCIRQ2; lia).
  change (slave_mask (emit l k)) with (slave_mask k). rewrite Hs. set (v := u8 (Z.land 255 _)).
  change (master_mask (emit [Out v 161] (set_slave_mask v (emit l k)))) with (master_mask k). rewrite Hm.
  change (k_trace (emit ?a (set_master_mask ?m ?x))) with (k_trace x ++ a). rewrite trace_emit.
  change (k_trace (set_slave_mask ?m ?x)) with (k_trace x). rewrite trace_emit, <- !app_assoc. done.
Qed.

Lemma pit_told k :
  exists m, wp pit_init (fun _ k' => k_trace k' = k_trace k ++ pit_ports m) k.
Proof.
  eexists. unfold pit_init. cbv zeta. apply wp_bind. eapply wp_ok; [by apply enable_master|].
  unfold wp. rewrite !koutb_bind. change (koutb ?v ?p ?x) with (Ok (tt, emit [Out (u8 v) p] x)).
  rewrite !emit_emit. rewrite trace_emit. reflexivity.
Qed.

(** All port accesses of [init_devices], from masked lines; [tm] are those of
    the mouse driver. *)
Lemma init_devices_told mouse_init mouse_lines prev k :
  Device mouse_init mouse_lines -> master_mask k = 255 -> slave_mask k = 255 ->
  wp (init_devices mouse_init prev) (fun _ k' => keys_off (k_tty k') /\ exists tm m,
    k_trace k' = k_trace k ++ pic_ports ++ [Out 253 33] ++ rtc_ports prev ++ tm ++ pit_ports m) k.
Proof.
  intros Hd Hm Hs. unfold init_devices. apply wp_bind.
  assert (E : i8259_init k = Ok (tt, emit pic_ports k)).
  { unfold i8259_init. rewrite !koutb_bind, !emit_emit. bstep.
    change (master_mask (emit ?l k)) with (master_mask k). rewrite Hm, koutb_bind, emit_emit. bstep.
    change (slave_mask (emit ?l k)) with (slave_mask k). rewrite Hs.
    change (koutb ?v ?p ?x) with (Ok (tt, emit [Out (u8 v) p] x)). by rewrite emit_emit. }
  destruct (wp_inv _ _ _ (i8259_init_spec k ltac:(lia) ltac:(lia))) as ([] & k0 & E0 & S0 & _).
  rewrite E in E0. injection E0 as <-. eapply wp_ok; [exact E|].
  apply wp_bind. destruct (wp_inv _ _ _ (keyboard_told (emit pic_ports k) Hm))
    as ([] & k1 & R1 & T1 & M1 & N1 & K1).
  destruct (wp_inv _ _ _ (device_keyboard _ S0)) as ([] & k1' & R1' & S1 & _).
  rewrite R1 in R1'. injection R1' as <-. eapply wp_ok; [exact R1|].
  apply wp_bind. destruct (wp_inv _ _ _ (rtc_told prev k1 M1 ltac:(rewrite N1; exact Hs)))
    as ([] & k2 & R2 & T2).
  destruct (wp_inv _ _ _ (device_rtc prev _ S1)) as ([] & k2' & R2' & S2 & F2 & _).
  rewrite R2 in R2'. injection R2' as <-. eapply wp_ok; [exact R2|].
  apply wp_bind. eapply wp_mono; [by apply Hd|]. intros [] k3 (S3 & F3 & _).
  destruct (df_trace _ _ F3) as [tm T3]. destruct (pit_told k3) as [m H4].
  destruct (wp_inv _ _ _ H4) as ([] & k4 & R4 & T4).
  destruct (wp_inv _ _ _ (device_pit _ S3)) as ([] & k4' & R4' & _ & F4 & _).
  rewrite R4 in R4'. injection R4' as <-. eapply wp_ok; [exact R4|]. split.
  - by apply (df_keys _ _ F4), (df_keys _ _ F3), (df_keys _ _ F2).
  - exists tm, m. rewrite T4, T3, T2, T1, trace_emit. by rewrite <- !app_assoc.
Qed.

(** The devices once the kernel is up: exactly the lines of the timer, the
    keyboard, the second controller, the clock and the mouse are open, at the
    controllers too; the controllers, the keyboard's line, the clock and the
    timer have got their commands in this order; no key is held. *)
Record devices_on (prev : Z) (mouse_lines : list Z) (k : kernel) : Prop := {
  dv_sync : pic_sync k;
  dv_lines : forall i, 0 <= i < 16 ->
    irq_masked k i = bool_decide (i ∉ [0; 1; 2; 8] ++ mouse_lines);
  dv_ports : exists t0 tm m t1, k_trace k =
    t0 ++ pic_ports ++ [Out 253 33] ++ rtc_ports prev ++ tm ++ pit_ports m ++ t1;
  dv_keys : keys_off (k_tty k);
}.

Lemma all_masked k i :
  master_mask k = 255 -> slave_mask k = 255 -> 0 <= i < 16 -> irq_masked k i = true.
Proof.
  intros H1 H2 Hi. unfold irq_masked. rewrite H1, H2. change 255 with (Z.ones 8).
  destruct (Z.ltb_spec i 8); rewrite Z.testbit_ones by lia; lia.
Qed.

Lemma init_devices_on mouse_init mouse_lines prev k :
  Device mouse_init mouse_lines -> master_mask k = 255 -> slave_mask k = 255 ->
  wp (init_devices mouse_init prev)
    (fun _ k' => device_frame k k' /\ devices_on prev mouse_lines k') k.
Proof.
  intros Hd H1 H2.
  destruct (wp_inv _ _ _ (init_devices_spec mouse_init mouse_lines prev k Hd ltac:(lia) ltac:(lia)))
    as ([] & k' & Hrun & Hs & Hf & Hm).
  destruct (wp_inv _ _ _ (init_devices_told mouse_init mouse_lines prev k Hd H1 H2))
    as ([] & k2 & Hrun2 & Hk & tm & m & Ht).
  rewrite Hrun in Hrun2. injection Hrun2 as <-. eapply wp_ok; [exact Hrun|]. split; [exact Hf|].
  constructor; [exact Hs | | | exact Hk].
  - intros i Hi. rewrite Hm, (all_masked k i H1 H2 Hi) by done. destruct (decide _) as [H|H]; symmetry;
      rewrite ?bool_decide_eq_false, ?bool_decide_eq_true;
      rewrite !elem_of_app, !elem_of_cons in H; rewrite elem_of_app, !elem_of_cons; tauto.
  - exists (k_trace k), tm, m, []. by rewrite app_nil_r.
Qed.

(** Code that leaves masks, keys and the mask registers alone. *)
Lemma devices_stay prev mouse_lines {A} (c : ST kernel A) k a k' :
  (forall T, Quiet T -> ok (quiet_kernel T (master_mask k) (slave_mask k)) c any) ->
  devices_on prev mouse_lines k -> c k = Ok (a, k') -> devices_on prev mouse_lines k'.
Proof.
  intros Hc [[Rm Rs Lm Ls] Hl (t0 & tm & m & t1 & Ht) Hk] Hrun.
  assert (H0 : forall T, Quiet T -> T (k_tty k) -> quiet_kernel T (master_mask k) (slave_mask k) k')
    by (intros T HT Ht0; exact (ok_state _ _ _ _ _ _ (Hc T HT) (conj Ht0 (conj eq_refl eq_refl)) Hrun)).
  destruct (H0 (traced (k_trace k)) _ ltac:(exists []; by rewrite app_nil_r)) as ((l & El & Hq) & M & S).
  destruct (H0 keys_off _ Hk) as (Hk' & _).
  change (t_trace (k_tty k')) with (k_trace k') in El. constructor.
  - constructor; rewrite ?M, ?S, ?El, ?last_out_quiet by auto; done.
  - intros i Hi. rewrite <- Hl by done. unfold irq_masked. by rewrite M, S.
  - exists t0, tm, m, (t1 ++ l). rewrite El, Ht. by rewrite <- !app_assoc.
  - exact Hk'.
Qed.

(** ** From the file system image to the first shell *)

(** The module the boot loader has put at [start] is a file system image
    with a shell of contents [content]. *)
Record boots (lay : layout) (fr : frame) (shell start : Z) (content : list Z)
  (m : mem) (fs : fsvars) : Prop := {
  bs_image : exists NI NB dir i e,
    world lay (init_filesys m start fs) m start NI NB dir /\
    abs_lookup dir (bytes "shell") = Some i /\ dir !! Z.to_nat i = Some e /\
    file_ok m (init_filesys m start fs) NI NB (e_inode e) /\
    content = file_content m (init_filesys m start fs) (e_inode e);
  bs_size : 30 <= zlen content <= 3899392;
  bs_elf : take 4 content = elf_magic;
  bs_layout : layout_ok lay;
  bs_frame : frame_ok fr 0;
  bs_local : pcb_at 0 + 520 <= shell /\ shell + 100 <= pcb_at 0 + 8192;
}.

Lemma boots_same lay fr shell start content m m' fs :
  boots lay fr shell start content m fs -> kernel_same m m' ->
  boots lay fr shell start content m' fs /\ init_filesys m' start fs = init_filesys m start fs.
Proof.
  intros [Himg B2 B3 B4 B5 B6] Hs.
  destruct Himg as (NI & NB & dir & i & e & Hw & Hlk & He & Hf & Hc).
  assert (Hfs : init_filesys m' start fs = init_filesys m start fs).
  { unfold init_filesys, BLK_SIZE. destruct Hw as [_ [? ?] [? Hend] _ _ _].
    unfold image_end in Hend.
    rewrite (load32_ext m' m (start + 4)); [done|]. intros b Hb. apply Hs. lia. }
  split; [|exact Hfs]. constructor; try done. rewrite Hfs.
  destruct (file_kernel _ _ _ m' _ _ _ _ _ Hw Hf Hs) as (Hf' & _ & Hc').
  exists NI, NB, dir, i, e. rewrite Hc'.
  split_and!; [by eapply world_same | done | done | done | done].
Qed.

Lemma screen_low b : 4194304 <= b -> off_screen b.
Proof. unfold off_screen, VIDEO. lia. Qed.

Lemma pcb_init_low m m' :
  pcb_init m = Ok m' -> kernel_same m m'.
Proof.
  intros H b Hb. destruct (pcb_init_spec m) as (m2 & H2 & _ & Hs). rewrite H in H2.
  injection H2 as <-. apply Hs. intros pos Hp. left.
  unfold pcb_at, EIGHTMB, EIGHTKB in *. lia.
Qed.

(** The data of the kernel when [entry] is called. *)
Record cold (k : kernel) : Prop := {
  co_tty : tty_wf (k_tty k);
  co_dir : zlen (page_dir k) = 1024;
  co_tab : zlen (page_tab k) = 1024;
  co_master : master_mask k = 255;
  co_slave : slave_mask k = 255;
  co_bitmap : task_bitmap k = replicate 6 0;
  co_pos : curr_task_pos k = 0;
  co_running : runn_task_num k = 0;
  co_terms : zlen (terminal_array k) = 3;
  co_wf : Forall (fun ti => ter_wf ti /\ zlen (screen_buffer ti) = 4096) (terminal_array k);
}.

(** Clearing one entry of [terminal_array] disturbs nothing else. *)
Lemma ready_terms lay fr sp shell pos content tis k :
  shell_ready lay fr sp shell pos content k ->
  shell_ready lay fr sp shell pos content (set_terminal_array tis k).
Proof. intros []. by constructor. Qed.

Lemma tasks_terms tis k : tasks_same k (set_terminal_array tis k).
Proof. by constructor. Qed.

Definition boot_terms (k : kernel) : Prop :=
  zlen (terminal_array k) = 3 /\
  Forall (fun ti => ter_wf ti /\ zlen (screen_buffer ti) = 4096) (terminal_array k).

Lemma clear_entry i k :
  boot_terms k -> 0 <= i < 3 ->
  wp (tis ← gets terminal_array;
      ti ← liftR (aget tis i);
      tis' ← liftR (aset tis i (clear_terminal i ti));
      modify (set_terminal_array tis'))
    (fun _ k' => exists tis, k' = set_terminal_array tis k /\ boot_terms k') k.
Proof.
  intros [Hl Hf] Hi. wsteps. eapply wp_liftR; [apply (aget_ok no_term); lia|].
  apply wp_bind. eapply wp_liftR; [apply aset_ok; lia|]. apply wp_modify.
  assert (Hti : ter_wf (anth no_term (terminal_array k) i) /\
    zlen (screen_buffer (anth no_term (terminal_array k) i)) = 4096).
  { rewrite Forall_forall in Hf. apply Hf. unfold anth.
    apply list_elem_of_In, nth_In. lia. }
  destruct Hti as [Hw Hb]. eexists. split; [reflexivity|]. split.
  - cbn [terminal_array set_terminal_array]. rewrite length_insert. exact Hl.
  - cbn [terminal_array set_terminal_array]. apply Forall_insert; [exact Hf|].
    rewrite clear_terminal_spec by done. split; [by constructor | done].
Qed.

Lemma terminal_init_enters lay fr shell task content k :
  tty_wf (k_tty k) -> boot_terms k -> dir_ok lay (page_dir k) task -> tab_ok (page_tab k) ->
  shell_ready lay fr 0 shell 0 content k ->
  wp (terminal_init lay fr shell) (fun r k' => r = UserMode (elf_entry content) /\
    exists k1, tasks_same k k1 /\ shell_started lay 0 0 content k1 k') k.
Proof.
  intros Ht Hb Hd Hp Hr. unfold terminal_init. apply wp_bind, wp_modify, wp_bind.
  apply (wp_for (fun _ k1 => exists tis,
    k1 = set_terminal_array tis (set_current_terminal_idx 0 k) /\ boot_terms k1)); [done | | |].
  - exists (terminal_array k). split; [by destruct k | exact Hb].
  - intros i k1 Hi (tis & -> & Hk1). eapply wp_mono; [apply clear_entry; [exact Hk1|]|].
    + unfold MAX_TER_INDEX in Hi. lia.
    + intros [] k2 (tis2 & -> & Hk2). exists tis2. split; [reflexivity | exact Hk2].
  - intros k1 (tis & -> & [Hl Hf]).
    eapply wp_mono; [apply (terminal_boot_enters lay fr 0 shell _ 0 0 task 0 content)|].
    + constructor; [exact Ht | reflexivity | lia | exact Hl | | exact Hd | exact Hp].
      eapply Forall_impl; [exact Hf|]. intros ti [H _]. exact H.
    + lia.
    + apply ready_terms. destruct Hr. by constructor.
    + intros r k' [-> Hs]. split; [reflexivity|]. eexists. split; [|exact Hs].
      etrans; [|apply tasks_terms]. by constructor.
Qed.

(** The kernel once the first shell runs. *)
Record up (lay : layout) (content : list Z) (k : kernel) : Prop := {
  up_bitmap : task_bitmap k = [1; 0; 0; 0; 0; 0];
  up_pos : curr_task_pos k = 0;
  up_running : runn_task_num k = 1;
  up_dir : dir_ok lay (page_dir k) (Some 0);
  up_tab : tab_ok (page_tab k);
  up_mmu : mmu_sync k;
  up_esp0 : tss_esp0 k = 8388604;
  up_image : mbytes (kmem k) (load_at 0) (List.length content) = content;
  up_files : load_s32 (kmem k) (open_file_num (pcb_at 0)) = 2 /\
    fd_at (kmem k) (pcb_at 0) 0 = Fdesc (u32 (stdin_op_table lay)) 0 0 1 /\
    fd_at (kmem k) (pcb_at 0) 1 = Fdesc (u32 (stdout_op_table lay)) 0 0 1;
  up_term : current_terminal_idx k = 0 /\ terminal_state (term k 0) = 1;
}.

Lemma started_up lay content k1 k :
  task_bitmap k1 = replicate 6 0 -> runn_task_num k1 = 0 ->
  shell_started lay 0 0 content k1 k -> up lay content k.
Proof.
  intros Hb Hn [S1 S2 S3 S4 S5 S6 S7 S8 S9 S10]. rewrite Hb in S1. rewrite Hn in S3.
  constructor; assumption.
Qed.

(** The last part of the boot, from a console and terminals in order. *)
Lemma start_tail lay fr shell start content m' k :
  boots lay fr shell start content (kmem k) (k_fs k) ->
  k_fs k = init_filesys (kmem k) start (k_fs k) ->
  pcb_init (kmem k) = Ok m' -> tty_wf (k_tty k) -> boot_terms k ->
  dir_ok lay (page_dir k) None -> tab_ok (page_tab k) ->
  task_bitmap k = replicate 6 0 -> runn_task_num k = 0 ->
  wp (first_terminal lay fr shell)
    (fun r k' => r = UserMode (elf_entry content) /\ up lay content k') (set_kmem m' k).
Proof.
  intros Hbs Hfs Hm Hwf Hbt Hd Hp Hb Hn. apply wp_bind, wp_on_tty.
  destruct Hwf as [Wc Wt Wk Wp Wr].
  eapply wp_mono; [by apply reset_spec|]. cbn beta.
  intros [] t (Hwf & _ & _ & _ & _ & _ & Hmem).
  apply wp_bind. unfold ksti, on_tty at 1, wp at 1. cbn [sti modify].
  eapply wp_mono; [apply (terminal_init_enters lay fr shell None content)|].
  - cbn [k_tty set_k_tty]. by destruct Hwf.
  - exact Hbt.
  - exact Hd.
  - exact Hp.
  - assert (Hk : kernel_same (kmem k) (t_mem t)).
    { intros b Hr. rewrite Hmem by (apply screen_low; lia). by apply (pcb_init_low _ _ Hm). }
    destruct (boots_same _ _ _ _ _ _ _ _ Hbs Hk) as [[Himg B2 B3 B4 B5 B6] Hfs'].
    destruct Himg as (NI & NB & dir & i & e & Hw & Hlk & He & Hf & Hc).
    rewrite Hfs', <- Hfs in Hw, Hf, Hc.
    constructor; try assumption.
    + exists start, NI, NB, dir, i, e. split_and!; assumption.
    + change (first_free (task_bitmap k) 0). rewrite Hb.
      split; [lia|]. split; [reflexivity|]. intros j Hj. lia.
    + right. split; [reflexivity | exact Hn].
    + change (0 <= runn_task_num k < 6). lia.
  - intros r k' (-> & k1 & [] & Hs). split; [reflexivity|].
    eapply started_up; [| |exact Hs]; etrans; eassumption.
Qed.

Lemma first_terminal_quiet T mm sm lay fr shell :
  Quiet T -> ok (quiet_kernel T mm sm) (first_terminal lay fr shell) any.
Proof.
  intros HT. unfold first_terminal. eapply ok_bind; [by apply qk_on_tty, qt_reset | intros _ _].
  eapply ok_bind; [by apply qk_sti | intros _ _]. by apply qk_terminal_init.
Qed.

Lemma start_kernel_spec lay fr shell mouse_init mouse_lines prev start content k :
  Device mouse_init mouse_lines -> cold k ->
  boots lay fr shell start content (kmem k) (k_fs k) ->
  wp (start_kernel lay fr shell mouse_init prev start)
    (fun r k' => r = Shell (elf_entry content) /\ up lay content k' /\
       devices_on prev mouse_lines k') k.
Proof.
  intros Hdev [Ct Cd Cp Cm Cs Cb C0 Cr Ctl Ctw] Hbs. unfold start_kernel.
  pose proof (bs_layout _ _ _ _ _ _ _ Hbs) as Hlay.
  destruct (init_paging_run lay k Hlay Cd Cp) as (Hd & Hp & _ & _ & _ & _ & Hpo).
  apply wp_bind, wp_modify, wp_bind, wp_modify, wp_bind.
  generalize dependent (init_paging lay k). intros k1 Hd Hp [P1 P2 P3 P4 P5 P6 P7 P8].
  set (k2 := set_k_fs _ k1).
  eapply wp_mono; [apply (init_devices_on _ _ prev k2 Hdev)|].
  { change (master_mask k1 = 255). by rewrite P7. }
  { change (slave_mask k1 = 255). by rewrite P8. }
  intros [] k3 ([_ _ F1 F2 F3 F4 F5 F6 F7 F8 F9] & Hon).
  assert (E1 : kmem k1 = kmem k) by (unfold kmem; by rewrite P1).
  assert (E2 : k_fs k2 = init_filesys (kmem k) start (k_fs k))
    by (unfold k2; cbn [k_fs set_k_fs]; by rewrite E1, P2).
  change (kmem k2) with (kmem k1) in F1. rewrite E1 in F1. rewrite E2 in F5.
  apply wp_bind, wp_gets, wp_bind.
  destruct (pcb_init_spec (kmem k3)) as (m' & Hm & _).
  eapply wp_liftR; [exact Hm|]. apply wp_bind, wp_modify.
  assert (Htail : wp (first_terminal lay fr shell)
    (fun r k' => r = UserMode (elf_entry content) /\ up lay content k') (set_kmem m' k3)).
  { apply (start_tail lay fr shell start content m' k3).
    - rewrite F1, F5. destruct Hbs. constructor; assumption.
    - rewrite F1, F5. reflexivity.
    - exact Hm.
    - apply F2. change (tty_wf (k_tty k1)). rewrite P1. exact Ct.
    - split; rewrite F9; change (terminal_array k2) with (terminal_array k1); rewrite P6; assumption.
    - rewrite F3. exact Hd.
    - rewrite F4. exact Hp.
    - rewrite F6. change (task_bitmap k2) with (task_bitmap k1). by rewrite P5.
    - rewrite F8. change (runn_task_num k2) with (runn_task_num k1). by rewrite P4. }
  destruct (wp_inv _ _ _ Htail) as (r & k' & Hrun & -> & Hu).
  apply wp_bind. eapply wp_ok; [exact Hrun|]. apply wp_ret. split; [reflexivity|].
  split; [exact Hu|]. eapply devices_stay; [|  |exact Hrun].
  - intros T HT. by apply first_terminal_quiet.
  - destruct Hon as [[] Hl Ht Hk]. by constructor.
Qed.

(** ** The properties of the boot *)

Lemma wp_on_kernel {A} (f : ST kernel A) Q c :
  wp f (fun a k => Q a (Computer k (c_idt c) (ldt_desc_ptr c) (tss_desc_ptr c)
    (tss_ldt_selector c) (c_ldtr c) (c_tr c))) (c_kernel c) -> wp (on_kernel f) Q c.
Proof. unfold wp, on_kernel. by destruct (f (c_kernel c)) as [[a k]|]. Qed.

(** Clearing the screen and reporting leave the kernel cold. *)
Lemma cold_tty t k : cold k -> tty_wf t -> cold (set_k_tty t k).
Proof. intros [] Ht. by constructor. Qed.

Lemma clear_quiet t :
  tty_wf t -> wp clear (fun _ t' => tty_wf t' /\
    forall b, off_screen b -> mget (t_mem t') b = mget (t_mem t) b) t.
Proof.
  intros [Wc Wt Wk Wp Wr]. unfold clear. apply wp_modify. split; [by constructor|].
  intros b Hb. by apply clear_mem_frame.
Qed.

Lemma map_ok_same m m' stop a :
  (forall b, off_screen b -> mget m' b = mget m b) -> map_ok m stop a -> map_ok m' stop a.
Proof.
  intros Hs. induction 1 as [|a Ha Hoff Hw _ IH]; [by apply map_end|].
  assert (E : load32 m' a = load32 m a).
  { apply load32_ext. intros b Hb. apply Hs. replace b with (a + (b - a)) by lia. apply Hoff. lia. }
  apply map_range; rewrite ?E; done.
Qed.

Lemma mbi_ok_same s s' mbi :
  (forall i, 0 <= i < 52 -> off_screen (mbi + i)) ->
  (forall b, off_screen b -> mget (t_mem s') b = mget (t_mem s) b) ->
  mbi_ok s mbi -> mbi_ok s' mbi /\
  (forall d, 0 <= d <= 48 -> load32 (t_mem s') (mbi + d) = load32 (t_mem s) (mbi + d)).
Proof.
  intros Hp Hs [H1 H2 H3].
  assert (E : forall d, 0 <= d <= 48 ->
    load32 (t_mem s') (mbi + d) = load32 (t_mem s) (mbi + d)).
  { intros d Hd. apply load32_ext. intros b Hb. apply Hs.
    replace b with (mbi + (b - mbi)) by lia. apply Hp. lia. }
  assert (E0 := E 0 ltac:(lia)). rewrite Z.add_0_r in E0.
  split; [|exact E]. constructor; rewrite ?E0, ?E by lia; intros Hf.
  - destruct (H1 Hf) as (l & Hl & Hn & Ho). exists l. split; [|done].
    eapply cstr_ext; [|exact Hl]. intros b Hb. symmetry. apply Hs.
    replace b with (load32 (t_mem s) (mbi + 16) + (b - load32 (t_mem s) (mbi + 16))) by lia.
    apply Ho. lia.
  - by apply H2.
  - eapply map_ok_same; [exact Hs | by apply H3].
Qed.

(** What the processor reads in a segment descriptor. *)
Definition seg_base (d : seg_desc) : Z :=
  base_15_00 d + 65536 * base_23_16 d + 16777216 * base_31_24 d.
Definition seg_limit (d : seg_desc) : Z := seg_lim_15_00 d + 65536 * seg_lim_19_16 d.

Lemma params_base d addr lim :
  0 <= addr < 4294967296 -> 0 <= lim < 1048576 ->
  seg_base (SET_PARAMS d addr lim) = addr /\ seg_limit (SET_PARAMS d addr lim) = lim.
Proof.
  intros Ha Hl. unfold seg_base, seg_limit, SET_PARAMS. cbn [base_15_00 base_23_16 base_31_24
    seg_lim_15_00 seg_lim_19_16].
  rewrite !Z.shiftr_land, !Z.shiftr_div_pow2 by lia.
  change 65535 with (Z.ones 16). change (16711680 / 2 ^ 16) with (Z.ones 8).
  change (983040 / 2 ^ 16) with (Z.ones 4). change (4278190080 / 2 ^ 24) with (Z.ones 8).
  rewrite !Z.land_ones by lia. lia_mod.
Qed.

(** The part of [entry] after the screen is cleared, for a good loader. *)
Lemma entry_reported lk lay fr shell mouse_init mouse_lines prev addr content start c :
  Device mouse_init mouse_lines -> cold (c_kernel c) ->
  (forall i, 0 <= i < 52 -> off_screen (addr + i)) -> mbi_ok (k_tty (c_kernel c)) addr ->
  CHECK_FLAG (load32 (kmem (c_kernel c)) addr) 4
    && CHECK_FLAG (load32 (kmem (c_kernel c)) addr) 5 = false ->
  found_module (k_tty (c_kernel c)) addr = Some start ->
  boots lay fr shell start content (kmem (c_kernel c)) (k_fs (c_kernel c)) ->
  wp (boot lk lay fr shell mouse_init prev addr)
    (fun r c' => r = Shell (elf_entry content) /\ up lay content (c_kernel c') /\
       devices_on prev mouse_lines (c_kernel c') /\ c_idt c' = c_idt c /\ c_ldtr c' = KERNEL_LDT /\ c_tr c' = KERNEL_TSS /\
       tss_desc_ptr c' = the_tss_desc (tss_at lk) (tss_size lk)) c.
Proof.
  intros Hdev Hc Hpl Hmb Hf45 Hfound Hbs. unfold boot. apply wp_bind, wp_on_kernel, wp_on_tty.
  eapply wp_mono; [apply report_spec; [exact Hpl | apply Hc | exact Hmb]|].
  intros r t [[Hwf Hpr] ->]. unfold kmem in Hf45. rewrite Hf45, Hfound.
  apply wp_bind, wp_modify, wp_on_kernel.
  eapply wp_mono; [apply (start_kernel_spec lay fr shell mouse_init mouse_lines prev start content)|].
  - exact Hdev.
  - destruct (cold_tty t _ Hc Hwf). by constructor.
  - apply (boots_same _ _ _ _ _ (kmem (c_kernel c))); [exact Hbs|].
    intros b Hb. apply (pr_mem _ _ Hpr), screen_low. lia.
  - intros r k' (-> & Hu & Hv). split_and!; done.
Qed.

