(* ===== verification/Types.v ===== *)
(** * The types of the kernel's variables, over all runs

    C checks no range: an array index, a flag or a cursor position is an
    integer, and the code is correct only if it stays where the arrays and
    the comparisons expect it.  [tty_typed] and [kernel_typed] say where each
    variable lives, the judgement [ok] that code keeps them there and yields
    a value of a given type, and the theorem at the end holds of every state
    of a run from the boot on ([kstep] of Isolation.v). *)

From Stdlib Require Import ZArith Lia String Ascii Relations.
From stdpp Require Import base numbers list gmap relations.
From S2P Require Import Prelude Mem CString FileSys Console Printf Machine Pic Paging Rtc Idt.
From S2P Require Import Pcb Exec Line Syscall Terminal Keyboard Sched Trap Isolation Boot.

Local Open Scope Z_scope.

(** ** The types *)

Definition byte (c : Z) : Prop := 0 <= c < 256.
Definition is_flag (f : Z) : Prop := f = 0 \/ f = 1.
Definition line_buf (l : list Z) : Prop := zlen l = 128 /\ Forall byte l.

(** A row of the editor that ends in Enter has 175 plus its column. *)
Definition tracked (e : Z) : Prop := e = 0 \/ 175 <= e < 255.
Definition tracker (l : list Z) : Prop := zlen l = 25 /\ Forall tracked l.

Record tty_typed (t : tty) : Prop := {
  tt_row : 0 <= screen_y t < 25;
  tt_col : 0 <= screen_x t < 80;
  tt_tracker : tracker (enter_tracker t);
  tt_scroll : is_flag (first_scroll_indicator t);
  tt_cap : is_flag (cap_flag t);
  tt_shift : is_flag (shift_flag t);
  tt_control : is_flag (control_flag t);
  tt_alt : is_flag (alt_flag t);
  tt_mode : enter_flag t = 0 \/ enter_flag t = -1;
  tt_cross : is_flag (cross_enter_flag t);
  tt_kb : line_buf (keyboard_buffer t);
  tt_pos : byte (kb_buffer_position t);
  tt_read : line_buf (ter_read_buffer t);
  tt_size : 0 <= ter_read_buf_size t <= 128;
  tt_ind : is_flag (ter_read_indicator t);
}.

(** An assignment of a value of its type. *)
Section Assign.
Context (t : tty) (Ht : tty_typed t).
Ltac assign := destruct Ht; by constructor.
Lemma ty_mem m : tty_typed (set_t_mem m t). Proof. assign. Qed.
Lemma ty_trace l : tty_typed (set_t_trace l t). Proof. assign. Qed.
Lemma ty_if b : tty_typed (set_t_if b t). Proof. assign. Qed.
Lemma ty_x v : 0 <= v < 80 -> tty_typed (set_screen_x v t). Proof. assign. Qed.
Lemma ty_y v : 0 <= v < 25 -> tty_typed (set_screen_y v t). Proof. assign. Qed.
Lemma ty_tracker l : tracker l -> tty_typed (set_enter_tracker l t). Proof. assign. Qed.
Lemma ty_scroll v : is_flag v -> tty_typed (set_first_scroll_indicator v t). Proof. assign. Qed.
Lemma ty_cap v : is_flag v -> tty_typed (set_cap_flag v t). Proof. assign. Qed.
Lemma ty_shift v : is_flag v -> tty_typed (set_shift_flag v t). Proof. assign. Qed.
Lemma ty_control v : is_flag v -> tty_typed (set_control_flag v t). Proof. assign. Qed.
Lemma ty_alt v : is_flag v -> tty_typed (set_alt_flag v t). Proof. assign. Qed.
Lemma ty_mode v : v = 0 \/ v = -1 -> tty_typed (set_enter_flag v t). Proof. assign. Qed.
Lemma ty_cross v : is_flag v -> tty_typed (set_cross_enter_flag v t). Proof. assign. Qed.
Lemma ty_kb l : line_buf l -> tty_typed (set_keyboard_buffer l t). Proof. assign. Qed.
Lemma ty_pos v : byte v -> tty_typed (set_kb_buffer_position v t). Proof. assign. Qed.
Lemma ty_read l : line_buf l -> tty_typed (set_ter_read_buffer l t). Proof. assign. Qed.
Lemma ty_size v : 0 <= v <= 128 -> tty_typed (set_ter_read_buf_size v t). Proof. assign. Qed.
Lemma ty_ind v : is_flag v -> tty_typed (set_ter_read_indicator v t). Proof. assign. Qed.
End Assign.
#[export] Hint Resolve ty_mem ty_trace ty_if ty_x ty_y ty_tracker ty_scroll ty_cap ty_shift
  ty_control ty_alt ty_mode ty_cross ty_kb ty_pos ty_read ty_size ty_ind : typed.
#[export] Hint Resolve tt_tracker tt_scroll tt_cap tt_shift tt_control tt_alt tt_mode tt_cross
  tt_kb tt_pos tt_read tt_ind : typed.

(** *** Arrays *)

Lemma anth_insert_range {A} (P : A -> Prop) d (l : list A) i : P d -> Forall P l -> P (anth d l i).
Proof.
  intros Hd Hl. unfold anth. rewrite nth_lookup. destruct (l !! _) as [x|] eqn:E; [|done].
  by eapply Forall_lookup_1.
Qed.

Lemma byte_0 : byte 0. Proof. unfold byte. lia. Qed.
Lemma byte_u8 x : byte (u8 x). Proof. apply u8_range. Qed.
Lemma flag_0 : is_flag 0. Proof. by left. Qed.
Lemma flag_1 : is_flag 1. Proof. by right. Qed.
Lemma mode_flip f : f = 0 \/ f = -1 -> Z.lnot f = 0 \/ Z.lnot f = -1.
Proof. intros [->| ->]; [by right | by left]. Qed.

Lemma buffer_anth l i : line_buf l -> byte (anth 0 l i).
Proof. intros [_ Hl]. by apply anth_insert_range; [apply byte_0|]. Qed.
Lemma buffer_insert l i c : line_buf l -> byte c -> line_buf (<[i := c]> l).
Proof. intros [Hl Hf] Hc. split; [by rewrite length_insert | by apply Forall_insert]. Qed.
Lemma buffer_aset l i c l' : aset l i c = Ok l' -> line_buf l -> byte c -> line_buf l'.
Proof. unfold aset. case_decide; [|done]. intros [= <-]. apply buffer_insert. Qed.
Lemma buffer_loop (g : Z -> list Z -> Z) l :
  line_buf l -> (forall i l, line_buf l -> byte (g i l)) ->
  line_buf (forz 0 BUF_SIZE (fun i l => <[Z.to_nat i := g i l]> l) l).
Proof.
  intros Hl Hg. apply (forz_inv (fun _ => line_buf)); [unfold BUF_SIZE; lia | done|].
  intros i y _ Hy. apply buffer_insert; auto.
Qed.

Lemma tracker_insert l i e : tracker l -> tracked e -> tracker (<[i := e]> l).
Proof. intros [Hl Hf] Hc. split; [by rewrite length_insert | by apply Forall_insert]. Qed.
Lemma tracker_aset l i e l' : aset l i e = Ok l' -> tracker l -> tracked e -> tracker l'.
Proof. unfold aset. case_decide; [|done]. intros [= <-]. apply tracker_insert. Qed.
Lemma tracker_loop (g : Z -> list Z -> Z) l :
  tracker l -> (forall i l, tracker l -> tracked (g i l)) ->
  tracker (forz 0 NUM_ROWS (fun i l => <[Z.to_nat i := g i l]> l) l).
Proof.
  intros Hl Hg. apply (forz_inv (fun _ => tracker)); [unfold NUM_ROWS; lia | done|].
  intros i y _ Hy. apply tracker_insert; auto.
Qed.
Lemma tracked_anth l i : tracker l -> tracked (anth 0 l i).
Proof. intros [_ Hl]. by apply anth_insert_range; [left|]. Qed.
Lemma tracked_aget l i e : aget l i = Ok e -> tracker l -> tracked e.
Proof.
  unfold aget. case_decide; [|done]. destruct (l !! _) eqn:E; [|done]. intros [= <-] [_ Hf].
  by eapply Forall_lookup_1.
Qed.

#[export] Hint Resolve byte_0 byte_u8 flag_0 flag_1 buffer_anth buffer_insert : typed.

Lemma buffer_zero l : line_buf l -> line_buf (forz 0 BUF_SIZE (fun i b => <[Z.to_nat i := 0]> b) l).
Proof. intros. apply buffer_loop; auto with typed. Qed.
Lemma tracker_zero l : tracker l -> tracker (forz 0 NUM_ROWS (fun i b => <[Z.to_nat i := 0]> b) l).
Proof. intros. apply tracker_loop; [done|]. intros. by left. Qed.
Lemma buffer_drop n l : line_buf l -> line_buf (drop_kb n l).
Proof. intros. apply buffer_loop; [done|]. intros. case_match; auto with typed. Qed.
Lemma tracker_shift l : tracker l -> tracker (shift_tracker l).
Proof.
  intros. apply tracker_loop; [done|]. intros. case_match; [by apply tracked_anth | by left].
Qed.
#[export] Hint Resolve buffer_zero tracker_zero buffer_drop tracker_shift : typed.

(** ** The console *)

Lemma ok_outb v p : ok tty_typed (outb v p) any.
Proof. apply ok_modify. auto with typed. Qed.
Lemma ok_inb p a : ok tty_typed (inb p a) byte.
Proof. intros s b s' Hs H. injection H as <- <-. auto with typed. Qed.
Lemma ok_cli : ok tty_typed cli any.
Proof. apply ok_modify. auto with typed. Qed.
Lemma ok_sti : ok tty_typed sti any.
Proof. apply ok_modify. auto with typed. Qed.
#[export] Hint Resolve ok_outb ok_inb ok_cli ok_sti : typed.

Lemma ok_update_cursor y x : ok tty_typed (update_cursor y x) any.
Proof. unfold update_cursor. tsteps. Qed.
Lemma ok_clear : ok tty_typed clear any.
Proof. apply ok_modify. auto with typed. Qed.
Lemma ok_buffer_reset : ok tty_typed keyboard_buffer_reset any.
Proof. apply ok_modify. auto with typed. Qed.
#[export] Hint Resolve ok_update_cursor ok_clear ok_buffer_reset : typed.

Lemma ok_reset : ok tty_typed reset any.
Proof. unfold reset. tsteps; apply ty_x || apply ty_y; done || lia. Qed.

Lemma ok_scrolling : ok tty_typed scrolling any.
Proof. unfold scrolling. tsteps. Qed.
#[export] Hint Resolve ok_reset ok_scrolling : typed.

Lemma tracked_enter x : 0 <= x < 80 -> tracked (u32 (x + OFFSET)).
Proof. intros. right. unfold OFFSET. rewrite u32_small by lia. lia. Qed.

Lemma ok_putc c : ok tty_typed (putc c) any.
Proof.
  unfold putc, NUM_COLS, NUM_ROWS. do 2 tstep.
  pose proof (tt_col _ Hs). pose proof (tt_row _ Hs0). tsteps;
    try (apply ty_x || apply ty_y; [done | lia]).
  apply ty_tracker; [done|]. eapply tracker_aset; [exact E | by apply tt_tracker | by apply tracked_enter].
Qed.
#[export] Hint Resolve ok_putc : typed.

(** The blanks of [backspace] stop at the column that was recorded. *)
Lemma blank_col y stop m x m' x' :
  while (blank_step y stop) (m, x) = Ok (m', x') -> x' = stop.
Proof.
  intros H. assert (E : snd (m', x') = stop); [|exact E].
  revert H. apply (while_keeps _ any (fun r => snd r = stop)); [done|].
  intros [m1 x1] _. unfold blank_step. by destruct (Z.eqb_spec x1 stop).
Qed.

Lemma ok_backspace_cell y x : 0 <= y < 25 -> 0 <= x < 80 -> ok tty_typed (backspace_cell y x) any.
Proof. intros. unfold backspace_cell. tsteps. Qed.

Lemma ok_backspace : ok tty_typed backspace any.
Proof.
  unfold backspace, NUM_COLS. do 2 tstep.
  pose proof (tt_col _ Hs). pose proof (tt_row _ Hs0).
  tstep; [by tsteps|]. tstep; [|by tsteps]. tstep; [apply ok_backspace_cell; lia|].
  tstep. tstep; [|apply ok_backspace_cell; lia]. do 2 tstep.
  pose proof (tracked_aget _ _ _ E (tt_tracker _ Hs2)) as He.
  tstep; [|apply ok_backspace_cell; lia]. do 2 tstep.
  match goal with p : mem * Z |- _ => destruct p as [m' x'] end.
  apply blank_col in E0 as ->.
  assert (Hx : 0 <= u8 (a - OFFSET) < 80).
  { destruct He as [->|He]; [done|]. unfold OFFSET. rewrite u8_small; lia. }
  tsteps; try (apply ty_x || apply ty_y; [done | lia]).
  apply ty_tracker; [done|]. eapply tracker_aset; [exact E0 | by apply tt_tracker | by left].
Qed.
#[export] Hint Resolve ok_backspace : typed.

(** Loops that print. *)
Lemma ok_puts p : ok tty_typed (puts p) any.
Proof.
  apply (ok_while _ _ (fun st => tty_typed (fst st))); [done|]. intros [t i] Ht. unfold puts_step.
  destruct (_ =? 0); [done|]. destruct (putc _ t) as [[a t']|] eqn:E; [|done].
  by apply (ok_putc _ _ _ _ Ht E).
Qed.
Lemma ok_puts_str l : ok tty_typed (puts_str l) any.
Proof. induction l as [|c l IH]; cbn [puts_str]; tsteps. Qed.
#[export] Hint Resolve ok_puts ok_puts_str : typed.

Lemma ok_puts_local m a : ok tty_typed (puts_local m a) any.
Proof. unfold puts_local. tsteps. Qed.
#[export] Hint Resolve ok_puts_local : typed.
Lemma ok_conv_x b v : ok tty_typed (conv_x b v) any.
Proof. unfold conv_x. tsteps. Qed.
Lemma ok_conv_u v : ok tty_typed (conv_u v) any.
Proof. unfold conv_u. tsteps. Qed.
Lemma ok_conv_d v : ok tty_typed (conv_d v) any.
Proof. unfold conv_d. tsteps. Qed.
#[export] Hint Resolve ok_conv_x ok_conv_u ok_conv_d : typed.

Lemma ok_printf_scan fmt : forall mode args, ok tty_typed (printf_scan mode fmt args) any.
Proof. induction fmt as [|c fmt IH]; intros mode args; cbn [printf_scan]; tsteps. Qed.
#[export] Hint Resolve ok_printf_scan : typed.
Lemma ok_printf fmt args : ok tty_typed (printf fmt args) any.
Proof. unfold printf. tsteps. Qed.
#[export] Hint Resolve ok_printf : typed.

Lemma ok_update_x x : ok tty_typed (update_x x) any.
Proof. unfold update_x, NUM_COLS, MAX_X. tsteps; apply ty_x; done || lia. Qed.
Lemma ok_update_y y : ok tty_typed (update_y y) any.
Proof. unfold update_y, NUM_ROWS, MAX_Y. tsteps; apply ty_y; done || lia. Qed.
#[export] Hint Resolve ok_update_x ok_update_y : typed.

(** ** The line editor *)

Lemma ok_kb_add c : byte c -> ok tty_typed (kb_add c) any.
Proof. intros. unfold kb_add. tsteps. apply ty_kb; [done|]. eapply buffer_aset; eauto with typed. Qed.
Lemma ok_kb_delete : ok tty_typed kb_delete any.
Proof. unfold kb_delete. tsteps. apply ty_kb; [done|]. eapply buffer_aset; eauto with typed. Qed.

Lemma aset_range {A} (l : list A) i x l' : aset l i x = Ok l' -> 0 <= i < zlen l /\ zlen l' = zlen l.
Proof. unfold aset. case_decide; [|done]. intros [= <-]. by rewrite length_insert. Qed.

Lemma ok_kb_enter : ok tty_typed kb_enter any.
Proof.
  unfold kb_enter. tstep. tstep; [|by tsteps]. do 2 tstep. set (rb := forz _ _ _ _).
  assert (Hrb : line_buf rb) by (apply buffer_loop; eauto with typed). tsteps.
  - apply ty_read; [done|]. eapply buffer_aset; [eassumption | | apply byte_0].
    eapply buffer_aset; [eassumption | done | done].
  - apply ty_size; [done|]. apply aset_range in E as [H1 H2]. apply aset_range in E0 as [H3 _].
    destruct Hrb as [Hl _]. lia.
  - by apply ty_size.
Qed.
#[export] Hint Resolve ok_kb_add ok_kb_delete ok_kb_enter : typed.

Lemma ok_edit i c : byte c -> ok tty_typed (keyboard_buffer_edit i c) any.
Proof. intros. unfold keyboard_buffer_edit. tsteps. Qed.
#[export] Hint Resolve ok_edit : typed.

Lemma ok_read_begin : ok tty_typed terminal_read_begin any.
Proof. unfold terminal_read_begin. tsteps. Qed.
Lemma ok_read_poll buf n : ok tty_typed (terminal_read_poll buf n) any.
Proof. unfold terminal_read_poll. tsteps. Qed.
Lemma ok_terminal_write buf n : ok tty_typed (terminal_write buf n) any.
Proof.
  unfold terminal_write. tstep. eapply ok_bind; [|intros; by tsteps].
  apply (ok_while _ _ (fun st => tty_typed (fst st))); [done|]. intros [t i] Ht. unfold write_step.
  destruct (_ <? _); [|done]. destruct (putc _ t) as [[v t']|] eqn:E; [|done].
  by apply (ok_putc _ _ _ _ Ht E).
Qed.
#[export] Hint Resolve ok_read_begin ok_read_poll ok_terminal_write : typed.

(** ** The keyboard *)

Lemma table_byte l i c : forallb (fun c => (0 <=? c) && (c <? 256)) l = true -> aget l i = Ok c -> byte c.
Proof.
  unfold aget. case_decide; [|done]. destruct (l !! _) eqn:E; [|done]. intros Hf [= <-].
  apply list_elem_of_lookup_2, list_elem_of_In in E. rewrite forallb_forall in Hf.
  specialize (Hf _ E). unfold byte. lia.
Qed.

Lemma ok_ascii c : ok tty_typed (ascii c) byte.
Proof.
  unfold ascii. tsteps. apply table_byte in E; [|done]. case_match; auto with typed.
Qed.
Lemma shift_byte c a : shift c = Ok a -> byte a.
Proof. unfold shift. case_match; [intros [= <-]; apply byte_u8 | by apply table_byte]. Qed.
#[export] Hint Resolve ok_ascii : typed.

Lemma ok_modifiers i : ok tty_typed (modifiers i) any.
Proof. unfold modifiers. tsteps. Qed.
Lemma ok_toggle : ok tty_typed toggle_mode any.
Proof.
  unfold toggle_mode. eapply ok_bind; [apply ok_edit; done|intros]. tsteps.
  apply ty_mode; [done|]. apply mode_flip. by apply tt_mode.
Qed.
#[export] Hint Resolve ok_modifiers ok_toggle : typed.

Lemma ok_tail i : ok tty_typed (get_char_tail i) byte.
Proof.
  unfold get_char_tail. assert (Hsp : byte SP) by done. tsteps.
  eapply ok_weaken; [apply ok_liftR|]. apply shift_byte.
Qed.
#[export] Hint Resolve ok_tail : typed.

(** ** The kernel *)

(** A saved terminal. *)
Record ter_typed (ti : ter_info) : Prop := {
  te_kb : line_buf (ti_keyboard_buffer ti);
  te_read : line_buf (ti_read_buffer ti);
  te_x : 0 <= cursor_pos_x ti < 80;
  te_y : 0 <= cursor_pos_y ti < 25;
  te_state : is_flag (terminal_state ti);
}.

Record kernel_typed (k : kernel) : Prop := {
  kd_tty : tty_typed (k_tty k);
  kd_master : byte (master_mask k);
  kd_slave : byte (slave_mask k);
  kd_rtc : is_flag (rtc_interrupt_occured k);
  kd_dir : zlen (page_dir k) = 1024;
  kd_tab : zlen (page_tab k) = 1024;
  kd_running : byte (runn_task_num k);
  kd_pos : byte (curr_task_pos k);
  kd_bitmap : zlen (task_bitmap k) = 6 /\ Forall is_flag (task_bitmap k);
  kd_terms : zlen (terminal_array k) = 3 /\ Forall ter_typed (terminal_array k);
  kd_shown : 0 <= current_terminal_idx k < 3;
}.

Section AssignKernel.
Context (k : kernel) (Hk : kernel_typed k).
Ltac assign := destruct Hk; by constructor.
Lemma ky_tty t : tty_typed t -> kernel_typed (set_k_tty t k). Proof. assign. Qed.
Lemma ky_mem m : kernel_typed (set_kmem m k). Proof. apply ky_tty, ty_mem, (kd_tty _ Hk). Qed.
Lemma ky_rtc v : is_flag v -> kernel_typed (set_rtc_interrupt_occured v k). Proof. assign. Qed.
Lemma ky_ss0 v : kernel_typed (set_tss_ss0 v k). Proof. assign. Qed.
Lemma ky_esp0 v : kernel_typed (set_tss_esp0 v k). Proof. assign. Qed.
Lemma ky_running v : byte v -> kernel_typed (set_runn_task_num v k). Proof. assign. Qed.
Lemma ky_pos v : byte v -> kernel_typed (set_curr_task_pos v k). Proof. assign. Qed.
Lemma ky_bitmap l : zlen l = 6 /\ Forall is_flag l -> kernel_typed (set_task_bitmap l k). Proof. assign. Qed.
Lemma ky_fs v : kernel_typed (set_k_fs v k). Proof. assign. Qed.
Lemma ky_terms l : zlen l = 3 /\ Forall ter_typed l -> kernel_typed (set_terminal_array l k).
Proof. assign. Qed.
Lemma ky_shown v : 0 <= v < 3 -> kernel_typed (set_current_terminal_idx v k). Proof. assign. Qed.
Lemma ky_pd_set i v : kernel_typed (pd_set i v k).
Proof. destruct Hk. constructor; try done. change (zlen (<[Z.to_nat i := v]> (page_dir k)) = 1024). by rewrite length_insert. Qed.
Lemma ky_pt_set i v : kernel_typed (pt_set i v k).
Proof. destruct Hk. constructor; try done. change (zlen (<[Z.to_nat i := v]> (page_tab k)) = 1024). by rewrite length_insert. Qed.
Lemma ky_cr3 v : kernel_typed (load_cr3 v k). Proof. assign. Qed.
Lemma ky_paging : kernel_typed (enable_paging k). Proof. assign. Qed.
Lemma ky_flush : kernel_typed (flush_tlb k). Proof. assign. Qed.
End AssignKernel.
#[export] Hint Resolve ky_tty ky_mem ky_rtc ky_ss0 ky_esp0 ky_running ky_pos ky_bitmap ky_fs
  ky_terms ky_shown ky_pd_set ky_pt_set ky_cr3 ky_paging ky_flush : typed.
#[export] Hint Resolve kd_tty kd_master kd_slave kd_rtc kd_running kd_pos : typed.

Lemma ky_pt_or i v k : kernel_typed k -> kernel_typed (pt_or i v k).
Proof. intros. by apply ky_pt_set. Qed.
Lemma ky_task pos k : kernel_typed k -> kernel_typed (map_task pos k).
Proof. intros. unfold map_task, pd_or. cbv zeta. do 6 apply ky_pd_set. done. Qed.
Lemma ky_video lay p k : kernel_typed k -> kernel_typed (map_video lay p k).
Proof. intros. unfold map_video, pd_or. cbv zeta. apply ky_pt_set. do 5 apply ky_pd_set. done. Qed.
#[export] Hint Resolve ky_pt_or ky_task ky_video : typed.

Lemma ok_on_tty {A} (c : ST tty A) Q : ok tty_typed c Q -> ok kernel_typed (on_tty c) Q.
Proof.
  intros Hc k a k' Hk H. unfold on_tty in H. destruct (c (k_tty k)) as [[b t]|] eqn:E; [|done].
  injection H as <- <-. destruct (Hc _ _ _ (kd_tty _ Hk) E). auto with typed.
Qed.
Lemma ok_at {A} (f : kernel -> res A) : ok kernel_typed (fun k => liftR (f k) k) any.
Proof. eapply ok_any, ok_liftR_at. Qed.
#[export] Hint Resolve ok_on_tty ok_at : typed.

Lemma ok_koutb v p : ok kernel_typed (koutb v p) any.
Proof. apply ok_on_tty, ok_outb. Qed.
Lemma ok_kinb p a : ok kernel_typed (kinb p a) byte.
Proof. apply ok_on_tty, ok_inb. Qed.
Lemma ok_kcli : ok kernel_typed kcli any.
Proof. apply ok_on_tty, ok_cli. Qed.
Lemma ok_ksti : ok kernel_typed ksti any.
Proof. apply ok_on_tty, ok_sti. Qed.
#[export] Hint Resolve ok_koutb ok_kinb ok_kcli ok_ksti : typed.

Lemma ok_send_eoi n : ok kernel_typed (send_eoi n) any.
Proof. unfold send_eoi. tsteps. Qed.
#[export] Hint Resolve ok_send_eoi : typed.

(** *** System calls on files, and the clock *)

Lemma ok_rtc_write prev fd buf n : ok kernel_typed (rtc_write prev fd buf n) any.
Proof. unfold rtc_write. tsteps. Qed.
Lemma ok_rtc_handler c : ok kernel_typed (_idt_rtc_irq_handler c) any.
Proof. unfold _idt_rtc_irq_handler. tsteps. Qed.
Lemma ok_pit : ok kernel_typed _idt_pit_irq_handler any.
Proof. unfold _idt_pit_irq_handler, scheduling_handler. tsteps. Qed.
#[export] Hint Resolve ok_rtc_write ok_rtc_handler ok_pit : typed.

Lemma ok_dir_read d fd buf n : ok kernel_typed (fs_dir_read d fd buf n) any.
Proof. unfold fs_dir_read. tsteps. Qed.
Lemma ok_file_read d fd buf n : ok kernel_typed (filesys_read d fd buf n) any.
Proof. unfold filesys_read. tsteps. Qed.
Lemma ok_rtc_begin : ok kernel_typed rtc_read_begin any.
Proof. unfold rtc_read_begin. tsteps. Qed.
Lemma ok_rtc_poll : ok kernel_typed rtc_read_poll any.
Proof. unfold rtc_read_poll. tsteps. Qed.
#[export] Hint Resolve ok_dir_read ok_file_read ok_rtc_begin ok_rtc_poll : typed.

Lemma ok_read lay d fd buf n : ok kernel_typed (read lay d fd buf n) any.
Proof. unfold read. tsteps. Qed.
Lemma ok_read_poll_call lay fd buf n : ok kernel_typed (read_poll lay fd buf n) any.
Proof. unfold read_poll. tsteps. Qed.
Lemma ok_write lay prev fd buf n : ok kernel_typed (write lay prev fd buf n) any.
Proof. unfold write. tsteps. Qed.
Lemma ok_open lay d f : ok kernel_typed (open lay d f) any.
Proof. unfold open, open_file. tsteps. Qed.
Lemma ok_close lay fd : ok kernel_typed (close lay fd) any.
Proof. unfold close. tsteps. Qed.
Lemma ok_getargs buf n : ok kernel_typed (getargs buf n) any.
Proof. unfold getargs. tsteps. Qed.
Lemma ok_vidmap lay s p : ok kernel_typed (vidmap lay s p) any.
Proof. unfold vidmap. tsteps. Qed.
#[export] Hint Resolve ok_read ok_read_poll_call ok_write ok_open ok_close ok_getargs ok_vidmap : typed.

(** *** Programs *)

Lemma slot_typed n i running bitmap pos0 b pos :
  0 <= i -> i + Z.of_nat n <= 256 -> zlen bitmap = 6 /\ Forall is_flag bitmap -> byte pos0 ->
  find_slot n i running bitmap pos0 = Some (b, pos) ->
  (zlen b = 6 /\ Forall is_flag b) /\ byte pos.
Proof.
  revert i. induction n as [|n IH]; intros i Hi Hn Hb Hp H; cbn [find_slot] in H.
  { by injection H as <- <-. }
  destruct (_ =? 0).
  { injection H as <- <-. destruct Hb. rewrite length_insert. split; [|unfold byte; lia].
    split; [done|]. by apply Forall_insert; [|apply flag_1]. }
  destruct (_ && _); [done|]. apply (IH (i + 1)); done || lia.
Qed.

Lemma ok_exec_parse fr c : ok kernel_typed (exec_parse fr c) any.
Proof. unfold exec_parse. tsteps. Qed.
Lemma ok_exec_find fr : ok kernel_typed (exec_find fr) any.
Proof. unfold exec_find. tsteps. Qed.
#[export] Hint Resolve ok_exec_parse ok_exec_find : typed.

Lemma ok_exec_load lay fr : ok kernel_typed (exec_load lay fr) any.
Proof.
  unfold exec_load. do 2 tstep. cbv zeta. do 3 tstep. tstep; [|by tsteps].
  match goal with p : list Z * Z |- _ => destruct p as [b pos] end.
  match goal with H : find_slot _ _ _ _ _ = _ |- _ => apply slot_typed in H as [Hb Hp] end;
    [| lia | by cbn | by apply kd_bitmap | by apply kd_pos].
  tsteps.
Qed.
#[export] Hint Resolve ok_exec_load : typed.

Lemma ok_execute lay fr c : ok kernel_typed (execute lay fr c) any.
Proof. unfold execute. tsteps. Qed.

Lemma ok_halt lay fr st : ok kernel_typed (halt lay fr st) any.
Proof.
  unfold halt. tsteps. apply ky_bitmap; [done|].
  match goal with H : aset (task_bitmap ?s) _ _ = Ok _ |- _ => rename H into Ea; pose proof (kd_bitmap s) as Hb end.
  destruct Hb as [Hl Hf]; [done|]. split; [by rewrite (proj2 (aset_range _ _ _ _ Ea))|].
  unfold aset in Ea. case_decide; [|done]. injection Ea as <-. by apply Forall_insert; [|apply flag_0].
Qed.
#[export] Hint Resolve ok_execute ok_halt : typed.

Lemma ok_exception lay fr cr2 h : ok kernel_typed (_idt_handle_exception lay fr cr2 h) any.
Proof. unfold _idt_handle_exception. tsteps. Qed.

(** *** Terminals *)

Lemma term_aget tis i ti :
  aget tis i = Ok ti -> Forall ter_typed tis -> 0 <= i < zlen tis /\ ter_typed ti.
Proof.
  unfold aget. case_decide; [|done]. destruct (tis !! _) eqn:E; [|done]. intros [= <-] Hf.
  pose proof (lookup_lt_Some _ _ _ E). split; [lia|]. by eapply Forall_lookup_1.
Qed.
Lemma term_aset tis i ti tis' :
  aset tis i ti = Ok tis' -> zlen tis = 3 /\ Forall ter_typed tis -> ter_typed ti ->
  zlen tis' = 3 /\ Forall ter_typed tis'.
Proof.
  intros E [Hl Hf] Ht. split; [by rewrite (proj2 (aset_range _ _ _ _ E))|].
  unfold aset in E. case_decide; [|done]. injection E as <-. by apply Forall_insert.
Qed.

Lemma save_typed t ti : tty_typed t -> ter_typed ti -> ter_typed (save_terminal t ti).
Proof.
  intros Ht Hti. unfold save_terminal. cbv zeta. set (ti1 := forz _ _ _ _).
  assert (H1 : ter_typed ti1).
  { apply (forz_inv (fun _ => ter_typed)); [done | done|]. intros i y _ [].
    constructor; try done; apply buffer_insert; eauto with typed. }
  pose proof (tt_col _ Ht). pose proof (tt_row _ Ht). clearbody ti1. destruct H1.
  constructor; try done; unfold x_pos, y_pos; cbn [cursor_pos_x cursor_pos_y set_cursor_pos_x set_cursor_pos_y];
    by rewrite s8_small by lia.
Qed.

Lemma restore_typed ti t : ter_typed ti -> tty_typed t -> tty_typed (restore_buffers ti t).
Proof.
  intros [] Ht. apply (forz_inv (fun _ => tty_typed)); [done | done|]. intros i y _ Hy.
  auto 6 with typed.
Qed.

Lemma ok_switch_away lay cur : ok kernel_typed (switch_away lay cur) any.
Proof.
  unfold switch_away. do 4 tstep. destruct (kd_terms _ Hs) as [Hl Hf].
  apply term_aget in E as [_ Hti]; [|done]. tsteps. apply ky_terms; [done|].
  eapply term_aset; [exact E0 | done | by apply save_typed; [apply kd_tty|]].
Qed.

Lemma ok_switch_to i : ok kernel_typed (switch_to i) any.
Proof.
  unfold switch_to. do 2 tstep. destruct (kd_terms _ Hs) as [Hl Hf].
  apply term_aget in E as [Hi Hti]; [|done]. tsteps.
  - apply ky_tty; [done|]. apply restore_typed; [done | by apply kd_tty].
  - apply ky_shown; [done|]. rewrite u32_small; lia.
Qed.
#[export] Hint Resolve ok_exception ok_switch_away ok_switch_to : typed.

Lemma ok_terminal_boot lay fr shell i : ok kernel_typed (terminal_boot lay fr shell i) any.
Proof.
  unfold terminal_boot. do 4 tstep. destruct (kd_terms _ Hs) as [Hl Hf].
  apply term_aget in E as [Hi Hti]; [|done]. tsteps.
  - apply ky_terms; [done|]. eapply term_aset; [exact E | done|]. destruct Hti.
    constructor; try done. apply flag_1.
  - apply ky_shown; [done|]. rewrite u32_small; lia.
Qed.
#[export] Hint Resolve ok_terminal_boot : typed.

Lemma ok_terminal_switch lay fr shell i : ok kernel_typed (terminal_switch lay fr shell i) any.
Proof. unfold terminal_switch. tsteps. Qed.
#[export] Hint Resolve ok_terminal_switch : typed.

Lemma ok_switch_key lay fr shell input key i : ok kernel_typed (switch_key lay fr shell input key i) any.
Proof. unfold switch_key. tsteps. Qed.
#[export] Hint Resolve ok_switch_key : typed.

(** The character of a key is a byte. *)
Definition outcome_in {A} (Q : A -> Prop) (o : outcome A) : Prop :=
  match o with Returns a => Q a | UserMode _ => True end.

Lemma ok_get_char lay fr shell scan : ok kernel_typed (get_char lay fr shell scan) (outcome_in byte).
Proof.
  unfold get_char. assert (Hlf : byte LF) by done. assert (Hsp : byte SP) by done.
  assert (Hz : outcome_in byte (Returns 0)) by done. tsteps; try done.
  all: apply (ok_bind _ _ _ any); [apply ok_on_tty; by tsteps | intros; by apply ok_ret].
Qed.
#[export] Hint Resolve ok_get_char : typed.

Lemma ok_keyboard lay fr shell scan : ok kernel_typed (_idt_keyboard_irq_handler lay fr shell scan) any.
Proof.
  unfold _idt_keyboard_irq_handler. tsteps.
  apply (ok_bind _ _ _ any); [apply ok_on_tty; by tsteps | intros; by tsteps].
Qed.
#[export] Hint Resolve ok_keyboard : typed.

Lemma kcall_typed lay k k' : kcall lay k k' -> kernel_typed k -> kernel_typed k'.
Proof.
  intros Hs Hk. destruct Hs as [? ? ? H|? ? ? H|? ? ? ? ? H|? ? ? ? H|? ? ? ? ? H|? ? ? H
    |? ? H|? ? ? H|? ? ? H|? ? ? ? H|? ? H|? H|? ? ? ? H|? ? ? ? H].
  - by eapply ok_state; [apply ok_execute | |].
  - by eapply ok_state; [apply ok_halt | |].
  - by eapply ok_state; [apply ok_read | |].
  - by eapply ok_state; [apply ok_read_poll_call | |].
  - by eapply ok_state; [apply ok_write | |].
  - by eapply ok_state; [apply ok_open | |].
  - by eapply ok_state; [apply ok_close | |].
  - by eapply ok_state; [apply ok_getargs | |].
  - by eapply ok_state; [apply ok_vidmap | |].
  - by eapply ok_state; [apply ok_keyboard | |].
  - by eapply ok_state; [apply ok_rtc_handler | |].
  - by eapply ok_state; [apply ok_pit | |].
  - by eapply ok_state; [apply ok_exception | |].
  - by eapply ok_state; [apply ok_terminal_boot | |].
Qed.

(** ** The boot *)

Lemma ok_say fmt args : ok tty_typed (say fmt args) any.
Proof. unfold say. tsteps. Qed.
Lemma ok_field a : ok tty_typed (field a) any.
Proof. eapply ok_any, ok_gets. Qed.
#[export] Hint Resolve ok_say ok_field : typed.

Lemma ok_report_module c md : ok tty_typed (report_module c md) any.
Proof.
  unfold report_module. do 5 tstep. eapply ok_bind; [apply ok_for; intros; by tsteps | by tsteps].
Qed.
Lemma ok_report_range a : ok tty_typed (report_range a) any.
Proof. unfold report_range. tsteps. Qed.

Lemma ok_report_modules mbi : ok tty_typed (report_modules mbi) any.
Proof.
  unfold report_modules. do 2 tstep. eapply ok_bind; [|intros; by tsteps].
  apply (ok_while _ _ (fun st => tty_typed (fst (fst st)))); [done|]. intros [[t c] md] Ht.
  unfold module_step. destruct (_ <? _); [|done].
  destruct (report_module _ _ _) as [[v t']|] eqn:E; [|done]. by apply (ok_report_module _ _ _ _ _ Ht E).
Qed.
Lemma ok_report_map mbi : ok tty_typed (report_map mbi) any.
Proof.
  unfold report_map. do 3 tstep. apply (ok_while _ _ (fun st => tty_typed (fst st))); [done|].
  intros [t c] Ht. unfold range_step. destruct (_ <? _); [|done].
  destruct (report_range _ _) as [[v t']|] eqn:E; [|done]. by apply (ok_report_range _ _ _ _ Ht E).
Qed.
#[export] Hint Resolve ok_report_modules ok_report_map : typed.

Lemma ok_flag mbi b : ok tty_typed (flag mbi b) any.
Proof. unfold flag. tsteps. Qed.
#[export] Hint Resolve ok_flag : typed.
Lemma ok_when_flag mbi b c : ok tty_typed c any -> ok tty_typed (when_flag mbi b c) any.
Proof. intros. unfold when_flag. tsteps. Qed.
Lemma ok_report_memory mbi : ok tty_typed (report_memory mbi) any.
Proof. unfold report_memory. tsteps. Qed.
Lemma ok_report_device mbi : ok tty_typed (report_device mbi) any.
Proof. unfold report_device. tsteps. Qed.
Lemma ok_report_cmdline mbi : ok tty_typed (report_cmdline mbi) any.
Proof. unfold report_cmdline. tsteps. Qed.
Lemma ok_report_elf mbi : ok tty_typed (report_elf mbi) any.
Proof. unfold report_elf. tsteps. Qed.
#[export] Hint Resolve ok_when_flag ok_report_memory ok_report_device ok_report_cmdline
  ok_report_elf : typed.

Lemma ok_report mbi : ok tty_typed (report mbi) any.
Proof. unfold report. tsteps. Qed.
#[export] Hint Resolve ok_report : typed.

Lemma ky_master k v : kernel_typed k -> byte v -> kernel_typed (set_master_mask v k).
Proof. intros [] ?. by constructor. Qed.
Lemma ky_slave k v : kernel_typed k -> byte v -> kernel_typed (set_slave_mask v k).
Proof. intros [] ?. by constructor. Qed.
#[export] Hint Resolve ky_master ky_slave : typed.

Lemma ok_enable n : ok kernel_typed (enable_irq n) any.
Proof. unfold enable_irq. tsteps. Qed.
Lemma ok_i8259 : ok kernel_typed i8259_init any.
Proof. unfold i8259_init. tsteps. Qed.
#[export] Hint Resolve ok_enable ok_i8259 : typed.
Lemma ok_keyboard_init : ok kernel_typed keyboard_init any.
Proof. unfold keyboard_init. tstep. apply ok_on_tty. tsteps. Qed.
Lemma ok_rtc_init p : ok kernel_typed (rtc_init p) any.
Proof. unfold rtc_init. tsteps. Qed.
Lemma ok_pit_init : ok kernel_typed pit_init any.
Proof. unfold pit_init. tsteps. Qed.
#[export] Hint Resolve ok_keyboard_init ok_rtc_init ok_pit_init : typed.

Lemma init_paging_typed lay k : kernel_typed k -> kernel_typed (init_paging lay k).
Proof.
  intros Hk. unfold init_paging, pd_or, pt_or. cbv zeta.
  set (k1 := forz _ _ _ k). assert (H1 : kernel_typed k1)
    by (apply (forz_inv (fun _ => kernel_typed)); auto with typed; done). clearbody k1.
  set (k2 := forz _ _ _ k1). assert (H2 : kernel_typed k2)
    by (apply (forz_inv (fun _ => kernel_typed)); auto with typed; done). clearbody k2.
  set (k3 := set_page_tab_addr _ _). assert (H3 : kernel_typed k3) by (destruct H2; by constructor).
  clearbody k3. apply ky_paging. do 4 apply ky_pd_set. do 3 apply ky_pt_set. done.
Qed.

Lemma clear_typed i ti : ter_typed ti -> ter_typed (clear_terminal i ti).
Proof.
  intros Ht. unfold clear_terminal. cbv zeta. set (ti1 := set_screen_buffer _ _).
  assert (H1 : ter_typed ti1) by (destruct Ht; by constructor). clearbody ti1. set (ti2 := forz _ _ _ ti1).
  assert (H2 : ter_typed ti2).
  { apply (forz_inv (fun _ => ter_typed)); [done | done|]. intros j y _ [].
    constructor; try done; apply buffer_insert; auto with typed. }
  clearbody ti2. destruct H2. constructor; try done. apply flag_0.
Qed.

Lemma ok_terminal_init lay fr shell : ok kernel_typed (terminal_init lay fr shell) any.
Proof.
  unfold terminal_init. tstep; [by apply ky_shown|].
  eapply ok_bind; [|intros; by tsteps]. apply ok_for. intros i. do 2 tstep.
  destruct (kd_terms _ Hs) as [Hl Hf]. apply term_aget in E as [Hi Hti]; [|done]. tsteps.
  apply ky_terms; [done|]. eapply term_aset; [eassumption | done | by apply clear_typed].
Qed.
#[export] Hint Resolve init_paging_typed ok_terminal_init : typed.

(** The mouse driver is not part of the sources: that it keeps the types is
    all that is asked of it. *)
Section Boot.
Context (lk : linked) (lay : layout) (fr : frame) (shell : Z) (mouse_init : ST kernel unit).
Hypothesis mouse_typed : ok kernel_typed mouse_init any.

Lemma ok_devices prev : ok kernel_typed (init_devices mouse_init prev) any.
Proof. unfold init_devices. tsteps. Qed.
Lemma ok_first_terminal : ok kernel_typed (first_terminal lay fr shell) any.
Proof. unfold first_terminal. tsteps. Qed.
Hint Resolve ok_devices ok_first_terminal : typed.
Lemma ok_start_kernel prev start : ok kernel_typed (start_kernel lay fr shell mouse_init prev start) any.
Proof. unfold start_kernel. tsteps. Qed.

Definition computer_typed (c : computer) : Prop := kernel_typed (c_kernel c).

Lemma ok_on_kernel {A} (f : ST kernel A) Q : ok kernel_typed f Q -> ok computer_typed (on_kernel f) Q.
Proof.
  intros Hf c a c' Hc H. unfold on_kernel in H. destruct (f (c_kernel c)) as [[b k]|] eqn:E; [|done].
  injection H as <- <-. by destruct (Hf _ _ _ Hc E).
Qed.

Lemma ok_entry prev magic addr :
  ok computer_typed (kernel_entry lk lay fr shell mouse_init prev magic addr) any.
Proof.
  pose proof ok_start_kernel as Hstart. pose proof @ok_on_kernel as Hon. unfold kernel_entry, boot.
  tsteps. unfold computer_typed, set_segments in *. cbn [c_kernel]. auto with typed.
Qed.
End Boot.

(** ** Runs *)

Lemma typed_run lay k0 k : kernel_typed k0 -> rtc (kstep lay) k0 k -> kernel_typed k.
Proof.
  intros H0 Hr. induction Hr as [|k1 k2 k3 Hs _ IH]; [done|]. apply IH.
  destruct Hs as [[Hs _]|(m & -> & _)]; [by eapply kcall_typed | by apply ky_mem].
Qed.

