(* ===== verification/User.v ===== *)
(** * System calls as programs make them
      (syscallasm.S; syscalls/: ece391syscall.S, ece391support.c)

    The stub behind interrupt 0x80 checks the number of the call and calls
    through its table; the wrappers of the user library load the registers.
    As in Syscall.v, a register that holds a pointer holds the physical
    address the page tables give it.

    A call may not come back to the program: [execute] enters another one,
    [halt] resumes the parent, and a read of the terminal or of the clock
    waits.  Code of a program therefore yields a value or the way control
    has left it ([UP]). *)

From Stdlib Require Import ZArith Lia String Ascii.
From stdpp Require Import base numbers list gmap.
From S2P Require Import Prelude Mem CString FileSys Console Machine Paging Pcb Exec Line Syscall.

Local Open Scope Z_scope.

(** ** The stub (syscallasm.S) *)

Definition SYS_HALT : Z := 1.
Definition SYS_EXECUTE : Z := 2.
Definition SYS_READ : Z := 3.
Definition SYS_WRITE : Z := 4.
Definition SYS_OPEN : Z := 5.
Definition SYS_CLOSE : Z := 6.
Definition SYS_GETARGS : Z := 7.
Definition SYS_VIDMAP : Z := 8.
Definition SYS_SET_HANDLER : Z := 9.
Definition SYS_SIGRETURN : Z := 10.

Record regs := Regs { eax : Z; ebx : Z; ecx : Z; edx : Z }.

(** Where the locals of the kernel's functions are on the stack of the
    calling task; the byte the clock answers; the physical address of the
    pointer [vidmap] gets. *)
Record kstack := KStack { ks_frame : frame; ks_dentry : Z; ks_prev : Z; ks_phys : Z }.

Inductive sysret :=
  | Back (v : Z)                    (** to the program, with [v] in eax *)
  | Waiting                         (** in a read that has nothing yet *)
  | Entering (eip : Z)              (** user mode, at the start of a program *)
  | Resuming (esp ebp v : Z).       (** in the parent's [execute] *)

Definition of_halt (h : halt_result) : sysret :=
  match h with
  | HaltFails => Back (-1)
  | Restart eip => Entering eip
  | Resume esp ebp v => Resuming esp ebp v
  end.

Definition of_execute (e : exec_result) : sysret :=
  match e with Returned v => Back v | Entered eip => Entering eip end.

Definition of_read (r : option Z) : sysret :=
  match r with Some v => Back v | None => Waiting end.

Definition sys_call_table (lay : layout) (ks : kstack) (r : regs) : ST kernel sysret :=
  if eax r =? SYS_HALT then
    h ← halt lay (ks_frame ks) (ebx r); mret (of_halt h)
  else if eax r =? SYS_EXECUTE then
    e ← execute lay (ks_frame ks) (ebx r); mret (of_execute e)
  else if eax r =? SYS_READ then
    v ← read lay (ks_dentry ks) (s32 (ebx r)) (ecx r) (s32 (edx r)); mret (of_read v)
  else if eax r =? SYS_WRITE then
    v ← write lay (ks_prev ks) (s32 (ebx r)) (ecx r) (s32 (edx r)); mret (Back v)
  else if eax r =? SYS_OPEN then
    v ← open lay (ks_dentry ks) (ebx r); mret (Back v)
  else if eax r =? SYS_CLOSE then
    v ← close lay (s32 (ebx r)); mret (Back v)
  else if eax r =? SYS_GETARGS then
    v ← getargs (ebx r) (s32 (ecx r)); mret (Back v)
  else if eax r =? SYS_VIDMAP then
    v ← vidmap lay (ebx r) (ks_phys ks); mret (Back v)
  else if eax r =? SYS_SET_HANDLER then mret (Back (set_handler (s32 (ebx r)) (ecx r)))
  else mret (Back sigreturn).

Definition syscall_stub (lay : layout) (ks : kstack) (r : regs) : ST kernel sysret :=
  kcli ;;
  if (10 <? u32 (eax r)) || (u32 (eax r) <? 1) then ksti ;; mret (Back (-1))
  else
    ksti ;;
    x ← sys_call_table lay ks r;
    match x with
    | Back v => kcli ;; ksti ;; mret (Back v)
    | _ => mret x
    end.

(** ** The user library *)

(** Code of a program: a value, or how control has left. *)
Abbreviation UP A := (ST kernel (A + sysret)%type).

Definition uret {A} (a : A) : UP A := mret (inl a).
Definition ubind {A B} (c : UP A) (f : A -> UP B) : UP B :=
  x ← c; match x with inl a => f a | inr r => mret (inr r) end.

Notation "'let!' x := c 'in' k" := (ubind c (fun x => k))
  (at level 10, x pattern, c at level 100, k at level 200) : res_scope.

(** [DO_CALL]: up to three arguments in registers, then the interrupt. *)
Definition do_call (lay : layout) (ks : kstack) (number a b c : Z) : UP Z :=
  x ← syscall_stub lay ks (Regs number a b c);
  match x with Back v => mret (inl v) | _ => mret (inr x) end.

Definition ece391_halt lay ks (status : Z) : UP Z := do_call lay ks SYS_HALT status 0 0.
Definition ece391_execute lay ks (command : Z) : UP Z := do_call lay ks SYS_EXECUTE command 0 0.
Definition ece391_read lay ks (fd buf nbytes : Z) : UP Z := do_call lay ks SYS_READ fd buf nbytes.
Definition ece391_write lay ks (fd buf nbytes : Z) : UP Z := do_call lay ks SYS_WRITE fd buf nbytes.
Definition ece391_open lay ks (filename : Z) : UP Z := do_call lay ks SYS_OPEN filename 0 0.
Definition ece391_close lay ks (fd : Z) : UP Z := do_call lay ks SYS_CLOSE fd 0 0.
Definition ece391_getargs lay ks (buf nbytes : Z) : UP Z := do_call lay ks SYS_GETARGS buf nbytes 0.
Definition ece391_vidmap lay ks (screen_start : Z) : UP Z := do_call lay ks SYS_VIDMAP screen_start 0 0.
Definition ece391_set_handler lay ks (signum handler : Z) : UP Z :=
  do_call lay ks SYS_SET_HANDLER signum handler 0.
Definition ece391_sigreturn lay ks : UP Z := do_call lay ks SYS_SIGRETURN 0 0 0.

(** [ece391_strlen]; the loop moves the pointer and the count together. *)
Definition ece391_strlen_step (m : mem) (st : Z * Z) : (Z * Z) + res Z :=
  let '(s, len) := st in
  if mget m s =? 0 then inr (Ok len) else inl (s + 1, u32 (len + 1)).
Definition ece391_strlen (m : mem) (s : Z) : res Z := while (ece391_strlen_step m) (s, 0).

(** [ece391_strcmp]; the bytes are unsigned. *)
Definition ece391_strcmp_step (m : mem) (st : Z * Z) : (Z * Z) + res Z :=
  let '(s1, s2) := st in
  if mget m s1 =? mget m s2 then
    if mget m s1 =? 0 then inr (Ok 0) else inl (s1 + 1, s2 + 1)
  else inr (Ok (mget m s1 - mget m s2)).
Definition ece391_strcmp (m : mem) (s1 s2 : Z) : res Z := while (ece391_strcmp_step m) (s1, s2).

Definition ece391_fdputs lay ks (fd s : Z) : UP unit :=
  m ← gets kmem;
  n ← liftR (ece391_strlen m s);
  let! _ := ece391_write lay ks fd s n in uret tt.

(** [_start]: [main], then [halt] with its value. *)
Definition _start lay ks (main : UP Z) : UP Z :=
  let! v := main in ece391_halt lay ks v.

(** A [read] that waits goes on when its condition is tested again; when it
    holds, the call returns through the stub. *)
Definition read_resume (lay : layout) (fd buf nbytes : Z) : UP Z :=
  x ← read_poll lay fd buf nbytes;
  match x with
  | Some v => kcli ;; ksti ;; mret (inl v)
  | None => mret (inr Waiting)
  end.

(** ** Calls that come back, and calls that do not *)

Lemma stub_known lay ks n a b c k :
  1 <= n <= 10 ->
  syscall_stub lay ks (Regs n a b c) k =
  (x ← sys_call_table lay ks (Regs n a b c);
   match x with Back v => kcli ;; ksti ;; mret (Back v) | _ => mret x end) (set_if true k).
Proof.
  intros Hn. unfold syscall_stub. rewrite kcli_bind. cbn [eax]. rewrite u32_small by lia.
  replace ((10 <? n) || (n <? 1)) with false by lia. rewrite ksti_bind. done.
Qed.

Lemma call_back lay ks n a b c k v k' :
  1 <= n <= 10 ->
  sys_call_table lay ks (Regs n a b c) (set_if true k) = Ok (Back v, k') ->
  do_call lay ks n a b c k = Ok (inl v, set_if true k').
Proof.
  intros Hn Hc. unfold do_call.
  assert (Hs : syscall_stub lay ks (Regs n a b c) k = Ok (Back v, set_if true k'))
    by (rewrite stub_known by done; by rewrite (bind_ok _ _ _ _ _ Hc)).
  by rewrite (bind_ok _ _ _ _ _ Hs).
Qed.

Lemma call_leaves lay ks n a b c k x k' :
  1 <= n <= 10 -> (forall v, x <> Back v) ->
  sys_call_table lay ks (Regs n a b c) (set_if true k) = Ok (x, k') ->
  do_call lay ks n a b c k = Ok (inr x, k').
Proof.
  intros Hn Hx Hc. unfold do_call.
  assert (Hs : syscall_stub lay ks (Regs n a b c) k = Ok (x, k')).
  { rewrite stub_known by done. rewrite (bind_ok _ _ _ _ _ Hc).
    destruct x; try reflexivity. by destruct (Hx v). }
  rewrite (bind_ok _ _ _ _ _ Hs). destruct x; try reflexivity. by destruct (Hx v).
Qed.

(** Numbers outside the table. *)
Lemma stub_unknown lay ks n a b c k :
  0 <= n < 4294967296 -> n < 1 \/ 10 < n ->
  do_call lay ks n a b c k = Ok (inl (-1), set_if true k).
Proof.
  intros Hr Hn. unfold do_call, syscall_stub. cbn [eax]. rewrite u32_small by lia.
  replace ((10 <? n) || (n <? 1)) with true by lia. reflexivity.
Qed.

Lemma ubind_inl {A B} (c : UP A) (f : A -> UP B) k a k' :
  c k = Ok (inl a, k') -> ubind c f k = f a k'.
Proof. intros H. unfold ubind. by rewrite (bind_ok _ _ _ _ _ H). Qed.

Lemma ubind_inr {A B} (c : UP A) (f : A -> UP B) k r k' :
  c k = Ok (inr r, k') -> ubind c f k = Ok (inr r, k').
Proof. intros H. unfold ubind. by rewrite (bind_ok _ _ _ _ _ H). Qed.

(** The entry of the table a call goes to. *)
Ltac pick_call H :=
  unfold sys_call_table, SYS_HALT, SYS_EXECUTE, SYS_READ, SYS_WRITE, SYS_OPEN, SYS_CLOSE,
    SYS_GETARGS, SYS_VIDMAP;
  cbn [eax ebx ecx edx Z.eqb Pos.eqb]; rewrite ?s32_small by lia; rewrite (bind_ok _ _ _ _ _ H); reflexivity.

Definition int32 (n : Z) : Prop := -2147483648 <= n < 2147483648.

Lemma read_call lay ks fd buf n k r k' :
  int32 fd -> int32 n -> read lay (ks_dentry ks) fd buf n (set_if true k) = Ok (Some r, k') ->
  ece391_read lay ks fd buf n k = Ok (inl r, set_if true k').
Proof. unfold int32. intros Hf Hn H. apply call_back; [by vm_compute | pick_call H]. Qed.

Lemma write_call lay ks fd buf n k r k' :
  int32 fd -> int32 n -> write lay (ks_prev ks) fd buf n (set_if true k) = Ok (r, k') ->
  ece391_write lay ks fd buf n k = Ok (inl r, set_if true k').
Proof. unfold int32. intros Hf Hn H. apply call_back; [by vm_compute | pick_call H]. Qed.

Lemma open_call lay ks name k r k' :
  open lay (ks_dentry ks) name (set_if true k) = Ok (r, k') ->
  ece391_open lay ks name k = Ok (inl r, set_if true k').
Proof. intros H. unfold ece391_open. apply call_back; [by vm_compute|]. pick_call H. Qed.

Lemma close_call lay ks fd k r k' :
  int32 fd -> close lay fd (set_if true k) = Ok (r, k') ->
  ece391_close lay ks fd k = Ok (inl r, set_if true k').
Proof. unfold int32. intros Hf H. unfold ece391_close. apply call_back; [by vm_compute | pick_call H]. Qed.

Lemma vidmap_call lay ks p k r k' :
  vidmap lay p (ks_phys ks) (set_if true k) = Ok (r, k') ->
  ece391_vidmap lay ks p k = Ok (inl r, set_if true k').
Proof. intros H. unfold ece391_vidmap. apply call_back; [by vm_compute | pick_call H]. Qed.

Lemma getargs_call lay ks buf n k r k' :
  int32 n -> getargs buf n (set_if true k) = Ok (r, k') ->
  ece391_getargs lay ks buf n k = Ok (inl r, set_if true k').
Proof. unfold int32. intros Hn H. apply call_back; [by vm_compute | pick_call H]. Qed.

Lemma halt_call lay ks status k esp ebp v k' :
  halt lay (ks_frame ks) status (set_if true k) = Ok (Resume esp ebp v, k') ->
  ece391_halt lay ks status k = Ok (inr (Resuming esp ebp v), k').
Proof.
  intros H. unfold ece391_halt. apply call_leaves; [unfold SYS_HALT; lia | congruence|].
  unfold sys_call_table, SYS_HALT. cbn [eax ebx Z.eqb Pos.eqb]. rewrite (bind_ok _ _ _ _ _ H).
  reflexivity.
Qed.

(** A read of the terminal waits, in normal mode. *)
Lemma read_waits lay ks fd buf n k k' :
  int32 fd -> int32 n -> read lay (ks_dentry ks) fd buf n (set_if true k) = Ok (None, k') ->
  ece391_read lay ks fd buf n k = Ok (inr Waiting, k').
Proof.
  unfold int32. intros Hf Hn H. apply call_leaves; [by vm_compute | congruence | pick_call H].
Qed.

Lemma execute_call lay ks command k eip k' :
  execute lay (ks_frame ks) command (set_if true k) = Ok (Entered eip, k') ->
  ece391_execute lay ks command k = Ok (inr (Entering eip), k').
Proof.
  intros H. unfold ece391_execute. apply call_leaves; [by vm_compute | congruence | pick_call H].
Qed.

(** [ece391_strcmp] decides equality of strings. *)
Lemma ece391_strcmp_spec m p1 p2 l1 l2 :
  cstr m p1 l1 -> cstr m p2 l2 -> zlen l1 < 4294967295 ->
  exists c, ece391_strcmp m p1 p2 = Ok c /\ (c = 0 <-> l1 = l2).
Proof.
  intros H1 H2 Hl. unfold ece391_strcmp.
  apply (while_index _ (fun n st => 0 <= n <= zlen l1 + 1 /\ exists a b,
      st = (a, b) /\ exists pre t1 t2, l1 = pre ++ t1 /\ l2 = pre ++ t2 /\
      zlen t1 + 1 = n /\ cstr m a t1 /\ cstr m b t2)
    (fun r => exists c, r = Ok c /\ (c = 0 <-> l1 = l2)) (zlen l1 + 1)); [|lia|].
  { split; [lia|]. exists p1, p2. split; [done|]. by exists [], l1, l2. }
  intros n st [Hn (a & b & -> & pre & t1 & t2 & -> & -> & Ht & C1 & C2)].
  unfold ece391_strcmp_step.
  assert (Hdiff : forall c t, pre <> pre ++ c :: t).
  { intros c t E. apply (f_equal (@List.length Z)) in E. rewrite length_app in E. cbn in E. lia. }
  destruct t1 as [|c1 t1], t2 as [|c2 t2]; rewrite ?app_nil_r.
  - rewrite (cstr_nil _ _ C1), (cstr_nil _ _ C2). by exists 0.
  - destruct (cstr_cons _ _ _ _ C2) as (E2 & N2 & _). rewrite (cstr_nil _ _ C1), E2.
    rewrite (proj2 (Z.eqb_neq _ _)) by done. exists (0 - c2). split; [done|]. split; [lia|].
    intros E. by apply Hdiff in E.
  - destruct (cstr_cons _ _ _ _ C1) as (E1 & N1 & _). rewrite (cstr_nil _ _ C2), E1.
    rewrite (proj2 (Z.eqb_neq _ _)) by done. exists (c1 - 0). split; [done|]. split; [lia|].
    intros E. symmetry in E. by apply Hdiff in E.
  - destruct (cstr_cons _ _ _ _ C1) as (-> & N1 & C1').
    destruct (cstr_cons _ _ _ _ C2) as (-> & N2 & C2').
    destruct (Z.eqb_spec c1 c2) as [->|Hne].
    + rewrite (proj2 (Z.eqb_neq _ _)) by done. exists (n - 1).
      cbn [List.length] in Ht. split; [lia|]. split; [lia|]. exists (a + 1), (b + 1). split; [done|].
      exists (pre ++ [c2]), t1, t2. rewrite <- !app_assoc. split_and!; try done. lia.
    + exists (c1 - c2). split; [done|]. split; [lia|]. intros E. apply app_inv_head in E. congruence.
Qed.

(** A line in memory, and the strings that are left when it is terminated or
    its newline is overwritten. *)
Lemma line_char m a l i :
  mbytes m a (List.length l) = l -> 0 <= i < zlen l -> mget m (a + i) = anth 0 l i.
Proof. intros Hb Hi. rewrite <- Hb at 1. by rewrite anth_mbytes by lia. Qed.

Lemma terminate_line m a l :
  mbytes m a (List.length l) = l -> Forall (fun c => 0 < c < 256) l ->
  cstr (mset m (a + zlen l) 0) a l.
Proof.
  intros Hb Hall. split; [|by rewrite mget_mset_eq].
  intros i Hi. rewrite mget_mset_ne, (line_char _ _ _ _ Hb) by lia. split; [done|].
  pose proof (proj1 (Forall_nth _ 0 l) Hall (Z.to_nat i) ltac:(lia)) as H. cbv beta in H.
  unfold anth. lia.
Qed.

Lemma cut_newline m a cmd :
  mbytes m a (List.length (cmd ++ [LF])) = cmd ++ [LF] -> Forall (fun c => 0 < c < 256) cmd ->
  mget m (a + zlen cmd) = LF /\ cstr (mset m (a + zlen cmd) 0) a cmd.
Proof.
  intros Hb Hall. split.
  - rewrite (line_char _ _ _ _ Hb) by (rewrite length_app; cbn; lia).
    by rewrite anth_app, decide_False, Z.sub_diag by lia.
  - apply terminate_line; [|done]. rewrite length_app, mbytes_app in Hb.
    by apply app_inj_1 in Hb as [-> _]; [|rewrite length_mbytes].
Qed.
