(* ===== verification/Program.v ===== *)
(** * Programs and the kernel around them

    What a program of the user library can rely on, from the [execute] that
    starts it to the [halt] that ends it: the state it finds
    ([program_ready]), what its system calls leave alone ([steady]), what the
    screen shows ([displays]), and that the shell's [execute] resumes when it
    ends ([launch_returns]).  The programs themselves are in the files that
    follow. *)

From Stdlib Require Import ZArith Lia String Ascii.
From stdpp Require Import base numbers list gmap.
From S2P Require Import Prelude Mem CString FileSys Console Machine Paging Pcb Exec Line Syscall.
From S2P Require Import Keyboard User.

Local Open Scope Z_scope.

(** ** What system calls of a program leave alone *)

(** The page of slot [pos], in physical memory. *)
Definition page_at (pos : Z) : Z := 8388608 + 4194304 * pos.

(** Memory that is not of the task in slot [pos]: neither its block and
    kernel stack nor its page. *)
Definition outside (pos b : Z) : Prop :=
  (b < pcb_at pos \/ pcb_at pos + 8192 <= b) /\ (b < page_at pos \/ page_at pos + 4194304 <= b).

(** [n] bytes at [a] are in the page of slot [pos]. *)
Definition in_page (pos a n : Z) : Prop := page_at pos <= a /\ a + n <= page_at pos + 4194304.

Lemma in_page_high pos a n : in_page pos a n -> 0 <= pos -> 8388608 <= a.
Proof. unfold in_page, page_at. lia. Qed.

(** The places of the file system image. *)
Definition fs_same (fs fs' : fsvars) : Prop :=
  fs_bootblk fs' = fs_bootblk fs /\ fs_datablocks fs' = fs_datablocks fs /\
  fs_dentries fs' = fs_dentries fs /\ fs_inodes fs' = fs_inodes fs.

(** The tasks, the page tables, the block of the program after its files
    (its identity and that of its parent), and memory above 4 MB that is not
    the program's. *)
Record calm (k k' : kernel) : Prop := {
  sd_bitmap : task_bitmap k' = task_bitmap k;
  sd_pos : curr_task_pos k' = curr_task_pos k;
  sd_running : runn_task_num k' = runn_task_num k;
  sd_dir : page_dir k' = page_dir k;
  sd_tab : page_tab k' = page_tab k;
  sd_mmu : mmu k' = mmu k;
  sd_block : forall b, curr_pcb k + 488 <= b < curr_pcb k + 520 ->
    mget (kmem k') b = mget (kmem k) b;
  sd_mem : forall b, 4194304 <= b -> outside (curr_task_pos k) b ->
    mget (kmem k') b = mget (kmem k) b;
  sd_fs : fs_same (k_fs k) (k_fs k');
}.

(** The line being typed, too. *)
Record steady (k k' : kernel) : Prop := {
  sd_calm :> calm k k';
  sd_typing : forall kb line, typing kb line (k_tty k) -> typing kb line (k_tty k');
}.

#[export] Instance calm_refl : Reflexive calm.
Proof. intros k. by constructor. Qed.

#[export] Instance calm_trans : Transitive calm.
Proof.
  intros k1 k2 k3 [A1 A2 A3 A4 A5 A5' A6 A7 (F1 & F2 & F3 & F4)]
    [B1 B2 B3 B4 B5 B5' B6 B7 (G1 & G2 & G3 & G4)].
  constructor; try congruence; [| |split_and!; congruence].
  - intros b Hb. rewrite B6, A6; [done | done|]. unfold curr_pcb in *. by rewrite A2.
  - intros b Hb Ho. rewrite B7, A7; try done. by rewrite A2.
Qed.

#[export] Instance steady_refl : Reflexive steady.
Proof. intros k. by constructor. Qed.

#[export] Instance steady_trans : Transitive steady.
Proof. intros k1 k2 k3 [A1 A2] [B1 B2]. constructor; [by transitivity k2 | auto]. Qed.

Lemma typing_mem kb line t m f : typing kb line t -> typing kb line (set_t_mem m (set_t_if f t)).
Proof. intros [[] ? [] ?]. by constructor. Qed.

(** Most calls change memory, the interrupt flag and the variables of the
    file system only. *)
Lemma steady_mem f k k' :
  k' = set_k_tty (set_t_mem (kmem k') (set_t_if f (k_tty k))) (set_k_fs (k_fs k') k) ->
  fs_same (k_fs k) (k_fs k') ->
  (forall b, curr_pcb k + 488 <= b < curr_pcb k + 520 -> mget (kmem k') b = mget (kmem k) b) ->
  (forall b, 4194304 <= b -> outside (curr_task_pos k) b -> mget (kmem k') b = mget (kmem k) b) ->
  steady k k'.
Proof.
  intros E Hf Hb Hm. constructor;
    [constructor; try assumption; try (rewrite E; reflexivity)|].
  intros kb line Ht. rewrite E. by apply typing_mem.
Qed.

Lemma steady_if f k : steady k (set_if f k).
Proof. by apply (steady_mem f). Qed.

(** Reading goes on when nothing above 4 MB has changed. *)
Lemma read_ready_same lay k k' start NI NB dir dentry fd buf n pos ino s t :
  read_ready lay k start NI NB dir dentry fd buf n pos ino s t ->
  k_fs k' = k_fs k -> curr_task_pos k' = curr_task_pos k ->
  (forall b, 4194304 <= b -> mget (kmem k') b = mget (kmem k) b) ->
  read_ready lay k' start NI NB dir dentry fd buf n pos ino s t /\
  file_content (kmem k') (k_fs k') ino = file_content (kmem k) (k_fs k) ino.
Proof.
  intros [R1 R2 R3 R4 R5 R6 R7 R8 R9 R10 R11 R12 R13 R14] Ef Ep Hm.
  pose proof (pcb_at_low _ R3) as (P5 & Plo & Phi).
  assert (Hlow : forall b, 4194304 <= b < pcb_at 5 -> mget (kmem k') b = mget (kmem k) b)
    by (intros; apply Hm; lia).
  destruct (file_kernel _ _ _ (kmem k') _ _ _ _ _ R1 R10 Hlow) as (F1 & F2 & F3).
  unfold curr_pcb in *. split; [|by rewrite Ef].
  constructor; unfold curr_pcb; rewrite ?Ef, ?Ep; try assumption.
  - by eapply world_same.
  - eapply has_fds_ext; [|exact R4]. intros b Hb. apply Hm. lia.
  - eapply cstr_ext; [|exact R7]. intros b Hb. symmetry. apply Hm.
    unfold file_name_at in Hb. lia.
  - by rewrite F2.
Qed.

Lemma read_ready_if lay f k start NI NB dir dentry fd buf n pos ino s t :
  read_ready lay k start NI NB dir dentry fd buf n pos ino s t ->
  read_ready lay (set_if f k) start NI NB dir dentry fd buf n pos ino s t.
Proof. intros H. eapply read_ready_same; [exact H | done | done | done]. Qed.

(** ** Writing to the screen *)

(** Output leaves a line that is being typed alone. *)
Lemma typing_prints kb line t t' :
  typing kb line t -> prints t t' -> tty_wf t' -> typing kb line t'.
Proof.
  intros [_ He [F1 F2 F3 F4] (L1 & L2 & L3)] Hp Hwf.
  destruct (pr_normal _ _ Hp) as (E1 & E2 & _); [lia|].
  constructor; [exact Hwf | by rewrite (pr_enter _ _ Hp) | |].
  - constructor; [rewrite (pr_cap _ _ Hp) | rewrite (pr_shift _ _ Hp) | rewrite (pr_control _ _ Hp)
      | rewrite (pr_alt _ _ Hp)]; done.
  - split; [by rewrite E1|]. split; [by rewrite E2 | done].
Qed.

Lemma write_screen lay prev k t q buf n v :
  fops_ok lay -> 0 <= curr_task_pos k < 6 -> has_fds lay (kmem k) (curr_pcb k) t ->
  anth None t 1 = Some (FStdout, q) -> tty_wf (k_tty k) -> shows (k_tty k) v ->
  0 <= n < 2147483648 -> 8388608 <= buf ->
  exists k', write lay prev 1 buf n k = Ok (n + 1, k') /\
    tty_wf (k_tty k') /\ shows (k_tty k') (abs_puts (mbytes (kmem k) buf (Z.to_nat n)) v) /\
    k_fs k' = k_fs k /\ steady k k' /\
    (forall b, 4194304 <= b -> mget (kmem k') b = mget (kmem k) b).
Proof.
  intros Hfo Hsl Ht H1 Hwf Hv Hn Hbuf.
  destruct (wp_inv _ _ _ (terminal_write_spec buf n (k_tty k) Hwf Hn
    ltac:(intros; unfold off_screen, VIDEO; lia))) as (r & t' & Hrun & -> & Hwf' & _ & Hs & Hpr & Hsh).
  assert (Hhigh : forall b, 4194304 <= b -> mget (t_mem t') b = mget (kmem k) b)
    by (intros; apply Hs; unfold off_screen, VIDEO; lia).
  exists (set_k_tty t' k). split; [|split; [exact Hwf' | split; [by apply Hsh|]]].
  - unfold write. erewrite bind_ok by (rewrite (fd_check_open lay k t 1 FStdout q); done).
    cbv beta iota. unfold on_tty. by rewrite Hrun.
  - split; [done|]. split; [|exact Hhigh].
    constructor; [constructor; try done | intros kb line Hty; eapply typing_prints;
      [exact (typing_mem _ _ _ (kmem k) true Hty) | exact Hpr | exact Hwf']].
    + intros b Hb. apply Hhigh. pose proof (pcb_at_low _ Hsl). unfold curr_pcb in Hb. lia.
    + intros b Hb _. by apply Hhigh.
Qed.

Lemma abs_puts_app l1 l2 v : abs_puts (l1 ++ l2) v = abs_puts l2 (abs_puts l1 v).
Proof. apply foldl_app. Qed.

(** The screen of the kernel. *)
Definition displays (k : kernel) (v : view) : Prop := tty_wf (k_tty k) /\ shows (k_tty k) v.

Lemma displays_mem k k' f v :
  displays k v -> k_tty k' = set_t_mem (kmem k') (set_t_if f (k_tty k)) ->
  (forall b, b < 4194304 -> mget (kmem k') b = mget (kmem k) b) -> displays k' v.
Proof.
  intros [Hwf (Hc & Hy & Hx)] E Hm. unfold displays. rewrite E. split; [by destruct Hwf|].
  split; [|done]. intros y x Hon. rewrite <- Hc by done. unfold screen_char. apply Hm.
  destruct Hon as [Hoy Hox]. rewrite vaddr_eq. unfold VIDEO. lia.
Qed.

Lemma displays_if f k v : displays k v -> displays (set_if f k) v.
Proof. intros H. by apply (displays_mem k _ f). Qed.


(** ** Strings on the screen *)

Lemma ece391_strlen_spec m p str :
  cstr m p str -> zlen str < 4294967296 -> ece391_strlen m p = Ok (zlen str).
Proof.
  intros Hs Hlen. unfold ece391_strlen.
  apply (while_index _ (fun n st => st = (p + (zlen str - n), zlen str - n) /\ 0 <= n <= zlen str)
           (fun r => r = Ok (zlen str)) (zlen str)); [split; [f_equal; lia | lia] | lia|].
  intros n st [-> Hn]. unfold ece391_strlen_step.
  destruct (Z.eqb_spec (mget m (p + (zlen str - n))) 0) as [E|E].
  - destruct (Z.eq_dec n 0) as [->|]; [f_equal; lia|].
    destruct (cstr_nonzero _ _ _ (zlen str - n) Hs); [lia | done].
  - assert (n <> 0).
    { intros ->. rewrite Z.sub_0_r in E. by rewrite (cstr_end _ _ _ Hs) in E. }
    exists (n - 1). rewrite u32_small by lia. split; [lia|]. split; [f_equal; lia | lia].
Qed.

Lemma cstr_mbytes m a s : cstr m a s -> mbytes m a (List.length s) = s.
Proof.
  intros Hs. apply (anth_eq 0); [by rewrite length_mbytes|].
  rewrite length_mbytes. intros i Hi. rewrite anth_mbytes by lia. by apply cstr_char.
Qed.

Lemma fdputs_screen lay ks k t q p str v :
  fops_ok lay -> 0 <= curr_task_pos k < 6 -> has_fds lay (kmem k) (curr_pcb k) t ->
  anth None t 1 = Some (FStdout, q) -> displays k v ->
  cstr (kmem k) p str -> zlen str < 2147483648 -> 8388608 <= p ->
  exists k', ece391_fdputs lay ks 1 p k = Ok (inl tt, k') /\
    displays k' (abs_puts str v) /\ steady k k' /\
    (forall b, 4194304 <= b -> mget (kmem k') b = mget (kmem k) b).
Proof.
  intros Hfo Hsl Hfd H1 [Hwf Hsh] Hs Hl Hp.
  destruct (write_screen lay (ks_prev ks) (set_if true k) t q p (zlen str) v)
    as (k' & Hw & Hwf' & Hsh' & _ & Hst & Hm); try done; [by destruct Hwf | lia|].
  exists (set_if true k'). split; [|split; [|split; [|exact Hm]]].
  - unfold ece391_fdputs.
    erewrite bind_ok by reflexivity. rewrite (ece391_strlen_spec _ _ _ Hs) by lia.
    erewrite bind_ok by reflexivity. erewrite ubind_inl; [reflexivity|].
    apply write_call; [unfold int32; lia | unfold int32; lia | exact Hw].
  - apply displays_if. split; [exact Hwf'|]. rewrite Nat2Z.id in Hsh'.
    change (kmem (set_if true k)) with (kmem k) in Hsh'. by rewrite (cstr_mbytes _ _ _ Hs) in Hsh'.
  - transitivity (set_if true k); [apply steady_if|]. transitivity k'; [exact Hst | apply steady_if].
Qed.

Lemma world_keeper lay fs m start NI NB dir i :
  world lay fs m start NI NB dir -> world lay (set_file_pos_keeper i fs) m start NI NB dir.
Proof. intros []. constructor; try done. by apply image_keeper. Qed.

(** A calm program leaves the file system as it is. *)
Lemma calm_world lay k k' start NI NB dir :
  calm k k' -> 0 <= curr_task_pos k < 6 -> world lay (k_fs k) (kmem k) start NI NB dir ->
  world lay (k_fs k') (kmem k') start NI NB dir.
Proof.
  intros Hc Hsl Hw. pose proof (pcb_at_low _ Hsl) as (P5 & Plo & Phi).
  assert (Hm : forall b, 4194304 <= b < pcb_at 5 -> mget (kmem k') b = mget (kmem k) b).
  { intros b Hb. apply (sd_mem _ _ Hc); [lia|]. unfold outside, page_at. lia. }
  eapply world_same in Hw; [|exact Hm]. destruct (sd_fs _ _ Hc) as (F1 & F2 & F3 & F4).
  destruct Hw as [[] ? ? [Hd1 Hd2] ? ?]. constructor; try done; [constructor; congruence|].
  split; [exact Hd1|]. unfold dentry_addr in *; by rewrite F3.
Qed.

(** Every plain file of the directory is well formed. *)
Definition files_ok (fs : fsvars) (m : mem) (NI NB : Z) (dir : list entry) : Prop :=
  forall j f, dir !! j = Some f -> e_type f = 2 -> file_ok m fs NI NB (e_inode f).

(** A file, too. *)
Lemma calm_file lay k k' start NI NB dir ino :
  calm k k' -> 0 <= curr_task_pos k < 6 -> world lay (k_fs k) (kmem k) start NI NB dir ->
  file_ok (kmem k) (k_fs k) NI NB ino ->
  file_ok (kmem k') (k_fs k') NI NB ino /\
  file_content (kmem k') (k_fs k') ino = file_content (kmem k) (k_fs k) ino.
Proof.
  intros Hc Hsl Hw Hf. pose proof (pcb_at_low _ Hsl) as (P5 & Plo & Phi).
  destruct (file_kernel _ _ _ (kmem k') _ _ _ _ _ Hw Hf) as ([F1 F2 F3] & _ & Hfc).
  { intros b Hb. apply (sd_mem _ _ Hc); [lia|]. unfold outside, page_at. lia. }
  destruct (sd_fs _ _ Hc) as (_ & E2 & _ & E4). rewrite <- Hfc.
  unfold file_content, file_byte, file_len in *. split.
  - constructor; unfold file_len in *; by rewrite ?E4.
  - by rewrite E2, E4.
Qed.

(** ** A program that has just been entered *)

Record program_ready (lay : layout) (k : kernel) (start NI NB : Z) (dir : list entry)
  (args : list Z) (v : view) : Prop := {
  pr_world : world lay (k_fs k) (kmem k) start NI NB dir;
  pr_files : files_ok (k_fs k) (kmem k) NI NB dir;
  pr_fops : fops_ok lay;
  pr_slot : 0 <= curr_task_pos k < 6;
  pr_fds : has_fds lay (kmem k) (curr_pcb k) fresh_fds;
  pr_args : cstr (kmem k) (arg_buffer (curr_pcb k)) args;
  pr_screen : displays k v;
}.

(** Where [open] and [read] keep their copy of a directory entry: on the
    kernel stack of the program. *)
Definition dentry_fits (ks : kstack) (pos : Z) : Prop :=
  pcb_at pos + 520 <= ks_dentry ks /\ ks_dentry ks + 64 <= pcb_at pos + 8192.

(** After [open], whichever way it went. *)
Lemma open_leaves lay ks start NI NB dir name s t k v r k' :
  open_ready lay k start NI NB dir (ks_dentry ks) name s t ->
  open lay (ks_dentry ks) name k = Ok (r, k') ->
  displays k v ->
  (forall b, (b < ks_dentry ks \/ ks_dentry ks + 64 <= b) ->
     (b < curr_pcb k \/ curr_pcb k + 388 <= b) -> mget (kmem k') b = mget (kmem k) b) ->
  (exists i, k' = set_kmem (kmem k') (set_k_fs (set_file_pos_keeper i (k_fs k)) (set_if false k))) ->
  displays k' v /\ steady k k' /\ world lay (k_fs k') (kmem k') start NI NB dir /\
  (exists i, k_fs k' = set_file_pos_keeper i (k_fs k)) /\
  (forall b, b < pcb_at 5 \/ 8388608 <= b -> mget (kmem k') b = mget (kmem k) b).
Proof.
  intros Hr _ Hd Hm (i & Ek).
  destruct Hr as [Hw _ Hsl _ _ _ _ _ _ Hde _ _].
  pose proof (pcb_at_low _ Hsl) as (P5 & Plo & Phi). unfold curr_pcb in *.
  assert (Hout : forall b, b < pcb_at 5 \/ 8388608 <= b -> mget (kmem k') b = mget (kmem k) b)
    by (intros; apply Hm; lia).
  split_and!; [| | | |exact Hout].
  - apply (displays_mem k _ false); [exact Hd | by rewrite Ek | intros; apply Hout; lia].
  - apply (steady_mem false); [by rewrite Ek at 1 3 | by rewrite Ek | |].
    + intros b Hb. unfold curr_pcb in Hb. apply Hm; lia.
    + intros b Hb [Ho _]. apply Hm; lia.
  - rewrite Ek. apply world_keeper. eapply world_high; [exact Hw|]. intros. apply Hout. lia.
  - exists i. by rewrite Ek.
Qed.

(** [open] of a program that has no files open yet. *)
Lemma open_program lay ks start NI NB dir name s k v :
  open_ready lay (set_if true k) start NI NB dir (ks_dentry ks) name s fresh_fds ->
  displays k v ->
  exists r k', ece391_open lay ks name k = Ok (inl r, k') /\
    match abs_lookup dir s with
    | None => r = -1 /\ has_fds lay (kmem k') (curr_pcb k') fresh_fds
    | Some j => forall f kd, dir !! Z.to_nat j = Some f -> kind_of_type (e_type f) = Some kd ->
        r = 2 /\ has_fds lay (kmem k') (curr_pcb k') (<[2%nat := Some (kd, 0)]> fresh_fds) /\
        cstr (kmem k') (file_name_at (curr_pcb k') 2) s
    end /\
    displays k' v /\ steady k k' /\ world lay (k_fs k') (kmem k') start NI NB dir /\
    (exists i, k_fs k' = set_file_pos_keeper i (k_fs k)) /\
    (forall b, b < pcb_at 5 \/ 8388608 <= b -> mget (kmem k') b = mget (kmem k) b).
Proof.
  intros Hor Hd.
  destruct (open_spec _ _ _ _ _ _ _ _ _ _ Hor) as (r & k2 & Hop & Hres & Hp & _ & Hm & Hk).
  destruct (open_leaves _ _ _ _ _ _ _ _ _ _ v _ _ Hor Hop (displays_if true k v Hd) Hm Hk)
    as (Hd2 & Hs2 & Hw2 & Hf2 & Hout).
  exists r, (set_if true k2). split; [by apply open_call|]. split.
  - destruct (abs_lookup dir s) as [j|]; [|exact Hres].
    destruct Hres as (f' & Hf' & Hres). intros f kd Hf Hkd.
    assert (f' = f) as -> by congruence. rewrite Hkd in Hres. by destruct Hres as (H1 & H2 & H3 & _).
  - split; [by apply displays_if|]. split; [|done].
    transitivity (set_if true k); [apply steady_if|]. transitivity k2; [exact Hs2 | apply steady_if].
Qed.

(** ** Literals of a program *)

(** The string [s] is in the file of a program, where the program expects it
    once it is loaded in slot [pos]. *)
Definition in_image (p : Z) (s : list Z) (pos : Z) (content : list Z) : Prop :=
  exists off : nat, p = load_at pos + Z.of_nat off /\
    take (List.length s + 1) (drop off content) = s ++ [0].

Lemma image_loaded p s pos content m i :
  in_image p s pos content -> mbytes m (load_at pos) (List.length content) = content ->
  0 <= i < zlen s + 1 -> mget m (p + i) = anth 0 (s ++ [0]) i.
Proof.
  intros (off & -> & Ht) Hm Hi.
  assert (Hlen : (off + List.length s + 1 <= List.length content)%nat).
  { apply (f_equal (@List.length Z)) in Ht. rewrite length_take, length_drop, length_app in Ht.
    cbn in Ht. lia. }
  rewrite <- Ht. unfold anth. rewrite nth_lookup, lookup_take_lt, lookup_drop by lia.
  rewrite <- Hm, <- nth_lookup.
  replace (off + Z.to_nat i)%nat with (Z.to_nat (Z.of_nat off + i)) by lia.
  fold (anth 0 (mbytes m (load_at pos) (List.length content)) (Z.of_nat off + i)).
  rewrite anth_mbytes by lia. f_equal. lia.
Qed.

Lemma literal_loaded p s pos content m :
  in_image p s pos content -> Forall (fun c => c <> 0) s ->
  mbytes m (load_at pos) (List.length content) = content -> cstr m p s.
Proof.
  intros Hin Hnz Hm. split.
  - intros i Hi. rewrite (image_loaded p s pos content) by done || lia.
    rewrite anth_app, decide_True by lia. split; [done|]. rewrite Forall_nth in Hnz. apply Hnz. lia.
  - rewrite (image_loaded p s pos content) by done || lia.
    rewrite anth_app, decide_False by lia. by rewrite Z.sub_diag.
Qed.

(** ** From [execute] to [halt] *)

(** The task in slot [sp] can execute the command [cmd], which names a program
    whose file holds [content]; slot [pos] is free for it. *)
Record can_launch (lay : layout) (fr : frame) (sp : Z) (t : option Z) (cmd : list Z)
  (k : kernel) (start NI NB : Z) (dir : list entry) (content : list Z) (pos : Z) : Prop := {
  cl_world : world lay (k_fs k) (kmem k) start NI NB dir;
  cl_frame : frame_ok fr sp;
  cl_layout : layout_ok lay;
  cl_dir : dir_ok lay (page_dir k) t;
  cl_tab : tab_ok (page_tab k);
  cl_room : 0 <= runn_task_num k < 6;
  cl_lengths : 0 < zlen (cmd_word cmd) < 20 /\ zlen (cmd_args cmd) < 30;
  cl_files : files_ok (k_fs k) (kmem k) NI NB dir;
  cl_program : exists i e, abs_lookup dir (cmd_word cmd) = Some i /\ dir !! Z.to_nat i = Some e /\
    e_type e = 2 /\ file_content (kmem k) (k_fs k) (e_inode e) = content;
  cl_size : 30 <= zlen content <= 3899392;
  cl_magic : take 4 content = elf_magic;
  cl_free : first_free (task_bitmap k) pos;
  cl_slots : zlen (task_bitmap k) = 6;
  cl_pos : 0 < pos;
  cl_other : pos <> sp;
  cl_current : curr_task_pos k = sp;
  cl_running : 1 <= runn_task_num k;
  cl_id : load_s32 (kmem k) (process_id (pcb_at sp)) = sp;
  cl_fops : fops_ok lay;
}.

(** It executes the command at [command]; the screen shows [v]. *)
Record launch (lay : layout) (fr : frame) (sp : Z) (t : option Z) (command : Z) (cmd : list Z)
  (k : kernel) (start NI NB : Z) (dir : list entry) (content : list Z) (pos : Z) (v : view)
  : Prop := {
  la_can : can_launch lay fr sp t cmd k start NI NB dir content pos;
  la_cmd : cstr (kmem k) command cmd;
  la_len : zlen cmd < 128;
  la_ptr : command <> 0;
  la_screen : displays k v;
}.

Lemma launch_ready lay fr sp t command cmd k start NI NB dir content pos v :
  launch lay fr sp t command cmd k start NI NB dir content pos v ->
  exec_ready lay fr sp t command cmd k start NI NB dir.
Proof.
  intros [[C1 C2 C3 C4 C5 C6 [C7 C7'] _ _ _ _ _ _ _ _ _ _ _ _] Hs Hl Hp _].
  constructor; try assumption. by constructor.
Qed.

(** It depends on the console only through the kernel's memory. *)
Lemma can_launch_same lay fr sp t cmd k k' start NI NB dir content pos :
  can_launch lay fr sp t cmd k start NI NB dir content pos -> console_only k k' ->
  (forall b, 4194304 <= b < 8388608 -> mget (kmem k') b = mget (kmem k) b) ->
  can_launch lay fr sp t cmd k' start NI NB dir content pos.
Proof.
  intros [C1 C2 C3 C4 C5 C6 C7 C8 C9 C10 C11 C12 C13 C14 C15 C16 C17 C18 C19] Co Hm.
  pose proof (pcb_at_low _ (fo_slot _ _ C2)) as (P5 & Plo & Phi).
  assert (Hlow : forall b, 4194304 <= b < pcb_at 5 -> mget (kmem k') b = mget (kmem k) b)
    by (intros; apply Hm; lia).
  assert (Ef : k_fs k' = k_fs k) by (by rewrite Co).
  assert (Hfile : forall j f, dir !! j = Some f -> e_type f = 2 ->
    file_ok (kmem k') (k_fs k) NI NB (e_inode f) /\
    file_content (kmem k') (k_fs k) (e_inode f) = file_content (kmem k) (k_fs k) (e_inode f)).
  { intros j f Hj Ht. by destruct (file_kernel _ _ _ _ _ _ _ _ _ C1 (C8 j f Hj Ht) Hlow) as (? & _ & ?). }
  constructor; rewrite ?Ef; try assumption; try (rewrite Co; assumption).
  - by eapply world_same.
  - intros j f Hj Ht. exact (proj1 (Hfile j f Hj Ht)).
  - destruct C9 as (i & e & E1 & E2 & E3 & E4). exists i, e. split; [done|]. split; [done|].
    split; [done|]. rewrite <- E4. exact (proj2 (Hfile _ _ E2 E3)).
  - rewrite <- C18 at 2. unfold load_s32. f_equal. apply load32_ext. intros b Hb. apply Hm.
    unfold process_id in Hb. lia.
Qed.

(** Back in the task that has executed the program of slot [pos]: the tasks,
    the page tables, the file system and memory that is neither the
    program's nor the kernel stack of the task. *)
Record back (lay : layout) (pos : Z) (k k' : kernel) : Prop := {
  rt_bitmap : task_bitmap k' = task_bitmap k;
  rt_pos : curr_task_pos k' = curr_task_pos k;
  rt_running : runn_task_num k' = runn_task_num k;
  rt_dir : dir_ok lay (page_dir k') (Some (curr_task_pos k));
  rt_tab : page_tab k' = page_tab k;
  rt_mmu : mmu_sync k';
  rt_fs : fs_same (k_fs k) (k_fs k');
  rt_mem : forall b, 4194304 <= b -> outside pos b ->
    (b < curr_pcb k + 520 \/ curr_pcb k + 8192 <= b) -> mget (kmem k') b = mget (kmem k) b;
}.

(** The line being typed, too. *)
Record returned (lay : layout) (pos : Z) (k k' : kernel) : Prop := {
  rt_back :> back lay pos k k';
  rt_typing : forall kb line, typing kb line (k_tty k) -> typing kb line (k_tty k');
}.

(** Files are the same when the image has not changed. *)
Lemma files_same lay fs m i m' start NI NB dir :
  world lay fs m start NI NB dir -> files_ok fs m NI NB dir ->
  (forall b, 4194304 <= b < pcb_at 5 -> mget m' b = mget m b) ->
  files_ok (set_file_pos_keeper i fs) m' NI NB dir /\
  forall j f, dir !! j = Some f -> e_type f = 2 ->
    file_content m' (set_file_pos_keeper i fs) (e_inode f) = file_content m fs (e_inode f).
Proof.
  intros Hw Hf Hm.
  assert (Hall : forall j f, dir !! j = Some f -> e_type f = 2 ->
    file_ok m' fs NI NB (e_inode f) /\ file_content m' fs (e_inode f) = file_content m fs (e_inode f)).
  { intros j f Hj Ht. by destruct (file_kernel _ _ _ m' _ _ _ _ _ Hw (Hf j f Hj Ht) Hm) as (? & _ & ?). }
  split; intros j f Hj Ht; destruct (Hall j f Hj Ht) as [[] H]; [done | exact H].
Qed.

(** The state [k1] in which a program loaded in slot [pos] is entered from
    the state [k]. *)
Record entered (lay : layout) (start NI NB : Z) (dir : list entry) (pos : Z)
  (content args : list Z) (v : view) (k k1 : kernel) : Prop := {
  en_ready : program_ready lay k1 start NI NB dir args v;
  en_slot : curr_task_pos k1 = pos;
  en_image : mbytes (kmem k1) (load_at pos) (List.length content) = content;
  en_fs : exists i, k_fs k1 = set_file_pos_keeper i (k_fs k);
  en_low : forall b, 4194304 <= b < pcb_at 5 -> mget (kmem k1) b = mget (kmem k) b;
}.

(** The interface of a program to those who execute it: entered from [k] with
    its arguments, its [main] ends with the value [st], has put [text] on the
    screen, and has been steady. *)
Class Program (lay : layout) (start NI NB : Z) (dir : list entry) (pos : Z)
  (content args : list Z) (k : kernel) (main : UP Z) (st : Z) (text : list Z) : Prop := {
  prog_status : 0 <= st < 255;
  prog_runs : forall k1 v, entered lay start NI NB dir pos content args v k k1 ->
    exists k2, main k1 = Ok (inl st, k2) /\ displays k2 (abs_puts text v) /\ steady k1 k2;
}.

(** Entering is the same from a state with the same file system. *)
Lemma entered_from lay start NI NB dir pos content args v k k' k1 :
  entered lay start NI NB dir pos content args v k' k1 -> k_fs k' = k_fs k ->
  (forall b, 4194304 <= b < pcb_at 5 -> mget (kmem k') b = mget (kmem k) b) ->
  entered lay start NI NB dir pos content args v k k1.
Proof.
  intros [E1 E2 E3 (i & E4) E5] Ef Hm. constructor; try assumption.
  - exists i. by rewrite E4, Ef.
  - intros b Hb. by rewrite E5, Hm.
Qed.

Lemma program_from lay start NI NB dir pos content args k k' main st text :
  Program lay start NI NB dir pos content args k main st text -> k_fs k' = k_fs k ->
  (forall b, 4194304 <= b < pcb_at 5 -> mget (kmem k') b = mget (kmem k) b) ->
  Program lay start NI NB dir pos content args k' main st text.
Proof.
  intros [Hst Hrun] Ef Hm. split; [exact Hst|]. intros k1 v En. apply Hrun. by eapply entered_from.
Qed.

Section Launch.
Context {lay : layout} {fr : frame} {sp : Z} {t : option Z} {command : Z} {cmd : list Z}.
Context {k : kernel} {start NI NB : Z} {dir : list entry} {content : list Z} {pos : Z} {v : view}.
Context (La : launch lay fr sp t command cmd k start NI NB dir content pos v).

Lemma launch_enters :
  exists k1, execute lay fr command k = Ok (Entered (elf_entry content), k1) /\
    started lay fr sp pos content (cmd_args cmd) k k1 /\
    entered lay start NI NB dir pos content (cmd_args cmd) v k k1.
Proof.
  pose proof (launch_ready _ _ _ _ _ _ _ _ _ _ _ _ _ _ La) as Hr.
  destruct La as [[_ _ _ _ _ _ _ Hfiles (i & e & Hlk & He & Hty & Hc) Hsz Hmg Hff _ _ Hne _ _ _ Hfo]
    _ _ _ Hd].
  rewrite <- Hc in Hsz, Hmg.
  destruct (execute_spec _ _ _ _ _ _ _ _ _ _ _ _ _ pos Hr Hlk He (Hfiles _ _ He Hty) Hsz Hmg Hff
    (or_introl Hne)) as (k1 & Hex & St). rewrite Hc in Hex, St.
  pose proof (er_world _ _ _ _ _ _ _ _ _ _ _ Hr) as Hw.
  pose proof (fo_slot _ _ (er_frame _ _ _ _ _ _ _ _ _ _ _ Hr)) as Hsp.
  pose proof (pcb_at_low _ Hsp) as (P5 & S1 & S2).
  pose proof (pcb_at_low _ (proj1 Hff)) as (_ & P1 & P2).
  destruct (st_fs _ _ _ _ _ _ _ _ St) as [j Ej]. destruct (st_tty _ _ _ _ _ _ _ _ St) as [f Et].
  assert (Hlow : forall b, b < pcb_at 5 -> mget (kmem k1) b = mget (kmem k) b).
  { intros b Hb. apply (st_frame _ _ _ _ _ _ _ _ St); [lia | lia|].
    left. unfold load_at. destruct Hff. lia. }
  destruct (files_same _ _ _ j _ _ _ _ _ Hw Hfiles (fun b Hb => Hlow b (proj2 Hb))) as [Hf1 _].
  exists k1. split; [exact Hex|]. split; [exact St|].
  pose proof (st_pos _ _ _ _ _ _ _ _ St) as Ep. pose proof (st_pcb _ _ _ _ _ _ _ _ St) as Hpcb.
  constructor; [|exact Ep | exact (st_image _ _ _ _ _ _ _ _ St) | by exists j | intros b [_ Hb]; by apply Hlow].
  constructor; unfold curr_pcb; rewrite ?Ep, ?Ej; try assumption.
  - apply world_keeper. by eapply world_high.
  - exact (proj1 Hff).
  - by eapply fresh_has_fds.
  - exact (fp_args _ _ _ _ _ _ _ Hpcb).
  - apply (displays_mem k _ f); [exact Hd | exact Et|]. intros b Hb. apply Hlow. lia.
Qed.

Lemma resumed_displays parent k1 k' w :
  resumed lay pos parent k1 k' -> 0 <= pos < 6 -> displays k1 w -> displays k' w.
Proof.
  intros Hr Hp Hd. pose proof (pcb_at_low _ Hp). apply (displays_mem k1 _ false); [exact Hd | |].
  - exact (re_tty _ _ _ _ _ Hr).
  - intros b Hb. apply (re_frame _ _ _ _ _ Hr). lia.
Qed.

(** Nothing outside the program has changed when the task is resumed. *)
Lemma launch_leaves k1 k2 k3 :
  started lay fr sp pos content (cmd_args cmd) k k1 -> calm k1 k2 ->
  resumed lay pos sp k2 k3 ->
  page_tab k3 = page_tab k /\ fs_same (k_fs k) (k_fs k3) /\
  (forall b, 4194304 <= b -> outside pos b ->
    (b < curr_pcb k + 520 \/ curr_pcb k + 8192 <= b) -> mget (kmem k3) b = mget (kmem k) b).
Proof.
  intros St Sd Res. destruct La as [[_ _ _ _ _ _ _ _ _ Hsz _ Hff _ _ _ Hcur _ _ _] _ _ _ _].
  destruct (st_fs _ _ _ _ _ _ _ _ St) as [i Ei].
  pose proof (st_pos _ _ _ _ _ _ _ _ St) as Ep.
  split_and!.
  - rewrite (re_tab _ _ _ _ _ Res), (sd_tab _ _ Sd). exact (st_tab _ _ _ _ _ _ _ _ St).
  - rewrite (re_fs _ _ _ _ _ Res).
    pose proof (sd_fs _ _ Sd) as Hf. by rewrite Ei in Hf.
  - intros b Hb [Ho Ho'] Hs. unfold curr_pcb in Hs. rewrite Hcur in Hs.
    rewrite (re_frame _ _ _ _ _ Res) by lia. rewrite (sd_mem _ _ Sd) by (rewrite ?Ep; done).
    apply (st_frame _ _ _ _ _ _ _ _ St); [lia | lia|]. unfold load_at, page_at in *. lia.
Qed.

(** What is typed does not change when a program is entered or left. *)
Lemma enter_typing k1 kb line :
  started lay fr sp pos content (cmd_args cmd) k k1 ->
  typing kb line (k_tty k) -> typing kb line (k_tty k1).
Proof.
  intros St Hty. destruct (st_tty _ _ _ _ _ _ _ _ St) as [f Et]. rewrite Et. by apply typing_mem.
Qed.

(** [halt] with the value [st], in a program that has been calm. *)
Lemma launch_halts fr' k1 k2 st w :
  started lay fr sp pos content (cmd_args cmd) k k1 -> calm k1 k2 -> displays k2 w ->
  exists k3, halt lay fr' st k2 = Ok (Resume (f_esp fr) (f_ebp fr) (exit_status st), k3) /\
    displays k3 w /\ back lay pos k k3 /\
    (forall kb line, typing kb line (k_tty k2) -> typing kb line (k_tty k3)).
Proof.
  intros St Sd Hd. pose proof (launch_leaves k1 k2) as Hleaves.
  destruct La as [[_ Hfr _ _ _ Hroom _ _ _ _ _ Hff Hbl Hp0 Hne Hcur Hrun Hid _] _ _ _ _].
  pose proof (fo_slot _ _ Hfr) as Hsp.
  pose proof (st_pos _ _ _ _ _ _ _ _ St) as Ep.
  assert (Hran : program_ran lay pos k1 k2).
  { destruct Sd as [Sb Sp Sr Sd _ _ Sm _ _]. constructor; try assumption.
    - rewrite Sd. exact (st_dir _ _ _ _ _ _ _ _ St).
    - intros b Hb. apply Sm. unfold curr_pcb. rewrite Ep. lia. }
  destruct (halt_returns _ _ _ _ _ _ _ _ _ fr' st St Hran Hff Hbl Hp0 Hsp Hcur
    ltac:(lia) Hid) as (k3 & Hh & Hres & Eb & Ec & Er).
  destruct (Hleaves k3 St Sd Hres) as (Ht & Hf & Hm).
  exists k3. split; [exact Hh|]. split; [|split].
  - eapply resumed_displays; [exact Hres | exact (proj1 Hff) | exact Hd].
  - constructor; try assumption; [|exact (re_mmu _ _ _ _ _ Hres)].
    rewrite Hcur. exact (re_dir _ _ _ _ _ Hres).
  - intros kb line Hty. rewrite (re_tty _ _ _ _ _ Hres). by apply typing_mem.
Qed.

Lemma launch_returns ks k1 k2 st w :
  started lay fr sp pos content (cmd_args cmd) k k1 -> calm k1 k2 -> displays k2 w ->
  exists k3, ece391_halt lay ks st k2 =
      Ok (inr (Resuming (f_esp fr) (f_ebp fr) (exit_status st)), k3) /\
    displays k3 w /\ back lay pos k k3 /\
    (forall kb line, typing kb line (k_tty k2) -> typing kb line (k_tty k3)).
Proof.
  intros St Sd Hd.
  destruct (launch_halts (ks_frame ks) k1 (set_if true k2) st w St) as (k3 & Hh & Hd3 & Hb & Hty);
    [transitivity k2; [exact Sd | apply steady_if] | by apply displays_if|].
  exists k3. split; [by apply halt_call|]. split; [exact Hd3|]. split; [exact Hb|].
  intros kb line Ht. apply Hty. by apply (typing_mem _ _ _ (kmem k2) true).
Qed.

Lemma exit_small st : 0 <= st < 255 -> exit_status st = st.
Proof.
  intros H. unfold exit_status. by rewrite u8_small, (proj2 (Z.eqb_neq st 255)) by lia.
Qed.

(** A command whose program keeps its promise. *)
Lemma command_runs ks main st text :
  Program lay start NI NB dir pos content (cmd_args cmd) k main st text ->
  exists k1 k2, execute lay fr command k = Ok (Entered (elf_entry content), k1) /\
    _start lay ks main k1 = Ok (inr (Resuming (f_esp fr) (f_ebp fr) st), k2) /\
    displays k2 (abs_puts text v) /\ returned lay pos k k2.
Proof.
  intros [Hst Hprog]. destruct launch_enters as (k1 & Hex & St & En).
  destruct (Hprog k1 v En) as (k2 & Hmain & Hd2 & Hs2).
  destruct (launch_returns ks k1 k2 st _ St Hs2 Hd2) as (k3 & Hrun & Hd3 & Hret & Hty).
  rewrite exit_small in Hrun by done.
  exists k1, k3. split; [exact Hex|]. split; [|split; [exact Hd3|]].
  - unfold _start. by erewrite ubind_inl by exact Hmain.
  - constructor; [exact Hret|]. intros kb line Ht.
    by apply Hty, (sd_typing _ _ Hs2), (enter_typing k1).
Qed.
End Launch.
