(* ===== verification/Cases.v ===== *)
(** * The test cases of lib.c

    Five functions that show the file system and the clock on the screen,
    picked by a number.  The handler of the keyboard used to call them; the
    calls are comments now. *)

From Stdlib Require Import ZArith Lia String Ascii.
From stdpp Require Import base numbers list gmap.
From S2P Require Import Prelude Mem CString FileSys Console Printf Machine Pcb Exec Trap Program.

Local Open Scope Z_scope.

(** ** The code *)

Definition TEST_V : Z := 36864.

(** The local variables, and the name in [control_two]. *)
Record case_frame := CaseFrame {
  cf_buffer : Z;      (** [buffer], [TEST_V] bytes *)
  cf_dentry : Z;      (** [dentry] *)
  lit_large : Z;      (** "verylargetextwithverylongname.txt" *)
}.

Section Code.
Context (cf : case_frame).
Local Abbreviation buffer := (cf_buffer cf).
Local Abbreviation dentry := (cf_dentry cf).

Definition kprintf (fmt args : list Z) : ST kernel unit := _ ← on_tty (printf fmt args); mret tt.

(** [buffer[i] = c] *)
Definition set_buffer (i c : Z) : ST kernel unit :=
  if (0 <=? i) && (i <? TEST_V) then modify (fun k => set_kmem (mset (kmem k) (buffer + i) c) k)
  else fail OutOfBounds.

(** [read_dentry_by_name], whose result the callers drop. *)
Definition look_up (fname : Z) : ST kernel unit :=
  fs ← gets k_fs; m ← gets kmem;
  '(_, fs', m') ← liftR (read_dentry_by_name fs m fname dentry);
  modify (fun k => set_kmem m' (set_k_fs fs' k)).

Definition load_data (inode length : Z) : ST kernel Z :=
  fs ← gets k_fs; m ← gets kmem;
  '(n, m') ← liftR (read_data fs m inode 0 buffer length);
  modify (set_kmem m') ;; mret n.

(** The loop over the directory: a name, and what its entry says. *)
Definition one_step (st : Z * kernel) : (Z * kernel) + res (unit * kernel) :=
  let '(i, k) := st in
  match fs_print_name (k_fs k) (kmem k) i buffer TEST_V with
  | Err e => inr (Err e)
  | Ok (len, m) =>
      if 0 <? s32 len then
        match (set_buffer (s32 len) 0 ;;
               look_up buffer ;;
               m ← gets kmem; fs ← gets k_fs;
               kprintf (bytes "name: %s, type: %d, idx:%d, size:%d" ++ [LF])
                 [buffer; load32 m (dentry + 32); load32 m (dentry + 36);
                  load32 m (u32 (get_start fs + INODES_SIZE + load32 m (dentry + 36) * INODES_SIZE))])
              (set_kmem m k) with
        | Err e => inr (Err e)
        | Ok (_, k1) => inl (i + 1, k1)
        end
      else inr (Ok (tt, set_kmem m k))
  end.

Definition control_one : ST kernel unit :=
  on_tty reset ;;
  for_range 0 TEST_V (fun index => set_buffer index 0) ;;
  kprintf (bytes "printing file name: " ++ [LF]) [] ;;
  ((fun k => while one_step (0, k)) : ST kernel unit).

Definition control_two : ST kernel unit :=
  on_tty reset ;;
  kprintf (bytes "printing: %s" ++ [LF]) [lit_large cf] ;;
  look_up (lit_large cf) ;;
  m ← gets kmem;
  _ ← load_data (load32 m (dentry + 36)) TEST_V;
  kprintf (bytes "%s" ++ [LF]) [buffer].

(** What [control_three] does with the entry [i]: from the copied entry on. *)
Definition print_file (length : Z) : ST kernel unit :=
  set_buffer length 0 ;;
  for_range 0 length (fun a => m ← gets kmem; kprintf (bytes "%c") [mget m (buffer + a)]) ;;
  kprintf (bytes "filename: %s" ++ [LF]) [dentry].

Definition show_file (i : Z) : ST kernel unit :=
  fs ← gets k_fs; m ← gets kmem;
  '(_, m') ← liftR (read_dentry_by_index fs m (u32 i) dentry);
  modify (set_kmem m') ;;
  let size := get_dentry_size fs m' dentry in
  length ← load_data (load32 m' (dentry + 36)) (u32 size);
  print_file length.

(** [i] is a variable of the file; the result is its next value. *)
Definition control_three (i : Z) : ST kernel Z :=
  on_tty reset ;;
  fs ← gets k_fs; m ← gets kmem;
  let num_files := load32 m (u32 (get_start fs)) in
  (if u32 i <? num_files then show_file i else mret tt) ;;
  mret (if 16 <? i + 1 then 0 else i + 1).

Definition set_flag (v : Z) : ST kernel unit := modify (fun k => set_k_tty (set_rtc_flag v (k_tty k)) k).

Definition control_four : ST kernel unit := on_tty reset ;; set_flag 1.
Definition control_five : ST kernel unit := on_tty reset ;; set_flag 0.

Definition rtc_helper (k : kernel) : Z := rtc_flag (k_tty k).

Definition test_case_handler (test i : Z) : ST kernel Z :=
  set_flag 0 ;;
  if test =? 1 then control_one ;; mret i
  else if test =? 2 then control_two ;; mret i
  else if test =? 3 then control_three i
  else if test =? 4 then control_four ;; mret i
  else if test =? 5 then control_five ;; mret i
  else mret i.
End Code.

(** ** The third case: a file and its name *)

(** Only the console has changed. *)
Definition told (k k' : kernel) : Prop :=
  k_fs k' = k_fs k /\ forall b, 4194304 <= b -> mget (kmem k') b = mget (kmem k) b.

#[local] Instance told_trans : Transitive told.
Proof. intros k1 k2 k3 [E1 M1] [E2 M2]. split; [congruence|]. intros b Hb. by rewrite M2, M1. Qed.

Lemma high_off_screen b : 4194304 <= b -> off_screen b.
Proof. unfold off_screen, VIDEO. lia. Qed.

Lemma reset_tells k :
  tty_wf (k_tty k) -> exists k', on_tty reset k = Ok (tt, k') /\ displays k' blank_view /\ told k k'.
Proof.
  intros [_ W2 W3 _ W5].
  destruct (wp_inv _ _ _ (reset_spec (k_tty k) W2 W3 W5)) as ([] & s' & E & Hwf & Hs & _ & _ & _ & _ & Hm).
  exists (set_k_tty s' k). unfold on_tty. rewrite E. split; [done|]. split; [done|]. split; [done|].
  intros b Hb. by apply Hm, high_off_screen.
Qed.

Lemma kprintf_tells fmt args k v :
  displays k v -> fits (kmem k) None fmt args ->
  exists k' text, kprintf fmt args k = Ok (tt, k') /\ expands (kmem k) None fmt args text /\
    displays k' (abs_puts text v) /\ told k k'.
Proof.
  intros [Hwf Hs] Hf. destruct (wp_inv _ _ _ (printf_spec fmt args (k_tty k) Hwf Hf))
    as (n & s' & E & _ & text & He & Hwf' & Hp & Hv).
  exists (set_k_tty s' k), text. split_and!.
  - unfold kprintf. erewrite bind_ok by (unfold on_tty; rewrite E; reflexivity). done.
  - exact He.
  - split; [done|]. by apply Hv.
  - split; [done|]. intros b Hb. by apply Hp, high_off_screen.
Qed.

(** "%c" prints the character. *)
Lemma char_tells c k v :
  displays k v -> 0 <= c < 256 ->
  exists k', kprintf (bytes "%c") [c] k = Ok (tt, k') /\ displays k' (abs_puts [c] v) /\ told k k'.
Proof.
  intros Hd Hc. destruct (kprintf_tells (bytes "%c") [c] k v Hd) as (k' & text & E & He & Hd' & T); [done|].
  exists k'. split_and!; [done| |done]. inversion He as [|? ? ? ? Hn| ? ? ? He1| | |]; subst; [done|].
  inversion He1 as [| | |? ? ? ? H|? ? ? ? ? ? ? Hct He2|? ? ? ? ? Hpl]; subst; [|done].
  inversion Hct; subst; try done. inversion He2; subst. by rewrite u8_small in Hd' by lia.
Qed.

(** A string after a prefix. *)
Lemma name_text m p pre s t :
  forallb (fun c => negb (c =? chr "%")) pre = true -> cstr m (u32 p) s ->
  expands m None (pre ++ bytes "%s" ++ [LF]) [p] t -> t = pre ++ s ++ [LF].
Proof.
  intros Hpre Hs He. apply expands_prefix in He as (t1 & -> & He); [|done]. f_equal.
  inversion He as [|? ? ? ? Hn| ? ? ? He1| | |]; subst; [done|].
  inversion He1 as [| | |? ? ? ? H|? ? ? ? ? ? ? Hct He2|? ? ? ? ? Hpl]; subst; [|done].
  inversion Hct as [| | | | | |? ? ? Hs']; subst; try done. rewrite (cstr_inj _ _ _ _ Hs' Hs). f_equal.
  by apply expands_plain in He2.
Qed.

Section Three.
Context (lay : layout) (cf : case_frame) (start NI NB : Z) (dir : list entry).
Local Abbreviation buffer := (cf_buffer cf).
Local Abbreviation dentry := (cf_dentry cf).

(** The local variables lie outside the screen and the file system. *)
Record case_places : Prop := {
  cp_buffer : pcb_at 5 <= buffer /\ buffer + TEST_V < 4294967296;
  cp_dentry : pcb_at 5 <= dentry /\ dentry + 64 < 4294967296;
  cp_apart : apart buffer TEST_V dentry 64;
}.
Context (Hpl : case_places).

(** Between the calls: the file system, and the entry found. *)
Record case_world (e : entry) (k : kernel) : Prop := {
  cw_world : world lay (k_fs k) (kmem k) start NI NB dir;
  cw_file : file_ok (kmem k) (k_fs k) NI NB (e_inode e);
}.

Lemma case_world_same e k k' :
  case_world e k -> k_fs k' = k_fs k ->
  (forall b, 4194304 <= b < pcb_at 5 -> mget (kmem k') b = mget (kmem k) b) ->
  case_world e k' /\ file_content (kmem k') (k_fs k') (e_inode e) = file_content (kmem k) (k_fs k) (e_inode e).
Proof.
  intros [W F] Ef Hm. destruct (file_kernel _ _ _ (kmem k') _ _ _ _ _ W F Hm) as (F' & _ & E'). rewrite Ef.
  split; [|done]. constructor; rewrite Ef; [by eapply world_same|done].
Qed.

Lemma displays_high k m v :
  displays k v -> (forall b, b < 4194304 -> mget m b = mget (kmem k) b) -> displays (set_kmem m k) v.
Proof. intros Hd Hm. apply (displays_mem k _ (t_if (k_tty k))); [done|by destruct k as [[]]|done]. Qed.

(** The entry of index [i], copied. *)
Lemma entry_copied e k i :
  case_world e k -> dir !! Z.to_nat i = Some e -> 0 <= i < load32 (kmem k) start ->
  exists m', read_dentry_by_index (k_fs k) (kmem k) (u32 i) dentry = Ok (0, m') /\ entry_at m' dentry e /\
    (forall b, b < dentry \/ dentry + 64 <= b -> mget m' b = mget (kmem k) b).
Proof.
  intros [[W1 [W2 W2'] [W3 W3'] [Wl W4] _ _] F] He Hi. pose proof (lookup_lt_Some _ _ _ He) as Hlt.
  rewrite u32_small by (pose proof (load32_range (kmem k) start); lia).
  unfold read_dentry_by_index. rewrite (fi_boot _ _ _ _ _ W1).
  destruct Hpl as [_ [D1 D2] _]. unfold image_end in *.
  assert (pcb_at 5 = 8339456) as P5 by done.
  rewrite (proj2 (Z.leb_gt FILE_DENTRIES i)), (proj2 (Z.eqb_neq dentry 0)), (proj2 (Z.leb_gt _ i))
    by (unfold FILE_DENTRIES; lia). cbn [orb].
  destruct (copy_dentry_spec (kmem k) dentry (dentry_addr (k_fs k) i) e) as (m' & E & He' & Hm).
  - apply W4; [lia|done].
  - right. unfold dentry_addr. rewrite (fi_dentries _ _ _ _ _ W1). unfold DENTRY_SIZE. lia.
  - exists m'. rewrite E. done.
Qed.

(** The size of the file, and its bytes in [buffer]. *)
Lemma file_loaded e k :
  case_world e k -> entry_at (kmem k) dentry e -> file_len (kmem k) (k_fs k) (e_inode e) < TEST_V ->
  let content := file_content (kmem k) (k_fs k) (e_inode e) in
  get_dentry_size (k_fs k) (kmem k) dentry = zlen content /\
  exists m', load_data cf (load32 (kmem k) (dentry + 36)) (u32 (zlen content)) k = Ok (zlen content, set_kmem m' k) /\
    mbytes m' buffer (List.length content) = content /\
    (forall b, b < buffer \/ buffer + zlen content <= b -> mget m' b = mget (kmem k) b).
Proof.
  intros [[W1 [W2 W2'] [W3 W3'] _ _ _] F] (_ & _ & Hino & _) Hlen content. pose proof F as [F1 F2 F3].
  pose proof (length_file_content (kmem k) (k_fs k) (e_inode e)) as Hcl. fold content in Hcl.
  pose proof (load32_range (kmem k) (fs_inodes (k_fs k) + e_inode e * 4096)) as Hr.
  change (load32 (kmem k) (fs_inodes (k_fs k) + e_inode e * 4096)) with (file_len (kmem k) (k_fs k) (e_inode e)) in Hr.
  destruct Hpl as [[B1 B2] _ _]. unfold image_end, TEST_V in *. assert (pcb_at 5 = 8339456) as P5 by done.
  assert (Hlc : zlen content = file_len (kmem k) (k_fs k) (e_inode e)) by (rewrite Hcl; lia).
  split.
  - unfold get_dentry_size, load_s32. rewrite Hino, (fi_boot _ _ _ _ _ W1), u32_small, Hlc by (unfold INODES_SIZE; nia).
    unfold file_len. rewrite (fi_inodes _ _ _ _ _ W1). apply s32_small.
    unfold file_len in Hr, Hlen. rewrite (fi_inodes _ _ _ _ _ W1) in Hr, Hlen. unfold INODES_SIZE. lia.
  - destruct (read_data_content (k_fs k) (kmem k) start NI NB (e_inode e) 0 buffer (u32 (zlen content)) W1 F)
      as (m' & E & Hb & Hm); [lia|lia|apply u32_range|unfold off_image, image_end; lia|].
    rewrite (u32_small (zlen content)) in * by lia. fold content in E, Hb, Hm.
    rewrite drop_0, Nat2Z.id, take_ge in E, Hb, Hm by lia.
    exists m'. split_and!; [|done|done]. unfold load_data. do 2 (erewrite bind_ok by reflexivity).
    rewrite Hino, E. done.
Qed.

(** The loop that prints the file. *)
Lemma content_told k v content :
  displays k v -> mbytes (kmem k) buffer (List.length content) = content ->
  exists k', for_range 0 (zlen content) (fun a => m ← gets kmem; kprintf (bytes "%c") [mget m (buffer + a)]) k =
      Ok (tt, k') /\ displays k' (abs_puts content v) /\ (k' = k \/ told k k').
Proof.
  intros Hd Hb. destruct Hpl as [[B1 B2] _ _]. assert (pcb_at 5 = 8339456) as P5 by done.
  assert (H : wp (for_range 0 (zlen content) (fun a => m ← gets kmem; kprintf (bytes "%c") [mget m (buffer + a)]))
    (fun _ k' => displays k' (abs_puts content v) /\ (k' = k \/ told k k')) k).
  { apply (wp_for (fun a k' => displays k' (abs_puts (take (Z.to_nat a) content) v) /\ (k' = k \/ told k k'))); [lia|by split; [|left]| |].
    - intros a k' Ha [Hd' T].
      assert (Hc : mget (kmem k') (buffer + a) = anth 0 content a).
      { rewrite <- Hb, anth_mbytes by lia. destruct T as [-> | [_ M]]; [done|]. apply M. lia. }
      destruct (char_tells (anth 0 content a) k' _ Hd') as (k2 & E & Hd2 & T2); [rewrite <- Hc; apply mget_range|].
      eapply wp_ok; [erewrite bind_ok by reflexivity; rewrite Hc; exact E|]. split.
      + rewrite <- abs_puts_app in Hd2. replace (Z.to_nat (a + 1)) with (Datatypes.S (Z.to_nat a)) by lia.
        rewrite (take_S_r _ _ (anth 0 content a)); [done|].
        destruct (lookup_lt_is_Some_2 content (Z.to_nat a)) as [x Hx]; [lia|]. unfold anth. by rewrite nth_lookup, Hx.
      + right. destruct T as [->|T]; [done|by transitivity k'].
    - intros k'. rewrite Nat2Z.id, take_ge by lia. done. }
  apply wp_inv in H as ([] & k' & E & H). by exists k'.
Qed.

Lemma file_printed e k v content :
  displays k v -> mbytes (kmem k) buffer (List.length content) = content -> zlen content < TEST_V ->
  entry_at (kmem k) dentry e -> zlen (e_name e) < 32 ->
  exists k', print_file cf (zlen content) k = Ok (tt, k') /\
    displays k' (abs_puts (content ++ bytes "filename: " ++ e_name e ++ [LF]) v).
Proof.
  intros Hd Hb Hlt He Hn. destruct Hpl as [[B1 B2] [D1 D2] Hap]. unfold apart, TEST_V in *.
  assert (pcb_at 5 = 8339456) as P5 by done.
  set (k1 := set_kmem (mset (kmem k) (buffer + zlen content) 0) k).
  assert (E1 : set_buffer cf (zlen content) 0 k = Ok (tt, k1)).
  { unfold set_buffer, TEST_V. by rewrite (proj2 (Z.leb_le 0 _)), (proj2 (Z.ltb_lt _ 36864)) by lia. }
  assert (Hd1 : displays k1 v) by (apply displays_high; [done|intros b Hbb; apply mget_mset_ne; lia]).
  destruct (content_told k1 v content Hd1) as (k2 & E2 & Hd2 & T2).
  { rewrite <- Hb at 2. apply mbytes_ext. intros b Hbb. apply mget_mset_ne. lia. }
  assert (Hs2 : cstr (kmem k2) dentry (e_name e)).
  { eapply cstr_ext; [|by apply name_at_cstr; [apply He|]]. intros b Hbb. symmetry.
    transitivity (mget (kmem k1) b); [destruct T2 as [-> | [_ M2]]; [done|apply M2; lia]|apply mget_mset_ne; lia]. }
  destruct (kprintf_tells (bytes "filename: %s" ++ [LF]) [dentry] k2 _ Hd2) as (k3 & text & E3 & He3 & Hd3 & _).
  { cbn. split; [|done]. exists (e_name e). rewrite u32_small by lia. split_and!; [done|lia|].
    intros x Hx. apply high_off_screen. lia. }
  apply (name_text _ _ (bytes "filename: ") (e_name e)) in He3 as ->; [|done|by rewrite u32_small by lia].
  exists k3. split; [|by rewrite abs_puts_app].
  unfold print_file. by rewrite (bind_ok _ _ _ _ _ E1), (bind_ok _ _ _ _ _ E2).
Qed.

Lemma file_shown e i k v :
  displays k v -> case_world e k -> dir !! Z.to_nat i = Some e -> 0 <= i < load32 (kmem k) start ->
  zlen (e_name e) < 32 -> file_len (kmem k) (k_fs k) (e_inode e) < TEST_V ->
  let content := file_content (kmem k) (k_fs k) (e_inode e) in
  exists k', show_file cf i k = Ok (tt, k') /\
    displays k' (abs_puts (content ++ bytes "filename: " ++ e_name e ++ [LF]) v).
Proof.
  intros Hd Hw He Hi Hn Hlen content. destruct Hpl as [[B1 B2] [D1 D2] Hap]. unfold apart in *.
  assert (pcb_at 5 = 8339456) as P5 by done.
  destruct (entry_copied e k i Hw He Hi) as (m1 & E1 & He1 & M1). set (k1 := set_kmem m1 k).
  destruct (case_world_same e k k1 Hw eq_refl) as [Hw1 Hc1]; [intros b Hb; apply M1; lia|]. fold content in Hc1.
  assert (Hd1 : displays k1 v) by (apply displays_high; [done|intros b Hb; apply M1; lia]).
  assert (Hl : file_len (kmem k1) (k_fs k1) (e_inode e) = file_len (kmem k) (k_fs k) (e_inode e)).
  { destruct Hw as [W F]. destruct (file_kernel _ _ _ m1 _ _ _ _ _ W F) as (_ & H & _); [intros b Hb; apply M1; lia|exact H]. }
  destruct (file_loaded e k1 Hw1 He1) as (Hsz & m2 & E2 & Hb2 & M2); [by rewrite Hl|].
  rewrite Hc1 in Hsz, E2, Hb2, M2. set (k2 := set_kmem m2 k1).
  pose proof (length_file_content (kmem k) (k_fs k) (e_inode e)) as Hcl. fold content in Hcl.
  assert (Hlt : zlen content < TEST_V).
  { pose proof (load32_range (kmem k) (fs_inodes (k_fs k) + e_inode e * 4096)). unfold file_len in *. lia. }
  destruct (file_printed e k2 v content) as (k3 & E3 & Hd3); try done.
  { apply displays_high; [done|intros b Hb; apply M2; lia]. }
  { eapply entry_at_ext; [|exact He1]. intros b Hb. symmetry. apply M2. lia. }
  exists k3. split; [|exact Hd3]. unfold show_file. do 2 (erewrite bind_ok by reflexivity). rewrite E1.
  erewrite bind_ok by reflexivity. cbv beta iota. erewrite bind_ok by reflexivity. cbv zeta.
  change (k_fs k) with (k_fs k1). change m1 with (kmem k1). rewrite Hsz. fold k1. rewrite (bind_ok _ _ _ _ _ E2). exact E3.
Qed.

(** Test case 3: the screen is cleared and shows the file of index [i] and its
    name, and the next one is the turn of the next index; after index 16 it
    starts again. *)
Theorem case_three_shows_file e i k :
  tty_wf (k_tty k) -> case_world e k -> dir !! Z.to_nat i = Some e -> 0 <= i < load32 (kmem k) start ->
  zlen (e_name e) < 32 -> file_len (kmem k) (k_fs k) (e_inode e) < TEST_V ->
  let content := file_content (kmem k) (k_fs k) (e_inode e) in
  exists k', test_case_handler cf 3 i k = Ok (if 16 <? i + 1 then 0 else i + 1, k') /\
    displays k' (abs_puts (content ++ bytes "filename: " ++ e_name e ++ [LF]) blank_view).
Proof.
  intros Hwf Hw He Hi Hn Hlen content. assert (pcb_at 5 = 8339456) as P5 by done.
  pose proof (w_place _ _ _ _ _ _ _ (cw_world _ _ Hw)) as [W3 W3'].
  pose proof (w_counts _ _ _ _ _ _ _ (cw_world _ _ Hw)) as [W2 W2']. unfold image_end in W3'.
  set (k0 := set_k_tty (set_rtc_flag 0 (k_tty k)) k).
  destruct (reset_tells k0) as (k1 & E1 & Hd1 & [Ef1 M1]); [by destruct Hwf|].
  destruct (case_world_same e k k1 Hw Ef1) as [Hw1 Hc1]; [intros b Hb; apply (M1 b); lia|]. fold content in Hc1.
  assert (Hn1 : load32 (kmem k1) start = load32 (kmem k) start) by (apply load32_ext; intros b Hb; apply (M1 b); lia).
  assert (Hl1 : file_len (kmem k1) (k_fs k1) (e_inode e) < TEST_V).
  { destruct Hw as [W F]. destruct (file_kernel _ _ _ (kmem k1) _ _ _ _ _ W F) as (_ & H & _);
      [intros b Hb; apply (M1 b); lia|]. rewrite Ef1. change (k_fs k0) with (k_fs k). by rewrite H. }
  destruct (file_shown e i k1 blank_view Hd1 Hw1 He ltac:(by rewrite Hn1) Hn Hl1) as (k2 & E2 & Hd2).
  rewrite Hc1 in Hd2. exists k2. split; [|exact Hd2].
  assert (Hnum : load32 (kmem k1) (u32 (get_start (k_fs k1))) = load32 (kmem k) start).
  { unfold get_start. rewrite (fi_boot _ _ _ _ _ (w_img _ _ _ _ _ _ _ (cw_world _ _ Hw1))).
    by rewrite u32_s32, u32_small by lia. }
  unfold test_case_handler. erewrite bind_ok by reflexivity. fold k0. cbn [Z.eqb Pos.eqb]. unfold control_three.
  rewrite (bind_ok _ _ _ _ _ E1). do 2 (erewrite bind_ok by reflexivity). cbv zeta.
  pose proof (load32_range (kmem k) start). rewrite Hnum, (u32_small i), (proj2 (Z.ltb_lt i _)) by lia.
  by rewrite (bind_ok _ _ _ _ _ E2).
Qed.

(** Test cases 4 and 5 switch the flag that the handler of the clock asks for. *)
Lemma case_switches_flag test i k :
  tty_wf (k_tty k) -> test = 4 \/ test = 5 ->
  exists k', test_case_handler cf test i k = Ok (i, k') /\
    rtc_helper k' = (if test =? 4 then 1 else 0) /\ displays k' blank_view.
Proof.
  intros Hwf Ht. set (k0 := set_k_tty (set_rtc_flag 0 (k_tty k)) k).
  destruct (reset_tells k0) as (k1 & E1 & [Hwf1 Hs1] & _); [by destruct Hwf|].
  unfold test_case_handler. erewrite bind_ok by reflexivity. fold k0.
  destruct Ht as [-> | ->]; cbn [Z.eqb Pos.eqb]; unfold control_four, control_five;
    (eexists; split; [erewrite bind_ok by (rewrite (bind_ok _ _ _ _ _ E1); reflexivity); reflexivity|]);
    (split; [done|]); (split; [by destruct Hwf1|done]).
Qed.
End Three.
