(* ===== verification/Support.v ===== *)
(** * The string routines of the user library (syscalls/ece391support.c)

    [ece391_strcpy], [ece391_strncmp], [ece391_strrev] and [ece391_itoa].
    The last two are the kernel's routines again (lib.c), with a test that
    the kernel does not make; they are proved equal to them. *)

From Stdlib Require Import ZArith Lia String Ascii.
From stdpp Require Import base numbers list gmap.
From S2P Require Import Prelude Mem CString User Program.

Local Open Scope Z_scope.

(** ** The code *)

(** The byte is copied before it is tested. *)
Definition ece391_strcpy_step (st : mem * Z * Z) : (mem * Z * Z) + res mem :=
  let '(m, dst, src) := st in
  let c := mget m src in
  let m := mset m dst c in
  if c =? 0 then inr (Ok m) else inl (m, dst + 1, src + 1).
Definition ece391_strcpy (m : mem) (dst src : Z) : res mem := while ece391_strcpy_step (m, dst, src).

Definition ece391_strncmp_step (m : mem) (st : Z * Z * Z) : (Z * Z * Z) + res Z :=
  let '(s1, s2, n) := st in
  if mget m s1 =? mget m s2 then
    if (mget m s1 =? 0) || (u32 (n - 1) =? 0) then inr (Ok 0)
    else inl (s1 + 1, s2 + 1, u32 (n - 1))
  else inr (Ok (mget m s1 - mget m s2)).
Definition ece391_strncmp (m : mem) (s1 s2 n : Z) : res Z :=
  if n =? 0 then Ok 0 else while (ece391_strncmp_step m) (s1, s2, n).

Definition ece391_strrev_step (s : Z) (st : mem * Z * Z) : (mem * Z * Z) + res mem :=
  let '(m, beg, end_) := st in
  if beg <? end_ then
    let tmp := mget m (s + end_) in
    let m := mset m (s + end_) (mget m (s + beg)) in
    let m := mset m (s + beg) tmp in
    inl (m, beg + 1, end_ - 1)
  else inr (Ok m).
Definition ece391_strrev (m : mem) (s : Z) : res mem :=
  let* len := ece391_strlen m s in
  let end_ := s32 (len - 1) in
  if end_ <=? 0 then Ok m else while (ece391_strrev_step s) (m, 0, end_).

(** The static table of digits, and the loop over the places; [radix] is
    converted to unsigned. *)
Definition ece391_lookup : list Z := bytes "0123456789ABCDEFGHIJKLMNOPQRSTUVWXYZ" ++ [0].

Definition ece391_itoa_step (radix : Z) (st : mem * Z * Z) : (mem * Z * Z) + res (mem * Z) :=
  let '(m, newbuf, newval) := st in
  if 0 <? newval then
    match aget ece391_lookup (newval mod u32 radix) with
    | Ok d => inl (mset m newbuf d, newbuf + 1, newval / u32 radix)
    | Err e => inr (Err e)
    end
  else inr (Ok (m, newbuf)).
Definition ece391_itoa (m : mem) (value buf radix : Z) : res mem :=
  if value =? 0 then Ok (mset (mset m buf (chr "0")) (buf + 1) 0)
  else
    let* (m, newbuf) := while (ece391_itoa_step radix) (m, buf, value) in
    ece391_strrev (mset m newbuf 0) buf.

(** ** Copying *)

(** A string is copied forwards, so it may be moved down onto itself. *)
Lemma ece391_strcpy_spec m dst src str :
  cstr m src str -> zlen str < 4294967295 -> dst <= src \/ src + zlen str < dst ->
  exists m', ece391_strcpy m dst src = Ok m' /\ cstr m' dst str /\
    (forall b, b < dst \/ dst + zlen str < b -> mget m' b = mget m b).
Proof.
  intros Hs Hlen Hap. unfold ece391_strcpy.
  apply (while_index _ (fun n st => 0 <= n <= zlen str + 1 /\ exists m1 j,
      j = zlen str + 1 - n /\ st = (m1, dst + j, src + j) /\ j <= zlen str /\
      (forall i, 0 <= i < j -> mget m1 (dst + i) = anth 0 str i) /\
      (forall b, b < dst \/ dst + j <= b -> mget m1 b = mget m b))
    (fun r => exists m', r = Ok m' /\ cstr m' dst str /\
      (forall b, b < dst \/ dst + zlen str < b -> mget m' b = mget m b)) (zlen str + 1)); [|lia|].
  { split; [lia|]. exists m, 0. split; [lia|]. split; [by rewrite !Z.add_0_r|]. split; [lia|].
    split; [lia | done]. }
  intros n st [Hn (m1 & j & Hj & -> & Hjl & Hc & Hf)]. unfold ece391_strcpy_step.
  assert (Hsrc : mget m1 (src + j) = mget m (src + j)) by (apply Hf; lia).
  rewrite Hsrc. destruct (Z.eq_dec j (zlen str)) as [->|Hne].
  - rewrite (cstr_end _ _ _ Hs), Z.eqb_refl. eexists. split; [done|]. split.
    + split; [|by rewrite mget_mset_eq]. intros i Hi. rewrite mget_mset_ne, Hc by lia. split; [done|].
      rewrite <- (cstr_char _ _ _ _ Hs) by lia. by apply (cstr_nonzero _ _ _ _ Hs).
    + intros b Hb. rewrite mget_mset_ne by lia. apply Hf. lia.
  - pose proof (cstr_nonzero _ _ _ j Hs ltac:(lia)) as Hnz.
    rewrite (proj2 (Z.eqb_neq _ 0)) by done. exists (n - 1). split; [lia|]. split; [lia|].
    eexists _, (j + 1). split; [lia|]. split; [by rewrite !Z.add_assoc|]. split; [lia|]. split.
    + intros i Hi. destruct (Z.eq_dec i j) as [->|].
      * rewrite mget_mset_eq, (cstr_char _ _ _ _ Hs) by lia.
        rewrite <- (cstr_char _ _ _ _ Hs) by lia. apply mget_u8.
      * rewrite mget_mset_ne by lia. apply Hc. lia.
    + intros b Hb. rewrite mget_mset_ne by lia. apply Hf. lia.
Qed.

(** ** Comparing *)

(** [ece391_strncmp] compares the first [n] characters. *)
Lemma ece391_strncmp_spec m p1 p2 l1 l2 n :
  cstr m p1 l1 -> cstr m p2 l2 -> 0 <= n < 4294967296 ->
  exists c, ece391_strncmp m p1 p2 n = Ok c /\
    (c = 0 <-> take (Z.to_nat n) l1 = take (Z.to_nat n) l2).
Proof.
  intros H1 H2 Hn. unfold ece391_strncmp. destruct (Z.eqb_spec n 0) as [->|Hn0]; [by exists 0|].
  apply (while_index _ (fun i st => 0 < i <= n /\ exists a b t1 t2,
      st = (a, b, i) /\ cstr m a t1 /\ cstr m b t2 /\
      (take (Z.to_nat n) l1 = take (Z.to_nat n) l2 <-> take (Z.to_nat i) t1 = take (Z.to_nat i) t2))
    (fun r => exists c, r = Ok c /\
      (c = 0 <-> take (Z.to_nat n) l1 = take (Z.to_nat n) l2)) n); [|lia|].
  { split; [lia|]. by exists p1, p2, l1, l2. }
  intros i st [Hi (a & b & t1 & t2 & -> & C1 & C2 & Heq)]. unfold ece391_strncmp_step.
  rewrite u32_small by lia. replace (Z.to_nat i) with (S (Z.to_nat (i - 1))) in Heq by lia.
  destruct t1 as [|c1 t1], t2 as [|c2 t2]; cbn [take] in Heq.
  - rewrite (cstr_nil _ _ C1), (cstr_nil _ _ C2). exists 0. split; [done|]. tauto.
  - destruct (cstr_cons _ _ _ _ C2) as (-> & N2 & _). rewrite (cstr_nil _ _ C1).
    rewrite (proj2 (Z.eqb_neq 0 c2)) by done. exists (0 - c2). split; [done|]. rewrite Heq.
    split; [lia | discriminate].
  - destruct (cstr_cons _ _ _ _ C1) as (-> & N1 & _). rewrite (cstr_nil _ _ C2).
    rewrite (proj2 (Z.eqb_neq c1 0)) by done. exists (c1 - 0). split; [done|]. rewrite Heq.
    split; [lia | discriminate].
  - destruct (cstr_cons _ _ _ _ C1) as (-> & N1 & C1').
    destruct (cstr_cons _ _ _ _ C2) as (-> & N2 & C2').
    destruct (Z.eqb_spec c1 c2) as [->|Hne].
    + rewrite (proj2 (Z.eqb_neq c2 0)) by done. cbn [orb].
      destruct (Z.eqb_spec (i - 1) 0) as [E|E].
      * exists 0. split; [done|]. rewrite Heq, E. done.
      * exists (i - 1). split; [lia|]. split; [lia|]. exists (a + 1), (b + 1), t1, t2.
        do 3 (split; [done|]). rewrite Heq. split; intros H; [by injection H | by rewrite H].
    + exists (c1 - c2). split; [done|]. rewrite Heq. split; [lia|]. intros E. by injection E.
Qed.

(** ** Numbers *)

Lemma while_done {St R} (step : St -> St + res R) s r : step s = inr r -> while step s = r.
Proof.
  intros H. apply (while_rule _ (fun s' => s' = s) (fun _ => 0) (fun r' => r' = r)); [done | lia|].
  intros ? ->. by rewrite H.
Qed.

(** The early return of [ece391_strrev] is for strings that are their own
    reverse. *)
Lemma ece391_strrev_same m s str :
  cstr m s str -> zlen str < 2147483648 -> ece391_strrev m s = strrev m s.
Proof.
  intros Hs Hl. unfold ece391_strrev, strrev.
  rewrite (ece391_strlen_spec _ _ _ Hs), (strlen_spec _ _ _ Hs) by lia.
  cbn.
  destruct (Z.leb_spec (s32 (zlen str - 1)) 0) as [H|H]; [|done].
  symmetry. apply while_done. unfold strrev_step. by rewrite (proj2 (Z.ltb_ge _ _)) by done.
Qed.

(** [ece391_itoa] writes what the kernel's [itoa] writes. *)
Lemma ece391_itoa_same m value buf radix :
  0 <= value < 4294967296 -> 2 <= radix <= 36 ->
  ece391_itoa m value buf radix = itoa m value buf radix.
Proof.
  intros Hv Hr. unfold ece391_itoa, itoa. destruct (Z.eqb_spec value 0) as [|Hn]; [done|].
  assert (Hstep : ece391_itoa_step radix = itoa_step radix)
    by (unfold ece391_itoa_step, itoa_step; by rewrite u32_small by lia).
  rewrite Hstep. destruct (itoa_loop m value buf radix ltac:(lia) Hr) as (m1 & ds & -> & Hnum & Hu).
  pose proof (numeral_length radix value ds ltac:(lia) Hv Hnum) as Hlen.
  pose proof (itoa_digits _ _ _ _ _ _ Hr Hnum Hu) as Hc.
  cbn. eapply ece391_strrev_same; [exact Hc|]. rewrite length_rev, length_map. lia.
Qed.
