(* ===== verification/Emulate.v ===== *)
(** * The user library on a host system (syscalls/ece391emulate.c)

    The programs of syscalls/ can also be linked with ece391emulate.c, which
    gives them the system calls of this kernel on a Linux host: [execute]
    splits its command into the arguments of [execv], [getargs] joins them
    again, and a directory is read through [readdir], one name of 32 bytes
    per read.

    The host is a parameter, a record of the operations of its C library and
    of its interrupt 0x80.  What the theorems need of it is said where they
    need it. *)

From Stdlib Require Import ZArith Lia String Ascii.
From stdpp Require Import base numbers list gmap.
From S2P Require Import Prelude Mem CString Exec User Program Support.

Local Open Scope Z_scope.

(** ** The host *)

(** What [wait] reports of a child. *)
Inductive wait_status := Exited (v : Z) | Signaled (sig : Z).

Definition WIFEXITED (st : wait_status) : bool :=
  match st with Exited _ => true | Signaled _ => false end.
Definition WEXITSTATUS (st : wait_status) : Z :=
  match st with Exited v => u8 v | Signaled _ => 0 end.
Definition WTERMSIG (st : wait_status) : Z :=
  match st with Exited _ => 0 | Signaled s => s end.

(** The host's operations; [H] is its state.  Operations that may touch the
    memory of the process get it. *)
Record host_ops (H : Type) := HostOps {
  int80 : Z -> Z -> Z -> Z -> mem * H -> Z * (mem * H);   (** eax, ebx, ecx, edx; eax after *)
  fork : H -> Z * H;               (** as the calling process sees it: 0 in the child *)
  execv : mem -> Z -> list Z -> H -> bool;   (** whether the program replaced the process *)
  wait : H -> option wait_status * H;        (** nothing when there is no child *)
  opendir : list Z -> H -> Z * H;
  readdir : Z -> mem * H -> option Z * (mem * H);   (** the address of [d_name] *)
  closedir : Z -> H -> H;
  host_open : list Z -> Z -> H -> Z * H;
  host_close : Z -> H -> H;
  mmap : Z -> Z -> Z -> H -> Z * H;          (** length, descriptor, offset *)
  perror : list Z -> H -> H;
}.
Arguments int80 {H} h. Arguments fork {H} h. Arguments execv {H} h. Arguments wait {H} h.
Arguments opendir {H} h. Arguments readdir {H} h. Arguments closedir {H} h.
Arguments host_open {H} h. Arguments host_close {H} h. Arguments mmap {H} h.
Arguments perror {H} h.

Definition O_RDONLY : Z := 0.
Definition O_RDWR : Z := 2.
Definition MAP_FAILED : Z := 4294967295.

(** The variables of ece391emulate.c, and the memory and host around them. *)
Record emu (H : Type) := Emu {
  e_mem : mem;
  start_esp : Z;
  dir_fd : Z;
  dir : Z;      (** 0 for [NULL] *)
  mem_fd : Z;   (** static in [ece391_vidmap] *)
  e_host : H;
}.
Arguments Emu {H}. Arguments e_mem {H} e. Arguments start_esp {H} e. Arguments dir_fd {H} e.
Arguments dir {H} e. Arguments mem_fd {H} e. Arguments e_host {H} e.

Definition set_e_mem {H} (m : mem) (e : emu H) : emu H :=
  Emu m (start_esp e) (dir_fd e) (dir e) (mem_fd e) (e_host e).
Definition set_start_esp {H} (v : Z) (e : emu H) : emu H :=
  Emu (e_mem e) v (dir_fd e) (dir e) (mem_fd e) (e_host e).
Definition set_dir_fd {H} (v : Z) (e : emu H) : emu H :=
  Emu (e_mem e) (start_esp e) v (dir e) (mem_fd e) (e_host e).
Definition set_dir {H} (v : Z) (e : emu H) : emu H :=
  Emu (e_mem e) (start_esp e) (dir_fd e) v (mem_fd e) (e_host e).
Definition set_mem_fd {H} (v : Z) (e : emu H) : emu H :=
  Emu (e_mem e) (start_esp e) (dir_fd e) (dir e) v (e_host e).
Definition set_e_host {H} (h : H) (e : emu H) : emu H :=
  Emu (e_mem e) (start_esp e) (dir_fd e) (dir e) (mem_fd e) h.

Definition NULL : Z := 0.

(** An operation of the host on its own state, and on memory as well. *)
Definition on_host {H A} (f : H -> A * H) : ST (emu H) A := fun e =>
  let '(a, h) := f (e_host e) in Ok (a, set_e_host h e).
Definition on_world {H A} (f : mem * H -> A * (mem * H)) : ST (emu H) A := fun e =>
  let '(a, (m, h)) := f (e_mem e, e_host e) in Ok (a, set_e_mem m (set_e_host h e)).
Definition host_does {H} (f : H -> H) : ST (emu H) unit :=
  modify (fun e => set_e_host (f (e_host e)) e).

Lemma on_host_bind {H A B} (f : H -> A * H) (c : A -> ST (emu H) B) e a h :
  f (e_host e) = (a, h) -> (on_host f ≫= c) e = c a (set_e_host h e).
Proof. unfold mbind, st_bind, on_host. by intros ->. Qed.

Lemma on_world_bind {H A B} (f : mem * H -> A * (mem * H)) (c : A -> ST (emu H) B) e a m h :
  f (e_mem e, e_host e) = (a, (m, h)) -> (on_world f ≫= c) e = c a (set_e_mem m (set_e_host h e)).
Proof. unfold mbind, st_bind, on_world. by intros ->. Qed.

(** ** Splitting a command *)

Definition is_sep (c : Z) : bool := (c =? SP) || (c =? LF).

(** [for (; '\0' != *scan && ' ' != *scan && '\n' != *scan; scan++);], made
    for the name and for each argument. *)
Definition emu_word_step (m : mem) (scan : Z) : Z + res Z :=
  if (mget m scan =? 0) || is_sep (mget m scan) then inr (Ok scan) else inl (scan + 1).
(** [while (' ' == *scan) scan++;] *)
Definition emu_space_step (m : mem) (scan : Z) : Z + res Z :=
  if mget m scan =? SP then inl (scan + 1) else inr (Ok scan).

(** The body of [while (1)]: memory, [scan], [args] and [n_arg]. *)
Definition emu_args_step (st : mem * Z * list Z * Z)
  : (mem * Z * list Z * Z) + res (mem * list Z * Z) :=
  let '(m, scan, args, n_arg) := st in
  match while (emu_space_step m) scan with
  | Err f => inr (Err f)
  | Ok scan =>
      if (mget m scan =? 0) || (mget m scan =? LF) then inr (Ok (mset m scan 0, args, n_arg))
      else
        match aset args n_arg scan with
        | Err f => inr (Err f)
        | Ok args =>
            match while (emu_word_step m) scan with
            | Err f => inr (Err f)
            | Ok scan =>
                if mget m scan =? 0 then inl (m, scan, args, u32 (n_arg + 1))
                else inl (mset m scan 0, scan + 1, args, u32 (n_arg + 1))
            end
        end
  end.

(** The part of [ece391_execute] before [fork]: [buf] and [args] are its
    arrays, [args] with whatever it held before. *)
Definition emu_parse (m : mem) (buf : Z) (args : list Z) (command : Z) : res (mem * list Z) :=
  let m := mset (mset m buf (chr ".")) (buf + 1) (chr "/") in
  let* m := ece391_strcpy m (buf + 2) command in
  let* scan := while (emu_word_step m) (buf + 2) in
  let* args := aset args 0 buf in
  let* (m, args, n_arg) :=
    (if mget m scan =? 0 then Ok (m, args, 1)
     else while emu_args_step (mset m scan 0, scan + 1, args, 1)) in
  let* args := aset args n_arg NULL in
  Ok (m, args).

(** How [ece391_execute] ends: it returns, or, in the child, the process runs
    another program or is killed. *)
Inductive emu_end := EmuRet (v : Z) | EmuExecv (path : Z) (argv : list Z) | EmuKilled.

(** The value of [ece391_execute] in the parent. *)
Definition emu_status (st : wait_status) : Z :=
  if WIFEXITED st then WEXITSTATUS st else if WTERMSIG st =? 9 then -1 else 256.

Section Emulate.
Context {H : Type} (host : host_ops H).

Definition emu_execute (buf : Z) (args0 : list Z) (command : Z) : ST (emu H) emu_end :=
  m ← gets e_mem;
  n ← liftR (ece391_strlen m command);
  if 1023 <? n then mret (EmuRet (-1))
  else
    '(m, args) ← liftR (emu_parse m buf args0 command);
    modify (set_e_mem m) ;;
    pid ← on_host (fork host);
    if pid =? 0 then
      h ← gets e_host;
      mret (if execv host m buf args h then EmuExecv buf args else EmuKilled)
    else
      st ← on_host (wait host);
      match st with
      | None => fail Uninit
      | Some st => mret (EmuRet (emu_status st))
      end.

(** [DO_CALL]: an answer above 0xFFFFC000 is an error of the host. *)
Definition emu_result (eax : Z) : Z := if 4294950912 <? u32 eax then -1 else s32 eax.

Definition emu_do_call (number a b c : Z) : ST (emu H) Z :=
  eax ← on_world (int80 host number a b c);
  mret (emu_result eax).

Definition emu_halt (status : Z) : ST (emu H) Z := emu_do_call 1 status 0 0.
Definition __ece391_read (fd buf nbytes : Z) : ST (emu H) Z := emu_do_call 3 fd buf nbytes.
Definition __ece391_write (fd buf nbytes : Z) : ST (emu H) Z := emu_do_call 4 fd buf nbytes.
Definition __ece391_close (fd : Z) : ST (emu H) Z := emu_do_call 6 fd 0 0.

(** [_start]: the stack pointer is kept for [getargs]. *)
Definition emu_start (esp : Z) (main : ST (emu H) Z) : ST (emu H) Z :=
  modify (set_start_esp esp) ;;
  v ← main;
  emu_halt v.

(** [lit_dot] is the address of the literal the name is compared with. *)
Definition emu_open (lit_dot filename : Z) : ST (emu H) Z :=
  m ← gets e_mem;
  c ← liftR (ece391_strcmp m filename lit_dot);
  if c =? 0 then
    d ← on_host (opendir host (bytes "."));
    modify (set_dir d) ;;
    fd ← on_host (host_open host (bytes "/dev/null") O_RDONLY);
    modify (set_dir_fd fd) ;;
    mret fd
  else
    rval ← on_world (int80 host 5 filename O_RDONLY 0);
    mret (emu_result rval).

Definition emu_vidmap (screen_start : Z) : ST (emu H) Z :=
  fd ← gets mem_fd;
  when (fd =? -1)
    (fd ← on_host (host_open host (bytes "/dev/mem") O_RDWR); modify (set_mem_fd fd)) ;;
  fd ← gets mem_fd;
  image ← on_host (mmap host (1024 * 1024) fd 0);
  if image =? MAP_FAILED then
    host_does (perror host (bytes "mmap low memory")) ;; mret (-1)
  else
    modify (fun e => set_e_mem (store32 (e_mem e) screen_start (image + 753664)) e) ;;
    mret 0.

(** *** [ece391_getargs] *)

(** The loop over [argv]: memory, [buf], [nbytes] and [idx].  It ends by
    [return -1], or with what the code after it uses. *)
Definition emu_getargs_step (argv argc : Z) (st : mem * Z * Z * Z)
  : (mem * Z * Z * Z) + res (mem * option (Z * Z)) :=
  let '(m, buf, nbytes, idx) := st in
  if idx <? argc then
    let arg := load32 m (argv + 4 * idx) in
    match ece391_strlen m arg with
    | Err f => inr (Err f)
    | Ok n =>
        let len := s32 n in
        if nbytes <? len then inr (Ok (m, None))
        else
          match ece391_strcpy m buf arg with
          | Err f => inr (Err f)
          | Ok m =>
              let buf := buf + len in
              let nbytes := s32 (nbytes - len) in
              let idx := s32 (idx + 1) in
              if argc <=? idx then inr (Ok (m, Some (buf, nbytes)))
              else if nbytes <? 1 then inr (Ok (m, None))
              else inl (mset m buf SP, buf + 1, s32 (nbytes - 1), idx)
          end
    end
  else inr (Ok (m, Some (buf, nbytes))).

Definition emu_getargs (buf nbytes : Z) : ST (emu H) Z :=
  esp ← gets start_esp;
  m ← gets e_mem;
  let argc := load_s32 m esp in
  let argv := esp + 4 in
  '(m, r) ← liftR (while (emu_getargs_step argv argc) (m, buf, nbytes, 1));
  modify (set_e_mem m) ;;
  match r with
  | None => mret (-1)
  | Some (buf, nbytes) =>
      if nbytes <? 1 then mret (-1)
      else modify (set_e_mem (mset m buf 0)) ;; mret 0
  end.

(** *** [ece391_read], [ece391_write] and [ece391_close] *)

(** The copy of the name: memory, [from], [to] and [copied].  It ends by a
    [return], or at the end of the name. *)
Definition emu_copy_step (nbytes : Z) (st : mem * Z * Z * Z)
  : (mem * Z * Z * Z) + res (mem * (Z + Z * Z)) :=
  let '(m, from, to, copied) := st in
  if mget m from =? 0 then inr (Ok (m, inr (to, copied)))
  else
    let m := mset m to (mget m from) in
    let copied := s32 (copied + 1) in
    if copied =? nbytes then inr (Ok (m, inl nbytes))
    else if copied =? 32 then inr (Ok (m, inl 32))
    else inl (m, from + 1, to + 1, copied).

(** The zeros after it. *)
Definition emu_pad_step (nbytes : Z) (st : mem * Z * Z) : (mem * Z * Z) + res (mem * Z) :=
  let '(m, to, copied) := st in
  if (copied <? nbytes) && (copied <? 32) then inl (mset m to 0, to + 1, s32 (copied + 1))
  else inr (Ok (m, copied)).

Definition emu_copy_name (m : mem) (from to nbytes : Z) : res (mem * Z) :=
  let* (m, r) := while (emu_copy_step nbytes) (m, from, to, 0) in
  match r with
  | inl v => Ok (m, v)
  | inr (to, copied) => while (emu_pad_step nbytes) (m, to, copied)
  end.

Definition emu_read (fd buf nbytes : Z) : ST (emu H) Z :=
  d ← gets dir;
  dfd ← gets dir_fd;
  if (d =? NULL) || negb (dfd =? fd) then __ece391_read fd buf nbytes
  else
    de ← on_world (readdir host d);
    match de with
    | None => mret 0
    | Some name =>
        m ← gets e_mem;
        '(m, v) ← liftR (emu_copy_name m name buf nbytes);
        modify (set_e_mem m) ;;
        mret v
    end.

Definition emu_write (fd buf nbytes : Z) : ST (emu H) Z :=
  d ← gets dir;
  dfd ← gets dir_fd;
  if (d =? NULL) || negb (dfd =? fd) then __ece391_write fd buf nbytes else mret (-1).

Definition emu_close (fd : Z) : ST (emu H) Z :=
  d ← gets dir;
  dfd ← gets dir_fd;
  if (d =? NULL) || negb (dfd =? fd) then __ece391_close fd
  else
    host_does (closedir host d) ;;
    modify (set_dir NULL) ;;
    host_does (host_close host dfd) ;;
    modify (set_dir_fd (-1)) ;;
    mret 0.
End Emulate.

(** ** Commands and arguments, as text *)

(** The arguments in a command after its name; [w] is the one being read.  A
    line feed between arguments ends the command. *)
Fixpoint tokens (w s : list Z) : list (list Z) :=
  match s with
  | [] => match w with [] => [] | _ => [w] end
  | c :: s =>
      if is_sep c then
        match w with
        | [] => if c =? LF then [] else tokens [] s
        | _ => w :: tokens [] s
        end
      else tokens (w ++ [c]) s
  end.

(** How far a scan goes. *)
Fixpoint until (stop : Z -> bool) (s : list Z) : nat :=
  match s with
  | [] => O
  | c :: s => if stop c then O else S (until stop s)
  end.

(** The name of a command, and its arguments. *)
Definition command_name (s : list Z) : list Z := take (until is_sep s) s.
Definition command_args (s : list Z) : list (list Z) := tokens [] (tail (drop (until is_sep s) s)).

(** Arguments as [getargs] gives them. *)
Fixpoint join (ws : list (list Z)) : list Z :=
  match ws with
  | [] => []
  | [w] => w
  | w :: ws => w ++ SP :: join ws
  end.

Lemma until_len stop s : (until stop s <= List.length s)%nat.
Proof. induction s as [|c s IH]; cbn; [lia|]. destruct (stop c); cbn; lia. Qed.

Lemma until_ext p q s : Forall (fun c => p c = q c) s -> until p s = until q s.
Proof. induction 1 as [|c s E _ IH]; cbn; [done|]. by rewrite E, IH. Qed.

Lemma until_stops stop s c t : drop (until stop s) s = c :: t -> stop c = true.
Proof.
  induction s as [|x s IH]; cbn; [done|].
  destruct (stop x) eqn:E; cbn; [by intros [= <- _] | exact IH].
Qed.

Lemma tokens_spaces s : tokens [] s = tokens [] (drop (until (fun c => negb (c =? SP)) s) s).
Proof.
  induction s as [|c s IH]; cbn [until]; [done|].
  destruct (Z.eqb_spec c SP) as [->|Hc]; [exact IH | done].
Qed.

Lemma tokens_word w s :
  w ++ take (until is_sep s) s <> [] ->
  tokens w s = (w ++ take (until is_sep s) s) :: tokens [] (tail (drop (until is_sep s) s)).
Proof.
  revert w. induction s as [|c s IH]; intros w Hw; cbn [tokens until] in *.
  - rewrite app_nil_r in *. by destruct w.
  - destruct (is_sep c); cbn [take drop tail] in *.
    + rewrite app_nil_r in *. by destruct w.
    + rewrite IH by (by destruct w). by rewrite <- app_assoc.
Qed.

(** Joined words split into the same words. *)
Definition is_word (w : list Z) : Prop := w <> [] /\ Forall (fun c => is_sep c = false) w.

Lemma tokens_app w x s : Forall (fun c => is_sep c = false) x -> tokens w (x ++ s) = tokens (w ++ x) s.
Proof.
  intros Hx. revert w. induction Hx as [|c x Hc _ IH]; intros w; [by rewrite app_nil_r|].
  cbn [tokens app]. rewrite Hc, IH. by rewrite <- app_assoc.
Qed.

Lemma tokens_join ws : Forall is_word ws -> tokens [] (join ws) = ws.
Proof.
  induction 1 as [|w ws [Hn Hw] Hws IH]; [done|].
  destruct ws as [|w' ws]; cbn [join].
  - rewrite <- (app_nil_r w), tokens_app by done. rewrite app_nil_r. by destruct w.
  - rewrite tokens_app by done. cbn [app tokens]. change (is_sep SP) with true. change (SP =? LF) with false. cbv iota.
    destruct w; [done|]. by rewrite <- IH.
Qed.

Lemma command_join name ws :
  Forall (fun c => is_sep c = false) name -> Forall is_word ws ->
  command_args (join (name :: ws)) = ws /\ command_name (join (name :: ws)) = name.
Proof.
  intros Hn Hws. unfold command_args, command_name.
  assert (Hu : forall s, until is_sep (name ++ SP :: s) = List.length name).
  { intros s. clear -Hn. induction Hn as [|c l Hc _ IH]; cbn; [done|]. by rewrite Hc, IH. }
  destruct ws as [|w ws]; cbn [join].
  - assert (E : until is_sep name = List.length name).
    { clear -Hn. induction Hn as [|c l Hc _ IH]; cbn; [done|]. by rewrite Hc, IH. }
    by rewrite E, drop_all, take_ge.
  - rewrite Hu, drop_app_length, take_app_length. split; [|done]. exact (tokens_join _ Hws).
Qed.

(** ** Scanning *)

Lemma scan_run (stop : Z -> bool) (step : Z -> Z + res Z) m a s :
  (forall p, step p = if stop (mget m p) then inr (Ok p) else inl (p + 1)) -> stop 0 = true ->
  cstr m a s -> zlen s < 4294967296 ->
  while step a = Ok (a + Z.of_nat (until stop s)).
Proof.
  intros Hstep H0 Hs Hl. apply (while_index step (fun n p => exists t, cstr m p t /\
      n = Z.of_nat (until stop t) /\ p + n = a + Z.of_nat (until stop s))
    (fun r => r = Ok (a + Z.of_nat (until stop s))) (Z.of_nat (until stop s))).
  { by exists s. }
  { pose proof (until_len stop s). lia. }
  intros n p (t & Ht & -> & Hp). rewrite Hstep. destruct t as [|c t]; cbn [until] in *.
  - rewrite (cstr_nil _ _ Ht), H0. f_equal. lia.
  - destruct (cstr_cons _ _ _ _ Ht) as (-> & _ & Ht'). destruct (stop c); [f_equal; lia|].
    exists (Z.of_nat (until stop t)). split; [lia|]. exists t. split_and!; [done | done | lia].
Qed.

Definition stop_word (c : Z) : bool := (c =? 0) || is_sep c.
Definition stop_space (c : Z) : bool := negb (c =? SP).

Lemma word_run m a s :
  cstr m a s -> zlen s < 4294967296 ->
  while (emu_word_step m) a = Ok (a + Z.of_nat (until is_sep s)).
Proof.
  intros Hs Hl. rewrite <- (until_ext stop_word is_sep).
  - by apply (scan_run stop_word _ m).
  - eapply Forall_impl; [exact (cstr_bytes _ _ _ Hs)|]. intros c Hc. unfold stop_word.
    by rewrite (proj2 (Z.eqb_neq c 0)) by (cbn in Hc; lia).
Qed.

Lemma space_run m a s :
  cstr m a s -> zlen s < 4294967296 ->
  while (emu_space_step m) a = Ok (a + Z.of_nat (until stop_space s)).
Proof.
  intros Hs Hl. apply (scan_run stop_space _ m); [|done|done|done].
  intros p. unfold emu_space_step, stop_space. by destruct (_ =? _).
Qed.

(** A zero at or after the end of a string leaves it. *)
Lemma cstr_zero m p w s : cstr m p w -> p + zlen w <= s -> cstr (mset m s 0) p w.
Proof.
  intros [H1 H0] Hs. split.
  - intros i Hi. rewrite mget_mset_ne by lia. by apply H1.
  - rewrite mget_mset. by destruct (decide _).
Qed.

(** A zero put into a string cuts it. *)
Lemma cstr_cut m p w k :
  cstr m p w -> (k <= List.length w)%nat -> cstr (mset m (p + Z.of_nat k) 0) p (take k w).
Proof.
  intros [H1 _] Hk. assert (Hl : zlen (take k w) = Z.of_nat k) by (rewrite length_take; lia).
  split; rewrite Hl; [|by rewrite mget_mset_eq].
  intros i Hi. rewrite mget_mset_ne by lia. destruct (H1 i ltac:(lia)) as [E N].
  unfold anth in *. rewrite !nth_lookup in *. rewrite lookup_take_lt by lia. done.
Qed.

(** ** The arguments *)

(** Between two rounds of the loop: [done] are the arguments found, [rest]
    the text from [scan] on; all the text is from [lo]. *)
Record args_inv (m0 : mem) (lo : Z) (text : list Z) (args0 : list Z)
    (m : mem) (scan : Z) (args : list Z) (n_arg : Z) (done : list (list Z)) (rest : list Z) : Prop := {
  ai_rest : cstr m scan rest;
  ai_text : done ++ tokens [] rest = tokens [] text;
  ai_lo : lo <= scan;
  ai_end : scan + zlen rest = lo + zlen text;
  ai_count : n_arg = 1 + zlen done;
  ai_room : n_arg + zlen rest <= 1023;
  ai_len : zlen args = 1024;
  ai_name : args !! 0%nat = args0 !! 0%nat;
  ai_frame : same_out m0 m lo (scan - lo);
  ai_args : forall i w, done !! i = Some w ->
    exists p, args !! S i = Some p /\ lo <= p /\ p + zlen w <= scan /\ cstr m p w;
}.

(** The argument [w] at [a] is recorded; the text goes on at [scan']. *)
Lemma args_inv_next m0 lo text args0 m scan args n_arg done rest a w m' scan' rest' :
  args_inv m0 lo text args0 m scan args n_arg done rest ->
  tokens [] rest = w :: tokens [] rest' -> cstr m' scan' rest' ->
  scan <= a -> a + zlen w <= scan' -> zlen rest' < zlen rest ->
  scan' + zlen rest' = lo + zlen text ->
  same_out m m' (a + zlen w) (scan' - (a + zlen w)) -> cstr m' a w ->
  (forall q v, cstr m q v -> q + zlen v <= a + zlen w -> cstr m' q v) ->
  args_inv m0 lo text args0 m' scan' (<[Z.to_nat n_arg := a]> args) (n_arg + 1) (done ++ [w]) rest'.
Proof.
  intros [I1 I2 I3 I4 I5 I6 I7 I8 I9 I10] Htok C1 Ha C3 Hr C4 C5 C6 C7.
  assert (Hna : (Z.to_nat n_arg = S (List.length done))) by lia. constructor.
  - done.
  - by rewrite <- app_assoc, <- I2, Htok.
  - lia.
  - done.
  - rewrite length_app. cbn [List.length]. lia.
  - lia.
  - by rewrite length_insert.
  - by rewrite list_lookup_insert_ne by lia.
  - intros b Hb. rewrite C5, I9 by lia. done.
  - intros i v Hi. apply lookup_app_Some in Hi as [Hi|[Hi1 Hi2]].
    + destruct (I10 i v Hi) as (q & Q1 & Q2 & Q3 & Q4). exists q.
      pose proof (lookup_lt_Some _ _ _ Hi). rewrite list_lookup_insert_ne by lia.
      split_and!; [done | done | lia | apply C7; [done | lia]].
    + apply list_lookup_singleton_Some in Hi2 as [Hi2 <-]. exists a.
      replace (S i) with (Z.to_nat n_arg) by lia. rewrite list_lookup_insert_eq by lia.
      split_and!; [done | lia | lia | done].
Qed.

(** A round that finds an argument. *)
Lemma args_step_more m0 lo text args0 m scan args n_arg done rest t :
  args_inv m0 lo text args0 m scan args n_arg done rest ->
  t = drop (until stop_space rest) rest -> t <> [] -> head t <> Some LF ->
  exists m' scan' args' done' rest',
    emu_args_step (m, scan, args, n_arg) = inl (m', scan', args', n_arg + 1) /\
    args_inv m0 lo text args0 m' scan' args' (n_arg + 1) done' rest' /\ zlen rest' < zlen rest.
Proof.
  intros I Ht Hne Hlf. pose proof I as [I1 I2 I3 I4 I5 I6 I7 I8 I9 I10].
  set (a := scan + Z.of_nat (until stop_space rest)). set (u := until is_sep t).
  pose proof (until_len stop_space rest) as Hsp. pose proof (until_len is_sep t : (u <= _)%nat) as Hu.
  assert (Hta : cstr m a t) by (subst t; by apply cstr_drop).
  assert (Hlt : zlen t = zlen rest - (a - scan)) by (subst t a; rewrite length_drop; lia).
  assert (Hc : exists c t1, t = c :: t1 /\ is_sep c = false /\ c <> LF).
  { destruct t as [|c t1]; [done|]. exists c, t1. symmetry in Ht. apply until_stops in Ht.
    unfold stop_space, is_sep in *. destruct (c =? SP); [done|]. cbn.
    destruct (Z.eqb_spec c LF) as [->|]; [done | done]. }
  destruct Hc as (c & t1 & Et & Hsep & Hc).
  assert (Hpos : (0 < u)%nat) by (subst u; rewrite Et; cbn; rewrite Hsep; lia).
  assert (Htok : tokens [] rest = take u t :: tokens [] (tail (drop u t))).
  { rewrite (tokens_spaces rest). fold stop_space. rewrite <- Ht. apply tokens_word. fold u.
    rewrite Et. destruct u; [lia | done]. }
  assert (Hzl : zlen (take u t) = Z.of_nat u) by (rewrite length_take; lia).
  assert (Hld : zlen (drop u t) = zlen t - Z.of_nat u) by (rewrite length_drop; lia).
  pose proof (cstr_drop _ _ _ u Hta Hu) as Hp. set (p := a + Z.of_nat u) in *.
  assert (Hhd : mget m a = c /\ c <> 0)
    by (pose proof Hta as Hta'; rewrite Et in Hta'; by destruct (cstr_cons _ _ _ _ Hta') as (? & ? & _)).
  unfold emu_args_step. rewrite (space_run _ _ _ I1) by lia. fold a. destruct Hhd as [-> Hc0].
  rewrite (proj2 (Z.eqb_neq c 0)), (proj2 (Z.eqb_neq c LF)) by done. cbn [orb].
  rewrite aset_ok by lia. rewrite (word_run _ _ _ Hta) by lia. fold u. fold p.
  rewrite u32_small by lia. destruct (drop u t) as [|d t'] eqn:Ed.
  - rewrite (cstr_nil _ _ Hp). rewrite (Z.eqb_refl 0). cbn in Hld. do 5 eexists. split; [done|].
    split; [eapply (args_inv_next _ _ _ _ _ _ _ _ _ _ a); [exact I | exact Htok | exact Hp | ..]|];
      try (cbn; lia); [done | | done].
    rewrite <- (take_ge t u) in Hta at 1 by lia. done.
  - destruct (cstr_cons _ _ _ _ Hp) as (-> & Hd & Hp1). rewrite (proj2 (Z.eqb_neq d 0)) by done.
    cbn [List.length] in Hld. do 5 eexists. split; [done|].
    split; [eapply (args_inv_next _ _ _ _ _ _ _ _ _ _ a); [exact I | exact Htok | ..]|];
      try (cbn [tail]; lia).
    + eapply cstr_ext; [|exact Hp1]. intros b Hb. by rewrite mget_mset_ne by lia.
    + intros b Hb. rewrite mget_mset_ne by lia. done.
    + by apply cstr_cut.
    + intros q v Hq Hqv. apply cstr_zero; [done | lia].
Qed.

(** A round that finds none, at the end of the text or at a line feed. *)
Lemma args_step_last m0 lo text args0 m scan args n_arg done rest t :
  args_inv m0 lo text args0 m scan args n_arg done rest ->
  t = drop (until stop_space rest) rest -> t = [] \/ head t = Some LF ->
  exists p, scan <= p <= lo + zlen text /\ done = tokens [] text /\
    emu_args_step (m, scan, args, n_arg) = inr (Ok (mset m p 0, args, n_arg)).
Proof.
  intros I Ht Hlast. pose proof I as [I1 I2 I3 I4 I5 I6 I7 I8 I9 I10].
  pose proof (until_len stop_space rest) as Hsp.
  exists (scan + Z.of_nat (until stop_space rest)). split; [lia|].
  pose proof (cstr_drop _ _ _ _ I1 Hsp) as Hp. rewrite <- Ht in Hp. split.
  - rewrite <- I2, tokens_spaces. fold stop_space. rewrite <- Ht.
    destruct t as [|c t]; [by rewrite app_nil_r|]. destruct Hlast as [|[= ->]]; [done|].
    by rewrite app_nil_r.
  - unfold emu_args_step. rewrite (space_run _ _ _ I1) by lia.
    destruct t as [|c t]; [by rewrite (cstr_nil _ _ Hp)|]. destruct Hlast as [|[= ->]]; [done|].
    by destruct (cstr_cons _ _ _ _ Hp) as (-> & _).
Qed.

(** The loop ends, with every argument recorded and cut out of the text. *)
Lemma args_run m lo text args :
  cstr m lo text -> zlen text <= 1022 -> zlen args = 1024 ->
  exists m' args', while emu_args_step (m, lo, args, 1) = Ok (m', args', 1 + zlen (tokens [] text)) /\
    same_out m m' lo (zlen text + 1) /\ zlen args' = 1024 /\ args' !! 0%nat = args !! 0%nat /\
    zlen (tokens [] text) <= 1022 /\
    forall i w, tokens [] text !! i = Some w ->
      exists p, args' !! S i = Some p /\ lo <= p /\ cstr m' p w.
Proof.
  intros Hs Hl Ha. apply (while_index _ (fun n st => exists m1 scan args1 n_arg ws rest,
      st = (m1, scan, args1, n_arg) /\ n = zlen rest /\
      args_inv m lo text args m1 scan args1 n_arg ws rest)
    (fun r => exists m' args', r = Ok (m', args', 1 + zlen (tokens [] text)) /\
      same_out m m' lo (zlen text + 1) /\ zlen args' = 1024 /\ args' !! 0%nat = args !! 0%nat /\
      zlen (tokens [] text) <= 1022 /\
      forall i w, tokens [] text !! i = Some w ->
        exists p, args' !! S i = Some p /\ lo <= p /\ cstr m' p w) (zlen text)); [|lia|].
  { exists m, lo, args, 1, [], text. split; [done|]. split; [done|].
    constructor; try done; try lia. }
  intros n st (m1 & scan & args1 & n_arg & ws & rest & -> & -> & I).
  set (t := drop (until stop_space rest) rest).
  assert (Hd : (t = [] \/ head t = Some LF) \/ (t <> [] /\ head t <> Some LF)).
  { destruct t as [|c t]; [by left; left|]. destruct (Z.eq_dec c LF) as [->|Hc]; [by left; right|].
    right. split; [done|]. by intros [=]. }
  destruct Hd as [Hd|[H1 H2]].
  - destruct (args_step_last _ _ _ _ _ _ _ _ _ _ t I eq_refl Hd) as (p & Hp & -> & ->).
    destruct I as [I1 I2 I3 I4 I5 I6 I7 I8 I9 I10]. exists (mset m1 p 0), args1. subst n_arg.
    split_and!; [done | | done | done | lia |].
    + intros b Hb. rewrite mget_mset_ne by lia. apply I9. lia.
    + intros i w Hi. destruct (I10 i w Hi) as (q & ? & ? & ? & ?). exists q.
      split_and!; [done | done |]. apply cstr_zero; [done | lia].
  - destruct (args_step_more _ _ _ _ _ _ _ _ _ _ t I eq_refl H1 H2)
      as (m2 & scan2 & args2 & ws2 & rest2 & -> & I2 & Hlt).
    exists (zlen rest2). split; [lia|]. by exists m2, scan2, args2, (n_arg + 1), ws2, rest2.
Qed.

(** The array an [argv] is: pointers to the strings [ws], then [NULL]. *)
Definition holds_argv (m : mem) (argv : list Z) (ws : list (list Z)) : Prop :=
  (forall i w, ws !! i = Some w -> exists p, argv !! i = Some p /\ p <> NULL /\ cstr m p w) /\
  argv !! List.length ws = Some NULL.

(** The path is the name of the command, in the directory. *)
Definition command_argv (cmd : list Z) : list (list Z) :=
  (bytes "./" ++ command_name cmd) :: command_args cmd.

Lemma holds_argv_set m buf args name ws :
  0 < buf -> zlen args = 1024 -> zlen ws <= 1022 -> args !! 0%nat = Some buf -> cstr m buf name ->
  (forall i w, ws !! i = Some w -> exists p, args !! S i = Some p /\ 0 < p /\ cstr m p w) ->
  holds_argv m (<[S (List.length ws) := NULL]> args) (name :: ws).
Proof.
  intros Hb Ha Hw H0 Hn Hws. split; [|apply list_lookup_insert_eq; lia].
  intros [|i] w Hi; cbn in Hi.
  - injection Hi as <-. exists buf. rewrite list_lookup_insert_ne by lia.
    split_and!; [done | unfold NULL; lia | done].
  - pose proof (lookup_lt_Some _ _ _ Hi). rewrite list_lookup_insert_ne by lia.
    destruct (Hws i w Hi) as (p & ? & ? & ?). exists p. split_and!; [done | unfold NULL; lia | done].
Qed.

(** The text of the command behind the two characters of the path. *)
Lemma parse_copy m buf command cmd :
  cstr m command cmd -> zlen cmd <= 1023 -> command + zlen cmd < buf \/ buf + 1026 <= command ->
  exists m', ece391_strcpy (mset (mset m buf (chr ".")) (buf + 1) (chr "/")) (buf + 2) command = Ok m' /\
    cstr m' buf (bytes "./" ++ cmd) /\ cstr m' (buf + 2) cmd /\ same_out m m' buf (zlen cmd + 3).
Proof.
  intros Hc Hl Hd. set (m0 := mset _ _ _).
  assert (Hm0 : forall b, b < buf \/ buf + 2 <= b -> mget m0 b = mget m b)
    by (intros b Hb; subst m0; by rewrite !mget_mset_ne by lia).
  assert (Hc0 : cstr m0 command cmd) by (eapply cstr_ext; [|exact Hc]; intros; rewrite Hm0 by lia; done).
  destruct (ece391_strcpy_spec m0 (buf + 2) command cmd Hc0) as (m' & -> & H1 & H2); [lia | lia|].
  exists m'. split_and!; [done | | done |].
  - apply cstr_app; [|exact H1]. intros i Hi. cbn in Hi.
    rewrite H2 by lia. subst m0. destruct (Z.eq_dec i 0) as [->|]; [|replace i with 1 by lia].
    + rewrite mget_mset_ne, Z.add_0_r, mget_mset_eq by lia. done.
    + by rewrite mget_mset_eq.
  - intros b Hb. rewrite H2, Hm0 by lia. done.
Qed.

Lemma parse_run m buf args0 command cmd :
  cstr m command cmd -> zlen cmd <= 1023 -> command + zlen cmd < buf \/ buf + 1026 <= command ->
  0 < buf -> zlen args0 = 1024 ->
  exists m' args, emu_parse m buf args0 command = Ok (m', args) /\ zlen args = 1024 /\
    same_out m m' buf 1026 /\ holds_argv m' args (command_argv cmd).
Proof.
  intros Hc Hl Hd Hb Ha. unfold emu_parse. cbv zeta.
  destruct (parse_copy m buf command cmd Hc Hl Hd) as (m1 & -> & Hpath & Hcmd & Hso).
  rewrite (word_run _ _ _ Hcmd) by lia. set (u := until is_sep cmd).
  pose proof (until_len is_sep cmd : (u <= _)%nat) as Hu. rewrite (aset_ok args0) by lia.
  set (args1 := <[_ := buf]> args0). assert (Ha1 : zlen args1 = 1024) by (unfold args1; by rewrite length_insert).
  assert (H0 : args1 !! 0%nat = Some buf) by (apply list_lookup_insert_eq; lia).
  pose proof (cstr_drop _ _ _ u Hcmd Hu) as Hp. unfold command_argv, command_args, command_name. fold u.
  destruct (drop u cmd) as [|c text] eqn:Ed.
  - rewrite (cstr_nil _ _ Hp). cbn [tail tokens]. rewrite (Z.eqb_refl 0), aset_ok by lia.
    do 2 eexists. split; [done|]. split; [by rewrite length_insert|].
    split; [intros b Hb'; apply Hso; lia|].
    assert (E : take u cmd = cmd)
      by (apply take_ge; apply (f_equal List.length) in Ed; rewrite length_drop in Ed; cbn in Ed; lia).
    rewrite E. by apply (holds_argv_set m1 buf args1 _ []).
  - assert (Hlen : zlen cmd = Z.of_nat u + 1 + zlen text)
      by (apply (f_equal List.length) in Ed; rewrite length_drop in Ed; cbn in Ed; lia).
    destruct (cstr_cons _ _ _ _ Hp) as (-> & Hc0 & Ht). rewrite (proj2 (Z.eqb_neq c 0)) by done.
    set (m2 := mset _ _ 0). assert (Ht2 : cstr m2 (buf + 2 + Z.of_nat u + 1) text).
    { eapply cstr_ext; [|exact Ht]. intros b Hb'. unfold m2. by rewrite mget_mset_ne by lia. }
    destruct (args_run _ _ text args1 Ht2 ltac:(lia) Ha1)
      as (m3 & args3 & -> & Hso3 & Ha3 & H03 & Hn3 & Hargs). cbn [tail].
    rewrite aset_ok by lia. do 2 eexists. split; [done|]. split; [by rewrite length_insert|]. split.
    { intros b Hb'. rewrite Hso3 by lia. unfold m2. rewrite mget_mset_ne by lia. apply Hso. lia. }
    replace (Z.to_nat (1 + _)) with (S (List.length (tokens [] text))) by lia.
    apply (holds_argv_set _ buf); [done | done | done | by rewrite H03 | |].
    + eapply (so_cstr m2); [exact Hso3 | cbn; rewrite length_take; lia |].
      pose proof (cstr_cut m1 buf (bytes "./" ++ cmd) (2 + u) Hpath) as Hcut.
      replace (buf + Z.of_nat (2 + u)) with (buf + 2 + Z.of_nat u) in Hcut by lia.
      apply Hcut. cbn. lia.
    + intros i w Hi. destruct (Hargs i w Hi) as (p & ? & ? & ?). exists p. split_and!; [done | lia | done].
Qed.

(** ** Joining the arguments *)

(** The stack a program starts with: [argc] at [esp], then the pointers to
    the strings of [argv].  None of it is in the [n] bytes at [buf] or the
    byte after them. *)
Record arg_stack (m : mem) (esp : Z) (argv : list (list Z)) (buf n : Z) : Prop := {
  as_argc : load_s32 m esp = zlen argv;
  as_argv : forall i w, argv !! i = Some w ->
    let p := load32 m (esp + 4 + 4 * Z.of_nat i) in
    cstr m p w /\ zlen w < 2147483648 /\ (p + zlen w < buf \/ buf + n < p);
  as_apart : esp + 4 + 4 * zlen argv <= buf \/ buf + n < esp;
}.

(** The bytes at [a] are those of [l], none of them zero. *)
Definition chars (m : mem) (a : Z) (l : list Z) : Prop :=
  forall i, 0 <= i < zlen l -> mget m (a + i) = anth 0 l i /\ anth 0 l i <> 0.

Lemma chars_app m a l1 l2 : chars m a l1 -> chars m (a + zlen l1) l2 -> chars m a (l1 ++ l2).
Proof.
  intros H1 H2 i Hi. rewrite length_app in Hi. rewrite anth_app by lia. case_decide; [by apply H1; lia|].
  replace (a + i) with (a + zlen l1 + (i - zlen l1)) by lia. apply H2. lia.
Qed.

Lemma chars_ext m m' a l :
  (forall b, a <= b < a + zlen l -> mget m' b = mget m b) -> chars m a l -> chars m' a l.
Proof. intros E Hc i Hi. rewrite E by lia. by apply Hc. Qed.

Lemma join_cons w ws : ws <> [] -> join (w :: ws) = w ++ SP :: join ws.
Proof. by destruct ws. Qed.

(** The loop with [pre] written and [rest] to come. *)
Record join_inv (m0 : mem) (argv : list (list Z)) (buf nbytes : Z)
    (m : mem) (idx : Z) (pre : list Z) (rest : list (list Z)) : Prop := {
  ji_rest : rest = drop (Z.to_nat idx) argv;
  ji_idx : 1 <= idx /\ idx + zlen rest = zlen argv;
  ji_text : join (tail argv) = pre ++ join rest;
  ji_room : zlen pre <= Z.max 0 nbytes;
  ji_pre : chars m buf pre;
  ji_frame : same_out m0 m buf (zlen pre + 1);
}.

(** What the loop leaves. *)
Definition joined (m0 : mem) (argv : list (list Z)) (buf nbytes : Z)
    (r : res (mem * option (Z * Z))) : Prop :=
  exists m o, r = Ok (m, o) /\ let text := join (tail argv) in
    match o with
    | None => nbytes <= zlen text /\ same_out m0 m buf (Z.max 0 nbytes + 1)
    | Some (b, n) => b = buf + zlen text /\ n = nbytes - zlen text /\
        zlen text <= Z.max 0 nbytes /\ chars m buf text /\ same_out m0 m buf (zlen text + 1)
    end.

(** An argument and a space. *)
Lemma join_inv_next m0 argv buf nbytes m idx pre w rest m1 :
  join_inv m0 argv buf nbytes m idx pre (w :: rest) -> rest <> [] ->
  chars m1 buf (pre ++ w) -> same_out m0 m1 buf (zlen (pre ++ w) + 1) ->
  zlen pre + zlen w < nbytes ->
  join_inv m0 argv buf nbytes (mset m1 (buf + zlen pre + zlen w) SP) (idx + 1) (pre ++ w ++ [SP]) rest.
Proof.
  intros [J1 J2 J3 J4 J5 J6] Hr Hpre Hso Hn. cbn [List.length] in J2. rewrite join_cons in J3 by done.
  assert (Hlpw : zlen (pre ++ w) = zlen pre + zlen w) by (rewrite length_app; lia).
  assert (Hp' : zlen (pre ++ w ++ [SP]) = zlen pre + zlen w + 1) by (rewrite !length_app; cbn; lia).
  constructor.
  - rewrite Z.add_1_r, Z2Nat.inj_succ by lia. rewrite <- Nat.add_1_r, <- drop_drop, <- J1. done.
  - lia.
  - by rewrite J3, <- !app_assoc.
  - lia.
  - rewrite app_assoc. apply chars_app.
    + eapply chars_ext; [|exact Hpre]. intros b Hb. by rewrite mget_mset_ne by lia.
    + intros i Hi'. cbn in Hi'. replace i with 0 by lia. rewrite Hlpw, Z.add_0_r, Z.add_assoc, mget_mset_eq. done.
  - rewrite Hp'. intros b Hb. rewrite mget_mset_ne by lia. apply Hso. lia.
Qed.

(** One argument. *)
Lemma join_step m0 esp argv buf nbytes m idx pre w rest :
  arg_stack m0 esp argv buf (Z.max 0 nbytes) -> -2147483648 <= nbytes < 2147483648 ->
  zlen argv < 2147483648 ->
  join_inv m0 argv buf nbytes m idx pre (w :: rest) ->
  match emu_getargs_step (esp + 4) (zlen argv) (m, buf + zlen pre, nbytes - zlen pre, idx) with
  | inl st => exists m' pre', st = (m', buf + zlen pre', nbytes - zlen pre', idx + 1) /\
      join_inv m0 argv buf nbytes m' (idx + 1) pre' rest /\ rest <> []
  | inr r => joined m0 argv buf nbytes r
  end.
Proof.
  intros [S1 S2 S3] Hn Hl J. pose proof J as [J1 J2 J3 J4 J5 J6]. cbn [List.length] in J2.
  assert (Hi : argv !! Z.to_nat idx = Some w) by (rewrite <- (Nat.add_0_r (Z.to_nat idx)), <- lookup_drop, <- J1; done).
  destruct (S2 _ _ Hi) as (Hw0 & Hwl & Hap). rewrite Z2Nat.id in * by lia.
  unfold emu_getargs_step. rewrite (proj2 (Z.ltb_lt idx (zlen argv))) by lia. cbv zeta.
  rewrite (so_load32 _ _ _ _ _ J6) by lia. set (p := load32 m0 _) in *.
  assert (Hw : cstr m p w) by (eapply so_cstr; [exact J6 | lia | done]).
  rewrite (ece391_strlen_spec _ _ _ Hw), s32_small by lia.
  assert (Hlen : zlen pre + zlen w <= zlen (join (tail argv)))
    by (rewrite J3, length_app; destruct rest; cbn [join]; rewrite ?length_app; lia).
  destruct (Z.ltb_spec (nbytes - zlen pre) (zlen w)) as [Hs|Hs].
  { exists m, None. split; [done|]. split; [lia|]. eapply so_widen; [exact J6 | lia | lia]. }
  destruct (ece391_strcpy_spec m (buf + zlen pre) p w Hw) as (m1 & -> & C1 & C2); [lia | lia|].
  assert (Hpre : chars m1 buf (pre ++ w)).
  { apply chars_app; [eapply chars_ext; [|exact J5]; intros; apply C2; lia | exact (proj1 C1)]. }
  assert (Hso : same_out m0 m1 buf (zlen (pre ++ w) + 1))
    by (rewrite length_app; intros b Hb; rewrite C2, J6 by lia; done).
  rewrite !s32_small by lia. assert (Hlpw : zlen (pre ++ w) = zlen pre + zlen w) by (rewrite length_app; lia).
  destruct (Z.leb_spec (zlen argv) (idx + 1)) as [Hlast|Hmore].
  - destruct rest; [|cbn [List.length] in J2; lia]. cbn [join] in J3. exists m1, (Some (buf + zlen (pre ++ w), nbytes - zlen (pre ++ w))).
    split; [by rewrite Hlpw, Z.add_assoc, Z.sub_add_distr|]. cbv zeta. rewrite J3.
    split_and!; [done | done | lia | done | done].
  - assert (Hr : rest <> []) by (intros ->; cbn in J2; lia). rewrite join_cons in J3 by done.
    assert (Hlen' : zlen (pre ++ w) < zlen (join (tail argv)))
      by (rewrite J3, app_assoc, (length_app (pre ++ w)); cbn [List.length]; lia).
    destruct (Z.ltb_spec (nbytes - zlen pre - zlen w) 1) as [Hs'|Hs'].
    { exists m1, None. split; [done|]. split; [lia|]. eapply so_widen; [exact Hso | lia | lia]. }
    assert (Hp' : zlen (pre ++ w ++ [SP]) = zlen pre + zlen w + 1) by (rewrite !length_app; cbn; lia).
    exists (mset m1 (buf + zlen pre + zlen w) SP), (pre ++ w ++ [SP]).
    split; [by rewrite Hp', !Z.add_assoc, !Z.sub_add_distr|]. split; [|done].
    eapply join_inv_next; [exact J | done | done | exact Hso | lia].
Qed.

Lemma join_run m esp argv buf nbytes :
  arg_stack m esp argv buf (Z.max 0 nbytes) -> -2147483648 <= nbytes < 2147483648 ->
  1 <= zlen argv < 2147483648 ->
  joined m argv buf nbytes (while (emu_getargs_step (esp + 4) (zlen argv)) (m, buf, nbytes, 1)).
Proof.
  intros Hs Hn Hl. destruct argv as [|name ws]; [cbn in Hl; lia|]. cbn [List.length] in Hl.
  apply (while_index _ (fun n st => exists m1 idx pre rest,
    st = (m1, buf + zlen pre, nbytes - zlen pre, idx) /\ n = zlen rest /\
    join_inv m (name :: ws) buf nbytes m1 idx pre rest /\ (rest = [] -> pre = []))
    (joined m (name :: ws) buf nbytes) (zlen ws)); [|lia|].
  { exists m, 1, [], ws. split; [by rewrite Z.add_0_r, Z.sub_0_r|]. split; [done|]. split; [|done].
    constructor; try done; cbn [List.length]; try lia. intros i Hi. cbn in Hi. lia. }
  intros n st (m1 & idx & pre & rest & -> & -> & J & Hp). destruct rest as [|w rest].
  - rewrite (Hp eq_refl) in *. destruct J as [J1 J2 J3 J4 J5 J6]. unfold emu_getargs_step.
    cbn [List.length] in J2. rewrite (proj2 (Z.ltb_ge _ _)) by (cbn [List.length]; lia).
    do 2 eexists. split; [done|]. cbv zeta. rewrite J3. by cbn in *.
  - pose proof (join_step _ _ _ _ _ _ _ _ _ _ Hs Hn ltac:(cbn [List.length]; lia) J) as Hstep.
    cbn [List.length] in Hstep |- *.
    destruct (emu_getargs_step _ _ _) as [st|r]; [|done]. destruct Hstep as (m2 & pre2 & -> & J' & Hr).
    exists (zlen rest). split; [lia|]. exists m2, (idx + 1), pre2, rest. by split_and!.
Qed.

(** ** A name of the directory *)

(** The bytes of [s] at [to], then zeros, [k] in all. *)
Definition named (m : mem) (to : Z) (s : list Z) (k : Z) : Prop :=
  forall i, 0 <= i < k -> mget m (to + i) = anth 0 s i.

Lemma named_snoc m to s k v :
  0 <= k -> named m to s k -> u8 v = anth 0 s k -> named (mset m (to + k) v) to s (k + 1).
Proof.
  intros Hk Hn Hv i Hi. destruct (Z.eq_dec i k) as [->|]; [by rewrite mget_mset_eq|].
  rewrite mget_mset_ne by lia. apply Hn. lia.
Qed.

Lemma pad_run m to s nbytes k :
  0 <= zlen s <= k -> k <= Z.min nbytes 32 -> named m to s k ->
  exists m', while (emu_pad_step nbytes) (m, to + k, k) = Ok (m', Z.min nbytes 32) /\
    named m' to s (Z.min nbytes 32) /\ same_out m m' (to + k) (Z.min nbytes 32 - k).
Proof.
  intros Hs Hk Hn. set (K := Z.min nbytes 32) in *.
  apply (while_index _ (fun n st => exists m1 j, st = (m1, to + j, j) /\ n = K - j /\ k <= j <= K /\
      named m1 to s j /\ same_out m m1 (to + k) (j - k))
    (fun r => exists m', r = Ok (m', K) /\ named m' to s K /\ same_out m m' (to + k) (K - k)) (K - k));
    [exists m, k; split_and!; done || lia | lia|].
  intros n st (m1 & j & -> & -> & Hj & H1 & H2). unfold emu_pad_step.
  replace ((j <? nbytes) && (j <? 32)) with (j <? K) by lia.
  destruct (Z.ltb_spec j K) as [Hlt|Hge]; [|replace j with K in * by lia; by exists m1].
  exists (K - (j + 1)). split; [lia|]. exists (mset m1 (to + j) 0), (j + 1).
  rewrite s32_small by lia. split_and!; [by rewrite Z.add_assoc | done | lia | lia | |].
  - apply named_snoc; [lia | done|]. unfold anth. by rewrite nth_overflow by lia.
  - intros b Hb. rewrite mget_mset_ne by lia. apply H2. lia.
Qed.

Lemma copy_run m from to s nbytes :
  cstr m from s -> 1 <= nbytes < 2147483648 ->
  from + zlen s < to \/ to + Z.min nbytes 32 <= from ->
  exists m', emu_copy_name m from to nbytes = Ok (m', Z.min nbytes 32) /\
    named m' to s (Z.min nbytes 32) /\ same_out m m' to (Z.min nbytes 32).
Proof.
  intros Hs Hn Hap. unfold emu_copy_name. set (K := Z.min nbytes 32) in *.
  assert (Hloop : exists m1 r, while (emu_copy_step nbytes) (m, from, to, 0) = Ok (m1, r) /\
    same_out m m1 to K /\ match r with
      | inl v => v = K /\ named m1 to s K
      | inr (t, j) => t = to + j /\ zlen s <= j < K /\ named m1 to s j
      end).
  { apply (while_index _ (fun n st => exists m1 j, st = (m1, from + j, to + j, j) /\ n = K - j /\
        0 <= j < K /\ j <= zlen s /\ named m1 to s j /\ same_out m m1 to j)
      (fun r => exists m1 o, r = Ok (m1, o) /\ same_out m m1 to K /\ match o with
        | inl v => v = K /\ named m1 to s K
        | inr (t, j) => t = to + j /\ zlen s <= j < K /\ named m1 to s j
        end) K); [|lia|].
    { exists m, 0. rewrite !Z.add_0_r. split_and!; try done; try lia. intros i Hi. lia. }
    intros n st (m1 & j & -> & -> & Hj & Hjs & H1 & H2). unfold emu_copy_step.
    assert (Hc : mget m1 (from + j) = mget m (from + j)) by (apply H2; lia). rewrite Hc.
    destruct (Z.eq_dec j (zlen s)) as [->|Hne].
    { rewrite (cstr_end _ _ _ Hs). do 2 eexists. split; [done|].
      split; [eapply so_widen; [exact H2 | lia | lia]|]. split_and!; [done | lia | lia | done]. }
    rewrite (proj2 (Z.eqb_neq _ 0)) by (apply (cstr_nonzero _ _ _ _ Hs); lia).
    rewrite s32_small by lia. set (m2 := mset m1 _ _).
    assert (H3 : named m2 to s (j + 1)).
    { apply named_snoc; [lia | done|]. rewrite mget_u8. apply (cstr_char _ _ _ _ Hs). lia. }
    assert (H4 : same_out m m2 to (j + 1))
      by (intros b Hb; unfold m2; rewrite mget_mset_ne by lia; apply H2; lia).
    destruct (Z.eqb_spec (j + 1) nbytes) as [E|E]; [|destruct (Z.eqb_spec (j + 1) 32) as [E'|E']].
    - replace (j + 1) with K in * by lia. do 2 eexists. by split_and!.
    - replace (j + 1) with K in * by lia. do 2 eexists. by split_and!.
    - exists (K - (j + 1)). split; [lia|]. exists m2, (j + 1). rewrite !Z.add_assoc.
      split_and!; done || lia. }
  destruct Hloop as (m1 & r & -> & Hso & Hr). destruct r as [v|[t j]].
  - destruct Hr as [-> Hn1]. by exists m1.
  - destruct Hr as (-> & Hj & Hn1).
    destruct (pad_run m1 to s nbytes j ltac:(lia) ltac:(lia) Hn1) as (m2 & -> & H2 & H3).
    exists m2. split_and!; [done | done|]. eapply so_trans; [exact Hso|].
    eapply so_widen; [exact H3 | lia | lia].
Qed.

(** ** The properties *)

Section Properties.
Context {H : Type} (host : host_ops H).

(** [ece391_getargs] joins the arguments with spaces.  It answers 0 when the
    text and its terminator fit into the [n] bytes of the buffer, and -1
    otherwise; then it may have written the buffer and one byte more. *)
Lemma getargs_run argv buf n (e : emu H) :
  arg_stack (e_mem e) (start_esp e) argv buf (Z.max 0 n) ->
  1 <= zlen argv < 2147483648 -> -2147483648 <= n < 2147483648 ->
  let text := join (tail argv) in
  exists v m', emu_getargs buf n e = Ok (v, set_e_mem m' e) /\
    if zlen text <? n
    then v = 0 /\ cstr m' buf text /\ same_out (e_mem e) m' buf (zlen text + 1)
    else v = -1 /\ same_out (e_mem e) m' buf (Z.max 0 n + 1).
Proof.
  intros Hs Hl Hn text. unfold emu_getargs. bstep. bstep. rewrite (as_argc _ _ _ _ _ Hs).
  destruct (join_run _ _ argv buf n Hs Hn Hl) as (m1 & o & -> & Ho). cbv zeta in Ho. fold text in Ho.
  bstep. bstep. destruct o as [[b k]|].
  - destruct Ho as (-> & -> & Hroom & Hc & Hso). destruct (Z.ltb_spec (zlen text) n) as [Hfit|Hno].
    + rewrite (proj2 (Z.ltb_ge _ 1)) by lia. bstep. do 2 eexists. split; [done|].
      split; [done|]. split.
      * split; [|by rewrite mget_mset_eq]. intros i Hi. rewrite mget_mset_ne by lia. by apply Hc.
      * intros b Hb. rewrite mget_mset_ne by lia. apply Hso. lia.
    + rewrite (proj2 (Z.ltb_lt _ 1)) by lia. do 2 eexists. split; [done|]. split; [done|].
      eapply so_widen; [exact Hso | lia | lia].
  - destruct Ho as [Hno Hso]. rewrite (proj2 (Z.ltb_ge _ _)) by done. by do 2 eexists.
Qed.
(** C35: [ece391_execute] on a host.  In the child the program of the command is
    run from the directory, with the words of the command as its arguments,
    or the child is killed; the arrays of the function are large enough and
    only they are written.  The parent gets the status of the child: 256 when
    a signal ended it, -1 for the signal of the child that could not run the
    program.  A command of more than 1023 characters is refused. *)
Theorem emulated_execute buf args0 command cmd (e : emu H) :
  cstr (e_mem e) command cmd -> zlen cmd < 4294967296 -> zlen args0 = 1024 -> 0 < buf ->
  command + zlen cmd < buf \/ buf + 1026 <= command ->
  if 1023 <? zlen cmd then emu_execute host buf args0 command e = Ok (EmuRet (-1), e)
  else exists m' argv pid h',
    holds_argv m' argv (command_argv cmd) /\ same_out (e_mem e) m' buf 1026 /\
    fork host (e_host e) = (pid, h') /\
    (pid = 0 -> emu_execute host buf args0 command e =
       Ok (if execv host m' buf argv h' then EmuExecv buf argv else EmuKilled,
           set_e_mem m' (set_e_host h' e))) /\
    (forall st h2, pid <> 0 -> wait host h' = (Some st, h2) ->
       emu_execute host buf args0 command e =
       Ok (EmuRet (match st with Exited v => u8 v | Signaled s => if s =? 9 then -1 else 256 end),
           set_e_mem m' (set_e_host h2 e))).
Proof.
  intros Hc Hl Ha Hb Hd. unfold emu_execute. bstep.
  rewrite (ece391_strlen_spec _ _ _ Hc) by done. bstep.
  destruct (Z.ltb_spec 1023 (zlen cmd)) as [|Hs]; [done|].
  destruct (parse_run _ buf args0 command cmd Hc Hs Hd Hb Ha) as (m' & argv & -> & _ & Hso & Hargv).
  destruct (fork host (e_host e)) as [pid h'] eqn:Hf.
  exists m', argv, pid, h'. split_and!; [done | done | done | |].
  - intros ->. bstep. bstep. by erewrite on_host_bind by exact Hf.
  - intros st h2 Hp Hw. bstep. bstep. erewrite on_host_bind by exact Hf.
    rewrite (proj2 (Z.eqb_neq pid 0)) by done. erewrite on_host_bind by exact Hw. by destruct st.
Qed.

(** C36: A command is split and joined again.  The child that runs
    [name w1 ... wn] is given the words [w1 ... wn]; when a program starts
    with these on its stack, as [execv] puts them there, its
    [ece391_getargs] gives the text after the name, character by character,
    whenever it fits. *)
Theorem emulated_roundtrip name ws buf args0 command dst n m (child : emu H) :
  Forall (fun c => is_sep c = false) name -> Forall is_word ws ->
  let cmd := join (name :: ws) in
  cstr m command cmd -> zlen cmd <= 1023 -> zlen args0 = 1024 -> 0 < buf ->
  command + zlen cmd < buf \/ buf + 1026 <= command ->
  arg_stack (e_mem child) (start_esp child) ((bytes "./" ++ name) :: ws) dst n ->
  zlen (join ws) < n < 2147483648 ->
  exists m' argv m2,
    emu_parse m buf args0 command = Ok (m', argv) /\
    holds_argv m' argv ((bytes "./" ++ name) :: ws) /\
    emu_getargs dst n child = Ok (0, set_e_mem m2 child) /\ cstr m2 dst (join ws).
Proof.
  intros Hname Hws cmd Hc Hl Ha Hb Hd Hst Hn.
  destruct (parse_run m buf args0 command cmd Hc Hl Hd Hb Ha) as (m' & argv & Hp & Hla & _ & Hargv).
  unfold command_argv in Hargv. destruct (command_join name ws Hname Hws) as [E1 E2].
  fold cmd in E1, E2. rewrite E1, E2 in Hargv.
  assert (Hlen : zlen ws <= 1022).
  { destruct Hargv as [_ Hnull]. apply lookup_lt_Some in Hnull. cbn in Hnull. lia. }
  destruct (getargs_run ((bytes "./" ++ name) :: ws) dst n child) as (v & m2 & Hg & Hr);
    [by rewrite Z.max_r by lia | cbn [List.length]; lia | lia|].
  cbn [tail] in Hr. rewrite (proj2 (Z.ltb_lt _ _)) in Hr by lia. destruct Hr as (-> & Hr & _).
  by exists m', argv, m2.
Qed.

(** ** A directory read on the host *)

(** What the C library promises of directory streams: [stream h d] are the
    names still to come on [d], and [readdir] puts the next one into the
    [n] bytes at [a]. *)
Record dir_host (stream : H -> Z -> list (list Z)) (a n : Z) : Prop := {
  dh_next : forall d m h s t, stream h d = s :: t ->
    exists p m' h', readdir host d (m, h) = (Some p, (m', h')) /\ stream h' d = t /\
      cstr m' p s /\ a <= p /\ p + zlen s < a + n /\ same_out m m' a n;
  dh_end : forall d m h, stream h d = [] ->
    exists h', readdir host d (m, h) = (None, (m, h')) /\ stream h' d = [];
  dh_open : forall d h path flags fd h', host_open host path flags h = (fd, h') ->
    stream h' d = stream h d;
}.

(** Reading [k] entries, with the 32 bytes each of them leaves in [buf]. *)
Fixpoint emu_list (k : nat) (fd buf : Z) : ST (emu H) (list (Z * list Z)) :=
  match k with
  | O => mret []
  | S k =>
      v ← emu_read host fd buf 32;
      m ← gets e_mem;
      l ← emu_list k fd buf;
      mret ((v, mbytes m buf 32) :: l)
  end.

Lemma named_pad m to s : named m to s 32 -> mbytes m to 32 = take 32 (pad 32 s).
Proof.
  intros Hn. assert (Hp : List.length (take 32 (pad 32 s)) = 32%nat)
    by (unfold pad; rewrite length_take, length_app, length_replicate; lia).
  apply (anth_eq 0); rewrite length_mbytes; [done|]. intros i Hi.
  rewrite anth_mbytes, Hn by lia. unfold anth at 2. rewrite nth_lookup, lookup_take_lt by lia.
  unfold pad, anth. rewrite nth_lookup. destruct (decide (Z.to_nat i < List.length s)%nat).
  - by rewrite lookup_app_l by lia.
  - rewrite lookup_ge_None_2, lookup_app_r by lia.
    by rewrite lookup_replicate_2 by lia.
Qed.

Section Directory.
Context (stream : H -> Z -> list (list Z)) (a n : Z) (Hhost : dir_host stream a n).

Lemma emu_read_entry s t buf (e : emu H) :
  dir e <> NULL -> stream (e_host e) (dir e) = s :: t -> buf + 32 <= a \/ a + n <= buf ->
  exists m' h', emu_read host (dir_fd e) buf 32 e = Ok (32, set_e_mem m' (set_e_host h' e)) /\
    stream h' (dir e) = t /\ mbytes m' buf 32 = take 32 (pad 32 s).
Proof.
  intros Hd Hs Hap. unfold emu_read. bstep. bstep.
  rewrite (proj2 (Z.eqb_neq _ NULL)), Z.eqb_refl by done. cbn [orb negb].
  destruct (dh_next _ _ _ Hhost _ (e_mem e) _ _ _ Hs) as (p & m1 & h1 & Hr & Ht & Hc & Hp1 & Hp2 & _).
  erewrite on_world_bind by exact Hr. cbv beta iota. bstep.
  destruct (copy_run m1 p buf s 32 Hc) as (m2 & E & Hn & _); [lia | lia|].
  change (e_mem (set_e_mem m1 (set_e_host h1 e))) with m1. rewrite E. bstep. bstep.
  exists m2, h1. split_and!; [done | done |]. by apply named_pad.
Qed.

Lemma list_entries names buf (e : emu H) :
  dir e <> NULL -> stream (e_host e) (dir e) = names -> buf + 32 <= a \/ a + n <= buf ->
  exists m' h', emu_list (List.length names) (dir_fd e) buf e =
      Ok (map (fun s => (32, take 32 (pad 32 s))) names, set_e_mem m' (set_e_host h' e)) /\
    stream h' (dir e) = [].
Proof.
  intros Hd Hs Hap. revert e Hd Hs. induction names as [|s t IH]; intros e Hd Hs.
  { exists (e_mem e), (e_host e). split; [by destruct e | done]. }
  destruct (emu_read_entry s t buf e Hd Hs Hap) as (m1 & h1 & Hr & Ht & Hb). cbn [List.length emu_list map].
  rewrite (bind_ok _ _ _ _ _ Hr). bstep.
  destruct (IH (set_e_mem m1 (set_e_host h1 e)) Hd Ht) as (m2 & h2 & Hl & H2).
  rewrite (bind_ok _ _ _ _ _ Hl). exists m2, h2. split; [|done]. by rewrite <- Hb.
Qed.

(** C37: A program that opens the directory reads the names of its files one by
    one, each cut or filled with zeros to 32 bytes, then reads 0; writing to
    it fails; and after [ece391_close] no descriptor is taken for a directory
    any more. *)
Theorem emulated_directory names lit_dot filename buf (e : emu H) d h1 fd h2 :
  cstr (e_mem e) lit_dot (bytes ".") -> cstr (e_mem e) filename (bytes ".") ->
  opendir host (bytes ".") (e_host e) = (d, h1) -> d <> NULL -> stream h1 d = names ->
  host_open host (bytes "/dev/null") O_RDONLY h1 = (fd, h2) ->
  buf + 32 <= a \/ a + n <= buf ->
  exists e1 e2 e3 e4,
    emu_open host lit_dot filename e = Ok (fd, e1) /\
    emu_list (List.length names) fd buf e1 =
      Ok (map (fun s => (32, take 32 (pad 32 s))) names, e2) /\
    emu_read host fd buf 32 e2 = Ok (0, e3) /\ e_mem e3 = e_mem e2 /\
    (forall p k, emu_write host fd p k e3 = Ok (-1, e3)) /\
    emu_close host fd e3 = Ok (0, e4) /\ dir e4 = NULL /\ dir_fd e4 = -1.
Proof.
  intros Hl Hf Hod Hd Hn Hop Hap.
  set (e1 := set_dir_fd fd (set_e_host h2 (set_dir d (set_e_host h1 e)))).
  assert (Ho : emu_open host lit_dot filename e = Ok (fd, e1)).
  { unfold emu_open. bstep.
    destruct (ece391_strcmp_spec _ _ _ _ _ Hf Hl ltac:(cbn; lia)) as (c & -> & Hc).
    bstep. rewrite (proj2 (Z.eqb_eq c 0)) by (by apply Hc).
    erewrite on_host_bind by exact Hod. bstep. by erewrite on_host_bind by exact Hop. }
  assert (Hs : stream (e_host e1) (dir e1) = names) by (by rewrite <- Hn; eapply dh_open).
  destruct (list_entries names buf e1 Hd Hs Hap) as (m2 & h3 & Hlist & Hend).
  destruct (dh_end _ _ _ Hhost (dir e1) m2 h3 Hend) as (h4 & Hr & _).
  exists e1, (set_e_mem m2 (set_e_host h3 e1)), (set_e_mem m2 (set_e_host h4 e1)),
    (set_dir_fd (-1) (set_e_host (host_close host fd (closedir host d h4)) (set_dir NULL (set_e_mem m2 e1)))).
  assert (Hdir : (d =? NULL) || negb (fd =? fd) = false)
    by (rewrite (proj2 (Z.eqb_neq _ NULL)), Z.eqb_refl by done; done).
  split_and!; try done.
  - unfold emu_read. bstep. bstep. cbn [dir dir_fd set_e_mem set_e_host e1 set_dir_fd set_dir].
    rewrite Hdir. erewrite on_world_bind by exact Hr. done.
  - intros p k. unfold emu_write. bstep. bstep. cbn [dir dir_fd set_e_mem set_e_host e1 set_dir_fd set_dir].
    by rewrite Hdir.
  - unfold emu_close. bstep. bstep. cbn [dir dir_fd set_e_mem set_e_host e1 set_dir_fd set_dir].
    by rewrite Hdir.
Qed.
End Directory.

(** [ece391_vidmap] opens the memory device once; the program sees the page
    of the text screen in the megabyte it maps. *)
Lemma emulated_vidmap screen (e : emu H) fd h1 image h2 :
  (if mem_fd e =? -1 then host_open host (bytes "/dev/mem") O_RDWR (e_host e) else (mem_fd e, e_host e)) = (fd, h1) ->
  mmap host 1048576 fd 0 h1 = (image, h2) ->
  exists e', emu_vidmap host screen e = Ok (if image =? MAP_FAILED then -1 else 0, e') /\
    mem_fd e' = fd /\
    (image <> MAP_FAILED -> 0 <= image < 4294967296 - 753664 -> load32 (e_mem e') screen = image + 753664).
Proof.
  intros Ho Hm. unfold emu_vidmap. bstep.
  assert (Hw : when (mem_fd e =? -1) (fd ← on_host (host_open host (bytes "/dev/mem") O_RDWR);
      modify (set_mem_fd fd)) e = Ok (tt, set_mem_fd fd (set_e_host h1 e))).
  { unfold when. destruct (mem_fd e =? -1); [by erewrite on_host_bind by exact Ho|].
    injection Ho as <- <-. by destruct e. }
  rewrite (bind_ok _ _ _ _ _ Hw). bstep. erewrite on_host_bind by exact Hm.
  destruct (Z.eqb_spec image MAP_FAILED) as [->|Hi]; bstep; eexists; split_and!; try done.
  intros _ Hr. cbn. rewrite load32_store32_eq. apply u32_small. lia.
Qed.
End Properties.
