(* ===== verification/Reader.v ===== *)
(** * Programs that print and read lines

    What a program with literals, a writable region and the two standard
    files can do ([running]): print its literals, start a [read] of the
    terminal, and find the line the user has typed when the [read] returns.
    A program that asks one question before it ends is a [Dialog]; from the
    [execute] that starts it to the [halt] that ends it, with the interrupts
    of the keyboard between, it runs as [dialog_runs] says. *)

From Stdlib Require Import ZArith Lia String Ascii.
From stdpp Require Import base numbers list gmap.
From S2P Require Import Prelude Mem CString FileSys Console Machine Paging Pcb Exec Line Syscall.
From S2P Require Import Terminal Keyboard User Program.

Local Open Scope Z_scope.

(** ** A program and its data *)

(** The literals [lits] are in the page of the program, apart from the region
    of [n] bytes at [buf], which holds what the program writes. *)
Definition lit_ok (k : kernel) (buf n : Z) (l : Z * list Z) : Prop :=
  in_page (curr_task_pos k) l.1 (zlen l.2 + 1) /\ apart buf n l.1 (zlen l.2 + 1) /\
  cstr (kmem k) l.1 l.2.

Record running (lay : layout) (lits : list (Z * list Z)) (buf n : Z) (t : fdtab) (k : kernel)
  : Prop := {
  ru_fops : fops_ok lay;
  ru_slot : 0 <= curr_task_pos k < 6;
  ru_data : in_page (curr_task_pos k) buf n;
  ru_lits : Forall (lit_ok k buf n) lits;
  ru_fds : has_fds lay (kmem k) (curr_pcb k) t;
  ru_in : exists q, anth None t 0 = Some (FStdin, q);
  ru_out : exists q, anth None t 1 = Some (FStdout, q);
}.

(** Its [read] waits, nothing has been typed, and the screen shows [v]. *)
Record waits (lay : layout) (lits : list (Z * list Z)) (buf n : Z) (t : fdtab)
  (b : kbd) (v : view) (k : kernel) : Prop := {
  wt_running : running lay lits buf n t k;
  wt_typing : typing b [] (k_tty k);
  wt_reading : ter_read_indicator (k_tty k) = 1;
  wt_screen : displays k v;
}.

(** Memory above 4 MB has changed in the region only. *)
Definition data_only (buf n : Z) (k k' : kernel) : Prop :=
  forall b, 4194304 <= b -> (b < buf \/ buf + n <= b) -> mget (kmem k') b = mget (kmem k) b.

Lemma data_trans buf n k1 k2 k3 :
  data_only buf n k1 k2 -> data_only buf n k2 k3 -> data_only buf n k1 k3.
Proof. intros H1 H2 b Hb Ho. by rewrite H2, H1. Qed.

(** The image and the names of the open files are as before. *)
Record files_kept (k k' : kernel) : Prop := {
  fk_fs : exists i, k_fs k' = set_file_pos_keeper i (k_fs k);
  fk_image : forall b, 4194304 <= b < pcb_at 5 -> mget (kmem k') b = mget (kmem k) b;
  fk_names : forall fd b, 0 <= fd < 8 ->
    file_name_at (curr_pcb k) fd <= b < file_name_at (curr_pcb k) fd + 32 ->
    mget (kmem k') b = mget (kmem k) b;
}.

Section Running.
Context {lay : layout} {lits : list (Z * list Z)} {buf n : Z} {t : fdtab}.

(** The program does not see changes outside its page and its files. *)
Lemma running_same t' k k' :
  running lay lits buf n t k -> curr_task_pos k' = curr_task_pos k ->
  has_fds lay (kmem k') (curr_pcb k') t' ->
  anth None t' 0 = anth None t 0 -> anth None t' 1 = anth None t 1 ->
  (forall b, page_at (curr_task_pos k) <= b < page_at (curr_task_pos k) + 4194304 ->
     (b < buf \/ buf + n <= b) -> mget (kmem k') b = mget (kmem k) b) ->
  running lay lits buf n t' k'.
Proof.
  intros [U1 U2 U3 U4 U5 U6 U7] Ep Hf E0 E1 Hp.
  constructor; rewrite ?Ep, ?E0, ?E1; try assumption.
  rewrite Forall_forall in *. intros [p s] Hin. destruct (U4 _ Hin) as (L0 & L3 & L4).
  unfold lit_ok. rewrite Ep. split; [exact L0|]. split; [exact L3|]. destruct L0 as [L1 L2]. eapply cstr_ext; [|exact L4].
  intros b Hb. symmetry. cbn [fst snd] in *. apply Hp; [lia|]. unfold apart in L3. lia.
Qed.

Lemma running_data k k' :
  running lay lits buf n t k -> curr_task_pos k' = curr_task_pos k -> data_only buf n k k' ->
  running lay lits buf n t k'.
Proof.
  intros Hr Ep Hd. pose proof (ru_slot _ _ _ _ _ _ Hr) as Hsl.
  pose proof (pcb_at_low _ Hsl) as (P5 & Plo & Phi).
  pose proof (ru_data _ _ _ _ _ _ Hr) as [B1 B2].
  eapply running_same; [exact Hr | exact Ep | | done | done |].
  - eapply has_fds_ext; [|unfold curr_pcb; rewrite Ep; exact (ru_fds _ _ _ _ _ _ Hr)].
    intros b Hb. apply Hd; unfold curr_pcb, page_at in *; rewrite ?Ep in *; lia.
  - intros b Hb Ho. apply Hd; [unfold page_at in Hb; lia | exact Ho].
Qed.

(** Neither do the others see what it writes. *)
Lemma calm_data k k' :
  running lay lits buf n t k -> console_only k k' -> data_only buf n k k' -> calm k k'.
Proof.
  intros Hr Co Hd. pose proof (ru_slot _ _ _ _ _ _ Hr) as Hsl.
  pose proof (pcb_at_low _ Hsl) as (P5 & Plo & Phi).
  pose proof (ru_data _ _ _ _ _ _ Hr) as [B1 B2].
  constructor; try (by rewrite Co).
  - intros b Hb. apply Hd; unfold curr_pcb, page_at in *; lia.
  - intros b Hb [_ Ho]. apply Hd; unfold page_at in *; lia.
Qed.

(** Stores of the program into its region. *)
Lemma running_write k m' v :
  running lay lits buf n t k -> displays k v ->
  (forall b, b < buf \/ buf + n <= b -> mget m' b = mget (kmem k) b) ->
  let k' := set_kmem m' k in
  running lay lits buf n t k' /\ displays k' v /\ steady k k' /\ data_only buf n k k'.
Proof.
  intros Hr Hd Hm k'. assert (Hdo : data_only buf n k k') by (intros b _ Ho; by apply Hm).
  pose proof (ru_slot _ _ _ _ _ _ Hr) as Hsl. pose proof (ru_data _ _ _ _ _ _ Hr) as [B1 B2].
  split; [by eapply running_data|]. split; [|split; [|exact Hdo]].
  - apply (displays_mem k _ (t_if (k_tty k))); [exact Hd | by destruct k as [[]]|].
    intros b Hb. unfold page_at in B1. apply Hm. lia.
  - constructor; [by eapply calm_data|]. intros kb line Hty.
    apply (typing_mem _ _ _ (kmem k') (t_if (k_tty k))) in Hty. by destruct k as [[]].
Qed.

Lemma running_store k a x v :
  running lay lits buf n t k -> displays k v -> buf <= a < buf + n ->
  let k' := set_kmem (mset (kmem k) a x) k in
  running lay lits buf n t k' /\ displays k' v /\ steady k k' /\ data_only buf n k k'.
Proof.
  intros Hr Hd Ha. apply running_write; [exact Hr | exact Hd|]. intros b Ho.
  by rewrite mget_mset_ne by lia.
Qed.

(** A string in the page of the program, printed. *)
Lemma running_puts ks k p s v :
  running lay lits buf n t k -> displays k v -> cstr (kmem k) p s ->
  in_page (curr_task_pos k) p (zlen s + 1) ->
  exists k', ece391_fdputs lay ks 1 p k = Ok (inl tt, k') /\
    displays k' (abs_puts s v) /\ steady k k' /\ running lay lits buf n t k' /\
    (forall b, 4194304 <= b -> mget (kmem k') b = mget (kmem k) b).
Proof.
  intros Hr Hd Hs Hpg. pose proof Hr as [U1 U2 _ _ U5 _ (q & U7)].
  pose proof (in_page_high _ _ _ Hpg ltac:(lia)) as Hhigh.
  assert (Hlen : zlen s < 2147483648) by (unfold in_page in Hpg; lia).
  destruct (fdputs_screen lay ks k t q p s v) as (k' & Hput & Hd' & Hst & Hm); try done.
  exists k'. split_and!; try done.
  eapply running_data; [exact Hr | exact (sd_pos _ _ Hst)|]. intros b Hb _. by apply Hm.
Qed.

Lemma running_says ks k p s v :
  running lay lits buf n t k -> (p, s) ∈ lits -> displays k v ->
  exists k', ece391_fdputs lay ks 1 p k = Ok (inl tt, k') /\
    displays k' (abs_puts s v) /\ steady k k' /\ running lay lits buf n t k' /\
    (forall b, 4194304 <= b -> mget (kmem k') b = mget (kmem k) b).
Proof.
  intros Hr Hin Hd. pose proof (proj1 (Forall_forall _ _) (ru_lits _ _ _ _ _ _ Hr) _ Hin) as (L1 & _ & L2).
  by apply running_puts.
Qed.

(** The arguments, copied into the region. *)
Lemma running_getargs ks k v a nbytes args :
  running lay lits buf n t k -> displays k v -> cstr (kmem k) (arg_buffer (curr_pcb k)) args ->
  0 < zlen args < 100 -> zlen args <= nbytes < 2147483648 -> buf <= a -> a + zlen args + 1 <= buf + n ->
  exists k', ece391_getargs lay ks a nbytes k = Ok (inl 0, k') /\ cstr (kmem k') a args /\
    displays k' v /\ steady k k' /\ running lay lits buf n t k'.
Proof.
  intros Hr Hd Ha Hl Hn Hlo Hfit. pose proof (ru_slot _ _ _ _ _ _ Hr) as Hsl.
  pose proof (ru_data _ _ _ _ _ _ Hr) as [B1 B2]. pose proof (pcb_at_low _ Hsl) as (P5 & Plo & Phi).
  unfold page_at in *.
  assert (Hg := getargs_spec a nbytes args (set_if true k) Ha ltac:(lia)
    ltac:(unfold apart, arg_buffer, curr_pcb; cbn; lia)).
  unfold args_fit in Hg. rewrite (proj2 (Z.eqb_neq a 0)), (proj2 (Z.eqb_neq nbytes 0)),
    (u32_small nbytes), (proj2 (Z.leb_le _ nbytes)), (proj2 (Z.ltb_lt 0 _)) in Hg by lia.
  cbn [negb andb] in Hg. destruct Hg as (m' & Hg & Hc & Hs).
  destruct (running_write k m' v Hr Hd) as (Hr1 & Hd1 & Hs1 & _); [intros b Hb; apply Hs; lia|].
  exists (set_if true (set_kmem m' (set_if false (set_if true k)))).
  split; [by apply getargs_call; [unfold int32; lia|]|]. split; [exact Hc|].
  split; [exact (displays_if true _ _ Hd1)|]. split.
  - transitivity (set_kmem m' k); [exact Hs1 | exact (steady_if true (set_kmem m' k))].
  - by eapply running_data; [exact Hr1 | |].
Qed.

(** Files.  A call that changes the table of descriptors to [t']. *)
Lemma running_fds t' k k' :
  running lay lits buf n t k -> curr_task_pos k' = curr_task_pos k ->
  has_fds lay (kmem k') (curr_pcb k') t' ->
  anth None t' 0 = anth None t 0 -> anth None t' 1 = anth None t 1 ->
  (forall b, 8388608 <= b -> mget (kmem k') b = mget (kmem k) b) -> running lay lits buf n t' k'.
Proof.
  intros Hr Ep Hf E0 E1 Hm. pose proof (ru_slot _ _ _ _ _ _ Hr) as Hsl.
  eapply running_same; [exact Hr | exact Ep | exact Hf | exact E0 | exact E1|].
  intros b Hb _. apply Hm. unfold page_at in Hb. lia.
Qed.

Lemma running_open_ready ks k start NI NB dir name s :
  running lay lits buf n t k -> world lay (k_fs k) (kmem k) start NI NB dir ->
  dentry_fits ks (curr_task_pos k) -> cstr (kmem k) name s -> 8388608 <= name ->
  0 < zlen s < 32 -> take 5 s <> bytes "stdin" -> take 6 s <> bytes "stdout" ->
  open_ready lay (set_if true k) start NI NB dir (ks_dentry ks) name s t.
Proof.
  intros [Hfo Hsl _ _ Hf _ _] Hw [D1 D2] Hs Hn Hl N1 N2.
  pose proof (pcb_at_low _ Hsl) as (P5 & Plo & Phi).
  constructor; try done; try lia; unfold apart, curr_pcb in *; cbn; lia.
Qed.

(** [open] of a name of the directory, of a known type; the name is kept
    with the descriptor. *)
Lemma running_open_named ks k v start NI NB dir name s j e kd :
  running lay lits buf n t k -> displays k v -> world lay (k_fs k) (kmem k) start NI NB dir ->
  dentry_fits ks (curr_task_pos k) -> cstr (kmem k) name s -> 8388608 <= name ->
  0 < zlen s < 32 -> take 5 s <> bytes "stdin" -> take 6 s <> bytes "stdout" ->
  abs_lookup dir s = Some j -> dir !! Z.to_nat j = Some e -> kind_of_type (e_type e) = Some kd ->
  let t' := match free_fd t with Some fd => <[Z.to_nat fd := Some (kd, 0)]> t | None => t end in
  let r := match free_fd t with Some fd => fd | None => -1 end in
  exists k', ece391_open lay ks name k = Ok (inl r, k') /\ running lay lits buf n t' k' /\
    displays k' v /\ steady k k' /\ k_trace k' = k_trace k /\
    (forall b, 8388608 <= b -> mget (kmem k') b = mget (kmem k) b) /\
    (exists i, k_fs k' = set_file_pos_keeper i (k_fs k)) /\
    (forall b, b < pcb_at 5 -> mget (kmem k') b = mget (kmem k) b) /\
    (forall fd, free_fd t = Some fd -> cstr (kmem k') (file_name_at (curr_pcb k') fd) s /\
       names_same (curr_pcb k) fd (kmem k) (kmem k')).
Proof.
  intros Hr Hd Hw Hde Hs Hn Hl N1 N2 Hj He Hkd t' r.
  pose proof (running_open_ready ks k start NI NB dir name s Hr Hw Hde Hs Hn Hl N1 N2) as Hor.
  destruct (open_spec _ _ _ _ _ _ _ _ _ _ Hor) as (r' & k2 & Hop & Hres & Hp & _ & Hm & Hk).
  destruct (open_leaves _ _ _ _ _ _ _ _ _ _ v _ _ Hor Hop (displays_if true k v Hd) Hm Hk)
    as (Hd2 & Hs2 & _ & Hkeep & Hout).
  rewrite Hj in Hres. destruct Hres as (e' & He' & Hres). assert (e' = e) as -> by congruence.
  rewrite Hkd in Hres.
  destruct (find_fd_spec lay (kmem k) (curr_pcb k) t (ru_fds _ _ _ _ _ _ Hr)) as [_ Hrange].
  pose proof (hf_len _ _ _ _ (ru_fds _ _ _ _ _ _ Hr)) as Hlen.
  assert (Hout' : forall b, 8388608 <= b -> mget (kmem (set_if true k2)) b = mget (kmem k) b)
    by (intros; apply Hout; by right).
  assert (Ht : r' = r /\ running lay lits buf n t' (set_if true k2) /\
    (forall fd, free_fd t = Some fd -> cstr (kmem k2) (file_name_at (curr_pcb k2) fd) s /\
       names_same (curr_pcb k) fd (kmem k) (kmem k2))).
  { unfold r, t'. destruct (free_fd t) as [fd|].
    - destruct Hres as (-> & Hf & Hnm & Hns). specialize (Hrange fd eq_refl). split; [done|]. split.
      + eapply running_fds; [exact Hr | exact Hp | exact Hf | | | exact Hout'];
          (rewrite anth_insert by lia; case_decide; [lia | done]).
      + by intros ? [= <-].
    - destruct Hres as (-> & Hf). split_and!; [done| |done].
      eapply running_fds; [exact Hr | exact Hp | exact Hf | done | done | exact Hout']. }
  destruct Ht as (-> & Ht & Hnames). exists (set_if true k2). split; [by apply open_call|]. split; [exact Ht|].
  split; [by apply displays_if|]. split; [|split; [by destruct Hk as [i ->] | split_and!; [exact Hout' | exact Hkeep | | exact Hnames]]].
  - transitivity (set_if true k); [apply steady_if|]. transitivity k2; [exact Hs2 | apply steady_if].
  - intros b Hb. apply Hout. by left.
Qed.

Lemma running_open ks k v start NI NB dir name s j e kd :
  running lay lits buf n t k -> displays k v -> world lay (k_fs k) (kmem k) start NI NB dir ->
  dentry_fits ks (curr_task_pos k) -> cstr (kmem k) name s -> 8388608 <= name ->
  0 < zlen s < 32 -> take 5 s <> bytes "stdin" -> take 6 s <> bytes "stdout" ->
  abs_lookup dir s = Some j -> dir !! Z.to_nat j = Some e -> kind_of_type (e_type e) = Some kd ->
  let t' := match free_fd t with Some fd => <[Z.to_nat fd := Some (kd, 0)]> t | None => t end in
  let r := match free_fd t with Some fd => fd | None => -1 end in
  exists k', ece391_open lay ks name k = Ok (inl r, k') /\ running lay lits buf n t' k' /\
    displays k' v /\ steady k k' /\ k_trace k' = k_trace k /\
    (forall b, 8388608 <= b -> mget (kmem k') b = mget (kmem k) b).
Proof.
  intros Hr Hd Hw Hde Hs Hn Hl N1 N2 Hj He Hkd t' r.
  destruct (running_open_named ks k v start NI NB dir name s j e kd Hr Hd Hw Hde Hs Hn Hl N1 N2 Hj He Hkd)
    as (k' & H1 & H2 & H3 & H4 & H5 & H6 & _). by exists k'.
Qed.

(** [read] of a file: the bytes from the position of the descriptor. *)
Lemma running_reads_file ks k v start NI NB dir fd a nbytes p s j e :
  running lay lits buf n t k -> displays k v -> world lay (k_fs k) (kmem k) start NI NB dir ->
  file_ok (kmem k) (k_fs k) NI NB (e_inode e) -> dentry_fits ks (curr_task_pos k) ->
  2 <= fd < 8 -> anth None t fd = Some (FFile, p) ->
  cstr (kmem k) (file_name_at (curr_pcb k) fd) s -> 0 < zlen s < 32 ->
  abs_lookup dir s = Some j -> dir !! Z.to_nat j = Some e ->
  0 <= p <= file_len (kmem k) (k_fs k) (e_inode e) -> 0 <= nbytes < 2147483648 ->
  buf <= a -> a + nbytes <= buf + n ->
  let data := take (Z.to_nat nbytes) (drop (Z.to_nat p) (file_content (kmem k) (k_fs k) (e_inode e))) in
  exists k', ece391_read lay ks fd a nbytes k = Ok (inl (zlen data), k') /\
    mbytes (kmem k') a (List.length data) = data /\
    running lay lits buf n (<[Z.to_nat fd := Some (FFile, p + zlen data)]> t) k' /\
    displays k' v /\ steady k k' /\ files_kept k k' /\
    (forall b, 8388608 <= b -> (b < a \/ a + zlen data <= b) -> mget (kmem k') b = mget (kmem k) b).
Proof.
  intros Hr Hd Hw Hok Hde Hfd Ht Hn Hl Hj He Hp Hnb Ha Ha' data.
  pose proof Hr as [Hfo Hsl [D1 D2] _ Hf _ _]. pose proof (pcb_at_low _ Hsl) as (P5 & Plo & Phi).
  pose proof (hf_len _ _ _ _ Hf) as Hlen.
  assert (Hlow : 8388608 <= a) by (unfold page_at in D1; lia).
  assert (Rr : read_ready lay k start NI NB dir (ks_dentry ks) fd a nbytes p (e_inode e) s t).
  { constructor; try done; [lia|]. by exists j, e. }
  destruct (read_file_spec _ _ _ _ _ _ _ _ _ _ _ _ _ _ (read_ready_if _ true _ _ _ _ _ _ _ _ _ _ _ _ _ Rr))
    as (k1 & Hrun & Hb & _ & Rr1 & (i & Ek) & Hm).
  change (kmem (set_if true k)) with (kmem k) in *. change (k_fs (set_if true k)) with (k_fs k) in *.
  change (curr_pcb (set_if true k)) with (curr_pcb k) in *. fold data in Hrun, Hb, Rr1, Hm.
  assert (Hdat : zlen data <= nbytes) by (unfold data; rewrite length_take; lia).
  destruct Hde as [De1 De2].
  assert (Hpos : curr_pcb k <= fa_file_pos (curr_pcb k) fd /\
    fa_file_pos (curr_pcb k) fd + 4 <= curr_pcb k + 128) by (unfold fa_file_pos; lia).
  assert (Hhigh : forall b, 8388608 <= b -> (b < a \/ a + zlen data <= b) -> mget (kmem k1) b = mget (kmem k) b).
  { intros b Hb1 Hb2. unfold curr_pcb in Hpos. apply Hm; [done|lia|unfold curr_pcb; lia]. }
  exists (set_if true k1). split_and!.
  - apply read_call; [unfold int32; lia | unfold int32; lia | exact Hrun].
  - exact Hb.
  - eapply running_same; [exact Hr | by rewrite Ek | apply Rr1 | | |].
    1,2: rewrite anth_insert by lia; case_decide; [lia|done].
    intros b Hb1 Hb2. apply Hhigh; [unfold page_at in Hb1; lia|lia].
  - apply displays_if. apply (displays_mem k _ true); [exact Hd | by rewrite Ek |].
    intros b Hbb. unfold curr_pcb in *. apply Hm; lia.
  - apply (steady_mem true); [by rewrite Ek at 1 3 | by rewrite Ek | |].
    + intros b Hbb. unfold curr_pcb in *. apply Hm; lia.
    + intros b Hbb [Ho Ho']. unfold curr_pcb in *. apply Hm; [lia|lia|unfold page_at in *; lia].
  - constructor; [by exists i; rewrite Ek| |].
    + intros b Hbb. unfold curr_pcb in *. apply Hm; lia.
    + intros fd' b Hf' Hbb. unfold file_name_at, curr_pcb in *. apply Hm; lia.
  - exact Hhigh.
Qed.

(** [close] of a descriptor that can be closed. *)
Lemma running_close ks k v fd :
  running lay lits buf n t k -> displays k v -> 2 <= fd < 8 -> close_case t fd = Some true ->
  exists k', ece391_close lay ks fd k = Ok (inl 0, k') /\
    running lay lits buf n (<[Z.to_nat fd := None]> t) k' /\ displays k' v /\ steady k k' /\
    (forall b, 8388608 <= b -> mget (kmem k') b = mget (kmem k) b).
Proof.
  intros Hr Hd Hfd Hc. pose proof Hr as [Hfo Hsl _ _ Hf _ _].
  pose proof (close_spec lay (set_if true k) t fd Hfo Hf) as H. rewrite Hc in H.
  destruct H as (Hrun & Hf' & Hm). set (k2 := set_kmem _ _) in Hrun.
  pose proof (pcb_at_low _ Hsl) as (P5 & Plo & Phi).
  change (same_out (kmem k) (kmem k2) (pcb_at (curr_task_pos k)) 388) in Hm.
  pose proof (hf_len _ _ _ _ Hf) as Hlen.
  exists (set_if true k2). split; [apply close_call; [unfold int32; lia | exact Hrun]|]. split_and!.
  - eapply running_fds; [exact Hr | done | exact Hf' | | | intros b Hb; apply Hm; lia];
      (rewrite anth_insert by lia; case_decide; [lia | done]).
  - apply displays_if. apply (displays_mem k _ false); [exact Hd | done|]. intros b Hb. apply Hm. lia.
  - apply (steady_mem true); [done | done | |].
    + intros b Hb. apply Hm. unfold curr_pcb in Hb. lia.
    + intros b Hb [Ho _]. apply Hm. lia.
  - intros b Hb. apply Hm. lia.
Qed.

(** A [read] of the terminal starts to wait. *)
Lemma running_reads ks b k v a nbytes :
  running lay lits buf n t k -> typing b [] (k_tty k) -> displays k v -> int32 nbytes ->
  exists k', ece391_read lay ks 0 a nbytes k = Ok (inr Waiting, k') /\
    waits lay lits buf n t b v k' /\ steady k k'.
Proof.
  intros Hr Hty Hd Hn. pose proof Hr as [U1 _ _ _ U5 (q & U6) _].
  set (k2 := set_k_tty (set_ter_read_indicator 1 (k_tty (set_if true k))) (set_if true k)).
  exists k2. split; [|split].
  - apply read_waits; [unfold int32; lia | done|]. unfold read.
    erewrite bind_ok by (rewrite (fd_check_open lay (set_if true k) t 0 FStdin q); done).
    cbv beta iota. unfold on_tty, terminal_read_begin.
    change (k_tty (set_if true k)) with (set_t_if true (k_tty k)).
    unfold mbind, st_bind, modify, gets, mret, st_ret.
    change (enter_flag (set_ter_read_indicator 1 (set_t_if true (k_tty k)))) with (enter_flag (k_tty k)).
    rewrite (ty_normal _ _ _ Hty). reflexivity.
  - constructor; [| |done|].
    + by eapply running_data; [exact Hr | |].
    + destruct Hty as [[] ? [] ?]. by constructor.
    + destruct Hd as [[] ?]. by split.
  - constructor; [by constructor|]. intros kb line [[] ? [] ?]. by constructor.
Qed.

(** The line that the keys spell is in memory when the [read] returns. *)
Lemma running_gets_line fr shell b v k codes b' keys a nbytes :
  waits lay lits buf n t b v k ->
  Forall (fun sc => 0 <= sc < 256) codes -> typed b codes = Some (b', keys) ->
  let line := edit_lines [] keys ++ [LF] in
  zlen line <= 127 -> zlen line <= nbytes < 2147483648 ->
  buf <= a -> a + zlen line + 2 <= buf + n ->
  exists k1 k2, handle_all lay fr shell (codes ++ [ENTER]) k = Ok (Returns tt, k1) /\
    read_resume lay 0 a nbytes k1 = Ok (inl (zlen line), k2) /\
    mbytes (kmem k2) a (List.length line) = line /\
    Forall (fun c => 0 < c < 256) line /\
    typing b' [] (k_tty k2) /\ displays k2 (abs_putc LF (edit_views [] v keys)) /\
    running lay lits buf n t k2 /\ console_only k k2 /\ data_only buf n k k2.
Proof.
  intros [Hu Hty Hind [Hwf Hsh]] Hcodes Hkeys line Hlen Hnb Ha Hfit.
  assert (Hl : zlen line = zlen (edit_lines [] keys) + 1) by (unfold line; rewrite length_app; cbn; lia).
  destruct (line_arrives lay fr shell codes b b' keys k Hty Hind Hcodes Hkeys ltac:(lia))
    as (k1 & Hrun & Hty1 & Hdel & Co1 & Hm1 & Hv1 & Hall).
  fold line in Hdel, Hall.
  destruct (wp_inv _ _ _ (terminal_read_spec (k_tty k1) line a nbytes Hdel Hall ltac:(lia)))
    as (r & t' & Hpoll & -> & Htext & Hm2 & _ & _ & _ & _ & Et).
  rewrite (Z.min_r nbytes) in * by lia. rewrite Nat2Z.id in Htext.
  pose proof (ru_slot _ _ _ _ _ _ Hu) as Hsl. pose proof (ru_data _ _ _ _ _ _ Hu) as [B1 B2].
  unfold page_at in *.
  assert (Hu1 : running lay lits buf n t k1).
  { eapply running_data; [exact Hu | by rewrite Co1|]. intros c Hc _. apply Hm1.
    unfold off_screen, VIDEO. lia. }
  set (k2 := set_if true (set_k_tty t' k1)).
  assert (Hdo : data_only buf n k k2).
  { intros c Hc Ho. change (kmem k2) with (t_mem t'). rewrite Hm2 by lia.
    apply Hm1. unfold off_screen, VIDEO. lia. }
  assert (Hco : console_only k k2) by (transitivity k1; [exact Co1 | done]).
  exists k1, k2. split; [exact Hrun|]. split; [|split; [|split; [exact Hall|split; [|split; [|split]]]]].
  - unfold read_resume. pose proof Hu1 as [U1 _ _ _ U5 (q & U6) _].
    assert (Hp : read_poll lay 0 a nbytes k1 = Ok (Some (zlen line), set_k_tty t' k1)).
    { unfold read_poll. erewrite bind_ok by (rewrite (fd_check_open lay k1 t 0 FStdin q); done).
      cbv beta iota. unfold on_tty. by rewrite Hpoll. }
    by rewrite (bind_ok _ _ _ _ _ Hp).
  - change (kmem k2) with (t_mem t'). rewrite Htext. apply take_ge. lia.
  - change (typing b' [] (set_t_if true t')). rewrite Et. by destruct Hty1 as [[] ? [] ?].
  - apply displays_if. unfold displays. cbn [k_tty set_k_tty].
    destruct (Hv1 v Hsh) as (V1 & V2 & V3). split; [rewrite Et; by destruct (ty_wf _ _ _ Hty1)|].
    split; [|by rewrite Et]. intros y x Hon. rewrite <- V1 by done. destruct Hon as [Hy Hx].
    unfold screen_char. rewrite vaddr_eq. unfold VIDEO. apply Hm2; lia.
  - eapply running_data; [exact Hu | by rewrite Hco | exact Hdo].
  - by split.
Qed.
End Running.

(** A literal of the file of a program, and its place when it is loaded. *)
Definition literal_in (pos : Z) (content : list Z) (buf n : Z) (l : Z * list Z) : Prop :=
  in_image l.1 l.2 pos content /\ Forall (fun c => c <> 0) l.2 /\
  in_page pos l.1 (zlen l.2 + 1) /\ apart buf n l.1 (zlen l.2 + 1).

(** A program that has just been entered, with its literals loaded. *)
Lemma entered_running lay start NI NB dir pos content args v k k1 lits buf n :
  entered lay start NI NB dir pos content args v k k1 ->
  in_page pos buf n ->
  Forall (literal_in pos content buf n) lits ->
  running lay lits buf n fresh_fds k1 /\ displays k1 v.
Proof.
  intros [[_ _ Hfo Hsl Hfd _ Hd] Ep Him _ _] Hpg Hl. split; [|exact Hd].
  constructor; rewrite ?Ep in *; try done; [|by exists 0..].
  eapply Forall_impl; [exact Hl|]. intros [p s] (I1 & I2 & I3 & I4). unfold lit_ok. rewrite Ep.
  split; [done|]. split; [done|]. by eapply literal_loaded.
Qed.

(** ** Programs that ask *)

(** The interface of a program that asks one question: entered from [k], its
    code up to the [read] prints [ask]; when the keys of a line and Enter
    have been pressed, the rest of it ends with the value and the text that
    [reply] gives for the line. *)
Class Dialog (lay : layout) (fr : frame) (shell start NI NB : Z) (dir : list entry) (pos : Z)
  (content args : list Z) (k : kernel) (asks answers : UP Z) (ask : list Z)
  (reply : list Z -> option (Z * list Z)) : Prop := {
  dlg_status : forall line st text, reply line = Some (st, text) -> 0 <= st < 255;
  dlg_runs : forall k1 v b, entered lay start NI NB dir pos content args v k k1 ->
    typing b [] (k_tty k1) ->
    exists k2, asks k1 = Ok (inr Waiting, k2) /\ steady k1 k2 /\
      forall codes b' keys st text,
        Forall (fun sc => 0 <= sc < 256) codes -> typed b codes = Some (b', keys) ->
        zlen (edit_lines [] keys) <= 126 -> reply (edit_lines [] keys) = Some (st, text) ->
        exists k3 k4, handle_all lay fr shell (codes ++ [ENTER]) k2 = Ok (Returns tt, k3) /\
          answers k3 = Ok (inl st, k4) /\
          displays k4 (abs_puts text (abs_putc LF (edit_views [] (abs_puts ask v) keys))) /\
          calm k2 k4 /\ typing b' [] (k_tty k4);
}.

Lemma dialog_from lay fr shell start NI NB dir pos content args k k' asks answers ask reply :
  Dialog lay fr shell start NI NB dir pos content args k asks answers ask reply ->
  k_fs k' = k_fs k ->
  (forall b, 4194304 <= b < pcb_at 5 -> mget (kmem k') b = mget (kmem k) b) ->
  Dialog lay fr shell start NI NB dir pos content args k' asks answers ask reply.
Proof.
  intros [Hst Hrun] Ef Hm. split; [exact Hst|]. intros k1 v b En. apply Hrun. by eapply entered_from.
Qed.

Lemma reply_inj (st st' : Z) (text text' : list Z) :
  Some (st, text) = Some (st', text') -> st = st' /\ text = text'.
Proof. by intros [= -> ->]. Qed.

(** The code of such a program: a prompt, a [read], and [rest]. *)
Section Ask.
Context (lay : layout) (ks : kstack) (p a nbytes : Z) (rest : Z -> UP Z).

Definition ask_main : UP Z :=
  let! cnt := (let! _ := ece391_fdputs lay ks 1 p in ece391_read lay ks 0 a nbytes) in rest cnt.

Definition ask_after_read : UP Z :=
  let! cnt := read_resume lay 0 a nbytes in rest cnt.

Context (start NI NB : Z) (dir : list entry) (pos : Z) (content args : list Z) (k : kernel).
Context (lits : list (Z * list Z)) (buf n : Z) (reply : list Z -> option (Z * list Z)).

(** What [rest] has to do with a line. *)
Definition answers_line : Prop := forall k1 v k2 w line st text,
  entered lay start NI NB dir pos content args v k k1 -> calm k1 k2 ->
  running lay lits buf n fresh_fds k2 -> displays k2 w ->
  mbytes (kmem k2) a (List.length (line ++ [LF])) = line ++ [LF] ->
  Forall (fun c => 0 < c < 256) (line ++ [LF]) -> zlen line <= 126 -> reply line = Some (st, text) ->
  exists k3, rest (zlen line + 1) k2 = Ok (inl st, k3) /\ displays k3 (abs_puts text w) /\ steady k2 k3.

Lemma ask_Dialog fr shell ask :
  in_page pos buf n -> Forall (literal_in pos content buf n) lits -> (p, ask) ∈ lits ->
  127 <= nbytes < 2147483648 -> buf <= a ->
  (forall line st text, reply line = Some (st, text) -> 0 <= st < 255 /\ a + zlen line + 3 <= buf + n) ->
  answers_line ->
  Dialog lay fr shell start NI NB dir pos content args k ask_main ask_after_read ask reply.
Proof.
  intros Hpg Hlits Hin Hnb Ha Hrep Hrest. split; [intros; by eapply Hrep|].
  intros k1 v b En Hty. destruct (entered_running _ _ _ _ _ _ _ _ _ _ _ _ _ _ En Hpg Hlits) as [Hr Hd].
  destruct (running_says ks k1 p ask v Hr Hin Hd) as (k2 & Hput & Hd2 & Hs2 & Hr2 & _).
  destruct (running_reads ks b k2 _ a nbytes Hr2 (sd_typing _ _ Hs2 _ _ Hty) Hd2)
    as (k3 & Hread & Hw & Hs3); [unfold int32; lia|].
  assert (Hs : steady k1 k3) by (by transitivity k2).
  exists k3. split; [|split; [exact Hs|]].
  { unfold ask_main. apply ubind_inr. by erewrite ubind_inl by exact Hput. }
  intros codes b' keys st text Hcodes Hkeys Hlen Hreply.
  assert (Hl : zlen (edit_lines [] keys ++ [LF]) = zlen (edit_lines [] keys) + 1)
    by (rewrite length_app; cbn; lia).
  destruct (Hrep _ _ _ Hreply) as [_ Hfit].
  destruct (running_gets_line fr shell b _ k3 codes b' keys a nbytes Hw Hcodes Hkeys)
    as (k4 & k5 & Hirq & Hres & Hbytes & Hall & Hty5 & Hd5 & Hr5 & Co & Hdo); [lia..|].
  pose proof (calm_data k3 k5 (wt_running _ _ _ _ _ _ _ _ Hw) Co Hdo) as Hc5.
  destruct (Hrest k1 v k5 _ (edit_lines [] keys) st text En ltac:(transitivity k3; [exact Hs | exact Hc5])
    Hr5 Hd5 Hbytes Hall Hlen Hreply) as (k6 & Hrun & Hd6 & Hs6).
  exists k4, k6. split; [exact Hirq|]. split; [|split; [exact Hd6|split]].
  - unfold ask_after_read. rewrite Hl in Hres. by erewrite ubind_inl by exact Hres.
  - transitivity k5; [exact Hc5 | exact Hs6].
  - by apply (sd_typing _ _ Hs6).
Qed.
End Ask.

(** From the [execute] of the command to the [halt] of the program, with the
    user's line in between. *)
Lemma dialog_runs {lay fr sp t command cmd k start NI NB dir content pos v} ks frk shell b
  asks answers ask reply codes b' keys st text :
  launch lay fr sp t command cmd k start NI NB dir content pos v ->
  Dialog lay frk shell start NI NB dir pos content (cmd_args cmd) k asks answers ask reply ->
  typing b [] (k_tty k) ->
  Forall (fun sc => 0 <= sc < 256) codes -> typed b codes = Some (b', keys) ->
  zlen (edit_lines [] keys) <= 126 -> reply (edit_lines [] keys) = Some (st, text) ->
  exists k1 k2 k3 k4,
    execute lay fr command k = Ok (Entered (elf_entry content), k1) /\
    _start lay ks asks k1 = Ok (inr Waiting, k2) /\
    handle_all lay frk shell (codes ++ [ENTER]) k2 = Ok (Returns tt, k3) /\
    _start lay ks answers k3 = Ok (inr (Resuming (f_esp fr) (f_ebp fr) st), k4) /\
    displays k4 (abs_puts text (abs_putc LF (edit_views [] (abs_puts ask v) keys))) /\
    back lay pos k k4 /\ typing b' [] (k_tty k4).
Proof.
  intros La [Hst Hrun] Hty Hcodes Hkeys Hlen Hrep.
  destruct (launch_enters La) as (k1 & Hex & St & En).
  destruct (Hrun k1 v b En (enter_typing k1 b [] St Hty)) as (k2 & Hask & Hs2 & Hgo).
  destruct (Hgo codes b' keys st text Hcodes Hkeys Hlen Hrep)
    as (k3 & k4 & Hirq & Hans & Hd4 & Hc4 & Hty4).
  assert (Hc : calm k1 k4) by (transitivity k2; [exact Hs2 | exact Hc4]).
  destruct (launch_returns La ks k1 k4 st _ St Hc Hd4) as (k5 & Hhalt & Hd5 & Hback & Hty5).
  rewrite exit_small in Hhalt by (by eapply Hst).
  exists k1, k2, k3, k5. split; [exact Hex|]. split; [unfold _start; by apply ubind_inr|].
  split; [exact Hirq|]. split; [unfold _start; by erewrite ubind_inl by exact Hans|].
  split; [exact Hd5|]. split; [exact Hback | by apply Hty5].
Qed.
