(* ===== verification/Clock.v ===== *)
(** * Programs that wait for the clock

    A program with the clock among its files sets its rate, and its [read]
    waits for the next tick.  What these calls leave alone is [quiet]: memory
    and everything else that a program sees. *)

From Stdlib Require Import ZArith Lia.
From stdpp Require Import base numbers list gmap.
From S2P Require Import Prelude Mem CString FileSys Console Machine Pic Paging Rtc Pcb Exec Line.
From S2P Require Import Syscall Terminal Keyboard User Program Reader.

Local Open Scope Z_scope.

(** Only the interrupt flag, the trace of the ports and the flag of the clock
    have changed. *)
Record quiet (k k' : kernel) : Prop := {
  qu_tty : exists f tr, k_tty k' = set_t_trace tr (set_t_if f (k_tty k));
  qu_mem : kmem k' = kmem k;
  qu_pos : curr_task_pos k' = curr_task_pos k;
  qu_mmu : mmu k' = mmu k;
  qu_fs : k_fs k' = k_fs k;
  qu_steady : steady k k';
}.

#[export] Instance quiet_trans : Transitive quiet.
Proof.
  intros k1 k2 k3 [(f1 & t1 & E1) H1 H2 H3 H4 H5] [(f2 & t2 & E2) H1' H2' H3' H4' H5'].
  constructor; try congruence; [|by transitivity k2].
  exists f2, t2. rewrite E2, E1. by destruct (k_tty k1).
Qed.

Lemma quiet_displays k k' v : quiet k k' -> displays k v -> displays k' v.
Proof.
  intros [(f & tr & Et) _ _ _ _ _] [Hwf (Hc & Hy & Hx)]. unfold displays. rewrite Et.
  split; [by destruct Hwf | by split].
Qed.

Lemma quiet_running lay lits buf n t k k' :
  quiet k k' -> running lay lits buf n t k -> running lay lits buf n t k'.
Proof.
  intros Q Hr. eapply running_data; [exact Hr | apply Q|]. intros b _ _. by rewrite (qu_mem _ _ Q).
Qed.

Lemma quiet_set_if f k : quiet k (set_if f k).
Proof. constructor; try done; [|apply steady_if]. exists f, (k_trace k). by destruct k as [[]]. Qed.

(** The clock as the first file that a program opens. *)
Definition rtc_fds : fdtab := <[2%nat := Some (FRtc, 0)]> fresh_fds.

Section Clock.
Context {lay : layout} {lits : list (Z * list Z)} {buf n : Z} {t : fdtab} {fd q : Z}.
Context (Hfd : anth None t fd = Some (FRtc, q)) (Hr8 : 0 <= fd < 8).

(** The [read] of the clock starts to wait. *)
Lemma clock_waits ks k a :
  running lay lits buf n t k ->
  exists k', ece391_read lay ks fd a 4 k = Ok (inr Waiting, k') /\ quiet k k'.
Proof.
  intros [Hfo _ _ _ Hf _ _]. exists (set_rtc_interrupt_occured 0 (set_if true k)). split.
  - apply read_waits; [unfold int32; lia | unfold int32; lia|]. unfold read.
    by erewrite bind_ok by (rewrite (fd_check_open lay (set_if true k) t fd FRtc q); done).
  - constructor; try done; [exists true, (k_trace k); by destruct k as [[]]|].
    constructor; [by constructor|]. intros kb line Hty. by apply (typing_mem _ _ _ (kmem k) true) in Hty.
Qed.

(** It goes on with the next tick. *)
Lemma clock_ticks k a regc :
  running lay lits buf n t k -> 0 <= regc < 256 ->
  exists k1 k2, _idt_rtc_irq_handler regc k = Ok (tt, k1) /\
    read_resume lay fd a 4 k1 = Ok (inl 0, k2) /\ quiet k k2.
Proof.
  intros Hr Hc. pose proof (rtc_handler_spec regc k Hc) as Hh. set (k1 := set_if true _) in Hh.
  assert (Q1 : quiet k k1).
  { constructor; try done.
    - exists true, (k_trace k ++ ([Out 140 112; In 113 regc] ++ eoi_io 8)). by destruct k as [[]].
    - constructor; [by constructor|]. intros kb line [[] ? [] ?]. by constructor. }
  exists k1, (set_if true (set_if false k1)). split; [exact Hh|]. split.
  - unfold read_resume. destruct (quiet_running _ _ _ _ _ _ _ Q1 Hr) as [Hfo _ _ _ Hf _ _].
    assert (Hpoll : read_poll lay fd a 4 k1 = Ok (Some 0, k1)).
    { unfold read_poll. by erewrite bind_ok by (rewrite (fd_check_open lay k1 t fd FRtc q); done). }
    by rewrite (bind_ok _ _ _ _ _ Hpoll).
  - transitivity k1; [done|]. transitivity (set_if false k1); apply quiet_set_if.
Qed.

(** [write] of the frequency 32. *)
Lemma clock_set ks k a :
  running lay lits buf n t k -> load32 (kmem k) a = 32 -> 0 <= ks_prev ks < 256 ->
  exists k', ece391_write lay ks fd a 4 k = Ok (inl 4, k') /\ quiet k k' /\
    k_trace k' = k_trace k ++ rate_io (ks_prev ks) 11.
Proof.
  intros [Hfo _ _ _ Hf _ _] Hv Hprev.
  set (k1 := set_if true (emit (rate_io (ks_prev ks) 11) (set_if true k))).
  exists (set_if true k1). split; [|split; [|done]].
  - apply write_call; [unfold int32; lia | unfold int32; lia|]. unfold write.
    erewrite bind_ok by (rewrite (fd_check_open lay (set_if true k) t fd FRtc q); done).
    cbv beta iota. rewrite rtc_write_run by done.
    change (kmem (set_if true k)) with (kmem k). by rewrite Hv.
  - constructor; try done.
    + exists true, (k_trace k ++ rate_io (ks_prev ks) 11). by destruct k as [[]].
    + constructor; [by constructor|]. intros kb line [[] ? [] ?]. by constructor.
Qed.
End Clock.
