(* ===== verification/Cat.v ===== *)
(** * cat (syscalls/ece391cat.c), from its start to its end

    The shell starts [cat] with a file name; [cat] gets the name, opens the
    file, copies it to the screen and halts; the shell's [execute] returns.
    The theorem at the end puts together [execute], the system calls, the
    file system, the console and [halt]. *)

From Stdlib Require Import ZArith Lia String Ascii.
From stdpp Require Import base numbers list gmap.
From S2P Require Import Prelude Mem CString FileSys Console Machine Paging Pcb Exec Line Syscall.
From S2P Require Import User Program.

Local Open Scope Z_scope.

(** ** The program (ece391cat.c) *)

(** The literals of the program, and its [buf]. *)
Record cat_image := CatImage {
  cat_buf : Z;
  lit_no_args : Z;      (** "could not read arguments\n" *)
  lit_not_found : Z;    (** "file not found\n" *)
  lit_read_failed : Z;  (** "file read failed\n" *)
}.

(** One turn of the loop of [main]; the result is its return value. *)
Definition cat_step (lay : layout) (ks : kstack) (im : cat_image) (fd : Z) (k : kernel)
  : kernel + res ((Z + sysret) * kernel) :=
  match ece391_read lay ks fd (cat_buf im) 1024 k with
  | Err e => inr (Err e)
  | Ok (inr r, k1) => inr (Ok (inr r, k1))
  | Ok (inl cnt, k1) =>
      if cnt =? 0 then inr (Ok (inl 0, k1))
      else if cnt =? -1 then
        inr ((let! _ := ece391_fdputs lay ks 1 (lit_read_failed im) in uret 3) k1)
      else
        match ece391_write lay ks 1 (cat_buf im) cnt k1 with
        | Err e => inr (Err e)
        | Ok (inr r, k2) => inr (Ok (inr r, k2))
        | Ok (inl w, k2) => if w =? -1 then inr (Ok (inl 3, k2)) else inl k2
        end
  end.

Definition cat_main (lay : layout) (ks : kstack) (im : cat_image) : UP Z :=
  let! a := ece391_getargs lay ks (cat_buf im) 1024 in
  if negb (a =? 0) then
    let! _ := ece391_fdputs lay ks 1 (lit_no_args im) in uret 3
  else
    let! fd := ece391_open lay ks (cat_buf im) in
    if fd =? -1 then
      let! _ := ece391_fdputs lay ks 1 (lit_not_found im) in uret 2
    else fun k => while (cat_step lay ks im fd) k.

Definition cat_program lay ks im : UP Z := _start lay ks (cat_main lay ks im).

(** ** The loop of cat *)

Section Copy.
Context (lay : layout) (ks : kstack) (im : cat_image) (start NI NB : Z) (dir : list entry).
Context (fd ino : Z) (s content : list Z) (k0 : kernel) (v : view).
Context (Hpage : in_page (curr_task_pos k0) (cat_buf im) 1024).

Abbreviation reads k p t :=
  (read_ready lay k start NI NB dir (ks_dentry ks) fd (cat_buf im) 1024 p ino s t).

(** Between two turns: [n] bytes are left, and once they are shown the
    screen is [v]. *)
Record copying (n : Z) (k : kernel) : Prop := {
  cp_read : exists t q, reads k (zlen content - n) t /\ anth None t 1 = Some (FStdout, q);
  cp_content : file_content (kmem k) (k_fs k) ino = content;
  cp_screen : exists v1, displays k v1 /\
    abs_puts (drop (Z.to_nat (zlen content - n)) content) v1 = v;
  cp_steady : steady k0 k;
}.

(** What a turn reads. *)
Definition piece (n : Z) : list Z :=
  take 1024 (drop (Z.to_nat (zlen content - n)) content).

Lemma piece_zero n : 0 <= n <= zlen content -> zlen (piece n) = 0 -> n = 0.
Proof.
  unfold piece. rewrite length_take, length_drop. lia.
Qed.

Lemma piece_le n : 0 <= n <= zlen content -> zlen (piece n) <= n /\ zlen (piece n) <= 1024.
Proof. unfold piece. rewrite length_take, length_drop. lia. Qed.

Lemma copy_read n k :
  fd <> 1 -> copying n k ->
  exists k1 t q v1, ece391_read lay ks fd (cat_buf im) 1024 k = Ok (inl (zlen (piece n)), k1) /\
    0 <= n <= zlen content /\
    mbytes (kmem k1) (cat_buf im) (List.length (piece n)) = piece n /\
    reads k1 (zlen content - n + zlen (piece n)) t /\ anth None t 1 = Some (FStdout, q) /\
    file_content (kmem k1) (k_fs k1) ino = content /\ steady k0 k1 /\
    displays k1 v1 /\ abs_puts (drop (Z.to_nat (zlen content - n)) content) v1 = v.
Proof.
  intros Hfd [(t & q & Hr & Ht) Hc (v1 & Hd & Hv) Hs].
  pose proof (rr_pos _ _ _ _ _ _ _ _ _ _ _ _ _ _ Hr) as Hp.
  pose proof (length_file_content (kmem k) (k_fs k) ino) as Hl. rewrite Hc in Hl.
  destruct (read_file_spec _ _ _ _ _ _ _ _ _ _ _ _ _ _ (read_ready_if _ true _ _ _ _ _ _ _ _ _ _ _ _ _ Hr))
    as (k1 & Hrun & Hb & Hcont & Hr1 & (i & Ek) & Hm).
  pose proof Hr as [_ _ Hsl Hfds Hfr _ _ _ _ _ _ Hde Hbuf _].
  pose proof (pcb_at_low _ Hsl) as (P5 & Plo & Phi).
  change (kmem (set_if true k)) with (kmem k) in *. change (k_fs (set_if true k)) with (k_fs k) in *.
  change (curr_pcb (set_if true k)) with (curr_pcb k) in *.
  rewrite Hc in *. change (Z.to_nat 1024) with 1024%nat in *. fold (piece n) in *.
  assert (Hpos : curr_pcb k <= fa_file_pos (curr_pcb k) fd /\
    fa_file_pos (curr_pcb k) fd + 4 <= curr_pcb k + 488)
    by (unfold fa_file_pos; lia).
  exists (set_if true k1), (<[Z.to_nat fd := Some (FFile, zlen content - n + zlen (piece n))]> t), q, v1.
  split_and!; try done; try lia.
  - apply read_call; [unfold int32; lia | unfold int32; lia | exact Hrun].
  - by apply read_ready_if.
  - pose proof (hf_len _ _ _ _ Hfds). rewrite anth_insert by lia. case_decide; [lia | exact Ht].
  - transitivity k; [exact Hs|]. apply (steady_mem true); [by rewrite Ek at 1 3 | by rewrite Ek | |].
    + intros b Hbb. unfold curr_pcb in *. apply Hm; lia.
    + intros b Hbb [Ho Ho']. unfold in_page in Hpage. rewrite <- (sd_pos _ _ Hs) in Hpage.
      pose proof (piece_le n ltac:(lia)). unfold curr_pcb in *. apply Hm; lia.
  - apply displays_if. apply (displays_mem k _ true); [exact Hd | by rewrite Ek |].
    intros b Hbb. unfold curr_pcb in *. apply Hm; lia.
Qed.

(** What is left after a turn. *)
Lemma piece_rest n v1 :
  0 <= n <= zlen content ->
  abs_puts (drop (Z.to_nat (zlen content - (n - zlen (piece n)))) content)
    (abs_puts (piece n) v1) =
  abs_puts (drop (Z.to_nat (zlen content - n)) content) v1.
Proof.
  intros Hn. pose proof (piece_le n Hn) as Hle. rewrite <- abs_puts_app. f_equal.
  rewrite <- (take_drop 1024 (drop (Z.to_nat (zlen content - n)) content)) at 1.
  fold (piece n). f_equal. rewrite drop_drop.
  unfold piece in *. rewrite length_take, length_drop in *.
  destruct (decide (n <= 1024)).
  - rewrite !drop_ge by lia. done.
  - f_equal. lia.
Qed.

Lemma copy_turn n k :
  fd <> 1 -> copying n k ->
  match cat_step lay ks im fd k with
  | inl k' => exists n', 0 <= n' < n /\ copying n' k'
  | inr r => exists k', r = Ok (inl 0, k') /\ displays k' v /\ steady k0 k'
  end.
Proof.
  intros Hfd Hcp. destruct (copy_read n k Hfd Hcp)
    as (k1 & t & q & v1 & Hrd & Hn & Hb & Hr & Ht & Hc & Hs & Hd & Hv).
  pose proof (piece_le n Hn) as Hle. unfold cat_step. rewrite Hrd.
  destruct (Z.eqb_spec (zlen (piece n)) 0) as [Hz|Hz].
  - exists k1. apply piece_zero in Hz; [|done]. rewrite Hz, drop_ge in Hv by lia. rewrite <- Hv. done.
  - replace (zlen (piece n) =? -1) with false by lia.
    pose proof Hr as [_ Hfo Hsl Hfds _ _ _ _ _ _ _ _ Hbuf _]. destruct Hd as [Hwf Hsh].
    destruct (write_screen lay (ks_prev ks) (set_if true k1) t q (cat_buf im) (zlen (piece n)) v1)
      as (k2 & Hw & Hwf2 & Hsh2 & Hf2 & Hs2 & Hm2); try done; [by destruct Hwf | lia|].
    erewrite write_call; [|unfold int32; lia | unfold int32; lia | exact Hw].
    replace (zlen (piece n) + 1 =? -1) with false by lia.
    destruct (read_ready_same _ _ k2 _ _ _ _ _ _ _ _ _ _ _ _ Hr Hf2 (sd_pos _ _ Hs2) Hm2) as [Hr2 Hc2].
    exists (n - zlen (piece n)). split; [lia|]. constructor.
    + exists t, q. split; [|done]. apply read_ready_if.
      replace (zlen content - (n - zlen (piece n))) with (zlen content - n + zlen (piece n)) by lia.
      exact Hr2.
    + change (file_content (kmem k2) (k_fs k2) ino = content). by rewrite Hc2.
    + exists (abs_puts (piece n) v1). split; [|by rewrite piece_rest].
      apply displays_if. split; [done|]. rewrite Nat2Z.id in Hsh2.
      change (kmem (set_if true k1)) with (kmem k1) in Hsh2. by rewrite Hb in Hsh2.
    + transitivity k1; [done|]. transitivity (set_if true k1); [apply steady_if|].
      transitivity k2; [done | apply steady_if].
Qed.

Lemma cat_copies k n :
  fd <> 1 -> copying n k -> n < 4294967296 ->
  exists k', while (cat_step lay ks im fd) k = Ok (inl 0, k') /\ displays k' v /\ steady k0 k'.
Proof.
  intros Hfd Hcp Hn.
  apply (while_index _ copying (fun r => exists k', r = Ok (inl 0, k') /\ displays k' v /\ steady k0 k') n);
    [exact Hcp | exact Hn|].
  clear k n Hcp Hn. intros n k Hcp. by apply copy_turn.
Qed.
End Copy.
(** ** cat, from its arguments to its value *)

Definition not_found : list Z := bytes "file not found" ++ [LF].

(** What cat makes of a name: its value, and what it puts on the screen.
    (A directory or the clock can be opened too; they are left out.) *)
Definition cat_outcome (fs : fsvars) (m : mem) (dir : list entry) (s : list Z)
  : option (Z * list Z) :=
  match abs_lookup dir s with
  | None => Some (2, not_found)
  | Some j =>
      match dir !! Z.to_nat j with
      | Some f => if e_type f =? 2 then Some (0, file_content m fs (e_inode f)) else None
      | None => None
      end
  end.

Section Main.
Context (lay : layout) (ks : kstack) (im : cat_image) (start NI NB : Z) (dir : list entry).
Context (s : list Z).

(** The places of cat's own data and of the kernel's locals. *)
Record cat_places (pos : Z) : Prop := {
  pl_dentry : dentry_fits ks pos;
  pl_buf : in_page pos (cat_buf im) 1024;
  pl_lit : in_page pos (lit_not_found im) 16;
  pl_apart : apart (cat_buf im) 1024 (lit_not_found im) 16;
}.

(** A name that [open] looks up. *)
Record plain_name : Prop := {
  pn_len : 0 < zlen s < 30;
  pn_stdin : take 5 s <> bytes "stdin";
  pn_stdout : take 6 s <> bytes "stdout";
}.

Lemma cat_args k v :
  plain_name -> program_ready lay k start NI NB dir s v -> cat_places (curr_task_pos k) ->
  cstr (kmem k) (lit_not_found im) not_found ->
  exists k', ece391_getargs lay ks (cat_buf im) 1024 k = Ok (inl 0, k') /\
    open_ready lay (set_if true k') start NI NB dir (ks_dentry ks) (cat_buf im) s fresh_fds /\
    cstr (kmem k') (lit_not_found im) not_found /\ displays k' v /\ steady k k' /\
    k_fs k' = k_fs k /\ (forall b, b < 8388608 -> mget (kmem k') b = mget (kmem k) b).
Proof.
  intros [Hl Hn1 Hn2] [Hw _ Hfo Hsl Hfd Ha Hd] [Hde Hbuf Hlit Hap] Hls.
  unfold dentry_fits, in_page, page_at in *.
  pose proof (pcb_at_low _ Hsl) as (P5 & Plo & Phi). unfold apart in Hap.
  assert (Hg := getargs_spec (cat_buf im) 1024 s (set_if true k) Ha ltac:(lia)
    ltac:(unfold apart, arg_buffer, curr_pcb; cbn; lia)).
  unfold args_fit in Hg.
  rewrite (proj2 (Z.eqb_neq (cat_buf im) 0)), (u32_small 1024), (proj2 (Z.leb_le _ 1024)),
    (proj2 (Z.ltb_lt 0 _)) in Hg by lia. cbn [negb andb Z.eqb] in Hg.
  destruct Hg as (m' & Hg & Hc & Hs).
  assert (Hlow : forall b, b < 8388608 -> mget m' b = mget (kmem k) b)
    by (intros; apply Hs; lia).
  exists (set_if true (set_kmem m' (set_if false (set_if true k)))).
  split_and!; try done.
  - by apply getargs_call.
  - constructor; try done; try lia.
    + eapply world_high; [exact Hw|]. intros. apply Hlow. lia.
    + eapply has_fds_ext; [|exact Hfd]. intros b Hb. apply Hlow. unfold curr_pcb in Hb.
      cbn in Hb. lia.
    + unfold apart. lia.
    + unfold apart, curr_pcb. cbn. lia.
  - change (cstr m' (lit_not_found im) not_found). eapply so_cstr; [exact Hs | | exact Hls].
    change (zlen not_found) with 15. lia.
  - apply displays_if. apply (displays_mem k _ false); [exact Hd | done|].
    intros b Hb. apply Hlow. lia.
  - apply (steady_mem true); [done | done | |].
    + intros b Hb. apply Hlow. unfold curr_pcb in Hb. lia.
    + intros b Hb [_ Ho]. apply Hs. unfold page_at in Ho. lia.
Qed.

(** [main] after [getargs]. *)
Abbreviation cat_rest :=
  (let! fd := ece391_open lay ks (cat_buf im) in
   if fd =? -1 then let! _ := ece391_fdputs lay ks 1 (lit_not_found im) in uret 2
   else fun k => while (cat_step lay ks im fd) k).

Lemma cat_main_missing v k :
  abs_lookup dir s = None -> in_page (curr_task_pos k) (lit_not_found im) 16 ->
  open_ready lay (set_if true k) start NI NB dir (ks_dentry ks) (cat_buf im) s fresh_fds ->
  cstr (kmem k) (lit_not_found im) not_found -> displays k v ->
  exists k', cat_rest k = Ok (inl 2, k') /\
    displays k' (abs_puts not_found v) /\ steady k k'.
Proof.
  intros Hlk Hlit Hor Hls Hd.
  destruct (open_program _ _ _ _ _ _ _ _ _ _ Hor Hd) as (r & k2 & Hop & Hres & Hd2 & Hs2 & _ & _ & Hout).
  rewrite Hlk in Hres. destruct Hres as [-> Hfd].
  destruct Hor as [_ Hfo Hsl _ _ _ _ _ _ _ _ _]. change (0 <= curr_task_pos k < 6) in Hsl.
  pose proof (in_page_high _ _ _ Hlit ltac:(lia)) as Hhigh.
  destruct (fdputs_screen lay ks k2 fresh_fds 0 (lit_not_found im) not_found v)
    as (k3 & Hput & Hd3 & Hs3 & _); try done.
  - rewrite (sd_pos _ _ Hs2). exact Hsl.
  - eapply cstr_ext; [|exact Hls]. intros b Hb. symmetry. apply Hout. lia.
  - exists k3. split; [|split; [exact Hd3 | by transitivity k2]].
    erewrite ubind_inl by exact Hop. change (-1 =? -1) with true. cbv iota.
    erewrite ubind_inl by exact Hput. reflexivity.
Qed.

Lemma cat_main_copies v k j f :
  abs_lookup dir s = Some j -> dir !! Z.to_nat j = Some f -> e_type f = 2 ->
  file_ok (kmem k) (k_fs k) NI NB (e_inode f) -> in_page (curr_task_pos k) (cat_buf im) 1024 ->
  plain_name ->
  open_ready lay (set_if true k) start NI NB dir (ks_dentry ks) (cat_buf im) s fresh_fds ->
  displays k v ->
  exists k', cat_rest k = Ok (inl 0, k') /\
    displays k' (abs_puts (file_content (kmem k) (k_fs k) (e_inode f)) v) /\ steady k k'.
Proof.
  intros Hlk Hf Hty Hok Hbuf [Hl _ _] Hor Hd.
  destruct (open_program _ _ _ _ _ _ _ _ _ _ Hor Hd)
    as (r & k2 & Hop & Hres & Hd2 & Hs2 & Hw2 & (i & Ef) & Hout).
  rewrite Hlk in Hres. destruct (Hres f FFile Hf ltac:(by rewrite Hty)) as (-> & Hfd & Hnm).
  pose proof (sd_pos _ _ Hs2) as Hp.
  destruct Hor as [Hw1 Hfo Hsl _ _ _ _ _ _ Hde _ _]. change (0 <= curr_task_pos k < 6) in Hsl.
  pose proof (in_page_high _ _ _ Hbuf ltac:(lia)) as Hhigh.
  destruct (file_kernel _ _ _ (kmem k2) _ _ _ _ _ Hw1 Hok) as (F1 & F2 & F3);
    [intros b Hb; apply Hout; lia|].
  pose proof (fo_len _ _ _ _ _ Hok) as Hlen.
  pose proof (length_file_content (kmem k) (k_fs k) (e_inode f)) as Hcl.
  set (content := file_content (kmem k) (k_fs k) (e_inode f)) in *.
  assert (Hcp : copying lay ks im start NI NB dir 2 (e_inode f) s content k
    (abs_puts content v) (zlen content) k2).
  { constructor; [| rewrite Ef; exact F3 | exists v; by rewrite Z.sub_diag | exact Hs2].
    exists (<[2%nat := Some (FFile, 0)]> fresh_fds), 0. split; [|done].
    rewrite Z.sub_diag. constructor; try done; try lia.
    - by exists j, f.
    - rewrite Ef. by destruct F1.
    - rewrite Ef. change (0 <= 0 <= file_len (kmem k2) (k_fs k) (e_inode f)).
      rewrite <- (length_file_content (kmem k2)). lia.
    - by rewrite Hp. }
  destruct (cat_copies _ _ _ _ _ _ _ _ _ _ _ _ _ Hbuf _ _ (ltac:(done) : 2 <> 1) Hcp ltac:(lia))
    as (k3 & Hrun & Hd3 & Hs3).
  exists k3. split; [|split; [exact Hd3 | exact Hs3]].
  erewrite ubind_inl by exact Hop. exact Hrun.
Qed.

Lemma cat_main_spec k v st text :
  plain_name -> program_ready lay k start NI NB dir s v -> cat_places (curr_task_pos k) ->
  cstr (kmem k) (lit_not_found im) not_found ->
  cat_outcome (k_fs k) (kmem k) dir s = Some (st, text) ->
  exists k', cat_main lay ks im k = Ok (inl st, k') /\
    displays k' (abs_puts text v) /\ steady k k'.
Proof.
  intros Hn Hr Hpl Hls Hout.
  destruct (cat_args k v Hn Hr Hpl Hls) as (k1 & Hg & Hor & Hls1 & Hd & Hs & Ef & Hm).
  unfold cat_main. erewrite ubind_inl by exact Hg. cbn [Z.eqb negb].
  unfold cat_outcome in Hout. destruct (abs_lookup dir s) as [j|] eqn:Hlk.
  - destruct (dir !! Z.to_nat j) as [f|] eqn:Hf; [|done].
    destruct (Z.eqb_spec (e_type f) 2) as [Hty|]; [|done]. injection Hout as <- <-.
    destruct (file_kernel _ _ _ (kmem k1) _ _ _ _ _ (pr_world _ _ _ _ _ _ _ _ Hr)
      (pr_files _ _ _ _ _ _ _ _ Hr _ _ Hf Hty))
      as (F1 & _ & F3); [intros b Hb; apply Hm; change (pcb_at 5) with 8339456 in Hb; lia|].
    rewrite <- Ef in F1. rewrite <- F3, <- Ef.
    destruct (cat_main_copies v k1 j f) as (k2 & Hrun & Hd2 & Hs2); try done;
      [rewrite (sd_pos _ _ Hs); apply Hpl|].
    exists k2. split; [exact Hrun|]. split; [exact Hd2 | by transitivity k1].
  - injection Hout as <- <-.
    destruct (cat_main_missing v k1) as (k2 & Hrun & Hd2 & Hs2); try done;
      [rewrite (sd_pos _ _ Hs); apply Hpl|].
    exists k2. split; [exact Hrun|]. split; [exact Hd2 | by transitivity k1].
Qed.
End Main.

(** ** The whole command *)

Lemma outcome_same lay fs m i m' start NI NB dir s :
  world lay fs m start NI NB dir -> files_ok fs m NI NB dir ->
  (forall b, 4194304 <= b < pcb_at 5 -> mget m' b = mget m b) ->
  cat_outcome (set_file_pos_keeper i fs) m' dir s = cat_outcome fs m dir s.
Proof.
  intros Hw Hf Hm. destruct (files_same _ _ _ i _ _ _ _ _ Hw Hf Hm) as [_ Hc].
  unfold cat_outcome. destruct (abs_lookup dir s) as [j|]; [|done].
  destruct (dir !! Z.to_nat j) as [f|] eqn:Hj; [|done].
  destruct (Z.eqb_spec (e_type f) 2) as [Ht|]; [|done]. by rewrite (Hc _ _ Hj Ht).
Qed.

Lemma outcome_status fs m dir s st text :
  cat_outcome fs m dir s = Some (st, text) -> 0 <= st < 255.
Proof.
  unfold cat_outcome. intros H. destruct (abs_lookup dir s) as [j|]; [|by injection H as <- <-].
  destruct (dir !! Z.to_nat j) as [f|]; [|done]. destruct (_ =? _); [by injection H as <- <- | done].
Qed.

(** cat keeps the promise of a program. *)
Lemma cat_Program lay start NI NB dir pos content args k ks im st text :
  world lay (k_fs k) (kmem k) start NI NB dir -> files_ok (k_fs k) (kmem k) NI NB dir ->
  cat_places ks im pos -> plain_name args -> in_image (lit_not_found im) not_found pos content ->
  cat_outcome (k_fs k) (kmem k) dir args = Some (st, text) ->
  Program lay start NI NB dir pos content args k (cat_main lay ks im) st text.
Proof.
  intros Hw Hf Hpl Hpn Hlit Hout. split; [by eapply outcome_status|].
  intros k1 v [Hr Hs Him (i & Ei) Hlow]. eapply cat_main_spec; [exact Hpn | exact Hr | by rewrite Hs | |].
  - eapply literal_loaded; [exact Hlit | | exact Him].
    unfold not_found. cbn. repeat constructor; discriminate.
  - rewrite Ei. erewrite outcome_same; [exact Hout | exact Hw | exact Hf | exact Hlow].
Qed.

(** C4: The command [cat name] of a shell, for a name of a plain file or of no
    file at all: [execute] enters the program; the program gets its argument,
    opens the file, copies it to the screen (or reports that there is none)
    and halts; the [execute] of the shell resumes with the program's value;
    the tasks, the page tables, the line being typed and the memory of all
    other tasks are as before. *)
Theorem cat_command lay fr sp t command cmd k start NI NB dir content pos v ks im st text :
  launch lay fr sp t command cmd k start NI NB dir content pos v ->
  cat_places ks im pos -> plain_name (cmd_args cmd) ->
  in_image (lit_not_found im) not_found pos content ->
  cat_outcome (k_fs k) (kmem k) dir (cmd_args cmd) = Some (st, text) ->
  exists k1 k2, execute lay fr command k = Ok (Entered (elf_entry content), k1) /\
    cat_program lay ks im k1 = Ok (inr (Resuming (f_esp fr) (f_ebp fr) st), k2) /\
    displays k2 (abs_puts text v) /\ returned lay pos k k2.
Proof.
  intros La Hpl Hpn Hlit Hout. apply (command_runs La). eapply cat_Program; try done.
  - exact (cl_world _ _ _ _ _ _ _ _ _ _ _ _ (la_can _ _ _ _ _ _ _ _ _ _ _ _ _ _ La)).
  - exact (cl_files _ _ _ _ _ _ _ _ _ _ _ _ (la_can _ _ _ _ _ _ _ _ _ _ _ _ _ _ La)).
Qed.
