(* ===== verification/Ls.v ===== *)
(** * ls (syscalls/ece391ls.c), from its start to its end

    The shell starts [ls]; [ls] opens the directory, prints one name per
    line and halts; the shell's [execute] returns. *)

From Stdlib Require Import ZArith Lia String Ascii.
From stdpp Require Import base numbers list gmap.
From S2P Require Import Prelude Mem CString FileSys Console Machine Paging Pcb Exec Line Syscall.
From S2P Require Import User Program.

Local Open Scope Z_scope.

(** ** The program (ece391ls.c) *)

Definition SBUFSIZE : Z := 33.

(** The literals of the program, and its [buf]. *)
Record ls_image := LsImage {
  ls_buf : Z;
  lit_dot : Z;            (** "." *)
  lit_open_failed : Z;    (** "directory open failed\n" *)
  lit_entry_failed : Z;   (** "directory entry read failed\n" *)
}.

(** One turn of the loop of [main]; the result is its return value. *)
Definition ls_step (lay : layout) (ks : kstack) (im : ls_image) (fd : Z) (k : kernel)
  : kernel + res ((Z + sysret) * kernel) :=
  match ece391_read lay ks fd (ls_buf im) (SBUFSIZE - 1) k with
  | Err e => inr (Err e)
  | Ok (inr r, k1) => inr (Ok (inr r, k1))
  | Ok (inl cnt, k1) =>
      if cnt =? 0 then inr (Ok (inl 0, k1))
      else if cnt =? -1 then
        inr ((let! _ := ece391_fdputs lay ks 1 (lit_entry_failed im) in uret 3) k1)
      else if (cnt <? 0) || (SBUFSIZE <=? cnt) then inr (Err OutOfBounds)
      else
        match ece391_write lay ks 1 (ls_buf im) (cnt + 1)
                (set_kmem (mset (kmem k1) (ls_buf im + cnt) LF) k1) with
        | Err e => inr (Err e)
        | Ok (inr r, k2) => inr (Ok (inr r, k2))
        | Ok (inl w, k2) => if w =? -1 then inr (Ok (inl 3, k2)) else inl k2
        end
  end.

Definition ls_main (lay : layout) (ks : kstack) (im : ls_image) : UP Z :=
  let! fd := ece391_open lay ks (lit_dot im) in
  if fd =? -1 then
    let! _ := ece391_fdputs lay ks 1 (lit_open_failed im) in uret 2
  else fun k => while (ls_step lay ks im fd) k.

Definition ls_program lay ks im : UP Z := _start lay ks (ls_main lay ks im).

(** ** The loop of ls *)

(** The text of the entries from [j] on, of those in use. *)
Definition listing_text (num : Z) (dir : list entry) (j : Z) : list Z :=
  concat (map (fun e => e_name e ++ [LF]) (drop (Z.to_nat j) (take (Z.to_nat num) dir))).

(** The directory has [num] entries in use, all with a name. *)
Record listable (fs : fsvars) (m : mem) (num : Z) (dir : list entry) : Prop := {
  lb_num : load32 m (fs_bootblk fs) = num;
  lb_max : num <= 63;
  lb_names : forall i e, 0 <= i < num -> dir !! Z.to_nat i = Some e -> 0 < zlen (e_name e);
}.

Section List.
Context (lay : layout) (ks : kstack) (im : ls_image) (start NI NB : Z) (dir : list entry).
Context (fd num i0 : Z) (s : list Z) (k0 : kernel) (v : view).
Context (Hfo : fops_ok lay) (Hfd : 2 <= fd < 8) (Hbuf : 8388608 <= ls_buf im).
Context (Hpage : in_page (curr_task_pos k0) (ls_buf im) 33).
Context (Hs : 0 < zlen s < 32) (Hi0 : abs_lookup dir s = Some i0) (Hlt : 0 <= i0 < num).

(** The next read finds entry [j]. *)
Definition next_entry (fs : fsvars) (j : Z) : Prop :=
  fs_dir_read_flag fs = 0 /\ j = i0 \/
  fs_dir_read_flag fs = 1 /\ file_pos_keeper fs = j - 1 /\ i0 < j <= num.

(** Between two reads. *)
Record reading (j : Z) (k : kernel) : Prop := {
  rg_world : world lay (k_fs k) (kmem k) start NI NB dir;
  rg_listable : listable (k_fs k) (kmem k) num dir;
  rg_slot : 0 <= curr_task_pos k < 6;
  rg_dentry : dentry_fits ks (curr_task_pos k);
  rg_fds : exists t p q, has_fds lay (kmem k) (curr_pcb k) t /\
    anth None t fd = Some (FDir, p) /\ anth None t 1 = Some (FStdout, q);
  rg_name : cstr (kmem k) (file_name_at (curr_pcb k) fd) s;
  rg_next : next_entry (k_fs k) j;
  rg_steady : steady k0 k;
}.

Lemma listable_same fs m m' fs' :
  listable fs m num dir -> fs_bootblk fs' = fs_bootblk fs ->
  (forall b, fs_bootblk fs <= b < fs_bootblk fs + 4 -> mget m' b = mget m b) ->
  listable fs' m' num dir.
Proof.
  intros [H1 H2 H3] E Hm. constructor; [|done|done]. rewrite E, <- H1. by apply load32_ext.
Qed.

(** Reading goes on when the kernel's part of memory has not changed. *)
Lemma reading_same j k k' :
  reading j k -> k_fs k' = k_fs k -> steady k k' ->
  (forall b, 4194304 <= b < 8388608 -> mget (kmem k') b = mget (kmem k) b) ->
  reading j k'.
Proof.
  intros [R1 R2 R3 R4 (t & p & q & R5 & R6) R7 R8 R9] Ef Hst Hm.
  pose proof (pcb_at_low _ R3) as (P5 & Plo & Phi).
  destruct R1 as [I1 I2 I3 I4 I5 I6] eqn:E. clear E.
  assert (Hw : world lay (k_fs k) (kmem k') start NI NB dir).
  { eapply world_same; [by constructor; try exact I1|]. intros b Hb. apply Hm. lia. }
  constructor; rewrite ?Ef, ?(sd_pos _ _ Hst); try assumption.
  - eapply listable_same; [exact R2 | done|]. intros b Hb. apply Hm.
    rewrite (fi_boot _ _ _ _ _ I1) in Hb. unfold image_end in I3. lia.
  - exists t, p, q. split; [|done]. unfold curr_pcb in *. rewrite (sd_pos _ _ Hst).
    eapply has_fds_ext; [|exact R5]. intros b Hb. apply Hm. lia.
  - unfold curr_pcb in *. rewrite (sd_pos _ _ Hst). eapply cstr_ext; [|exact R7].
    intros b Hb. symmetry. apply Hm. unfold file_name_at in Hb. lia.
  - by transitivity k.
Qed.

Local Abbreviation helper k :=
  (fs_dir_ls_read_helper (k_fs k) (kmem k) (ks_dentry ks) (file_name_at (curr_pcb k) fd) (ls_buf im)).

(** The places the directory is read from and to. *)
Lemma reading_places j k :
  reading j k ->
  dir_at (kmem k) (k_fs k) dir /\ fs_dentries (k_fs k) = fs_bootblk (k_fs k) + 64 /\
  0 < ks_dentry ks /\ fs_bootblk (k_fs k) + 4160 <= ks_dentry ks /\
  ks_dentry ks + 64 <= ls_buf im /\ 0 < file_name_at (curr_pcb k) fd /\
  pcb_at (curr_task_pos k) + 520 <= ks_dentry ks /\ 8339456 <= pcb_at (curr_task_pos k).
Proof.
  intros [[I1 [I2a I2b] [I3a I3b] I4 _ _] _ R3 [D1 D2] _ _ _ _].
  pose proof (pcb_at_low _ R3) as (P5 & Plo & Phi).
  rewrite (fi_boot _ _ _ _ _ I1), (fi_dentries _ _ _ _ _ I1).
  unfold image_end, file_name_at, curr_pcb in *. split; [exact I4|]. lia.
Qed.

Lemma reading_fs fs p :
  fs_dir_read_flag fs = 1 -> file_pos_keeper fs = p ->
  fs = FsVars (fs_bootblk fs) (fs_datablocks fs) (fs_dentries fs) (fs_inodes fs) p 1.
Proof. intros <- <-. by destruct fs. Qed.

Lemma helper_entry j k :
  reading j k -> j < num ->
  exists e m', dir !! Z.to_nat j = Some e /\ i0 <= j /\
    helper k = Ok (zlen (e_name e), FsVars (fs_bootblk (k_fs k)) (fs_datablocks (k_fs k))
      (fs_dentries (k_fs k)) (fs_inodes (k_fs k)) j 1, m') /\
    mbytes m' (ls_buf im) (List.length (e_name e)) = e_name e /\
    (forall b, b < ks_dentry ks \/ ks_dentry ks + 64 <= b ->
       b < ls_buf im \/ ls_buf im + 33 <= b -> mget m' b = mget (kmem k) b).
Proof.
  intros Hr Hj. destruct (reading_places j k Hr) as (Hdir & Hboot & H1 & H2 & H3 & H4 & _ & _).
  destruct (rg_listable _ _ Hr) as [Hn Hm _]. pose proof (rg_name _ _ Hr) as Hnm.
  assert (Hd1 : ks_dentry ks + 64 <= fs_bootblk (k_fs k) \/ fs_bootblk (k_fs k) + 4160 <= ks_dentry ks)
    by lia.
  assert (Hb1 : ls_buf im + 33 <= fs_bootblk (k_fs k) \/ fs_bootblk (k_fs k) + 4160 <= ls_buf im)
    by lia.
  assert (Hdb : ls_buf im + 33 <= ks_dentry ks \/ ks_dentry ks + 64 <= ls_buf im) by lia.
  destruct (rg_next _ _ Hr) as [[Hf ->]|(Hf & Hp & Hij)].
  - destruct (ls_first _ _ _ Hdir Hboot _ _ H1 Hd1 Hb1 Hdb
      (file_name_at (curr_pcb k) fd) s i0 Hf ltac:(lia) Hnm ltac:(lia) Hi0)
      as (e & m' & He & _ & Hrun & Hb & Hsc).
    exists e, m'. split; [exact He|]. split; [lia|]. split; [exact Hrun | done].
  - destruct (ls_next _ _ _ _ Hdir Hn Hm Hboot _ _ H1 Hd1 Hb1 Hdb (kmem k) (j - 1)
      (file_name_at (curr_pcb k) fd) ltac:(done) ltac:(lia)) as [Hnext _].
    replace (j - 1 + 1) with j in Hnext by lia.
    destruct (Hnext Hj) as (e & m' & He & Hrun & Hb & Hsc).
    exists e, m'. split; [exact He|]. split; [lia|]. split; [|done].
    etransitivity; [|exact Hrun]. by rewrite <- (reading_fs _ _ Hf Hp).
Qed.

Lemma helper_end k :
  reading num k -> helper k = Ok (0, FsVars (fs_bootblk (k_fs k)) (fs_datablocks (k_fs k))
    (fs_dentries (k_fs k)) (fs_inodes (k_fs k)) 0 0, kmem k).
Proof.
  intros Hr. destruct (reading_places _ k Hr) as (Hdir & Hboot & H1 & H2 & H3 & H4 & _ & _).
  destruct (rg_listable _ _ Hr) as [Hn Hm _].
  destruct (rg_next _ _ Hr) as [[Hf Hc]|(Hf & Hp & Hij)]; [lia|].
  destruct (ls_next _ _ _ _ Hdir Hn Hm Hboot (ks_dentry ks) (ls_buf im) H1 ltac:(lia) ltac:(lia)
    ltac:(lia) (kmem k) (num - 1) (file_name_at (curr_pcb k) fd) ltac:(done) ltac:(lia)) as [_ Hlast].
  etransitivity; [|apply Hlast; lia]. by rewrite <- (reading_fs _ _ Hf Hp).
Qed.

(** [read] of the directory leads to the helper. *)
Lemma dir_read_call j k n fs' m' :
  reading j k -> helper k = Ok (n, fs', m') ->
  ece391_read lay ks fd (ls_buf im) (SBUFSIZE - 1) k =
  Ok (inl n, set_if true (set_kmem m' (set_k_fs fs' (set_if true k)))).
Proof.
  intros Hr Hh. destruct (rg_fds _ _ Hr) as (t & p & q & Ht & Hk & _).
  apply read_call; [unfold int32; lia | unfold int32, SBUFSIZE; lia|]. unfold read.
  erewrite bind_ok by (rewrite (fd_check_open lay (set_if true k) t fd FDir p); [done | done | exact Ht | lia | exact Hk]).
  cbv beta iota. unfold fs_dir_read.
  erewrite bind_ok; [reflexivity|].
  erewrite bind_ok by reflexivity. erewrite bind_ok by reflexivity. erewrite bind_ok by reflexivity.
  change (fs_dir_ls_read_helper _ _ _ _ _) with (helper k). rewrite Hh. reflexivity.
Qed.

Local Abbreviation moved fs p f :=
  (FsVars (fs_bootblk fs) (fs_datablocks fs) (fs_dentries fs) (fs_inodes fs) p f).

Lemma world_moved fs m p f :
  world lay fs m start NI NB dir -> world lay (moved fs p f) m start NI NB dir.
Proof. intros [[] ? ? ? ? ?]. by constructor. Qed.

(** A turn reads an entry ... *)
Lemma read_entry j k v1 :
  reading j k -> j < num -> displays k v1 ->
  exists e k1, dir !! Z.to_nat j = Some e /\ i0 <= j /\ 0 < zlen (e_name e) <= 32 /\
    ece391_read lay ks fd (ls_buf im) (SBUFSIZE - 1) k = Ok (inl (zlen (e_name e)), k1) /\
    mbytes (kmem k1) (ls_buf im) (List.length (e_name e)) = e_name e /\
    reading (j + 1) k1 /\ displays k1 v1.
Proof.
  intros Hr Hj Hd. destruct (helper_entry j k Hr Hj) as (e & m' & He & Hij & Hh & Hb & Hsc).
  destruct (reading_places j k Hr) as ([_ Hdir] & _ & _ & _ & H3 & _ & H5 & H6).
  destruct (Hdir j e ltac:(lia) He) as [[Hl32 _] _].
  pose proof (lb_names _ _ _ _ (rg_listable _ _ Hr) j e ltac:(lia) He) as Hpos.
  pose proof (dir_read_call _ _ _ _ _ Hr Hh) as Hrun.
  destruct Hr as [R1 R2 R3 R4 (t & p & q & R5 & R6) R7 R8 R9].
  pose proof (pcb_at_low _ R3) as (P5 & Plo & Phi).
  assert (Hlow : forall b, b < pcb_at (curr_task_pos k) + 520 -> mget m' b = mget (kmem k) b)
    by (intros; apply Hsc; lia).
  eexists e, _. split; [exact He|]. split; [exact Hij|]. split; [lia|]. split; [exact Hrun|].
  split; [exact Hb|]. split.
  - constructor; try assumption.
    + eapply world_high; [by apply world_moved|]. intros. apply Hlow. lia.
    + eapply listable_same; [exact R2 | done|]. intros b Hb'. apply Hlow.
      rewrite (fi_boot _ _ _ _ _ (w_img _ _ _ _ _ _ _ R1)) in Hb'.
      pose proof (w_place _ _ _ _ _ _ _ R1). unfold image_end in *.
      pose proof (w_counts _ _ _ _ _ _ _ R1). lia.
    + exists t, p, q. split; [|exact R6]. eapply has_fds_ext; [|exact R5].
      intros b Hb'. apply Hlow. unfold curr_pcb in Hb'. cbn in Hb'. lia.
    + eapply cstr_ext; [|exact R7]. intros b Hb'. symmetry. apply Hlow.
      unfold file_name_at, curr_pcb in Hb'. cbn in Hb'. lia.
    + right. cbn. lia.
    + transitivity k; [exact R9|]. apply (steady_mem true); [done | done | |].
      * intros b Hb'. apply Hlow. unfold curr_pcb in Hb'. lia.
      * intros b Hb' [Ho Ho']. unfold in_page in Hpage. rewrite <- (sd_pos _ _ R9) in Hpage.
        destruct R4. apply Hsc; lia.
  - apply (displays_mem k _ true); [exact Hd | done|]. intros b Hb'. apply Hlow. lia.
Qed.

(** ... and prints it. *)
Lemma print_entry j k1 v1 e :
  reading j k1 -> displays k1 v1 -> 0 < zlen (e_name e) <= 32 ->
  mbytes (kmem k1) (ls_buf im) (List.length (e_name e)) = e_name e ->
  exists k2, ece391_write lay ks 1 (ls_buf im) (zlen (e_name e) + 1)
      (set_kmem (mset (kmem k1) (ls_buf im + zlen (e_name e)) LF) k1) =
      Ok (inl (zlen (e_name e) + 1 + 1), k2) /\
    reading j k2 /\ displays k2 (abs_puts (e_name e ++ [LF]) v1).
Proof.
  intros Hr Hd Hl Hb. pose proof (rg_slot _ _ Hr) as Hsl.
  pose proof (pcb_at_low _ Hsl) as (P5 & Plo & Phi).
  set (m1 := mset (kmem k1) (ls_buf im + zlen (e_name e)) LF). set (k1' := set_kmem m1 k1).
  assert (Hm1 : forall b, b < 8388608 -> mget m1 b = mget (kmem k1) b).
  { intros b Hb'. unfold m1. rewrite mget_mset_ne by lia. done. }
  assert (Hst : steady k1 k1').
  { apply (steady_mem (t_if (k_tty k1))); [by destruct k1 as [[]] | done | |].
    - intros b Hb'. apply Hm1. unfold curr_pcb in Hb'. lia.
    - intros b Hb' [_ Ho]. unfold in_page in Hpage. rewrite <- (sd_pos _ _ (rg_steady _ _ Hr)) in Hpage.
      change (kmem k1') with m1. unfold m1. rewrite mget_mset_ne by lia. done. }
  assert (Hr1 : reading j k1').
  { eapply reading_same; [exact Hr | done | exact Hst|]. intros b Hb'. apply Hm1. lia. }
  assert (Htext : mbytes m1 (ls_buf im) (Z.to_nat (zlen (e_name e) + 1)) = e_name e ++ [LF]).
  { replace (Z.to_nat (zlen (e_name e) + 1)) with (List.length (e_name e) + 1)%nat by lia.
    rewrite mbytes_app. f_equal.
    - rewrite <- Hb at 2. apply mbytes_ext. intros b Hb'. unfold m1. rewrite mget_mset_ne by lia. done.
    - unfold m1. cbn. rewrite Z.add_0_r, mget_mset_eq. done. }
  destruct (rg_fds _ _ Hr1) as (t & p & q & Ht & _ & H1).
  destruct (displays_mem k1 k1' (t_if (k_tty k1)) v1 Hd) as [Hwf Hsh];
    [by destruct k1 as [[]] | intros b Hb'; apply Hm1; lia|].
  destruct (write_screen lay (ks_prev ks) (set_if true k1') t q (ls_buf im) (zlen (e_name e) + 1) v1)
    as (k2 & Hw & Hwf2 & Hsh2 & Hf2 & Hs2 & Hm2); try done; [by destruct Hwf | lia|].
  exists (set_if true k2). split; [|split].
  - apply write_call; [unfold int32; lia | unfold int32; lia | exact Hw].
  - eapply reading_same; [exact Hr1 | exact Hf2 | |].
    + transitivity (set_if true k1'); [apply steady_if|]. transitivity k2; [exact Hs2 | apply steady_if].
    + intros b Hb'. apply Hm2. lia.
  - apply displays_if. split; [exact Hwf2|].
    change (kmem (set_if true k1')) with m1 in Hsh2. by rewrite Htext in Hsh2.
Qed.

Lemma listing_text_next j e :
  0 <= j < num -> dir !! Z.to_nat j = Some e ->
  listing_text num dir j = (e_name e ++ [LF]) ++ listing_text num dir (j + 1).
Proof.
  intros Hj He. unfold listing_text.
  rewrite (drop_S _ e (Z.to_nat j)) by (by rewrite lookup_take_lt by lia).
  by replace (Z.to_nat (j + 1)) with (S (Z.to_nat j)) by lia.
Qed.

Lemma listing_text_end : listing_text num dir num = [].
Proof. unfold listing_text. rewrite drop_ge by (rewrite length_take; lia). done. Qed.

(** Between two turns: [n] entries are left, and once they are shown the
    screen is [v]. *)
Definition listing (n : Z) (k : kernel) : Prop :=
  0 <= n /\ reading (num - n) k /\
  exists v1, displays k v1 /\ abs_puts (listing_text num dir (num - n)) v1 = v.

Lemma list_turn n k :
  listing n k ->
  match ls_step lay ks im fd k with
  | inl k' => exists n', 0 <= n' < n /\ listing n' k'
  | inr r => exists k', r = Ok (inl 0, k') /\ displays k' v /\ steady k0 k'
  end.
Proof.
  intros (Hn & Hr & v1 & Hd & Hv). unfold ls_step.
  destruct (decide (n = 0)) as [->|Hn0].
  - rewrite Z.sub_0_r in *. rewrite (dir_read_call _ _ _ _ _ Hr (helper_end k Hr)). cbn [Z.eqb].
    eexists. split; [reflexivity|]. rewrite listing_text_end in Hv. cbn in Hv. subst v1. split.
    + apply displays_if. by apply (displays_mem k _ true).
    + transitivity k; [exact (rg_steady _ _ Hr)|]. by apply (steady_mem true).
  - destruct (read_entry _ _ _ Hr ltac:(lia) Hd) as (e & k1 & He & Hij & Hl & Hrun & Hb & Hr1 & Hd1).
    rewrite Hrun. rewrite (proj2 (Z.eqb_neq _ 0)), (proj2 (Z.eqb_neq _ (-1))) by lia.
    unfold SBUFSIZE. rewrite (proj2 (Z.ltb_ge _ 0)), (proj2 (Z.leb_gt 33 _)) by lia. cbn [orb].
    destruct (print_entry _ _ _ _ Hr1 Hd1 Hl Hb) as (k2 & Hw & Hr2 & Hd2). rewrite Hw.
    rewrite (proj2 (Z.eqb_neq _ (-1))) by lia.
    exists (n - 1). split; [lia|]. split; [lia|].
    replace (num - (n - 1)) with (num - n + 1) by lia. split; [exact Hr2|].
    exists (abs_puts (e_name e ++ [LF]) v1). split; [exact Hd2|].
    rewrite <- Hv, (listing_text_next (num - n) e) by (lia || done).
    by rewrite <- abs_puts_app.
Qed.

Lemma ls_lists n k :
  listing n k -> n < 4294967296 ->
  exists k', while (ls_step lay ks im fd) k = Ok (inl 0, k') /\ displays k' v /\ steady k0 k'.
Proof.
  intros Hl Hn.
  apply (while_index _ listing (fun r => exists k', r = Ok (inl 0, k') /\ displays k' v /\ steady k0 k') n);
    [exact Hl | exact Hn|].
  clear k n Hl Hn. intros n k Hl. by apply list_turn.
Qed.
End List.

(** ** ls, from its start to its value *)

Definition open_failed : list Z := bytes "directory open failed" ++ [LF].

(** What ls puts on the screen, and its value: the entries in use from that
    of the directory on. *)
Definition ls_outcome (num : Z) (dir : list entry) : option (Z * list Z) :=
  match abs_lookup dir (bytes ".") with
  | None => Some (2, open_failed)
  | Some i =>
      match dir !! Z.to_nat i with
      | Some e => if (e_type e =? 1) && (i <? num) then Some (0, listing_text num dir i) else None
      | None => None
      end
  end.

(** The places of ls's own data and of the kernel's locals. *)
Record ls_places (ks : kstack) (im : ls_image) (pos : Z) : Prop := {
  lp_dentry : dentry_fits ks pos;
  lp_buf : in_page pos (ls_buf im) 33;
  lp_dot : in_page pos (lit_dot im) 2;
  lp_failed : in_page pos (lit_open_failed im) 23;
}.

Lemma ls_open_ready lay ks im k start NI NB dir args v :
  program_ready lay k start NI NB dir args v -> ls_places ks im (curr_task_pos k) ->
  cstr (kmem k) (lit_dot im) (bytes ".") ->
  open_ready lay (set_if true k) start NI NB dir (ks_dentry ks) (lit_dot im) (bytes ".") fresh_fds.
Proof.
  intros [Hw _ Hfo Hsl Hfds _ _] [[D1 D2] _ Hdot _] Hs.
  pose proof (in_page_high _ _ _ Hdot ltac:(lia)) as Hhigh.
  pose proof (pcb_at_low _ Hsl) as (P5 & Plo & Phi).
  constructor; try done; try lia.
  - unfold apart. lia.
  - unfold apart, curr_pcb. cbn. lia.
Qed.

Lemma ls_main_spec lay ks im k start NI NB dir args v num st text :
  program_ready lay k start NI NB dir args v -> ls_places ks im (curr_task_pos k) ->
  cstr (kmem k) (lit_dot im) (bytes ".") -> cstr (kmem k) (lit_open_failed im) open_failed ->
  listable (k_fs k) (kmem k) num dir -> fs_dir_read_flag (k_fs k) = 0 ->
  ls_outcome num dir = Some (st, text) ->
  exists k', ls_main lay ks im k = Ok (inl st, k') /\
    displays k' (abs_puts text v) /\ steady k k'.
Proof.
  intros Hpr Hpl Hdot Hfail Hlb Hflag Hout.
  pose proof (ls_open_ready _ _ _ _ _ _ _ _ _ _ Hpr Hpl Hdot) as Hor.
  destruct Hpr as [Hw _ Hfo Hsl _ _ Hd]. destruct Hpl as [Hde Hpage _ Hlf].
  pose proof (in_page_high _ _ _ Hpage ltac:(lia)) as Hbuf. apply in_page_high in Hlf; [|lia].
  destruct (open_program _ _ _ _ _ _ _ _ _ _ Hor Hd)
    as (r & k2 & Hop & Hres & Hd2 & Hs2 & Hw2 & (i & Ef) & Hm).
  unfold ls_main. erewrite ubind_inl by exact Hop. unfold ls_outcome in Hout.
  destruct (abs_lookup dir (bytes ".")) as [i0|] eqn:Hlk.
  - destruct (dir !! Z.to_nat i0) as [e|] eqn:He; [|done].
    destruct (Z.eqb_spec (e_type e) 1) as [Ht|]; [|done].
    destruct (Z.ltb_spec i0 num) as [Hlt|]; [|done]. injection Hout as <- <-.
    destruct (Hres e FDir eq_refl ltac:(by rewrite Ht)) as (-> & Hfds & Hnm). cbn [Z.eqb].
    pose proof Hlk as Hi0. apply (find_from_bounds (bytes ".")) in Hi0 as [Hi0 _].
    pose proof (w_place _ _ _ _ _ _ _ Hw) as [_ Hpl2]. pose proof (w_counts _ _ _ _ _ _ _ Hw).
    apply (ls_lists lay ks im start NI NB dir 2 num i0 (bytes ".") k (abs_puts (listing_text num dir i0) v)
      Hfo ltac:(lia) Hbuf Hpage ltac:(cbn; lia) Hlk ltac:(lia) (num - i0)).
    + split; [lia|]. replace (num - (num - i0)) with i0 by lia. split; [|by exists v].
      constructor; rewrite ?(sd_pos _ _ Hs2); try assumption.
      * eapply listable_same; [exact Hlb | by rewrite Ef|]. intros b Hb. apply Hm. left.
        rewrite (fi_boot _ _ _ _ _ (w_img _ _ _ _ _ _ _ Hw)) in Hb. unfold image_end in Hpl2. lia.
      * by exists (<[2%nat := Some (FDir, 0)]> fresh_fds), 0, 0.
      * left. by rewrite Ef.
    + pose proof (lb_max _ _ _ _ Hlb). lia.
  - injection Hout as <- <-. destruct Hres as [-> Hfds]. cbn [Z.eqb Pos.eqb].
    destruct (fdputs_screen lay ks k2 fresh_fds 0 (lit_open_failed im) open_failed v)
      as (k3 & Hput & Hd3 & Hs3 & _); try done.
    + by rewrite (sd_pos _ _ Hs2).
    + eapply cstr_ext; [|exact Hfail]. intros b Hb. symmetry. apply Hm. lia.
    + exists k3. erewrite ubind_inl by exact Hput. split; [reflexivity|].
      split; [exact Hd3 | by transitivity k2].
Qed.

(** ** The whole command *)

(** ls keeps the promise of a program. *)
Lemma ls_Program lay start NI NB dir pos content args k ks im num st text :
  world lay (k_fs k) (kmem k) start NI NB dir -> ls_places ks im pos ->
  in_image (lit_dot im) (bytes ".") pos content ->
  in_image (lit_open_failed im) open_failed pos content ->
  listable (k_fs k) (kmem k) num dir -> fs_dir_read_flag (k_fs k) = 0 ->
  ls_outcome num dir = Some (st, text) ->
  Program lay start NI NB dir pos content args k (ls_main lay ks im) st text.
Proof.
  intros Hw Hpl Hdot Hfail Hlb Hflag Hout. split.
  - unfold ls_outcome in Hout. destruct (abs_lookup _ _) as [j|]; [|by injection Hout as <- <-].
    destruct (dir !! Z.to_nat j); [|done]. destruct (_ && _); [by injection Hout as <- <- | done].
  - intros k1 v [Hr Hs Him (i & Ei) Hlow].
    eapply ls_main_spec; [exact Hr | by rewrite Hs | | | | by rewrite Ei | exact Hout].
    + eapply literal_loaded; [exact Hdot | | exact Him]. repeat constructor; discriminate.
    + eapply literal_loaded; [exact Hfail | | exact Him].
      unfold open_failed. cbn. repeat constructor; discriminate.
    + eapply listable_same; [exact Hlb | by rewrite Ei|]. intros b Hb. apply Hlow.
      rewrite (fi_boot _ _ _ _ _ (w_img _ _ _ _ _ _ _ Hw)) in Hb.
      pose proof (w_place _ _ _ _ _ _ _ Hw) as [Hp0 Hp]. pose proof (w_counts _ _ _ _ _ _ _ Hw).
      unfold image_end in Hp. lia.
Qed.

(** C5: The command [ls] of a shell: [execute] enters the program; the program
    opens the directory, prints the names of the entries in use, one per
    line, or reports that there is no directory, and halts; the [execute] of
    the shell resumes with its value; the tasks, the page tables, the line
    being typed and the memory of all other tasks are as before. *)
Theorem ls_command lay fr sp t command cmd k start NI NB dir content pos v ks im num st text :
  launch lay fr sp t command cmd k start NI NB dir content pos v ->
  ls_places ks im pos ->
  in_image (lit_dot im) (bytes ".") pos content ->
  in_image (lit_open_failed im) open_failed pos content ->
  listable (k_fs k) (kmem k) num dir -> fs_dir_read_flag (k_fs k) = 0 ->
  ls_outcome num dir = Some (st, text) ->
  exists k1 k2, execute lay fr command k = Ok (Entered (elf_entry content), k1) /\
    ls_program lay ks im k1 = Ok (inr (Resuming (f_esp fr) (f_ebp fr) st), k2) /\
    displays k2 (abs_puts text v) /\ returned lay pos k k2.
Proof.
  intros La Hpl Hdot Hfail Hlb Hflag Hout. apply (command_runs La). eapply ls_Program; try done.
  exact (cl_world _ _ _ _ _ _ _ _ _ _ _ _ (la_can _ _ _ _ _ _ _ _ _ _ _ _ _ _ La)).
Qed.
