(* ===== verification/Shell.v ===== *)
(** * The shell (syscalls/ece391shell.c)

    [main] prompts, reads a line, and executes it.  It is left twice in a
    turn: while its [read] waits for a line, and while the program it has
    started runs.  [shell_main], [shell_after_read] and [shell_after_execute]
    are the code from its start and from these two points on, each up to the
    next. *)

From Stdlib Require Import ZArith Lia String Ascii.
From stdpp Require Import base numbers list gmap.
From S2P Require Import Prelude Mem CString FileSys Console Machine Paging Pcb Exec Line Syscall.
From S2P Require Import Terminal Keyboard User Program Reader.

Local Open Scope Z_scope.

(** ** The program (ece391shell.c) *)

Definition BUFSIZE : Z := 1024.

(** The literals of the program, and its [buf]. *)
Record shell_image := ShellImage {
  sh_buf : Z;
  lit_starting : Z;     (** "Starting 391 Shell\n" *)
  lit_prompt : Z;       (** "391OS> " *)
  lit_kb_failed : Z;    (** "read from keyboard failed\n" *)
  lit_exit : Z;         (** "exit" *)
  lit_no_command : Z;   (** "no such command\n" *)
  lit_exception : Z;    (** "program terminated by exception\n" *)
  lit_abnormal : Z;     (** "program terminated abnormally\n" *)
}.

Section Code.
Context (lay : layout) (ks : kstack) (im : shell_image).

(** The top of the loop, up to the [read]. *)
Definition shell_prompt : UP Z :=
  let! _ := ece391_fdputs lay ks 1 (lit_prompt im) in
  ece391_read lay ks 0 (sh_buf im) (BUFSIZE - 1).

(** What is made of the value of [execute]; [None]: the loop goes on. *)
Definition shell_report (rval : Z) : UP (option Z) :=
  if rval =? -1 then
    let! _ := ece391_fdputs lay ks 1 (lit_no_command im) in uret None
  else if rval =? 256 then
    let! _ := ece391_fdputs lay ks 1 (lit_exception im) in uret None
  else if negb (rval =? 0) then
    let! _ := ece391_fdputs lay ks 1 (lit_abnormal im) in uret None
  else uret None.

(** The rest of the loop, after a [read] of [cnt] bytes; [Some v]: [main]
    returns [v]. *)
Definition shell_line (cnt : Z) : UP (option Z) :=
  if cnt =? -1 then
    let! _ := ece391_fdputs lay ks 1 (lit_kb_failed im) in uret (Some 3)
  else
    m ← gets kmem;
    let cnt := if (0 <? cnt) && (mget m (sh_buf im + (cnt - 1)) =? LF) then cnt - 1 else cnt in
    if (cnt <? 0) || (BUFSIZE <=? cnt) then fail OutOfBounds
    else
      modify (set_kmem (mset m (sh_buf im + cnt) 0)) ;;
      m ← gets kmem;
      c ← liftR (ece391_strcmp m (sh_buf im) (lit_exit im));
      if c =? 0 then uret (Some 0)
      else if mget m (sh_buf im) =? 0 then uret None
      else let! rval := ece391_execute lay ks (sh_buf im) in shell_report rval.

Definition shell_step (k : kernel) : kernel + res ((Z + sysret) * kernel) :=
  match (let! cnt := shell_prompt in shell_line cnt) k with
  | Err e => inr (Err e)
  | Ok (inr r, k1) => inr (Ok (inr r, k1))
  | Ok (inl (Some v), k1) => inr (Ok (inl v, k1))
  | Ok (inl None, k1) => inl k1
  end.

Definition shell_loop : UP Z := fun k => while shell_step k.

(** The loop from the end of a turn on. *)
Definition shell_next (r : option Z) : UP Z :=
  match r with Some v => uret v | None => shell_loop end.

Definition shell_main : UP Z :=
  let! _ := ece391_fdputs lay ks 1 (lit_starting im) in shell_loop.

Definition shell_after_read : UP Z :=
  let! cnt := read_resume lay 0 (sh_buf im) (BUFSIZE - 1) in
  let! r := shell_line cnt in shell_next r.

Definition shell_after_execute (rval : Z) : UP Z :=
  let! r := shell_report rval in shell_next r.
End Code.

(** ** A shell that waits for a line *)

Definition prompt : list Z := bytes "391OS> ".
Definition starting : list Z := bytes "Starting 391 Shell" ++ [LF].
Definition abnormal : list Z := bytes "program terminated abnormally" ++ [LF].
Definition by_exception : list Z := bytes "program terminated by exception" ++ [LF].

(** The strings the shell needs after it has started. *)
Definition shell_strings (im : shell_image) : list (Z * list Z) :=
  [(lit_prompt im, prompt); (lit_exit im, bytes "exit"); (lit_abnormal im, abnormal);
   (lit_exception im, by_exception)].

(** The shell is loaded and has its two standard files. *)
Definition shell_up (lay : layout) (im : shell_image) (k : kernel) : Prop :=
  exists t, running lay (shell_strings im) (sh_buf im) 1024 t k.

(** Its [read] waits, nothing has been typed, and the screen shows [v]. *)
Definition shell_waits (lay : layout) (im : shell_image) (b : kbd) (v : view) (k : kernel) : Prop :=
  exists t, waits lay (shell_strings im) (sh_buf im) 1024 t b v k.

Lemma waits_up lay im b v k : shell_waits lay im b v k -> shell_up lay im k.
Proof. intros [t Hw]. exists t. exact (wt_running _ _ _ _ _ _ _ _ Hw). Qed.

Lemma shell_slot lay im k :
  shell_up lay im k -> 0 <= curr_task_pos k < 6 /\ in_page (curr_task_pos k) (sh_buf im) 1024.
Proof.
  intros [t Hr]. split; [exact (ru_slot _ _ _ _ _ _ Hr) | exact (ru_data _ _ _ _ _ _ Hr)].
Qed.

(** ** The prompt *)

Lemma fdputs_shell lay ks im k p s v :
  shell_up lay im k -> (p, s) ∈ shell_strings im -> displays k v ->
  exists k', ece391_fdputs lay ks 1 p k = Ok (inl tt, k') /\
    displays k' (abs_puts s v) /\ steady k k' /\ shell_up lay im k'.
Proof.
  intros [t Hr] Hin Hd. destruct (running_says ks k p s v Hr Hin Hd) as (k' & H1 & H2 & H3 & H4 & _).
  exists k'. split_and!; try done. by exists t.
Qed.

(** A turn of the loop up to its [read]. *)
Lemma shell_prompts lay ks im b k v :
  shell_up lay im k -> typing b [] (k_tty k) -> displays k v ->
  exists k', shell_loop lay ks im k = Ok (inr Waiting, k') /\
    shell_waits lay im b (abs_puts prompt v) k' /\ steady k k'.
Proof.
  intros [t Hr] Hty Hd.
  destruct (running_says ks k (lit_prompt im) prompt v Hr) as (k1 & Hput & Hd1 & Hs1 & Hr1 & _);
    [by left | exact Hd|].
  destruct (running_reads ks b k1 _ (sh_buf im) (BUFSIZE - 1) Hr1 (sd_typing _ _ Hs1 _ _ Hty) Hd1)
    as (k2 & Hread & Hw & Hs2); [unfold int32, BUFSIZE; lia|].
  exists k2. split; [|split; [by exists t | by transitivity k1]].
  unfold shell_loop.
  apply (while_rule _ (fun st => st = k) (fun _ => 0) (fun r => r = Ok (inr Waiting, k2)));
    [done | lia|].
  intros ? ->. unfold shell_step, shell_prompt. unfold ubind at 1.
  erewrite bind_ok by (erewrite ubind_inl by exact Hput; exact Hread). reflexivity.
Qed.

(** ** A line arrives *)

(** The newline is cut off; a line that is not empty and not [exit] is
    executed. *)
Lemma shell_executes lay ks im k cmd :
  shell_up lay im k -> mbytes (kmem k) (sh_buf im) (List.length (cmd ++ [LF])) = cmd ++ [LF] ->
  Forall (fun c => 0 < c < 256) cmd -> zlen cmd <= 126 -> cmd <> [] -> cmd <> bytes "exit" ->
  let k' := set_kmem (mset (kmem k) (sh_buf im + zlen cmd) 0) k in
  shell_line lay ks im (zlen cmd + 1) k =
    (let! rval := ece391_execute lay ks (sh_buf im) in shell_report lay ks im rval) k' /\
  cstr (kmem k') (sh_buf im) cmd /\ shell_up lay im k' /\ data_only (sh_buf im) 1024 k k'.
Proof.
  intros [t Hr] Hb Hall Hlen Hne Hex k'. set (m' := mset (kmem k) (sh_buf im + zlen cmd) 0) in *.
  pose proof (cut_newline (kmem k) (sh_buf im) cmd Hb Hall) as [Hlf Hc]. fold m' in Hc.
  assert (Hbuf : data_only (sh_buf im) 1024 k k').
  { intros b Hb' Ho. change (kmem k') with m'. unfold m'. rewrite mget_mset_ne by lia. done. }
  assert (Hr' : running lay (shell_strings im) (sh_buf im) 1024 t k')
    by (by eapply running_data).
  split; [|split; [exact Hc | split; [by exists t | exact Hbuf]]].
  pose proof (proj1 (Forall_forall _ _) (ru_lits _ _ _ _ _ _ Hr') (lit_exit im, bytes "exit")
    ltac:(right; left)) as (_ & _ & Hlit).
  destruct (ece391_strcmp_spec _ _ _ _ _ Hc Hlit ltac:(lia)) as (c & Hcmp & Hcz). cbn [fst] in Hcmp.
  unfold shell_line. rewrite (proj2 (Z.eqb_neq _ (-1))) by lia.
  erewrite bind_ok by reflexivity. replace (zlen cmd + 1 - 1) with (zlen cmd) by lia.
  rewrite (proj2 (Z.ltb_lt 0 _)) by lia. rewrite Hlf. cbn [andb]. change (LF =? LF) with true.
  cbv iota zeta. unfold BUFSIZE. rewrite (proj2 (Z.ltb_ge _ 0)), (proj2 (Z.leb_gt 1024 _)) by lia.
  cbn [orb]. erewrite bind_ok by reflexivity. erewrite bind_ok by reflexivity.
  change (kmem (set_kmem _ k)) with m'. rewrite Hcmp. erewrite bind_ok by reflexivity.
  rewrite (proj2 (Z.eqb_neq c 0)) by (cbn [snd] in Hcz; tauto).
  destruct cmd as [|c0 cmd]; [done|]. destruct (cstr_cons _ _ _ _ Hc) as (E0 & N0 & _).
  rewrite E0, (proj2 (Z.eqb_neq c0 0)) by done. reflexivity.
Qed.

(** What the shell says of the value of a program. *)
Definition report_text (st : Z) : list Z :=
  if st =? 0 then [] else if st =? 256 then by_exception else abnormal.

Lemma shell_reports lay ks im b k v st :
  shell_up lay im k -> typing b [] (k_tty k) -> displays k v -> 0 <= st ->
  exists k', shell_after_execute lay ks im st k = Ok (inr Waiting, k') /\
    shell_waits lay im b (abs_puts prompt (abs_puts (report_text st) v)) k' /\ steady k k'.
Proof.
  intros Hu Hty Hd Hst. unfold shell_after_execute.
  assert (Hrep : exists k1, shell_report lay ks im st k = Ok (inl None, k1) /\
    displays k1 (abs_puts (report_text st) v) /\ steady k k1 /\ shell_up lay im k1).
  { unfold shell_report, report_text. rewrite (proj2 (Z.eqb_neq st (-1))) by lia.
    destruct (Z.eqb_spec st 256) as [->|H256]; [|destruct (Z.eqb_spec st 0) as [->|H0]]; cbn [Z.eqb negb].
    - destruct (fdputs_shell lay ks im k (lit_exception im) by_exception v Hu) as (k1 & Hput & H);
        [by do 3 right; left | exact Hd|]. exists k1. split; [by erewrite ubind_inl by exact Hput | exact H].
    - by exists k.
    - destruct (fdputs_shell lay ks im k (lit_abnormal im) abnormal v Hu) as (k1 & Hput & H);
        [by do 2 right; left | exact Hd|]. exists k1. split; [by erewrite ubind_inl by exact Hput | exact H]. }
  destruct Hrep as (k1 & Hrep & Hd1 & Hs1 & Hu1).
  destruct (shell_prompts lay ks im b k1 _ Hu1 (sd_typing _ _ Hs1 _ _ Hty) Hd1) as (k' & Hrun & Hw & Hs).
  exists k'. split; [|split; [exact Hw | by transitivity k1]].
  by erewrite ubind_inl by exact Hrep.
Qed.

(** ** A session *)

(** The shell finds itself as it was when the program has returned. *)
Lemma shell_up_back lay im pos k k' :
  shell_up lay im k -> back lay pos k k' -> 0 <= pos < 6 -> pos <> curr_task_pos k ->
  shell_up lay im (set_if true k').
Proof.
  intros [t Hu] Hr Hpos Hne. pose proof (ru_slot _ _ _ _ _ _ Hu) as Hsl.
  pose proof (pcb_at_low _ Hsl) as (P5 & Plo & Phi). pose proof (pcb_at_low _ Hpos) as (_ & Qlo & Qhi).
  assert (Hdis : pcb_at pos + 8192 <= pcb_at (curr_task_pos k) \/
    pcb_at (curr_task_pos k) + 8192 <= pcb_at pos) by (unfold pcb_at, EIGHTMB, EIGHTKB in *; lia).
  exists t. pose proof (rt_pos _ _ _ _ Hr) as Ep.
  eapply running_same; [exact Hu | exact Ep | | done | done |].
  - unfold curr_pcb. change (curr_task_pos (set_if true k')) with (curr_task_pos k'). rewrite Ep.
    eapply has_fds_ext; [|exact (ru_fds _ _ _ _ _ _ Hu)].
    intros b Hb. apply (rt_mem _ _ _ _ Hr); unfold outside, curr_pcb, page_at in *; lia.
  - intros b Hb _. apply (rt_mem _ _ _ _ Hr); unfold outside, curr_pcb, page_at in *; lia.
Qed.

Section Session.
Context (lay : layout) (fr : frame) (shell : Z) (ks : kstack) (im : shell_image).
Context (b : kbd) (v : view) (k : kernel) (codes : list Z) (b' : kbd) (keys : list key).
Context (sp : Z) (t : option Z) (start NI NB : Z) (dir : list entry) (content : list Z) (pos : Z).

Local Abbreviation cmd := (edit_lines [] keys).
Local Abbreviation echoed := (abs_putc LF (edit_views [] v keys)).

Context (Hw : shell_waits lay im b v k).
Context (Hcodes : Forall (fun sc => 0 <= sc < 256) codes) (Hkeys : typed b codes = Some (b', keys)).
Context (Hlen : zlen cmd <= 126) (Hexit : cmd <> bytes "exit").
Context (Hcan : can_launch lay (ks_frame ks) sp t cmd k start NI NB dir content pos).

(** From the keys to the [execute] of the shell, in the state [kx]. *)
Lemma shell_launches :
  exists k1 kx, handle_all lay fr shell (codes ++ [ENTER]) k = Ok (Returns tt, k1) /\
    (forall eip k3, execute lay (ks_frame ks) (sh_buf im) kx = Ok (Entered eip, k3) ->
       shell_after_read lay ks im k1 = Ok (inr (Entering eip), k3)) /\
    launch lay (ks_frame ks) sp t (sh_buf im) cmd kx start NI NB dir content pos echoed /\
    shell_up lay im kx /\ typing b' [] (k_tty kx) /\ console_only k kx /\
    (forall a, 4194304 <= a < 8388608 -> mget (kmem kx) a = mget (kmem k) a).
Proof.
  destruct Hw as [ft Hwt].
  assert (Hl : zlen (cmd ++ [LF]) = zlen cmd + 1) by (rewrite length_app; cbn; lia).
  destruct (running_gets_line fr shell b v k codes b' keys (sh_buf im) (BUFSIZE - 1) Hwt Hcodes Hkeys)
    as (k1 & k2 & Hirq & Hres & Hbytes & Hall & Hty & Hd & Hr2 & Co & Hb); [unfold BUFSIZE; lia..|].
  rewrite Hl in Hres.
  assert (Hne : cmd <> []).
  { intros E. pose proof (cl_lengths _ _ _ _ _ _ _ _ _ _ _ _ Hcan) as [[Hwd _] _].
    rewrite E in Hwd. by vm_compute in Hwd. }
  apply Forall_app in Hall as [Hall _].
  destruct (shell_executes lay ks im k2 cmd (ex_intro _ ft Hr2) Hbytes Hall Hlen Hne Hexit)
    as (Hline & Hcmd & [ft' Hux] & Hb2).
  set (kx := set_if true (set_kmem (mset (kmem k2) (sh_buf im + zlen cmd) 0) k2)) in *.
  assert (Hcox : console_only k kx) by (transitivity k2; [exact Co | reflexivity]).
  pose proof (data_trans _ _ _ _ kx Hb Hb2) as Hbx.
  pose proof (ru_slot _ _ _ _ _ _ Hr2) as Hsl. pose proof (ru_data _ _ _ _ _ _ Hr2) as Hpg.
  pose proof (in_page_high _ _ _ Hpg ltac:(lia)) as Hhigh.
  assert (Hlow : forall a, 4194304 <= a < 8388608 -> mget (kmem kx) a = mget (kmem k) a)
    by (intros; apply Hbx; lia).
  exists k1, kx. split; [exact Hirq|]. split_and!.
  - intros eip k3 Hex. unfold shell_after_read. erewrite ubind_inl by exact Hres. apply ubind_inr.
    rewrite Hline. apply ubind_inr. by apply execute_call.
  - constructor; [by eapply can_launch_same | exact Hcmd | lia | lia|].
    apply (displays_mem k2 _ true); [exact Hd | done|]. intros a Ha.
    change (kmem kx) with (mset (kmem k2) (sh_buf im + zlen cmd) 0). rewrite mget_mset_ne by lia. done.
  - exists ft'. by eapply running_data; [exact Hux | |].
  - by apply typing_mem.
  - exact Hcox.
  - exact Hlow.
Qed.

(** From the return of the program to the next prompt. *)
Lemma shell_resumes kx k4 st w b4 :
  shell_up lay im kx -> console_only k kx -> back lay pos kx k4 -> displays k4 w ->
  typing b4 [] (k_tty k4) -> 0 <= st ->
  exists k5, shell_after_execute lay ks im st (set_if true k4) = Ok (inr Waiting, k5) /\
    shell_waits lay im b4 (abs_puts prompt (abs_puts (report_text st) w)) k5 /\
    task_bitmap k5 = task_bitmap k /\ curr_task_pos k5 = curr_task_pos k /\
    runn_task_num k5 = runn_task_num k /\ dir_ok lay (page_dir k5) (Some sp).
Proof.
  intros Hux Hcox Hret Hd Hty Hst.
  destruct Hcan as [_ _ _ _ _ _ _ _ _ _ _ Hff _ _ Hother Hcur _ _ _].
  assert (Hcurx : curr_task_pos kx = sp) by (by rewrite Hcox).
  destruct (shell_reports lay ks im b4 (set_if true k4) w st
    (shell_up_back _ _ _ _ _ Hux Hret (proj1 Hff) ltac:(congruence))
    (typing_mem _ _ _ (kmem k4) true Hty) (displays_if true _ _ Hd) Hst) as (k5 & Hrep & Hw5 & Hs5).
  exists k5. split; [exact Hrep|]. split; [exact Hw5|].
  destruct Hret as [E1 E2 E3 E4 _ _ _ _]. rewrite Hcurx in E4.
  rewrite (sd_bitmap _ _ Hs5), (sd_pos _ _ Hs5), (sd_running _ _ Hs5), (sd_dir _ _ Hs5).
  unfold console_only in Hcox.
  split; [etransitivity; [exact E1 | by rewrite Hcox]|].
  split; [etransitivity; [exact E2 | by rewrite Hcox]|].
  split; [etransitivity; [exact E3 | by rewrite Hcox] | exact E4].
Qed.

(** C3: Typing a command and Enter at the prompt: the interrupts return; the
    shell's [read] returns the line, and the shell executes it; the program
    ends; the shell says if its value was not 0, prompts, and waits for the
    next line.  The screen shows the command as it was typed, the output of
    the program, the report and the prompt. *)
Theorem shell_session ks' main st text :
  Program lay start NI NB dir pos content (cmd_args cmd) k main st text ->
  exists k1 k2 k3 k4,
    handle_all lay fr shell (codes ++ [ENTER]) k = Ok (Returns tt, k1) /\
    shell_after_read lay ks im k1 = Ok (inr (Entering (elf_entry content)), k2) /\
    _start lay ks' main k2 =
      Ok (inr (Resuming (f_esp (ks_frame ks)) (f_ebp (ks_frame ks)) st), k3) /\
    shell_after_execute lay ks im st (set_if true k3) = Ok (inr Waiting, k4) /\
    shell_waits lay im b' (abs_puts (text ++ report_text st ++ prompt) echoed) k4 /\
    task_bitmap k4 = task_bitmap k /\ curr_task_pos k4 = curr_task_pos k /\
    runn_task_num k4 = runn_task_num k /\ dir_ok lay (page_dir k4) (Some sp).
Proof.
  intros Hprog. destruct shell_launches as (k1 & kx & Hirq & Hgo & La & Hux & Htyx & Hcox & Hlow).
  destruct (shell_slot _ _ _ (waits_up _ _ _ _ _ Hw)) as [Hsl _].
  pose proof (pcb_at_low _ Hsl) as (P5 & _ & _).
  assert (Hpx : Program lay start NI NB dir pos content (cmd_args cmd) kx main st text).
  { eapply program_from; [exact Hprog | by rewrite Hcox | intros; apply Hlow; lia]. }
  destruct (command_runs La ks' main st text Hpx) as (k3 & k4 & Hex & Hrun & Hd4 & Hret).
  destruct (shell_resumes kx k4 st _ b' Hux Hcox Hret Hd4 (rt_typing _ _ _ _ Hret _ _ Htyx)
    (proj1 (@prog_status _ _ _ _ _ _ _ _ _ _ _ _ Hprog))) as (k5 & Hrep & Hw5 & Hsame).
  exists k1, k3, k4, k5. split; [exact Hirq|]. split; [by apply Hgo|].
  split; [exact Hrun|]. split; [exact Hrep|]. rewrite !abs_puts_app. by split.
Qed.

(** C6: The same with a program that asks for a line: its [read] waits, the line
    [codes'] is typed, and the program answers and ends before the shell
    prompts again. *)
Theorem shell_dialog ks' frk asks answers ask reply codes' b2 keys' st text :
  Dialog lay frk shell start NI NB dir pos content (cmd_args cmd) k asks answers ask reply ->
  Forall (fun sc => 0 <= sc < 256) codes' -> typed b' codes' = Some (b2, keys') ->
  zlen (edit_lines [] keys') <= 126 -> reply (edit_lines [] keys') = Some (st, text) ->
  exists k1 k2 k3 k4 k5 k6,
    handle_all lay fr shell (codes ++ [ENTER]) k = Ok (Returns tt, k1) /\
    shell_after_read lay ks im k1 = Ok (inr (Entering (elf_entry content)), k2) /\
    _start lay ks' asks k2 = Ok (inr Waiting, k3) /\
    handle_all lay frk shell (codes' ++ [ENTER]) k3 = Ok (Returns tt, k4) /\
    _start lay ks' answers k4 =
      Ok (inr (Resuming (f_esp (ks_frame ks)) (f_ebp (ks_frame ks)) st), k5) /\
    shell_after_execute lay ks im st (set_if true k5) = Ok (inr Waiting, k6) /\
    shell_waits lay im b2 (abs_puts (text ++ report_text st ++ prompt)
      (abs_putc LF (edit_views [] (abs_puts ask echoed) keys'))) k6 /\
    task_bitmap k6 = task_bitmap k /\ curr_task_pos k6 = curr_task_pos k /\
    runn_task_num k6 = runn_task_num k /\ dir_ok lay (page_dir k6) (Some sp).
Proof.
  intros Hprog Hc' Hk' Hl' Hrep.
  destruct shell_launches as (k1 & kx & Hirq & Hgo & La & Hux & Htyx & Hcox & Hlow).
  destruct (shell_slot _ _ _ (waits_up _ _ _ _ _ Hw)) as [Hsl _].
  pose proof (pcb_at_low _ Hsl) as (P5 & _ & _).
  assert (Hpx : Dialog lay frk shell start NI NB dir pos content (cmd_args cmd) kx asks answers ask reply).
  { eapply dialog_from; [exact Hprog | by rewrite Hcox | intros; apply Hlow; lia]. }
  destruct (dialog_runs ks' frk shell b' asks answers ask reply codes' b2 keys' st text La Hpx Htyx
    Hc' Hk' Hl' Hrep) as (k2 & k3 & k4 & k5 & Hex & Hask & Hirq' & Hrun & Hd5 & Hback & Hty5).
  destruct (shell_resumes kx k5 st _ b2 Hux Hcox Hback Hd5 Hty5
    (proj1 (@dlg_status _ _ _ _ _ _ _ _ _ _ _ _ _ _ _ Hprog _ _ _ Hrep))) as (k6 & Hrpt & Hw6 & Hsame).
  exists k1, k2, k3, k4, k5, k6. split; [exact Hirq|]. split; [by apply Hgo|]. split; [exact Hask|].
  split; [exact Hirq'|]. split; [exact Hrun|]. split; [exact Hrpt|]. rewrite !abs_puts_app. by split.
Qed.
End Session.

(** ** The start of the shell *)

(** Entered by [execute], the shell greets, prompts and waits. *)
Lemma shell_greets lay ks im b k start NI NB dir args v :
  program_ready lay k start NI NB dir args v -> in_page (curr_task_pos k) (sh_buf im) 1024 ->
  Forall (lit_ok k (sh_buf im) 1024) ((lit_starting im, starting) :: shell_strings im) ->
  typing b [] (k_tty k) ->
  exists k', shell_main lay ks im k = Ok (inr Waiting, k') /\
    shell_waits lay im b (abs_puts (starting ++ prompt) v) k' /\ steady k k'.
Proof.
  intros [_ _ Hfo Hsl Hfds _ Hd] Hpg Hlits Hty. inversion Hlits as [|? ? (L1 & _ & L2) Hrest]; subst.
  assert (Hu : running lay (shell_strings im) (sh_buf im) 1024 fresh_fds k)
    by (constructor; try done; by exists 0).
  destruct (running_puts ks k (lit_starting im) starting v Hu Hd L2 L1) as (k1 & Hput & Hd1 & Hs1 & Hr1 & _).
  destruct (shell_prompts lay ks im b k1 _ (ex_intro _ _ Hr1) (sd_typing _ _ Hs1 _ _ Hty) Hd1)
    as (k2 & Hrun & Hw & Hs2).
  exists k2. split; [|split; [|by transitivity k1]].
  - unfold shell_main. erewrite ubind_inl by exact Hput. exact Hrun.
  - rewrite abs_puts_app. exact Hw.
Qed.
