(* ===== verification/Hello.v ===== *)
(** * The programs testprint and hello
      (syscalls/ece391testprint.c, syscalls/ece391hello.c)

    testprint prints a line and ends; hello asks for a name and greets. *)

From Stdlib Require Import ZArith Lia String Ascii.
From stdpp Require Import base numbers list gmap.
From S2P Require Import Prelude Mem CString FileSys Console Machine Paging Pcb Exec Line Syscall.
From S2P Require Import Terminal Keyboard User Program Reader.

Local Open Scope Z_scope.

(** ** testprint *)

Definition testprint_main (lay : layout) (ks : kstack) (lit_ran : Z) : UP Z :=
  let! _ := ece391_fdputs lay ks 1 lit_ran in uret 0.

Definition ran_text : list Z := bytes "Hello, if this ran, the program was correct. Yay!" ++ [LF].

(** testprint keeps the promise of a program. *)
Lemma testprint_Program lay start NI NB dir pos content args k ks lit_ran :
  literal_in pos content 0 0 (lit_ran, ran_text) -> 0 <= pos ->
  Program lay start NI NB dir pos content args k (testprint_main lay ks lit_ran) 0 ran_text.
Proof.
  intros (I1 & I2 & I3 & _) Hpos. split; [lia|].
  intros k1 v [[_ _ Hfo Hsl Hfd _ Hd] Ep Him _ _].
  pose proof (in_page_high _ _ _ I3 Hpos) as Hhigh.
  destruct (fdputs_screen lay ks k1 fresh_fds 0 lit_ran ran_text v) as (k2 & Hput & Hd2 & Hs2 & _);
    try done; [by eapply literal_loaded|].
  exists k2. split; [|by split]. unfold testprint_main. by erewrite ubind_inl by exact Hput.
Qed.

(** ** hello *)

Record hello_image := HelloImage {
  he_buf : Z;
  lit_whats_name : Z;    (** "Hi, what's your name? " *)
  lit_no_name : Z;       (** "Can't read name from keyboard.\n" *)
  lit_hello : Z;         (** "Hello, " *)
}.

Section Hello.
Context (lay : layout) (ks : kstack) (im : hello_image).

(** [main] after its [read]. *)
Definition hello_rest (cnt : Z) : UP Z :=
  if cnt =? -1 then
    let! _ := ece391_fdputs lay ks 1 (lit_no_name im) in uret 3
  else if (cnt <? 0) || (1024 <=? cnt) then fail OutOfBounds
  else
    modify (fun k => set_kmem (mset (kmem k) (he_buf im + cnt) 0) k) ;;
    let! _ := ece391_fdputs lay ks 1 (lit_hello im) in
    let! _ := ece391_fdputs lay ks 1 (he_buf im) in
    uret 0.

Definition hello_main : UP Z :=
  let! cnt := (let! _ := ece391_fdputs lay ks 1 (lit_whats_name im) in
               ece391_read lay ks 0 (he_buf im) (1024 - 1)) in
  hello_rest cnt.

Definition hello_after_read : UP Z :=
  let! cnt := read_resume lay 0 (he_buf im) (1024 - 1) in hello_rest cnt.

Definition whats_name : list Z := bytes "Hi, what's your name? ".
Definition hello_text : list Z := bytes "Hello, ".
Definition hello_lits : list (Z * list Z) :=
  [(lit_whats_name im, whats_name); (lit_hello im, hello_text)].

Definition hello_reply (line : list Z) : option (Z * list Z) :=
  if zlen line <=? 126 then Some (0, hello_text ++ line ++ [LF]) else None.

Lemma hello_answers start NI NB dir pos content args k :
  answers_line lay (he_buf im) hello_rest start NI NB dir pos content args k hello_lits
    (he_buf im) 1024 hello_reply.
Proof.
  intros k1 v k2 w line st text _ _ Hr Hd Hb Hall Hlen. unfold hello_reply.
  rewrite (proj2 (Z.leb_le _ _) Hlen). intros [<- <-]%reply_inj.
  assert (Hl : zlen (line ++ [LF]) = zlen line + 1) by (rewrite length_app; cbn; lia).
  destruct (running_store k2 (he_buf im + (zlen line + 1)) 0 w Hr Hd) as (Hr3 & Hd3 & Hs3 & _); [lia|].
  set (k3 := set_kmem _ k2) in *.
  assert (Hc : cstr (kmem k3) (he_buf im) (line ++ [LF]))
    by (unfold k3; rewrite <- Hl; by apply terminate_line).
  destruct (running_says ks k3 (lit_hello im) hello_text w Hr3) as (k4 & Hp4 & Hd4 & Hs4 & Hr4 & Hm4);
    [by right; left | exact Hd3|].
  pose proof (ru_data _ _ _ _ _ _ Hr4) as [B1 B2]. pose proof (ru_slot _ _ _ _ _ _ Hr4) as Hsl.
  destruct (running_puts ks k4 (he_buf im) (line ++ [LF]) _ Hr4 Hd4) as (k5 & Hp5 & Hd5 & Hs5 & _ & _).
  { eapply cstr_ext; [|exact Hc]. intros b Hbb. symmetry. apply Hm4. unfold page_at in B1. lia. }
  { split; lia. }
  exists k5. split; [|split].
  - unfold hello_rest. rewrite (proj2 (Z.eqb_neq _ (-1))), (proj2 (Z.ltb_ge _ 0)),
      (proj2 (Z.leb_gt 1024 _)) by lia. cbn [orb]. erewrite bind_ok by reflexivity.
    erewrite ubind_inl by exact Hp4. by erewrite ubind_inl by exact Hp5.
  - rewrite abs_puts_app. exact Hd5.
  - transitivity k3; [exact Hs3|]. by transitivity k4.
Qed.

(** hello keeps the promise of a program that asks. *)
Lemma hello_Dialog fr shell start NI NB dir pos content args k :
  in_page pos (he_buf im) 1024 -> Forall (literal_in pos content (he_buf im) 1024) hello_lits ->
  Dialog lay fr shell start NI NB dir pos content args k hello_main hello_after_read
    whats_name hello_reply.
Proof.
  intros Hpg Hlits. eapply (ask_Dialog lay ks _ _ _ hello_rest); [exact Hpg | exact Hlits | by left | lia | lia | |].
  - intros line st text. unfold hello_reply. destruct (Z.leb_spec (zlen line) 126); [|done].
    intros [<- _]%reply_inj. lia.
  - apply hello_answers.
Qed.
End Hello.
