(* ===== verification/Counter.v ===== *)
(** * The program counter (syscalls/ece391counter.c)

    It asks for one of three ends and prints the numbers up to it.  The
    [read] of this kernel hands over the newline with the line, so the test
    of the answer never passes ([counter_rejects]); the loop that would
    follow prints what it should ([counter_counts]). *)

From Stdlib Require Import ZArith Lia String Ascii.
From stdpp Require Import base numbers list gmap.
From S2P Require Import Prelude Mem CString FileSys Console Printf Machine Paging Pcb Exec Line.
From S2P Require Import Syscall Terminal Keyboard User Program Support Reader.

Local Open Scope Z_scope.

(** ** The code *)

Record counter_image := CounterImage {
  co_buf : Z;
  lit_enter : Z;      (** "Enter the Test Number: (0): 100, (1): 10000, (2): 100000\n" *)
  lit_no_number : Z;  (** "Can't read the number from keyboard.\n" *)
  lit_wrong : Z;      (** "Wrong Choice!\n" *)
  lit_newline : Z;    (** "\n" *)
}.

Section Code.
Context (lay : layout) (ks : kstack) (im : counter_image).

(** The switch on [buf[0]]; [max] is 0 before it. *)
Definition counter_max (c : Z) : Z :=
  if c =? chr "0" then 100 else if c =? chr "1" then 10000 else if c =? chr "2" then 100000 else 0.

(** The body of the loop. *)
Definition counter_print (i : Z) : UP unit :=
  m ← gets kmem;
  m' ← liftR (ece391_itoa m (u32 (i + 1)) (co_buf im) 10);
  modify (set_kmem m') ;;
  let! _ := ece391_fdputs lay ks 1 (co_buf im) in
  ece391_fdputs lay ks 1 (lit_newline im).

Definition counter_step (max : Z) (st : Z * kernel) : (Z * kernel) + res ((Z + sysret) * kernel) :=
  let '(i, k) := st in
  if i <? max then
    match counter_print i k with
    | Err e => inr (Err e)
    | Ok (inr r, k1) => inr (Ok (inr r, k1))
    | Ok (inl _, k1) => inl (u32 (i + 1), k1)
    end
  else inr (Ok (inl 0, k)).
Definition counter_loop (max : Z) : UP Z := fun k => while (counter_step max) (0, k).

(** [cnt] is unsigned. *)
Definition counter_rest (r : Z) : UP Z :=
  let cnt := u32 r in
  if cnt =? u32 (-1) then
    let! _ := ece391_fdputs lay ks 1 (lit_no_number im) in uret 3
  else if 1024 <=? cnt then fail OutOfBounds
  else
    modify (fun k => set_kmem (mset (kmem k) (co_buf im + cnt) 0) k) ;;
    m ← gets kmem;
    l ← liftR (ece391_strlen m (co_buf im));
    if (1 <? l) ||
       ((l =? 1) && ((mget m (co_buf im) <? chr "0") || (chr "2" <? mget m (co_buf im)))) then
      let! _ := ece391_fdputs lay ks 1 (lit_wrong im) in uret 0
    else counter_loop (counter_max (mget m (co_buf im))).

Definition counter_main : UP Z :=
  let! cnt := (let! _ := ece391_fdputs lay ks 1 (lit_enter im) in
               ece391_read lay ks 0 (co_buf im) (1024 - 1)) in
  counter_rest cnt.

Definition counter_after_read : UP Z :=
  let! cnt := read_resume lay 0 (co_buf im) (1024 - 1) in counter_rest cnt.

(** ** The numbers it would print *)

(** The numerals of the numbers from 1 to [n], each on a line. *)
Fixpoint counting (n : nat) (text : list Z) : Prop :=
  match n with
  | O => text = []
  | S n' => exists pre d, counting n' pre /\ dec_text (Z.of_nat n) d /\ text = pre ++ d ++ [LF]
  end.

Definition enter_text : list Z :=
  bytes "Enter the Test Number: (0): 100, (1): 10000, (2): 100000" ++ [LF].
Definition wrong_text : list Z := bytes "Wrong Choice!" ++ [LF].
Definition counter_lits : list (Z * list Z) :=
  [(lit_enter im, enter_text); (lit_wrong im, wrong_text); (lit_newline im, [LF])].

Lemma counter_prints t i k v :
  running lay counter_lits (co_buf im) 1024 t k -> displays k v -> 0 <= i < 4294967295 ->
  exists d k', counter_print i k = Ok (inl tt, k') /\ dec_text (i + 1) d /\
    displays k' (abs_puts (d ++ [LF]) v) /\ steady k k' /\
    running lay counter_lits (co_buf im) 1024 t k'.
Proof.
  intros Hr Hd Hi.
  destruct (itoa_spec (kmem k) (i + 1) (co_buf im) 10) as (m' & ds & Hit & Hnum & Hc & Hm); [lia..|].
  pose proof (numeral_length 10 (i + 1) ds ltac:(lia) ltac:(lia) Hnum) as Hlen.
  destruct (running_write k m' v Hr Hd) as (Hr1 & Hd1 & Hs1 & _); [intros b Hb; apply Hm; lia|].
  set (k1 := set_kmem m' k) in *.
  pose proof (ru_data _ _ _ _ _ _ Hr1) as [B1 B2].
  destruct (running_puts ks k1 (co_buf im) (map digit_char ds) v Hr1 Hd1 Hc)
    as (k2 & Hp2 & Hd2 & Hs2 & Hr2 & _); [rewrite length_map; split; lia|].
  destruct (running_says ks k2 (lit_newline im) [LF] _ Hr2 ltac:(by do 2 right; left) Hd2)
    as (k3 & Hp3 & Hd3 & Hs3 & Hr3 & _).
  exists (map digit_char ds), k3. split_and!.
  - unfold counter_print. erewrite bind_ok by reflexivity. rewrite u32_small by lia.
    rewrite ece391_itoa_same by lia. rewrite Hit. erewrite bind_ok by reflexivity.
    erewrite bind_ok by reflexivity. by erewrite ubind_inl by exact Hp2.
  - by exists ds.
  - rewrite abs_puts_app. exact Hd3.
  - transitivity k1; [exact Hs1|]. by transitivity k2.
  - exact Hr3.
Qed.

(** The loop prints the numbers from 1 to [max], each on a line, and ends. *)
Theorem counter_counts t max k v :
  running lay counter_lits (co_buf im) 1024 t k -> displays k v -> 0 <= max < 4294967296 ->
  exists text k', counter_loop max k = Ok (inl 0, k') /\ counting (Z.to_nat max) text /\
    displays k' (abs_puts text v) /\ steady k k' /\ running lay counter_lits (co_buf im) 1024 t k'.
Proof.
  intros Hr Hd Hmax. unfold counter_loop.
  apply (while_index _ (fun n st => 0 <= n <= max /\ exists kc text, st = (max - n, kc) /\
      counting (Z.to_nat (max - n)) text /\ displays kc (abs_puts text v) /\ steady k kc /\
      running lay counter_lits (co_buf im) 1024 t kc)
    (fun r => exists text k', r = Ok (inl 0, k') /\ counting (Z.to_nat max) text /\
      displays k' (abs_puts text v) /\ steady k k' /\
      running lay counter_lits (co_buf im) 1024 t k') max); [|lia|].
  { split; [lia|]. exists k, []. rewrite Z.sub_diag. by split_and!. }
  intros n st [Hn (kc & text & -> & Hc & Hdc & Hsc & Hrc)]. unfold counter_step.
  destruct (Z.ltb_spec (max - n) max).
  - destruct (counter_prints t (max - n) kc _ Hrc Hdc ltac:(lia)) as (d & k1 & -> & Hdt & Hd1 & Hs1 & Hr1).
    exists (n - 1). split; [lia|]. split; [lia|]. exists k1, (text ++ d ++ [LF]). rewrite u32_small by lia.
    split; [f_equal; lia|]. split.
    + replace (Z.to_nat (max - (n - 1))) with (S (Z.to_nat (max - n))) by lia.
      exists text, d. split; [exact Hc|]. split; [|done].
      by replace (Z.of_nat (S (Z.to_nat (max - n)))) with (max - n + 1) by lia.
    + rewrite abs_puts_app. split; [exact Hd1|]. split; [by transitivity kc | exact Hr1].
  - exists text, kc. assert (n = 0) as -> by lia. rewrite Z.sub_0_r in Hc. by split_and!.
Qed.

(** ** What it does with an answer *)

(** Whatever the line. *)
Definition counter_reply (line : list Z) : option (Z * list Z) :=
  if zlen line <=? 126 then Some (0, wrong_text) else None.

Lemma chosen_never line :
  (1 <? zlen (line ++ [LF])) || ((zlen (line ++ [LF]) =? 1) &&
    ((anth 0 (line ++ [LF]) 0 <? chr "0") || (chr "2" <? anth 0 (line ++ [LF]) 0))) = true.
Proof.
  destruct line as [|c line]; [reflexivity|].
  rewrite (proj2 (Z.ltb_lt 1 _)) by (rewrite length_app; cbn; lia). done.
Qed.

Lemma counter_answers start NI NB dir pos content args k :
  answers_line lay (co_buf im) counter_rest start NI NB dir pos content args k counter_lits
    (co_buf im) 1024 counter_reply.
Proof.
  intros k1 v k2 w line st text _ _ Hr Hd Hb Hall Hlen. unfold counter_reply.
  rewrite (proj2 (Z.leb_le _ _) Hlen). intros [<- <-]%reply_inj.
  assert (Hl : zlen (line ++ [LF]) = zlen line + 1) by (rewrite length_app; cbn; lia).
  destruct (running_store k2 (co_buf im + (zlen line + 1)) 0 w Hr Hd) as (Hr3 & Hd3 & Hs3 & _); [lia|].
  set (k3 := set_kmem _ k2) in *.
  assert (Hc : cstr (kmem k3) (co_buf im) (line ++ [LF]))
    by (unfold k3; rewrite <- Hl; by apply terminate_line).
  destruct (running_says ks k3 (lit_wrong im) wrong_text w Hr3) as (k4 & Hp4 & Hd4 & Hs4 & _ & _);
    [by right; left | exact Hd3|].
  exists k4. split; [|split; [exact Hd4 | by transitivity k3]].
  pose proof (chosen_never line) as Hno.
  rewrite <- (cstr_char _ _ _ 0 Hc), Z.add_0_r in Hno by lia.
  unfold counter_rest. rewrite u32_small by lia.
  rewrite (proj2 (Z.eqb_neq _ (u32 (-1)))) by (change (u32 (-1)) with 4294967295; lia).
  rewrite (proj2 (Z.leb_gt 1024 _)) by lia. erewrite bind_ok by reflexivity.
  erewrite bind_ok by reflexivity. change (kmem (set_kmem _ k2)) with (kmem k3).
  rewrite (ece391_strlen_spec _ _ _ Hc) by lia. erewrite bind_ok by reflexivity.
  rewrite Hno. by erewrite ubind_inl by exact Hp4.
Qed.

Lemma counter_Dialog fr shell start NI NB dir pos content args k :
  in_page pos (co_buf im) 1024 -> Forall (literal_in pos content (co_buf im) 1024) counter_lits ->
  Dialog lay fr shell start NI NB dir pos content args k counter_main counter_after_read
    enter_text counter_reply.
Proof.
  intros Hpg Hlits.
  eapply (ask_Dialog lay ks _ _ _ counter_rest); [exact Hpg | exact Hlits | by left | lia | lia | |].
  - intros line st text. unfold counter_reply. destruct (Z.leb_spec (zlen line) 126); [|done].
    intros [<- _]%reply_inj. lia.
  - apply counter_answers.
Qed.
End Code.

(** C28: The command [counter] of a shell: whatever line is typed at its question,
    the numbers the question offers included, the program answers that the
    choice is wrong and ends. *)
Theorem counter_rejects lay ks im fr sp t command cmd k start NI NB dir content pos v frk shell
  b codes b' keys :
  launch lay fr sp t command cmd k start NI NB dir content pos v ->
  in_page pos (co_buf im) 1024 -> Forall (literal_in pos content (co_buf im) 1024) (counter_lits im) ->
  typing b [] (k_tty k) -> Forall (fun sc => 0 <= sc < 256) codes -> typed b codes = Some (b', keys) ->
  zlen (edit_lines [] keys) <= 126 ->
  exists k1 k2 k3 k4,
    execute lay fr command k = Ok (Entered (elf_entry content), k1) /\
    _start lay ks (counter_main lay ks im) k1 = Ok (inr Waiting, k2) /\
    handle_all lay frk shell (codes ++ [ENTER]) k2 = Ok (Returns tt, k3) /\
    _start lay ks (counter_after_read lay ks im) k3 =
      Ok (inr (Resuming (f_esp fr) (f_ebp fr) 0), k4) /\
    displays k4 (abs_puts wrong_text (abs_putc LF (edit_views [] (abs_puts enter_text v) keys))) /\
    back lay pos k k4 /\ typing b' [] (k_tty k4).
Proof.
  intros La Hpg Hlits Hty Hcodes Hkeys Hlen.
  eapply (dialog_runs ks frk shell b _ _ _ counter_reply); [exact La | by apply counter_Dialog | exact Hty
    | exact Hcodes | exact Hkeys | exact Hlen|].
  unfold counter_reply. by rewrite (proj2 (Z.leb_le _ _) Hlen).
Qed.
