(* ===== verification/Syserr.v ===== *)
(** * The test program of the system calls (syscalls/ece391syserr.c)

    It asks for a test and runs it, or all eight.  On this kernel, with a
    file system that has a directory [.] and no files named [helloo] and
    [shel], every test passes ([syserr_passes]).

    The literals of the program are in memory once each; [se_lit] gives the
    place of a literal. *)

From Stdlib Require Import ZArith Lia String Ascii.
From stdpp Require Import base numbers list gmap.
From S2P Require Import Prelude Mem CString FileSys Console Machine Paging Pcb Exec Line Syscall.
From S2P Require Import Terminal Keyboard User Program Reader.

Local Open Scope Z_scope.

(** ** The code *)

Definition NEG_FD : Z := -1073741823.
Definition BIG_FD : Z := 1073741823.
Definition BIG_NUM : Z := 1073741823.
Definition NEG_NUM : Z := -1073741823.

Record syserr_image := SyserrImage {
  se_data : Z;              (** the part of the stack that holds the locals *)
  se_size : Z;
  se_buf : Z;               (** the [buf[32]] of the tests *)
  se_line : Z;              (** the [buf[128]] of [main] *)
  se_lit : list Z -> Z;
  se_regs : regs;           (** the registers that [call_sys] does not set *)
}.

Definition line_of (s : list Z) : list Z := s ++ [LF].

Section Code.
Context (lay : layout) (ks : kstack) (im : syserr_image).

Definition tell (s : list Z) : UP unit := ece391_fdputs lay ks 1 (se_lit im s).

Definition call_sys (num : Z) : UP Z :=
  do_call lay ks num (ebx (se_regs im)) (ecx (se_regs im)) (edx (se_regs im)).

(** [if (-1 != call) { fail = 2; ece391_fdputs(1, complaint); }] *)
Definition refused (call : UP Z) (complaint : list Z) (fail : Z) : UP Z :=
  let! r := call in
  if r =? -1 then uret fail else let! _ := tell complaint in uret 2.

Definition verdict (fails passes : list Z) (fail : Z) : UP Z :=
  let! _ := tell (if negb (fail =? 0) then fails else passes) in uret fail.

Definition err_neg_fd : UP Z :=
  let! fail := refused (ece391_read lay ks NEG_FD (se_buf im) 31) (line_of (bytes "read fail")) 0 in
  let! fail := refused (ece391_write lay ks NEG_FD (se_buf im) 31) (line_of (bytes "write fail")) fail in
  let! fail := refused (ece391_close lay ks NEG_FD) (line_of (bytes "close fail")) fail in
  verdict (line_of (bytes "err_neg_fd: FAIL")) (line_of (bytes "err_neg_fd: PASS")) fail.

Definition err_big_fd : UP Z :=
  let! fail := refused (ece391_read lay ks BIG_FD (se_buf im) 31) (line_of (bytes "read fail")) 0 in
  let! fail := refused (ece391_write lay ks BIG_FD (se_buf im) 31) (line_of (bytes "write fail")) fail in
  let! fail := refused (ece391_close lay ks BIG_FD) (line_of (bytes "close fail")) fail in
  verdict (line_of (bytes "err_big_fd: FAIL")) (line_of (bytes "err_big_fd: PASS")) fail.

(** The two loops of [err_open_lots]: [n] opens that count the failures, and
    the closes from descriptor [i] on. *)
Fixpoint open_lots (n : nat) (cnt : Z) : UP Z :=
  match n with
  | O => uret cnt
  | S n =>
      let! r := ece391_open lay ks (se_lit im (bytes ".")) in
      open_lots n (if r =? -1 then cnt + 1 else cnt)
  end.

Fixpoint close_lots (n : nat) (i : Z) : UP unit :=
  match n with
  | O => uret tt
  | S n => let! _ := ece391_close lay ks i in close_lots n (i + 1)
  end.

Definition err_open_lots : UP Z :=
  let! cnt := open_lots 7 0 in
  let! _ := close_lots 6 2 in
  if cnt =? 1 then let! _ := tell (line_of (bytes "err_open_lots: PASS")) in uret 0
  else let! _ := tell (line_of (bytes "err_open_lots: FAIL")) in uret 2.

Definition err_open : UP Z :=
  let! fail := refused (ece391_open lay ks (se_lit im (bytes "helloo")))
                 (line_of (bytes "'helloo' fail")) 0 in
  let! fail := refused (ece391_open lay ks (se_lit im (bytes "shel")))
                 (line_of (bytes "'shel' fail")) fail in
  let! fail := refused (ece391_open lay ks (se_lit im (bytes "")))
                 (line_of (bytes "empty string fail")) fail in
  verdict (line_of (bytes "err_open: FAIL")) (line_of (bytes "err_open: PASS")) fail.

(** [n] rounds of a loop from [i] on: [if (-1 != call(i)) ...] *)
Fixpoint refused_all (call : Z -> UP Z) (complaint : list Z) (n : nat) (i fail : Z) : UP Z :=
  match n with
  | O => uret fail
  | S n => let! fail := refused (call i) complaint fail in refused_all call complaint n (i + 1) fail
  end.

Definition err_unopened : UP Z :=
  let! fail := refused_all (ece391_close lay ks)
                 (line_of (bytes "close unopened or invalid fd fail")) 8 0 0 in
  let! fail := refused_all (fun i => ece391_read lay ks i (se_buf im) 31)
                 (line_of (bytes "read from unopened fd fail")) 6 2 fail in
  let! fail := refused_all (fun i => ece391_write lay ks i (se_buf im) 31)
                 (line_of (bytes "write to unopened fd fail")) 6 2 fail in
  verdict (line_of (bytes "err_unopened: FAIL")) (line_of (bytes "err_unopened: PASS")) fail.

Definition err_vidmap : UP Z :=
  let! fail := refused (ece391_vidmap lay ks 0) (line_of (bytes "Null pointer fail")) 0 in
  let! fail := refused (ece391_vidmap lay ks 4194304) (line_of (bytes "Kernel pointer fail fail")) fail in
  verdict (line_of (bytes "err_vidmap: FAIL")) (line_of (bytes "err_vidmap: PASS")) fail.

Definition err_stdin_out : UP Z :=
  let! fail := refused (ece391_write lay ks 0 (se_buf im) 31) (line_of (bytes "write to stdin fail")) 0 in
  let! fail := refused (ece391_read lay ks 1 (se_buf im) 31) (line_of (bytes "read from stdout fail")) fail in
  verdict (line_of (bytes "err_stdin_out: FAIL")) (line_of (bytes "err_stdin_out: PASS")) fail.

Definition err_syscall_num : UP Z :=
  let! fail := refused (call_sys BIG_NUM) (line_of (bytes "syscall 0 fail")) 0 in
  let! fail := refused (call_sys NEG_NUM) (line_of (bytes "big num syscall fail")) fail in
  let! fail := refused (call_sys 0) (line_of (bytes "neg num syscall fail")) fail in
  verdict (line_of (bytes "err_syscall_num: FAIL")) (line_of (bytes "err_syscall_num: PASS")) fail.

Definition all_tests : list (UP Z) :=
  [err_neg_fd; err_big_fd; err_open_lots; err_open; err_unopened; err_vidmap; err_stdin_out;
   err_syscall_num].

(** [fail += test();] for each test. *)
Fixpoint sum_tests (tests : list (UP Z)) (fail : Z) : UP Z :=
  match tests with
  | [] => uret fail
  | test :: tests => let! f := test in sum_tests tests (fail + f)
  end.

(** The switch of [main]. *)
Definition syserr_select (select : Z) : UP Z :=
  if select =? 0 then
    let! fail := sum_tests all_tests 0 in
    verdict (LF :: line_of (bytes "Overall Tests: FAIL")) (LF :: line_of (bytes "Overall Tests: PASS")) fail
  else if select =? 1 then err_neg_fd
  else if select =? 2 then err_big_fd
  else if select =? 3 then err_open_lots
  else if select =? 4 then err_open
  else if select =? 5 then err_unopened
  else if select =? 6 then err_vidmap
  else if select =? 7 then err_stdin_out
  else if select =? 8 then err_syscall_num
  else let! _ := tell (bytes "Invalid test number. Choose from tests 1-8 or 0") in uret 0.

Definition syserr_rest (cnt : Z) : UP Z :=
  if cnt =? -1 then let! _ := tell (line_of (bytes "Can't read test #")) in uret 2
  else
    m ← gets kmem;
    syserr_select (mget m (se_line im) - chr "0").

Definition syserr_main : UP Z :=
  let! cnt := (let! _ := tell (bytes "Choose from tests 1-8. 0 to run all: ") in
               ece391_read lay ks 0 (se_line im) 127) in
  syserr_rest cnt.

Definition syserr_after_read : UP Z :=
  let! cnt := read_resume lay 0 (se_line im) 127 in syserr_rest cnt.
End Code.

(** ** Calls that are refused *)

Section Tests.
Context (lay : layout) (ks : kstack) (im : syserr_image).
Context (start NI NB : Z) (dir : list entry).

(** The literals a run without failures prints, and the names it opens. *)
Definition syserr_strings : list (list Z) :=
  [bytes "Choose from tests 1-8. 0 to run all: "; line_of (bytes "err_neg_fd: PASS");
   line_of (bytes "err_big_fd: PASS"); line_of (bytes "err_open_lots: PASS");
   line_of (bytes "err_open: PASS"); line_of (bytes "err_unopened: PASS");
   line_of (bytes "err_vidmap: PASS"); line_of (bytes "err_stdin_out: PASS");
   line_of (bytes "err_syscall_num: PASS"); LF :: line_of (bytes "Overall Tests: PASS");
   bytes "Invalid test number. Choose from tests 1-8 or 0";
   bytes "."; bytes "helloo"; bytes "shel"; []].
Definition syserr_lits : list (Z * list Z) := map (fun s => (se_lit im s, s)) syserr_strings.

(** A test runs, with the descriptors [t], and the screen shows [v]. *)
Record testing (t : fdtab) (v : view) (k : kernel) : Prop := {
  te_run : running lay syserr_lits (se_data im) (se_size im) t k;
  te_screen : displays k v;
  te_world : world lay (k_fs k) (kmem k) start NI NB dir;
  te_dentry : dentry_fits ks (curr_task_pos k);
}.

Lemma testing_if t v k : testing t v k -> testing t v (set_if true k).
Proof.
  intros [Hr Hd Hw Hde]. constructor; [|by apply displays_if | exact Hw | exact Hde].
  by eapply running_data; [exact Hr | |].
Qed.

Lemma lit_in s : s ∈ syserr_strings -> (se_lit im s, s) ∈ syserr_lits.
Proof. intros H. apply list_elem_of_fmap. by exists s. Qed.

(** The state after a steady call. *)
Lemma testing_next t t' v v' k k' :
  testing t v k -> steady k k' -> running lay syserr_lits (se_data im) (se_size im) t' k' ->
  displays k' v' -> testing t' v' k'.
Proof.
  intros [Hr Hd Hw Hde] Hs Hr' Hd'. constructor; [exact Hr' | exact Hd' | | by rewrite (sd_pos _ _ Hs)].
  eapply calm_world; [exact Hs | exact (ru_slot _ _ _ _ _ _ Hr) | exact Hw].
Qed.

Lemma testing_says t v k s :
  testing t v k -> s ∈ syserr_strings ->
  exists k', tell lay ks im s k = Ok (inl tt, k') /\ testing t (abs_puts s v) k' /\ steady k k'.
Proof.
  intros Ht Hin. pose proof Ht as [Hr Hd _ _].
  destruct (running_says ks k _ s v Hr (lit_in s Hin) Hd) as (k' & Hp & Hd' & Hs & Hr' & _).
  exists k'. split; [exact Hp|]. split; [by eapply testing_next | exact Hs].
Qed.

(** A call that is refused leaves nothing but the interrupt flag. *)
Definition refuses (call : UP Z) (k : kernel) : Prop := call k = Ok (inl (-1), set_if true k).

Definition unreadable (t : fdtab) (fd : Z) : Prop :=
  fd < 0 \/ 8 <= fd \/ anth None t fd = None \/ (0 <= fd < 8 /\ anth None t fd = Some (FStdout, 0)).
Definition unwritable (t : fdtab) (fd : Z) : Prop :=
  fd < 0 \/ 8 <= fd \/ anth None t fd = None \/ (0 <= fd < 8 /\ anth None t fd = Some (FStdin, 0)).

Lemma read_refused t v k fd a n :
  testing t v k -> int32 fd -> int32 n -> unreadable t fd -> refuses (ece391_read lay ks fd a n) k.
Proof.
  intros [[Hfo _ _ _ Hf _ _] _ _ _] Hfd Hn Hu. apply (read_call _ _ _ _ _ _ _ (set_if true k)); [done | done|].
  unfold read. destruct Hu as [H|[H|[H|[H1 H2]]]].
  4:{ by erewrite bind_ok by (rewrite (fd_check_open lay (set_if true k) t fd FStdout 0); done). }
  all: erewrite bind_ok by (rewrite (fd_check_refuses lay (set_if true k) t fd); [reflexivity | exact Hf | auto]);
    reflexivity.
Qed.

Lemma write_refused t v k fd a n :
  testing t v k -> int32 fd -> int32 n -> unwritable t fd -> refuses (ece391_write lay ks fd a n) k.
Proof.
  intros [[Hfo _ _ _ Hf _ _] _ _ _] Hfd Hn Hu. apply (write_call _ _ _ _ _ _ _ (set_if true k)); [done | done|].
  unfold write. destruct Hu as [H|[H|[H|[H1 H2]]]].
  4:{ by erewrite bind_ok by (rewrite (fd_check_open lay (set_if true k) t fd FStdin 0); done). }
  all: erewrite bind_ok by (rewrite (fd_check_refuses lay (set_if true k) t fd); [reflexivity | exact Hf | auto]);
    reflexivity.
Qed.

Lemma close_refused t v k fd :
  testing t v k -> int32 fd -> close_case t fd = None -> refuses (ece391_close lay ks fd) k.
Proof.
  intros [[Hfo _ _ _ Hf _ _] _ _ _] Hfd Hc.
  apply (close_call _ _ _ _ _ (set_if false (set_if true k))); [done|].
  pose proof (close_spec lay (set_if true k) t fd Hfo Hf) as H. by rewrite Hc in H.
Qed.

Lemma vidmap_refused k p :
  p = 0 \/ p < OTEMBVIR -> refuses (ece391_vidmap lay ks p) k.
Proof.
  intros Hp. apply (vidmap_call _ _ _ _ _ (set_if true k)). unfold vidmap, OTTMBVIR, OTEMBVIR in *.
  replace ((p =? 0) || _ || _) with true by lia. done.
Qed.

Lemma call_sys_refused k num :
  u32 num < 1 \/ 10 < u32 num -> refuses (call_sys lay ks im num) k.
Proof.
  intros Hn. unfold refuses, call_sys, do_call, syscall_stub. cbn [eax].
  replace ((10 <? u32 num) || (u32 num <? 1)) with true by lia. reflexivity.
Qed.

(** [open] of names that are not in the directory. *)
Lemma lit_high t v k s :
  testing t v k -> s ∈ syserr_strings -> cstr (kmem k) (se_lit im s) s /\ 8388608 <= se_lit im s.
Proof.
  intros [Hr _ _ _] Hin. pose proof (ru_slot _ _ _ _ _ _ Hr) as Hsl.
  pose proof (proj1 (Forall_forall _ _) (ru_lits _ _ _ _ _ _ Hr) _ (lit_in s Hin)) as (L1 & _ & L2).
  split; [exact L2 | exact (in_page_high _ _ _ L1 ltac:(lia))].
Qed.

Lemma open_refused t v k s :
  testing t v k -> s ∈ syserr_strings -> 0 < zlen s < 32 -> take 5 s <> bytes "stdin" ->
  take 6 s <> bytes "stdout" -> abs_lookup dir s = None ->
  refuses (ece391_open lay ks (se_lit im s)) k.
Proof.
  intros Ht Hin Hl N1 N2 Hlk. destruct (lit_high t v k s Ht Hin) as [L1 L2].
  destruct Ht as [Hr Hd Hw Hde].
  pose proof (open_search _ _ _ _ _ _ _ _ _ _
    (running_open_ready ks k start NI NB dir _ s Hr Hw Hde L1 L2 Hl N1 N2)) as H.
  rewrite Hlk in H. exact (open_call _ _ _ _ _ _ H).
Qed.

Lemma open_empty_refused t v k :
  testing t v k -> refuses (ece391_open lay ks (se_lit im [])) k.
Proof.
  intros Ht. destruct (lit_high t v k [] Ht ltac:(by do 14 right; left)) as [L1 L2].
  apply (open_call _ _ _ _ _ (set_if false (set_if true k))).
  eapply open_empty; [exact (te_world _ _ _ Ht) | exact L1 | lia].
Qed.

Lemma refused_run call complaint fail k :
  refuses call k -> refused lay ks im call complaint fail k = Ok (inl fail, set_if true k).
Proof. intros H. unfold refused. by erewrite ubind_inl by exact H. Qed.

(** A test that consists of refused calls and a verdict. *)
Lemma verdict_passes t v k fails s :
  testing t v k -> s ∈ syserr_strings ->
  exists k', verdict lay ks im fails s 0 k = Ok (inl 0, k') /\
    testing t (abs_puts s v) k' /\ steady k k'.
Proof.
  intros Ht Hin. destruct (testing_says t v k s Ht Hin) as (k' & Hs & H). exists k'. split; [|exact H].
  unfold verdict. cbn [Z.eqb negb]. by erewrite ubind_inl by exact Hs.
Qed.

Lemma refused_all_run (call : Z -> UP Z) complaint n i fail k :
  (forall j k', i <= j < i + Z.of_nat n -> k' = k \/ k' = set_if true k -> refuses (call j) k') ->
  refused_all lay ks im call complaint n i fail k =
    Ok (inl fail, match n with O => k | S _ => set_if true k end).
Proof.
  revert i k. induction n as [|n IH]; intros i k Hr; [reflexivity|]. cbn [refused_all].
  erewrite ubind_inl by (apply refused_run, Hr; [lia | by left]). rewrite IH; [by destruct n|].
  intros j k' Hj Hk. apply Hr; [lia|]. by destruct Hk as [-> | ->]; right.
Qed.

(** What a test has to do. *)
Definition passes (test : UP Z) (text : list Z) : Prop :=
  forall v k, testing fresh_fds v k -> exists k', test k = Ok (inl 0, k') /\
    testing fresh_fds (abs_puts text v) k' /\ steady k k'.

(** From the state after the refused calls to the state before them. *)
Lemma passes_from (test rest : UP Z) text :
  (forall v k, testing fresh_fds v k -> test k = rest (set_if true k)) ->
  passes rest text -> passes test text.
Proof.
  intros Heq Hrest v k Ht. rewrite (Heq v k Ht).
  destruct (Hrest v (set_if true k) (testing_if _ _ _ Ht)) as (k' & H1 & H2 & H3).
  exists k'. split; [exact H1|]. split; [exact H2|]. transitivity (set_if true k); [apply steady_if | exact H3].
Qed.

Lemma verdict_test fails s : s ∈ syserr_strings -> passes (verdict lay ks im fails s 0) s.
Proof. intros Hin v k Ht. by apply verdict_passes. Qed.

(** The steps of such a test: each refused call in turn. *)
Ltac in_test Ht := first [exact Ht | exact (testing_if _ _ _ Ht)].
Ltac refusal Ht :=
  match goal with
  | |- refuses (ece391_read _ _ _ _ _) _ =>
      eapply read_refused; [in_test Ht | unfold int32; lia | unfold int32; lia | unfold unreadable]
  | |- refuses (ece391_write _ _ _ _ _) _ =>
      eapply write_refused; [in_test Ht | unfold int32; lia | unfold int32; lia | unfold unwritable]
  | |- refuses (ece391_close _ _ _) _ =>
      eapply close_refused; [in_test Ht | unfold int32; lia | reflexivity]
  end.
Ltac refused_step tac :=
  erewrite ubind_inl by (apply refused_run; tac); change (set_if true (set_if true ?k)) with (set_if true k).

Lemma neg_fd_passes : passes (err_neg_fd lay ks im) (line_of (bytes "err_neg_fd: PASS")).
Proof.
  eapply passes_from; [|apply verdict_test; by right; left]. intros v k Ht. unfold err_neg_fd, NEG_FD.
  do 3 (refused_step ltac:(refusal Ht; lia)). reflexivity.
Qed.

Lemma big_fd_passes : passes (err_big_fd lay ks im) (line_of (bytes "err_big_fd: PASS")).
Proof.
  eapply passes_from; [|apply verdict_test; by do 2 right; left]. intros v k Ht. unfold err_big_fd, BIG_FD.
  do 3 (refused_step ltac:(refusal Ht; lia)). reflexivity.
Qed.

Lemma vidmap_passes : passes (err_vidmap lay ks im) (line_of (bytes "err_vidmap: PASS")).
Proof.
  eapply passes_from; [|apply verdict_test; by do 6 right; left]. intros v k Ht. unfold err_vidmap.
  do 2 (refused_step ltac:(apply vidmap_refused; unfold OTEMBVIR; lia)). reflexivity.
Qed.

Lemma stdin_out_passes : passes (err_stdin_out lay ks im) (line_of (bytes "err_stdin_out: PASS")).
Proof.
  eapply passes_from; [|apply verdict_test; by do 7 right; left]. intros v k Ht. unfold err_stdin_out.
  do 2 (refused_step ltac:(refusal Ht; do 3 right; split; [lia | reflexivity])). reflexivity.
Qed.

Lemma syscall_num_passes : passes (err_syscall_num lay ks im) (line_of (bytes "err_syscall_num: PASS")).
Proof.
  eapply passes_from; [|apply verdict_test; by do 8 right; left]. intros v k Ht. unfold err_syscall_num.
  do 3 (refused_step ltac:(apply call_sys_refused; vm_compute; auto)). reflexivity.
Qed.

Lemma fresh_free fd : 2 <= fd < 8 -> anth None fresh_fds fd = None.
Proof.
  intros H. assert (fd = 2 \/ fd = 3 \/ fd = 4 \/ fd = 5 \/ fd = 6 \/ fd = 7) by lia.
  by repeat (destruct H0 as [->|H0]; [done|]); subst.
Qed.

Lemma fresh_closed fd : close_case fresh_fds fd = None.
Proof. unfold close_case. by rewrite andb_false_r. Qed.

Lemma unopened_passes : passes (err_unopened lay ks im) (line_of (bytes "err_unopened: PASS")).
Proof.
  eapply passes_from; [|apply verdict_test; by do 5 right; left]. intros v k Ht. unfold err_unopened.
  erewrite ubind_inl by (apply refused_all_run; intros j k' Hj [-> | ->];
    (eapply close_refused; [in_test Ht | unfold int32; lia | apply fresh_closed])).
  erewrite ubind_inl by (apply refused_all_run; intros j k' Hj [-> | ->];
    refusal (testing_if _ _ _ Ht); do 2 right; left; apply fresh_free; lia).
  erewrite ubind_inl by (apply refused_all_run; intros j k' Hj [-> | ->];
    refusal (testing_if _ _ _ Ht); do 2 right; left; apply fresh_free; lia).
  reflexivity.
Qed.

(** The directory the tests expect. *)
Record syserr_dir : Prop := {
  sy_dot : exists j e, abs_lookup dir (bytes ".") = Some j /\ dir !! Z.to_nat j = Some e /\ e_type e = 1;
  sy_helloo : abs_lookup dir (bytes "helloo") = None;
  sy_shel : abs_lookup dir (bytes "shel") = None;
}.
Context (Hdir : syserr_dir).

Lemma open_passes : passes (err_open lay ks im) (line_of (bytes "err_open: PASS")).
Proof.
  destruct Hdir as [_ H1 H2].
  eapply passes_from; [|apply verdict_test; by do 4 right; left]. intros v k Ht. unfold err_open.
  refused_step ltac:(eapply open_refused;
    [exact Ht | by do 12 right; left | vm_compute; done | discriminate | discriminate | exact H1]).
  refused_step ltac:(eapply open_refused;
    [exact (testing_if _ _ _ Ht) | by do 13 right; left | vm_compute; done | discriminate | discriminate | exact H2]).
  refused_step ltac:(eapply open_empty_refused; exact (testing_if _ _ _ Ht)). reflexivity.
Qed.

(** ** Opening too many files *)

(** [open] of the directory takes the descriptor [free_fd] gives. *)
Definition dot_fds (t : fdtab) : fdtab :=
  match free_fd t with Some fd => <[Z.to_nat fd := Some (FDir, 0)]> t | None => t end.
Definition dot_result (t : fdtab) : Z := match free_fd t with Some fd => fd | None => -1 end.

Lemma open_dot t v k :
  testing t v k ->
  exists k', ece391_open lay ks (se_lit im (bytes ".")) k = Ok (inl (dot_result t), k') /\
    testing (dot_fds t) v k' /\ steady k k'.
Proof.
  intros Ht. destruct (sy_dot Hdir) as (j & e & Hj & He & Hty).
  destruct (lit_high t v k (bytes ".") Ht ltac:(by do 11 right; left)) as [L1 L2].
  pose proof Ht as [Hr Hd Hw Hde].
  destruct (running_open ks k v start NI NB dir _ _ j e FDir Hr Hd Hw Hde L1 L2) as (k' & Hop & Hr' & Hd' & Hs & _);
    [vm_compute; done | discriminate | discriminate | exact Hj | exact He | by rewrite Hty |].
  exists k'. split; [exact Hop|]. split; [by eapply testing_next | exact Hs].
Qed.

(** [close] of a descriptor that can be closed. *)
Lemma close_dot t v k fd :
  testing t v k -> 2 <= fd < 8 -> close_case t fd = Some true ->
  exists k', ece391_close lay ks fd k = Ok (inl 0, k') /\
    testing (<[Z.to_nat fd := None]> t) v k' /\ steady k k'.
Proof.
  intros Ht Hfd Hc. pose proof Ht as [Hr Hd _ _].
  destruct (running_close ks k v fd Hr Hd Hfd Hc) as (k' & Hcl & Hr' & Hd' & Hs & _).
  exists k'. split; [exact Hcl|]. split; [by eapply testing_next | exact Hs].
Qed.

(** The loops, on tables of descriptors. *)
Fixpoint opened (n : nat) (t : fdtab) : fdtab :=
  match n with O => t | S n => opened n (dot_fds t) end.
Fixpoint unopened (n : nat) (t : fdtab) : Z :=
  match n with
  | O => 0
  | S n => (if dot_result t =? -1 then 1 else 0) + unopened n (dot_fds t)
  end.
Fixpoint closed (n : nat) (i : Z) (t : fdtab) : option fdtab :=
  match n with
  | O => Some t
  | S n => match close_case t i with
           | Some true => closed n (i + 1) (<[Z.to_nat i := None]> t)
           | _ => None
           end
  end.

Lemma open_lots_run n cnt t v k :
  testing t v k ->
  exists k', open_lots lay ks im n cnt k = Ok (inl (cnt + unopened n t), k') /\
    testing (opened n t) v k' /\ steady k k'.
Proof.
  revert cnt t k. induction n as [|n IH]; intros cnt t k Ht; cbn [open_lots unopened opened].
  { exists k. rewrite Z.add_0_r. by split_and!. }
  destruct (open_dot t v k Ht) as (k1 & Hop & Ht1 & Hs1).
  destruct (IH (if dot_result t =? -1 then cnt + 1 else cnt) _ k1 Ht1) as (k2 & Hrun & Ht2 & Hs2).
  exists k2. split; [|split; [exact Ht2 | by transitivity k1]].
  erewrite ubind_inl by exact Hop. rewrite Hrun. do 3 f_equal. destruct (_ =? -1); lia.
Qed.

Lemma close_lots_run n i t t' v k :
  2 <= i -> i + Z.of_nat n <= 8 -> testing t v k -> closed n i t = Some t' ->
  exists k', close_lots lay ks n i k = Ok (inl tt, k') /\ testing t' v k' /\ steady k k'.
Proof.
  revert i t k. induction n as [|n IH]; intros i t k Hi Hn Ht Hc; cbn [closed close_lots] in *.
  { injection Hc as <-. exists k. by split_and!. }
  destruct (close_case t i) as [[]|] eqn:Hcc; try done.
  destruct (close_dot t v k i Ht ltac:(lia) Hcc) as (k1 & Hcl & Ht1 & Hs1).
  destruct (IH (i + 1) _ k1 ltac:(lia) ltac:(lia) Ht1 Hc) as (k2 & Hrun & Ht2 & Hs2).
  exists k2. split; [|split; [exact Ht2 | by transitivity k1]]. by erewrite ubind_inl by exact Hcl.
Qed.

Lemma open_lots_passes : passes (err_open_lots lay ks im) (line_of (bytes "err_open_lots: PASS")).
Proof.
  intros v k Ht. destruct (open_lots_run 7 0 fresh_fds v k Ht) as (k1 & Hop & Ht1 & Hs1).
  destruct (close_lots_run 6 2 _ fresh_fds v k1 ltac:(lia) ltac:(lia) Ht1 eq_refl) as (k2 & Hcl & Ht2 & Hs2).
  destruct (testing_says _ _ _ (line_of (bytes "err_open_lots: PASS")) Ht2 ltac:(by do 3 right; left))
    as (k3 & Hsay & Ht3 & Hs3).
  exists k3. split; [|split; [exact Ht3 | transitivity k1; [exact Hs1 | by transitivity k2]]].
  unfold err_open_lots. erewrite ubind_inl by exact Hop. erewrite ubind_inl by exact Hcl.
  change (0 + unopened 7 fresh_fds =? 1) with true. cbv iota. by erewrite ubind_inl by exact Hsay.
Qed.

(** ** The whole program *)

Definition pass_lines : list (list Z) :=
  [line_of (bytes "err_neg_fd: PASS"); line_of (bytes "err_big_fd: PASS");
   line_of (bytes "err_open_lots: PASS"); line_of (bytes "err_open: PASS");
   line_of (bytes "err_unopened: PASS"); line_of (bytes "err_vidmap: PASS");
   line_of (bytes "err_stdin_out: PASS"); line_of (bytes "err_syscall_num: PASS")].

Lemma all_pass : Forall2 passes (all_tests lay ks im) pass_lines.
Proof.
  repeat constructor; [apply neg_fd_passes | apply big_fd_passes | apply open_lots_passes | apply open_passes
    | apply unopened_passes | apply vidmap_passes | apply stdin_out_passes | apply syscall_num_passes].
Qed.

Lemma sum_tests_pass tests texts : Forall2 passes tests texts -> passes (sum_tests tests 0) (concat texts).
Proof.
  induction 1 as [|test text tests texts Hp _ IH]; intros v k Ht; cbn [sum_tests concat].
  { exists k. by split_and!. }
  destruct (Hp v k Ht) as (k1 & Hr1 & Ht1 & Hs1). destruct (IH _ k1 Ht1) as (k2 & Hr2 & Ht2 & Hs2).
  exists k2. rewrite abs_puts_app. split; [|split; [exact Ht2 | by transitivity k1]].
  by erewrite ubind_inl by exact Hr1.
Qed.

(** What is printed for the choice [select]. *)
Definition select_text (select : Z) : list Z :=
  if select =? 0 then concat pass_lines ++ LF :: line_of (bytes "Overall Tests: PASS")
  else if (1 <=? select) && (select <=? 8) then nth (Z.to_nat (select - 1)) pass_lines []
  else bytes "Invalid test number. Choose from tests 1-8 or 0".

Lemma overall_passes : passes (syserr_select lay ks im 0) (select_text 0).
Proof.
  intros v k Ht. destruct (sum_tests_pass _ _ all_pass v k Ht) as (k1 & Hr1 & Ht1 & Hs1).
  destruct (verdict_passes _ _ k1 (LF :: line_of (bytes "Overall Tests: FAIL"))
    (LF :: line_of (bytes "Overall Tests: PASS")) Ht1 ltac:(by do 9 right; left)) as (k2 & Hr2 & Ht2 & Hs2).
  exists k2. unfold select_text. cbn [Z.eqb]. rewrite abs_puts_app.
  split; [|split; [exact Ht2 | by transitivity k1]].
  unfold syserr_select. cbn [Z.eqb]. erewrite ubind_inl by exact Hr1. exact Hr2.
Qed.

Lemma invalid_passes : passes
  (let! _ := tell lay ks im (bytes "Invalid test number. Choose from tests 1-8 or 0") in uret 0)
  (bytes "Invalid test number. Choose from tests 1-8 or 0").
Proof.
  intros v k Ht. destruct (testing_says _ _ _ (bytes "Invalid test number. Choose from tests 1-8 or 0") Ht
    ltac:(by do 10 right; left)) as (k1 & Hr & H). exists k1. split; [|exact H].
  by erewrite ubind_inl by exact Hr.
Qed.

Lemma select_passes select : passes (syserr_select lay ks im select) (select_text select).
Proof.
  destruct (Z.eq_dec select 0) as [->|H0]; [apply overall_passes|].
  destruct (decide (1 <= select <= 8)) as [Hs|Hs].
  - assert (Hc : select = 1 \/ select = 2 \/ select = 3 \/ select = 4 \/ select = 5 \/ select = 6 \/
      select = 7 \/ select = 8) by lia.
    destruct Hc as [->|[->|[->|[->|[->|[->|[->| ->]]]]]]];
      [apply neg_fd_passes | apply big_fd_passes | apply open_lots_passes | apply open_passes
      | apply unopened_passes | apply vidmap_passes | apply stdin_out_passes | apply syscall_num_passes].
  - unfold syserr_select, select_text. rewrite (proj2 (Z.eqb_neq select 0)) by done.
    replace ((1 <=? select) && (select <=? 8)) with false by lia.
    repeat (rewrite (proj2 (Z.eqb_neq select _)) by lia). apply invalid_passes.
Qed.

(** The reply to a line: the choice is its first character. *)
Definition syserr_reply (line : list Z) : option (Z * list Z) :=
  if zlen line <=? 125 then Some (0, select_text (anth 0 (line ++ [LF]) 0 - chr "0")) else None.
End Tests.

Section Program.
Context (lay : layout) (ks : kstack) (im : syserr_image).
Context (start NI NB : Z) (dir : list entry) (Hdir : syserr_dir dir).

Lemma syserr_answers pos content args k :
  dentry_fits ks pos ->
  answers_line lay (se_line im) (syserr_rest lay ks im) start NI NB dir pos content args k
    (syserr_lits im) (se_data im) (se_size im) syserr_reply.
Proof.
  intros Hde k1 v k2 w line st text En Hc Hr Hd Hb Hall Hlen. unfold syserr_reply.
  destruct (zlen line <=? 125); [|done]. intros [<- <-]%reply_inj.
  assert (Hl : zlen (line ++ [LF]) = zlen line + 1) by (rewrite length_app; cbn; lia).
  destruct En as [[Hw _ _ Hsl _ _ _] Ep _ _ _].
  assert (Ht : testing lay ks im start NI NB dir fresh_fds w k2).
  { constructor; [exact Hr | exact Hd | by eapply calm_world | by rewrite (sd_pos _ _ Hc), Ep]. }
  destruct (select_passes lay ks im start NI NB dir Hdir (anth 0 (line ++ [LF]) 0 - chr "0") w k2 Ht)
    as (k3 & Hrun & [_ Hd3 _ _] & Hs3).
  exists k3. split; [|by split]. unfold syserr_rest. rewrite (proj2 (Z.eqb_neq _ (-1))) by lia.
  erewrite bind_ok by reflexivity. pose proof (line_char _ _ _ 0 Hb ltac:(lia)) as E.
  rewrite Z.add_0_r in E. by rewrite E.
Qed.

(** The places of the data of the program. *)
Record syserr_places (pos : Z) (content : list Z) : Prop := {
  sl_dentry : dentry_fits ks pos;
  sl_data : in_page pos (se_data im) (se_size im);
  sl_line : se_data im <= se_line im /\ se_line im + 128 <= se_data im + se_size im;
  sl_lits : Forall (literal_in pos content (se_data im) (se_size im)) (syserr_lits im);
}.

Lemma syserr_Dialog fr shell pos content args k :
  syserr_places pos content ->
  Dialog lay fr shell start NI NB dir pos content args k (syserr_main lay ks im)
    (syserr_after_read lay ks im) (bytes "Choose from tests 1-8. 0 to run all: ") syserr_reply.
Proof.
  intros [Hde Hpg Hln Hlits].
  eapply (ask_Dialog lay ks (se_lit im (bytes "Choose from tests 1-8. 0 to run all: ")) (se_line im) 127
    (syserr_rest lay ks im) start NI NB dir pos content args k (syserr_lits im) (se_data im) (se_size im));
    [exact Hpg | exact Hlits | apply lit_in; by left | lia | lia | | by apply syserr_answers].
  intros line st text. unfold syserr_reply. destruct (Z.leb_spec (zlen line) 125); [|done].
  intros [<- _]%reply_inj. lia.
Qed.

(** C7: The command [syserr] of a shell, and the line typed at its question:
    every test that is asked for passes, and the program ends with 0.  For
    the choice 0 all eight are run. *)
Theorem syserr_passes fr sp t command cmd k content pos v frk shell b codes b' keys :
  launch lay fr sp t command cmd k start NI NB dir content pos v ->
  syserr_places pos content -> typing b [] (k_tty k) ->
  Forall (fun sc => 0 <= sc < 256) codes -> typed b codes = Some (b', keys) ->
  let line := edit_lines [] keys in
  zlen line <= 125 ->
  exists k1 k2 k3 k4,
    execute lay fr command k = Ok (Entered (elf_entry content), k1) /\
    _start lay ks (syserr_main lay ks im) k1 = Ok (inr Waiting, k2) /\
    handle_all lay frk shell (codes ++ [ENTER]) k2 = Ok (Returns tt, k3) /\
    _start lay ks (syserr_after_read lay ks im) k3 =
      Ok (inr (Resuming (f_esp fr) (f_ebp fr) 0), k4) /\
    displays k4 (abs_puts (select_text (anth 0 (line ++ [LF]) 0 - chr "0"))
      (abs_putc LF (edit_views [] (abs_puts (bytes "Choose from tests 1-8. 0 to run all: ") v) keys))) /\
    back lay pos k k4 /\ typing b' [] (k_tty k4).
Proof.
  intros La Hpl Hty Hcodes Hkeys line Hlen.
  eapply (dialog_runs ks frk shell b _ _ _ syserr_reply); [exact La | by apply syserr_Dialog | exact Hty
    | exact Hcodes | exact Hkeys | unfold line in Hlen; lia|].
  unfold syserr_reply. change (edit_lines [] keys) with line.
  by rewrite (proj2 (Z.leb_le _ _) Hlen).
Qed.
End Program.
