(* ===== verification/Sigtest.v ===== *)
(** * The program sigtest (syscalls/ece391sigtest.c)

    It installs handlers for signals if its argument asks for it, asks for a
    name, and stores through a null pointer.  This kernel has no signals:
    [set_handler] fails, the store faults, and the exception ends the
    program ([sigtest_faults]). *)

From Stdlib Require Import ZArith Lia String Ascii.
From stdpp Require Import base numbers list gmap.
From S2P Require Import Prelude Mem CString FileSys Console Printf Machine Paging Idt Pcb Exec.
From S2P Require Import Line Syscall Terminal Keyboard Trap User Program Reader.

Local Open Scope Z_scope.

(** ** Stores of a program *)

(** A byte stored at the virtual address [va] in user mode: where the page
    tables the processor uses lead, or a page fault, whose handler finds
    [va] in cr2. *)
Definition user_store (lay : layout) (ks : kstack) (va x : Z) : UP unit :=
  fun k =>
    match mmu k with
    | None => Err OutOfBounds
    | Some (pd, pt) =>
        match translate lay true pd pt va with
        | Some pa => Ok (inl tt, set_kmem (mset (kmem k) pa x) k)
        | None => (h ← _idt_handle_exception lay (ks_frame ks) va TRAP_PF; mret (inr (of_halt h))) k
        end
    end.

(** ** The program *)

Definition SEGFAULT : Z := 1.
Definition ALARM : Z := 3.

Record sigtest_image := SigtestImage {
  sg_buf : Z;               (** [buf] of [main] *)
  sg_badbuf : Z;            (** the variable [badbuf] *)
  sg_charbuf : Z;           (** the variable [charbuf] *)
  sg_charbuf_va : Z;        (** its virtual address *)
  sg_segfault : Z;          (** [segfault_sighandler] *)
  sg_alarm : Z;             (** [alarm_sighandler] *)
  sg_lit : list Z -> Z;
}.

Section Code.
Context (lay : layout) (ks : kstack) (im : sigtest_image).

Local Abbreviation puts s := (ece391_fdputs lay ks 1 (sg_lit im s)).

Definition sigtest_install : UP unit :=
  m ← gets kmem;
  if mget m (sg_buf im) =? chr "1" then
    let! _ := puts (bytes "Installing signal handlers" ++ [LF]) in
    let! _ := ece391_set_handler lay ks SEGFAULT (sg_segfault im) in
    let! _ := ece391_set_handler lay ks ALARM (sg_alarm im) in
    uret tt
  else uret tt.

(** [main] after its [read]. *)
Definition sigtest_rest (cnt : Z) : UP Z :=
  if cnt =? -1 then
    let! _ := puts (bytes "Can't read name from keyboard." ++ [LF]) in uret 3
  else
    m ← gets kmem;
    let! _ := user_store lay ks (load32 m (sg_badbuf im)) 1 in
    if (cnt <? 0) || (1024 <=? cnt) then fail OutOfBounds
    else
      modify (fun k => set_kmem (mset (kmem k) (sg_buf im + cnt) 0) k) ;;
      let! _ := puts (bytes "Hello, ") in
      let! _ := ece391_fdputs lay ks 1 (sg_buf im) in
      m ← gets kmem;
      let! _ := (if mget m (sg_charbuf im) =? 1 then puts (bytes "success" ++ [LF])
                 else puts (bytes "failure" ++ [LF])) in
      uret 0.

Definition sigtest_main : UP Z :=
  let! r := ece391_getargs lay ks (sg_buf im) 1024 in
  if negb (r =? 0) then
    let! _ := puts (bytes "could not read argument" ++ [LF]) in uret 3
  else
    let! _ := sigtest_install in
    let! cnt := (let! _ := puts (bytes "Hi, what's your name? ") in
                 ece391_read lay ks 0 (sg_buf im) (1024 - 1)) in
    sigtest_rest cnt.

Definition sigtest_after_read : UP Z :=
  let! cnt := read_resume lay 0 (sg_buf im) (1024 - 1) in sigtest_rest cnt.

(** The switch the two handlers share. *)
Definition put_signum (signum : Z) : UP unit :=
  if signum =? 0 then puts (bytes "0" ++ [LF])
  else if signum =? 1 then puts (bytes "1" ++ [LF])
  else if signum =? 2 then puts (bytes "2" ++ [LF])
  else if signum =? 3 then puts (bytes "3" ++ [LF])
  else puts (bytes "invalid" ++ [LF]).

(** [segfault_sighandler] up to its [read] into the local at [buf], and from
    there on; [arg] is the address of its parameter. *)
Definition segfault_sighandler (signum buf : Z) : UP Z :=
  let! _ := puts (bytes "Segfault signal handler called, signum: ") in
  let! _ := put_signum signum in
  let! _ := puts (bytes "Press enter to continue..." ++ [LF]) in
  ece391_read lay ks 0 buf 1.

Definition segfault_sighandler_rest (arg : Z) : UP unit :=
  modify (fun k => set_kmem (store32 (kmem k) (sg_badbuf im) (sg_charbuf_va im)) k) ;;
  modify (fun k => set_kmem (store32 (kmem k) (arg + 28) (sg_charbuf_va im)) k) ;;
  puts (bytes "Signal handler returning" ++ [LF]).

Definition alarm_sighandler (signum : Z) : UP unit :=
  let! _ := puts (bytes "Alarm signal handler called, signum: ") in
  put_signum signum.

(** ** What happens *)

(** [badbuf] is null: four zero bytes. *)
Definition sigtest_lits : list (Z * list Z) :=
  [(sg_badbuf im, []); (sg_badbuf im + 1, []); (sg_badbuf im + 2, []); (sg_badbuf im + 3, []);
   (sg_lit im (bytes "Installing signal handlers" ++ [LF]), bytes "Installing signal handlers" ++ [LF]);
   (sg_lit im (bytes "Hi, what's your name? "), bytes "Hi, what's your name? ")].

(** [set_handler] fails and changes nothing. *)
Lemma set_handler_refused signum handler k :
  ece391_set_handler lay ks signum handler k = Ok (inl (-1), set_if true k).
Proof.
  unfold ece391_set_handler.
  by rewrite (call_back lay ks SYS_SET_HANDLER signum handler 0 k (-1) (set_if true k)).
Qed.

(** What the program prints before it asks. *)
Definition install_text (args : list Z) : list Z :=
  if anth 0 args 0 =? chr "1" then bytes "Installing signal handlers" ++ [LF] else [].

Lemma installs t k v args :
  running lay sigtest_lits (sg_buf im) 1024 t k -> displays k v -> cstr (kmem k) (sg_buf im) args ->
  0 < zlen args ->
  exists k', sigtest_install k = Ok (inl tt, k') /\ displays k' (abs_puts (install_text args) v) /\
    steady k k' /\ running lay sigtest_lits (sg_buf im) 1024 t k'.
Proof.
  intros Hr Hd Ha Hl. unfold sigtest_install, install_text. erewrite bind_ok by reflexivity.
  pose proof (cstr_char _ _ _ 0 Ha ltac:(lia)) as E. rewrite Z.add_0_r in E. rewrite E.
  destruct (_ =? _); [|by exists k].
  destruct (running_says ks k _ _ v Hr ltac:(by do 4 right; left) Hd) as (k1 & Hp & Hd1 & Hs1 & Hr1 & _).
  exists (set_if true k1). split; [|split; [by apply displays_if|split]].
  - erewrite ubind_inl by exact Hp.
    do 2 (erewrite ubind_inl by apply set_handler_refused). reflexivity.
  - transitivity k1; [exact Hs1 | apply steady_if].
  - by eapply running_data; [exact Hr1 | |].
Qed.

Lemma badbuf_null t k :
  running lay sigtest_lits (sg_buf im) 1024 t k -> load32 (kmem k) (sg_badbuf im) = 0.
Proof.
  intros Hr. pose proof (proj1 (Forall_forall _ _) (ru_lits _ _ _ _ _ _ Hr)) as H.
  assert (Hz : forall l, (l, []) ∈ sigtest_lits -> mget (kmem k) l = 0)
    by (intros l Hin; destruct (H _ Hin) as (_ & _ & Hc); exact (cstr_nil _ _ Hc)).
  unfold load32. rewrite !Hz; [done | by do 3 right; left | by do 2 right; left | by right; left | by left].
Qed.

(** The question, after the arguments have been read. *)
Lemma sigtest_asks k v b args :
  running lay sigtest_lits (sg_buf im) 1024 fresh_fds k -> displays k v -> typing b [] (k_tty k) ->
  cstr (kmem k) (arg_buffer (curr_pcb k)) args -> 0 < zlen args < 100 ->
  exists k', sigtest_main k = Ok (inr Waiting, k') /\ steady k k' /\
    waits lay sigtest_lits (sg_buf im) 1024 fresh_fds b
      (abs_puts (install_text args ++ bytes "Hi, what's your name? ") v) k'.
Proof.
  intros Hr Hd Hty Ha Hl.
  destruct (running_getargs ks k v (sg_buf im) 1024 args Hr Hd Ha Hl) as (k1 & Hg & Hc & Hd1 & Hs1 & Hr1);
    [lia..|].
  destruct (installs fresh_fds k1 v args Hr1 Hd1 Hc ltac:(lia)) as (k2 & Hi & Hd2 & Hs2 & Hr2).
  destruct (running_says ks k2 _ _ _ Hr2 ltac:(by do 5 right; left) Hd2) as (k3 & Hp & Hd3 & Hs3 & Hr3 & _).
  assert (Hs : steady k k3) by (transitivity k1; [done|]; by transitivity k2).
  destruct (running_reads ks b k3 _ (sg_buf im) (1024 - 1) Hr3 (sd_typing _ _ Hs _ _ Hty) Hd3)
    as (k4 & Hrd & Hw & Hs4); [unfold int32; lia|].
  exists k4. split; [|split; [by transitivity k3 | by rewrite abs_puts_app]].
  unfold sigtest_main. erewrite ubind_inl by exact Hg. cbn [Z.eqb negb].
  erewrite ubind_inl by exact Hi. apply ubind_inr. by erewrite ubind_inl by exact Hp.
Qed.
End Code.

(** ** The fault *)

(** A null pointer leads nowhere in user mode. *)
Lemma null_unmapped lay pd pt t :
  layout_ok lay -> dir_ok lay pd t -> tab_ok pt -> translate lay true pd pt 0 = None.
Proof.
  intros Hl Hd Ht. destruct (translate lay true pd pt 0) as [pa|] eqn:E; [|done].
  apply (translate_user lay pd pt t) in E as [(p & _ & H & _)|[H _]]; try done; lia.
Qed.

(** A store through a null pointer in a program that has been calm: the
    parent is resumed with 256, and the screen shows the fault alone. *)
Lemma null_store {lay fr sp t command cmd k start NI NB dir content pos v} ks lits buf n ft k1 k2 w x :
  launch lay fr sp t command cmd k start NI NB dir content pos v ->
  started lay fr sp pos content (cmd_args cmd) k k1 -> calm k1 k2 ->
  running lay lits buf n ft k2 -> displays k2 w ->
  exists k3 text, user_store lay ks 0 x k2 = Ok (inr (Resuming (f_esp fr) (f_ebp fr) 256), k3) /\
    trap_text TRAP_PF 0 text /\ displays k3 (abs_puts text (blank_at (v_row w) (v_col w))) /\
    back lay pos k k3 /\ (forall kb line, typing kb line (k_tty k2) -> typing kb line (k_tty k3)).
Proof.
  intros La St Hc Hr [Hwf (Hch & Hy & Hx)].
  destruct (la_can _ _ _ _ _ _ _ _ _ _ _ _ _ _ La) as [_ _ Hlay _ Htab _ _ _ _ _ _ _ _ _ _ _ _ _ _].
  destruct (wp_inv _ _ _ (trap_message_spec 0 TRAP_PF (k_tty k2) Hwf))
    as ([] & s1 & Hrun & text & Htext & Wf1 & Hpr & Hsh & Hmem).
  assert (Hc3 : calm k2 (set_k_tty s1 k2)).
  { eapply calm_data; [exact Hr | done|]. intros b Hb _. apply Hmem. unfold off_screen, VIDEO. lia. }
  destruct (launch_halts La (ks_frame ks) k1 (set_k_tty s1 k2) 255
    (abs_puts text (blank_at (v_row w) (v_col w))) St) as (k3 & Hh & Hd3 & Hb3 & Hty3).
  { transitivity k2; [exact Hc | exact Hc3]. }
  { split; [exact Wf1|]. by rewrite <- Hy, <- Hx. }
  exists k3, text. split; [|split; [exact Htext|split; [exact Hd3|split; [exact Hb3|]]]].
  - unfold user_store. rewrite (sd_mmu _ _ Hc), (st_mmu _ _ _ _ _ _ _ _ St).
    rewrite (null_unmapped lay _ _ (Some pos) Hlay (st_dir _ _ _ _ _ _ _ _ St))
      by (rewrite (st_tab _ _ _ _ _ _ _ _ St); exact Htab).
    unfold mbind, st_bind. rewrite trap_split.
    unfold mbind, st_bind, on_tty. rewrite Hrun. by rewrite Hh.
  - intros kb line Hty. apply Hty3. eapply typing_prints; [|exact Hpr | exact Wf1].
    pose proof (typing_mem _ _ _ (clear_mem (t_mem (k_tty k2))) (t_if (k_tty k2)) Hty) as H.
    by destruct (k_tty k2).
Qed.

(** C27: The command [sigtest] of a shell, given an argument: [set_handler] returns
    -1, for any signal and handler, without an effect; when a name has been
    typed, the store through the null pointer raises a page fault; the program
    is ended, the screen shows the fault, and the shell's [execute] returns
    256. *)
Theorem sigtest_faults lay ks im fr sp t command cmd k start NI NB dir content pos v frk shell
  b codes b' keys :
  launch lay fr sp t command cmd k start NI NB dir content pos v -> 0 < zlen (cmd_args cmd) ->
  in_page pos (sg_buf im) 1024 -> Forall (literal_in pos content (sg_buf im) 1024) (sigtest_lits im) ->
  typing b [] (k_tty k) -> Forall (fun sc => 0 <= sc < 256) codes -> typed b codes = Some (b', keys) ->
  zlen (edit_lines [] keys) <= 126 ->
  let asked := abs_puts (install_text (cmd_args cmd) ++ bytes "Hi, what's your name? ") v in
  let w := abs_putc LF (edit_views [] asked keys) in
  (forall signum handler k0,
     ece391_set_handler lay ks signum handler k0 = Ok (inl (-1), set_if true k0)) /\
  exists k1 k2 k3 k4 text,
    execute lay fr command k = Ok (Entered (elf_entry content), k1) /\
    _start lay ks (sigtest_main lay ks im) k1 = Ok (inr Waiting, k2) /\
    displays k2 asked /\
    handle_all lay frk shell (codes ++ [ENTER]) k2 = Ok (Returns tt, k3) /\
    _start lay ks (sigtest_after_read lay ks im) k3 =
      Ok (inr (Resuming (f_esp fr) (f_ebp fr) 256), k4) /\
    trap_text TRAP_PF 0 text /\
    displays k4 (abs_puts text (blank_at (v_row w) (v_col w))) /\
    back lay pos k k4 /\ typing b' [] (k_tty k4).
Proof.
  intros La Harg Hpg Hlits Hty Hcodes Hkeys Hlen asked w. split; [apply set_handler_refused|].
  pose proof (proj2 (cl_lengths _ _ _ _ _ _ _ _ _ _ _ _ (la_can _ _ _ _ _ _ _ _ _ _ _ _ _ _ La))) as Hlarg.
  destruct (launch_enters La) as (k1 & Hex & St & En).
  destruct (entered_running _ _ _ _ _ _ _ _ _ _ _ _ _ _ En Hpg Hlits) as [Hr1 Hd1].
  pose proof (pr_args _ _ _ _ _ _ _ _ (en_ready _ _ _ _ _ _ _ _ _ _ _ En)) as Ha.
  destruct (sigtest_asks lay ks im k1 v b _ Hr1 Hd1 (enter_typing k1 b [] St Hty) Ha ltac:(lia))
    as (k2 & Hask & Hs2 & Hw).
  assert (Hl : zlen (edit_lines [] keys ++ [LF]) = zlen (edit_lines [] keys) + 1)
    by (rewrite length_app; cbn; lia).
  destruct (running_gets_line frk shell b _ k2 codes b' keys (sg_buf im) (1024 - 1) Hw Hcodes Hkeys)
    as (k3 & k4 & Hirq & Hres & _ & _ & Hty4 & Hd4 & Hr4 & Co & Hdo); [lia..|].
  pose proof (calm_data k2 k4 (wt_running _ _ _ _ _ _ _ _ Hw) Co Hdo) as Hc4.
  destruct (null_store ks _ _ _ _ k1 k4 _ 1 La St ltac:(transitivity k2; [exact Hs2 | exact Hc4]) Hr4 Hd4)
    as (k5 & text & Hst & Htext & Hd5 & Hb5 & Hty5).
  exists k1, k2, k3, k5, text. split; [exact Hex|]. split; [unfold _start; by apply ubind_inr|].
  split; [exact (wt_screen _ _ _ _ _ _ _ _ Hw)|]. split; [exact Hirq|].
  split; [|split; [exact Htext|split; [exact Hd5|split; [exact Hb5 | by apply Hty5]]]].
  unfold _start. apply ubind_inr. unfold sigtest_after_read. erewrite ubind_inl by exact Hres.
  unfold sigtest_rest. rewrite (proj2 (Z.eqb_neq _ (-1))) by lia. erewrite bind_ok by reflexivity.
  rewrite (badbuf_null lay im _ _ Hr4). by apply ubind_inr.
Qed.
