(* ===== verification/Pingpong.v ===== *)
(** * The program pingpong (syscalls/ece391pingpong.c)

    A letter bounces between two walls, one frame per tick of the clock, and
    changes at every return.  The program never ends: it is left at every
    [read] of the clock, in the state [pp_state] of its loops.  After [n]
    ticks it has drawn the frames 0 to [n] of a closed form
    ([pingpong_plays]). *)

From Stdlib Require Import ZArith Lia String Ascii.
From stdpp Require Import base numbers list gmap.
From S2P Require Import Prelude Mem CString FileSys Console Machine Pic Paging Rtc Pcb Exec Line.
From S2P Require Import Syscall Terminal Keyboard User Program Support Reader Clock.

Local Open Scope Z_scope.

(** ** The code *)

Definition BUFMAX : Z := 81.
Definition STARTLOOP : Z := 2.
Definition LOOPMAX : Z := 78.
Definition STARTCHAR : Z := chr "A".
Definition ENDCHAR : Z := chr "Z".

Record pingpong_image := PingpongImage {
  pg_data : Z;        (** the part of the stack that holds the locals *)
  pg_size : Z;
  pg_buf : Z;
  pg_ret_val : Z;
  pg_garbage : Z;
  lit_rtc : Z;        (** "rtc" *)
}.

(** Which of the two inner loops runs, [j] and [curchar]. *)
Record pp_state := PpState { pp_out : bool; pp_j : Z; pp_char : Z }.

Definition pp_start : pp_state := PpState true STARTLOOP STARTCHAR.

(** From the end of the body of an inner loop to its next start. *)
Definition pp_advance (st : pp_state) : pp_state :=
  if pp_out st then
    if pp_j st + 1 <? LOOPMAX then PpState true (pp_j st + 1) (pp_char st)
    else PpState false (LOOPMAX - 1) (pp_char st)
  else
    if STARTLOOP <=? pp_j st - 1 then PpState false (pp_j st - 1) (pp_char st)
    else PpState true STARTLOOP (if pp_char st =? ENDCHAR then STARTCHAR else u8 (pp_char st + 1)).

Section Code.
Context (lay : layout) (ks : kstack) (im : pingpong_image).

(** The body of the inner loops: clear, draw, and wait for a tick. *)
Definition pp_draw (st : pp_state) (m : mem) : mem :=
  mset (forz STARTLOOP LOOPMAX (fun i m => mset m (pg_buf im + i) SP) m)
    (pg_buf im + pp_j st) (pp_char st).

Definition pp_body (fd : Z) (st : pp_state) : UP Z :=
  modify (fun k => set_kmem (pp_draw st (kmem k)) k) ;;
  let! _ := ece391_fdputs lay ks 1 (pg_buf im) in
  ece391_read lay ks fd (pg_garbage im) 4.

(** The loops; they go on while the [read] returns at once. *)
Definition pp_step (fd : Z) (s : pp_state * kernel)
  : (pp_state * kernel) + res ((pp_state * sysret) * kernel) :=
  let '(st, k) := s in
  match pp_body fd st k with
  | Err e => inr (Err e)
  | Ok (inr r, k1) => inr (Ok ((st, r), k1))
  | Ok (inl _, k1) => inl (pp_advance st, k1)
  end.
Definition pp_loop (fd : Z) (st : pp_state) : ST kernel (pp_state * sysret) :=
  fun k => while (pp_step fd) (st, k).

(** The buffer with its walls. *)
Definition pp_walls (m : mem) : mem :=
  let m := forz 0 BUFMAX (fun i m => mset m (pg_buf im + i) SP) m in
  let m := mset m (pg_buf im + (BUFMAX - 1)) 0 in
  let m := mset m (pg_buf im + (BUFMAX - 2)) LF in
  let m := mset m (pg_buf im + (BUFMAX - 3)) (chr "|") in
  mset m (pg_buf im + 1) (chr "|").

(** [main] before its loops: the descriptor of the clock. *)
Definition pp_setup : UP Z :=
  modify (fun k => set_kmem (pp_walls (kmem k)) k) ;;
  let! rtc_fd := ece391_open lay ks (lit_rtc im) in
  modify (fun k => set_kmem (store32 (kmem k) (pg_ret_val im) 32) k) ;;
  let! r := ece391_write lay ks rtc_fd (pg_ret_val im) 4 in
  modify (fun k => set_kmem (store32 (kmem k) (pg_ret_val im) r) k) ;;
  uret rtc_fd.

Definition pingpong_main : ST kernel (pp_state * sysret) :=
  x ← pp_setup;
  match x with
  | inl rtc_fd => pp_loop rtc_fd pp_start
  | inr r => mret (pp_start, r)
  end.

(** When the [read] of the state [st] goes on. *)
Definition pingpong_after_read (fd : Z) (st : pp_state) : ST kernel (pp_state * sysret) :=
  x ← read_resume lay fd (pg_garbage im) 4;
  match x with
  | inl _ => pp_loop fd (pp_advance st)
  | inr r => mret (st, r)
  end.

(** Ticks of the clock while it waits; register C answers [regcs]. *)
Fixpoint pingpong_ticks (fd : Z) (regcs : list Z) (st : pp_state) : ST kernel (pp_state * sysret) :=
  match regcs with
  | [] => mret (st, Waiting)
  | regc :: regcs =>
      _idt_rtc_irq_handler regc ;;
      '(st', r) ← pingpong_after_read fd st;
      match r with Waiting => pingpong_ticks fd regcs st' | _ => mret (st', r) end
  end.
End Code.

(** ** The frames *)

(** The letter and its place after [n] ticks: 76 places out, the same back,
    and the next letter. *)
Definition pp_at (n : Z) : pp_state :=
  let r := n mod 152 in
  PpState (r <? 76) (if r <? 76 then 2 + r else 153 - r) (chr "A" + n / 152 mod 26).

Lemma pp_at_next n : 0 <= n -> pp_advance (pp_at n) = pp_at (n + 1).
Proof.
  intros Hn. unfold pp_advance, pp_at, LOOPMAX, STARTLOOP, STARTCHAR, ENDCHAR.
  cbn [pp_out pp_j pp_char]. change (chr "A") with 65. change (chr "Z") with 90.
  assert (Hm : (n + 1) mod 152 = if n mod 152 =? 151 then 0 else n mod 152 + 1)
    by (destruct (Z.eqb_spec (n mod 152) 151); lia_mod).
  assert (Hd : (n + 1) / 152 = if n mod 152 =? 151 then n / 152 + 1 else n / 152)
    by (destruct (Z.eqb_spec (n mod 152) 151); lia_mod).
  rewrite Hm, Hd. pose proof (Z.mod_pos_bound n 152 ltac:(lia)) as Hr.
  set (r := n mod 152) in *. set (q := n / 152) in *. clearbody r q. clear Hm Hd Hn n.
  pose proof (Z.mod_pos_bound q 26 ltac:(lia)) as Hq.
  destruct (Z.ltb_spec r 76), (Z.eqb_spec r 151); try lia.
  - destruct (Z.ltb_spec (2 + r + 1) 78).
    + rewrite (proj2 (Z.ltb_lt (r + 1) 76)) by lia. f_equal; lia.
    + rewrite (proj2 (Z.ltb_ge (r + 1) 76)) by lia. f_equal; lia.
  - rewrite (proj2 (Z.leb_gt 2 _)) by lia. cbn [Z.ltb Z.compare].
    destruct (Z.eqb_spec (65 + q mod 26) 90) as [E|E]; f_equal.
    + lia_mod.
    + rewrite u8_small by lia. lia_mod.
  - rewrite (proj2 (Z.leb_le 2 _)) by lia. rewrite (proj2 (Z.ltb_ge (r + 1) 76)) by lia. f_equal; lia.
Qed.

Lemma pp_at_0 : pp_at 0 = pp_start.
Proof. reflexivity. Qed.

Lemma pp_at_range n :
  0 <= n -> 2 <= pp_j (pp_at n) < 78 /\ 65 <= pp_char (pp_at n) <= 90.
Proof.
  intros Hn. unfold pp_at. cbn [pp_j pp_char]. change (chr "A") with 65.
  pose proof (Z.mod_pos_bound n 152 ltac:(lia)). pose proof (Z.mod_pos_bound (n / 152) 26 ltac:(lia)).
  destruct (Z.ltb_spec (n mod 152) 76); lia.
Qed.

(** A frame: 79 columns between the walls, and a newline. *)
Definition frame_char (st : pp_state) (i : Z) : Z :=
  if i =? pp_j st then pp_char st
  else if (i =? 1) || (i =? 78) then chr "|" else if i =? 79 then LF else SP.
Definition frame_text (st : pp_state) : list Z :=
  map (fun i => frame_char st (Z.of_nat i)) (seq 0 80).

(** The frames 0 to [n]. *)
Definition frames (n : nat) : list Z :=
  concat (map (fun i => frame_text (pp_at (Z.of_nat i))) (seq 0 (S n))).

Lemma frames_next n : frames (S n) = frames n ++ frame_text (pp_at (Z.of_nat (S n))).
Proof.
  unfold frames. rewrite (seq_S (S n)), map_app, concat_app. cbn [map concat Nat.add]. by rewrite app_nil_r.
Qed.

Lemma frame_length st : zlen (frame_text st) = 80.
Proof. unfold frame_text. by rewrite length_map, length_seq. Qed.

Lemma frame_anth st i : 0 <= i < 80 -> anth 0 (frame_text st) i = frame_char st i.
Proof.
  intros Hi. unfold anth, frame_text.
  rewrite (nth_indep _ _ (frame_char st (Z.of_nat 0))) by (rewrite length_map, length_seq; lia).
  rewrite (map_nth (fun i => frame_char st (Z.of_nat i))), seq_nth by lia. f_equal. lia.
Qed.

(** ** Drawing *)

(** The cells the inner loops never touch. *)
Record has_walls (m : mem) (buf : Z) : Prop := {
  hw_margin : mget m buf = SP;
  hw_left : mget m (buf + 1) = chr "|";
  hw_right : mget m (buf + 78) = chr "|";
  hw_newline : mget m (buf + 79) = LF;
  hw_end : mget m (buf + 80) = 0;
}.

Lemma fill_spaces m buf a b :
  a <= b ->
  forall c, mget (forz a b (fun i m => mset m (buf + i) SP) m) c =
    if decide (buf + a <= c < buf + b) then SP else mget m c.
Proof.
  intros Hab. set (I := fun i m' => forall c, mget m' c =
    if decide (buf + a <= c < buf + i) then SP else mget m c).
  apply (forz_inv I a b); [exact Hab | |]; unfold I; clear I.
  - intros c. by rewrite decide_False by lia.
  - intros i m' Hi H c. destruct (Z.eq_dec c (buf + i)) as [->|].
    + by rewrite mget_mset_eq, decide_True by lia.
    + rewrite mget_mset_ne, H by lia. case_decide; case_decide; done || lia.
Qed.

Lemma walls_same m m' buf :
  has_walls m buf -> (forall b, (b < buf + 2 \/ buf + 78 <= b) -> mget m' b = mget m b) -> has_walls m' buf.
Proof. intros [H1 H2 H3 H4 H5] Hm. constructor; rewrite Hm by lia; done. Qed.

Section Play.
Context (lay : layout) (ks : kstack) (im : pingpong_image).

Lemma walls_built m :
  has_walls (pp_walls im m) (pg_buf im) /\
  forall b, (b < pg_buf im \/ pg_buf im + 81 <= b) -> mget (pp_walls im m) b = mget m b.
Proof.
  unfold pp_walls, BUFMAX. set (m0 := forz 0 81 _ m).
  pose proof (fill_spaces m (pg_buf im) 0 81 ltac:(lia)) as H. fold m0 in H. split.
  - constructor; rewrite !mget_mset; repeat (case_decide; try lia); try reflexivity.
    by rewrite H, decide_True by lia.
  - intros b Hb. rewrite !mget_mset_ne by lia. by rewrite H, decide_False by lia.
Qed.

Lemma draw_spec st m :
  has_walls m (pg_buf im) -> 2 <= pp_j st < 78 -> 65 <= pp_char st <= 90 ->
  let m' := pp_draw im st m in
  cstr m' (pg_buf im) (frame_text st) /\ has_walls m' (pg_buf im) /\
  forall b, (b < pg_buf im + 2 \/ pg_buf im + 78 <= b) -> mget m' b = mget m b.
Proof.
  intros Hw Hj Hc m'.
  assert (Hm : forall b, mget m' b = if decide (b = pg_buf im + pp_j st) then pp_char st
    else if decide (pg_buf im + 2 <= b < pg_buf im + 78) then SP else mget m b).
  { intros b. unfold m', pp_draw, STARTLOOP, LOOPMAX. case_decide as E.
    - rewrite E, mget_mset_eq. apply u8_small. lia.
    - rewrite mget_mset_ne by lia. apply fill_spaces. lia. }
  assert (Hout : forall b, (b < pg_buf im + 2 \/ pg_buf im + 78 <= b) -> mget m' b = mget m b)
    by (intros b Hb; rewrite Hm, !decide_False by lia; done).
  split; [|split; [by eapply walls_same | exact Hout]].
  destruct Hw as [W0 W1 W78 W79 W80]. split; rewrite frame_length.
  2:{ by rewrite Hout by lia. }
  intros i Hi. rewrite frame_anth by lia.
  assert (E : mget m' (pg_buf im + i) = frame_char st i).
  { unfold frame_char. destruct (Z.eqb_spec i (pp_j st)) as [->|Hne]; [by rewrite Hm, decide_True|].
    rewrite Hm, decide_False by lia. destruct (decide (2 <= i < 78)).
    - rewrite decide_True by lia. by rewrite !(proj2 (Z.eqb_neq i _)) by lia.
    - rewrite decide_False by lia.
      assert (i = 0 \/ i = 1 \/ i = 78 \/ i = 79) as [->|[->|[->| ->]]] by lia; try done.
      by rewrite Z.add_0_r. }
  split; [exact E|]. unfold frame_char. destruct (Z.eqb_spec i (pp_j st)); [lia|].
  destruct ((i =? 1) || (i =? 78)); [done|]. by destruct (i =? 79).
Qed.

(** ** One frame *)

Definition pp_lits : list (Z * list Z) := [(lit_rtc im, bytes "rtc")].

(** The program draws, with the clock as its descriptor 2. *)
Record playing (v : view) (k : kernel) : Prop := {
  py_run : running lay pp_lits (pg_data im) (pg_size im) rtc_fds k;
  py_screen : displays k v;
  py_walls : has_walls (kmem k) (pg_buf im);
}.

(** The locals, in their part of the stack. *)
Record pp_places : Prop := {
  pl_low : pg_data im <= pg_buf im;
  pl_high : pg_buf im + 81 <= pg_data im + pg_size im;
  pl_ret : pg_buf im + 81 <= pg_ret_val im \/ pg_ret_val im + 4 <= pg_buf im;
  pl_ret_in : pg_data im <= pg_ret_val im /\ pg_ret_val im + 4 <= pg_data im + pg_size im;
}.
Context (Hpl : pp_places).

Lemma playing_quiet v k k' : quiet k k' -> playing v k -> playing v k'.
Proof.
  intros Q [Hr Hd Hw]. constructor; [by eapply quiet_running | by eapply quiet_displays|].
  by rewrite (qu_mem _ _ Q).
Qed.

Lemma clock_read v k :
  playing v k -> exists k', ece391_read lay ks 2 (pg_garbage im) 4 k = Ok (inr Waiting, k') /\
    playing v k' /\ steady k k'.
Proof.
  intros Hp. destruct (clock_waits (t := rtc_fds) (fd := 2) (q := 0) eq_refl ltac:(lia) ks k (pg_garbage im) (py_run _ _ Hp))
    as (k' & E & Q). exists k'. split_and!; [exact E | by eapply playing_quiet | apply Q].
Qed.

Lemma body_spec st v k :
  playing v k -> 2 <= pp_j st < 78 -> 65 <= pp_char st <= 90 ->
  exists k', pp_body lay ks im 2 st k = Ok (inr Waiting, k') /\
    playing (abs_puts (frame_text st) v) k' /\ steady k k'.
Proof.
  intros [Hr Hd Hw] Hj Hc. destruct Hpl as [P1 P2 P3 P4].
  destruct (draw_spec st (kmem k) Hw Hj Hc) as (Hs & Hw' & Hm).
  destruct (running_write k (pp_draw im st (kmem k)) v Hr Hd) as (Hr1 & Hd1 & Hs1 & _);
    [intros b Hb; apply Hm; lia|].
  set (k1 := set_kmem _ k) in *. pose proof (ru_data _ _ _ _ _ _ Hr1) as [B1 B2].
  pose proof (ru_slot _ _ _ _ _ _ Hr1) as Hsl.
  destruct (running_puts ks k1 (pg_buf im) (frame_text st) v Hr1 Hd1 Hs)
    as (k2 & Hp2 & Hd2 & Hs2 & Hr2 & Hm2); [rewrite frame_length; split; lia|].
  destruct (clock_read (abs_puts (frame_text st) v) k2) as (k3 & Hrd & Hp3 & Hs3).
  { constructor; [exact Hr2 | exact Hd2|]. unfold page_at in B1.
    destruct Hw' as [W0 W1 W2 W3 W4]. constructor; rewrite Hm2 by lia; done. }
  exists k3. split; [|split; [exact Hp3 | transitivity k1; [exact Hs1 | by transitivity k2]]].
  unfold pp_body. erewrite bind_ok by reflexivity. by erewrite ubind_inl by exact Hp2.
Qed.

Lemma loop_spec n v k :
  playing v k -> 0 <= n ->
  exists k', pp_loop lay ks im 2 (pp_at n) k = Ok ((pp_at n, Waiting), k') /\
    playing (abs_puts (frame_text (pp_at n)) v) k' /\ steady k k'.
Proof.
  intros Hp Hn. destruct (pp_at_range n Hn) as [Hj Hc].
  destruct (body_spec (pp_at n) v k Hp Hj Hc) as (k' & Hb & H). exists k'. split; [|exact H].
  unfold pp_loop. apply while_done. unfold pp_step. by rewrite Hb.
Qed.

(** ** Ticks *)

Lemma tick_spec n regc v k :
  playing v k -> 0 <= n -> 0 <= regc < 256 ->
  exists k1 k2, _idt_rtc_irq_handler regc k = Ok (tt, k1) /\
    pingpong_after_read lay ks im 2 (pp_at n) k1 = Ok ((pp_at (n + 1), Waiting), k2) /\
    playing (abs_puts (frame_text (pp_at (n + 1))) v) k2 /\ steady k k2.
Proof.
  intros Hp Hn Hc.
  destruct (clock_ticks (t := rtc_fds) (fd := 2) (q := 0) eq_refl ltac:(lia) k (pg_garbage im) regc (py_run _ _ Hp) Hc)
    as (k1 & k1' & Hh & Hres & Q).
  destruct (loop_spec (n + 1) v k1') as (k2 & Hl & Hp2 & Hs2); [by eapply playing_quiet|lia|].
  exists k1, k2. split_and!; [exact Hh| |exact Hp2 | etransitivity; [apply Q | exact Hs2]].
  unfold pingpong_after_read. rewrite (bind_ok _ _ _ _ _ Hres). rewrite pp_at_next by done. exact Hl.
Qed.

Lemma ticks_spec regcs n v k :
  playing (abs_puts (frames n) v) k -> Forall (fun c => 0 <= c < 256) regcs ->
  exists k', pingpong_ticks lay ks im 2 regcs (pp_at (Z.of_nat n)) k =
      Ok ((pp_at (Z.of_nat (n + List.length regcs)), Waiting), k') /\
    playing (abs_puts (frames (n + List.length regcs)) v) k' /\ steady k k'.
Proof.
  intros Hp Hall. revert n k Hp. induction Hall as [|regc regcs Hc _ IH]; intros n k Hp.
  { exists k. cbn [pingpong_ticks List.length]. rewrite Nat.add_0_r. by split_and!. }
  destruct (tick_spec (Z.of_nat n) regc _ k Hp ltac:(lia) Hc) as (k1 & k2 & Hh & Hr & Hp2 & Hs2).
  replace (Z.of_nat n + 1) with (Z.of_nat (S n)) in * by lia.
  rewrite <- abs_puts_app, <- frames_next in Hp2.
  destruct (IH (S n) k2 Hp2) as (k3 & Hrun & Hp3 & Hs3). cbn [List.length] in *.
  replace (n + S (List.length regcs))%nat with (S n + List.length regcs)%nat by lia.
  exists k3. split; [|split; [exact Hp3 | by transitivity k2]].
  cbn [pingpong_ticks]. rewrite (bind_ok _ _ _ _ _ Hh), (bind_ok _ _ _ _ _ Hr). exact Hrun.
Qed.

(** ** The start *)

(** A store to [ret_val]. *)
Lemma ret_val_store v k x :
  playing v k -> let k' := set_kmem (store32 (kmem k) (pg_ret_val im) x) k in
  playing v k' /\ steady k k'.
Proof.
  intros [Hr Hd Hw] k'. destruct Hpl as [P1 P2 P3 P4].
  destruct (running_write k (store32 (kmem k) (pg_ret_val im) x) v Hr Hd) as (Hr' & Hd' & Hs & _).
  { intros b Hb. apply mget_store32_ne. lia. }
  split; [|exact Hs]. constructor; [exact Hr' | exact Hd'|].
  change (kmem k') with (store32 (kmem k) (pg_ret_val im) x). destruct Hw as [W0 W1 W2 W3 W4].
  constructor; rewrite mget_store32_ne by lia; done.
Qed.

Context (start NI NB : Z) (dir : list entry) (j : Z) (e : entry).
Context (Hj : abs_lookup dir (bytes "rtc") = Some j) (He : dir !! Z.to_nat j = Some e) (Hty : e_type e = 0).

Lemma setup_spec v k :
  running lay pp_lits (pg_data im) (pg_size im) fresh_fds k -> displays k v ->
  world lay (k_fs k) (kmem k) start NI NB dir -> dentry_fits ks (curr_task_pos k) ->
  0 <= ks_prev ks < 256 ->
  exists k', pp_setup lay ks im k = Ok (inl 2, k') /\ playing v k' /\ steady k k' /\
    k_trace k' = k_trace k ++ rate_io (ks_prev ks) 11.
Proof.
  intros Hr Hd Hw Hde Hprev. destruct Hpl as [P1 P2 P3 P4].
  destruct (walls_built (kmem k)) as [Hwl Hm].
  destruct (running_write k (pp_walls im (kmem k)) v Hr Hd) as (Hr1 & Hd1 & Hs1 & _);
    [intros b Hb; apply Hm; lia|].
  set (k1 := set_kmem _ k) in *. pose proof (ru_slot _ _ _ _ _ _ Hr) as Hsl.
  pose proof (proj1 (Forall_forall _ _) (ru_lits _ _ _ _ _ _ Hr1) (lit_rtc im, bytes "rtc") ltac:(by left))
    as (L1 & _ & L2). pose proof (in_page_high _ _ _ L1 ltac:(exact (proj1 Hsl))) as Hhigh.
  destruct (running_open ks k1 v start NI NB dir (lit_rtc im) (bytes "rtc") j e FRtc Hr1 Hd1
    (calm_world _ _ _ _ _ _ _ Hs1 Hsl Hw) Hde L2 Hhigh) as (k2 & Hop & Hr2 & Hd2 & Hs2 & Etr & Hm2);
    [vm_compute; done | discriminate | discriminate | exact Hj | exact He | by rewrite Hty |].
  assert (Hp2 : playing v k2).
  { constructor; [exact Hr2 | exact Hd2|]. pose proof (ru_data _ _ _ _ _ _ Hr) as [B1 B2].
    unfold page_at in B1. destruct Hwl as [W0 W1 W2 W3 W4]. constructor; rewrite Hm2 by lia; done. }
  destruct (ret_val_store v k2 32 Hp2) as [Hp3 Hs3]. set (k3 := set_kmem _ k2) in *.
  destruct (clock_set (t := rtc_fds) (fd := 2) (q := 0) eq_refl ltac:(lia) ks k3 (pg_ret_val im) (py_run _ _ Hp3))
    as (k4 & Hwr & Q4 & Tr4);
    [change (kmem k3) with (store32 (kmem k2) (pg_ret_val im) 32); by rewrite load32_store32_eq | exact Hprev|].
  pose proof (playing_quiet v _ _ Q4 Hp3) as Hp4. pose proof (qu_steady _ _ Q4) as Hs4.
  destruct (ret_val_store v k4 4 Hp4) as [Hp5 Hs5].
  eexists. split; [|split; [exact Hp5 | split]].
  - unfold pp_setup. erewrite bind_ok by reflexivity. erewrite ubind_inl by exact Hop.
    cbv beta. erewrite bind_ok by reflexivity. erewrite ubind_inl by exact Hwr. reflexivity.
  - transitivity k1; [exact Hs1|]. transitivity k2; [exact Hs2|]. transitivity k3; [exact Hs3|].
    transitivity k4; [exact Hs4 | exact Hs5].
  - transitivity (k_trace k4); [done|]. rewrite Tr4. f_equal. exact Etr.
Qed.

(** C8: The command [pingpong] of a shell: the clock is set to 32 ticks a second
    and the first frame is drawn; after any number of ticks the frames up to
    that number have been drawn, one below the other, the last of them is
    the one of the closed form [pp_at], and the program waits for the next
    tick. *)
Theorem pingpong_plays fr sp t command cmd k content pos v regcs :
  launch lay fr sp t command cmd k start NI NB dir content pos v ->
  in_page pos (pg_data im) (pg_size im) ->
  literal_in pos content (pg_data im) (pg_size im) (lit_rtc im, bytes "rtc") ->
  dentry_fits ks pos -> 0 <= ks_prev ks < 256 -> Forall (fun c => 0 <= c < 256) regcs ->
  exists k1 k2 k3 k4,
    execute lay fr command k = Ok (Entered (elf_entry content), k1) /\
    pp_setup lay ks im k1 = Ok (inl 2, k2) /\
    k_trace k2 = k_trace k1 ++ rate_io (ks_prev ks) 11 /\ rate_hz 11 = 32 /\
    pingpong_main lay ks im k1 = Ok ((pp_at 0, Waiting), k3) /\
    displays k3 (abs_puts (frames 0) v) /\
    pingpong_ticks lay ks im 2 regcs (pp_at 0) k3 = Ok ((pp_at (zlen regcs), Waiting), k4) /\
    displays k4 (abs_puts (frames (List.length regcs)) v) /\ steady k1 k4.
Proof.
  intros La Hpg Hlit Hde Hprev Hregs. destruct (launch_enters La) as (k1 & Hex & St & En).
  destruct (entered_running _ _ _ _ _ _ _ _ _ _ _ pp_lits _ _ En Hpg
    (Forall_cons_2 _ _ _ Hlit (Forall_nil_2 _))) as [Hr Hd].
  pose proof (en_slot _ _ _ _ _ _ _ _ _ _ _ En) as Ep.
  destruct (setup_spec v k1 Hr Hd (pr_world _ _ _ _ _ _ _ _ (en_ready _ _ _ _ _ _ _ _ _ _ _ En))
    ltac:(by rewrite Ep) Hprev) as (k2 & Hset & Hp2 & Hs2 & Tr2).
  destruct (loop_spec 0 v k2 Hp2 ltac:(lia)) as (k3 & Hloop & Hp3 & Hs3).
  assert (E0 : frame_text (pp_at 0) = frames 0) by (unfold frames; cbn [seq map concat]; by rewrite app_nil_r).
  rewrite E0 in Hp3.
  destruct (ticks_spec regcs 0 v k3 Hp3 Hregs) as (k4 & Hrun & Hp4 & Hs4).
  exists k1, k2, k3, k4. split; [exact Hex|]. split; [exact Hset|]. split; [exact Tr2|].
  split; [reflexivity|]. split.
  { unfold pingpong_main. rewrite (bind_ok _ _ _ _ _ Hset). exact Hloop. }
  split; [exact (py_screen _ _ Hp3)|]. split; [exact Hrun|]. split; [exact (py_screen _ _ Hp4)|].
  transitivity k2; [exact Hs2|]. by transitivity k3.
Qed.
End Play.
