(* ===== verification/Grep.v ===== *)
(** * grep (syscalls/ece391grep.c)

    The program searches every file of the directory for its argument.  The
    search of one file reads it through a buffer of 1024 bytes: the lines
    that end in the buffer are searched and printed, the beginning of the
    last line is moved to the front and the rest of it read behind it.  The
    theorem at the end says that for a text whose lines fit the buffer these
    are the lines of the text. *)

From Stdlib Require Import ZArith Lia String Ascii.
From stdpp Require Import base numbers list gmap.
From S2P Require Import Prelude Mem CString FileSys Console Machine Paging Pcb Exec Line Syscall.
From S2P Require Import Terminal Keyboard User Program Support Reader.

Local Open Scope Z_scope.

(** ** The code *)

Definition GREP_BUFSIZE : Z := 1024.
Definition GREP_SBUFSIZE : Z := 33.

Record grep_image := GrepImage {
  gr_data : Z;          (** [data] of [do_one_file], 1025 bytes *)
  gr_buf : Z;           (** [buf] of [main] *)
  gr_search : Z;        (** [search] of [main] *)
  gr_lit : list Z -> Z; (** the literals *)
}.

Section Code.
Context (lay : layout) (ks : kstack) (im : grep_image).

Local Abbreviation data := (gr_data im).

Definition gputs (s : list Z) : UP unit := ece391_fdputs lay ks 1 (gr_lit im s).
Definition set_data (i c : Z) : UP unit :=
  modify (fun k => set_kmem (mset (kmem k) (data + i) c) k) ;; uret tt.

(** The end of the line that starts at [line_end]. *)
Definition end_step (m : mem) (last line_end : Z) : Z + res Z :=
  if (line_end <? last) && negb (mget m (data + line_end) =? LF) then inl (line_end + 1)
  else inr (Ok line_end).
Definition end_of_line (m : mem) (last line_start : Z) : res Z := while (end_step m last) line_start.

(** Whether [s] is at the place [check]; [s] is a pointer to [char], which is
    signed, and [data] an array of unsigned bytes. *)
Definition found_here (m : mem) (s s_len check : Z) : res bool :=
  if s8 (mget m s) =? mget m (data + check) then
    let* c := ece391_strncmp m (data + check) s s_len in Ok (c =? 0)
  else Ok false.

Definition print_line (fname line_start : Z) : UP unit :=
  let! _ := ece391_fdputs lay ks 1 fname in
  let! _ := gputs (bytes ":") in
  let! _ := ece391_fdputs lay ks 1 (data + line_start) in
  gputs [LF].

(** The loop over the places of a line. *)
Definition check_step (s fname s_len line_start line_end : Z) (st : Z * kernel)
  : (Z * kernel) + res ((unit + sysret) * kernel) :=
  let '(check, k) := st in
  if check <? line_end then
    match found_here (kmem k) s s_len check with
    | Err e => inr (Err e)
    | Ok true => inr (print_line fname line_start k)
    | Ok false => inl (check + 1, k)
    end
  else inr (Ok (inl tt, k)).
Definition search_line (s fname s_len line_start line_end : Z) : UP unit := fun k =>
  while (check_step s fname s_len line_start line_end) (line_start, k).

(** One turn of the loop over the lines: the next [line_start], or [last]
    when the loop is left. *)
Definition line_turn (s fname s_len cnt last line_start : Z) : UP (Z + Z) :=
  m ← gets kmem;
  line_end ← liftR (end_of_line m last line_start);
  if negb (mget m (data + line_end) =? LF) && negb (cnt =? 0) && negb (line_start =? 0) then
    let! _ := set_data line_end 0 in
    m ← gets kmem;
    m' ← liftR (ece391_strcpy m data (data + line_start));
    modify (set_kmem m') ;;
    uret (inr (last - line_start))
  else
    let! _ := set_data line_end 0 in
    let! _ := search_line s fname s_len line_start line_end in
    if last <=? line_end + 1 then uret (inr 0) else uret (inl (line_end + 1)).

Definition line_step (s fname s_len cnt last : Z) (st : Z * kernel)
  : (Z * kernel) + res ((Z + sysret) * kernel) :=
  let '(line_start, k) := st in
  match line_turn s fname s_len cnt last line_start k with
  | Err e => inr (Err e)
  | Ok (inr r, k1) => inr (Ok (inr r, k1))
  | Ok (inl (inl line_start), k1) => inl (line_start, k1)
  | Ok (inl (inr last), k1) => inr (Ok (inl last, k1))
  end.
Definition line_loop (s fname s_len cnt last : Z) : UP Z := fun k =>
  while (line_step s fname s_len cnt last) (0, k).

(** A turn of the loop over the file after its [read]: the value to return,
    or the next [last], or nothing when the file has ended. *)
Definition chunk_rest (s fname s_len last cnt : Z) : UP (Z + option Z) :=
  if cnt =? -1 then
    let! _ := gputs (bytes "file read failed" ++ [LF]) in uret (inl (-1))
  else
    let! last := line_loop s fname s_len cnt (last + cnt) in
    if cnt =? 0 then uret (inr None) else uret (inr (Some last)).

Definition close_file (fd : Z) : UP Z :=
  let! r := ece391_close lay ks fd in
  if r =? -1 then let! _ := gputs (bytes "file close failed" ++ [LF]) in uret (-1) else uret 0.

Definition file_step (s fname s_len fd : Z) (st : Z * kernel)
  : (Z * kernel) + res ((Z + sysret) * kernel) :=
  let '(last, k) := st in
  match (let! cnt := ece391_read lay ks fd (data + last) (GREP_BUFSIZE - last) in
         chunk_rest s fname s_len last cnt) k with
  | Err e => inr (Err e)
  | Ok (inr r, k1) => inr (Ok (inr r, k1))
  | Ok (inl (inl v), k1) => inr (Ok (inl v, k1))
  | Ok (inl (inr None), k1) => inr (close_file fd k1)
  | Ok (inl (inr (Some last)), k1) => inl (last, k1)
  end.
Definition file_loop (s fname s_len fd last : Z) : UP Z := fun k =>
  while (file_step s fname s_len fd) (last, k).

Definition do_one_file (s fname : Z) : UP Z :=
  m ← gets kmem;
  s_len ← liftR (ece391_strlen m s);
  let! fd := ece391_open lay ks fname in
  if fd =? -1 then
    let! _ := gputs (bytes "file open failed" ++ [LF]) in uret (-1)
  else file_loop s fname s_len fd 0.

(** The [read] of the clock waits; the file ends when it goes on. *)
Definition file_after_read (s fname s_len fd last : Z) : UP Z :=
  let! cnt := read_resume lay fd (data + last) (GREP_BUFSIZE - last) in
  let! r := chunk_rest s fname s_len last cnt in
  match r with
  | inl v => uret v
  | inr None => close_file fd
  | inr (Some last) => file_loop s fname s_len fd last
  end.

(** The loop over the directory; [main] returns what ends it. *)
Definition dir_step (fd : Z) (k : kernel) : kernel + res ((Z + sysret) * kernel) :=
  match ece391_read lay ks fd (gr_buf im) (GREP_SBUFSIZE - 1) k with
  | Err e => inr (Err e)
  | Ok (inr r, k1) => inr (Ok (inr r, k1))
  | Ok (inl cnt, k1) =>
      if cnt =? 0 then inr (Ok (inl 0, k1))
      else if cnt =? -1 then
        inr ((let! _ := gputs (bytes "directory entry read failed" ++ [LF]) in uret 3) k1)
      else if mget (kmem k1) (gr_buf im) =? chr "." then inl k1
      else
        match do_one_file (gr_search im) (gr_buf im) (set_kmem (mset (kmem k1) (gr_buf im + cnt) 0) k1) with
        | Err e => inr (Err e)
        | Ok (inr r, k2) => inr (Ok (inr r, k2))
        | Ok (inl v, k2) => if v =? 0 then inl k2 else inr (Ok (inl 3, k2))
        end
  end.
Definition dir_loop (fd : Z) : UP Z := fun k => while (dir_step fd) k.

Definition grep_main : UP Z :=
  let! r := ece391_getargs lay ks (gr_search im) GREP_BUFSIZE in
  if negb (r =? 0) then
    let! _ := gputs (bytes "could not read argument" ++ [LF]) in uret 3
  else
    let! fd := ece391_open lay ks (gr_lit im (bytes ".")) in
    if fd =? -1 then
      let! _ := gputs (bytes "directory open failed" ++ [LF]) in uret 2
    else dir_loop fd.

(** [main] when the [read] of the clock in a file goes on. *)
Definition grep_after_read (dir_fd s_len fd last : Z) : UP Z :=
  let! v := file_after_read (gr_search im) (gr_buf im) s_len fd last in
  if v =? 0 then dir_loop dir_fd else uret 3.
End Code.

(** ** The lines of a text *)

Fixpoint lines_of (t : list Z) : list (list Z) :=
  match t with
  | [] => [[]]
  | c :: t =>
      if c =? LF then [] :: lines_of t
      else match lines_of t with l :: ls => (c :: l) :: ls | [] => [[c]] end
  end.

Abbreviation no_newline := (Forall (fun c => c <> LF)).

Lemma lines_one l : no_newline l -> lines_of l = [l].
Proof.
  induction 1 as [|c l Hc _ IH]; [done|]. cbn. by rewrite (proj2 (Z.eqb_neq _ _) Hc), IH.
Qed.

Lemma lines_cons l t : no_newline l -> lines_of (l ++ LF :: t) = l :: lines_of t.
Proof.
  induction 1 as [|c l Hc _ IH]; [done|]. cbn [app lines_of]. by rewrite (proj2 (Z.eqb_neq _ _) Hc), IH.
Qed.

(** A line that may go on. *)
Lemma lines_long l t : no_newline l -> exists l' ls, lines_of (l ++ t) = (l ++ l') :: ls.
Proof.
  induction 1 as [|c l Hc _ (l' & ls & IH)].
  - cbn. destruct t as [|c t]; [by eexists _, _|]. cbn.
    destruct (c =? LF); [by eexists _, _|]. destruct (lines_of t); by eexists _, _.
  - exists l', ls. cbn [app lines_of]. by rewrite (proj2 (Z.eqb_neq _ _) Hc), IH.
Qed.

(** The first line of a text, and what follows it. *)
Lemma first_of (t : list Z) :
  no_newline t \/ exists l t', t = l ++ LF :: t' /\ no_newline l.
Proof.
  induction t as [|c t [IH|(l & t' & -> & IH)]]; [by left| |].
  - destruct (decide (c = LF)) as [->|Hc]; [right; by exists [], t|left; by constructor].
  - right. destruct (decide (c = LF)) as [->|Hc]; [by exists [], (l ++ LF :: t')|].
    exists (c :: l), t'. split; [done|by constructor].
Qed.

(** Whether [s] is somewhere in a line. *)
Definition holds_at (s line : list Z) (j : nat) : bool := bool_decide (take (List.length s) (drop j line) = s).
Definition holds (s line : list Z) : bool := existsb (holds_at s line) (seq 0 (List.length line)).

(** What is printed of a text. *)
Definition hit (s name line : list Z) : list Z :=
  if holds s line then name ++ bytes ":" ++ line ++ [LF] else [].
Definition hits (s name t : list Z) : list Z := concat (map (hit s name) (lines_of t)).

Lemma hits_one s name l : no_newline l -> hits s name l = hit s name l.
Proof. intros H. unfold hits. rewrite lines_one by done. cbn. by rewrite app_nil_r. Qed.

Lemma hits_cons s name l t : no_newline l -> hits s name (l ++ LF :: t) = hit s name l ++ hits s name t.
Proof. intros H. unfold hits. by rewrite lines_cons. Qed.

Lemma hits_nil s name : hits s name [] = [].
Proof. done. Qed.

(** Lines that fit the buffer with their newline. *)
Definition short (t : list Z) : Prop := Forall (fun l => zlen l < GREP_BUFSIZE) (lines_of t).

Lemma short_cons l t : no_newline l -> short (l ++ LF :: t) -> short t.
Proof. intros H Hs. unfold short in *. rewrite lines_cons in Hs by done. by inversion Hs. Qed.

Lemma short_first l t : no_newline l -> short (l ++ t) -> zlen l < GREP_BUFSIZE.
Proof.
  intros H Hs. destruct (lines_long l t H) as (l' & ls & E). unfold short in Hs. rewrite E in Hs.
  inversion_clear Hs as [|? ? Hl _]. rewrite length_app in Hl. lia.
Qed.

(** ** Strings in the buffer *)

Lemma text_cstr m a l :
  mbytes m a (List.length l) = l -> Forall (fun c => c <> 0) l -> mget m (a + zlen l) = 0 -> cstr m a l.
Proof.
  intros Hb Hnz H0. split; [|done]. intros i Hi. rewrite <- Hb at 1. rewrite anth_mbytes by lia.
  split; [done|]. rewrite Forall_nth in Hnz. apply Hnz. lia.
Qed.


Definition grep_strings : list (list Z) :=
  [bytes ":"; [LF]; bytes "file open failed" ++ [LF]; bytes "file read failed" ++ [LF];
   bytes "file close failed" ++ [LF]; bytes "could not read argument" ++ [LF]; bytes ".";
   bytes "directory open failed" ++ [LF]; bytes "directory entry read failed" ++ [LF]].

Section Search.
Context (lay : layout) (ks : kstack) (im : grep_image) (reg size : Z).
Local Abbreviation data := (gr_data im).

Definition grep_lits : list (Z * list Z) := map (fun s => (gr_lit im s, s)) grep_strings.

(** The argument of the program at [s], the name of the file at [fname]. *)
Context (pos s fname : Z) (pat name : list Z).
Record grep_places : Prop := {
  gp_slot : 0 <= pos < 6;
  gp_page : in_page pos reg size;
  gp_data : reg <= data /\ data + 1025 <= reg + size;
  gp_s : in_page pos s (zlen pat + 1) /\ apart s (zlen pat + 1) data 1025;
  gp_f : in_page pos fname (zlen name + 1) /\ apart fname (zlen name + 1) data 1025;
  gp_pat : 0 < zlen pat /\ Forall (fun c => 0 < c < 128) pat;
}.
Context (Hpl : grep_places).

(** *** A line *)

Lemma found_spec m ls line j :
  cstr m s pat -> cstr m (data + ls) line -> (j < List.length line)%nat ->
  found_here im m s (zlen pat) (ls + Z.of_nat j) = Ok (holds_at pat line j).
Proof.
  intros Hs Hl Hj. destruct Hpl as [_ _ _ [[P1 P2] _] _ [Hp Hc]]. unfold found_here, holds_at.
  destruct pat as [|p0 pat']; [cbn in Hp; lia|]. destruct (cstr_cons _ _ _ _ Hs) as (E0 & _ & _).
  inversion_clear Hc as [|? ? Hp0 _]. rewrite E0, s8_small by lia.
  pose proof (cstr_drop _ _ _ j Hl ltac:(lia)) as Hd. rewrite Z.add_assoc.
  destruct (drop j line) as [|c rest] eqn:Ed.
  { apply (f_equal (@List.length Z)) in Ed. rewrite length_drop in Ed. cbn in Ed. lia. }
  destruct (cstr_cons _ _ _ _ Hd) as (Ec & _ & _). rewrite Ec.
  destruct (Z.eqb_spec p0 c) as [->|Hne].
  - destruct (ece391_strncmp_spec m _ _ _ _ (zlen (c :: pat')) Hd Hs) as (r & -> & Hr); [lia|].
    transitivity (Ok (r =? 0)); [done|]. f_equal. rewrite Nat2Z.id, (take_ge (c :: pat')) in Hr by lia.
    apply eq_true_iff_eq. rewrite Z.eqb_eq, bool_decide_eq_true. exact Hr.
  - rewrite bool_decide_false; [done|]. cbn [List.length take]. intros [= E _]. by apply Hne.
Qed.

(** What the program keeps while it searches. *)
Record seeking (t : fdtab) (v : view) (k : kernel) : Prop := {
  se_run : running lay grep_lits reg size t k;
  se_pos : curr_task_pos k = pos;
  se_pat : cstr (kmem k) s pat;
  se_name : cstr (kmem k) fname name;
  se_screen : displays k v;
}.

(** Nothing above the console has changed. *)
Definition hushed (k k' : kernel) : Prop :=
  steady k k' /\ forall b, 4194304 <= b -> mget (kmem k') b = mget (kmem k) b.

#[local] Instance hushed_trans : Transitive hushed.
Proof. intros k1 k2 k3 [H1 M1] [H2 M2]. split; [by transitivity k2|]. intros b Hb. by rewrite M2, M1. Qed.

Lemma page_high p n : in_page pos p n -> 8388608 <= p.
Proof. intros [H _]. pose proof (gp_slot Hpl). unfold page_at in H. lia. Qed.

Lemma seeking_puts t v k p str :
  seeking t v k -> cstr (kmem k) p str -> in_page pos p (zlen str + 1) ->
  exists k', ece391_fdputs lay ks 1 p k = Ok (inl tt, k') /\ seeking t (abs_puts str v) k' /\ hushed k k'.
Proof.
  intros [Hr Hp Hs Hn Hd] Hc Hpg. destruct Hpl as [_ _ _ [S1 _] [F1 _] _].
  destruct (running_puts ks k p str v Hr Hd Hc) as (k' & E & Hd' & Hst & Hr' & Hm); [by rewrite Hp|].
  exists k'. split; [done|]. split; [|done]. pose proof (page_high _ _ S1). pose proof (page_high _ _ F1).
  constructor; [done | by rewrite (sd_pos _ _ Hst) | | | done].
  - eapply cstr_ext; [|exact Hs]. intros b Hb. symmetry. apply Hm. lia.
  - eapply cstr_ext; [|exact Hn]. intros b Hb. symmetry. apply Hm. lia.
Qed.

Lemma seeking_says t v k str :
  seeking t v k -> str ∈ grep_strings ->
  exists k', gputs lay ks im str k = Ok (inl tt, k') /\ seeking t (abs_puts str v) k' /\ hushed k k'.
Proof.
  intros S Hin. assert (Hl : (gr_lit im str, str) ∈ grep_lits) by (apply list_elem_of_fmap; by exists str).
  pose proof (proj1 (Forall_forall _ _) (ru_lits _ _ _ _ _ _ (se_run _ _ _ S)) _ Hl) as (L1 & _ & L2).
  apply seeking_puts; [done | done|]. by rewrite <- (se_pos _ _ _ S).
Qed.

Lemma hushed_cstr k k' p str : hushed k k' -> 4194304 <= p -> cstr (kmem k) p str -> cstr (kmem k') p str.
Proof. intros [_ Hm] Hp. apply cstr_ext. intros b Hb. symmetry. apply Hm. lia. Qed.

Lemma data_high : 8388608 <= data /\ in_page pos data 1025.
Proof.
  destruct Hpl as [Hs [P1 P2] [D1 D2] _ _ _]. unfold in_page, page_at in *. lia.
Qed.

Lemma line_printed t v k ls line :
  seeking t v k -> cstr (kmem k) (data + ls) line -> 0 <= ls -> ls + zlen line <= 1024 ->
  exists k', print_line lay ks im fname ls k = Ok (inl tt, k') /\
    seeking t (abs_puts (name ++ bytes ":" ++ line ++ [LF]) v) k' /\ hushed k k'.
Proof.
  intros S Hl H0 Hle. destruct data_high as [Hhi [D1 D2]]. unfold print_line.
  destruct (seeking_puts t v k fname name S (se_name _ _ _ S)) as (k1 & E1 & S1 & H1); [apply Hpl|].
  destruct (seeking_says t _ k1 (bytes ":") S1) as (k2 & E2 & S2 & H2); [by left|].
  destruct (seeking_puts t _ k2 (data + ls) line S2) as (k3 & E3 & S3 & H3).
  { eapply hushed_cstr; [by transitivity k1|lia|done]. }
  { split; lia. }
  destruct (seeking_says t _ k3 [LF] S3) as (k4 & E4 & S4 & H4); [by right; left|].
  exists k4. rewrite (ubind_inl _ _ _ _ _ E1), (ubind_inl _ _ _ _ _ E2), (ubind_inl _ _ _ _ _ E3), E4.
  split; [done|]. split; [by rewrite !abs_puts_app|].
  transitivity k1; [done|]. transitivity k2; [done|]. by transitivity k3.
Qed.

(** The search of a line prints it when it holds the argument. *)
Lemma line_searched t v k ls line :
  seeking t v k -> cstr (kmem k) (data + ls) line -> 0 <= ls -> ls + zlen line <= 1024 ->
  exists k', search_line lay ks im s fname (zlen pat) ls (ls + zlen line) k = Ok (inl tt, k') /\
    seeking t (abs_puts (hit pat name line) v) k' /\ steady k k' /\
    (forall b, 4194304 <= b -> mget (kmem k') b = mget (kmem k) b).
Proof.
  intros S Hl H0 Hle. unfold search_line.
  apply (while_index _ (fun n st => exists j : nat, (j <= List.length line)%nat /\ n = zlen line - Z.of_nat j /\
      st = (ls + Z.of_nat j, k) /\ forall i, (i < j)%nat -> holds_at pat line i = false)
    (fun r => exists k', r = Ok (inl tt, k') /\ _) (zlen line)); [|lia|].
  { exists O. split_and!; [lia|lia|by rewrite Z.add_0_r|lia]. }
  intros n st (j & Hj & -> & -> & Hno). unfold check_step.
  destruct (Z.ltb_spec (ls + Z.of_nat j) (ls + zlen line)) as [Hlt|Hge].
  - rewrite (found_spec _ ls line j (se_pat _ _ _ S) Hl) by lia. destruct (holds_at pat line j) eqn:Eh.
    + destruct (line_printed t v k ls line S Hl H0 Hle) as (k' & E & S' & [H1 H2]). exists k'. split; [exact E|].
      unfold hit, holds. rewrite (proj2 (existsb_exists _ _)); [done|]. exists j. split; [|done].
      apply in_seq. lia.
    + exists (zlen line - Z.of_nat (j + 1)). split; [lia|]. exists (j + 1)%nat. split_and!; [lia|lia| |].
      * f_equal. lia.
      * intros i Hi. destruct (decide (i = j)) as [->|]; [done|]. apply Hno. lia.
  - exists k. split; [done|]. unfold hit, holds.
    destruct (existsb _ _) eqn:Ee; [|done]. apply existsb_exists in Ee as (i & Hi & Hh).
    apply in_seq in Hi. rewrite Hno in Hh by lia. done.
Qed.

(** *** The lines of the buffer *)

(** [t] in the buffer, from place [i] on. *)
Local Abbreviation held m i l := (mbytes m (data + i) (List.length l) = l%list).

Lemma held_app m i l1 l2 : held m i (l1 ++ l2) -> held m i l1 /\ held m (i + zlen l1) l2.
Proof.
  intros H. rewrite length_app, mbytes_app in H. apply app_inj_1 in H as [H1 H2]; [|by rewrite length_mbytes].
  split; [done|]. by rewrite Z.add_assoc.
Qed.

Lemma held_char m i c l : held m i (c :: l) -> mget m (data + i) = c /\ held m (i + 1) l.
Proof.
  intros H. destruct (held_app m i [c] l H) as [H1 H2]. split; [|done].
  unfold mbytes in H1. cbn in H1. rewrite Z.add_0_r in H1. by injection H1.
Qed.

Lemma held_same m m' i l :
  (forall b, data + i <= b < data + i + zlen l -> mget m' b = mget m b) -> held m i l -> held m' i l.
Proof. intros H <-. rewrite length_mbytes. apply mbytes_ext. intros b Hb. apply H. lia. Qed.

Lemma line_ends m last ls line :
  held m ls line -> no_newline line -> ls + zlen line <= last -> last <= 1024 -> 0 <= ls ->
  ls + zlen line = last \/ mget m (data + (ls + zlen line)) = LF ->
  end_of_line im m last ls = Ok (ls + zlen line).
Proof.
  intros Hh Hno Hle H24 H0 Hend. unfold end_of_line.
  apply (while_index _ (fun n e => exists j : nat, (j <= List.length line)%nat /\ e = ls + Z.of_nat j /\
      n = zlen line - Z.of_nat j) (fun r => r = Ok (ls + zlen line)) (zlen line)); [|lia|].
  { exists O. split_and!; lia. }
  intros n e (j & Hj & -> & ->). unfold end_step. destruct (decide (j = List.length line)) as [->|Hne].
  - destruct Hend as [<- | ->]; [by rewrite Z.ltb_irrefl|]. by rewrite andb_false_r.
  - assert (Hc : mget m (data + (ls + Z.of_nat j)) = anth 0 line (Z.of_nat j)).
    { rewrite <- Hh, anth_mbytes by lia. f_equal. lia. }
    rewrite (proj2 (Z.ltb_lt _ _)) by lia. rewrite Hc, (proj2 (Z.eqb_neq _ LF)).
    + exists (zlen line - Z.of_nat (j + 1)). split; [lia|]. exists (j + 1)%nat. split_and!; lia.
    + unfold anth. rewrite Nat2Z.id. rewrite Forall_nth in Hno. apply Hno. lia.
Qed.

(** Changes of the buffer. *)
Record data_frame (k k' : kernel) : Prop := {
  df_steady : steady k k';
  df_mem : forall b, 4194304 <= b -> b < data \/ data + 1025 <= b -> mget (kmem k') b = mget (kmem k) b;
}.

#[local] Instance data_frame_trans : Transitive data_frame.
Proof.
  intros k1 k2 k3 [H1 M1] [H2 M2]. constructor; [by transitivity k2|]. intros b Hb Ho. by rewrite M2, M1.
Qed.

Lemma seeking_write t v k m :
  seeking t v k -> (forall b, b < data \/ data + 1025 <= b -> mget m b = mget (kmem k) b) ->
  seeking t v (set_kmem m k) /\ data_frame k (set_kmem m k).
Proof.
  intros [Hr Hp Hs Hn Hd] Hm. destruct Hpl as [_ _ [D1 D2] [_ S2] [_ F2] _].
  destruct (running_write k m v Hr Hd) as (Hr' & Hd' & Hst & _); [intros b Hb; apply Hm; lia|].
  unfold apart in *. split.
  - constructor; try done.
    + eapply cstr_ext; [|exact Hs]. intros b Hb. symmetry. apply Hm. lia.
    + eapply cstr_ext; [|exact Hn]. intros b Hb. symmetry. apply Hm. lia.
  - constructor; [done|]. intros b _ Hb. by apply Hm.
Qed.

(** A line that ends at a newline, or at the end of the buffer when it is
    not kept for later: it is searched. *)
Lemma turn_searches t v k cnt last ls line :
  seeking t v k -> held (kmem k) ls line -> no_newline line -> Forall (fun c => c <> 0) line ->
  0 <= ls -> ls + zlen line <= last -> last <= 1024 ->
  ls + zlen line = last \/ mget (kmem k) (data + (ls + zlen line)) = LF ->
  mget (kmem k) (data + (ls + zlen line)) = LF \/ cnt = 0 \/ ls = 0 ->
  exists k', line_turn lay ks im s fname (zlen pat) cnt last ls k =
      Ok (inl (if last <=? ls + zlen line + 1 then inr 0 else inl (ls + zlen line + 1)), k') /\
    seeking t (abs_puts (hit pat name line) v) k' /\ data_frame k k' /\
    (forall b, 4194304 <= b -> b <> data + (ls + zlen line) -> mget (kmem k') b = mget (kmem k) b) /\
    mget (kmem k') (data + (ls + zlen line)) = 0.
Proof.
  intros S Hh Hno Hnz H0 Hle H24 Hend Hcond. destruct data_high as [Hhi _].
  unfold line_turn. erewrite bind_ok by reflexivity.
  rewrite (line_ends _ _ _ _ Hh Hno Hle H24 H0 Hend). erewrite bind_ok by reflexivity. cbv beta.
  replace (negb (mget (kmem k) (data + (ls + zlen line)) =? LF) && negb (cnt =? 0) && negb (ls =? 0)) with false
    by (destruct Hcond as [-> | [-> | ->]]; by rewrite ?andb_false_r).
  set (m := mset (kmem k) (data + (ls + zlen line)) 0). set (k1 := set_kmem m k).
  assert (E1 : set_data im (ls + zlen line) 0 k = Ok (inl tt, k1)) by done.
  destruct (seeking_write t v k m S) as [S1 F1]; [intros b Hb; apply mget_mset_ne; lia|]. fold k1 in S1, F1.
  destruct (line_searched t v k1 ls line S1) as (k2 & E2 & S2 & H2 & M2); [|lia|lia|].
  { apply text_cstr; [|done|].
    - eapply held_same; [|exact Hh]. intros b Hb. apply mget_mset_ne. lia.
    - change (kmem k1) with m. unfold m. rewrite <- Z.add_assoc. by rewrite mget_mset_eq. }
  exists k2. rewrite (ubind_inl _ _ _ _ _ E1), (ubind_inl _ _ _ _ _ E2).
  assert (Hm2 : forall b, 4194304 <= b -> mget (kmem k2) b = mget m b) by exact M2.
  split_and!.
  - by destruct (last <=? ls + zlen line + 1).
  - exact S2.
  - transitivity k1; [done|]. constructor; [done|]. intros b Hb _. by apply M2.
  - intros b Hb Hne. rewrite Hm2 by done. apply mget_mset_ne. congruence.
  - rewrite Hm2 by lia. unfold m. by rewrite mget_mset_eq.
Qed.

(** The beginning of a line at the end of the buffer is moved to its front. *)
Lemma turn_keeps t v k cnt last ls part :
  seeking t v k -> held (kmem k) ls part -> no_newline part -> Forall (fun c => c <> 0) part ->
  0 < ls -> ls + zlen part = last -> last <= 1024 ->
  mget (kmem k) (data + last) <> LF -> cnt <> 0 ->
  exists k', line_turn lay ks im s fname (zlen pat) cnt last ls k = Ok (inl (inr (zlen part)), k') /\
    seeking t v k' /\ data_frame k k' /\ held (kmem k') 0 part /\
    (mget (kmem k) (data + 1024) <> LF -> mget (kmem k') (data + 1024) <> LF).
Proof.
  intros S Hh Hno Hnz H0 Hl H24 Hlast Hcnt. destruct data_high as [Hhi _].
  unfold line_turn. erewrite bind_ok by reflexivity.
  rewrite (line_ends _ last _ _ Hh Hno ltac:(lia) H24 ltac:(lia) ltac:(by left)), Hl.
  erewrite bind_ok by reflexivity. cbv beta.
  rewrite (proj2 (Z.eqb_neq _ _) Hlast), (proj2 (Z.eqb_neq _ _) Hcnt), (proj2 (Z.eqb_neq ls 0)) by lia. cbn [negb andb].
  set (m := mset (kmem k) (data + last) 0). set (k1 := set_kmem m k).
  assert (E1 : set_data im last 0 k = Ok (inl tt, k1)) by done.
  destruct (seeking_write t v k m S) as [S1 F1]; [intros b Hb; apply mget_mset_ne; lia|]. fold k1 in S1, F1.
  destruct (ece391_strcpy_spec m data (data + ls) part) as (m2 & E2 & C2 & M2); [|lia|lia|].
  { apply text_cstr; [|done|].
    - eapply held_same; [|exact Hh]. intros b Hb. apply mget_mset_ne. lia.
    - unfold m. rewrite <- Z.add_assoc, Hl. by rewrite mget_mset_eq. }
  destruct (seeking_write t v k1 m2 S1) as [S2 F2].
  { intros b Hb. rewrite M2 by lia. done. }
  exists (set_kmem m2 k1). split_and!.
  - rewrite (ubind_inl _ _ _ _ _ E1). erewrite bind_ok by reflexivity. change (kmem k1) with m. rewrite E2.
    erewrite bind_ok by reflexivity. erewrite bind_ok by reflexivity. replace (last - ls) with (zlen part) by lia. done.
  - exact S2.
  - by transitivity k1.
  - change (kmem (set_kmem m2 k1)) with m2. rewrite Z.add_0_r. by apply cstr_mbytes.
  - intros Hn. change (kmem (set_kmem m2 k1)) with m2. rewrite M2 by lia. unfold m. rewrite mget_mset.
    case_decide; [done|exact Hn].
Qed.

(** The buffer with the text [T], of which the part from [i] on is not yet
    searched, and [rest] still in the file; in the end the screen is [V]. *)
Record buffer (t : fdtab) (rest : list Z) (V : view) (i : Z) (T : list Z) (k : kernel) : Prop := {
  bf_seek : exists v, seeking t v k /\ abs_puts (hits pat name (T ++ rest)) v = V;
  bf_held : held (kmem k) i T;
  bf_text : Forall (fun c => c <> 0) T;
  bf_start : 0 <= i;
  bf_last : mget (kmem k) (data + 1024) <> LF;
  bf_short : short (T ++ rest);
}.

(** The last line of the buffer is not kept only when the file has ended. *)
Lemma not_kept rest k i T cnt :
  no_newline T -> short (T ++ rest) -> i + zlen T <= 1024 -> mget (kmem k) (data + 1024) <> LF ->
  (cnt = 0 -> rest = []) -> (i + zlen T < 1024 -> rest = []) ->
  mget (kmem k) (data + (i + zlen T)) = LF \/ cnt = 0 \/ i = 0 -> rest = [].
Proof.
  intros Hno Hs Hle Hl Hc Hlt Hcond. destruct (decide (i + zlen T < 1024)) as [|Hge]; [by apply Hlt|].
  replace (i + zlen T) with 1024 in Hcond by lia. destruct Hcond as [? | [-> | ->]]; [done|by apply Hc|].
  pose proof (short_first T rest Hno Hs) as H. unfold GREP_BUFSIZE in H. lia.
Qed.

(** What one turn does. *)
Lemma turn_buffer t rest V cnt last i T k :
  buffer t rest V i T k -> last = i + zlen T -> last <= 1024 ->
  (cnt = 0 -> rest = []) -> (last < 1024 -> rest = []) ->
  exists k', data_frame k k' /\
    ((exists i' T', line_turn lay ks im s fname (zlen pat) cnt last i k = Ok (inl (inl i'), k') /\
       buffer t rest V i' T' k' /\ last = i' + zlen T' /\ zlen T' < zlen T) \/
     (exists part, line_turn lay ks im s fname (zlen pat) cnt last i k = Ok (inl (inr (zlen part)), k') /\
       buffer t rest V 0 part k' /\ no_newline part /\ zlen part < 1024 /\ (cnt = 0 -> part = []))).
Proof.
  intros [(v & Sk & Hv) Hh Hnz H0 Hl Hs] -> Hle Hc Hlt. destruct data_high as [Hhi _].
  destruct (first_of T) as [Hno|(line & T' & -> & Hno)].
  - destruct (decide (mget (kmem k) (data + (i + zlen T)) = LF \/ cnt = 0 \/ i = 0)) as [Hcond|Hcond].
    + pose proof (not_kept rest k i T cnt Hno Hs Hle Hl Hc Hlt Hcond) as ->. rewrite app_nil_r in Hv, Hs.
      destruct (turn_searches t v k cnt (i + zlen T) i T Sk Hh Hno Hnz H0 ltac:(lia) Hle ltac:(by left) Hcond)
        as (k' & E & S' & F' & M' & Z'). exists k'. split; [done|]. right. exists [].
      rewrite (proj2 (Z.leb_le _ _)) in E by lia. split; [exact E|]. split_and!; [|done|cbn; lia|done].
      constructor; [|done|done|lia| |].
      * exists (abs_puts (hit pat name T) v). split; [done|]. rewrite <- Hv, (hits_one _ _ T) by done. reflexivity.
      * destruct (decide (i + zlen T = 1024)) as [E'|Hne]; [rewrite <- E', Z'; done|].
        rewrite M' by lia. exact Hl.
      * by repeat constructor.
    + destruct (turn_keeps t v k cnt (i + zlen T) i T Sk Hh Hno Hnz) as (k' & E & S' & F' & Hh' & Hl');
        [lia|done|done|tauto|tauto|].
      exists k'. split; [done|]. right. exists T. split; [exact E|]. split_and!; [|done|lia|tauto].
      constructor; [by exists v|done|done|lia|by apply Hl'|done].
  - rewrite <- app_assoc in Hv, Hs. cbn [app] in Hv, Hs.
    rewrite length_app in Hle, Hlt |- *. cbn [List.length] in Hle, Hlt |- *.
    destruct (held_app _ _ _ _ Hh) as [Hh1 Hh2]. destruct (held_char _ _ _ _ Hh2) as [Hc1 Hh3].
    apply Forall_app in Hnz as [Hnz1 Hnz2]. inversion_clear Hnz2 as [|? ? _ Hnz3].
    destruct (turn_searches t v k cnt (i + Z.of_nat (List.length line + S (List.length T'))) i line Sk Hh1 Hno Hnz1 H0)
      as (k' & E & S' & F' & M' & Z'); [lia|lia|by right|by left|].
    exists k'. split; [done|].
    assert (Hl' : mget (kmem k') (data + 1024) <> LF).
    { destruct (decide (i + zlen line = 1024)) as [E'|Hne]; [rewrite <- E', Z'; done|]. rewrite M' by lia. exact Hl. }
    assert (Hh' : held (kmem k') (i + zlen line + 1) T').
    { eapply held_same; [|exact Hh3]. intros b Hb. apply M'; lia. }
    assert (Hv' : abs_puts (hits pat name (T' ++ rest)) (abs_puts (hit pat name line) v) = V).
    { by rewrite <- abs_puts_app, <- hits_cons. }
    destruct (Z.leb_spec (i + Z.of_nat (List.length line + S (List.length T'))) (i + zlen line + 1)) as [Hd|Hd].
    + right. exists []. assert (T' = []) as -> by (destruct T'; [done|cbn in Hd; lia]).
      split; [exact E|]. split_and!; [|done|cbn; lia|done].
      constructor; [by exists (abs_puts (hit pat name line) v)|done|done|lia|done|by eapply short_cons].
    + left. exists (i + zlen line + 1), T'. split; [exact E|]. split_and!; [|lia|lia].
      constructor; [by exists (abs_puts (hit pat name line) v)|done|done|lia|done|by eapply short_cons].
Qed.

(** The loop over the lines. *)
Lemma buffer_searched t rest V cnt T k :
  buffer t rest V 0 T k -> zlen T <= 1024 -> (cnt = 0 -> rest = []) -> (zlen T < 1024 -> rest = []) ->
  exists part k', line_loop lay ks im s fname (zlen pat) cnt (zlen T) k = Ok (inl (zlen part), k') /\
    buffer t rest V 0 part k' /\ no_newline part /\ zlen part < 1024 /\ (cnt = 0 -> part = []) /\ data_frame k k'.
Proof.
  intros B Hle Hc Hlt. unfold line_loop.
  apply (while_index _ (fun n st => exists i Ti ki, st = (i, ki) /\ n = zlen Ti /\ zlen T = i + zlen Ti /\
      buffer t rest V i Ti ki /\ (ki = k \/ data_frame k ki))
    (fun r => exists part k', r = Ok (inl (zlen part), k') /\ _) (zlen T)); [|lia|].
  { exists 0, T, k. split_and!; try done. by left. }
  intros n st (i & Ti & ki & -> & -> & HT & Bi & Fi).
  destruct (turn_buffer t rest V cnt (zlen T) i Ti ki Bi HT Hle Hc Hlt)
    as (k' & F' & [(i' & T' & E & B' & HT' & Hd)|(part & E & B' & Hno & Hp & Hc')]);
    unfold line_step; rewrite E.
  - exists (zlen T'). split; [lia|]. exists i', T', k'. split_and!; try done. right.
    destruct Fi as [->|Fi]; [done|by transitivity ki].
  - exists part, k'. split_and!; try done. destruct Fi as [->|Fi]; [done|by transitivity ki].
Qed.

(** *** A file *)

Context (start NI NB : Z) (dir : list entry) (ino fd j : Z) (e : entry) (text : list Z) (t0 : fdtab).
Local Abbreviation fds p := (<[Z.to_nat fd := Some (FFile, p)]> t0).

(** The file of this name is a text whose lines fit the buffer; [open] gives
    it the descriptor [fd]. *)
Record text_file : Prop := {
  tf_index : abs_lookup dir name = Some j;
  tf_entry : dir !! Z.to_nat j = Some e;
  tf_type : e_type e = 2;
  tf_name : 0 < zlen name < 32 /\ take 5 name <> bytes "stdin" /\ take 6 name <> bytes "stdout";
  tf_bytes : Forall (fun c => c <> 0) text;
  tf_short : short text;
  tf_dentry : dentry_fits ks pos;
  tf_free : free_fd t0 = Some fd /\ 2 <= fd < 8 /\ List.length t0 = 8%nat /\ anth None t0 fd = None;
  tf_close : forall p, close_case (fds p) fd = Some true;
}.
Context (Htf : text_file).

(** The file is open, at [p], with [part] in the buffer. *)
Record filed (V : view) (p : Z) (part : list Z) (k : kernel) : Prop := {
  fl_buffer : buffer (fds p) (drop (Z.to_nat p) text) V 0 part k;
  fl_world : world lay (k_fs k) (kmem k) start NI NB dir;
  fl_ok : file_ok (kmem k) (k_fs k) NI NB (e_inode e);
  fl_text : file_content (kmem k) (k_fs k) (e_inode e) = text;
  fl_name : cstr (kmem k) (file_name_at (pcb_at pos) fd) name;
  fl_pos : 0 <= p <= zlen text;
  fl_part : no_newline part /\ zlen part < 1024;
}.

Lemma fds_at p : anth None (fds p) fd = Some (FFile, p).
Proof. destruct Htf as [_ _ _ _ _ _ _ (_ & H1 & H2 & _) _]. rewrite anth_insert by lia. by rewrite decide_True. Qed.

Lemma fds_move p q : <[Z.to_nat fd := Some (FFile, q)]> (fds p) = fds q.
Proof. apply list_insert_insert_eq. Qed.

Lemma fds_close p : <[Z.to_nat fd := None]> (fds p) = t0.
Proof.
  destruct Htf as [_ _ _ _ _ _ _ (_ & H1 & H2 & H3) _]. rewrite list_insert_insert_eq. apply list_insert_id.
  unfold anth in H3. destruct (lookup_lt_is_Some_2 t0 (Z.to_nat fd)) as [x Hx]; [lia|].
  rewrite nth_lookup, Hx in H3. cbn in H3. by rewrite Hx, H3.
Qed.

(** The state after a change of the buffer or of the console. *)
Lemma filed_frame V V' p p' part part' k k' :
  filed V p part k -> buffer (fds p') (drop (Z.to_nat p') text) V' 0 part' k' -> steady k k' ->
  (forall b, file_name_at (pcb_at pos) fd <= b < file_name_at (pcb_at pos) fd + 32 -> mget (kmem k') b = mget (kmem k) b) ->
  0 <= p' <= zlen text -> no_newline part' -> zlen part' < 1024 -> filed V' p' part' k'.
Proof.
  intros [B W F T N P _] B' Hs Hn Hp H1 H2. destruct B as [(v & S & _) _ _ _ _ _].
  assert (Hsl : 0 <= curr_task_pos k < 6) by (rewrite (se_pos _ _ _ S); apply Hpl).
  destruct (calm_file lay k k' start NI NB dir (e_inode e) Hs Hsl W F) as [F' T'].
  constructor; try done.
  - by eapply calm_world; [apply Hs|..].
  - by rewrite T'.
  - eapply cstr_ext; [|exact N]. intros b Hb. symmetry. apply Hn. pose proof (tf_name Htf). lia.
Qed.

Lemma name_place : forall b, file_name_at (pcb_at pos) fd <= b < file_name_at (pcb_at pos) fd + 32 -> 4194304 <= b < 8388608.
Proof.
  intros b Hb. destruct Htf as [_ _ _ _ _ _ _ (_ & H1 & _) _].
  pose proof (pcb_at_low _ (gp_slot Hpl)) as (P5 & Plo & Phi). unfold file_name_at in Hb. lia.
Qed.

(** A [read] into the buffer behind [part]. *)
Lemma chunk_read V p part k :
  filed V p part k ->
  let d := take (Z.to_nat (1024 - zlen part)) (drop (Z.to_nat p) text) in
  exists k', ece391_read lay ks fd (data + zlen part) (GREP_BUFSIZE - zlen part) k = Ok (inl (zlen d), k') /\
    buffer (fds (p + zlen d)) (drop (Z.to_nat (p + zlen d)) text) V 0 (part ++ d) k' /\ steady k k' /\
    (forall b, file_name_at (pcb_at pos) fd <= b < file_name_at (pcb_at pos) fd + 32 -> mget (kmem k') b = mget (kmem k) b).
Proof.
  intros [[(v & S & Hv) Hh Hnz _ Hl Hsh] W F T N P [Hno Hlen]] d. destruct data_high as [Hhi _].
  pose proof S as [Hr Ep Hpat Hname Hd]. destruct Hpl as [_ _ [D1 D2] [_ S2] [_ F2] _]. unfold apart in *.
  destruct Htf as [T1 T2 _ [T4 _] T5 _ T7 (_ & T8 & _) _].
  pose proof (length_file_content (kmem k) (k_fs k) (e_inode e)) as Hfl. rewrite T in Hfl.
  destruct (running_reads_file ks k v start NI NB dir fd (data + zlen part) (GREP_BUFSIZE - zlen part) p name j e
    Hr Hd W F) as (k' & E & Hb & Hr' & Hd' & Hs & K & Hm); try done.
  { by rewrite Ep. } { apply fds_at. } { unfold curr_pcb. by rewrite Ep. }
  { lia. } { unfold GREP_BUFSIZE; lia. } { lia. } { unfold GREP_BUFSIZE; lia. }
  rewrite T in *. change GREP_BUFSIZE with 1024 in *. fold d in E, Hb, Hr', Hm. rewrite fds_move in Hr'.
  assert (Hdl : zlen d <= 1024 - zlen part) by (unfold d; rewrite length_take; lia).
  assert (Hsplit : d ++ drop (Z.to_nat (p + zlen d)) text = drop (Z.to_nat p) text).
  { unfold d. rewrite <- (take_drop (Z.to_nat (1024 - zlen part)) (drop (Z.to_nat p) text)) at 3. f_equal.
    rewrite drop_drop, length_take, length_drop.
    destruct (decide (Z.of_nat (List.length text) - p <= 1024 - zlen part)); [rewrite !drop_ge by lia; done|f_equal; lia]. }
  assert (Hnames : forall b, file_name_at (pcb_at pos) fd <= b < file_name_at (pcb_at pos) fd + 32 ->
    mget (kmem k') b = mget (kmem k) b).
  { intros b Hbb. apply (fk_names _ _ K fd); [lia|]. unfold curr_pcb. by rewrite Ep. }
  exists k'. split_and!; [exact E| |exact Hs|exact Hnames]. constructor.
  - exists v. split; [|by rewrite <- app_assoc, Hsplit]. constructor; [done | by rewrite (sd_pos _ _ Hs) | | | done].
    + eapply cstr_ext; [|exact Hpat]. intros b Hbb. symmetry. apply Hm; [|lia].
      pose proof (page_high _ _ (proj1 (gp_s Hpl))). lia.
    + eapply cstr_ext; [|exact Hname]. intros b Hbb. symmetry. apply Hm; [|lia].
      pose proof (page_high _ _ (proj1 (gp_f Hpl))). lia.
  - rewrite length_app, mbytes_app. f_equal; [|by rewrite Z.add_0_r].
    eapply held_same; [|exact Hh]. intros b Hbb. apply Hm; lia.
  - apply Forall_app. split; [done|]. unfold d. apply Forall_take, Forall_drop. exact T5.
  - lia.
  - rewrite Hm by lia. exact Hl.
  - by rewrite <- app_assoc, Hsplit.
Qed.

(** A turn of the loop over the file. *)
Lemma chunk_turn V p part k :
  filed V p part k ->
  let d := take (Z.to_nat (1024 - zlen part)) (drop (Z.to_nat p) text) in
  exists part' k', steady k k' /\ filed V (p + zlen d) part' k' /\
    (let! cnt := ece391_read lay ks fd (data + zlen part) (GREP_BUFSIZE - zlen part) in
     chunk_rest lay ks im s fname (zlen pat) (zlen part) cnt) k =
      Ok (inl (inr (if zlen d =? 0 then None else Some (zlen part'))), k') /\
    (zlen d = 0 -> p = zlen text /\ part' = []).
Proof.
  intros Hf d. destruct (chunk_read V p part k Hf) as (k1 & E1 & B1 & H1 & M1). fold d in E1, B1.
  pose proof (fl_part _ _ _ _ Hf) as [_ Hlen]. pose proof (fl_pos _ _ _ _ Hf) as Hp.
  assert (Hdl : zlen d <= 1024 - zlen part) by (unfold d; rewrite length_take; lia).
  assert (Hdp : p + zlen d <= zlen text) by (unfold d; rewrite length_take, length_drop; lia).
  assert (Hshort : zlen d < 1024 - zlen part -> p + zlen d = zlen text)
    by (unfold d; rewrite length_take, length_drop; lia).
  destruct (buffer_searched _ _ _ (zlen d) (part ++ d) k1 B1) as (part' & k2 & E2 & B2 & Hno & Hl2 & Hc & F2).
  { rewrite length_app. lia. }
  { intros Hz. apply drop_ge. pose proof (Hshort ltac:(lia)). lia. }
  { rewrite length_app. intros Hlt. apply drop_ge. pose proof (Hshort ltac:(lia)). lia. }
  exists part', k2. assert (Hs : steady k k2) by (transitivity k1; [done|apply F2]). split; [done|]. split_and!.
  - eapply filed_frame; [exact Hf|done|done| |lia|done|done]. intros b Hb. rewrite <- (M1 b Hb).
    apply name_place in Hb. destruct data_high. apply (df_mem _ _ F2); lia.
  - rewrite (ubind_inl _ _ _ _ _ E1). unfold chunk_rest. rewrite (proj2 (Z.eqb_neq (zlen d) (-1))) by lia.
    rewrite length_app in E2. replace (zlen part + zlen d) with (Z.of_nat (List.length part + List.length d)) by lia.
    rewrite (ubind_inl _ _ _ _ _ E2). by destruct (zlen d =? 0).
  - intros Hz. split; [lia|by apply Hc].
Qed.

Lemma seeking_steady t v k k' :
  seeking t v k -> running lay grep_lits reg size t0 k' -> steady k k' -> displays k' v ->
  (forall b, 8388608 <= b -> mget (kmem k') b = mget (kmem k) b) -> seeking t0 v k'.
Proof.
  intros [Hr Hp Hs Hn Hd] Hr' Hst Hd' Hm. destruct Hpl as [_ _ _ [S1 _] [F1 _] _].
  pose proof (page_high _ _ S1). pose proof (page_high _ _ F1).
  constructor; [done | by rewrite (sd_pos _ _ Hst) | | | done].
  - eapply cstr_ext; [|exact Hs]. intros b Hb. symmetry. apply Hm. lia.
  - eapply cstr_ext; [|exact Hn]. intros b Hb. symmetry. apply Hm. lia.
Qed.

Lemma file_closed V k :
  filed V (zlen text) [] k ->
  exists k', close_file lay ks im fd k = Ok (inl 0, k') /\ seeking t0 V k' /\ steady k k'.
Proof.
  intros [[(v & S & Hv) _ _ _ _ _] _ _ _ _ _ _]. rewrite drop_ge in Hv by lia.
  cbn in Hv. subst V. destruct Htf as [_ _ _ _ _ _ _ (_ & H2 & _) Hcl].
  destruct (running_close ks k v fd (se_run _ _ _ S) (se_screen _ _ _ S) H2 (Hcl _)) as (k' & E & Hr & Hd & Hs & Hm).
  rewrite fds_close in Hr. exists k'. unfold close_file. rewrite (ubind_inl _ _ _ _ _ E).
  split_and!; [done|by eapply seeking_steady|done].
Qed.

(** The loop over the file. *)
Lemma file_searched V p part k :
  filed V p part k ->
  exists k', file_loop lay ks im s fname (zlen pat) fd (zlen part) k = Ok (inl 0, k') /\
    seeking t0 V k' /\ steady k k'.
Proof.
  intros Hf. unfold file_loop.
  apply (while_index _ (fun n st => exists q pt kq, n = zlen text - q /\ st = (zlen pt, kq) /\ filed V q pt kq /\ steady k kq)
    (fun r => exists k', r = Ok (inl 0, k') /\ _) (zlen text - p)).
  { by exists p, part, k. }
  { destruct Hf as [_ _ [_ Hl _] Ht _ Hp _]. pose proof (length_file_content (kmem k) (k_fs k) (e_inode e)) as H.
    rewrite Ht in H. lia. }
  intros n st (q & pt & kq & -> & -> & Fq & Hs). destruct (chunk_turn V q pt kq Fq) as (pt' & k1 & H1 & F1 & E & Hz).
  unfold file_step. rewrite E. destruct (Z.eqb_spec (zlen (take (Z.to_nat (1024 - zlen pt)) (drop (Z.to_nat q) text))) 0) as [Hd|Hd].
  - destruct (Hz Hd) as [-> ->]. rewrite Hd, Z.add_0_r in F1. destruct (file_closed V k1 F1) as (k2 & E2 & S2 & H2).
    exists k2. split; [exact E2|]. split; [done|]. transitivity kq; [done|]. by transitivity k1.
  - eexists. split; [|exists (q + zlen (take (Z.to_nat (1024 - zlen pt)) (drop (Z.to_nat q) text))), pt', k1;
      split_and!; [reflexivity|done|done|by transitivity kq]].
    pose proof (fl_pos _ _ _ _ F1). lia.
Qed.

(** C11: The search of a text file prints the lines that hold the argument, each
    after the name of the file and a colon, and closes the file again. *)
Theorem grep_prints_matches v k :
  seeking t0 v k -> world lay (k_fs k) (kmem k) start NI NB dir ->
  file_ok (kmem k) (k_fs k) NI NB (e_inode e) -> file_content (kmem k) (k_fs k) (e_inode e) = text ->
  mget (kmem k) (data + 1024) <> LF ->
  exists k', do_one_file lay ks im s fname k = Ok (inl 0, k') /\
    displays k' (abs_puts (hits pat name text) v) /\ seeking t0 (abs_puts (hits pat name text) v) k' /\ steady k k'.
Proof.
  intros S W F T Hl. pose proof S as [Hr Ep Hpat Hname Hd]. destruct data_high as [Hhi _].
  pose proof Htf as [T1 T2 T3 (T4 & T4' & T4'') T5 T6 T7 (T8 & _) _].
  pose proof (page_high _ _ (proj1 (gp_f Hpl))) as Hfh. destruct Hpl as [_ _ _ [[P1 P2] _] _ _].
  destruct (running_open_named ks k v start NI NB dir fname name j e FFile Hr Hd W)
    as (k1 & E1 & Hr1 & Hd1 & Hs1 & _ & Hm1 & _ & _ & Hn1); try done; [by rewrite Ep|by rewrite T3|].
  rewrite T8 in E1, Hr1. destruct (Hn1 fd T8) as [Hn _].
  assert (Hsl : 0 <= curr_task_pos k < 6) by (rewrite Ep; apply Hpl).
  destruct (calm_file lay k k1 start NI NB dir (e_inode e) Hs1 Hsl W F) as [F1 FT].
  assert (S1 : seeking (fds 0) v k1).
  { constructor; [done | by rewrite (sd_pos _ _ Hs1) | | | done].
    - eapply cstr_ext; [|exact Hpat]. intros b Hb. symmetry. apply Hm1.
      pose proof (page_high _ _ (proj1 (gp_s Hpl))). lia.
    - eapply cstr_ext; [|exact Hname]. intros b Hb. symmetry. apply Hm1. lia. }
  destruct (file_searched (abs_puts (hits pat name text) v) 0 [] k1) as (k2 & E2 & S2 & Hs2).
  { constructor; try done; [|by eapply calm_world; [apply Hs1|..]|by rewrite FT| |lia].
    - constructor; try done; [by exists v|by rewrite Hm1 by lia].
    - unfold curr_pcb in Hn. by rewrite (sd_pos _ _ Hs1), Ep in Hn. }
  exists k2. split_and!; [|apply S2|done|by transitivity k1].
  unfold do_one_file. erewrite bind_ok by reflexivity.
  rewrite (ece391_strlen_spec _ _ _ Hpat) by (unfold page_at in *; lia). erewrite bind_ok by reflexivity.
  rewrite (ubind_inl _ _ _ _ _ E1). rewrite (proj2 (Z.eqb_neq fd (-1))); [exact E2|].
  destruct Htf as [_ _ _ _ _ _ _ (_ & Hfd & _) _]. lia.
Qed.
End Search.
