(* ===== verification/Blink.v ===== *)
(** * The blinking characters of fish (fish/blink.S, fish/fish.c)

    A linked list of structures in an array of the program, its head in the
    variable [mp1_list_head]; each structure makes one character of the
    screen blink.  The code is proved to implement a list of blinking
    characters: what each command does to the list, what it answers, and
    which characters it puts on the screen. *)

From Stdlib Require Import ZArith Lia.
From stdpp Require Import base numbers list gmap.
From S2P Require Import Prelude Mem Console.

Local Open Scope Z_scope.

(** ** Accesses through the page tables *)

Definition load16 (m : mem) (a : Z) : Z := mget m a + 2 ^ 8 * mget m (a + 1).
Definition store16 (m : mem) (a v : Z) : mem := mset (mset m a v) (a + 1) (v / 2 ^ 8).
Definition s16 (x : Z) : Z := (x + 2 ^ 15) mod 2 ^ 16 - 2 ^ 15.

Section Access.
Context (tr : Z -> option Z).

Definition uld8 (a : Z) : ST mem Z := fun m =>
  match tr a with Some p => Ok (mget m p, m) | None => Err PageFault end.
Definition ust8 (a x : Z) : ST mem unit := fun m =>
  match tr a with Some p => Ok (tt, mset m p x) | None => Err PageFault end.

Definition uld16 (a : Z) : ST mem Z :=
  b0 ← uld8 a; b1 ← uld8 (a + 1); mret (b0 + 2 ^ 8 * b1).
Definition ust16 (a x : Z) : ST mem unit := ust8 a x ;; ust8 (a + 1) (x / 2 ^ 8).
Definition uld32 (a : Z) : ST mem Z :=
  b0 ← uld8 a; b1 ← uld8 (a + 1); b2 ← uld8 (a + 2); b3 ← uld8 (a + 3);
  mret (b0 + 2 ^ 8 * b1 + 2 ^ 16 * b2 + 2 ^ 24 * b3).
Definition ust32 (a x : Z) : ST mem unit :=
  ust8 a x ;; ust8 (a + 1) (x / 2 ^ 8) ;; ust8 (a + 2) (x / 2 ^ 16) ;; ust8 (a + 3) (x / 2 ^ 24).
End Access.

(** ** The code *)

(** [struct mp1_blink_struct], packed. *)
Definition LOCATION : Z := 0.
Definition ON_CHAR : Z := 2.
Definition OFF_CHAR : Z := 3.
Definition ON_LENGTH : Z := 4.
Definition OFF_LENGTH : Z := 6.
Definition COUNTDOWN : Z := 8.
Definition STATUS : Z := 10.
Definition NEXT : Z := 12.
Definition STRUCT_SIZE : Z := 16.

Definition RTC_ADD : Z := 0.
Definition RTC_REMOVE : Z := 1.
Definition RTC_FIND : Z := 2.
Definition RTC_SYNC : Z := 3.

(** The variables, and what [add] and [find] keep on the stack. *)
Record blink_image := BlinkImage {
  mp1_list_head : Z;
  vmem_base_addr : Z;
  blink_array : Z;
  add_temp : Z;      (** the structure of [mp1_ioctl_add] *)
  find_temp : Z;     (** the two bytes of [mp1_ioctl_find] *)
}.

Section Code.
Context (tr : Z -> option Z) (im : blink_image).

Definition ece391_memset (memory c n : Z) : ST mem unit :=
  for_range 0 n (fun i => ust8 tr (memory + i) c).

Definition ece391_memcpy (dest src n : Z) : ST mem Z :=
  for_range 0 n (fun i => c ← uld8 tr (src + i); ust8 tr (dest + i) c) ;; mret 0.

(** The first structure whose location is 0, or null. *)
Fixpoint malloc_from (n : nat) (i : Z) : ST mem Z :=
  match n with
  | O => mret 0
  | S n =>
      loc ← uld16 tr (blink_array im + STRUCT_SIZE * i + LOCATION);
      if loc =? 0 then mret (blink_array im + STRUCT_SIZE * i) else malloc_from n (i + 1)
  end.
Definition mp1_malloc (size : Z) : ST mem Z := malloc_from (80 * 25) 0.

Definition mp1_free (memory : Z) : ST mem unit := ece391_memset memory 0 STRUCT_SIZE.

Definition mp1_poke (cl eax : Z) : ST mem unit :=
  edx ← uld32 tr (vmem_base_addr im); ust8 tr (edx + eax) cl.

(** The loop of the tasklet for the structure at [ebx]; the next one. *)
Definition tasklet_node (ebx : Z) : ST mem Z :=
  c ← uld16 tr (ebx + COUNTDOWN);
  ust16 tr (ebx + COUNTDOWN) (u16 (c - 1)) ;;
  c ← uld16 tr (ebx + COUNTDOWN);
  (if 0 <? s16 c then mret tt
   else
     loc ← uld16 tr (ebx + LOCATION);
     status ← uld16 tr (ebx + STATUS);
     dx ← (if Z.land status 1 =? 0 then
             cl ← uld8 tr (ebx + ON_CHAR); mp1_poke cl (Z.shiftl loc 1) ;; uld16 tr (ebx + ON_LENGTH)
           else
             cl ← uld8 tr (ebx + OFF_CHAR); mp1_poke cl (Z.shiftl loc 1) ;; uld16 tr (ebx + OFF_LENGTH));
     ust16 tr (ebx + COUNTDOWN) dx ;;
     status ← uld16 tr (ebx + STATUS);
     ust16 tr (ebx + STATUS) (Z.lxor status 1)) ;;
  uld32 tr (ebx + NEXT).

Definition tasklet_step (st : Z * mem) : (Z * mem) + res (unit * mem) :=
  let '(ebx, m) := st in
  if ebx =? 0 then inr (Ok (tt, m))
  else match tasklet_node ebx m with Ok st' => inl st' | Err e => inr (Err e) end.
Definition mp1_rtc_tasklet : ST mem unit :=
  head ← uld32 tr (mp1_list_head im);
  ((fun m => while tasklet_step (head, m)) : ST mem unit).

(** The structure with the location [ax], or null. *)
Definition find_step (m : mem) (ax ebx : Z) : Z + res Z :=
  if ebx =? 0 then inr (Ok 0)
  else match uld16 tr (ebx + LOCATION) m with
  | Err e => inr (Err e)
  | Ok (loc, _) =>
      if loc =? ax then inr (Ok ebx)
      else match uld32 tr (ebx + NEXT) m with Ok (next, _) => inl next | Err e => inr (Err e) end
  end.
Definition mp1_find_helper (arg : Z) : ST mem Z :=
  head ← uld32 tr (mp1_list_head im);
  m ← gets id;
  liftR (while (find_step m (u16 arg)) head).

Definition mp1_ioctl_add (arg : Z) : ST mem Z :=
  eax ← ece391_memcpy (add_temp im) arg STRUCT_SIZE;
  if negb (eax =? 0) then mret (-1)
  else
    loc ← uld16 tr (add_temp im + LOCATION);
    if 80 * 25 <=? loc then mret (-1)
    else
      ust16 tr (add_temp im + STATUS) 1 ;;
      dx ← uld16 tr (add_temp im + ON_LENGTH);
      ust16 tr (add_temp im + COUNTDOWN) dx ;;
      new ← mp1_malloc STRUCT_SIZE;
      if new =? 0 then mret (-1)
      else
        _ ← ece391_memcpy new (add_temp im) STRUCT_SIZE;
        head ← uld32 tr (mp1_list_head im);
        ust32 tr (new + NEXT) head ;;
        ust32 tr (mp1_list_head im) new ;;
        loc ← uld16 tr (new + LOCATION);
        cl ← uld8 tr (new + ON_CHAR);
        mp1_poke cl (Z.shiftl loc 1) ;;
        mret 0.

(** Where the pointer to the structure at [eax] is stored. *)
Definition prev_step (m : mem) (eax edx : Z) : Z + res Z :=
  match uld32 tr edx m with
  | Err e => inr (Err e)
  | Ok (x, _) => if x =? eax then inr (Ok edx) else inl (x + NEXT)
  end.

Definition mp1_ioctl_remove (arg : Z) : ST mem Z :=
  eax ← mp1_find_helper arg;
  if eax =? 0 then mret (-1)
  else
    m ← gets id;
    edx ← liftR (while (prev_step m eax) (mp1_list_head im));
    ecx ← uld32 tr (eax + NEXT);
    ust32 tr edx ecx ;;
    mp1_free eax ;;
    mret 0.

(** [testb] leaves the sign flag from bit 7 of its result and no overflow,
    and [cmovl] moves when the two differ. *)
Definition mp1_ioctl_sync (arg : Z) : ST mem Z :=
  esi ← mp1_find_helper (Z.shiftr arg 16);
  if esi =? 0 then mret (-1)
  else
    edi ← mp1_find_helper (Z.land arg 65535);
    if edi =? 0 then mret (-1)
    else
      ax ← uld16 tr (esi + ON_LENGTH); ust16 tr (edi + ON_LENGTH) ax ;;
      ax ← uld16 tr (esi + OFF_LENGTH); ust16 tr (edi + OFF_LENGTH) ax ;;
      ax ← uld16 tr (esi + COUNTDOWN); ust16 tr (edi + COUNTDOWN) ax ;;
      ax ← uld16 tr (esi + STATUS); ust16 tr (edi + STATUS) ax ;;
      loc ← uld16 tr (edi + LOCATION);
      ecx ← uld8 tr (edi + OFF_CHAR);
      ebx ← uld8 tr (edi + ON_CHAR);
      status ← uld8 tr (edi + STATUS);
      let sf := Z.testbit (Z.land status 1) 7 in
      mp1_poke (if sf then ebx else ecx) (Z.shiftl loc 1) ;;
      mret 0.

Definition mp1_ioctl_find (arg : Z) : ST mem Z :=
  eax ← ece391_memcpy (find_temp im) arg 2;
  if negb (eax =? 0) then mret (-1)
  else
    loc ← uld16 tr (find_temp im);
    eax ← mp1_find_helper loc;
    if eax =? 0 then mret (-1)
    else
      r ← ece391_memcpy arg eax STRUCT_SIZE;
      if r =? 0 then mret 0 else mret (-1).

(** A jump through [call_table]. *)
Definition mp1_ioctl (arg cmd : Z) : ST mem Z :=
  if cmd =? RTC_ADD then mp1_ioctl_add arg
  else if cmd =? RTC_REMOVE then mp1_ioctl_remove arg
  else if cmd =? RTC_FIND then mp1_ioctl_find arg
  else if cmd =? RTC_SYNC then mp1_ioctl_sync arg
  else fail OutOfBounds.
End Code.

(** ** The list *)

(** A blinking character: where, with which two characters, for how many
    ticks each, and the ticks and the phase it is in. *)
Record blink := Blink {
  b_loc : Z; b_on : Z; b_off : Z; b_onlen : Z; b_offlen : Z; b_count : Z; b_status : Z;
}.

Definition set_count (c : Z) (b : blink) : blink :=
  Blink (b_loc b) (b_on b) (b_off b) (b_onlen b) (b_offlen b) c (b_status b).
Definition set_status (s : Z) (b : blink) : blink :=
  Blink (b_loc b) (b_on b) (b_off b) (b_onlen b) (b_offlen b) (b_count b) s.

(** One tick: the character may change to the other one, which is then put
    on the screen. *)
Definition tick (b : blink) : blink * list (Z * Z) :=
  let c := u16 (b_count b - 1) in
  if 0 <? s16 c then (set_count c b, [])
  else if Z.land (b_status b) 1 =? 0 then
    (set_status (Z.lxor (b_status b) 1) (set_count (b_onlen b) b), [(b_loc b, b_on b)])
  else
    (set_status (Z.lxor (b_status b) 1) (set_count (b_offlen b) b), [(b_loc b, b_off b)]).

Definition tick_all (l : list blink) : list blink * list (Z * Z) :=
  (map (fst ∘ tick) l, concat (map (snd ∘ tick) l)).

(** As it is added: on, for its first period. *)
Definition begun (b : blink) : blink := set_status 1 (set_count (b_onlen b) b).

(** With the periods and the phase of another one. *)
Definition synced (src b : blink) : blink :=
  Blink (b_loc b) (b_on b) (b_off b) (b_onlen src) (b_offlen src) (b_count src) (b_status src).

(** The first one at the location [loc]. *)
Definition find_at (l : list blink) (loc : Z) : option nat :=
  fst <$> list_find (fun b => b_loc b = loc) l.

(** Characters put on the screen one after the other. *)
Definition drawn (ps : list (Z * Z)) (screen : Z -> Z) : Z -> Z :=
  fold_left (fun s '(loc, c) q => if q =? loc then c else s q) ps screen.

Lemma drawn_app ps qs s : drawn (ps ++ qs) s = drawn qs (drawn ps s).
Proof. apply fold_left_app. Qed.

Lemma drawn_ext ps s s' q : (forall q, 0 <= q < 2000 -> s q = s' q) -> 0 <= q < 2000 ->
  drawn ps s q = drawn ps s' q.
Proof.
  unfold drawn. revert s s'. induction ps as [|[loc c] ps IH]; intros s s' H Hq; cbn; [by apply H|].
  apply IH; [|done]. intros p Hp. by destruct (p =? loc); [|apply H].
Qed.

(** ** Words of two bytes *)

Lemma mget_store16 m a v b :
  mget (store16 m a v) b =
  if decide (b = a) then u8 v else if decide (b = a + 1) then u8 (v / 2 ^ 8) else mget m b.
Proof. unfold store16. rewrite !mget_mset. repeat case_decide; done || lia. Qed.

Lemma load16_range m a : 0 <= load16 m a < 65536.
Proof. unfold load16. pose proof (mget_range m a). pose proof (mget_range m (a + 1)). lia. Qed.

Lemma load16_ext m1 m2 a :
  (forall b, a <= b < a + 2 -> mget m1 b = mget m2 b) -> load16 m1 a = load16 m2 a.
Proof. intros H. unfold load16. by rewrite !H by lia. Qed.

Lemma load16_store16_eq m a v : load16 (store16 m a v) a = u16 v.
Proof.
  unfold load16. rewrite !mget_store16. repeat (case_decide; try lia). unfold u8, u16. lia_mod.
Qed.

Lemma u16_load16 m a : u16 (load16 m a) = load16 m a.
Proof. apply u16_small, load16_range. Qed.

Lemma mget_store16_ne m a v b : b < a \/ a + 2 <= b -> mget (store16 m a v) b = mget m b.
Proof. intros. rewrite mget_store16. repeat case_decide; done || lia. Qed.

Lemma load16_store16_ne m a v b :
  b + 2 <= a \/ a + 2 <= b -> load16 (store16 m a v) b = load16 m b.
Proof. intros. apply load16_ext. intros. apply mget_store16_ne. lia. Qed.

Lemma load16_mset_ne m a v b : a < b \/ b + 2 <= a -> load16 (mset m a v) b = load16 m b.
Proof. intros. apply load16_ext. intros. apply mget_mset_ne. lia. Qed.

Lemma load16_store32_ne m a v b :
  b + 2 <= a \/ a + 4 <= b -> load16 (store32 m a v) b = load16 m b.
Proof. intros. apply load16_ext. intros. apply mget_store32_ne. lia. Qed.

Lemma load32_store16_ne m a v b :
  b + 4 <= a \/ a + 2 <= b -> load32 (store16 m a v) b = load32 m b.
Proof. intros. apply load32_ext. intros. apply mget_store16_ne. lia. Qed.

#[export] Hint Rewrite load16_store16_eq : mem.
#[export] Hint Rewrite mget_store16_ne load16_store16_ne load16_mset_ne load16_store32_ne
  load32_store16_ne using lia : mem.

(** ** The structures in memory *)

Definition in_user (a n : Z) : Prop := 134217728 <= a /\ a + n <= 138412032.
Definition disjoint (x y : Z * Z) : Prop := fst x + snd x <= fst y \/ fst y + snd y <= fst x.

(** The screen cells, and a change of memory that puts the characters [ps]
    on the screen and otherwise stays within [R]. *)
Definition cell (p : Z) : Prop := exists q, 0 <= q < 2000 /\ p = VIDEO + 2 * q.

Record changes (R : Z -> Prop) (ps : list (Z * Z)) (m m' : mem) : Prop := {
  ch_screen : forall q, 0 <= q < 2000 ->
    mget m' (VIDEO + 2 * q) = drawn ps (fun q => mget m (VIDEO + 2 * q)) q;
  ch_frame : forall p, ~ R p -> ~ cell p -> mget m' p = mget m p;
}.

Lemma changes_refl R m : changes R [] m m.
Proof. by split. Qed.

Lemma changes_trans R ps qs m1 m2 m3 :
  changes R ps m1 m2 -> changes R qs m2 m3 -> changes R (ps ++ qs) m1 m3.
Proof.
  intros [S1 F1] [S2 F2]. split.
  - intros q Hq. rewrite S2, drawn_app by done. by apply drawn_ext.
  - intros p H1 H2. rewrite F2, F1 by done. done.
Qed.

Lemma changes_weaken (R R' : Z -> Prop) ps m m' :
  (forall p, R p -> R' p) -> changes R ps m m' -> changes R' ps m m'.
Proof. intros H [S F]. split; [done|]. intros p Hp. apply F. auto. Qed.

(** Memory above the screen that changes in [R] only. *)
Lemma changes_quiet R m m' :
  (forall p, p < 8388608 -> ~ R p) -> (forall p, ~ R p -> mget m' p = mget m p) ->
  changes R [] m m'.
Proof.
  intros HR Hf. split; [|auto]. intros q Hq. cbn. apply Hf, HR. unfold VIDEO. lia.
Qed.

Lemma changes_poke R m loc c :
  0 <= loc < 2000 -> 0 <= c < 256 -> changes R [(loc, c)] m (mset m (VIDEO + 2 * loc) c).
Proof.
  intros Hl Hc. split.
  - intros q Hq. cbn. rewrite mget_mset. destruct (Z.eqb_spec q loc) as [->|];
      [rewrite decide_True by lia; by apply u8_small | by rewrite decide_False by lia].
  - intros p _ Hp. apply mget_mset_ne. intros <-. apply Hp. by exists loc.
Qed.

(** Pairs of elements of a list. *)
Lemma ord_pairs_lookup {A} (R : A -> A -> Prop) l x y i j :
  ForallOrdPairs R l -> (i < j)%nat -> l !! i = Some x -> l !! j = Some y -> R x y.
Proof.
  intros H. revert i j. induction H as [|z l Hz _ IH]; intros [|i] [|j] Hij Hi Hj;
    try done; try lia; cbn in *.
  - injection Hi as <-. rewrite Forall_lookup in Hz. eauto.
  - eapply (IH i j); eauto; lia.
Qed.

Lemma ord_pairs_app {A} (R : A -> A -> Prop) l l' :
  ForallOrdPairs R (l ++ l') -> ForallOrdPairs R l.
Proof.
  induction l as [|x l IH]; cbn; intros H; [constructor|]. inversion H as [|? ? Hx Hl]; subst.
  constructor; [by apply Forall_app in Hx as [? _] | by apply IH].
Qed.

(** A counted loop, by an invariant. *)
Lemma for_runs {S} (Inv : Z -> S -> Prop) a b (body : Z -> ST S unit) s :
  a <= b -> Inv a s ->
  (forall i s, a <= i < b -> Inv i s -> exists s', body i s = Ok (tt, s') /\ Inv (i + 1) s') ->
  exists s', for_range a b body s = Ok (tt, s') /\ Inv b s'.
Proof.
  intros Hab H0 Hs. assert (H : wp (for_range a b body) (fun _ => Inv b) s).
  { apply (wp_for Inv); try done. intros i s1 Hi H1. destruct (Hs i s1 Hi H1) as (s2 & E & H2).
    by eapply wp_ok. }
  apply wp_inv in H as ([] & s' & E & H'). by exists s'.
Qed.

Lemma memset_page tr base a c n m :
  (forall b, in_user b 1 -> tr b = Some (b + base)) -> 0 <= n -> in_user a n ->
  exists m', ece391_memset tr a c n m = Ok (tt, m') /\
    (forall p, a + base <= p < a + base + n -> mget m' p = u8 c) /\
    (forall p, ~ (a + base <= p < a + base + n) -> mget m' p = mget m p).
Proof.
  intros Htr Hn Ha. unfold ece391_memset.
  apply (for_runs (fun i m1 => (forall p, a + base <= p < a + base + i -> mget m1 p = u8 c) /\
    (forall p, ~ (a + base <= p < a + base + i) -> mget m1 p = mget m p)));
    [done | split; intros; [lia|done] |].
  intros i m1 Hi [I1 I2]. eexists. split; [unfold ust8; rewrite Htr by (unfold in_user in *; lia); do 3 f_equal; lia|].
  split; intros p Hp; rewrite mget_mset; case_decide; try done; try lia; [apply I1|apply I2]; lia.
Qed.

Section Board.
Context (tr : Z -> option Z) (im : blink_image) (base : Z).

(** The variables of the program, with their sizes. *)
Definition blocks : list (Z * Z) :=
  [(mp1_list_head im, 4); (vmem_base_addr im, 4); (blink_array im, 32000); (add_temp im, 16);
   (find_temp im, 2)].

(** The page of the program, [base] away, and the screen at 136 MB are
    mapped; the variables lie in the page and do not overlap. *)
Record placed : Prop := {
  pl_page : forall a, in_user a 1 -> tr a = Some (a + base);
  pl_video : forall off, 0 <= off < 4000 -> tr (142606336 + off) = Some (VIDEO + off);
  pl_base : 8388608 <= 134217728 + base;
  pl_user : Forall (fun x => in_user (fst x) (snd x)) blocks;
  pl_apart : ForallOrdPairs disjoint blocks;
}.
Hypothesis (Hpl : placed).

Lemma places :
  in_user (mp1_list_head im) 4 /\ in_user (vmem_base_addr im) 4 /\ in_user (blink_array im) 32000 /\
  in_user (add_temp im) 16 /\ in_user (find_temp im) 2.
Proof.
  pose proof (pl_user Hpl) as H. unfold blocks in H. rewrite !Forall_cons in H. cbn in H. tauto.
Qed.

Lemma places_apart x y i j :
  (i < j)%nat -> blocks !! i = Some x -> blocks !! j = Some y -> disjoint x y.
Proof. apply ord_pairs_lookup, Hpl. Qed.

(** Addresses of fields, decided by the places. *)
Ltac place :=
  unfold in_user, LOCATION, ON_CHAR, OFF_CHAR, ON_LENGTH, OFF_LENGTH, COUNTDOWN, STATUS, NEXT,
    STRUCT_SIZE in *; lia.

Lemma uld8_page a m : in_user a 1 -> uld8 tr a m = Ok (mget m (a + base), m).
Proof. intros H. unfold uld8. by rewrite (pl_page Hpl a H). Qed.

Lemma ust8_page a x m : in_user a 1 -> ust8 tr a x m = Ok (tt, mset m (a + base) x).
Proof. intros H. unfold ust8. by rewrite (pl_page Hpl a H). Qed.

Lemma uld16_page a m : in_user a 2 -> uld16 tr a m = Ok (load16 m (a + base), m).
Proof.
  intros H. unfold uld16. do 2 (erewrite bind_ok by (apply uld8_page; place)).
  unfold load16. by replace (a + 1 + base) with (a + base + 1) by lia.
Qed.

Lemma ust16_page a x m : in_user a 2 -> ust16 tr a x m = Ok (tt, store16 m (a + base) x).
Proof.
  intros H. unfold ust16. erewrite bind_ok by (apply ust8_page; place). rewrite ust8_page by place.
  unfold store16. by replace (a + 1 + base) with (a + base + 1) by lia.
Qed.

Lemma uld32_page a m : in_user a 4 -> uld32 tr a m = Ok (load32 m (a + base), m).
Proof.
  intros H. unfold uld32. do 4 (erewrite bind_ok by (apply uld8_page; place)).
  unfold load32. replace (a + 1 + base) with (a + base + 1) by lia.
  replace (a + 2 + base) with (a + base + 2) by lia. by replace (a + 3 + base) with (a + base + 3) by lia.
Qed.

Lemma ust32_page a x m : in_user a 4 -> ust32 tr a x m = Ok (tt, store32 m (a + base) x).
Proof.
  intros H. unfold ust32. do 3 (erewrite bind_ok by (apply ust8_page; place)).
  rewrite ust8_page by place. unfold store32. replace (a + 1 + base) with (a + base + 1) by lia.
  replace (a + 2 + base) with (a + base + 2) by lia. by replace (a + 3 + base) with (a + base + 3) by lia.
Qed.

(** One access of straight-line code. *)
Ltac ustep :=
  first [erewrite bind_ok by (apply uld16_page; place) | erewrite bind_ok by (apply ust16_page; place)
       | erewrite bind_ok by (apply uld8_page; place) | erewrite bind_ok by (apply uld32_page; place)
       | erewrite bind_ok by (apply ust32_page; place)]; cbv beta.

Lemma memcpy_page d s n m :
  0 <= n -> in_user d n -> in_user s n -> d + n <= s \/ s + n <= d ->
  exists m', ece391_memcpy tr d s n m = Ok (0, m') /\
    (forall i, 0 <= i < n -> mget m' (d + base + i) = mget m (s + base + i)) /\
    (forall p, ~ (d + base <= p < d + base + n) -> mget m' p = mget m p).
Proof.
  intros Hn Hd Hs Hap. unfold ece391_memcpy.
  destruct (for_runs (fun i m1 =>
      (forall j, 0 <= j < i -> mget m1 (d + base + j) = mget m (s + base + j)) /\
      (forall p, ~ (d + base <= p < d + base + i) -> mget m1 p = mget m p)) 0 n
    (fun i => c ← uld8 tr (s + i); ust8 tr (d + i) c) m) as (m' & H & Hm);
    [done | split; intros; [lia|done] | |].
  - intros i m1 Hi [I1 I2]. eexists.
    split; [erewrite bind_ok by (apply uld8_page; place); apply ust8_page; place|].
    split; intros p Hp; rewrite mget_mset; case_decide; try lia; try (apply I1; lia); try (apply I2; lia).
    rewrite mget_u8, I2 by lia. f_equal. lia.
  - exists m'. split; [|done]. by erewrite bind_ok by exact H.
Qed.

(** ** The representation *)

(** The blinking character whose structure is at [a]. *)
Definition node (m : mem) (a : Z) : blink :=
  Blink (load16 m (a + LOCATION + base)) (mget m (a + ON_CHAR + base)) (mget m (a + OFF_CHAR + base))
    (load16 m (a + ON_LENGTH + base)) (load16 m (a + OFF_LENGTH + base))
    (load16 m (a + COUNTDOWN + base)) (load16 m (a + STATUS + base)).

Lemma node_ext m1 m2 a :
  (forall p, a + base <= p < a + base + 12 -> mget m1 p = mget m2 p) -> node m1 a = node m2 a.
Proof.
  intros H. unfold node, LOCATION, ON_CHAR, OFF_CHAR, ON_LENGTH, OFF_LENGTH, COUNTDOWN, STATUS.
  f_equal; first [apply load16_ext; intros; apply H; lia | apply H; lia].
Qed.

Definition is_slot (a : Z) : Prop := exists i, 0 <= i < 2000 /\ a = blink_array im + STRUCT_SIZE * i.
Definition addr_at (addrs : list Z) (k : nat) : Z := default 0 (addrs !! k).

(** The structures of the list are at [addrs], in this order: different
    elements of the array, each with the address of the next one, the last
    one with null; the other elements have the location 0. *)
Record board (m : mem) (addrs : list Z) (l : list blink) : Prop := {
  bo_head : load32 m (mp1_list_head im + base) = addr_at addrs 0;
  bo_next : forall k a, addrs !! k = Some a -> load32 m (a + NEXT + base) = addr_at addrs (S k);
  bo_nodup : NoDup addrs;
  bo_slots : Forall is_slot addrs;
  bo_nodes : l = map (node m) addrs;
  bo_locs : Forall (fun b => 0 < b_loc b < 2000) l;
  bo_used : forall a, is_slot a -> load16 m (a + LOCATION + base) <> 0 -> a ∈ addrs;
  bo_vmem : load32 m (vmem_base_addr im + base) = 142606336;
}.

Lemma slot_user a : is_slot a -> in_user a 16 /\ a <> 0.
Proof. intros (i & Hi & ->). destruct places as (_ & _ & H & _). place. Qed.

Lemma slot_apart a : is_slot a ->
  (mp1_list_head im + 4 <= a \/ a + 16 <= mp1_list_head im) /\
  (vmem_base_addr im + 4 <= a \/ a + 16 <= vmem_base_addr im) /\
  (a + 16 <= add_temp im \/ add_temp im + 16 <= a) /\ (a + 16 <= find_temp im \/ find_temp im + 2 <= a).
Proof.
  intros (i & Hi & ->).
  pose proof (places_apart _ _ 0 2 ltac:(lia) eq_refl eq_refl) as H1.
  pose proof (places_apart _ _ 1 2 ltac:(lia) eq_refl eq_refl) as H2.
  pose proof (places_apart _ _ 2 3 ltac:(lia) eq_refl eq_refl) as H3.
  pose proof (places_apart _ _ 2 4 ltac:(lia) eq_refl eq_refl) as H4.
  unfold disjoint in *. cbn in *. place.
Qed.

Lemma slots_apart a b : is_slot a -> is_slot b -> a <> b -> a + 16 <= b \/ b + 16 <= a.
Proof. intros (i & Hi & ->) (j & Hj & ->) Hne. place. Qed.

Lemma poke_screen m loc cl :
  load32 m (vmem_base_addr im + base) = 142606336 -> 0 <= loc < 2000 ->
  mp1_poke tr im cl (Z.shiftl loc 1) m = Ok (tt, mset m (VIDEO + 2 * loc) cl).
Proof.
  intros Hv Hl. destruct places as (_ & Hu & _). unfold mp1_poke. ustep. rewrite Hv.
  unfold ust8. rewrite Z.shiftl_mul_pow2 by lia. rewrite (pl_video Hpl) by lia. do 3 f_equal. lia.
Qed.

(** ** The tasklet *)

(** The lengths, the countdown and the status of the structure at [a]. *)
Definition counters (a p : Z) : Prop := a + base + 4 <= p < a + base + 12.

Ltac fields :=
  unfold LOCATION, ON_CHAR, OFF_CHAR, ON_LENGTH, OFF_LENGTH, COUNTDOWN, STATUS, NEXT, STRUCT_SIZE,
    VIDEO in *.

Lemma counters_quiet m a m' :
  is_slot a -> (forall p, ~ counters a p -> mget m' p = mget m p) -> changes (counters a) [] m m'.
Proof.
  intros Ha Hf. apply changes_quiet; [|done]. intros p Hp Hc. pose proof (pl_base Hpl).
  destruct (slot_user a Ha) as [[Hu _] _]. unfold counters in Hc. lia.
Qed.

Lemma u16_lxor1 x : 0 <= x < 65536 -> u16 (Z.lxor x 1) = Z.lxor x 1.
Proof.
  intros Hx. apply u16_small. split; [apply Z.lxor_nonneg; lia|].
  apply Z.log2_lt_cancel. change (Z.log2 65536) with 16.
  pose proof (Z.log2_lxor x 1 ltac:(lia) ltac:(lia)) as H. change (Z.log2 1) with 0 in H.
  assert (Z.log2 x <= 15); [|lia]. destruct (decide (x = 0)) as [->|]; [done|].
  apply Z.lt_succ_r, Z.log2_lt_pow2; lia.
Qed.

(** The character changes: it is drawn, and the other phase begins. *)
Lemma flips m a loc cl fl :
  is_slot a -> load32 m (vmem_base_addr im + base) = 142606336 -> 0 <= loc < 2000 -> 0 <= cl < 256 ->
  fl = ON_LENGTH \/ fl = OFF_LENGTH ->
  exists m', (dx ← (mp1_poke tr im cl (Z.shiftl loc 1) ;; uld16 tr (a + fl));
      ust16 tr (a + COUNTDOWN) dx ;;
      status ← uld16 tr (a + STATUS); ust16 tr (a + STATUS) (Z.lxor status 1)) m = Ok (tt, m') /\
    node m' a = set_status (Z.lxor (b_status (node m a)) 1)
                  (set_count (load16 m (a + fl + base)) (node m a)) /\
    load32 m' (a + NEXT + base) = load32 m (a + NEXT + base) /\ changes (counters a) [(loc, cl)] m m'.
Proof.
  intros Ha Hv Hl Hc Hfl. destruct (slot_user a Ha) as [Hu _]. pose proof (pl_base Hpl) as Hb.
  pose proof (load16_range m (a + fl + base)) as R1. pose proof (load16_range m (a + STATUS + base)) as R2.
  assert (Hf : in_user (a + fl) 2 /\ (fl = 4 \/ fl = 6)) by (split; destruct Hfl as [-> | ->]; place).
  destruct Hf as [Hf Hf']. rewrite bind_assoc. erewrite bind_ok by by apply poke_screen.
  do 3 ustep. rewrite ust16_page by place. eexists. split; [done|]. unfold node, set_status, set_count.
  cbn [b_loc b_on b_off b_onlen b_offlen b_count b_status]. split_and!.
  - clear Hfl. fields. unfold in_user in *. mem_simpl. rewrite u16_load16, u16_lxor1 by done. done.
  - clear Hfl. fields. unfold in_user in *. by mem_simpl.
  - apply (changes_trans _ [(loc, cl)] [] _ (mset m (VIDEO + 2 * loc) cl)); [by apply changes_poke|].
    apply counters_quiet; [done|]. unfold counters. intros p Hp. clear Hfl. fields. by mem_simpl.
Qed.

Lemma tasklet_node_ticks m a :
  is_slot a -> load32 m (vmem_base_addr im + base) = 142606336 -> b_loc (node m a) < 2000 ->
  exists m', tasklet_node tr im a m = Ok (load32 m (a + NEXT + base), m') /\
    node m' a = fst (tick (node m a)) /\ changes (counters a) (snd (tick (node m a))) m m'.
Proof.
  intros Ha Hv Hl. destruct (slot_user a Ha) as [Hu _]. destruct (slot_apart a Ha) as (_ & A2 & _).
  destruct places as (_ & Pv & _). pose proof (pl_base Hpl) as Hb. cbn [b_loc node] in Hl.
  pose proof (load16_range m (a + LOCATION + base)) as Hr.
  unfold tasklet_node. do 3 ustep. unfold tick. cbn [b_count b_status b_loc b_on b_off node].
  set (c := u16 _). assert (Ec : u16 c = c) by (unfold c, u16; lia_mod).
  rewrite load16_store16_eq, Ec.
  set (m1 := store16 m _ c).
  assert (N1 : node m1 a = set_count c (node m a) /\ load32 m1 (a + NEXT + base) = load32 m (a + NEXT + base)
    /\ load32 m1 (vmem_base_addr im + base) = 142606336).
  { unfold m1, set_count, node. fields. unfold in_user in *. mem_simpl. rewrite Ec. done. }
  destruct N1 as (N1 & X1 & V1).
  assert (C1 : changes (counters a) [] m m1).
  { apply counters_quiet; [done|]. unfold counters. intros p Hp. unfold m1. fields. by mem_simpl. }
  destruct (0 <? s16 c).
  - bstep. exists m1. split_and!; [rewrite uld32_page by place; by rewrite X1|done..].
  - pose proof N1 as N2. unfold node, set_count in N2. cbn in N2. injection N2 as L1 O1 F1 OL1 FL1 _ S1.
    assert (Hend : forall cl fl, fl = ON_LENGTH \/ fl = OFF_LENGTH -> 0 <= cl < 256 -> 
        exists m', ((dx ← (mp1_poke tr im cl (Z.shiftl (load16 m (a + LOCATION + base)) 1) ;; uld16 tr (a + fl));
            ust16 tr (a + COUNTDOWN) dx ;;
            status ← uld16 tr (a + STATUS); ust16 tr (a + STATUS) (Z.lxor status 1)) ;;
          uld32 tr (a + NEXT)) m1 = Ok (load32 m (a + NEXT + base), m') /\
        node m' a = set_status (Z.lxor (b_status (node m a)) 1)
                      (set_count (load16 m1 (a + fl + base)) (node m a)) /\
        changes (counters a) [(load16 m (a + LOCATION + base), cl)] m m').
    { intros cl fl Hfl Hcl.
      destruct (flips m1 a (load16 m (a + LOCATION + base)) cl fl) as (m' & E & N' & X' & C');
        [done|done|lia|done|done|].
      exists m'. erewrite bind_ok by exact E. rewrite uld32_page by place.
      rewrite X', X1, N', N1. split_and!; [done..|]. by apply (changes_trans _ [] _ _ m1). }
    do 2 (rewrite bind_assoc; ustep). rewrite L1, S1. destruct (_ =? 0); rewrite bind_assoc, bind_assoc; ustep.
    + rewrite <- bind_assoc. destruct (Hend (mget m1 (a + ON_CHAR + base)) ON_LENGTH) as (m' & H);
        [by left|apply mget_range|]. exists m'. rewrite O1, OL1 in H. rewrite O1. exact H.
    + rewrite <- bind_assoc. destruct (Hend (mget m1 (a + OFF_CHAR + base)) OFF_LENGTH) as (m' & H);
        [by right|apply mget_range|]. exists m'. rewrite F1, FL1 in H. rewrite F1. exact H.
Qed.

Lemma changes_mget R ps m m' p :
  changes R ps m m' -> 8388608 <= p -> ~ R p -> mget m' p = mget m p.
Proof.
  intros C Hp HR. apply (ch_frame _ _ _ _ C); [done|]. intros (q & Hq & ->). unfold VIDEO in Hp. lia.
Qed.

Lemma changes_load32 R ps m m' a :
  changes R ps m m' -> 8388608 <= a -> (forall p, a <= p < a + 4 -> ~ R p) -> load32 m' a = load32 m a.
Proof.
  intros C Hp HR. apply load32_ext. intros b Hb. eapply changes_mget; [done|lia|auto].
Qed.

Lemma changes_load16 R ps m m' a :
  changes R ps m m' -> 8388608 <= a -> (forall p, a <= p < a + 2 -> ~ R p) -> load16 m' a = load16 m a.
Proof.
  intros C Hp HR. apply load16_ext. intros b Hb. eapply changes_mget; [done|lia|auto].
Qed.

Lemma changes_node R ps m m' a :
  changes R ps m m' -> is_slot a -> (forall p, a + base <= p < a + base + 12 -> ~ R p) ->
  node m' a = node m a.
Proof.
  intros C Ha HR. apply node_ext. intros p Hp. pose proof (pl_base Hpl).
  destruct (slot_user a Ha) as [[Hu _] _]. eapply changes_mget; [done|lia|auto].
Qed.

(** The counters of the structures at [addrs]. *)
Definition ticking (addrs : list Z) (p : Z) : Prop := exists a, a ∈ addrs /\ counters a p.

Lemma not_ticking addrs a p :
  Forall is_slot addrs -> is_slot a -> a + base <= p < a + base + 16 -> ~ counters a p -> ~ ticking addrs p.
Proof.
  intros Hs Ha Hp Hn (b & Hb & Hc). rewrite Forall_forall in Hs. specialize (Hs b Hb).
  destruct (decide (a = b)) as [->|Hne]; [done|]. unfold counters in Hc.
  destruct (slots_apart a b Ha Hs Hne); lia.
Qed.

Lemma not_ticking_var addrs p :
  Forall is_slot addrs ->
  mp1_list_head im + base <= p < mp1_list_head im + base + 4 \/
  vmem_base_addr im + base <= p < vmem_base_addr im + base + 4 -> ~ ticking addrs p.
Proof.
  intros Hs Hp (b & Hb & Hc). rewrite Forall_forall in Hs. specialize (Hs b Hb).
  destruct (slot_apart b Hs) as (H1 & H2 & _). unfold counters in Hc. lia.
Qed.

(** Ticks keep the shape of the list. *)
Lemma board_ticking m m' ps addrs l :
  board m addrs l -> changes (ticking addrs) ps m m' -> board m' addrs (map (node m') addrs).
Proof.
  intros [B1 B2 B3 B4 B5 B6 B7 B8] C. pose proof (pl_base Hpl) as Hb.
  destruct places as (P1 & P2 & _). pose proof B4 as B4'. rewrite Forall_forall in B4'.
  assert (Hloc : forall a, is_slot a -> load16 m' (a + LOCATION + base) = load16 m (a + LOCATION + base)).
  { intros a Ha. destruct (slot_user a Ha) as [Hu _].
    eapply changes_load16; [done|place|]. intros p Hp. apply (not_ticking _ a); try done; [place|].
    unfold counters. place. }
  split; try done.
  - rewrite <- B1. eapply changes_load32; [done|place|]. intros p Hp. apply not_ticking_var; [done|lia].
  - intros k a Ha. rewrite <- (B2 k a Ha). assert (Hs : is_slot a) by (eapply B4', list_elem_of_lookup_2, Ha).
    destruct (slot_user a Hs) as [Hu _]. eapply changes_load32; [done|place|]. intros p Hp.
    apply (not_ticking _ a); try done; [place|]. unfold counters. place.
  - subst l. rewrite Forall_map, Forall_forall in *. intros a Ha. specialize (B6 a Ha).
    cbn [b_loc node] in *. by rewrite Hloc by auto.
  - intros a Ha. rewrite Hloc by done. by apply B7.
  - rewrite <- B8. eapply changes_load32; [done|place|]. intros p Hp. apply not_ticking_var; [done|lia].
Qed.

Lemma addr_at_some addrs k a : addrs !! k = Some a -> addr_at addrs k = a.
Proof. unfold addr_at. by intros ->. Qed.

Definition slots : list Z := map (fun i => blink_array im + STRUCT_SIZE * Z.of_nat i) (seq 0 2000).

Lemma elem_slots a : a ∈ slots <-> is_slot a.
Proof.
  unfold slots, is_slot. rewrite list_elem_of_In, in_map_iff. split.
  - intros (i & <- & Hi). apply in_seq in Hi. exists (Z.of_nat i). lia.
  - intros (i & Hi & ->). exists (Z.to_nat i). rewrite in_seq, Z2Nat.id by lia. lia.
Qed.

Lemma length_slots : List.length slots = 2000%nat.
Proof. unfold slots. by rewrite length_map, length_seq. Qed.

Lemma board_length addrs : NoDup addrs -> Forall is_slot addrs -> zlen addrs <= 2000.
Proof.
  intros Hn Hs. change 2000 with (Z.of_nat 2000). rewrite <- length_slots. apply inj_le.
  apply NoDup_incl_length; [by apply NoDup_ListNoDup|]. intros a Ha.
  apply list_elem_of_In, elem_slots. rewrite Forall_forall in Hs. by apply Hs, list_elem_of_In.
Qed.

(** After the first [k] structures. *)
Definition ticked (m : mem) (addrs : list Z) (l : list blink) (k : nat) (mk : mem) : Prop :=
  changes (ticking addrs) (concat (map (snd ∘ tick) (take k l))) m mk /\
  forall j a, addrs !! j = Some a ->
    node mk a = if decide (j < k)%nat then fst (tick (node m a)) else node m a.

Lemma tasklet_step_ticks m addrs l k mk a :
  board m addrs l -> ticked m addrs l k mk -> addrs !! k = Some a ->
  exists m', tasklet_node tr im a mk = Ok (addr_at addrs (S k), m') /\ ticked m addrs l (S k) m'.
Proof.
  intros B [C N] Ea. pose proof (board_ticking _ _ _ _ _ B C) as Bk. pose proof B as [_ _ B3 B4 B5 B6 _ _].
  pose proof B4 as B4'. rewrite Forall_forall in B4'.
  assert (Hs : is_slot a) by (eapply B4', list_elem_of_lookup_2, Ea).
  pose proof (N k a Ea) as Na. rewrite decide_False in Na by lia.
  assert (El : l !! k = Some (node m a)) by (subst l; by rewrite list_lookup_fmap, Ea).
  destruct (tasklet_node_ticks mk a) as (m' & E & N' & C'); [done|apply Bk| |].
  { rewrite Na. rewrite Forall_forall in B6. apply B6. by eapply list_elem_of_lookup_2. }
  rewrite (bo_next _ _ _ Bk k a Ea) in E. exists m'. split; [done|]. rewrite Na in N', C'. split.
  - rewrite (take_S_r _ _ _ El), map_app, concat_app. eapply changes_trans; [done|].
    cbn [map concat]. rewrite app_nil_r. eapply changes_weaken; [|done].
    intros p Hp. exists a. split; [by eapply list_elem_of_lookup_2|done].
  - intros j b Eb. destruct (decide (j = k)) as [->|Hne].
    + rewrite Ea in Eb. injection Eb as <-. by rewrite decide_True by lia.
    + assert (a <> b). { intros ->. apply Hne. eapply NoDup_lookup; eauto. }
      assert (Hb : is_slot b) by (eapply B4', list_elem_of_lookup_2, Eb).
      rewrite (changes_node _ _ _ _ b C' Hb), (N j b Eb).
      * repeat case_decide; done || lia.
      * intros p Hp Hc. unfold counters in Hc. destruct (slots_apart a b); [done..| |]; lia.
Qed.

(** The tasklet moves every blinking character on by one tick, in the
    order of the list, and puts those that change on the screen. *)
Lemma tasklet_ticks m addrs l :
  board m addrs l ->
  exists m', mp1_rtc_tasklet tr im m = Ok (tt, m') /\ board m' addrs (fst (tick_all l)) /\
    changes (ticking addrs) (snd (tick_all l)) m m'.
Proof.
  intros B. pose proof B as [B1 _ B3 B4 B5 _ _ _]. destruct places as (P1 & _).
  unfold mp1_rtc_tasklet. ustep. rewrite B1.
  assert (Hend : forall m', ticked m addrs l (List.length addrs) m' ->
    board m' addrs (fst (tick_all l)) /\ changes (ticking addrs) (snd (tick_all l)) m m').
  { intros m' [C N]. rewrite firstn_all2 in C by (subst l; by rewrite length_map). split; [|done].
    replace (fst (tick_all l)) with (map (node m') addrs); [by eapply board_ticking|].
    cbn. subst l. rewrite map_map. apply map_ext_in. intros a Ha.
    apply list_elem_of_In, list_elem_of_lookup in Ha as [j Hj]. rewrite (N j a Hj), decide_True; [done|].
    by eapply lookup_lt_Some. }
  apply (while_index (tasklet_step tr im) (fun n st => exists k mk, n = zlen addrs - Z.of_nat k /\
      st = (addr_at addrs k, mk) /\ (k <= List.length addrs)%nat /\ ticked m addrs l k mk)
    (fun r => exists m', r = Ok (tt, m') /\ _) (zlen addrs)).
  - exists O, m. split_and!; [lia|done|lia|]. split; [apply changes_refl|done].
  - pose proof (board_length _ B3 B4). lia.
  - intros n st (k & mk & -> & -> & Hk & T). unfold tasklet_step.
    destruct (addrs !! k) as [a|] eqn:Ea.
    + rewrite (addr_at_some _ _ _ Ea). rewrite Forall_forall in B4.
      assert (Ha : a <> 0) by (eapply slot_user, B4, list_elem_of_lookup_2, Ea).
      rewrite (proj2 (Z.eqb_neq a 0) Ha). pose proof (lookup_lt_Some _ _ _ Ea) as Hlt.
      destruct (tasklet_step_ticks m addrs l k mk a B T Ea) as (m' & -> & T').
      exists (zlen addrs - Z.of_nat (S k)). split; [lia|]. exists (S k), m'. split_and!; [lia|done|lia|done].
    + unfold addr_at. rewrite Ea. cbn. apply lookup_ge_None in Ea.
      replace k with (List.length addrs) in T by lia. exists mk. split; [done|]. by apply Hend.
Qed.

(** ** Finding *)

Lemma find_finds m addrs l arg :
  board m addrs l ->
  mp1_find_helper tr im arg m =
    Ok (match find_at l (u16 arg) with Some i => addr_at addrs i | None => 0 end, m).
Proof.
  intros [B1 B2 B3 B4 B5 _ _ _]. destruct places as (P1 & _).
  unfold mp1_find_helper. ustep. bstep. rewrite B1. unfold id at 1.
  enough (while (find_step tr m (u16 arg)) (addr_at addrs 0) =
    Ok match find_at l (u16 arg) with Some i => addr_at addrs i | None => 0 end) as H.
  { unfold liftR. by rewrite H. }
  apply (while_index (find_step tr m (u16 arg)) (fun n st => exists k, n = zlen addrs - Z.of_nat k /\
      st = addr_at addrs k /\ (k <= List.length addrs)%nat /\
      forall j b, l !! j = Some b -> (j < k)%nat -> b_loc b <> u16 arg)
    (fun r => r = Ok _) (zlen addrs)).
  - exists O. split_and!; [lia|done|lia|]. intros j b _ Hj. lia.
  - pose proof (board_length _ B3 B4). lia.
  - intros n st (k & -> & -> & Hk & Hno). unfold find_step. destruct (addrs !! k) as [a|] eqn:Ea.
    + rewrite (addr_at_some _ _ _ Ea). pose proof (lookup_lt_Some _ _ _ Ea) as Hlt.
      rewrite Forall_forall in B4. assert (Hs : is_slot a) by (eapply B4, list_elem_of_lookup_2, Ea).
      destruct (slot_user a Hs) as [Hu Ha]. rewrite (proj2 (Z.eqb_neq a 0) Ha).
      assert (El : l !! k = Some (node m a)) by (subst l; by rewrite list_lookup_fmap, Ea).
      rewrite uld16_page, uld32_page by place. destruct (Z.eqb_spec (load16 m (a + LOCATION + base)) (u16 arg)).
      * unfold find_at. rewrite (proj2 (list_find_Some _ l k (node m a))); [|done].
        cbn. by rewrite (addr_at_some _ _ _ Ea).
      * exists (zlen addrs - Z.of_nat (S k)). split; [lia|]. exists (S k).
        split_and!; [lia|by apply B2|lia|]. intros j b Hj Hjk. destruct (decide (j = k)) as [->|].
        { rewrite El in Hj. by injection Hj as <-. } eapply Hno; [done|lia].
    + unfold addr_at. rewrite Ea. cbn. apply lookup_ge_None in Ea. unfold find_at.
      rewrite (proj2 (list_find_None _ l)); [done|]. apply Forall_lookup. intros j b Hj. eapply Hno; [done|].
      apply lookup_lt_Some in Hj. subst l. rewrite length_map in Hj. lia.
Qed.

(** An index that is found, and its structure. *)
Lemma found_addr m addrs l loc i :
  board m addrs l -> find_at l loc = Some i ->
  exists a, addrs !! i = Some a /\ is_slot a /\ in_user a 16 /\ a <> 0 /\
    l !! i = Some (node m a) /\ b_loc (node m a) = loc.
Proof.
  intros [_ _ _ B4 B5 _ _ _] Hf. unfold find_at in Hf. apply fmap_Some in Hf as ([j b] & Hf & ->).
  apply list_find_Some in Hf as (Hj & Hl & _). cbn. subst l. rewrite list_lookup_fmap in Hj.
  destruct (addrs !! j) as [a|] eqn:Ea; [|done]. injection Hj as <-. exists a.
  rewrite Forall_forall in B4. assert (Hs : is_slot a) by (eapply B4, list_elem_of_lookup_2, Ea).
  destruct (slot_user a Hs). split_and!; try done. by rewrite list_lookup_fmap, Ea.
Qed.

(** ** Removing *)

(** Where the address of structure [i] is stored. *)
Definition prev_at (addrs : list Z) (i : nat) : Z :=
  match i with O => mp1_list_head im | S j => addr_at addrs j + NEXT end.

Lemma prev_at_ok m addrs l i :
  board m addrs l -> (i <= List.length addrs)%nat ->
  in_user (prev_at addrs i) 4 /\ load32 m (prev_at addrs i + base) = addr_at addrs i.
Proof.
  intros [B1 B2 _ B4 _ _ _ _] Hi. destruct places as (P1 & _). destruct i as [|j]; cbn [prev_at]; [done|].
  destruct (lookup_lt_is_Some_2 addrs j) as [a Ea]; [lia|]. rewrite (addr_at_some _ _ _ Ea).
  rewrite Forall_forall in B4. destruct (slot_user a) as [Hu _]; [eapply B4, list_elem_of_lookup_2, Ea|].
  split; [place|]. by apply B2.
Qed.

Lemma prev_found m addrs l i a :
  board m addrs l -> addrs !! i = Some a ->
  while (prev_step tr m a) (mp1_list_head im) = Ok (prev_at addrs i).
Proof.
  intros B Ea. pose proof (lookup_lt_Some _ _ _ Ea) as Hlt.
  apply (while_index (prev_step tr m a) (fun n st => exists k, n = Z.of_nat i - Z.of_nat k /\
      st = prev_at addrs k /\ (k <= i)%nat) (fun r => r = Ok _) (Z.of_nat i)).
  - exists O. split_and!; [lia|done|lia].
  - pose proof (board_length _ (bo_nodup _ _ _ B) (bo_slots _ _ _ B)). lia.
  - intros n st (k & -> & -> & Hk). unfold prev_step.
    destruct (prev_at_ok m addrs l k B) as [Hu Hl]; [lia|]. rewrite uld32_page, Hl by done.
    destruct (lookup_lt_is_Some_2 addrs k) as [b Eb]; [lia|]. rewrite (addr_at_some _ _ _ Eb).
    destruct (Z.eqb_spec b a) as [->|Hne].
    + by rewrite (NoDup_lookup _ _ _ _ (bo_nodup _ _ _ B) Eb Ea).
    + assert (k <> i) by (intros ->; congruence). exists (Z.of_nat i - Z.of_nat (S k)).
      split; [lia|]. exists (S k). cbn. rewrite (addr_at_some _ _ _ Eb). split_and!; [lia|done|lia].
Qed.

Lemma addr_at_delete addrs i k :
  addr_at (delete i addrs) k = addr_at addrs (if decide (k < i)%nat then k else S k).
Proof. unfold addr_at. rewrite list_lookup_delete. by case_decide. Qed.

Lemma delete_elem (addrs : list Z) i a b :
  addrs !! i = Some a -> b ∈ addrs -> b <> a -> b ∈ delete i addrs.
Proof.
  intros Ea Hb Hne. apply list_elem_of_lookup in Hb as [j Hj]. apply list_elem_of_lookup.
  assert (j <> i) by (intros ->; congruence).
  exists (if decide (j < i)%nat then j else pred j). rewrite list_lookup_delete.
  repeat case_decide; try lia; [done|]. by replace (S (pred j)) with j by lia.
Qed.

(** A change of memory in the array and the head of the list. *)
Definition listing_bytes (p : Z) : Prop :=
  mp1_list_head im + base <= p < mp1_list_head im + base + 4 \/
  blink_array im + base <= p < blink_array im + base + 32000.

Lemma prev_apart m addrs l i b :
  board m addrs l -> (i <= List.length addrs)%nat -> is_slot b ->
  (prev_at addrs i + 4 <= b \/ b + 12 <= prev_at addrs i) /\
  (prev_at addrs i = b + NEXT \/ prev_at addrs i + 4 <= b + NEXT \/ b + 16 <= prev_at addrs i).
Proof.
  intros [_ _ _ B4 _ _ _ _] Hi Hb. destruct (slot_apart b Hb) as (H1 & _).
  destruct i as [|j]; cbn [prev_at]; [place|].
  destruct (lookup_lt_is_Some_2 addrs j) as [c Ec]; [lia|]. rewrite (addr_at_some _ _ _ Ec).
  rewrite Forall_forall in B4. assert (Hc : is_slot c) by (eapply B4, list_elem_of_lookup_2, Ec).
  destruct (decide (b = c)) as [->|Hne]; [place|]. destruct (slots_apart b c Hb Hc Hne); place.
Qed.

Lemma prev_apart_vars m addrs l i :
  board m addrs l -> (i <= List.length addrs)%nat ->
  (prev_at addrs i + 4 <= vmem_base_addr im \/ vmem_base_addr im + 4 <= prev_at addrs i) /\
  (i = O \/ mp1_list_head im + 4 <= prev_at addrs i \/ prev_at addrs i + 4 <= mp1_list_head im).
Proof.
  intros [_ _ _ B4 _ _ _ _] Hi. pose proof (places_apart _ _ 0 1 ltac:(lia) eq_refl eq_refl) as H1.
  unfold disjoint in H1. cbn in H1. destruct i as [|j]; cbn [prev_at]; [lia|].
  destruct (lookup_lt_is_Some_2 addrs j) as [c Ec]; [lia|]. rewrite (addr_at_some _ _ _ Ec).
  rewrite Forall_forall in B4. assert (Hc : is_slot c) by (eapply B4, list_elem_of_lookup_2, Ec).
  destruct (slot_apart c Hc) as (H2 & H3 & _). place.
Qed.

Lemma prev_at_inj m addrs l i k b :
  board m addrs l -> addrs !! k = Some b -> (i <= List.length addrs)%nat ->
  prev_at addrs i = b + NEXT -> i = S k.
Proof.
  intros [_ _ B3 B4 _ _ _ _] Eb Hi. rewrite Forall_forall in B4.
  assert (Hb : is_slot b) by (eapply B4, list_elem_of_lookup_2, Eb).
  destruct i as [|j]; cbn [prev_at]; intros H.
  - destruct (slot_apart b Hb) as (H1 & _). place.
  - destruct (lookup_lt_is_Some_2 addrs j) as [c Ec]; [lia|]. rewrite (addr_at_some _ _ _ Ec) in H.
    f_equal. assert (c = b) as -> by lia. by apply (NoDup_lookup _ _ _ _ B3 Ec).
Qed.

(** The structure [i] taken out of the list and cleared. *)
Lemma board_unlink m m' addrs l i a :
  board m addrs l -> addrs !! i = Some a ->
  load32 m' (prev_at addrs i + base) = addr_at addrs (S i) ->
  load16 m' (a + LOCATION + base) = 0 ->
  (forall p, ~ (prev_at addrs i + base <= p < prev_at addrs i + base + 4) ->
     ~ (a + base <= p < a + base + 16) -> mget m' p = mget m p) ->
  board m' (delete i addrs) (delete i l).
Proof.
  intros B Ea Hnext Hzero Hf. pose proof B as [B1 B2 B3 B4 B5 B6 B7 B8].
  pose proof (lookup_lt_Some _ _ _ Ea) as Hlt. pose proof B4 as B4'. rewrite Forall_forall in B4'.
  assert (Hs : is_slot a) by (eapply B4', list_elem_of_lookup_2, Ea).
  destruct (slot_apart a Hs) as (A1 & A2 & _).
  destruct (prev_apart_vars m addrs l i B) as [V1 V2]; [lia|].
  assert (Hnode : forall b, is_slot b -> b <> a -> node m' b = node m b).
  { intros b Hb Hne. apply node_ext. intros p Hp. destruct (prev_apart m addrs l i b B) as [H1 _]; [lia|done|].
    destruct (slots_apart a b); [done..| |]; apply Hf; lia. }
  assert (Hin : forall k b, delete i addrs !! k = Some b ->
    exists j, j = (if decide (k < i)%nat then k else S k) /\ addrs !! j = Some b /\ b <> a /\ is_slot b).
  { intros k b Hb. rewrite list_lookup_delete in Hb. eexists. split; [done|]. split; [done|].
    split; [|by eapply B4', list_elem_of_lookup_2]. intros ->.
    pose proof (NoDup_lookup _ _ _ _ B3 Hb Ea). case_decide; lia. }
  split.
  - rewrite addr_at_delete. destruct i as [|i].
    + by rewrite decide_False by lia.
    + rewrite decide_True by lia. rewrite <- B1. apply load32_ext. intros p Hp. apply Hf; lia.
  - intros k b Hb. destruct (Hin k b Hb) as (j & Ej & Hj & Hne & Hbs). rewrite addr_at_delete.
    destruct (prev_apart m addrs l i b B) as [H1 [H2|H2]]; [lia|done| |].
    + pose proof (prev_at_inj m addrs l i j b B Hj ltac:(lia) H2) as ->. rewrite <- H2, Hnext.
      f_equal. repeat case_decide; lia.
    + replace (load32 m' (b + NEXT + base)) with (load32 m (b + NEXT + base)).
      * rewrite (B2 j b Hj). assert (i <> S j).
        { intros ->. cbn in H2. rewrite (addr_at_some _ _ _ Hj) in H2. place. }
        f_equal. repeat case_decide; lia.
      * symmetry. apply load32_ext. intros p Hp. destruct (slots_apart a b); [done..| |]; apply Hf; place.
  - eapply sublist_NoDup; [exact B3|apply sublist_delete].
  - rewrite Forall_forall in *. intros b Hb. by apply B4', (list_elem_of_delete_inv _ i).
  - apply list_eq. intros k. subst l. rewrite list_lookup_fmap, list_lookup_delete, list_lookup_fmap.
    destruct (delete i addrs !! k) as [b|] eqn:Hb; rewrite list_lookup_delete in Hb; [|by rewrite Hb].
    destruct (Hin k b) as (j & _ & _ & Hne & Hbs); [by rewrite list_lookup_delete|].
    rewrite Hb. cbn. by rewrite Hnode.
  - rewrite Forall_forall in *. intros b Hb. by apply B6, (list_elem_of_delete_inv _ i).
  - intros b Hb Hl. assert (Hne : b <> a) by (intros ->; done). eapply delete_elem; [done| |done].
    apply B7; [done|]. pose proof (Hnode b Hb Hne) as E. unfold node in E. injection E as E _ _ _ _ _ _.
    by rewrite <- E.
  - rewrite <- B8. apply load32_ext. intros p Hp. apply Hf; lia.
Qed.

Lemma remove_removes m addrs l arg :
  board m addrs l ->
  match find_at l (u16 arg) with
  | None => mp1_ioctl_remove tr im arg m = Ok (-1, m)
  | Some i => exists m', mp1_ioctl_remove tr im arg m = Ok (0, m') /\
      board m' (delete i addrs) (delete i l) /\ changes listing_bytes [] m m'
  end.
Proof.
  intros B. unfold mp1_ioctl_remove. erewrite bind_ok by by apply find_finds.
  destruct (find_at l (u16 arg)) as [i|] eqn:Ef; [|done].
  destruct (found_addr m addrs l _ i B Ef) as (a & Ea & Hs & Hu & Ha & _ & _).
  pose proof (lookup_lt_Some _ _ _ Ea) as Hlt.
  rewrite (addr_at_some _ _ _ Ea), (proj2 (Z.eqb_neq a 0) Ha). bstep.
  erewrite bind_ok; [|unfold liftR, id; by rewrite (prev_found m addrs l i a B Ea)].
  destruct (prev_at_ok m addrs l i B) as [Hp _]; [lia|].
  destruct (prev_apart m addrs l i a B) as [Hpa Hpa']; [lia|done|].
  do 2 ustep. rewrite (bo_next _ _ _ B i a Ea). set (m1 := store32 m _ _).
  destruct (memset_page tr base a 0 16 m1) as (m' & E & Z1 & F1); [apply Hpl|lia|done|].
  unfold mp1_free. erewrite bind_ok by exact E. exists m'. split; [done|].
  assert (prev_at addrs i <> a + NEXT).
  { intros H. pose proof (prev_at_inj m addrs l i i a B Ea ltac:(lia) H). lia. }
  split.
  - apply (board_unlink m m' addrs l i a); try done.
    + replace (load32 m' (prev_at addrs i + base)) with (load32 m1 (prev_at addrs i + base)).
      * unfold m1. rewrite load32_store32_eq. apply u32_small. unfold addr_at.
        destruct (addrs !! S i) as [b|] eqn:Eb; [|cbn; lia]. cbn.
        pose proof (bo_slots _ _ _ B) as B4. rewrite Forall_forall in B4.
        destruct (slot_user b) as [Hub _]; [eapply B4, list_elem_of_lookup_2, Eb|]. place.
      * apply load32_ext. intros p Hp'. symmetry. apply F1. place.
    + unfold load16. rewrite !Z1 by place. done.
    + intros p H1 H2. rewrite F1 by done. unfold m1. apply mget_store32_ne. lia.
  - pose proof (pl_base Hpl). destruct places as (P1 & _ & P3 & _).
    assert (Hin : forall p, prev_at addrs i + base <= p < prev_at addrs i + base + 4 -> listing_bytes p).
    { intros p Hp'. unfold listing_bytes. destruct i as [|j]; cbn [prev_at] in Hp'; [by left|right].
      destruct (lookup_lt_is_Some_2 addrs j) as [c Ec]; [lia|]. rewrite (addr_at_some _ _ _ Ec) in Hp'.
      pose proof (bo_slots _ _ _ B) as B4. rewrite Forall_forall in B4.
      destruct (B4 c) as (x & Hx & ->); [by eapply list_elem_of_lookup_2|]. place. }
    apply changes_quiet.
    + intros p Hp'. unfold listing_bytes. place.
    + intros p Hn. rewrite F1.
      * unfold m1. apply mget_store32_ne. destruct (decide (prev_at addrs i + base <= p < prev_at addrs i + base + 4));
          [|lia]. exfalso. apply Hn, Hin. lia.
      * intros H'. apply Hn. right. destruct Hs as (x & Hx & ->). place.
Qed.

(** ** Adding *)

(** What is outside the variables of the list does not matter to it. *)
Definition board_bytes (p : Z) : Prop :=
  listing_bytes p \/ vmem_base_addr im + base <= p < vmem_base_addr im + base + 4.

Lemma board_same m m' addrs l :
  board m addrs l -> (forall p, board_bytes p -> mget m' p = mget m p) -> board m' addrs l.
Proof.
  intros [B1 B2 B3 B4 B5 B6 B7 B8] Hf. unfold board_bytes, listing_bytes in Hf.
  assert (Hslot : forall a p, is_slot a -> a + base <= p < a + base + 16 -> mget m' p = mget m p).
  { intros a p (i & Hi & ->) Hp. apply Hf. place. }
  pose proof B4 as B4'. rewrite Forall_forall in B4'. split; try done.
  - rewrite <- B1. apply load32_ext. intros p Hp. apply Hf. lia.
  - intros k a Ha. rewrite <- (B2 k a Ha). apply load32_ext. intros p Hp. apply (Hslot a); [|place].
    eapply B4', list_elem_of_lookup_2, Ha.
  - rewrite B5. apply map_ext_in. intros a Ha. apply list_elem_of_In in Ha. apply node_ext.
    intros p Hp. symmetry. apply (Hslot a); [auto|lia].
  - intros a Ha Hl. apply B7; [done|]. erewrite load16_ext; [exact Hl|]. intros p Hp. symmetry.
    apply (Hslot a); [done|place].
  - rewrite <- B8. apply load32_ext. intros p Hp. apply Hf. lia.
Qed.

Lemma malloc_from_ok m n i :
  0 <= i -> i + Z.of_nat n <= 2000 ->
  (malloc_from tr im n i m = Ok (0, m) /\
     forall j, i <= j < i + Z.of_nat n -> load16 m (blink_array im + STRUCT_SIZE * j + LOCATION + base) <> 0) \/
  (exists a, malloc_from tr im n i m = Ok (a, m) /\ is_slot a /\ load16 m (a + LOCATION + base) = 0).
Proof.
  destruct places as (_ & _ & P3 & _). revert i. induction n as [|n IH]; intros i Hi Hn; cbn [malloc_from].
  - left. split; [done|]. intros j Hj. lia.
  - ustep. destruct (Z.eqb_spec (load16 m (blink_array im + STRUCT_SIZE * i + LOCATION + base)) 0) as [E|E].
    + right. eexists. split; [done|]. split; [|done]. exists i. split; [lia|done].
    + destruct (IH (i + 1)) as [[E1 H1]|(a & E1 & H1)]; [lia..| |].
      * left. split; [done|]. intros j Hj. destruct (decide (j = i)) as [->|]; [done|]. apply H1. lia.
      * right. by exists a.
Qed.

(** There is room exactly while the list has fewer than 2000 elements. *)
Lemma malloc_room m addrs l :
  board m addrs l ->
  if zlen l <? 2000 then
    (exists a, mp1_malloc tr im STRUCT_SIZE m = Ok (a, m) /\ is_slot a /\ (a ∉ addrs) /\
      load16 m (a + LOCATION + base) = 0)
  else mp1_malloc tr im STRUCT_SIZE m = Ok (0, m).
Proof.
  intros [_ _ B3 B4 B5 B6 B7 _]. unfold mp1_malloc.
  assert (El : zlen l = zlen addrs) by (subst l; by rewrite length_map).
  destruct (malloc_from_ok m (80 * 25) 0) as [[E H]|(a & E & Hs & H0)]; [lia..| |]; rewrite E, El.
  - rewrite (proj2 (Z.ltb_ge _ _)); [done|]. change 2000 with (Z.of_nat 2000). rewrite <- length_slots.
    apply inj_le, NoDup_incl_length.
    + unfold slots. apply Finite.Injective_map_NoDup; [|apply seq_NoDup]. intros x y Hxy. place.
    + intros a Ha. apply list_elem_of_In, elem_slots in Ha. apply list_elem_of_In, B7; [done|].
      destruct Ha as (i & Hi & ->). apply H. lia.
  - assert (Hn : a ∉ addrs).
    { intros Ha. subst l. rewrite Forall_map, Forall_forall in B6. specialize (B6 a Ha). cbn [b_loc node] in B6.
      lia. }
    rewrite (proj2 (Z.ltb_lt _ _)); [by exists a|].
    pose proof (board_length (a :: addrs)) as H. cbn in H. rewrite Forall_cons, NoDup_cons in H.
    specialize (H ltac:(done) ltac:(done)). lia.
Qed.

(** A new structure [a] in front of the list. *)
Lemma board_link m m' addrs l a :
  board m addrs l -> is_slot a -> a ∉ addrs ->
  load32 m' (mp1_list_head im + base) = a -> load32 m' (a + NEXT + base) = addr_at addrs 0 ->
  0 < b_loc (node m' a) < 2000 ->
  (forall p, board_bytes p -> ~ (mp1_list_head im + base <= p < mp1_list_head im + base + 4) ->
     ~ (a + base <= p < a + base + 16) -> mget m' p = mget m p) ->
  board m' (a :: addrs) (node m' a :: l).
Proof.
  intros [B1 B2 B3 B4 B5 B6 B7 B8] Hs Hna Hh Hn Hl Hf. pose proof B4 as B4'. rewrite Forall_forall in B4'.
  destruct (slot_apart a Hs) as (_ & A2 & _).
  pose proof (places_apart _ _ 0 1 ltac:(lia) eq_refl eq_refl) as V. unfold disjoint in V. cbn in V.
  assert (Hslot : forall b p, is_slot b -> b <> a -> b + base <= p < b + base + 16 -> mget m' p = mget m p).
  { intros b p Hb Hne Hp. destruct (slot_apart b Hb) as (H1 & _).
    pose proof (slots_apart a b Hs Hb ltac:(done)). apply Hf; [|lia..]. unfold board_bytes, listing_bytes.
    destruct Hb as (i & Hi & ->). place. }
  assert (Hnode : forall b, is_slot b -> b <> a -> node m' b = node m b).
  { intros b Hb Hne. apply node_ext. intros p Hp. apply (Hslot b); [done..|lia]. }
  assert (Hneq : forall b, b ∈ addrs -> b <> a) by (by intros b Hb ->).
  split; try done.
  - intros [|k] b Hb; cbn in Hb; [by injection Hb as <-|]. change (addr_at (a :: addrs) (S (S k))) with (addr_at addrs (S k)).
    rewrite <- (B2 k b Hb). apply list_elem_of_lookup_2 in Hb. apply load32_ext. intros p Hp.
    apply (Hslot b); [auto..|place].
  - by apply NoDup_cons.
  - by apply Forall_cons.
  - cbn. f_equal. rewrite B5. apply map_ext_in. intros b Hb. apply list_elem_of_In in Hb.
    symmetry. apply Hnode; auto.
  - by apply Forall_cons.
  - intros b Hb Hbl. apply list_elem_of_In. destruct (decide (b = a)) as [->|Hne]; [by left|right].
    apply list_elem_of_In, B7; [done|]. pose proof (Hnode b Hb Hne) as E. unfold node in E. injection E as E _ _ _ _ _ _.
    by rewrite <- E.
  - rewrite <- B8. apply load32_ext. intros p Hp. apply Hf; [by right|lia..].
Qed.

(** A structure of the caller, outside the variables. *)
Definition arg_apart (arg : Z) : Prop := in_user arg 16 /\ Forall (disjoint (arg, 16)) blocks.

(** What a command may change, the screen apart. *)
Definition own (p : Z) : Prop :=
  listing_bytes p \/ add_temp im + base <= p < add_temp im + base + 16 \/
  find_temp im + base <= p < find_temp im + base + 2.

Lemma own_high p : p < 8388608 -> ~ own p.
Proof.
  intros Hp. pose proof (pl_base Hpl). destruct places as (P1 & P2 & P3 & P4 & P5).
  unfold own, listing_bytes. place.
Qed.

Lemma temps_apart :
  (forall p, add_temp im + base <= p < add_temp im + base + 16 -> ~ board_bytes p) /\
  (forall p, find_temp im + base <= p < find_temp im + base + 2 -> ~ board_bytes p).
Proof.
  pose proof (places_apart _ _ 0 3 ltac:(lia) eq_refl eq_refl) as H1.
  pose proof (places_apart _ _ 1 3 ltac:(lia) eq_refl eq_refl) as H2.
  pose proof (places_apart _ _ 2 3 ltac:(lia) eq_refl eq_refl) as H3.
  pose proof (places_apart _ _ 0 4 ltac:(lia) eq_refl eq_refl) as H4.
  pose proof (places_apart _ _ 1 4 ltac:(lia) eq_refl eq_refl) as H5.
  pose proof (places_apart _ _ 2 4 ltac:(lia) eq_refl eq_refl) as H6.
  unfold disjoint, board_bytes, listing_bytes in *. cbn in *. split; intros p Hp; lia.
Qed.

Lemma node_move m m' a b :
  (forall i, 0 <= i < 12 -> mget m' (a + base + i) = mget m (b + base + i)) -> node m' a = node m b.
Proof.
  intros H. unfold node, load16. fields.
  assert (E : forall o, 0 <= o < 12 -> mget m' (a + o + base) = mget m (b + o + base)).
  { intros o Ho. replace (a + o + base) with (a + base + o) by lia. rewrite H by done. f_equal. lia. }
  assert (E1 : forall o, 0 <= o < 11 -> mget m' (a + o + base + 1) = mget m (b + o + base + 1)).
  { intros o Ho. replace (a + o + base + 1) with (a + (o + 1) + base) by lia. rewrite E by lia. f_equal. lia. }
  rewrite !E, !E1 by lia. done.
Qed.

(** The first half of [add]: the structure is copied and switched on. *)
Lemma add_copies m arg :
  arg_apart arg ->
  exists m1, ece391_memcpy tr (add_temp im) arg STRUCT_SIZE m = Ok (0, m1) /\
    node m1 (add_temp im) = node m arg /\
    (forall p, ~ (add_temp im + base <= p < add_temp im + base + 16) -> mget m1 p = mget m p).
Proof.
  intros [Ha Hd]. destruct places as (_ & _ & _ & P4 & _).
  unfold blocks in Hd. rewrite !Forall_cons in Hd. unfold disjoint in Hd. cbn in Hd.
  destruct (memcpy_page (add_temp im) arg 16 m) as (m1 & E & C & F); [lia|done|done|lia|].
  exists m1. split_and!; [done| |done]. apply node_move. intros i Hi. apply C. lia.
Qed.

Lemma switched_on m t b :
  in_user t 16 -> node m t = b ->
  node (store16 (store16 m (t + STATUS + base) 1) (t + COUNTDOWN + base)
     (load16 (store16 m (t + STATUS + base) 1) (t + ON_LENGTH + base))) t = begun b.
Proof.
  intros Hu <-. unfold begun, set_status, set_count, node. fields. mem_simpl.
  by rewrite u16_load16.
Qed.

(** The second half: the copy becomes the first structure of the list. *)
Lemma add_links m addrs l a b :
  board m addrs l -> is_slot a -> a ∉ addrs -> node m (add_temp im) = b -> 0 < b_loc b < 2000 ->
  exists m', (_ ← ece391_memcpy tr a (add_temp im) STRUCT_SIZE;
      head ← uld32 tr (mp1_list_head im);
      ust32 tr (a + NEXT) head ;; ust32 tr (mp1_list_head im) a ;;
      loc ← uld16 tr (a + LOCATION); cl ← uld8 tr (a + ON_CHAR);
      mp1_poke tr im cl (Z.shiftl loc 1) ;; mret 0) m = Ok (0, m') /\
    board m' (a :: addrs) (b :: l) /\ changes own [(b_loc b, b_on b)] m m'.
Proof.
  intros B Hs Hna Hb Hl. destruct (slot_user a Hs) as [Hu Ha]. destruct (slot_apart a Hs) as (A1 & A2 & A3 & _).
  destruct places as (P1 & P2 & P3 & P4 & _). pose proof (pl_base Hpl) as Hbase.
  pose proof (places_apart _ _ 0 1 ltac:(lia) eq_refl eq_refl) as V. unfold disjoint in V. cbn in V.
  destruct (memcpy_page a (add_temp im) 16 m) as (m1 & E1 & C1 & F1); [lia|done|done|lia|].
  assert (N1 : node m1 a = b) by (rewrite <- Hb; apply node_move; intros; apply C1; lia).
  assert (H1 : load32 m1 (mp1_list_head im + base) = addr_at addrs 0).
  { rewrite <- (bo_head _ _ _ B). apply load32_ext. intros p Hp. apply F1. lia. }
  erewrite bind_ok by exact E1. do 3 ustep. rewrite H1.
  set (m2 := store32 (store32 m1 _ _) _ a).
  assert (N2 : node m2 a = b).
  { rewrite <- N1. apply node_ext. intros p Hp. unfold m2. fields. rewrite !mget_store32_ne by lia. done. }
  assert (L2 : load16 m2 (a + LOCATION + base) = b_loc b) by (by rewrite <- N2).
  assert (O2 : mget m2 (a + ON_CHAR + base) = b_on b) by (by rewrite <- N2).
  assert (F2 : forall p, ~ (mp1_list_head im + base <= p < mp1_list_head im + base + 4) ->
    ~ (a + base <= p < a + base + 16) -> mget m2 p = mget m p).
  { intros p Hp1 Hp2. unfold m2. fields. rewrite !mget_store32_ne by lia. apply F1. lia. }
  do 2 ustep. rewrite L2, O2.
  erewrite bind_ok; [|apply poke_screen; [|lia]].
  2:{ rewrite <- (bo_vmem _ _ _ B). apply load32_ext. intros p Hp. apply F2; lia. }
  eexists. split; [done|]. set (m3 := mset m2 _ _).
  assert (Hcell : forall p, 8388608 <= p -> mget m3 p = mget m2 p).
  { intros p Hp. unfold m3. apply mget_mset_ne. fields. lia. }
  assert (N3 : node m3 a = b) by (rewrite <- N2; apply node_ext; intros; apply Hcell; place).
  assert (Hhead : 0 <= addr_at addrs 0 < 4294967296) by (rewrite <- H1; apply load32_range).
  split.
  - rewrite <- N3. apply (board_link m); try done.
    + rewrite <- (u32_small a) at 1 by place. rewrite <- (load32_store32_eq (store32 m1 (a + NEXT + base) (addr_at addrs 0))
        (mp1_list_head im + base) a). apply load32_ext. intros p Hp. apply Hcell. place.
    + rewrite <- (u32_small (addr_at addrs 0)) by done. rewrite <- (load32_store32_eq m1 (a + NEXT + base)).
      rewrite (load32_ext m3 m2) by (intros; apply Hcell; place). unfold m2. fields. by mem_simpl.
    + by rewrite N3.
    + intros p Hp Hp1 Hp2. rewrite Hcell; [by apply F2|]. unfold board_bytes, listing_bytes in Hp. place.
  - apply (changes_trans _ [] [(b_loc b, b_on b)] _ m2).
    + apply changes_quiet; [apply own_high|]. intros p Hp. unfold own, listing_bytes in Hp. apply F2; [tauto|].
      intros Hp'. apply Hp. left. right. destruct Hs as (i & Hi & ->). place.
    + apply changes_poke; [lia|]. rewrite <- O2. apply mget_range.
Qed.

Lemma add_adds m addrs l arg :
  let b := node m arg in
  board m addrs l -> arg_apart arg -> b_loc b <> 0 ->
  if (b_loc b <? 2000) && (zlen l <? 2000) then
    exists a m', mp1_ioctl_add tr im arg m = Ok (0, m') /\ board m' (a :: addrs) (begun b :: l) /\
      changes own [(b_loc b, b_on b)] m m'
  else exists m', mp1_ioctl_add tr im arg m = Ok (-1, m') /\ board m' addrs l /\ changes own [] m m'.
Proof.
  intros b B Harg Hloc. destruct (add_copies m arg Harg) as (m1 & E1 & N1 & F1). fold b in N1.
  destruct places as (_ & _ & _ & P4 & _). destruct temps_apart as [T _].
  assert (Hq : forall m2, (forall p, ~ (add_temp im + base <= p < add_temp im + base + 16) -> mget m2 p = mget m p) ->
    board m2 addrs l /\ changes own [] m m2).
  { intros m2 F2. split.
    - apply (board_same m); [done|]. intros p Hp. apply F2. intros Hp'. by eapply T.
    - apply changes_quiet; [apply own_high|]. intros p Hp. apply F2. unfold own in Hp. tauto. }
  assert (L1 : load16 m1 (add_temp im + LOCATION + base) = b_loc b) by (by rewrite <- N1).
  assert (Hr : 0 <= b_loc b < 65536) by (rewrite <- L1; apply load16_range).
  unfold mp1_ioctl_add. erewrite bind_ok by exact E1. cbn [Z.eqb negb]. ustep. rewrite L1.
  destruct (Z.leb_spec (80 * 25) (b_loc b)) as [Hbig|Hsmall].
  { rewrite (proj2 (Z.ltb_ge _ _)) by lia. cbn [andb]. exists m1. split; [done|]. by apply Hq. }
  rewrite (proj2 (Z.ltb_lt (b_loc b) 2000)) by lia. cbn [andb]. do 3 ustep.
  pose proof (switched_on m1 (add_temp im) b P4 N1) as N2. set (m2 := store16 (store16 _ _ _) _ _) in *.
  destruct (Hq m2) as [B2 C2].
  { intros p Hp. unfold m2. fields. rewrite !mget_store16_ne by lia. by apply F1. }
  pose proof (malloc_room m2 addrs l B2) as Hroom. destruct (zlen l <? 2000).
  - destruct Hroom as (a & E & Hs & Hna & _). erewrite bind_ok by exact E.
    destruct (slot_user a Hs) as [_ Ha]. rewrite (proj2 (Z.eqb_neq a 0) Ha).
    destruct (add_links m2 addrs l a (begun b) B2 Hs Hna N2) as (m' & E' & B' & C');
      [change (b_loc (begun b)) with (b_loc b); lia|].
    exists a, m'. split_and!; [exact E'|done|]. by apply (changes_trans _ [] _ _ m2).
  - erewrite bind_ok by exact Hroom. by exists m2.
Qed.

(** ** Synchronising *)

Lemma copies_timing m a c :
  is_slot a -> is_slot c ->
  exists m', (ax ← uld16 tr (a + ON_LENGTH); ust16 tr (c + ON_LENGTH) ax ;;
      ax ← uld16 tr (a + OFF_LENGTH); ust16 tr (c + OFF_LENGTH) ax ;;
      ax ← uld16 tr (a + COUNTDOWN); ust16 tr (c + COUNTDOWN) ax ;;
      ax ← uld16 tr (a + STATUS); ust16 tr (c + STATUS) ax) m = Ok (tt, m') /\
    node m' c = synced (node m a) (node m c) /\ changes (counters c) [] m m'.
Proof.
  intros Ha Hc. destruct (slot_user a Ha) as [Hu _]. destruct (slot_user c Hc) as [Hv _].
  do 7 ustep. rewrite ust16_page by place. eexists. split; [done|].
  assert (Hac : a = c \/ a + 16 <= c \/ c + 16 <= a).
  { destruct (decide (a = c)); [by left|]. destruct (slots_apart a c); tauto. }
  unfold synced, node. cbn [b_loc b_on b_off b_onlen b_offlen b_count b_status]. fields. split.
  - destruct Hac as [->|Hac]; mem_simpl; by rewrite !u16_load16.
  - apply counters_quiet; [done|]. intros p Hp. unfold counters in Hp. by mem_simpl.
Qed.

Lemma sync_syncs m addrs l arg :
  board m addrs l ->
  match find_at l (u16 (Z.shiftr arg 16)), find_at l (u16 (Z.land arg 65535)) with
  | Some i, Some j => exists b c m', l !! i = Some b /\ l !! j = Some c /\
      mp1_ioctl_sync tr im arg m = Ok (0, m') /\ board m' addrs (<[j := synced b c]> l) /\
      changes own [(b_loc c, b_off c)] m m'
  | _, _ => mp1_ioctl_sync tr im arg m = Ok (-1, m)
  end.
Proof.
  intros B. unfold mp1_ioctl_sync. erewrite bind_ok by by apply find_finds.
  destruct (find_at l (u16 (Z.shiftr arg 16))) as [i|] eqn:Ei; [|done].
  destruct (found_addr m addrs l _ i B Ei) as (a & Ea & Has & _ & Ha & La & _).
  rewrite (addr_at_some _ _ _ Ea), (proj2 (Z.eqb_neq a 0) Ha). erewrite bind_ok by by apply find_finds.
  destruct (find_at l (u16 (Z.land arg 65535))) as [j|] eqn:Ej; [|done].
  destruct (found_addr m addrs l _ j B Ej) as (c & Ec & Hcs & Hu & Hc & Lc & _).
  rewrite (addr_at_some _ _ _ Ec), (proj2 (Z.eqb_neq c 0) Hc).
  destruct (copies_timing m a c Has Hcs) as (m1 & E1 & N1 & C1).
  assert (T1 : changes (ticking addrs) [] m m1).
  { eapply changes_weaken; [|exact C1]. intros p Hp. exists c. split; [by eapply list_elem_of_lookup_2|done]. }
  pose proof (board_ticking m m1 [] addrs l B T1) as B1.
  assert (Hl : map (node m1) addrs = <[j := synced (node m a) (node m c)]> l).
  { apply list_eq. intros k. rewrite list_lookup_fmap, (bo_nodes _ _ _ B).
    destruct (decide (j = k)) as [<-|Hne].
    - rewrite list_lookup_insert_eq by (rewrite length_map; by eapply lookup_lt_Some).
      rewrite Ec. cbn. by rewrite N1.
    - rewrite list_lookup_insert_ne, list_lookup_fmap by done. destruct (addrs !! k) as [d|] eqn:Ed; [|done]. cbn. f_equal.
      pose proof (bo_slots _ _ _ B) as B4. rewrite Forall_forall in B4.
      assert (Hd : is_slot d) by (eapply B4, list_elem_of_lookup_2, Ed).
      assert (c <> d). { intros ->. apply Hne. eapply NoDup_lookup; [apply B|done..]. }
      apply (changes_node _ _ _ _ d C1 Hd). intros p Hp Hp'. unfold counters in Hp'.
      destruct (slots_apart c d); [done..| |]; lia. }
  rewrite Hl in B1. exists (node m a), (node m c).
  assert (Hlc : 0 < b_loc (node m c) < 2000).
  { pose proof (bo_locs _ _ _ B) as B6. rewrite Forall_forall in B6. eapply B6, list_elem_of_lookup_2, Lc. }
  pose proof (pl_base Hpl) as Hbase. destruct places as (P1 & P2 & P3 & _).
  exists (mset m1 (VIDEO + 2 * b_loc (node m c)) (b_off (node m c))). split_and!; [done|done| | |].
  - assert (E1' : forall k : ST mem Z, (ax ← uld16 tr (a + ON_LENGTH); ust16 tr (c + ON_LENGTH) ax ;;
      ax ← uld16 tr (a + OFF_LENGTH); ust16 tr (c + OFF_LENGTH) ax ;;
      ax ← uld16 tr (a + COUNTDOWN); ust16 tr (c + COUNTDOWN) ax ;;
      ax ← uld16 tr (a + STATUS); ust16 tr (c + STATUS) ax ;; k) m = k m1).
    { intros k. rewrite <- (bind_ok _ (fun _ => k) m tt m1 E1).
      repeat (rewrite bind_assoc; apply bind_ext; intros ? ?). done. }
    rewrite E1'. do 4 ustep.
    replace (load16 m1 (c + LOCATION + base)) with (b_loc (node m1 c)) by done.
    replace (mget m1 (c + OFF_CHAR + base)) with (b_off (node m1 c)) by done.
    rewrite N1. change (b_loc (synced _ _)) with (b_loc (node m c)).
    change (b_off (synced _ _)) with (b_off (node m c)).
    replace (Z.testbit (Z.land (mget m1 (c + STATUS + base)) 1) 7) with false
      by (rewrite Z.land_spec; by destruct (Z.testbit _ _)).
    erewrite bind_ok by (apply poke_screen; [apply B1|lia]). done.
  - apply (board_same m1); [done|]. intros p Hp. apply mget_mset_ne.
    unfold board_bytes, listing_bytes in Hp. fields. place.
  - apply (changes_trans _ [] [(b_loc (node m c), b_off (node m c))] _ m1).
    + eapply changes_weaken; [|exact C1]. intros p Hp. unfold own, listing_bytes, counters in *.
      destruct Hcs as (x & Hx & ->). place.
    + apply changes_poke; [lia|apply mget_range].
Qed.

(** ** Asking for one *)

Lemma find_answers m addrs l arg :
  board m addrs l -> arg_apart arg ->
  exists m', board m' addrs l /\
    changes (fun p => own p \/ arg + base <= p < arg + base + 16) [] m m' /\
    match find_at l (load16 m (arg + base)) with
    | Some i => mp1_ioctl_find tr im arg m = Ok (0, m') /\ l !! i = Some (node m' arg)
    | None => mp1_ioctl_find tr im arg m = Ok (-1, m')
    end.
Proof.
  intros B [Ha Hd]. destruct places as (P1 & P2 & P3 & P4 & P5). destruct temps_apart as [_ T].
  unfold blocks in Hd. rewrite !Forall_cons in Hd. unfold disjoint in Hd. cbn in Hd.
  destruct (memcpy_page (find_temp im) arg 2 m) as (m1 & E1 & C1 & F1); [lia|place|place|lia|].
  assert (B1 : board m1 addrs l).
  { apply (board_same m); [done|]. intros p Hp. apply F1. intros Hp'. by eapply T. }
  assert (Q1 : changes (fun p => own p \/ arg + base <= p < arg + base + 16) [] m m1).
  { pose proof (pl_base Hpl). apply changes_quiet.
    - intros p Hp [Ho|Ho]; [by apply (own_high p)|]. place.
    - intros p Hp. apply F1. unfold own in Hp. tauto. }
  assert (L1 : load16 m1 (find_temp im + base) = load16 m (arg + base)).
  { unfold load16. pose proof (C1 0 ltac:(lia)) as H0. pose proof (C1 1 ltac:(lia)) as H1.
    rewrite !Z.add_0_r in H0. by rewrite H0, H1. }
  unfold mp1_ioctl_find. erewrite bind_ok by exact E1. cbn [Z.eqb negb]. ustep. rewrite L1.
  erewrite bind_ok by by apply find_finds. rewrite u16_load16.
  destruct (find_at l (load16 m (arg + base))) as [i|] eqn:Ei; [|by exists m1].
  destruct (found_addr m1 addrs l _ i B1 Ei) as (a & Ea & Has & Hu & Hz & La & _).
  rewrite (addr_at_some _ _ _ Ea), (proj2 (Z.eqb_neq a 0) Hz).
  assert (Hap : arg + 16 <= a \/ a + 16 <= arg) by (destruct Has as (x & Hx & ->); place).
  destruct (memcpy_page arg a 16 m1) as (m2 & E2 & C2 & F2); [lia|done|done|lia|].
  erewrite bind_ok by exact E2. cbn [Z.eqb]. exists m2. split_and!; [| |done|].
  - apply (board_same m1); [done|]. intros p Hp. apply F2. unfold board_bytes, listing_bytes in Hp. lia.
  - apply (changes_trans _ [] [] _ m1); [done|]. pose proof (pl_base Hpl). apply changes_quiet.
    + intros p Hp [Ho|Ho]; [by apply (own_high p)|]. place.
    + intros p Hp. apply F2. tauto.
  - rewrite La. f_equal. symmetry. apply node_move. intros k Hk. apply C2. lia.
Qed.

(** ** The commands *)

Inductive request :=
  | Add (b : blink)
  | Remove (loc : Z)
  | Find (loc : Z)
  | Sync (src dst : Z).

(** The request that [arg] and [cmd] stand for. *)
Definition request_of (m : mem) (arg cmd : Z) : option request :=
  if cmd =? RTC_ADD then Some (Add (node m arg))
  else if cmd =? RTC_REMOVE then Some (Remove (u16 arg))
  else if cmd =? RTC_FIND then Some (Find (load16 m (arg + base)))
  else if cmd =? RTC_SYNC then Some (Sync (u16 (Z.shiftr arg 16)) (u16 (Z.land arg 65535)))
  else None.

(** The answer, the list after it, the characters drawn, and the one that
    is handed back. *)
Definition answer (l : list blink) (r : request) : Z * list blink * list (Z * Z) * option blink :=
  match r with
  | Add b =>
      if (b_loc b <? 2000) && (zlen l <? 2000) then (0, begun b :: l, [(b_loc b, b_on b)], None)
      else (-1, l, [], None)
  | Remove loc =>
      match find_at l loc with Some i => (0, delete i l, [], None) | None => (-1, l, [], None) end
  | Find loc =>
      match find_at l loc with Some i => (0, l, [], l !! i) | None => (-1, l, [], None) end
  | Sync src dst =>
      match find_at l src ≫= (l !!.), find_at l dst, find_at l dst ≫= (l !!.) with
      | Some b, Some j, Some c => (0, <[j := synced b c]> l, [(b_loc c, b_off c)], None)
      | _, _, _ => (-1, l, [], None)
      end
  end.

(** Where a pointer is passed it points to a structure of the caller; a
    character that is added has a location other than 0. *)
Definition request_ok (m : mem) (arg cmd : Z) : Prop :=
  (cmd = RTC_ADD -> arg_apart arg /\ b_loc (node m arg) <> 0) /\ (cmd = RTC_FIND -> arg_apart arg).

Definition reach (arg cmd p : Z) : Prop :=
  own p \/ (cmd = RTC_FIND /\ arg + base <= p < arg + base + 16).

Lemma found_at m addrs l loc i :
  board m addrs l -> find_at l loc = Some i -> exists b, l !! i = Some b.
Proof. intros B H. destruct (found_addr m addrs l loc i B H) as (a & _ & _ & _ & _ & E & _). by eexists. Qed.

Lemma reach_listing arg cmd ps m m' : changes listing_bytes ps m m' -> changes (reach arg cmd) ps m m'.
Proof. apply changes_weaken. intros p Hp. left. by left. Qed.

Lemma reach_own arg cmd ps m m' : changes own ps m m' -> changes (reach arg cmd) ps m m'.
Proof. apply changes_weaken. intros p Hp. by left. Qed.

(** The commands of [mp1_ioctl] implement requests to a list of blinking
    characters: they answer as the list does, leave the list after the
    request in memory, draw its characters and change nothing else. *)
Lemma ioctl_answers m addrs l arg cmd r v l' ps out :
  board m addrs l -> request_ok m arg cmd -> request_of m arg cmd = Some r ->
  answer l r = (v, l', ps, out) ->
  exists m' addrs', mp1_ioctl tr im arg cmd m = Ok (v, m') /\ board m' addrs' l' /\
    changes (reach arg cmd) ps m m' /\ (forall b, out = Some b -> node m' arg = b).
Proof.
  intros B [Ha Hf] Hr. unfold request_of in Hr. unfold mp1_ioctl.
  destruct (Z.eqb_spec cmd RTC_ADD) as [->|_]; [|destruct (Z.eqb_spec cmd RTC_REMOVE) as [->|_];
    [|destruct (Z.eqb_spec cmd RTC_FIND) as [->|_]; [|destruct (Z.eqb_spec cmd RTC_SYNC) as [->|_]; [|done]]]];
    injection Hr as <-; cbn [answer].
  - destruct (Ha eq_refl) as [Harg Hloc]. pose proof (add_adds m addrs l arg B Harg Hloc) as H. cbv zeta in H.
    destruct (_ && _); [destruct H as (a & m' & E & B' & C)|destruct H as (m' & E & B' & C)];
      intros [= <- <- <- <-]; eexists m', _; split_and!; try done; by apply reach_own.
  - pose proof (remove_removes m addrs l arg B) as H.
    destruct (find_at l (u16 arg)) as [i|]; [destruct H as (m' & E & B' & C)|]; intros [= <- <- <- <-].
    + exists m', (delete i addrs). split_and!; try done. by apply reach_listing.
    + exists m, addrs. by split_and!.
  - destruct (find_answers m addrs l arg B (Hf eq_refl)) as (m' & B' & C & H).
    assert (C' : changes (reach arg RTC_FIND) [] m m').
    { eapply changes_weaken; [|exact C]. intros p [?|?]; [by left|by right]. }
    destruct (find_at l (load16 m (arg + base))) as [i|]; intros [= <- <- <- <-]; exists m', addrs.
    + destruct H as [E Hl]. split_and!; try done. intros b Hb. rewrite Hl in Hb. by injection Hb.
    + by split_and!.
  - pose proof (sync_syncs m addrs l arg B) as H.
    destruct (find_at l (u16 (Z.shiftr arg 16))) as [i|] eqn:Ei; cbn [mbind option_bind].
    + destruct (found_at m addrs l _ i B Ei) as [b Eb]. rewrite Eb.
      destruct (find_at l (u16 (Z.land arg 65535))) as [j|] eqn:Ej; cbn [mbind option_bind].
      * destruct H as (b' & c & m' & Hb & Hc & E & B' & C). rewrite Eb in Hb. injection Hb as <-. rewrite Hc.
        intros [= <- <- <- <-]. exists m', addrs. split_and!; try done. by apply reach_own.
      * intros [= <- <- <- <-]. exists m, addrs. by split_and!.
    + intros [= <- <- <- <-]. exists m, addrs. by split_and!.
Qed.

(** The variables as [main] of fish sets them up: no structure yet. *)
Lemma board_empty m :
  load32 m (mp1_list_head im + base) = 0 -> load32 m (vmem_base_addr im + base) = 142606336 ->
  (forall p, blink_array im + base <= p < blink_array im + base + 32000 -> mget m p = 0) ->
  board m [] [].
Proof.
  intros H1 H2 H3. split; try done; try constructor.
  intros a Ha Hl. destruct Hl. destruct Ha as (i & Hi & ->). unfold load16. rewrite !H3 by place. done.
Qed.

(** ** The interface of blink.S *)

(** A call of the program: a command or a tick. *)
Inductive call :=
  | Ioctl (arg cmd : Z)
  | Tasklet.

Definition run_call (c : call) : ST mem Z :=
  match c with
  | Ioctl arg cmd => mp1_ioctl tr im arg cmd
  | Tasklet => mp1_rtc_tasklet tr im ;; mret 0
  end.

Definition call_ok (m : mem) (c : call) : Prop :=
  match c with Ioctl arg cmd => request_ok m arg cmd | Tasklet => True end.

Definition abs_call (m : mem) (l : list blink) (c : call)
  : option (Z * list blink * list (Z * Z) * option blink) :=
  match c with
  | Ioctl arg cmd => answer l <$> request_of m arg cmd
  | Tasklet => Some (0, fst (tick_all l), snd (tick_all l), None)
  end.

Definition call_bytes (c : call) : Z -> Prop :=
  match c with Ioctl arg cmd => reach arg cmd | Tasklet => own end.

Lemma ticking_own addrs p : Forall is_slot addrs -> ticking addrs p -> own p.
Proof.
  intros Hs (a & Ha & Hc). rewrite Forall_forall in Hs. destruct (Hs a Ha) as (i & Hi & ->).
  left. right. unfold counters in Hc. place.
Qed.

(** C9: The routines of blink.S implement a list of blinking characters: each
    call answers as the list does, leaves in memory the list after the call,
    puts on the screen the characters that the call draws, in their order,
    and changes nothing else. *)
Theorem blink_refines_list m addrs l c v l' ps out :
  board m addrs l -> call_ok m c -> abs_call m l c = Some (v, l', ps, out) ->
  exists m' addrs', run_call c m = Ok (v, m') /\ board m' addrs' l' /\
    changes (call_bytes c) ps m m' /\
    (forall arg cmd b, c = Ioctl arg cmd -> out = Some b -> node m' arg = b).
Proof.
  intros B Hok Habs. destruct c as [arg cmd|]; cbn in *.
  - destruct (request_of m arg cmd) as [r|] eqn:Er; [|done]. injection Habs as Habs.
    destruct (ioctl_answers m addrs l arg cmd r v l' ps out B Hok Er Habs) as (m' & addrs' & E & B' & C & N).
    exists m', addrs'. split_and!; try done. intros arg' cmd' b [= <- <-]. apply N.
  - injection Habs as <- <- <- <-. destruct (tasklet_ticks m addrs l B) as (m' & E & B' & C).
    exists m', addrs. erewrite bind_ok by exact E. split_and!; try done.
    eapply changes_weaken; [|exact C]. intros p. apply ticking_own, B.
Qed.
End Board.
