(* ===== verification/Fish.v ===== *)
(** * The program fish (fish/fish.c)

    An animation: two text files are read, and every character in which they
    differ from a blank blinks between the one and the other, driven by the
    ticks of the clock.  The program writes to the screen through the page
    that [vidmap] gives it. *)

From Stdlib Require Import ZArith Lia String Ascii.
From stdpp Require Import base numbers list gmap.
From S2P Require Import Prelude Mem CString FileSys Console Machine Pic Paging Rtc Pcb Exec Line.
From S2P Require Import Syscall Terminal Keyboard User Program Support Reader Clock Blink.

Local Open Scope Z_scope.

(** ** The code *)

Definition WAIT : Z := 200.

(** Addresses are virtual; a pointer passed to the kernel is [base] away. *)
Record fish_image := FishImage {
  fi_blink : blink_image;
  fi_struct : Z;       (** [blink_struct] of [main] *)
  fi_frame : Z;        (** [blink_struct] of [add_frames] *)
  fi_c0 : Z;
  fi_c1 : Z;
  fi_ret_val : Z;
  fi_garbage : Z;
  fi_rtc : Z;          (** "rtc" *)
  fi_file0 : Z;        (** [file0], "frame0.txt" *)
  fi_file1 : Z;        (** [file1], "frame1.txt" *)
}.

(** Where the page tables that the processor uses lead. *)
Definition tr_of (lay : layout) (k : kernel) (va : Z) : option Z :=
  match mmu k with Some (pd, pt) => translate lay true pd pt va | None => None end.

Section Code.
Context (lay : layout) (ks : kstack) (im : fish_image) (base : Z).

(** Code of the program between its system calls. *)
Definition on_user {A} (c : (Z -> option Z) -> ST mem A) : UP A := fun k =>
  match c (tr_of lay k) (kmem k) with
  | Ok (a, m) => Ok (inl a, set_kmem m k)
  | Err e => Err e
  end.

Definition ioctl (arg cmd : Z) : UP Z := on_user (fun tr => mp1_ioctl tr (fi_blink im) arg cmd).

Definition mp1_set_video_mode : UP Z :=
  let! r := ece391_vidmap lay ks (vmem_base_addr (fi_blink im)) in
  if r =? -1 then uret 0 else on_user (fun tr => uld32 tr (vmem_base_addr (fi_blink im))).

(** The next character of one file, at [c]; whether the file has ended. *)
Definition next_char (fd c eof : Z) : UP Z :=
  let! x := on_user (fun tr => uld8 tr c) in
  if x =? LF then uret eof
  else
    let! num_bytes := ece391_read lay ks fd (c + base) 1 in
    if num_bytes =? 0 then let! _ := on_user (fun tr => ust8 tr c LF) in uret 1 else uret eof.

Definition offset : Z := 40.

(** A character of the two frames: blinking, unless it is blank in both. *)
Definition add_char (row col c0 c1 : Z) : UP unit :=
  if (negb (c0 =? SP) && negb (c0 =? LF)) || (negb (c1 =? SP) && negb (c1 =? LF)) then
    let! _ := on_user (fun tr => ust8 tr (fi_frame im + ON_CHAR) (if c0 =? LF then SP else c0)) in
    let! _ := on_user (fun tr => ust8 tr (fi_frame im + OFF_CHAR) (if c1 =? LF then SP else c1)) in
    let! _ := on_user (fun tr => ust16 tr (fi_frame im + LOCATION) (row * 80 + col + offset)) in
    let! _ := ioctl (fi_frame im) RTC_ADD in uret tt
  else uret tt.

(** One turn of the loop over the columns: whether it was the last one, and
    the two flags. *)
Definition col_body (fd0 fd1 row col eof0 eof1 : Z) : UP (bool * (Z * Z)) :=
  let! eof0 := next_char fd0 (fi_c0 im) eof0 in
  let! eof1 := next_char fd1 (fi_c1 im) eof1 in
  let! c0 := on_user (fun tr => uld8 tr (fi_c0 im)) in
  let! c1 := on_user (fun tr => uld8 tr (fi_c1 im)) in
  if (c0 =? LF) && (c1 =? LF) then uret (true, (eof0, eof1))
  else let! _ := add_char row col c0 c1 in uret (false, (eof0, eof1)).

Definition col_step (fd0 fd1 row : Z) (st : Z * Z * Z * kernel)
  : (Z * Z * Z * kernel) + res ((Z * Z + sysret) * kernel) :=
  let '(col, eof0, eof1, k) := st in
  match col_body fd0 fd1 row col eof0 eof1 k with
  | Err e => inr (Err e)
  | Ok (inr r, k1) => inr (Ok (inr r, k1))
  | Ok (inl (true, r), k1) => inr (Ok (inl r, k1))
  | Ok (inl (false, (eof0, eof1)), k1) => inl (col + 1, eof0, eof1, k1)
  end.
Definition col_loop (fd0 fd1 row eof0 eof1 : Z) : UP (Z * Z) := fun k =>
  while (col_step fd0 fd1 row) (0, eof0, eof1, k).

(** After a row. *)
Definition end_row (fd c eof : Z) : UP unit :=
  if negb (eof =? 0) then
    let! _ := on_user (fun tr => ust8 tr c LF) in
    let! _ := ece391_close lay ks fd in uret tt
  else on_user (fun tr => ust8 tr c (chr "0")).

Definition row_body (fd0 fd1 row eof0 eof1 : Z) : UP (Z * Z) :=
  let! (eof0, eof1) := col_loop fd0 fd1 row eof0 eof1 in
  let! _ := end_row fd0 (fi_c0 im) eof0 in
  let! _ := end_row fd1 (fi_c1 im) eof1 in
  uret (eof0, eof1).

Definition row_step (fd0 fd1 : Z) (st : Z * Z * Z * kernel)
  : (Z * Z * Z * kernel) + res ((unit + sysret) * kernel) :=
  let '(row, eof0, eof1, k) := st in
  if (eof0 =? 0) || (eof1 =? 0) then
    match row_body fd0 fd1 row eof0 eof1 k with
    | Err e => inr (Err e)
    | Ok (inr r, k1) => inr (Ok (inr r, k1))
    | Ok (inl (eof0, eof1), k1) => inl (row + 1, eof0, eof1, k1)
    end
  else inr (Ok (inl tt, k)).

Definition add_frames (f0 f1 rtc_fd : Z) : UP unit :=
  let! _ := on_user (fun tr => ust8 tr (fi_c0 im) (chr "0")) in
  let! _ := on_user (fun tr => ust8 tr (fi_c1 im) (chr "0")) in
  let! _ := on_user (fun tr => ust16 tr (fi_frame im + ON_LENGTH) 15) in
  let! _ := on_user (fun tr => ust16 tr (fi_frame im + OFF_LENGTH) 15) in
  let! fd0 := ece391_open lay ks (f0 + base) in
  let! _ := (if fd0 <? 0 then ece391_halt lay ks (-1) else uret 0) in
  let! fd1 := ece391_open lay ks (f1 + base) in
  let! _ := (if fd1 <? 0 then ece391_halt lay ks (-1) else uret 0) in
  fun k => while (row_step fd0 fd1) (0, 0, 0, k).

(** [main] up to its first loop: the descriptor of the clock, or nothing
    when the screen cannot be mapped. *)
Definition fish_setup : UP (option Z) :=
  let! _ := on_user (fun tr => ece391_memset tr (blink_array (fi_blink im)) 0 (STRUCT_SIZE * 80 * 25)) in
  let! base_addr := mp1_set_video_mode in
  if base_addr =? 0 then uret None
  else
    let! rtc_fd := ece391_open lay ks (fi_rtc im + base) in
    let! _ := add_frames (fi_file0 im) (fi_file1 im) rtc_fd in
    let! _ := on_user (fun tr => ust32 tr (fi_ret_val im) 32) in
    let! r := ece391_write lay ks rtc_fd (fi_ret_val im + base) 4 in
    let! _ := on_user (fun tr => ust32 tr (fi_ret_val im) r) in
    uret (Some rtc_fd).

(** Which of the four loops runs, and its [i]. *)
Record fish_pc := FishPc { fp_loop : Z; fp_i : Z }.

Definition fish_limit (loop : Z) : Z := if loop =? 3 then 80 * 25 else WAIT.

(** What follows a loop. *)
Definition after_loop (rtc_fd loop i : Z) : UP unit :=
  if loop =? 0 then
    let! _ := on_user (fun tr => ust8 tr (fi_struct im + ON_CHAR) (chr "I")) in
    let! _ := on_user (fun tr => ust8 tr (fi_struct im + OFF_CHAR) (chr "M")) in
    let! _ := on_user (fun tr => ust16 tr (fi_struct im + ON_LENGTH) 7) in
    let! _ := on_user (fun tr => ust16 tr (fi_struct im + OFF_LENGTH) 6) in
    let! _ := on_user (fun tr => ust16 tr (fi_struct im + LOCATION) (6 * 80 + 60)) in
    let! _ := ioctl (fi_struct im) RTC_ADD in uret tt
  else if loop =? 1 then
    let! _ := ioctl (Z.lor (Z.shiftl 40 16) (6 * 80 + 60)) RTC_SYNC in uret tt
  else if loop =? 2 then
    let! _ := on_user (fun tr => ust16 tr (fi_struct im + LOCATION) 60) in
    let! _ := ioctl i RTC_REMOVE in uret tt
  else let! _ := ece391_close lay ks rtc_fd in uret tt.

(** The loops, while the [read] of the clock returns at once. *)
Definition fish_step (rtc_fd : Z) (s : fish_pc * kernel)
  : (fish_pc * kernel) + res ((fish_pc * (Z + sysret)) * kernel) :=
  let '(pc, k) := s in
  if fp_i pc <? fish_limit (fp_loop pc) then
    match (let! _ := ece391_read lay ks rtc_fd (fi_garbage im + base) 4 in
           on_user (fun tr => mp1_rtc_tasklet tr (fi_blink im))) k with
    | Err e => inr (Err e)
    | Ok (inr r, k1) => inr (Ok ((pc, inr r), k1))
    | Ok (inl _, k1) => inl (FishPc (fp_loop pc) (fp_i pc + 1), k1)
    end
  else
    match after_loop rtc_fd (fp_loop pc) (fp_i pc) k with
    | Err e => inr (Err e)
    | Ok (inr r, k1) => inr (Ok ((pc, inr r), k1))
    | Ok (inl _, k1) =>
        if fp_loop pc =? 3 then inr (Ok ((pc, inl 0), k1)) else inl (FishPc (fp_loop pc + 1) 0, k1)
    end.
Definition fish_loop (rtc_fd : Z) (pc : fish_pc) : ST kernel (fish_pc * (Z + sysret)) :=
  fun k => while (fish_step rtc_fd) (pc, k).

Definition fish_main : ST kernel (fish_pc * (Z + sysret)) :=
  x ← fish_setup;
  match x with
  | inl (Some rtc_fd) => fish_loop rtc_fd (FishPc 0 0)
  | inl None => mret (FishPc 0 0, inl (-1))
  | inr r => mret (FishPc 0 0, inr r)
  end.

(** When the [read] of the clock goes on. *)
Definition fish_after_read (rtc_fd : Z) (pc : fish_pc) : ST kernel (fish_pc * (Z + sysret)) :=
  x ← (let! _ := read_resume lay rtc_fd (fi_garbage im + base) 4 in
       on_user (fun tr => mp1_rtc_tasklet tr (fi_blink im)));
  match x with
  | inl _ => fish_loop rtc_fd (FishPc (fp_loop pc) (fp_i pc + 1))
  | inr r => mret (pc, inr r)
  end.

(** Ticks of the clock while it waits; register C answers [regcs]. *)
Fixpoint fish_ticks (rtc_fd : Z) (regcs : list Z) (pc : fish_pc) : ST kernel (fish_pc * (Z + sysret)) :=
  match regcs with
  | [] => mret (pc, inr Waiting)
  | regc :: regcs =>
      _idt_rtc_irq_handler regc ;;
      '(pc', r) ← fish_after_read rtc_fd pc;
      match r with inr Waiting => fish_ticks rtc_fd regcs pc' | _ => mret (pc', r) end
  end.
End Code.

(** ** What the program sees *)

(** Characters put on the screen past the console. *)
Definition abs_draw (ps : list (Z * Z)) (v : view) : view :=
  View (fun y x => drawn ps (fun q => v_char v (q / 80) (q mod 80)) (80 * y + x)) (v_row v) (v_col v).

Lemma shows_draw R ps k m v :
  displays k v -> changes R ps (kmem k) m -> displays (set_kmem m k) (abs_draw ps v).
Proof.
  intros [Hwf (Hc & Hy & Hx)] C. split; [by destruct Hwf|]. split; [|done].
  intros y x [Hyr Hxr]. change (t_mem (k_tty (set_kmem m k))) with m. unfold screen_char in *. cbn [v_char abs_draw].
  rewrite vaddr_eq, (ch_screen _ _ _ _ C) by lia. apply drawn_ext; [|lia]. intros q Hq.
  assert (on_screen (q / 80) (q mod 80)) as Hon by (split; lia_mod).
  rewrite <- (Hc _ _ Hon), vaddr_eq. change (t_mem (k_tty k)) with (kmem k). f_equal. lia_mod.
Qed.

(** Views that agree on the screen. *)
Definition same_view (v w : view) : Prop :=
  (forall y x, on_screen y x -> v_char v y x = v_char w y x) /\ v_row v = v_row w /\ v_col v = v_col w.

#[export] Instance same_view_equiv : Equivalence same_view.
Proof.
  split.
  - by intros v.
  - intros v w (H1 & H2 & H3). split_and!; [|done..]. intros y x Hon. by rewrite H1.
  - intros u v w (H1 & H2 & H3) (H1' & H2' & H3'). split_and!; [|congruence..].
    intros y x Hon. by rewrite H1, H1'.
Qed.

#[export] Instance displays_same : Proper (eq ==> same_view ==> impl) displays.
Proof.
  intros k _ <- v w (H1 & H2 & H3) [Hwf (Hc & Hy & Hx)]. split; [done|]. split; [|by rewrite <- H2, <- H3].
  intros y x Hon. by rewrite Hc, H1.
Qed.

#[export] Instance abs_draw_same ps : Proper (same_view ==> same_view) (abs_draw ps).
Proof.
  intros v w (H1 & H2 & H3). split_and!; [|done..]. intros y x [Hy Hx]. cbn. apply drawn_ext; [|lia].
  intros q Hq. apply H1. split; lia_mod.
Qed.

Lemma abs_draw_nil v : same_view (abs_draw [] v) v.
Proof. split_and!; [|done..]. intros y x [Hy Hx]. cbn. f_equal; lia_mod. Qed.

Lemma abs_draw_app ps qs v : same_view (abs_draw qs (abs_draw ps v)) (abs_draw (ps ++ qs) v).
Proof.
  split_and!; [|done..]. intros y x [Hy Hx]. cbn. rewrite drawn_app. apply drawn_ext; [|lia].
  intros q Hq. f_equal. lia_mod.
Qed.

Section Swim.
Context (lay : layout) (ks : kstack) (im : fish_image) (pos data size : Z).

(** Virtual addresses are this far from the page of the program. *)
Local Abbreviation base := (page_at pos - 134217728).
Local Abbreviation bi := (fi_blink im).

Definition fish_lits : list (Z * list Z) :=
  [(fi_rtc im + base, bytes "rtc"); (fi_file0 im + base, bytes "frame0.txt");
   (fi_file1 im + base, bytes "frame1.txt")].

(** The variables, those of the list and the others. *)
Definition objects : list (Z * Z) :=
  blocks bi ++ [(fi_struct im, 16); (fi_frame im, 16); (fi_c0 im, 1); (fi_c1 im, 1); (fi_ret_val im, 4)].

Record fish_places : Prop := {
  fp_slot : 0 <= pos < 6;
  fp_page : in_page pos data size;
  fp_in : Forall (fun x => data <= fst x + base /\ fst x + snd x + base <= data + size) objects;
  fp_apart : ForallOrdPairs disjoint objects;
}.
Context (Hpl : fish_places).

Lemma object_user x : x ∈ objects ->
  in_user (fst x) (snd x) /\ data <= fst x + base /\ fst x + snd x + base <= data + size.
Proof.
  intros Hx. destruct Hpl as [Hs [H1 H2] Hin _]. rewrite Forall_forall in Hin.
  specialize (Hin x Hx). cbn beta in Hin. unfold in_user, page_at in *. lia.
Qed.

Lemma objects_apart x y i j :
  (i < j)%nat -> objects !! i = Some x -> objects !! j = Some y -> disjoint x y.
Proof. apply ord_pairs_lookup, Hpl. Qed.

(** The page tables map the page and the screen. *)
Definition mapped (k : kernel) : Prop :=
  (forall a, in_user a 1 -> tr_of lay k a = Some (a + base)) /\
  (forall off, 0 <= off < 4000 -> tr_of lay k (142606336 + off) = Some (VIDEO + off)).

Lemma mapped_placed k : mapped k -> placed (tr_of lay k) bi base.
Proof.
  intros [H1 H2]. destruct Hpl as [Hs _ _ Hap]. constructor; [done|done|unfold page_at; lia| |].
  - apply Forall_forall. intros x Hx. apply object_user. unfold objects. apply elem_of_app. by left.
  - unfold objects in Hap. by apply ord_pairs_app in Hap.
Qed.

(** The program, with its files [t], the list [l] of blinking characters and
    the screen [v]. *)
Record swims (t : fdtab) (l : list blink) (v : view) (k : kernel) : Prop := {
  sw_run : running lay fish_lits data size t k;
  sw_pos : curr_task_pos k = pos;
  sw_screen : displays k v;
  sw_mapped : mapped k;
  sw_board : exists addrs, board bi base (kmem k) addrs l;
}.


(** ** Code between the system calls *)

Lemma mapped_same k k' : mmu k' = mmu k -> mapped k -> mapped k'.
Proof. unfold mapped, tr_of. by intros ->. Qed.

(** Code that draws [ps] and changes the list to [l']. *)
Lemma user_draws {A} t l v k (c : (Z -> option Z) -> ST mem A) (a : A) m R ps l' addrs :
  swims t l v k -> c (tr_of lay k) (kmem k) = Ok (a, m) ->
  changes R ps (kmem k) m -> (forall p, R p -> data <= p < data + size) -> board bi base m addrs l' ->
  let k' := set_kmem m k in
  on_user lay c k = Ok (inl a, k') /\ swims t l' (abs_draw ps v) k' /\ steady k k'.
Proof.
  intros [Hr Hp Hd Hm _] E C HR B k'.
  assert (Hdata : data_only data size k k').
  { intros b Hb Hn. apply (ch_frame _ _ _ _ C); [intros H; apply HR in H; lia|].
    intros (q & Hq & ->). unfold VIDEO in Hb. lia. }
  split; [unfold on_user; by rewrite E|]. split.
  - constructor; [by eapply running_data | done | by eapply shows_draw | done | by exists addrs].
  - constructor.
    + eapply calm_data; [exact Hr | by constructor | exact Hdata].
    + intros kb line Ht. by destruct Ht as [[] ? [] ?].
Qed.

(** Code that writes outside the list. *)
Lemma user_writes {A} t l v k (c : (Z -> option Z) -> ST mem A) (a : A) m :
  swims t l v k -> c (tr_of lay k) (kmem k) = Ok (a, m) ->
  (forall b, b < data \/ data + size <= b -> mget m b = mget (kmem k) b) ->
  (forall b, board_bytes bi base b -> mget m b = mget (kmem k) b) ->
  let k' := set_kmem m k in
  on_user lay c k = Ok (inl a, k') /\ swims t l v k' /\ steady k k'.
Proof.
  intros [Hr Hp Hd Hm (addrs & B)] E Hout Hb k'.
  destruct (running_write k m v Hr Hd Hout) as (Hr' & Hd' & Hs & _).
  split; [unfold on_user; by rewrite E|]. split; [|exact Hs].
  constructor; try done. exists addrs. by eapply board_same.
Qed.

(** ** The list from the program *)

Lemma own_data p : own bi base p -> data <= p < data + size.
Proof.
  assert (H : forall x, x ∈ blocks bi -> data <= fst x + base /\ fst x + snd x + base <= data + size).
  { intros x Hx. apply object_user. unfold objects. apply elem_of_app. by left. }
  pose proof (H (mp1_list_head bi, 4) (list_elem_of_lookup_2 (blocks bi) 0 _ eq_refl)) as H1.
  pose proof (H (blink_array bi, 32000) (list_elem_of_lookup_2 (blocks bi) 2 _ eq_refl)) as H2.
  pose proof (H (add_temp bi, 16) (list_elem_of_lookup_2 (blocks bi) 3 _ eq_refl)) as H3.
  pose proof (H (find_temp bi, 2) (list_elem_of_lookup_2 (blocks bi) 4 _ eq_refl)) as H4.
  unfold own, listing_bytes. cbn in *. lia.
Qed.

(** A tick. *)
Lemma tick_swims t l v k :
  swims t l v k ->
  exists k', on_user lay (fun tr => mp1_rtc_tasklet tr bi) k = Ok (inl tt, k') /\
    swims t (fst (tick_all l)) (abs_draw (snd (tick_all l)) v) k' /\ steady k k'.
Proof.
  intros S. pose proof S as [_ _ _ Hm (addrs & B)].
  destruct (tasklet_ticks _ _ _ (mapped_placed k Hm) _ _ _ B) as (m & E & B' & C).
  destruct (user_draws t l v k (fun tr => mp1_rtc_tasklet tr bi) tt m _ _ (fst (tick_all l)) addrs S E C) as (E' & S' & Hs);
    [|exact B'|by eexists].
  intros p Hp. eapply own_data, ticking_own, Hp. apply B.
Qed.

Lemma user_kept k m :
  0 <= curr_task_pos k < 6 -> (forall b, 4194304 <= b < 8388608 -> mget m b = mget (kmem k) b) ->
  files_kept k (set_kmem m k).
Proof.
  intros Hp Hm. pose proof (pcb_at_low _ Hp) as (P5 & Plo & Phi). constructor.
  - exists (file_pos_keeper (k_fs k)). by destruct k as [? ? ? ? ? ? ? ? ? ? ? ? ? ? ? ? ? []].
  - intros b Hb. apply Hm. lia.
  - intros fd b Hf Hb. apply Hm. unfold file_name_at, curr_pcb in Hb. lia.
Qed.

(** A request other than [RTC_FIND]. *)
Lemma ioctl_swims_frame t l v k arg cmd r res l' ps out :
  swims t l v k -> request_ok bi base (kmem k) arg cmd -> cmd <> RTC_FIND ->
  request_of base (kmem k) arg cmd = Some r -> answer l r = (res, l', ps, out) ->
  exists k', ioctl lay im arg cmd k = Ok (inl res, k') /\ swims t l' (abs_draw ps v) k' /\ steady k k' /\
    files_kept k k' /\
    (forall a, 4194304 <= a -> ~ own bi base a -> mget (kmem k') a = mget (kmem k) a).
Proof.
  intros S Hok Hf Hr Ha. pose proof S as [Hrun _ _ Hm (addrs & B)].
  destruct (ioctl_answers _ _ _ (mapped_placed k Hm) _ _ _ _ _ _ _ _ _ _ B Hok Hr Ha)
    as (m & addrs' & E & B' & C & _).
  assert (Hd : forall p, reach bi base arg cmd p -> own bi base p /\ data <= p < data + size).
  { intros p [Hp|[? _]]; [by split; [|apply own_data]|done]. }
  destruct (user_draws t l v k (fun tr => mp1_ioctl tr bi arg cmd) res m _ _ l' addrs' S E C) as (E' & S' & Hs);
    [by intros p Hp; apply Hd|exact B'|].
  assert (Hfr : forall a, 4194304 <= a -> ~ own bi base a -> mget m a = mget (kmem k) a).
  { intros a Ha1 Ha2. apply (ch_frame _ _ _ _ C); [by intros Hp; apply Hd in Hp as [? _]|].
    intros (q & Hq & ->). unfold VIDEO in Ha1. lia. }
  exists (set_kmem m k). split_and!; [done..| |done].
  apply user_kept; [apply Hrun|]. intros b Hb. apply Hfr; [lia|]. intros Ho. apply own_data in Ho.
  pose proof (fp_page Hpl) as [D1 _]. pose proof (fp_slot Hpl). unfold page_at in D1. lia.
Qed.

Lemma ioctl_swims t l v k arg cmd r res l' ps out :
  swims t l v k -> request_ok bi base (kmem k) arg cmd -> cmd <> RTC_FIND ->
  request_of base (kmem k) arg cmd = Some r -> answer l r = (res, l', ps, out) ->
  exists k', ioctl lay im arg cmd k = Ok (inl res, k') /\ swims t l' (abs_draw ps v) k' /\ steady k k'.
Proof.
  intros S Hok Hf Hr Ha. destruct (ioctl_swims_frame t l v k arg cmd r res l' ps out S Hok Hf Hr Ha)
    as (k' & H1 & H2 & H3 & _). by exists k'.
Qed.

(** A store to a variable that is not of the list: the [i]th object. *)
Lemma var_bytes i x p :
  objects !! i = Some x -> (5 <= i)%nat -> fst x + base <= p < fst x + snd x + base ->
  data <= p < data + size /\ ~ board_bytes bi base p.
Proof.
  intros Hx Hi Hp. pose proof (object_user x ltac:(by eapply list_elem_of_lookup_2)) as [_ H].
  split; [lia|]. unfold board_bytes, listing_bytes.
  pose proof (objects_apart _ _ 0 i ltac:(lia) eq_refl Hx) as H0.
  pose proof (objects_apart _ _ 1 i ltac:(lia) eq_refl Hx) as H1.
  pose proof (objects_apart _ _ 2 i ltac:(lia) eq_refl Hx) as H2.
  unfold disjoint in *. cbn in *. lia.
Qed.

Lemma user_sets {A} i x t l v k (c : (Z -> option Z) -> ST mem A) (a : A) m :
  swims t l v k -> objects !! i = Some x -> (5 <= i)%nat ->
  c (tr_of lay k) (kmem k) = Ok (a, m) ->
  (forall b, ~ (fst x + base <= b < fst x + snd x + base) -> mget m b = mget (kmem k) b) ->
  let k' := set_kmem m k in
  on_user lay c k = Ok (inl a, k') /\ swims t l v k' /\ steady k k'.
Proof.
  intros S Hx Hi E Hm. apply user_writes with (l := l); [done|done| |].
  - intros b Hb. apply Hm. intros Hin. destruct (var_bytes i x b Hx Hi Hin). lia.
  - intros b Hb. apply Hm. intros Hin. by destruct (var_bytes i x b Hx Hi Hin).
Qed.

Lemma struct_apart i x : objects !! i = Some x -> (5 <= i)%nat -> snd x = 16 -> arg_apart bi (fst x).
Proof.
  intros Hx Hi H16. pose proof (object_user x ltac:(by eapply list_elem_of_lookup_2)) as [H _].
  rewrite H16 in H. split; [done|]. apply Forall_lookup. intros j y Hy.
  assert (Hj : (j < 5)%nat) by (apply lookup_lt_Some in Hy; exact Hy).
  assert (Hy' : objects !! j = Some y) by (unfold objects; by rewrite lookup_app_l by exact Hj).
  pose proof (objects_apart _ _ j i ltac:(lia) Hy' Hx) as D. destruct x as [a n]. cbn in H16. subst n.
  unfold disjoint in *. cbn in *. lia.
Qed.

(** ** The ticks *)

(** The character that is added after the first loop. *)
Definition the_blink : blink := Blink 540 (chr "I") (chr "M") 7 6 0 0.

(** What the program asks of the list after a loop. *)
Definition loop_request (loop : Z) : option request :=
  if loop =? 0 then Some (Add the_blink)
  else if loop =? 1 then Some (Sync 40 540)
  else if loop =? 2 then Some (Remove WAIT)
  else None.

Definition abs_after (loop : Z) (l : list blink) : list blink * list (Z * Z) :=
  match loop_request loop with
  | Some r => let '(_, l', ps, _) := answer l r in (l', ps)
  | None => (l, [])
  end.

(** A tick in the loop [loop] with [i] ticks before it: where the program
    waits then, if it has not ended, the list, and what is drawn. *)
Definition abs_tick (pc : fish_pc) (l : list blink) : option fish_pc * list blink * list (Z * Z) :=
  let '(l1, ps1) := tick_all l in
  if fp_i pc + 1 <? fish_limit (fp_loop pc) then (Some (FishPc (fp_loop pc) (fp_i pc + 1)), l1, ps1)
  else
    let '(l2, ps2) := abs_after (fp_loop pc) l1 in
    (if fp_loop pc =? 3 then None else Some (FishPc (fp_loop pc + 1) 0), l2, ps1 ++ ps2).

(** [n] ticks. *)
Fixpoint abs_ticks (n : nat) (pc : fish_pc) (l : list blink) : option fish_pc * list blink * list (Z * Z) :=
  match n with
  | O => (Some pc, l, [])
  | S n =>
      let '(o, l1, ps1) := abs_tick pc l in
      match o with
      | Some pc1 => let '(o2, l2, ps2) := abs_ticks n pc1 l1 in (o2, l2, ps1 ++ ps2)
      | None => (None, l1, ps1)
      end
  end.

Lemma answer_add l b b' :
  begun b = begun b' -> b_loc b = b_loc b' -> b_on b = b_on b' -> answer l (Add b) = answer l (Add b').
Proof. intros H1 H2 H3. cbn [answer]. by rewrite H1, H2, H3. Qed.

Lemma swims_same t l v w k : swims t l v k -> same_view v w -> swims t l w k.
Proof. intros [H1 H2 H3 H4 H5] Hv. constructor; try done. by eapply displays_same. Qed.

(** Stores into the variable [i] of the objects. *)
Lemma set8_swims i a n t l v k o x :
  swims t l v k -> objects !! i = Some (a, n) -> (5 <= i)%nat -> 0 <= o < n ->
  let k' := set_kmem (mset (kmem k) (a + o + base) x) k in
  on_user lay (fun tr => ust8 tr (a + o) x) k = Ok (inl tt, k') /\ swims t l v k' /\ steady k k'.
Proof.
  intros S Hx Hi Ho. pose proof (object_user _ (list_elem_of_lookup_2 _ _ _ Hx)) as [[U1 U2] _]. cbn in U1, U2.
  apply (user_sets i (a, n)); [done..| |].
  - apply ust8_page with (im := bi) (base := base); [apply mapped_placed, S|split; lia].
  - intros b Hb. cbn in Hb. apply mget_mset_ne. lia.
Qed.

Lemma set16_swims i a n t l v k o x :
  swims t l v k -> objects !! i = Some (a, n) -> (5 <= i)%nat -> 0 <= o -> o + 2 <= n ->
  let k' := set_kmem (store16 (kmem k) (a + o + base) x) k in
  on_user lay (fun tr => ust16 tr (a + o) x) k = Ok (inl tt, k') /\ swims t l v k' /\ steady k k'.
Proof.
  intros S Hx Hi Ho Ho'. pose proof (object_user _ (list_elem_of_lookup_2 _ _ _ Hx)) as [[U1 U2] _]. cbn in U1, U2.
  apply (user_sets i (a, n)); [done..| |].
  - apply ust16_page with (im := bi) (base := base); [apply mapped_placed, S|split; lia].
  - intros b Hb. cbn in Hb. apply mget_store16_ne. lia.
Qed.

(** The structure in the variable [i], added. *)
Lemma adds_blink i a t l v k b res l' ps out :
  swims t l v k -> objects !! i = Some (a, 16) -> (5 <= i)%nat ->
  begun (node base (kmem k) a) = begun b -> 0 < b_loc b -> answer l (Add b) = (res, l', ps, out) ->
  exists k', ioctl lay im a RTC_ADD k = Ok (inl res, k') /\ swims t l' (abs_draw ps v) k' /\ steady k k' /\
    files_kept k k' /\
    (forall p, 4194304 <= p -> ~ own bi base p -> mget (kmem k') p = mget (kmem k) p).
Proof.
  intros S Hx Hi Hb Hl Ha. pose proof Hb as Hb'. unfold begun, set_status, set_count in Hb'. cbn in Hb'.
  injection Hb' as E1 E2 E3 E4 E5 _.
  apply (ioctl_swims_frame t l v k a RTC_ADD (Add (node base (kmem k) a)) res l' ps out S); [|done|done|].
  - split; [|done]. intros _. split; [by apply (struct_apart i (a, 16))|]. cbn [b_loc node]. lia.
  - by rewrite (answer_add l _ b).
Qed.

Lemma struct_added t l v k rtc_fd i :
  swims t l v k ->
  exists k', after_loop lay ks im rtc_fd 0 i k = Ok (inl tt, k') /\
    swims t (fst (abs_after 0 l)) (abs_draw (snd (abs_after 0 l)) v) k' /\ steady k k'.
Proof.
  intros S. unfold after_loop. cbn [Z.eqb].
  assert (Hx : objects !! 5%nat = Some (fi_struct im, 16)) by done.
  destruct (set8_swims 5 _ _ t l v k ON_CHAR (chr "I") S Hx) as (E1 & S1 & H1); [lia|done|].
  rewrite (ubind_inl _ _ _ _ _ E1). set (k1 := set_kmem _ k) in *.
  destruct (set8_swims 5 _ _ t l v k1 OFF_CHAR (chr "M") S1 Hx) as (E2 & S2 & H2); [lia|done|].
  rewrite (ubind_inl _ _ _ _ _ E2). set (k2 := set_kmem _ k1) in *.
  destruct (set16_swims 5 _ _ t l v k2 ON_LENGTH 7 S2 Hx) as (E3 & S3 & H3); [lia|done|done|].
  rewrite (ubind_inl _ _ _ _ _ E3). set (k3 := set_kmem _ k2) in *.
  destruct (set16_swims 5 _ _ t l v k3 OFF_LENGTH 6 S3 Hx) as (E4 & S4 & H4); [lia|done|done|].
  rewrite (ubind_inl _ _ _ _ _ E4). set (k4 := set_kmem _ k3) in *.
  destruct (set16_swims 5 _ _ t l v k4 LOCATION (6 * 80 + 60) S4 Hx) as (E5 & S5 & H5); [lia|done|done|].
  rewrite (ubind_inl _ _ _ _ _ E5). set (k5 := set_kmem _ k4) in *.
  assert (Hb : begun (node base (kmem k5) (fi_struct im)) = begun the_blink).
  { change (kmem k5) with (store16 (store16 (store16 (mset (mset (kmem k)
      (fi_struct im + ON_CHAR + base) (chr "I")) (fi_struct im + OFF_CHAR + base) (chr "M"))
      (fi_struct im + ON_LENGTH + base) 7) (fi_struct im + OFF_LENGTH + base) 6)
      (fi_struct im + LOCATION + base) (6 * 80 + 60)).
    unfold begun, set_status, set_count, node. cbn [b_loc b_on b_off b_onlen b_offlen b_count b_status].
    unfold LOCATION, ON_CHAR, OFF_CHAR, ON_LENGTH, OFF_LENGTH, COUNTDOWN, STATUS. mem_simpl. reflexivity. }
  destruct (answer l (Add the_blink)) as [[[res l'] ps] out] eqn:Ea.
  destruct (adds_blink 5 _ t l v k5 the_blink res l' ps out S5 Hx ltac:(lia) Hb ltac:(done) Ea) as (k6 & E6 & S6 & H6 & _).
  exists k6. rewrite (ubind_inl _ _ _ _ _ E6). unfold abs_after. cbn [loop_request Z.eqb]. rewrite Ea.
  split_and!; [done|done|]. transitivity k1; [done|]. transitivity k2; [done|]. transitivity k3; [done|].
  transitivity k4; [done|]. by transitivity k5.
Qed.

(** What follows one of the first three loops. *)
Lemma after_loop_swims t l v k rtc_fd loop :
  swims t l v k -> 0 <= loop < 3 ->
  exists k', after_loop lay ks im rtc_fd loop WAIT k = Ok (inl tt, k') /\
    swims t (fst (abs_after loop l)) (abs_draw (snd (abs_after loop l)) v) k' /\ steady k k'.
Proof.
  intros S Hl. destruct (decide (loop = 0)) as [->|]; [by apply struct_added|].
  assert (loop = 1 \/ loop = 2) as [-> | ->] by lia; unfold after_loop, abs_after; cbn [loop_request Z.eqb Pos.eqb].
  - destruct (answer l (Sync 40 540)) as [[[res l'] ps] out] eqn:Ea.
    destruct (ioctl_swims t l v k (Z.lor (Z.shiftl 40 16) (6 * 80 + 60)) RTC_SYNC (Sync 40 540) res l' ps out S)
      as (k' & E & S' & H'); [by split|done|done|done|].
    exists k'. by rewrite (ubind_inl _ _ _ _ _ E).
  - destruct (set16_swims 5 (fi_struct im) 16 t l v k LOCATION 60 S) as (E1 & S1 & H1); [done|lia|done|done|].
    rewrite (ubind_inl _ _ _ _ _ E1). set (k1 := set_kmem _ k) in *.
    destruct (answer l (Remove WAIT)) as [[[res l'] ps] out] eqn:Ea.
    destruct (ioctl_swims t l v k1 WAIT RTC_REMOVE (Remove WAIT) res l' ps out S1)
      as (k' & E & S' & H'); [by split|done|done|done|].
    exists k'. rewrite (ubind_inl _ _ _ _ _ E). split_and!; [done|done|]. by transitivity k1.
Qed.

Lemma board_bytes_high p : board_bytes bi base p -> 8388608 <= p /\ data <= p < data + size.
Proof.
  pose proof (fp_page Hpl) as [Hd _]. pose proof (fp_slot Hpl). unfold page_at in Hd.
  intros [Hp|Hp]; [pose proof (own_data p (or_introl Hp)); lia|].
  pose proof (object_user (vmem_base_addr bi, 4) (list_elem_of_lookup_2 objects 1 _ eq_refl)) as [_ H']. cbn in H'. lia.
Qed.

Lemma quiet_swims t l v k k' : quiet k k' -> swims t l v k -> swims t l v k'.
Proof.
  intros Q [H1 H2 H3 H4 H5]. constructor.
  - by eapply quiet_running.
  - by rewrite (qu_pos _ _ Q).
  - by eapply quiet_displays.
  - eapply mapped_same; [apply Q|done].
  - by rewrite (qu_mem _ _ Q).
Qed.

(** A system call that leaves the list alone. *)
Lemma swims_vars t t' l v v' k k' :
  swims t l v k -> running lay fish_lits data size t' k' -> displays k' v' -> steady k k' ->
  (forall b, board_bytes bi base b -> mget (kmem k') b = mget (kmem k) b) -> swims t' l v' k'.
Proof.
  intros [_ Hp _ Hm (addrs & B)] Hr Hd Hs Hb. constructor; [done| |done| |].
  - by rewrite (sd_pos _ _ Hs).
  - eapply mapped_same; [apply Hs|done].
  - exists addrs. by eapply board_same.
Qed.

Lemma swims_call t t' l v v' k k' :
  swims t l v k -> running lay fish_lits data size t' k' -> displays k' v' -> steady k k' ->
  (forall b, 8388608 <= b -> mget (kmem k') b = mget (kmem k) b) -> swims t' l v' k'.
Proof.
  intros S Hr Hd Hs Hb. eapply swims_vars; try done. intros p Hp. apply Hb.
  apply board_bytes_high in Hp. lia.
Qed.

Definition pc_ok (pc : fish_pc) : Prop := 0 <= fp_loop pc <= 3 /\ 0 <= fp_i pc < fish_limit (fp_loop pc).

(** The program waits for a tick. *)
Lemma read_step l v k pc :
  swims rtc_fds l v k -> pc_ok pc ->
  exists k', fish_step lay ks im base 2 (pc, k) = inr (Ok ((pc, inr Waiting), k')) /\
    swims rtc_fds l v k' /\ steady k k'.
Proof.
  intros S [_ Hi].
  destruct (clock_waits (t := rtc_fds) (fd := 2) (q := 0) eq_refl ltac:(lia) ks k (fi_garbage im + base) (sw_run _ _ _ _ S))
    as (k' & E & Q).
  exists k'. split_and!; [|by eapply quiet_swims|apply Q].
  unfold fish_step. rewrite (proj2 (Z.ltb_lt _ _)) by lia. by rewrite (ubind_inr _ _ _ _ _ E).
Qed.

Lemma while_next {St R} (step : St -> St + res R) s s' r :
  step s = inl s' -> step s' = inr r -> while step s = r.
Proof.
  intros H1 H2. apply (while_index step (fun n x => (n = 1 /\ x = s) \/ (n = 0 /\ x = s')) (fun r' => r' = r) 1);
    [by left|lia|]. intros n x [[-> ->]|[-> ->]]; [rewrite H1|by rewrite H2].
  exists 0. split; [lia|by right].
Qed.

(** The program after the tasklet has run. *)
Lemma loop_goes_on l v k pc :
  swims rtc_fds l v k -> pc_ok pc ->
  let pc1 := FishPc (fp_loop pc) (fp_i pc + 1) in
  if fp_i pc + 1 <? fish_limit (fp_loop pc) then
    exists k', fish_loop lay ks im base 2 pc1 k = Ok ((pc1, inr Waiting), k') /\
      swims rtc_fds l v k' /\ steady k k'
  else
    exists k', steady k k' /\
      swims (if fp_loop pc =? 3 then <[2%nat := None]> rtc_fds else rtc_fds)
        (fst (abs_after (fp_loop pc) l)) (abs_draw (snd (abs_after (fp_loop pc) l)) v) k' /\
      fish_loop lay ks im base 2 pc1 k =
        Ok (if fp_loop pc =? 3 then (pc1, inl 0) else (FishPc (fp_loop pc + 1) 0, inr Waiting), k').
Proof.
  intros S [Hl Hi] pc1. destruct (Z.ltb_spec (fp_i pc + 1) (fish_limit (fp_loop pc))) as [Hlt|Hge].
  { destruct (read_step l v k pc1 S) as (k' & E & H); [by split; cbn; lia|].
    exists k'. split; [|done]. by apply while_done. }
  assert (Hlim : fp_i pc + 1 = fish_limit (fp_loop pc)) by lia.
  assert (Hstep : (fp_i pc1 <? fish_limit (fp_loop pc1)) = false) by (apply Z.ltb_ge; cbn; lia).
  destruct (Z.eqb_spec (fp_loop pc) 3) as [E3|Hn3].
  - destruct (running_close ks k v 2 (sw_run _ _ _ _ S) (sw_screen _ _ _ _ S)) as (k' & E & Hr & Hd & Hs & Hm);
      [lia|done|].
    exists k'. split; [done|]. split.
    + rewrite E3. apply (swims_same _ _ v); [|symmetry; apply abs_draw_nil]. by eapply swims_call.
    + apply while_done. unfold fish_step. rewrite Hstep. unfold after_loop. cbn [fp_loop pc1]. rewrite E3.
      cbn [Z.eqb Pos.eqb]. by rewrite (ubind_inl _ _ _ _ _ E).
  - assert (Hw : fish_limit (fp_loop pc) = WAIT) by (unfold fish_limit; by rewrite (proj2 (Z.eqb_neq _ _) Hn3)).
    destruct (after_loop_swims rtc_fds l v k 2 (fp_loop pc) S) as (k1 & E1 & S1 & H1); [lia|].
    destruct (read_step _ _ k1 (FishPc (fp_loop pc + 1) 0) S1) as (k2 & E2 & S2 & H2).
    { split; cbn; [lia|]. unfold fish_limit, WAIT. case_match; lia. }
    exists k2. split; [by transitivity k1|]. split; [done|].
    eapply while_next; [|exact E2]. unfold fish_step. rewrite Hstep. cbn [fp_loop fp_i pc1].
    rewrite Hlim, Hw, E1. by rewrite (proj2 (Z.eqb_neq _ _) Hn3).
Qed.

(** How the program is after a tick: waiting at the next place, or at its
    end with the clock closed. *)
Definition after_tick (o : option fish_pc) : (fish_pc * (Z + sysret)) * fdtab :=
  match o with
  | Some pc => ((pc, inr Waiting), rtc_fds)
  | None => ((FishPc 3 (80 * 25), inl 0), <[2%nat := None]> rtc_fds)
  end.

Lemma tick_swims_on l v k pc regc o l' ps :
  swims rtc_fds l v k -> pc_ok pc -> 0 <= regc < 256 -> abs_tick pc l = (o, l', ps) ->
  exists k1 k2, _idt_rtc_irq_handler regc k = Ok (tt, k1) /\
    fish_after_read lay ks im base 2 pc k1 = Ok (fst (after_tick o), k2) /\
    swims (snd (after_tick o)) l' (abs_draw ps v) k2 /\ steady k k2 /\
    (forall pc', o = Some pc' -> pc_ok pc').
Proof.
  intros S Hpc Hc Ha.
  destruct (clock_ticks (t := rtc_fds) (fd := 2) (q := 0) eq_refl ltac:(lia) k (fi_garbage im + base) regc
    (sw_run _ _ _ _ S) Hc) as (k1 & k1' & Hh & Hres & Q).
  destruct (tick_swims rtc_fds l v k1') as (k2 & E2 & S2 & H2); [by eapply quiet_swims|].
  assert (Hgo : fish_after_read lay ks im base 2 pc k1 =
    fish_loop lay ks im base 2 (FishPc (fp_loop pc) (fp_i pc + 1)) k2).
  { unfold fish_after_read. erewrite bind_ok; [|rewrite (ubind_inl _ _ _ _ _ Hres); exact E2]. done. }
  pose proof (loop_goes_on _ _ k2 pc S2 Hpc) as Hl. cbv zeta in Hl.
  unfold abs_tick in Ha. rewrite (surjective_pairing (tick_all l)) in Ha. destruct Hpc as [P1 P2].
  destruct (Z.ltb_spec (fp_i pc + 1) (fish_limit (fp_loop pc))) as [Hlt|Hge].
  - injection Ha as <- <- <-. destruct Hl as (k3 & E3 & S3 & H3). exists k1, k3.
    rewrite Hgo. split_and!; [done|done|done| |].
    + etransitivity; [apply Q|]. by transitivity k2.
    + intros pc' [= <-]. split; cbn; lia.
  - rewrite (surjective_pairing (abs_after _ _)) in Ha. injection Ha as <- <- <-.
    destruct Hl as (k3 & H3 & S3 & E3). exists k1, k3. rewrite Hgo, E3.
    assert (Hst : steady k k3) by (etransitivity; [apply Q|]; by transitivity k2).
    destruct (Z.eqb_spec (fp_loop pc) 3) as [E|E].
    + split_and!; [done| | |done|done].
      * replace (fp_i pc + 1) with (80 * 25); [by rewrite E|]. unfold fish_limit in *. rewrite E in *. cbn in *. lia.
      * eapply swims_same; [exact S3|]. apply abs_draw_app.
    + split_and!; [done|done| |done|].
      * eapply swims_same; [exact S3|]. apply abs_draw_app.
      * intros pc' [= <-]. split; cbn; [lia|]. unfold fish_limit, WAIT. case_match; lia.
Qed.

(** Any number of ticks. *)
Lemma ticks_swim regcs l v k pc o l' ps :
  swims rtc_fds l v k -> pc_ok pc -> Forall (fun c => 0 <= c < 256) regcs ->
  abs_ticks (List.length regcs) pc l = (o, l', ps) ->
  exists k', fish_ticks lay ks im base 2 regcs pc k = Ok (fst (after_tick o), k') /\
    swims (snd (after_tick o)) l' (abs_draw ps v) k' /\ steady k k'.
Proof.
  intros S Hpc Hall. revert l v k pc o l' ps S Hpc. induction Hall as [|regc regcs Hc _ IH];
    intros l v k pc o l' ps S Hpc Ha; cbn [abs_ticks List.length] in Ha.
  { injection Ha as <- <- <-. exists k. cbn. split_and!; [done| |done].
    eapply swims_same; [exact S|]. symmetry. apply abs_draw_nil. }
  destruct (abs_tick pc l) as [[o1 l1] ps1] eqn:E1.
  destruct (tick_swims_on l v k pc regc o1 l1 ps1 S Hpc Hc E1) as (k1 & k2 & Hh & Hr & S2 & H2 & Hok).
  cbn [fish_ticks]. rewrite (bind_ok _ _ _ _ _ Hh), (bind_ok _ _ _ _ _ Hr). destruct o1 as [pc1|]; cbn [after_tick fst].
  - destruct (abs_ticks (List.length regcs) pc1 l1) as [[o2 l2] ps2] eqn:E2. injection Ha as <- <- <-.
    destruct (IH l1 (abs_draw ps1 v) k2 pc1 o2 l2 ps2 S2 (Hok _ eq_refl) E2) as (k3 & E3 & S3 & H3).
    exists k3. split_and!; [done| |by transitivity k2]. eapply swims_same; [exact S3|]. apply abs_draw_app.
  - injection Ha as <- <- <-. by exists k2.
Qed.

(** ** Reading the two frames *)

(** The second frame is [true]. *)
Definition fd_of (b : bool) : Z := if b then 4 else 3.
Definition c_of (b : bool) : Z := if b then fi_c1 im else fi_c0 im.
Definition name_of (b : bool) : list Z := if b then bytes "frame1.txt" else bytes "frame0.txt".
Definition net_fds (p : bool -> Z) : fdtab :=
  [Some (FStdin, 0); Some (FStdout, 0); Some (FRtc, 0); Some (FFile, p false); Some (FFile, p true);
   None; None; None].

Context (start NI NB : Z) (dir : list entry) (text : bool -> list Z) (ent : bool -> entry) (idx : bool -> Z).

(** The files of the frames. *)
Record frames_ok : Prop := {
  fr_idx : forall b, abs_lookup dir (name_of b) = Some (idx b);
  fr_ent : forall b, dir !! Z.to_nat (idx b) = Some (ent b);
  fr_type : forall b, e_type (ent b) = 2;
  fr_dentry : dentry_fits ks pos;
}.
Context (Hfr : frames_ok).

(** The file system, with the two frames. *)
Record shelf (k : kernel) : Prop := {
  sh_world : world lay (k_fs k) (kmem k) start NI NB dir;
  sh_files : files_ok (k_fs k) (kmem k) NI NB dir;
  sh_text : forall b, file_content (kmem k) (k_fs k) (e_inode (ent b)) = text b;
}.

Lemma shelf_kept k k' :
  (exists i, k_fs k' = set_file_pos_keeper i (k_fs k)) ->
  (forall b, 4194304 <= b < pcb_at 5 -> mget (kmem k') b = mget (kmem k) b) -> shelf k -> shelf k'.
Proof.
  intros (i & Ei) Hm [W F T].
  destruct (files_same lay (k_fs k) (kmem k) i (kmem k') start NI NB dir W F Hm) as [F' T'].
  constructor; rewrite ?Ei.
  - apply world_keeper. by eapply world_same.
  - done.
  - intros b. rewrite (T' (Z.to_nat (idx b)) (ent b)); [apply T|apply Hfr..].
Qed.

(** Between two reads, at the positions [p]. *)
Record nets (p : bool -> Z) (l : list blink) (v : view) (k : kernel) : Prop := {
  nt_swims : swims (net_fds p) l v k;
  nt_world : world lay (k_fs k) (kmem k) start NI NB dir;
  nt_files : files_ok (k_fs k) (kmem k) NI NB dir;
  nt_text : forall b, file_content (kmem k) (k_fs k) (e_inode (ent b)) = text b;
  nt_name : forall b, cstr (kmem k) (file_name_at (curr_pcb k) (fd_of b)) (name_of b);
  nt_on : load16 (kmem k) (fi_frame im + ON_LENGTH + base) = 15;
  nt_off : load16 (kmem k) (fi_frame im + OFF_LENGTH + base) = 15;
}.

Lemma nets_kept p p' l l' v v' k k' :
  nets p l v k -> swims (net_fds p') l' v' k' -> files_kept k k' ->
  (forall o, 4 <= o < 8 -> mget (kmem k') (fi_frame im + o + base) = mget (kmem k) (fi_frame im + o + base)) ->
  nets p' l' v' k'.
Proof.
  intros [S W F T N O1 O2] S' [(i & Ei) Hi Hn] Ho. pose proof (sw_pos _ _ _ _ S) as Ep. pose proof (sw_pos _ _ _ _ S') as Ep'.
  destruct (shelf_kept k k' ltac:(by exists i) Hi ltac:(by constructor)) as [W' F' T'].
  constructor; try done.
  - intros b. assert (Ec : curr_pcb k' = curr_pcb k) by (unfold curr_pcb; congruence). rewrite Ec.
    eapply cstr_ext; [|apply N]. intros c Hc. symmetry. apply (Hn (fd_of b)); [by destruct b; cbn; lia|].
    destruct b; unfold name_of in Hc; cbn in Hc |- *; lia.
  - rewrite <- O1. unfold ON_LENGTH, load16. replace (fi_frame im + 4 + base + 1) with (fi_frame im + 5 + base) by lia.
    by rewrite !Ho by lia.
  - rewrite <- O2. unfold OFF_LENGTH, load16. replace (fi_frame im + 6 + base + 1) with (fi_frame im + 7 + base) by lia.
    by rewrite !Ho by lia.
Qed.

(** Where a file is: its last character, its position, its flag. *)
Record reader := Rd3 { rd_c : Z; rd_p : Z; rd_eof : Z }.

(** The next character; past the end, a newline. *)
Definition advance (txt : list Z) (r : reader) : reader :=
  if rd_c r =? LF then r
  else match txt !! Z.to_nat (rd_p r) with
  | Some y => Rd3 y (rd_p r + 1) (rd_eof r)
  | None => Rd3 LF (rd_p r) 1
  end.

Definition char_in (k : kernel) (b : bool) : Z := mget (kmem k) (c_of b + base).

(** What [next_char] leaves alone. *)
Record char_frame (b : bool) (k k' : kernel) : Prop := {
  cf_mem : forall a, 8388608 <= a -> a <> c_of b + base -> mget (kmem k') a = mget (kmem k) a;
  cf_steady : steady k k';
}.

Lemma char_object b :
  exists i, objects !! i = Some (c_of b, 1) /\ (5 <= i)%nat /\
    objects !! 6%nat = Some (fi_frame im, 16) /\ disjoint (fi_frame im, 16) (c_of b, 1) /\
    in_user (c_of b) 1 /\ 8388608 <= fi_frame im + base /\ data <= c_of b + base < data + size.
Proof.
  assert (exists i, objects !! i = Some (c_of b, 1) /\ (6 < i)%nat) as (i & Hi & Hlt).
  { destruct b; [by exists 8%nat; split; [|lia]|by exists 7%nat; split; [|lia]]. }
  exists i. pose proof (object_user _ (list_elem_of_lookup_2 _ _ _ Hi)) as [Hu Hdat].
  pose proof (object_user (fi_frame im, 16) (list_elem_of_lookup_2 objects 6 _ eq_refl)) as [Hf _].
  pose proof (fp_slot Hpl). split_and!; try done; try (cbn in Hdat; lia).
  - by apply (objects_apart _ _ 6 i).
  - destruct Hf as [Hf _]. cbn in Hf. unfold page_at. lia.
Qed.

(** The rest of the state when only the character of [b] changes. *)
Lemma nets_char b p p' l v k k' :
  nets p l v k -> swims (net_fds p') l v k' -> files_kept k k' -> char_frame b k k' -> nets p' l v k'.
Proof.
  intros N S' K C. eapply nets_kept; [exact N|done|done|]. intros o Ho. apply C.
  - destruct (char_object b) as (i & _ & _ & _ & _ & _ & H & _). lia.
  - destruct (char_object b) as (i & _ & _ & _ & D & _). unfold disjoint in D. cbn in D. lia.
Qed.

Definition move (p : bool -> Z) (b : bool) (q : Z) : bool -> Z := fun b' => if Bool.eqb b b' then q else p b'.

Lemma net_fds_move p b q :
  <[Z.to_nat (fd_of b) := Some (FFile, q)]> (net_fds p) = net_fds (move p b q).
Proof. by destruct b. Qed.

Lemma net_fds_at p b : anth None (net_fds p) (fd_of b) = Some (FFile, p b).
Proof. by destruct b. Qed.

(** A store to the character of [b]. *)
Lemma store_char b p l v k x :
  nets p l v k ->
  exists k', on_user lay (fun tr => ust8 tr (c_of b) x) k = Ok (inl tt, k') /\ nets p l v k' /\
    char_in k' b = u8 x /\ char_frame b k k'.
Proof.
  intros N. destruct (char_object b) as (i & Hi & H5 & _ & _ & Hu & _ & Hdat).
  destruct (set8_swims i (c_of b) 1 _ l v k 0 x (nt_swims _ _ _ _ N) Hi H5) as (E & S' & Hs); [lia|].
  rewrite Z.add_0_r in E, S', Hs. set (k' := set_kmem _ k) in *. exists k'.
  assert (C : char_frame b k k').
  { constructor; [|done]. intros a Ha Hne. change (kmem k') with (mset (kmem k) (c_of b + base) x).
    apply mget_mset_ne. congruence. }
  split_and!; [done| | |done].
  - eapply nets_char; [exact N|done| |exact C]. apply user_kept; [rewrite (sw_pos _ _ _ _ (nt_swims _ _ _ _ N)); apply Hpl|].
    intros c Hc. apply mget_mset_ne. pose proof (fp_page Hpl) as [D1 _]. pose proof (fp_slot Hpl). unfold page_at in *. lia.
  - unfold char_in. change (kmem k') with (mset (kmem k) (c_of b + base) x). apply mget_mset_eq.
Qed.

Lemma load_char b p l v k :
  nets p l v k ->
  exists k', on_user lay (fun tr => uld8 tr (c_of b)) k = Ok (inl (char_in k b), k') /\ k' = set_kmem (kmem k) k.
Proof.
  intros N. destruct (char_object b) as (i & _ & _ & _ & _ & Hu & _).
  eexists. split; [|done]. unfold on_user.
  by rewrite (uld8_page _ bi base (mapped_placed k (sw_mapped _ _ _ _ (nt_swims _ _ _ _ N)))) by done.
Qed.

Lemma set_kmem_same k : set_kmem (kmem k) k = k.
Proof. by destruct k as [[]]. Qed.

Lemma next_char_advances b p l v k r :
  nets p l v k -> char_in k b = rd_c r -> p b = rd_p r -> 0 <= rd_p r <= zlen (text b) ->
  let r' := advance (text b) r in
  exists k', next_char lay ks base (fd_of b) (c_of b) (rd_eof r) k = Ok (inl (rd_eof r'), k') /\
    nets (move p b (rd_p r')) l v k' /\ char_in k' b = rd_c r' /\ char_frame b k k'.
Proof.
  intros N Hc Hp Hr r'. destruct (load_char b p l v k N) as (k1 & E1 & Ek1). rewrite set_kmem_same in Ek1. subst k1.
  unfold next_char. rewrite (ubind_inl _ _ _ _ _ E1), Hc. unfold r', advance.
  assert (Hm : nets (move p b (rd_p r)) l v k).
  { destruct N as [S W F T Nm O1 O2]. constructor; try done. rewrite <- net_fds_move, <- Hp. by destruct b. }
  destruct (rd_c r =? LF); [exists k; split_and!; try done; by constructor|].
  pose proof N as [S W F T Nm O1 O2]. destruct (char_object b) as (i & Hi & H5 & _ & _ & Hu & _ & Hdat).
  pose proof (length_file_content (kmem k) (k_fs k) (e_inode (ent b))) as Hlen. rewrite T in Hlen.
  destruct (running_reads_file ks k v start NI NB dir (fd_of b) (c_of b + base) 1 (p b) (name_of b) (idx b) (ent b)
    (sw_run _ _ _ _ S) (sw_screen _ _ _ _ S) W (F _ _ (fr_ent Hfr b) (fr_type Hfr b)))
    as (k2 & E2 & Hb & Hr2 & Hd2 & Hs2 & K2 & Hm2).
  { rewrite (sw_pos _ _ _ _ S). apply Hfr. }
  { by destruct b; cbn; lia. }
  { apply net_fds_at. }
  { apply Nm. }
  { by destruct b; vm_compute. }
  { apply Hfr. }
  { apply Hfr. }
  { lia. }
  { lia. }
  { lia. }
  { lia. }
  rewrite T in E2, Hb, Hr2, Hm2. rewrite Hp in *. change (Z.to_nat 1) with 1%nat in *.
  rewrite (ubind_inl _ _ _ _ _ E2).
  set (d := take 1 (drop (Z.to_nat (rd_p r)) (text b))) in *.
  assert (Hd1 : zlen d <= 1) by (unfold d; rewrite length_take; lia).
  assert (C2 : char_frame b k k2) by (constructor; [|done]; intros a Ha Hne; apply Hm2; lia).
  assert (N2 : nets (move p b (rd_p r + zlen d)) l v k2).
  { eapply nets_char; [exact N| |exact K2|exact C2]. rewrite <- net_fds_move. eapply swims_vars; try done.
    intros a Ha. pose proof (board_bytes_high a Ha). apply C2; [lia|]. intros ->.
    by destruct (var_bytes i (c_of b, 1) (c_of b + base) Hi ltac:(lia) ltac:(cbn; lia)). }
  destruct (text b !! Z.to_nat (rd_p r)) as [y|] eqn:Ey.
  - assert (Ed : d = [y]) by (unfold d; by rewrite (drop_S _ _ _ Ey)). rewrite Ed in *.
    change (zlen [y]) with 1 in *. cbn [Z.eqb]. exists k2. split_and!; [done|exact N2| |exact C2].
    unfold char_in. cbn [rd_c]. unfold mbytes in Hb. cbn in Hb. rewrite Z.add_0_r in Hb. by injection Hb.
  - assert (Ed : d = []) by (unfold d; apply lookup_ge_None in Ey; by rewrite drop_ge by lia).
    rewrite Ed in *. change (zlen []) with 0 in *. cbn [Z.eqb]. rewrite Z.add_0_r in N2.
    destruct (store_char b _ l v k2 LF N2) as (k3 & E3 & N3 & H3 & C3).
    rewrite (ubind_inl _ _ _ _ _ E3). exists k3. split_and!; [done|exact N3|done|].
    constructor; [|transitivity k2; [apply C2|apply C3]].
    intros a Ha Hne. rewrite (cf_mem _ _ _ C3), (cf_mem _ _ _ C2); done.
Qed.

(** ** A character of the frames *)

(** A character that both frames leave blank is not added. *)
Definition shoal_add (loc : Z) (c : Z * Z) (l : list blink) : list blink * list (Z * Z) :=
  if (fst c =? SP) && (snd c =? SP) then (l, [])
  else let '(_, l', ps, _) := answer l (Add (Blink loc (fst c) (snd c) 15 15 0 0)) in (l', ps).

(** The end of a line counts as blank. *)
Definition blank (x : Z) : Z := if x =? LF then SP else x.

Lemma blank_cond c0 c1 :
  (negb (c0 =? SP) && negb (c0 =? LF)) || (negb (c1 =? SP) && negb (c1 =? LF)) =
  negb ((blank c0 =? SP) && (blank c1 =? SP)).
Proof.
  unfold blank, SP, LF. destruct (Z.eqb_spec c0 32), (Z.eqb_spec c0 10), (Z.eqb_spec c1 32), (Z.eqb_spec c1 10);
    subst; try lia; cbn; repeat (rewrite (proj2 (Z.eqb_neq _ _)) by done); done.
Qed.

Lemma blank_range x : 0 <= x < 256 -> 0 <= blank x < 256.
Proof. unfold blank, SP. case_match; lia. Qed.

Lemma var_not_own i x p :
  objects !! i = Some x -> (5 <= i)%nat -> fst x + base <= p < fst x + snd x + base -> ~ own bi base p.
Proof.
  intros Hx Hi Hp. unfold own, listing_bytes.
  pose proof (objects_apart _ _ 0 i ltac:(lia) eq_refl Hx) as H0.
  pose proof (objects_apart _ _ 2 i ltac:(lia) eq_refl Hx) as H2.
  pose proof (objects_apart _ _ 3 i ltac:(lia) eq_refl Hx) as H3.
  pose proof (objects_apart _ _ 4 i ltac:(lia) eq_refl Hx) as H4.
  unfold disjoint in *. cbn in *. lia.
Qed.

(** Stores into the first four bytes of the structure. *)
Lemma nets_frame p l v k m :
  nets p l v k -> swims (net_fds p) l v (set_kmem m k) ->
  (forall a, ~ (fi_frame im + base <= a < fi_frame im + base + 4) -> mget m a = mget (kmem k) a) ->
  nets p l v (set_kmem m k) /\ forall b, char_in (set_kmem m k) b = char_in k b.
Proof.
  intros N S Hm. destruct (char_object true) as (_ & _ & _ & _ & _ & _ & Hf & _).
  pose proof (fp_slot Hpl). split.
  - eapply nets_kept; [exact N|exact S| |].
    + apply user_kept; [rewrite (sw_pos _ _ _ _ (nt_swims _ _ _ _ N)); apply Hpl|].
      intros b Hb. apply Hm. lia.
    + intros o Ho. apply Hm. lia.
  - intros b. destruct (char_object b) as (i & Hi & _ & _ & D & _). unfold disjoint in D. cbn in D.
    apply Hm. lia.
Qed.

Lemma frame_filled p l v k x0 x1 loc :
  nets p l v k -> 0 <= x0 < 256 -> 0 <= x1 < 256 -> 0 <= loc < 65536 ->
  exists k', (let! _ := on_user lay (fun tr => ust8 tr (fi_frame im + ON_CHAR) x0) in
      let! _ := on_user lay (fun tr => ust8 tr (fi_frame im + OFF_CHAR) x1) in
      on_user lay (fun tr => ust16 tr (fi_frame im + LOCATION) loc)) k = Ok (inl tt, k') /\
    nets p l v k' /\ (forall b, char_in k' b = char_in k b) /\ steady k k' /\
    begun (node base (kmem k') (fi_frame im)) = begun (Blink loc x0 x1 15 15 0 0).
Proof.
  intros N H0 H1 Hl. assert (Hx : objects !! 6%nat = Some (fi_frame im, 16)) by done.
  destruct (set8_swims 6 _ _ _ l v k ON_CHAR x0 (nt_swims _ _ _ _ N) Hx) as (E1 & S1 & T1); [lia|done|].
  set (k1 := set_kmem _ k) in *.
  destruct (nets_frame p l v k _ N S1) as [N1 C1]; [intros; apply mget_mset_ne; unfold ON_CHAR; lia|].
  fold k1 in N1, C1.
  destruct (set8_swims 6 _ _ _ l v k1 OFF_CHAR x1 S1 Hx) as (E2 & S2 & T2); [lia|done|].
  set (k2 := set_kmem _ k1) in *.
  destruct (nets_frame p l v k1 _ N1 S2) as [N2 C2]; [intros; apply mget_mset_ne; unfold OFF_CHAR; lia|].
  fold k2 in N2, C2.
  destruct (set16_swims 6 _ _ _ l v k2 LOCATION loc S2 Hx) as (E3 & S3 & T3); [lia|done|done|].
  set (k3 := set_kmem _ k2) in *.
  destruct (nets_frame p l v k2 _ N2 S3) as [N3 C3]; [intros; apply mget_store16_ne; unfold LOCATION; lia|].
  fold k3 in N3, C3.
  exists k3. rewrite (ubind_inl _ _ _ _ _ E1), (ubind_inl _ _ _ _ _ E2). split_and!; [done|done| | |].
  - intros b. by rewrite C3, C2, C1.
  - transitivity k1; [done|]. by transitivity k2.
  - pose proof (nt_on _ _ _ _ N3) as O1. pose proof (nt_off _ _ _ _ N3) as O2.
    change (kmem k3) with (store16 (mset (mset (kmem k) (fi_frame im + ON_CHAR + base) x0)
      (fi_frame im + OFF_CHAR + base) x1) (fi_frame im + LOCATION + base) loc) in *.
    unfold begun, set_status, set_count, node. cbn [b_loc b_on b_off b_onlen b_offlen b_count b_status].
    rewrite O1, O2. unfold LOCATION, ON_CHAR, OFF_CHAR. mem_simpl. by rewrite u16_small, !u8_small.
Qed.

Lemma ubind_three (a b c : UP unit) (f : UP unit) k k' :
  (let! _ := a in let! _ := b in c) k = Ok (inl tt, k') ->
  (let! _ := a in let! _ := b in let! _ := c in f) k = f k'.
Proof.
  intros H. unfold ubind in *. apply bind_inv in H as ([[]|r] & k1 & Ea & H); [|discriminate].
  rewrite (bind_ok _ _ _ _ _ Ea). apply bind_inv in H as ([[]|r] & k2 & Eb & H); [|discriminate].
  rewrite (bind_ok _ _ _ _ _ Eb). by rewrite (bind_ok _ _ _ _ _ H).
Qed.

Lemma char_added p l v k row col c0 c1 :
  let loc := row * 80 + col + offset in
  nets p l v k -> 0 <= c0 < 256 -> 0 <= c1 < 256 -> 0 < loc < 65536 ->
  exists k', add_char lay im row col c0 c1 k = Ok (inl tt, k') /\
    nets p (fst (shoal_add loc (blank c0, blank c1) l)) (abs_draw (snd (shoal_add loc (blank c0, blank c1) l)) v) k' /\
    (forall b, char_in k' b = char_in k b) /\ steady k k'.
Proof.
  intros loc N H0 H1 Hl. unfold add_char. rewrite blank_cond. unfold shoal_add. cbn [fst snd].
  destruct ((blank c0 =? SP) && (blank c1 =? SP)); cbn [negb].
  { exists k. split_and!; try done. destruct N as [S ? ? ? ? ? ?]. constructor; try done.
    eapply swims_same; [exact S|]. symmetry. apply abs_draw_nil. }
  destruct (frame_filled p l v k (blank c0) (blank c1) loc N (blank_range _ H0) (blank_range _ H1) ltac:(lia))
    as (k1 & E1 & N1 & C1 & T1 & Hb).
  destruct (answer l (Add (Blink loc (blank c0) (blank c1) 15 15 0 0))) as [[[res l'] ps] out] eqn:Ea.
  destruct (adds_blink 6 (fi_frame im) _ l v k1 _ res l' ps out (nt_swims _ _ _ _ N1) eq_refl ltac:(lia) Hb ltac:(cbn; lia) Ea)
    as (k2 & E2 & S2 & T2 & K2 & M2).
  exists k2. cbn [fst snd]. split_and!.
  - rewrite (ubind_three _ _ _ _ _ _ E1). by rewrite (ubind_inl _ _ _ _ _ E2).
  - eapply nets_kept; [exact N1|exact S2|exact K2|]. intros o Ho.
    destruct (char_object true) as (_ & _ & _ & _ & _ & _ & Hf & _).
    apply M2; [lia|]. apply (var_not_own 6 (fi_frame im, 16)); [done|lia|cbn; lia].
  - intros b. rewrite <- C1. destruct (char_object b) as (i & Hi & H5 & _ & _ & Hu & _ & Hd).
    pose proof (fp_page Hpl) as [D1 _]. pose proof (fp_slot Hpl). unfold page_at in D1.
    apply M2; [lia|]. apply (var_not_own i (c_of b, 1)); [done|done|cbn; lia].
  - by transitivity k1.
Qed.

(** ** A row *)

(** The cells of two lines. *)
Definition row_cell (row : Z) (l0 l1 : list Z) (i : nat) : Z * (Z * Z) :=
  (row * 80 + Z.of_nat i + offset, (default SP (l0 !! i), default SP (l1 !! i))).
Definition row_cells (row : Z) (l0 l1 : list Z) : list (Z * (Z * Z)) :=
  map (row_cell row l0 l1) (seq 0 (Nat.max (List.length l0) (List.length l1))).

Fixpoint shoal (cs : list (Z * (Z * Z))) (l : list blink) : list blink * list (Z * Z) :=
  match cs with
  | [] => (l, [])
  | (loc, c) :: cs =>
      let '(l1, ps) := shoal_add loc c l in let '(l2, qs) := shoal cs l1 in (l2, ps ++ qs)
  end.

(** A file after [i] turns of the loop, from the start [q] of the line [line];
    [term] when a newline ends it and not the file. *)
Definition reader_at (q : Z) (line : list Z) (term : bool) (i : nat) : reader :=
  let past := (List.length line <? i)%nat in
  Rd3 (match i with O => chr "0" | S j => default LF (line !! j) end)
    (q + Z.of_nat (Nat.min i (List.length line)) + (if term && past then 1 else 0))
    (if negb term && past then 1 else 0).

Lemma advance_at txt q line (term : bool) i :
  0 <= q -> Forall (fun c => c <> LF) line ->
  (forall j, (j < List.length line)%nat -> txt !! (Z.to_nat q + j)%nat = line !! j) ->
  txt !! (Z.to_nat q + List.length line)%nat = (if term then Some LF else None) ->
  advance txt (reader_at q line term i) = reader_at q line term (S i).
Proof.
  intros Hq Hno Hin Hend. unfold advance. rewrite Forall_lookup in Hno.
  assert (Hread : (i <= List.length line)%nat ->
    match txt !! Z.to_nat (rd_p (reader_at q line term i)) with
    | Some y => Rd3 y (rd_p (reader_at q line term i) + 1) (rd_eof (reader_at q line term i))
    | None => Rd3 LF (rd_p (reader_at q line term i)) 1
    end = reader_at q line term (S i)).
  { intros Hi. unfold reader_at. cbn [rd_p rd_eof].
    rewrite (proj2 (Nat.ltb_ge (List.length line) i)), !andb_false_r by done.
    replace (Z.to_nat (q + Z.of_nat (Nat.min i (List.length line)) + 0)) with (Z.to_nat q + i)%nat by lia.
    destruct (decide (i = List.length line)) as [->|Hne].
    - rewrite Hend, (proj2 (Nat.ltb_lt _ _)), lookup_ge_None_2 by lia. destruct term; cbn [andb negb default]; f_equal; done || lia.
    - rewrite Hin by lia. destruct (lookup_lt_is_Some_2 line i) as [y Ey]; [lia|]. rewrite Ey.
      rewrite (proj2 (Nat.ltb_ge _ _)), !andb_false_r by lia. cbn [andb default]. f_equal; done || lia. }
  destruct (decide (i <= List.length line)%nat) as [Hi|Hi].
  - rewrite (Hread Hi). replace (rd_c (reader_at q line term i) =? LF) with false; [done|].
    symmetry. apply Z.eqb_neq. destruct i as [|j]; [done|]. cbn.
    destruct (lookup_lt_is_Some_2 line j) as [y Ey]; [lia|]. rewrite Ey. by apply (Hno j).
  - destruct i as [|j]; [lia|]. unfold reader_at. cbn [rd_c].
    rewrite (lookup_ge_None_2 line j), (lookup_ge_None_2 line (S j)) by lia. cbn [default]. rewrite Z.eqb_refl.
    rewrite !(proj2 (Nat.ltb_lt _ _)) by lia. do 3 f_equal. lia.
Qed.

(** The two characters are apart. *)
Lemma other_char b b' k k' : char_frame b k k' -> b <> b' -> char_in k' b' = char_in k b'.
Proof.
  intros C Hne. destruct (char_object b') as (x & _ & _ & _ & _ & Hu & _ & Hd).
  pose proof (fp_page Hpl) as [D1 _]. pose proof (fp_slot Hpl). apply C; [unfold page_at in *; lia|].
  pose proof (objects_apart _ _ 7 8 ltac:(lia) eq_refl eq_refl) as D. unfold disjoint in D. cbn in D.
  destruct b, b'; cbn; done || lia.
Qed.

Lemma nets_ext p p' l v k : (forall b, p b = p' b) -> nets p l v k -> nets p' l v k.
Proof.
  intros Hp [S W F T N O1 O2]. constructor; try done.
  replace (net_fds p') with (net_fds p); [done|]. unfold net_fds. by rewrite !Hp.
Qed.

Section Row.
Context (row : Z) (line : bool -> list Z) (q : bool -> Z) (term : bool).
Context (Hq : forall b, 0 <= q b) (Hno : forall b, Forall (fun c => c <> LF) (line b)).
Context (Hin : forall b j, (j < List.length (line b))%nat -> text b !! (Z.to_nat (q b) + j)%nat = line b !! j).
Context (Hend : forall b, text b !! (Z.to_nat (q b) + List.length (line b))%nat = if term then Some LF else None).
Context (Hlen : forall b, q b + zlen (line b) <= zlen (text b)).

Local Abbreviation width := (Nat.max (List.length (line false)) (List.length (line true))).
Local Abbreviation rd b i := (reader_at (q b) (line b) term i).
Local Abbreviation cells := (row_cells row (line false) (line true)).
Context (Hrow : 0 <= row) (Hwidth : row * 80 + Z.of_nat width + offset <= 65536).

(** Before turn [i]. *)
Definition at_col (i : nat) (l : list blink) (v : view) (k : kernel) : Prop :=
  nets (fun b => rd_p (rd b i)) l v k /\ forall b, char_in k b = rd_c (rd b i).

Lemma reader_bounds b i : 0 <= rd_p (rd b i) <= zlen (text b).
Proof.
  specialize (Hq b). specialize (Hlen b). specialize (Hend b). split.
  - unfold reader_at. cbn. destruct (_ && _); lia.
  - unfold reader_at. cbn. destruct term; cbn [andb]; [|lia].
    apply lookup_lt_Some in Hend. case_match; lia.
Qed.

(** Both files move on. *)
Lemma chars_advance i l v k :
  at_col i l v k ->
  exists k1 k', next_char lay ks base 3 (fi_c0 im) (rd_eof (rd false i)) k = Ok (inl (rd_eof (rd false (S i))), k1) /\
    next_char lay ks base 4 (fi_c1 im) (rd_eof (rd true i)) k1 = Ok (inl (rd_eof (rd true (S i))), k') /\
    at_col (S i) l v k' /\ steady k k'.
Proof.
  intros [N C].
  assert (Hadv : forall b, advance (text b) (rd b i) = rd b (S i)) by (intros b; apply advance_at; [apply Hq | apply Hno | apply Hin | apply Hend]).
  destruct (next_char_advances false _ l v k (rd false i) N (C false) eq_refl (reader_bounds false i))
    as (k1 & E1 & N1 & C1 & F1). rewrite Hadv in *.
  assert (C1t : char_in k1 true = rd_c (rd true i)).
  { rewrite <- (C true). by apply (other_char false). }
  destruct (next_char_advances true _ l v k1 (rd true i) N1 C1t eq_refl (reader_bounds true i))
    as (k2 & E2 & N2 & C2 & F2). rewrite Hadv in *.
  exists k1, k2. split_and!; [exact E1|exact E2| |transitivity k1; [apply F1|apply F2]]. split.
  - destruct N2 as [S W F T Nm O1 O2]. by constructor.
  - intros [|]; [done|]. rewrite <- C1. by apply (other_char true).
Qed.

Lemma char_byte k b : 0 <= char_in k b < 256.
Proof. apply mget_range. Qed.

Lemma blank_line b i : blank (default LF (line b !! i)) = default SP (line b !! i).
Proof.
  destruct (line b !! i) as [y|] eqn:Ey; [|done]. cbn. unfold blank.
  specialize (Hno b). rewrite Forall_lookup in Hno. specialize (Hno i y Ey).
  by rewrite (proj2 (Z.eqb_neq _ _)).
Qed.

Lemma both_ended i :
  (default LF (line false !! i) =? LF) && (default LF (line true !! i) =? LF) = (width <=? i)%nat.
Proof.
  assert (H : forall b, (default LF (line b !! i) =? LF) = (List.length (line b) <=? i)%nat).
  { intros b. destruct (line b !! i) as [y|] eqn:Ey; cbn [default].
    - specialize (Hno b). rewrite Forall_lookup in Hno. specialize (Hno i y Ey).
      rewrite (proj2 (Z.eqb_neq _ _)) by done. symmetry. apply Nat.leb_gt. by apply lookup_lt_Some in Ey.
    - rewrite Z.eqb_refl. symmetry. apply Nat.leb_le. by apply lookup_ge_None in Ey. }
  rewrite !H. destruct (Nat.leb_spec (List.length (line false)) i), (Nat.leb_spec (List.length (line true)) i),
    (Nat.leb_spec width i); cbn; done || lia.
Qed.

(** One turn. *)
Lemma col_turn i l v k :
  at_col i l v k -> (i <= width)%nat ->
  exists k' l' ps, shoal_add (fst (row_cell row (line false) (line true) i)) (snd (row_cell row (line false) (line true) i)) l = (l', ps) /\ steady k k' /\
    col_body lay ks im base 3 4 row (Z.of_nat i) (rd_eof (rd false i)) (rd_eof (rd true i)) k =
      Ok (inl ((width <=? i)%nat, (rd_eof (rd false (S i)), rd_eof (rd true (S i)))), k') /\
    if (width <=? i)%nat then at_col (S i) l v k' else at_col (S i) l' (abs_draw ps v) k'.
Proof.
  intros A Hi. destruct (shoal_add _ _ l) as [l' ps] eqn:Es.
  destruct (chars_advance i l v k A) as (k1 & k2 & E1 & E2 & A2 & T2). pose proof A2 as [N2 C2].
  destruct (load_char false _ _ _ _ N2) as (x & E3 & Ex). rewrite set_kmem_same in Ex. subst x.
  destruct (load_char true _ _ _ _ N2) as (x & E4 & Ex). rewrite set_kmem_same in Ex. subst x.
  unfold col_body. rewrite (ubind_inl _ _ _ _ _ E1), (ubind_inl _ _ _ _ _ E2).
  cbn [c_of] in E3, E4. rewrite (ubind_inl _ _ _ _ _ E3), (ubind_inl _ _ _ _ _ E4).
  rewrite !C2. cbn [rd_c reader_at]. rewrite both_ended.
  destruct (Nat.leb_spec width i) as [Hw|Hw].
  { by exists k2, l', ps. }
  pose proof (char_byte k2 false) as B0. pose proof (char_byte k2 true) as B1. rewrite !C2 in B0, B1.
  cbn [rd_c reader_at] in B0, B1.
  destruct (char_added _ l v k2 row (Z.of_nat i) _ _ N2 B0 B1) as (k3 & E5 & N3 & C3 & T3);
    [unfold offset in *; lia|].
  rewrite !blank_line in N3. unfold row_cell in Es. cbn [fst snd] in Es. rewrite Es in N3.
  exists k3, l', ps. split_and!; [done|by transitivity k2| |].
  - by rewrite (ubind_inl _ _ _ _ _ E5).
  - split; [exact N3|]. intros b. by rewrite C3.
Qed.

Lemma shoal_cons c cs l l1 ps :
  shoal_add (fst c) (snd c) l = (l1, ps) ->
  shoal (c :: cs) l = (fst (shoal cs l1), ps ++ snd (shoal cs l1)).
Proof. destruct c as [loc c]. cbn. intros ->. by destruct (shoal cs l1). Qed.

Lemma cells_drop i : (i < width)%nat -> drop i cells = row_cell row (line false) (line true) i :: drop (S i) cells.
Proof.
  intros Hi. apply drop_S. unfold row_cells. rewrite list_lookup_fmap, lookup_seq_lt by done. done.
Qed.

(** The loop over the columns adds the cells of the row and leaves both files
    behind their lines. *)
Lemma cols_added l v k :
  at_col 0 l v k ->
  exists k', col_loop lay ks im base 3 4 row 0 0 k =
      Ok (inl (rd_eof (rd false (S width)), rd_eof (rd true (S width))), k') /\
    at_col (S width) (fst (shoal cells l)) (abs_draw (snd (shoal cells l)) v) k' /\ steady k k'.
Proof.
  intros A. set (L := fst (shoal cells l)). set (V := abs_draw (snd (shoal cells l)) v).
  unfold col_loop.
  apply (while_index (col_step lay ks im base 3 4 row) (fun n st => exists i li vi ki,
      n = Z.of_nat width - Z.of_nat i /\ (i <= width)%nat /\
      st = (Z.of_nat i, rd_eof (rd false i), rd_eof (rd true i), ki) /\ at_col i li vi ki /\
      fst (shoal (drop i cells) li) = L /\ same_view (abs_draw (snd (shoal (drop i cells) li)) vi) V /\ steady k ki)
    (fun r => exists k', r = Ok (inl _, k') /\ _) (Z.of_nat width)).
  - exists O, l, v, k. cbn [drop]. split_and!; try done; try lia. unfold reader_at. cbn [rd_eof].
    by destruct term.
  - unfold offset in Hwidth. lia.
  - intros n st (i & li & vi & ki & -> & Hi & -> & Ai & HL & HV & Hs).
    destruct (col_turn i li vi ki Ai Hi) as (k' & l' & ps & Es & T' & E & A'). unfold col_step. rewrite E.
    destruct (Nat.leb_spec width i) as [Hw|Hw].
    + assert (i = width) as -> by lia. exists k'. split; [done|]. split; [|by transitivity ki].
      rewrite drop_ge in HL, HV by (unfold row_cells; by rewrite length_map, length_seq). cbn in HL, HV.
      destruct A' as [[S W F T Nm O1 O2] C']. split; [|done]. constructor; try done. rewrite <- HL.
      eapply swims_same; [exact S|]. rewrite <- HV. symmetry. apply abs_draw_nil.
    + exists (Z.of_nat width - Z.of_nat (S i)). split; [lia|].
      exists (S i), l', (abs_draw ps vi), k'. rewrite (cells_drop i Hw), (shoal_cons _ _ _ _ _ Es) in HL, HV.
      cbn [fst snd] in HL, HV. split_and!; [lia|lia| |done|done| |by transitivity ki].
      * do 3 f_equal. lia.
      * rewrite <- HV. apply abs_draw_app.
Qed.

(** The position behind the line. *)
Lemma reader_done b :
  rd_p (rd b (S width)) = q b + zlen (line b) + (if term then 1 else 0) /\
  rd_eof (rd b (S width)) = if term then 0 else 1.
Proof.
  assert (H : (List.length (line b) <? S width)%nat = true) by (apply Nat.ltb_lt; destruct b; lia).
  unfold reader_at. cbn [rd_p rd_eof]. rewrite H, !andb_true_r. destruct term; cbn [negb]; split; try done; destruct b; lia.
Qed.

Lemma row_continues l v k :
  term = true -> at_col 0 l v k ->
  exists k', row_body lay ks im base 3 4 row 0 0 k = Ok (inl (0, 0), k') /\
    nets (fun b => q b + zlen (line b) + 1) (fst (shoal cells l)) (abs_draw (snd (shoal cells l)) v) k' /\
    (forall b, char_in k' b = chr "0") /\ steady k k'.
Proof.
  intros Ht A. destruct (cols_added l v k A) as (k1 & E1 & [N1 _] & T1).
  rewrite (proj2 (reader_done false)), (proj2 (reader_done true)), Ht in E1. unfold row_body. rewrite (ubind_inl _ _ _ _ _ E1).
  destruct (store_char false _ _ _ k1 (chr "0") N1) as (k2 & E2 & N2 & C2 & S2).
  destruct (store_char true _ _ _ k2 (chr "0") N2) as (k3 & E3 & N3 & C3 & S3).
  exists k3. split_and!.
  - unfold end_row. cbn [Z.eqb negb]. cbn [c_of] in E2, E3.
    by rewrite (ubind_inl _ _ _ _ _ E2), (ubind_inl _ _ _ _ _ E3).
  - eapply nets_ext; [|exact N3]. intros b. destruct (reader_done b) as [-> _]. by rewrite Ht.
  - intros [|]; [exact C3|]. transitivity (char_in k2 false); [by apply (other_char true)|exact C2].
  - transitivity k1; [done|]. transitivity k2; [apply S2|apply S3].
Qed.

(** The end of one file. *)
Lemma file_ends b t l v k :
  swims t l v k -> close_case t (fd_of b) = Some true ->
  exists k', end_row lay ks (fd_of b) (c_of b) 1 k = Ok (inl tt, k') /\
    swims (<[Z.to_nat (fd_of b) := None]> t) l v k' /\ steady k k'.
Proof.
  intros S Hc. destruct (char_object b) as (i & Hi & H5 & _ & _ & Hu & _ & Hd).
  destruct (set8_swims i (c_of b) 1 t l v k 0 LF S Hi H5) as (E1 & S1 & T1); [lia|].
  rewrite Z.add_0_r in E1, S1, T1. set (k1 := set_kmem _ k) in *.
  destruct (running_close ks k1 v (fd_of b) (sw_run _ _ _ _ S1) (sw_screen _ _ _ _ S1)) as (k2 & E2 & Hr & Hd2 & Hs & Hm);
    [destruct b; cbn; lia|done|].
  exists k2. unfold end_row. cbn [Z.eqb negb]. rewrite (ubind_inl _ _ _ _ _ E1), (ubind_inl _ _ _ _ _ E2).
  split_and!; [done|by eapply swims_call|by transitivity k1].
Qed.

Lemma row_ends l v k :
  term = false -> at_col 0 l v k ->
  exists k', row_body lay ks im base 3 4 row 0 0 k = Ok (inl (1, 1), k') /\
    swims rtc_fds (fst (shoal cells l)) (abs_draw (snd (shoal cells l)) v) k' /\ steady k k'.
Proof.
  intros Ht A. destruct (cols_added l v k A) as (k1 & E1 & [N1 _] & T1).
  rewrite (proj2 (reader_done false)), (proj2 (reader_done true)), Ht in E1. unfold row_body. rewrite (ubind_inl _ _ _ _ _ E1).
  destruct (file_ends false _ _ _ k1 (nt_swims _ _ _ _ N1)) as (k2 & E2 & S2 & T2); [done|].
  destruct (file_ends true _ _ _ k2 S2) as (k3 & E3 & S3 & T3); [done|].
  exists k3. cbn [c_of fd_of] in E2, E3. rewrite (ubind_inl _ _ _ _ _ E2), (ubind_inl _ _ _ _ _ E3).
  split_and!; [done|exact S3|]. transitivity k1; [done|]. by transitivity k2.
Qed.
End Row.

(** ** The frames *)

(** Lines, with a newline between two of them. *)
Fixpoint unlines (ls : list (list Z)) : list Z :=
  match ls with
  | [] => []
  | l :: ls => l ++ match ls with [] => [] | _ => LF :: unlines ls end
  end.

Fixpoint frame_cells (row : Z) (ls0 ls1 : list (list Z)) : list (Z * (Z * Z)) :=
  match ls0, ls1 with
  | l0 :: ls0, l1 :: ls1 => row_cells row l0 l1 ++ frame_cells (row + 1) ls0 ls1
  | _, _ => []
  end.

Lemma shoal_app cs ds l :
  shoal (cs ++ ds) l =
  (fst (shoal ds (fst (shoal cs l))), snd (shoal cs l) ++ snd (shoal ds (fst (shoal cs l)))).
Proof.
  revert l. induction cs as [|[loc c] cs IH]; intros l; cbn; [by destruct (shoal ds l)|].
  destruct (shoal_add loc c l) as [l1 ps]. rewrite IH. destruct (shoal cs l1) as [l2 qs]. cbn.
  by rewrite app_assoc.
Qed.

(** The first line of what is left of a file. *)
Lemma first_line txt q line ls :
  0 <= q -> drop (Z.to_nat q) txt = unlines (line :: ls) -> q <= zlen txt ->
  (forall j, (j < List.length line)%nat -> txt !! (Z.to_nat q + j)%nat = line !! j) /\
  txt !! (Z.to_nat q + List.length line)%nat = (if negb (bool_decide (ls = [])) then Some LF else None) /\
  q + zlen line <= zlen txt /\
  (ls <> [] -> drop (Z.to_nat (q + zlen line + 1)) txt = unlines ls /\ q + zlen line + 1 <= zlen txt).
Proof.
  intros Hq Hd Hle. cbn [unlines] in Hd.
  assert (Hlen : List.length txt = (Z.to_nat q + List.length line +
    List.length (match ls with [] => [] | _ => LF :: unlines ls end))%nat).
  { pose proof (f_equal (@List.length Z) Hd) as H. rewrite length_drop, length_app in H. lia. }
  split_and!.
  - intros j Hj. rewrite <- lookup_drop, Hd. by apply lookup_app_l.
  - rewrite <- lookup_drop, Hd, lookup_app_r, Nat.sub_diag by lia. destruct ls; [done|].
    by rewrite bool_decide_false by done.
  - lia.
  - intros Hne. destruct ls as [|l ls]; [done|]. cbn [List.length] in Hlen. split; [|lia].
    replace (Z.to_nat (q + zlen line + 1)) with (Z.to_nat q + (List.length line + 1))%nat by lia.
    rewrite <- drop_drop, Hd, <- drop_drop, drop_app_length. done.
Qed.

(** The frames as lists of lines of the same number, with locations of 16
    bits. *)
Record lines_ok (row : Z) (ls : bool -> list (list Z)) : Prop := {
  ln_same : List.length (ls false) = List.length (ls true);
  ln_no : forall b, Forall (Forall (fun c => c <> LF)) (ls b);
  ln_row : 0 <= row;
  ln_fit : forall i l0 l1, ls false !! i = Some l0 -> ls true !! i = Some l1 ->
    (row + Z.of_nat i) * 80 + Z.of_nat (Nat.max (List.length l0) (List.length l1)) + offset <= 65536;
}.

(** Before a row. *)
Record at_row (row : Z) (ls : bool -> list (list Z)) (q : bool -> Z) (l : list blink) (v : view) (k : kernel)
  : Prop := {
  ar_nets : nets q l v k;
  ar_chars : forall b, char_in k b = chr "0";
  ar_lines : lines_ok row ls;
  ar_some : ls false <> [];
  ar_text : forall b, 0 <= q b <= zlen (text b) /\ drop (Z.to_nat (q b)) (text b) = unlines (ls b);
}.

Lemma lines_tail row ls : lines_ok row ls -> lines_ok (row + 1) (fun b => tl (ls b)).
Proof.
  intros [H1 H2 H3 H4]. constructor; [|intros b|lia|].
  - revert H1. destruct (ls false), (ls true); cbn; lia.
  - specialize (H2 b). destruct (ls b); [done|]. by inversion H2.
  - intros i l0 l1 E0 E1. specialize (H4 (S i) l0 l1). revert E0 E1 H4.
    destruct (ls false), (ls true); try done. intros E0 E1 H4. specialize (H4 E0 E1). lia.
Qed.

Lemma row_turn row ls q l v k :
  at_row row ls q l v k ->
  exists line k' l' ps, shoal (row_cells row (line false) (line true)) l = (l', ps) /\
    (forall b, ls b = line b :: tl (ls b)) /\ steady k k' /\
    if bool_decide (tl (ls false) = []) then
      row_body lay ks im base 3 4 row 0 0 k = Ok (inl (1, 1), k') /\ swims rtc_fds l' (abs_draw ps v) k'
    else
      row_body lay ks im base 3 4 row 0 0 k = Ok (inl (0, 0), k') /\
      at_row (row + 1) (fun b => tl (ls b)) (fun b => q b + zlen (line b) + 1) l' (abs_draw ps v) k'.
Proof.
  intros [N C L Hne T]. pose proof L as [L1 L2 L3 L4].
  assert (Hlb : forall b, exists x, ls b = x :: tl (ls b)).
  { intros [|]; revert Hne L1; destruct (ls false), (ls true); intros; done || by eexists. }
  assert (Htl : forall b, tl (ls b) = [] <-> tl (ls false) = []).
  { intros [|]; [|done]. revert Hne L1. destruct (ls false) as [|? [|]], (ls true) as [|? [|]]; done. }
  set (line b := hd [] (ls b)).
  assert (Hls : forall b, ls b = line b :: tl (ls b)) by (intros b; destruct (Hlb b) as [x E]; unfold line; by rewrite E).
  set (term := negb (bool_decide (tl (ls false) = []))).
  assert (Hfl : forall b, (forall j, (j < List.length (line b))%nat -> text b !! (Z.to_nat (q b) + j)%nat = line b !! j) /\
      text b !! (Z.to_nat (q b) + List.length (line b))%nat = (if term then Some LF else None) /\
      q b + zlen (line b) <= zlen (text b) /\
      (term = true -> drop (Z.to_nat (q b + zlen (line b) + 1)) (text b) = unlines (tl (ls b)) /\
        q b + zlen (line b) + 1 <= zlen (text b))).
  { intros b. destruct (T b) as [Hq Hd]. rewrite (Hls b) in Hd.
    destruct (first_line (text b) (q b) (line b) (tl (ls b))) as (F1 & F2 & F3 & F4); [lia|done|lia|].
    split_and!; [done| |done|].
    - rewrite F2. unfold term. by rewrite (bool_decide_ext _ _ (Htl b)).
    - intros Ht. apply F4. intros E. apply Htl in E. unfold term in Ht. by rewrite bool_decide_true in Ht. }
  assert (Hno : forall b, Forall (fun c => c <> LF) (line b)).
  { intros b. specialize (L2 b). rewrite (Hls b) in L2. by inversion L2. }
  assert (Hw : row * 80 + Z.of_nat (Nat.max (List.length (line false)) (List.length (line true))) + offset <= 65536).
  { specialize (L4 O (line false) (line true)). rewrite (Hls false), (Hls true) in L4. specialize (L4 eq_refl eq_refl). lia. }
  assert (A : at_col line q term 0 l v k).
  { split; [|done]. eapply nets_ext; [|exact N]. intros b. cbn. rewrite andb_false_r. lia. }
  exists line. destruct (shoal (row_cells row (line false) (line true)) l) as [l' ps] eqn:Es.
  destruct term eqn:Et.
  - destruct (row_continues row line q true) with (l := l) (v := v) (k := k) as (k' & E & N' & C' & T');
      [apply T|done|apply Hfl..|done|done|done|done|].
    rewrite Es in N'. exists k', l', ps. unfold term in Et. apply negb_true_iff in Et. rewrite Et.
    split_and!; try done. constructor; try done.
    + by apply lines_tail.
    + by apply bool_decide_eq_false in Et.
    + intros b. destruct (Hfl b) as (_ & _ & _ & F4). destruct (F4 eq_refl). specialize (T b). split; [lia|done].
  - destruct (row_ends row line q false) with (l := l) (v := v) (k := k) as (k' & E & S' & T');
      [apply T|done|apply Hfl..|done|done|done|done|].
    rewrite Es in S'. exists k', l', ps. unfold term in Et. apply negb_false_iff in Et. by rewrite Et.
Qed.

Lemma lines_number row ls : lines_ok row ls -> zlen (ls false) < 4294967296.
Proof.
  intros [H1 _ H3 H4]. destruct (decide (zlen (ls false) < 4294967296)); [done|].
  destruct (lookup_lt_is_Some_2 (ls false) (List.length (ls false) - 1)) as [l0 E0]; [lia|].
  destruct (lookup_lt_is_Some_2 (ls true) (List.length (ls false) - 1)) as [l1 E1]; [lia|].
  specialize (H4 _ _ _ E0 E1). unfold offset in H4. lia.
Qed.

(** The loop over the rows adds both frames and closes them. *)
Lemma rows_added row ls q l v k :
  at_row row ls q l v k ->
  let s := shoal (frame_cells row (ls false) (ls true)) l in
  exists k', while (row_step lay ks im base 3 4) (row, 0, 0, k) = Ok (inl tt, k') /\
    swims rtc_fds (fst s) (abs_draw (snd s) v) k' /\ steady k k'.
Proof.
  intros A s. set (L := fst s). set (V := abs_draw (snd s) v).
  apply (while_index (row_step lay ks im base 3 4) (fun n st =>
      (exists r lr qr lr' vr kr, n = zlen (lr false) /\ st = (r, 0, 0, kr) /\ at_row r lr qr lr' vr kr /\
        fst (shoal (frame_cells r (lr false) (lr true)) lr') = L /\
        same_view (abs_draw (snd (shoal (frame_cells r (lr false) (lr true)) lr')) vr) V /\ steady k kr) \/
      (exists r kr, n = 0 /\ st = (r, 1, 1, kr) /\ swims rtc_fds L V kr /\ steady k kr))
    (fun x => exists k', x = Ok (inl tt, k') /\ _) (zlen (ls false))).
  - left. by exists row, ls, q, l, v, k.
  - eapply lines_number, A.
  - intros n st [(r & lr & qr & l' & v' & kr & -> & -> & Ar & HL & HV & Hs)|(r & kr & -> & -> & S & Hs)].
    2: { exists kr. by split_and!. }
    destruct (row_turn r lr qr l' v' kr Ar) as (line & k1 & l1 & ps & Es & Hls & T1 & H1).
    assert (Hln : zlen (lr false) = zlen (tl (lr false)) + 1) by (rewrite (Hls false) at 1; cbn [List.length]; lia).
    rewrite (Hls false), (Hls true) in HL, HV. cbn [frame_cells] in HL, HV.
    rewrite shoal_app, Es in HL, HV. cbn [fst snd] in HL, HV.
    unfold row_step. cbn [Z.eqb orb]. case_bool_decide as Et; destruct H1 as [E1 H1]; rewrite E1.
    + rewrite Et in HL, HV. cbn in HL, HV. rewrite app_nil_r in HV.
      exists 0. split; [lia|]. right. exists (r + 1), k1. rewrite <- HL.
      split_and!; [done|done|by eapply swims_same|by transitivity kr].
    + exists (zlen (tl (lr false))). split; [lia|].
      left. exists (r + 1), (fun b => tl (lr b)). do 4 eexists. split_and!; [done|done|exact H1|done| |by transitivity kr].
      cbn beta. rewrite <- HV. apply abs_draw_app.
Qed.

(** ** Opening the frames *)

Definition file_of (b : bool) : Z := if b then fi_file1 im else fi_file0 im.

Lemma literal_here t l v k a s :
  swims t l v k -> (a, s) ∈ fish_lits -> cstr (kmem k) a s /\ 8388608 <= a.
Proof.
  intros S Hin. pose proof (proj1 (Forall_forall _ _) (ru_lits _ _ _ _ _ _ (sw_run _ _ _ _ S)) _ Hin) as ([L1 _] & _ & L2).
  split; [done|]. rewrite (sw_pos _ _ _ _ S) in L1. pose proof (fp_slot Hpl). unfold page_at in L1. cbn in L1. lia.
Qed.

(** A file of the directory, opened by one of the names in the program. *)
Lemma name_opens t l v k fd a s j e kd :
  swims t l v k -> shelf k -> (a, s) ∈ fish_lits -> 0 < zlen s < 32 ->
  take 5 s <> bytes "stdin" -> take 6 s <> bytes "stdout" ->
  abs_lookup dir s = Some j -> dir !! Z.to_nat j = Some e -> kind_of_type (e_type e) = Some kd ->
  free_fd t = Some fd ->
  exists k', ece391_open lay ks a k = Ok (inl fd, k') /\
    swims (<[Z.to_nat fd := Some (kd, 0)]> t) l v k' /\ shelf k' /\ steady k k' /\
    (forall b, 8388608 <= b -> mget (kmem k') b = mget (kmem k) b) /\
    cstr (kmem k') (file_name_at (pcb_at pos) fd) s /\ names_same (pcb_at pos) fd (kmem k) (kmem k').
Proof.
  intros S H Hin Hlen N1 N2 Hj He Hkd Hfree. destruct (literal_here _ _ _ _ _ _ S Hin) as [L1 L2].
  pose proof (sw_pos _ _ _ _ S) as Ep.
  destruct (running_open_named ks k v start NI NB dir a s j e kd (sw_run _ _ _ _ S) (sw_screen _ _ _ _ S) (sh_world _ H))
    as (k' & E & Hr & Hd & Hs & _ & Hm & Hk & Hi & Hn); [rewrite Ep; apply Hfr|done..|].
  rewrite Hfree in *. destruct (Hn fd eq_refl) as [Hn1 Hn2].
  assert (S' : swims (<[Z.to_nat fd := Some (kd, 0)]> t) l v k') by (by eapply swims_call).
  unfold curr_pcb in Hn1, Hn2. rewrite (sw_pos _ _ _ _ S') in Hn1. rewrite Ep in Hn2.
  exists k'. split_and!; try done. eapply shelf_kept; [done| |done]. intros b Hb. apply Hi. lia.
Qed.

Lemma frame_opens b t l v k fd :
  swims t l v k -> shelf k -> free_fd t = Some fd ->
  exists k', ece391_open lay ks (file_of b + base) k = Ok (inl fd, k') /\
    swims (<[Z.to_nat fd := Some (FFile, 0)]> t) l v k' /\ shelf k' /\ steady k k' /\
    (forall b, 8388608 <= b -> mget (kmem k') b = mget (kmem k) b) /\
    cstr (kmem k') (file_name_at (pcb_at pos) fd) (name_of b) /\ names_same (pcb_at pos) fd (kmem k) (kmem k').
Proof.
  intros S H Hfree. apply (name_opens t l v k fd _ _ (idx b) (ent b) FFile S H); try apply Hfr; try done.
  - destruct b; unfold fish_lits; set_solver.
  - by destruct b.
  - by destruct b.
  - by destruct b.
  - by rewrite (fr_type Hfr).
Qed.

(** The variables of [add_frames] at its start. *)
Definition frame_vars (m : mem) : mem :=
  store16 (store16 (mset (mset m (fi_c0 im + base) (chr "0")) (fi_c1 im + base) (chr "0"))
    (fi_frame im + ON_LENGTH + base) 15) (fi_frame im + OFF_LENGTH + base) 15.

Lemma frame_vars_apart :
  fi_c0 im <> fi_c1 im /\ (forall b, c_of b < fi_frame im \/ fi_frame im + 16 <= c_of b) /\
  (forall b, 8388608 <= c_of b + base) /\ 8388608 <= fi_frame im + base.
Proof.
  pose proof (objects_apart _ _ 7 8 ltac:(lia) eq_refl eq_refl) as H1. unfold disjoint in H1. cbn in H1.
  split_and!; [lia|intros b|intros b|].
  - destruct (char_object b) as (i & _ & _ & _ & D & _). unfold disjoint in D. cbn in D. lia.
  - destruct (char_object b) as (i & _ & _ & _ & _ & [U _] & _). pose proof (fp_slot Hpl). unfold page_at. lia.
  - by destruct (char_object true) as (i & _ & _ & _ & _ & _ & H & _).
Qed.

Lemma vars_set l v k :
  swims rtc_fds l v k -> shelf k ->
  let k' := set_kmem (frame_vars (kmem k)) k in
  (forall A (c : UP A), (let! _ := on_user lay (fun tr => ust8 tr (fi_c0 im) (chr "0")) in
    let! _ := on_user lay (fun tr => ust8 tr (fi_c1 im) (chr "0")) in
    let! _ := on_user lay (fun tr => ust16 tr (fi_frame im + ON_LENGTH) 15) in
    let! _ := on_user lay (fun tr => ust16 tr (fi_frame im + OFF_LENGTH) 15) in c) k = c k') /\
  swims rtc_fds l v k' /\ shelf k' /\ steady k k' /\ (forall b, char_in k' b = chr "0") /\
  load16 (kmem k') (fi_frame im + ON_LENGTH + base) = 15 /\ load16 (kmem k') (fi_frame im + OFF_LENGTH + base) = 15.
Proof.
  intros S H k'.
  destruct (set8_swims 7 (fi_c0 im) 1 _ l v k 0 (chr "0") S eq_refl) as (E1 & S1 & T1); [lia..|].
  destruct (set8_swims 8 (fi_c1 im) 1 _ l v _ 0 (chr "0") S1 eq_refl) as (E2 & S2 & T2); [lia..|].
  destruct (set16_swims 6 (fi_frame im) 16 _ l v _ ON_LENGTH 15 S2 eq_refl) as (E3 & S3 & T3); [unfold ON_LENGTH; lia..|].
  destruct (set16_swims 6 (fi_frame im) 16 _ l v _ OFF_LENGTH 15 S3 eq_refl) as (E4 & S4 & T4); [unfold OFF_LENGTH; lia..|].
  rewrite !Z.add_0_r in *.
  destruct frame_vars_apart as (A1 & A2 & A3 & A4). pose proof (A2 false) as A2f. pose proof (A2 true) as A2t.
  pose proof (A3 false). pose proof (A3 true). cbn [c_of] in *.
  split_and!.
  - intros A c. rewrite (ubind_inl _ _ _ _ _ E1), (ubind_inl _ _ _ _ _ E2), (ubind_inl _ _ _ _ _ E3).
    by rewrite (ubind_inl _ _ _ _ _ E4).
  - exact S4.
  - eapply shelf_kept; [|intros b Hb|exact H].
    + exists (file_pos_keeper (k_fs k)). by destruct k as [? ? ? ? ? ? ? ? ? ? ? ? ? ? ? ? ? []].
    + change (kmem k') with (frame_vars (kmem k)). unfold frame_vars, ON_LENGTH, OFF_LENGTH.
      pose proof (pcb_at_low _ (fp_slot Hpl)) as (P5 & Plo & Phi). rewrite !mget_store16_ne, !mget_mset_ne by lia. done.
  - etransitivity; [exact T1|]. etransitivity; [exact T2|]. etransitivity; [exact T3|exact T4].
  - intros b. unfold char_in. change (kmem k') with (frame_vars (kmem k)). unfold frame_vars, ON_LENGTH, OFF_LENGTH.
    rewrite !mget_store16_ne by (specialize (A2 b); lia).
    destruct b; cbn [c_of]; [by rewrite mget_mset_eq|]. rewrite mget_mset_ne by lia. by rewrite mget_mset_eq.
  - change (kmem k') with (frame_vars (kmem k)). unfold frame_vars, ON_LENGTH, OFF_LENGTH.
    rewrite load16_store16_ne by lia. by rewrite load16_store16_eq.
  - change (kmem k') with (frame_vars (kmem k)). unfold frame_vars. by rewrite load16_store16_eq.
Qed.

(** [add_frames], from the files to the blinking characters. *)
Lemma frames_added ls l v k rtc_fd :
  swims rtc_fds l v k -> shelf k -> lines_ok 0 ls -> ls false <> [] -> (forall b, text b = unlines (ls b)) ->
  let s := shoal (frame_cells 0 (ls false) (ls true)) l in
  exists k', add_frames lay ks im base (fi_file0 im) (fi_file1 im) rtc_fd k = Ok (inl tt, k') /\
    swims rtc_fds (fst s) (abs_draw (snd s) v) k' /\ steady k k'.
Proof.
  intros S H L Hne HT s. destruct (vars_set l v k S H) as (E0 & S0 & H0 & T0 & C0 & O1 & O2).
  set (k0 := set_kmem _ k) in *.
  destruct (frame_opens false _ l v k0 3 S0 H0 eq_refl) as (k1 & E1 & S1 & H1 & T1 & M1 & N1 & _).
  destruct (frame_opens true _ l v k1 4 S1 H1 eq_refl) as (k2 & E2 & S2 & H2 & T2 & M2 & N2 & N3).
  destruct frame_vars_apart as (A1 & A2 & A3 & A4).
  assert (Hm : forall b, 8388608 <= b -> mget (kmem k2) b = mget (kmem k0) b) by (intros; by rewrite M2, M1).
  destruct (rows_added 0 ls (fun _ => 0) l v k2) as (k3 & E3 & S3 & T3).
  { constructor; try done.
    - destruct H2 as [W F T]. constructor; try done.
      + intros b. unfold curr_pcb. rewrite (sw_pos _ _ _ _ S2). destruct b; [exact N2|].
        eapply cstr_ext; [|exact N1]. intros c Hc. symmetry. apply (N3 3); [lia|lia|].
        unfold name_of in Hc. cbn in Hc. lia.
      + rewrite <- O1. apply load16_ext. intros b Hb. apply Hm. unfold ON_LENGTH in Hb. lia.
      + rewrite <- O2. apply load16_ext. intros b Hb. apply Hm. unfold OFF_LENGTH in Hb. lia.
    - intros b. unfold char_in. rewrite Hm by apply A3. apply C0.
    - intros b. split; [lia|]. rewrite drop_0. apply HT. }
  exists k3. split_and!; [|exact S3|].
  - unfold add_frames. rewrite E0. cbn [file_of] in E1, E2.
    rewrite (ubind_inl _ _ _ _ _ E1). cbn [Z.ltb Z.compare].
    erewrite ubind_inl by done. rewrite (ubind_inl _ _ _ _ _ E2). cbn [Z.ltb Z.compare].
    by erewrite ubind_inl by done.
  - transitivity k0; [done|]. transitivity k1; [done|]. by transitivity k2.
Qed.

(** ** The start *)

(** The page of the program, by the tables that [execute] has set up. *)
Lemma page_mapped k :
  dir_ok lay (page_dir k) (Some pos) -> mmu_sync k ->
  forall a, in_user a 1 -> tr_of lay k a = Some (a + base).
Proof.
  intros Hd Hm a [H1 H2]. unfold tr_of. rewrite Hm, (translate_task _ _ _ _ _ _ Hd) by lia.
  f_equal. unfold page_at. lia.
Qed.

(** What [execute] leaves to the program. *)
Record newborn (v : view) (k : kernel) : Prop := {
  nb_run : running lay fish_lits data size fresh_fds k;
  nb_pos : curr_task_pos k = pos;
  nb_screen : displays k v;
  nb_dir : dir_ok lay (page_dir k) (Some pos);
  nb_tab : tab_ok (page_tab k);
  nb_mmu : mmu_sync k;
  nb_shelf : shelf k;
  nb_layout : layout_ok lay;
  nb_head : load32 (kmem k) (mp1_list_head bi + base) = 0;
}.
Context (Hphys : ks_phys ks = vmem_base_addr bi + base).

(** The array is cleared and the screen mapped: an empty list. *)
Lemma list_starts v k :
  newborn v k ->
  exists k1 k2,
    on_user lay (fun tr => ece391_memset tr (blink_array bi) 0 (STRUCT_SIZE * 80 * 25)) k = Ok (inl tt, k1) /\
    mp1_set_video_mode lay ks im k1 = Ok (inl OTSMBVIR, k2) /\ swims fresh_fds [] v k2 /\ shelf k2.
Proof.
  intros [Hr Ep Hd Hdir Htab Hmmu Hsh Hlay Hh].
  pose proof (object_user _ (list_elem_of_lookup_2 objects 2 _ eq_refl)) as [Ua [Da1 Da2]].
  pose proof (object_user _ (list_elem_of_lookup_2 objects 1 _ eq_refl)) as [Uv [Dv1 Dv2]].
  pose proof (objects_apart _ _ 0 1 ltac:(lia) eq_refl eq_refl) as A01.
  pose proof (objects_apart _ _ 0 2 ltac:(lia) eq_refl eq_refl) as A02.
  pose proof (objects_apart _ _ 1 2 ltac:(lia) eq_refl eq_refl) as A12.
  pose proof (fp_page Hpl) as [D1 D2]. pose proof (fp_slot Hpl). assert (Hbase : page_at pos = 8388608 + 4194304 * pos) by done.
  unfold disjoint in *. cbn in A01, A02, A12, Da1, Da2, Dv1, Dv2.
  destruct (memset_page (tr_of lay k) base (blink_array bi) 0 32000 (kmem k) (page_mapped k Hdir Hmmu) ltac:(lia) Ua)
    as (m & Em & Hz & Hm).
  set (k1 := set_kmem m k). exists k1.
  destruct (vidmap_run lay (vmem_base_addr bi) (ks_phys ks) (set_if true k1) (Some pos) Hlay Hdir Htab)
    as (k2' & Ev & [Et Ef Ec _ _ _ _ _] & Hsync & Hdir' & Htab' & Htr).
  { destruct Uv as [U1 U2]. unfold OTEMBVIR, OTTMBVIR. cbn in U1, U2. lia. }
  set (m2 := store32 (kmem (set_if true k1)) (ks_phys ks) OTSMBVIR) in *.
  set (k2 := set_if true (set_kmem m2 k2')). exists k2.
  assert (Hk2 : kmem k2 = store32 m (vmem_base_addr bi + base) OTSMBVIR) by (unfold m2 in k2; rewrite <- Hphys; done).
  assert (Hout : forall b, b < data \/ data + size <= b -> mget (kmem k2) b = mget (kmem k) b).
  { intros b Hb. rewrite Hk2, mget_store32_ne by lia. apply Hm. lia. }
  assert (Hmap : mapped k2).
  { split; [apply (page_mapped k2); [exact Hdir'|exact Hsync]|]. intros off Hoff. unfold tr_of. change (mmu k2) with (mmu k2'). rewrite Hsync.
    apply (Htr off). lia. }
  assert (Sw : swims fresh_fds [] v k2).
  { constructor.
    - eapply running_data; [exact Hr|exact Ec|]. intros b _ Hb. by apply Hout.
    - by rewrite <- Ep.
    - apply (displays_mem k _ true); [exact Hd| |]; [|intros b Hb; apply Hout; lia].
      cbn [k2 set_if set_kmem k_tty set_k_tty]. rewrite Et. by destruct k as [[]].
    - exact Hmap.
    - exists []. apply board_empty.
      + rewrite Hk2, load32_store32_ne by lia. rewrite <- Hh. apply load32_ext. intros b Hb. apply Hm. lia.
      + rewrite Hk2. by rewrite load32_store32_eq.
      + intros p Hp. rewrite Hk2, mget_store32_ne by lia. by apply Hz. }
  split_and!; [| |exact Sw|].
  - unfold on_user. change (STRUCT_SIZE * 80 * 25) with 32000. by rewrite Em.
  - unfold mp1_set_video_mode. rewrite (ubind_inl _ _ _ _ _ (vidmap_call _ _ _ _ _ _ Ev)). fold k2. cbn [Z.eqb OTSMBVIR].
    unfold on_user. rewrite (uld32_page _ bi base (mapped_placed k2 Hmap)) by exact Uv.
    rewrite set_kmem_same, Hk2. by rewrite load32_store32_eq.
  - eapply shelf_kept; [|intros b Hb; apply Hout; pose proof (pcb_at_low _ (fp_slot Hpl)); lia|exact Hsh].
    exists (file_pos_keeper (k_fs k)). change (k_fs k2) with (k_fs k2'). rewrite Ef. by destruct k as [? ? ? ? ? ? ? ? ? ? ? ? ? ? ? ? ? []].
Qed.

Lemma ret_val_set t l v k x :
  swims t l v k ->
  let k' := set_kmem (store32 (kmem k) (fi_ret_val im + base) x) k in
  on_user lay (fun tr => ust32 tr (fi_ret_val im) x) k = Ok (inl tt, k') /\ swims t l v k' /\ steady k k'.
Proof.
  intros S. assert (Hx : objects !! 9%nat = Some (fi_ret_val im, 4)) by done.
  pose proof (object_user _ (list_elem_of_lookup_2 _ _ _ Hx)) as [Hu _].
  apply (user_sets 9 (fi_ret_val im, 4)); [done|done|lia| |].
  - apply ust32_page with (im := bi) (base := base); [apply mapped_placed, S|exact Hu].
  - intros b Hb. cbn in Hb. apply mget_store32_ne. lia.
Qed.

Context (j : Z) (e : entry) (Hj : abs_lookup dir (bytes "rtc") = Some j) (He : dir !! Z.to_nat j = Some e).
Context (Hty : e_type e = 0).

Lemma setup_swims v k ls :
  newborn v k -> lines_ok 0 ls -> ls false <> [] -> (forall b, text b = unlines (ls b)) ->
  0 <= ks_prev ks < 256 ->
  let s := shoal (frame_cells 0 (ls false) (ls true)) [] in
  exists k', fish_setup lay ks im base k = Ok (inl (Some 2), k') /\
    swims rtc_fds (fst s) (abs_draw (snd s) v) k'.
Proof.
  intros Hn L Hne HT Hprev s. destruct (list_starts v k Hn) as (k1 & k2 & E1 & E2 & S2 & H2).
  destruct (name_opens fresh_fds [] v k2 2 (fi_rtc im + base) (bytes "rtc") j e FRtc S2 H2)
    as (k3 & E3 & S3 & H3 & _); [left|done|done|done|done|done|by rewrite Hty|done|].
  destruct (frames_added ls [] v k3 2 S3 H3 L Hne HT) as (k4 & E4 & S4 & _).
  destruct (ret_val_set _ _ _ k4 32 S4) as (E5 & S5 & _). set (k5 := set_kmem _ k4) in *.
  destruct (clock_set (t := rtc_fds) (fd := 2) (q := 0) eq_refl ltac:(lia) ks k5 (fi_ret_val im + base) (sw_run _ _ _ _ S5))
    as (k6 & E6 & Q6 & _); [change (kmem k5) with (store32 (kmem k4) (fi_ret_val im + base) 32); by rewrite load32_store32_eq|done|].
  pose proof (quiet_swims _ _ _ _ _ Q6 S5) as S6.
  destruct (ret_val_set _ _ _ k6 4 S6) as (E7 & S7 & _).
  eexists. split; [|exact S7]. unfold fish_setup.
  rewrite (ubind_inl _ _ _ _ _ E1), (ubind_inl _ _ _ _ _ E2). cbn [Z.eqb OTSMBVIR].
  rewrite (ubind_inl _ _ _ _ _ E3), (ubind_inl _ _ _ _ _ E4), (ubind_inl _ _ _ _ _ E5), (ubind_inl _ _ _ _ _ E6).
  by rewrite (ubind_inl _ _ _ _ _ E7).
Qed.

(** The ticks until the program ends. *)
Definition ticks_left (pc : fish_pc) : Z :=
  fish_limit (fp_loop pc) - fp_i pc + (if fp_loop pc =? 3 then 0 else WAIT * (2 - fp_loop pc) + 80 * 25).

Lemma tick_left pc l o l' ps :
  pc_ok pc -> abs_tick pc l = (o, l', ps) ->
  match o with
  | Some pc' => pc_ok pc' /\ ticks_left pc' = ticks_left pc - 1
  | None => ticks_left pc = 1
  end.
Proof.
  intros [H1 H2] Ha. unfold abs_tick in Ha. destruct (tick_all l) as [l1 ps1].
  destruct (Z.ltb_spec (fp_i pc + 1) (fish_limit (fp_loop pc))) as [Hlt|Hge].
  { injection Ha as <- _ _. unfold pc_ok, ticks_left. cbn [fp_loop fp_i]. lia. }
  destruct (abs_after (fp_loop pc) l1) as [l2 ps2]. injection Ha as <- _ _.
  unfold pc_ok, ticks_left, fish_limit, WAIT in *. cbn [fp_loop fp_i].
  destruct (Z.eqb_spec (fp_loop pc) 3); [lia|]. cbn [fp_loop fp_i].
  destruct (Z.eqb_spec (fp_loop pc + 1) 3); lia.
Qed.

Lemma ticks_end n pc l o l' ps :
  pc_ok pc -> abs_ticks n pc l = (o, l', ps) -> o = None <-> ticks_left pc <= Z.of_nat n.
Proof.
  revert pc l o l' ps. induction n as [|n IH]; intros pc l o l' ps Hpc Ha; cbn [abs_ticks] in Ha.
  { injection Ha as <- _ _. split; [done|]. destruct Hpc as [H1 H2]. unfold ticks_left, WAIT. case_match; lia. }
  destruct (abs_tick pc l) as [[o1 l1] ps1] eqn:E. pose proof (tick_left pc l o1 l1 ps1 Hpc E) as Ht.
  destruct o1 as [pc1|]; [|injection Ha as <- _ _; split; [lia|done]]. destruct Ht as [Hok Hl].
  destruct (abs_ticks n pc1 l1) as [[o2 l2] ps2] eqn:E2. injection Ha as <- _ _.
  rewrite (IH _ _ _ _ _ Hok E2). lia.
Qed.

Lemma launch_newborn fr sp t command cmd k content v k1 :
  launch lay fr sp t command cmd k start NI NB dir content pos v ->
  Forall (literal_in pos content data size) fish_lits ->
  in_image (mp1_list_head bi + base) [0; 0; 0] pos content ->
  (forall b, file_content (kmem k) (k_fs k) (e_inode (ent b)) = text b) ->
  started lay fr sp pos content (cmd_args cmd) k k1 ->
  entered lay start NI NB dir pos content (cmd_args cmd) v k k1 -> newborn v k1.
Proof.
  intros La Hl Hz Ht St En.
  destruct (entered_running _ _ _ _ _ _ _ _ _ _ _ fish_lits _ _ En (fp_page Hpl) Hl) as [Hr Hd].
  pose proof (la_can _ _ _ _ _ _ _ _ _ _ _ _ _ _ La) as C. constructor; try done.
  - apply En.
  - apply St.
  - rewrite (st_tab _ _ _ _ _ _ _ _ St). apply C.
  - apply St.
  - eapply shelf_kept; [apply En|apply En|]. constructor; [apply C|apply C|exact Ht].
  - apply C.
  - pose proof (fun i => image_loaded _ _ _ _ (kmem k1) i Hz (en_image _ _ _ _ _ _ _ _ _ _ _ En)) as Hb.
    unfold load32. rewrite (Hb 1), (Hb 2), (Hb 3) by (cbn; lia).
    pose proof (Hb 0 ltac:(cbn; lia)) as H0. rewrite Z.add_0_r in H0. by rewrite H0.
Qed.

(** C10: The command [fish] of a shell, with two frames of the same number of
    lines: every character in which one of them is not blank is put on the
    screen by the list of blink.S, in the order of the lines; the program
    waits for the clock, and each tick draws what the list draws.  After 200
    ticks one more character is added, after 400 that character is put in
    step with the one at location 40, after 600 the one at location 200 is
    removed, and with tick 2600 the program ends with status 0. *)
Theorem fish_swims fr sp t command cmd k content v ls regcs l0 ps0 o l' ps :
  launch lay fr sp t command cmd k start NI NB dir content pos v ->
  Forall (literal_in pos content data size) fish_lits ->
  in_image (mp1_list_head bi + base) [0; 0; 0] pos content ->
  (forall b, file_content (kmem k) (k_fs k) (e_inode (ent b)) = text b /\ text b = unlines (ls b)) ->
  lines_ok 0 ls -> ls false <> [] -> 0 <= ks_prev ks < 256 -> Forall (fun c => 0 <= c < 256) regcs ->
  shoal (frame_cells 0 (ls false) (ls true)) [] = (l0, ps0) ->
  abs_ticks (List.length regcs) (FishPc 0 0) l0 = (o, l', ps) ->
  exists k1 k2 k3, execute lay fr command k = Ok (Entered (elf_entry content), k1) /\
    fish_main lay ks im base k1 = Ok ((FishPc 0 0, inr Waiting), k2) /\ displays k2 (abs_draw ps0 v) /\
    fish_ticks lay ks im base 2 regcs (FishPc 0 0) k2 = Ok (fst (after_tick o), k3) /\
    displays k3 (abs_draw (ps0 ++ ps) v) /\ (o = None <-> 2600 <= zlen regcs).
Proof.
  intros La Hl Hz Ht L Hne Hprev Hregs Es Ea. destruct (launch_enters La) as (k1 & Hex & St & En).
  assert (Hpc : pc_ok (FishPc 0 0)) by done.
  destruct (setup_swims v k1 ls) as (k2 & E2 & S2); [|done|done|apply Ht|done|].
  { eapply launch_newborn; try done. apply Ht. }
  rewrite Es in S2. destruct (read_step _ _ k2 _ S2 Hpc) as (k3 & E3 & S3 & _).
  destruct (ticks_swim regcs l0 _ k3 (FishPc 0 0) o l' ps S3 Hpc Hregs Ea) as (k4 & E4 & S4 & _).
  exists k1, k3, k4. split_and!; [done| |apply S3|done| |by apply ticks_end in Ea].
  - unfold fish_main. rewrite (bind_ok _ _ _ _ _ E2). by apply while_done.
  - eapply displays_same; [done|apply abs_draw_app|apply S4].
Qed.
End Swim.
