(* ===== verification/Demo.v ===== *)
(** * A concrete machine

    A small file system image, a kernel with one shell, and the properties
    of the development applied to it. *)

From Stdlib Require Import ZArith Lia String Ascii.
From stdpp Require Import base numbers list gmap relations.
From S2P Require Import Prelude Mem CString FileSys Console Printf Machine Pic Paging Rtc Idt.
From S2P Require Import Pcb Exec Line Syscall Terminal Keyboard Sched Trap Isolation Boot Types.
From S2P Require Import User Program Reader Cat Ls Shell Hello Counter Syserr Sigtest Pingpong Grep.

Local Open Scope Z_scope.

(** ** The machine *)

Definition demo_layout : layout := {|
  page_dir_at := 4259840;
  page_tab_at := 4263936;
  stdin_op_table := 4325376;
  stdout_op_table := 4325392;
  rtc_fop_table := 4325408;
  fs_dir_fop_table := 4325424;
  file_fop_table := 4325440;
  lit_stdin := 4194560;
  lit_stdout := 4194576;
  lit_shell := 4194592;
|}.

(** The image: two inodes, two blocks, fourteen entries. *)
Definition demo_start : Z := 5242880.
Definition demo_dir : list entry :=
  [Entry (bytes ".") 1 0; Entry (bytes "rtc") 0 0; Entry (bytes "shell") 2 1;
   Entry (bytes "hello.txt") 2 0; Entry (bytes "cat") 2 1; Entry (bytes "ls") 2 1;
   Entry (bytes "hello") 2 1; Entry (bytes "counter") 2 1; Entry (bytes "syserr") 2 1;
   Entry (bytes "sigtest") 2 1; Entry (bytes "pingpong") 2 1; Entry (bytes "fish") 2 1;
   Entry (bytes "frame0.txt") 2 0; Entry (bytes "frame1.txt") 2 0]
  ++ replicate 49 (Entry [] 0 0).

(** The literals of the programs that ask or play, and four zero bytes. *)
Definition demo_pool : list (list Z) :=
  syserr_strings ++ [whats_name; hello_text; enter_text; wrong_text; [LF];
    bytes "Installing signal handlers" ++ [LF]; bytes "rtc"; bytes "frame0.txt"; bytes "frame1.txt"; []; []; []; []].
Definition pool_bytes (pool : list (list Z)) : list Z := concat (map (fun s => s ++ [0]) pool).
Fixpoint pool_at (a : Z) (pool : list (list Z)) (s : list Z) : Z :=
  match pool with
  | [] => a
  | s' :: pool => if decide (s = s') then a else pool_at (a + zlen s' + 1) pool s
  end.
Definition demo_elf : list Z :=
  [127; 69; 76; 70] ++ replicate 20 1 ++ [148; 128; 4; 8] ++ replicate 12 144
  ++ not_found ++ [0] ++ bytes "." ++ [0] ++ open_failed ++ [0] ++ pool_bytes demo_pool.
Definition demo_size : Z := Eval vm_compute in zlen demo_elf.
Definition demo_text : list Z := bytes "hello world" ++ [LF].

Definition put_entry (m : mem) (i : Z) (e : entry) : mem :=
  let a := demo_start + 64 + 64 * i in
  store32 (store32 (mset_bytes m a (e_name e)) (a + 32) (e_type e)) (a + 36) (e_inode e).

Definition demo_image : mem :=
  let m := store32 (store32 (store32 ∅ demo_start 14) (demo_start + 4) 2) (demo_start + 8) 2 in
  let m := put_entry m 0 (Entry (bytes ".") 1 0) in
  let m := put_entry m 1 (Entry (bytes "rtc") 0 0) in
  let m := put_entry m 2 (Entry (bytes "shell") 2 1) in
  let m := put_entry m 3 (Entry (bytes "hello.txt") 2 0) in
  let m := put_entry m 4 (Entry (bytes "cat") 2 1) in
  let m := put_entry m 5 (Entry (bytes "ls") 2 1) in
  let m := put_entry m 6 (Entry (bytes "hello") 2 1) in
  let m := put_entry m 7 (Entry (bytes "counter") 2 1) in
  let m := put_entry m 8 (Entry (bytes "syserr") 2 1) in
  let m := put_entry m 9 (Entry (bytes "sigtest") 2 1) in
  let m := put_entry m 10 (Entry (bytes "pingpong") 2 1) in
  let m := put_entry m 11 (Entry (bytes "fish") 2 1) in
  let m := put_entry m 12 (Entry (bytes "frame0.txt") 2 0) in
  let m := put_entry m 13 (Entry (bytes "frame1.txt") 2 0) in
  let m := store32 (store32 m (demo_start + 4096) 12) (demo_start + 4100) 0 in
  let m := store32 (store32 m (demo_start + 8192) demo_size) (demo_start + 8196) 1 in
  let m := mset_bytes m (demo_start + 12288) demo_text in
  mset_bytes m (demo_start + 16384) demo_elf.

(** The literals, a command line, a file name, and the block of a shell with
    a file open. *)
Definition demo_command : Z := 9437184.
Definition demo_name : Z := 9437280.
Definition demo_cat_command : Z := 9437320.
Definition demo_ls_command : Z := 9437360.
(** The strings of the shell in its page. *)
Definition demo_strings : list (Z * list Z) :=
  [(9437400, prompt); (9437420, bytes "exit"); (9437440, abnormal);
   (9437480, by_exception); (9437640, enter_text); (9437720, wrong_text); (9437740, [LF]);
   (9437760, bytes "wor")].
(** The commands that start the other programs. *)
Definition demo_commands : list (Z * list Z) :=
  [(9437520, bytes "hello"); (9437540, bytes "counter"); (9437560, bytes "syserr");
   (9437580, bytes "sigtest 1"); (9437600, bytes "pingpong"); (9437620, bytes "fish")].
Definition demo_mem : mem :=
  let m := mset_bytes demo_image 4194560 (bytes "stdin") in
  let m := mset_bytes m 4194576 (bytes "stdout") in
  let m := mset_bytes m 4194592 (bytes "shell") in
  let m := mset_bytes m demo_command (bytes " shell  a b") in
  let m := mset_bytes m demo_name (bytes "hello.txt") in
  let m := mset_bytes m demo_cat_command (bytes "cat hello.txt") in
  let m := mset_bytes m demo_ls_command (bytes "ls") in
  let m := fold_left (fun m '(p, s) => mset_bytes m p s) (demo_strings ++ demo_commands) m in
  let m := mset_bytes m 9438000 (pool_bytes grep_strings) in
  let m := set_fd (pcb_at 0) 0 4325376 0 0 1 m in
  let m := set_fd (pcb_at 0) 1 4325392 0 0 1 m in
  let m := set_fd (pcb_at 0) 2 4325440 0 0 1 m in
  let m := mset_bytes m (file_name_at (pcb_at 0) 2) (bytes "hello.txt") in
  let m := store32 m (open_file_num (pcb_at 0)) 3 in
  store32 m (process_id (pcb_at 1)) 1.

Definition demo_fs : fsvars :=
  Eval vm_compute in init_filesys demo_mem demo_start (FsVars 0 0 0 0 0 0).
Lemma demo_fs_init : demo_fs = init_filesys demo_mem demo_start (FsVars 0 0 0 0 0 0).
Proof. vm_compute. reflexivity. Qed.

Definition demo_tty : tty :=
  Tty demo_mem [Out 255 33; Out 255 161] true 5 3 (replicate 25 0) 0 0 0 0 0 0 0 0
    (replicate 128 0) 0 (replicate 128 0) 0 1.

Definition demo_term (i : Z) : ter_info :=
  TerInfo i (replicate 4096 0) (replicate 128 0) (replicate 128 0) 7 4 1.

(** The kernel before paging, with [n] tasks. *)
Definition demo_bare (pos n : Z) (bitmap : list Z) : kernel :=
  Kernel demo_tty 255 255 0 (replicate 1024 0) (replicate 1024 0) 0 0 0 0 0 None 0 0
    n pos bitmap demo_fs [demo_term 0; demo_term 1; demo_term 2] 0.

Definition demo_kernel (pos n : Z) (bitmap : list Z) : kernel :=
  init_paging demo_layout (demo_bare pos n bitmap).

(** The shell of slot 0 alone, and with a child in slot 1. *)
Definition demo_shell : kernel := demo_kernel 0 1 [1; 0; 0; 0; 0; 0].
Definition demo_child : kernel := demo_kernel 1 2 [1; 1; 0; 0; 0; 0].

Definition demo_frame : frame :=
  let p := pcb_at 0 in Frame (p + 1000) (p + 1100) (p + 1200) (p + 1300) (p + 2000) (p + 2100).

(** ** Checking *)

Definition cstr_b (m : mem) (a : Z) (s : list Z) : bool :=
  bool_decide (mbytes m a (List.length s) = s) && forallb (fun c => negb (c =? 0)) s
  && (mget m (a + zlen s) =? 0).

Lemma cstr_b_sound m a s : cstr_b m a s = true -> cstr m a s.
Proof.
  unfold cstr_b. rewrite !andb_true_iff, bool_decide_eq_true, Z.eqb_eq, forallb_forall.
  intros [[H1 H2] H3]. split; [|done]. intros i Hi. split.
  - transitivity (anth 0 (mbytes m a (List.length s)) i);
      [by rewrite anth_mbytes by lia | by rewrite H1].
  - specialize (H2 (anth 0 s i)). rewrite negb_true_iff, Z.eqb_neq in H2. apply H2.
    unfold anth. apply nth_In. lia.
Qed.

Lemma demo_layout_ok : layout_ok demo_layout.
Proof. by constructor. Qed.

Lemma demo_fops_ok : fops_ok demo_layout.
Proof. constructor; [by intros [] | by intros [] []]. Qed.

Lemma demo_fs_image : fs_image demo_fs demo_mem demo_start 2 2.
Proof. rewrite demo_fs_init. apply init_filesys_image; vm_compute; done. Qed.

Lemma demo_dir_at : dir_at demo_mem demo_fs demo_dir.
Proof. apply dir_at_b_sound; vm_compute; done. Qed.

Lemma demo_literals : literals demo_layout demo_mem.
Proof. constructor; apply cstr_b_sound; vm_compute; done. Qed.

Lemma demo_world : world demo_layout demo_fs demo_mem demo_start 2 2 demo_dir.
Proof.
  constructor; [apply demo_fs_image | lia | by vm_compute | apply demo_dir_at
    | apply demo_literals | by constructor].
Qed.

Lemma demo_file ino : ino = 0 \/ ino = 1 -> file_ok demo_mem demo_fs 2 2 ino.
Proof.
  intros [-> | ->]; (constructor; [lia | by vm_compute | intros k Hk]).
  - replace k with 0 by (change (file_len demo_mem demo_fs 0 / 4096) with 0 in Hk; lia).
    by vm_compute.
  - replace k with 0 by (change (file_len demo_mem demo_fs 1 / 4096) with 0 in Hk; lia).
    by vm_compute.
Qed.

Lemma demo_elf_content : file_content demo_mem demo_fs 1 = demo_elf.
Proof. by vm_compute. Qed.

Lemma demo_frame_ok : frame_ok demo_frame 0.
Proof. constructor; unfold apart; by vm_compute; intuition congruence. Qed.

Lemma demo_tty_wf : tty_wf demo_tty.
Proof. by constructor. Qed.

(** What [init_paging] leaves of the bare kernel. *)
Lemma demo_pages pos n bitmap :
  let k := demo_kernel pos n bitmap in
  dir_ok demo_layout (page_dir k) None /\ tab_ok (page_tab k) /\
  k_tty k = demo_tty /\ k_fs k = demo_fs /\ curr_task_pos k = pos /\
  runn_task_num k = n /\ task_bitmap k = bitmap /\
  terminal_array k = [demo_term 0; demo_term 1; demo_term 2].
Proof.
  cbv zeta. unfold demo_kernel.
  destruct (init_paging_run demo_layout (demo_bare pos n bitmap) demo_layout_ok)
    as (H1 & H2 & _ & _ & _ & _ & [T1 T2 T3 T4 T5 T6 _ _]);
    [reflexivity | reflexivity|].
  split_and!; done.
Qed.

Lemma demo_kmem pos n bitmap : kmem (demo_kernel pos n bitmap) = demo_mem.
Proof. unfold kmem. destruct (demo_pages pos n bitmap) as (_ & _ & -> & _). done. Qed.

Lemma demo_kfs pos n bitmap : k_fs (demo_kernel pos n bitmap) = demo_fs.
Proof. apply demo_pages. Qed.

Lemma demo_command_ok : command_ok demo_mem demo_command (bytes " shell  a b").
Proof. constructor; [apply cstr_b_sound; by vm_compute | by vm_compute..]. Qed.

Lemma demo_ready : exec_ready demo_layout demo_frame 0 None demo_command (bytes " shell  a b")
  demo_shell demo_start 2 2 demo_dir.
Proof.
  pose proof (demo_kmem 0 1 [1; 0; 0; 0; 0; 0]) as Hm.
  destruct (demo_pages 0 1 [1; 0; 0; 0; 0; 0]) as (H1 & H2 & _ & H4 & _ & H6 & _).
  fold demo_shell in H1, H2, H4, H6, Hm. revert H1 H2 H4 H6 Hm.
  generalize demo_shell as k. intros k H1 H2 H4 H6 Hm.
  constructor.
  - rewrite H4, Hm. exact demo_world.
  - exact demo_frame_ok.
  - exact demo_layout_ok.
  - exact H1.
  - exact H2.
  - rewrite Hm. exact demo_command_ok.
  - discriminate.
  - rewrite H6. lia.
Qed.

Lemma demo_free : first_free [1; 0; 0; 0; 0; 0] 1.
Proof. split; [lia|]. split; [done|]. intros i Hi. by replace i with 0 by lia. Qed.

(** Evaluation, without looking at the hypotheses. *)
Ltac calc := clear; vm_compute; done.

Lemma demo_shell_is :
  kmem demo_shell = demo_mem /\ k_fs demo_shell = demo_fs /\ k_tty demo_shell = demo_tty /\
  curr_task_pos demo_shell = 0 /\ runn_task_num demo_shell = 1 /\
  task_bitmap demo_shell = [1; 0; 0; 0; 0; 0].
Proof.
  destruct (demo_pages 0 1 [1; 0; 0; 0; 0; 0]) as (_ & _ & H3 & H4 & H5 & H6 & H7 & _).
  split_and!; [apply demo_kmem | exact H4 | exact H3 | exact H5 | exact H6 | exact H7].
Qed.

Lemma demo_shell_file :
  file_ok (kmem demo_shell) (k_fs demo_shell) 2 2 1 /\
  file_content (kmem demo_shell) (k_fs demo_shell) 1 = demo_elf /\
  file_len (kmem demo_shell) (k_fs demo_shell) 1 = demo_size.
Proof.
  destruct demo_shell_is as (-> & -> & _). split_and!;
    [apply demo_file; by right | exact demo_elf_content | by vm_compute].
Qed.

Lemma demo_elf_ok : 30 <= zlen demo_elf <= 3899392 /\ take 4 demo_elf = elf_magic.
Proof. by vm_compute. Qed.

(** ** The properties at work *)

(** The premises that [execute] and its clients share, at the demo command. *)
Ltac demo_exec := first
  [ exact demo_ready
  | exact (proj1 demo_shell_file)
  | reflexivity
  | lia
  | match goal with
    | |- _ <= zlen _ <= _ => cbn [e_inode]; rewrite (proj1 (proj2 demo_shell_file)); exact (proj1 demo_elf_ok)
    | |- take _ _ = elf_magic => cbn [e_inode]; rewrite (proj1 (proj2 demo_shell_file)); exact (proj2 demo_elf_ok)
    | |- first_free _ _ =>
        destruct demo_shell_is as (_ & _ & _ & _ & _ & ->); exact demo_free
    end ].

Lemma execute_starts_program_witness :
  exists k', execute demo_layout demo_frame demo_command demo_shell =
      Ok (Entered 134512788, k') /\
    started demo_layout demo_frame 0 1 demo_elf (bytes "a b") demo_shell k'.
Proof.
  rewrite <- (proj1 (proj2 demo_shell_file)).
  apply (execute_starts_program demo_layout demo_frame 0 None demo_command
    (bytes " shell  a b") demo_shell demo_start 2 2 demo_dir 2 (Entry (bytes "shell") 2 1) 1);
    demo_exec.
Defined.

Lemma execute_halt_round_trip_witness :
  exists k1, execute demo_layout demo_frame demo_command demo_shell =
      Ok (Entered 134512788, k1) /\
    forall k2, program_ran demo_layout 1 k1 k2 ->
    exists k3, halt demo_layout demo_frame 7 k2 =
        Ok (Resume (f_esp demo_frame) (f_ebp demo_frame) 7, k3) /\
      task_bitmap k3 = task_bitmap demo_shell /\ curr_task_pos k3 = curr_task_pos demo_shell /\
      runn_task_num k3 = runn_task_num demo_shell /\ dir_ok demo_layout (page_dir k3) (Some 0) /\
      mmu_sync k3 /\ tss_esp0 k3 = 8388604.
Proof.
  change 134512788 with (elf_entry demo_elf). rewrite <- (proj1 (proj2 demo_shell_file)).
  apply (execute_halt_round_trip demo_layout demo_frame 0 None demo_command
    (bytes " shell  a b") demo_shell demo_start 2 2 demo_dir 2 (Entry (bytes "shell") 2 1) 1
    demo_frame 7); demo_exec.
Defined.

Lemma execute_rejects_witness :
  exists k', execute demo_layout demo_frame (demo_name + 1) demo_shell = Ok (Returned (-1), k') /\
    rejected 0 demo_shell k'.
Proof.
  eapply (execute_rejects demo_layout demo_frame 0 None (demo_name + 1) (bytes "ello.txt")
    demo_shell demo_start 2 2 demo_dir).
  - destruct demo_ready as [R1 R2 R3 R4 R5 R6 R7 R8].
    constructor; [exact R1 | exact R2 | exact R3 | exact R4 | exact R5 | | discriminate | exact R8].
    rewrite (proj1 demo_shell_is). constructor; [apply cstr_b_sound; by vm_compute | by vm_compute..].
  - left. reflexivity.
Defined.

Lemma arguments_reach_program_witness :
  exists k1 k2, execute demo_layout demo_frame demo_command demo_shell =
      Ok (Entered 134512788, k1) /\
    getargs 8388608 20 k1 = Ok (0, k2) /\ cstr (kmem k2) 8388608 (bytes "a b").
Proof.
  change 134512788 with (elf_entry demo_elf). rewrite <- (proj1 (proj2 demo_shell_file)).
  apply (arguments_reach_program demo_layout demo_frame 0 None demo_command
    (bytes " shell  a b") demo_shell demo_start 2 2 demo_dir 2 (Entry (bytes "shell") 2 1) 1
    8388608 20); try demo_exec; by vm_compute.
Defined.

Lemma halt_restarts_shell_witness :
  exists k', halt demo_layout demo_frame 0 demo_shell = Ok (Restart 134512788, k') /\
    rejected 0 demo_shell k'.
Proof.
  change 134512788 with (elf_entry demo_elf). rewrite <- (proj1 (proj2 demo_shell_file)).
  apply (halt_restarts_shell demo_layout demo_frame 0 0 demo_shell demo_start 2 2 demo_dir 2
    (Entry (bytes "shell") 2 1)); try demo_exec.
  - exact (er_world _ _ _ _ _ _ _ _ _ _ _ demo_ready).
  - exact demo_frame_ok.
  - left. apply demo_shell_is.
  - cbn [e_inode]. rewrite (proj2 (proj2 demo_shell_file)). unfold demo_size. lia.
Defined.

(** *** Strings and memory *)

Lemma memmove_copies_witness :
  exists m', memmove demo_mem (demo_name + 2) demo_name 9 = Ok m' /\
    updated demo_mem m' (demo_name + 2) 9 (fun j => mget demo_mem (demo_name + j)).
Proof. apply (memmove_copies demo_mem (demo_name + 2) demo_name 9). lia. Defined.

Lemma memcpy_copies_witness :
  exists m', memcpy demo_mem demo_name (demo_name + 2) 9 = Ok m' /\
    updated demo_mem m' demo_name 9 (fun j => mget demo_mem (demo_name + 2 + j)).
Proof. apply (memcpy_copies demo_mem demo_name (demo_name + 2) 9); lia. Defined.

Lemma memset_fills_witness :
  exists m', memset demo_mem demo_name 511 9 = Ok m' /\
    updated demo_mem m' demo_name 9 (fun _ => 255).
Proof. apply (memset_fills demo_mem demo_name 511 9). lia. Defined.

Lemma itoa_writes_numeral_witness :
  exists m' ds, itoa demo_mem 48879 demo_name 16 = Ok m' /\
    numeral 16 48879 ds /\ cstr m' demo_name (map digit_char ds) /\ zlen ds <= 32 /\
    (forall a, a < demo_name \/ demo_name + zlen ds < a -> mget m' a = mget demo_mem a).
Proof. apply (itoa_writes_numeral demo_mem 48879 demo_name 16); lia. Defined.

Lemma demo_shell_name : cstr demo_mem 4194592 (bytes "shell").
Proof. apply demo_literals. Qed.

Lemma demo_file_name : cstr demo_mem demo_name (bytes "hello.txt").
Proof. apply cstr_b_sound. by vm_compute. Qed.

Lemma strncmp_decides_witness :
  exists c, strncmp demo_mem 4194592 demo_name 5 = Ok c /\
    (c = 0 <-> take (Z.to_nat 5) (bytes "shell") = take (Z.to_nat 5) (bytes "hello.txt")).
Proof.
  apply (strncmp_decides demo_mem 4194592 demo_name (bytes "shell") (bytes "hello.txt") 5);
    [exact demo_shell_name | exact demo_file_name | lia].
Defined.

(** *** The file system *)

Lemma lookup_refines_directory_witness :
  exists m' e, demo_dir !! 2%nat = Some e /\ 0 <= 2 < 63 /\
    read_dentry_by_name demo_fs demo_mem 4194592 100 = Ok (0, set_file_pos_keeper 2 demo_fs, m') /\
    entry_at m' 100 e /\
    (forall b, b < 100 \/ 100 + 64 <= b -> mget m' b = mget demo_mem b).
Proof.
  apply (lookup_refines_directory demo_mem demo_fs demo_dir 4194592 (bytes "shell") 100);
    [exact demo_dir_at | exact demo_shell_name | by vm_compute | lia | lia |].
  left. by vm_compute.
Defined.

Lemma read_data_reads_file_witness :
  exists m', read_data demo_fs demo_mem 0 6 100 4 = Ok (4, m') /\
    mbytes m' 100 4 = bytes "worl" /\
    (forall a, a < 100 \/ 100 + 4 <= a -> mget m' a = mget demo_mem a).
Proof.
  apply (read_data_reads_file demo_fs demo_mem demo_start 2 2 0 6 100 4);
    [exact demo_fs_image | lia | left; by vm_compute | apply demo_file; by left | by vm_compute | lia].
Defined.

Lemma demo_names i e : 0 <= i < 14 -> demo_dir !! Z.to_nat i = Some e -> 0 < zlen (e_name e).
Proof.
  intros Hi He.
  assert (Hall : Forall (fun e => 0 < zlen (e_name e)) (take 14 demo_dir)) by (repeat constructor).
  rewrite Forall_lookup in Hall. apply (Hall (Z.to_nat i)). by rewrite lookup_take_lt by lia.
Qed.

Lemma directory_listing_witness :
  exists m', dir_listing 64 demo_fs demo_mem 1000 4194592 2000 =
      Ok (map e_name (drop 2 (take 14 demo_dir)), demo_fs, m') /\
    (forall b, b < 1000 \/ 1000 + 64 <= b -> b < 2000 \/ 2000 + 33 <= b ->
       mget m' b = mget demo_mem b).
Proof.
  refine (directory_listing demo_mem demo_fs demo_dir 14 _ _ _ _ _ 1000 2000 _ _ _ _ 64 4194592
    (bytes "shell") 2 _ _ _ _ _ _ _);
    [exact demo_dir_at | vm_compute; reflexivity | lia | vm_compute; reflexivity
    | intros i e Hi He; apply (demo_names i e Hi He) | lia | left; by vm_compute
    | left; by vm_compute | lia | vm_compute; reflexivity | lia | exact demo_shell_name
    | by vm_compute | vm_compute; reflexivity | lia | lia].
Defined.

(** *** The console *)

(** Whatever a console shows. *)
Definition view_of (t : tty) : view := View (screen_char (t_mem t)) (screen_y t) (screen_x t).

Lemma shows_view_of t : shows t (view_of t).
Proof. by split. Qed.

Lemma putc_refines_grid_witness :
  exists s', putc 65 demo_tty = Ok (tt, s') /\ shows s' (abs_putc 65 (view_of demo_tty)) /\
    tty_wf s' /\ prints demo_tty s' /\
    t_trace s' = t_trace demo_tty ++ cursor_io (screen_y s') (screen_x s').
Proof. apply (putc_refines_grid 65); [exact demo_tty_wf | apply shows_view_of]. Defined.

Lemma backspace_refines_grid_witness :
  exists s', backspace demo_tty = Ok (tt, s') /\ shows s' (abs_backspace (view_of demo_tty)) /\
    tty_wf s' /\ prints demo_tty s' /\ enter_tracker s' = enter_tracker demo_tty.
Proof.
  apply (backspace_refines_grid demo_tty (view_of demo_tty));
    [exact demo_tty_wf | discriminate | apply shows_view_of].
Defined.

(** A console in text editing mode, its fourth row blank. *)
Definition demo_editor : tty :=
  Tty (foldl (fun m x => mset m (vaddr 3 (Z.of_nat x)) SP) ∅ (seq 0 80)) [] true 5 3
    (replicate 25 0) 0 0 0 0 0 0 (-1) 0 (replicate 128 0) 0 (replicate 128 0) 0 1.

Lemma demo_editor_blank x : 5 < x < 80 -> screen_char (t_mem demo_editor) 3 x = SP.
Proof.
  intros Hx. assert (H : forallb (fun n => screen_char (t_mem demo_editor) 3 (Z.of_nat n) =? SP)
    (seq 0 80) = true) by (vm_compute; reflexivity).
  rewrite forallb_forall in H. specialize (H (Z.to_nat x)).
  rewrite Z2Nat.id, Z.eqb_eq in H by lia. apply H, in_seq. lia.
Qed.

Lemma enter_backspace_round_trip_witness :
  exists s1 s2, putc LF demo_editor = Ok (tt, s1) /\ backspace s1 = Ok (tt, s2) /\
    screen_y s1 = 4 /\ screen_x s1 = 0 /\ screen_y s2 = 3 /\ screen_x s2 = 5 /\
    (forall y x, on_screen y x ->
       screen_char (t_mem s2) y x = screen_char (t_mem demo_editor) y x) /\
    enter_tracker s2 = <[3%nat := 0]> (replicate 25 0).
Proof.
  apply (enter_backspace_round_trip demo_editor);
    [by constructor | reflexivity | by vm_compute | exact demo_editor_blank].
Defined.

Lemma reset_blanks_witness :
  exists s', reset demo_editor = Ok (tt, s') /\ tty_wf s' /\ shows s' blank_view /\
    kb_buffer_position s' = 0 /\ keyboard_buffer s' = replicate 128 0 /\
    enter_tracker s' = replicate 25 0 /\ t_trace s' = cursor_io 0 0 /\
    (forall b, off_screen b -> mget (t_mem s') b = mget (t_mem demo_editor) b).
Proof. apply (reset_blanks demo_editor); reflexivity. Defined.

Lemma printf_prints_expansion_witness :
  exists s' text, printf (bytes "inode %d: %s") [7; demo_name] demo_tty = Ok (12, s') /\
    expands demo_mem None (bytes "inode %d: %s") [7; demo_name] text /\ tty_wf s' /\
    prints demo_tty s' /\ forall v, shows demo_tty v -> shows s' (abs_puts text v).
Proof.
  apply (printf_prints_expansion (bytes "inode %d: %s") [7; demo_name] demo_tty);
    [exact demo_tty_wf|].
  cbn. split; [discriminate|]. split; [|done]. intros _. exists (bytes "hello.txt").
  split; [exact demo_file_name|]. split; [done|]. intros i Hi. right.
  change (u32 demo_name) with 9437280. unfold VIDEO. lia.
Defined.

Lemma terminal_write_prints_witness :
  exists s', terminal_write demo_name 9 demo_tty = Ok (10, s') /\ tty_wf s' /\ t_if s' = true /\
    (forall b, off_screen b -> mget (t_mem s') b = mget demo_mem b) /\
    shows s' (abs_puts (bytes "hello.txt") (view_of demo_tty)).
Proof.
  apply (terminal_write_prints demo_name 9 demo_tty (view_of demo_tty));
    [exact demo_tty_wf | lia | | apply shows_view_of].
  intros i Hi. right. unfold VIDEO, demo_name. lia.
Defined.

(** A reader, and a line of 127 characters. *)
Definition demo_full : tty :=
  Tty ∅ [] true 5 3 (replicate 25 0) 0 0 0 0 0 0 0 0 (replicate 127 65 ++ [0]) 127
    (replicate 128 0) 0 1.

Lemma kb_enter_overflow_witness : keyboard_buffer_edit 3 LF demo_full = Err OutOfBounds.
Proof.
  apply (kb_enter_overflow (replicate 127 65) demo_full);
    [by constructor | by split | reflexivity | reflexivity].
Defined.

(** *** Devices and tables *)

Lemma demo_pic : pic_sync demo_shell.
Proof.
  constructor; [by vm_compute | by vm_compute | |];
    (unfold k_trace; destruct demo_shell_is as (_ & _ & -> & _); reflexivity).
Qed.

Lemma irq_lines_witness :
  (exists k', enable_irq 9 demo_shell = Ok (tt, k') /\ pic_sync k' /\ pic_frame demo_shell k' /\
     forall i, 0 <= i < 16 ->
       irq_masked k' i = if i =? 9 then false else irq_masked demo_shell i) /\
  (exists k', disable_irq 9 demo_shell = Ok (tt, k') /\ pic_sync k' /\ pic_frame demo_shell k' /\
     forall i, 0 <= i < 16 ->
       irq_masked k' i = if i =? 9 then true else irq_masked demo_shell i) /\
  send_eoi 9 demo_shell = Ok (tt, emit (eoi_io 9) demo_shell) /\
  pic_sync (emit (eoi_io 9) demo_shell).
Proof. apply (irq_lines 9 demo_shell), demo_pic. Defined.

Lemma init_paging_maps_kernel_witness :
  exists pd pt, mmu demo_shell = Some (pd, pt) /\
    translate demo_layout false pd pt 4194400 = Some 4194400 /\
    translate demo_layout false pd pt 753700 = Some 753700 /\
    translate demo_layout true pd pt 142606336 = None.
Proof.
  destruct (init_paging_maps_kernel demo_layout (demo_bare 0 1 [1; 0; 0; 0; 0; 0]) demo_layout_ok)
    as (pd & pt & H & Ht); [reflexivity | reflexivity|].
  exists pd, pt. split; [exact (f_equal mmu H)|].
  split; [apply Ht; lia|]. split; [apply Ht; lia | apply Ht; lia].
Defined.

Lemma rtc_write_sets_rate_witness :
  rtc_write 38 2 (demo_start + 4) 4 demo_shell =
  Ok (4, set_if true (emit (rate_io 38 15) demo_shell)).
Proof.
  assert (Hf : load32 (kmem demo_shell) (demo_start + 4) = 2).
  { rewrite (proj1 demo_shell_is). vm_compute. reflexivity. }
  destruct (rtc_write_sets_rate 38 2 (demo_start + 4) 4 demo_shell) as [(i & Hi & Hfi & _ & H)|[H _]].
  - lia.
  - rewrite Hf in Hfi. assert (i = 1) as ->; [|exact H].
    apply (Z.pow_inj_r 2); lia.
  - exfalso. apply (H 1); [lia|]. rewrite Hf. reflexivity.
Defined.

Lemma rtc_read_waits_for_tick_witness :
  exists k1 k2, rtc_read_begin demo_shell = Ok (tt, k1) /\ rtc_read_poll k1 = Ok (None, k1) /\
    _idt_rtc_irq_handler 192 k1 = Ok (tt, k2) /\ rtc_read_poll k2 = Ok (Some 0, k2) /\
    k_trace k2 = k_trace demo_shell ++ [Out 140 112; In 113 192; Out 96 160; Out 98 32].
Proof. apply (rtc_read_waits_for_tick 192 demo_shell). lia. Defined.

Lemma idt_gates_witness :
  let d := anth null_gate (_idt_set_all (fun _ => 4198400) (replicate 256 null_gate)) 128 in
  gate_offset d = 4198400 /\ gate_present d = 1 /\ dpl d = 3.
Proof.
  destruct (idt_gates (fun _ => 4198400) (replicate 256 null_gate)) as (H1 & _ & H3);
    [reflexivity | lia|].
  split; [exact (H1 syscall)|]. destruct (H3 128 ltac:(lia)) as (H4 & _ & _ & H5 & _).
  split; [exact H4 | exact H5].
Defined.

(** *** Descriptors *)

Definition demo_fds : fdtab :=
  [Some (FStdin, 0); Some (FStdout, 0); Some (FFile, 0)] ++ replicate 5 None.

Lemma demo_has_fds : has_fds demo_layout (kmem demo_shell) (curr_pcb demo_shell) demo_fds.
Proof.
  unfold curr_pcb. destruct demo_shell_is as (-> & _ & _ & -> & _).
  constructor; [reflexivity | | calc].
  intros fd Hfd. assert (fd = 0 \/ fd = 1 \/ fd = 2 \/ fd = 3 \/ fd = 4 \/ fd = 5 \/ fd = 6 \/ fd = 7)
    as [-> | [-> | [-> | [-> | [-> | [-> | [-> | ->]]]]]]] by lia; calc.
Qed.

Lemma demo_shell_world :
  world demo_layout (k_fs demo_shell) (kmem demo_shell) demo_start 2 2 demo_dir.
Proof. exact (er_world _ _ _ _ _ _ _ _ _ _ _ demo_ready). Qed.

Lemma demo_open_ready :
  open_ready demo_layout demo_shell demo_start 2 2 demo_dir (pcb_at 0 + 1000) demo_name
    (bytes "hello.txt") demo_fds.
Proof.
  pose proof demo_has_fds as Hfds. pose proof demo_shell_world as Hw.
  destruct demo_shell_is as (Hm & _ & _ & Hp & _).
  constructor; [exact Hw | exact demo_fops_ok | rewrite Hp; lia | exact Hfds
    | rewrite Hm; exact demo_file_name | discriminate | calc | discriminate | discriminate
    | rewrite Hp; calc | right; calc | ..].
  unfold curr_pcb. rewrite Hp. right. calc.
Qed.

Lemma demo_read_ready :
  read_ready demo_layout demo_shell demo_start 2 2 demo_dir (pcb_at 0 + 1000) 2 9000000 5 0 0
    (bytes "hello.txt") demo_fds.
Proof.
  pose proof demo_has_fds as Hfds. pose proof demo_shell_world as Hw.
  destruct demo_shell_is as (Hm & Hf & _ & Hp & _).
  constructor; [exact Hw | exact demo_fops_ok | rewrite Hp; lia | exact Hfds | lia | reflexivity
    | | calc | | | | rewrite Hp; calc | lia | lia].
  - unfold curr_pcb. rewrite Hp, Hm. apply cstr_b_sound. calc.
  - exists 3, (Entry (bytes "hello.txt") 2 0). split_and!; reflexivity.
  - rewrite Hm, Hf. apply demo_file. by left.
  - rewrite Hm, Hf. calc.
Qed.

Lemma descriptor_reads_whole_file_witness :
  exists k', read_all 13 demo_layout (pcb_at 0 + 1000) 2 9000000 5 demo_shell =
    Ok (bytes "hello world" ++ [LF], k').
Proof.
  destruct demo_shell_is as (Hm & Hf & _).
  destruct (descriptor_reads_whole_file 13 demo_layout demo_shell demo_start 2 2 demo_dir
    (pcb_at 0 + 1000) 2 9000000 5 0 0 (bytes "hello.txt") demo_fds) as [k' H].
  - exact demo_read_ready.
  - lia.
  - rewrite Hm, Hf. calc.
  - exists k'. rewrite Hm, Hf in H. exact H.
Defined.

Lemma open_refines_table_witness :
  exists k', open demo_layout (pcb_at 0 + 1000) demo_name demo_shell = Ok (3, k') /\
    has_fds demo_layout (kmem k') (curr_pcb k') (<[3%nat := Some (FFile, 0)]> demo_fds).
Proof.
  destruct (open_refines_table demo_layout demo_shell demo_start 2 2 demo_dir (pcb_at 0 + 1000)
    demo_name (bytes "hello.txt") demo_fds) as (k' & Ho & H & _).
  - destruct demo_open_ready as [R1 R2 R3 R4 R5 R6 R7 _ _ R8 R9 R10].
    constructor; [exact R1 | exact R2 | exact R3 | exact R4 | exact R5 | exact R6 | left; calc
      | exact R8 | exact R9 | exact R10].
  - exists k'. split; [exact Ho | exact H].
Defined.

Lemma close_refines_table_witness :
  exists k', close demo_layout 2 demo_shell = Ok (0, k') /\
    has_fds demo_layout (kmem k') (curr_pcb k') (<[2%nat := None]> demo_fds) /\
    same_out (kmem demo_shell) (kmem k') (curr_pcb demo_shell) 388.
Proof.
  apply (close_refines_table demo_layout demo_shell demo_fds 2 demo_fops_ok demo_has_fds).
Defined.

Lemma open_close_round_trip_witness :
  exists k1 k2, open demo_layout (pcb_at 0 + 1000) demo_name demo_shell = Ok (3, k1) /\
    close demo_layout 3 k1 = Ok (0, k2) /\
    has_fds demo_layout (kmem k1) (curr_pcb demo_shell) (<[3%nat := Some (FFile, 0)]> demo_fds) /\
    has_fds demo_layout (kmem k2) (curr_pcb demo_shell) demo_fds.
Proof.
  apply (open_close_round_trip demo_layout demo_shell demo_start 2 2 demo_dir (pcb_at 0 + 1000)
    demo_name (bytes "hello.txt") demo_fds 3 (Entry (bytes "hello.txt") 2 0) 3 FFile demo_open_ready);
    [reflexivity | reflexivity | reflexivity | reflexivity | calc].
Defined.

Lemma bad_descriptor_refused_witness :
  read demo_layout (pcb_at 0 + 1000) 5 9000000 5 demo_shell = Ok (Some (-1), demo_shell) /\
  write demo_layout 38 5 9000000 5 demo_shell = Ok (-1, demo_shell).
Proof.
  apply (bad_descriptor_refused demo_layout demo_shell demo_fds 5 _ _ _ _ demo_fops_ok demo_has_fds).
  right. right. reflexivity.
Defined.

Lemma vidmap_maps_screen_witness :
  exists k' pd pt, vidmap demo_layout 134217800 9000000 demo_shell = Ok (OTSMBVIR, k') /\
    load32 (kmem k') 9000000 = OTSMBVIR /\
    mmu k' = Some (pd, pt) /\ dir_ok demo_layout pd None /\ tab_ok pt /\ mmu_sync k' /\
    forall off, 0 <= off < 4096 ->
      translate demo_layout true pd pt (OTSMBVIR + off) = Some (VIDEO + off).
Proof.
  apply (vidmap_maps_screen demo_layout 134217800 9000000 demo_shell None demo_layout_ok);
    apply demo_ready.
Defined.

(** *** Terminals and keys *)

Lemma demo_terms : terms_ok demo_layout demo_shell 0 None.
Proof.
  destruct (demo_pages 0 1 [1; 0; 0; 0; 0; 0]) as (H1 & H2 & H3 & _ & _ & _ & _ & H8).
  fold demo_shell in H1, H2, H3, H8.
  constructor; [rewrite H3; exact demo_tty_wf | reflexivity | lia | rewrite H8; reflexivity
    | rewrite H8 | exact H1 | exact H2].
  assert (Hw : forall i, ter_wf (demo_term i)) by (clear; intros i; by constructor).
  repeat (apply Forall_cons_2; [apply Hw|]). apply Forall_nil_2.
Qed.

Lemma terminal_switch_round_trip_witness :
  exists k1 k2, terminal_switch demo_layout demo_frame (pcb_at 0 + 3000) 2 demo_shell =
      Ok (Returns 0, k1) /\
    terminal_switch demo_layout demo_frame (pcb_at 0 + 3000) 0 k1 = Ok (Returns 0, k2) /\
    screen_x (k_tty k2) = 5 /\ screen_y (k_tty k2) = 3.
Proof.
  destruct (terminal_switch_round_trip demo_layout demo_frame (pcb_at 0 + 3000) demo_shell 0 2 None
    demo_terms demo_layout_ok) as (k1 & k2 & H1 & H2 & _ & _ & _ & _ & Hx & Hy & _).
  - lia.
  - lia.
  - vm_compute. discriminate.
  - vm_compute. discriminate.
  - exists k1, k2. destruct demo_shell_is as (_ & _ & Ht & _). rewrite Ht in Hx, Hy.
    split; [exact H1|]. split; [exact H2|]. split; [exact Hx | exact Hy].
Defined.

Lemma demo_shell_ready :
  shell_ready demo_layout demo_frame 0 (pcb_at 0 + 3000) 1 demo_elf demo_shell.
Proof.
  pose proof demo_shell_world as Hw. destruct demo_shell_file as (F1 & F2 & _).
  destruct demo_shell_is as (_ & _ & _ & _ & Hn & Hb).
  constructor; [ | apply demo_elf_ok | apply demo_elf_ok | exact demo_layout_ok
    | exact demo_frame_ok | calc | rewrite Hb; exact demo_free | left; lia | rewrite Hn; lia].
  exists demo_start, 2, 2, demo_dir, 2, (Entry (bytes "shell") 2 1).
  split_and!; [exact Hw | reflexivity | reflexivity | exact F1 | symmetry; exact F2].
Qed.

Lemma terminal_boot_starts_shell_witness :
  exists k', terminal_boot demo_layout demo_frame (pcb_at 0 + 3000) 1 demo_shell =
      Ok (UserMode 134512788, k') /\
    shell_started demo_layout 1 1 demo_elf demo_shell k'.
Proof.
  apply (terminal_boot_starts_shell demo_layout demo_frame 0 (pcb_at 0 + 3000) demo_shell 0 1 None 1
    demo_elf demo_terms ltac:(lia) demo_shell_ready).
Defined.

Definition no_keys : kbd := Kbd false false false false.

Lemma demo_typing : typing no_keys [] (k_tty demo_shell).
Proof.
  destruct demo_shell_is as (_ & _ & -> & _).
  constructor; [exact demo_tty_wf | reflexivity | by constructor | by split].
Qed.

(** Shift, L, S, backspace: the line "L" is read. *)
Lemma typed_line_is_read_witness :
  exists k1 k2, handle_all demo_layout demo_frame (pcb_at 0 + 3000)
      ([42; 38; 170; 31; 14] ++ [ENTER]) demo_shell = Ok (Returns tt, k1) /\
    on_tty (terminal_read_poll 9000000 10) k1 = Ok (Some 2, k2) /\
    mbytes (kmem k2) 9000000 2 = [76; LF].
Proof.
  apply (typed_line_is_read demo_layout demo_frame (pcb_at 0 + 3000) [42; 38; 170; 31; 14]
    no_keys no_keys [KChar 76; KChar 115; KBack] demo_shell 9000000 10 demo_typing).
  - destruct demo_shell_is as (_ & _ & -> & _). reflexivity.
  - repeat (constructor; [lia|]). constructor.
  - reflexivity.
  - by vm_compute.
  - lia.
Defined.

Lemma keyboard_refines_state_machine_witness :
  _idt_keyboard_irq_handler demo_layout demo_frame (pcb_at 0 + 3000) 30 demo_shell =
  (r ← act demo_layout demo_frame (pcb_at 0 + 3000) (Type_ 97);
   match r with
   | UserMode eip => mret (UserMode eip)
   | Returns _ => send_eoi IRQ1 ;; ksti ;; mret (Returns tt)
   end) (after_scan no_keys 30 demo_shell).
Proof.
  apply (keyboard_refines_state_machine demo_layout demo_frame (pcb_at 0 + 3000) no_keys 30);
    [apply demo_typing | lia].
Defined.

(** *** Ticks, exceptions and the page tables *)

Lemma next_process_first_witness :
  get_next_availble_process demo_shell = Ok (-1, demo_shell).
Proof.
  destruct (next_process_first demo_shell) as [H _].
  - destruct demo_shell_is as (_ & _ & _ & -> & _). lia.
  - unfold curr_pcb in H. rewrite H.
    destruct demo_shell_is as (-> & _ & _ & -> & _). vm_compute. reflexivity.
Defined.

Lemma pit_init_programs_witness :
  exists k', pit_init demo_shell = Ok (tt, k') /\ irq_masked k' 0 = false /\
    (forall i, 0 < i < 16 -> irq_masked k' i = irq_masked demo_shell i) /\
    (exists tr, k_trace k' = tr ++ [Out 54 67; Out 1 64; Out 93 64]) /\
    1 + 256 * 93 <> OSCII_FREQ / FREQ.
Proof. apply (pit_init_programs demo_shell demo_pic). Defined.

Lemma exception_ends_task_witness :
  exists k' text, _idt_handle_exception demo_layout demo_frame 64 TRAP_PF demo_child =
      Ok (Resume 0 0 256, k') /\
    trap_text TRAP_PF 64 text /\ task_bitmap k' = [1; 0; 0; 0; 0; 0] /\
    curr_task_pos k' = 0 /\ runn_task_num k' = 1.
Proof.
  destruct (demo_pages 1 2 [1; 1; 0; 0; 0; 0]) as (H1 & _ & H3 & _ & H5 & H6 & H7 & _).
  pose proof (demo_kmem 1 2 [1; 1; 0; 0; 0; 0]) as Hm.
  fold demo_child in H1, H3, H5, H6, H7, Hm.
  destruct (exception_ends_task demo_layout demo_frame None 64 TRAP_PF 1 0 demo_child)
    as (k' & text & E & T & _ & B & P & N & _).
  - reflexivity.
  - rewrite H3. exact demo_tty_wf.
  - exact H1.
  - exact H5.
  - lia.
  - lia.
  - rewrite H7. reflexivity.
  - rewrite H6. lia.
  - rewrite Hm. vm_compute. reflexivity.
  - rewrite Hm. vm_compute. reflexivity.
  - exists k', text. rewrite H7 in B. rewrite H6 in N. rewrite Hm in E.
    split_and!; [exact E | exact T | exact B | exact P | exact N].
Defined.


(** *** The boot *)

(** A loader that passes the image as its only module. *)
Definition boot_mem : mem :=
  store32 (store32 (store32 (store32 demo_mem 65536 8) 65556 1) 65560 65600) 65600 demo_start.

Definition boot_tty : tty :=
  Tty boot_mem [] false 0 0 (replicate 25 0) 0 0 0 0 0 0 0 0
    (replicate 128 0) 0 (replicate 128 0) 0 0.

Definition boot_kernel : kernel :=
  Kernel boot_tty 255 255 0 (replicate 1024 0) (replicate 1024 0) 0 0 0 0 0 None 0 0
    0 0 (replicate 6 0) (FsVars 0 0 0 0 0 0) [demo_term 0; demo_term 1; demo_term 2] 0.

Definition boot_computer : computer :=
  let d := SegDesc 0 0 0 0 0 0 0 0 0 0 0 0 0 in
  Computer boot_kernel (replicate 256 null_gate) d d 0 0 0.

Definition demo_linked : linked := Linked (fun _ => 4198400) 4321280 0 4321536 104.

(** A mouse on line 12. *)
Definition demo_mouse : ST kernel unit := enable_irq 12.

Lemma demo_mouse_device : Device demo_mouse [12].
Proof. apply device_enable. lia. Qed.

Lemma boot_same : kernel_same demo_mem boot_mem.
Proof. intros b Hb. unfold boot_mem. by rewrite !mget_store32_ne by lia. Qed.

Lemma boot_cold : cold boot_kernel.
Proof.
  constructor; try reflexivity; [by constructor|].
  assert (Hw : forall i, ter_wf (demo_term i) /\ zlen (screen_buffer (demo_term i)) = 4096)
    by (intros i; split; [by constructor | reflexivity]).
  repeat (apply Forall_cons_2; [apply Hw|]). apply Forall_nil_2.
Qed.

Lemma boot_image : boots demo_layout demo_frame (pcb_at 0 + 3000) demo_start demo_elf boot_mem
  (FsVars 0 0 0 0 0 0).
Proof.
  apply (boots_same _ _ _ _ _ demo_mem); [|exact boot_same].
  constructor; [ | apply demo_elf_ok | apply demo_elf_ok | exact demo_layout_ok
    | exact demo_frame_ok | calc].
  exists 2, 2, demo_dir, 2, (Entry (bytes "shell") 2 1).
  split_and!; [exact demo_world | reflexivity | reflexivity | apply demo_file; by right
    | symmetry; exact demo_elf_content].
Qed.

Lemma boot_mbi : mbi_ok boot_tty 65536.
Proof.
  constructor; [intros H; vm_compute in H; discriminate | | intros H; vm_compute in H; discriminate].
  intros _ i Hi. left. change (load32 (t_mem boot_tty) (65536 + 24)) with (load32 boot_mem 65560).
  replace (load32 boot_mem 65560) with 65600 by (symmetry; vm_compute; reflexivity).
  unfold VIDEO. lia.
Qed.

Lemma boot_typed : kernel_typed boot_kernel.
Proof.
  assert (Hbuf : line_buf (replicate 128 0)) by (split; [done | by apply Forall_replicate]).
  assert (Hti : forall i, ter_typed (demo_term i)) by (intros i; constructor; first [exact Hbuf | done | by right]).
  constructor; try first [done | by left].
  - constructor; try first [exact Hbuf | done | by left]. split; [done|]. apply Forall_replicate. by left.
  - split; [done|]. apply Forall_replicate. by left.
  - split; [done|]. repeat (apply Forall_cons_2; [apply Hti|]). apply Forall_nil_2.
Qed.

Lemma tick_step lay k : kstep lay k (set_if true (emit [Out 96 32] k)).
Proof. left. split; [exact (ks_pit _ _ _ _ (pit_tick_switches_nothing k)) | by intros b _]. Qed.



(** *** A whole command *)

Definition demo_kstack : kstack := KStack demo_frame (pcb_at 1 + 1000) 0 0.
Definition demo_cat : cat_image :=
  CatImage (8388608 + 4194304 + 4190000) 0 (load_at 1 + 40) 0.

Lemma demo_files : files_ok (k_fs demo_shell) (kmem demo_shell) 2 2 demo_dir.
Proof.
  destruct demo_shell_is as (-> & -> & _). intros j f Hj _. apply demo_file.
  assert (Hall : Forall (fun e => e_inode e = 0 \/ e_inode e = 1) demo_dir).
  { unfold demo_dir. apply Forall_app. split.
    - repeat constructor; cbn; tauto.
    - apply Forall_replicate. by left. }
  rewrite Forall_lookup in Hall. exact (Hall j f Hj).
Qed.

Lemma demo_displays : displays demo_shell (view_of demo_tty).
Proof.
  unfold displays. destruct demo_shell_is as (_ & _ & -> & _).
  split; [exact demo_tty_wf | apply shows_view_of].
Qed.

Lemma demo_pid : load_s32 (kmem demo_shell) (process_id (pcb_at 0)) = 0.
Proof. destruct demo_shell_is as (-> & _). by vm_compute. Qed.

(** Any command that names the file of the demo programs. *)
Lemma demo_can_launch cmd i name :
  0 < zlen (cmd_word cmd) < 20 /\ zlen (cmd_args cmd) < 30 ->
  abs_lookup demo_dir (cmd_word cmd) = Some i -> demo_dir !! Z.to_nat i = Some (Entry name 2 1) ->
  can_launch demo_layout demo_frame 0 None cmd demo_shell demo_start 2 2 demo_dir demo_elf 1.
Proof.
  intros Hl Hi He. destruct demo_ready as [R1 R2 R3 R4 R5 _ _ R8].
  constructor; [exact R1 | exact R2 | exact R3 | exact R4 | exact R5 | exact R8 | exact Hl
    | exact demo_files | | exact (proj1 demo_elf_ok)
    | exact (proj2 demo_elf_ok) | demo_exec | demo_exec | demo_exec | demo_exec | demo_exec
    | demo_exec | exact demo_pid | exact demo_fops_ok].
  exists i, (Entry name 2 1). split; [exact Hi|]. split; [exact He|].
  split; [reflexivity | exact (proj1 (proj2 demo_shell_file))].
Qed.

Lemma demo_launch command cmd i name :
  cstr_b demo_mem command cmd && (zlen cmd <? 128) = true -> command <> 0 ->
  0 < zlen (cmd_word cmd) < 20 /\ zlen (cmd_args cmd) < 30 ->
  abs_lookup demo_dir (cmd_word cmd) = Some i -> demo_dir !! Z.to_nat i = Some (Entry name 2 1) ->
  launch demo_layout demo_frame 0 None command cmd demo_shell demo_start 2 2 demo_dir demo_elf 1
    (view_of demo_tty).
Proof.
  rewrite andb_true_iff, Z.ltb_lt. intros [Hc Hn] Hp Hl Hi He.
  constructor; [exact (demo_can_launch _ _ _ Hl Hi He) | | exact Hn | exact Hp | exact demo_displays].
  rewrite (proj1 demo_shell_is). apply cstr_b_sound. exact Hc.
Qed.

Lemma demo_outcome :
  cat_outcome (k_fs demo_shell) (kmem demo_shell) demo_dir (bytes "hello.txt") = Some (0, demo_text).
Proof. destruct demo_shell_is as (-> & -> & _). by vm_compute. Qed.

Lemma cat_command_witness :
  exists k1 k2, execute demo_layout demo_frame demo_cat_command demo_shell =
      Ok (Entered 134512788, k1) /\
    cat_program demo_layout demo_kstack demo_cat k1 =
      Ok (inr (Resuming (f_esp demo_frame) (f_ebp demo_frame) 0), k2) /\
    displays k2 (abs_puts (bytes "hello world" ++ [LF]) (view_of demo_tty)) /\
    returned demo_layout 1 demo_shell k2.
Proof.
  apply (cat_command demo_layout demo_frame 0 None demo_cat_command (bytes "cat hello.txt")
    demo_shell demo_start 2 2 demo_dir demo_elf 1 (view_of demo_tty) demo_kstack demo_cat 0 demo_text);
    [apply (demo_launch _ _ 4 (bytes "cat")); [calc | discriminate | calc | calc | calc]
    | | | | exact demo_outcome].
  - constructor; [calc | calc | calc | right; calc].
  - constructor; [calc | discriminate | discriminate].
  - exists 40%nat. split; calc.
Defined.

Definition demo_ls : ls_image := LsImage (8388608 + 4194304 + 4190000) (load_at 1 + 56) (load_at 1 + 58) 0.

Lemma demo_listable : listable (k_fs demo_shell) (kmem demo_shell) 14 demo_dir.
Proof.
  destruct demo_shell_is as (-> & -> & _).
  constructor; [calc | lia | exact demo_names].
Qed.

Lemma ls_command_witness :
  exists k1 k2, execute demo_layout demo_frame demo_ls_command demo_shell =
      Ok (Entered 134512788, k1) /\
    ls_program demo_layout demo_kstack demo_ls k1 =
      Ok (inr (Resuming (f_esp demo_frame) (f_ebp demo_frame) 0), k2) /\
    displays k2 (abs_puts (listing_text 14 demo_dir 0) (view_of demo_tty)) /\
    returned demo_layout 1 demo_shell k2.
Proof.
  apply (ls_command demo_layout demo_frame 0 None demo_ls_command (bytes "ls")
    demo_shell demo_start 2 2 demo_dir demo_elf 1 (view_of demo_tty) demo_kstack demo_ls 14 0);
    [apply (demo_launch _ _ 5 (bytes "ls")); [calc | discriminate | calc | calc | calc] | | | | | |].
  - constructor; calc.
  - exists 56%nat. split; calc.
  - exists 58%nat. split; calc.
  - exact demo_listable.
  - destruct demo_shell_is as (_ & -> & _). calc.
  - reflexivity.
Defined.

(** *** A session at the prompt *)

Definition demo_sh : shell_image := ShellImage 11388608 0 9437400 0 9437420 0 9437480 9437440.

Lemma demo_waits : shell_waits demo_layout demo_sh no_keys (view_of demo_tty) demo_shell.
Proof.
  destruct demo_shell_is as (Em & _ & Et & Ep & _ & _).
  exists demo_fds. constructor; [|exact demo_typing | by rewrite Et | exact demo_displays].
  constructor; [exact demo_fops_ok | rewrite Ep; lia | rewrite Ep; split; calc | |
    exact demo_has_fds | by exists 0 | by exists 0].
  unfold lit_ok, shell_strings. rewrite Em, Ep. clear.
  do 4 (apply Forall_cons; split;
    [split; [split; calc | split; [right; calc | apply cstr_b_sound; calc]]|]). apply Forall_nil. exact I.
Qed.

Definition keys_of (s : list Z) : list key := map KChar s.

(** "cat hello.txt" and Enter. *)
Lemma shell_session_witness :
  exists k1 k2 k3 k4,
    handle_all demo_layout demo_frame (pcb_at 0 + 3000)
      ([46; 30; 20; 57; 35; 18; 38; 38; 24; 52; 20; 45; 20] ++ [ENTER]) demo_shell =
      Ok (Returns tt, k1) /\
    shell_after_read demo_layout demo_kstack demo_sh k1 =
      Ok (inr (Entering (elf_entry demo_elf)), k2) /\
    cat_program demo_layout demo_kstack demo_cat k2 =
      Ok (inr (Resuming (f_esp demo_frame) (f_ebp demo_frame) 0), k3) /\
    shell_after_execute demo_layout demo_kstack demo_sh 0 (set_if true k3) = Ok (inr Waiting, k4) /\
    shell_waits demo_layout demo_sh no_keys
      (abs_puts (demo_text ++ report_text 0 ++ prompt)
        (abs_putc LF (edit_views [] (view_of demo_tty) (keys_of (bytes "cat hello.txt"))))) k4 /\
    task_bitmap k4 = task_bitmap demo_shell /\ curr_task_pos k4 = curr_task_pos demo_shell /\
    runn_task_num k4 = runn_task_num demo_shell /\ dir_ok demo_layout (page_dir k4) (Some 0).
Proof.
  apply (shell_session demo_layout demo_frame (pcb_at 0 + 3000) demo_kstack demo_sh no_keys
    (view_of demo_tty) demo_shell [46; 30; 20; 57; 35; 18; 38; 38; 24; 52; 20; 45; 20] no_keys
    (keys_of (bytes "cat hello.txt")) 0 None demo_start 2 2 demo_dir demo_elf 1 demo_waits).
  - repeat (constructor; [lia|]). constructor.
  - calc.
  - calc.
  - discriminate.
  - apply (demo_can_launch (bytes "cat hello.txt") 4 (bytes "cat")); calc.
  - apply (cat_Program demo_layout demo_start 2 2 demo_dir 1 demo_elf (bytes "hello.txt") demo_shell
      demo_kstack demo_cat 0 demo_text);
      [exact (er_world _ _ _ _ _ _ _ _ _ _ _ demo_ready) | exact demo_files | | | | exact demo_outcome].
    + constructor; [calc | calc | calc | right; calc].
    + constructor; [calc | discriminate | discriminate].
    + exists 40%nat. split; calc.
Defined.
