(* ===== verification/Sessions.v ===== *)
(** * Programs at work

    The theorems about the programs that ask and play, at the concrete
    machine of Demo.v: its file holds the literals of all of them. *)

From Stdlib Require Import ZArith Lia String Ascii.
From stdpp Require Import base numbers list gmap.
From S2P Require Import Prelude Mem CString FileSys Console Printf Machine Pic Paging Rtc Idt.
From S2P Require Import Pcb Exec Line Syscall Terminal Keyboard Trap User Program Support Reader.
From S2P Require Import Shell Hello Counter Syserr Sigtest Pingpong Grep Blink Fish Demo.

Local Open Scope Z_scope.

(** ** Literals *)

Definition literal_in_b (pos : Z) (content : list Z) (buf n : Z) (l : Z * list Z) : bool :=
  (load_at pos <=? l.1) &&
  bool_decide (take (List.length l.2 + 1) (drop (Z.to_nat (l.1 - load_at pos)) content) = l.2 ++ [0]) &&
  forallb (fun c => negb (c =? 0)) l.2 &&
  (page_at pos <=? l.1) && (l.1 + (zlen l.2 + 1) <=? page_at pos + 4194304) &&
  ((buf + n <=? l.1) || (l.1 + (zlen l.2 + 1) <=? buf)).

Lemma literals_sound pos content buf n lits :
  forallb (literal_in_b pos content buf n) lits = true -> Forall (literal_in pos content buf n) lits.
Proof.
  intros H. apply Forall_forall. intros [p s] Hin%list_elem_of_In.
  rewrite forallb_forall in H. specialize (H _ Hin). unfold literal_in_b in H. cbn [fst snd] in *.
  rewrite !andb_true_iff, !orb_true_iff, !Z.leb_le, bool_decide_eq_true in H.
  destruct H as (((((H1 & H2) & H3) & H4) & H5) & H6).
  split; [|split; [|split; [by split | unfold apart; cbn [fst snd]; lia]]]; cbn [fst snd].
  - exists (Z.to_nat (p - load_at pos)). split; [lia | exact H2].
  - apply Forall_forall. intros c Hc%list_elem_of_In. rewrite forallb_forall in H3.
    specialize (H3 _ Hc). apply negb_true_iff, Z.eqb_neq in H3. exact H3.
Qed.

(** Where the loaded file has a literal, and the stack of the programs. *)
Definition demo_lit (s : list Z) : Z := pool_at (load_at 1 + 81) demo_pool s.
Definition demo_stack : Z := page_at 1 + 4190000.

(** ** A dialog at the prompt *)

Definition demo_hello : hello_image :=
  HelloImage demo_stack (demo_lit whats_name) 0 (demo_lit hello_text).

Lemma demo_hello_Dialog fr shell args :
  Dialog demo_layout fr shell demo_start 2 2 demo_dir 1 demo_elf args demo_shell
    (hello_main demo_layout demo_kstack demo_hello) (hello_after_read demo_layout demo_kstack demo_hello)
    whats_name hello_reply.
Proof.
  apply hello_Dialog; [split; calc|]. apply literals_sound. clear. vm_compute. reflexivity.
Qed.

(** "hello" and Enter at the prompt, "bob" and Enter at the question. *)
Lemma shell_dialog_witness :
  exists k1 k2 k3 k4 k5 k6,
    handle_all demo_layout demo_frame (pcb_at 0 + 3000) ([35; 18; 38; 38; 24] ++ [ENTER]) demo_shell =
      Ok (Returns tt, k1) /\
    shell_after_read demo_layout demo_kstack demo_sh k1 =
      Ok (inr (Entering (elf_entry demo_elf)), k2) /\
    _start demo_layout demo_kstack (hello_main demo_layout demo_kstack demo_hello) k2 =
      Ok (inr Waiting, k3) /\
    handle_all demo_layout demo_frame (pcb_at 0 + 3000) ([48; 24; 48] ++ [ENTER]) k3 =
      Ok (Returns tt, k4) /\
    _start demo_layout demo_kstack (hello_after_read demo_layout demo_kstack demo_hello) k4 =
      Ok (inr (Resuming (f_esp demo_frame) (f_ebp demo_frame) 0), k5) /\
    shell_after_execute demo_layout demo_kstack demo_sh 0 (set_if true k5) = Ok (inr Waiting, k6) /\
    shell_waits demo_layout demo_sh no_keys
      (abs_puts ((hello_text ++ bytes "bob" ++ [LF]) ++ report_text 0 ++ prompt)
        (abs_putc LF (edit_views [] (abs_puts whats_name
          (abs_putc LF (edit_views [] (view_of demo_tty) (keys_of (bytes "hello")))))
          (keys_of (bytes "bob"))))) k6 /\
    task_bitmap k6 = task_bitmap demo_shell /\ curr_task_pos k6 = curr_task_pos demo_shell /\
    runn_task_num k6 = runn_task_num demo_shell /\ dir_ok demo_layout (page_dir k6) (Some 0).
Proof.
  apply (shell_dialog demo_layout demo_frame (pcb_at 0 + 3000) demo_kstack demo_sh no_keys
    (view_of demo_tty) demo_shell [35; 18; 38; 38; 24] no_keys (keys_of (bytes "hello")) 0 None
    demo_start 2 2 demo_dir demo_elf 1 demo_waits) with
    (ask := whats_name) (reply := hello_reply) (keys' := keys_of (bytes "bob"))
    (text := hello_text ++ bytes "bob" ++ [LF]).
  - repeat (constructor; [lia|]). constructor.
  - calc.
  - calc.
  - discriminate.
  - apply (demo_can_launch (bytes "hello") 6 (bytes "hello")); calc.
  - apply demo_hello_Dialog.
  - repeat (constructor; [lia|]). constructor.
  - calc.
  - calc.
  - calc.
Defined.

(** ** The other programs, started by their commands *)

Lemma demo_command_launch command cmd i name :
  (command, cmd) ∈ demo_commands -> cstr_b demo_mem command cmd && (zlen cmd <? 128) = true ->
  0 < zlen (cmd_word cmd) < 20 /\ zlen (cmd_args cmd) < 30 ->
  abs_lookup demo_dir (cmd_word cmd) = Some i -> demo_dir !! Z.to_nat i = Some (Entry name 2 1) ->
  launch demo_layout demo_frame 0 None command cmd demo_shell demo_start 2 2 demo_dir demo_elf 1
    (view_of demo_tty).
Proof.
  intros Hin Hc Hl Hi He. eapply demo_launch; [exact Hc | | exact Hl | exact Hi | exact He].
  intros ->. repeat (apply elem_of_cons in Hin as [Hin|Hin]; [discriminate|]). by apply elem_of_nil in Hin.
Qed.

Definition demo_counter : counter_image :=
  CounterImage demo_stack (demo_lit enter_text) 0 (demo_lit wrong_text) (demo_lit [LF]).

Lemma counter_rejects_witness :
  exists k1 k2 k3 k4,
    execute demo_layout demo_frame 9437540 demo_shell = Ok (Entered (elf_entry demo_elf), k1) /\
    _start demo_layout demo_kstack (counter_main demo_layout demo_kstack demo_counter) k1 =
      Ok (inr Waiting, k2) /\
    handle_all demo_layout demo_frame (pcb_at 0 + 3000) ([11] ++ [ENTER]) k2 = Ok (Returns tt, k3) /\
    _start demo_layout demo_kstack (counter_after_read demo_layout demo_kstack demo_counter) k3 =
      Ok (inr (Resuming (f_esp demo_frame) (f_ebp demo_frame) 0), k4) /\
    displays k4 (abs_puts wrong_text
      (abs_putc LF (edit_views [] (abs_puts enter_text (view_of demo_tty)) (keys_of (bytes "0"))))) /\
    back demo_layout 1 demo_shell k4 /\ typing no_keys [] (k_tty k4).
Proof.
  apply (counter_rejects demo_layout demo_kstack demo_counter demo_frame 0 None 9437540 (bytes "counter")
    demo_shell demo_start 2 2 demo_dir demo_elf 1 (view_of demo_tty) demo_frame (pcb_at 0 + 3000)
    no_keys [11] no_keys (keys_of (bytes "0"))).
  - apply (demo_command_launch _ _ 7 (bytes "counter")); [by right; left | calc | calc | calc | calc].
  - split; calc.
  - apply literals_sound. calc.
  - exact demo_typing.
  - repeat (constructor; [lia|]). constructor.
  - calc.
  - calc.
Defined.

(** The loop of counter, as code of the task that runs in the demo machine. *)
Definition counter_here : counter_image := CounterImage 11388608 9437640 0 9437720 9437740.

Lemma demo_counting :
  running demo_layout (counter_lits counter_here) 11388608 1024 demo_fds demo_shell.
Proof.
  destruct demo_shell_is as (Em & _ & _ & Ep & _).
  constructor; [exact demo_fops_ok | rewrite Ep; lia | rewrite Ep; split; calc | |
    exact demo_has_fds | by exists 0 | by exists 0].
  unfold lit_ok, counter_lits. rewrite Em, Ep. clear.
  do 3 (apply Forall_cons; split;
    [split; [split; calc | split; [right; calc | apply cstr_b_sound; calc]]|]). apply Forall_nil. exact I.
Qed.

Lemma counter_counts_witness :
  exists text k', counter_loop demo_layout demo_kstack counter_here 100 demo_shell = Ok (inl 0, k') /\
    counting 100 text /\ displays k' (abs_puts text (view_of demo_tty)) /\ steady demo_shell k' /\
    running demo_layout (counter_lits counter_here) 11388608 1024 demo_fds k'.
Proof.
  apply (counter_counts demo_layout demo_kstack counter_here demo_fds 100 demo_shell (view_of demo_tty)
    demo_counting demo_displays). lia.
Defined.

Definition demo_syserr : syserr_image :=
  SyserrImage demo_stack 2048 (demo_stack + 200) demo_stack demo_lit (Regs 0 0 0 0).

Lemma demo_syserr_dir : syserr_dir demo_dir.
Proof.
  constructor; [|calc | calc]. exists 0, (Entry (bytes ".") 1 0). split; [calc | split; reflexivity].
Qed.

(** "0" at the question: all tests. *)
Lemma syserr_passes_witness :
  exists k1 k2 k3 k4,
    execute demo_layout demo_frame 9437560 demo_shell = Ok (Entered (elf_entry demo_elf), k1) /\
    _start demo_layout demo_kstack (syserr_main demo_layout demo_kstack demo_syserr) k1 =
      Ok (inr Waiting, k2) /\
    handle_all demo_layout demo_frame (pcb_at 0 + 3000) ([11] ++ [ENTER]) k2 = Ok (Returns tt, k3) /\
    _start demo_layout demo_kstack (syserr_after_read demo_layout demo_kstack demo_syserr) k3 =
      Ok (inr (Resuming (f_esp demo_frame) (f_ebp demo_frame) 0), k4) /\
    displays k4 (abs_puts (select_text 0)
      (abs_putc LF (edit_views [] (abs_puts (bytes "Choose from tests 1-8. 0 to run all: ")
        (view_of demo_tty)) (keys_of (bytes "0"))))) /\
    back demo_layout 1 demo_shell k4 /\ typing no_keys [] (k_tty k4).
Proof.
  apply (syserr_passes demo_layout demo_kstack demo_syserr demo_start 2 2 demo_dir demo_syserr_dir
    demo_frame 0 None 9437560 (bytes "syserr") demo_shell demo_elf 1 (view_of demo_tty)
    demo_frame (pcb_at 0 + 3000) no_keys [11] no_keys (keys_of (bytes "0"))).
  - apply (demo_command_launch _ _ 8 (bytes "syserr")); [by do 2 right; left | calc | calc | calc | calc].
  - constructor; [split; calc | split; calc | split; calc | apply literals_sound; calc].
  - exact demo_typing.
  - repeat (constructor; [lia|]). constructor.
  - calc.
  - calc.
Defined.

Definition demo_sigtest : sigtest_image :=
  SigtestImage demo_stack (load_at 1 + demo_size - 4) 0 0 0 0 demo_lit.

Lemma sigtest_faults_witness :
  let asked := abs_puts (bytes "Installing signal handlers" ++ [LF] ++ bytes "Hi, what's your name? ")
    (view_of demo_tty) in
  let w := abs_putc LF (edit_views [] asked (keys_of (bytes "bob"))) in
  exists k1 k2 k3 k4 text,
    execute demo_layout demo_frame 9437580 demo_shell = Ok (Entered (elf_entry demo_elf), k1) /\
    _start demo_layout demo_kstack (sigtest_main demo_layout demo_kstack demo_sigtest) k1 =
      Ok (inr Waiting, k2) /\
    displays k2 asked /\
    handle_all demo_layout demo_frame (pcb_at 0 + 3000) ([48; 24; 48] ++ [ENTER]) k2 =
      Ok (Returns tt, k3) /\
    _start demo_layout demo_kstack (sigtest_after_read demo_layout demo_kstack demo_sigtest) k3 =
      Ok (inr (Resuming (f_esp demo_frame) (f_ebp demo_frame) 256), k4) /\
    trap_text TRAP_PF 0 text /\
    displays k4 (abs_puts text (blank_at (v_row w) (v_col w))) /\
    back demo_layout 1 demo_shell k4 /\ typing no_keys [] (k_tty k4).
Proof.
  apply (sigtest_faults demo_layout demo_kstack demo_sigtest demo_frame 0 None 9437580 (bytes "sigtest 1")
    demo_shell demo_start 2 2 demo_dir demo_elf 1 (view_of demo_tty) demo_frame (pcb_at 0 + 3000)
    no_keys [48; 24; 48] no_keys (keys_of (bytes "bob"))).
  - apply (demo_command_launch _ _ 9 (bytes "sigtest")); [by do 3 right; left | calc | calc | calc | calc].
  - calc.
  - split; calc.
  - apply literals_sound. calc.
  - exact demo_typing.
  - repeat (constructor; [lia|]). constructor.
  - calc.
  - calc.
Defined.

Definition demo_pingpong : pingpong_image :=
  PingpongImage demo_stack 2048 demo_stack (demo_stack + 100) (demo_stack + 104) (demo_lit (bytes "rtc")).

(** Three ticks of the clock. *)
Lemma pingpong_plays_witness :
  exists k1 k2 k3 k4,
    execute demo_layout demo_frame 9437600 demo_shell = Ok (Entered (elf_entry demo_elf), k1) /\
    pp_setup demo_layout demo_kstack demo_pingpong k1 = Ok (inl 2, k2) /\
    k_trace k2 = k_trace k1 ++ rate_io 0 11 /\ rate_hz 11 = 32 /\
    pingpong_main demo_layout demo_kstack demo_pingpong k1 = Ok ((pp_at 0, Waiting), k3) /\
    displays k3 (abs_puts (frames 0) (view_of demo_tty)) /\
    pingpong_ticks demo_layout demo_kstack demo_pingpong 2 [0; 0; 0] (pp_at 0) k3 =
      Ok ((pp_at 3, Waiting), k4) /\
    displays k4 (abs_puts (frames 3) (view_of demo_tty)) /\ steady k1 k4.
Proof.
  apply (pingpong_plays demo_layout demo_kstack demo_pingpong ltac:(constructor; [calc | calc | left; calc | split; calc])
    demo_start 2 2 demo_dir 1 (Entry (bytes "rtc") 0 0) ltac:(calc) eq_refl eq_refl
    demo_frame 0 None 9437600 (bytes "pingpong") demo_shell demo_elf 1 (view_of demo_tty) [0; 0; 0]).
  - apply (demo_command_launch _ _ 10 (bytes "pingpong")); [by do 4 right; left | calc | calc | calc | calc].
  - split; calc.
  - apply (Forall_inv (l := [])). apply literals_sound. calc.
  - split; calc.
  - calc.
  - repeat (constructor; [lia|]). constructor.
Defined.

(** ** fish *)

(** The page of slot 1 at 128 MB. *)
Definition demo_base : Z := page_at 1 - 134217728.

Definition demo_board : blink_image :=
  BlinkImage (load_at 1 + demo_size - 4 - demo_base) 137217728 137217732 137249732 137249748.

Definition demo_tr (a : Z) : option Z :=
  if (134217728 <=? a) && (a <? 138412032) then Some (a + demo_base)
  else if (142606336 <=? a) && (a <? 142610432) then Some (a - 142606336 + VIDEO)
  else None.

Lemma demo_placed : placed demo_tr demo_board demo_base.
Proof.
  constructor.
  - intros a [H1 H2]. unfold demo_tr.
    by rewrite (proj2 (Z.leb_le _ _) H1), (proj2 (Z.ltb_lt a 138412032)) by lia.
  - intros off Hoff. unfold demo_tr. rewrite (proj2 (Z.ltb_ge (142606336 + off) 138412032)) by lia.
    rewrite andb_false_r, (proj2 (Z.leb_le 142606336 _)), (proj2 (Z.ltb_lt _ 142610432)) by lia.
    cbn [andb]. f_equal. lia.
  - calc.
  - repeat (apply Forall_cons; split; [split; calc|]). apply Forall_nil. exact I.
  - repeat (constructor; [repeat (apply Forall_cons; split; [first [left; calc | right; calc]|]); apply Forall_nil; exact I|]).
    constructor.
Qed.

(** The address of the screen, and a structure of the caller at location 540. *)
Definition demo_blink : Z := 137249752.
Definition demo_blink_mem : mem :=
  let m := store32 ∅ (137217728 + demo_base) 142606336 in
  let m := store16 m (demo_blink + LOCATION + demo_base) 540 in
  let m := mset m (demo_blink + ON_CHAR + demo_base) (chr "I") in
  let m := mset m (demo_blink + OFF_CHAR + demo_base) (chr "M") in
  let m := store16 m (demo_blink + ON_LENGTH + demo_base) 7 in
  store16 m (demo_blink + OFF_LENGTH + demo_base) 6.

Lemma demo_board_empty : board demo_board demo_base demo_blink_mem [] [].
Proof.
  apply board_empty; [calc | calc|]. intros p Hp. unfold demo_blink_mem, demo_blink, LOCATION, ON_CHAR,
    OFF_CHAR, ON_LENGTH, OFF_LENGTH. cbn [blink_array demo_board] in Hp.
  rewrite !mget_store16_ne, !mget_mset_ne, mget_store16_ne, mget_store32_ne by lia. reflexivity.
Qed.

Lemma blink_refines_list_witness :
  exists m' addrs', run_call demo_tr demo_board (Ioctl demo_blink RTC_ADD) demo_blink_mem = Ok (0, m') /\
    board demo_board demo_base m' addrs' [Blink 540 (chr "I") (chr "M") 7 6 7 1] /\
    changes (call_bytes demo_board demo_base (Ioctl demo_blink RTC_ADD)) [(540, chr "I")] demo_blink_mem m' /\
    (forall arg cmd b, Ioctl demo_blink RTC_ADD = Ioctl arg cmd -> None = Some b -> node demo_base m' arg = b).
Proof.
  apply (blink_refines_list demo_tr demo_board demo_base demo_placed demo_blink_mem [] []
    (Ioctl demo_blink RTC_ADD) 0 [Blink 540 (chr "I") (chr "M") 7 6 7 1] [(540, chr "I")] None).
  - exact demo_board_empty.
  - split; [|discriminate]. intros _. split; [|calc]. split; [split; calc|].
    repeat (apply Forall_cons; split; [first [left; calc | right; calc]|]). apply Forall_nil. exact I.
  - calc.
Defined.

Definition demo_fish : fish_image :=
  FishImage demo_board 137249752 137249768 137249784 137249785 137249788 137249792
    (demo_lit (bytes "rtc") - demo_base) (demo_lit (bytes "frame0.txt") - demo_base)
    (demo_lit (bytes "frame1.txt") - demo_base).
Definition demo_fish_data : Z := load_at 1 + demo_size - 4.
Definition demo_fish_size : Z := 4194304 - (demo_fish_data - page_at 1).
Definition demo_fish_kstack : kstack := KStack demo_frame (pcb_at 1 + 1000) 0 (137217728 + demo_base).

Lemma demo_fish_places : fish_places demo_fish 1 demo_fish_data demo_fish_size.
Proof.
  constructor.
  - lia.
  - split; calc.
  - repeat (apply Forall_cons; split; [split; calc|]). apply Forall_nil. exact I.
  - repeat (constructor; [repeat (apply Forall_cons; split; [first [left; calc | right; calc]|]); apply Forall_nil; exact I|]).
    constructor.
Qed.

(** Both frames are the text file of the demo image: a line and an empty one. *)
Definition demo_lines (b : bool) : list (list Z) := [bytes "hello world"; []].

Lemma demo_frames_ok :
  frames_ok demo_fish_kstack 1 demo_dir (fun b => if b then Entry (bytes "frame1.txt") 2 0 else Entry (bytes "frame0.txt") 2 0)
    (fun b => if b then 13 else 12).
Proof. constructor; [intros []; calc | intros []; reflexivity | intros []; reflexivity | split; calc]. Qed.

Lemma demo_lines_ok : lines_ok 0 demo_lines.
Proof.
  constructor; [reflexivity | | lia|].
  - intros b. repeat constructor; calc.
  - intros [|[|i]] l0 l1; [intros [= <-] [= <-]; calc | intros [= <-] [= <-]; calc | discriminate].
Qed.

Definition demo_shoal : list blink * list (Z * Z) :=
  Eval vm_compute in shoal (frame_cells 0 (demo_lines false) (demo_lines true)) [].
Definition demo_ticks : option fish_pc * list blink * list (Z * Z) :=
  Eval vm_compute in abs_ticks 20 (FishPc 0 0) demo_shoal.1.

(** Twenty ticks: with the sixteenth the characters show the second frame. *)
Lemma fish_swims_witness :
  exists k1 k2 k3, execute demo_layout demo_frame 9437620 demo_shell = Ok (Entered (elf_entry demo_elf), k1) /\
    fish_main demo_layout demo_fish_kstack demo_fish demo_base k1 = Ok ((FishPc 0 0, inr Waiting), k2) /\
    displays k2 (abs_draw demo_shoal.2 (view_of demo_tty)) /\
    fish_ticks demo_layout demo_fish_kstack demo_fish demo_base 2 (replicate 20 0) (FishPc 0 0) k2 =
      Ok ((FishPc 0 20, inr Waiting), k3) /\
    displays k3 (abs_draw (demo_shoal.2 ++ demo_ticks.2) (view_of demo_tty)) /\
    (Some (FishPc 0 20) = None <-> 2600 <= zlen (replicate 20 0)).
Proof.
  apply (fish_swims demo_layout demo_fish_kstack demo_fish 1 demo_fish_data demo_fish_size demo_fish_places
    demo_start 2 2 demo_dir (fun b => demo_text) _ _ demo_frames_ok ltac:(calc) 1 (Entry (bytes "rtc") 0 0)
    ltac:(calc) ltac:(calc) ltac:(calc)
    demo_frame 0 None 9437620 (bytes "fish") demo_shell demo_elf (view_of demo_tty) demo_lines (replicate 20 0)
    demo_shoal.1 demo_shoal.2 (Some (FishPc 0 20)) demo_ticks.1.2 demo_ticks.2).
  - apply (demo_command_launch _ _ 11 (bytes "fish")); [by do 5 right; left | calc | calc | calc | calc].
  - apply literals_sound. calc.
  - exists (Z.to_nat (demo_size - 4)). split; calc.
  - intros b. destruct demo_shell_is as (-> & -> & _). split; [destruct b; calc | calc].
  - exact demo_lines_ok.
  - discriminate.
  - calc.
  - apply Forall_replicate. lia.
  - calc.
  - calc.
Defined.

(** ** grep *)

(** The search of a file, as code of the task that runs in the demo machine. *)
Definition demo_grep : grep_image := GrepImage 11388608 0 0 (pool_at 9438000 grep_strings).
Definition demo_grep_kstack : kstack := KStack demo_frame (pcb_at 0 + 4000) 0 0.

Lemma demo_grep_places : grep_places demo_grep 11388608 2048 0 9437760 9437280 (bytes "wor") (bytes "hello.txt").
Proof.
  constructor; [lia | split; calc | split; calc | split; [split; calc | left; calc] |
    split; [split; calc | left; calc] | split; [calc|]].
  repeat (constructor; [calc|]). constructor.
Qed.

Lemma demo_grep_file :
  text_file demo_grep_kstack 0 (bytes "hello.txt") demo_dir 3 3 (Entry (bytes "hello.txt") 2 0) demo_text demo_fds.
Proof.
  constructor.
  - calc.
  - reflexivity.
  - reflexivity.
  - split; [calc | split; discriminate].
  - repeat (constructor; [calc|]). constructor.
  - repeat (constructor; [calc|]). constructor.
  - split; calc.
  - split; [reflexivity | split; [lia | split; reflexivity]].
  - reflexivity.
Qed.

Lemma demo_seeking :
  seeking demo_layout demo_grep 11388608 2048 0 9437760 9437280 (bytes "wor") (bytes "hello.txt")
    demo_fds (view_of demo_tty) demo_shell.
Proof.
  destruct demo_shell_is as (Em & _ & _ & Ep & _).
  constructor; [|exact Ep | rewrite Em; apply cstr_b_sound; calc | rewrite Em; apply cstr_b_sound; calc |
    exact demo_displays].
  constructor; [exact demo_fops_ok | rewrite Ep; lia | rewrite Ep; split; calc | |
    exact demo_has_fds | by exists 0 | by exists 0].
  unfold lit_ok, grep_lits. rewrite Em, Ep. clear.
  repeat (apply Forall_cons; split;
    [split; [split; calc | split; [right; calc | apply cstr_b_sound; calc]]|]). apply Forall_nil. exact I.
Qed.

Lemma grep_prints_matches_witness :
  exists k', do_one_file demo_layout demo_grep_kstack demo_grep 9437760 9437280 demo_shell = Ok (inl 0, k') /\
    displays k' (abs_puts (bytes "hello.txt:hello world" ++ [LF]) (view_of demo_tty)) /\
    seeking demo_layout demo_grep 11388608 2048 0 9437760 9437280 (bytes "wor") (bytes "hello.txt")
      demo_fds (abs_puts (bytes "hello.txt:hello world" ++ [LF]) (view_of demo_tty)) k' /\
    steady demo_shell k'.
Proof.
  apply (grep_prints_matches demo_layout demo_grep_kstack demo_grep 11388608 2048 0 9437760 9437280
    (bytes "wor") (bytes "hello.txt") demo_grep_places demo_start 2 2 demo_dir 3 3
    (Entry (bytes "hello.txt") 2 0) demo_text demo_fds demo_grep_file (view_of demo_tty) demo_shell).
  - exact demo_seeking.
  - exact demo_shell_world.
  - exact (demo_files 3%nat _ eq_refl eq_refl).
  - destruct demo_shell_is as (-> & -> & _). calc.
  - destruct demo_shell_is as (-> & _). calc.
Defined.
