(* ===== verification/Hosted.v ===== *)
(** * A host for the emulation

    The theorems of Emulate.v at a concrete host: its state is the list of
    names that a directory stream has still to give, it forks into the child
    and its [execv] always runs the program. *)

From Stdlib Require Import ZArith Lia String Ascii.
From stdpp Require Import base numbers list gmap.
From S2P Require Import Prelude Mem CString Exec User Program Support Emulate Demo.

Local Open Scope Z_scope.

(** A name a directory can hold. *)
Definition file_name_ok (s : list Z) : bool :=
  forallb (fun c => (0 <? c) && (c <? 256)) s && (zlen s <=? 255).

Definition host_stream (h : list (list Z)) (d : Z) : list (list Z) :=
  if forallb file_name_ok h then h else [].

Definition demo_host : host_ops (list (list Z)) := {|
  int80 := fun eax ebx ecx edx w => (0, w);
  fork := fun h => (0, h);
  execv := fun m path argv h => true;
  wait := fun h => (None, h);
  opendir := fun path h => (7, h);
  readdir := fun d '(m, h) =>
    match host_stream h d with
    | [] => (None, (m, h))
    | s :: t => (Some 9000, (mset_bytes m 9000 (s ++ [0]), t))
    end;
  closedir := fun d h => h;
  host_open := fun path flags h => (3, h);
  host_close := fun fd h => h;
  mmap := fun len fd off h => (1048576, h);
  perror := fun msg h => h;
|}.

Lemma demo_dir_host : dir_host demo_host host_stream 9000 256.
Proof.
  constructor.
  - intros d m h s t Hs. pose proof Hs as Hs'. unfold host_stream in Hs'.
    destruct (forallb file_name_ok h) eqn:Hok; [|done]. subst h. cbn [forallb] in Hok.
    apply andb_true_iff in Hok as [Hn Ht]. unfold file_name_ok in Hn.
    apply andb_true_iff in Hn as [Hc Hl]. apply Z.leb_le in Hl.
    assert (HF : Forall (fun c => 0 < c < 256) s).
    { apply Forall_forall. intros c Hin%list_elem_of_In. rewrite forallb_forall in Hc.
      specialize (Hc c Hin). lia. }
    exists 9000, (mset_bytes m 9000 (s ++ [0])), t. cbn [readdir demo_host]. rewrite Hs.
    split; [reflexivity|]. split; [unfold host_stream; by rewrite Ht|].
    split; [by apply cstr_mset_bytes|]. split; [lia|]. split; [lia|].
    intros b Hb. rewrite mget_mset_bytes, decide_False; [done|]. rewrite length_app. cbn. lia.
  - intros d m h Hs. exists h. cbn [readdir demo_host]. by rewrite Hs.
  - intros d h path flags fd h' H. by injection H as _ <-.
Qed.

(** ** A command *)

Definition emu_text (a : Z) (s : list Z) (m : mem) : mem := mset_bytes m a (s ++ [0]).

Definition demo_emu : emu (list (list Z)) :=
  Emu (emu_text 1200 (bytes ".") (emu_text 1000 (bytes "ls  -l /tmp" ++ [LF]) ∅)) 0 (-1) 0 (-1)
    [bytes "frame0.txt"; bytes "verylargetextwithverylongname.tx"].

Lemma emulated_execute_witness :
  exists m' argv, emu_execute demo_host 4096 (replicate 1024 0) 1000 demo_emu =
      Ok (EmuExecv 4096 argv, set_e_mem m' demo_emu) /\
    holds_argv m' argv [bytes "./ls"; bytes "-l"; bytes "/tmp"].
Proof.
  pose proof (emulated_execute demo_host 4096 (replicate 1024 0) 1000 (bytes "ls  -l /tmp" ++ [LF]) demo_emu)
    as H.
  destruct H as (m' & argv & pid & h' & Hargv & _ & Hf & Hchild & _).
  - apply cstr_b_sound. calc.
  - calc.
  - reflexivity.
  - lia.
  - left. calc.
  - injection Hf as <- <-. exists m', argv. split; [exact (Hchild eq_refl) | exact Hargv].
Defined.

(** ** A command and its arguments *)

Definition demo_child_emu : emu (list (list Z)) :=
  Emu (store32 (store32 (store32 (store32
        (emu_text 3000 (bytes "./grep") (emu_text 3100 (bytes "very") (emu_text 3200 (bytes "x") ∅)))
        2000 3) 2004 3000) 2008 3100) 2012 3200) 2000 (-1) 0 (-1) [].

Definition demo_caller_mem : mem := emu_text 1000 (bytes "grep very x") ∅.

Lemma emulated_roundtrip_witness :
  exists m' argv m2,
    emu_parse demo_caller_mem 4096 (replicate 1024 0) 1000 = Ok (m', argv) /\
    holds_argv m' argv [bytes "./grep"; bytes "very"; bytes "x"] /\
    emu_getargs 5000 32 demo_child_emu = Ok (0, set_e_mem m2 demo_child_emu) /\
    cstr m2 5000 (bytes "very x").
Proof.
  apply (emulated_roundtrip (bytes "grep") [bytes "very"; bytes "x"]).
  - by repeat constructor.
  - by repeat constructor.
  - apply cstr_b_sound. calc.
  - calc.
  - reflexivity.
  - lia.
  - left. calc.
  - constructor.
    + calc.
    + intros [|[|[|i]]] w Hi; [..|done]; injection Hi as <-; cbv zeta;
        (split; [apply cstr_b_sound; calc | split; [calc | left; calc]]).
    + left. calc.
  - calc.
Defined.

(** A buffer of four bytes for a text of four characters: the answer is -1,
    but the terminator has been written behind the buffer. *)
Lemma getargs_overruns :
  match emu_getargs 5000 4 (set_e_mem (mset (store32 (e_mem demo_child_emu) 2000 2) 5004 255) demo_child_emu) with
  | Ok (v, e) => v = -1 /\ mbytes (e_mem e) 5000 5 = bytes "very" ++ [0]
  | Err _ => False
  end.
Proof. vm_compute. split; reflexivity. Qed.

(** ** A directory *)

Lemma emulated_directory_witness :
  exists e1 e2, emu_open demo_host 1200 1200 demo_emu = Ok (3, e1) /\
    emu_list demo_host 2 3 6000 e1 =
      Ok ([(32, bytes "frame0.txt" ++ replicate 22 0);
           (32, bytes "verylargetextwithverylongname.tx")], e2).
Proof.
  destruct (emulated_directory demo_host host_stream 9000 256 demo_dir_host
    [bytes "frame0.txt"; bytes "verylargetextwithverylongname.tx"] 1200 1200 6000 demo_emu 7
    (e_host demo_emu) 3 (e_host demo_emu))
    as (e1 & e2 & e3 & e4 & H1 & H2 & _).
  - apply cstr_b_sound. calc.
  - apply cstr_b_sound. calc.
  - reflexivity.
  - discriminate.
  - calc.
  - reflexivity.
  - left. lia.
  - exists e1, e2. split; [exact H1 | exact H2].
Defined.

(** A read of no bytes from a directory writes a name all the same. *)
Lemma empty_read_writes :
  match emu_copy_name (emu_text 9000 (bytes "shell") ∅) 9000 6000 0 with
  | Ok (m, v) => v = 5 /\ mbytes m 6000 5 = bytes "shell"
  | Err _ => False
  end.
Proof. vm_compute. split; reflexivity. Qed.
